(* ===== verification/_CoqProject ===== *)
-Q . S2P
Prelude.v
Utilities.v
Fifo.v
Linked.v
Timer.v
Aes.v
Cmac.v
MacCrypto.v
MacTypes.v
Double.v
Gps.v
Registers.v
Sx1272.v
Chip.v
TimeOnAir.v
RadioSpec.v
RadioTypes.v
Rtc.v
MacChannels.v
Multicast.v
MacCommands.v
MacFrame.v
MacRx.v
RadioLink.v
MacServices.v
MacPhase.v
MacSystem.v
MacEvents.v
Pbuf.v
Schc.v
Coap.v
CoapClient.v
Api.v
App.v
