(* ===== verification/Prelude.v ===== *)
(** LoRaWAN web service: a shallow embedding of the device firmware

    The program is the firmware of a class A LoRaWAN sensor node (board SK-iM880A,
    868 MHz, activation by personalization): measurements become CoAP messages,
    the messages IPv6/UDP packets, the packets are compressed with static rules
    (SCHC) and sent as LoRaWAN frames; downlinks take the way back.  This
    development translates the parts with logic of their own and proves what
    makes each of them correct.

    * Parts and files

    - [Prelude] (this file): outcomes of C code, record update, machine integers,
      arrays, little-endian words, overwriting ranges; total correctness of code
      with a state ([wp], [leads]); notations and tactics.
    - [Utilities]: src/src/boards/mcu/stm32/utilities.c, the random numbers of
      [randr] and the byte copies.
    - [Fifo]: src/src/system/fifo.c, the ring buffer of the serial ports.
    - [Linked]: linked lists in a store of nodes, for [Multicast] and [Timer].
    - [Timer]: src/src/system/timer.c over the clock functions of
      src/src/boards/SK-iM880A/rtc-board.c that it calls.
    - [Rtc]: the whole of rtc-board.c, over the hardware clock as the class
      [RtcDevice] with the laws [LawfulRtc] (instance [SimRtc]).
    - [Double]: IEEE double arithmetic on exact rationals, as far as the radio
      driver, the clock and the positioning receiver use it.
    - [Gps]: src/src/system/gps.c with the board file of LoRaMote that feeds it from
      the serial line through [Fifo].
    - [Registers], [Sx1272]: the constants and the whole driver of
      src/src/radio/sx1272 with the antenna switch of
      src/src/boards/SK-iM880A/sx1272-board.c, over the bus as the class
      [SpiDevice].  [Chip]: what the data sheet says of the chip behind the bus, the
      class [RegisterFile] (instance [SimChip]), and the rules for register
      accesses.  [TimeOnAir], [RadioSpec], [RadioTypes]: its properties.
    - [Aes], [Cmac]: src/src/system/crypto/aes.c and cmac.c.
    - [MacCrypto]: src/src/mac/LoRaMacCrypto.c; the class [FrameSecurity] is
      its contract with the MAC, [mac_security] the instance that discharges it.
    - [MacTypes]: data of src/src/mac/LoRaMac.h and LoRaMac-definitions.h (EU 868)
      and the static variables of src/src/mac/LoRaMac.c as the record [mac].
      Calls to the radio, the timers and the upper layer are recorded in the
      field [trace]; the class [RadioDriver] and the record [environment] are what
      the MAC learns from radio, clock and board.
    - [MacChannels]: channel list, masks, choice of a channel, duty cycle, datarate
      adaptation.  [Multicast]: the list of multicast groups.  [MacCommands]: the
      answers to the network server and the interpreter of its commands.
      [MacFrame]: [PrepareFrame], [ScheduleTx], [SendFrameOnChannel], [Send].
      [MacRx]: the handlers of radio and timer events, [OnRadioRxDone] above all.
      [MacServices]: [LoRaMacInitialization], the MIB, MLME and MCPS requests.
    - [MacPhase], [MacSystem], [MacEvents]: the MAC as a system that reacts to events.
      [MacPhase] is the protocol as a finite machine: timers, radio, flags, and an
      invariant that is evaluated on each of its states; [MacSystem] proves that the
      handlers and services follow it and keep the tables and buffers well formed;
      [MacEvents] adds received frames, connects the handlers to timers and radio as
      [LoRaMacInitialization] does and follows every sequence of events.
    - [RadioLink]: the MAC's calls of [Radio] carried out by the driver.
    - [Api]: src/src/mac/LoRaMac-api-v3.c, events and wrappers for the application.
    - [Pbuf]: src/LwIP/core/pbuf.c as far as the interface uses it.
    - [Schc]: src/LwIP/netif/schcCompressor.c and virtualloraif.c.
    - [Coap], [CoapClient]: src/LwIP/apps/picocoap/coap.c and coapClient.c.
    - [App]: src/src/apps/LoRaMac/classA/SK-iM880A/main-api-v3.c.

    The parts interact as in the code: [App] calls [Api] (which calls
    [MacServices]) and [CoapClient]; [Schc] and [App] share [AppData]; the MAC
    notifies [Api] through the callbacks in its [trace]; [MacServices] and
    [MacRx] call [MacFrame], [MacCommands], [MacChannels], [Multicast] and, through
    [FrameSecurity], [MacCrypto].  The calls in the trace of the MAC are the
    operations of [Sx1272] ([RadioLink]); the clock that [Timer] is proved against is
    implemented by [Rtc].

    * How code is represented

    A function of the code is a function to [run A]: [Done a] is a return, [Undef]
    an access outside an object, through NULL or to released memory, a shift by a
    bad amount or another undefined operation, [NoFuel] the exhaustion of a
    bound of the model.  State is passed explicitly ([ST], or the state as last
    argument).  Integers are [Z] with their wrap-around written out ([u8], [u16],
    [u32], [s8], ...), arrays are lists accessed with bounds checks ([rd], [wr],
    [rdn], [wrn]), linked structures live in finite maps of addresses.

    * What the theorems show

    - The MAC as a whole: [mac_never_fails] (an invariant of every sequence of timers,
      radio events and admissible calls after initialization, under which every handler
      returns), [exchanges_do_not_overlap].
    - Security of frames: [aes128_is_fips197], [cmac_streaming_is_rfc4493] (agreement
      with the standards), [payload_roundtrip], [frame_mic_correct],
      [session_keys_correct] (LoRaWAN 1.0 formulas).
    - Downlinks: [downlink_checked] (every data frame is refused without effect
      or moves the counter to the one it was authenticated with),
      [downlink_roundtrip], [join_accept_correct], [process_commands_safe],
      [link_adr_atomic], [add_mac_command_correct], [multicast_list_correct].
    - Uplinks: [uplink_request_correct], [uplink_frame_layout],
      [join_request_layout], [schedule_tx_correct], [confirmed_uplink_gives_up],
      [state_check_correct], [requests_refused].
    - Channels: [set_next_channel_correct], [duty_cycle_respected],
      [channel_list_correct], [adr_backoff_correct].
    - Services: [initialization_correct], [mib_roundtrip], [one_event_per_exchange].
    - Radio: [driver_well_typed] (an invariant of every sequence of calls and
      interrupts), [set_channel_correct], [lora_tx_config_correct], [lora_send_correct],
      [lora_receive_correct], [fsk_send_complete], [fsk_receive_complete],
      [time_on_air_correct] (agreement with the data sheet), for every chip with the laws
      of [RegisterFile].
    - Down to the chip: [uplink_reaches_chip], [window_reaches_chip] follow a frame and a
      receive window from the MAC's state to the registers and the FIFO.
    - Timers, clock and queues: [timer_operations_correct], [timer_interrupt_correct]
      (refinement to a list of deadlines), [clock_serves_timers], [timeout_elapses],
      [calendar_roundtrip], [century_tracked], [fifo_refines_queue].
    - Positions: [position_received] (from the characters of a sentence to the exact scaled
      coordinates), [serial_line_safe].
    - Network interface: [pbuf_chain_is_an_array], [schc_roundtrip],
      [frame_decompression_correct], [received_frame_reaches_ipv6].
    - CoAP: [coap_message_roundtrip], [coap_append_or_refuse].
    - Limits that the code has: [prepare_frame_overflows],
      [join_decrypt_reads_past_accept], [stopped_alarm_dereferences_null],
      [unmatched_packet_read_after_free], [request_is_sent_and_freed_twice],
      [repeated_ack_blocks], [refused_join_breaks_waiting_frame],
      [multicast_relink_loops], [schedule_loops_without_channel],
      [repeat_copies_one_byte_too_many], [optimized_packet_too_short],
      [empty_packet_undefined], [alarm_date_zero], [wake_up_time_wraps],
      [error_not_compensated], [field_overflows], [line_overflows].

    The theorems with an identifier are the main properties; the others are stated
    in the same way.

    The theorems on the MAC as a system hold for class A and for events that can
    happen ([enabled]: a timer that runs, the windows in their order, an interrupt
    that fits what the radio was told) and that respect what the code relies on
    without a check ([admissible]): payloads and keys of a request are as long as
    it says and fit the frame, a join names whole identifiers, settings are in the range
    of the region, groups are linked once, and a received frame has the length of its
    type and no duty-cycle command the code cannot compute.  The findings and
    the limits above show what happens otherwise.

    * Bounds and fuel

    Loops over arrays are structural in the number of iterations.  Loops along
    pointers take the size of the store (plus one) as fuel, which is enough for
    every list without a cycle; the loop of [ScheduleTx] has the fuel that its
    theorem proves enough, and the theorems that a routine returns have [Done]
    in their conclusion.  Loops over options of a CoAP message take one more than
    the length of the buffer.  The loops over years and months of [Rtc] have 400
    rounds, more than the calendar years of a 32-bit time.

    * Not modelled

    The driver of the SX1276 (other boards), board files, peripherals and vendor
    libraries (hardware input and output); the rest
    of LwIP, of which [ip6_input] and [udp_send] are parameters; the socket and
    interface registration ([udp_coap_pcpb_init], [interface_init],
    [virtualloraif_init]); other regions and class B; class C in the
    system of events (its handlers are modelled); decryption in aes.c (not
    compiled); other applications and boards. *)
From stdpp Require Export base list list_numbers numbers option tactics.
From Stdlib Require Export ZArith Lia.
#[global] Open Scope Z_scope.
Ltac Zify.zify_post_hook ::= Z.to_euclidean_division_equations.

(** * Outcomes of C code

    [Done] is a normal return, [Undef] an access outside the object it is made
    on (undefined behaviour in C), [NoFuel] the exhaustion of the bound that
    the model puts on a loop.  A theorem that a routine returns is a theorem
    that the outcome is [Done]. *)

Inductive run (A : Type) : Type :=
| Done (a : A)
| Undef
| NoFuel.
Arguments Done {A} a.
Arguments Undef {A}.
Arguments NoFuel {A}.

Definition rbind {A B} (m : run A) (k : A -> run B) : run B :=
  match m with
  | Done a => k a
  | Undef => Undef
  | NoFuel => NoFuel
  end.

Declare Scope c_scope.
Delimit Scope c_scope with c.
Notation "'let*' x ':=' m 'in' k" := (rbind m (fun x => k))
  (at level 10, x pattern, m at level 100, k at level 200,
   format "'let*'  x  ':='  m  'in' '//' k") : c_scope.
#[global] Open Scope c_scope.

Definition is_done {A} (m : run A) : bool :=
  match m with Done _ => true | _ => false end.

Lemma rbind_Done {A B} (a : A) (k : A -> run B) : rbind (Done a) k = k a.
Proof. reflexivity. Qed.

Lemma rbind_inv {A B} (m : run A) (k : A -> run B) (b : B) :
  rbind m k = Done b -> exists a, m = Done a /\ k a = Done b.
Proof. destruct m; simpl; intros; simplify_eq; eauto. Qed.

(** [run_inv] splits every hypothesis [rbind m k = Done b]. *)
Ltac run_inv :=
  repeat match goal with
  | H : rbind _ _ = Done _ |- _ =>
      let a := fresh "a" in let E := fresh "E" in
      apply rbind_inv in H; destruct H as (a & E & H); simpl in H
  | H : Done _ = Done _ |- _ => injection H as H
  | H : Undef = Done _ |- _ => discriminate H
  | H : NoFuel = Done _ |- _ => discriminate H
  end.

(** ** Stateful code: explicit state passing through [run] *)

Definition ST (S A : Type) : Type := S -> run (A * S).
Definition sret {S A} (a : A) : ST S A := fun s => Done (a, s).
Definition sbind {S A B} (m : ST S A) (k : A -> ST S B) : ST S B :=
  fun s => match m s with
           | Done (a, s') => k a s'
           | Undef => Undef
           | NoFuel => NoFuel
           end.
Definition sget {S} : ST S S := fun s => Done (s, s).
Definition smod {S} (f : S -> S) : ST S unit := fun s => Done (tt, f s).
Definition slift {S A} (m : run A) : ST S A :=
  fun s => match m with Done a => Done (a, s) | Undef => Undef | NoFuel => NoFuel end.
Definition swhen {S} (b : bool) (m : ST S unit) : ST S unit :=
  if b then m else sret tt.

Declare Scope st_scope.
Delimit Scope st_scope with st.
Notation "x <- m ;; k" := (sbind m (fun x => k))
  (at level 100, m at next level, right associativity) : st_scope.
Notation "m ;;; k" := (sbind m (fun _ => k))
  (at level 100, right associativity) : st_scope.

(** Total-correctness triples: from a state satisfying the precondition the
    code returns, and the postcondition relates start state, result and end
    state. *)
Definition triple {S A} (P : S -> Prop) (m : ST S A) (Q : S -> A -> S -> Prop) : Prop :=
  forall s, P s -> exists a s', m s = Done (a, s') /\ Q s a s'.

Lemma triple_ret {S A} (P : S -> Prop) (a : A) :
  triple P (sret a) (fun s r s' => r = a /\ s' = s).
Proof. intros s _. by exists a, s. Qed.

Lemma triple_weaken {S A} (P P' : S -> Prop) (Q Q' : S -> A -> S -> Prop) m :
  (forall s, P' s -> P s) ->
  (forall s a s', P' s -> Q s a s' -> Q' s a s') ->
  triple P m Q -> triple P' m Q'.
Proof.
  intros HP HQ Hm s Hs. destruct (Hm s (HP s Hs)) as (a & s' & E & H).
  exists a, s'. split; [done|by apply HQ].
Qed.

Lemma triple_bind {S A B} P Q R (m : ST S A) (k : A -> ST S B) T :
  triple P m Q ->
  (forall a, triple (R a) (k a) (T a)) ->
  (forall s a s', P s -> Q s a s' -> R a s') ->
  triple P (sbind m k)
    (fun s b s'' => exists a s', Q s a s' /\ T a s' b s'').
Proof.
  intros Hm Hk HR s Hs. destruct (Hm s Hs) as (a & s' & E & HQ).
  destruct (Hk a s' (HR _ _ _ Hs HQ)) as (b & s'' & E' & HT).
  exists b, s''. unfold sbind. rewrite E. eauto 10.
Qed.

(** Weakest precondition of total correctness: the code returns from [s], and the
    postcondition holds of the result. *)
Definition wp {S A} (m : ST S A) (s : S) (Q : A -> S -> Prop) : Prop :=
  exists a s', m s = Done (a, s') /\ Q a s'.

Lemma wp_ret {S A} (a : A) (s : S) Q : Q a s -> wp (sret a) s Q.
Proof. by exists a, s. Qed.
Lemma wp_get {S} (s : S) Q : Q s s -> wp sget s Q.
Proof. by exists s, s. Qed.
Lemma wp_mod {S} (f : S -> S) s Q : Q tt (f s) -> wp (smod f) s Q.
Proof. by exists tt, (f s). Qed.
Lemma wp_lift {S A} (m : run A) (a : A) (s : S) Q : m = Done a -> Q a s -> wp (slift m) s Q.
Proof. intros -> H. by exists a, s. Qed.
Lemma wp_bind {S A B} (m : ST S A) (k : A -> ST S B) s Q :
  wp m s (fun a s' => wp (k a) s' Q) -> wp (sbind m k) s Q.
Proof.
  intros (a & s' & E & b & s'' & E' & H). exists b, s''. unfold sbind. by rewrite E, E'.
Qed.
Lemma wp_when {S} (b : bool) (m : ST S unit) s Q :
  (b = true -> wp m s Q) -> (b = false -> Q tt s) -> wp (swhen b m) s Q.
Proof. destruct b; intros H1 H2; [by apply H1|apply wp_ret; by apply H2]. Qed.
Lemma wp_mono {S A} (m : ST S A) s (Q Q' : A -> S -> Prop) :
  wp m s Q -> (forall a s', Q a s' -> Q' a s') -> wp m s Q'.
Proof. intros (a & s' & E & H) HQ. exists a, s'. eauto. Qed.

(** Code that ends in a call of unknown code: a property of the outcome. *)
Definition leads {S A} (m : ST S A) (s : S) (P : run (A * S) -> Prop) : Prop := P (m s).
Lemma leads_bind {S A B} (m : ST S A) (k : A -> ST S B) s P :
  wp m s (fun a s' => leads (k a) s' P) -> leads (sbind m k) s P.
Proof. intros (a & s' & E & H). unfold leads, sbind. by rewrite E. Qed.

(** * Record update

    [r <| f := v |>] is [r] with field [f] replaced.  A record type declares
    its fields once, in an [Eta] instance; the update of one field is found by
    abstracting that projection in the eta expansion. *)

Class Eta (R : Type) := eta : R -> R.
Class Update {R T : Type} (proj : R -> T) := update : (T -> T) -> R -> R.

Ltac build_update :=
  match goal with
  | |- @Update ?R ?T ?proj =>
      let inst := constr:(_ : Eta R) in
      let e := eval hnf in inst in
      let h := eval pattern proj in e in
      match h with
      | ?h' _ => let u := eval cbv beta in (fun (g : T -> T) (r : R) => h' (fun r' => g (proj r')) r) in exact u
      end
  end.
#[export] Hint Extern 1 (Update _) => build_update : typeclass_instances.

Notation "r '<|' f ':=' v '|>'" := (update (proj:=f) (fun _ => v) r)
  (at level 1, left associativity, format "r  '<|'  f  ':='  v  '|>'") : c_scope.
Notation "r '<|' f '::=' g '|>'" := (update (proj:=f) g r)
  (at level 1, left associativity, format "r  '<|'  f  '::='  g  '|>'") : c_scope.

(** * Machine integers *)

Definition wrap (w z : Z) : Z := z mod 2 ^ w.
Definition u8 (z : Z) : Z := z mod 256.
Definition u16 (z : Z) : Z := z mod 65536.
Definition u32 (z : Z) : Z := z mod 4294967296.
Definition s8 (z : Z) : Z := (z + 128) mod 256 - 128.
Definition s16 (z : Z) : Z := (z + 32768) mod 65536 - 32768.
Definition s32 (z : Z) : Z := (z + 2147483648) mod 4294967296 - 2147483648.

Definition is_u8 (z : Z) : Prop := 0 <= z < 256.
Definition is_u16 (z : Z) : Prop := 0 <= z < 65536.
Definition is_u32 (z : Z) : Prop := 0 <= z < 4294967296.
Abbreviation bytes := (Forall is_u8).

(** Bits as C booleans. *)
Definition b2z (b : bool) : Z := if b then 1 else 0.

Create HintDb mach.

Lemma u8_range z : is_u8 (u8 z).
Proof. unfold is_u8, u8. lia. Qed.
Lemma u16_range z : is_u16 (u16 z).
Proof. unfold is_u16, u16. lia. Qed.
Lemma u32_range z : is_u32 (u32 z).
Proof. unfold is_u32, u32. lia. Qed.
Lemma u8_id z : is_u8 z -> u8 z = z.
Proof. unfold is_u8, u8. lia. Qed.
Lemma u16_id z : is_u16 z -> u16 z = z.
Proof. unfold is_u16, u16. lia. Qed.
Lemma u32_id z : is_u32 z -> u32 z = z.
Proof. unfold is_u32, u32. lia. Qed.
#[export] Hint Resolve u8_range u16_range u32_range u8_id u16_id u32_id : mach.

Ltac machine :=
  unfold is_u8, is_u16, is_u32, u8, u16, u32, s8, s16, s32 in *; lia.

(** ** Bitwise facts *)

Lemma testbit_high w z i : 0 <= z < 2 ^ w -> 0 <= w <= i -> Z.testbit z i = false.
Proof.
  intros Hz Hi. rewrite <- (Z.mod_small z (2 ^ w)) by done.
  by apply Z.mod_pow2_bits_high.
Qed.

(** A non-negative number all of whose bits from [w] on are clear is below [2^w]. *)
Lemma bits_bound w z :
  0 <= w -> 0 <= z -> (forall i, w <= i -> Z.testbit z i = false) -> 0 <= z < 2 ^ w.
Proof.
  intros Hw Hz Hb. split; [done|].
  enough (z mod 2 ^ w = z) as <- by (apply Z.mod_pos_bound; lia).
  apply Z.bits_inj'. intros i Hi.
  destruct (decide (i < w)).
  - by rewrite Z.mod_pow2_bits_low by lia.
  - rewrite Z.mod_pow2_bits_high by lia. symmetry. apply Hb. lia.
Qed.

Lemma lxor_u8 a b : is_u8 a -> is_u8 b -> is_u8 (Z.lxor a b).
Proof.
  unfold is_u8. intros Ha Hb. change 256 with (2 ^ 8). apply bits_bound; [lia| |].
  - apply Z.lxor_nonneg. lia.
  - intros i Hi. rewrite Z.lxor_spec.
    by rewrite (testbit_high 8 a), (testbit_high 8 b) by lia.
Qed.
Lemma lor_u8 a b : is_u8 a -> is_u8 b -> is_u8 (Z.lor a b).
Proof.
  unfold is_u8. intros Ha Hb. change 256 with (2 ^ 8). apply bits_bound; [lia| |].
  - apply Z.lor_nonneg. lia.
  - intros i Hi. rewrite Z.lor_spec.
    by rewrite (testbit_high 8 a), (testbit_high 8 b) by lia.
Qed.
Lemma land_ones_bound a w : 0 <= w -> 0 <= Z.land a (Z.ones w) < 2 ^ w.
Proof. intros. rewrite Z.land_ones by done. apply Z.mod_pos_bound. lia. Qed.
#[export] Hint Resolve lxor_u8 lor_u8 : mach.

(** Disjoint bit fields: [lor] is addition. *)
Lemma lor_shiftl_add a b w :
  0 <= w -> 0 <= b < 2 ^ w -> Z.lor (Z.shiftl a w) b = a * 2 ^ w + b.
Proof.
  intros Hw Hb. rewrite Z.shiftl_mul_pow2 by done.
  rewrite Z.add_nocarry_lxor, Z.lxor_lor; try done.
  all: apply Z.bits_inj'; intros i Hi; rewrite Z.land_spec, Z.bits_0.
  all: destruct (decide (i < w)).
  1,3: rewrite Z.mul_pow2_bits_low by lia; done.
  all: by rewrite (testbit_high w b), andb_false_r by lia.
Qed.

Lemma lor_comm_shiftl_add a b w :
  0 <= w -> 0 <= b < 2 ^ w -> Z.lor b (Z.shiftl a w) = b + a * 2 ^ w.
Proof. intros. rewrite Z.lor_comm, lor_shiftl_add by done. lia. Qed.

(** * Lists as C arrays *)

Abbreviation zlen l := (Z.of_nat (length l)).

(** Total read, used where the code indexes within a fixed-size object. *)
Definition znth (l : list Z) (i : Z) : Z := nth (Z.to_nat i) l 0.
Arguments znth : simpl never.
Notation "l .[ i ]" := (znth l i) (at level 1, left associativity, format "l .[ i ]") : c_scope.

Section Arrays.
Context {A : Type}.
Implicit Types (l : list A) (i n : Z).

(** [*(p + i)] *)
Definition rd l i : run A :=
  if 0 <=? i then
    match l !! Z.to_nat i with Some x => Done x | None => Undef end
  else Undef.

(** [*(p + i) = x] *)
Definition wr l i (x : A) : run (list A) :=
  if (0 <=? i) && (i <? zlen l) then Done (<[Z.to_nat i := x]> l) else Undef.

(** [n] bytes from offset [i] *)
Definition rdn l i n : run (list A) :=
  if (0 <=? i) && (0 <=? n) && (i + n <=? zlen l)
  then Done (take (Z.to_nat n) (drop (Z.to_nat i) l)) else Undef.

(** the bytes [x] written from offset [i] *)
Definition wrn l i (x : list A) : run (list A) :=
  if (0 <=? i) && (i + zlen x <=? zlen l)
  then Done (take (Z.to_nat i) l ++ x ++ drop (Z.to_nat i + length x) l) else Undef.

Lemma rd_ok l i : 0 <= i < zlen l -> exists x, rd l i = Done x /\ l !! Z.to_nat i = Some x.
Proof.
  intros [H1 H2]. unfold rd. rewrite (proj2 (Z.leb_le 0 i)) by done.
  destruct (lookup_lt_is_Some_2 l (Z.to_nat i)) as [x Hx]; [lia|].
  rewrite Hx. eauto.
Qed.

Lemma rd_Done l i x : rd l i = Done x <-> 0 <= i /\ l !! Z.to_nat i = Some x.
Proof.
  unfold rd. destruct (Z.leb_spec 0 i); [|split; [done|lia]].
  destruct (l !! Z.to_nat i); split.
  - by intros [= <-].
  - by intros [_ [= <-]].
  - done.
  - by intros [_ ?].
Qed.

Lemma wr_ok l i x : 0 <= i < zlen l -> wr l i x = Done (<[Z.to_nat i := x]> l).
Proof. intros. unfold wr. rewrite (proj2 (Z.leb_le _ _)), (proj2 (Z.ltb_lt _ _)) by lia. done. Qed.

Lemma wrn_ok l i x : 0 <= i -> i + zlen x <= zlen l ->
  wrn l i x = Done (take (Z.to_nat i) l ++ x ++ drop (Z.to_nat i + length x) l).
Proof. intros. unfold wrn. rewrite !(proj2 (Z.leb_le _ _)) by lia. done. Qed.

Lemma rdn_ok l i n : 0 <= i -> 0 <= n -> i + n <= zlen l ->
  rdn l i n = Done (take (Z.to_nat n) (drop (Z.to_nat i) l)).
Proof. intros. unfold rdn. rewrite !(proj2 (Z.leb_le _ _)) by lia. done. Qed.

Lemma wr_length l i x l' : wr l i x = Done l' -> length l' = length l.
Proof. unfold wr. case_match; intros; simplify_eq. apply length_insert. Qed.

Lemma wrn_length l i x l' : wrn l i x = Done l' -> length l' = length l.
Proof.
  unfold wrn. case_match eqn:E; intros; simplify_eq.
  apply andb_true_iff in E as [E1%Z.leb_le E2%Z.leb_le].
  rewrite !length_app, length_take, length_drop. lia.
Qed.
End Arrays.

(** Splits a list of known concrete length into its elements. *)
Ltac explode l :=
  repeat (destruct l as [|? l]; simpl in *; try lia; try discriminate).

(** Case analysis on the boolean comparisons of the goal. *)
Ltac zcases :=
  repeat match goal with
  | |- context [Z.leb ?a ?b] => destruct (Z.leb_spec a b)
  | |- context [Z.ltb ?a ?b] => destruct (Z.ltb_spec a b)
  | |- context [Z.eqb ?a ?b] => destruct (Z.eqb_spec a b)
  end; simpl.

(** Decides the boolean comparisons of the goal with [lia], leaving no case. *)
Ltac zdecide :=
  repeat match goal with
  | |- context [Z.leb ?a ?b] =>
      first [rewrite (proj2 (Z.leb_le a b)) by lia | rewrite (proj2 (Z.leb_gt a b)) by lia]
  | |- context [Z.ltb ?a ?b] =>
      first [rewrite (proj2 (Z.ltb_lt a b)) by lia | rewrite (proj2 (Z.ltb_ge a b)) by lia]
  | |- context [Z.eqb ?a ?b] =>
      first [rewrite (proj2 (Z.eqb_eq a b)) by lia | rewrite (proj2 (Z.eqb_neq a b)) by lia]
  end.

(** ** Little-endian byte strings *)

Fixpoint le_bytes (n : nat) (z : Z) : list Z :=
  match n with
  | O => []
  | S n' => z mod 256 :: le_bytes n' (z / 256)
  end.

Fixpoint le_val (l : list Z) : Z :=
  match l with
  | [] => 0
  | b :: l' => b + 256 * le_val l'
  end.

Lemma le_bytes_length n z : length (le_bytes n z) = n.
Proof. revert z. induction n; intros; simpl; congruence. Qed.

Lemma le_bytes_bytes n z : bytes (le_bytes n z).
Proof.
  revert z. induction n; intros; simpl; constructor; [|done].
  unfold is_u8. lia.
Qed.

Lemma le_val_bytes n z : le_val (le_bytes n z) = z mod 256 ^ Z.of_nat n.
Proof.
  revert z. induction n as [|n IH]; intros z; [by rewrite Z.mod_1_r|].
  cbn [le_bytes le_val]. rewrite IH, Nat2Z.inj_succ, Z.pow_succ_r by lia.
  rewrite (Z.rem_mul_r z 256) by lia. lia.
Qed.

Lemma le_bytes_val l : bytes l -> le_bytes (length l) (le_val l) = l.
Proof.
  induction 1 as [|b l Hb Hl IH]; [done|]. cbn [length le_bytes le_val].
  unfold is_u8 in Hb. f_equal; [lia|].
  replace ((b + 256 * le_val l) / 256) with (le_val l) by lia. done.
Qed.

Lemma le_val_range l : bytes l -> 0 <= le_val l < 256 ^ zlen l.
Proof.
  induction 1 as [|b l Hb Hl IH]; [simpl; lia|].
  cbn [length le_val]. rewrite Nat2Z.inj_succ, Z.pow_succ_r by lia. unfold is_u8 in Hb. lia.
Qed.

(** ** Facts about every byte, by computation *)

Definition all_u8 : list Z := map Z.of_nat (seq 0 256).

Lemma u8_in_all x : is_u8 x -> In x all_u8.
Proof.
  intros H. unfold is_u8 in H. apply in_map_iff. exists (Z.to_nat x).
  split; [lia|]. apply in_seq. lia.
Qed.

Lemma forall_u8 (p : Z -> bool) : forallb p all_u8 = true -> forall x, is_u8 x -> p x = true.
Proof. intros H x Hx. eapply forallb_forall; [exact H|]. by apply u8_in_all. Qed.

Definition bytesb (l : list Z) : bool := forallb (fun z => (0 <=? z) && (z <? 256)) l.

Lemma bytesb_true l : bytesb l = true -> bytes l.
Proof.
  intros H. apply List.Forall_forall. intros z Hz.
  pose proof (proj1 (forallb_forall _ _) H z Hz) as E.
  apply andb_true_iff in E as [E1%Z.leb_le E2%Z.ltb_lt]. done.
Qed.

Lemma znth_bytes l i : bytes l -> is_u8 l.[i].
Proof.
  intros H. unfold znth. destruct (nth_in_or_default (Z.to_nat i) l 0) as [Hin| ->].
  - by apply (proj1 (List.Forall_forall _ _) H).
  - unfold is_u8. lia.
Qed.

Lemma bytes_zip_lxor l k : bytes l -> bytes k -> bytes (zip_with Z.lxor l k).
Proof.
  intros Hl. revert k. induction Hl; intros k Hk; simpl; [done|].
  destruct Hk; constructor; auto with mach.
Qed.
#[export] Hint Resolve znth_bytes bytes_zip_lxor : mach.

(** [l.[i := x]] writes inside a fixed-size object. *)
Definition zupd (l : list Z) (i x : Z) : list Z := <[Z.to_nat i := x]> l.
Notation "l .[ i := x ]" := (zupd l i x) (at level 1, left associativity, format "l .[ i  :=  x ]") : c_scope.
Arguments zupd : simpl never.

Lemma zupd_length l i x : length l.[i := x] = length l.
Proof. apply length_insert. Qed.

Lemma znth_app_r (p l : list Z) i : zlen p <= i -> (p ++ l).[i] = l.[i - zlen p].
Proof.
  intros. unfold znth. rewrite app_nth2 by lia. f_equal. lia.
Qed.

Lemma znth_app_l (p l : list Z) i : 0 <= i < zlen p -> (p ++ l).[i] = p.[i].
Proof. intros. unfold znth. rewrite app_nth1 by lia. done. Qed.

Lemma zupd_app_r (p l : list Z) i x : zlen p <= i -> (p ++ l).[i := x] = p ++ l.[i - zlen p := x].
Proof.
  intros. unfold zupd. rewrite insert_app_r_alt by lia. do 2 f_equal. lia.
Qed.

Lemma znth_zupd_eq (l : list Z) i x : 0 <= i < zlen l -> l.[i := x].[i] = x.
Proof.
  intros. unfold znth, zupd. apply nth_lookup_Some. apply list_lookup_insert_eq. lia.
Qed.

Lemma znth_zupd_ne (l : list Z) i j x : 0 <= i -> 0 <= j -> i <> j -> l.[i := x].[j] = l.[j].
Proof.
  intros. unfold znth, zupd. rewrite !nth_lookup, list_lookup_insert_ne by lia. done.
Qed.

(** Proves [bytes] of an explicit list from the hints on its elements. *)
Ltac solve_bytes :=
  repeat first [apply List.Forall_nil | apply List.Forall_cons]; auto 12 with mach.

(** Reduces reads at literal indices of explicit lists. *)
Ltac znth_lit := cbv [znth nth Z.to_nat Pos.to_nat Pos.iter_op Nat.add].

Lemma length_mjoin_const {A} (n : nat) (ls : list (list A)) :
  Forall (fun l => length l = n) ls -> length (mjoin ls) = (n * length ls)%nat.
Proof.
  induction 1 as [|l ls Hl HF IH]; [simpl; lia|].
  change (mjoin (l :: ls)) with (l ++ mjoin ls). rewrite length_app, IH. cbn [length]. lia.
Qed.

(** ** Overwriting a range *)

(** [l] with the elements from [i] on replaced by [x]. *)
Definition splice {A} (l : list A) (i : nat) (x : list A) : list A :=
  take i l ++ x ++ drop (i + length x) l.

Lemma splice_length {A} (l : list A) i x :
  (i + length x <= length l)%nat -> length (splice l i x) = length l.
Proof. intros. unfold splice. rewrite !length_app, length_take, length_drop. lia. Qed.

Lemma splice_splice {A} (l : list A) i x y :
  (i + length x + length y <= length l)%nat ->
  splice (splice l i x) (i + length x) y = splice l i (x ++ y).
Proof.
  intros H. unfold splice. rewrite !app_assoc.
  rewrite take_app_length' by (rewrite length_app, length_take; lia).
  rewrite <- !app_assoc. do 3 f_equal.
  rewrite !drop_app, length_take, length_app.
  rewrite (drop_ge (take i l)) by (rewrite length_take; lia).
  rewrite (drop_ge x) by lia. cbn [app]. rewrite drop_drop. f_equal. lia.
Qed.

Lemma take_splice {A} (l : list A) i x :
  (i <= length l)%nat -> take (i + length x) (splice l i x) = take i l ++ x.
Proof.
  intros. unfold splice. rewrite app_assoc. apply take_app_length'.
  rewrite length_app, length_take. lia.
Qed.

Lemma splice_bytes l i x : bytes l -> bytes x -> bytes (splice l i x).
Proof.
  intros. unfold splice. rewrite !Forall_app. auto using Forall_take, Forall_drop.
Qed.

Lemma take_add_drop {A} (l : list A) (i n m : nat) :
  take (n + m) (drop i l) = take n (drop i l) ++ take m (drop (i + n) l).
Proof.
  rewrite <- (take_drop n (take (n + m) (drop i l))), take_take.
  replace (n `min` (n + m))%nat with n by lia. f_equal.
  rewrite skipn_firstn_comm, drop_drop. f_equal. lia.
Qed.

(** ** Buffers that start with known bytes *)

Definition starts {A} (b l : list A) : Prop := take (length l) b = l.

Lemma starts_splice {A} (b l x : list A) :
  starts b l -> (length l + length x <= length b)%nat -> starts (splice b (length l) x) (l ++ x).
Proof.
  unfold starts. intros Hs Hl. rewrite length_app, take_splice by lia. by rewrite Hs.
Qed.

Lemma starts_over {A} (b l1 l2 : list A) v v' :
  starts b (l1 ++ v :: l2) -> starts (splice b (length l1) [v']) (l1 ++ v' :: l2).
Proof.
  unfold starts. intros Hs. set (n := length (l1 ++ v :: l2)) in *.
  rewrite <- (take_drop n b), Hs. unfold splice.
  assert (Hn : length (l1 ++ v' :: l2) = n) by (unfold n; rewrite !length_app; done).
  rewrite <- app_assoc. rewrite take_app_length.
  replace (drop (length l1 + length [v']) (l1 ++ (v :: l2) ++ drop n b)) with (l2 ++ drop n b).
  - rewrite app_assoc. replace (l1 ++ [v']) with (l1 ++ [v']) by done.
    replace ((l1 ++ [v']) ++ l2 ++ drop n b) with ((l1 ++ v' :: l2) ++ drop n b)
      by (rewrite <- !app_assoc; done).
    by apply take_app_length'.
  - rewrite drop_app_ge by (cbn [length]; lia).
    replace (length l1 + length [v'] - length l1)%nat with 1%nat by (cbn [length]; lia). done.
Qed.

Lemma starts_take {A} (b l : list A) n : starts b l -> length l = n -> take n b = l.
Proof. by intros H <-. Qed.
