(* ===== verification/Utilities.v ===== *)
(** Helper routines of src/src/boards/mcu/stm32/utilities.c: the linear
    congruential generator behind [randr] and the byte copies the MAC uses
    instead of the C library's. *)
From S2P Require Import Prelude.

(** * Pseudo random numbers *)

Definition RAND_LOCAL_MAX : Z := 2147483647.

(** [rand1]: the new [next] and the value returned.  [next] is a [uint32_t] and
    [long] is 32 bits wide on the target, so the arithmetic wraps at 32 bits. *)
Definition rand1 (next : Z) : Z * Z :=
  let next' := u32 (next * 1103515245 + 12345) in
  (s32 (next' mod RAND_LOCAL_MAX), next').

Definition srand1 (seed : Z) : Z := u32 seed.

(** [randr( min, max )] on the generator state [next]. *)
Definition randr (min max : Z) (next : Z) : Z * Z :=
  let '(r, next') := rand1 next in
  (s32 (Z.rem r (s32 (max - min + 1)) + min), next').

Lemma rand1_range next : 0 <= (rand1 next).1 < RAND_LOCAL_MAX.
Proof. unfold rand1, RAND_LOCAL_MAX. simpl. machine. Qed.

Lemma randr_in_range min max next :
  -2147483648 <= min -> min <= max -> max < 2147483648 -> max - min + 1 < 2147483648 ->
  min <= (randr min max next).1 <= max.
Proof.
  intros H1 H2 H3 H4. unfold randr.
  pose proof (rand1_range next) as Hr. destruct (rand1 next) as [r n'].
  simpl in *. unfold RAND_LOCAL_MAX in Hr.
  replace (s32 (max - min + 1)) with (max - min + 1) by machine.
  pose proof (Z.rem_bound_pos r (max - min + 1) ltac:(lia) ltac:(lia)).
  unfold s32. lia.
Qed.

(** * Byte copies

    The loops [while( size-- )] run [size] times with [size] a [uint16_t];
    [dst] and [src] are offsets into their objects. *)

Fixpoint memcpy1_loop (n : nat) (dst : list Z) (d : Z) (src : list Z) (s : Z) : run (list Z) :=
  match n with
  | O => Done dst
  | S n' =>
      let* x := rd src s in
      let* dst' := wr dst d x in
      memcpy1_loop n' dst' (d + 1) src (s + 1)
  end.

Definition memcpy1 (dst : list Z) (d : Z) (src : list Z) (s : Z) (size : Z) : run (list Z) :=
  memcpy1_loop (Z.to_nat (u16 size)) dst d src s.

Fixpoint memcpyr_loop (n : nat) (dst : list Z) (d : Z) (src : list Z) (s : Z) : run (list Z) :=
  match n with
  | O => Done dst
  | S n' =>
      let* x := rd src s in
      let* dst' := wr dst d x in
      memcpyr_loop n' dst' (d - 1) src (s + 1)
  end.

Definition memcpyr (dst : list Z) (d : Z) (src : list Z) (s : Z) (size : Z) : run (list Z) :=
  memcpyr_loop (Z.to_nat (u16 size)) dst (d + (size - 1)) src s.

Fixpoint memset1_loop (n : nat) (dst : list Z) (d : Z) (value : Z) : run (list Z) :=
  match n with
  | O => Done dst
  | S n' => let* dst' := wr dst d value in memset1_loop n' dst' (d + 1) value
  end.

Definition memset1 (dst : list Z) (d : Z) (value : Z) (size : Z) : run (list Z) :=
  memset1_loop (Z.to_nat (u16 size)) dst d value.

Definition Nibble2HexChar (a : Z) : Z :=
  if a <? 10 then s8 (48 + a)
  else if a <? 16 then s8 (65 + (a - 10))
  else 63.

(** One step of a forward copy, in terms of the result of the whole copy. *)
Lemma insert_splice (dst : list Z) (d n : nat) x (xs : list Z) :
  (d + S n <= length dst)%nat -> length xs = n ->
  take (S d) (<[d:=x]> dst) ++ xs ++ drop (S d + n) (<[d:=x]> dst)
  = take d dst ++ (x :: xs) ++ drop (d + S n) dst.
Proof.
  intros Hd Hn. rewrite (take_S_r _ _ x).
  2: { apply list_lookup_insert_eq. lia. }
  rewrite take_insert_ge by lia. rewrite drop_insert_lt by lia.
  rewrite <- app_assoc. simpl. do 3 f_equal. f_equal. lia.
Qed.

Lemma memcpy1_loop_spec n : forall dst d src s,
  0 <= d -> 0 <= s -> d + Z.of_nat n <= zlen dst -> s + Z.of_nat n <= zlen src ->
  memcpy1_loop n dst d src s =
  Done (take (Z.to_nat d) dst ++ take n (drop (Z.to_nat s) src)
        ++ drop (Z.to_nat d + n) dst).
Proof.
  induction n as [|n IH]; intros dst d src s Hd Hs HD HS.
  - simpl. rewrite Nat.add_0_r, take_drop. done.
  - cbn [memcpy1_loop]. destruct (rd_ok src s) as (x & -> & Hx); [lia|].
    cbn [rbind]. rewrite wr_ok by lia. cbn [rbind].
    rewrite IH; rewrite ?length_insert; try lia.
    replace (Z.to_nat (d + 1)) with (S (Z.to_nat d)) by lia.
    replace (Z.to_nat (s + 1)) with (S (Z.to_nat s)) by lia.
    rewrite (insert_splice dst (Z.to_nat d) n x (take n (drop (S (Z.to_nat s)) src))).
    + by rewrite (drop_S _ _ _ Hx).
    + lia.
    + rewrite length_take, length_drop. lia.
Qed.

(** [memcpy1] copies [size] bytes when both ranges lie inside their objects. *)
Lemma memcpy1_spec dst d src s size :
  0 <= d -> 0 <= s -> is_u16 size -> d + size <= zlen dst -> s + size <= zlen src ->
  memcpy1 dst d src s size =
  Done (take (Z.to_nat d) dst ++ take (Z.to_nat size) (drop (Z.to_nat s) src)
        ++ drop (Z.to_nat d + Z.to_nat size) dst).
Proof.
  intros. unfold memcpy1. rewrite u16_id by done.
  apply memcpy1_loop_spec; unfold is_u16 in *; lia.
Qed.

Lemma memcpyr_loop_spec n : forall dst d src s,
  Z.of_nat n - 1 <= d -> 0 <= s -> d < zlen dst -> s + Z.of_nat n <= zlen src ->
  memcpyr_loop n dst d src s =
  Done (take (Z.to_nat (d + 1 - Z.of_nat n)) dst
        ++ reverse (take n (drop (Z.to_nat s) src))
        ++ drop (Z.to_nat (d + 1)) dst).
Proof.
  induction n as [|n IH]; intros dst d src s Hd Hs HD HS.
  - cbn [memcpyr_loop]. rewrite take_0, reverse_nil. cbn [app].
    replace (d + 1 - Z.of_nat 0) with (d + 1) by lia. by rewrite take_drop.
  - cbn [memcpyr_loop]. destruct (rd_ok src s) as (x & -> & Hx); [lia|].
    cbn [rbind]. rewrite wr_ok by lia. cbn [rbind].
    rewrite IH; rewrite ?length_insert; try lia.
    replace (Z.to_nat (s + 1)) with (S (Z.to_nat s)) by lia.
    rewrite (drop_S src x (Z.to_nat s)) by done. cbn [take]. rewrite reverse_cons.
    replace (d - 1 + 1 - Z.of_nat n) with (d + 1 - Z.of_nat (S n)) by lia.
    rewrite take_insert_ge by lia. rewrite <- app_assoc. do 3 f_equal.
    replace (Z.to_nat (d - 1 + 1)) with (Z.to_nat d) by lia.
    replace (Z.to_nat (d + 1)) with (S (Z.to_nat d)) by lia.
    rewrite (drop_S _ x); [|by apply list_lookup_insert_eq; lia].
    rewrite drop_insert_lt by lia. done.
Qed.

(** [memcpyr] copies [size] bytes in reverse order. *)
Lemma memcpyr_spec dst d src s size :
  0 <= d -> 0 <= s -> is_u16 size -> d + size <= zlen dst -> s + size <= zlen src ->
  memcpyr dst d src s size =
  Done (take (Z.to_nat d) dst ++ reverse (take (Z.to_nat size) (drop (Z.to_nat s) src))
        ++ drop (Z.to_nat d + Z.to_nat size) dst).
Proof.
  intros ?? Hu ??. unfold memcpyr. rewrite u16_id by done. unfold is_u16 in Hu.
  rewrite memcpyr_loop_spec by lia. do 3 f_equal; [f_equal; lia|]. f_equal. f_equal. lia.
Qed.

Lemma memset1_loop_spec n : forall dst d v,
  0 <= d -> d + Z.of_nat n <= zlen dst ->
  memset1_loop n dst d v =
  Done (take (Z.to_nat d) dst ++ replicate n v ++ drop (Z.to_nat d + n) dst).
Proof.
  induction n as [|n IH]; intros dst d v Hd HD.
  - simpl. by rewrite Nat.add_0_r, take_drop.
  - cbn [memset1_loop]. rewrite wr_ok by lia. cbn [rbind].
    rewrite IH; rewrite ?length_insert; try lia.
    replace (Z.to_nat (d + 1)) with (S (Z.to_nat d)) by lia.
    rewrite (insert_splice dst (Z.to_nat d) n v (replicate n v)); [done|lia|].
    apply length_replicate.
Qed.

(** [memset1] fills [size] bytes. *)
Lemma memset1_spec dst d v size :
  0 <= d -> is_u16 size -> d + size <= zlen dst ->
  memset1 dst d v size =
  Done (take (Z.to_nat d) dst ++ replicate (Z.to_nat size) v
        ++ drop (Z.to_nat d + Z.to_nat size) dst).
Proof.
  intros ? Hu ?. unfold memset1. rewrite u16_id by done. unfold is_u16 in Hu.
  apply memset1_loop_spec; lia.
Qed.

(** Copying over the whole destination. *)
Lemma memcpy1_full dst src size :
  is_u16 size -> zlen dst = size -> zlen src = size -> memcpy1 dst 0 src 0 size = Done src.
Proof.
  intros Hu Hd Hs. rewrite memcpy1_spec by (done || lia).
  change (Z.to_nat 0) with 0%nat. rewrite take_0, drop_0. cbn [app Nat.add].
  rewrite (take_ge src) by lia. rewrite (drop_ge dst) by lia. by rewrite app_nil_r.
Qed.
