(* ===== verification/Fifo.v ===== *)
(** The ring buffer of src/src/system/fifo.c, used between interrupt handlers
    and the main program.  [Begin] and [End] are indices of the last popped and
    the last pushed element; one slot always stays free, so a buffer of [Size]
    bytes holds at most [Size - 1].  The contract is a first-in first-out
    queue, and the operations refine it. *)
From S2P Require Import Prelude.

Module Fifo.

Record Fifo_t := mkFifo {
  Begin : Z;
  End_ : Z;
  Data : list Z;
  Size : Z;
}.
#[export] Instance eta_Fifo : Eta Fifo_t :=
  fun f => mkFifo (Begin f) (End_ f) (Data f) (Size f).

Section Ops.
Implicit Types f : Fifo_t.

Definition FifoNext f (index : Z) : Z := u16 ((index + 1) mod Size f).

Definition FifoInit (buffer : list Z) (size : Z) : Fifo_t := mkFifo 0 0 buffer size.

Definition FifoPush f (data : Z) : run Fifo_t :=
  let e := FifoNext f (End_ f) in
  let* d := wr (Data f) e data in
  Done (f <| End_ := e |> <| Data := d |>).

Definition FifoPop f : run (Z * Fifo_t) :=
  let* data := rd (Data f) (FifoNext f (Begin f)) in
  Done (data, f <| Begin := FifoNext f (Begin f) |>).

Definition FifoFlush f : Fifo_t := f <| Begin := 0 |> <| End_ := 0 |>.
Definition IsFifoEmpty f : bool := Begin f =? End_ f.
Definition IsFifoFull f : bool := FifoNext f (End_ f) =? Begin f.
End Ops.

(** * Abstraction of the ring to a queue *)

Definition wf (f : Fifo_t) : Prop :=
  0 < Size f < 65536 /\ zlen (Data f) = Size f /\
  0 <= Begin f < Size f /\ 0 <= End_ f < Size f.

(** Number of stored elements. *)
Definition count (f : Fifo_t) : nat := Z.to_nat ((End_ f - Begin f) mod Size f).

(** The [k]th stored element sits [k + 1] slots after [Begin]. *)
Definition contents (f : Fifo_t) : list Z :=
  map (fun k => (Data f).[(Begin f + Z.of_nat k + 1) mod Size f]) (seq 0 (count f)).

Lemma wf_next f i : wf f -> FifoNext f i = (i + 1) mod Size f.
Proof.
  intros [? _]. unfold FifoNext. apply u16_id. unfold is_u16. pose proof (Z.mod_pos_bound (i + 1) (Size f)). lia.
Qed.

Lemma next_range f i : wf f -> 0 <= FifoNext f i < Size f.
Proof. intros H. rewrite wf_next by done. destruct H. apply Z.mod_pos_bound. lia. Qed.

Lemma mod_cases a n : 0 < n -> -n < a < 2 * n ->
  a mod n = if a <? 0 then a + n else if a <? n then a else a - n.
Proof.
  intros. symmetry. zcases.
  - apply Z.mod_unique_pos with (-1); lia.
  - apply Z.mod_unique_pos with 0; lia.
  - apply Z.mod_unique_pos with 1; lia.
Qed.

Lemma count_range f : wf f -> (count f < Z.to_nat (Size f))%nat.
Proof.
  intros (? & ? & ?). unfold count. pose proof (Z.mod_pos_bound (End_ f - Begin f) (Size f)). lia.
Qed.

Lemma znth_insert (l : list Z) (i j : Z) x :
  0 <= i < zlen l -> 0 <= j ->
  znth (<[Z.to_nat i := x]> l) j = if i =? j then x else znth l j.
Proof.
  intros Hi Hj. unfold znth. rewrite !nth_lookup. zcases.
  - subst. by rewrite list_lookup_insert_eq by lia.
  - by rewrite list_lookup_insert_ne by lia.
Qed.

(** ** Empty and full in terms of the contents *)

Lemma empty_spec f : wf f -> IsFifoEmpty f = true <-> contents f = [].
Proof.
  intros Hw. pose proof Hw as (? & ? & ? & ?). unfold IsFifoEmpty.
  rewrite Z.eqb_eq. split.
  - intros E. unfold contents, count. rewrite E, Z.sub_diag, Z.mod_0_l by lia. done.
  - intros E. apply (f_equal length) in E. unfold contents in E.
    rewrite length_map, length_seq in E. unfold count in E. cbn [length] in E.
    rewrite mod_cases in E by lia. revert E. zcases; lia.
Qed.

Lemma full_spec f : wf f -> IsFifoFull f = true <-> zlen (contents f) = Size f - 1.
Proof.
  intros Hw. pose proof Hw as (? & ? & ? & ?). unfold IsFifoFull.
  rewrite Z.eqb_eq, wf_next by done. unfold contents. rewrite length_map, length_seq.
  unfold count. rewrite !mod_cases by lia. zcases; lia.
Qed.

(** * Refinement *)

(** A push on a ring that is not full appends to the queue. *)
Lemma push_contents f x : wf f -> IsFifoFull f = false ->
  exists f', FifoPush f x = Done f' /\ wf f' /\ contents f' = contents f ++ [x] /\ Size f' = Size f.
Proof.
  intros Hw Hf. pose proof Hw as (? & HD & HB & HE).
  pose proof (next_range f (End_ f) Hw) as Hn.
  unfold FifoPush. rewrite wr_ok by lia. cbn [rbind].
  eexists. split; [reflexivity|].
  unfold IsFifoFull in Hf. apply Z.eqb_neq in Hf. rewrite wf_next in Hf, Hn by done.
  rewrite wf_next by done. cbn -[Z.modulo].
  assert (Hc : (((End_ f + 1) mod Size f - Begin f) mod Size f) =
               (End_ f - Begin f) mod Size f + 1).
  { rewrite (mod_cases (End_ f + 1)) in * by lia.
    destruct (Z.ltb_spec (End_ f + 1) 0); [lia|].
    destruct (Z.ltb_spec (End_ f + 1) (Size f)); rewrite !mod_cases by lia; zcases; lia. }
  split; [|split; [|done]].
  - repeat split; cbn -[Z.modulo]; rewrite ?length_insert; lia.
  - unfold contents at 1, count. cbn -[Z.modulo seq]. rewrite Hc.
    rewrite Z2Nat.inj_add by (try apply Z.mod_pos_bound; lia).
    change (Z.to_nat 1) with 1%nat. fold (count f). rewrite seq_app, map_app. f_equal.
    + apply map_ext_in. intros k Hk%in_seq. unfold count in Hk.
      rewrite znth_insert; [|lia|apply Z.mod_pos_bound; lia].
      rewrite !mod_cases by (rewrite mod_cases in Hk by lia; revert Hk; zcases; lia).
      rewrite mod_cases in Hk by lia. revert Hk. zcases; try done; lia.
    + cbn -[Z.modulo Z.of_nat]. f_equal. rewrite znth_insert; [|lia|apply Z.mod_pos_bound; lia].
      rewrite (proj2 (Z.eqb_eq _ _)); [done|]. unfold count.
      rewrite Z2Nat.id by (apply Z.mod_pos_bound; lia).
      replace (Begin f + (End_ f - Begin f) mod Size f + 1)
        with ((End_ f - Begin f) mod Size f + (Begin f + 1)) by lia.
      rewrite Zplus_mod_idemp_l. f_equal. lia.
Qed.

(** A pop on a ring that is not empty takes the oldest element. *)
Lemma pop_contents f : wf f -> IsFifoEmpty f = false ->
  exists x f', FifoPop f = Done (x, f') /\ wf f' /\ contents f = x :: contents f' /\ Size f' = Size f.
Proof.
  intros Hw He. pose proof Hw as (? & HD & HB & HE).
  pose proof (next_range f (Begin f) Hw) as Hn.
  unfold FifoPop. destruct (rd_ok (Data f) (FifoNext f (Begin f))) as (x & -> & Hx); [lia|].
  cbn [rbind]. eexists _, _. split; [reflexivity|].
  unfold IsFifoEmpty in He. apply Z.eqb_neq in He. rewrite wf_next in Hx, Hn by done.
  rewrite wf_next by done.
  assert (Hc : count f = S (Z.to_nat ((End_ f - (Begin f + 1) mod Size f) mod Size f))).
  { unfold count. rewrite (mod_cases (Begin f + 1)) in * by lia.
    destruct (Z.ltb_spec (Begin f + 1) 0); [lia|].
    destruct (Z.ltb_spec (Begin f + 1) (Size f)); rewrite !mod_cases by lia; zcases; lia. }
  split; [|split; [|done]].
  - repeat split; cbn -[Z.modulo]; lia.
  - unfold contents at 1. rewrite Hc. cbn -[Z.modulo Z.of_nat]. f_equal.
    + unfold znth. rewrite nth_lookup. replace (Begin f + Z.of_nat 0 + 1) with (Begin f + 1) by lia.
      by rewrite Hx.
    + unfold contents. cbn -[Z.modulo Z.of_nat seq]. rewrite <- seq_shift, map_map.
      unfold count. cbn -[Z.modulo Z.of_nat seq]. apply map_ext. intros k.
      f_equal. rewrite Nat2Z.inj_succ.
      replace ((Begin f + 1) mod Size f + Z.of_nat k + 1)
        with ((Begin f + 1) mod Size f + (Z.of_nat k + 1)) by lia.
      rewrite Zplus_mod_idemp_l. f_equal. lia.
Qed.

Lemma init_wf buffer size :
  0 < size < 65536 -> zlen buffer = size ->
  wf (FifoInit buffer size) /\ contents (FifoInit buffer size) = [].
Proof.
  intros. split; [repeat split; simpl; lia|]. unfold contents, count.
  cbn -[Z.modulo]. by rewrite Z.mod_0_l by lia.
Qed.

(** ** Runs of guarded operations

    The clients test [IsFifoFull] before a push and [IsFifoEmpty] before a pop
    (uart.c); a refused operation leaves the ring as it is. *)

Inductive op := OpPush (x : Z) | OpPop | OpFlush.

Definition exec_op (f : Fifo_t) (o : op) : run (list Z * Fifo_t) :=
  match o with
  | OpPush x => if IsFifoFull f then Done ([], f) else let* f' := FifoPush f x in Done ([], f')
  | OpPop => if IsFifoEmpty f then Done ([], f) else let* (x, f') := FifoPop f in Done ([x], f')
  | OpFlush => Done ([], FifoFlush f)
  end.

Fixpoint exec (f : Fifo_t) (os : list op) : run (list Z * Fifo_t) :=
  match os with
  | [] => Done ([], f)
  | o :: os' =>
      let* (out, f') := exec_op f o in
      let* (outs, f'') := exec f' os' in
      Done (out ++ outs, f'')
  end.

(** The same run on a list of capacity [cap]. *)
Definition spec_op (cap : Z) (q : list Z) (o : op) : list Z * list Z :=
  match o with
  | OpPush x => if zlen q =? cap then ([], q) else ([], q ++ [x])
  | OpPop => match q with [] => ([], []) | x :: q' => ([x], q') end
  | OpFlush => ([], [])
  end.

Fixpoint spec (cap : Z) (q : list Z) (os : list op) : list Z * list Z :=
  match os with
  | [] => ([], q)
  | o :: os' =>
      let '(out, q') := spec_op cap q o in
      let '(outs, q'') := spec cap q' os' in
      (out ++ outs, q'')
  end.

Lemma exec_op_refines f o : wf f ->
  exists out f', exec_op f o = Done (out, f') /\ wf f' /\ Size f' = Size f /\
    spec_op (Size f - 1) (contents f) o = (out, contents f').
Proof.
  intros Hw. destruct o as [x| |]; simpl.
  - pose proof (full_spec f Hw) as Hfull. destruct (IsFifoFull f) eqn:Ef.
    + eexists _, _. split_and!; try done.
      by rewrite (proj2 (Z.eqb_eq _ _)) by (by apply Hfull).
    + destruct (push_contents f x Hw Ef) as (f' & -> & Hw' & Hc & Hs).
      eexists _, _. split_and!; try done.
      rewrite (proj2 (Z.eqb_neq _ _)) by (rewrite <- Hfull; done). by rewrite Hc.
  - pose proof (empty_spec f Hw) as Hempty. destruct (IsFifoEmpty f) eqn:Ee.
    + eexists _, _. split_and!; try done. by rewrite (proj1 Hempty eq_refl).
    + destruct (pop_contents f Hw Ee) as (x & f' & -> & Hw' & Hc & Hs).
      eexists _, _. split_and!; try done. by rewrite Hc.
  - eexists _, _. split; [done|]. split; [|split; [done|]].
    + destruct Hw as (? & ? & ? & ?). repeat split; simpl; lia.
    + unfold contents, count. cbn -[Z.modulo]. rewrite Z.mod_0_l; [done|]. destruct Hw. lia.
Qed.

Lemma exec_refines os : forall f, wf f ->
  exists out f', exec f os = Done (out, f') /\ wf f' /\ Size f' = Size f /\
    spec (Size f - 1) (contents f) os = (out, contents f').
Proof.
  induction os as [|o os IH]; intros f Hw; simpl; [eauto 10|].
  destruct (exec_op_refines f o Hw) as (out & f' & -> & Hw' & Hs & ->). simpl.
  destruct (IH f' Hw') as (outs & f'' & -> & Hw'' & Hs' & E). rewrite Hs in E.
  rewrite E. simpl. eexists _, _. split_and!; try done. congruence.
Qed.

(** * Properties *)

(** C39: every sequence of guarded pushes, pops and flushes on an initialised
    ring of [size] bytes returns without an access outside the buffer, and its
    outputs and final contents are those of a first-in first-out list of
    capacity [size - 1]. *)
Theorem fifo_refines_queue (buffer : list Z) (size : Z) (os : list op) :
  0 < size < 65536 -> zlen buffer = size ->
  exists out f', exec (FifoInit buffer size) os = Done (out, f') /\ wf f' /\
    spec (size - 1) [] os = (out, contents f').
Proof.
  intros Hs Hb. destruct (init_wf buffer size Hs Hb) as [Hw Hc].
  destruct (exec_refines os _ Hw) as (out & f' & E & Hw' & _ & E').
  rewrite Hc in E'. eauto.
Qed.

Example fifo_refines_queue_witness :
  exists out f', exec (FifoInit [0;0;0] 3) [OpPush 7; OpPush 8; OpPush 9; OpPop; OpPush 5; OpPop; OpPop]
    = Done (out, f') /\ wf f' /\
    spec (3 - 1) [] [OpPush 7; OpPush 8; OpPush 9; OpPop; OpPush 5; OpPop; OpPop] = (out, contents f').
Proof. apply (fifo_refines_queue [0;0;0] 3); [lia|reflexivity]. Defined.

End Fifo.
