(* ===== verification/Linked.v ===== *)
(** Linked lists over a store of nodes: the chain of [Next] pointers that the
    multicast groups of the MAC and the timers of the system keep. *)
From stdpp Require Export gmap.
From S2P Require Import Prelude.
#[global] Open Scope Z_scope.

Section Linked.
Context {A : Type} {next : A -> option Z}.
Implicit Types (ns : gmap Z A) (l : list Z) (p q : option Z).

(** Following the pointers of [l] from [p] leads to [q]. *)
Fixpoint seg ns p l q : Prop :=
  match l with
  | [] => p = q
  | x :: l' => p = Some x /\ exists n, ns !! x = Some n /\ seg ns (next n) l' q
  end.

Lemma seg_app ns l1 : forall p l2 q, seg ns p (l1 ++ l2) q <-> exists r, seg ns p l1 r /\ seg ns r l2 q.
Proof.
  induction l1 as [|x l1 IH]; intros p l2 q; cbn [app seg].
  - split; [by exists p|]. by intros (r & -> & ?).
  - setoid_rewrite IH. split.
    + intros [-> (n & Hn & r & H1 & H2)]. exists r. split; [|done]. split; [done|]. by exists n.
    + intros (r & [-> (n & Hn & H1)] & H2). split; [done|]. exists n. split; [done|]. by exists r.
Qed.

Lemma seg_frame ns ns' l : forall p q,
  (forall y, y ∈ l -> next <$> ns' !! y = next <$> ns !! y) -> seg ns p l q -> seg ns' p l q.
Proof.
  induction l as [|x l IH]; intros p q Hf; cbn [seg]; [done|]. intros [-> (n & Hn & Hs)]. split; [done|].
  pose proof (Hf x ltac:(left)) as Hx. rewrite Hn in Hx. cbn in Hx.
  destruct (ns' !! x) as [n'|]; [|done]. injection Hx as Hx. exists n'. split; [done|].
  rewrite Hx. apply IH; [|done]. intros y Hy. apply Hf. by right.
Qed.

(** A store that differs only outside the list. *)
Lemma seg_insert ns l p q x n : x ∉ l -> seg ns p l q -> seg (<[x := n]> ns) p l q.
Proof. intros Hx. apply seg_frame. intros y Hy. rewrite lookup_insert_ne; [done|]. by intros ->. Qed.

Lemma seg_dom ns l : forall p q, seg ns p l q -> forall y, y ∈ l -> y ∈ dom ns.
Proof.
  induction l as [|x l IH]; intros p q Hs y Hy; [by apply elem_of_nil in Hy|].
  destruct Hs as [_ (n & Hn & Hs)]. apply elem_of_cons in Hy as [->|Hy]; [|by eapply IH].
  by apply elem_of_dom_2 in Hn.
Qed.

Lemma seg_size ns l p q : seg ns p l q -> NoDup l -> (length l <= size ns)%nat.
Proof.
  intros Hs Hn. rewrite <- size_dom, <- (size_list_to_set (C := gset Z) l Hn).
  apply subseteq_size. intros y Hy. apply elem_of_list_to_set in Hy. by eapply seg_dom.
Qed.
End Linked.
Arguments seg {A} next ns p l q.
