(* ===== verification/Timer.v ===== *)
(** The software timers of src/src/system/timer.c over the clock functions of
    src/src/boards/SK-iM880A/rtc-board.c: a list of timers linked through
    pointers, in which every timer holds the time to wait after the one
    before it.  The theorems relate the list to the deadlines it stands for. *)
From S2P Require Import Prelude Utilities Linked.

Module Timer.

(** * State *)

(** [TimerEvent_t]; the callback is an opaque function pointer. *)
Record TimerEvent_t := mkTimer {
  Timestamp : Z;
  ReloadValue : Z;
  IsRunning : bool;
  Callback : option Z;
  Next : option Z;
}.
#[export] Instance eta_timer : Eta TimerEvent_t :=
  fun t => mkTimer (Timestamp t) (ReloadValue t) (IsRunning t) (Callback t) (Next t).

(** The statics of timer.c and rtc-board.c.  [now] is what
    [RtcGetTimerValue] returns, [RtcCalendarContext] the same for the saved
    calendar, [alarms] the timeouts programmed so far, the latest last;
    [sleeping] whether the stop mode was entered; [called] the callbacks run so far. *)
Record timers := mkTimers {
  objs : gmap Z TimerEvent_t;
  TimerListHead : option Z;
  HasLoopedThroughMain : Z;
  now : Z;
  RtcCalendarContext : Z;
  McuWakeUpTime : Z;
  NonScheduledWakeUp : bool;
  RtcTimerEventAllowsLowPower : bool;
  LowPowerDisableDuringTask : bool;
  alarms : list Z;
  sleeping : bool;
  called : list Z;
}.
#[export] Instance eta_timers : Eta timers :=
  fun s => mkTimers (objs s) (TimerListHead s) (HasLoopedThroughMain s) (now s) (RtcCalendarContext s)
    (McuWakeUpTime s) (NonScheduledWakeUp s) (RtcTimerEventAllowsLowPower s) (LowPowerDisableDuringTask s)
    (alarms s) (sleeping s) (called s).

Abbreviation T := (ST timers).
#[local] Open Scope st_scope.

(** Access through a pointer. *)
Definition deref (p : Z) (s : timers) : run TimerEvent_t :=
  match objs s !! p with Some t => Done t | None => Undef end.
Definition store (p : Z) (g : TimerEvent_t -> TimerEvent_t) (s : timers) : run timers :=
  let* t := deref p s in Done (s <| objs := <[p := g t]> (objs s) |>).

(** * The clock *)

Definition RtcGetAdjustedTimeoutValue (timeout : Z) (s : timers) : Z * timers :=
  let '(timeout, s) :=
    if (McuWakeUpTime s <? timeout) && NonScheduledWakeUp s
    then (timeout - McuWakeUpTime s, s <| NonScheduledWakeUp := false |>) else (timeout, s) in
  if McuWakeUpTime s <? timeout then
    if timeout <? 50 then (timeout, s <| RtcTimerEventAllowsLowPower := false |>)
    else (timeout - McuWakeUpTime s, s <| RtcTimerEventAllowsLowPower := true |>)
  else (timeout, s).

(** Saves the calendar and programs the alarm. *)
Definition RtcSetTimeout (timeout : Z) (s : timers) : timers :=
  s <| RtcCalendarContext := now s |> <| alarms ::= fun l => l ++ [timeout] |>.

Definition RtcGetElapsedAlarmTime (s : timers) : Z :=
  if now s <? RtcCalendarContext s then u32 (now s + (0xFFFFFFFF - RtcCalendarContext s))
  else now s - RtcCalendarContext s.

Definition RtcEnterLowPowerStopMode (s : timers) : timers :=
  if negb (LowPowerDisableDuringTask s) && RtcTimerEventAllowsLowPower s then s <| sleeping := true |> else s.

(** * The code *)

Definition TimerGetValue (s : timers) : Z := RtcGetElapsedAlarmTime s.

Definition TimerInit (obj : Z) (callback : option Z) (s : timers) : run timers :=
  store obj (fun _ => mkTimer 0 0 false callback None) s.

Definition TimerSetTimeout (obj : Z) (s : timers) : run timers :=
  let s := s <| HasLoopedThroughMain := 0 |> in
  let* t := deref obj s in
  let '(v, s) := RtcGetAdjustedTimeoutValue (Timestamp t) s in
  let* s := store obj (fun t => t <| Timestamp := v |>) s in
  Done (RtcSetTimeout v s).

Fixpoint timer_exists (fuel : nat) (obj : Z) (cur : option Z) (s : timers) : run bool :=
  match cur with
  | None => Done false
  | Some p =>
      match fuel with
      | O => NoFuel
      | S fuel' =>
          if p =? obj then Done true
          else let* t := deref p s in timer_exists fuel' obj (Next t) s
      end
  end.

(** Bound on the walks: a list without repetition has at most that many nodes. *)
Definition walk_bound (s : timers) : nat := S (size (objs s)).

Definition TimerExists (obj : Z) (s : timers) : run bool := timer_exists (walk_bound s) obj (TimerListHead s) s.

Definition TimerInsertNewHeadTimer (obj remainingTime : Z) (s : timers) : run timers :=
  let* s := match TimerListHead s with
            | None => Done s
            | Some cur =>
                let* o := deref obj s in
                store cur (fun t => t <| Timestamp := u32 (remainingTime - Timestamp o) |> <| IsRunning := false |>) s
            end in
  let* s := store obj (fun t => t <| Next := TimerListHead s |> <| IsRunning := true |>) s in
  TimerSetTimeout obj (s <| TimerListHead := Some obj |>).

(** The loop of [TimerInsertTimer]; [cur] is not NULL. *)
Fixpoint insert_loop (fuel : nat) (obj prev cur aggregated aggregatedNext : Z) (s : timers) : run timers :=
  match fuel with
  | O => NoFuel
  | S fuel' =>
      let* o := deref obj s in
      if Timestamp o <? aggregatedNext then
        let d := u32 (Timestamp o - aggregated) in
        let* s := store obj (fun t => t <| Timestamp := d |>) s in
        let* s := store cur (fun t => t <| Timestamp := u32 (Timestamp t - d) |>) s in
        let* s := store prev (fun t => t <| Next := Some obj |>) s in
        store obj (fun t => t <| Next := Some cur |>) s
      else
        let* c := deref cur s in
        match Next c with
        | None =>
            let* s := store obj (fun t => t <| Timestamp := u32 (Timestamp t - aggregatedNext) |>) s in
            let* s := store cur (fun t => t <| Next := Some obj |>) s in
            store obj (fun t => t <| Next := None |>) s
        | Some cur' =>
            let* c' := deref cur' s in
            insert_loop fuel' obj cur cur' aggregatedNext (u32 (aggregatedNext + Timestamp c')) s
        end
  end.

Definition TimerInsertTimer (obj remainingTime : Z) (s : timers) : run timers :=
  match TimerListHead s with
  | None => Undef
  | Some prev =>
      let* h := deref prev s in
      match Next h with
      | None =>
          let* s := store obj (fun t => t <| Timestamp := u32 (Timestamp t - remainingTime) |>) s in
          let* s := store prev (fun t => t <| Next := Some obj |>) s in
          store obj (fun t => t <| Next := None |>) s
      | Some cur =>
          let* c := deref cur s in
          insert_loop (walk_bound s) obj prev cur remainingTime (u32 (remainingTime + Timestamp c)) s
      end
  end.

(** The time the head still has to run. *)
Definition head_remaining (h : TimerEvent_t) (s : timers) : Z :=
  if IsRunning h then Timestamp h - Z.min (TimerGetValue s) (Timestamp h) else Timestamp h.

Definition TimerStart (obj : option Z) (s : timers) : run timers :=
  match obj with
  | None => Done s
  | Some obj =>
      let* ex := TimerExists obj s in
      if ex then Done s else
      let* s := store obj (fun t => t <| Timestamp := ReloadValue t |> <| IsRunning := false |>) s in
      let* o := deref obj s in
      match TimerListHead s with
      | None => TimerInsertNewHeadTimer obj (Timestamp o) s
      | Some head =>
          let* h := deref head s in
          let remainingTime := head_remaining h s in
          if Timestamp o <? remainingTime then TimerInsertNewHeadTimer obj remainingTime s
          else TimerInsertTimer obj remainingTime s
      end
  end.

(** The loop of [TimerStop] over the timers behind the head. *)
Fixpoint stop_loop (fuel : nat) (obj remainingTime prev : Z) (cur : option Z) (s : timers) : run timers :=
  match cur with
  | None => Done s
  | Some c =>
      match fuel with
      | O => NoFuel
      | S fuel' =>
          let* t := deref c s in
          if c =? obj then
            match Next t with
            | Some n =>
                let* s := store prev (fun t => t <| Next := Some n |>) s in
                store n (fun t => t <| Timestamp ::= fun v => u32 (v + remainingTime) |>) s
            | None => store prev (fun t => t <| Next := None |>) s
            end
          else stop_loop fuel' obj remainingTime c (Next t) s
      end
  end.

Definition TimerStop (obj : option Z) (s : timers) : run timers :=
  match TimerListHead s, obj with
  | None, _ | _, None => Done s
  | Some head, Some obj =>
      let* o := deref obj s in
      if head =? obj then
        match Next o with
        | None => Done (s <| TimerListHead := None |>)
        | Some n =>
            if IsRunning o then
              let* s1 := store head (fun t => t <| IsRunning := false |>) s in
              let s1 := s1 <| TimerListHead := Some n |> in
              let* s1 := store n (fun t => t <| Timestamp ::= fun v => u32 (v + head_remaining o s) |> <| IsRunning := true |>) s1 in
              TimerSetTimeout n s1
            else
              store n (fun t => t <| Timestamp ::= fun v => u32 (v + Timestamp o) |>) (s <| TimerListHead := Some n |>)
        end
      else stop_loop (S (walk_bound s)) obj (Timestamp o) head (Some head) s
  end.

Definition TimerReset (obj : option Z) (s : timers) : run timers :=
  let* s := TimerStop obj s in TimerStart obj s.

Definition TimerSetValue (obj value : Z) (s : timers) : run timers :=
  let* s := TimerStop (Some obj) s in
  store obj (fun t => t <| Timestamp := value |> <| ReloadValue := value |>) s.

(** Interrupts run the callbacks; [run_callback] is the application's code. *)
Section Interrupt.
Context (run_callback : Z -> timers -> run timers).

Fixpoint irq_loop (fuel : nat) (s : timers) : run timers :=
  match TimerListHead s with
  | None => Done s
  | Some p =>
      let* t := deref p s in
      if Timestamp t =? 0 then
        match fuel with
        | O => NoFuel
        | S fuel' =>
            let s := s <| TimerListHead := Next t |> in
            let* s := match Callback t with Some f => run_callback f (s <| called ::= fun l => l ++ [f] |>) | None => Done s end in
            irq_loop fuel' s
        end
      else Done s
  end.

Definition TimerIrqHandler (fuel : nat) (s : timers) : run timers :=
  let elapsedTime := TimerGetValue s in
  match TimerListHead s with
  | None => Undef
  | Some p =>
      let* s := store p (fun t => t <| Timestamp ::= fun v => if v <=? elapsedTime then 0 else v - elapsedTime |>
                                    <| IsRunning := false |>) s in
      let* s := irq_loop fuel s in
      match TimerListHead s with
      | None => Done s
      | Some p =>
          let* t := deref p s in
          if IsRunning t then Done s
          else let* s := store p (fun t => t <| IsRunning := true |>) s in TimerSetTimeout p s
      end
  end.
End Interrupt.

Definition TimerLowPowerHandler (battery : bool) (s : timers) : run timers :=
  match TimerListHead s with
  | None => Done s
  | Some p =>
      let* t := deref p s in
      if IsRunning t then
        if HasLoopedThroughMain s <? 5 then Done (s <| HasLoopedThroughMain ::= fun n => n + 1 |>)
        else
          let s := s <| HasLoopedThroughMain := 0 |> in
          Done (if battery then RtcEnterLowPowerStopMode s else s)
      else Done s
  end.

(** * Deadlines *)

Definition ts (ns : gmap Z TimerEvent_t) (x : Z) : Z := from_option Timestamp 0 (ns !! x).

(** The timers of [l] with the time at which they elapse, [base] being that of the one before. *)
Fixpoint deadlines (ns : gmap Z TimerEvent_t) (base : Z) (l : list Z) : list (Z * Z) :=
  match l with
  | [] => []
  | x :: l' => (x, base + ts ns x) :: deadlines ns (base + ts ns x) l'
  end.

(** What the list [l] stands for: who elapses in how long from now. *)
Definition schedule (s : timers) (l : list Z) : list (Z * Z) :=
  match l with
  | [] => []
  | h :: l' =>
      let r := from_option (fun t => head_remaining t s) 0 (objs s !! h) in
      (h, r) :: deadlines (objs s) r l'
  end.

(** The specification: deadlines in order, a new one behind those that are not later. *)
Fixpoint insert_deadline (q v : Z) (l : list (Z * Z)) : list (Z * Z) :=
  match l with
  | [] => [(q, v)]
  | (x, t) :: l' => if v <? t then (q, v) :: l else (x, t) :: insert_deadline q v l'
  end.
Definition remove_deadline (q : Z) (l : list (Z * Z)) : list (Z * Z) := filter (fun e => e.1 <> q) l.

(** All deadlines come [d] earlier: the wake-up time the clock subtracts. *)
Definition earlier (d : Z) (l : list (Z * Z)) : list (Z * Z) := (fun e => (e.1, e.2 - d)) <$> l.

(** The parts of a timer the list operations do not change. *)
Definition fixed_part (t : TimerEvent_t) := (ReloadValue t, IsRunning t, Callback t).
Definition same_fixed (ns ns' : gmap Z TimerEvent_t) : Prop := forall y, fixed_part <$> ns' !! y = fixed_part <$> ns !! y.

Lemma store_ok s p t g : objs s !! p = Some t -> store p g s = Done (s <| objs := <[p := g t]> (objs s) |>).
Proof. intros H. unfold store, deref. by rewrite H. Qed.

Lemma deref_ok s p t : objs s !! p = Some t -> deref p s = Done t.
Proof. intros H. unfold deref. by rewrite H. Qed.

Lemma ts_at ns x t : ns !! x = Some t -> ts ns x = Timestamp t.
Proof. intros H. unfold ts. by rewrite H. Qed.

Lemma ts_insert_ne ns x y t : x <> y -> ts (<[y := t]> ns) x = ts ns x.
Proof. intros H. unfold ts. by rewrite lookup_insert_ne. Qed.

Lemma ts_insert_eq ns y t : ts (<[y := t]> ns) y = Timestamp t.
Proof. unfold ts. by rewrite lookup_insert_eq. Qed.

Lemma deadlines_ext ns ns' l : (forall x, x ∈ l -> ts ns' x = ts ns x) -> forall b, deadlines ns' b l = deadlines ns b l.
Proof.
  induction l as [|x l IH]; intros H b; [done|]. cbn [deadlines]. rewrite (H x) by left. rewrite IH; [done|].
  intros y Hy. apply H. by right.
Qed.

Lemma deadlines_fst ns l : forall b, (deadlines ns b l).*1 = l.
Proof. induction l as [|x l IH]; intros b; cbn; [done|]. by rewrite IH. Qed.

Lemma same_fixed_insert ns y t t' : ns !! y = Some t -> fixed_part t' = fixed_part t -> same_fixed ns (<[y := t']> ns).
Proof.
  intros H E x. destruct (decide (x = y)) as [->|]; [by rewrite lookup_insert_eq, H; cbn; rewrite E|by rewrite lookup_insert_ne].
Qed.

Lemma same_fixed_trans n1 n2 n3 : same_fixed n1 n2 -> same_fixed n2 n3 -> same_fixed n1 n3.
Proof. intros H1 H2 y. by rewrite H2, H1. Qed.

(** ** Insertion *)

(** [obj] goes between [prev] and [cur]. *)
Definition put_between (obj prev cur : Z) (o p c : TimerEvent_t) (d : Z) (s : timers) : timers :=
  s <| objs := <[obj := o <| Timestamp := d |> <| Next := Some cur |>]> (<[prev := p <| Next := Some obj |>]>
     (<[cur := c <| Timestamp := u32 (Timestamp c - d) |>]> (<[obj := o <| Timestamp := d |>]> (objs s)))) |>.

Definition put_last (obj last : Z) (o p : TimerEvent_t) (d : Z) (s : timers) : timers :=
  s <| objs := <[obj := o <| Timestamp := d |> <| Next := None |>]> (<[last := p <| Next := Some obj |>]>
     (<[obj := o <| Timestamp := d |>]> (objs s))) |>.

Ltac lookups := repeat first [rewrite lookup_insert_eq | rewrite lookup_insert_ne by congruence].

Lemma put_last_run obj last o p d s : obj <> last -> objs s !! obj = Some o -> objs s !! last = Some p ->
  (let* s := store obj (fun t => t <| Timestamp := u32 (Timestamp t - d) |>) s in
   let* s := store last (fun t => t <| Next := Some obj |>) s in
   store obj (fun t => t <| Next := None |>) s) = Done (put_last obj last o p (u32 (Timestamp o - d)) s).
Proof.
  intros Hne Ho Hp. rewrite (store_ok _ _ o) by done. cbn [rbind].
  rewrite (store_ok _ last p) by (cbn; by lookups). cbn [rbind].
  rewrite (store_ok _ obj (o <| Timestamp := u32 (Timestamp o - d) |>)) by (cbn; by lookups). done.
Qed.

Lemma put_between_run obj prev cur o p c d s : obj <> prev -> obj <> cur -> prev <> cur ->
  objs s !! obj = Some o -> objs s !! prev = Some p -> objs s !! cur = Some c ->
  (let* s := store obj (fun t => t <| Timestamp := d |>) s in
   let* s := store cur (fun t => t <| Timestamp := u32 (Timestamp t - d) |>) s in
   let* s := store prev (fun t => t <| Next := Some obj |>) s in
   store obj (fun t => t <| Next := Some cur |>) s) = Done (put_between obj prev cur o p c d s).
Proof.
  intros H1 H2 H3 Ho Hp Hc. rewrite (store_ok _ _ o) by done. cbn [rbind].
  rewrite (store_ok _ cur c) by (cbn; by lookups). cbn [rbind].
  rewrite (store_ok _ prev p) by (cbn; by lookups). cbn [rbind].
  rewrite (store_ok _ obj (o <| Timestamp := d |>)) by (cbn; by lookups). done.
Qed.

(** The list [l] behind the timer [prev], due at [base], has become [l'] with deadlines [times]; only
    [obj] and timers of the list were written. *)
Record relinked (obj prev base : Z) (l : list Z) (times : list (Z * Z)) (s s' : timers) (l' : list Z) : Prop := mkRelinked {
  in_only : s' = s <| objs := objs s' |>;
  in_seg : seg Next (objs s') (Some prev) (prev :: l') None;
  in_times : deadlines (objs s') base l' = times;
  in_prev : ts (objs s') prev = ts (objs s) prev;
  in_fixed : same_fixed (objs s) (objs s');
  in_frame : forall y, y ∉ obj :: prev :: l -> objs s' !! y = objs s !! y;
  in_pos : forall y, 0 <= ts (objs s) y -> 0 <= ts (objs s') y;
}.
Definition inserted (obj v prev base : Z) (l : list Z) (s s' : timers) (l' : list Z) : Prop :=
  relinked obj prev base l (insert_deadline obj v (deadlines (objs s) base l)) s s' l'.

Lemma put_last_inserted obj last o p base s : obj <> last -> objs s !! obj = Some o -> objs s !! last = Some p ->
  0 <= base <= Timestamp o -> is_u32 (Timestamp o) ->
  inserted obj (Timestamp o) last base [] s (put_last obj last o p (u32 (Timestamp o - base)) s) [obj].
Proof.
  intros Hne Ho Hp Hb Hu. rewrite u32_id by (unfold is_u32 in *; lia). split.
  - done.
  - cbn [seg]. split; [done|]. cbn [put_last update objs]. exists (p <| Next := Some obj |>). lookups.
    split; [done|]. split; [done|]. eexists. by lookups.
  - cbn [deadlines insert_deadline put_last update objs]. rewrite ts_insert_eq. cbn [update Timestamp]. do 2 f_equal. lia.
  - cbn [put_last update objs]. rewrite ts_insert_ne, ts_insert_eq by congruence. by rewrite (ts_at _ _ p).
  - intros y. cbn [put_last update objs].
    destruct (decide (y = obj)) as [->|]; [lookups; by rewrite Ho|].
    destruct (decide (y = last)) as [->|]; lookups; [by rewrite Hp|done].
  - intros y Hy. cbn [put_last update objs]. rewrite !not_elem_of_cons in Hy. destruct Hy as (? & ? & _). by lookups.
  - intros y Hy. cbn [put_last update objs]. unfold ts in *.
    destruct (decide (y = obj)) as [->|]; [lookups; cbn; lia|].
    destruct (decide (y = last)) as [->|]; lookups; [by rewrite Hp in Hy|done].
Qed.

Lemma put_between_inserted obj prev cur l o p c base s :
  seg Next (objs s) (Some prev) (prev :: cur :: l) None -> NoDup (prev :: cur :: l) -> obj ∉ prev :: cur :: l ->
  objs s !! obj = Some o -> objs s !! prev = Some p -> objs s !! cur = Some c ->
  0 <= base <= Timestamp o -> is_u32 (Timestamp o) -> Timestamp o < base + Timestamp c -> is_u32 (base + Timestamp c) ->
  inserted obj (Timestamp o) prev base (cur :: l) s (put_between obj prev cur o p c (u32 (Timestamp o - base)) s) (obj :: cur :: l).
Proof.
  intros Hs [Hn1 [Hn2 _]%NoDup_cons]%NoDup_cons Ho' Ho Hp Hc Hb Hu Hlt Huc.
  rewrite !not_elem_of_cons in *. destruct Ho' as (Ho1 & Ho2 & Ho3), Hn1 as (Hn1 & Hn3).
  rewrite (u32_id (Timestamp o - base)) by (unfold is_u32 in *; lia). unfold put_between.
  rewrite (u32_id (Timestamp c - _)) by (unfold is_u32 in *; lia). split.
  - done.
  - cbn [seg update objs]. split; [done|]. exists (p <| Next := Some obj |>). lookups. split; [done|]. split; [done|].
    eexists. lookups. split; [done|]. split; [done|]. eexists. split; [by lookups|]. cbn [update Next].
    destruct Hs as [_ (p' & _ & _ & c' & Hc' & Hs)]. replace c' with c in Hs by congruence.
    do 4 (apply seg_insert; [done|]). exact Hs.
  - cbn [deadlines update objs insert_deadline]. rewrite (ts_at (objs s) cur c Hc).
    rewrite (proj2 (Z.ltb_lt _ _) Hlt). rewrite ts_insert_eq. cbn [update Timestamp].
    rewrite (ts_insert_ne _ cur obj), (ts_insert_ne _ cur prev), ts_insert_eq by congruence. cbn [update Timestamp].
    replace (base + (Timestamp o - base)) with (Timestamp o) by lia.
    replace (Timestamp o + (Timestamp c - (Timestamp o - base))) with (base + Timestamp c) by lia. do 2 f_equal.
    apply deadlines_ext. intros x Hx. rewrite !ts_insert_ne; [done|by intros ->..].
  - cbn [update objs]. rewrite ts_insert_ne, ts_insert_eq by congruence. by rewrite (ts_at _ _ p Hp).
  - intros y. cbn [update objs].
    destruct (decide (y = obj)) as [->|]; [lookups; by rewrite Ho|].
    destruct (decide (y = prev)) as [->|]; [lookups; by rewrite Hp|].
    destruct (decide (y = cur)) as [->|]; lookups; [by rewrite Hc|done].
  - intros y Hy. cbn [update objs]. rewrite !not_elem_of_cons in Hy. destruct Hy as (? & ? & ? & _). by lookups.
  - intros y Hy. cbn [update objs]. unfold ts in *.
    destruct (decide (y = obj)) as [->|]; [lookups; cbn; lia|].
    destruct (decide (y = prev)) as [->|]; [lookups; by rewrite Hp in Hy|].
    destruct (decide (y = cur)) as [->|]; lookups; [cbn; lia|done].
Qed.

(** A change further behind is one behind [prev]. *)
Lemma relinked_cons obj prev cur base l times s s' l' p : objs s !! prev = Some p -> Next p = Some cur ->
  prev ∉ obj :: cur :: l -> relinked obj cur (base + ts (objs s) cur) l times s s' l' ->
  relinked obj prev base (cur :: l) ((cur, base + ts (objs s) cur) :: times) s s' (cur :: l').
Proof.
  intros Hp Hn Hne [I1 I2 I3 I4 I5 I6 I7]. pose proof (I6 prev Hne) as Hp'. split; try done.
  - cbn [seg]. split; [done|]. exists p. rewrite Hp', Hn. by split.
  - cbn [deadlines]. by rewrite I4, I3.
  - unfold ts. by rewrite Hp'.
  - intros y Hy. apply I6. rewrite !not_elem_of_cons in *. tauto.
Qed.

Lemma inserted_cons obj v prev cur base l s s' l' p : objs s !! prev = Some p -> Next p = Some cur ->
  prev ∉ obj :: cur :: l -> base + ts (objs s) cur <= v ->
  inserted obj v cur (base + ts (objs s) cur) l s s' l' -> inserted obj v prev base (cur :: l) s s' (cur :: l').
Proof.
  intros Hp Hn Hne Hv Hi. unfold inserted. cbn [deadlines insert_deadline].
  destruct (Z.ltb_spec v (base + ts (objs s) cur)); [lia|]. by apply (relinked_cons _ _ _ _ _ _ _ _ _ p).
Qed.

Lemma insert_loop_spec obj o s : objs s !! obj = Some o -> is_u32 (Timestamp o) ->
  forall l fuel prev cur base, seg Next (objs s) (Some prev) (prev :: cur :: l) None -> NoDup (prev :: cur :: l) ->
  obj ∉ prev :: cur :: l -> 0 <= base <= Timestamp o -> Forall is_u32 (deadlines (objs s) base (cur :: l)).*2 ->
  (length l < fuel)%nat ->
  exists s' l', insert_loop fuel obj prev cur base (base + ts (objs s) cur) s = Done s' /\
    inserted obj (Timestamp o) prev base (cur :: l) s s' l'.
Proof.
  intros Ho Hu. induction l as [|c' l IH]; intros fuel prev cur base Hs Hnd Hobj Hb Hf Hfuel;
    (destruct fuel as [|fuel]; [simpl in Hfuel; lia|]); cbn [insert_loop];
    rewrite (deref_ok _ _ o Ho); cbn [rbind];
    pose proof Hs as [_ (p & Hp & [Hpn (c & Hc & Hs')])]; pose proof (ts_at _ _ c Hc) as Htc;
    cbn [deadlines fmap list_fmap] in Hf; apply List.Forall_cons_iff in Hf as [Huc Hf]; cbn [snd] in Huc;
    pose proof Hnd as Hnd'; pose proof Hobj as Hobj'; rewrite !NoDup_cons in Hnd'; repeat rewrite not_elem_of_cons in Hnd'; repeat rewrite not_elem_of_cons in Hobj'.
  all: destruct (Z.ltb_spec (Timestamp o) (base + ts (objs s) cur)) as [Hlt|Hge];
    [rewrite (put_between_run obj prev cur o p c) by (done || tauto); eexists _, _; split; [reflexivity|];
     rewrite Htc in *; by apply put_between_inserted|].
  all: rewrite (deref_ok _ _ c Hc); cbn [rbind].
  - cbn [seg] in Hs'. rewrite Hs'. rewrite (put_last_run obj cur o c) by (done || tauto).
    eexists _, [cur; obj]. split; [reflexivity|]. apply (inserted_cons _ _ _ _ _ _ _ _ _ p); try done.
    { repeat rewrite not_elem_of_cons. split_and!; [|tauto..]. intros Eo. symmetry in Eo. tauto. }
    apply put_last_inserted; try done; [tauto|unfold is_u32 in *; lia].
  - pose proof Hs' as [-> (nc & Hnc & _)]. rewrite (deref_ok _ _ nc Hnc). cbn [rbind].
    assert (Hs2 : seg Next (objs s) (Some cur) (cur :: c' :: l) None) by (split; [done|by exists c]).
    pose proof Hf as Hf'. apply List.Forall_cons_iff in Hf' as [Huc' _]. cbn [snd] in Huc'.
    rewrite <- (ts_at _ _ nc Hnc), u32_id by done.
    destruct (IH fuel cur c' (base + ts (objs s) cur)) as (s' & l' & E & Hi); try done.
    { rewrite !NoDup_cons; repeat rewrite not_elem_of_cons; tauto. } { repeat rewrite not_elem_of_cons. tauto. }
    { unfold is_u32 in *; lia. } { simpl in Hfuel. lia. }
    exists s', (cur :: l'). split; [exact E|]. apply (inserted_cons _ _ _ _ _ _ _ _ _ p); try done.
    repeat rewrite not_elem_of_cons. split_and!; [|tauto..]. intros Eo. symmetry in Eo. tauto.
Qed.

(** ** The invariant *)

(** The timers [l] in order: only the head may be running, all deadlines fit
    32 bits, the clock has not run backwards. *)
Record timers_wf (s : timers) (l : list Z) : Prop := mkTimersWf {
  tw_seg : seg Next (objs s) (TimerListHead s) l None;
  tw_nodup : NoDup l;
  tw_idle : forall x t, x ∈ tail l -> objs s !! x = Some t -> IsRunning t = false;
  tw_times : Forall is_u32 (schedule s l).*2;
  tw_pos : forall x t, x ∈ l -> objs s !! x = Some t -> 0 <= Timestamp t;
  tw_clock : 0 <= TimerGetValue s;
  tw_wakeup : 0 <= McuWakeUpTime s;
}.

Lemma head_remaining_range t s : 0 <= TimerGetValue s -> 0 <= Timestamp t -> 0 <= head_remaining t s <= Timestamp t.
Proof. intros H1 H2. unfold head_remaining. destruct (IsRunning t); lia. Qed.

Lemma timer_exists_spec s obj l : forall fuel p, seg Next (objs s) p l None -> (length l <= fuel)%nat ->
  timer_exists fuel obj p s = Done (bool_decide (obj ∈ l)).
Proof.
  induction l as [|x l IH]; intros fuel p Hs Hf.
  - cbn [seg] in Hs. subst p. destruct fuel; cbn [timer_exists]; by rewrite bool_decide_false by apply not_elem_of_nil.
  - destruct Hs as [-> (n & Hn & Hs)]. destruct fuel as [|fuel]; [simpl in Hf; lia|]. cbn [timer_exists].
    destruct (Z.eqb_spec x obj) as [->|Hne]; [by rewrite bool_decide_true by left|].
    rewrite (deref_ok _ _ n Hn). cbn [rbind]. rewrite (IH fuel (Next n)) by (done || (simpl in Hf; lia)).
    f_equal. apply bool_decide_ext. rewrite elem_of_cons. split; [tauto|]. intros [->|]; done.
Qed.

Lemma TimerExists_spec s l obj : timers_wf s l -> TimerExists obj s = Done (bool_decide (obj ∈ l)).
Proof.
  intros [Hs Hn _ _ _ _ _]. apply timer_exists_spec; [done|]. pose proof (seg_size _ _ _ _ Hs Hn). unfold walk_bound. lia.
Qed.

(** The adjustment of the clock: at most two wake-up times are subtracted. *)
Lemma adjusted_spec v s : 0 <= v -> 0 <= McuWakeUpTime s ->
  exists d s', RtcGetAdjustedTimeoutValue v s = (v - d, s') /\ 0 <= d <= 2 * McuWakeUpTime s /\ d <= v /\
    objs s' = objs s /\ TimerListHead s' = TimerListHead s /\ now s' = now s /\ McuWakeUpTime s' = McuWakeUpTime s /\ called s' = called s.
Proof.
  intros Hv Hw. unfold RtcGetAdjustedTimeoutValue.
  destruct (Z.ltb_spec (McuWakeUpTime s) v), (NonScheduledWakeUp s); cbn [andb]; cbn [update McuWakeUpTime];
    repeat match goal with |- context [?x <? ?y] => destruct (Z.ltb_spec x y) end; try lia.
  all: try (eexists (McuWakeUpTime s + McuWakeUpTime s), _; split; [f_equal; lia|split_and!; try done; lia]).
  all: try (eexists (McuWakeUpTime s), _; split; [f_equal; lia|split_and!; try done; lia]).
  all: eexists 0, _; split; [f_equal; lia|split_and!; try done; lia].
Qed.

Lemma TimerSetTimeout_spec h t s : objs s !! h = Some t -> 0 <= Timestamp t -> 0 <= McuWakeUpTime s ->
  exists d s', TimerSetTimeout h s = Done s' /\ 0 <= d <= 2 * McuWakeUpTime s /\ d <= Timestamp t /\
    objs s' = <[h := t <| Timestamp := Timestamp t - d |>]> (objs s) /\ TimerListHead s' = TimerListHead s /\
    TimerGetValue s' = 0 /\ McuWakeUpTime s' = McuWakeUpTime s /\ called s' = called s.
Proof.
  intros Ht H0 Hw. unfold TimerSetTimeout. rewrite (deref_ok _ _ t) by done. cbn [rbind].
  destruct (adjusted_spec (Timestamp t) (s <| HasLoopedThroughMain := 0 |>)) as (d & s1 & -> & Hd & Hdt & E1 & E2 & E3 & E4 & E5); try done.
  rewrite (store_ok _ _ t) by (by rewrite E1). cbn [rbind]. exists d. eexists. split; [reflexivity|]. split; [done|]. split; [done|].
  cbn [RtcSetTimeout update objs TimerListHead McuWakeUpTime]. rewrite E1. split_and!; try done.
  unfold TimerGetValue, RtcGetElapsedAlarmTime. cbn [update now RtcCalendarContext]. rewrite Z.ltb_irrefl. apply Z.sub_diag.
Qed.

Lemma deadlines_earlier ns l d : forall b, deadlines ns (b - d) l = earlier d (deadlines ns b l).
Proof.
  induction l as [|x l IH]; intros b; [done|]. cbn [deadlines earlier fmap list_fmap].
  replace (b - d + ts ns x) with (b + ts ns x - d) by lia. by rewrite IH.
Qed.

Lemma deadlines_from ns l : (forall x, x ∈ l -> 0 <= ts ns x) -> forall b, Forall (fun e => b <= e.2) (deadlines ns b l).
Proof.
  induction l as [|x l IH]; intros H b; cbn [deadlines]; [by apply List.Forall_nil|].
  assert (0 <= ts ns x) by (apply H; left). apply List.Forall_cons; [cbn; lia|].
  eapply List.Forall_impl; [|apply IH; intros y Hy; apply H; by right]. cbn. intros e He. lia.
Qed.

Lemma earlier_0 l : earlier 0 l = l.
Proof. induction l as [|[x t] l IH]; [done|]. cbn. rewrite Z.sub_0_r. f_equal. exact IH. Qed.

(** Deadlines that come earlier, but not before now, still fit. *)
Lemma earlier_u32 d l : 0 <= d -> Forall is_u32 l.*2 -> Forall (fun e => d <= e.2) l -> Forall is_u32 (earlier d l).*2.
Proof.
  intros Hd H1 H2. induction l as [|e l IH]; [by apply List.Forall_nil|].
  cbn in H1. apply List.Forall_cons_iff in H1 as [H1 H1'], H2 as [H2 H2'].
  cbn. apply List.Forall_cons; [cbn; unfold is_u32 in *; lia|by apply IH].
Qed.

Lemma tw_ts s l x : timers_wf s l -> x ∈ l -> 0 <= ts (objs s) x.
Proof. intros Hw Hx. unfold ts. destruct (objs s !! x) eqn:E; cbn; [by eapply (tw_pos s l)|lia]. Qed.

(** ** A new head *)

(** A head that is marked running is programmed: everyone keeps his deadline, but for
    the wake-up time the clock subtracts. *)
Lemma program_head s h t l : TimerListHead s = Some h -> objs s !! h = Some t -> IsRunning t = true ->
  seg Next (objs s) (Next t) l None -> NoDup (h :: l) ->
  (forall x u, x ∈ l -> objs s !! x = Some u -> IsRunning u = false) ->
  (forall x u, x ∈ h :: l -> objs s !! x = Some u -> 0 <= Timestamp u) ->
  Forall is_u32 (deadlines (objs s) 0 (h :: l)).*2 -> 0 <= McuWakeUpTime s ->
  exists s' d, TimerSetTimeout h s = Done s' /\ timers_wf s' (h :: l) /\ 0 <= d <= 2 * McuWakeUpTime s /\
    schedule s' (h :: l) = earlier d (deadlines (objs s) 0 (h :: l)) /\ same_fixed (objs s) (objs s') /\
    called s' = called s.
Proof.
  intros Hh Ht Hrun Hs Hnd Hidle Hpos Hu Hw. assert (H0 : 0 <= Timestamp t) by (apply (Hpos h); [left|done]).
  destruct (TimerSetTimeout_spec h t s Ht H0 Hw) as (d & s' & E & Hd & Hdt & Eo & Eh & Ev & Em & Ec).
  exists s', d. split; [done|]. apply NoDup_cons in Hnd as Hnd'. destruct Hnd' as [Hhl Hnd'].
  assert (Hsch : schedule s' (h :: l) = earlier d (deadlines (objs s) 0 (h :: l))).
  { cbn [schedule deadlines earlier fmap list_fmap]. rewrite Eo, lookup_insert_eq. cbn [from_option].
    unfold head_remaining. cbn [update IsRunning Timestamp]. rewrite Hrun, Ev, (ts_at _ _ t Ht), Z.add_0_l, Z.min_l, Z.sub_0_r by lia.
    cbn [fst snd]. f_equal. rewrite (deadlines_ext (objs s)); [apply deadlines_earlier|].
    intros x Hx. rewrite ts_insert_ne; [done|]. by intros ->. }
  assert (Hbase : Forall (fun e => d <= e.2) (deadlines (objs s) 0 (h :: l))).
  { cbn [deadlines]. rewrite (ts_at _ _ t Ht), Z.add_0_l. apply List.Forall_cons; [cbn; lia|].
    eapply List.Forall_impl; [|apply deadlines_from]; [cbn; intros; lia|]. intros x Hx. unfold ts.
    destruct (objs s !! x) as [u|] eqn:Eu; cbn; [apply (Hpos x); [by right|done]|lia]. }
  split; [|split_and!; try done; try lia; rewrite Eo; by apply (same_fixed_insert _ _ t)].
  apply mkTimersWf; rewrite ?Hsch, ?Eo, ?Eh, ?Ev, ?Em; try done.
  - rewrite Hh. split; [done|]. eexists. split; [apply lookup_insert_eq|]. cbn [update Next]. by apply seg_insert.
  - intros x u Hx. cbn [tail] in Hx. rewrite lookup_insert_ne by (by intros ->). by apply Hidle.
  - apply earlier_u32; [lia|done|done].
  - intros x u Hx. destruct (decide (x = h)) as [->|Hne].
    + rewrite lookup_insert_eq. intros [= <-]. cbn. lia.
    + rewrite lookup_insert_ne by done. by apply Hpos.
Qed.

Section NewHead.
Context (s : timers) (l : list Z) (obj : Z) (o : TimerEvent_t) (r : Z).
Hypothesis Hobj : objs s !! obj = Some o.
Hypothesis Hfresh : obj ∉ l.
Hypothesis Hw : timers_wf s l.
Hypothesis Hv : is_u32 (Timestamp o).
Hypothesis Hr : forall h t, head l = Some h -> objs s !! h = Some t -> r = head_remaining t s /\ Timestamp o < r.

(** The head gives way: it waits for the rest of its time behind the new one. *)
Lemma retire_head : exists ns,
  match TimerListHead s with
  | None => Done s
  | Some cur => let* o := deref obj s in
      store cur (fun t => t <| Timestamp := u32 (r - Timestamp o) |> <| IsRunning := false |>) s
  end = Done (s <| objs := ns |>) /\
  ns !! obj = Some o /\ seg Next ns (TimerListHead s) l None /\
  (forall x t, x ∈ l -> ns !! x = Some t -> IsRunning t = false /\ 0 <= Timestamp t) /\
  deadlines ns (Timestamp o) l = schedule s l /\ (forall y, y ∉ l -> ns !! y = objs s !! y).
Proof.
  destruct Hw as [W1 W2 W3 W4 W5 W6 W7]. destruct l as [|h l'].
  - cbn [seg] in W1. rewrite W1. exists (objs s). split; [by destruct s|]. split_and!; try done.
    by intros x t Hx%elem_of_nil.
  - pose proof W1 as [Hh (t & Ht & Hs)]. rewrite Hh, (deref_ok _ _ o Hobj). cbn [rbind]. rewrite (store_ok _ h t) by done.
    eexists. split; [reflexivity|]. destruct (Hr h t eq_refl Ht) as [Er Hlt].
    pose proof (head_remaining_range t s W6 (W5 h t ltac:(left) Ht)) as Hrange.
    apply not_elem_of_cons in Hfresh as [Hf1 Hf2]. apply NoDup_cons in W2 as [Hn1 Hn2].
    assert (Hur : is_u32 r). { cbn [schedule fmap list_fmap] in W4. rewrite Ht in W4. apply List.Forall_cons_iff in W4 as [W4 _]. cbn in W4. by rewrite Er. }
    split_and!.
    + by rewrite lookup_insert_ne.
    + split; [done|]. eexists. split; [apply lookup_insert_eq|]. cbn [update Next]. by apply seg_insert.
    + intros x u Hx. destruct (decide (x = h)) as [->|Hne].
      * rewrite lookup_insert_eq. intros [= <-]. cbn [update IsRunning Timestamp]. split; [done|]. apply u32_range.
      * rewrite lookup_insert_ne by done. apply elem_of_cons in Hx as [->|Hx]; [done|]. intros Hu.
        split; [by apply (W3 x)|by apply (W5 x); [right|]].
    + cbn [deadlines schedule]. rewrite Ht. cbn [from_option]. rewrite ts_insert_eq. cbn [update Timestamp].
      rewrite u32_id by (unfold is_u32 in *; lia). replace (Timestamp o + (r - Timestamp o)) with r by lia. rewrite <- Er. f_equal.
      apply deadlines_ext. intros x Hx. rewrite ts_insert_ne; [done|]. by intros ->.
    + intros y Hy. rewrite lookup_insert_ne; [done|]. intros ->. apply Hy. left.
Qed.

Lemma TimerInsertNewHeadTimer_spec : exists s' d, TimerInsertNewHeadTimer obj r s = Done s' /\
  timers_wf s' (obj :: l) /\ 0 <= d <= 2 * McuWakeUpTime s /\
  schedule s' (obj :: l) = earlier d ((obj, Timestamp o) :: schedule s l).
Proof.
  unfold TimerInsertNewHeadTimer. destruct retire_head as (ns & -> & Ho & Hs & Hl & Hd & _). cbn [rbind].
  rewrite (store_ok _ obj o) by done. cbn [rbind].
  match goal with |- context [TimerSetTimeout obj ?x] => set (s2 := x) end.
  assert (Hd2 : deadlines (objs s2) 0 (obj :: l) = (obj, Timestamp o) :: schedule s l).
  { assert (Et : ts (objs s2) obj = Timestamp o) by (unfold s2; cbn [update objs]; by rewrite ts_insert_eq).
    cbn [deadlines]. rewrite Et, Z.add_0_l, <- Hd. f_equal.
    apply deadlines_ext. intros x Hx. unfold s2. cbn [update objs]. rewrite ts_insert_ne; [done|]. by intros ->. }
  destruct (program_head s2 obj (o <| Next := TimerListHead s |> <| IsRunning := true |>) l) as (s' & d & E & Hwf & Hdd & Hsch & _ & _); try done.
  - apply lookup_insert_eq.
  - cbn [update Next]. by apply seg_insert.
  - apply NoDup_cons. split; [done|apply Hw].
  - intros x u Hx. unfold s2. cbn [update objs]. rewrite lookup_insert_ne by (by intros ->). intros Hu. by apply (Hl x u).
  - intros x u Hx. unfold s2. cbn [update objs]. destruct (decide (x = obj)) as [->|Hne].
    + rewrite lookup_insert_eq. intros [= <-]. cbn. unfold is_u32 in Hv. lia.
    + rewrite lookup_insert_ne by done. apply elem_of_cons in Hx as [->|Hx]; [done|]. intros Hu. by apply (Hl x u).
  - rewrite Hd2. cbn. apply List.Forall_cons; [done|]. apply Hw.
  - apply Hw.
  - exists s', d. rewrite <- Hd2. split; [done|]. split; [done|]. split; [exact Hdd|exact Hsch].
Qed.
End NewHead.

Lemma insert_deadline_perm q v l : insert_deadline q v l ≡ₚ (q, v) :: l.
Proof.
  induction l as [|[x t] l IH]; cbn [insert_deadline]; [done|]. destruct (v <? t); [done|].
  rewrite IH. apply Permutation_swap.
Qed.

(** A timer outside the list may be changed freely. *)
Lemma wf_store_fresh s l q o : q ∉ l -> timers_wf s l ->
  timers_wf (s <| objs := <[q := o]> (objs s) |>) l /\ schedule (s <| objs := <[q := o]> (objs s) |>) l = schedule s l.
Proof.
  intros Hq [W1 W2 W3 W4 W5 W6 W7].
  assert (Hn : forall x, x ∈ l -> q <> x) by (by intros x Hx ->).
  assert (E : schedule (s <| objs := <[q := o]> (objs s) |>) l = schedule s l).
  { destruct l as [|h l]; [done|]. cbn [schedule update objs]. rewrite lookup_insert_ne by (apply Hn; left). f_equal.
    apply deadlines_ext. intros x Hx. apply ts_insert_ne. intros ->. by apply (Hn q); [right|]. }
  split; [|exact E]. apply mkTimersWf; rewrite ?E; try done; cbn [update objs TimerListHead].
  - by apply seg_insert.
  - intros x t Hx. rewrite lookup_insert_ne; [by apply W3|]. apply Hn. destruct l; [done|by right].
  - intros x t Hx. rewrite lookup_insert_ne by (by apply Hn). by apply W5.
Qed.

(** The invariant after a change behind the head. *)
Lemma relinked_wf s h l obj t times s' l' : timers_wf s (h :: l) -> objs s !! h = Some t ->
  relinked obj h (head_remaining t s) l times s s' l' -> Forall is_u32 times.*2 -> NoDup (h :: l') -> l' ⊆ obj :: l ->
  (forall o, obj ∈ l' -> objs s !! obj = Some o -> IsRunning o = false /\ 0 <= Timestamp o) ->
  timers_wf s' (h :: l') /\ schedule s' (h :: l') = (h, head_remaining t s) :: times /\ TimerListHead s' = TimerListHead s.
Proof.
  intros [W1 W2 W3 W4 W5 W6 W7] Ht [I1 I2 I3 I4 I5 I6 I7] Hu Hnd Hsub Ho. set (r := head_remaining t s) in *.
  assert (Eh : TimerListHead s' = TimerListHead s /\ TimerGetValue s' = TimerGetValue s /\ McuWakeUpTime s' = McuWakeUpTime s)
    by (rewrite I1; by split_and!).
  destruct Eh as (Eh & Ev & Em).
  assert (Ht' : exists t', objs s' !! h = Some t' /\ head_remaining t' s' = r).
  { specialize (I5 h). rewrite Ht in I5. cbn in I5. destruct (objs s' !! h) as [t'|] eqn:E'; [|done]. exists t'. split; [done|].
    injection I5 as _ E2 _. rewrite (ts_at _ _ t' E'), (ts_at _ _ t Ht) in I4. unfold r, head_remaining. by rewrite E2, Ev, I4. }
  destruct Ht' as (t' & Et' & Er').
  assert (Hsch : schedule s' (h :: l') = (h, r) :: times) by (cbn [schedule]; rewrite Et'; cbn [from_option]; by rewrite Er', I3).
  split; [|by split]. apply mkTimersWf; rewrite ?Hsch, ?Eh, ?Ev, ?Em; try done.
  - pose proof W1 as [-> _]. exact I2.
  - intros x u Hx Hxu. cbn [tail] in Hx. specialize (I5 x). rewrite Hxu in I5. cbn in I5.
    destruct (objs s !! x) as [u'|] eqn:Eu; [|done]. injection I5 as _ -> _.
    pose proof Hx as Hx'. apply Hsub, elem_of_cons in Hx as [->|Hx]; [by apply Ho|by apply (W3 x)].
  - cbn. apply List.Forall_cons; [|done]. cbn [schedule fmap list_fmap] in W4. rewrite Ht in W4.
    by apply List.Forall_cons_iff in W4 as [W4 _].
  - intros x u Hx Hxu. rewrite <- (ts_at _ _ u Hxu). apply I7. unfold ts.
    destruct (objs s !! x) as [u'|] eqn:Eu; cbn; [|lia]. apply elem_of_cons in Hx as [->|Hx]; [apply (W5 h u'); [left|done]|].
    pose proof Hx as Hx'. apply Hsub, elem_of_cons in Hx as [->|Hx]; [by apply Ho|by apply (W5 x); [right|]].
Qed.

Lemma TimerInsertTimer_spec s h l obj o t : timers_wf s (h :: l) -> obj ∉ h :: l -> objs s !! obj = Some o ->
  objs s !! h = Some t -> is_u32 (Timestamp o) -> IsRunning o = false -> head_remaining t s <= Timestamp o ->
  exists s' l', TimerInsertTimer obj (head_remaining t s) s = Done s' /\ timers_wf s' l' /\
    schedule s' l' = insert_deadline obj (Timestamp o) (schedule s (h :: l)) /\ TimerListHead s' = TimerListHead s.
Proof.
  intros Hw Hobj Ho Ht Hu Hrun Hle. pose proof Hw as [W1 W2 W3 W4 W5 W6 W7].
  set (r := head_remaining t s) in *.
  pose proof (head_remaining_range t s W6 (W5 h t ltac:(left) Ht)) as Hrange. fold r in Hrange.
  assert (Hins : exists s' l', TimerInsertTimer obj r s = Done s' /\ inserted obj (Timestamp o) h r l s s' l').
  { unfold TimerInsertTimer. pose proof W1 as [-> (t' & Ht' & Hs)]. rewrite Ht in Ht'. injection Ht' as <-.
    rewrite (deref_ok _ _ t Ht). cbn [rbind]. destruct l as [|c l].
    - cbn [seg] in Hs. rewrite Hs. apply not_elem_of_cons in Hobj as [Hne _].
      rewrite (put_last_run obj h o t) by done. eexists _, _. split; [reflexivity|]. by apply put_last_inserted; try lia.
    - pose proof Hs as [-> (c' & Hc & _)]. rewrite (deref_ok _ _ c' Hc). cbn [rbind].
      assert (Hf : Forall is_u32 (deadlines (objs s) r (c :: l)).*2).
      { cbn [schedule fmap list_fmap] in W4. rewrite Ht in W4. by apply List.Forall_cons_iff in W4 as [_ W4]. }
      rewrite <- (ts_at _ _ c' Hc). rewrite u32_id by (by apply List.Forall_cons_iff in Hf as [Hf _]).
      apply insert_loop_spec; try done; try lia; [split; [done|by exists t]|].
      pose proof (seg_size _ _ _ _ W1 W2) as Hsz. unfold walk_bound. cbn [length] in Hsz. lia. }
  destruct Hins as (s' & l' & E & Hi).
  assert (Hperm : l' ≡ₚ obj :: l).
  { rewrite <- (deadlines_fst (objs s') l' r), (in_times _ _ _ _ _ _ _ _ Hi), insert_deadline_perm. cbn. by rewrite deadlines_fst. }
  destruct (relinked_wf s h l obj t _ s' l' Hw Ht Hi) as (Hw' & Hsch & Hh).
  - rewrite insert_deadline_perm. cbn. apply List.Forall_cons; [done|].
    cbn [schedule fmap list_fmap] in W4. rewrite Ht in W4. by apply List.Forall_cons_iff in W4 as [_ W4].
  - rewrite Hperm. apply not_elem_of_cons in Hobj as [Ho1 Ho2]. apply NoDup_cons in W2 as [Wh Wl].
    rewrite !NoDup_cons, not_elem_of_cons. by split_and!.
  - intros x. by rewrite Hperm.
  - intros o' _ Ho'. replace o' with o by congruence. unfold is_u32 in Hu. split; [done|lia].
  - exists s', (h :: l'). split; [exact E|]. split; [done|]. split; [|done]. rewrite Hsch. cbn [schedule insert_deadline].
    rewrite Ht. cbn [from_option]. fold r. destruct (Z.ltb_spec (Timestamp o) r); [lia|done].
Qed.

Lemma TimerStart_spec s l q o : timers_wf s l -> q ∉ l -> objs s !! q = Some o -> is_u32 (ReloadValue o) ->
  exists s' l' d, TimerStart (Some q) s = Done s' /\ timers_wf s' l' /\ 0 <= d <= 2 * McuWakeUpTime s /\
    schedule s' l' = earlier d (insert_deadline q (ReloadValue o) (schedule s l)) /\
    (TimerListHead s' = TimerListHead s -> d = 0).
Proof.
  intros Hw Hq Ho Hu. unfold TimerStart. rewrite (TimerExists_spec s l), bool_decide_false by done. cbn [rbind].
  rewrite (store_ok _ q o) by done. cbn [rbind]. set (o' := o <| Timestamp := ReloadValue o |> <| IsRunning := false |>).
  destruct (wf_store_fresh s l q o' Hq Hw) as [Hw1 Hsch1].
  set (s1 := s <| objs := <[q := o']> (objs s) |>) in *.
  assert (Ho1 : objs s1 !! q = Some o') by apply lookup_insert_eq. rewrite (deref_ok _ _ o' Ho1). cbn [rbind].
  assert (Eh : TimerListHead s1 = TimerListHead s) by done. rewrite <- Eh. change (ReloadValue o) with (Timestamp o').
  rewrite <- Hsch1. change (McuWakeUpTime s) with (McuWakeUpTime s1).
  assert (Hu' : is_u32 (Timestamp o')) by done. assert (Hr' : IsRunning o' = false) by done.
  clearbody o' s1. clear s o Hw Ho Hu Hsch1 Eh. rename s1 into s, o' into o, Hw1 into Hw, Ho1 into Ho.
  pose proof (tw_seg _ _ Hw) as Hs. destruct l as [|h l].
  - cbn [seg] in Hs. rewrite Hs.
    destruct (TimerInsertNewHeadTimer_spec s [] q o (Timestamp o) Ho Hq Hw Hu') as (s' & d & E & Hw' & Hd & Hsch); [done|].
    exists s', [q], d. split; [done|]. split; [done|]. split; [done|]. split; [done|].
    pose proof (tw_seg _ _ Hw') as [-> _]. done.
  - pose proof Hs as [-> (t & Ht & _)]. rewrite (deref_ok _ _ t Ht). cbn [rbind].
    destruct (Z.ltb_spec (Timestamp o) (head_remaining t s)) as [Hlt|Hge].
    + destruct (TimerInsertNewHeadTimer_spec s (h :: l) q o (head_remaining t s) Ho Hq Hw Hu') as (s' & d & E & Hw' & Hd & Hsch).
      { intros h' t' [= <-] Ht'. by replace t' with t by congruence. }
      exists s', (q :: h :: l), d. split; [done|]. split; [done|]. split; [done|].
      split. { rewrite Hsch. f_equal. cbn [schedule insert_deadline]. rewrite Ht. cbn [from_option].
        by rewrite (proj2 (Z.ltb_lt _ _) Hlt). }
      pose proof (tw_seg _ _ Hw') as [-> _]. intros [= ->]. destruct Hq. by left.
    + destruct (TimerInsertTimer_spec s h l q o t) as (s' & l' & E & Hw' & Hsch & Hh); try done.
      exists s', l', 0. rewrite earlier_0. split_and!; try done. pose proof (tw_wakeup _ _ Hw). lia.
Qed.

(** ** Removal *)

Lemma remove_deadline_fresh q ns l : q ∉ l -> forall b, remove_deadline q (deadlines ns b l) = deadlines ns b l.
Proof.
  unfold remove_deadline. induction l as [|x l IH]; intros Hq b; [done|]. apply not_elem_of_cons in Hq as [Hne Hq]. cbn [deadlines].
  rewrite filter_cons_True by (cbn; congruence). by rewrite IH.
Qed.

Lemma unlink_relinked obj prev l o p base s : seg Next (objs s) (Some prev) (prev :: obj :: l) None -> NoDup (prev :: obj :: l) ->
  objs s !! obj = Some o -> objs s !! prev = Some p -> 0 <= base -> 0 <= Timestamp o ->
  (forall x, x ∈ l -> 0 <= ts (objs s) x) -> Forall is_u32 (deadlines (objs s) base (obj :: l)).*2 ->
  exists s', match Next o with
     | Some n => let* s := store prev (fun t => t <| Next := Some n |>) s in
                 store n (fun t => t <| Timestamp ::= fun v => u32 (v + Timestamp o) |>) s
     | None => store prev (fun t => t <| Next := None |>) s
     end = Done s' /\ relinked obj prev base (obj :: l) (remove_deadline obj (deadlines (objs s) base (obj :: l))) s s' l.
Proof.
  intros Hs Hnd Ho Hp Hb Hto Hpos Hu. pose proof Hs as [_ (p' & Hp' & Hpn & o' & Ho' & Hs')].
  replace o' with o in Hs' by congruence. clear o' Ho' p' Hp' Hpn.
  repeat setoid_rewrite NoDup_cons in Hnd. repeat setoid_rewrite not_elem_of_cons in Hnd. destruct Hnd as ((Hpo & Hpl) & Hol & Hnd).
  cbn [deadlines] in *. rewrite (ts_at _ _ o Ho) in *. unfold remove_deadline at 1.
  rewrite filter_cons_False by (cbn; tauto). fold (remove_deadline obj (deadlines (objs s) (base + Timestamp o) l)).
  rewrite remove_deadline_fresh by done. destruct l as [|n l].
  - cbn [seg] in Hs'. rewrite Hs', (store_ok _ prev p) by done. eexists. split; [reflexivity|]. split; cbn [update objs]; try done.
    + split; [done|]. eexists. split; [apply lookup_insert_eq|]. done.
    + by rewrite ts_insert_eq, (ts_at _ _ p Hp).
    + by apply (same_fixed_insert _ _ p).
    + intros y Hy. rewrite !not_elem_of_cons in Hy. by rewrite lookup_insert_ne by (intros ->; tauto).
    + intros y Hy. destruct (decide (y = prev)) as [->|]; [rewrite (ts_at _ _ p Hp) in Hy; by rewrite ts_insert_eq|by rewrite ts_insert_ne].
  - destruct Hs' as [-> (nt & Hnt & Hs')]. apply not_elem_of_cons in Hol as [Hon Hol], Hpl as [Hpn Hpl].
    apply NoDup_cons in Hnd as [Hnl Hnd]. rewrite (store_ok _ prev p) by done. cbn [rbind].
    rewrite (store_ok _ n nt) by (cbn [update objs]; by rewrite lookup_insert_ne). eexists. split; [reflexivity|].
    assert (Etn : ts (objs s) n = Timestamp nt) by (by apply ts_at).
    assert (Hun : is_u32 (Timestamp nt + Timestamp o)).
    { pose proof (Hpos n ltac:(left)) as Hn0. rewrite !fmap_cons in Hu. apply List.Forall_cons_iff in Hu as [_ [Hu _]%List.Forall_cons_iff].
      cbn in Hu. rewrite Etn in *. unfold is_u32 in *. lia. }
    split; cbn [update objs]; try done.
    + split; [done|]. eexists. split; [rewrite lookup_insert_ne by done; apply lookup_insert_eq|]. cbn [update Next].
      split; [done|]. eexists. split; [apply lookup_insert_eq|]. cbn [update Next]. by do 2 (apply seg_insert; [done|]).
    + cbn [deadlines]. rewrite ts_insert_eq, Etn. cbn [update Timestamp]. rewrite u32_id by done.
      replace (base + (Timestamp nt + Timestamp o)) with (base + Timestamp o + Timestamp nt) by lia. f_equal.
      apply deadlines_ext. intros x Hx. rewrite !ts_insert_ne; [done|by intros ->..].
    + by rewrite ts_insert_ne, ts_insert_eq, (ts_at _ _ p Hp).
    + eapply same_fixed_trans; [apply (same_fixed_insert _ prev p (p <| Next := Some n |>)); done|]. apply (same_fixed_insert _ n nt); [|done]. by rewrite lookup_insert_ne.
    + intros y Hy. repeat rewrite not_elem_of_cons in Hy. rewrite !lookup_insert_ne; [done|intros ->; tauto..].
    + intros y Hy. destruct (decide (y = n)) as [->|]; [rewrite ts_insert_eq; apply u32_range|]. rewrite ts_insert_ne by done.
      destruct (decide (y = prev)) as [->|]; [rewrite (ts_at _ _ p Hp) in Hy; by rewrite ts_insert_eq|by rewrite ts_insert_ne].
Qed.

(** The loop removes [obj] from the list behind [prev], if it is there. *)
Lemma stop_loop_spec obj o s : objs s !! obj = Some o -> 0 <= Timestamp o ->
  forall l fuel prev p base, seg Next (objs s) (Some prev) (prev :: l) None -> NoDup (prev :: l) -> prev <> obj ->
  objs s !! prev = Some p -> 0 <= base -> (forall x, x ∈ l -> 0 <= ts (objs s) x) ->
  Forall is_u32 (deadlines (objs s) base l).*2 -> (length l < fuel)%nat ->
  exists s' l', stop_loop fuel obj (Timestamp o) prev (Next p) s = Done s' /\ l' ⊆ l /\ NoDup l' /\
    relinked obj prev base l (remove_deadline obj (deadlines (objs s) base l)) s s' l'.
Proof.
  intros Ho Hto. induction l as [|c l IH]; intros fuel prev p base Hs Hnd Hne Hp Hb Hpos Hu Hf.
  - destruct Hs as [_ (p' & Hp' & Hs)]. replace p' with p in Hs by congruence. cbn [seg] in Hs. rewrite Hs.
    exists s, []. destruct fuel; (split; [done|]); (split; [done|]); (split; [apply NoDup_nil_2|]);
      (apply mkRelinked; try done; [by destruct s|split; [done|by exists p]]).
  - destruct fuel as [|fuel]; [simpl in Hf; lia|]. pose proof Hs as [_ (p' & Hp' & Hn & ct & Hc & Hs')].
    replace p' with p in Hn by congruence. rewrite Hn. cbn [stop_loop]. rewrite (deref_ok _ _ ct Hc). cbn [rbind].
    destruct (Z.eqb_spec c obj) as [->|Hco].
    + replace ct with o by congruence.
      destruct (unlink_relinked obj prev l o p base s) as (s' & E & Hr); try done; [intros x Hx; apply Hpos; by right|].
      exists s', l. split; [exact E|]. split; [intros x Hx; by right|]. split; [|done].
      apply NoDup_cons in Hnd as [_ [_ Hnd]%NoDup_cons]. done.
    + cbn [deadlines] in Hu. rewrite fmap_cons in Hu. apply List.Forall_cons_iff in Hu as [Huc Hu]. cbn [snd] in Huc.
      destruct (IH fuel c ct (base + ts (objs s) c)) as (s' & l' & E & Hsub & Hnd' & Hr); try done.
      { split; [done|by exists ct]. } { by apply NoDup_cons in Hnd as [_ Hnd]. }
      { unfold is_u32 in Huc; lia. } { intros x Hx. apply Hpos. by right. } { simpl in Hf. lia. }
      apply NoDup_cons in Hnd as [Hpl [Hcl Hnd]%NoDup_cons].
      exists s', (c :: l'). split; [exact E|]. split; [intros x [->|Hx]%elem_of_cons; [left|right; by apply Hsub]|].
      split; [apply NoDup_cons; split; [intros Hx; by apply Hcl, Hsub|done]|].
      cbn [deadlines]. unfold remove_deadline. rewrite filter_cons_True by done.
      apply (relinked_cons _ _ _ _ _ _ _ _ _ p); try done. by apply not_elem_of_cons.
Qed.

Lemma schedule_tail_u32 s h l t : timers_wf s (h :: l) -> objs s !! h = Some t ->
  Forall is_u32 (deadlines (objs s) (head_remaining t s) l).*2 /\ is_u32 (head_remaining t s).
Proof.
  intros Hw Ht. pose proof (tw_times _ _ Hw) as W4. cbn [schedule] in W4. rewrite Ht, fmap_cons in W4.
  by apply List.Forall_cons_iff in W4 as [? ?].
Qed.

(** The first timer is removed: the next one takes over the rest of its time. *)
Lemma stop_head s h t n l : timers_wf s (h :: n :: l) -> objs s !! h = Some t ->
  exists s' d, TimerStop (Some h) s = Done s' /\ timers_wf s' (n :: l) /\ 0 <= d <= 2 * McuWakeUpTime s /\
    schedule s' (n :: l) = earlier d (deadlines (objs s) (head_remaining t s) (n :: l)).
Proof.
  intros Hw Ht. pose proof Hw as [W1 W2 W3 W4 W5 W6 W7]. unfold TimerStop. pose proof W1 as [-> (t' & Ht' & Hn & nt & Hnt & Hs)].
  replace t' with t in Hn by congruence. clear t' Ht'. rewrite (deref_ok _ _ t Ht). cbn [rbind]. rewrite Z.eqb_refl, Hn.
  apply NoDup_cons in W2 as [[Hhn Hhl]%not_elem_of_cons [Hnl Hnd]%NoDup_cons].
  destruct (schedule_tail_u32 s h (n :: l) t Hw Ht) as [Hu _].
  assert (Hidle : IsRunning nt = false) by (apply (W3 n); [left|done]).
  assert (Hpn : 0 <= Timestamp nt) by (apply (W5 n); [right; left|done]).
  pose proof (head_remaining_range t s W6 (W5 h t ltac:(left) Ht)) as Hr. set (r := head_remaining t s) in *.
  assert (Hun : is_u32 (Timestamp nt + r)).
  { cbn [deadlines] in Hu. rewrite fmap_cons in Hu. apply List.Forall_cons_iff in Hu as [Hu _]. cbn in Hu.
    rewrite (ts_at _ _ nt Hnt) in Hu. unfold is_u32 in *. lia. }
  assert (Hts : forall ns, (forall x, x ∈ l -> ts ns x = ts (objs s) x) -> ts ns n = Timestamp nt + r ->
    deadlines ns 0 (n :: l) = deadlines (objs s) r (n :: l)).
  { intros ns H1 H2. cbn [deadlines]. rewrite H2, (ts_at _ _ nt Hnt). replace (0 + (Timestamp nt + r)) with (r + Timestamp nt) by lia.
    f_equal. by apply deadlines_ext. }
  destruct (IsRunning t) eqn:Erun.
  - rewrite (store_ok _ h t) by done. cbn [rbind]. rewrite (store_ok _ n nt) by (cbn [update objs]; by rewrite lookup_insert_ne).
    cbn [rbind]. match goal with |- context [TimerSetTimeout n ?x] => set (s2 := x) end.
    assert (Hd2 : deadlines (objs s2) 0 (n :: l) = deadlines (objs s) r (n :: l)).
    { apply Hts; unfold s2; cbn [update objs].
      - intros x Hx. rewrite !ts_insert_ne; [done|by intros ->..].
      - rewrite ts_insert_eq. cbn [update Timestamp]. by rewrite u32_id. }
    destruct (program_head s2 n (nt <| Timestamp ::= fun v => u32 (v + r) |> <| IsRunning := true |>) l)
      as (s' & d & E & Hw' & Hd & Hsch & _); try done.
    + apply lookup_insert_eq.
    + cbn [update Next]. unfold s2. cbn [update objs]. by do 2 (apply seg_insert; [done|]).
    + by apply NoDup_cons.
    + intros x u Hx. unfold s2. cbn [update objs]. rewrite !lookup_insert_ne by (by intros ->). apply W3. by right.
    + intros x u Hx. unfold s2. cbn [update objs]. destruct (decide (x = n)) as [->|Hxn].
      * rewrite lookup_insert_eq. intros [= <-]. apply u32_range.
      * apply elem_of_cons in Hx as [->|Hx]; [done|]. rewrite !lookup_insert_ne by (by intros ->). apply W5. by do 2 right.
    + by rewrite Hd2.
    + exists s', d. rewrite <- Hd2. split; [exact E|]. split; [done|]. split; [exact Hd|exact Hsch].
  - rewrite (store_ok _ n nt) by done. eexists _, 0. split; [reflexivity|].
    assert (Er : Timestamp t = r) by (unfold r, head_remaining; by rewrite Erun). rewrite Er.
    match goal with |- timers_wf ?x _ /\ _ => set (s2 := x) end.
    assert (Hsch : schedule s2 (n :: l) = deadlines (objs s) r (n :: l)).
    { rewrite <- (Hts (objs s2)).
      - cbn [schedule deadlines]. unfold s2. cbn [update objs]. rewrite lookup_insert_eq, ts_insert_eq. cbn [from_option].
        unfold head_remaining. cbn [update IsRunning Timestamp]. by rewrite Hidle.
      - intros x Hx. unfold s2. cbn [update objs]. rewrite ts_insert_ne; [done|]. by intros ->.
      - unfold s2. cbn [update objs]. rewrite ts_insert_eq. cbn [update Timestamp]. by rewrite u32_id. }
    rewrite earlier_0. split; [|split; [lia|done]]. apply mkTimersWf; rewrite ?Hsch; try done; unfold s2; cbn [update objs TimerListHead].
    + split; [done|]. eexists. split; [apply lookup_insert_eq|]. cbn [update Next]. by apply seg_insert.
    + by apply NoDup_cons.
    + intros x u Hx. cbn [tail] in Hx. rewrite lookup_insert_ne by (by intros ->). apply W3. by right.
    + intros x u Hx. destruct (decide (x = n)) as [->|Hxn]; [rewrite lookup_insert_eq; intros [= <-]; apply u32_range|].
      rewrite lookup_insert_ne by done. apply W5. by right.
Qed.

Lemma TimerStop_spec s l q o : timers_wf s l -> objs s !! q = Some o -> 0 <= Timestamp o ->
  exists s' l' d, TimerStop (Some q) s = Done s' /\ timers_wf s' l' /\ 0 <= d <= 2 * McuWakeUpTime s /\
    schedule s' l' = earlier d (remove_deadline q (schedule s l)) /\ (TimerListHead s' = TimerListHead s -> d = 0).
Proof.
  intros Hw Ho Hto. pose proof Hw as [W1 W2 W3 W4 W5 W6 W7]. destruct l as [|h l].
  - cbn [seg] in W1. unfold TimerStop. rewrite W1. exists s, [], 0. split_and!; try done; lia.
  - pose proof W1 as [Hh (t & Ht & Hs)]. destruct (decide (h = q)) as [->|Hne].
    + apply NoDup_cons in W2 as [Hql Hnd]. assert (Hrem : remove_deadline q (schedule s (q :: l)) = deadlines (objs s) (head_remaining t s) l).
      { cbn [schedule]. rewrite Ht. cbn [from_option]. unfold remove_deadline. rewrite filter_cons_False by (cbn; tauto). by apply remove_deadline_fresh. }
      rewrite Hrem. destruct l as [|n l].
      * unfold TimerStop. rewrite Hh, (deref_ok _ _ t Ht). cbn [rbind]. cbn [seg] in Hs. rewrite Z.eqb_refl, Hs.
        eexists _, [], 0. split; [reflexivity|]. split_and!; try done; try lia.
        apply mkTimersWf; try done; by intros x u Hx%elem_of_nil.
      * destruct (stop_head s q t n l Hw Ht) as (s' & d & E & Hw' & Hd & Hsch). exists s', (n :: l), d. split_and!; try done; try lia.
        pose proof (tw_seg _ _ Hw') as [-> _]. rewrite Hh. intros [= ->]. by apply not_elem_of_cons in Hql as [? _].
    + destruct (schedule_tail_u32 s h l t Hw Ht) as [Hu Hur].
      destruct (stop_loop_spec q o s Ho Hto l (walk_bound s) h t (head_remaining t s)) as (s' & l' & E & Hsub & Hnd & Hr); try done.
      { split; [done|by exists t]. } { unfold is_u32 in Hur; lia. }
      { intros x Hx. apply (tw_ts s (h :: l)); [done|by right]. }
      { pose proof (seg_size _ _ _ _ W1 W2) as Hsz. unfold walk_bound. cbn [length] in Hsz. lia. }
      destruct (relinked_wf s h l q t _ s' l' Hw Ht Hr) as (Hw' & Hsch & Hhd).
      * rewrite Forall_fmap in Hu |- *. rewrite Forall_forall in Hu |- *. intros e [_ He]%list_elem_of_filter. by apply Hu.
      * apply NoDup_cons. split; [|done]. apply NoDup_cons in W2 as [Hhl _]. intros Hx. by apply Hhl, Hsub.
      * intros x Hx. right. by apply Hsub.
      * intros o' Hq. rewrite <- (deadlines_fst (objs s') l' (head_remaining t s)), (in_times _ _ _ _ _ _ _ _ Hr) in Hq.
        apply list_elem_of_fmap in Hq as (e & -> & [He _]%list_elem_of_filter). done.
      * exists s', (h :: l'), 0. rewrite earlier_0. split_and!; try done; try lia.
        -- unfold TimerStop. rewrite Hh, (deref_ok _ _ o Ho). cbn [rbind]. destruct (Z.eqb_spec h q); [done|].
           cbn [stop_loop]. rewrite (deref_ok _ _ t Ht). cbn [rbind]. destruct (Z.eqb_spec h q); [done|]. exact E.
        -- rewrite Hsch. cbn [schedule]. rewrite Ht. cbn [from_option]. unfold remove_deadline. by rewrite filter_cons_True.
Qed.

(** ** Interrupts *)

Section Handler.
Context (run_callback : Z -> timers -> run timers).
(** The callbacks do not touch the timers. *)
Hypothesis quiet_callbacks : forall f s, run_callback f s = Done s.

Definition callbacks (ns : gmap Z TimerEvent_t) (l : list Z) : list Z := omap (fun x => ns !! x ≫= Callback) l.

Lemma callbacks_ext ns ns' k : (forall x, Callback <$> ns' !! x = Callback <$> ns !! x) -> callbacks ns' k = callbacks ns k.
Proof.
  intros H. unfold callbacks. induction k as [|x k IH]; [done|]. cbn [omap list_omap]. rewrite IH. specialize (H x).
  destruct (ns' !! x), (ns !! x); cbn in *; try done. by injection H as ->.
Qed.

(** The next timer is started, if there is one and it is not running. *)
Lemma rearm_head s l : seg Next (objs s) (TimerListHead s) l None -> NoDup l ->
  (forall x u, x ∈ l -> objs s !! x = Some u -> IsRunning u = false /\ 0 <= Timestamp u) ->
  Forall is_u32 (deadlines (objs s) 0 l).*2 -> 0 <= McuWakeUpTime s -> 0 <= TimerGetValue s ->
  exists s' d, match TimerListHead s with
    | None => Done s
    | Some p => let* t := deref p s in if IsRunning t then Done s
                else let* s := store p (fun t => t <| IsRunning := true |>) s in TimerSetTimeout p s
    end = Done s' /\ timers_wf s' l /\ 0 <= d <= 2 * McuWakeUpTime s /\
    schedule s' l = earlier d (deadlines (objs s) 0 l) /\ called s' = called s.
Proof.
  intros Hs Hnd Hl Hu Hw Hv. destruct l as [|h l].
  - cbn [seg] in Hs. rewrite Hs. exists s, 0. split_and!; try done; [|lia]. apply mkTimersWf; try done; by intros x u Hx%elem_of_nil.
  - destruct Hs as [Hh (t & Ht & Hs)]. rewrite Hh, (deref_ok _ _ t Ht). cbn [rbind].
    rewrite (proj1 (Hl h t ltac:(left) Ht)), (store_ok _ h t) by done. cbn [rbind].
    match goal with |- context [TimerSetTimeout h ?x] => set (s2 := x) end.
    apply NoDup_cons in Hnd as Hnd'. destruct Hnd' as [Hhl Hnd'].
    assert (Hts : forall x, ts (objs s2) x = ts (objs s) x).
    { intros x. unfold s2. cbn [update objs]. destruct (decide (x = h)) as [->|]; [by rewrite ts_insert_eq, (ts_at _ _ t Ht)|by rewrite ts_insert_ne]. }
    assert (Hd2 : deadlines (objs s2) 0 (h :: l) = deadlines (objs s) 0 (h :: l)) by (apply deadlines_ext; intros; apply Hts).
    destruct (program_head s2 h (t <| IsRunning := true |>) l) as (s' & d & E & Hw' & Hd & Hsch & _ & Hc); try done.
    + apply lookup_insert_eq.
    + cbn [update Next]. by apply seg_insert.
    + intros x u Hx. unfold s2. cbn [update objs]. rewrite lookup_insert_ne by (by intros ->). intros Hxu. by apply (Hl x); [right|].
    + intros x u Hx Hxu. rewrite <- (ts_at _ _ u Hxu), Hts. unfold ts. destruct (objs s !! x) as [u'|] eqn:Eu; cbn; [by apply (Hl x)|lia].
    + by rewrite Hd2.
    + exists s', d. rewrite <- Hd2. split; [exact E|]. split; [done|]. split; [exact Hd|]. split; [exact Hsch|exact Hc].
Qed.

Lemma irq_loop_spec l : forall fuel s, seg Next (objs s) (TimerListHead s) l None -> (length l <= fuel)%nat ->
  exists l1 l2, l = l1 ++ l2 /\ (forall x, x ∈ l1 -> ts (objs s) x = 0) /\
    match l2 with [] => True | x :: _ => ts (objs s) x <> 0 end /\
    irq_loop run_callback fuel s =
      Done (s <| TimerListHead := head l2 |> <| called := called s ++ callbacks (objs s) l1 |>).
Proof.
  induction l as [|x l IH]; intros fuel s Hs Hf.
  - exists [], []. split_and!; [done|by intros x Hx%elem_of_nil|done|]. cbn [seg] in Hs.
    destruct s, fuel; cbn in *; subst; cbn; by rewrite app_nil_r.
  - destruct Hs as [Hh (t & Ht & Hs)]. destruct (decide (Timestamp t = 0)) as [E0|Hn0].
    + destruct fuel as [|fuel]; [simpl in Hf; lia|]. cbn [irq_loop]. rewrite Hh, (deref_ok _ _ t Ht). cbn [rbind]. rewrite E0. cbn [Z.eqb].
      set (s1 := match Callback t with Some f => s <| TimerListHead := Next t |> <| called ::= fun l => l ++ [f] |>
                                     | None => s <| TimerListHead := Next t |> end).
      assert (E1 : (match Callback t with
        | Some f => run_callback f (s <| TimerListHead := Next t |> <| called ::= fun l => l ++ [f] |>)
        | None => Done (s <| TimerListHead := Next t |>) end) = Done s1)
        by (unfold s1; destruct (Callback t); [apply quiet_callbacks|done]).
      rewrite E1. cbn [rbind].
      assert (Es1 : objs s1 = objs s /\ TimerListHead s1 = Next t /\ called s1 = called s ++ option_list (Callback t)).
      { unfold s1. destruct (Callback t); cbn; [done|]. by rewrite app_nil_r. }
      destruct Es1 as (Eo & Eh & Ec). destruct (IH fuel s1) as (l1 & l2 & -> & Hz & Hl2 & E); [by rewrite Eo, Eh|simpl in Hf; lia|].
      exists (x :: l1), l2. rewrite E, Eo, Ec in *. split; [done|]. split; [|split; [done|]].
      * intros y [->|Hy]%elem_of_cons; [by rewrite (ts_at _ _ t)|by apply Hz].
      * f_equal. unfold callbacks. cbn [omap list_omap]. rewrite Ht. cbn [mbind option_bind].
        unfold s1. destruct (Callback t); cbn [option_list]; rewrite <- app_assoc; by destruct s.
    + exists [], (x :: l). split_and!; [done|by intros y Hy%elem_of_nil|by rewrite (ts_at _ _ t)|].
      assert (E : irq_loop run_callback fuel s = Done s).
      { destruct fuel; cbn [irq_loop]; rewrite Hh, (deref_ok _ _ t Ht); cbn [rbind]; by rewrite (proj2 (Z.eqb_neq _ _) Hn0). }
      rewrite E. f_equal. cbn [head callbacks omap list_omap]. rewrite app_nil_r, <- Hh. by destruct s.
Qed.

Lemma deadlines_due ns l1 l2 : (forall x, x ∈ l1 -> ts ns x = 0) -> (forall x, x ∈ l2 -> 0 <= ts ns x) ->
  match l2 with [] => True | x :: _ => ts ns x <> 0 end ->
  filter (fun e => 0 < e.2) (deadlines ns 0 (l1 ++ l2)) = deadlines ns 0 l2 /\
  (filter (fun e => e.2 <= 0) (deadlines ns 0 (l1 ++ l2))).*1 = l1.
Proof.
  intros H1 H2 Hn. induction l1 as [|x l1 IH].
  - cbn [app]. assert (Hp : Forall (fun e => 0 < e.2) (deadlines ns 0 l2)).
    { destruct l2 as [|x l2]; cbn [deadlines]; [by apply List.Forall_nil|]. pose proof (H2 x ltac:(left)) as Hx.
      apply List.Forall_cons; [cbn; lia|]. eapply List.Forall_impl; [|apply deadlines_from; intros y Hy; apply H2; by right].
      cbn. intros e He. lia. }
    clear -Hp. induction (deadlines ns 0 l2) as [|e l IH]; [done|]. apply List.Forall_cons_iff in Hp as [He Hp].
    rewrite filter_cons_True, filter_cons_False by lia. destruct (IH Hp) as [-> ->]. done.
  - cbn [app deadlines]. rewrite (H1 x) by left. change (0 + 0) with 0. rewrite filter_cons_False, filter_cons_True by (cbn; lia).
    destruct IH as [-> E]; [intros y Hy; apply H1; by right|]. cbn. by rewrite E.
Qed.

Lemma TimerIrqHandler_spec fuel s h t l : timers_wf s (h :: l) -> objs s !! h = Some t -> IsRunning t = true ->
  (length (h :: l) <= fuel)%nat ->
  exists s' l' d, TimerIrqHandler run_callback fuel s = Done s' /\ timers_wf s' l' /\ 0 <= d <= 2 * McuWakeUpTime s /\
    schedule s' l' = earlier d (filter (fun e => 0 < e.2) (schedule s (h :: l))) /\
    called s' = called s ++ callbacks (objs s) (filter (fun e => e.2 <= 0) (schedule s (h :: l))).*1.
Proof.
  intros Hw Ht Hrun Hf. pose proof Hw as [W1 W2 W3 W4 W5 W6 W7]. pose proof W1 as [Hh (t' & Ht' & Hs)].
  replace t' with t in Hs by congruence. clear t' Ht'. unfold TimerIrqHandler. rewrite Hh, (store_ok _ h t) by done. cbn [rbind].
  set (s1 := s <| objs := _ |>).
  pose proof (head_remaining_range t s W6 (W5 h t ltac:(left) Ht)) as Hr.
  apply NoDup_cons in W2 as [Hhl Hnd].
  assert (Hd1 : deadlines (objs s1) 0 (h :: l) = schedule s (h :: l)).
  { cbn [deadlines schedule]. rewrite Ht. cbn [from_option]. unfold s1. cbn [update objs]. rewrite ts_insert_eq. cbn [update Timestamp].
    assert (Er : (if Timestamp t <=? TimerGetValue s then 0 else Timestamp t - TimerGetValue s) = head_remaining t s).
    { unfold head_remaining. rewrite Hrun. destruct (Z.leb_spec (Timestamp t) (TimerGetValue s)); lia. }
    rewrite Er, Z.add_0_l. f_equal. apply deadlines_ext. intros x Hx. rewrite ts_insert_ne; [done|]. by intros ->. }
  assert (Hs1 : seg Next (objs s1) (TimerListHead s1) (h :: l) None).
  { change (TimerListHead s1) with (TimerListHead s). rewrite Hh. split; [done|]. eexists. split; [apply lookup_insert_eq|].
    cbn [update Next]. by apply seg_insert. }
  assert (Hl1 : forall x u, x ∈ h :: l -> objs s1 !! x = Some u -> IsRunning u = false /\ 0 <= Timestamp u).
  { intros x u Hx. unfold s1. cbn [update objs]. destruct (decide (x = h)) as [->|Hne].
    - rewrite lookup_insert_eq. intros [= <-]. cbn [update IsRunning Timestamp]. split; [done|].
      pose proof (W5 h t ltac:(left) Ht). destruct (Z.leb_spec (Timestamp t) (TimerGetValue s)); lia.
    - rewrite lookup_insert_ne by done. apply elem_of_cons in Hx as [->|Hx]; [done|]. intros Hu.
      split; [by apply (W3 x)|by apply (W5 x); [right|]]. }
  assert (Hcb : forall k, callbacks (objs s1) k = callbacks (objs s) k).
  { intros k. apply callbacks_ext. intros x. unfold s1. cbn [update objs].
    destruct (decide (x = h)) as [->|]; [by rewrite lookup_insert_eq, Ht|by rewrite lookup_insert_ne]. }
  destruct (irq_loop_spec (h :: l) fuel s1 Hs1 Hf) as (l1 & l2 & El & Hz & Hl2 & E). rewrite E. cbn [rbind]. clear E.
  assert (Hpos1 : forall x, x ∈ h :: l -> 0 <= ts (objs s1) x).
  { intros x Hx. unfold ts. destruct (objs s1 !! x) as [u|] eqn:Eu; cbn; [by apply (Hl1 x)|lia]. }
  destruct (deadlines_due (objs s1) l1 l2 Hz) as [Hf1 Hf2]; [intros x Hx; apply Hpos1; rewrite El; apply elem_of_app; by right|done|].
  rewrite <- Hd1, El, Hf1, Hf2, <- Hcb. rewrite <- Hd1 in W4. rewrite El in W4, Hs1, Hl1.
  change (McuWakeUpTime s) with (McuWakeUpTime s1) in *. change (called s) with (called s1). 
  assert (Hnd12 : NoDup (l1 ++ l2)) by (rewrite <- El; by apply NoDup_cons).
  assert (Hv1 : 0 <= TimerGetValue s1) by exact W6. clearbody s1.
  set (s2 := s1 <| TimerListHead := head l2 |> <| called := called s1 ++ callbacks (objs s1) l1 |>).
  destruct (rearm_head s2 l2) as (s' & d & E & Hw' & Hd & Hsch & Hc); try done.
  - cbn [s2 update objs TimerListHead]. apply seg_app in Hs1 as (q & _ & Hs1). destruct l2 as [|x l2]; [done|].
    destruct Hs1 as [-> Hs1]. by split.
  - by apply NoDup_app in Hnd12 as (_ & _ & ?).
  - intros x u Hx. apply Hl1, elem_of_app. by right.
  - change (objs s2) with (objs s1). rewrite Forall_fmap, <- Hf1. rewrite Forall_fmap in W4. rewrite Forall_forall in W4 |- *. intros e [_ He]%list_elem_of_filter. by apply W4.
  - exists s', l2, d. split; [exact E|]. split; [done|]. split; [exact Hd|]. split; [exact Hsch|exact Hc].
Qed.
End Handler.

(** ** Two timers for examples: 1 is running and has 200 of its 300 left, 2 waits for 50 more; 3 is not started. *)
Definition demo_timers : timers := {|
  objs := <[1 := mkTimer 300 300 true (Some 11) (Some 2)]> (<[2 := mkTimer 50 350 false (Some 12) None]>
          (<[3 := mkTimer 0 220 false (Some 13) None]> ∅));
  TimerListHead := Some 1; HasLoopedThroughMain := 0; now := 1100; RtcCalendarContext := 1000; McuWakeUpTime := 4;
  NonScheduledWakeUp := false; RtcTimerEventAllowsLowPower := false; LowPowerDisableDuringTask := false;
  alarms := []; sleeping := false; called := [] |}.

Ltac u32_list := repeat (apply List.Forall_cons; [cbn; unfold is_u32; lia|]); apply List.Forall_nil.

Lemma demo_timers_wf : timers_wf demo_timers [1; 2].
Proof.
  apply mkTimersWf.
  - split; [done|]. eexists. split; [reflexivity|]. split; [done|]. eexists. by split; [reflexivity|].
  - apply NoDup_cons. split; [by rewrite list_elem_of_singleton|apply NoDup_singleton].
  - intros x t ->%list_elem_of_singleton. vm_compute. by intros [= <-].
  - change (schedule demo_timers [1; 2]) with [(1, 200); (2, 250)]. u32_list.
  - intros x t [->|[->|?%elem_of_nil]%elem_of_cons]%elem_of_cons; [| |done]; vm_compute; by intros [= <-].
  - by vm_compute.
  - by vm_compute.
Qed.

(** * Properties *)

(** C28: the list of relative times implements an ordered list of deadlines.
    Starting a timer that is not listed puts it, with its reload value counted
    from now, behind the deadlines that are not later; starting a
    listed one does nothing; stopping removes exactly that timer.  All other
    deadlines stay what they are, except that programming a new head may bring
    all of them forward by at most two wake-up times of the board. *)
Theorem timer_operations_correct s l q o : timers_wf s l -> objs s !! q = Some o ->
  is_u32 (ReloadValue o) -> 0 <= Timestamp o ->
  (if decide (q ∈ l) then TimerStart (Some q) s = Done s else
   exists s' l' d, TimerStart (Some q) s = Done s' /\ timers_wf s' l' /\ 0 <= d <= 2 * McuWakeUpTime s /\
    schedule s' l' = earlier d (insert_deadline q (ReloadValue o) (schedule s l)) /\
    (TimerListHead s' = TimerListHead s -> d = 0)) /\
  exists s' l' d, TimerStop (Some q) s = Done s' /\ timers_wf s' l' /\ 0 <= d <= 2 * McuWakeUpTime s /\
    schedule s' l' = earlier d (remove_deadline q (schedule s l)) /\ (TimerListHead s' = TimerListHead s -> d = 0).
Proof.
  intros Hw Ho Hu Ht. split; [|by apply (TimerStop_spec s l q o)]. case_decide as Hq; [|by apply TimerStart_spec].
  unfold TimerStart. rewrite (TimerExists_spec s l), bool_decide_true by done. done.
Qed.

Lemma timer_operations_correct_witness : exists s' l' d, TimerStart (Some 3) demo_timers = Done s' /\ timers_wf s' l' /\
  schedule s' l' = earlier d [(1, 200); (3, 220); (2, 250)].
Proof.
  destruct (timer_operations_correct demo_timers [1; 2] 3 (mkTimer 0 220 false (Some 13) None) demo_timers_wf) as [H _];
    [reflexivity|vm_compute; by split|vm_compute; discriminate|].
  rewrite decide_False in H by (rewrite !elem_of_cons, elem_of_nil; intros [?|[?|?]]; done).
  destruct H as (s' & l' & d & E & Hw & _ & Hs & _). exists s', l', d. split; [exact E|]. split; [exact Hw|]. rewrite Hs. reflexivity.
Defined.



(** Stopping the only timer leaves the alarm of the clock programmed, and
    when it goes off the handler dereferences the empty list. *)
Theorem stopped_alarm_dereferences_null run_callback fuel s h : timers_wf s [h] ->
  exists s', TimerStop (Some h) s = Done s' /\ alarms s' = alarms s /\ TimerIrqHandler run_callback fuel s' = Undef.
Proof.
  intros [[Hh (t & Ht & Hs)] _ _ _ _ _ _]. unfold TimerStop. rewrite Hh, (deref_ok _ _ t Ht). cbn [rbind]. cbn [seg] in Hs.
  rewrite Z.eqb_refl, Hs. eexists. split; [reflexivity|]. by split.
Qed.

Definition demo_single : timers := demo_timers <| objs := <[1 := mkTimer 300 300 true (Some 11) None]> ∅ |>.

Lemma stopped_alarm_dereferences_null_witness :
  exists s', TimerStop (Some 1) demo_single = Done s' /\ alarms s' = [] /\ TimerIrqHandler (fun _ s => Done s) 5 s' = Undef.
Proof.
  apply (stopped_alarm_dereferences_null (fun _ s => Done s) 5 demo_single 1). apply mkTimersWf.
  - split; [done|]. eexists. by split; [reflexivity|].
  - apply NoDup_singleton.
  - by intros x t Hx%elem_of_nil.
  - change (schedule demo_single [1]) with [(1, 200)]. u32_list.
  - intros x t ->%list_elem_of_singleton. vm_compute. by intros [= <-].
  - by vm_compute.
  - by vm_compute.
Defined.

End Timer.
