(* ===== verification/Aes.v ===== *)
(** AES of src/src/system/crypto/aes.c (Gladman's byte-oriented version) as it
    is configured in aes.h: encryption with a precomputed key schedule
    ([AES_ENC_PREKEYED]), the S-box tables ([USE_TABLES]) and the in-place
    [mix_sub_columns] ([VERSION_1]).  The tableless S-box of the same file is
    modelled too and is the reference for the tables.  The reference cipher is
    that of FIPS-197. *)
From S2P Require Import Prelude.

Module Aes.

Infix "⊕" := Z.lxor (at level 45, left associativity).

(** * Field arithmetic macros *)

Definition WPOLY : Z := 0x11b.
Definition BPOLY : Z := 0x1b.

Definition f2 (x : Z) : Z := Z.shiftl x 1 ⊕ (Z.land (Z.shiftr x 7) 1 * WPOLY).
Definition f3 (x : Z) : Z := f2 x ⊕ x.

Definition sb_data : list Z :=
  [ 0x63; 0x7c; 0x77; 0x7b; 0xf2; 0x6b; 0x6f; 0xc5; 0x30; 0x01; 0x67; 0x2b; 0xfe; 0xd7; 0xab; 0x76;
    0xca; 0x82; 0xc9; 0x7d; 0xfa; 0x59; 0x47; 0xf0; 0xad; 0xd4; 0xa2; 0xaf; 0x9c; 0xa4; 0x72; 0xc0;
    0xb7; 0xfd; 0x93; 0x26; 0x36; 0x3f; 0xf7; 0xcc; 0x34; 0xa5; 0xe5; 0xf1; 0x71; 0xd8; 0x31; 0x15;
    0x04; 0xc7; 0x23; 0xc3; 0x18; 0x96; 0x05; 0x9a; 0x07; 0x12; 0x80; 0xe2; 0xeb; 0x27; 0xb2; 0x75;
    0x09; 0x83; 0x2c; 0x1a; 0x1b; 0x6e; 0x5a; 0xa0; 0x52; 0x3b; 0xd6; 0xb3; 0x29; 0xe3; 0x2f; 0x84;
    0x53; 0xd1; 0x00; 0xed; 0x20; 0xfc; 0xb1; 0x5b; 0x6a; 0xcb; 0xbe; 0x39; 0x4a; 0x4c; 0x58; 0xcf;
    0xd0; 0xef; 0xaa; 0xfb; 0x43; 0x4d; 0x33; 0x85; 0x45; 0xf9; 0x02; 0x7f; 0x50; 0x3c; 0x9f; 0xa8;
    0x51; 0xa3; 0x40; 0x8f; 0x92; 0x9d; 0x38; 0xf5; 0xbc; 0xb6; 0xda; 0x21; 0x10; 0xff; 0xf3; 0xd2;
    0xcd; 0x0c; 0x13; 0xec; 0x5f; 0x97; 0x44; 0x17; 0xc4; 0xa7; 0x7e; 0x3d; 0x64; 0x5d; 0x19; 0x73;
    0x60; 0x81; 0x4f; 0xdc; 0x22; 0x2a; 0x90; 0x88; 0x46; 0xee; 0xb8; 0x14; 0xde; 0x5e; 0x0b; 0xdb;
    0xe0; 0x32; 0x3a; 0x0a; 0x49; 0x06; 0x24; 0x5c; 0xc2; 0xd3; 0xac; 0x62; 0x91; 0x95; 0xe4; 0x79;
    0xe7; 0xc8; 0x37; 0x6d; 0x8d; 0xd5; 0x4e; 0xa9; 0x6c; 0x56; 0xf4; 0xea; 0x65; 0x7a; 0xae; 0x08;
    0xba; 0x78; 0x25; 0x2e; 0x1c; 0xa6; 0xb4; 0xc6; 0xe8; 0xdd; 0x74; 0x1f; 0x4b; 0xbd; 0x8b; 0x8a;
    0x70; 0x3e; 0xb5; 0x66; 0x48; 0x03; 0xf6; 0x0e; 0x61; 0x35; 0x57; 0xb9; 0x86; 0xc1; 0x1d; 0x9e;
    0xe1; 0xf8; 0x98; 0x11; 0x69; 0xd9; 0x8e; 0x94; 0x9b; 0x1e; 0x87; 0xe9; 0xce; 0x55; 0x28; 0xdf;
    0x8c; 0xa1; 0x89; 0x0d; 0xbf; 0xe6; 0x42; 0x68; 0x41; 0x99; 0x2d; 0x0f; 0xb0; 0x54; 0xbb; 0x16 ].

Definition sbox : list Z := sb_data.
Definition gfm2_sbox : list Z := map (fun x => u8 (f2 x)) sb_data.
Definition gfm3_sbox : list Z := map (fun x => u8 (f3 x)) sb_data.

Definition s_box (x : Z) : Z := sbox.[x].
Definition gfm2_sb (x : Z) : Z := gfm2_sbox.[x].
Definition gfm3_sb (x : Z) : Z := gfm3_sbox.[x].
Arguments s_box : simpl never.
Arguments gfm2_sb : simpl never.
Arguments gfm3_sb : simpl never.

(** * The tableless S-box *)

Definition hibit (x : Z) : Z :=
  let r := u8 (Z.lor (Z.shiftr x 1) (Z.shiftr x 2)) in
  let r := u8 (Z.lor r (Z.shiftr r 2)) in
  let r := u8 (Z.lor r (Z.shiftr r 4)) in
  u8 (Z.shiftr (r + 1) 1).

(** The inner loop [while(n2 >= n1)]: divides [p2] by [p1]. *)
Fixpoint gf_inv_div (fuel : nat) (p1 n1 v1 p2 n2 v2 : Z) : run (Z * Z * Z) :=
  match fuel with
  | O => NoFuel
  | S fuel' =>
      if n1 <=? n2 then
        let n2 := n2 / n1 in
        let p2 := p2 ⊕ Z.land (p1 * n2) 0xff in
        let v2 := u8 (v2 ⊕ (v1 * n2)) in
        gf_inv_div fuel' p1 n1 v1 p2 (hibit p2) v2
      else Done (p2, n2, v2)
  end.

(** The outer loop [for( ; ; )]; the two halves of its body are the same
    division with the operands swapped, except that the second one reduces
    [p1 ^= p2 * n1] by the assignment to a byte. *)
Fixpoint gf_inv_loop (fuel : nat) (p1 n1 v1 p2 n2 v2 : Z) : run Z :=
  match fuel with
  | O => NoFuel
  | S fuel' =>
      if n1 =? 0 then Done v1 else
      let* (p2, n2, v2) := gf_inv_div 16 p1 n1 v1 p2 n2 v2 in
      if n2 =? 0 then Done v2 else
      let* (p1, n1, v1) := gf_inv_div 16 p2 n2 v2 p1 n1 v1 in
      gf_inv_loop fuel' p1 n1 v1 p2 n2 v2
  end.

Definition gf_inv (x : Z) : run Z :=
  if x <? 2 then Done x
  else gf_inv_loop 16 x (hibit x) 1 BPOLY 0x80 0.

Definition fwd_affine (x : Z) : Z :=
  let w := x in
  let w := u32 (w ⊕ (Z.shiftl w 1 ⊕ Z.shiftl w 2 ⊕ Z.shiftl w 3 ⊕ Z.shiftl w 4)) in
  0x63 ⊕ Z.land (w ⊕ Z.shiftr w 8) 0xff.

(** * Block operations *)

Record aes_context := mkCtx { ksch : list Z; rnd : Z }.
#[export] Instance eta_ctx : Eta aes_context := fun c => mkCtx (ksch c) (rnd c).

(** [d[i] ^= s[i]] for the sixteen bytes of a block. *)
Definition xor_block (d s : list Z) : list Z := zip_with Z.lxor d (take 16 s).
Definition copy_and_key (s k : list Z) : list Z := zip_with Z.lxor (take 16 s) (take 16 k).
Definition add_round_key (d k : list Z) : list Z := xor_block d k.

Definition shift_sub_rows (st : list Z) : list Z :=
  let st := st.[0 := s_box st.[0]] in let st := st.[4 := s_box st.[4]] in
  let st := st.[8 := s_box st.[8]] in let st := st.[12 := s_box st.[12]] in
  let tt := st.[1] in
  let st := st.[1 := s_box st.[5]] in let st := st.[5 := s_box st.[9]] in
  let st := st.[9 := s_box st.[13]] in let st := st.[13 := s_box tt] in
  let tt := st.[2] in
  let st := st.[2 := s_box st.[10]] in let st := st.[10 := s_box tt] in
  let tt := st.[6] in
  let st := st.[6 := s_box st.[14]] in let st := st.[14 := s_box tt] in
  let tt := st.[15] in
  let st := st.[15 := s_box st.[11]] in let st := st.[11 := s_box st.[7]] in
  let st := st.[7 := s_box st.[3]] in
  st.[3 := s_box tt].

Definition mix_sub_columns (st : list Z) : list Z :=
  [ gfm2_sb st.[0] ⊕ gfm3_sb st.[5] ⊕ s_box st.[10] ⊕ s_box st.[15];
    s_box st.[0] ⊕ gfm2_sb st.[5] ⊕ gfm3_sb st.[10] ⊕ s_box st.[15];
    s_box st.[0] ⊕ s_box st.[5] ⊕ gfm2_sb st.[10] ⊕ gfm3_sb st.[15];
    gfm3_sb st.[0] ⊕ s_box st.[5] ⊕ s_box st.[10] ⊕ gfm2_sb st.[15];
    gfm2_sb st.[4] ⊕ gfm3_sb st.[9] ⊕ s_box st.[14] ⊕ s_box st.[3];
    s_box st.[4] ⊕ gfm2_sb st.[9] ⊕ gfm3_sb st.[14] ⊕ s_box st.[3];
    s_box st.[4] ⊕ s_box st.[9] ⊕ gfm2_sb st.[14] ⊕ gfm3_sb st.[3];
    gfm3_sb st.[4] ⊕ s_box st.[9] ⊕ s_box st.[14] ⊕ gfm2_sb st.[3];
    gfm2_sb st.[8] ⊕ gfm3_sb st.[13] ⊕ s_box st.[2] ⊕ s_box st.[7];
    s_box st.[8] ⊕ gfm2_sb st.[13] ⊕ gfm3_sb st.[2] ⊕ s_box st.[7];
    s_box st.[8] ⊕ s_box st.[13] ⊕ gfm2_sb st.[2] ⊕ gfm3_sb st.[7];
    gfm3_sb st.[8] ⊕ s_box st.[13] ⊕ s_box st.[2] ⊕ gfm2_sb st.[7];
    gfm2_sb st.[12] ⊕ gfm3_sb st.[1] ⊕ s_box st.[6] ⊕ s_box st.[11];
    s_box st.[12] ⊕ gfm2_sb st.[1] ⊕ gfm3_sb st.[6] ⊕ s_box st.[11];
    s_box st.[12] ⊕ s_box st.[1] ⊕ gfm2_sb st.[6] ⊕ gfm3_sb st.[11];
    gfm3_sb st.[12] ⊕ s_box st.[1] ⊕ s_box st.[6] ⊕ gfm2_sb st.[11] ].

(** * Key schedule *)

Definition copy_block_nn (d s : list Z) (nn : Z) : list Z :=
  take (Z.to_nat nn) s ++ drop (Z.to_nat nn) d.

(** The body of the loop over [cc]. *)
Definition key_step (keylen cc rc : Z) (ks : list Z) : Z * list Z :=
  let t0 := ks.[cc - 4] in let t1 := ks.[cc - 3] in
  let t2 := ks.[cc - 2] in let t3 := ks.[cc - 1] in
  let '(t0, t1, t2, t3, rc) :=
    if cc mod keylen =? 0 then
      (s_box t1 ⊕ rc, s_box t2, s_box t3, s_box t0, u8 (f2 rc))
    else if (24 <? keylen) && (cc mod keylen =? 16) then
      (s_box t0, s_box t1, s_box t2, s_box t3, rc)
    else (t0, t1, t2, t3, rc) in
  let tt := u8 (cc - keylen) in
  let ks := ks.[cc := ks.[tt] ⊕ t0] in
  let ks := ks.[cc + 1 := ks.[tt + 1] ⊕ t1] in
  let ks := ks.[cc + 2 := ks.[tt + 2] ⊕ t2] in
  let ks := ks.[cc + 3 := ks.[tt + 3] ⊕ t3] in
  (rc, ks).

(** [for( cc = keylen, rc = 1; cc < hi; cc += 4 )] with byte-wide counters. *)
Fixpoint key_loop (fuel : nat) (keylen hi cc rc : Z) (ks : list Z) : run (list Z) :=
  match fuel with
  | O => NoFuel
  | S fuel' =>
      if cc <? hi then
        let '(rc, ks) := key_step keylen cc rc ks in
        key_loop fuel' keylen hi (u8 (cc + 4)) rc ks
      else Done ks
  end.

(** Returns the status byte and the context; 240 / 4 iterations are enough for
    every accepted key length. *)
Definition aes_set_key (key : list Z) (keylen : Z) (ctx : aes_context) : run (Z * aes_context) :=
  if negb ((keylen =? 16) || (keylen =? 24) || (keylen =? 32))
  then Done (255, ctx <| rnd := 0 |>)
  else
    let ks := copy_block_nn (ksch ctx) key keylen in
    let hi := u8 (Z.shiftl (keylen + 28) 2) in
    let r := u8 (Z.shiftr hi 4 - 1) in
    let* ks := key_loop 61 keylen hi keylen 1 ks in
    Done (0, mkCtx ks r).

(** * Encryption of one block *)

Definition round_key (ctx : aes_context) (r : Z) : list Z := drop (Z.to_nat (r * 16)) (ksch ctx).

Fixpoint encrypt_rounds (n : nat) (ctx : aes_context) (r : Z) (s1 : list Z) : list Z :=
  match n with
  | O => s1
  | S n' =>
      let s1 := mix_sub_columns s1 in
      let s1 := add_round_key s1 (round_key ctx r) in
      encrypt_rounds n' ctx (r + 1) s1
  end.

(** [None] is the status 255 returned when no key is set; [out] is then not
    written.  The loop [for( r = 1 ; r < ctx->rnd ; ++r )] runs [rnd - 1] times. *)
Definition aes_encrypt (inp : list Z) (ctx : aes_context) : option (list Z) :=
  if rnd ctx =? 0 then None
  else
    let s1 := copy_and_key inp (ksch ctx) in
    let s1 := encrypt_rounds (Z.to_nat (rnd ctx - 1)) ctx 1 s1 in
    let s1 := shift_sub_rows s1 in
    Some (copy_and_key s1 (round_key ctx (rnd ctx))).

(** CBC over [n_block] blocks: the output and the new IV, or [None] for
    [EXIT_FAILURE]. *)
Fixpoint aes_cbc_encrypt (n_block : nat) (inp iv : list Z) (ctx : aes_context)
  : option (list Z * list Z) :=
  match n_block with
  | O => Some ([], iv)
  | S n' =>
      match aes_encrypt (xor_block iv inp) ctx with
      | None => None
      | Some iv' =>
          match aes_cbc_encrypt n' (drop 16 inp) iv' ctx with
          | None => None
          | Some (out, iv'') => Some (iv' ++ out, iv'')
          end
      end
  end.

(** * Reference: FIPS-197 *)

(** Multiplication in GF(2^8) modulo x^8 + x^4 + x^3 + x + 1, by repeated
    doubling of the first factor over the bits of the second. *)
Definition xtime (x : Z) : Z :=
  if x <? 128 then 2 * x else (2 * x) mod 256 ⊕ BPOLY.

Fixpoint gmul_bits (n : nat) (x y : Z) : Z :=
  match n with
  | O => 0
  | S n' => (if Z.odd y then x else 0) ⊕ gmul_bits n' (xtime x) (y / 2)
  end.
Definition gmul (x y : Z) : Z := gmul_bits 8 x y.
Arguments gmul : simpl never.

Module Fips197.
Definition SubBytes (st : list Z) : list Z := map s_box st.

(** Row [r] of the column-major state moves left by [r]. *)
Definition ShiftRows (st : list Z) : list Z :=
  [ st.[0]; st.[5]; st.[10]; st.[15]; st.[4]; st.[9]; st.[14]; st.[3];
    st.[8]; st.[13]; st.[2]; st.[7]; st.[12]; st.[1]; st.[6]; st.[11] ].

Definition MixColumn (a b c d : Z) : list Z :=
  [ gmul a 2 ⊕ gmul b 3 ⊕ c ⊕ d; a ⊕ gmul b 2 ⊕ gmul c 3 ⊕ d;
    a ⊕ b ⊕ gmul c 2 ⊕ gmul d 3; gmul a 3 ⊕ b ⊕ c ⊕ gmul d 2 ].
Definition MixColumns (st : list Z) : list Z :=
  MixColumn st.[0] st.[1] st.[2] st.[3] ++ MixColumn st.[4] st.[5] st.[6] st.[7]
  ++ MixColumn st.[8] st.[9] st.[10] st.[11] ++ MixColumn st.[12] st.[13] st.[14] st.[15].

Definition AddRoundKey (st k : list Z) : list Z := zip_with Z.lxor st k.

(** Key expansion for a 128-bit key, one round key (four words) at a time. *)
Definition RotSub (w : list Z) (rcon : Z) : list Z :=
  [ s_box w.[1] ⊕ rcon; s_box w.[2]; s_box w.[3]; s_box w.[0] ].
Definition NextKey (k : list Z) (rcon : Z) : list Z :=
  let w0 := zip_with Z.lxor (take 4 k) (RotSub (drop 12 k) rcon) in
  let w1 := zip_with Z.lxor (take 4 (drop 4 k)) w0 in
  let w2 := zip_with Z.lxor (take 4 (drop 8 k)) w1 in
  let w3 := zip_with Z.lxor (take 4 (drop 12 k)) w2 in
  w0 ++ w1 ++ w2 ++ w3.
Fixpoint RoundKeys (n : nat) (k : list Z) (rcon : Z) : list (list Z) :=
  match n with
  | O => [k]
  | S n' => k :: RoundKeys n' (NextKey k rcon) (xtime rcon)
  end.

Fixpoint Rounds (st : list Z) (ks : list (list Z)) : list Z :=
  match ks with
  | [] => st
  | [k] => AddRoundKey (ShiftRows (SubBytes st)) k
  | k :: ks' => Rounds (AddRoundKey (MixColumns (ShiftRows (SubBytes st))) k) ks'
  end.

(** AES-128. *)
Definition Cipher (key block : list Z) : list Z :=
  match RoundKeys 10 key 1 with
  | [] => block
  | k0 :: ks => Rounds (AddRoundKey block k0) ks
  end.
End Fips197.
Import Fips197.

(** * Tables against the field *)

Lemma s_box_range x : is_u8 (s_box x).
Proof.
  apply znth_bytes. apply bytesb_true. vm_compute. reflexivity.
Qed.
#[local] Hint Resolve s_box_range : mach.

Lemma gfm_sb_gmul x : is_u8 x -> gfm2_sb x = gmul (s_box x) 2 /\ gfm3_sb x = gmul (s_box x) 3.
Proof.
  intros Hx.
  pose proof (forall_u8 (fun x => (gfm2_sb x =? gmul (s_box x) 2) && (gfm3_sb x =? gmul (s_box x) 3))
    ltac:(vm_compute; reflexivity) x Hx) as H.
  apply andb_true_iff in H as [H1%Z.eqb_eq H2%Z.eqb_eq]. done.
Qed.

Lemma f2_xtime x : is_u8 x -> u8 (f2 x) = xtime x.
Proof.
  intros Hx. apply Z.eqb_eq.
  exact (forall_u8 (fun x => u8 (f2 x) =? xtime x) ltac:(vm_compute; reflexivity) x Hx).
Qed.

(** * Rounds against the reference *)

Lemma mix_sub_columns_ref st : length st = 16%nat -> bytes st ->
  mix_sub_columns st = MixColumns (ShiftRows (SubBytes st)).
Proof.
  intros Hl Hb. unfold mix_sub_columns.
  explode st. repeat match goal with H : Forall _ (_ :: _) |- _ => inversion_clear H end.
  unfold MixColumns, ShiftRows, SubBytes, MixColumn. cbn [map app]. znth_lit.
  repeat match goal with
  | |- context [gfm2_sb ?x] => rewrite (proj1 (gfm_sb_gmul x ltac:(assumption)))
  | |- context [gfm3_sb ?x] => rewrite (proj2 (gfm_sb_gmul x ltac:(assumption)))
  end.
  reflexivity.
Qed.

Lemma shift_sub_rows_ref st : length st = 16%nat ->
  shift_sub_rows st = ShiftRows (SubBytes st).
Proof. intros Hl. explode st. reflexivity. Qed.

Definition is_block (l : list Z) : Prop := length l = 16%nat /\ bytes l.

Lemma add_key_block a b : is_block a -> is_block b -> is_block (AddRoundKey a b).
Proof.
  intros [Ha1 Ha2] [Hb1 Hb2]. split; [|by apply bytes_zip_lxor].
  unfold AddRoundKey. rewrite length_zip_with. lia.
Qed.

Lemma sub_block a : is_block a -> is_block (ShiftRows (SubBytes a)).
Proof.
  intros [Ha1 Ha2]. split; [done|].
  assert (bytes (SubBytes a)).
  { apply Forall_map, Forall_true. intros. apply s_box_range. }
  unfold ShiftRows. solve_bytes.
Qed.

Lemma mix_sub_block a : bytes a -> is_block (mix_sub_columns a).
Proof.
  intros Ha. split; [done|]. unfold mix_sub_columns.
  assert (H2 : forall x, is_u8 (gfm2_sb x)).
  { intros. apply znth_bytes, bytesb_true. vm_compute. reflexivity. }
  assert (H3 : forall x, is_u8 (gfm3_sb x)).
  { intros. apply znth_bytes, bytesb_true. vm_compute. reflexivity. }
  solve_bytes.
Qed.

Lemma xor_block_ref d k : is_block d -> is_block (take 16 k) ->
  add_round_key d k = AddRoundKey d (take 16 k).
Proof. done. Qed.

(** * Key schedule against the reference *)

(** A step does not depend on what precedes the key it reads. *)
Lemma key_step_shift pre l d rc :
  zlen pre mod 16 = 0 -> 16 <= d -> zlen pre + d < 256 ->
  key_step 16 (zlen pre + d) rc (pre ++ l)
  = let '(rc', l') := key_step 16 d rc l in (rc', pre ++ l').
Proof.
  intros Hm Hd Hlt. unfold key_step.
  rewrite (u8_id (zlen pre + d - 16)) by (unfold is_u8; lia).
  rewrite (u8_id (d - 16)) by (unfold is_u8; lia).
  replace ((zlen pre + d) mod 16) with (d mod 16) by lia.
  assert (Hn : forall i (l' : list Z), 0 <= i -> (pre ++ l').[zlen pre + i] = l'.[i]).
  { intros. rewrite znth_app_r by lia. f_equal. lia. }
  assert (Hu : forall i (l' : list Z) x, 0 <= i -> (pre ++ l').[zlen pre + i := x] = pre ++ l'.[i := x]).
  { intros. rewrite zupd_app_r by lia. do 2 f_equal. lia. }
  replace (zlen pre + d - 4) with (zlen pre + (d - 4)) by lia.
  replace (zlen pre + d - 3) with (zlen pre + (d - 3)) by lia.
  replace (zlen pre + d - 2) with (zlen pre + (d - 2)) by lia.
  replace (zlen pre + d - 1) with (zlen pre + (d - 1)) by lia.
  replace (zlen pre + d - 16) with (zlen pre + (d - 16)) by lia.
  rewrite <- !(Z.add_assoc (zlen pre)). rewrite !Hn by lia.
  change (24 <? 16) with false. cbn [andb].
  destruct (d mod 16 =? 0); cbv beta iota zeta;
    repeat first [rewrite Hu by lia | rewrite Hn by lia]; reflexivity.
Qed.

(** Four steps from a round key produce the next one. *)
Lemma key_steps_ref k rest rc : is_block k -> (16 <= length rest)%nat ->
  exists ks1 ks2 ks3,
    key_step 16 16 rc (k ++ rest) = (u8 (f2 rc), ks1) /\
    key_step 16 20 (u8 (f2 rc)) ks1 = (u8 (f2 rc), ks2) /\
    key_step 16 24 (u8 (f2 rc)) ks2 = (u8 (f2 rc), ks3) /\
    key_step 16 28 (u8 (f2 rc)) ks3 = (u8 (f2 rc), k ++ NextKey k rc ++ drop 16 rest).
Proof.
  intros [Hk _] Hr. explode k.
  do 16 (destruct rest as [|? rest]; [simpl in Hr; lia|]). clear.
  eexists _, _, _. split_and!; reflexivity.
Qed.

Lemma next_key_block k rc : is_block k -> is_u8 rc -> is_block (NextKey k rc).
Proof.
  intros [Hk Hb] Hrc. explode k. split; [reflexivity|].
  repeat match goal with H : Forall _ (_ :: _) |- _ => inversion_clear H end.
  unfold NextKey, RotSub. cbn. znth_lit. solve_bytes.
Qed.

Lemma key_loop_round fuel pre k rest rc :
  zlen pre mod 16 = 0 -> is_block k -> (16 <= length rest)%nat -> zlen pre + 16 < 176 ->
  key_loop (4 + fuel) 16 176 (zlen pre + 16) rc (pre ++ k ++ rest)
  = key_loop fuel 16 176 (zlen (pre ++ k) + 16) (u8 (f2 rc))
      ((pre ++ k) ++ NextKey k rc ++ drop 16 rest).
Proof.
  intros Hm Hk Hr Hlt.
  destruct (key_steps_ref k rest rc Hk Hr) as (ks1 & ks2 & ks3 & E1 & E2 & E3 & E4).
  assert (Hl : zlen (pre ++ k) = zlen pre + 16).
  { rewrite length_app. destruct Hk as [-> _]. lia. }
  cbn [Nat.add key_loop]. zdecide.
  rewrite key_step_shift, E1 by lia. cbn iota beta.
  replace (u8 (zlen pre + 16 + 4)) with (zlen pre + 20) by machine. zdecide.
  rewrite key_step_shift, E2 by lia. cbn iota beta.
  replace (u8 (zlen pre + 20 + 4)) with (zlen pre + 24) by machine. zdecide.
  rewrite key_step_shift, E3 by lia. cbn iota beta.
  replace (u8 (zlen pre + 24 + 4)) with (zlen pre + 28) by machine. zdecide.
  rewrite key_step_shift, E4 by lia. cbn iota beta.
  replace (u8 (zlen pre + 28 + 4)) with (zlen pre + 32) by machine.
  rewrite Hl, <- app_assoc. f_equal. lia.
Qed.

Lemma key_loop_ref n : forall fuel pre k rest rc,
  zlen pre mod 16 = 0 -> is_block k -> is_u8 rc -> (16 * n <= length rest)%nat ->
  zlen pre + 16 + 16 * Z.of_nat n = 176 ->
  key_loop (4 * n + S fuel) 16 176 (zlen pre + 16) rc (pre ++ k ++ rest)
  = Done (pre ++ mjoin (RoundKeys n k rc) ++ drop (16 * n) rest).
Proof.
  induction n as [|n IH]; intros fuel pre k rest rc Hm Hk Hrc Hr Hlen.
  - cbn [Nat.mul Nat.add key_loop RoundKeys]. zdecide.
    unfold mjoin. cbn [list_join]. rewrite app_nil_r. done.
  - replace (4 * S n + S fuel)%nat with (4 + (4 * n + S fuel))%nat by lia.
    rewrite key_loop_round by (done || lia).
    assert (Hl : zlen (pre ++ k) = zlen pre + 16).
    { rewrite length_app. destruct Hk as [-> _]. lia. }
    rewrite IH.
    + cbn [RoundKeys]. rewrite f2_xtime by done. unfold mjoin. cbn [list_join].
      rewrite <- !app_assoc, drop_drop. do 5 f_equal. lia.
    + rewrite Hl. lia.
    + by apply next_key_block.
    + apply u8_range.
    + rewrite length_drop. lia.
    + rewrite Hl. lia.
Qed.

Lemma aes_set_key_ref key ctx : is_block key -> length (ksch ctx) = 240%nat ->
  aes_set_key key 16 ctx
  = Done (0, mkCtx (mjoin (RoundKeys 10 key 1) ++ drop 176 (ksch ctx)) 10).
Proof.
  intros Hk Hc. unfold aes_set_key. cbn [Z.eqb orb negb Pos.eqb].
  change (u8 (Z.shiftl (16 + 28) 2)) with 176. change (u8 (Z.shiftr 176 4 - 1)) with 10.
  unfold copy_block_nn. change (Z.to_nat 16) with 16%nat.
  rewrite (take_ge key) by (destruct Hk; lia).
  pose proof (key_loop_ref 10 20 [] key (drop 16 (ksch ctx)) 1 eq_refl Hk
    ltac:(unfold is_u8; lia) ltac:(rewrite length_drop; lia) eq_refl) as E.
  change (4 * 10 + 21)%nat with 61%nat in E. cbn [app length] in E.
  change (Z.of_nat 0 + 16) with 16 in E. rewrite E. cbn [rbind].
  rewrite drop_drop. done.
Qed.

Lemma round_keys_blocks n : forall k rc, is_block k -> is_u8 rc ->
  Forall is_block (RoundKeys n k rc) /\ length (RoundKeys n k rc) = S n.
Proof.
  induction n as [|n IH]; intros k rc Hk Hrc; cbn [RoundKeys].
  - split; [|done]. by apply Forall_singleton.
  - rewrite <- f2_xtime by done.
    destruct (IH (NextKey k rc) (u8 (f2 rc))) as [H1 H2];
      [by apply next_key_block|apply u8_range|].
    split; [by constructor|]. simpl. by rewrite H2.
Qed.

Lemma take_block k rest : is_block k -> take 16 (k ++ rest) = k.
Proof. intros [H _]. by rewrite take_app_length'. Qed.

(** * Encryption against the reference *)

Lemma rounds_ref ks : forall ctx r s1 k rest,
  Forall is_block ks -> is_block k -> is_block s1 -> 0 <= r ->
  drop (Z.to_nat (r * 16)) (ksch ctx) = mjoin (ks ++ [k]) ++ rest ->
  copy_and_key (shift_sub_rows (encrypt_rounds (length ks) ctx r s1))
    (round_key ctx (r + zlen ks)) = Rounds s1 (ks ++ [k]).
Proof.
  induction ks as [|k1 ks IH]; intros ctx r s1 k rest Hks Hk Hs Hr E.
  - cbn [length encrypt_rounds app Rounds]. change (Z.of_nat 0) with 0.
    rewrite Z.add_0_r. unfold copy_and_key, round_key. rewrite E.
    unfold mjoin. cbn [app list_join]. rewrite app_nil_r, take_block by done.
    rewrite shift_sub_rows_ref by apply Hs.
    pose proof (sub_block s1 Hs) as [Hl _]. by rewrite take_ge by lia.
  - apply List.Forall_cons_iff in Hks as [Hk1 Hks]. cbn [length encrypt_rounds].
    assert (E1 : take 16 (round_key ctx r) = k1).
    { unfold round_key. rewrite E. unfold mjoin. cbn [app list_join].
      rewrite <- app_assoc. by apply take_block. }
    unfold add_round_key, xor_block. rewrite E1, mix_sub_columns_ref by apply Hs.
    replace (r + Z.of_nat (S (length ks))) with (r + 1 + zlen ks) by lia.
    pose proof (mix_sub_block s1 (proj2 Hs)) as Hm. rewrite mix_sub_columns_ref in Hm by apply Hs.
    fold (AddRoundKey (MixColumns (ShiftRows (SubBytes s1))) k1).
    rewrite (IH ctx (r + 1) (AddRoundKey (MixColumns (ShiftRows (SubBytes s1))) k1) k rest).
    + cbn [app]. destruct (ks ++ [k]) eqn:Ek; [by destruct ks|done].
    + done.
    + done.
    + by apply add_key_block.
    + lia.
    + replace (Z.to_nat ((r + 1) * 16)) with (Z.to_nat (r * 16) + 16)%nat by lia.
      rewrite <- drop_drop, E. unfold mjoin. cbn [app list_join].
      rewrite <- app_assoc. by rewrite drop_app_length' by (symmetry; apply Hk1).
Qed.

Lemma aes_encrypt_ref key block rest :
  is_block key -> is_block block ->
  aes_encrypt block (mkCtx (mjoin (RoundKeys 10 key 1) ++ rest) 10) = Some (Cipher key block).
Proof.
  intros Hk Hb. unfold aes_encrypt. cbn [rnd ksch]. change (10 =? 0) with false. cbn iota.
  f_equal. unfold Cipher.
  destruct (round_keys_blocks 10 key 1 Hk ltac:(unfold is_u8; lia)) as [HF HL].
  assert (E0 : exists ks k, RoundKeys 10 key 1 = key :: ks ++ [k]).
  { cbn [RoundKeys]. eexists [_;_;_;_;_;_;_;_;_], _. reflexivity. }
  destruct E0 as (ks & k & E0). rewrite E0 in *.
  apply List.Forall_cons_iff in HF as [_ HF]. apply Forall_app in HF as [HF Hlast].
  apply List.Forall_cons_iff in Hlast as [Hlast _].
  assert (Hks : length ks = 9%nat).
  { cbn [length] in HL. rewrite length_app in HL. cbn [length] in HL. lia. }
  assert (Es : copy_and_key block (mjoin (key :: ks ++ [k]) ++ rest) = AddRoundKey block key).
  { unfold copy_and_key, AddRoundKey, mjoin. cbn [list_join].
    rewrite <- app_assoc, take_block by done.
    by rewrite (take_ge block) by (destruct Hb; lia). }
  rewrite Es. change (Z.to_nat (10 - 1)) with 9%nat. rewrite <- Hks.
  replace 10 with (1 + zlen ks) at 3 by lia.
  apply (rounds_ref ks _ 1 _ k rest HF Hlast).
  - by apply add_key_block.
  - lia.
  - change (Z.to_nat (1 * 16)) with 16%nat. cbn [ksch]. unfold mjoin. cbn [list_join].
    rewrite <- app_assoc. by rewrite drop_app_length' by (symmetry; apply Hk).
Qed.

Lemma cipher_block key block : is_block key -> is_block block -> is_block (Cipher key block).
Proof.
  intros Hk Hb. unfold Cipher.
  destruct (round_keys_blocks 10 key 1 Hk ltac:(unfold is_u8; lia)) as [HF _].
  destruct (RoundKeys 10 key 1) as [|k0 ks]; [done|].
  apply List.Forall_cons_iff in HF as [Hk0 HF].
  assert (Hs : is_block (AddRoundKey block k0)) by (by apply add_key_block).
  revert Hs. generalize (AddRoundKey block k0). clear Hk0.
  induction HF as [|k1 ks Hk1 HF IH]; intros st Hs; [done|].
  cbn [Rounds]. destruct ks as [|k2 ks].
  - apply add_key_block; [by apply sub_block|done].
  - apply IH. apply add_key_block; [|done].
    rewrite <- mix_sub_columns_ref by apply Hs. by apply mix_sub_block, Hs.
Qed.

(** * Properties *)

(** For every byte, [sbox] holds the value that the tableless code of
    the same file computes, the affine map of the field inverse; that inverse
    is found within the loops' bounds and is the multiplicative inverse; and
    the two derived tables hold the products by 2 and 3. *)
Theorem sbox_tables_correct (x : Z) :
  is_u8 x ->
  (exists y, gf_inv x = Done y /\ s_box x = fwd_affine y /\ (x <> 0 -> gmul x y = 1)) /\
  gfm2_sb x = gmul (s_box x) 2 /\ gfm3_sb x = gmul (s_box x) 3.
Proof.
  intros Hx. split; [|by apply gfm_sb_gmul].
  pose proof (forall_u8 (fun x => match gf_inv x with
    | Done y => (s_box x =? fwd_affine y) && ((x =? 0) || (gmul x y =? 1))
    | _ => false end) ltac:(vm_compute; reflexivity) x Hx) as H.
  cbv beta in H. destruct (gf_inv x) as [y| |]; try discriminate H.
  apply andb_true_iff in H as [H1%Z.eqb_eq H2%orb_true_iff]. exists y. split_and!; try done.
  intros Hne. destruct H2 as [H2%Z.eqb_eq|H2%Z.eqb_eq]; done.
Qed.

Example sbox_tables_correct_witness :
  (exists y, gf_inv 83 = Done y /\ s_box 83 = fwd_affine y /\ (83 <> 0 -> gmul 83 y = 1)) /\
  gfm2_sb 83 = gmul (s_box 83) 2 /\ gfm3_sb 83 = gmul (s_box 83) 3.
Proof. apply (sbox_tables_correct 83). unfold is_u8. lia. Defined.

(** C19: setting a 16-byte key on any context succeeds, and encrypting a
    block with the resulting schedule is the FIPS-197 cipher, for every key and
    every block. *)
Theorem aes128_is_fips197 (key block : list Z) (ctx : aes_context) :
  is_block key -> is_block block -> length (ksch ctx) = 240%nat ->
  exists ctx', aes_set_key key 16 ctx = Done (0, ctx') /\
    length (ksch ctx') = 240%nat /\
    aes_encrypt block ctx' = Some (Cipher key block) /\ is_block (Cipher key block).
Proof.
  intros Hk Hb Hc. eexists. split; [by apply aes_set_key_ref|]. split_and!.
  - cbn [ksch]. rewrite length_app, length_drop.
    destruct (round_keys_blocks 10 key 1 Hk ltac:(unfold is_u8; lia)) as [HF HL].
    enough (length (mjoin (RoundKeys 10 key 1)) = 176%nat) by lia.
    rewrite (length_mjoin_const 16), HL by exact (List.Forall_impl _ (fun l H => proj1 H) HF). done.
  - by apply aes_encrypt_ref.
  - by apply cipher_block.
Qed.

Example aes128_is_fips197_witness :
  exists ctx', aes_set_key (map Z.of_nat (seq 0 16)) 16 (mkCtx (replicate 240 0) 0) = Done (0, ctx') /\
    length (ksch ctx') = 240%nat /\
    aes_encrypt (map (fun i => 17 * Z.of_nat i) (seq 0 16)) ctx'
    = Some (Cipher (map Z.of_nat (seq 0 16)) (map (fun i => 17 * Z.of_nat i) (seq 0 16))) /\
    is_block (Cipher (map Z.of_nat (seq 0 16)) (map (fun i => 17 * Z.of_nat i) (seq 0 16))).
Proof.
  apply (aes128_is_fips197 (map Z.of_nat (seq 0 16)) (map (fun i => 17 * Z.of_nat i) (seq 0 16))).
  - split; [reflexivity|apply bytesb_true; reflexivity].
  - split; [reflexivity|apply bytesb_true; reflexivity].
  - reflexivity.
Defined.

(** The vector of FIPS-197, appendix C.1. *)
Example fips197_c1 :
  Cipher (map Z.of_nat (seq 0 16)) (map (fun i => 17 * Z.of_nat i) (seq 0 16))
  = [0x69; 0xc4; 0xe0; 0xd8; 0x6a; 0x7b; 0x04; 0x30; 0xd8; 0xcd; 0xb7; 0x80; 0x70; 0xb4; 0xc5; 0x5a].
Proof. vm_compute. reflexivity. Qed.

End Aes.
