(* ===== verification/Cmac.v ===== *)
(** AES-CMAC of src/src/system/crypto/cmac.c: the incremental interface
    (init, set key, update, final) over the context [AES_CMAC_CTX], and its
    equivalence with the one-shot algorithm of RFC 4493. *)
From S2P Require Import Prelude Utilities Aes.

Module Cmac.
Import Aes.

(** * The code *)

Record AES_CMAC_CTX := mkCmac {
  rijndael : aes_context;
  X : list Z;
  M_last : list Z;
  M_n : Z;
}.
#[export] Instance eta_cmac : Eta AES_CMAC_CTX :=
  fun c => mkCmac (rijndael c) (X c) (M_last c) (M_n c).

(** [LSHIFT(v, r)], also with [r] the same array as [v]: element [i] is written
    after [v[i]] and [v[i + 1]] are read. *)
Fixpoint LSHIFT (v : list Z) : list Z :=
  match v with
  | [] => []
  | [b] => [u8 (Z.shiftl b 1)]
  | b :: ((b' :: _) as v') => u8 (Z.lor (Z.shiftl b 1) (Z.shiftr b' 7)) :: LSHIFT v'
  end.

(** [XOR(v, r)]: [r[i] = r[i] ^ v[i]]. *)
Definition XOR (v r : list Z) : list Z := zip_with Z.lxor r (take 16 v).
Arguments XOR : simpl never.

(** [aes_encrypt( b, b, ctx )]: in place, unchanged when no key is set. *)
Definition encrypt_in_place (ctx : aes_context) (b : list Z) : list Z :=
  default b (aes_encrypt b ctx).
Arguments encrypt_in_place : simpl never.

Definition AES_CMAC_Init (ctx : AES_CMAC_CTX) : AES_CMAC_CTX :=
  ctx <| X := replicate 16 0 |> <| M_n := 0 |>
      <| rijndael ::= fun r => r <| ksch := replicate 240 0 |> |>.

Definition AES_CMAC_SetKey (ctx : AES_CMAC_CTX) (key : list Z) : run AES_CMAC_CTX :=
  let* (_, r) := aes_set_key key 16 (rijndael ctx) in
  Done (ctx <| rijndael := r |>).

(** The loop [while (len > 16)]: absorbs all but a potential last block. *)
Fixpoint update_loop (fuel : nat) (rk : aes_context) (Xv data : list Z) (off len : Z)
  : run (list Z * Z * Z) :=
  match fuel with
  | O => NoFuel
  | S fuel' =>
      if 16 <? len then
        let* blk := rdn data off 16 in
        let Xv := XOR blk Xv in
        let Xv := encrypt_in_place rk Xv in
        update_loop fuel' rk Xv data (off + 16) (len - 16)
      else Done (Xv, off, len)
  end.

(** The tail of [AES_CMAC_Update], from the loop on. *)
Definition update_rest (ctx : AES_CMAC_CTX) (data : list Z) (off len : Z) : run AES_CMAC_CTX :=
  let* (Xv, off, len) := update_loop (S (Z.to_nat (len / 16))) (rijndael ctx) (X ctx) data off len in
  let* m := memcpy1 (M_last ctx) 0 data off len in
  Done (ctx <| X := Xv |> <| M_last := m |> <| M_n := len |>).

Definition AES_CMAC_Update (ctx : AES_CMAC_CTX) (data : list Z) (len : Z) : run AES_CMAC_CTX :=
  if 0 <? M_n ctx then
    let mlen := Z.min (16 - M_n ctx) len in
    let* m := memcpy1 (M_last ctx) (M_n ctx) data 0 mlen in
    let ctx := ctx <| M_last := m |> <| M_n ::= fun n => n + mlen |> in
    if (M_n ctx <? 16) || (len =? mlen) then Done ctx
    else
      let ctx := ctx <| X := XOR (M_last ctx) (X ctx) |> in
      let ctx := ctx <| X ::= encrypt_in_place (rijndael ctx) |> in
      update_rest ctx data mlen (len - mlen)
  else update_rest ctx data 0 len.

(** One subkey from the previous value of [K]. *)
Definition subkey_step (K : list Z) : list Z :=
  if negb (Z.land K.[0] 0x80 =? 0) then
    let K := LSHIFT K in K.[15 := Z.lxor K.[15] 0x87]
  else LSHIFT K.

(** [M_last[M_n] = 0x80; while (++M_n < 16) M_last[M_n] = 0;] *)
Definition pad_last (m : list Z) (n : Z) : run (list Z) :=
  let* m := wr m n 0x80 in
  memset1_loop (Z.to_nat (15 - n)) m (n + 1) 0.

Definition AES_CMAC_Final (digest : list Z) (ctx : AES_CMAC_CTX) : run (list Z * AES_CMAC_CTX) :=
  let K := encrypt_in_place (rijndael ctx) (replicate 16 0) in
  let K := subkey_step K in
  let* (m, n) :=
    (if M_n ctx =? 16 then Done (XOR K (M_last ctx), M_n ctx)
     else
       let K := subkey_step K in
       let* m := pad_last (M_last ctx) (M_n ctx) in
       Done (XOR K m, 16)) in
  let Xv := XOR m (X ctx) in
  Done (default digest (aes_encrypt Xv (rijndael ctx)), ctx <| M_last := m |> <| M_n := n |> <| X := Xv |>).

(** * RFC 4493 *)

Definition xor16 (a b : list Z) : list Z := zip_with Z.lxor a b.

(** 128-bit blocks as big-endian numbers. *)
Definition be_val (l : list Z) : Z := foldl (fun acc b => 256 * acc + b) 0 l.
Definition be_bytes (n : nat) (z : Z) : list Z := reverse (le_bytes n z).

(** Doubling in GF(2^128): [L << 1], xor [const_Rb] when the top bit is set. *)
Definition double (L : list Z) : list Z :=
  let v := be_val L in
  be_bytes 16 (Z.lxor ((2 * v) mod 2 ^ 128) (if 2 ^ 127 <=? v then 0x87 else 0)).

Definition padding (m : list Z) : list Z := m ++ 0x80 :: replicate (15 - length m) 0.

Section Spec.
Variable E : list Z -> list Z.

Definition K1 : list Z := double (E (replicate 16 0)).
Definition K2 : list Z := double K1.

(** CBC-MAC chaining over the first [n] blocks of [M]. *)
Fixpoint absorb (n : nat) (Xv M : list Z) : list Z :=
  match n with
  | O => Xv
  | S n' => absorb n' (E (xor16 Xv (take 16 M))) (drop 16 M)
  end.

(** Number of blocks before the last one; the empty message has one, empty. *)
Definition nfull (len : nat) : nat := ((len - 1) / 16)%nat.

Definition last_block (M : list Z) : list Z :=
  let L := drop (16 * nfull (length M)) M in
  if decide (length L = 16%nat) then xor16 L K1 else xor16 (padding L) K2.

Definition cmac (M : list Z) : list Z :=
  E (xor16 (absorb (nfull (length M)) (replicate 16 0) M) (last_block M)).
End Spec.

(** * Blocks and chaining *)

Lemma xor16_block a b : is_block a -> is_block b -> is_block (xor16 a b).
Proof. apply add_key_block. Qed.

Lemma zeros_block : is_block (replicate 16 0).
Proof. split; [done|apply bytesb_true; done]. Qed.

Lemma XOR_xor16 v r : length v = 16%nat -> XOR v r = xor16 r v.
Proof. intros. unfold XOR, xor16. by rewrite take_ge by lia. Qed.

Lemma take_drop_block n (M : list Z) : bytes M -> (n + 16 <= length M)%nat ->
  is_block (take 16 (drop n M)).
Proof.
  intros HM Hl. split.
  - rewrite length_take, length_drop. lia.
  - by apply Forall_take, Forall_drop.
Qed.

Section Absorb.
Context (E : list Z -> list Z) (HE : forall b, is_block b -> is_block (E b)).

Lemma absorb_add a b Xv M :
  absorb E (a + b) Xv M = absorb E b (absorb E a Xv M) (drop (16 * a) M).
Proof.
  revert Xv M. induction a as [|a IH]; intros; [done|].
  cbn [Nat.add absorb]. rewrite IH, drop_drop. do 2 f_equal. lia.
Qed.

Lemma absorb_app n Xv M D : (16 * n <= length M)%nat ->
  absorb E n Xv (M ++ D) = absorb E n Xv M.
Proof.
  revert Xv M. induction n as [|n IH]; intros Xv M Hn; [done|]. cbn [absorb].
  rewrite take_app_le, drop_app_le by lia. apply IH. rewrite length_drop. lia.
Qed.

Lemma absorb_block n Xv M : is_block Xv -> bytes M -> (16 * n <= length M)%nat ->
  is_block (absorb E n Xv M).
Proof.
  revert Xv M. induction n as [|n IH]; intros Xv M HX HM Hn; [done|]. cbn [absorb].
  apply IH; [|by apply Forall_drop|rewrite length_drop; lia].
  apply HE, xor16_block; [done|]. rewrite <- (drop_0 M). apply take_drop_block; [done|lia].
Qed.
End Absorb.

(** * Subkeys *)

Lemma be_val_cons_aux l : forall acc, foldl (fun acc b => 256 * acc + b) acc l
  = acc * 256 ^ zlen l + be_val l.
Proof.
  induction l as [|b l IH]; intros acc; unfold be_val; cbn [foldl length]; [simpl; lia|].
  rewrite IH, (IH (256 * 0 + b)). rewrite Nat2Z.inj_succ, Z.pow_succ_r by lia. lia.
Qed.

Lemma be_val_cons b l : be_val (b :: l) = b * 256 ^ zlen l + be_val l.
Proof. unfold be_val at 1. cbn [foldl]. rewrite be_val_cons_aux. done. Qed.

Lemma be_val_range l : bytes l -> 0 <= be_val l < 256 ^ zlen l.
Proof.
  induction 1 as [|b l Hb Hl IH]; [unfold be_val; simpl; lia|].
  rewrite be_val_cons. cbn [length]. rewrite Nat2Z.inj_succ, Z.pow_succ_r by lia.
  unfold is_u8 in Hb. nia.
Qed.

Lemma be_val_reverse l : be_val (reverse l) = le_val l.
Proof.
  induction l as [|b l IH]; [done|]. cbn [le_val]. rewrite reverse_cons.
  unfold be_val in *. rewrite foldl_app. cbn [foldl]. rewrite IH. lia.
Qed.

Lemma be_bytes_val l : bytes l -> be_bytes (length l) (be_val l) = l.
Proof.
  intros H. unfold be_bytes. rewrite <- (reverse_involutive l) at 2. rewrite be_val_reverse.
  rewrite <- (length_reverse l). rewrite le_bytes_val; [apply reverse_involutive|].
  by apply Forall_reverse.
Qed.

Lemma LSHIFT_length v : length (LSHIFT v) = length v.
Proof.
  induction v as [|b v IH]; [done|]. destruct v as [|b' v]; [done|].
  change (length (LSHIFT (b :: b' :: v))) with (S (length (LSHIFT (b' :: v)))). by rewrite IH.
Qed.

Lemma lshift_byte b b' : is_u8 b -> is_u8 b' ->
  u8 (Z.lor (Z.shiftl b 1) (Z.shiftr b' 7)) = (2 * b) mod 256 + b' / 128.
Proof.
  intros Hb Hb'. unfold is_u8, u8 in *. rewrite Z.shiftr_div_pow2 by lia.
  rewrite lor_shiftl_add by (change (2 ^ 7) with 128; change (2 ^ 1) with 2; lia).
  change (2 ^ 7) with 128. change (2 ^ 1) with 2. lia.
Qed.

(** The top byte carries the carry of the doubling. *)
Lemma be_val_top b l : is_u8 b -> bytes l ->
  2 * be_val (b :: l) = (b / 128) * 256 ^ zlen (b :: l) + (2 * be_val (b :: l)) mod 256 ^ zlen (b :: l).
Proof.
  intros Hb Hl. pose proof (be_val_range l Hl) as Hr. rewrite be_val_cons.
  cbn [length]. rewrite Nat2Z.inj_succ, Z.pow_succ_r by lia.
  set (P := 256 ^ zlen l) in *. unfold is_u8 in Hb.
  replace (b / 128) with ((2 * (b * P + be_val l)) / (256 * P)).
  - pose proof (Z.div_mod (2 * (b * P + be_val l)) (256 * P) ltac:(lia)). lia.
  - destruct (Z.ltb_spec b 128).
    + rewrite (Z.div_small b) by lia. apply Z.div_small. nia.
    + replace (b / 128) with 1 by lia. symmetry.
      apply Z.div_unique with (2 * (b * P + be_val l) - 256 * P); nia.
Qed.

Lemma LSHIFT_bytes v : bytes v -> bytes (LSHIFT v).
Proof.
  induction 1 as [|b v Hb Hv IH]; [done|].
  destruct v as [|b' v]; cbn [LSHIFT]; constructor; auto using u8_range.
Qed.

Lemma LSHIFT_val v : bytes v -> be_val (LSHIFT v) = (2 * be_val v) mod 256 ^ zlen v.
Proof.
  induction 1 as [|b v Hb Hv IH]; [done|]. destruct v as [|b' v].
  - unfold be_val. cbn [LSHIFT foldl length]. unfold u8, is_u8 in *.
    rewrite Z.shiftl_mul_pow2 by lia. change (2 ^ 1) with 2. change (256 ^ Z.of_nat 1) with 256.
    f_equal. lia.
  - change (LSHIFT (b :: b' :: v)) with
      (u8 (Z.lor (Z.shiftl b 1) (Z.shiftr b' 7)) :: LSHIFT (b' :: v)).
    apply List.Forall_cons_iff in Hv as Hv'. destruct Hv' as [Hb' Hv'].
    rewrite be_val_cons, IH, LSHIFT_length, lshift_byte, (be_val_cons b) by done.
    pose proof (be_val_top b' v Hb' Hv') as Ht. pose proof (be_val_range _ Hv) as Hr.
    cbn [length] in *. rewrite (Nat2Z.inj_succ (S (length v))), (Z.pow_succ_r 256 (Z.of_nat _)) by lia.
    set (P := 256 ^ Z.of_nat (S (length v))) in *. set (V := be_val (b' :: v)) in *.
    assert (HP : 0 < P) by (apply Z.pow_pos_nonneg; lia).
    pose proof (Z.mod_pos_bound (2 * V) P HP) as HW. unfold is_u8 in *.
    assert (Hc : 0 <= b' / 128 <= 1) by lia.
    assert (Hm : 0 <= (2 * b) mod 256 <= 254) by lia.
    pose proof (Z.div_mod (2 * b) 256 ltac:(lia)) as Hd.
    revert Ht HW Hc Hm Hd. generalize ((2 * V) mod P), (b' / 128), ((2 * b) mod 256), (2 * b / 256).
    intros W c m q Ht HW Hc Hm Hd.
    replace (2 * (b * P + V)) with (((m + c) * P + W) + q * (256 * P)) by nia.
    rewrite Z_mod_plus_full, Z.mod_small; [done|]. nia.
Qed.

Lemma be_val_snoc l b : be_val (l ++ [b]) = 256 * be_val l + b.
Proof. unfold be_val. by rewrite foldl_app. Qed.

Lemma lxor_low a b c : 0 <= b < 256 -> 0 <= c < 256 ->
  Z.lxor (256 * a + b) c = 256 * a + Z.lxor b c.
Proof.
  intros Hb Hc. replace (256 * a) with (a * 2 ^ 8) by lia.
  rewrite <- (lor_shiftl_add a b 8) by lia.
  rewrite <- (lor_shiftl_add a (Z.lxor b c) 8) by (try apply lxor_u8; unfold is_u8; lia).
  apply Z.bits_inj'. intros i Hi. rewrite Z.lxor_spec, !Z.lor_spec, Z.lxor_spec.
  destruct (decide (i < 8)).
  - by rewrite Z.shiftl_spec_low by lia.
  - rewrite (testbit_high 8 b), (testbit_high 8 c) by lia.
    by rewrite !orb_false_r, xorb_false_r.
Qed.

(** [subkey_step] is doubling in GF(2^128). *)
Lemma subkey_step_double K : is_block K -> subkey_step K = double K.
Proof.
  intros [Hl Hb]. unfold subkey_step, double.
  pose proof (LSHIFT_val K Hb) as Hv. pose proof (LSHIFT_bytes K Hb) as Hbs.
  pose proof (LSHIFT_length K) as Hls. rewrite Hl in Hv, Hls.
  change (256 ^ Z.of_nat 16) with (2 ^ 128) in Hv. rewrite <- Hv.
  assert (Htop : negb (Z.land K.[0] 0x80 =? 0) = (2 ^ 127 <=? be_val K)).
  { destruct K as [|b K]; [done|]. apply List.Forall_cons_iff in Hb as [Hb HbK].
    rewrite be_val_cons. pose proof (be_val_range K HbK) as Hr. cbn [length] in Hl.
    replace (length K) with 15%nat in * by lia. change ((b :: K).[0]) with b.
    rewrite (Z.eqb_sym _ 0).
    pose proof (forall_u8 (fun b => Bool.eqb (negb (0 =? Z.land b 0x80)) (128 <=? b))
      ltac:(vm_compute; reflexivity) b Hb) as Hx. apply eqb_prop in Hx. rewrite Hx.
    change (256 ^ Z.of_nat 15) with (2 ^ 120) in *.
    destruct (Z.leb_spec 128 b), (Z.leb_spec (2 ^ 127) (b * 2 ^ 120 + be_val K)); lia. }
  rewrite Htop. revert Hv Hbs Hls. generalize (LSHIFT K). intros L _ Hbs Hls.
  destruct (2 ^ 127 <=? be_val K); cbv zeta.
  - destruct L as [|b L _] using rev_ind; [done|]. rewrite length_app in Hls. cbn [length] in Hls.
    apply Forall_app in Hbs as [HbL Hb15]. apply Forall_inv in Hb15.
    rewrite znth_app_r by lia. replace (15 - zlen L) with 0 by lia.
    rewrite zupd_app_r by lia. replace (15 - zlen L) with 0 by lia.
    change ([b].[0]) with b. change ([b].[0 := Z.lxor b 0x87]) with [Z.lxor b 0x87].
    rewrite be_val_snoc, lxor_low by (unfold is_u8 in *; lia). rewrite <- be_val_snoc.
    replace 16%nat with (length (L ++ [Z.lxor b 0x87])) by (rewrite length_app; simpl; lia).
    symmetry. apply be_bytes_val. apply Forall_app; split; [done|].
    apply Forall_singleton. apply lxor_u8; [done|unfold is_u8; lia].
  - rewrite Z.lxor_0_r. symmetry. rewrite <- Hls. by apply be_bytes_val.
Qed.

Lemma double_block K : is_block K -> is_block (double K).
Proof.
  intros _. unfold double, be_bytes. split.
  - by rewrite length_reverse, le_bytes_length.
  - apply Forall_reverse, le_bytes_bytes.
Qed.

(** * The incremental interface *)

Lemma nfull_bounds len : (16 * nfull len <= len)%nat /\ (len <= 16 * nfull len + 16)%nat /\
  (0 < len -> 16 * nfull len < len)%nat.
Proof.
  unfold nfull. pose proof (Nat.div_mod_eq (len - 1) 16).
  pose proof (Nat.mod_upper_bound (len - 1) 16). lia.
Qed.

Lemma nfull_unique len n : (16 * n < len)%nat -> (len <= 16 * n + 16)%nat -> nfull len = n.
Proof. intros. pose proof (nfull_bounds len). lia. Qed.

Section Incremental.
Context (E : list Z -> list Z) (HE : forall b, is_block b -> is_block (E b)).
Context (rk : aes_context)
        (Hrk : forall b, is_block b -> aes_encrypt b rk = Some (E b)).

Lemma encrypt_E b : is_block b -> encrypt_in_place rk b = E b.
Proof. intros H. unfold encrypt_in_place. by rewrite Hrk. Qed.

(** The context after absorbing the message [M]: all blocks but the last are
    chained into [X], the last one waits in [M_last]. *)
Definition absorbed (ctx : AES_CMAC_CTX) (M : list Z) : Prop :=
  bytes M /\ rijndael ctx = rk /\ is_block (M_last ctx) /\
  X ctx = absorb E (nfull (length M)) (replicate 16 0) M /\
  M_n ctx = zlen M - 16 * Z.of_nat (nfull (length M)) /\
  take (Z.to_nat (M_n ctx)) (M_last ctx) = drop (16 * nfull (length M)) M.

Lemma update_loop_spec n : forall Xv data off len fuel,
  is_block Xv -> bytes data -> 0 <= off -> 0 < len -> off + len <= zlen data ->
  nfull (Z.to_nat len) = n -> (n < fuel)%nat ->
  update_loop fuel rk Xv data off len
  = Done (absorb E n Xv (drop (Z.to_nat off) data), off + 16 * Z.of_nat n, len - 16 * Z.of_nat n).
Proof.
  induction n as [|n IH]; intros Xv data off len fuel HX Hd Ho Hl Hol Hn Hf;
    (destruct fuel as [|fuel]; [lia|]); cbn [update_loop];
    pose proof (nfull_bounds (Z.to_nat len)) as Hb; rewrite Hn in Hb.
  - zdecide. cbn [absorb]. do 2 f_equal; [f_equal|]; lia.
  - zdecide. rewrite rdn_ok by lia. cbn [rbind]. cbv zeta.
    assert (Hblk : is_block (take (Z.to_nat 16) (drop (Z.to_nat off) data)))
      by (apply take_drop_block; [done|lia]).
    rewrite XOR_xor16 by apply Hblk.
    rewrite encrypt_E by (by apply xor16_block).
    rewrite IH; [|by apply HE, xor16_block|done|lia|lia|lia| |lia].
    + cbn [absorb]. replace (Z.to_nat (off + 16)) with (Z.to_nat off + 16)%nat by lia.
      rewrite <- drop_drop. do 2 f_equal; [f_equal|]; lia.
    + apply nfull_unique; lia.
Qed.

(** Saving the tail of [data] after [n] blocks of the whole message. *)
Lemma update_rest_spec ctx M data off :
  bytes M -> bytes data -> rijndael ctx = rk -> is_block (M_last ctx) ->
  0 <= off < zlen data -> (exists n, (length M + Z.to_nat off = 16 * n)%nat /\
    X ctx = absorb E n (replicate 16 0) (M ++ take (Z.to_nat off) data)) ->
  exists ctx', update_rest ctx data off (zlen data - off) = Done ctx' /\ absorbed ctx' (M ++ data).
Proof.
  intros HM Hd Hr Hml Hoff (n & Hn & HX). unfold update_rest.
  set (len := zlen data - off). set (k := nfull (Z.to_nat len)).
  pose proof (nfull_bounds (Z.to_nat len)) as Hb. fold k in Hb.
  assert (HbM : bytes (M ++ take (Z.to_nat off) data))
    by (apply Forall_app; split; [done|by apply Forall_take]).
  assert (HXb : is_block (X ctx)).
  { rewrite HX. apply absorb_block; [done|apply zeros_block|done|].
    rewrite length_app, length_take. lia. }
  rewrite Hr, (update_loop_spec k) by (done || lia). cbn [rbind].
  destruct Hml as [Hml Hmb].
  rewrite memcpy1_spec by (try (unfold is_u16); lia). cbn [rbind].
  eexists. split; [done|].
  assert (Ht : nfull (length (M ++ data)) = (n + k)%nat)
    by (apply nfull_unique; rewrite length_app; lia).
  change (Z.to_nat 0) with 0%nat. rewrite take_0. cbn [app Nat.add].
  set (tail := take (Z.to_nat (len - 16 * Z.of_nat k)) (drop (Z.to_nat (off + 16 * Z.of_nat k)) data)).
  assert (Htl : length tail = Z.to_nat (len - 16 * Z.of_nat k)).
  { unfold tail. rewrite length_take, length_drop. lia. }
  assert (Htd : tail = drop (16 * (n + k)) (M ++ data)).
  { unfold tail. rewrite drop_app_ge by lia. rewrite take_ge by (rewrite length_drop; lia).
    f_equal. lia. }
  unfold absorbed. cbn -[absorb nfull replicate]. rewrite Ht. split_and!.
  - by apply Forall_app.
  - done.
  - split.
    + rewrite length_app, Htl, length_drop. lia.
    + apply Forall_app; split; [by apply Forall_take, Forall_drop|by apply Forall_drop].
  - rewrite absorb_add, HX. f_equal.
    + rewrite <- (take_drop (Z.to_nat off) data) at 2. rewrite app_assoc.
      rewrite (absorb_app E n _ (M ++ take (Z.to_nat off) data)); [done|].
      rewrite length_app, length_take. lia.
    + rewrite drop_app_ge by lia. f_equal. lia.
  - rewrite length_app. lia.
  - rewrite take_app_length' by done. done.
Qed.

Lemma take_snoc_fill (m data : list Z) (a b : nat) :
  (a + b <= length m)%nat -> (b <= length data)%nat ->
  take (a + b) (take a m ++ take b data ++ drop (a + b) m) = take a m ++ take b data.
Proof.
  intros. rewrite app_assoc. apply take_app_length'.
  rewrite length_app, !length_take. lia.
Qed.

(** Updating with [data] absorbs it. *)
Lemma update_absorbed ctx M data : absorbed ctx M -> bytes data ->
  exists ctx', AES_CMAC_Update ctx data (zlen data) = Done ctx' /\ absorbed ctx' (M ++ data).
Proof.
  intros (HM & Hr & [Hml Hmb] & HX & Hn & Hlast) Hd. unfold AES_CMAC_Update.
  pose proof (nfull_bounds (length M)) as Hb.
  destruct (Z.ltb_spec 0 (M_n ctx)) as [Hpos|Hz].
  - set (mlen := Z.min (16 - M_n ctx) (zlen data)).
    rewrite memcpy1_spec by (try (unfold is_u16); lia). cbn [rbind]. cbn -[update_rest nfull absorb replicate].
    rewrite drop_0. set (m' := take _ (M_last ctx) ++ _).
    assert (Hm' : take (Z.to_nat (M_n ctx + mlen)) m' = drop (16 * nfull (length M)) M ++ take (Z.to_nat mlen) data).
    { unfold m'. rewrite Z2Nat.inj_add by lia. rewrite take_snoc_fill by lia. by rewrite Hlast. }
    assert (Hm'b : is_block m').
    { unfold m'. split.
      - rewrite !length_app, !length_take, length_drop. lia.
      - repeat (apply Forall_app; split); auto using Forall_take, Forall_drop. }
    destruct ((M_n ctx + mlen <? 16) || (zlen data =? mlen)) eqn:Ebr.
    + eexists. split; [done|]. assert (Hall : mlen = zlen data).
      { apply orb_true_iff in Ebr as [H%Z.ltb_lt|H%Z.eqb_eq]; lia. }
      assert (Hnf : nfull (length (M ++ data)) = nfull (length M)).
      { destruct (decide (length M = 0)%nat) as [H0|H0]; [lia|].
        apply nfull_unique; rewrite length_app; lia. }
      unfold absorbed. cbn -[nfull absorb replicate]. rewrite Hnf. split_and!; try done.
      * by apply Forall_app.
      * rewrite absorb_app by lia. done.
      * rewrite length_app. lia.
      * rewrite Hm', drop_app_le by lia. by rewrite (take_ge data) by lia.
    + apply orb_false_iff in Ebr as [H1%Z.ltb_ge H2%Z.eqb_neq].
      assert (H16 : M_n ctx + mlen = 16) by lia.
      rewrite Hr, XOR_xor16 by apply Hm'b.
      assert (HXm : is_block (xor16 (X ctx) m')).
      { apply xor16_block; [|done]. rewrite HX. apply absorb_block; auto using zeros_block. lia. }
      apply update_rest_spec; try done; [lia|].
      exists (nfull (length M) + 1)%nat. split; [lia|]. cbn -[nfull absorb replicate].
      rewrite encrypt_E by done.
      rewrite absorb_add. cbn [absorb]. rewrite absorb_app by lia. rewrite HX. do 2 f_equal.
      rewrite drop_app_le by lia. rewrite <- Hm', H16. change (Z.to_nat 16) with 16%nat.
      rewrite take_take. by rewrite take_ge by (destruct Hm'b; lia).
  - assert (HM0 : M = []) by (destruct M; [done|simpl in *; lia]). subst M.
    destruct data as [|d0 data].
    + unfold update_rest. cbn -[nfull absorb replicate].
      eexists. split; [done|]. unfold absorbed. cbn -[absorb replicate].
      by split_and!.
    + replace (zlen (d0 :: data)) with (zlen (d0 :: data) - 0) by lia.
      apply (update_rest_spec ctx [] (d0 :: data) 0); try done.
      exists 0%nat. split; [done|]. by rewrite HX.
Qed.

Lemma padding_block m : (length m < 16)%nat -> bytes m -> is_block (padding m).
Proof.
  intros Hl Hb. unfold padding. split.
  - rewrite length_app. cbn [length]. rewrite length_replicate. lia.
  - apply Forall_app; split; [done|]. constructor; [unfold is_u8; lia|].
    apply Forall_replicate. unfold is_u8. lia.
Qed.

Lemma subkeys_block : is_block (K1 E) /\ is_block (K2 E).
Proof.
  assert (is_block (K1 E)) by (apply double_block, HE, zeros_block).
  split; [done|by apply double_block].
Qed.

Lemma last_block_block M : bytes M -> is_block (last_block E M).
Proof.
  intros HM. destruct subkeys_block. unfold last_block. pose proof (nfull_bounds (length M)) as Hb.
  assert (bytes (drop (16 * nfull (length M)) M)) by (by apply Forall_drop).
  case_decide as Hd; apply xor16_block; auto; [by split|].
  apply padding_block; [|done]. rewrite length_drop in *. lia.
Qed.

Lemma cmac_block M : bytes M -> is_block (cmac E M).
Proof.
  intros HM. apply HE, xor16_block; [|by apply last_block_block].
  pose proof (nfull_bounds (length M)). apply absorb_block; auto using zeros_block. lia.
Qed.

Lemma pad_last_spec m n : length m = 16%nat -> 0 <= n < 16 ->
  pad_last m n = Done (padding (take (Z.to_nat n) m)).
Proof.
  intros Hm Hn. unfold pad_last. rewrite wr_ok by lia. cbn [rbind].
  rewrite memset1_loop_spec by (rewrite ?length_insert; lia).
  replace (Z.to_nat (n + 1)) with (S (Z.to_nat n)) by lia.
  rewrite (take_S_r _ _ 0x80) by (apply list_lookup_insert_eq; lia).
  rewrite take_insert_ge by lia. rewrite drop_ge by (rewrite length_insert; lia).
  unfold padding. rewrite length_take, app_nil_r, <- app_assoc. cbn [app].
  do 4 f_equal. lia.
Qed.

(** The digest is the CMAC of what was absorbed. *)
Lemma final_absorbed ctx M digest : absorbed ctx M ->
  exists ctx', AES_CMAC_Final digest ctx = Done (cmac E M, ctx') /\ is_block (M_last ctx').
Proof.
  intros (HM & Hr & [Hml Hmb] & HX & Hn & Hlast). unfold AES_CMAC_Final.
  pose proof (nfull_bounds (length M)) as Hb.
  rewrite Hr, encrypt_E by apply zeros_block.
  assert (HE0 : is_block (E (replicate 16 0))) by apply HE, zeros_block.
  destruct subkeys_block as [HK1 HK2].
  rewrite (subkey_step_double (E _)) by done. fold (K1 E).
  rewrite (subkey_step_double (K1 E)) by done. fold (K2 E).
  assert (Hfin : forall m, is_block m -> aes_encrypt (XOR m (X ctx)) rk = Some (E (xor16 (X ctx) m))).
  { intros m Hmm. rewrite XOR_xor16 by apply Hmm. apply Hrk. apply xor16_block; [|done].
    rewrite HX. apply absorb_block; auto using zeros_block. lia. }
  unfold cmac, last_block. rewrite <- HX, <- Hlast.
  destruct (Z.eqb_spec (M_n ctx) 16) as [E16|N16]; cbn [rbind].
  - rewrite E16. change (Z.to_nat 16) with 16%nat. rewrite (take_ge (M_last ctx)) by lia.
    rewrite (XOR_xor16 (K1 E)) by apply HK1. rewrite Hfin by (apply xor16_block; [done|done]).
    rewrite decide_True by done. cbn [default from_option]. eexists. split; [done|].
    by apply xor16_block.
  - rewrite pad_last_spec by lia. cbn [rbind].
    assert (Hp : is_block (padding (take (Z.to_nat (M_n ctx)) (M_last ctx)))).
    { apply padding_block; [rewrite length_take; lia|by apply Forall_take]. }
    rewrite (XOR_xor16 (K2 E)) by apply HK2. rewrite Hfin by (by apply xor16_block).
    rewrite decide_False by (rewrite length_take; lia). cbn [default from_option].
    eexists. split; [done|]. by apply xor16_block.
Qed.
End Incremental.

(** * Properties *)

(** Any number of updates between a keyed init and final. *)
Fixpoint update_all (ctx : AES_CMAC_CTX) (parts : list (list Z)) : run AES_CMAC_CTX :=
  match parts with
  | [] => Done ctx
  | d :: parts' => let* ctx := AES_CMAC_Update ctx d (zlen d) in update_all ctx parts'
  end.

Lemma update_all_absorbed E (HE : forall b, is_block b -> is_block (E b)) rk
  (Hrk : forall b, is_block b -> aes_encrypt b rk = Some (E b)) parts : forall ctx M,
  absorbed E rk ctx M -> Forall bytes parts ->
  exists ctx', update_all ctx parts = Done ctx' /\ absorbed E rk ctx' (M ++ mjoin parts).
Proof.
  induction parts as [|d parts IH]; intros ctx M Ha Hp.
  - exists ctx. split; [done|]. unfold mjoin. cbn [list_join]. by rewrite app_nil_r.
  - apply List.Forall_cons_iff in Hp as [Hd Hp].
    destruct (update_absorbed E HE rk Hrk ctx M d Ha Hd) as (ctx1 & E1 & Ha1).
    destruct (IH ctx1 (M ++ d) Ha1 Hp) as (ctx2 & E2 & Ha2).
    exists ctx2. cbn [update_all]. rewrite E1. cbn [rbind]. split; [done|].
    by rewrite <- app_assoc in Ha2.
Qed.

(** A keyed context that absorbed nothing. *)
Lemma keyed_absorbed ctx key :
  is_block key -> is_block (M_last ctx) ->
  exists ctx', AES_CMAC_SetKey (AES_CMAC_Init ctx) key = Done ctx' /\
    absorbed (Fips197.Cipher key) (rijndael ctx') ctx' [] /\
    (forall b, is_block b -> aes_encrypt b (rijndael ctx') = Some (Fips197.Cipher key b)).
Proof.
  intros Hk Hm. unfold AES_CMAC_SetKey.
  rewrite (aes_set_key_ref key) by done. cbn [rbind].
  eexists. split; [done|]. split.
  - unfold absorbed. cbn -[absorb replicate]. by split_and!.
  - intros b Hb. cbn [update rijndael]. by apply aes_encrypt_ref.
Qed.

(** The whole computation, as the clients run it. *)
Definition cmac_run (ctx : AES_CMAC_CTX) (key : list Z) (parts : list (list Z)) (digest : list Z)
  : run (list Z * AES_CMAC_CTX) :=
  let* ctx := AES_CMAC_SetKey (AES_CMAC_Init ctx) key in
  let* ctx := update_all ctx parts in
  AES_CMAC_Final digest ctx.

Lemma cmac_run_spec ctx key parts digest :
  is_block key -> is_block (M_last ctx) -> Forall bytes parts ->
  exists ctx', cmac_run ctx key parts digest = Done (cmac (Fips197.Cipher key) (mjoin parts), ctx')
    /\ is_block (M_last ctx').
Proof.
  intros Hk Hm Hp. unfold cmac_run.
  destruct (keyed_absorbed ctx key Hk Hm) as (c1 & E1 & Ha & Hrk). rewrite E1. cbn [rbind].
  destruct (update_all_absorbed (Fips197.Cipher key) (fun b => cipher_block key b Hk) _ Hrk parts c1 [] Ha Hp)
    as (c2 & E2 & Ha2). rewrite E2. cbn [rbind].
  by apply (final_absorbed (Fips197.Cipher key) (fun b => cipher_block key b Hk) _ Hrk).
Qed.

(** C18: for every key, message and split of the message into updates, the
    incremental interface (init, set key, any number of updates, final)
    returns the AES-CMAC of RFC 4493 of the concatenated message, whatever
    the context held before. *)
Theorem cmac_streaming_is_rfc4493 ctx key parts digest :
  is_block key -> is_block (M_last ctx) -> Forall bytes parts ->
  exists ctx', cmac_run ctx key parts digest = Done (cmac (Fips197.Cipher key) (mjoin parts), ctx').
Proof. intros Hk Hm Hp. destruct (cmac_run_spec ctx key parts digest Hk Hm Hp) as (c & E & _). eauto. Qed.

(** The key and the 40-byte message of RFC 4493, example 3, in four updates. *)
Definition rfc_key : list Z :=
  [0x2b; 0x7e; 0x15; 0x16; 0x28; 0xae; 0xd2; 0xa6; 0xab; 0xf7; 0x15; 0x88; 0x09; 0xcf; 0x4f; 0x3c].
Definition rfc_parts : list (list Z) :=
  [[0x6b; 0xc1; 0xbe; 0xe2; 0x2e; 0x40; 0x9f]; [];
   [0x96; 0xe9; 0x3d; 0x7e; 0x11; 0x73; 0x93; 0x17; 0x2a; 0xae; 0x2d; 0x8a; 0x57; 0x1e; 0x03; 0xac;
    0x9c; 0x9e; 0xb7; 0x6f];
   [0xac; 0x45; 0xaf; 0x8e; 0x51; 0x30; 0xc8; 0x1c; 0x46; 0xa3; 0x5c; 0xe4; 0x11]].
Definition rfc_ctx : AES_CMAC_CTX :=
  mkCmac (mkCtx (replicate 240 7) 3) (replicate 16 9) (replicate 16 1) 5.

Lemma cmac_streaming_is_rfc4493_witness :
  exists ctx', cmac_run rfc_ctx rfc_key rfc_parts [] =
    Done (cmac (Fips197.Cipher rfc_key) (mjoin rfc_parts), ctx').
Proof.
  apply cmac_streaming_is_rfc4493.
  - split; [done|by apply bytesb_true].
  - split; [done|by apply bytesb_true].
  - repeat (apply List.Forall_cons; [by apply bytesb_true|]). apply List.Forall_nil.
Defined.

Example rfc4493_example3 :
  fst <$> match cmac_run rfc_ctx rfc_key rfc_parts [] with Done r => Some r | _ => None end =
  Some [0xdf; 0xa6; 0x67; 0x47; 0xde; 0x9a; 0xe6; 0x30; 0x30; 0xca; 0x32; 0x61; 0x14; 0x97; 0xc8; 0x27].
Proof. vm_compute. reflexivity. Qed.

End Cmac.
