(* ===== verification/MacCrypto.v ===== *)
(** Frame security of src/src/mac/LoRaMacCrypto.c: message integrity codes,
    payload encryption, decryption of join accepts and derivation of the
    session keys, over the static blocks and contexts of that file. *)
From S2P Require Import Prelude Utilities Aes Cmac.

Module MacCrypto.
Import Aes Cmac.

(** * The code *)

Definition LORAMAC_MIC_BLOCK_B0_SIZE : Z := 16.

(** The static variables of the file. *)
Record crypto := mkCrypto {
  MicBlockB0 : list Z;
  Mic : list Z;
  aBlock : list Z;
  sBlock : list Z;
  AesContext : aes_context;
  AesCmacCtx : AES_CMAC_CTX;
}.
#[export] Instance eta_crypto : Eta crypto := fun s =>
  mkCrypto (MicBlockB0 s) (Mic s) (aBlock s) (sBlock s) (AesContext s) (AesCmacCtx s).

(** Their initial values; what has no initialiser is zero. *)
Definition crypto_init : crypto :=
  mkCrypto (0x49 :: replicate 15 0) (replicate 16 0) (0x01 :: replicate 15 0) (replicate 16 0)
    (mkCtx (replicate 240 0) 0)
    (mkCmac (mkCtx (replicate 240 0) 0) (replicate 16 0) (replicate 16 0) 0).

(** [( x >> n ) & 0xFF] *)
Definition byte_at (x n : Z) : Z := Z.land (Z.shiftr x n) 0xFF.

(** [blk[5] = dir; blk[6..9] = address; blk[10..13] = sequenceCounter;] *)
Definition set_block (blk : list Z) (dir address sequenceCounter : Z) : list Z :=
  let blk := blk.[5 := dir] in
  let blk := blk.[6 := byte_at address 0] in
  let blk := blk.[7 := byte_at address 8] in
  let blk := blk.[8 := byte_at address 16] in
  let blk := blk.[9 := byte_at address 24] in
  let blk := blk.[10 := byte_at sequenceCounter 0] in
  let blk := blk.[11 := byte_at sequenceCounter 8] in
  let blk := blk.[12 := byte_at sequenceCounter 16] in
  blk.[13 := byte_at sequenceCounter 24].

(** [Mic[3] << 24 | Mic[2] << 16 | Mic[1] << 8 | Mic[0]] *)
Definition mic_value (m : list Z) : Z :=
  u32 (Z.lor (Z.lor (Z.lor (Z.shiftl m.[3] 24) (Z.shiftl m.[2] 16)) (Z.shiftl m.[1] 8)) m.[0]).

Definition LoRaMacComputeMic (buffer : list Z) (size : Z) (key : list Z)
  (address dir sequenceCounter : Z) (s : crypto) : run (Z * crypto) :=
  let blk := set_block (MicBlockB0 s) dir address sequenceCounter in
  let s := s <| MicBlockB0 := blk.[15 := Z.land size 0xFF] |> in
  let ctx := AES_CMAC_Init (AesCmacCtx s) in
  let* ctx := AES_CMAC_SetKey ctx key in
  let* b0 := rdn (MicBlockB0 s) 0 LORAMAC_MIC_BLOCK_B0_SIZE in
  let* ctx := AES_CMAC_Update ctx b0 LORAMAC_MIC_BLOCK_B0_SIZE in
  let* msg := rdn buffer 0 (Z.land size 0xFF) in
  let* ctx := AES_CMAC_Update ctx msg (Z.land size 0xFF) in
  let* (mic, ctx) := AES_CMAC_Final (Mic s) ctx in
  Done (mic_value mic, s <| Mic := mic |> <| AesCmacCtx := ctx |>).

(** [memset1( AesContext.ksch, '\0', 240 ); aes_set_key( key, 16, &AesContext );] *)
Definition set_aes_key (key : list Z) (s : crypto) : run crypto :=
  let* ks := memset1 (ksch (AesContext s)) 0 0 240 in
  let* (_, ctx) := aes_set_key key 16 ((AesContext s) <| ksch := ks |>) in
  Done (s <| AesContext := ctx |>).

(** [for( i = 0; i < n; i++ ) encBuffer[bufferIndex + i] = buffer[bufferIndex + i] ^ sBlock[i]] *)
Fixpoint xor_loop (n : nat) (i : Z) (buffer : list Z) (bufferIndex : Z) (sb enc : list Z)
  : run (list Z) :=
  match n with
  | O => Done enc
  | S n' =>
      let* x := rd buffer (bufferIndex + i) in
      let* y := rd sb i in
      let* enc := wr enc (bufferIndex + i) (Z.lxor x y) in
      xor_loop n' (i + 1) buffer bufferIndex sb enc
  end.

(** [aBlock[15] = ctr & 0xFF; aes_encrypt( aBlock, sBlock, &AesContext );] *)
Definition next_sblock (ctr : Z) (s : crypto) : crypto :=
  let s := s <| aBlock ::= fun a => a.[15 := Z.land ctr 0xFF] |> in
  s <| sBlock := default (sBlock s) (aes_encrypt (aBlock s) (AesContext s)) |>.

(** The loop [while( size >= 16 )] and the code after it; [bufferIndex] is a
    [uint8_t], [ctr] and [size] are [uint16_t]. *)
Fixpoint encrypt_loop (fuel : nat) (buffer : list Z) (size bufferIndex ctr : Z)
  (enc : list Z) (s : crypto) : run (list Z * crypto) :=
  match fuel with
  | O => NoFuel
  | S fuel' =>
      if 16 <=? size then
        let s := next_sblock ctr s in
        let* enc := xor_loop 16 0 buffer bufferIndex (sBlock s) enc in
        encrypt_loop fuel' buffer (size - 16) (u8 (bufferIndex + 16)) (u16 (ctr + 1)) enc s
      else if 0 <? size then
        let s := next_sblock ctr s in
        let* enc := xor_loop (Z.to_nat size) 0 buffer bufferIndex (sBlock s) enc in
        Done (enc, s)
      else Done (enc, s)
  end.

(** 4096 blocks hold any [uint16_t] size. *)
Definition LoRaMacPayloadEncrypt (buffer : list Z) (size : Z) (key : list Z)
  (address dir sequenceCounter : Z) (encBuffer : list Z) (s : crypto) : run (list Z * crypto) :=
  let* s := set_aes_key key s in
  let s := s <| aBlock ::= fun a => set_block a dir address sequenceCounter |> in
  encrypt_loop (Z.to_nat (size / 16) + 1) buffer size 0 1 encBuffer s.

Definition LoRaMacPayloadDecrypt (buffer : list Z) (size : Z) (key : list Z)
  (address dir sequenceCounter : Z) (decBuffer : list Z) (s : crypto) : run (list Z * crypto) :=
  LoRaMacPayloadEncrypt buffer size key address dir sequenceCounter decBuffer s.

Definition LoRaMacJoinComputeMic (buffer : list Z) (size : Z) (key : list Z) (s : crypto)
  : run (Z * crypto) :=
  let ctx := AES_CMAC_Init (AesCmacCtx s) in
  let* ctx := AES_CMAC_SetKey ctx key in
  let* msg := rdn buffer 0 (Z.land size 0xFF) in
  let* ctx := AES_CMAC_Update ctx msg (Z.land size 0xFF) in
  let* (mic, ctx) := AES_CMAC_Final (Mic s) ctx in
  Done (mic_value mic, s <| Mic := mic |> <| AesCmacCtx := ctx |>).

(** [aes_encrypt( buffer + off, decBuffer + off, &AesContext )] *)
Definition encrypt_at (buffer : list Z) (off : Z) (dec : list Z) (ctx : aes_context)
  : run (list Z) :=
  let* blk := rdn buffer off 16 in
  match aes_encrypt blk ctx with
  | Some out => wrn dec off out
  | None => Done dec
  end.

Definition LoRaMacJoinDecrypt (buffer : list Z) (size : Z) (key : list Z) (decBuffer : list Z)
  (s : crypto) : run (list Z * crypto) :=
  let* s := set_aes_key key s in
  let* dec := encrypt_at buffer 0 decBuffer (AesContext s) in
  let* dec := (if 16 <=? size then encrypt_at buffer 16 dec (AesContext s) else Done dec) in
  Done (dec, s).

(** [nonce]: one tag byte, six bytes of [appNonce], the device nonce. *)
Definition skey_nonce (tag : Z) (appNonce : list Z) (devNonce : Z) : run (list Z) :=
  let* nonce := memset1 (replicate 16 0) 0 0 16 in
  let nonce := nonce.[0 := tag] in
  let* nonce := memcpy1 nonce 1 appNonce 0 6 in
  memcpy1 nonce 7 (le_bytes 2 devNonce) 0 2.

Definition LoRaMacJoinComputeSKeys (key appNonce : list Z) (devNonce : Z)
  (nwkSKey appSKey : list Z) (s : crypto) : run (list Z * list Z * crypto) :=
  let* s := set_aes_key key s in
  let* nonce := skey_nonce 0x01 appNonce devNonce in
  let nwkSKey := default nwkSKey (aes_encrypt nonce (AesContext s)) in
  let* nonce := skey_nonce 0x02 appNonce devNonce in
  let appSKey := default appSKey (aes_encrypt nonce (AesContext s)) in
  Done (nwkSKey, appSKey, s).

(** * What the frames carry, from the LoRaWAN specification *)

(** The block [A_i] of the key stream and the block [B_0] of the integrity code. *)
Definition lora_block (tag dir address ctr last : Z) : list Z :=
  [tag; 0; 0; 0; 0; dir] ++ le_bytes 4 address ++ le_bytes 4 ctr ++ [0; last].

(** [n] blocks of the key stream, from number [i] on. *)
Definition keystream (key : list Z) (dir address ctr : Z) (i n : nat) : list Z :=
  mjoin (map (fun i => Fips197.Cipher key (lora_block 0x01 dir address ctr (Z.of_nat i)))
             (seq i n)).

Definition blocks_of (size : Z) : nat := Z.to_nat ((size + 15) / 16).

Definition payload_cipher (key : list Z) (dir address ctr : Z) (msg : list Z) : list Z :=
  zip_with Z.lxor msg (keystream key dir address ctr 1 (blocks_of (zlen msg))).

Definition frame_mic (key : list Z) (dir address ctr : Z) (msg : list Z) : Z :=
  le_val (take 4 (cmac (Fips197.Cipher key) (lora_block 0x49 dir address ctr (zlen msg) ++ msg))).

Definition join_mic (key msg : list Z) : Z := le_val (take 4 (cmac (Fips197.Cipher key) msg)).

Definition session_key (key : list Z) (tag : Z) (appNonce : list Z) (devNonce : Z) : list Z :=
  Fips197.Cipher key ([tag] ++ take 6 appNonce ++ le_bytes 2 devNonce ++ replicate 7 0).

(** Conversion unfolds these before the cipher. *)
Strategy expand [frame_mic join_mic payload_cipher session_key].

(** * Invariant of the static state *)

Definition block_shape (tag : Z) (b : list Z) : Prop :=
  exists mid last, length mid = 9%nat /\ b = [tag; 0; 0; 0; 0] ++ mid ++ [0; last].

Record wf (s : crypto) : Prop := mkWf {
  wf_b0 : block_shape 0x49 (MicBlockB0 s);
  wf_a : block_shape 0x01 (aBlock s);
  wf_ksch : length (ksch (AesContext s)) = 240%nat;
  wf_last : is_block (M_last (AesCmacCtx s));
}.

Lemma crypto_init_wf : wf crypto_init.
Proof.
  split; [| |done|split; [done|by apply bytesb_true]].
  all: exists (replicate 9 0), 0; done.
Qed.

(** * Lemmas *)

Lemma byte_at_spec x n : 0 <= n -> byte_at x n = (x / 2 ^ n) mod 256.
Proof.
  intros. unfold byte_at. change 0xFF with (Z.ones 8).
  by rewrite Z.land_ones, Z.shiftr_div_pow2 by lia.
Qed.

Lemma land_ff x : Z.land x 0xFF = x mod 256.
Proof. change 0xFF with (Z.ones 8). by rewrite Z.land_ones by lia. Qed.

Lemma byte_at_le x : [byte_at x 0; byte_at x 8; byte_at x 16; byte_at x 24] = le_bytes 4 x.
Proof.
  rewrite !byte_at_spec by lia. cbn [le_bytes]. rewrite !Z.div_div by lia.
  rewrite Z.div_1_r. done.
Qed.

Lemma set_block_shape tag b dir address ctr last : block_shape tag b ->
  (set_block b dir address ctr).[15 := last] = lora_block tag dir address ctr last.
Proof.
  intros (mid & l & Hm & ->). unfold lora_block. rewrite <- !byte_at_le. explode mid. reflexivity.
Qed.

Lemma set_block_keeps tag b dir address ctr : block_shape tag b ->
  block_shape tag (set_block b dir address ctr).
Proof.
  intros (mid & l & Hm & ->). explode mid.
  eexists [dir; _; _; _; _; _; _; _; _], l. split; [|reflexivity]. done.
Qed.

Lemma lora_block_shape tag dir address ctr last :
  block_shape tag (lora_block tag dir address ctr last).
Proof. eexists (dir :: le_bytes 4 address ++ le_bytes 4 ctr), last. done. Qed.

Lemma shape_set_last tag b last : block_shape tag b -> exists mid, length mid = 9%nat /\
  b.[15 := last] = [tag; 0; 0; 0; 0] ++ mid ++ [0; last].
Proof. intros (mid & l & Hm & ->). exists mid. split; [done|]. explode mid. reflexivity. Qed.

Lemma lora_block_block tag dir address ctr last :
  is_u8 tag -> is_u8 dir -> is_u8 last -> is_block (lora_block tag dir address ctr last).
Proof.
  intros. split; [done|]. unfold lora_block. rewrite !Forall_app. split_and!.
  - repeat (apply List.Forall_cons; [done|]). by apply List.Forall_nil.
  - apply le_bytes_bytes.
  - apply le_bytes_bytes.
  - repeat (apply List.Forall_cons; [done|]). by apply List.Forall_nil.
Qed.

Lemma mic_value_le m : bytes m -> (4 <= length m)%nat -> mic_value m = le_val (take 4 m).
Proof.
  intros Hb Hl. do 4 (destruct m as [|? m]; [simpl in Hl; lia|]).
  do 4 (apply List.Forall_cons_iff in Hb as [? Hb]). unfold mic_value.
  znth_lit. cbn [take le_val]. unfold is_u8 in *.
  rewrite <- !Z.lor_assoc.
  rewrite (lor_shiftl_add _ _ 8) by lia. rewrite (lor_shiftl_add _ _ 16) by lia.
  rewrite (lor_shiftl_add _ _ 24) by lia. rewrite take_0. cbn [le_val]. unfold u32. lia.
Qed.

Lemma mjoin_two (a b : list Z) : mjoin [a; b] = a ++ b.
Proof. change (a ++ b ++ [] = a ++ b). by rewrite app_nil_r. Qed.

Lemma mjoin_one (a : list Z) : mjoin [a] = a.
Proof. change (a ++ [] = a). apply app_nil_r. Qed.

(** The CMAC of the parts as the code computes it, and the context it leaves. *)
Lemma cmac_run_mic ctx key parts digest :
  is_block key -> is_block (M_last ctx) -> Forall bytes parts ->
  exists ctx', cmac_run ctx key parts digest = Done (cmac (Fips197.Cipher key) (mjoin parts), ctx')
    /\ is_block (M_last ctx') /\
    mic_value (cmac (Fips197.Cipher key) (mjoin parts))
    = le_val (take 4 (cmac (Fips197.Cipher key) (mjoin parts))).
Proof.
  intros Hk Hm Hp. destruct (cmac_run_spec ctx key parts digest Hk Hm Hp) as (ctx' & E & Hb).
  exists ctx'. split_and!; [done|done|].
  assert (HM : bytes (mjoin parts)).
  { clear -Hp. induction Hp as [|d ds Hd Hds IH]; [apply List.Forall_nil|].
    change (mjoin (d :: ds)) with (d ++ mjoin ds). by apply Forall_app. }
  destruct (cmac_block (Fips197.Cipher key) (fun b => cipher_block key b Hk) _ HM) as [L B].
  apply mic_value_le; [done|lia].
Qed.

(** The calls of one and of two updates, as runs of the whole computation. *)
Lemma cmac_run_two {A} ctx key p q digest (k : list Z * AES_CMAC_CTX -> run A) :
  (let* c := AES_CMAC_SetKey (AES_CMAC_Init ctx) key in
   let* c := AES_CMAC_Update c p (zlen p) in
   let* c := AES_CMAC_Update c q (zlen q) in
   rbind (AES_CMAC_Final digest c) k) = rbind (cmac_run ctx key [p; q] digest) k.
Proof.
  unfold cmac_run. cbn [update_all].
  destruct (AES_CMAC_SetKey _ _) as [c1| |]; cbn [rbind]; [|done|done].
  destruct (AES_CMAC_Update c1 _ _) as [c2| |]; cbn [rbind]; [|done|done].
  by destruct (AES_CMAC_Update c2 _ _).
Qed.

Lemma cmac_run_one {A} ctx key p digest (k : list Z * AES_CMAC_CTX -> run A) :
  (let* c := AES_CMAC_SetKey (AES_CMAC_Init ctx) key in
   let* c := AES_CMAC_Update c p (zlen p) in
   rbind (AES_CMAC_Final digest c) k) = rbind (cmac_run ctx key [p] digest) k.
Proof.
  unfold cmac_run. cbn [update_all].
  destruct (AES_CMAC_SetKey _ _) as [c1| |]; cbn [rbind]; [|done|done].
  by destruct (AES_CMAC_Update c1 _ _).
Qed.

Lemma ComputeMic_spec buffer size key address dir ctr s :
  wf s -> is_block key -> bytes buffer -> is_u8 dir -> 0 <= size < 256 -> size <= zlen buffer ->
  exists s', LoRaMacComputeMic buffer size key address dir ctr s
    = Done (frame_mic key dir address ctr (take (Z.to_nat size) buffer), s') /\ wf s'.
Proof.
  intros [H1 H2 H3 H4] Hk Hb Hd Hs Hl. unfold LoRaMacComputeMic. cbn [update MicBlockB0 AesCmacCtx Mic].
  rewrite (set_block_shape 0x49) by done. rewrite (land_ff size), (Z.mod_small size 256) by lia.
  unfold frame_mic. set (msg := take (Z.to_nat size) buffer).
  assert (Hmsg : size = zlen msg) by (unfold msg; rewrite length_take; lia).
  assert (HB0 : is_block (lora_block 0x49 dir address ctr (zlen msg)))
    by (apply lora_block_block; unfold is_u8 in *; lia).
  assert (Hmb : bytes msg) by (by apply Forall_take).
  rewrite (rdn_ok buffer) by lia. rewrite drop_0. fold msg. cbn [rbind]. rewrite Hmsg.
  rewrite rdn_ok by (unfold LORAMAC_MIC_BLOCK_B0_SIZE; destruct HB0; lia).
  cbn [rbind]. change (Z.to_nat 0) with 0%nat. rewrite drop_0.
  rewrite take_ge by (unfold LORAMAC_MIC_BLOCK_B0_SIZE; destruct HB0; lia).
  pose proof (lora_block_shape 0x49 dir address ctr (zlen msg)) as HS0.
  generalize dependent (lora_block 0x49 dir address ctr (zlen msg)). intros B0 HB0 HS0.
  replace LORAMAC_MIC_BLOCK_B0_SIZE with (zlen B0) by (destruct HB0; unfold LORAMAC_MIC_BLOCK_B0_SIZE; lia).
  rewrite (cmac_run_two (AesCmacCtx s) key B0 msg).
  destruct (cmac_run_mic (AesCmacCtx s) key [B0; msg] (Mic s)) as (ctx' & E & HL & HV); [done|done| |].
  { apply List.Forall_cons; [apply HB0|]. by apply List.Forall_cons. }
  rewrite E. cbn [rbind]. rewrite HV, mjoin_two. eexists. split; [reflexivity|]. by split.
Qed.

Lemma JoinComputeMic_spec buffer size key s :
  wf s -> is_block key -> bytes buffer -> 0 <= size < 256 -> size <= zlen buffer ->
  exists s', LoRaMacJoinComputeMic buffer size key s
    = Done (join_mic key (take (Z.to_nat size) buffer), s') /\ wf s'.
Proof.
  intros [H1 H2 H3 H4] Hk Hb Hs Hl. unfold LoRaMacJoinComputeMic.
  rewrite (land_ff size), (Z.mod_small size 256) by lia.
  unfold join_mic. rewrite (rdn_ok buffer) by lia. rewrite drop_0.
  assert (Hmb : bytes (take (Z.to_nat size) buffer)) by (by apply Forall_take).
  assert (Hmsg : size = zlen (take (Z.to_nat size) buffer)) by (rewrite length_take; lia).
  generalize dependent (take (Z.to_nat size) buffer). intros msg Hmb Hmsg. rewrite Hmsg. cbn [rbind].
  rewrite (cmac_run_one (AesCmacCtx s) key msg).
  destruct (cmac_run_mic (AesCmacCtx s) key [msg] (Mic s)) as (ctx' & E & HL & HV); [done|done| |].
  { by apply List.Forall_cons. }
  rewrite E. cbn [rbind]. rewrite HV, mjoin_one. eexists. split; [reflexivity|]. by split.
Qed.

(** A state whose AES context holds the schedule of [key]. *)
Definition keyed (key : list Z) (s : crypto) : Prop :=
  forall b, is_block b -> aes_encrypt b (AesContext s) = Some (Fips197.Cipher key b).

Lemma set_aes_key_spec key s : wf s -> is_block key ->
  exists s', set_aes_key key s = Done s' /\ wf s' /\ keyed key s' /\ aBlock s' = aBlock s.
Proof.
  intros [H1 H2 H3 H4] Hk. unfold set_aes_key.
  rewrite memset1_spec by (unfold is_u16; lia). cbn [rbind].
  change (Z.to_nat 0) with 0%nat. change (Z.to_nat 240) with 240%nat.
  rewrite take_0, drop_ge by lia. cbn [app]. rewrite app_nil_r.
  rewrite (aes_set_key_ref key) by done. cbn [rbind]. eexists. split; [reflexivity|].
  split_and!; [split; [done|done| |done]| |done].
  - cbn [update AesContext ksch]. rewrite length_app, length_drop.
    destruct (round_keys_blocks 10 key 1 Hk ltac:(unfold is_u8; lia)) as [HF HL].
    rewrite (length_mjoin_const 16), HL by (eapply List.Forall_impl; [|exact HF]; by intros ? []).
    cbn [ksch]. rewrite length_replicate. lia.
  - intros b Hb. cbn [update AesContext]. by apply aes_encrypt_ref.
Qed.

Lemma xor_loop_spec n : forall i buffer bi sb enc,
  0 <= i -> 0 <= bi -> bi + i + Z.of_nat n <= zlen buffer -> bi + i + Z.of_nat n <= zlen enc ->
  i + Z.of_nat n <= zlen sb ->
  xor_loop n i buffer bi sb enc =
  Done (splice enc (Z.to_nat (bi + i))
    (zip_with Z.lxor (take n (drop (Z.to_nat (bi + i)) buffer)) (drop (Z.to_nat i) sb))).
Proof.
  induction n as [|n IH]; intros i buffer bi sb enc Hi Hbi HB HE HS.
  - cbn [xor_loop]. unfold splice. rewrite take_0. cbn [zip_with app length].
    by rewrite Nat.add_0_r, take_drop.
  - cbn [xor_loop]. destruct (rd_ok buffer (bi + i)) as (x & -> & Hx); [lia|]. cbn [rbind].
    destruct (rd_ok sb i) as (y & -> & Hy); [lia|]. cbn [rbind].
    rewrite wr_ok by lia. cbn [rbind]. rewrite IH by (rewrite ?length_insert; lia).
    replace (Z.to_nat (bi + (i + 1))) with (S (Z.to_nat (bi + i))) by lia.
    replace (Z.to_nat (i + 1)) with (S (Z.to_nat i)) by lia.
    rewrite (drop_S _ _ _ Hx), (drop_S _ _ _ Hy). cbn [take zip_with]. f_equal. unfold splice.
    rewrite length_zip_with, length_take, !length_drop.
    replace ((n `min` _) `min` _)%nat with n by lia.
    rewrite insert_splice.
    + cbn [length]. rewrite length_zip_with, length_take, !length_drop. do 3 f_equal. lia.
    + lia.
    + rewrite length_zip_with, length_take, !length_drop. lia.
Qed.

(** The [aBlock] of a running encryption: byte 15 selects the block number. *)
Definition primed (dir address ctr : Z) (s : crypto) : Prop :=
  forall x, (aBlock s).[15 := x] = lora_block 0x01 dir address ctr x.

Lemma lora_block_set tag dir address ctr x y :
  (lora_block tag dir address ctr x).[15 := y] = lora_block tag dir address ctr y.
Proof. reflexivity. Qed.

Lemma next_sblock_spec key dir address ctr i s :
  wf s -> keyed key s -> primed dir address ctr s -> is_u8 dir -> is_u8 i ->
  exists s', next_sblock i s = s' /\ wf s' /\ keyed key s' /\ primed dir address ctr s' /\
    sBlock s' = Fips197.Cipher key (lora_block 0x01 dir address ctr i).
Proof.
  intros [H1 H2 H3 H4] Hk Hp Hd Hi. eexists. split; [reflexivity|]. unfold next_sblock.
  cbn [update aBlock sBlock AesContext]. rewrite land_ff, Z.mod_small by done. rewrite (Hp i).
  rewrite Hk by (apply lora_block_block; unfold is_u8 in *; lia).
  split_and!; [split; try done; cbn [update aBlock]|done| |done].
  - rewrite (Hp i). apply lora_block_shape.
  - intros x. cbn [update aBlock]. rewrite (Hp i). apply lora_block_set.
Qed.

Lemma keystream_S key dir address ctr i n :
  keystream key dir address ctr i (S n) =
  Fips197.Cipher key (lora_block 0x01 dir address ctr (Z.of_nat i)) ++
  keystream key dir address ctr (S i) n.
Proof. reflexivity. Qed.

Lemma keystream_0 key dir address ctr i : keystream key dir address ctr i 0 = [].
Proof. reflexivity. Qed.

Lemma length_keystream key dir address ctr n : forall i,
  is_block key -> is_u8 dir -> (i + n <= 256)%nat ->
  length (keystream key dir address ctr i n) = (16 * n)%nat.
Proof.
  induction n as [|n IH]; intros i Hk Hd Hn; [done|].
  rewrite keystream_S, length_app, IH by (done || lia).
  destruct (cipher_block key (lora_block 0x01 dir address ctr (Z.of_nat i)) Hk) as [HL _]; [|lia].
  apply lora_block_block; unfold is_u8 in *; lia.
Qed.

Section Encrypt.
Variables (key buffer : list Z) (dir address sc : Z).
Hypotheses (Hkey : is_block key) (Hdir : is_u8 dir).

Lemma encrypt_loop_spec fuel : forall size (c : nat) enc s,
  wf s -> keyed key s -> primed dir address sc s ->
  0 <= size -> size / 16 < Z.of_nat fuel -> (1 <= c)%nat ->
  16 * (Z.of_nat c - 1) + size < 256 ->
  16 * (Z.of_nat c - 1) + size <= zlen buffer -> 16 * (Z.of_nat c - 1) + size <= zlen enc ->
  let bi := (16 * (c - 1))%nat in
  exists s', encrypt_loop fuel buffer size (Z.of_nat bi) (Z.of_nat c) enc s =
    Done (splice enc bi
      (zip_with Z.lxor (take (Z.to_nat size) (drop bi buffer))
         (keystream key dir address sc c (blocks_of size))), s') /\ wf s'.
Proof.
  induction fuel as [|fuel IH]; intros size c enc s Hw Hk Hp H0 Hf Hc Hlt HB HE bi; [lia|].
  cbn [encrypt_loop].
  assert (Hci : is_u8 (Z.of_nat c)) by (unfold is_u8; lia).
  destruct (next_sblock_spec key dir address sc (Z.of_nat c) s Hw Hk Hp Hdir Hci)
    as (s1 & E1 & Hw1 & Hk1 & Hp1 & Hs1). rewrite E1.
  assert (Hsl : length (sBlock s1) = 16%nat).
  { rewrite Hs1. apply cipher_block; [done|]. by apply lora_block_block. }
  destruct (Z.leb_spec 16 size) as [H16|H16].
  - rewrite xor_loop_spec by lia. cbn [rbind]. rewrite Z.add_0_r, Nat2Z.id. rewrite drop_0.
    set (x := zip_with _ _ _).
    assert (Hx : length x = 16%nat).
    { unfold x. rewrite length_zip_with, length_take, length_drop. lia. }
    replace (u8 (Z.of_nat bi + 16)) with (Z.of_nat (16 * (S c - 1))) by machine.
    replace (u16 (Z.of_nat c + 1)) with (Z.of_nat (S c)) by machine.
    destruct (IH (size - 16) (S c) (splice enc bi x) s1) as (s2 & E2 & Hw2); try done; try lia.
    { rewrite splice_length; lia. }
    exists s2. split; [|done]. rewrite E2. do 2 f_equal.
    replace (16 * (S c - 1))%nat with (bi + length x)%nat by lia.
    rewrite splice_splice.
    2: { rewrite length_zip_with, length_take, length_drop, length_keystream; try done; unfold blocks_of; lia. }
    f_equal. unfold x. replace (blocks_of size) with (S (blocks_of (size - 16))) by (unfold blocks_of; lia).
    rewrite keystream_S, <- Hs1.
    replace (Z.to_nat size) with (16 + Z.to_nat (size - 16))%nat by lia.
    rewrite take_add_drop, zip_with_app by (rewrite length_take, length_drop; lia). f_equal.
    fold x. by rewrite Hx.
  - destruct (Z.ltb_spec 0 size) as [Hpos|Hz].
    + rewrite xor_loop_spec by lia. cbn [rbind]. rewrite Z.add_0_r, Nat2Z.id. rewrite drop_0.
      exists s1. split; [|done]. replace (blocks_of size) with 1%nat by (unfold blocks_of; lia).
      by rewrite keystream_S, <- Hs1, keystream_0, app_nil_r.
    + exists s. split; [|done]. replace size with 0 by lia. unfold splice. cbn [take zip_with].
      rewrite take_0. cbn [zip_with app length]. by rewrite Nat.add_0_r, take_drop.
Qed.

Lemma PayloadEncrypt_spec size enc s :
  wf s -> 0 <= size < 256 -> size <= zlen buffer -> size <= zlen enc ->
  exists s', LoRaMacPayloadEncrypt buffer size key address dir sc enc s =
    Done (splice enc 0 (payload_cipher key dir address sc (take (Z.to_nat size) buffer)), s') /\ wf s'.
Proof.
  intros Hw Hs HB HE. unfold LoRaMacPayloadEncrypt.
  destruct (set_aes_key_spec key s Hw Hkey) as (s1 & E1 & [W1 W2 W3 W4] & Hk1 & Ha).
  rewrite E1. cbn [rbind].
  destruct (encrypt_loop_spec (Z.to_nat (size / 16) + 1) size 1 enc
    (s1 <| aBlock ::= fun a => set_block a dir address sc |>)) as (s2 & E2 & Hw2); try done; try lia.
  - split; try done. by apply set_block_keeps.
  - intros x. by apply set_block_shape.
  - exists s2. split; [|done]. change (Z.of_nat (16 * (1 - 1))) with 0 in E2.
    change (Z.of_nat 1) with 1 in E2. rewrite E2. change (16 * (1 - 1))%nat with 0%nat.
    unfold payload_cipher. rewrite drop_0, length_take. replace (Z.of_nat (Z.to_nat size `min` length buffer)) with size by lia. done.
Qed.
End Encrypt.

Lemma payload_cipher_length key dir address ctr msg :
  is_block key -> is_u8 dir -> zlen msg < 256 ->
  length (payload_cipher key dir address ctr msg) = length msg.
Proof.
  intros. unfold payload_cipher. rewrite length_zip_with, length_keystream; try done; unfold blocks_of; lia.
Qed.

Lemma zip_lxor_involutive l : forall k, (length l <= length k)%nat ->
  zip_with Z.lxor (zip_with Z.lxor l k) k = l.
Proof.
  induction l as [|x l IH]; intros [|y k] H; try done; simpl in *; [lia|].
  rewrite IH by lia. by rewrite Z.lxor_assoc, Z.lxor_nilpotent, Z.lxor_0_r.
Qed.

Lemma payload_cipher_involutive key dir address ctr msg :
  is_block key -> is_u8 dir -> zlen msg < 256 ->
  payload_cipher key dir address ctr (payload_cipher key dir address ctr msg) = msg.
Proof.
  intros Hk Hd Hl. unfold payload_cipher at 1. rewrite payload_cipher_length by done.
  unfold payload_cipher. apply zip_lxor_involutive.
  rewrite length_keystream; try done; unfold blocks_of; lia.
Qed.

Lemma frame_mic_range key dir address ctr msg :
  is_block key -> is_u8 dir -> bytes msg -> zlen msg < 256 ->
  is_u32 (frame_mic key dir address ctr msg).
Proof.
  intros Hk Hd Hb Hl. unfold frame_mic.
  destruct (cmac_block (Fips197.Cipher key) (fun b => cipher_block key b Hk)
    (lora_block 0x49 dir address ctr (zlen msg) ++ msg)) as [L B].
  { apply Forall_app. split; [|done]. apply lora_block_block; unfold is_u8 in *; lia. }
  pose proof (le_val_range (take 4 (cmac (Fips197.Cipher key)
    (lora_block 0x49 dir address ctr (zlen msg) ++ msg))) (Forall_take _ _ _ B)) as HR.
  rewrite length_take, L in HR. exact HR.
Qed.

Lemma encrypt_at_spec key s buffer off dec :
  keyed key s -> is_block key -> bytes buffer -> 0 <= off -> off + 16 <= zlen buffer -> off + 16 <= zlen dec ->
  encrypt_at buffer off dec (AesContext s) =
  Done (splice dec (Z.to_nat off) (Fips197.Cipher key (take 16 (drop (Z.to_nat off) buffer)))).
Proof.
  intros Hk Hkey Hb Ho HB HD. unfold encrypt_at. rewrite rdn_ok by lia. cbn [rbind].
  change (Z.to_nat 16) with 16%nat.
  assert (Hblk : is_block (take 16 (drop (Z.to_nat off) buffer))) by (apply take_drop_block; [done|lia]).
  rewrite Hk by done. destruct (cipher_block key _ Hkey Hblk) as [HL _].
  rewrite wrn_ok by lia. done.
Qed.

Lemma skey_nonce_spec tag appNonce devNonce : (6 <= length appNonce)%nat ->
  skey_nonce tag appNonce devNonce =
  Done ([tag] ++ take 6 appNonce ++ le_bytes 2 devNonce ++ replicate 7 0).
Proof.
  intros Hl. unfold skey_nonce. rewrite memset1_spec by (unfold is_u16; cbn [length replicate]; lia).
  cbn [rbind]. rewrite memcpy1_spec; try (unfold is_u16; lia).
  2: { by vm_compute. }
  cbn [rbind]. do 6 (destruct appNonce as [|? appNonce]; [simpl in Hl; lia|]).
  rewrite memcpy1_spec; try (unfold is_u16; lia); [reflexivity| |]; by vm_compute.
Qed.

Lemma payload_cipher_bytes key dir address ctr msg :
  is_block key -> is_u8 dir -> bytes msg -> zlen msg < 256 -> bytes (payload_cipher key dir address ctr msg).
Proof.
  intros Hk Hd Hm Hl. unfold payload_cipher. apply bytes_zip_lxor; [done|].
  unfold keystream. apply Forall_join, List.Forall_map, List.Forall_forall. intros i Hi%in_seq.
  apply cipher_block; [done|]. apply lora_block_block; unfold is_u8, blocks_of in *; lia.
Qed.

Lemma session_key_block key tag nonce devNonce :
  is_block key -> is_u8 tag -> bytes nonce -> (6 <= length nonce)%nat -> is_block (session_key key tag nonce devNonce).
Proof.
  intros Hk Ht Hb Hl. apply cipher_block; [done|]. split.
  - rewrite !length_app, length_take, le_bytes_length, length_replicate. cbn [length]. lia.
  - rewrite !Forall_app. split_and!; [by constructor|by apply Forall_take|apply le_bytes_bytes|].
    apply Forall_replicate. unfold is_u8. lia.
Qed.

(** * The contract of the MAC with this file

    The MAC is modelled against these operations and laws; [mac_security]
    below discharges them. *)
Class FrameSecurity := {
  fs_mic : list Z -> Z -> Z -> Z -> list Z -> Z;
  fs_cipher : list Z -> Z -> Z -> Z -> list Z -> list Z;
  fs_join_mic : list Z -> list Z -> Z;
  fs_join_block : list Z -> list Z -> list Z;
  fs_session_key : list Z -> Z -> list Z -> Z -> list Z;
  fs_cipher_length : forall key dir address ctr msg,
    is_block key -> is_u8 dir -> zlen msg < 256 ->
    length (fs_cipher key dir address ctr msg) = length msg;
  fs_cipher_involutive : forall key dir address ctr msg,
    is_block key -> is_u8 dir -> zlen msg < 256 ->
    fs_cipher key dir address ctr (fs_cipher key dir address ctr msg) = msg;
  fs_mic_range : forall key dir address ctr msg,
    is_block key -> is_u8 dir -> bytes msg -> zlen msg < 256 ->
    is_u32 (fs_mic key dir address ctr msg);
  fs_cipher_bytes : forall key dir address ctr msg,
    is_block key -> is_u8 dir -> bytes msg -> zlen msg < 256 -> bytes (fs_cipher key dir address ctr msg);
  fs_join_block_block : forall key b, is_block key -> is_block b -> is_block (fs_join_block key b);
  fs_session_key_block : forall key tag nonce devNonce,
    is_block key -> is_u8 tag -> bytes nonce -> (6 <= length nonce)%nat -> is_block (fs_session_key key tag nonce devNonce);
}.

#[export] Instance mac_security : FrameSecurity := {|
  fs_mic := frame_mic;
  fs_cipher := payload_cipher;
  fs_join_mic := join_mic;
  fs_join_block := Fips197.Cipher;
  fs_session_key := session_key;
  fs_cipher_length := payload_cipher_length;
  fs_cipher_involutive := payload_cipher_involutive;
  fs_mic_range := frame_mic_range;
  fs_cipher_bytes := payload_cipher_bytes;
  fs_join_block_block := cipher_block;
  fs_session_key_block := session_key_block;
|}.

(** * Properties *)

(** C8: for a frame of at most 255 bytes the integrity code is the first four
    bytes, least significant first, of the AES-CMAC of the block [B_0] followed
    by the frame, whatever the static buffers held; their invariant is kept. *)
Theorem frame_mic_correct buffer size key address dir ctr s :
  wf s -> is_block key -> bytes buffer -> is_u8 dir -> 0 <= size < 256 -> size <= zlen buffer ->
  exists s', LoRaMacComputeMic buffer size key address dir ctr s
    = Done (frame_mic key dir address ctr (take (Z.to_nat size) buffer), s') /\ wf s'.
Proof. apply ComputeMic_spec. Qed.

Definition demo_key : list Z := map Z.of_nat (seq 1 16).
Definition demo_msg : list Z := map Z.of_nat (seq 100 37).

Lemma demo_key_block : is_block demo_key.
Proof. split; [done|by apply bytesb_true]. Qed.

Lemma demo_msg_bytes : bytes demo_msg.
Proof. by apply bytesb_true. Qed.

Lemma frame_mic_correct_witness :
  exists s', LoRaMacComputeMic demo_msg 37 demo_key 0x26011234 0 7 crypto_init
    = Done (frame_mic demo_key 0 0x26011234 7 (take (Z.to_nat 37) demo_msg), s') /\ wf s'.
Proof.
  apply frame_mic_correct.
  - apply crypto_init_wf.
  - apply demo_key_block.
  - apply demo_msg_bytes.
  - unfold is_u8. lia.
  - lia.
  - vm_compute. discriminate.
Defined.

(** C7: encryption of a payload of at most 255 bytes is the counter mode of the
    specification, decryption with the same parameters gives the payload back
    into any buffer that holds it, and neither touches a byte past the payload. *)
Theorem payload_roundtrip buffer size key address dir ctr enc dec s :
  wf s -> is_block key -> is_u8 dir -> 0 <= size < 256 ->
  size <= zlen buffer -> size <= zlen enc -> size <= zlen dec ->
  let msg := take (Z.to_nat size) buffer in
  exists s1 s2,
    LoRaMacPayloadEncrypt buffer size key address dir ctr enc s =
      Done (splice enc 0 (payload_cipher key dir address ctr msg), s1) /\
    LoRaMacPayloadDecrypt (splice enc 0 (payload_cipher key dir address ctr msg)) size key address dir ctr dec s1 =
      Done (splice dec 0 msg, s2) /\ wf s2.
Proof.
  intros Hw Hk Hd Hs HB HE HD msg.
  assert (Hm : zlen msg = size) by (unfold msg; rewrite length_take; lia).
  assert (Hc : length (payload_cipher key dir address ctr msg) = length msg)
    by (apply payload_cipher_length; (done || lia)).
  destruct (PayloadEncrypt_spec key buffer dir address ctr Hk Hd size enc s) as (s1 & E1 & W1); try done.
  exists s1. unfold LoRaMacPayloadDecrypt.
  destruct (PayloadEncrypt_spec key (splice enc 0 (payload_cipher key dir address ctr msg))
    dir address ctr Hk Hd size dec s1) as (s2 & E2 & W2); try done.
  { rewrite splice_length; lia. }
  exists s2. split_and!; [done| |done]. rewrite E2. do 3 f_equal.
  replace (Z.to_nat size) with (0 + length (payload_cipher key dir address ctr msg))%nat by lia.
  rewrite take_splice, take_0 by lia. cbn [app]. apply payload_cipher_involutive; (done || lia).
Qed.

Lemma payload_roundtrip_witness :
  exists s1 s2,
    LoRaMacPayloadEncrypt demo_msg 37 demo_key 5 0 9 (replicate 64 0) crypto_init =
      Done (splice (replicate 64 0) 0 (payload_cipher demo_key 0 5 9 (take (Z.to_nat 37) demo_msg)), s1) /\
    LoRaMacPayloadDecrypt (splice (replicate 64 0) 0 (payload_cipher demo_key 0 5 9 (take (Z.to_nat 37) demo_msg)))
      37 demo_key 5 0 9 (replicate 40 1) s1 =
      Done (splice (replicate 40 1) 0 (take (Z.to_nat 37) demo_msg), s2) /\ wf s2.
Proof.
  apply payload_roundtrip.
  - apply crypto_init_wf.
  - apply demo_key_block.
  - unfold is_u8. lia.
  - lia.
  - vm_compute. discriminate.
  - vm_compute. discriminate.
  - vm_compute. discriminate.
Defined.

(** The session keys of a join are the encryptions, under the application
    key, of the tag byte 1 (network) or 2 (application), the six bytes of
    application nonce and network identifier, the device nonce and zeros. *)
Theorem session_keys_correct key appNonce devNonce nwk app s :
  wf s -> is_block key -> bytes appNonce -> (6 <= length appNonce)%nat -> is_u16 devNonce ->
  exists s', LoRaMacJoinComputeSKeys key appNonce devNonce nwk app s =
    Done (session_key key 1 appNonce devNonce, session_key key 2 appNonce devNonce, s') /\ wf s'.
Proof.
  intros Hw Hk Hb Hl Hd. unfold LoRaMacJoinComputeSKeys.
  destruct (set_aes_key_spec key s Hw Hk) as (s1 & E1 & W1 & Hk1 & _). rewrite E1. cbn [rbind].
  assert (HB : forall tag, is_u8 tag -> is_block ([tag] ++ take 6 appNonce ++ le_bytes 2 devNonce ++ replicate 7 0)).
  { intros tag Ht. split.
    - rewrite !length_app, length_take, le_bytes_length, length_replicate. cbn [length]. lia.
    - rewrite !Forall_app. split_and!; [by apply List.Forall_cons|by apply Forall_take|apply le_bytes_bytes|].
      apply Forall_replicate. unfold is_u8. lia. }
  rewrite !skey_nonce_spec by done. cbn [rbind]. rewrite !Hk1 by (apply HB; unfold is_u8; lia).
  exists s1. split; [reflexivity|done].
Qed.

Lemma session_keys_correct_witness :
  exists s', LoRaMacJoinComputeSKeys demo_key [1; 2; 3; 4; 5; 6] 0x1234 [] [] crypto_init =
    Done (session_key demo_key 1 [1; 2; 3; 4; 5; 6] 0x1234, session_key demo_key 2 [1; 2; 3; 4; 5; 6] 0x1234, s')
    /\ wf s'.
Proof.
  apply session_keys_correct.
  - apply crypto_init_wf.
  - apply demo_key_block.
  - by apply bytesb_true.
  - simpl. lia.
  - unfold is_u16. lia.
Defined.

(** Decryption of a join accept with a payload of 16 bytes, the frame that
    carries no channel list, encrypts a second block all the same: it reads
    and writes the 16 bytes after the payload, and is undefined on buffers
    that end there. *)
Theorem join_decrypt_reads_past_accept buffer key dec s :
  wf s -> is_block key -> bytes buffer ->
  (length buffer = 16%nat -> (16 <= length dec)%nat -> LoRaMacJoinDecrypt buffer 16 key dec s = Undef) /\
  ((32 <= length buffer)%nat -> (32 <= length dec)%nat -> exists s',
    LoRaMacJoinDecrypt buffer 16 key dec s =
    Done (splice dec 0 (Fips197.Cipher key (take 16 buffer) ++
                        Fips197.Cipher key (take 16 (drop 16 buffer))), s') /\ wf s').
Proof.
  intros Hw Hk Hb. unfold LoRaMacJoinDecrypt.
  destruct (set_aes_key_spec key s Hw Hk) as (s1 & E1 & W1 & Hk1 & _). rewrite E1. cbn [rbind].
  split; intros HB HD; rewrite (encrypt_at_spec key) by (done || lia); cbn [rbind];
    rewrite (proj2 (Z.leb_le 16 16)) by lia.
  - unfold encrypt_at, rdn. by rewrite HB.
  - destruct (cipher_block key (take 16 buffer) Hk) as [HL _].
    { apply (take_drop_block 0); [done|lia]. }
    destruct (cipher_block key (take 16 (drop 16 buffer)) Hk) as [HL2 _].
    { apply take_drop_block; [done|lia]. }
    change (Z.to_nat 0) with 0%nat. rewrite drop_0.
    rewrite (encrypt_at_spec key) by (done || lia || (rewrite splice_length; lia)).
    cbn [rbind]. exists s1. split; [|done]. change (Z.to_nat 16) with 16%nat.
    rewrite <- (splice_splice dec 0) by lia. by rewrite HL.
Qed.

Lemma join_decrypt_reads_past_accept_witness :
  LoRaMacJoinDecrypt demo_key 16 demo_key (replicate 16 0) crypto_init = Undef.
Proof.
  apply (join_decrypt_reads_past_accept demo_key demo_key (replicate 16 0) crypto_init).
  - apply crypto_init_wf.
  - apply demo_key_block.
  - apply demo_key_block.
  - reflexivity.
  - simpl. lia.
Defined.

End MacCrypto.
