(* ===== verification/MacTypes.v ===== *)
(** Data of the LoRaWAN MAC (src/src/mac/LoRaMac.h, LoRaMac-definitions.h and
    the static variables of LoRaMac.c) in the EU 868 MHz configuration the
    board's projects are built with ([USE_BAND_868]); the calls the MAC makes
    to radio, timers and upper layer, as a trace of actions; the environment
    the MAC reads. *)
From stdpp Require Export gmap.
From S2P Require Import Prelude Utilities.
#[global] Open Scope Z_scope.

Module MacTypes.

(** * Enumerations *)

Inductive LoRaMacStatus_t :=
| LORAMAC_STATUS_OK | LORAMAC_STATUS_BUSY | LORAMAC_STATUS_SERVICE_UNKNOWN
| LORAMAC_STATUS_PARAMETER_INVALID | LORAMAC_STATUS_FREQUENCY_INVALID
| LORAMAC_STATUS_DATARATE_INVALID | LORAMAC_STATUS_FREQ_AND_DR_INVALID
| LORAMAC_STATUS_NO_NETWORK_JOINED | LORAMAC_STATUS_LENGTH_ERROR
| LORAMAC_STATUS_MAC_CMD_LENGTH_ERROR | LORAMAC_STATUS_DEVICE_OFF.
#[export] Instance status_eq_dec : EqDecision LoRaMacStatus_t.
Proof. solve_decision. Defined.

Inductive LoRaMacEventInfoStatus_t :=
| LORAMAC_EVENT_INFO_STATUS_OK | LORAMAC_EVENT_INFO_STATUS_ERROR
| LORAMAC_EVENT_INFO_STATUS_TX_TIMEOUT | LORAMAC_EVENT_INFO_STATUS_RX2_TIMEOUT
| LORAMAC_EVENT_INFO_STATUS_RX2_ERROR | LORAMAC_EVENT_INFO_STATUS_JOIN_FAIL
| LORAMAC_EVENT_INFO_STATUS_DOWNLINK_REPEATED
| LORAMAC_EVENT_INFO_STATUS_DOWNLINK_TOO_MANY_FRAMES_LOSS
| LORAMAC_EVENT_INFO_STATUS_ADDRESS_FAIL | LORAMAC_EVENT_INFO_STATUS_MIC_FAIL.
#[export] Instance event_eq_dec : EqDecision LoRaMacEventInfoStatus_t.
Proof. solve_decision. Defined.

Inductive DeviceClass_t := CLASS_A | CLASS_B | CLASS_C.
#[export] Instance class_eq_dec : EqDecision DeviceClass_t.
Proof. solve_decision. Defined.

Inductive Mcps_t := MCPS_UNCONFIRMED | MCPS_CONFIRMED | MCPS_MULTICAST | MCPS_PROPRIETARY.
#[export] Instance mcps_eq_dec : EqDecision Mcps_t.
Proof. solve_decision. Defined.

Inductive Mlme_t := MLME_JOIN | MLME_LINK_CHECK.
#[export] Instance mlme_eq_dec : EqDecision Mlme_t.
Proof. solve_decision. Defined.

Inductive RadioModems_t := MODEM_FSK | MODEM_LORA.

(** [LoRaMacFrameType_t] *)
Definition FRAME_TYPE_JOIN_REQ : Z := 0x00.
Definition FRAME_TYPE_JOIN_ACCEPT : Z := 0x01.
Definition FRAME_TYPE_DATA_UNCONFIRMED_UP : Z := 0x02.
Definition FRAME_TYPE_DATA_UNCONFIRMED_DOWN : Z := 0x03.
Definition FRAME_TYPE_DATA_CONFIRMED_UP : Z := 0x04.
Definition FRAME_TYPE_DATA_CONFIRMED_DOWN : Z := 0x05.
Definition FRAME_TYPE_PROPRIETARY : Z := 0x07.

(** [LoRaMacMoteCmd_t] *)
Definition MOTE_MAC_LINK_CHECK_REQ : Z := 0x02.
Definition MOTE_MAC_LINK_ADR_ANS : Z := 0x03.
Definition MOTE_MAC_DUTY_CYCLE_ANS : Z := 0x04.
Definition MOTE_MAC_RX_PARAM_SETUP_ANS : Z := 0x05.
Definition MOTE_MAC_DEV_STATUS_ANS : Z := 0x06.
Definition MOTE_MAC_NEW_CHANNEL_ANS : Z := 0x07.
Definition MOTE_MAC_RX_TIMING_SETUP_ANS : Z := 0x08.

(** [LoRaMacSrvCmd_t] *)
Definition SRV_MAC_LINK_CHECK_ANS : Z := 0x02.
Definition SRV_MAC_LINK_ADR_REQ : Z := 0x03.
Definition SRV_MAC_DUTY_CYCLE_REQ : Z := 0x04.
Definition SRV_MAC_RX_PARAM_SETUP_REQ : Z := 0x05.
Definition SRV_MAC_DEV_STATUS_REQ : Z := 0x06.
Definition SRV_MAC_NEW_CHANNEL_REQ : Z := 0x07.
Definition SRV_MAC_RX_TIMING_SETUP_REQ : Z := 0x08.

Definition BAT_LEVEL_NO_MEASURE : Z := 0xFF.

(** [eLoRaMacState], bits of [LoRaMacState] *)
Definition MAC_IDLE : Z := 0.
Definition MAC_TX_RUNNING : Z := 0x01.
Definition MAC_RX : Z := 0x02.
Definition MAC_ACK_REQ : Z := 0x04.
Definition MAC_ACK_RETRY : Z := 0x08.
Definition MAC_TX_DELAYED : Z := 0x10.
Definition MAC_TX_CONFIG : Z := 0x20.
Definition MAC_RX_ABORT : Z := 0x40.

(** * Constants *)

Definition LORAMAC_PHY_MAXPAYLOAD : Z := 255.
Definition LORA_MAC_COMMAND_MAX_LENGTH : Z := 15.
Definition LORA_MAC_FRMPAYLOAD_OVERHEAD : Z := 13.
Definition LORAMAC_MFR_LEN : Z := 4.
Definition UP_LINK : Z := 0.
Definition DOWN_LINK : Z := 1.
Definition MAX_FCNT_GAP : Z := 16384.
Definition ADR_ACK_LIMIT : Z := 64.
Definition ADR_ACK_DELAY : Z := 32.
Definition ACK_TIMEOUT : Z := 2000.
Definition ACK_TIMEOUT_RND : Z := 1000.
Definition MAC_STATE_CHECK_TIMEOUT : Z := 1000.
Definition MAX_ACK_RETRIES : Z := 8.
Definition RECEIVE_DELAY1 : Z := 1000.
Definition RECEIVE_DELAY2 : Z := 2000.
Definition JOIN_ACCEPT_DELAY1 : Z := 5000.
Definition JOIN_ACCEPT_DELAY2 : Z := 6000.
Definition MAX_RX_WINDOW : Z := 3000.
Definition RADIO_WAKEUP_TIME : Z := 3.
Definition LORA_MAC_PRIVATE_SYNCWORD : Z := 0x12.
Definition LORA_MAC_PUBLIC_SYNCWORD : Z := 0x34.
Definition REG_LR_SYNCWORD : Z := 0x39.

(** EU 868: LoRaMac-definitions.h *)
Definition LC (channelIndex : Z) : Z := u16 (Z.shiftl 1 (channelIndex - 1)).
Definition LORA_MAX_NB_CHANNELS : Z := 16.
Definition LORA_MAX_NB_BANDS : Z := 5.
Definition LORAMAC_TX_MIN_DATARATE : Z := 0.
Definition LORAMAC_TX_MAX_DATARATE : Z := 7.
Definition LORAMAC_RX_MIN_DATARATE : Z := 0.
Definition LORAMAC_RX_MAX_DATARATE : Z := 7.
Definition LORAMAC_DEFAULT_DATARATE : Z := 5.
Definition LORAMAC_MIN_RX1_DR_OFFSET : Z := 0.
Definition LORAMAC_MAX_RX1_DR_OFFSET : Z := 5.
Definition LORAMAC_MIN_TX_POWER : Z := 5.
Definition LORAMAC_MAX_TX_POWER : Z := 0.
Definition LORAMAC_DEFAULT_TX_POWER : Z := 1.
Definition BACKOFF_DC_1_HOUR : Z := 100.
Definition BACKOFF_DC_10_HOURS : Z := 1000.
Definition BACKOFF_DC_24_HOURS : Z := 10000.
Definition BACKOFF_RND_OFFSET : Z := 600000.
Definition JOIN_CHANNELS : Z := u16 (Z.lor (Z.lor (LC 1) (LC 2)) (LC 3)).
Definition DEFAULT_CHANNELS : Z := LC 1 + LC 2 + LC 3.

Definition Datarates : list Z := [12; 11; 10; 9; 8; 7; 7; 50].
Definition MaxPayloadOfDatarate : list Z := [51; 51; 51; 115; 242; 242; 242; 242].
Definition MaxPayloadOfDatarateRepeater : list Z := [51; 51; 51; 115; 222; 222; 222; 222].
Definition TxPowers : list Z := [20; 14; 11; 8; 5; 2].

(** * Records *)

(** [DrRange] is the byte [Value]; its fields are signed four-bit fields. *)
Definition s4 (z : Z) : Z := (z + 8) mod 16 - 8.
Definition DrMin (value : Z) : Z := s4 value.
Definition DrMax (value : Z) : Z := s4 (Z.shiftr value 4).

Record ChannelParams_t := mkChannel {
  Frequency : Z;
  DrRange : Z;
  Band : Z;
}.
#[export] Instance eta_channel : Eta ChannelParams_t :=
  fun c => mkChannel (Frequency c) (DrRange c) (Band c).

Record Band_t := mkBand {
  DCycle : Z;
  TxMaxPower : Z;
  LastTxDoneTime : Z;
  TimeOff : Z;
}.
#[export] Instance eta_band : Eta Band_t :=
  fun b => mkBand (DCycle b) (TxMaxPower b) (LastTxDoneTime b) (TimeOff b).

Record LoRaMacParams_t := mkParams {
  ChannelsTxPower : Z;
  ChannelsDatarate : Z;
  MaxRxWindow : Z;
  ReceiveDelay1 : Z;
  ReceiveDelay2 : Z;
  JoinAcceptDelay1 : Z;
  JoinAcceptDelay2 : Z;
  ChannelsNbRep : Z;
  Rx1DrOffset : Z;
  Rx2Frequency : Z;
  Rx2Datarate : Z;
  ChannelsMask : list Z;
}.
#[export] Instance eta_params : Eta LoRaMacParams_t :=
  fun p => mkParams (ChannelsTxPower p) (ChannelsDatarate p) (MaxRxWindow p) (ReceiveDelay1 p)
    (ReceiveDelay2 p) (JoinAcceptDelay1 p) (JoinAcceptDelay2 p) (ChannelsNbRep p) (Rx1DrOffset p)
    (Rx2Frequency p) (Rx2Datarate p) (ChannelsMask p).

(** A node of the multicast list; [mp_Next] is a pointer. *)
Record MulticastParams_t := mkMulticast {
  mp_Address : Z;
  mp_NwkSKey : list Z;
  mp_AppSKey : list Z;
  mp_DownLinkCounter : Z;
  mp_Next : option Z;
}.
#[export] Instance eta_multicast : Eta MulticastParams_t :=
  fun m => mkMulticast (mp_Address m) (mp_NwkSKey m) (mp_AppSKey m) (mp_DownLinkCounter m) (mp_Next m).

(** [mi_Buffer]: whether [Buffer] points to [LoRaMacRxPayload] (else NULL). *)
Record McpsIndication_t := mkIndication {
  mi_McpsIndication : Mcps_t;
  mi_Status : LoRaMacEventInfoStatus_t;
  mi_Multicast : Z;
  mi_Port : Z;
  mi_RxDatarate : Z;
  mi_FramePending : Z;
  mi_Buffer : bool;
  mi_BufferSize : Z;
  mi_RxData : bool;
  mi_Rssi : Z;
  mi_Snr : Z;
  mi_RxSlot : Z;
  mi_AckReceived : bool;
  mi_DownLinkCounter : Z;
}.
#[export] Instance eta_indication : Eta McpsIndication_t :=
  fun i => mkIndication (mi_McpsIndication i) (mi_Status i) (mi_Multicast i) (mi_Port i)
    (mi_RxDatarate i) (mi_FramePending i) (mi_Buffer i) (mi_BufferSize i) (mi_RxData i) (mi_Rssi i)
    (mi_Snr i) (mi_RxSlot i) (mi_AckReceived i) (mi_DownLinkCounter i).

Record McpsConfirm_t := mkMcpsConfirm {
  mc_McpsRequest : Mcps_t;
  mc_Status : LoRaMacEventInfoStatus_t;
  mc_Datarate : Z;
  mc_TxPower : Z;
  mc_AckReceived : bool;
  mc_NbRetries : Z;
  mc_TxTimeOnAir : Z;
  mc_UpLinkCounter : Z;
}.
#[export] Instance eta_mcps_confirm : Eta McpsConfirm_t :=
  fun c => mkMcpsConfirm (mc_McpsRequest c) (mc_Status c) (mc_Datarate c) (mc_TxPower c)
    (mc_AckReceived c) (mc_NbRetries c) (mc_TxTimeOnAir c) (mc_UpLinkCounter c).

Record MlmeConfirm_t := mkMlmeConfirm {
  ml_MlmeRequest : Mlme_t;
  ml_Status : LoRaMacEventInfoStatus_t;
  ml_TxTimeOnAir : Z;
  ml_DemodMargin : Z;
  ml_NbGateways : Z;
}.
#[export] Instance eta_mlme_confirm : Eta MlmeConfirm_t :=
  fun c => mkMlmeConfirm (ml_MlmeRequest c) (ml_Status c) (ml_TxTimeOnAir c) (ml_DemodMargin c)
    (ml_NbGateways c).

Record LoRaMacFlags_t := mkFlags {
  McpsReq : bool;
  McpsInd : bool;
  MlmeReq : bool;
  MacDone : bool;
}.
#[export] Instance eta_flags : Eta LoRaMacFlags_t :=
  fun f => mkFlags (McpsReq f) (McpsInd f) (MlmeReq f) (MacDone f).

(** * Calls out of the MAC *)

Inductive timer := MacStateCheckTimer | TxDelayedTimer | RxWindowTimer1 | RxWindowTimer2 | AckTimeoutTimer.
#[export] Instance timer_eq_dec : EqDecision timer.
Proof. solve_decision. Defined.

Inductive action :=
| RadioInit
| RadioSleep
| RadioStandby
| RadioSetModem (m : RadioModems_t)
| RadioWrite (addr data : Z)
| RadioSetChannel (freq : Z)
| RadioSetRxConfig (m : RadioModems_t) (bandwidth datarate timeout : Z) (continuous : bool)
| RadioSetTxConfig (m : RadioModems_t) (power fdev bandwidth datarate : Z)
| RadioSetMaxPayloadLength (m : RadioModems_t) (max : Z)
| RadioRx (timeout : Z)
| RadioSend (frame : list Z)
| TimerInit (t : timer)
| TimerSetValue (t : timer) (value : Z)
| TimerStart (t : timer)
| TimerStop (t : timer)
| MacMcpsConfirm (c : McpsConfirm_t)
| MacMlmeConfirm (c : MlmeConfirm_t)
| MacMcpsIndication (i : McpsIndication_t) (rxPayload : list Z).

(** * Environment

    The radio driver, the battery callback and the clock, as the MAC sees
    them.  [RadioRandom] is what the next call of [Radio.Random] returns,
    [RadioIdle] whether [Radio.GetStatus] returns [RF_IDLE], [now] the value
    of [TimerGetCurrentTime]. *)
Class RadioDriver := {
  CheckRfFrequency : Z -> bool;
  TimeOnAir : RadioModems_t -> Z -> Z;
  GetBatteryLevel : option Z;
}.

Record environment := mkEnv {
  now : Z;
  RadioIdle : bool;
  RadioRandom : Z;
}.
#[export] Instance eta_env : Eta environment :=
  fun e => mkEnv (now e) (RadioIdle e) (RadioRandom e).

(** [RtcComputeElapsedTime] of rtc-board.c, behind [TimerGetElapsedTime]. *)
Definition RtcComputeElapsedTime (curTime eventInTime : Z) : Z :=
  if eventInTime =? 0 then 0
  else if curTime <? eventInTime then u32 (curTime + (0xFFFFFFFF - eventInTime))
  else curTime - eventInTime.

(** * The static variables of LoRaMac.c *)

Record mac := mkMac {
  env : environment;
  rand_next : Z;
  trace : list action;

  LoRaMacDevEui : list Z;
  LoRaMacAppEui : list Z;
  LoRaMacAppKey : list Z;
  LoRaMacNwkSKey : list Z;
  LoRaMacAppSKey : list Z;
  LoRaMacDevNonce : Z;
  LoRaMacNetID : Z;
  LoRaMacDevAddr : Z;
  MulticastChannels : option Z;
  MulticastNodes : gmap Z MulticastParams_t;
  LoRaMacDeviceClass : DeviceClass_t;
  PublicNetwork : bool;
  RepeaterSupport : bool;
  LoRaMacBuffer : list Z;
  LoRaMacBufferPktLen : Z;
  LoRaMacPayload : list Z;
  LoRaMacRxPayload : list Z;
  UpLinkCounter : Z;
  DownLinkCounter : Z;
  IsUpLinkCounterFixed : bool;
  IsRxWindowsEnabled : bool;
  IsLoRaMacNetworkJoined : bool;
  AdrCtrlOn : bool;
  AdrAckCounter : Z;
  NodeAckRequested : bool;
  SrvAckRequested : bool;
  MacCommandsInNextTx : bool;
  MacCommandsBufferIndex : Z;
  MacCommandsBufferToRepeatIndex : Z;
  MacCommandsBuffer : list Z;
  MacCommandsBufferToRepeat : list Z;
  Bands : list Band_t;
  Channels : list ChannelParams_t;
  LoRaMacParams : LoRaMacParams_t;
  LoRaMacParamsDefaults : LoRaMacParams_t;
  ChannelsNbRepCounter : Z;
  MaxDCycle : Z;
  AggregatedDCycle : Z;
  AggregatedLastTxDoneTime : Z;
  AggregatedTimeOff : Z;
  DutyCycleOn : bool;
  Channel : Z;
  LastTxChannel : Z;
  LoRaMacState : Z;
  RxWindow1Delay : Z;
  RxWindow2Delay : Z;
  AckTimeoutRetries : Z;
  AckTimeoutRetriesCounter : Z;
  AckTimeoutRetry : bool;
  TxTimeOnAir : Z;
  JoinRequestTrials : Z;
  McpsIndication : McpsIndication_t;
  McpsConfirm : McpsConfirm_t;
  MlmeConfirm : MlmeConfirm_t;
  RxSlot : Z;
  LoRaMacFlags : LoRaMacFlags_t;
}.
#[export] Instance eta_mac : Eta mac :=
  fun s => mkMac (env s) (rand_next s) (trace s) (LoRaMacDevEui s) (LoRaMacAppEui s)
     (LoRaMacAppKey s) (LoRaMacNwkSKey s) (LoRaMacAppSKey s) (LoRaMacDevNonce s) (LoRaMacNetID s)
     (LoRaMacDevAddr s) (MulticastChannels s) (MulticastNodes s) (LoRaMacDeviceClass s)
     (PublicNetwork s) (RepeaterSupport s) (LoRaMacBuffer s) (LoRaMacBufferPktLen s)
     (LoRaMacPayload s) (LoRaMacRxPayload s) (UpLinkCounter s) (DownLinkCounter s)
     (IsUpLinkCounterFixed s) (IsRxWindowsEnabled s) (IsLoRaMacNetworkJoined s) (AdrCtrlOn s)
     (AdrAckCounter s) (NodeAckRequested s) (SrvAckRequested s) (MacCommandsInNextTx s)
     (MacCommandsBufferIndex s) (MacCommandsBufferToRepeatIndex s) (MacCommandsBuffer s)
     (MacCommandsBufferToRepeat s) (Bands s) (Channels s) (LoRaMacParams s)
     (LoRaMacParamsDefaults s) (ChannelsNbRepCounter s) (MaxDCycle s) (AggregatedDCycle s)
     (AggregatedLastTxDoneTime s) (AggregatedTimeOff s) (DutyCycleOn s) (Channel s)
     (LastTxChannel s) (LoRaMacState s) (RxWindow1Delay s) (RxWindow2Delay s)
     (AckTimeoutRetries s) (AckTimeoutRetriesCounter s) (AckTimeoutRetry s) (TxTimeOnAir s)
     (JoinRequestTrials s) (McpsIndication s) (McpsConfirm s) (MlmeConfirm s) (RxSlot s)
     (LoRaMacFlags s).

(** The code of the MAC: reads and changes [mac], may run out of an object. *)
Abbreviation M := (ST mac).
#[global] Open Scope st_scope.

(** * Accessors and small steps *)

(** A call out of the MAC is appended to the trace. *)
Definition emit (a : action) : M unit := smod (fun s => s <| trace ::= fun t => t ++ [a] |>).

Definition set_params (g : LoRaMacParams_t -> LoRaMacParams_t) : M unit :=
  smod (fun s => s <| LoRaMacParams ::= g |>).
Definition set_ind (g : McpsIndication_t -> McpsIndication_t) : M unit :=
  smod (fun s => s <| McpsIndication ::= g |>).
Definition set_mcps (g : McpsConfirm_t -> McpsConfirm_t) : M unit :=
  smod (fun s => s <| McpsConfirm ::= g |>).
Definition set_mlme (g : MlmeConfirm_t -> MlmeConfirm_t) : M unit :=
  smod (fun s => s <| MlmeConfirm ::= g |>).
Definition set_flags (g : LoRaMacFlags_t -> LoRaMacFlags_t) : M unit :=
  smod (fun s => s <| LoRaMacFlags ::= g |>).

(** [LoRaMacState |= b], [LoRaMacState &= ~b], [( LoRaMacState & b ) == b] *)
Definition state_set (b : Z) : M unit := smod (fun s => s <| LoRaMacState ::= fun v => Z.lor v b |>).
Definition state_clear (b : Z) : M unit := smod (fun s => s <| LoRaMacState ::= fun v => Z.ldiff v b |>).
Definition state_has (b : Z) (s : mac) : bool := Z.land (LoRaMacState s) b =? b.

(** [randr( lo, hi )] on the generator's static state. *)
Definition rand_range (lo hi : Z) : M Z := fun s =>
  let '(r, n) := randr lo hi (rand_next s) in Done (r, s <| rand_next := n |>).

(** [TimerGetElapsedTime( saved )] *)
Definition elapsed (s : mac) (saved : Z) : Z := RtcComputeElapsedTime (now (env s)) saved.

Definition set_mask (s : mac) (m : list Z) : mac :=
  s <| LoRaMacParams ::= fun p => p <| ChannelsMask := m |> |>.

(** [ChannelsMask[0] |= LC( 1 ) + LC( 2 ) + LC( 3 )] *)
Definition reenable_default (p : LoRaMacParams_t) : LoRaMacParams_t :=
  p <| ChannelsMask ::= fun m => m.[0 := Z.lor m.[0] DEFAULT_CHANNELS] |>.

(** ** Initial values *)

Definition channel_none : ChannelParams_t := mkChannel 0 0 0.
Definition LC1 : ChannelParams_t := mkChannel 868100000 (Z.lor (Z.shiftl 5 4) 0) 1.
Definition LC2 : ChannelParams_t := mkChannel 868300000 (Z.lor (Z.shiftl 5 4) 0) 1.
Definition LC3 : ChannelParams_t := mkChannel 868500000 (Z.lor (Z.shiftl 5 4) 0) 1.
Definition channels_init : list ChannelParams_t := [LC1; LC2; LC3] ++ replicate 13 channel_none.
Definition bands_init : list Band_t :=
  [mkBand 100 1 0 0; mkBand 100 1 0 0; mkBand 1000 1 0 0; mkBand 10 1 0 0; mkBand 100 1 0 0].
Definition params_zero : LoRaMacParams_t := mkParams 0 0 0 0 0 0 0 0 0 0 0 (replicate 6 0).
Definition indication_zero : McpsIndication_t :=
  mkIndication MCPS_UNCONFIRMED LORAMAC_EVENT_INFO_STATUS_OK 0 0 0 0 false 0 false 0 0 0 false 0.
Definition mcps_confirm_zero : McpsConfirm_t :=
  mkMcpsConfirm MCPS_UNCONFIRMED LORAMAC_EVENT_INFO_STATUS_OK 0 0 false 0 0 0.
Definition mlme_confirm_zero : MlmeConfirm_t :=
  mkMlmeConfirm MLME_JOIN LORAMAC_EVENT_INFO_STATUS_OK 0 0 0.
Definition flags_zero : LoRaMacFlags_t := mkFlags false false false false.

(** The statics before [LoRaMacInitialization]. *)
Definition mac_boot (e : environment) : mac := {|
  env := e; rand_next := 1; trace := [];
  LoRaMacDevEui := []; LoRaMacAppEui := []; LoRaMacAppKey := [];
  LoRaMacNwkSKey := replicate 16 0; LoRaMacAppSKey := replicate 16 0;
  LoRaMacDevNonce := 0; LoRaMacNetID := 0; LoRaMacDevAddr := 0;
  MulticastChannels := None; MulticastNodes := ∅;
  LoRaMacDeviceClass := CLASS_A; PublicNetwork := false; RepeaterSupport := false;
  LoRaMacBuffer := replicate 255 0; LoRaMacBufferPktLen := 0;
  LoRaMacPayload := replicate 255 0; LoRaMacRxPayload := replicate 255 0;
  UpLinkCounter := 1; DownLinkCounter := 0; IsUpLinkCounterFixed := false;
  IsRxWindowsEnabled := true; IsLoRaMacNetworkJoined := false; AdrCtrlOn := false; AdrAckCounter := 0;
  NodeAckRequested := false; SrvAckRequested := false; MacCommandsInNextTx := false;
  MacCommandsBufferIndex := 0; MacCommandsBufferToRepeatIndex := 0;
  MacCommandsBuffer := replicate 15 0; MacCommandsBufferToRepeat := replicate 15 0;
  Bands := bands_init; Channels := channels_init;
  LoRaMacParams := params_zero; LoRaMacParamsDefaults := params_zero;
  ChannelsNbRepCounter := 0; MaxDCycle := 0; AggregatedDCycle := 0;
  AggregatedLastTxDoneTime := 0; AggregatedTimeOff := 0; DutyCycleOn := false;
  Channel := 0; LastTxChannel := 0; LoRaMacState := MAC_IDLE;
  RxWindow1Delay := 0; RxWindow2Delay := 0;
  AckTimeoutRetries := 1; AckTimeoutRetriesCounter := 1; AckTimeoutRetry := false;
  TxTimeOnAir := 0; JoinRequestTrials := 0;
  McpsIndication := indication_zero; McpsConfirm := mcps_confirm_zero; MlmeConfirm := mlme_confirm_zero;
  RxSlot := 0; LoRaMacFlags := flags_zero;
|}.

(** ** A concrete device for examples: the driver accepts every frequency (as
    [SX1272CheckRfFrequency] does), a byte takes 10 ms, nobody measures the
    battery; the parameters are the defaults. *)
Definition demo_driver : RadioDriver :=
  {| CheckRfFrequency := fun _ => true; TimeOnAir := fun _ n => 10 * n; GetBatteryLevel := None |}.
Definition demo_params : LoRaMacParams_t :=
  mkParams 1 5 3000 1000 2000 5000 6000 1 0 869525000 0 [7; 0; 0; 0; 0; 0].
Definition demo_mac : mac :=
  (mac_boot (mkEnv 100000 true 0x1234)) <| LoRaMacParams := demo_params |>
    <| LoRaMacParamsDefaults := demo_params |> <| AggregatedDCycle := 1 |>
    <| DutyCycleOn := true |> <| IsLoRaMacNetworkJoined := true |>.

End MacTypes.
