(* ===== verification/Double.v ===== *)
(** Binary64 arithmetic of the C type [double].

    A finite double is the rational number it denotes.  An operation computes
    the exact result and rounds it to 53 significant bits, ties to even, as IEEE
    754 prescribes for the default rounding mode; the code computes with numbers
    between 2^-60 and 2^60, so neither overflow nor subnormal numbers occur.
    The lemmas bound the error of a rounding, show which numbers are exact, and
    that truncating, rounding up or rounding off a rounded quotient of integers
    gives the result of the exact quotient. *)
From S2P Require Import Prelude.
From Stdlib Require Import QArith Qround Qpower Qabs Qreduction Lqa.
#[global] Open Scope Z_scope.

Module Double.

(** ** Rounding *)

(** The nearest integer, ties to even. *)
Definition nearest (x : Q) : Z :=
  let q := Qfloor x in
  match Qcompare (x - inject_Z q) (1 # 2) with
  | Lt => q
  | Gt => q + 1
  | Eq => if Z.even q then q else q + 1
  end.

(** [2 ^ k] for integers of both signs. *)
Definition pow2 (k : Z) : Q := if 0 <=? k then inject_Z (2 ^ k) else / inject_Z (2 ^ (- k)).

(** The exponent [e] with [2 ^ e <= |x| < 2 ^ (e + 1)]. *)
Definition exponent (x : Q) : Z :=
  let e := Z.log2 (Z.abs (Qnum x)) - Z.log2 (Zpos (Qden x)) in
  if Qle_bool (pow2 e) (Qabs x) then e else e - 1.

Definition rnd (x : Q) : Q :=
  if Qnum x =? 0 then 0%Q
  else let k := exponent x - 52 in
       Qred (inject_Z (nearest (x * pow2 (- k))) * pow2 k).

Definition dadd (x y : Q) : Q := rnd (x + y).
Definition dsub (x y : Q) : Q := rnd (x - y).
Definition dmul (x y : Q) : Q := rnd (x * y).
Definition ddiv (x y : Q) : Q := rnd (x / y).

(** [(double) n] of an integer of at most 32 bits is exact. *)
Definition of_int (n : Z) : Q := inject_Z n.

(** [floor], [ceil] and [round] (halves away from zero) of math.h. *)
Definition floor (x : Q) : Z := Qfloor x.
Definition ceil (x : Q) : Z := Qceiling x.
Definition round (x : Q) : Z :=
  if Qle_bool 0 x then Qfloor (x + (1 # 2)) else - Qfloor (- x + (1 # 2)).

(** Conversion to an integer type truncates and is undefined out of range. *)
Definition trunc (x : Q) : Z := if Qle_bool 0 x then Qfloor x else - Qfloor (- x).
Definition to_u32 (x : Q) : run Z :=
  let n := trunc x in if (0 <=? n) && (n <? 2 ^ 32) then Done n else Undef.
Definition to_u16 (x : Q) : run Z :=
  let n := trunc x in if (0 <=? n) && (n <? 2 ^ 16) then Done n else Undef.
Definition to_s32 (x : Q) : run Z :=
  let n := trunc x in if (- 2 ^ 31 <=? n) && (n <? 2 ^ 31) then Done n else Undef.

(** ** The nearest integer *)

#[export] Instance nearest_proper : Proper (Qeq ==> eq) nearest.
Proof.
  intros x y E. unfold nearest. rewrite (Qfloor_comp x y E).
  assert (x - inject_Z (Qfloor y) == y - inject_Z (Qfloor y))%Q as E' by (rewrite E; reflexivity).
  by rewrite E'.
Qed.

Lemma nearest_error x : (Qabs (inject_Z (nearest x) - x) <= 1 # 2)%Q.
Proof.
  pose proof (Qfloor_le x) as H1. pose proof (Qlt_floor x) as H2.
  rewrite inject_Z_plus in H2. change (inject_Z 1) with 1%Q in H2.
  apply Qabs_Qle_condition. unfold nearest.
  destruct (Qcompare_spec (x - inject_Z (Qfloor x)) (1 # 2)) as [E|E|E];
    [destruct Z.even| |]; rewrite ?inject_Z_plus; change (inject_Z 1) with 1%Q; lra.
Qed.

Lemma nearest_int n : nearest (inject_Z n) = n.
Proof.
  unfold nearest. rewrite Qfloor_Z.
  destruct (Qcompare_spec (inject_Z n - inject_Z n) (1 # 2)) as [E|E|E]; [lra| done |lra].
Qed.

(** ** Powers of two *)

Lemma inject_pow2_pos k : 0 <= k -> (0 < inject_Z (2 ^ k))%Q.
Proof. intros. change 0%Q with (inject_Z 0). rewrite <- Zlt_Qlt. lia. Qed.

Lemma pow2_pos k : (0 < pow2 k)%Q.
Proof.
  unfold pow2. destruct (Z.leb_spec 0 k); [by apply inject_pow2_pos|].
  apply Qinv_lt_0_compat, inject_pow2_pos. lia.
Qed.

Lemma pow2_power k : (pow2 k == inject_Z 2 ^ k)%Q.
Proof.
  unfold pow2. destruct (Z.leb_spec 0 k).
  - apply Zpower_Qpower; lia.
  - replace k with (- (- k)) at 2 by lia. rewrite Qpower_opp, <- (Zpower_Qpower 2 (- k)) by lia.
    reflexivity.
Qed.

Lemma pow2_add j k : (pow2 (j + k) == pow2 j * pow2 k)%Q.
Proof. rewrite !pow2_power. apply Qpower_plus. discriminate. Qed.

Lemma pow2_opp k : (pow2 k * pow2 (- k) == 1)%Q.
Proof. rewrite <- pow2_add, Z.add_opp_diag_r. reflexivity. Qed.

Lemma pow2_nonneg k : 0 <= k -> pow2 k = inject_Z (2 ^ k).
Proof. intros. unfold pow2. by rewrite (proj2 (Z.leb_le 0 k)). Qed.

Lemma pow2_lt_inv j k : (pow2 j < pow2 k)%Q -> j < k.
Proof.
  intros H. destruct (decide (j < k)) as [|Hn]; [done|exfalso].
  replace j with (k + (j - k)) in H by lia. rewrite pow2_add in H.
  rewrite (pow2_nonneg (j - k)) in H by lia.
  assert (1 <= inject_Z (2 ^ (j - k)))%Q by (change 1%Q with (inject_Z 1); rewrite <- Zle_Qle; lia).
  pose proof (pow2_pos k). nra.
Qed.

(** ** The exponent *)

Lemma log2_pow2 n : 0 < n -> (pow2 (Z.log2 n) <= inject_Z n /\ inject_Z n < pow2 (Z.log2 n + 1))%Q.
Proof.
  intros Hn. pose proof (Z.log2_spec n Hn) as H. pose proof (Z.log2_nonneg n).
  rewrite !pow2_nonneg, <- Zle_Qle, <- Zlt_Qlt by lia. by rewrite Z.add_1_r.
Qed.

Lemma Qabs_quotient x : (Qabs x == inject_Z (Z.abs (Qnum x)) / inject_Z (Zpos (Qden x)))%Q.
Proof. destruct x as [n d]. simpl. rewrite Qmake_Qdiv. reflexivity. Qed.

Lemma exponent_spec x : Qnum x <> 0 ->
  (pow2 (exponent x) <= Qabs x /\ Qabs x < pow2 (exponent x + 1))%Q.
Proof.
  intros Hx. unfold exponent.
  destruct (log2_pow2 (Z.abs (Qnum x))) as [Hn1 Hn2]; [lia|].
  destruct (log2_pow2 (Zpos (Qden x))) as [Hd1 Hd2]; [lia|].
  set (a := Z.log2 _) in *. set (b := Z.log2 (Zpos _)) in *.
  pose proof (Qabs_quotient x) as Hq.
  assert (0 < inject_Z (Zpos (Qden x)))%Q as Hd by reflexivity.
  assert (Qabs x < pow2 (a - b + 1))%Q as Hhi.
  { rewrite Hq. apply Qlt_shift_div_r; [done|].
    replace (a + 1) with (a - b + 1 + b) in Hn2 by lia. rewrite pow2_add in Hn2.
    pose proof (pow2_pos (a - b + 1)). nra. }
  assert (pow2 (a - b - 1) <= Qabs x)%Q as Hlo.
  { rewrite Hq. apply Qle_shift_div_l; [done|].
    replace a with (a - b - 1 + (b + 1)) in Hn1 by lia. rewrite pow2_add in Hn1.
    pose proof (pow2_pos (a - b - 1)). nra. }
  destruct (Qle_bool _ _) eqn:E.
  - apply Qle_bool_iff in E. done.
  - replace (a - b - 1 + 1) with (a - b) by lia. split; [done|].
    apply Qnot_le_lt. intros H. by rewrite (proj2 (Qle_bool_iff _ _) H) in E.
Qed.

(** ** The error of a rounding *)

(** Half a unit in the last place: 2^-53. *)
Definition eps : Q := 1 # 9007199254740992.

Lemma rnd_zero x : Qnum x = 0 -> (rnd x == 0 /\ x == 0)%Q.
Proof.
  intros E. unfold rnd. rewrite E. split; [reflexivity|]. unfold Qeq. simpl. lia.
Qed.

Lemma rnd_nonzero x : Qnum x <> 0 ->
  (rnd x == inject_Z (nearest (x * pow2 (- (exponent x - 52)))) * pow2 (exponent x - 52))%Q.
Proof. intros E. unfold rnd. rewrite (proj2 (Z.eqb_neq _ _) E). apply Qred_correct. Qed.

Lemma Qabs_mult_pos x y : (0 < y -> Qabs (x * y) == Qabs x * y)%Q.
Proof. intros. rewrite Qabs_Qmult, (Qabs_pos y) by lra. reflexivity. Qed.

Lemma rnd_error x : (Qabs (rnd x - x) <= Qabs x * eps)%Q.
Proof.
  destruct (decide (Qnum x = 0)) as [E|E].
  { destruct (rnd_zero x E) as [-> ->]. discriminate. }
  rewrite (rnd_nonzero x E). destruct (exponent_spec x E) as [He _].
  set (k := exponent x - 52) in *.
  pose proof (nearest_error (x * pow2 (- k))) as Hn.
  set (m := inject_Z _) in *. pose proof (pow2_pos k) as Hk. pose proof (pow2_opp k) as Hi.
  assert (m * pow2 k - x == (m - x * pow2 (- k)) * pow2 k)%Q as ->.
  { transitivity (m * pow2 k - x * (pow2 k * pow2 (- k)))%Q; [rewrite Hi; ring|ring]. }
  rewrite Qabs_mult_pos by done.
  replace (exponent x) with (k + 52) in He by lia. rewrite pow2_add in He.
  change (pow2 52) with (4503599627370496 # 1) in He. unfold eps. nra.
Qed.

Lemma rnd_bounds x : (0 <= x -> x * (1 - eps) <= rnd x /\ rnd x <= x * (1 + eps))%Q.
Proof.
  intros Hx. pose proof (rnd_error x) as H. rewrite (Qabs_pos x) in H by done.
  apply Qabs_Qle_condition in H. lra.
Qed.

Lemma rnd_nonneg x : (0 <= x -> 0 <= rnd x)%Q.
Proof. intros Hx. pose proof (rnd_bounds x Hx) as [H _]. unfold eps in H. lra. Qed.

(** ** Exact results *)

Lemma rnd_exact x m j : (x == inject_Z m * pow2 j)%Q -> Z.abs m < 2 ^ 53 -> (rnd x == x)%Q.
Proof.
  intros Hx Hm. destruct (decide (Qnum x = 0)) as [E|E].
  { by destruct (rnd_zero x E) as [-> ->]. }
  rewrite (rnd_nonzero x E). destruct (exponent_spec x E) as [He _].
  set (k := exponent x - 52) in *.
  assert (k <= j).
  { assert (k + 52 < 53 + j); [|lia]. apply pow2_lt_inv. replace (k + 52) with (exponent x) by lia.
    eapply Qle_lt_trans; [exact He|]. rewrite Hx, Qabs_mult_pos, pow2_add by apply pow2_pos.
    apply Qmult_lt_compat_r; [apply pow2_pos|].
    rewrite pow2_nonneg by lia. change (Qabs (inject_Z m)) with (inject_Z (Z.abs m)).
    by rewrite <- Zlt_Qlt. }
  assert (x * pow2 (- k) == inject_Z (m * 2 ^ (j - k)))%Q as Hs.
  { rewrite Hx, inject_Z_mult, <- (pow2_nonneg (j - k)) by lia.
    replace (j - k) with (j + - k) by lia. rewrite pow2_add. ring. }
  rewrite (nearest_proper _ _ Hs), nearest_int, <- Hs.
  rewrite <- Qmult_assoc, (Qmult_comm (pow2 (- k))), pow2_opp. ring.
Qed.

Lemma rnd_int n : Z.abs n < 2 ^ 53 -> (rnd (inject_Z n) == inject_Z n)%Q.
Proof. intros. apply (rnd_exact _ n 0); [|done]. change (pow2 0) with 1%Q. ring. Qed.

Lemma exponent_unique x y : (x == y)%Q -> Qnum x <> 0 -> Qnum y <> 0 -> exponent x = exponent y.
Proof.
  intros E Hx Hy. destruct (exponent_spec x Hx) as [Hx1 Hx2]. destruct (exponent_spec y Hy) as [Hy1 Hy2].
  assert (Qabs x == Qabs y)%Q as Ea by (rewrite E; reflexivity).
  assert (exponent x < exponent y + 1) by (apply pow2_lt_inv; lra).
  assert (exponent y < exponent x + 1) by (apply pow2_lt_inv; lra). lia.
Qed.

Lemma Qnum_zero_proper x y : (x == y)%Q -> Qnum x = 0 <-> Qnum y = 0.
Proof. unfold Qeq. nia. Qed.

#[export] Instance rnd_proper : Proper (Qeq ==> Qeq) rnd.
Proof.
  intros x y E. pose proof (Qnum_zero_proper x y E) as Hz. destruct (decide (Qnum x = 0)) as [Ex|Ex].
  - destruct (rnd_zero x Ex) as [-> _]. by destruct (rnd_zero y) as [-> _]; [apply Hz|].
  - rewrite !rnd_nonzero by tauto. rewrite (exponent_unique x y E) by tauto.
    erewrite nearest_proper by (rewrite E; reflexivity). reflexivity.
Qed.

(** Sums and products of integers of at most 53 bits are exact. *)
Lemma dadd_exact a b x y : (x == inject_Z a)%Q -> (y == inject_Z b)%Q -> Z.abs (a + b) < 2 ^ 53 -> (dadd x y == inject_Z (a + b))%Q.
Proof.
  intros Ex Ey H. unfold dadd. rewrite Ex, Ey. rewrite <- inject_Z_plus. by apply rnd_int.
Qed.
Lemma dmul_exact a b x y : (x == inject_Z a)%Q -> (y == inject_Z b)%Q -> Z.abs (a * b) < 2 ^ 53 -> (dmul x y == inject_Z (a * b))%Q.
Proof.
  intros Ex Ey H. unfold dmul. rewrite Ex, Ey. rewrite <- inject_Z_mult. by apply rnd_int.
Qed.

Lemma Qle_bool_proper x y z : (x == y)%Q -> Qle_bool z x = Qle_bool z y.
Proof. intros E. apply eq_true_iff_eq. rewrite !Qle_bool_iff, E. done. Qed.

#[export] Instance trunc_proper : Proper (Qeq ==> eq) trunc.
Proof.
  intros x y E. unfold trunc. rewrite (Qle_bool_proper x y 0 E), (Qfloor_comp x y E).
  rewrite (Qfloor_comp (- x) (- y)); [done|]. by rewrite E.
Qed.

#[export] Instance round_proper : Proper (Qeq ==> eq) round.
Proof.
  intros x y E. unfold round. rewrite (Qle_bool_proper x y 0 E), (Qfloor_comp (x + (1 # 2)) (y + (1 # 2))).
  - rewrite (Qfloor_comp (- x + (1 # 2)) (- y + (1 # 2))); [done|]. by rewrite E.
  - by rewrite E.
Qed.

(** ** Rounded quotients of integers *)

Lemma Qfloor_unique x n : (inject_Z n <= x -> x < inject_Z (n + 1) -> Qfloor x = n)%Q.
Proof.
  intros H1 H2. pose proof (Qfloor_le x) as H3. pose proof (Qlt_floor x) as H4.
  assert (n < Qfloor x + 1) by (rewrite Zlt_Qlt; lra).
  assert (Qfloor x < n + 1) by (rewrite Zlt_Qlt; lra). lia.
Qed.

Lemma Qceiling_unique x n : (inject_Z (n - 1) < x -> x <= inject_Z n -> Qceiling x = n)%Q.
Proof.
  intros H1 H2. unfold Qceiling. rewrite (Qfloor_unique (- x) (- n)); [lia| |].
  - rewrite inject_Z_opp. lra.
  - replace (- n + 1) with (- (n - 1)) by lia. rewrite inject_Z_opp. lra.
Qed.

(** A rounded quotient stays on the same side of every integer and half integer
    [c / 2] as the exact one. *)
Section Quotient.
Context (n d : Z) (Hn : 0 <= n < 2 ^ 52) (Hd : 0 < d).
Let x := (inject_Z n / inject_Z d)%Q.

Lemma quot_facts : (0 < inject_Z d /\ 0 <= inject_Z n /\ x * inject_Z d == inject_Z n /\ 0 <= x /\
  inject_Z n < 4503599627370496 # 1)%Q.
Proof.
  assert (0 < inject_Z d)%Q as Hd' by (change 0%Q with (inject_Z 0); by rewrite <- Zlt_Qlt).
  assert (0 <= inject_Z n)%Q as Hn' by (change 0%Q with (inject_Z 0); rewrite <- Zle_Qle; lia).
  split_and!; try done.
  - unfold x. field. lra.
  - apply Qle_shift_div_l; lra.
  - change (4503599627370496 # 1) with (inject_Z (2 ^ 52)). rewrite <- Zlt_Qlt. lia.
Qed.

Lemma rnd_quot_half c : c * d = 2 * n -> (rnd x == inject_Z c * (1 # 2))%Q.
Proof.
  intros E. destruct quot_facts as (Hd' & _ & Hx & _ & _).
  assert (x == inject_Z c * (1 # 2))%Q as Hc'.
  { apply Qmult_inj_r with (inject_Z d); [lra|]. rewrite Hx.
    assert (inject_Z (c * d) == inject_Z (2 * n))%Q as Hi by (by rewrite E).
    rewrite !inject_Z_mult in Hi. change (inject_Z 2) with 2%Q in Hi. lra. }
  rewrite (rnd_exact x c (-1)); [exact Hc'|exact Hc'|]. nia.
Qed.

Lemma rnd_quot_gt c : c * d < 2 * n -> (inject_Z c * (1 # 2) < rnd x)%Q.
Proof.
  intros Hc. destruct quot_facts as (Hd' & Hn' & Hx & H0 & Hb). pose proof (rnd_bounds x H0) as [H _].
  assert (inject_Z c * inject_Z d + 1 <= 2 * inject_Z n)%Q as Hs.
  { change 2%Q with (inject_Z 2). change 1%Q with (inject_Z 1).
    rewrite <- !inject_Z_mult, <- inject_Z_plus, <- Zle_Qle. lia. }
  unfold eps in H. apply Qnot_le_lt. intros Hlt.
  assert (inject_Z c * inject_Z d * (1 # 2) >= (x - x * (1 # 9007199254740992)) * inject_Z d)%Q by nra.
  nra.
Qed.

Lemma rnd_quot_lt c : 2 * n < c * d -> (rnd x < inject_Z c * (1 # 2))%Q.
Proof.
  intros Hc. destruct quot_facts as (Hd' & Hn' & Hx & H0 & Hb). pose proof (rnd_bounds x H0) as [_ H].
  assert (2 * inject_Z n + 1 <= inject_Z c * inject_Z d)%Q as Hs.
  { change 2%Q with (inject_Z 2). change 1%Q with (inject_Z 1).
    rewrite <- !inject_Z_mult, <- inject_Z_plus, <- Zle_Qle. lia. }
  unfold eps in H. apply Qnot_le_lt. intros Hlt.
  assert (inject_Z c * inject_Z d * (1 # 2) <= (x + x * (1 # 9007199254740992)) * inject_Z d)%Q by nra.
  nra.
Qed.

Lemma rnd_quot_ge c : c * d <= 2 * n -> (inject_Z c * (1 # 2) <= rnd x)%Q.
Proof.
  intros H. destruct (decide (c * d = 2 * n)) as [E|E].
  - rewrite (rnd_quot_half c E). apply Qle_refl.
  - apply Qlt_le_weak, rnd_quot_gt. lia.
Qed.

Lemma rnd_quot_le c : 2 * n <= c * d -> (rnd x <= inject_Z c * (1 # 2))%Q.
Proof.
  intros H. destruct (decide (c * d = 2 * n)) as [E|E].
  - rewrite (rnd_quot_half c E). apply Qle_refl.
  - apply Qlt_le_weak, rnd_quot_lt. lia.
Qed.

Lemma half_even c : (inject_Z (2 * c) * (1 # 2) == inject_Z c)%Q.
Proof. rewrite inject_Z_mult. change (inject_Z 2) with 2%Q. ring. Qed.

Lemma floor_quot : floor (rnd x) = n / d.
Proof.
  apply Qfloor_unique; rewrite <- half_even.
  - apply rnd_quot_ge. nia.
  - apply rnd_quot_lt. nia.
Qed.

Lemma ceil_quot : ceil (rnd x) = (n + d - 1) / d.
Proof.
  apply Qceiling_unique; rewrite <- half_even.
  - apply rnd_quot_gt. nia.
  - apply rnd_quot_le. nia.
Qed.

Lemma rnd_quot_nonneg : (0 <= rnd x)%Q.
Proof. destruct quot_facts as (_ & _ & _ & H & _). by apply rnd_nonneg. Qed.

Lemma trunc_quot : trunc (rnd x) = n / d.
Proof.
  unfold trunc. rewrite (proj2 (Qle_bool_iff _ _) rnd_quot_nonneg). exact floor_quot.
Qed.

Lemma round_quot : round (rnd x) = (2 * n + d) / (2 * d).
Proof.
  unfold round. rewrite (proj2 (Qle_bool_iff _ _) rnd_quot_nonneg). set (q := (2 * n + d) / (2 * d)).
  assert (inject_Z (2 * q - 1) * (1 # 2) <= rnd x)%Q as H1 by (apply rnd_quot_ge; subst q; nia).
  assert (rnd x < inject_Z (2 * q + 1) * (1 # 2))%Q as H2 by (apply rnd_quot_lt; subst q; nia).
  replace (2 * q - 1) with (2 * q + -1) in H1 by lia. rewrite inject_Z_plus, inject_Z_mult in H1, H2.
  change (inject_Z 2) with 2%Q in *. change (inject_Z (-1)) with (-1)%Q in H1.
  change (inject_Z 1) with 1%Q in H2.
  apply Qfloor_unique; [|rewrite inject_Z_plus; change (inject_Z 1) with 1%Q]; lra.
Qed.
End Quotient.

(** ** Differences *)

(** A rounded number below 2^52 is an integer of less than 53 bits over a power of two. *)
Definition dyadic (x : Q) : Prop :=
  exists m j, 0 <= m < 2 ^ 53 /\ 0 <= j /\ (x == inject_Z m * pow2 (- j))%Q.

Lemma rnd_dyadic x : (0 <= x)%Q -> (x < inject_Z (2 ^ 52))%Q -> dyadic (rnd x).
Proof.
  intros Hx Hb. unfold dyadic. destruct (decide (Qnum x = 0)) as [E|E].
  { exists 0, 0. destruct (rnd_zero x E) as [Er _]. by rewrite Er. }
  destruct (exponent_spec x E) as [H1 H2]. rewrite Qabs_pos in H1, H2 by done.
  pose proof (rnd_nonzero x E) as Er. set (k := exponent x - 52) in *.
  assert (exponent x < 52) by (apply pow2_lt_inv; change (pow2 52) with (inject_Z (2 ^ 52)); lra).
  pose proof (nearest_error (x * pow2 (- k))) as Hn. set (n := nearest _) in *.
  apply Qabs_Qle_condition in Hn. pose proof (pow2_pos (- k)) as Hp.
  assert (x * pow2 (- k) < inject_Z (2 ^ 53))%Q as Hu.
  { change (inject_Z (2 ^ 53)) with (pow2 53). replace 53 with (exponent x + 1 + - k) by lia.
    rewrite pow2_add. nra. }
  assert (0 <= x * pow2 (- k))%Q by nra.
  assert (n <= 2 ^ 53). { enough (n < 2 ^ 53 + 1) by lia. rewrite Zlt_Qlt, inject_Z_plus.
    change (inject_Z 1) with 1%Q. lra. }
  assert (0 <= n). { enough (-1 < n) by lia. rewrite Zlt_Qlt. change (inject_Z (-1)) with (-1)%Q. lra. }
  destruct (decide (n = 2 ^ 53)) as [En|En].
  - exists (2 ^ 52), (- (k + 1)). split_and!; [lia..|]. rewrite Er, Z.opp_involutive, pow2_add, En.
    change (pow2 1) with 2%Q. change (inject_Z (2 ^ 53)) with (inject_Z (2 ^ 52) * 2)%Q. ring.
  - exists n, (- k). split_and!; [lia..|]. rewrite Er, Z.opp_involutive. reflexivity.
Qed.

(** Integers are subtracted from it exactly as long as the result is not negative. *)
Lemma dsub_exact x0 x n u : dyadic x0 ->
  (x == x0 - inject_Z n)%Q -> 0 <= n -> 0 <= u -> (inject_Z u <= x)%Q ->
  (dsub x (of_int u) == x0 - inject_Z (n + u))%Q.
Proof.
  intros (m & j & Hm & Hj & Hx0) Hx Hn Hu Hle. unfold dsub, of_int.
  assert (x - inject_Z u == inject_Z (m - (n + u) * 2 ^ j) * pow2 (- j))%Q as E.
  { rewrite Hx, Hx0. unfold Z.sub at 1. rewrite inject_Z_plus, inject_Z_opp, inject_Z_mult, inject_Z_plus.
    rewrite <- (pow2_nonneg j) by done.
    setoid_rewrite <- (Qmult_1_r (inject_Z n)) at 1. setoid_rewrite <- (Qmult_1_r (inject_Z u)) at 1.
    rewrite <- (pow2_opp j). ring. }
  assert (0 <= m - (n + u) * 2 ^ j).
  { apply Znot_gt_le. intros Hg. apply Z.gt_lt in Hg. rewrite Zlt_Qlt in Hg. change (inject_Z 0) with 0%Q in Hg.
    pose proof (pow2_pos (- j)). assert (x - inject_Z u < 0)%Q by (rewrite E; nra). lra. }
  rewrite (rnd_exact _ _ _ E); [|lia]. rewrite Hx, inject_Z_plus. ring.
Qed.

Lemma round_shift x n : (inject_Z n <= x)%Q -> 0 <= n -> round (x - inject_Z n) = round x - n.
Proof.
  intros Hx Hn. unfold round.
  assert (0 <= inject_Z n)%Q by (change 0%Q with (inject_Z 0); by rewrite <- Zle_Qle).
  rewrite !(proj2 (Qle_bool_iff _ _)) by lra.
  apply Qfloor_unique; pose proof (Qfloor_le (x + (1 # 2))); pose proof (Qlt_floor (x + (1 # 2)));
    rewrite ?inject_Z_plus in *; unfold Z.sub; rewrite ?inject_Z_plus, ?inject_Z_opp in *;
    change (inject_Z 1) with 1%Q in *; lra.
Qed.

End Double.
