(* ===== verification/Gps.v ===== *)
(** The positioning receiver: src/src/system/gps.c (NMEA sentences and positions) and the
    serial line that feeds it, src/src/boards/LoRaMote/gps-board.c with the receive path
    of uart-board.c.

    [char] is unsigned and [long double] is [double] on the target; characters are bytes.
    The arrays of [tNmeaGpsData] are separate objects: a write past one of them is [Undef].
    Calls to the hardware are recorded in the field [calls]. *)
From S2P Require Import Prelude Utilities Fifo Double.
From Stdlib Require Import QArith Qround Qabs Lqa.
#[local] Open Scope Z_scope.

Module Gps.
Import Fifo Double.

(** * Data *)

(** The members of [tNmeaGpsData]. *)
Inductive nmea_field :=
| NmeaDataType | NmeaUtcTime | NmeaDataStatus | NmeaLatitude | NmeaLatitudePole | NmeaLongitude | NmeaLongitudePole
| NmeaFixQuality | NmeaSatelliteTracked | NmeaHorizontalDilution | NmeaAltitude | NmeaAltitudeUnit | NmeaHeightGeoid
| NmeaHeightGeoidUnit | NmeaSpeed | NmeaDetectionAngle | NmeaDate.
#[export] Instance nmea_field_eq_dec : EqDecision nmea_field.
Proof. solve_decision. Defined.

(** The sizes of the arrays. *)
Definition array_size (f : nmea_field) : Z :=
  match f with
  | NmeaDataType => 6
  | NmeaUtcTime => 11
  | NmeaDataStatus => 2
  | NmeaLatitude => 10
  | NmeaLatitudePole => 2
  | NmeaLongitude => 11
  | NmeaLongitudePole => 2
  | NmeaFixQuality => 2
  | NmeaSatelliteTracked => 3
  | NmeaHorizontalDilution => 6
  | NmeaAltitude => 8
  | NmeaAltitudeUnit => 2
  | NmeaHeightGeoid => 8
  | NmeaHeightGeoidUnit => 2
  | NmeaSpeed => 8
  | NmeaDetectionAngle => 8
  | NmeaDate => 8
  end.

Definition tNmeaGpsData : Type := nmea_field -> list Z.
Definition store (f : nmea_field) (l : list Z) (d : tNmeaGpsData) : tNmeaGpsData :=
  fun g => if decide (g = f) then l else d g.

Inductive PpsTrigger_t := PpsTriggerIsRising | PpsTriggerIsFalling.

(** Calls to the hardware and to the power management. *)
Inductive gps_call :=
| BlockLowPowerDuringTask (status : bool)
| PpsInterrupt (edge : PpsTrigger_t)
| GpsPower (on : bool)
| UartStart
| UartDeInit.

Record gps := mkGps {
  NmeaGpsData : tNmeaGpsData;
  Latitude : Q;
  Longitude : Q;
  LatitudeBinary : Z;
  LongitudeBinary : Z;
  Altitude : Z;
  PpsCnt : Z;
  PpsDetected : bool;
  PpsTrigger : PpsTrigger_t;
  NmeaString : list Z;
  NmeaStringSize : Z;
  FifoRx : Fifo_t;
  calls : list gps_call;
}.
#[export] Instance eta_gps : Eta gps :=
  fun s => mkGps (NmeaGpsData s) (Latitude s) (Longitude s) (LatitudeBinary s) (LongitudeBinary s) (Altitude s)
    (PpsCnt s) (PpsDetected s) (PpsTrigger s) (NmeaString s) (NmeaStringSize s) (FifoRx s) (calls s).

Definition call (c : gps_call) (s : gps) : gps := s <| calls ::= fun l => l ++ [c] |>.

Definition SUCCESS : Z := 1.
Definition FAIL : Z := 0.
Definition TRIGGER_GPS_CNT : Z := 10.
Definition NmeaDataTypeGPGGA : list Z := [71; 80; 71; 71; 65].
Definition NmeaDataTypeGPRMC : list Z := [71; 80; 82; 77; 67].
Definition MaxNorthPosition : Z := 8388607.
Definition MaxSouthPosition : Z := 8388608.
Definition MaxEastPosition : Z := 8388607.
Definition MaxWestPosition : Z := 8388608.

(** * Pulses and fix *)

Definition GpsPpsHandler (s : gps) : bool * gps :=
  let s := s <| PpsDetected := true |> <| PpsCnt := u32 (PpsCnt s + 1) |> in
  if TRIGGER_GPS_CNT <=? PpsCnt s then (true, call (BlockLowPowerDuringTask true) (s <| PpsCnt := 0 |>))
  else (false, s).

Definition GpsGetPpsDetectedState (s : gps) : bool * gps := (PpsDetected s, s <| PpsDetected := false |>).

(** [strncmp( NmeaGpsData.NmeaDataType, type, 5 ) == 0] *)
Definition data_type_is (type : list Z) (d : tNmeaGpsData) : bool := bool_decide (take 5 (d NmeaDataType) = type).

Definition GpsHasFix (s : gps) : bool :=
  let d := NmeaGpsData s in
  if data_type_is NmeaDataTypeGPGGA d then 0x30 <? (d NmeaFixQuality).[0]
  else if data_type_is NmeaDataTypeGPRMC d then (d NmeaDataStatus).[0] =? 0x41
  else false.

Definition GpsResetPosition (s : gps) : gps :=
  s <| Altitude := s16 0xFFFF |> <| Latitude := 0%Q |> <| Longitude := 0%Q |>
    <| LatitudeBinary := 0 |> <| LongitudeBinary := 0 |>.

(** * Positions *)

(** Coordinate times [max], divided by [range], as an integer. *)
Definition to_binary (x : Q) (max range : Z) : run Z :=
  to_s32 (ddiv (dmul x (of_int max)) (of_int range)).

Definition GpsConvertPositionIntoBinary (s : gps) : run gps :=
  let* lat := to_binary (Latitude s) (if Qle_bool 0 (Latitude s) then MaxNorthPosition else MaxSouthPosition) 90 in
  let* lon := to_binary (Longitude s) (if Qle_bool 0 (Longitude s) then MaxEastPosition else MaxWestPosition) 180 in
  Done (s <| LatitudeBinary := lat |> <| LongitudeBinary := lon |>).

(** The first ten characters become digits. *)
Definition to_digits (l : list Z) : list Z := map (fun c => Z.land c 0xF) (take 10 l) ++ drop 10 l.

(** The constant [0.0001]. *)
Definition ten_thousandth : Q := rnd (1 # 10000).

(** [l[i] * 10.0 + l[i + 1]] *)
Definition two_digits (l : list Z) (i : Z) : Q := dadd (dmul (of_int l.[i]) (of_int 10)) (of_int l.[i + 1]).

Definition latitude_value (l : list Z) : Q :=
  let valueTmp1 := two_digits l 0 in
  let valueTmp2 := two_digits l 2 in
  let valueTmp3 := dadd (dadd (dadd (dmul (of_int l.[5]) (of_int 1000)) (dmul (of_int l.[6]) (of_int 100)))
                              (dmul (of_int l.[7]) (of_int 10))) (of_int l.[8]) in
  dadd valueTmp1 (ddiv (dadd valueTmp2 (dmul valueTmp3 ten_thousandth)) (of_int 60)).

Definition longitude_value (l : list Z) : Q :=
  let valueTmp1 := dadd (dadd (dmul (of_int l.[0]) (of_int 100)) (dmul (of_int l.[1]) (of_int 10))) (of_int l.[2]) in
  let valueTmp2 := two_digits l 3 in
  let valueTmp3 := dadd (dmul (of_int l.[6]) (of_int 1000)) (dmul (of_int l.[7]) (of_int 100)) in
  let valueTmp4 := two_digits l 8 in
  dadd (dadd valueTmp1 (ddiv valueTmp2 (of_int 60)))
       (ddiv (dmul (dadd valueTmp3 valueTmp4) ten_thousandth) (of_int 60)).

Definition GpsConvertPositionFromStringToNumerical (s : gps) : gps :=
  let d := NmeaGpsData s in
  let lat := to_digits (d NmeaLatitude) in
  let lon := to_digits (d NmeaLongitude) in
  let latitude := latitude_value lat in
  let longitude := longitude_value lon in
  s <| NmeaGpsData := store NmeaLongitude lon (store NmeaLatitude lat d) |>
    <| Latitude := if (d NmeaLatitudePole).[0] =? 83 then dmul latitude (of_int (-1)) else latitude |>
    <| Longitude := if (d NmeaLongitudePole).[0] =? 87 then dmul longitude (of_int (-1)) else longitude |>.

Definition GpsFormatGpsData (s : gps) : run gps :=
  GpsConvertPositionIntoBinary (GpsConvertPositionFromStringToNumerical s).

Definition GpsGetLatestGpsPositionDouble (s : gps) : Z * (Q * Q) * gps :=
  let '(status, s) := if GpsHasFix s then (SUCCESS, s) else (FAIL, GpsResetPosition s) in
  (status, (Latitude s, Longitude s), s).

Definition GpsGetLatestGpsPositionBinary (s : gps) : Z * (Z * Z) * gps :=
  let '(status, s) := if GpsHasFix s then (SUCCESS, s) else (FAIL, GpsResetPosition s) in
  (status, (LatitudeBinary s, LongitudeBinary s), s).

(** [atoi] of the standard library, reading no further than the array. *)
Fixpoint atoi_digits (l : list Z) (acc : Z) : run Z :=
  match l with
  | [] => Undef
  | c :: l' => if (48 <=? c) && (c <=? 57) then atoi_digits l' (acc * 10 + (c - 48)) else Done acc
  end.
Fixpoint atoi (l : list Z) : run Z :=
  match l with
  | [] => Undef
  | c :: l' =>
      if (c =? 32) || ((9 <=? c) && (c <=? 13)) then atoi l'
      else if c =? 45 then let* n := atoi_digits l' 0 in Done (- n)
      else if c =? 43 then atoi_digits l' 0
      else atoi_digits l 0
  end.

Definition GpsGetLatestGpsAltitude (s : gps) : run (Z * gps) :=
  if GpsHasFix s then
    let* n := atoi (NmeaGpsData s NmeaAltitude) in
    let s := s <| Altitude := s16 n |> in Done (Altitude s, s)
  else let s := s <| Altitude := s16 0xFFFF |> in Done (Altitude s, s).

(** * Checksum *)

(** The loop up to the character ['*']; [None] when the size is reached. *)
Fixpoint checksum_loop (fuel : nat) (nmeaStr : list Z) (nmeaStrSize i checkNum : Z) : run (option (Z * Z)) :=
  match fuel with
  | O => NoFuel
  | S fuel' =>
      let* c := rd nmeaStr i in
      if c =? 42 then Done (Some (i, checkNum))
      else
        let checkNum := u8 (Z.lxor checkNum c) in
        let i := i + 1 in
        if nmeaStrSize <=? i then Done None else checksum_loop fuel' nmeaStr nmeaStrSize i checkNum
  end.

(** The position behind the ['*'] and the two characters; [None] for -1. *)
Definition GpsNmeaChecksum (nmeaStr : list Z) (nmeaStrSize : Z) : run (option (Z * (Z * Z))) :=
  if nmeaStrSize <=? 1 then Done None
  else
    let* c := rd nmeaStr 0 in
    let i := if c =? 36 then 1 else 0 in
    let* r := checksum_loop (Z.to_nat nmeaStrSize) nmeaStr nmeaStrSize i 0 in
    match r with
    | None => Done None
    | Some (i, checkNum) =>
        Done (Some (i + 1, (Utilities.Nibble2HexChar (checkNum / 16), Utilities.Nibble2HexChar (checkNum mod 16))))
    end.

Definition GpsNmeaValidateChecksum (serialBuff : list Z) (buffSize : Z) : run bool :=
  let* r := GpsNmeaChecksum serialBuff buffSize in
  match r with
  | None => Done false
  | Some (checksumIndex, (hi, lo)) =>
      if buffSize - 2 <=? checksumIndex then Done false
      else
        let* a := rd serialBuff checksumIndex in
        let* b := rd serialBuff (checksumIndex + 1) in
        Done ((a =? hi) && (b =? lo))
  end.

(** * Sentences *)

(** The bounds of the loops that look for the end of a field. *)
Definition field_limit (f : nmea_field) : Z :=
  match f with
  | NmeaDataType => 6
  | NmeaUtcTime => 11
  | NmeaDataStatus => 2
  | NmeaLatitude => 10
  | NmeaLatitudePole => 2
  | NmeaLongitude => 11
  | NmeaLongitudePole => 2
  | NmeaFixQuality => 2
  | NmeaSatelliteTracked => 3
  | NmeaHorizontalDilution => 6
  | NmeaAltitude => 8
  | NmeaAltitudeUnit => 2
  | NmeaHeightGeoid => 8
  | NmeaHeightGeoidUnit => 2
  | NmeaSpeed => 8
  | NmeaDetectionAngle => 8
  | NmeaDate => 8
  end.

(** [while( rxBuffer[i + fieldSize++] != ',' ) if( fieldSize > limit ) return FAIL;] *)
Fixpoint field_end (fuel : nat) (rxBuffer : list Z) (i fieldSize limit : Z) : run (option Z) :=
  match fuel with
  | O => NoFuel
  | S fuel' =>
      let* c := rd rxBuffer (i + fieldSize) in
      let fieldSize := u8 (fieldSize + 1) in
      if c =? 44 then Done (Some fieldSize)
      else if limit <? fieldSize then Done None
      else field_end fuel' rxBuffer i fieldSize limit
  end.

(** One field: its end, then the copy with the comma; [None] for the return of [FAIL]. *)
Definition parse_field (rxBuffer : list Z) (f : nmea_field) (i : Z) (d : tNmeaGpsData) : run (option (Z * tNmeaGpsData)) :=
  let* e := field_end (S (Z.to_nat (field_limit f))) rxBuffer i 0 (field_limit f) in
  match e with
  | None => Done None
  | Some fieldSize =>
      let* text := rdn rxBuffer i fieldSize in
      let* a := wrn (d f) 0 text in
      Done (Some (u8 (i + fieldSize), store f a d))
  end.

(** The fields one after the other; the fields before one that fails stay stored. *)
Fixpoint parse_fields (rxBuffer : list Z) (l : list nmea_field) (i : Z) (d : tNmeaGpsData) : run (bool * Z * tNmeaGpsData) :=
  match l with
  | [] => Done (true, i, d)
  | f :: l' =>
      let* r := parse_field rxBuffer f i d in
      match r with
      | None => Done (false, i, d)
      | Some (i, d) => parse_fields rxBuffer l' i d
      end
  end.

Definition gga_fields : list nmea_field :=
  [NmeaUtcTime; NmeaLatitude; NmeaLatitudePole; NmeaLongitude; NmeaLongitudePole; NmeaFixQuality; NmeaSatelliteTracked;
   NmeaHorizontalDilution; NmeaAltitude; NmeaAltitudeUnit; NmeaHeightGeoid; NmeaHeightGeoidUnit].
Definition rmc_fields : list nmea_field :=
  [NmeaUtcTime; NmeaDataStatus; NmeaLatitude; NmeaLatitudePole; NmeaLongitude; NmeaLongitudePole; NmeaSpeed;
   NmeaDetectionAngle; NmeaDate].

Definition GpsMcuInvertPpsTrigger (s : gps) : gps :=
  let edge := match PpsTrigger s with PpsTriggerIsRising => PpsTriggerIsFalling | PpsTriggerIsFalling => PpsTriggerIsRising end in
  call (PpsInterrupt edge) (s <| PpsTrigger := edge |>).

(** The fields of a sentence of known type, then the position. *)
Definition parse_sentence (rxBuffer : list Z) (l : list nmea_field) (i : Z) (s : gps) : run (Z * gps) :=
  let* (ok, i, d) := parse_fields rxBuffer l i (NmeaGpsData s) in
  let s := s <| NmeaGpsData := d |> in
  if ok then let* s := GpsFormatGpsData s in Done (SUCCESS, s) else Done (FAIL, s).

Definition GpsParseGpsData (rxBuffer : list Z) (rxBufferSize : Z) (s : gps) : run (Z * gps) :=
  let* c := rd rxBuffer 0 in
  if negb (c =? 36) then Done (FAIL, GpsMcuInvertPpsTrigger s)
  else
    let* valid := GpsNmeaValidateChecksum rxBuffer rxBufferSize in
    if negb valid then Done (FAIL, s)
    else
      let* r := parse_field rxBuffer NmeaDataType 1 (NmeaGpsData s) in
      match r with
      | None => Done (FAIL, s)
      | Some (i, d) =>
          let s := s <| NmeaGpsData := d |> in
          if data_type_is NmeaDataTypeGPGGA d then parse_sentence rxBuffer gga_fields i s
          else if data_type_is NmeaDataTypeGPRMC d then parse_sentence rxBuffer rmc_fields i s
          else Done (FAIL, s)
      end.

(** * The serial line *)

Definition UartMcuGetChar (s : gps) : run (option Z * gps) :=
  if IsFifoEmpty (FifoRx s) then Done (None, s)
  else let* (data, f) := FifoPop (FifoRx s) in Done (Some data, s <| FifoRx := f |>).

(** The body of [GpsMcuIrqNotify] for a character. *)
Definition on_char (data : Z) (s : gps) : run gps :=
  let s := if (data =? 36) || (128 <=? NmeaStringSize s) then s <| NmeaStringSize := 0 |> else s in
  let* str := wr (NmeaString s) (NmeaStringSize s) data in
  let s := s <| NmeaString := str |> <| NmeaStringSize := u8 (NmeaStringSize s + 1) |> in
  if data =? 10 then
    let* str := wr (NmeaString s) (NmeaStringSize s) 0 in
    let s := s <| NmeaString := str |> in
    let* (_, s) := GpsParseGpsData (NmeaString s) (NmeaStringSize s) s in
    Done (call (BlockLowPowerDuringTask false) (call UartDeInit s))
  else Done s.

Definition GpsMcuIrqNotify (s : gps) : run gps :=
  let* (r, s) := UartMcuGetChar s in
  match r with
  | None => Done s
  | Some data => on_char data s
  end.

(** A character arrives. *)
Definition HAL_UART_RxCpltCallback (RxData : Z) (s : gps) : run gps :=
  let* s := if IsFifoFull (FifoRx s) then Done s
            else let* f := FifoPush (FifoRx s) RxData in Done (s <| FifoRx := f |>) in
  GpsMcuIrqNotify s.

Definition GpsMcuOnPpsSignal (s : gps) : gps :=
  let '(parseData, s) := GpsPpsHandler s in
  if parseData then call UartStart s else s.

Definition FIFO_RX_SIZE : Z := 128.

Definition GpsMcuInit (RxBuffer : list Z) (s : gps) : gps :=
  let s := s <| NmeaStringSize := 0 |> <| PpsTrigger := PpsTriggerIsFalling |> <| FifoRx := FifoInit RxBuffer FIFO_RX_SIZE |> in
  call (PpsInterrupt PpsTriggerIsFalling) (call (GpsPower true) s).

Definition GpsInit (RxBuffer : list Z) (s : gps) : gps := GpsMcuInit RxBuffer (s <| PpsDetected := false |>).
Definition GpsStart (s : gps) : gps := call (GpsPower true) s.
Definition GpsStop (s : gps) : gps := call (GpsPower false) s.


(** * Accuracy of the positions *)

(** [y] is [x] up to a relative error [r]. *)
Definition near (r x y : Q) : Prop := (x * (1 - r) <= y /\ y <= x * (1 + r))%Q.

(** The error of one more rounding, as long as few are made. *)
Definition step : Q := (eps * (1001 # 1000))%Q.

#[local] Instance near_proper : Proper (Qeq ==> Qeq ==> Qeq ==> iff) near.
Proof. intros r r' Er x x' Ex y y' Ey. unfold near. rewrite Er, Ex, Ey. done. Qed.

Lemma near_refl x : near 0 x x.
Proof. unfold near. lra. Qed.

Lemma near_weaken r r' x y : (0 <= x -> r <= r' -> near r x y -> near r' x y)%Q.
Proof. intros Hx Hr [H1 H2]. unfold near. nra. Qed.

Lemma near_nonneg r x y : (0 <= x -> r <= 1 -> near r x y -> 0 <= y)%Q.
Proof. intros Hx Hr [H1 _]. nra. Qed.

Lemma near_mult r c x y : (0 <= c -> near r x y -> near r (x * c) (y * c))%Q.
Proof. intros Hc [H1 H2]. unfold near. nra. Qed.

Lemma near_plus r x y x' y' : near r x y -> near r x' y' -> near r (x + x')%Q (y + y')%Q.
Proof. intros [H1 H2] [H3 H4]. unfold near. lra. Qed.

Lemma rounded_near r x y z : (0 <= x -> 0 <= r <= 1 # 1000 -> near r x y -> Qabs (z - y) <= y * eps -> near (r + step) x z)%Q.
Proof.
  intros Hx [Hr Hr'] [H1 H2] Hz. apply Qabs_Qle_condition in Hz as [Hz1 Hz2]. unfold near, step, eps in *.
  assert (0 <= x * r)%Q by nra. assert (x * r <= x * (1 # 1000))%Q by nra. lra.
Qed.

Lemma near_rnd r x y : (0 <= x -> 0 <= r <= 1 # 1000 -> near r x y -> near (r + step) x (rnd y))%Q.
Proof.
  intros Hx Hr H. apply (rounded_near r x y); [done|done|done|]. pose proof (rnd_error y) as He.
  rewrite (Qabs_pos y) in He; [done|]. apply (near_nonneg r x); [done|lra|done].
Qed.

Lemma near_rnd_opp r x y : (0 <= x -> 0 <= r <= 1 # 1000 -> near r x y -> near (r + step) x (- rnd (- y)))%Q.
Proof.
  intros Hx Hr H. apply (rounded_near r x y); [done|done|done|]. pose proof (rnd_error (- y)) as He.
  rewrite Qabs_opp, (Qabs_pos y) in He by (apply (near_nonneg r x); [done|lra|done]).
  rewrite <- Qabs_opp. assert (- (- rnd (- y) - y) == rnd (- y) - - y)%Q as -> by ring. done.
Qed.

(** ** Digits *)

Definition nibble (z : Z) : Prop := 0 <= z < 16.

(** Sums and products of small integers, from the leaves. *)
Ltac exact_int :=
  repeat first [apply dadd_exact | apply dmul_exact | reflexivity]; unfold nibble in *; lia.

Lemma inject_nonneg n : 0 <= n -> (0 <= inject_Z n)%Q.
Proof. intros. change 0%Q with (inject_Z 0). by rewrite <- Zle_Qle. Qed.

(** The coordinates in ten-thousandths of a minute. *)
Definition latitude_units (l : list Z) : Z :=
  600000 * (10 * l.[0] + l.[1]) + 10000 * (10 * l.[2] + l.[3]) + (1000 * l.[5] + 100 * l.[6] + 10 * l.[7] + l.[8]).
Definition longitude_units (l : list Z) : Z :=
  600000 * (100 * l.[0] + 10 * l.[1] + l.[2]) + 10000 * (10 * l.[3] + l.[4]) +
  (1000 * l.[6] + 100 * l.[7] + 10 * l.[8] + l.[9]).

Definition nibbles (l : list Z) : Prop := forall i, 0 <= i < 10 -> nibble l.[i].

Lemma near_ten_thousandth n : 0 <= n -> near step (inject_Z n * (1 # 10000)) (inject_Z n * ten_thousandth).
Proof.
  intros Hn. rewrite (Qmult_comm (inject_Z n) (1 # 10000)), (Qmult_comm (inject_Z n) ten_thousandth).
  apply near_mult; [by apply inject_nonneg|]. unfold near, ten_thousandth, step, eps. vm_compute. split; discriminate.
Qed.

(** ** Operations *)

Lemma near_dadd r x y x' y' : (0 <= r <= 1 # 1000)%Q -> (0 <= x)%Q -> (0 <= x')%Q ->
  near r x y -> near r x' y' -> near (r + step) (x + x') (dadd y y').
Proof. intros Hr Hx Hx' H H'. apply near_rnd; [lra|done|by apply near_plus]. Qed.

Lemma near_dmul r x y c : (0 <= r <= 1 # 1000)%Q -> (0 <= x)%Q -> 0 <= c -> near r x y ->
  near (r + step) (x * inject_Z c) (dmul y (of_int c)).
Proof. intros Hr Hx Hc H. apply inject_nonneg in Hc. apply near_rnd; [nra|done|by apply near_mult]. Qed.

Lemma near_ddiv r x y c : (0 <= r <= 1 # 1000)%Q -> (0 <= x)%Q -> 0 < c -> near r x y ->
  near (r + step) (x / inject_Z c) (ddiv y (of_int c)).
Proof.
  intros Hr Hx Hc H. assert (0 <= / inject_Z c)%Q as Hi by (apply Qinv_le_0_compat, inject_nonneg; lia).
  apply near_rnd; [unfold Qdiv; nra|done|by apply near_mult].
Qed.

(** An exact integer, whatever error is allowed. *)
Lemma near_int r n x : (0 <= r)%Q -> 0 <= n -> (x == inject_Z n)%Q -> near r (inject_Z n) x.
Proof. intros Hr Hn ->. apply (near_weaken 0); [by apply inject_nonneg|done|apply near_refl]. Qed.

Lemma step_small k : (0 <= k <= 1000 -> 0 <= k * step <= 1 # 1000)%Q.
Proof. unfold step, eps. intros. lra. Qed.

(** The fraction of a minute. *)
Lemma near_fraction n x : (0 <= n) -> (x == inject_Z n)%Q -> near (2 * step) (inject_Z n * (1 # 10000)) (dmul x ten_thousandth).
Proof.
  intros Hn Ex. unfold dmul. rewrite Ex. assert (2 * step == step + step)%Q as -> by ring.
  apply near_rnd; [|unfold step, eps; lra|by apply near_ten_thousandth]. apply inject_nonneg in Hn. lra.
Qed.

Lemma latitude_value_near l : nibbles l ->
  near (5 * step) (inject_Z (latitude_units l) * (1 # 600000)) (latitude_value l).
Proof.
  intros H. unfold latitude_value, two_digits.
  assert (nibble l.[0] /\ nibble l.[1] /\ nibble l.[2] /\ nibble l.[3] /\ nibble l.[5] /\ nibble l.[6] /\ nibble l.[7] /\ nibble l.[8])
    as (H0 & H1 & H2 & H3 & H5 & H6 & H7 & H8) by (split_and!; apply H; lia).
  set (a := l.[0] * 10 + l.[1]). set (b := l.[2] * 10 + l.[3]).
  set (c := l.[5] * 1000 + l.[6] * 100 + l.[7] * 10 + l.[8]).
  assert (0 <= a /\ 0 <= b /\ 0 <= c) as (Ha & Hb & Hc) by (unfold a, b, c, nibble in *; lia).
  assert (inject_Z (latitude_units l) * (1 # 600000) == inject_Z a + (inject_Z b + inject_Z c * (1 # 10000)) / inject_Z 60)%Q as ->.
  { replace (latitude_units l) with (600000 * a + 10000 * b + c) by (unfold latitude_units, a, b, c; lia).
    rewrite !inject_Z_plus, !inject_Z_mult. field. }
  pose proof (inject_nonneg _ Ha) as Ha'. pose proof (inject_nonneg _ Hb) as Hb'. pose proof (inject_nonneg _ Hc) as Hc'.
  assert (0 <= (inject_Z b + inject_Z c * (1 # 10000)) / inject_Z 60)%Q by (unfold Qdiv; change (/ inject_Z 60)%Q with (1 # 60); lra).
  assert (5 * step == 4 * step + step)%Q as -> by ring. apply near_dadd; [by apply step_small|done|done| |].
  { apply near_int; [by apply step_small|done|exact_int]. }
  assert (4 * step == 3 * step + step)%Q as -> by ring. apply near_ddiv; [by apply step_small|lra|done|].
  assert (3 * step == 2 * step + step)%Q as -> by ring. apply near_dadd; [by apply step_small|lra|lra| |].
  { apply near_int; [by apply step_small|done|exact_int]. }
  apply near_fraction; [done|exact_int].
Qed.

Lemma longitude_value_near l : nibbles l ->
  near (4 * step) (inject_Z (longitude_units l) * (1 # 600000)) (longitude_value l).
Proof.
  intros H. unfold longitude_value, two_digits.
  assert (nibble l.[0] /\ nibble l.[1] /\ nibble l.[2] /\ nibble l.[3] /\ nibble l.[4] /\ nibble l.[6] /\ nibble l.[7] /\
    nibble l.[8] /\ nibble l.[9]) as (H0 & H1 & H2 & H3 & H4 & H6 & H7 & H8 & H9) by (split_and!; apply H; lia).
  set (a := l.[0] * 100 + l.[1] * 10 + l.[2]). set (b := l.[3] * 10 + l.[4]).
  set (c := l.[6] * 1000 + l.[7] * 100 + (l.[8] * 10 + l.[9])).
  assert (0 <= a /\ 0 <= b /\ 0 <= c) as (Ha & Hb & Hc) by (unfold a, b, c, nibble in *; lia).
  assert (inject_Z (longitude_units l) * (1 # 600000) ==
    (inject_Z a + inject_Z b / inject_Z 60) + inject_Z c * (1 # 10000) / inject_Z 60)%Q as ->.
  { replace (longitude_units l) with (600000 * a + 10000 * b + c) by (unfold longitude_units, a, b, c; lia).
    rewrite !inject_Z_plus, !inject_Z_mult. field. }
  pose proof (inject_nonneg _ Ha) as Ha'. pose proof (inject_nonneg _ Hb) as Hb'. pose proof (inject_nonneg _ Hc) as Hc'.
  assert (0 <= inject_Z b / inject_Z 60 /\ 0 <= inject_Z c * (1 # 10000) / inject_Z 60)%Q as [Hb1 Hc1]
    by (unfold Qdiv; change (/ inject_Z 60)%Q with (1 # 60); lra).
  assert (4 * step == 3 * step + step)%Q as -> by ring. apply near_dadd; [by apply step_small|lra|done| |].
  - apply (near_weaken (2 * step)); [lra|unfold step, eps; lra|].
    assert (2 * step == 1 * step + step)%Q as -> by ring. apply near_dadd; [by apply step_small|done|done| |].
    + apply near_int; [by apply step_small|done|exact_int].
    + assert (1 * step == 0 + step)%Q as -> by ring. apply near_ddiv; [lra|done|done|].
      apply near_int; [done|done|exact_int].
  - assert (3 * step == 2 * step + step)%Q as -> by ring. apply near_ddiv; [by apply step_small|lra|done|].
    apply near_fraction; [done|exact_int].
Qed.

(** ** Coordinates as integers *)

(** Truncating a value near [n / q] gives the quotient, unless it is exact and the value below it. *)
Lemma floor_near r n q y : 0 <= n -> 0 < q -> near r (inject_Z n / inject_Z q) y -> (0 <= r)%Q -> (inject_Z n * r < 1)%Q ->
  (n mod q = 0 -> (inject_Z (n / q) <= y)%Q) -> Qfloor y = n / q.
Proof.
  intros Hn Hq [H1 H2] Hr Hs He. set (k := n / q).
  assert (0 < inject_Z q)%Q as Hq' by (change 0%Q with (inject_Z 0); by rewrite <- Zlt_Qlt).
  assert (0 < / inject_Z q)%Q as Hi by (by apply Qinv_lt_0_compat).
  assert (inject_Z q * / inject_Z q == 1)%Q as Hqi by (apply Qmult_inv_r; lra).
  unfold Qdiv in H1, H2. set (i := (/ inject_Z q)%Q) in *.
  assert (forall m, inject_Z m == inject_Z (m * q) * i)%Q as Hm.
  { intros m. rewrite inject_Z_mult, <- Qmult_assoc, Hqi. ring. }
  apply Qfloor_unique.
  - destruct (decide (n mod q = 0)) as [E|E]; [by apply He|].
    assert (inject_Z (k * q) + 1 <= inject_Z n)%Q as Hk
      by (change 1%Q with (inject_Z 1); rewrite <- inject_Z_plus, <- Zle_Qle; unfold k; lia).
    rewrite (Hm k). assert ((inject_Z (k * q) + 1 - inject_Z n) * i <= 0)%Q by nra. assert (inject_Z n * r * i < 1 * i)%Q by nra. lra.
  - assert (inject_Z n + 1 <= inject_Z ((k + 1) * q))%Q as Hk
      by (change 1%Q with (inject_Z 1); rewrite <- inject_Z_plus, <- Zle_Qle; unfold k; lia).
    rewrite (Hm (k + 1)). assert ((inject_Z n + 1 - inject_Z ((k + 1) * q)) * i <= 0)%Q by nra.
    assert (inject_Z n * r * i < 1 * i)%Q by nra. lra.
Qed.

Lemma trunc_nonneg y : (0 <= y)%Q -> trunc y = Qfloor y.
Proof. intros H. unfold trunc. by rewrite (proj2 (Qle_bool_iff _ _) H). Qed.
Lemma trunc_opp y : (0 <= y)%Q -> trunc (- y) = - Qfloor y.
Proof.
  intros H. unfold trunc. destruct (Qle_bool 0 (- y)) eqn:E; [|f_equal; apply Qfloor_comp; ring].
  apply Qle_bool_iff in E. assert (y == 0)%Q as Ey by lra. rewrite (Qfloor_comp (- y) 0), (Qfloor_comp y 0); [done|done|].
  rewrite Ey. reflexivity.
Qed.

Lemma to_s32_ok x : - 2 ^ 31 <= trunc x < 2 ^ 31 -> to_s32 x = Done (trunc x).
Proof. intros H. unfold to_s32. by rewrite (proj2 (Z.leb_le _ _)), (proj2 (Z.ltb_lt _ _)) by lia. Qed.

Section Coordinate.
(** A coordinate of [n] ten-thousandths of a minute, of at most [range] degrees, computed with the error [r]. *)
Context (value : Z -> Q) (range : Z) (r : Q).
Let full := 600000 * range.
Context (range_pos : 0 < range < 1000) (r_small : (0 <= r <= 1 # 2000)%Q)
  (value_near : forall n, 0 <= n <= full -> near r (inject_Z n * (1 # 600000)) (value n))
  (error_small : (inject_Z (full * MaxSouthPosition) * (r + 3 * step) < 1)%Q).

(** The quotient before it is truncated, for both signs. *)
Definition positive_quotient (n : Z) : Q := ddiv (dmul (value n) (of_int MaxNorthPosition)) (of_int range).
Definition negative_quotient (n : Z) : Q := ddiv (dmul (dmul (value n) (of_int (-1))) (of_int MaxSouthPosition)) (of_int range).

(** The coordinates whose product with the maximum is a multiple of the range. *)
Context (exact_positive : forall n, 0 <= n <= full -> (n * MaxNorthPosition) mod full = 0 ->
           (inject_Z (n * MaxNorthPosition / full) <= positive_quotient n)%Q)
  (exact_negative : forall n, 0 <= n <= full -> (n * MaxSouthPosition) mod full = 0 ->
           (inject_Z (n * MaxSouthPosition / full) <= - negative_quotient n)%Q).

Lemma scaled n max : (inject_Z n * (1 # 600000) * inject_Z max / inject_Z range == inject_Z (n * max) / inject_Z full)%Q.
Proof.
  unfold full. rewrite !inject_Z_mult. field. intros E. apply (inject_Z_injective range 0) in E. lia.
Qed.

Lemma positive_near n : 0 <= n <= full ->
  near (r + 2 * step) (inject_Z (n * MaxNorthPosition) / inject_Z full) (positive_quotient n).
Proof.
  intros Hn. rewrite <- scaled. pose proof (inject_nonneg n ltac:(lia)) as Hn'.
  assert (r + 2 * step == r + step + step)%Q as -> by ring. unfold positive_quotient.
  assert (0 <= inject_Z MaxNorthPosition)%Q by (by apply inject_nonneg).
  apply near_ddiv; [unfold step, eps; lra|nra|lia|]. apply near_dmul; [lra|lra|done|]. by apply value_near.
Qed.

(** Operations on the negation of a value. *)
Lemma near_opp_rnd r' x y z : (0 <= x)%Q -> (0 <= r' <= 1 # 1000)%Q -> (z == - y)%Q -> near r' x y -> near (r' + step) x (- rnd z).
Proof. intros Hx Hr Hz H. rewrite Hz. by apply near_rnd_opp. Qed.

Lemma negative_near n : 0 <= n <= full ->
  near (r + step) (inject_Z n * (1 # 600000)) (- dmul (value n) (of_int (-1))) /\
  near (r + 3 * step) (inject_Z (n * MaxSouthPosition) / inject_Z full) (- negative_quotient n).
Proof.
  intros Hn. rewrite <- scaled. pose proof (inject_nonneg n ltac:(lia)) as Hn'.
  assert (0 <= inject_Z MaxSouthPosition)%Q by (by apply inject_nonneg).
  assert (0 < inject_Z range)%Q by (change 0%Q with (inject_Z 0); rewrite <- Zlt_Qlt; lia).
  assert (0 <= / inject_Z range)%Q as Hi by (apply Qinv_le_0_compat; lra).
  assert (near (r + step) (inject_Z n * (1 # 600000)) (- dmul (value n) (of_int (-1)))) as H1.
  { apply (near_opp_rnd r _ (value n)); [lra|lra|unfold of_int; change (inject_Z (-1)) with (-1)%Q; ring|by apply value_near]. }
  split; [exact H1|]. assert (r + 3 * step == r + step + step + step)%Q as -> by ring. unfold negative_quotient.
  set (d := dmul (value n) (of_int (-1))) in *.
  apply (near_opp_rnd _ _ (- dmul d (of_int MaxSouthPosition) / inject_Z range)); [apply Qmult_le_0_compat; [nra|done]|unfold step, eps; lra| |].
  { unfold of_int. field. lra. }
  unfold Qdiv at 1 2. apply near_mult; [done|].
  apply (near_opp_rnd _ _ (- d * inject_Z MaxSouthPosition)); [nra|unfold step, eps; lra|unfold of_int; ring|by apply near_mult].
Qed.

Lemma quotient_bounds n max : 0 <= n <= full -> 0 <= max <= MaxSouthPosition ->
  0 <= n * max <= full * MaxSouthPosition /\ 0 <= n * max / full <= max.
Proof.
  intros Hn Hm. assert (0 < full) by (unfold full; lia). split; [nia|].
  split; [apply Z.div_pos; nia|apply Z.div_le_upper_bound; nia].
Qed.

Lemma quotient_floor n max y k : 0 <= n <= full -> 0 <= max <= MaxSouthPosition -> (0 <= k <= 3)%Q ->
  near (r + k * step) (inject_Z (n * max) / inject_Z full) y ->
  ((n * max) mod full = 0 -> (inject_Z (n * max / full) <= y)%Q) -> (0 <= y)%Q /\ Qfloor y = n * max / full.
Proof.
  intros Hn Hm Hk Hy He. destruct (quotient_bounds n max Hn Hm) as [[Hp1 Hp2] _]. pose proof (inject_nonneg _ Hp1) as Hp.
  assert (0 < full) by (unfold full; lia).
  assert (0 <= inject_Z (n * max) / inject_Z full)%Q
    by (apply Qmult_le_0_compat; [done|apply Qinv_le_0_compat, inject_nonneg; lia]).
  split; [apply (near_nonneg (r + k * step) (inject_Z (n * max) / inject_Z full)); [done|unfold step, eps; lra|done]|].
  apply (floor_near (r + k * step)); [lia|done|done|unfold step, eps; lra| |done].
  apply Qle_lt_trans with (inject_Z (full * MaxSouthPosition) * (r + 3 * step))%Q; [|done].
  rewrite Zle_Qle in Hp2. unfold step, eps in *. nra.
Qed.

Lemma rnd_of_zero x : (x == 0)%Q -> (rnd x == 0)%Q.
Proof. intros ->. reflexivity. Qed.
Lemma to_binary_zero x max : (x == 0)%Q -> to_binary x max range = Done 0.
Proof.
  intros Ex. unfold to_binary. assert (ddiv (dmul x (of_int max)) (of_int range) == 0)%Q as E.
  { apply rnd_of_zero. unfold dmul. rewrite rnd_of_zero; [unfold Qdiv; ring|]. rewrite Ex. ring. }
  rewrite to_s32_ok; rewrite E; [done|]. change (trunc 0) with 0. lia.
Qed.

(** The integer is the exact quotient, truncated. *)
Lemma to_binary_exact n (negative : bool) : 0 <= n <= full ->
  let x := if negative then dmul (value n) (of_int (-1)) else value n in
  to_binary x (if Qle_bool 0 x then MaxNorthPosition else MaxSouthPosition) range =
    Done (if negative then - (n * MaxSouthPosition / full) else n * MaxNorthPosition / full).
Proof.
  intros Hn x. destruct negative; subst x.
  - destruct (negative_near n Hn) as [[H1 H2] Hq]. set (d := dmul (value n) (of_int (-1))) in *.
    destruct (quotient_floor n MaxSouthPosition (- negative_quotient n)%Q 3%Q) as [H0 Hfl]; [done|done|lra|exact Hq|by apply exact_negative|].
    destruct (decide (n = 0)) as [->|Hz].
    { rewrite to_binary_zero; [done|]. change (inject_Z 0) with 0%Q in *. lra. }
    assert (0 < inject_Z n)%Q by (change 0%Q with (inject_Z 0); rewrite <- Zlt_Qlt; lia).
    assert (Qle_bool 0 d = false) as ->.
    { destruct (Qle_bool 0 d) eqn:E; [|done]. apply Qle_bool_iff in E. unfold step, eps in *. nra. }
    unfold to_binary. change (ddiv _ _) with (negative_quotient n).
    assert (trunc (negative_quotient n) = - (n * MaxSouthPosition / full)) as Et.
    { rewrite <- Hfl, <- trunc_opp by done. apply trunc_proper. ring. }
    rewrite to_s32_ok; rewrite Et; [done|]. destruct (quotient_bounds n MaxSouthPosition) as [_ ?]; [done|done|].
    unfold MaxSouthPosition in *. lia.
  - pose proof (value_near n Hn) as Hv. assert (0 <= inject_Z n * (1 # 600000))%Q by (pose proof (inject_nonneg n ltac:(lia)); lra).
    assert (0 <= value n)%Q as Hv0 by (apply (near_nonneg r (inject_Z n * (1 # 600000))); [done|lra|done]).
    rewrite (proj2 (Qle_bool_iff _ _) Hv0). unfold to_binary. change (ddiv _ _) with (positive_quotient n).
    destruct (quotient_floor n MaxNorthPosition (positive_quotient n) 2%Q) as [H0 Hfl]; [done|done|lra|by apply positive_near|by apply exact_positive|].
    rewrite to_s32_ok; rewrite trunc_nonneg, Hfl by done; [done|]. destruct (quotient_bounds n MaxNorthPosition) as [_ ?]; [done|done|].
    unfold MaxNorthPosition in *. lia.
Qed.
End Coordinate.

(** ** Positions in a sentence *)

(** The digit of [x] with the weight [w], as a character. *)
Definition digit (x w : Z) : Z := 48 + x / w mod 10.

(** A coordinate of [n] ten-thousandths of a minute: degrees, minutes, point, fraction. *)
Definition minutes_text (n : Z) : list Z :=
  let m := n mod 600000 / 10000 in let f := n mod 10000 in
  [digit m 10; digit m 1; 46; digit f 1000; digit f 100; digit f 10; digit f 1].
Definition latitude_text (n : Z) : list Z := let d := n / 600000 in [digit d 10; digit d 1] ++ minutes_text n.
Definition longitude_text (n : Z) : list Z := let d := n / 600000 in [digit d 100; digit d 10; digit d 1] ++ minutes_text n.

Lemma digit_value x w : Z.land (digit x w) 0xF = x / w mod 10.
Proof. change 0xF with (Z.ones 4). rewrite Z.land_ones by lia. change (2 ^ 4) with 16. unfold digit. lia. Qed.

Lemma digits_sum f : 0 <= f < 10000 -> 1000 * (f / 1000 mod 10) + 100 * (f / 100 mod 10) + 10 * (f / 10 mod 10) + f / 1 mod 10 = f.
Proof. lia. Qed.

Lemma minutes_sum n : 0 <= n ->
  let m := n mod 600000 / 10000 in 600000 * (n / 600000) + 10000 * (10 * (m / 10 mod 10) + m / 1 mod 10) + n mod 10000 = n.
Proof. intros Hn m. assert (0 <= m < 60) by (unfold m; lia). replace (10 * (m / 10 mod 10) + m / 1 mod 10) with m by lia. unfold m. lia. Qed.

Lemma to_digits_latitude n : 0 <= n <= 54000000 ->
  nibbles (to_digits (latitude_text n ++ [44])) /\ latitude_units (to_digits (latitude_text n ++ [44])) = n.
Proof.
  intros Hn. set (d := n / 600000). set (m := n mod 600000 / 10000). set (f := n mod 10000).
  assert (to_digits (latitude_text n ++ [44]) = [d / 10 mod 10; d / 1 mod 10; m / 10 mod 10; m / 1 mod 10; 14;
    f / 1000 mod 10; f / 100 mod 10; f / 10 mod 10; f / 1 mod 10; 12]) as ->.
  { unfold to_digits, latitude_text, minutes_text. cbn [app take drop map]. by rewrite !digit_value. }
  split.
  - intros i Hi. assert (i = 0 \/ i = 1 \/ i = 2 \/ i = 3 \/ i = 4 \/ i = 5 \/ i = 6 \/ i = 7 \/ i = 8 \/ i = 9) as Hc by lia.
    unfold nibble. destruct Hc as [->|[->|[->|[->|[->|[->|[->|[->|[->| ->]]]]]]]]]; znth_lit; lia.
  - unfold latitude_units. znth_lit. rewrite digits_sum by (unfold f; lia).
    rewrite <- (minutes_sum n) at 1 by lia. fold d m f. assert (0 <= d <= 90) by (unfold d; lia). lia.
Qed.

Lemma to_digits_longitude n : 0 <= n <= 108000000 ->
  nibbles (to_digits (longitude_text n ++ [44])) /\ longitude_units (to_digits (longitude_text n ++ [44])) = n.
Proof.
  intros Hn. set (d := n / 600000). set (m := n mod 600000 / 10000). set (f := n mod 10000).
  assert (to_digits (longitude_text n ++ [44]) = [d / 100 mod 10; d / 10 mod 10; d / 1 mod 10; m / 10 mod 10; m / 1 mod 10; 14;
    f / 1000 mod 10; f / 100 mod 10; f / 10 mod 10; f / 1 mod 10; 44]) as ->.
  { unfold to_digits, longitude_text, minutes_text. cbn [app take drop map]. by rewrite !digit_value. }
  split.
  - intros i Hi. assert (i = 0 \/ i = 1 \/ i = 2 \/ i = 3 \/ i = 4 \/ i = 5 \/ i = 6 \/ i = 7 \/ i = 8 \/ i = 9) as Hc by lia.
    unfold nibble. destruct Hc as [->|[->|[->|[->|[->|[->|[->|[->|[->| ->]]]]]]]]]; znth_lit; lia.
  - unfold longitude_units. znth_lit. rewrite digits_sum by (unfold f; lia).
    rewrite <- (minutes_sum n) at 1 by lia. fold d m f. assert (0 <= d <= 180) by (unfold d; lia). lia.
Qed.

Definition latitude_of (n : Z) : Q := latitude_value (to_digits (latitude_text n ++ [44])).
Definition longitude_of (n : Z) : Q := longitude_value (to_digits (longitude_text n ++ [44])).

(** The multiples of 421875 are the coordinates with an exact quotient, besides the ends. *)
Definition exact_at (value : Z -> Q) (range : Z) (k : Z) : bool :=
  let n := 421875 * k in
  Qle_bool (inject_Z (n * MaxSouthPosition / (600000 * range))) (- negative_quotient value range n).

Lemma latitude_points : forallb (exact_at latitude_of 90) (map Z.of_nat (seq 0 129)) = true.
Proof. vm_compute. reflexivity. Qed.
Lemma longitude_points : forallb (exact_at longitude_of 180) (map Z.of_nat (seq 0 257)) = true.
Proof. vm_compute. reflexivity. Qed.

Lemma divides_multiple a b n : Z.gcd a b = 1 -> (n * b) mod a = 0 -> 0 < a -> exists k, n = a * k.
Proof.
  intros Hg Hm Ha. destruct (Z.gauss a b n) as [k Hk]; [|done|exists k; lia].
  exists (n * b / a). lia.
Qed.

(** The check of the points is enough for all coordinates. *)
Lemma exact_points value range (N : nat) c : 0 < range -> Z.gcd (600000 * range) MaxNorthPosition = 1 ->
  600000 * range = 421875 * Z.of_nat N -> MaxSouthPosition = c * Z.of_nat N -> Z.gcd 421875 c = 1 ->
  forallb (exact_at value range) (map Z.of_nat (seq 0 (S N))) = true ->
  Qle_bool 0 (positive_quotient value range 0) = true ->
  Qle_bool (inject_Z MaxNorthPosition) (positive_quotient value range (600000 * range)) = true ->
  forall n, 0 <= n <= 600000 * range ->
  ((n * MaxNorthPosition) mod (600000 * range) = 0 -> (inject_Z (n * MaxNorthPosition / (600000 * range)) <= positive_quotient value range n)%Q) /\
  ((n * MaxSouthPosition) mod (600000 * range) = 0 -> (inject_Z (n * MaxSouthPosition / (600000 * range)) <= - negative_quotient value range n)%Q).
Proof.
  intros Hr Hg HN Hc Hgc Hall H0%Qle_bool_iff H1%Qle_bool_iff n Hn. split; intros Hm.
  - destruct (divides_multiple _ _ n Hg Hm) as [k ->]; [lia|].
    assert (k = 0 \/ k = 1) as [->| ->] by nia.
    + rewrite Z.mul_0_r. exact H0.
    + rewrite Z.mul_1_r, Z.mul_comm, Z.div_mul by lia. exact H1.
  - assert (exists k, n = 421875 * k) as [k ->].
    { apply (divides_multiple 421875 c); [done| |lia].
      rewrite Hc, HN, Z.mul_assoc, Z.mul_mod_distr_r in Hm by lia. nia. }
    apply Qle_bool_iff. apply (proj1 (forallb_forall _ _) Hall k). apply in_map_iff.
    exists (Z.to_nat k). rewrite in_seq. lia.
Qed.

Lemma latitude_binary n (south : bool) : 0 <= n <= 54000000 ->
  let x := if south then dmul (latitude_of n) (of_int (-1)) else latitude_of n in
  to_binary x (if Qle_bool 0 x then MaxNorthPosition else MaxSouthPosition) 90 =
    Done (if south then - (n * MaxSouthPosition / 54000000) else n * MaxNorthPosition / 54000000).
Proof.
  intros Hn. apply (to_binary_exact latitude_of 90 (5 * step)); [lia|unfold step, eps; lra| |vm_compute; reflexivity| | |exact Hn];
    clear n Hn; intros n Hn.
  - destruct (to_digits_latitude n Hn) as [H1 H2]. rewrite <- H2 at 1. by apply latitude_value_near.
  - eapply (exact_points latitude_of 90 128 65536); [lia|reflexivity|reflexivity|reflexivity|reflexivity|exact latitude_points|vm_compute; reflexivity|vm_compute; reflexivity|exact Hn].
  - eapply (exact_points latitude_of 90 128 65536); [lia|reflexivity|reflexivity|reflexivity|reflexivity|exact latitude_points|vm_compute; reflexivity|vm_compute; reflexivity|exact Hn].
Qed.

Lemma longitude_binary n (west : bool) : 0 <= n <= 108000000 ->
  let x := if west then dmul (longitude_of n) (of_int (-1)) else longitude_of n in
  to_binary x (if Qle_bool 0 x then MaxEastPosition else MaxWestPosition) 180 =
    Done (if west then - (n * MaxWestPosition / 108000000) else n * MaxEastPosition / 108000000).
Proof.
  intros Hn. apply (to_binary_exact longitude_of 180 (4 * step)); [lia|unfold step, eps; lra| |vm_compute; reflexivity| | |exact Hn];
    clear n Hn; intros n Hn.
  - destruct (to_digits_longitude n Hn) as [H1 H2]. rewrite <- H2 at 1. by apply longitude_value_near.
  - eapply (exact_points longitude_of 180 256 32768); [lia|reflexivity|reflexivity|reflexivity|reflexivity|exact longitude_points|vm_compute; reflexivity|vm_compute; reflexivity|exact Hn].
  - eapply (exact_points longitude_of 180 256 32768); [lia|reflexivity|reflexivity|reflexivity|reflexivity|exact longitude_points|vm_compute; reflexivity|vm_compute; reflexivity|exact Hn].
Qed.

(** * Sentences with a valid checksum *)

Definition xor_sum (l : list Z) : Z := fold_left Z.lxor l 0.
Definition checksum_chars (l : list Z) : list Z :=
  [Utilities.Nibble2HexChar (xor_sum l / 16); Utilities.Nibble2HexChar (xor_sum l mod 16)].

Lemma not_In_cons (x c : Z) l : ~ In x (c :: l) -> c <> x /\ ~ In x l.
Proof. intros H. split; intros K; apply H; [by left|by right]. Qed.

Lemma rd_app (pre : list Z) c post : rd (pre ++ c :: post) (zlen pre) = Done c.
Proof. apply rd_Done. split; [lia|]. rewrite Nat2Z.id. by apply list_lookup_middle. Qed.

Lemma checksum_loop_spec body pre post acc fuel size : ~ In 42 body -> bytes body -> is_u8 acc -> (length body < fuel)%nat ->
  zlen pre + zlen body < size ->
  checksum_loop fuel (pre ++ body ++ 42 :: post) size (zlen pre) acc = Done (Some (zlen pre + zlen body, fold_left Z.lxor body acc)).
Proof.
  revert pre acc fuel. induction body as [|c body IH]; intros pre acc fuel Hn Hb Ha Hf Hs; destruct fuel as [|fuel]; simpl in Hf; try lia;
    cbn [checksum_loop app].
  - rewrite rd_app. cbn. by rewrite Z.add_0_r.
  - rewrite rd_app. cbn [rbind]. apply not_In_cons in Hn as [Hc Hn]. pose proof (Forall_inv Hb) as Hb1. pose proof (Forall_inv_tail Hb) as Hb2.
    rewrite (proj2 (Z.eqb_neq c 42)) by done. cbn [length] in Hs. rewrite (proj2 (Z.leb_gt size (zlen pre + 1))) by lia.
    rewrite u8_id by (by apply lxor_u8). specialize (IH (pre ++ [c]) (Z.lxor acc c) fuel Hn Hb2).
    rewrite length_app, <- app_assoc in IH. cbn [app length fold_left] in IH |- *.
    replace (zlen pre + 1) with (Z.of_nat (length pre + 1)) by lia. rewrite IH by (try lia; by apply lxor_u8).
    f_equal. f_equal. f_equal. lia.
Qed.

(** A checksum is compared with the two characters behind the ['*']. *)
Lemma validate_checksum_spec body a b rest size : ~ In 42 body -> bytes body -> zlen body + 4 < size ->
  GpsNmeaValidateChecksum (36 :: body ++ 42 :: a :: b :: rest) size = Done (bool_decide ([a; b] = checksum_chars body)).
Proof.
  intros Hn Hb Hs. unfold GpsNmeaValidateChecksum, GpsNmeaChecksum. rewrite (proj2 (Z.leb_gt size 1)) by lia.
  change (rd (36 :: body ++ 42 :: a :: b :: rest) 0) with (Done 36). cbn [rbind]. change (36 =? 36) with true. cbn iota.
  pose proof (checksum_loop_spec body [36] (a :: b :: rest) 0 (Z.to_nat size) size Hn Hb) as E.
  change (zlen [36]) with 1 in E. cbn [app] in E. rewrite E by (unfold is_u8; lia). cbn [rbind].
  rewrite (proj2 (Z.leb_gt _ _)) by lia.
  assert (rd (36 :: body ++ 42 :: a :: b :: rest) (1 + zlen body + 1) = Done a) as ->.
  { replace (36 :: body ++ 42 :: a :: b :: rest) with ((36 :: body ++ [42]) ++ a :: b :: rest) by (by rewrite <- app_comm_cons, <- app_assoc).
    replace (1 + zlen body + 1) with (zlen (36 :: body ++ [42])) by (cbn [length]; rewrite length_app; simpl; lia). apply rd_app. }
  assert (rd (36 :: body ++ 42 :: a :: b :: rest) (1 + zlen body + 1 + 1) = Done b) as ->.
  { replace (36 :: body ++ 42 :: a :: b :: rest) with ((36 :: body ++ [42; a]) ++ b :: rest) by (by rewrite <- app_comm_cons, <- app_assoc).
    replace (1 + zlen body + 1 + 1) with (zlen (36 :: body ++ [42; a])) by (cbn [length]; rewrite length_app; simpl; lia). apply rd_app. }
  cbn [rbind]. f_equal. unfold checksum_chars. fold (xor_sum body). set (h := Utilities.Nibble2HexChar _). set (l := Utilities.Nibble2HexChar _).
  apply eq_true_iff_eq. rewrite andb_true_iff, !Z.eqb_eq, bool_decide_eq_true. split; [intros [-> ->]; done|intros E'; by injection E'].
Qed.

(** * Fields *)

(** A field as it is printed. *)
Definition printed (text : list Z) : list Z := text ++ [44].

Lemma field_end_spec text pre post k limit fuel : ~ In 44 text -> k + zlen text <= limit -> 0 <= k -> limit < 255 ->
  (Z.of_nat fuel = limit - k + 1) ->
  field_end fuel (pre ++ printed text ++ post) (zlen pre - k) k limit = Done (Some (k + zlen text + 1)).
Proof.
  revert pre k fuel. induction text as [|c text IH]; intros pre k fuel Hn Hk H0 Hl Hf; destruct fuel as [|fuel]; simpl in Hk; try lia;
    cbn [field_end printed app]; replace (zlen pre - k + k) with (zlen pre) by lia; rewrite rd_app; cbn [rbind];
    rewrite (u8_id (k + 1)) by (unfold is_u8; lia).
  - cbn. f_equal. f_equal. lia.
  - apply not_In_cons in Hn as [Hc Hn]. rewrite (proj2 (Z.eqb_neq c 44)) by done.
    rewrite (proj2 (Z.ltb_ge limit (k + 1))) by lia.
    specialize (IH (pre ++ [c]) (k + 1) fuel Hn). rewrite length_app, <- app_assoc in IH. cbn [app length] in IH |- *.
    replace (zlen pre - k) with (Z.of_nat (length pre + 1) - (k + 1)) by lia. unfold printed in IH. rewrite <- app_assoc in IH |- *.
    rewrite IH by lia. f_equal. f_equal. lia.
Qed.

Lemma limit_is_size f : field_limit f = array_size f.
Proof. by destruct f. Qed.
Lemma array_size_range f : 0 < array_size f <= 11.
Proof. destruct f; simpl; lia. Qed.

Definition sized (d : tNmeaGpsData) : Prop := forall f, zlen (d f) = array_size f.

Lemma store_sized f l d : sized d -> zlen l = array_size f -> sized (store f l d).
Proof. intros Hd Hl g. unfold store. destruct (decide (g = f)) as [->|]; auto. Qed.

(** The array with the text and its comma at the start. *)
Definition overwrite (text : list Z) (a : list Z) : list Z := splice a 0 (printed text).

Lemma overwrite_length text a : zlen text < zlen a -> zlen (overwrite text a) = zlen a.
Proof. intros H. unfold overwrite. rewrite splice_length; [done|]. unfold printed. rewrite length_app. simpl. lia. Qed.

(** A text fits its array with the comma. *)
Definition fits (f : nmea_field) (text : list Z) : Prop := ~ In 44 text /\ zlen text < array_size f.

Lemma parse_field_spec f text pre post d : fits f text -> sized d -> zlen pre + array_size f < 256 ->
  parse_field (pre ++ printed text ++ post) f (zlen pre) d =
    Done (Some (zlen pre + zlen (printed text), store f (overwrite text (d f)) d)).
Proof.
  intros [Hn Hl] Hd Hp. unfold parse_field. rewrite limit_is_size. pose proof (array_size_range f) as Ha.
  pose proof (field_end_spec text pre post 0 (array_size f) (S (Z.to_nat (array_size f))) Hn) as E.
  replace (zlen pre - 0) with (zlen pre) in E by lia. rewrite E by lia. clear E. cbn [rbind].
  assert (zlen (printed text) = zlen text + 1) as Hlen by (unfold printed; rewrite length_app; simpl; lia).
  rewrite rdn_ok by (rewrite ?length_app; lia). cbn [rbind].
  assert (take (Z.to_nat (0 + zlen text + 1)) (drop (Z.to_nat (zlen pre)) (pre ++ printed text ++ post)) = printed text) as ->.
  { rewrite Nat2Z.id, drop_app_length. replace (Z.to_nat (0 + zlen text + 1)) with (length (printed text)) by lia. apply take_app_length. }
  rewrite wrn_ok by (rewrite ?Hd; lia). cbn [rbind]. rewrite u8_id by (unfold is_u8; lia).
  do 3 f_equal. lia.
Qed.

(** The arrays after the fields of a sentence. *)
Definition stored (l : list nmea_field) (texts : nmea_field -> list Z) (d : tNmeaGpsData) : tNmeaGpsData :=
  fold_left (fun d f => store f (overwrite (texts f) (d f)) d) l d.
Definition fields_text (l : list nmea_field) (texts : nmea_field -> list Z) : list Z := concat (map (fun f => printed (texts f)) l).

Lemma parse_fields_spec l texts pre post d : (forall f, f ∈ l -> fits f (texts f)) -> sized d ->
  zlen pre + zlen (fields_text l texts) + 11 < 256 ->
  parse_fields (pre ++ fields_text l texts ++ post) l (zlen pre) d =
    Done (true, zlen pre + zlen (fields_text l texts), stored l texts d) /\ sized (stored l texts d).
Proof.
  revert pre d. induction l as [|f l IH]; intros pre d Hf Hd Hp; cbn [parse_fields fields_text stored map concat fold_left].
  - cbn. by rewrite Z.add_0_r.
  - assert (fits f (texts f)) as Hff by (apply Hf, list_elem_of_here). pose proof (array_size_range f) as Ha.
    unfold fields_text in Hp. cbn [map concat] in Hp. fold (fields_text l texts) in Hp |- *. rewrite length_app in Hp.
    rewrite <- app_assoc, parse_field_spec by (done || lia). cbn [rbind].
    assert (sized (store f (overwrite (texts f) (d f)) d)) as Hd'.
    { apply store_sized; [done|]. rewrite overwrite_length; [apply Hd|]. rewrite Hd. apply Hff. }
    destruct (IH (pre ++ printed (texts f)) _ (fun g Hg => Hf g (list_elem_of_further _ _ _ Hg)) Hd') as [E HS].
    { rewrite length_app. lia. }
    split; [|exact HS]. rewrite <- app_assoc, length_app, Nat2Z.inj_add in E. rewrite length_app, Nat2Z.inj_add, Z.add_assoc. exact E.
Qed.

Lemma stored_cons g l texts d : stored (g :: l) texts d = stored l texts (store g (overwrite (texts g) (d g)) d).
Proof. reflexivity. Qed.

Lemma stored_other l texts d f : f ∉ l -> stored l texts d f = d f.
Proof.
  revert d. induction l as [|g l IH]; intros d Hf; [done|]. apply not_elem_of_cons in Hf as [Hg Hl].
  rewrite stored_cons, IH by done. unfold store. by rewrite decide_False.
Qed.

Lemma stored_field l texts d f : NoDup l -> f ∈ l -> stored l texts d f = overwrite (texts f) (d f).
Proof.
  revert d. induction l as [|g l IH]; intros d Hl Hf; [by apply elem_of_nil in Hf|].
  apply list.NoDup_cons in Hl as [Hg Hl]. apply elem_of_cons in Hf. rewrite stored_cons. destruct (decide (f = g)) as [->|Hne].
  - rewrite stored_other by done. unfold store. by rewrite decide_True.
  - rewrite IH by tauto. unfold store. by rewrite decide_False.
Qed.

Lemma fields_text_length l texts : (forall f, f ∈ l -> fits f (texts f)) ->
  zlen (fields_text l texts) <= fold_right Z.add 0 (map array_size l).
Proof.
  induction l as [|f l IH]; intros Hf; [done|]. unfold fields_text. cbn [map concat fold_right]. fold (fields_text l texts).
  destruct (Hf f (list_elem_of_here _ _)) as [_ Hl]. specialize (IH (fun g Hg => Hf g (list_elem_of_further _ _ _ Hg))).
  unfold printed. rewrite !length_app. simpl. lia.
Qed.

(** The sentences the program understands. *)
Definition understood : list (list Z * list nmea_field) := [(NmeaDataTypeGPGGA, gga_fields); (NmeaDataTypeGPRMC, rmc_fields)].

(** A sentence with fields, text behind them, the checksum and its end. *)
Definition sentence_body (type : list Z) (fields : list nmea_field) (texts : nmea_field -> list Z) (tail : list Z) : list Z :=
  printed type ++ fields_text fields texts ++ tail.
Definition sentence (body rest : list Z) : list Z := 36 :: body ++ 42 :: checksum_chars body ++ rest.

Lemma understood_inv type fields : (type, fields) ∈ understood ->
  zlen type = 5 /\ ~ In 44 type /\ fold_right Z.add 0 (map array_size fields) <= 67 /\ (NmeaDataType ∉ fields) /\ NoDup fields /\
  ((type = NmeaDataTypeGPGGA /\ fields = gga_fields) \/ (type = NmeaDataTypeGPRMC /\ fields = rmc_fields)).
Proof.
  unfold understood. rewrite !elem_of_cons, elem_of_nil. intros [[= -> ->]|[[= -> ->]|[]]];
    (split_and!; [done|cbn; lia|cbn; lia|by apply (bool_decide_unpack _)|by apply (bool_decide_unpack _)|auto]).
Qed.

Lemma overwrite_type type a : zlen type = 5 -> take 5 (overwrite type a) = type.
Proof.
  intros H. unfold overwrite, splice, printed. rewrite take_0, app_nil_l, <- app_assoc. apply take_app_length'. lia.
Qed.

(** The arrays after a sentence, with the type. *)
Definition received (type : list Z) (fields : list nmea_field) (texts : nmea_field -> list Z) (d : tNmeaGpsData) : tNmeaGpsData :=
  stored fields texts (store NmeaDataType (overwrite type (d NmeaDataType)) d).

Lemma parse_sentence_spec type fields texts tail rest size s : (type, fields) ∈ understood ->
  (forall f, f ∈ fields -> fits f (texts f)) -> sized (NmeaGpsData s) ->
  let body := sentence_body type fields texts tail in bytes body -> ~ In 42 body -> zlen body + 4 < size ->
  GpsParseGpsData (sentence body rest) size s =
    (let* s' := GpsFormatGpsData (s <| NmeaGpsData := received type fields texts (NmeaGpsData s) |>) in Done (SUCCESS, s')) /\
  sized (received type fields texts (NmeaGpsData s)).
Proof.
  intros Hu Hf Hd body Hb Hn Hr. unfold GpsParseGpsData, sentence.
  change (rd (36 :: body ++ 42 :: checksum_chars body ++ rest) 0) with (Done 36). cbn [rbind]. change (36 =? 36) with true. cbn iota.
  unfold checksum_chars at 1. cbn [app]. rewrite validate_checksum_spec by done.
  rewrite bool_decide_eq_true_2 by done. cbn [rbind negb].
  destruct (understood_inv type fields Hu) as (Ht & Hc & Hsum & Hnt & Hdup & Hk).
  pose proof (fields_text_length fields texts Hf) as Hlen.
  assert (36 :: body ++ 42 :: checksum_chars body ++ rest = [36] ++ printed type ++ (fields_text fields texts ++ tail ++ 42 :: checksum_chars body ++ rest)) as Es.
  { unfold body at 1, sentence_body. by rewrite <- !app_assoc. }
  assert (36 :: body ++ 42 :: checksum_chars body ++ rest = ([36] ++ printed type) ++ fields_text fields texts ++ (tail ++ 42 :: checksum_chars body ++ rest)) as Es'.
  { rewrite Es. by rewrite <- app_assoc. }
  rewrite Es at 1. change 1 with (zlen [36]) at 1.
  rewrite parse_field_spec; [|by split; [|simpl; lia]|done|simpl; lia]. cbn [rbind].
  set (d := store _ _ _). assert (sized d) as Hd1.
  { apply store_sized; [done|]. rewrite overwrite_length; rewrite Hd; simpl; lia. }
  assert (data_type_is type d = true) as Hty.
  { apply bool_decide_eq_true_2. unfold d, store. rewrite decide_True by done. by apply overwrite_type. }
  destruct (parse_fields_spec fields texts ([36] ++ printed type) (tail ++ 42 :: checksum_chars body ++ rest) d Hf Hd1) as [E HS].
  { unfold printed. rewrite !length_app. simpl. lia. }
  rewrite <- Es', length_app, Nat2Z.inj_add in E. split; [|exact HS].
  assert (forall s0 : gps, NmeaGpsData s0 = d -> parse_sentence (36 :: body ++ 42 :: checksum_chars body ++ rest) fields
    (zlen [36] + zlen (printed type)) s0 = (let* s' := GpsFormatGpsData (s0 <| NmeaGpsData := stored fields texts d |>) in Done (SUCCESS, s'))) as Hp.
  { intros s0 H0. unfold parse_sentence. rewrite H0, E. reflexivity. }
  destruct Hk as [[-> ->]|[-> ->]].
  - rewrite Hty. by rewrite Hp.
  - assert (data_type_is NmeaDataTypeGPGGA d = false) as ->.
    { apply bool_decide_eq_true_1 in Hty. unfold data_type_is. rewrite Hty. done. }
    rewrite Hty. by rewrite Hp.
Qed.

(** A text that fills its array leaves nothing of the earlier contents. *)
Lemma overwrite_all text a : zlen a = zlen text + 1 -> overwrite text a = printed text.
Proof.
  intros H. unfold overwrite, splice. rewrite take_0, app_nil_l. assert (zlen (printed text) = zlen text + 1) by (unfold printed; rewrite length_app; simpl; lia).
  rewrite drop_ge by lia. by rewrite app_nil_r.
Qed.

Definition first_char (text : list Z) : Z := (printed text).[0].
Lemma overwrite_first_char text a : (overwrite text a).[0] = first_char text.
Proof. by destruct text. Qed.

Lemma to_digits_length l : length (to_digits l) = length l.
Proof. unfold to_digits. rewrite length_app, length_map, <- length_app. by rewrite take_drop. Qed.

(** The position of a sentence. *)
Lemma format_spec s n m : NmeaGpsData s NmeaLatitude = latitude_text n ++ [44] -> 0 <= n <= 54000000 ->
  NmeaGpsData s NmeaLongitude = longitude_text m ++ [44] -> 0 <= m <= 108000000 ->
  exists s', GpsFormatGpsData s = Done s' /\
    LatitudeBinary s' = (if (NmeaGpsData s NmeaLatitudePole).[0] =? 83 then - (n * MaxSouthPosition / 54000000) else n * MaxNorthPosition / 54000000) /\
    LongitudeBinary s' = (if (NmeaGpsData s NmeaLongitudePole).[0] =? 87 then - (m * MaxWestPosition / 108000000) else m * MaxEastPosition / 108000000) /\
    (forall f, f <> NmeaLatitude -> f <> NmeaLongitude -> NmeaGpsData s' f = NmeaGpsData s f) /\
    (sized (NmeaGpsData s) -> sized (NmeaGpsData s')) /\ calls s' = calls s.
Proof.
  intros E1 Hn E2 Hm. unfold GpsFormatGpsData, GpsConvertPositionIntoBinary.
  pose proof (latitude_binary n ((NmeaGpsData s NmeaLatitudePole).[0] =? 83) Hn) as B1.
  pose proof (longitude_binary m ((NmeaGpsData s NmeaLongitudePole).[0] =? 87) Hm) as B2. cbv zeta in B1, B2.
  assert (exists s1, GpsConvertPositionFromStringToNumerical s = s1 /\
    Latitude s1 = (if (NmeaGpsData s NmeaLatitudePole).[0] =? 83 then dmul (latitude_of n) (of_int (-1)) else latitude_of n) /\
    Longitude s1 = (if (NmeaGpsData s NmeaLongitudePole).[0] =? 87 then dmul (longitude_of m) (of_int (-1)) else longitude_of m) /\
    NmeaGpsData s1 = store NmeaLongitude (to_digits (NmeaGpsData s NmeaLongitude)) (store NmeaLatitude (to_digits (NmeaGpsData s NmeaLatitude)) (NmeaGpsData s)) /\
    calls s1 = calls s) as (s1 & -> & EL & EO & ED & EC).
  { eexists. split; [reflexivity|]. unfold GpsConvertPositionFromStringToNumerical, latitude_of, longitude_of. by rewrite <- E1, <- E2. }
  rewrite EL, B1. cbn [rbind]. rewrite EO, B2. cbn [rbind]. eexists. split; [reflexivity|]. split; [done|]. split; [done|].
  change (NmeaGpsData _) with (NmeaGpsData s1) at 1. split; [|split; [|exact EC]].
  - intros f H1 H2. change (NmeaGpsData s1 f = NmeaGpsData s f). rewrite ED. unfold store. by rewrite !decide_False.
  - intros Hs. change (sized (NmeaGpsData s1)). rewrite ED.
    apply store_sized; [apply store_sized; [done|]|]; rewrite to_digits_length; apply Hs.
Qed.

(** A sentence of one of the two understood types with a valid checksum, whose fields fit their arrays with the
    comma, is accepted. *)
Lemma position_parsed type fields texts tail rest size s n m ns ew : (type, fields) ∈ understood ->
  (forall f, f ∈ fields -> fits f (texts f)) -> sized (NmeaGpsData s) ->
  let body := sentence_body type fields texts tail in bytes body -> ~ In 42 body -> zlen body + 4 < size ->
  texts NmeaLatitude = latitude_text n -> texts NmeaLatitudePole = [ns] -> 0 <= n <= 54000000 ->
  texts NmeaLongitude = longitude_text m -> texts NmeaLongitudePole = [ew] -> 0 <= m <= 108000000 ->
  exists s', GpsParseGpsData (sentence body rest) size s = Done (SUCCESS, s') /\
    LatitudeBinary s' = (if ns =? 83 then - (n * MaxSouthPosition / 54000000) else n * MaxNorthPosition / 54000000) /\
    LongitudeBinary s' = (if ew =? 87 then - (m * MaxWestPosition / 108000000) else m * MaxEastPosition / 108000000) /\
    GpsHasFix s' = (if bool_decide (type = NmeaDataTypeGPGGA) then 0x30 <? first_char (texts NmeaFixQuality)
                    else first_char (texts NmeaDataStatus) =? 0x41) /\
    (forall f, f ∈ fields -> f <> NmeaLatitude -> f <> NmeaLongitude -> NmeaGpsData s' f = overwrite (texts f) (NmeaGpsData s f)) /\
    sized (NmeaGpsData s') /\ calls s' = calls s.
Proof.
  intros Hu Hf Hd body Hb Hn Hr Elat Ens Hlat Elon Eew Hlon.
  destruct (parse_sentence_spec type fields texts tail rest size s Hu Hf Hd Hb Hn Hr) as [E HS]. fold body in E. rewrite E. clear E.
  destruct (understood_inv type fields Hu) as (Ht & Hc & _ & Hnt & Hdup & Hk).
  set (d := received type fields texts (NmeaGpsData s)) in *.
  assert (forall f, f ∈ fields -> d f = overwrite (texts f) (NmeaGpsData s f)) as Hstored.
  { intros f Hin. unfold d, received. rewrite stored_field by done. unfold store. rewrite decide_False; [done|]. by intros ->. }
  assert (take 5 (d NmeaDataType) = type) as Htype.
  { unfold d, received. rewrite stored_other by done. unfold store. rewrite decide_True by done. by apply overwrite_type. }
  assert (NmeaLatitude ∈ fields /\ NmeaLatitudePole ∈ fields /\ NmeaLongitude ∈ fields /\ NmeaLongitudePole ∈ fields) as (M1 & M2 & M3 & M4)
    by (destruct Hk as [[_ ->]|[_ ->]]; split_and!; by apply (bool_decide_unpack _)).
  assert (d NmeaLatitude = latitude_text n ++ [44]) as E1 by (rewrite Hstored, Elat, overwrite_all by (done || by rewrite Hd); done).
  assert (d NmeaLongitude = longitude_text m ++ [44]) as E3 by (rewrite Hstored, Elon, overwrite_all by (done || by rewrite Hd); done).
  assert ((d NmeaLatitudePole).[0] = ns) as E2 by (rewrite Hstored, Ens by done; done).
  assert ((d NmeaLongitudePole).[0] = ew) as E4 by (rewrite Hstored, Eew by done; done).
  clearbody d. set (s1 := s <| NmeaGpsData := d |>). assert (NmeaGpsData s1 = d /\ calls s1 = calls s) as [Ed Ec] by done. clearbody s1.
  destruct (format_spec s1 n m) as (s' & Es & B1 & B2 & Hother & Hsz & Hcalls); [by rewrite Ed|done|by rewrite Ed|done|].
  rewrite Ed in *. rewrite E2 in B1. rewrite E4 in B2. exists s'. rewrite Es. split; [done|]. split; [done|]. split; [done|].
  split; [|split; [|split; [by apply Hsz|congruence]]].
  - unfold GpsHasFix, data_type_is. rewrite !Hother by done. rewrite Htype.
    destruct Hk as [[-> ->]|[-> ->]].
    + rewrite (Hstored NmeaFixQuality), overwrite_first_char by (by apply (bool_decide_unpack _)). done.
    + rewrite (Hstored NmeaDataStatus), overwrite_first_char by (by apply (bool_decide_unpack _)). done.
  - intros f Hin H1 H2. rewrite Hother by done. by apply Hstored.
Qed.

(** * The serial line *)

(** The receiver between two characters. *)
Record line_ok (s : gps) : Prop := {
  line_sized : sized (NmeaGpsData s);
  line_string : zlen (NmeaString s) = 128;
  line_size : 0 <= NmeaStringSize s <= 128;
  line_fifo : wf (FifoRx s);
  line_capacity : 1 < Size (FifoRx s);
  line_empty : contents (FifoRx s) = [];
}.

(** The queue hands over the character that arrived. *)
Lemma char_received c s : line_ok s ->
  exists f, HAL_UART_RxCpltCallback c s = on_char c (s <| FifoRx := f |>) /\ wf f /\ contents f = [] /\ Size f = Size (FifoRx s).
Proof.
  intros [_ _ _ Hw Hcap Hem]. unfold HAL_UART_RxCpltCallback.
  assert (IsFifoFull (FifoRx s) = false) as Hnf.
  { destruct (IsFifoFull (FifoRx s)) eqn:E; [|done]. apply full_spec in E; [|done]. rewrite Hem in E. simpl in E. lia. }
  rewrite Hnf. destruct (push_contents (FifoRx s) c Hw Hnf) as (f1 & -> & Hw1 & Hc1 & Hs1). rewrite Hem in Hc1. cbn [rbind].
  unfold GpsMcuIrqNotify, UartMcuGetChar. change (FifoRx (s <| FifoRx := f1 |>)) with f1.
  assert (IsFifoEmpty f1 = false) as Hne.
  { destruct (IsFifoEmpty f1) eqn:E; [|done]. apply empty_spec in E; [|done]. by rewrite Hc1 in E. }
  rewrite Hne. destruct (pop_contents f1 Hw1 Hne) as (x & f2 & -> & Hw2 & Hc2 & Hs2). rewrite Hc1 in Hc2.
  injection Hc2 as <- Hc2. cbn [rbind]. exists f2. split; [reflexivity|]. split; [done|]. split; [done|lia].
Qed.

(** A character that does not end a sentence is appended, or starts a new one. *)
Lemma char_appended c s : line_ok s -> c <> 10 ->
  exists s', HAL_UART_RxCpltCallback c s = Done s' /\ line_ok s' /\
    (let k := if (c =? 36) || (128 <=? NmeaStringSize s) then 0 else NmeaStringSize s in
     NmeaStringSize s' = k + 1 /\ NmeaString s' = <[Z.to_nat k := c]> (NmeaString s)) /\
    NmeaGpsData s' = NmeaGpsData s /\ calls s' = calls s.
Proof.
  intros Hok Hc. destruct (char_received c s Hok) as (f & -> & Hw & Hem & Hsz). destruct Hok as [H1 H2 H3 H4 H5 H6].
  unfold on_char. rewrite (proj2 (Z.eqb_neq c 10)) by done.
  change (NmeaStringSize (s <| FifoRx := f |>)) with (NmeaStringSize s).
  set (k := if (c =? 36) || (128 <=? NmeaStringSize s) then 0 else NmeaStringSize s).
  assert (0 <= k < 128) as Hk by (unfold k; destruct (c =? 36), (Z.leb_spec 128 (NmeaStringSize s)); simpl; lia).
  set (s1 := if _ || _ then _ else _).
  assert (NmeaStringSize s1 = k /\ NmeaString s1 = NmeaString s /\ FifoRx s1 = f /\ NmeaGpsData s1 = NmeaGpsData s /\ calls s1 = calls s)
    as (K1 & K2 & K3 & K4 & K5) by (unfold s1, k; by destruct ((c =? 36) || _)).
  clearbody s1 k. rewrite K1, K2, wr_ok by lia. cbn [rbind]. eexists. split; [reflexivity|].
  split; [|split; [split; [|done]|by split]].
  - split; simpl; rewrite ?K3, ?K4, ?length_insert; try done; try lia. rewrite u8_id; unfold is_u8; lia.
  - simpl. apply u8_id. unfold is_u8. lia.
Qed.

(** Characters one after the other. *)
Fixpoint receive (l : list Z) (s : gps) : run gps :=
  match l with
  | [] => Done s
  | c :: l' => let* s := HAL_UART_RxCpltCallback c s in receive l' s
  end.

Lemma receive_app l k s : receive (l ++ k) s = (let* s := receive l s in receive k s).
Proof. revert s. induction l as [|c l IH]; intros s; [done|]. cbn [receive app]. destruct (HAL_UART_RxCpltCallback c s); [apply IH|done..]. Qed.

(** A text without line end and start of a sentence follows what the string holds. *)
Lemma text_received l s p : line_ok s -> ~ In 10 l -> ~ In 36 l -> take (Z.to_nat (NmeaStringSize s)) (NmeaString s) = p ->
  NmeaStringSize s + zlen l <= 128 ->
  exists s', receive l s = Done s' /\ line_ok s' /\ NmeaStringSize s' = NmeaStringSize s + zlen l /\
    take (Z.to_nat (NmeaStringSize s')) (NmeaString s') = p ++ l /\ NmeaGpsData s' = NmeaGpsData s /\ calls s' = calls s.
Proof.
  revert s p. induction l as [|c l IH]; intros s p Hok H10 H36 Hp Hl; cbn [receive].
  { exists s. cbn [length]. rewrite Z.add_0_r, app_nil_r. done. }
  apply not_In_cons in H10 as [Hc10 H10]. apply not_In_cons in H36 as [Hc36 H36]. cbn [length] in Hl.
  pose proof (line_size s Hok) as Hsz. pose proof (line_string s Hok) as Hstr.
  destruct (char_appended c s Hok Hc10) as (s1 & -> & Hok1 & [Hs1 Hstr1] & Hd1 & Hc1). cbn [rbind].
  rewrite (proj2 (Z.eqb_neq c 36)), (proj2 (Z.leb_gt 128 (NmeaStringSize s))) in Hs1, Hstr1 by (done || lia). cbn [orb] in Hs1, Hstr1.
  destruct (IH s1 (p ++ [c]) Hok1 H10 H36) as (s2 & -> & Hok2 & Hs2 & Ht2 & Hd2 & Hc2).
  - rewrite Hs1, Hstr1. replace (Z.to_nat (NmeaStringSize s + 1)) with (S (Z.to_nat (NmeaStringSize s))) by lia.
    rewrite (take_S_r _ _ c) by (apply list_lookup_insert_eq; lia). rewrite take_insert_ge by lia. by rewrite Hp.
  - lia.
  - exists s2. split; [done|]. split; [done|]. split; [cbn [length]; lia|]. split; [by rewrite Ht2, <- app_assoc|]. split; congruence.
Qed.

(** Where the next character goes. *)
Definition next_place (s : gps) : Z := if 128 <=? NmeaStringSize s then 0 else NmeaStringSize s.

(** The end of a line hands the string to the parser, unless the string has no room for its end. *)
Lemma line_end s : line_ok s -> next_place s < 127 -> let p := take (Z.to_nat (next_place s)) (NmeaString s) in
  exists s1 pad, line_ok s1 /\ NmeaGpsData s1 = NmeaGpsData s /\ calls s1 = calls s /\ NmeaStringSize s1 = next_place s + 1 /\
    NmeaString s1 = p ++ 10 :: pad /\
    HAL_UART_RxCpltCallback 10 s = (let* (_, s2) := GpsParseGpsData (p ++ 10 :: pad) (NmeaStringSize s1) s1 in
      Done (call (BlockLowPowerDuringTask false) (call UartDeInit s2))).
Proof.
  intros Hok Hlt p. destruct (char_received 10 s Hok) as (f & -> & Hw & Hem & Hsz). destruct Hok as [H1 H2 H3 H4 H5 H6].
  unfold on_char. change (10 =? 36) with false. change (10 =? 10) with true. cbn [orb].
  change (NmeaStringSize (s <| FifoRx := f |>)) with (NmeaStringSize s). set (s0 := if 128 <=? NmeaStringSize s then _ else _).
  assert (NmeaString s0 = NmeaString s /\ NmeaStringSize s0 = next_place s /\ FifoRx s0 = f /\ NmeaGpsData s0 = NmeaGpsData s /\ calls s0 = calls s)
    as (J1 & J2 & J3 & J4 & J5) by (unfold s0, next_place; by destruct (128 <=? NmeaStringSize s)).
  assert (0 <= next_place s) as Hge by (unfold next_place; destruct (128 <=? NmeaStringSize s); lia).
  clearbody s0. rewrite J1, J2, wr_ok by lia. cbn [rbind]. rewrite u8_id by (unfold is_u8; lia).
  match goal with |- context [wr (NmeaString ?x) (NmeaStringSize ?x) 0] => set (s1 := x);
    assert (NmeaString s1 = <[Z.to_nat (next_place s) := 10]> (NmeaString s) /\ NmeaStringSize s1 = next_place s + 1 /\
      FifoRx s1 = f /\ NmeaGpsData s1 = NmeaGpsData s /\ calls s1 = calls s) as (K1 & K2 & K3 & K4 & K5) by done; clearbody s1 end.
  set (k := Z.to_nat (next_place s)) in *.
  rewrite K1, K2, wr_ok by (rewrite ?length_insert; lia). cbn [rbind].
  replace (Z.to_nat (next_place s + 1)) with (S k) by lia.
  set (str := <[S k := 0]> _). assert (str = p ++ 10 :: drop (S k) str) as Estr.
  { rewrite <- (take_drop (S k) str) at 1. unfold str at 1. rewrite take_insert_ge by lia.
    rewrite (take_S_r _ _ 10) by (apply list_lookup_insert_eq; lia). rewrite take_insert_ge by lia. rewrite <- app_assoc. done. }
  exists (s1 <| NmeaString := str |>), (drop (S k) str). split; [|split; [done|split; [done|split; [done|split; [done|]]]]].
  - split; simpl; rewrite ?K2, ?K3, ?K4; try done; try lia. unfold str. by rewrite !length_insert.
  - simpl. rewrite <- Estr. rewrite K2. reflexivity.
Qed.

(** The parser does not touch the line. *)
Definition same_line (s s' : gps) : Prop :=
  NmeaString s' = NmeaString s /\ NmeaStringSize s' = NmeaStringSize s /\ FifoRx s' = FifoRx s.

Lemma format_frame s s' : GpsFormatGpsData s = Done s' -> same_line s s' /\ calls s' = calls s.
Proof.
  unfold GpsFormatGpsData, GpsConvertPositionIntoBinary. intros H. run_inv. by subst s'.
Qed.

Lemma parse_frame buf size s st s' : GpsParseGpsData buf size s = Done (st, s') -> same_line s s'.
Proof.
  unfold GpsParseGpsData. intros H. apply rbind_inv in H as (c & _ & H). destruct (negb (c =? 36)).
  { by injection H as _ <-. }
  apply rbind_inv in H as (v & _ & H). destruct (negb v); [by injection H as _ <-|].
  apply rbind_inv in H as (o & _ & H). destruct o as [[i d]|]; [|by injection H as _ <-].
  assert (forall l s0, parse_sentence buf l i s0 = Done (st, s') -> same_line s0 s') as Hp.
  { intros l s0 E. unfold parse_sentence in E. apply rbind_inv in E as ([[ok j] d'] & _ & E). destruct ok.
    - apply rbind_inv in E as (s1 & E1 & E). injection E as _ <-. by apply format_frame in E1 as [? _].
    - by injection E as _ <-. }
  destruct (data_type_is NmeaDataTypeGPGGA d); [by apply Hp in H|].
  destruct (data_type_is NmeaDataTypeGPRMC d); [by apply Hp in H|]. by injection H as _ <-.
Qed.

(** ** The parser returns *)

(** At [i] there is a field with as many characters as its array has; the comma does not fit. *)
Definition overlong (buf : list Z) (f : nmea_field) (i : Z) : Prop :=
  0 <= i /\ (forall k, 0 <= k < array_size f -> exists c, rd buf (i + k) = Done c /\ c <> 44) /\ rd buf (i + array_size f) = Done 44.

Lemma field_end_total buf i limit fuel k : 0 <= i -> 0 <= k <= limit -> limit < 255 -> i + limit < zlen buf ->
  Z.of_nat fuel = limit - k + 1 -> (forall j, 0 <= j < k -> exists c, rd buf (i + j) = Done c /\ c <> 44) ->
  field_end fuel buf i k limit = Done None \/
  exists n, field_end fuel buf i k limit = Done (Some n) /\ 1 <= n <= limit + 1 /\ rd buf (i + (n - 1)) = Done 44 /\
    (forall j, 0 <= j < n - 1 -> exists c, rd buf (i + j) = Done c /\ c <> 44).
Proof.
  intros Hi Hk Hl Hb. revert k Hk. induction fuel as [|fuel IH]; intros k Hk Hf Hpre; [lia|]. cbn [field_end].
  destruct (rd_ok buf (i + k)) as (c & E & _); [lia|]. rewrite E. cbn [rbind]. rewrite u8_id by (unfold is_u8; lia).
  destruct (Z.eqb_spec c 44) as [->|Hc].
  { right. exists (k + 1). replace (k + 1 - 1) with k by lia. split; [done|]. split; [lia|]. by split. }
  destruct (Z.ltb_spec limit (k + 1)); [by left|]. apply IH; [lia|lia|].
  intros j Hj. destruct (decide (j = k)) as [->|]; [by exists c|apply Hpre; lia].
Qed.

(** What a field can do: fail, be stored, or run over its array. *)
Lemma parse_field_total buf f i d : sized d -> 0 <= i -> i + array_size f < zlen buf -> i + array_size f < 255 ->
  parse_field buf f i d = Done None \/
  (exists i' d', parse_field buf f i d = Done (Some (i', d')) /\ sized d' /\ i <= i' <= i + array_size f) \/
  (parse_field buf f i d = Undef /\ overlong buf f i).
Proof.
  intros Hd Hi Hb H8. unfold parse_field. rewrite limit_is_size. pose proof (array_size_range f) as Ha.
  destruct (field_end_total buf i (array_size f) (S (Z.to_nat (array_size f))) 0) as [->|(n & -> & Hn & Hc & Hpre)];
    [lia|lia|lia|lia|lia|intros; lia|by left|]. cbn [rbind]. right.
  rewrite rdn_ok by lia. cbn [rbind]. set (text := take _ _).
  assert (zlen text = n) as Ht by (unfold text; rewrite length_take, length_drop; lia).
  destruct (decide (n = array_size f + 1)) as [->|Hne].
  - right. replace (array_size f + 1 - 1) with (array_size f) in * by lia. split; [|by split].
    unfold wrn. rewrite (proj2 (Z.leb_le 0 0)), (proj2 (Z.leb_gt _ _)) by (rewrite ?Hd; lia). done.
  - left. rewrite wrn_ok by (rewrite ?Hd; lia). cbn [rbind]. rewrite u8_id by (unfold is_u8; lia). eexists _, _. split; [reflexivity|].
    split; [|lia]. apply store_sized; [done|]. rewrite !length_app, length_take, length_drop. specialize (Hd f). lia.
Qed.

Lemma parse_fields_total buf l i d : sized d -> 0 <= i -> let total := fold_right Z.add 0 (map array_size l) in
  i + total < zlen buf -> i + total < 255 ->
  (exists ok i' d', parse_fields buf l i d = Done (ok, i', d') /\ sized d') \/
  (parse_fields buf l i d = Undef /\ exists f j, overlong buf f j).
Proof.
  revert i d. induction l as [|f l IH]; intros i d Hd Hi total Hb H8; cbn [parse_fields]; [left; eauto|].
  assert (0 <= fold_right Z.add 0 (map array_size l)) as Hnn.
  { clear. induction l as [|g l IH]; [done|]. cbn [map fold_right]. pose proof (array_size_range g). lia. }
  subst total. cbn [map fold_right] in Hb, H8.
  destruct (parse_field_total buf f i d Hd Hi) as [->|[(i' & d' & -> & Hd' & Hi')|[-> Ho]]]; [lia|lia|..]; cbn [rbind].
  - left. eauto.
  - apply IH; [done|lia|lia|lia].
  - right. eauto.
Qed.

(** ** The conversion returns *)

Lemma rnd_twice x : (Qabs (rnd x) <= 2 * Qabs x)%Q.
Proof.
  pose proof (rnd_error x) as H. pose proof (Qabs_nonneg x) as H0. pose proof (Qabs_triangle (rnd x - x) x) as H1.
  assert (rnd x - x + x == rnd x)%Q as E by ring. rewrite E in H1. unfold eps in H. lra.
Qed.

Lemma to_s32_total y b : (Qabs y <= inject_Z b)%Q -> b < 2 ^ 31 -> exists z, to_s32 y = Done z.
Proof.
  intros Hy Hb. exists (trunc y). apply to_s32_ok. apply Qabs_Qle_condition in Hy as [H1 H2]. unfold trunc.
  destruct (Qle_bool 0 y) eqn:E.
  - apply Qle_bool_iff in E. pose proof (Qfloor_le y) as Hf. pose proof (Qfloor_resp_le 0 y E) as Hp. change (Qfloor 0) with 0 in Hp.
    assert (inject_Z (Qfloor y) <= inject_Z b)%Q as Hz by lra. rewrite <- Zle_Qle in Hz. lia.
  - assert (0 <= - y)%Q as E' by (destruct (Qlt_le_dec y 0) as [|Hc]; [lra|apply Qle_bool_iff in Hc; congruence]).
    pose proof (Qfloor_le (- y)) as Hf. pose proof (Qfloor_resp_le 0 (- y) E') as Hp. change (Qfloor 0) with 0 in Hp.
    assert (inject_Z (Qfloor (- y)) <= inject_Z b)%Q as Hz by lra. rewrite <- Zle_Qle in Hz. lia.
Qed.

Lemma to_binary_total x max range : (Qabs x <= 4000)%Q -> 0 <= max <= 8388608 -> 90 <= range -> exists z, to_binary x max range = Done z.
Proof.
  intros Hx Hm Hr. apply (to_s32_total _ 1500000000); [|lia]. unfold ddiv. eapply Qle_trans; [apply rnd_twice|].
  unfold Qdiv. rewrite Qabs_Qmult. pose proof (rnd_twice (x * of_int max)) as H. rewrite Qabs_Qmult in H. fold (dmul x (of_int max)) in H.
  unfold of_int in *. assert (Qabs (inject_Z max) <= 8388608)%Q as Hmax.
  { rewrite Qabs_pos by (apply inject_nonneg; lia). change 8388608%Q with (inject_Z 8388608). rewrite <- Zle_Qle. lia. }
  assert (Qabs (/ inject_Z range) <= 1 # 90)%Q as Hran.
  { assert (90 <= inject_Z range)%Q as Hr' by (change 90%Q with (inject_Z 90); by rewrite <- Zle_Qle).
    rewrite Qabs_pos by (apply Qinv_le_0_compat; lra). apply Qle_shift_inv_r; lra. }
  pose proof (Qabs_nonneg x). pose proof (Qabs_nonneg (inject_Z max)). pose proof (Qabs_nonneg (/ inject_Z range)).
  pose proof (Qabs_nonneg (dmul x (inject_Z max))).
  assert (Qabs (dmul x (inject_Z max)) <= 67108864000)%Q as Hd by nra. change (inject_Z 1500000000) with 1500000000%Q. nra.
Qed.

Lemma to_digits_nibbles l : (10 <= length l)%nat -> nibbles (to_digits l).
Proof.
  intros Hl i Hi. unfold to_digits. rewrite znth_app_l by (rewrite length_map, length_take; lia).
  unfold znth. assert (In (nth (Z.to_nat i) (map (fun c => Z.land c 0xF) (take 10 l)) 0) (map (fun c => Z.land c 0xF) (take 10 l))) as Hin
    by (apply nth_In; rewrite length_map, length_take; lia).
  apply in_map_iff in Hin as (c & <- & _). unfold nibble. change 0xF with (Z.ones 4). rewrite Z.land_ones by lia. lia.
Qed.

Lemma near_bound r n y : (0 <= r <= 1 # 1000)%Q -> 0 <= n <= 1020000000 -> near r (inject_Z n * (1 # 600000)) y -> (Qabs y <= 1800)%Q.
Proof.
  intros Hr Hn [H1 H2]. assert (0 <= inject_Z n <= 1020000000)%Q as [Hn1 Hn2]
    by (split; [apply inject_nonneg; lia|change 1020000000%Q with (inject_Z 1020000000); rewrite <- Zle_Qle; lia]).
  assert (0 <= inject_Z n * r <= inject_Z n * (1 # 1000))%Q by nra. rewrite Qabs_pos; lra.
Qed.

Lemma signed_bound (b : bool) y : (Qabs y <= 1800)%Q -> (Qabs (if b then dmul y (of_int (-1)) else y) <= 4000)%Q.
Proof.
  intros H. destruct b; [|lra]. pose proof (rnd_twice (y * of_int (-1))) as H2. rewrite Qabs_Qmult in H2.
  change (Qabs (of_int (-1))) with 1%Q in H2. unfold dmul. lra.
Qed.

Lemma format_total s : sized (NmeaGpsData s) -> exists s', GpsFormatGpsData s = Done s' /\ sized (NmeaGpsData s').
Proof.
  intros Hs. unfold GpsFormatGpsData, GpsConvertPositionIntoBinary. set (s1 := GpsConvertPositionFromStringToNumerical s).
  assert (Qabs (Latitude s1) <= 4000)%Q as H1.
  { apply signed_bound. assert (nibbles (to_digits (NmeaGpsData s NmeaLatitude))) as Hn
      by (apply to_digits_nibbles; specialize (Hs NmeaLatitude); simpl in Hs; lia).
    apply (near_bound (5 * step) (latitude_units (to_digits (NmeaGpsData s NmeaLatitude)))); [by apply step_small| |by apply latitude_value_near].
    unfold latitude_units, nibbles, nibble in *. pose proof (Hn 0). pose proof (Hn 1). pose proof (Hn 2). pose proof (Hn 3).
    pose proof (Hn 5). pose proof (Hn 6). pose proof (Hn 7). pose proof (Hn 8). lia. }
  assert (Qabs (Longitude s1) <= 4000)%Q as H2.
  { apply signed_bound. assert (nibbles (to_digits (NmeaGpsData s NmeaLongitude))) as Hn
      by (apply to_digits_nibbles; specialize (Hs NmeaLongitude); simpl in Hs; lia).
    apply (near_bound (4 * step) (longitude_units (to_digits (NmeaGpsData s NmeaLongitude)))); [by apply step_small| |by apply longitude_value_near].
    unfold longitude_units, nibbles, nibble in *. pose proof (Hn 0). pose proof (Hn 1). pose proof (Hn 2). pose proof (Hn 3).
    pose proof (Hn 4). pose proof (Hn 6). pose proof (Hn 7). pose proof (Hn 8). pose proof (Hn 9). lia. }
  assert (sized (NmeaGpsData s1)) as H3.
  { apply store_sized; [apply store_sized; [done|]|]; rewrite to_digits_length; apply Hs. }
  clearbody s1. destruct (to_binary_total (Latitude s1) (if Qle_bool 0 (Latitude s1) then MaxNorthPosition else MaxSouthPosition) 90) as [a ->];
    [done|by destruct (Qle_bool _ _)|done|].
  destruct (to_binary_total (Longitude s1) (if Qle_bool 0 (Longitude s1) then MaxEastPosition else MaxWestPosition) 180) as [b ->];
    [done|by destruct (Qle_bool _ _)|done|]. cbn [rbind]. eexists. split; [reflexivity|exact H3].
Qed.

(** ** The checksum is computed *)

Lemma checksum_loop_total fuel buf size i acc : 0 <= i < size -> size <= zlen buf -> size - i <= Z.of_nat fuel ->
  checksum_loop fuel buf size i acc = Done None \/
  exists j a, checksum_loop fuel buf size i acc = Done (Some (j, a)) /\ 0 <= j < size.
Proof.
  revert i acc. induction fuel as [|fuel IH]; intros i acc Hi Hs Hf; [lia|]. cbn [checksum_loop].
  destruct (rd_ok buf i) as (c & -> & _); [lia|]. cbn [rbind]. destruct (c =? 42); [right; eauto|].
  destruct (Z.leb_spec size (i + 1)); [by left|]. apply IH; lia.
Qed.

Lemma validate_total buf size : size <= zlen buf -> exists b, GpsNmeaValidateChecksum buf size = Done b.
Proof.
  intros Hs. unfold GpsNmeaValidateChecksum, GpsNmeaChecksum. destruct (Z.leb_spec size 1) as [|H1]; [eauto|].
  destruct (rd_ok buf 0) as (c & -> & _); [lia|]. cbn [rbind].
  destruct (checksum_loop_total (Z.to_nat size) buf size (if c =? 36 then 1 else 0) 0) as [->|(j & a & -> & Hj)];
    [destruct (c =? 36); lia|lia|destruct (c =? 36); lia|cbn; eauto|]. cbn [rbind].
  destruct (Z.leb_spec (size - 2) (j + 1)); [eauto|].
  destruct (rd_ok buf (j + 1)) as (x & -> & _); [lia|]. destruct (rd_ok buf (j + 1 + 1)) as (y & -> & _); [lia|]. cbn [rbind]. eauto.
Qed.

(** The parser returns on every string of the line, or a field is one character too long. *)
Lemma parse_total buf size s : sized (NmeaGpsData s) -> zlen buf = 128 -> size <= 128 ->
  (exists st s', GpsParseGpsData buf size s = Done (st, s') /\ sized (NmeaGpsData s')) \/
  (GpsParseGpsData buf size s = Undef /\ exists f i, overlong buf f i).
Proof.
  intros Hd Hb Hsz. unfold GpsParseGpsData. destruct (rd_ok buf 0) as (c & -> & _); [lia|]. cbn [rbind].
  destruct (negb (c =? 36)); [left; eauto|]. destruct (validate_total buf size) as [v ->]; [lia|]. cbn [rbind].
  destruct (negb v); [left; eauto|].
  destruct (parse_field_total buf NmeaDataType 1 (NmeaGpsData s) Hd) as [->|[(i & d & -> & Hd' & Hi)|[-> Ho]]];
    [lia|simpl; lia|simpl; lia|..]; cbn [rbind]; [left; eauto| |right; eauto].
  assert (forall l s0, sized (NmeaGpsData s0) -> fold_right Z.add 0 (map array_size l) <= 67 ->
    (exists st s', parse_sentence buf l i s0 = Done (st, s') /\ sized (NmeaGpsData s')) \/
    (parse_sentence buf l i s0 = Undef /\ exists f i, overlong buf f i)) as Hp.
  { intros l s0 H0 Hl. simpl in Hi. unfold parse_sentence.
    destruct (parse_fields_total buf l i (NmeaGpsData s0)) as [(ok & i' & d' & -> & Hd1)|[-> Ho]]; [done|lia|lia|lia| |right; by split].
    cbn [rbind]. left. destruct ok; [|by eauto].
    destruct (format_total (s0 <| NmeaGpsData := d' |>)) as (s2 & -> & Hs2); [done|]. cbn [rbind]. eauto. }
  destruct (data_type_is NmeaDataTypeGPGGA d); [by apply Hp; [|simpl; lia]|].
  destruct (data_type_is NmeaDataTypeGPRMC d); [by apply Hp; [|simpl; lia]|]. left. eauto.
Qed.

(** * The receiver *)

Lemma same_line_ok s s' : line_ok s -> same_line s s' -> sized (NmeaGpsData s') -> line_ok s'.
Proof. intros [H1 H2 H3 H4 H5 H6] (E1 & E2 & E3) Hs. split; rewrite ?E1, ?E2, ?E3; done. Qed.

Lemma called_ok c s : line_ok s -> line_ok (call c s).
Proof. by intros []. Qed.


Lemma hex_char x : 0 <= x < 16 -> 48 <= Utilities.Nibble2HexChar x <= 70.
Proof. intros H. unfold Utilities.Nibble2HexChar, s8. destruct (Z.ltb_spec x 10), (Z.ltb_spec x 16); lia. Qed.

Lemma xor_sum_u8 l : bytes l -> is_u8 (xor_sum l).
Proof.
  unfold xor_sum. assert (is_u8 0) as H0 by (unfold is_u8; lia). revert H0. generalize 0. induction l as [|c l IH]; intros a Ha Hl; [done|].
  cbn [fold_left]. apply IH; [|by apply Forall_inv_tail in Hl]. apply lxor_u8; [done|by apply Forall_inv in Hl].
Qed.

(** C37: a sentence of one of the two understood types that arrives over the serial line character by character, with a valid
    checksum and fields that fit their arrays with the comma, is accepted: every field is stored, the fix is that of the sentence, the
    line is released, and for every latitude of up to 90 and longitude of up to 180 degrees, given to a
    ten-thousandth of a minute, the floating-point conversion yields the exact scaled coordinate, truncated. *)
Theorem position_received type fields texts tail s n m ns ew : line_ok s -> (type, fields) ∈ understood ->
  (forall f, f ∈ fields -> fits f (texts f)) ->
  let body := sentence_body type fields texts tail in
  bytes body -> ~ In 10 body -> ~ In 36 body -> ~ In 42 body -> zlen body <= 120 ->
  texts NmeaLatitude = latitude_text n -> texts NmeaLatitudePole = [ns] -> 0 <= n <= 54000000 ->
  texts NmeaLongitude = longitude_text m -> texts NmeaLongitudePole = [ew] -> 0 <= m <= 108000000 ->
  exists s', receive (sentence body [13; 10]) s = Done s' /\ line_ok s' /\
    LatitudeBinary s' = (if ns =? 83 then - (n * MaxSouthPosition / 54000000) else n * MaxNorthPosition / 54000000) /\
    LongitudeBinary s' = (if ew =? 87 then - (m * MaxWestPosition / 108000000) else m * MaxEastPosition / 108000000) /\
    GpsHasFix s' = (if bool_decide (type = NmeaDataTypeGPGGA) then 0x30 <? first_char (texts NmeaFixQuality)
                    else first_char (texts NmeaDataStatus) =? 0x41) /\
    (forall f, f ∈ fields -> f <> NmeaLatitude -> f <> NmeaLongitude -> NmeaGpsData s' f = overwrite (texts f) (NmeaGpsData s f)) /\
    calls s' = calls s ++ [UartDeInit; BlockLowPowerDuringTask false].
Proof.
  intros Hok Hu Hf body Hb H10 H36 H42 Hlen Elat Ens Hlat Elon Eew Hlon.
  set (text := body ++ 42 :: checksum_chars body ++ [13]).
  assert (sentence body [13; 10] = 36 :: text ++ [10]) as -> by (unfold sentence, text; by rewrite <- app_assoc).
  assert (zlen text = zlen body + 4) as Hlt by (unfold text; rewrite length_app; simpl; lia).
  pose proof (xor_sum_u8 body Hb) as Hx. unfold is_u8 in Hx.
  pose proof (hex_char (xor_sum body / 16) ltac:(lia)) as Hh1. pose proof (hex_char (xor_sum body mod 16) ltac:(lia)) as Hh2.
  assert (forall x, x = 10 \/ x = 36 -> ~ In x body -> ~ In x text) as Hnot.
  { intros x Hx' Hn Hin. unfold text, checksum_chars in Hin. rewrite in_app_iff in Hin. destruct Hin as [|Hin]; [done|].
    cbn [app In] in Hin. destruct Hin as [|[|[|[|[]]]]]; lia. }
  cbn [receive]. destruct (char_appended 36 s Hok) as (s1 & -> & Hok1 & [Hs1 Hstr1] & Hd1 & Hc1); [done|]. cbn [rbind].
  change (36 =? 36) with true in Hs1, Hstr1. cbn [orb] in Hs1, Hstr1. rewrite receive_app.
  destruct (text_received text s1 [36] Hok1) as (s2 & -> & Hok2 & Hs2 & Ht2 & Hd2 & Hc2);
    [by apply Hnot; [left|]|by apply Hnot; [right|]| |lia|].
  { rewrite Hs1, Hstr1. pose proof (line_string s Hok). by destruct (NmeaString s). }
  cbn [rbind receive]. assert (next_place s2 = NmeaStringSize s2) as Hnp by (unfold next_place; rewrite (proj2 (Z.leb_gt _ _)) by lia; done).
  destruct (line_end s2 Hok2) as (s3 & pad & Hok3 & Hd3 & Hc3 & Hs3 & _ & ->); [lia|]. rewrite Hnp, Ht2. cbn [app].
  assert (36 :: text ++ 10 :: pad = sentence body (13 :: 10 :: pad)) as -> by (unfold sentence, text; by rewrite <- !app_assoc, <- app_comm_cons, <- app_assoc).
  destruct (position_parsed type fields texts tail (13 :: 10 :: pad) (NmeaStringSize s3) s3 n m ns ew)
    as (s4 & E & B1 & B2 & Hfix & Hst & Hsz & Hc4); try done; [apply (line_sized s3 Hok3)|fold body; lia|].
  fold body in E. rewrite E. cbn [rbind]. eexists. split; [reflexivity|].
  split; [apply called_ok, called_ok; apply (same_line_ok s3); [done|by apply parse_frame in E|done]|].
  split; [done|]. split; [done|]. split; [exact Hfix|]. split.
  - intros f H1 H2 H3. change (NmeaGpsData s4 f = overwrite (texts f) (NmeaGpsData s f)). rewrite Hst by done. by rewrite Hd3, Hd2, Hd1.
  - change ((calls s4 ++ [UartDeInit]) ++ [BlockLowPowerDuringTask false] = calls s ++ [UartDeInit; BlockLowPowerDuringTask false]).
    rewrite Hc4, Hc3, Hc2, Hc1, <- app_assoc. done.
Qed.

(** * Examples *)

(** The receiver after [GpsInit]. *)
Definition demo_gps : gps :=
  GpsInit (replicate 128 0)
    (mkGps (fun f => replicate (Z.to_nat (array_size f)) 0) 0 0 0 0 (-1) 0 false PpsTriggerIsRising (replicate 128 0) 0
       (mkFifo 0 0 [] 0) []).

Lemma demo_line : line_ok demo_gps.
Proof.
  destruct (init_wf (replicate 128 0) FIFO_RX_SIZE) as [Hw He]; [by unfold FIFO_RX_SIZE|done|].
  split; [intros f; by destruct f|done|simpl; lia|exact Hw|done|exact He].
Qed.

(** 48 degrees 7.038 minutes north, 11 degrees 31 minutes east. *)
Definition demo_texts (f : nmea_field) : list Z :=
  match f with
  | NmeaUtcTime => [49; 50; 51; 53; 49; 57]
  | NmeaLatitude => latitude_text 28870380
  | NmeaLatitudePole => [78]
  | NmeaLongitude => longitude_text 6910000
  | NmeaLongitudePole => [69]
  | NmeaFixQuality => [49]
  | NmeaSatelliteTracked => [48; 56]
  | NmeaAltitude => [53; 52; 53; 46; 52]
  | NmeaAltitudeUnit | NmeaHeightGeoidUnit => [77]
  | _ => []
  end.

Lemma position_received_witness : exists s',
  receive (sentence (sentence_body NmeaDataTypeGPGGA gga_fields demo_texts [44]) [13; 10]) demo_gps = Done s' /\
  LatitudeBinary s' = 4484856 /\ LongitudeBinary s' = 536715 /\ GpsHasFix s' = true.
Proof.
  destruct (position_received NmeaDataTypeGPGGA gga_fields demo_texts [44] demo_gps 28870380 6910000 78 69)
    as (s' & E & _ & E1 & E2 & E3 & _).
  - exact demo_line.
  - by apply (bool_decide_unpack _).
  - intros f _. split; [destruct f; vm_compute; intuition discriminate|by destruct f].
  - apply bytesb_true. reflexivity.
  - vm_compute. intuition discriminate.
  - vm_compute. intuition discriminate.
  - vm_compute. intuition discriminate.
  - vm_compute. discriminate.
  - reflexivity.
  - reflexivity.
  - lia.
  - reflexivity.
  - reflexivity.
  - lia.
  - exists s'. split; [exact E|]. split; [exact E1|]. split; [exact E2|exact E3].
Defined.


(** A latitude with ten characters is accepted by the length check and its comma is written past the array. *)
Theorem field_overflows :
  let texts f := match f with NmeaLatitude => [52; 56; 48; 55; 46; 48; 51; 56; 48; 48] | _ => [] end in
  receive (sentence (sentence_body NmeaDataTypeGPGGA gga_fields texts []) [13; 10]) demo_gps = Undef.
Proof. vm_compute. reflexivity. Qed.

(** A line of 127 characters before its end: the terminating zero is written past the string. *)
Theorem line_overflows : receive (replicate 127 65 ++ [10]) demo_gps = Undef.
Proof. vm_compute. reflexivity. Qed.
End Gps.
