(* ===== verification/Registers.v ===== *)
(** Registers and bit fields of the SX1272 that the driver names
    (src/src/radio/sx1272/sx1272Regs-Fsk.h and sx1272Regs-LoRa.h). *)
From S2P Require Import Prelude.
#[global] Open Scope Z_scope.

Module Registers.


(** Addresses of sx1272Regs-Fsk.h *)
Definition REG_OPMODE : Z := 0x01.
Definition REG_BITRATEMSB : Z := 0x02.
Definition REG_BITRATELSB : Z := 0x03.
Definition REG_FDEVMSB : Z := 0x04.
Definition REG_FDEVLSB : Z := 0x05.
Definition REG_FRFMSB : Z := 0x06.
Definition REG_FRFMID : Z := 0x07.
Definition REG_FRFLSB : Z := 0x08.
Definition REG_PACONFIG : Z := 0x09.
Definition REG_LNA : Z := 0x0C.
Definition REG_RXCONFIG : Z := 0x0D.
Definition REG_RSSICONFIG : Z := 0x0E.
Definition REG_RSSIVALUE : Z := 0x11.
Definition REG_RXBW : Z := 0x12.
Definition REG_AFCBW : Z := 0x13.
Definition REG_AFCFEI : Z := 0x1A.
Definition REG_AFCMSB : Z := 0x1B.
Definition REG_AFCLSB : Z := 0x1C.
Definition REG_PREAMBLEDETECT : Z := 0x1F.
Definition REG_OSC : Z := 0x24.
Definition REG_PREAMBLEMSB : Z := 0x25.
Definition REG_PREAMBLELSB : Z := 0x26.
Definition REG_SYNCCONFIG : Z := 0x27.
Definition REG_SYNCVALUE1 : Z := 0x28.
Definition REG_SYNCVALUE2 : Z := 0x29.
Definition REG_SYNCVALUE3 : Z := 0x2A.
Definition REG_PACKETCONFIG1 : Z := 0x30.
Definition REG_PAYLOADLENGTH : Z := 0x32.
Definition REG_FIFOTHRESH : Z := 0x35.
Definition REG_IMAGECAL : Z := 0x3B.
Definition REG_IRQFLAGS1 : Z := 0x3E.
Definition REG_IRQFLAGS2 : Z := 0x3F.
Definition REG_DIOMAPPING1 : Z := 0x40.
Definition REG_DIOMAPPING2 : Z := 0x41.
Definition REG_PADAC : Z := 0x5A.

(** Bit fields of sx1272Regs-Fsk.h *)
Definition RF_OPMODE_MASK : Z := 0xF8.
Definition RF_OPMODE_SLEEP : Z := 0x00.
Definition RF_OPMODE_STANDBY : Z := 0x01.
Definition RF_OPMODE_TRANSMITTER : Z := 0x03.
Definition RF_OPMODE_RECEIVER : Z := 0x05.
Definition RF_PACONFIG_PASELECT_MASK : Z := 0x7F.
Definition RF_PACONFIG_PASELECT_PABOOST : Z := 0x80.
Definition RF_RXCONFIG_RESTARTRXWITHOUTPLLLOCK : Z := 0x40.
Definition RF_RXCONFIG_AFCAUTO_ON : Z := 0x10.
Definition RF_RXCONFIG_AGCAUTO_ON : Z := 0x08.
Definition RF_RXCONFIG_RXTRIGER_PREAMBLEDETECT : Z := 0x06.
Definition RF_SYNCCONFIG_SYNCSIZE_MASK : Z := 0xF8.
Definition RF_PACKETCONFIG1_PACKETFORMAT_MASK : Z := 0x7F.
Definition RF_PACKETCONFIG1_PACKETFORMAT_FIXED : Z := 0x00.
Definition RF_PACKETCONFIG1_PACKETFORMAT_VARIABLE : Z := 0x80.
Definition RF_PACKETCONFIG1_CRC_MASK : Z := 0xEF.
Definition RF_PACKETCONFIG1_ADDRSFILTERING_MASK : Z := 0xF9.
Definition RF_IRQFLAGS1_RSSI : Z := 0x08.
Definition RF_IRQFLAGS1_PREAMBLEDETECT : Z := 0x02.
Definition RF_IRQFLAGS1_SYNCADDRESSMATCH : Z := 0x01.
Definition RF_IRQFLAGS2_FIFOOVERRUN : Z := 0x10.
Definition RF_IRQFLAGS2_CRCOK : Z := 0x02.
Definition RF_DIOMAPPING1_DIO0_MASK : Z := 0x3F.
Definition RF_DIOMAPPING1_DIO0_00 : Z := 0x00.
Definition RF_DIOMAPPING1_DIO1_MASK : Z := 0xCF.
Definition RF_DIOMAPPING1_DIO1_00 : Z := 0x00.
Definition RF_DIOMAPPING1_DIO1_01 : Z := 0x10.
Definition RF_DIOMAPPING1_DIO2_MASK : Z := 0xF3.
Definition RF_DIOMAPPING1_DIO2_11 : Z := 0x0C.
Definition RF_DIOMAPPING2_DIO4_MASK : Z := 0x3F.
Definition RF_DIOMAPPING2_DIO4_11 : Z := 0xC0.
Definition RF_DIOMAPPING2_MAP_MASK : Z := 0xFE.
Definition RF_DIOMAPPING2_MAP_PREAMBLEDETECT : Z := 0x01.
Definition RF_PADAC_20DBM_MASK : Z := 0xF8.
Definition RF_PADAC_20DBM_ON : Z := 0x07.
Definition RF_PADAC_20DBM_OFF : Z := 0x04.

(** Addresses of sx1272Regs-LoRa.h *)
Definition REG_LR_FIFOADDRPTR : Z := 0x0D.
Definition REG_LR_FIFOTXBASEADDR : Z := 0x0E.
Definition REG_LR_FIFORXBASEADDR : Z := 0x0F.
Definition REG_LR_IRQFLAGSMASK : Z := 0x11.
Definition REG_LR_IRQFLAGS : Z := 0x12.
Definition REG_LR_RXNBBYTES : Z := 0x13.
Definition REG_LR_PKTSNRVALUE : Z := 0x19.
Definition REG_LR_PKTRSSIVALUE : Z := 0x1A.
Definition REG_LR_RSSIVALUE : Z := 0x1B.
Definition REG_LR_HOPCHANNEL : Z := 0x1C.
Definition REG_LR_MODEMCONFIG1 : Z := 0x1D.
Definition REG_LR_MODEMCONFIG2 : Z := 0x1E.
Definition REG_LR_SYMBTIMEOUTLSB : Z := 0x1F.
Definition REG_LR_PREAMBLEMSB : Z := 0x20.
Definition REG_LR_PREAMBLELSB : Z := 0x21.
Definition REG_LR_PAYLOADLENGTH : Z := 0x22.
Definition REG_LR_PAYLOADMAXLENGTH : Z := 0x23.
Definition REG_LR_HOPPERIOD : Z := 0x24.
Definition REG_LR_RSSIWIDEBAND : Z := 0x2C.
Definition REG_LR_DETECTOPTIMIZE : Z := 0x31.
Definition REG_LR_INVERTIQ : Z := 0x33.
Definition REG_LR_DETECTIONTHRESHOLD : Z := 0x37.
Definition REG_LR_INVERTIQ2 : Z := 0x3B.
Definition REG_LR_PLLHOP : Z := 0x4B.

(** Bit fields of sx1272Regs-LoRa.h *)
Definition RFLR_OPMODE_LONGRANGEMODE_MASK : Z := 0x7F.
Definition RFLR_OPMODE_LONGRANGEMODE_OFF : Z := 0x00.
Definition RFLR_OPMODE_LONGRANGEMODE_ON : Z := 0x80.
Definition RFLR_OPMODE_RECEIVER : Z := 0x05.
Definition RFLR_OPMODE_RECEIVER_SINGLE : Z := 0x06.
Definition RFLR_OPMODE_CAD : Z := 0x07.
Definition RFLR_PACONFIG_OUTPUTPOWER_MASK : Z := 0xF0.
Definition RFLR_IRQFLAGS_PAYLOADCRCERROR_MASK : Z := 0x20.
Definition RFLR_IRQFLAGS_RXTIMEOUT : Z := 0x80.
Definition RFLR_IRQFLAGS_RXDONE : Z := 0x40.
Definition RFLR_IRQFLAGS_PAYLOADCRCERROR : Z := 0x20.
Definition RFLR_IRQFLAGS_VALIDHEADER : Z := 0x10.
Definition RFLR_IRQFLAGS_TXDONE : Z := 0x08.
Definition RFLR_IRQFLAGS_CADDONE : Z := 0x04.
Definition RFLR_IRQFLAGS_FHSSCHANGEDCHANNEL : Z := 0x02.
Definition RFLR_IRQFLAGS_CADDETECTED : Z := 0x01.
Definition RFLR_HOPCHANNEL_CHANNEL_MASK : Z := 0x3F.
Definition RFLR_MODEMCONFIG1_BW_MASK : Z := 0x3F.
Definition RFLR_MODEMCONFIG1_CODINGRATE_MASK : Z := 0xC7.
Definition RFLR_MODEMCONFIG1_IMPLICITHEADER_MASK : Z := 0xFB.
Definition RFLR_MODEMCONFIG1_RXPAYLOADCRC_MASK : Z := 0xFD.
Definition RFLR_MODEMCONFIG1_LOWDATARATEOPTIMIZE_MASK : Z := 0xFE.
Definition RFLR_MODEMCONFIG2_SF_MASK : Z := 0x0F.
Definition RFLR_MODEMCONFIG2_SYMBTIMEOUTMSB_MASK : Z := 0xFC.
Definition RFLR_DETECTIONOPTIMIZE_MASK : Z := 0xF8.
Definition RFLR_DETECTIONOPTIMIZE_SF7_TO_SF12 : Z := 0x03.
Definition RFLR_DETECTIONOPTIMIZE_SF6 : Z := 0x05.
Definition RFLR_INVERTIQ_RX_MASK : Z := 0xBF.
Definition RFLR_INVERTIQ_RX_OFF : Z := 0x00.
Definition RFLR_INVERTIQ_RX_ON : Z := 0x40.
Definition RFLR_INVERTIQ_TX_MASK : Z := 0xFE.
Definition RFLR_INVERTIQ_TX_OFF : Z := 0x01.
Definition RFLR_INVERTIQ_TX_ON : Z := 0x00.
Definition RFLR_DETECTIONTHRESH_SF7_TO_SF12 : Z := 0x0A.
Definition RFLR_DETECTIONTHRESH_SF6 : Z := 0x0C.
Definition RFLR_INVERTIQ2_ON : Z := 0x19.
Definition RFLR_INVERTIQ2_OFF : Z := 0x1D.
Definition RFLR_DIOMAPPING1_DIO0_MASK : Z := 0x3F.
Definition RFLR_DIOMAPPING1_DIO0_00 : Z := 0x00.
Definition RFLR_DIOMAPPING1_DIO0_01 : Z := 0x40.
Definition RFLR_DIOMAPPING1_DIO2_MASK : Z := 0xF3.
Definition RFLR_DIOMAPPING1_DIO2_00 : Z := 0x00.
Definition RFLR_PLLHOP_FASTHOP_MASK : Z := 0x7F.
Definition RFLR_PLLHOP_FASTHOP_ON : Z := 0x80.

End Registers.
