(* ===== verification/Sx1272.v ===== *)
(** The driver of the SX1272 radio (src/src/radio/sx1272/sx1272.c with the
    board functions of src/src/boards/SK-iM880A/sx1272-board.c): access to the
    registers over SPI, configuration, transmission, reception, interrupts.

    The chip is not part of the program: it is the class [SpiDevice], what the
    driver relies on of it the class [RegisterFile].  The software timers are
    seen as running or stopped with a value; the callbacks of the upper layer are
    the class [RadioClient]. *)
From S2P Require Import Prelude Double MacTypes Registers.
From Stdlib Require Import QArith.
#[global] Open Scope Z_scope.
Import Double Registers.
Abbreviation MODEM_FSK := MacTypes.MODEM_FSK.
Abbreviation MODEM_LORA := MacTypes.MODEM_LORA.
Abbreviation RadioModems_t := MacTypes.RadioModems_t.

(** A device behind the SPI bus: the chip select line, the exchange of one byte,
    and what time does to it. *)
Class SpiDevice := {
  device : Type;
  nss : bool -> device -> device;
  exchange : Z -> device -> Z * device;
  elapse : Z -> device -> device;
}.

Module Sx1272.
#[local] Open Scope st_scope.

(** * Data *)

Inductive RadioState_t := RF_IDLE | RF_RX_RUNNING | RF_TX_RUNNING | RF_CAD.
#[export] Instance state_eq_dec : EqDecision RadioState_t.
Proof. solve_decision. Defined.

Definition modem_eqb (a b : RadioModems_t) : bool :=
  match a, b with
  | MacTypes.MODEM_FSK, MacTypes.MODEM_FSK | MacTypes.MODEM_LORA, MacTypes.MODEM_LORA => true
  | _, _ => false
  end.

(** Settings are prefixed with their structure, as C accesses them. *)
Record RadioFskSettings_t := mkFsk {
  Fsk_Power : Z;
  Fsk_Fdev : Z;
  Fsk_Bandwidth : Z;
  Fsk_BandwidthAfc : Z;
  Fsk_Datarate : Z;
  Fsk_PreambleLen : Z;
  Fsk_FixLen : bool;
  Fsk_PayloadLen : Z;
  Fsk_CrcOn : bool;
  Fsk_IqInverted : bool;
  Fsk_RxContinuous : bool;
  Fsk_TxTimeout : Z;
}.
#[export] Instance eta_fsk : Eta RadioFskSettings_t :=
  fun r => mkFsk (Fsk_Power r) (Fsk_Fdev r) (Fsk_Bandwidth r) (Fsk_BandwidthAfc r) (Fsk_Datarate r)
    (Fsk_PreambleLen r) (Fsk_FixLen r) (Fsk_PayloadLen r) (Fsk_CrcOn r) (Fsk_IqInverted r)
    (Fsk_RxContinuous r) (Fsk_TxTimeout r).

Record RadioFskPacketHandler_t := mkFskPkt {
  PreambleDetected : bool;
  SyncWordDetected : bool;
  Fsk_RssiValue : Z;
  AfcValue : Z;
  RxGain : Z;
  Fsk_Size : Z;
  NbBytes : Z;
  FifoThresh : Z;
  ChunkSize : Z;
}.
#[export] Instance eta_fskpkt : Eta RadioFskPacketHandler_t :=
  fun r => mkFskPkt (PreambleDetected r) (SyncWordDetected r) (Fsk_RssiValue r) (AfcValue r) (RxGain r)
    (Fsk_Size r) (NbBytes r) (FifoThresh r) (ChunkSize r).

Record RadioLoRaSettings_t := mkLoRa {
  LoRa_Power : Z;
  LoRa_Bandwidth : Z;
  LoRa_Datarate : Z;
  LowDatarateOptimize : bool;
  LoRa_Coderate : Z;
  LoRa_PreambleLen : Z;
  LoRa_FixLen : bool;
  LoRa_PayloadLen : Z;
  LoRa_CrcOn : bool;
  FreqHopOn : bool;
  HopPeriod : Z;
  LoRa_IqInverted : bool;
  LoRa_RxContinuous : bool;
  LoRa_TxTimeout : Z;
}.
#[export] Instance eta_lora : Eta RadioLoRaSettings_t :=
  fun r => mkLoRa (LoRa_Power r) (LoRa_Bandwidth r) (LoRa_Datarate r) (LowDatarateOptimize r) (LoRa_Coderate r)
    (LoRa_PreambleLen r) (LoRa_FixLen r) (LoRa_PayloadLen r) (LoRa_CrcOn r) (FreqHopOn r) (HopPeriod r)
    (LoRa_IqInverted r) (LoRa_RxContinuous r) (LoRa_TxTimeout r).

Record RadioLoRaPacketHandler_t := mkLoRaPkt {
  SnrValue : Z;
  LoRa_RssiValue : Z;
  LoRa_Size : Z;
}.
#[export] Instance eta_lorapkt : Eta RadioLoRaPacketHandler_t :=
  fun r => mkLoRaPkt (SnrValue r) (LoRa_RssiValue r) (LoRa_Size r).

(** The callbacks of [RadioEvents_t], with the arguments they are called with. *)
Inductive radio_event :=
| TxDone
| TxTimeout
| RxDone (payload : list Z) (size rssi snr : Z)
| RxTimeout
| RxError
| FhssChangeChannel (currentChannel : Z)
| CadDone (channelActivityDetected : bool).

(** [RadioEvents_t] as far as the driver sees it: which pointers are not NULL. *)
Record RadioEvents_t := mkEvents {
  has_TxDone : bool;
  has_TxTimeout : bool;
  has_RxDone : bool;
  has_RxTimeout : bool;
  has_RxError : bool;
  has_FhssChangeChannel : bool;
  has_CadDone : bool;
}.

Definition has_callback (e : radio_event) (r : RadioEvents_t) : bool :=
  match e with
  | TxDone => has_TxDone r
  | TxTimeout => has_TxTimeout r
  | RxDone _ _ _ _ => has_RxDone r
  | RxTimeout => has_RxTimeout r
  | RxError => has_RxError r
  | FhssChangeChannel _ => has_FhssChangeChannel r
  | CadDone _ => has_CadDone r
  end.

(** A software timer as the driver uses it. *)
Record timer_view := mkTimerView { running : bool; value : Z }.

(** A GPIO pin: high impedance, or an output with its level. *)
Inductive pin := Analogic | Output (level : Z).

(** The statics of the driver and its board file, and the device. *)
Record radio {SPI : SpiDevice} := mkRadio {
  dev : device;
  State : RadioState_t;
  Modem : RadioModems_t;
  Channel : Z;
  Fsk : RadioFskSettings_t;
  FskPacketHandler : RadioFskPacketHandler_t;
  LoRa : RadioLoRaSettings_t;
  LoRaPacketHandler : RadioLoRaPacketHandler_t;
  RadioEvents : option RadioEvents_t;
  RxTxBuffer : list Z;
  RadioIsActive : bool;
  AntRx : pin;
  AntTx : pin;
  TxTimeoutTimer : timer_view;
  RxTimeoutTimer : timer_view;
  RxTimeoutSyncWord : timer_view;
}.
Arguments radio SPI : clear implicits.
#[export] Instance eta_radio {SPI : SpiDevice} : Eta (radio SPI) :=
  fun s => mkRadio SPI (dev s) (State s) (Modem s) (Channel s) (Fsk s) (FskPacketHandler s) (LoRa s)
    (LoRaPacketHandler s) (RadioEvents s) (RxTxBuffer s) (RadioIsActive s) (AntRx s) (AntTx s)
    (TxTimeoutTimer s) (RxTimeoutTimer s) (RxTimeoutSyncWord s).

(** What the upper layer does in a callback; it may call the driver. *)
Class RadioClient (SPI : SpiDevice) := on_event : radio_event -> radio SPI -> run (radio SPI).

(** * Constants *)

Definition XTAL_FREQ : Z := 32000000.
Definition FREQ_STEP : Q := (15625 # 256)%Q.
Definition RX_BUFFER_SIZE : Z := 256.
Definition RSSI_OFFSET : Z := -139.

(** [FskBandwidths]: bandwidth and register value *)
Definition FskBandwidths : list (Z * Z) :=
  [(2600, 0x17); (3100, 0x0F); (3900, 0x07); (5200, 0x16); (6300, 0x0E); (7800, 0x06); (10400, 0x15);
   (12500, 0x0D); (15600, 0x05); (20800, 0x14); (25000, 0x0C); (31300, 0x04); (41700, 0x13); (50000, 0x0B);
   (62500, 0x03); (83333, 0x12); (100000, 0x0A); (125000, 0x02); (166700, 0x11); (200000, 0x09);
   (250000, 0x01); (300000, 0x00)].

(** [RADIO_INIT_REGISTERS_VALUE] *)
Definition RadioRegsInit : list (RadioModems_t * Z * Z) :=
  [(MODEM_FSK, REG_LNA, 0x23); (MODEM_FSK, REG_RXCONFIG, 0x1E); (MODEM_FSK, REG_RSSICONFIG, 0xD2);
   (MODEM_FSK, REG_AFCFEI, 0x01); (MODEM_FSK, REG_PREAMBLEDETECT, 0xAA); (MODEM_FSK, REG_OSC, 0x07);
   (MODEM_FSK, REG_SYNCCONFIG, 0x12); (MODEM_FSK, REG_SYNCVALUE1, 0xC1); (MODEM_FSK, REG_SYNCVALUE2, 0x94);
   (MODEM_FSK, REG_SYNCVALUE3, 0xC1); (MODEM_FSK, REG_PACKETCONFIG1, 0xD8); (MODEM_FSK, REG_FIFOTHRESH, 0x8F);
   (MODEM_FSK, REG_IMAGECAL, 0x02); (MODEM_FSK, REG_DIOMAPPING1, 0x00); (MODEM_FSK, REG_DIOMAPPING2, 0x30);
   (MODEM_LORA, REG_LR_DETECTOPTIMIZE, 0x43); (MODEM_LORA, REG_LR_PAYLOADMAXLENGTH, 0x40)].

Section Driver.
Context {SPI : SpiDevice}.
Abbreviation R := (ST (radio SPI)).

(** * The bus *)

Definition GpioWriteNss (level : bool) : R unit := smod (fun s => s <| dev := nss level (dev s) |>).

Definition SpiInOut (outData : Z) : R Z := fun s =>
  let '(x, d) := exchange (Z.land outData 0xFF) (dev s) in Done (u8 x, s <| dev := d |>).

Definition DelayMs (ms : Z) : R unit := smod (fun s => s <| dev := elapse ms (dev s) |>).

Fixpoint send_bytes (l : list Z) : R unit :=
  match l with
  | [] => sret tt
  | b :: l' => SpiInOut b ;;; send_bytes l'
  end.

Fixpoint receive_bytes (n : nat) : R (list Z) :=
  match n with
  | O => sret []
  | S n' => b <- SpiInOut 0 ;; l <- receive_bytes n' ;; sret (b :: l)
  end.

Definition SX1272WriteBuffer (addr : Z) (buffer : list Z) (size : Z) : R unit :=
  data <- slift (rdn buffer 0 size) ;;
  GpioWriteNss false ;;;
  SpiInOut (Z.lor addr 0x80) ;;;
  send_bytes data ;;;
  GpioWriteNss true.

(** The bytes read; the caller stores them in the buffer it passes. *)
Definition SX1272ReadBuffer (addr size : Z) : R (list Z) :=
  GpioWriteNss false ;;;
  SpiInOut (Z.land addr 0x7F) ;;;
  l <- receive_bytes (Z.to_nat size) ;;
  GpioWriteNss true ;;;
  sret l.

Definition SX1272Write (addr data : Z) : R unit := SX1272WriteBuffer addr [u8 data] 1.

Definition SX1272Read (addr : Z) : R Z :=
  l <- SX1272ReadBuffer addr 1 ;; slift (rd l 0).

Definition SX1272WriteFifo (buffer : list Z) (size : Z) : R unit := SX1272WriteBuffer 0 buffer size.

(** [SX1272ReadFifo( RxTxBuffer + offset, size )] *)
Definition SX1272ReadFifo (offset size : Z) : R unit :=
  l <- SX1272ReadBuffer 0 size ;;
  s <- sget ;;
  b <- slift (wrn (RxTxBuffer s) offset l) ;;
  smod (fun s => s <| RxTxBuffer := b |>).

(** A register with some bits kept and others set. *)
Definition read_modify (addr keep set : Z) : R unit :=
  v <- SX1272Read addr ;; SX1272Write addr (Z.lor (Z.land v keep) set).

(** * Timers and callbacks *)

Definition TimerStopTx : R unit := smod (fun s => s <| TxTimeoutTimer ::= fun t => mkTimerView false (value t) |>).
Definition TimerStopRx : R unit := smod (fun s => s <| RxTimeoutTimer ::= fun t => mkTimerView false (value t) |>).
Definition TimerStopSync : R unit := smod (fun s => s <| RxTimeoutSyncWord ::= fun t => mkTimerView false (value t) |>).
Definition TimerStartTx : R unit := smod (fun s => s <| TxTimeoutTimer ::= fun t => mkTimerView true (value t) |>).
Definition TimerStartRx : R unit := smod (fun s => s <| RxTimeoutTimer ::= fun t => mkTimerView true (value t) |>).
Definition TimerStartSync : R unit := smod (fun s => s <| RxTimeoutSyncWord ::= fun t => mkTimerView true (value t) |>).
Definition TimerSetTx (v : Z) : R unit := smod (fun s => s <| TxTimeoutTimer := mkTimerView false v |>).
Definition TimerSetRx (v : Z) : R unit := smod (fun s => s <| RxTimeoutTimer := mkTimerView false v |>).
Definition TimerSetSync (v : Z) : R unit := smod (fun s => s <| RxTimeoutSyncWord := mkTimerView false v |>).

(** [if( ( RadioEvents != NULL ) && ( RadioEvents->f != NULL ) ) RadioEvents->f( ... )] *)
Definition notify {RC : RadioClient SPI} (e : radio_event) : R unit := fun s =>
  match RadioEvents s with
  | Some r => if has_callback e r then let* s' := on_event e s in Done (tt, s') else Done (tt, s)
  | None => Done (tt, s)
  end.

(** * The antenna switch (sx1272-board.c) *)

Definition SX1272AntSwInit : R unit := smod (fun s => s <| AntTx := Output 0 |> <| AntRx := Output 1 |>).
Definition SX1272AntSwDeInit : R unit := smod (fun s => s <| AntTx := Analogic |> <| AntRx := Analogic |>).

Definition SX1272SetAntSwLowPower (status : bool) : R unit := fun s =>
  if Bool.eqb (RadioIsActive s) status then Done (tt, s)
  else (smod (fun s => s <| RadioIsActive := status |>) ;;;
        if status then SX1272AntSwDeInit else SX1272AntSwInit) s.

Definition GpioWrite (v : Z) (p : pin) : pin := match p with Analogic => Analogic | Output _ => Output v end.

Definition SX1272SetAntSw (rxTx : Z) : R unit :=
  if rxTx =? 0 then smod (fun s => s <| AntRx ::= GpioWrite 1 |> <| AntTx ::= GpioWrite 0 |>)
  else smod (fun s => s <| AntRx ::= GpioWrite 0 |> <| AntTx ::= GpioWrite 1 |>).

Definition SX1272GetPaSelect (channel : Z) : Z := RF_PACONFIG_PASELECT_PABOOST.
Definition SX1272CheckRfFrequency (frequency : Z) : bool := true.

(** * Modes *)

Definition SX1272SetOpMode (opMode : Z) : R unit :=
  (if opMode =? RF_OPMODE_SLEEP then SX1272SetAntSwLowPower true
   else SX1272SetAntSwLowPower false ;;;
        (if opMode =? RF_OPMODE_TRANSMITTER then SX1272SetAntSw 1 else SX1272SetAntSw 0)) ;;;
  read_modify REG_OPMODE RF_OPMODE_MASK opMode.

Definition SX1272SetModem (modem : RadioModems_t) : R unit := fun s =>
  if modem_eqb (Modem s) modem then Done (tt, s)
  else (smod (fun s => s <| Modem := modem |>) ;;;
        match modem with
        | MacTypes.MODEM_FSK =>
            SX1272SetOpMode RF_OPMODE_SLEEP ;;;
            read_modify REG_OPMODE RFLR_OPMODE_LONGRANGEMODE_MASK RFLR_OPMODE_LONGRANGEMODE_OFF ;;;
            SX1272Write REG_DIOMAPPING1 0x00 ;;;
            SX1272Write REG_DIOMAPPING2 0x30
        | MacTypes.MODEM_LORA =>
            SX1272SetOpMode RF_OPMODE_SLEEP ;;;
            read_modify REG_OPMODE RFLR_OPMODE_LONGRANGEMODE_MASK RFLR_OPMODE_LONGRANGEMODE_ON ;;;
            SX1272Write REG_DIOMAPPING1 0x00 ;;;
            SX1272Write REG_DIOMAPPING2 0x00
        end) s.

Definition SX1272SetSleep : R unit :=
  TimerStopRx ;;; TimerStopTx ;;;
  SX1272SetOpMode RF_OPMODE_SLEEP ;;;
  smod (fun s => s <| State := RF_IDLE |>).

Definition SX1272SetStby : R unit :=
  TimerStopRx ;;; TimerStopTx ;;;
  SX1272SetOpMode RF_OPMODE_STANDBY ;;;
  smod (fun s => s <| State := RF_IDLE |>).

(** Pulls the reset pin for 1 ms and waits 6 ms; the effect on the chip is its own. *)
Definition SX1272Reset : R unit := DelayMs 1 ;;; DelayMs 6.

Fixpoint write_registers (l : list (RadioModems_t * Z * Z)) : R unit :=
  match l with
  | [] => sret tt
  | (m, a, v) :: l' => SX1272SetModem m ;;; SX1272Write a v ;;; write_registers l'
  end.

Definition SX1272Init (events : option RadioEvents_t) : R unit :=
  smod (fun s => s <| RadioEvents := events |>
    <| TxTimeoutTimer := mkTimerView false 0 |> <| RxTimeoutTimer := mkTimerView false 0 |>
    <| RxTimeoutSyncWord := mkTimerView false 0 |>) ;;;
  SX1272Reset ;;;
  SX1272SetOpMode RF_OPMODE_SLEEP ;;;
  write_registers RadioRegsInit ;;;
  SX1272SetModem MODEM_FSK ;;;
  smod (fun s => s <| State := RF_IDLE |>).

Definition SX1272GetStatus (s : radio SPI) : RadioState_t := State s.

Definition SX1272SetChannel (freq : Z) : R unit :=
  smod (fun s => s <| Channel := freq |>) ;;;
  f <- slift (to_u32 (ddiv (of_int freq) FREQ_STEP)) ;;
  SX1272Write REG_FRFMSB (Z.land (Z.shiftr f 16) 0xFF) ;;;
  SX1272Write REG_FRFMID (Z.land (Z.shiftr f 8) 0xFF) ;;;
  SX1272Write REG_FRFLSB (Z.land f 0xFF).

Definition SX1272ReadRssi (modem : RadioModems_t) : R Z :=
  match modem with
  | MacTypes.MODEM_FSK => v <- SX1272Read REG_RSSIVALUE ;; sret (- Z.shiftr v 1)
  | MacTypes.MODEM_LORA => v <- SX1272Read REG_LR_RSSIVALUE ;; sret (RSSI_OFFSET + v)
  end.

Definition SX1272IsChannelFree (modem : RadioModems_t) (freq rssiThresh : Z) : R bool :=
  SX1272SetModem modem ;;;
  SX1272SetChannel freq ;;;
  SX1272SetOpMode RF_OPMODE_RECEIVER ;;;
  DelayMs 1 ;;;
  rssi <- SX1272ReadRssi modem ;;
  SX1272SetSleep ;;;
  sret (negb (rssiThresh <? rssi)).

(** [n] rounds from bit [i] on *)
Fixpoint random_bits (n : nat) (i rnd : Z) : R Z :=
  match n with
  | O => sret rnd
  | S n' =>
      DelayMs 1 ;;;
      v <- SX1272Read REG_LR_RSSIWIDEBAND ;;
      random_bits n' (i + 1) (Z.lor rnd (u32 (Z.shiftl (Z.land v 0x01) i)))
  end.

Definition all_irqs : Z :=
  Z.lor RFLR_IRQFLAGS_RXTIMEOUT (Z.lor RFLR_IRQFLAGS_RXDONE (Z.lor RFLR_IRQFLAGS_PAYLOADCRCERROR
    (Z.lor RFLR_IRQFLAGS_VALIDHEADER (Z.lor RFLR_IRQFLAGS_TXDONE (Z.lor RFLR_IRQFLAGS_CADDONE
    (Z.lor RFLR_IRQFLAGS_FHSSCHANGEDCHANNEL RFLR_IRQFLAGS_CADDETECTED)))))).

Definition SX1272Random : R Z :=
  SX1272SetModem MODEM_LORA ;;;
  SX1272Write REG_LR_IRQFLAGSMASK all_irqs ;;;
  SX1272SetOpMode RF_OPMODE_RECEIVER ;;;
  rnd <- random_bits 32 0 0 ;;
  SX1272SetSleep ;;;
  sret rnd.

(** * Configuration *)

(** The search of [GetFskBandwidthRegValue]; without a match the code loops for ever. *)
Fixpoint fsk_bandwidth (l : list (Z * Z)) (bandwidth : Z) : run Z :=
  match l with
  | (lo, v) :: (((hi, _) :: _) as l') =>
      if (lo <=? bandwidth) && (bandwidth <? hi) then Done v else fsk_bandwidth l' bandwidth
  | _ => NoFuel
  end.
Definition GetFskBandwidthRegValue (bandwidth : Z) : run Z := fsk_bandwidth FskBandwidths bandwidth.

(** [( uint16_t )( ( double )XTAL_FREQ / ( double )datarate )] *)
Definition fsk_bitrate (datarate : Z) : run Z :=
  if datarate =? 0 then Undef else to_u16 (ddiv (of_int XTAL_FREQ) (of_int datarate)).

Definition fsk_packet_config (fixLen crcOn : bool) : R unit :=
  read_modify REG_PACKETCONFIG1 (Z.land RF_PACKETCONFIG1_CRC_MASK RF_PACKETCONFIG1_PACKETFORMAT_MASK)
    (Z.lor (if fixLen then RF_PACKETCONFIG1_PACKETFORMAT_FIXED else RF_PACKETCONFIG1_PACKETFORMAT_VARIABLE)
           (Z.shiftl (b2z crcOn) 4)).

Definition clamp_datarate (datarate : Z) : Z :=
  if 12 <? datarate then 12 else if datarate <? 6 then 6 else datarate.

Definition low_datarate (bandwidth datarate : Z) : bool :=
  ((bandwidth =? 0) && ((datarate =? 11) || (datarate =? 12))) || ((bandwidth =? 1) && (datarate =? 12)).

Definition lora_config1 (bandwidth coderate : Z) (fixLen crcOn : bool) : R unit := fun s =>
  read_modify REG_LR_MODEMCONFIG1
    (Z.land RFLR_MODEMCONFIG1_BW_MASK (Z.land RFLR_MODEMCONFIG1_CODINGRATE_MASK
      (Z.land RFLR_MODEMCONFIG1_IMPLICITHEADER_MASK (Z.land RFLR_MODEMCONFIG1_RXPAYLOADCRC_MASK
        RFLR_MODEMCONFIG1_LOWDATARATEOPTIMIZE_MASK))))
    (Z.lor (Z.shiftl bandwidth 6) (Z.lor (Z.shiftl coderate 3) (Z.lor (Z.shiftl (b2z fixLen) 2)
      (Z.lor (Z.shiftl (b2z crcOn) 1) (b2z (LowDatarateOptimize (LoRa s))))))) s.

Definition lora_hopping : R unit := fun s =>
  if FreqHopOn (LoRa s) then
    (read_modify REG_LR_PLLHOP RFLR_PLLHOP_FASTHOP_MASK RFLR_PLLHOP_FASTHOP_ON ;;;
     SX1272Write REG_LR_HOPPERIOD (HopPeriod (LoRa s))) s
  else Done (tt, s).

Definition lora_detection (datarate : Z) : R unit :=
  if datarate =? 6 then
    read_modify REG_LR_DETECTOPTIMIZE RFLR_DETECTIONOPTIMIZE_MASK RFLR_DETECTIONOPTIMIZE_SF6 ;;;
    SX1272Write REG_LR_DETECTIONTHRESHOLD RFLR_DETECTIONTHRESH_SF6
  else
    read_modify REG_LR_DETECTOPTIMIZE RFLR_DETECTIONOPTIMIZE_MASK RFLR_DETECTIONOPTIMIZE_SF7_TO_SF12 ;;;
    SX1272Write REG_LR_DETECTIONTHRESHOLD RFLR_DETECTIONTHRESH_SF7_TO_SF12.

(** Two registers with the bytes of a 16-bit value. *)
Definition write_word (msb lsb v : Z) : R unit :=
  SX1272Write msb (Z.land (Z.shiftr v 8) 0xFF) ;;; SX1272Write lsb (Z.land v 0xFF).

Definition rx_config_fsk (bandwidth datarate bandwidthAfc preambleLen : Z) (fixLen : bool) (payloadLen : Z)
    (crcOn iqInverted rxContinuous : bool) : R unit :=
  smod (fun s => s <| Fsk ::= fun f => f <| Fsk_Bandwidth := bandwidth |> <| Fsk_Datarate := datarate |>
    <| Fsk_BandwidthAfc := bandwidthAfc |> <| Fsk_FixLen := fixLen |> <| Fsk_PayloadLen := payloadLen |>
    <| Fsk_CrcOn := crcOn |> <| Fsk_IqInverted := iqInverted |> <| Fsk_RxContinuous := rxContinuous |>
    <| Fsk_PreambleLen := preambleLen |> |>) ;;;
  rate <- slift (fsk_bitrate datarate) ;;
  write_word REG_BITRATEMSB REG_BITRATELSB rate ;;;
  bw <- slift (GetFskBandwidthRegValue bandwidth) ;;
  SX1272Write REG_RXBW bw ;;;
  bwAfc <- slift (GetFskBandwidthRegValue bandwidthAfc) ;;
  SX1272Write REG_AFCBW bwAfc ;;;
  write_word REG_PREAMBLEMSB REG_PREAMBLELSB preambleLen ;;;
  SX1272Write REG_PAYLOADLENGTH (if fixLen then payloadLen else 0xFF) ;;;
  fsk_packet_config fixLen crcOn.

Definition rx_config_lora (bandwidth datarate coderate preambleLen symbTimeout : Z) (fixLen : bool) (payloadLen : Z)
    (crcOn freqHopOn : bool) (hopPeriod : Z) (iqInverted rxContinuous : bool) : R unit :=
  smod (fun s => s <| LoRa ::= fun l => l <| LoRa_Bandwidth := bandwidth |> <| LoRa_Datarate := datarate |>
    <| LoRa_Coderate := coderate |> <| LoRa_PreambleLen := preambleLen |> <| LoRa_FixLen := fixLen |>
    <| LoRa_PayloadLen := payloadLen |> <| LoRa_CrcOn := crcOn |> <| FreqHopOn := freqHopOn |>
    <| HopPeriod := hopPeriod |> <| LoRa_IqInverted := iqInverted |> <| LoRa_RxContinuous := rxContinuous |> |>) ;;;
  let datarate := clamp_datarate datarate in
  smod (fun s => s <| LoRa ::= fun l => l <| LowDatarateOptimize := low_datarate bandwidth datarate |> |>) ;;;
  lora_config1 bandwidth coderate fixLen crcOn ;;;
  read_modify REG_LR_MODEMCONFIG2 (Z.land RFLR_MODEMCONFIG2_SF_MASK RFLR_MODEMCONFIG2_SYMBTIMEOUTMSB_MASK)
    (Z.lor (Z.shiftl datarate 4)
           (Z.land (Z.shiftr symbTimeout 8) (Z.lnot RFLR_MODEMCONFIG2_SYMBTIMEOUTMSB_MASK))) ;;;
  SX1272Write REG_LR_SYMBTIMEOUTLSB (Z.land symbTimeout 0xFF) ;;;
  write_word REG_LR_PREAMBLEMSB REG_LR_PREAMBLELSB preambleLen ;;;
  swhen fixLen (SX1272Write REG_LR_PAYLOADLENGTH payloadLen) ;;;
  lora_hopping ;;;
  lora_detection datarate.

Definition SX1272SetRxConfig (modem : RadioModems_t) (bandwidth datarate coderate bandwidthAfc preambleLen
    symbTimeout : Z) (fixLen : bool) (payloadLen : Z) (crcOn freqHopOn : bool) (hopPeriod : Z)
    (iqInverted rxContinuous : bool) : R unit :=
  SX1272SetModem modem ;;;
  match modem with
  | MacTypes.MODEM_FSK =>
      rx_config_fsk bandwidth datarate bandwidthAfc preambleLen fixLen payloadLen crcOn iqInverted rxContinuous
  | MacTypes.MODEM_LORA =>
      rx_config_lora bandwidth datarate coderate preambleLen symbTimeout fixLen payloadLen crcOn freqHopOn
        hopPeriod iqInverted rxContinuous
  end.

(** The new values of [paConfig], [paDac] and [power]. *)
Definition pa_settings (paConfig paDac channel power : Z) : Z * Z * Z :=
  let paConfig := Z.lor (Z.land paConfig RF_PACONFIG_PASELECT_MASK) (SX1272GetPaSelect channel) in
  if Z.land paConfig RF_PACONFIG_PASELECT_PABOOST =? RF_PACONFIG_PASELECT_PABOOST then
    let paDac := if 17 <? power then Z.lor (Z.land paDac RF_PADAC_20DBM_MASK) RF_PADAC_20DBM_ON
                 else Z.lor (Z.land paDac RF_PADAC_20DBM_MASK) RF_PADAC_20DBM_OFF in
    if Z.land paDac RF_PADAC_20DBM_ON =? RF_PADAC_20DBM_ON then
      let power := if power <? 5 then 5 else power in
      let power := if 20 <? power then 20 else power in
      (Z.lor (Z.land paConfig RFLR_PACONFIG_OUTPUTPOWER_MASK) (Z.land (u16 (power - 5)) 0x0F), paDac, power)
    else
      let power := if power <? 2 then 2 else power in
      let power := if 17 <? power then 17 else power in
      (Z.lor (Z.land paConfig RFLR_PACONFIG_OUTPUTPOWER_MASK) (Z.land (u16 (power - 2)) 0x0F), paDac, power)
  else
    let power := if power <? -1 then -1 else power in
    let power := if 14 <? power then 14 else power in
    (Z.lor (Z.land paConfig RFLR_PACONFIG_OUTPUTPOWER_MASK) (Z.land (u16 (power + 1)) 0x0F), paDac, power).

Definition tx_config_fsk (power fdev bandwidth datarate preambleLen : Z) (fixLen crcOn iqInverted : bool)
    (timeout : Z) : R unit :=
  smod (fun s => s <| Fsk ::= fun f => f <| Fsk_Power := power |> <| Fsk_Fdev := fdev |>
    <| Fsk_Bandwidth := bandwidth |> <| Fsk_Datarate := datarate |> <| Fsk_PreambleLen := preambleLen |>
    <| Fsk_FixLen := fixLen |> <| Fsk_CrcOn := crcOn |> <| Fsk_IqInverted := iqInverted |>
    <| Fsk_TxTimeout := timeout |> |>) ;;;
  dev <- slift (to_u16 (ddiv (of_int fdev) FREQ_STEP)) ;;
  write_word REG_FDEVMSB REG_FDEVLSB dev ;;;
  rate <- slift (fsk_bitrate datarate) ;;
  write_word REG_BITRATEMSB REG_BITRATELSB rate ;;;
  write_word REG_PREAMBLEMSB REG_PREAMBLELSB preambleLen ;;;
  fsk_packet_config fixLen crcOn.

Definition tx_config_lora (power bandwidth datarate coderate preambleLen : Z) (fixLen crcOn freqHopOn : bool)
    (hopPeriod : Z) (iqInverted : bool) (timeout : Z) : R unit :=
  smod (fun s => s <| LoRa ::= fun l => l <| LoRa_Power := power |> <| LoRa_Bandwidth := bandwidth |>
    <| LoRa_Datarate := datarate |> <| LoRa_Coderate := coderate |> <| LoRa_PreambleLen := preambleLen |>
    <| LoRa_FixLen := fixLen |> <| FreqHopOn := freqHopOn |> <| HopPeriod := hopPeriod |>
    <| LoRa_CrcOn := crcOn |> <| LoRa_IqInverted := iqInverted |> <| LoRa_TxTimeout := timeout |> |>) ;;;
  let datarate := clamp_datarate datarate in
  smod (fun s => s <| LoRa ::= fun l => l <| LowDatarateOptimize := low_datarate bandwidth datarate |> |>) ;;;
  lora_hopping ;;;
  lora_config1 bandwidth coderate fixLen crcOn ;;;
  read_modify REG_LR_MODEMCONFIG2 RFLR_MODEMCONFIG2_SF_MASK (Z.shiftl datarate 4) ;;;
  write_word REG_LR_PREAMBLEMSB REG_LR_PREAMBLELSB preambleLen ;;;
  lora_detection datarate.

Definition SX1272SetTxConfig (modem : RadioModems_t) (power fdev bandwidth datarate coderate preambleLen : Z)
    (fixLen crcOn freqHopOn : bool) (hopPeriod : Z) (iqInverted : bool) (timeout : Z) : R unit :=
  SX1272SetModem modem ;;;
  paConfig <- SX1272Read REG_PACONFIG ;;
  paDac <- SX1272Read REG_PADAC ;;
  s <- sget ;;
  let '(paConfig, paDac, power) := pa_settings paConfig paDac (Channel s) power in
  SX1272Write REG_PACONFIG paConfig ;;;
  SX1272Write REG_PADAC paDac ;;;
  match modem with
  | MacTypes.MODEM_FSK =>
      tx_config_fsk power fdev bandwidth datarate preambleLen fixLen crcOn iqInverted timeout
  | MacTypes.MODEM_LORA =>
      tx_config_lora power bandwidth datarate coderate preambleLen fixLen crcOn freqHopOn hopPeriod iqInverted timeout
  end.

Definition SX1272SetMaxPayloadLength (modem : RadioModems_t) (max : Z) : R unit :=
  SX1272SetModem modem ;;;
  s <- sget ;;
  match modem with
  | MacTypes.MODEM_FSK => swhen (negb (Fsk_FixLen (Fsk s))) (SX1272Write REG_PAYLOADLENGTH max)
  | MacTypes.MODEM_LORA => SX1272Write REG_LR_PAYLOADMAXLENGTH max
  end.

(** * Time on air *)

(** The FSK branch, with the two registers it reads. *)
Definition fsk_air_time (f : RadioFskSettings_t) (syncConfig packetConfig1 pktLen : Z) : run Z :=
  if Fsk_Datarate f =? 0 then Undef
  else
    let n := Fsk_PreambleLen f + (Z.land syncConfig (Z.lnot RF_SYNCCONFIG_SYNCSIZE_MASK) + 1)
             + (if Fsk_FixLen f then 0 else 1)
             + (if Z.land packetConfig1 (Z.lnot RF_PACKETCONFIG1_ADDRSFILTERING_MASK) =? 0 then 0 else 1)
             + pktLen + (if Fsk_CrcOn f then 2 else 0) in
    to_u32 (of_int (round (dmul (ddiv (of_int (8 * n)) (of_int (Fsk_Datarate f))) (of_int 1000)))).

Definition lora_bandwidth (b : Z) : Z :=
  if b =? 0 then 125000 else if b =? 1 then 250000 else if b =? 2 then 500000 else 0.

(** The LoRa branch.  The datarate is unsigned, so the bit count of the payload is
    computed modulo 2^32; a reserved bandwidth divides by zero. *)
Definition lora_air_time (l : RadioLoRaSettings_t) (pktLen : Z) : run Z :=
  let bw := lora_bandwidth (LoRa_Bandwidth l) in
  let sf := LoRa_Datarate l in
  let bits := u32 (8 * pktLen - 4 * sf + 28 + 16 * b2z (LoRa_CrcOn l) - (if LoRa_FixLen l then 20 else 0)) in
  let per := u32 (4 * sf - (if LowDatarateOptimize l then 2 else 0)) in
  if (bw =? 0) || (30 <? sf) || (per =? 0) then Undef
  else
    let rs := ddiv (of_int bw) (of_int (Z.shiftl 1 sf)) in
    let ts := ddiv (of_int 1) rs in
    let tPreamble := dmul (dadd (of_int (LoRa_PreambleLen l)) (17 # 4)) ts in
    let tmp := dmul (of_int (ceil (ddiv (of_int bits) (of_int per)))) (of_int (LoRa_Coderate l + 4)) in
    let nPayload := dadd (of_int 8) (if Qle_bool tmp 0 then of_int 0 else tmp) in
    let tPayload := dmul nPayload ts in
    let tOnAir := dadd tPreamble tPayload in
    to_u32 (of_int (floor (dadd (dmul tOnAir (of_int 1000)) (rnd (999 # 1000))))).

Definition SX1272GetTimeOnAir (modem : RadioModems_t) (pktLen : Z) : R Z :=
  match modem with
  | MacTypes.MODEM_FSK =>
      syncConfig <- SX1272Read REG_SYNCCONFIG ;;
      packetConfig1 <- SX1272Read REG_PACKETCONFIG1 ;;
      s <- sget ;;
      slift (fsk_air_time (Fsk s) syncConfig packetConfig1 pktLen)
  | MacTypes.MODEM_LORA =>
      s <- sget ;;
      slift (lora_air_time (LoRa s) pktLen)
  end.

(** * Transmission and reception *)

(** Interrupts the LoRa modem does not signal while it transmits, or receives. *)
Definition tx_irq_mask (hopping : bool) : Z :=
  Z.lor RFLR_IRQFLAGS_RXTIMEOUT (Z.lor RFLR_IRQFLAGS_RXDONE (Z.lor RFLR_IRQFLAGS_PAYLOADCRCERROR
    (Z.lor RFLR_IRQFLAGS_VALIDHEADER (Z.lor RFLR_IRQFLAGS_CADDONE
    (Z.lor (if hopping then 0 else RFLR_IRQFLAGS_FHSSCHANGEDCHANNEL) RFLR_IRQFLAGS_CADDETECTED))))).
Definition rx_irq_mask (hopping : bool) : Z :=
  Z.lor RFLR_IRQFLAGS_VALIDHEADER (Z.lor RFLR_IRQFLAGS_TXDONE (Z.lor RFLR_IRQFLAGS_CADDONE
    (Z.lor (if hopping then 0 else RFLR_IRQFLAGS_FHSSCHANGEDCHANNEL) RFLR_IRQFLAGS_CADDETECTED))).

(** [dio0] is the mapping of DIO0. *)
Definition lora_dio_mapping (hopping : bool) (dio0 : Z) : R unit :=
  if hopping then
    read_modify REG_DIOMAPPING1 (Z.land RFLR_DIOMAPPING1_DIO0_MASK RFLR_DIOMAPPING1_DIO2_MASK)
      (Z.lor dio0 RFLR_DIOMAPPING1_DIO2_00)
  else read_modify REG_DIOMAPPING1 RFLR_DIOMAPPING1_DIO0_MASK dio0.

Definition SX1272SetTx (timeout : Z) : R unit :=
  TimerSetTx timeout ;;;
  s <- sget ;;
  (match Modem s with
   | MacTypes.MODEM_FSK =>
       read_modify REG_DIOMAPPING1
         (Z.land RF_DIOMAPPING1_DIO0_MASK (Z.land RF_DIOMAPPING1_DIO1_MASK RF_DIOMAPPING1_DIO2_MASK))
         RF_DIOMAPPING1_DIO1_01 ;;;
       read_modify REG_DIOMAPPING2 (Z.land RF_DIOMAPPING2_DIO4_MASK RF_DIOMAPPING2_MAP_MASK) 0 ;;;
       t <- SX1272Read REG_FIFOTHRESH ;;
       smod (fun s => s <| FskPacketHandler ::= fun h => h <| FifoThresh := Z.land t 0x3F |> |>)
   | MacTypes.MODEM_LORA =>
       SX1272Write REG_LR_IRQFLAGSMASK (tx_irq_mask (FreqHopOn (LoRa s))) ;;;
       lora_dio_mapping (FreqHopOn (LoRa s)) RFLR_DIOMAPPING1_DIO0_01
   end) ;;;
  smod (fun s => s <| State := RF_TX_RUNNING |>) ;;;
  TimerStartTx ;;;
  SX1272SetOpMode RF_OPMODE_TRANSMITTER.

(** [memcpy1( RxTxBuffer, buffer, size )] *)
Definition copy_to_buffer (buffer : list Z) (size : Z) : R unit :=
  l <- slift (rdn buffer 0 size) ;;
  s <- sget ;;
  b <- slift (wrn (RxTxBuffer s) 0 l) ;;
  smod (fun s => s <| RxTxBuffer := b |>).

Definition send_fsk (buffer : list Z) (size : Z) : R unit :=
  smod (fun s => s <| FskPacketHandler ::= fun h => h <| NbBytes := 0 |> <| Fsk_Size := size |> |>) ;;;
  s <- sget ;;
  (if Fsk_FixLen (Fsk s) then SX1272Write REG_PAYLOADLENGTH size else SX1272WriteFifo [size] 1) ;;;
  (if (0 <? size) && (size <=? 64) then
     smod (fun s => s <| FskPacketHandler ::= fun h => h <| ChunkSize := size |> |>)
   else
     copy_to_buffer buffer size ;;;
     smod (fun s => s <| FskPacketHandler ::= fun h => h <| ChunkSize := 32 |> |>)) ;;;
  s <- sget ;;
  SX1272WriteFifo buffer (ChunkSize (FskPacketHandler s)) ;;;
  smod (fun s => s <| FskPacketHandler ::= fun h => h <| NbBytes := u16 (NbBytes h + ChunkSize h) |> |>).

(** Inversion of the signals; [rx] and [tx] are the bits of both directions. *)
Definition set_invert_iq (rx tx iq2 : Z) : R unit :=
  read_modify REG_LR_INVERTIQ (Z.land RFLR_INVERTIQ_TX_MASK RFLR_INVERTIQ_RX_MASK) (Z.lor rx tx) ;;;
  SX1272Write REG_LR_INVERTIQ2 iq2.

Definition send_lora (buffer : list Z) (size : Z) : R unit :=
  s <- sget ;;
  (if LoRa_IqInverted (LoRa s) then set_invert_iq RFLR_INVERTIQ_RX_OFF RFLR_INVERTIQ_TX_ON RFLR_INVERTIQ2_ON
   else set_invert_iq RFLR_INVERTIQ_RX_OFF RFLR_INVERTIQ_TX_OFF RFLR_INVERTIQ2_OFF) ;;;
  smod (fun s => s <| LoRaPacketHandler ::= fun h => h <| LoRa_Size := size |> |>) ;;;
  SX1272Write REG_LR_PAYLOADLENGTH size ;;;
  SX1272Write REG_LR_FIFOTXBASEADDR 0 ;;;
  SX1272Write REG_LR_FIFOADDRPTR 0 ;;;
  mode <- SX1272Read REG_OPMODE ;;
  swhen (Z.land mode (Z.lnot RF_OPMODE_MASK) =? RF_OPMODE_SLEEP) (SX1272SetStby ;;; DelayMs 1) ;;;
  SX1272WriteFifo buffer size.

Definition SX1272Send (buffer : list Z) (size : Z) : R unit :=
  s <- sget ;;
  match Modem s with
  | MacTypes.MODEM_FSK =>
      send_fsk buffer size ;;; s <- sget ;; SX1272SetTx (Fsk_TxTimeout (Fsk s))
  | MacTypes.MODEM_LORA =>
      send_lora buffer size ;;; s <- sget ;; SX1272SetTx (LoRa_TxTimeout (LoRa s))
  end.

Definition reset_packet : R unit :=
  smod (fun s => s <| FskPacketHandler ::= fun h => h <| PreambleDetected := false |> <| SyncWordDetected := false |>
    <| NbBytes := 0 |> <| Fsk_Size := 0 |> |>).

Definition rx_fsk : R unit :=
  read_modify REG_DIOMAPPING1
    (Z.land RF_DIOMAPPING1_DIO0_MASK (Z.land RF_DIOMAPPING1_DIO1_MASK RF_DIOMAPPING1_DIO2_MASK))
    (Z.lor RF_DIOMAPPING1_DIO0_00 (Z.lor RF_DIOMAPPING1_DIO1_00 RF_DIOMAPPING1_DIO2_11)) ;;;
  read_modify REG_DIOMAPPING2 (Z.land RF_DIOMAPPING2_DIO4_MASK RF_DIOMAPPING2_MAP_MASK)
    (Z.lor RF_DIOMAPPING2_DIO4_11 RF_DIOMAPPING2_MAP_PREAMBLEDETECT) ;;;
  t <- SX1272Read REG_FIFOTHRESH ;;
  smod (fun s => s <| FskPacketHandler ::= fun h => h <| FifoThresh := Z.land t 0x3F |> |>) ;;;
  SX1272Write REG_RXCONFIG (Z.lor RF_RXCONFIG_AFCAUTO_ON (Z.lor RF_RXCONFIG_AGCAUTO_ON RF_RXCONFIG_RXTRIGER_PREAMBLEDETECT)) ;;;
  reset_packet.

Definition rx_lora : R unit :=
  s <- sget ;;
  (if LoRa_IqInverted (LoRa s) then set_invert_iq RFLR_INVERTIQ_RX_ON RFLR_INVERTIQ_TX_OFF RFLR_INVERTIQ2_ON
   else set_invert_iq RFLR_INVERTIQ_RX_OFF RFLR_INVERTIQ_TX_OFF RFLR_INVERTIQ2_OFF) ;;;
  SX1272Write REG_LR_IRQFLAGSMASK (rx_irq_mask (FreqHopOn (LoRa s))) ;;;
  lora_dio_mapping (FreqHopOn (LoRa s)) RFLR_DIOMAPPING1_DIO0_00 ;;;
  SX1272Write REG_LR_FIFORXBASEADDR 0 ;;;
  SX1272Write REG_LR_FIFOADDRPTR 0.

(** The time the sync word may take, from the settings and the register [REG_SYNCCONFIG]. *)
Definition sync_timeout (f : RadioFskSettings_t) (syncConfig : Z) : run Z :=
  if Fsk_Datarate f =? 0 then Undef
  else
    let n := Fsk_PreambleLen f + (Z.land syncConfig (Z.lnot RF_SYNCCONFIG_SYNCSIZE_MASK) + 1) + 10 in
    to_u32 (of_int (ceil (dmul (ddiv (of_int (8 * n)) (of_int (Fsk_Datarate f))) (of_int 1000)) + 4)).

Definition SX1272SetRx (timeout : Z) : R unit :=
  s <- sget ;;
  (match Modem s with MacTypes.MODEM_FSK => rx_fsk | MacTypes.MODEM_LORA => rx_lora end) ;;;
  smod (fun s => s <| RxTxBuffer := replicate (Z.to_nat RX_BUFFER_SIZE) 0 |> <| State := RF_RX_RUNNING |>) ;;;
  swhen (negb (timeout =? 0)) (TimerSetRx timeout ;;; TimerStartRx) ;;;
  match Modem s with
  | MacTypes.MODEM_FSK =>
      SX1272SetOpMode RF_OPMODE_RECEIVER ;;;
      swhen (negb (Fsk_RxContinuous (Fsk s)))
        (c <- SX1272Read REG_SYNCCONFIG ;;
         t <- slift (sync_timeout (Fsk s) c) ;;
         TimerSetSync t ;;; TimerStartSync)
  | MacTypes.MODEM_LORA =>
      SX1272SetOpMode (if LoRa_RxContinuous (LoRa s) then RFLR_OPMODE_RECEIVER else RFLR_OPMODE_RECEIVER_SINGLE)
  end.

Definition SX1272StartCad : R unit :=
  s <- sget ;;
  match Modem s with
  | MacTypes.MODEM_FSK => sret tt
  | MacTypes.MODEM_LORA =>
      SX1272Write REG_LR_IRQFLAGSMASK
        (Z.lor RFLR_IRQFLAGS_RXTIMEOUT (Z.lor RFLR_IRQFLAGS_RXDONE (Z.lor RFLR_IRQFLAGS_PAYLOADCRCERROR
          (Z.lor RFLR_IRQFLAGS_VALIDHEADER (Z.lor RFLR_IRQFLAGS_TXDONE RFLR_IRQFLAGS_FHSSCHANGEDCHANNEL))))) ;;;
      read_modify REG_DIOMAPPING1 RFLR_DIOMAPPING1_DIO0_MASK RFLR_DIOMAPPING1_DIO0_00 ;;;
      smod (fun s => s <| State := RF_CAD |>) ;;;
      SX1272SetOpMode RFLR_OPMODE_CAD
  end.

(** * Interrupts *)

Context {RC : RadioClient SPI}.

Definition clear_fsk_irqs : R unit :=
  SX1272Write REG_IRQFLAGS1
    (Z.lor RF_IRQFLAGS1_RSSI (Z.lor RF_IRQFLAGS1_PREAMBLEDETECT RF_IRQFLAGS1_SYNCADDRESSMATCH)) ;;;
  SX1272Write REG_IRQFLAGS2 RF_IRQFLAGS2_FIFOOVERRUN.

(** Restarts the receiver in continuous mode, otherwise ends the reception. *)
Definition restart_or_end : R unit :=
  s <- sget ;;
  if Fsk_RxContinuous (Fsk s) then
    v <- SX1272Read REG_RXCONFIG ;;
    SX1272Write REG_RXCONFIG (Z.lor v RF_RXCONFIG_RESTARTRXWITHOUTPLLLOCK) ;;;
    TimerStartSync
  else smod (fun s => s <| State := RF_IDLE |>) ;;; TimerStopSync.

Definition SX1272OnTimeoutIrq : R unit :=
  s <- sget ;;
  match State s with
  | RF_RX_RUNNING =>
      swhen (modem_eqb (Modem s) MODEM_FSK) (reset_packet ;;; clear_fsk_irqs ;;; restart_or_end) ;;;
      notify RxTimeout
  | RF_TX_RUNNING =>
      smod (fun s => s <| State := RF_IDLE |>) ;;;
      notify TxTimeout
  | _ => sret tt
  end.

(** The size of an FSK packet, from the FIFO or the settings, when it is not known yet. *)
Definition read_size : R unit :=
  s <- sget ;;
  (if Fsk_FixLen (Fsk s) then
     v <- SX1272Read REG_PAYLOADLENGTH ;;
     smod (fun s => s <| FskPacketHandler ::= fun h => h <| Fsk_Size := v |> |>)
   else
     l <- SX1272ReadBuffer 0 1 ;;
     b <- slift (rd l 0) ;;
     smod (fun s => s <| FskPacketHandler ::= fun h => h <| Fsk_Size := Z.lor (Z.land (Fsk_Size h) 0xFF00) b |> |>)).

Definition size_unknown (h : RadioFskPacketHandler_t) : bool := (Fsk_Size h =? 0) && (NbBytes h =? 0).

(** [n] bytes of the packet from the FIFO to the place behind those received. *)
Definition read_chunk (n : Z) : R unit :=
  s <- sget ;;
  SX1272ReadFifo (NbBytes (FskPacketHandler s)) (u8 n) ;;;
  smod (fun s => s <| FskPacketHandler ::= fun h => h <| NbBytes := u16 (NbBytes h + n) |> |>).

Definition read_rest : R unit :=
  s <- sget ;;
  read_chunk (Fsk_Size (FskPacketHandler s) - NbBytes (FskPacketHandler s)).

Definition rx_done_fsk : R unit :=
  s <- sget ;;
  flags <- (if Fsk_CrcOn (Fsk s) then SX1272Read REG_IRQFLAGS2 else sret RF_IRQFLAGS2_CRCOK) ;;
  if negb (Z.land flags RF_IRQFLAGS2_CRCOK =? RF_IRQFLAGS2_CRCOK) then
    clear_fsk_irqs ;;;
    TimerStopRx ;;;
    restart_or_end ;;;
    notify RxError ;;;
    reset_packet
  else
    swhen (size_unknown (FskPacketHandler s)) read_size ;;;
    read_rest ;;;
    TimerStopRx ;;;
    restart_or_end ;;;
    s <- sget ;;
    notify (RxDone (RxTxBuffer s) (Fsk_Size (FskPacketHandler s)) (Fsk_RssiValue (FskPacketHandler s)) 0) ;;;
    reset_packet.

(** The SNR in dB from the register value, rounded towards zero. *)
Definition snr_dB (v : Z) : Z :=
  if Z.land v 0x80 =? 0 then Z.shiftr (Z.land v 0xFF) 2
  else - Z.shiftr (Z.land (Z.lnot v + 1) 0xFF) 2.

Definition lora_rssi (rssi snr : Z) : Z :=
  s16 (RSSI_OFFSET + rssi + Z.shiftr rssi 4 + (if snr <? 0 then snr else 0)).

(** Quality, size and bytes of the packet received. *)
Definition read_packet : R unit :=
  v <- SX1272Read REG_LR_PKTSNRVALUE ;;
  smod (fun s => s <| LoRaPacketHandler ::= fun h => h <| SnrValue := s8 v |> |>) ;;;
  let snr := snr_dB (s8 v) in
  rssi <- SX1272Read REG_LR_PKTRSSIVALUE ;;
  smod (fun s => s <| LoRaPacketHandler ::= fun h => h <| LoRa_RssiValue := lora_rssi rssi snr |> |>) ;;;
  size <- SX1272Read REG_LR_RXNBBYTES ;;
  smod (fun s => s <| LoRaPacketHandler ::= fun h => h <| LoRa_Size := size |> |>) ;;;
  SX1272ReadFifo 0 size.

Definition end_reception : R unit :=
  s <- sget ;;
  swhen (negb (LoRa_RxContinuous (LoRa s))) (smod (fun s => s <| State := RF_IDLE |>)) ;;;
  TimerStopRx.

Definition rx_done_lora : R unit :=
  SX1272Write REG_LR_IRQFLAGS RFLR_IRQFLAGS_RXDONE ;;;
  irqFlags <- SX1272Read REG_LR_IRQFLAGS ;;
  if Z.land irqFlags RFLR_IRQFLAGS_PAYLOADCRCERROR_MASK =? RFLR_IRQFLAGS_PAYLOADCRCERROR then
    SX1272Write REG_LR_IRQFLAGS RFLR_IRQFLAGS_PAYLOADCRCERROR ;;;
    end_reception ;;;
    notify RxError
  else
    read_packet ;;;
    end_reception ;;;
    s <- sget ;;
    notify (RxDone (RxTxBuffer s) (LoRa_Size (LoRaPacketHandler s)) (LoRa_RssiValue (LoRaPacketHandler s))
              (SnrValue (LoRaPacketHandler s))).

Definition SX1272OnDio0Irq : R unit :=
  s <- sget ;;
  match State s with
  | RF_RX_RUNNING =>
      match Modem s with MacTypes.MODEM_FSK => rx_done_fsk | MacTypes.MODEM_LORA => rx_done_lora end
  | RF_TX_RUNNING =>
      TimerStopTx ;;;
      swhen (modem_eqb (Modem s) MODEM_LORA) (SX1272Write REG_LR_IRQFLAGS RFLR_IRQFLAGS_TXDONE) ;;;
      smod (fun s => s <| State := RF_IDLE |>) ;;;
      notify TxDone
  | _ => sret tt
  end.

(** The FIFO reached its threshold. *)
Definition fifo_level : R unit :=
  s <- sget ;;
  swhen (size_unknown (FskPacketHandler s)) read_size ;;;
  s <- sget ;;
  let h := FskPacketHandler s in
  if FifoThresh h <? Fsk_Size h - NbBytes h then read_chunk (FifoThresh h) else read_rest.

(** The FIFO ran empty: the next chunk of the packet. *)
Definition fifo_empty : R unit :=
  s <- sget ;;
  let h := FskPacketHandler s in
  let n := if ChunkSize h <? Fsk_Size h - NbBytes h then ChunkSize h else Fsk_Size h - NbBytes h in
  SX1272WriteFifo (drop (Z.to_nat (NbBytes h)) (RxTxBuffer s)) (u8 n) ;;;
  smod (fun s => s <| FskPacketHandler ::= fun h => h <| NbBytes := u16 (NbBytes h + n) |> |>).

Definition SX1272OnDio1Irq : R unit :=
  s <- sget ;;
  match State s, Modem s with
  | RF_RX_RUNNING, MacTypes.MODEM_FSK => fifo_level
  | RF_RX_RUNNING, MacTypes.MODEM_LORA =>
      TimerStopRx ;;;
      SX1272Write REG_LR_IRQFLAGS RFLR_IRQFLAGS_RXTIMEOUT ;;;
      smod (fun s => s <| State := RF_IDLE |>) ;;;
      notify RxTimeout
  | RF_TX_RUNNING, MacTypes.MODEM_FSK => fifo_empty
  | _, _ => sret tt
  end.

(** Signal strength, frequency error and gain, once the sync word was seen. *)
Definition sync_word_detected : R unit :=
  TimerStopSync ;;;
  rssi <- SX1272Read REG_RSSIVALUE ;;
  msb <- SX1272Read REG_AFCMSB ;;
  lsb <- SX1272Read REG_AFCLSB ;;
  afc <- slift (to_s32 (dmul (of_int (Z.lor (Z.shiftl msb 8) lsb)) FREQ_STEP)) ;;
  lna <- SX1272Read REG_LNA ;;
  smod (fun s => s <| FskPacketHandler ::= fun h => h <| SyncWordDetected := true |>
    <| Fsk_RssiValue := s8 (- Z.shiftr rssi 1) |> <| AfcValue := afc |>
    <| RxGain := Z.land (Z.shiftr lna 5) 0x07 |> |>).

Definition change_channel : R unit :=
  s <- sget ;;
  swhen (FreqHopOn (LoRa s))
    (SX1272Write REG_LR_IRQFLAGS RFLR_IRQFLAGS_FHSSCHANGEDCHANNEL ;;;
     swhen (match RadioEvents s with Some r => has_FhssChangeChannel r | None => false end)
       (c <- SX1272Read REG_LR_HOPCHANNEL ;;
        notify (FhssChangeChannel (Z.land c RFLR_HOPCHANNEL_CHANNEL_MASK)))).

Definition SX1272OnDio2Irq : R unit :=
  s <- sget ;;
  match State s, Modem s with
  | RF_RX_RUNNING, MacTypes.MODEM_FSK =>
      swhen (PreambleDetected (FskPacketHandler s) && negb (SyncWordDetected (FskPacketHandler s)))
        sync_word_detected
  | RF_RX_RUNNING, MacTypes.MODEM_LORA | RF_TX_RUNNING, MacTypes.MODEM_LORA => change_channel
  | _, _ => sret tt
  end.

Definition SX1272OnDio3Irq : R unit :=
  s <- sget ;;
  match Modem s with
  | MacTypes.MODEM_FSK => sret tt
  | MacTypes.MODEM_LORA =>
      flags <- SX1272Read REG_LR_IRQFLAGS ;;
      if Z.land flags RFLR_IRQFLAGS_CADDETECTED =? RFLR_IRQFLAGS_CADDETECTED then
        SX1272Write REG_LR_IRQFLAGS (Z.lor RFLR_IRQFLAGS_CADDETECTED RFLR_IRQFLAGS_CADDONE) ;;;
        notify (CadDone true)
      else
        SX1272Write REG_LR_IRQFLAGS RFLR_IRQFLAGS_CADDONE ;;;
        notify (CadDone false)
  end.

Definition SX1272OnDio4Irq : R unit :=
  s <- sget ;;
  match Modem s with
  | MacTypes.MODEM_FSK =>
      swhen (negb (PreambleDetected (FskPacketHandler s)))
        (smod (fun s => s <| FskPacketHandler ::= fun h => h <| PreambleDetected := true |> |>))
  | MacTypes.MODEM_LORA => sret tt
  end.

(** DIO5 has no handler ([DioIrq[5]] is NULL). *)

End Driver.
End Sx1272.
