(* ===== verification/Chip.v ===== *)
(** What the driver relies on of the SX1272 (data sheet, sections on the SPI
    interface, the register map and the FIFO): registers keep what is written to
    them, the registers 0x0D to 0x3F exist once for each modem, flags are cleared
    by writing ones, the FIFO of the LoRa modem is a memory with a pointer that
    is not accessible in sleep mode, the FIFO of the FSK modem a queue.

    The laws are the class [RegisterFile] over the class [SpiDevice]; [SimChip] is
    a chip that satisfies them.  [wp] gives the driver's register accesses total
    correctness rules in terms of the contents of the registers. *)
From S2P Require Import Prelude MacTypes Registers Sx1272.
Import Registers Sx1272.

Module Chip.
#[local] Open Scope st_scope.

(** * Contents of the chip *)

Record view := mkView {
  shared : Z -> Z;
  fsk_page : Z -> Z;
  lora_page : Z -> Z;
  lora_fifo : list Z;
  fsk_in : list Z;
  fsk_out : list Z;
}.
#[export] Instance eta_view : Eta view :=
  fun v => mkView (shared v) (fsk_page v) (lora_page v) (lora_fifo v) (fsk_in v) (fsk_out v).

(** Two chips with the same contents. *)
#[export] Instance view_equiv : Equiv view := fun v w =>
  (forall a, shared v a = shared w a) /\ (forall a, fsk_page v a = fsk_page w a) /\
  (forall a, lora_page v a = lora_page w a) /\
  lora_fifo v = lora_fifo w /\ fsk_in v = fsk_in w /\ fsk_out v = fsk_out w.
#[export] Instance view_equivalence : Equivalence (≡@{view}).
Proof.
  split; unfold equiv, view_equiv.
  - done.
  - intros v w (? & ? & ? & ? & ? & ?). split_and!; auto.
  - intros u v w (? & ? & ? & ? & ? & ?) (? & ? & ? & ? & ? & ?). split_and!; congruence.
Qed.

Definition opmode (v : view) : Z := shared v REG_OPMODE.
Definition is_lora (v : view) : bool := Z.testbit (opmode v) 7.
Definition mode (v : view) : Z := Z.land (opmode v) 7.

(** The registers of the modem page. *)
Definition paged (a : Z) : bool := (0x0D <=? a) && (a <=? 0x3F).

(** The contents of register [a] of the page that is selected. *)
Definition reg (v : view) (a : Z) : Z :=
  if paged a then if is_lora v then lora_page v a else fsk_page v a else shared v a.

(** Registers that hold flags to be cleared, and those the chip sets by itself. *)
Definition is_flags (lora : bool) (a : Z) : bool :=
  if lora then a =? REG_LR_IRQFLAGS else (a =? REG_IRQFLAGS1) || (a =? REG_IRQFLAGS2).
Definition is_status (lora : bool) (a : Z) : bool :=
  if lora then existsb (Z.eqb a) [REG_LR_RXNBBYTES; REG_LR_PKTSNRVALUE; REG_LR_PKTRSSIVALUE; REG_LR_RSSIVALUE;
                                  REG_LR_HOPCHANNEL; REG_LR_RSSIWIDEBAND]
  else existsb (Z.eqb a) [REG_RSSIVALUE; REG_AFCMSB; REG_AFCLSB].
Definition is_config (lora : bool) (a : Z) : bool := negb (is_flags lora a) && negb (is_status lora a).

(** Measurements of the receiver, which differ from one reading to the next. *)
Definition is_noisy (lora : bool) (a : Z) : bool :=
  if lora then (a =? REG_LR_RSSIVALUE) || (a =? REG_LR_RSSIWIDEBAND)
  else (a =? REG_RSSIVALUE) || (a =? REG_AFCMSB) || (a =? REG_AFCLSB).

Definition upd (f : Z -> Z) (a x : Z) : Z -> Z := fun b => if b =? a then x else f b.

Definition set_reg (v : view) (a x : Z) : view :=
  if paged a then
    if is_lora v then v <| lora_page ::= fun f => upd f a x |> else v <| fsk_page ::= fun f => upd f a x |>
  else v <| shared ::= fun f => upd f a x |>.

(** The effect of writing [x] to register [a]. *)
Definition put (v : view) (a x : Z) : view :=
  if is_config (is_lora v) a then set_reg v a x
  else if is_flags (is_lora v) a then set_reg v a (Z.land (reg v a) (Z.lnot x))
  else v.

(** The FIFO: writing and reading bytes. *)
Definition fifo_put (v : view) (l : list Z) : view :=
  if is_lora v then
    v <| lora_fifo ::= fun f => splice f (Z.to_nat (lora_page v REG_LR_FIFOADDRPTR)) l |>
      <| lora_page ::= fun f => upd f REG_LR_FIFOADDRPTR (u8 (f REG_LR_FIFOADDRPTR + zlen l)) |>
  else v <| fsk_out ::= fun f => f ++ l |>.
Definition fifo_get (v : view) (n : nat) : list Z * view :=
  if is_lora v then
    (take n (drop (Z.to_nat (lora_page v REG_LR_FIFOADDRPTR)) (lora_fifo v)),
     v <| lora_page ::= fun f => upd f REG_LR_FIFOADDRPTR (u8 (f REG_LR_FIFOADDRPTR + Z.of_nat n)) |>)
  else (take n (fsk_in v), v <| fsk_in ::= drop n |>).

(** So many bytes can be written to, or read from, the FIFO now. *)
Definition fifo_room (v : view) (n : Z) : Prop :=
  if is_lora v then mode v <> 0 /\ lora_page v REG_LR_FIFOADDRPTR + n <= 256 else True.
Definition fifo_filled (v : view) (n : Z) : Prop :=
  if is_lora v then mode v <> 0 /\ lora_page v REG_LR_FIFOADDRPTR + n <= 256 else n <= zlen (fsk_in v).

Definition view_ok (v : view) : Prop :=
  (forall a, is_u8 (shared v a)) /\ (forall a, is_u8 (fsk_page v a)) /\ (forall a, is_u8 (lora_page v a)) /\
  length (lora_fifo v) = 256%nat /\ bytes (lora_fifo v) /\ bytes (fsk_in v).

(** * Transactions on the bus *)

Section Bus.
Context {SPI : SpiDevice}.

Fixpoint send_all (l : list Z) (d : device) : device :=
  match l with
  | [] => d
  | b :: l' => send_all l' (snd (exchange (Z.land b 0xFF) d))
  end.
Fixpoint receive_all (n : nat) (d : device) : list Z * device :=
  match n with
  | O => ([], d)
  | S n' =>
      let '(x, d) := exchange 0 d in
      let '(l, d) := receive_all n' d in (u8 x :: l, d)
  end.

Definition burst_write (a : Z) (l : list Z) (d : device) : device :=
  nss true (send_all l (snd (exchange (Z.land (Z.lor a 0x80) 0xFF) (nss false d)))).
Definition burst_read (a : Z) (n : nat) (d : device) : list Z * device :=
  let '(l, d) := receive_all n (snd (exchange (Z.land (Z.land a 0x7F) 0xFF) (nss false d))) in (l, nss true d).
End Bus.

Class RegisterFile (SPI : SpiDevice) := {
  view_of : device -> view;
  chip_write : forall d a x, view_ok (view_of d) -> 1 <= a < 128 -> is_u8 x ->
    view_of (burst_write a [x] d) ≡ put (view_of d) a x;
  chip_read : forall d a, view_ok (view_of d) -> 1 <= a < 128 -> view_of (snd (burst_read a 1 d)) ≡ view_of d;
  chip_value : forall d a, view_ok (view_of d) -> 1 <= a < 128 -> is_noisy (is_lora (view_of d)) a = false ->
    fst (burst_read a 1 d) = [reg (view_of d) a];
  chip_fifo_write : forall d l, view_ok (view_of d) -> bytes l -> fifo_room (view_of d) (zlen l) ->
    view_of (burst_write 0 l d) ≡ fifo_put (view_of d) l;
  chip_fifo_read : forall d n, view_ok (view_of d) -> fifo_filled (view_of d) (Z.of_nat n) ->
    fst (burst_read 0 n d) = fst (fifo_get (view_of d) n) /\
    view_of (snd (burst_read 0 n d)) ≡ snd (fifo_get (view_of d) n);
  chip_idle : forall d ms, mode (view_of d) <= 1 -> view_of (elapse ms d) ≡ view_of d;
}.

(** * The driver's accesses as transactions *)

Section Accesses.
Context {SPI : SpiDevice}.

Lemma send_bytes_all l (s : radio SPI) : send_bytes l s = Done (tt, s <| dev := send_all l (dev s) |>).
Proof.
  revert s. induction l as [|b l IH]; intros s; [by destruct s|].
  cbn [send_bytes]. unfold sbind at 1, SpiInOut. destruct (exchange _ _) as [x d] eqn:E.
  rewrite IH. cbn [send_all]. rewrite E. reflexivity.
Qed.

Lemma receive_bytes_all n (s : radio SPI) :
  receive_bytes n s = Done (fst (receive_all n (dev s)), s <| dev := snd (receive_all n (dev s)) |>).
Proof.
  revert s. induction n as [|n IH]; intros s; [by destruct s|].
  cbn [receive_bytes receive_all]. unfold sbind at 1, SpiInOut. rewrite Z.land_0_l.
  destruct (exchange 0 (dev s)) as [x d]. unfold sbind. rewrite IH.
  change (dev _) with d at 1. cbn [fst snd]. change (dev (s <| dev := d |>)) with d. by destruct (receive_all n d).
Qed.

Lemma WriteBuffer_eq a l n (s : radio SPI) : 0 <= n <= zlen l ->
  SX1272WriteBuffer a l n s = Done (tt, s <| dev := burst_write a (take (Z.to_nat n) l) (dev s) |>).
Proof.
  intros Hn. unfold SX1272WriteBuffer, slift, sbind at 1. rewrite rdn_ok by lia. cbn [rbind drop].
  unfold sbind at 1, GpioWriteNss at 1, smod. unfold sbind at 1, SpiInOut.
  unfold burst_write. change (dev (s <| dev := nss false (dev s) |>)) with (nss false (dev s)).
  destruct (exchange _ _) as [x d] eqn:E. unfold sbind. rewrite send_bytes_all. reflexivity.
Qed.

Lemma ReadBuffer_eq a n (s : radio SPI) :
  SX1272ReadBuffer a n s = Done (fst (burst_read a (Z.to_nat n) (dev s)),
                                 s <| dev := snd (burst_read a (Z.to_nat n) (dev s)) |>).
Proof.
  unfold SX1272ReadBuffer, sbind at 1, GpioWriteNss at 1, smod. unfold sbind at 1, SpiInOut.
  unfold burst_read. change (dev (s <| dev := nss false (dev s) |>)) with (nss false (dev s)).
  destruct (exchange _ _) as [x d] eqn:E. unfold sbind. rewrite receive_bytes_all.
  cbn [fst snd]. change (dev ((s <| dev := nss false (dev s) |>) <| dev := d |>)) with d.
  destruct (receive_all _ _). reflexivity.
Qed.
End Accesses.

(** * Contents and equivalence *)

#[export] Instance opmode_proper : Proper ((≡) ==> eq) opmode.
Proof. intros v w (H & _). apply H. Qed.
#[export] Instance is_lora_proper : Proper ((≡) ==> eq) is_lora.
Proof. intros v w H. unfold is_lora. by rewrite (opmode_proper v w H). Qed.
#[export] Instance mode_proper : Proper ((≡) ==> eq) mode.
Proof. intros v w H. unfold mode. by rewrite (opmode_proper v w H). Qed.
#[export] Instance reg_proper : Proper ((≡) ==> eq ==> eq) reg.
Proof.
  intros v w H a _ <-. unfold reg. rewrite (is_lora_proper v w H). destruct H as (H1 & H2 & H3 & _).
  by rewrite H1, H2, H3.
Qed.
#[export] Instance set_reg_proper : Proper ((≡) ==> eq ==> eq ==> (≡)) set_reg.
Proof.
  intros v w H a _ <- x _ <-. unfold set_reg. rewrite (is_lora_proper v w H).
  destruct H as (H1 & H2 & H3 & H4 & H5 & H6).
  destruct (paged a), (is_lora w); cbv [equiv view_equiv update upd]; cbn;
    split_and!; intros; rewrite ?H1, ?H2, ?H3; done.
Qed.
#[export] Instance put_proper : Proper ((≡) ==> eq ==> eq ==> (≡)) put.
Proof.
  intros v w H a _ <- x _ <-. unfold put. rewrite (is_lora_proper v w H), (reg_proper v w H a a eq_refl).
  destruct (is_config (is_lora w) a), (is_flags (is_lora w) a); try done; by apply set_reg_proper.
Qed.
#[export] Instance fifo_put_proper : Proper ((≡) ==> eq ==> (≡)) fifo_put.
Proof.
  intros v w H l _ <-. unfold fifo_put. rewrite (is_lora_proper v w H).
  destruct H as (H1 & H2 & H3 & H4 & H5 & H6).
  destruct (is_lora w); cbv [equiv view_equiv update upd]; cbn; split_and!; intros; rewrite ?H1, ?H2, ?H3; congruence.
Qed.

Lemma fifo_get_proper v w n : v ≡ w ->
  fst (fifo_get v n) = fst (fifo_get w n) /\ snd (fifo_get v n) ≡ snd (fifo_get w n).
Proof.
  intros H. unfold fifo_get. rewrite (is_lora_proper v w H). destruct H as (H1 & H2 & H3 & H4 & H5 & H6).
  destruct (is_lora w); cbv [equiv view_equiv update upd]; cbn; rewrite ?H3, ?H4, ?H5, ?H6; split_and!; intros;
    rewrite ?H1, ?H2, ?H3; done.
Qed.

Lemma fifo_room_proper v w n : v ≡ w -> fifo_room v n -> fifo_room w n.
Proof.
  intros H. unfold fifo_room. rewrite (is_lora_proper v w H), (mode_proper v w H).
  destruct H as (_ & _ & H3 & _). by rewrite H3.
Qed.
Lemma fifo_filled_proper v w n : v ≡ w -> fifo_filled v n -> fifo_filled w n.
Proof.
  intros H. unfold fifo_filled. rewrite (is_lora_proper v w H), (mode_proper v w H).
  destruct H as (_ & _ & H3 & _ & H5 & _). by rewrite H3, H5.
Qed.
#[export] Instance view_ok_proper : Proper ((≡) ==> iff) view_ok.
Proof.
  assert (forall v w : view, v ≡ w -> view_ok v -> view_ok w) as Himp.
  { intros v w (H1 & H2 & H3 & H4 & H5 & H6) (K1 & K2 & K3 & K4 & K5 & K6). unfold view_ok.
    rewrite <- H4, <- H5. split_and!; try done; intros a; rewrite <- ?H1, <- ?H2, <- ?H3; auto. }
  intros v w H. split; apply Himp; done.
Qed.

Lemma upd_u8 f a x : (forall b, is_u8 (f b)) -> is_u8 x -> forall b, is_u8 (upd f a x b).
Proof. intros H Hx b. unfold upd. destruct (b =? a); auto. Qed.

Lemma reg_u8 v a : view_ok v -> is_u8 (reg v a).
Proof. intros (H1 & H2 & H3 & _). unfold reg. destruct (paged a); [destruct (is_lora v)|]; auto. Qed.

Lemma set_reg_ok v a x : view_ok v -> is_u8 x -> view_ok (set_reg v a x).
Proof.
  intros (H1 & H2 & H3 & H4 & H5 & H6) Hx. unfold set_reg.
  destruct (paged a), (is_lora v); split_and!; try done; by apply upd_u8.
Qed.

Lemma put_ok v a x : view_ok v -> is_u8 x -> view_ok (put v a x).
Proof.
  intros Hv Hx. unfold put. destruct (is_config (is_lora v) a); [by apply set_reg_ok|].
  destruct (is_flags (is_lora v) a); [|done]. apply set_reg_ok; [done|].
  pose proof (reg_u8 v a Hv) as Hr. unfold is_u8 in *. change 256 with (2 ^ 8). apply bits_bound; [lia| |].
  - apply Z.land_nonneg. lia.
  - intros i Hi. rewrite Z.land_spec, (testbit_high 8) by lia. done.
Qed.

Lemma fifo_put_ok v l : view_ok v -> bytes l -> fifo_room v (zlen l) -> view_ok (fifo_put v l).
Proof.
  intros (H1 & H2 & H3 & H4 & H5 & H6) Hl Hr. unfold fifo_put, fifo_room in *.
  destruct (is_lora v); [|by split_and!]. pose proof (H3 REG_LR_FIFOADDRPTR) as Hp. unfold is_u8 in Hp.
  split_and!; try done; cbn.
  - apply upd_u8; [done|apply u8_range].
  - cbn. rewrite splice_length; [done|]. lia.
  - by apply splice_bytes.
Qed.

Lemma fifo_get_ok v n : view_ok v -> fifo_filled v (Z.of_nat n) ->
  view_ok (snd (fifo_get v n)) /\ bytes (fst (fifo_get v n)) /\ length (fst (fifo_get v n)) = n.
Proof.
  intros (H1 & H2 & H3 & H4 & H5 & H6) Hf. unfold fifo_get, fifo_filled, view_ok in *.
  pose proof (H3 REG_LR_FIFOADDRPTR) as Hp. unfold is_u8 in Hp.
  destruct (is_lora v); cbn [fst snd]; split_and!; try done; cbn.
  - apply upd_u8; [done|apply u8_range].
  - by apply Forall_take, Forall_drop.
  - rewrite length_take, length_drop. lia.
  - by apply Forall_drop.
  - by apply Forall_take.
  - rewrite length_take. lia.
Qed.
(** * Rules for the driver's accesses *)

(** The chip of the radio has the contents [v]. *)
Definition shows {SPI} {RF : RegisterFile SPI} (d : device) (v : view) : Prop := view_of d ≡ v /\ view_ok v.

Section Rules.
Context {SPI : SpiDevice} {RF : RegisterFile SPI}.
Implicit Types (s : radio SPI) (v : view).

Lemma wp_write s v a x Q : shows (dev s) v -> 1 <= a < 128 ->
  (forall d, shows d (put v a (u8 x)) -> Q tt (s <| dev := d |>)) -> wp (SX1272Write a x) s Q.
Proof.
  intros [Hd Hv] Ha HQ. eexists tt, _. split; [apply WriteBuffer_eq; simpl; lia|]. apply HQ.
  change (take (Z.to_nat 1) [u8 x]) with [u8 x]. split.
  - rewrite chip_write; [by rewrite Hd|by rewrite Hd|done|apply u8_range].
  - apply put_ok; [done|apply u8_range].
Qed.

Lemma wp_read s v a Q : shows (dev s) v -> 1 <= a < 128 -> is_noisy (is_lora v) a = false ->
  (forall d, shows d v -> Q (reg v a) (s <| dev := d |>)) -> wp (SX1272Read a) s Q.
Proof.
  intros [Hd Hv] Ha Hn HQ. unfold SX1272Read. apply wp_bind. eexists _, _. split; [apply ReadBuffer_eq|].
  change (Z.to_nat 1) with 1%nat. rewrite chip_value by (by rewrite ?Hd). apply wp_lift with (reg v a).
  - rewrite Hd. done.
  - apply HQ. split; [|done]. by rewrite chip_read by (by rewrite ?Hd).
Qed.

(** A measurement is some byte. *)
Lemma wp_read_noisy s v a Q : shows (dev s) v -> 1 <= a < 128 ->
  (forall x d, is_u8 x -> shows d v -> Q x (s <| dev := d |>)) -> wp (SX1272Read a) s Q.
Proof.
  intros [Hd Hv] Ha HQ. unfold SX1272Read. apply wp_bind. eexists _, _. split; [apply ReadBuffer_eq|].
  change (Z.to_nat 1) with 1%nat. unfold burst_read at 1. cbn [receive_all].
  destruct (exchange 0 _) as [x d'] eqn:E. cbn [fst]. apply wp_lift with (u8 x); [done|].
  apply HQ; [apply u8_range|]. split; [|done]. by rewrite chip_read by (by rewrite ?Hd).
Qed.

Lemma wp_read_modify s v a keep set Q : shows (dev s) v -> 1 <= a < 128 -> is_noisy (is_lora v) a = false ->
  (forall d, shows d (put v a (u8 (Z.lor (Z.land (reg v a) keep) set))) -> Q tt (s <| dev := d |>)) ->
  wp (read_modify a keep set) s Q.
Proof.
  intros Hs Ha Hn HQ. unfold read_modify. apply wp_bind. eapply wp_read; [done|done|done|]. intros d Hd.
  eapply wp_write; [exact Hd|done|]. intros d' Hd'. apply (HQ d' Hd').
Qed.

Lemma wp_write_fifo s v l n Q : shows (dev s) v -> 0 <= n <= zlen l -> bytes (take (Z.to_nat n) l) -> fifo_room v n ->
  (forall d, shows d (fifo_put v (take (Z.to_nat n) l)) -> Q tt (s <| dev := d |>)) ->
  wp (SX1272WriteFifo l n) s Q.
Proof.
  intros [Hd Hv] Hn Hl Hr HQ. eexists tt, _. split; [by apply WriteBuffer_eq|]. apply HQ.
  assert (fifo_room v (zlen (take (Z.to_nat n) l))) as Hr'.
  { rewrite length_take. by replace (Z.of_nat (Z.to_nat n `min` length l)) with n by lia. }
  split.
  - rewrite chip_fifo_write; [by rewrite Hd|by rewrite Hd|done|]. by eapply fifo_room_proper.
  - by apply fifo_put_ok.
Qed.

Lemma wp_read_bytes s v n Q : shows (dev s) v -> 0 <= n -> fifo_filled v n ->
  (forall d, shows d (snd (fifo_get v (Z.to_nat n))) -> bytes (fst (fifo_get v (Z.to_nat n))) ->
    length (fst (fifo_get v (Z.to_nat n))) = Z.to_nat n ->
    Q (fst (fifo_get v (Z.to_nat n))) (s <| dev := d |>)) ->
  wp (SX1272ReadBuffer 0 n) s Q.
Proof.
  intros [Hd Hv] Hn Hf HQ. eexists _, _. split; [apply ReadBuffer_eq|].
  rewrite <- (Z2Nat.id n) in Hf by done.
  destruct (chip_fifo_read (dev s) (Z.to_nat n)) as [E1 E2]; [by rewrite Hd|by eapply fifo_filled_proper|].
  destruct (fifo_get_proper _ _ (Z.to_nat n) Hd) as [P1 P2].
  destruct (fifo_get_ok v (Z.to_nat n)) as (K1 & K2 & K3); [done|done|].
  rewrite E1, P1. apply HQ; [|done|done]. split; [by rewrite E2|done].
Qed.

Lemma wp_read_fifo s v off n Q : shows (dev s) v -> 0 <= n -> fifo_filled v n ->
  0 <= off -> off + n <= zlen (RxTxBuffer s) ->
  (forall d, shows d (snd (fifo_get v (Z.to_nat n))) -> bytes (fst (fifo_get v (Z.to_nat n))) ->
    length (fst (fifo_get v (Z.to_nat n))) = Z.to_nat n ->
    Q tt ((s <| dev := d |>) <| RxTxBuffer := splice (RxTxBuffer s) (Z.to_nat off) (fst (fifo_get v (Z.to_nat n))) |>)) ->
  wp (SX1272ReadFifo off n) s Q.
Proof.
  intros Hs Hn Hf Ho Hb HQ. unfold SX1272ReadFifo. apply wp_bind.
  eapply wp_read_bytes; [done|done|done|]. intros d Hd Hy Hl. apply wp_bind, wp_get, wp_bind.
  eapply wp_lift; [apply wrn_ok; cbn; lia|]. apply wp_mod. by apply HQ.
Qed.

Lemma wp_delay s v ms Q : shows (dev s) v -> mode v <= 1 ->
  (forall d, shows d v -> Q tt (s <| dev := d |>)) -> wp (DelayMs ms) s Q.
Proof.
  intros [Hd Hv] Hm HQ. apply wp_mod, HQ. split; [|done]. rewrite chip_idle; [done|]. by rewrite Hd.
Qed.
End Rules.

(** * A chip that satisfies the laws

    The first byte of a transaction is the address and the direction, the others
    are data; measurements read as a constant. *)
Record sim := mkSim { contents : view; selected : option (Z * bool) }.

Definition sim_exchange (b : Z) (d : sim) : Z * sim :=
  match selected d with
  | None => (0, mkSim (contents d) (Some (Z.land b 0x7F, Z.testbit b 7)))
  | Some (a, true) =>
      if a =? 0 then (0, mkSim (fifo_put (contents d) [b]) (selected d))
      else (0, mkSim (put (contents d) a b) (Some (Z.land (a + 1) 0x7F, true)))
  | Some (a, false) =>
      if a =? 0 then
        let '(l, v) := fifo_get (contents d) 1 in (hd 0 l, mkSim v (selected d))
      else (reg (contents d) a, mkSim (contents d) (Some (Z.land (a + 1) 0x7F, false)))
  end.

#[export] Instance SimChip : SpiDevice := {|
  device := sim;
  nss := fun _ d => mkSim (contents d) None;
  exchange := sim_exchange;
  elapse := fun _ d => d;
|}.

Lemma sim_address_write a : 0 <= a < 128 ->
  Z.land (Z.land (Z.lor a 0x80) 0xFF) 0x7F = a /\ Z.testbit (Z.land (Z.lor a 0x80) 0xFF) 7 = true.
Proof.
  intros H. assert (is_u8 a) as Ha by (unfold is_u8; lia). revert a Ha H.
  assert (forall a, is_u8 a -> (128 <=? a) || ((Z.land (Z.land (Z.lor a 0x80) 0xFF) 0x7F =? a) &&
    Z.testbit (Z.land (Z.lor a 0x80) 0xFF) 7) = true) as Hall by (apply forall_u8; reflexivity).
  intros a Ha H. specialize (Hall a Ha). apply orb_true_iff in Hall as [E%Z.leb_le|E]; [lia|].
  apply andb_true_iff in E as [E%Z.eqb_eq E']. done.
Qed.
Lemma sim_address_read a : 0 <= a < 128 ->
  Z.land (Z.land (Z.land a 0x7F) 0xFF) 0x7F = a /\ Z.testbit (Z.land (Z.land a 0x7F) 0xFF) 7 = false.
Proof.
  intros H. assert (is_u8 a) as Ha by (unfold is_u8; lia). revert a Ha H.
  assert (forall a, is_u8 a -> (128 <=? a) || ((Z.land (Z.land (Z.land a 0x7F) 0xFF) 0x7F =? a) &&
    negb (Z.testbit (Z.land (Z.land a 0x7F) 0xFF) 7)) = true) as Hall by (apply forall_u8; reflexivity).
  intros a Ha H. specialize (Hall a Ha). apply orb_true_iff in Hall as [E%Z.leb_le|E]; [lia|].
  apply andb_true_iff in E as [E%Z.eqb_eq E'%negb_true_iff]. done.
Qed.
Lemma land_ff_u8 x : is_u8 x -> Z.land x 0xFF = x.
Proof. intros H. unfold is_u8 in H. change 0xFF with (Z.ones 8). rewrite Z.land_ones by lia. change (2 ^ 8) with 256. lia. Qed.

Lemma fifo_room_cons v b l : view_ok v -> is_u8 b -> fifo_room v (zlen (b :: l)) ->
  fifo_room v 1 /\ fifo_room (fifo_put v [b]) (zlen l) /\ fifo_put (fifo_put v [b]) l ≡ fifo_put v (b :: l).
Proof.
  intros (_ & _ & H3 & H4 & _ & _) Hb. pose proof (H3 REG_LR_FIFOADDRPTR) as Hp. unfold is_u8 in Hp.
  unfold fifo_room, fifo_put. destruct (is_lora v) eqn:El.
  - intros [Hm Hr]. cbn [length] in Hr.
    assert (is_lora (fifo_put v [b]) = true) as El' by (unfold fifo_put; by rewrite El).
    unfold fifo_put in El'. rewrite El in El'. rewrite El'. split; [split; [done|lia]|]. split.
    + split; [done|]. change (u8 (lora_page v REG_LR_FIFOADDRPTR + 1) + zlen l <= 256).
      destruct l; cbn [length] in *; [|rewrite u8_id by (unfold is_u8; lia); lia].
      pose proof (u8_range (lora_page v REG_LR_FIFOADDRPTR + 1)) as Hu. unfold is_u8 in Hu. lia.
    + cbv [equiv view_equiv update]. cbn. split_and!; try done.
      * intros a. unfold upd. destruct (a =? REG_LR_FIFOADDRPTR); [|done]. machine.
      * change (Z.of_nat 1) with 1. destruct l as [|c l'].
        { unfold splice at 1. cbn [length app]. rewrite Nat.add_0_r. rewrite take_drop. done. }
        cbn [length] in Hr. rewrite u8_id by (unfold is_u8; lia).
        replace (Z.to_nat (lora_page v REG_LR_FIFOADDRPTR + 1)) with (Z.to_nat (lora_page v REG_LR_FIFOADDRPTR) + length [b])%nat
          by (cbn [length]; lia).
        by rewrite splice_splice by (cbn [length]; lia).
  - intros _. assert (is_lora (v <| fsk_out ::= fun f => f ++ [b] |>) = false) as El' by done.
    rewrite El'. split_and!; try done. cbv [equiv view_equiv update]. cbn. split_and!; try done. by rewrite <- app_assoc.
Qed.

Lemma sim_fifo_write l d : bytes l -> view_ok (contents d) -> selected d = Some (0, true) ->
  fifo_room (contents d) (zlen l) ->
  contents (send_all l d) ≡ fifo_put (contents d) l /\ selected (send_all l d) = Some (0, true).
Proof.
  intros Hl. revert d. induction Hl as [|b l Hb Hl IH]; intros d Hv Hs Hr.
  - split; [|done]. cbn [send_all]. unfold fifo_put. destruct (is_lora _); cbv [equiv view_equiv update]; cbn; split_and!; try done.
    + intros a. unfold upd. destruct (Z.eqb_spec a REG_LR_FIFOADDRPTR); [subst|done].
      rewrite Z.add_0_r. symmetry. apply u8_id. apply Hv.
    + unfold splice. cbn [length app]. by rewrite Nat.add_0_r, take_drop.
    + by rewrite app_nil_r.
  - cbn [send_all]. rewrite land_ff_u8 by done. unfold exchange, SimChip, sim_exchange. rewrite Hs. cbn [Z.eqb snd].
    destruct (fifo_room_cons _ _ _ Hv Hb Hr) as (R1 & R2 & R3).
    destruct (IH (mkSim (fifo_put (contents d) [b]) (Some (0, true)))) as [E1 E2]; [|done|done|].
    + apply fifo_put_ok; [done|by constructor|done].
    + split; [|done]. by rewrite E1.
Qed.

Lemma fifo_get_succ v n : view_ok v -> fifo_filled v (Z.of_nat (S n)) ->
  let '(l, w) := fifo_get v 1 in
  view_ok w /\ fifo_filled w (Z.of_nat n) /\ is_u8 (hd 0 l) /\
  fst (fifo_get v (S n)) = hd 0 l :: fst (fifo_get w n) /\ snd (fifo_get v (S n)) ≡ snd (fifo_get w n).
Proof.
  intros Hv Hf. destruct (fifo_get v 1) as [l w] eqn:Eg.
  assert (fifo_filled v (Z.of_nat 1)) as Hf1 by (unfold fifo_filled in *; destruct (is_lora v); lia).
  destruct (fifo_get_ok v 1 Hv Hf1) as (K1 & K2 & K3). rewrite Eg in K1, K2, K3. cbn [fst snd] in *.
  destruct l as [|b [|]]; try done. split; [done|]. cbn [hd].
  destruct Hv as (_ & _ & H3 & H4 & _ & _). pose proof (H3 REG_LR_FIFOADDRPTR) as Hp. unfold is_u8 in Hp.
  unfold fifo_get, fifo_filled in *. destruct (is_lora v) eqn:El; simplify_eq.
  - set (p := lora_page v REG_LR_FIFOADDRPTR) in *.
    match goal with H : take 1 _ = [b] |- _ => rename H into Hb end.
    set (w := v <| lora_page ::= _ |>) in *. assert (is_lora w = true) as El' by done. rewrite El'.
    assert (lora_page w REG_LR_FIFOADDRPTR = u8 (p + 1)) as Ep by done.
    assert (drop (Z.to_nat p) (lora_fifo v) = b :: drop (S (Z.to_nat p)) (lora_fifo v)) as Hd.
    { rewrite <- (take_drop 1 (drop (Z.to_nat p) (lora_fifo v))) at 1. rewrite Hb, drop_drop. cbn [app]. do 2 f_equal. lia. }
    split_and!.
    + by destruct Hf as [Hm _].
    + destruct Hf as [_ Hr]. rewrite Ep. destruct n; [pose proof (u8_range (p + 1)); unfold is_u8 in *; lia|].
      rewrite u8_id by (unfold is_u8; lia). lia.
    + by inversion K2.
    + cbn [fst]. rewrite Hd. cbn [take]. f_equal. rewrite Ep. destruct n as [|n']; [done|].
      rewrite u8_id by (unfold is_u8; lia). f_equal. change (lora_fifo w) with (lora_fifo v). f_equal. lia.
    + cbn [snd]. cbv [equiv view_equiv update]. subst w. cbn. split_and!; try done. intros a. unfold upd.
      destruct (a =? REG_LR_FIFOADDRPTR); [|done]. change (REG_LR_FIFOADDRPTR =? REG_LR_FIFOADDRPTR) with true. cbn iota. machine.
  - match goal with H : take 1 _ = [b] |- _ => rename H into Hb end.
    set (w := v <| fsk_in ::= _ |>) in *. assert (is_lora w = false) as El' by done. rewrite El'.
    destruct (fsk_in v) as [|c r] eqn:Er; [done|]. cbn in Hb. simplify_eq.
    assert (fsk_in w = r) as Ew by (unfold w; cbn; by rewrite Er).
    split_and!.
    + rewrite Ew. cbn [length] in Hf. lia.
    + by inversion K2.
    + cbn [fst take]. by rewrite Ew.
    + cbn [snd]. cbv [equiv view_equiv update]. subst w. cbn. split_and!; try done. by rewrite Er.
Qed.

Lemma sim_fifo_read n d : view_ok (contents d) -> selected d = Some (0, false) ->
  fifo_filled (contents d) (Z.of_nat n) ->
  fst (receive_all n d) = fst (fifo_get (contents d) n) /\
  contents (snd (receive_all n d)) ≡ snd (fifo_get (contents d) n).
Proof.
  revert d. induction n as [|n IH]; intros d Hv Hs Hf.
  - cbn [receive_all fst snd]. unfold fifo_get. destruct (is_lora _); split; try done; cbv [equiv view_equiv update]; cbn; split_and!; try done.
    intros a. unfold upd. destruct (Z.eqb_spec a REG_LR_FIFOADDRPTR); [subst|done].
    rewrite Z.add_0_r. symmetry. apply u8_id. apply Hv.
  - pose proof (fifo_get_succ _ n Hv Hf) as Hsucc. destruct (fifo_get (contents d) 1) as [l w] eqn:Eg.
    destruct Hsucc as (Hw & Hfw & Hb & E1 & E2).
    assert (exchange 0 d = (hd 0 l, mkSim w (Some (0, false)))) as Ex
      by (cbn; unfold sim_exchange; by rewrite Hs, Eg).
    cbn [receive_all]. rewrite Ex. destruct (IH (mkSim w (Some (0, false)))) as [F1 F2]; [done|done|done|].
    destruct (receive_all n _) as [l' d']. cbn [fst snd contents] in *.
    rewrite (u8_id _ Hb), E1, F1. split; [done|]. by rewrite F2, E2.
Qed.

#[export, refine] Instance SimRegisters : RegisterFile SimChip := {| view_of := contents |}.
Proof.
  - intros d a x Hv Ha Hx. destruct (sim_address_write a) as [E1 E2]; [lia|].
    unfold burst_write. cbn -[Z.land Z.lor Z.testbit put]. unfold sim_exchange. cbn -[Z.land Z.lor Z.testbit put].
    rewrite E1, E2, (proj2 (Z.eqb_neq a 0)), land_ff_u8 by (done || lia). done.
  - intros d a Hv Ha. destruct (sim_address_read a) as [E1 E2]; [lia|].
    unfold burst_read. cbn -[Z.land Z.lor Z.testbit reg]. unfold sim_exchange. cbn -[Z.land Z.lor Z.testbit reg].
    rewrite E1, E2, (proj2 (Z.eqb_neq a 0)) by lia. done.
  - intros d a Hv Ha Hn. destruct (sim_address_read a) as [E1 E2]; [lia|].
    unfold burst_read. cbn -[Z.land Z.lor Z.testbit reg]. unfold sim_exchange. cbn -[Z.land Z.lor Z.testbit reg].
    rewrite E1, E2, (proj2 (Z.eqb_neq a 0)) by lia. cbn -[reg]. by rewrite u8_id by (by apply reg_u8).
  - intros d l Hv Hl Hr. unfold burst_write. apply (sim_fifo_write l (mkSim (contents d) (Some (0, true)))); done.
  - intros d n Hv Hf. unfold burst_read.
    pose proof (sim_fifo_read n (mkSim (contents d) (Some (0, false))) Hv eq_refl Hf) as [F1 F2].
    change (snd (exchange _ (nss false d))) with (mkSim (contents d) (Some (0, false))).
    destruct (receive_all n _) as [l d']. done.
  - done.
Defined.
End Chip.
