(* ===== verification/TimeOnAir.v ===== *)
(** The durations and frequencies the SX1272 driver computes in floating point:
    the time on air of a packet against the formula of the SX1272 data sheet, the
    channel frequency as a multiple of the synthesizer step, the timeouts. *)
From S2P Require Import Prelude Double MacTypes Registers Sx1272.
From Stdlib Require Import QArith Qround Lqa.
#[global] Open Scope Z_scope.
Import Double Sx1272.

Module TimeOnAir.

(** * The data sheet *)

Definition ceil_div (n d : Z) : Z := (n + d - 1) / d.

(** Symbols of the payload: [per] is [4 ( SF - 2 DE )] in the data sheet. *)
Definition payload_symbols (l : RadioLoRaSettings_t) (per pktLen : Z) : Z :=
  8 + Z.max 0 (ceil_div (8 * pktLen - 4 * LoRa_Datarate l + 28 + 16 * b2z (LoRa_CrcOn l)
                         - (if LoRa_FixLen l then 20 else 0)) per * (LoRa_Coderate l + 4)).

(** Milliseconds, rounded up, of a packet of so many payload symbols: the preamble has 4.25
    symbols more than programmed, a symbol lasts [2 ^ SF / BW] seconds. *)
Definition duration_ms (l : RadioLoRaSettings_t) (symbols : Z) : Z :=
  ceil_div ((4 * (LoRa_PreambleLen l + symbols) + 17) * 2 ^ LoRa_Datarate l * 1000)
           (4 * lora_bandwidth (LoRa_Bandwidth l)).

Definition datasheet_ms (l : RadioLoRaSettings_t) (pktLen : Z) : Z :=
  duration_ms l (payload_symbols l (4 * (LoRa_Datarate l - 2 * b2z (LowDatarateOptimize l))) pktLen).

(** Settings of a LoRa packet in the ranges of the chip, and a packet long enough that the
    unsigned bit count does not wrap around. *)
Definition lora_settings_ok (l : RadioLoRaSettings_t) : Prop :=
  0 <= LoRa_Bandwidth l <= 2 /\ 6 <= LoRa_Datarate l <= 12 /\ 1 <= LoRa_Coderate l <= 4 /\
  is_u16 (LoRa_PreambleLen l).
Definition long_enough (l : RadioLoRaSettings_t) (pktLen : Z) : Prop :=
  4 * LoRa_Datarate l + (if LoRa_FixLen l then 20 else 0) <= 8 * pktLen + 28 + 16 * b2z (LoRa_CrcOn l).

(** * Rounding errors *)

Lemma scaled_bounds P t T : (0 <= P -> 0 <= T -> T * (1 - eps) <= t -> t <= T * (1 + eps) ->
  0 <= P * T /\ P * T * (1 - eps) <= P * t /\ P * t <= P * T * (1 + eps))%Q.
Proof. unfold eps. intros. split_and!; nra. Qed.

(** Five roundings of a duration below 2^22 ms do not move it by half a microsecond. *)
Lemma air_time_error P N T : (0 <= P -> 0 <= N -> 0 <= T -> (P + N) * T * 1000 <= 4194304 ->
  let ts := rnd T in
  let t := dadd (dmul P ts) (dmul N ts) in
  (P + N) * T * 1000 - (1 # 2000) <= dmul t 1000 /\ dmul t 1000 <= (P + N) * T * 1000 + (1 # 2000))%Q.
Proof.
  intros HP HN HT Hmax ts t. destruct (rnd_bounds T HT) as [Ht1 Ht2].
  destruct (scaled_bounds P ts T) as (Hp0 & Hp1 & Hp2); try done.
  destruct (scaled_bounds N ts T) as (Hn0 & Hn1 & Hn2); try done.
  assert (0 <= ts)%Q as Hts by (by apply rnd_nonneg).
  destruct (rnd_bounds (P * ts)) as [Ha1 Ha2]; [nra|].
  destruct (rnd_bounds (N * ts)) as [Hb1 Hb2]; [nra|].
  unfold t, dadd, dmul in *. set (a := rnd (P * ts)) in *. set (b := rnd (N * ts)) in *.
  unfold eps in *. destruct (rnd_bounds (a + b)) as [Hc1 Hc2]; [lra|].
  set (c := rnd (a + b)) in *. unfold eps in *.
  destruct (rnd_bounds (c * 1000)) as [Hd1 Hd2]; [lra|]. unfold eps in *.
  set (PT := (P * T)%Q) in *. set (NT := (N * T)%Q) in *.
  assert ((P + N) * T * 1000 == (PT + NT) * 1000)%Q as E by (unfold PT, NT; ring).
  rewrite E in *. clearbody a b c PT NT. split; lra.
Qed.

(** Milliseconds that are a multiple of 1/125 are rounded up by adding 0.999 and truncating. *)
Lemma floor_999 x M : 0 <= M <= 524288000 ->
  ((M # 125) - (1 # 2000) <= x -> x <= (M # 125) + (1 # 2000) ->
  floor (dadd x (rnd (999 # 1000))) = ceil_div M 125)%Q.
Proof.
  intros HM H1 H2. destruct (rnd_bounds (999 # 1000)) as [Hc1 Hc2]; [discriminate|].
  set (c := rnd (999 # 1000)) in *. unfold eps in *.
  assert (0 <= M # 125)%Q as HM0 by (unfold Qle; simpl; lia).
  assert ((M # 125) <= 4194304)%Q as HM1 by (unfold Qle; simpl; lia).
  destruct (rnd_bounds (x + c)) as [Hr1 Hr2]; [lra|]. unfold eps in *. fold (dadd x c) in *.
  unfold ceil_div. set (q := (M + 125 - 1) / 125).
  assert (inject_Z q <= (M # 125) + (124 # 125))%Q as Hq1.
  { unfold Qle. simpl. unfold q. lia. }
  assert ((M # 125) <= inject_Z q)%Q as Hq2.
  { unfold Qle. simpl. unfold q. lia. }
  apply Qfloor_unique; [|rewrite inject_Z_plus; change (inject_Z 1) with 1%Q]; lra.
Qed.

(** The last steps of the computation, for a preamble, a payload and a symbol time that are
    known up to equality of rationals. *)
Lemma total_ms P N T P' N' ts M : (P' == P)%Q -> (N' == N)%Q -> (ts == rnd T)%Q ->
  (0 <= P)%Q -> (0 <= N)%Q -> (0 <= T)%Q -> ((P + N) * T * 1000 == M # 125)%Q -> 0 <= M <= 524288000 ->
  floor (dadd (dmul (dadd (dmul P' ts) (dmul N' ts)) (of_int 1000)) (rnd (999 # 1000))) = ceil_div M 125.
Proof.
  intros HP HN HT HP0 HN0 HT0 HX HM. destruct (air_time_error P N T) as [H1 H2]; try done.
  { rewrite HX. unfold Qle. simpl. lia. }
  assert (dmul (dadd (dmul P' ts) (dmul N' ts)) (of_int 1000) ==
          dmul (dadd (dmul P (rnd T)) (dmul N (rnd T))) 1000)%Q as E
    by (unfold dmul, dadd; rewrite HP, HN, HT; reflexivity).
  apply floor_999; [done|rewrite E, <- HX; exact H1|rewrite E, <- HX; exact H2].
Qed.

Lemma to_u32_int n : 0 <= n < 2 ^ 32 -> to_u32 (of_int n) = Done n.
Proof.
  intros H. unfold to_u32, trunc, of_int. rewrite Qfloor_Z.
  rewrite (proj2 (Qle_bool_iff _ _)) by (change 0%Q with (inject_Z 0); rewrite <- Zle_Qle; lia).
  zdecide. done.
Qed.

Section Exact.
Context (l : RadioLoRaSettings_t) (pktLen : Z).
Context (Hl : lora_settings_ok l) (Hp : is_u8 pktLen) (Hlong : long_enough l pktLen).
Let sf := LoRa_Datarate l.
Let bw := lora_bandwidth (LoRa_Bandwidth l).
Let per := 4 * sf - (if LowDatarateOptimize l then 2 else 0).
Let N := payload_symbols l per pktLen.

Lemma symbols_range : 8 <= N <= 1000 /\
  N = 8 + ceil_div (8 * pktLen - 4 * sf + 28 + 16 * b2z (LoRa_CrcOn l) - (if LoRa_FixLen l then 20 else 0)) per
            * (LoRa_Coderate l + 4).
Proof.
  destruct Hl as (_ & Hsf & Hcr & _). unfold is_u8, long_enough in *.
  subst N. unfold payload_symbols, per, sf in *.
  set (bits := 8 * pktLen - _ + _ + _ - _).
  assert (0 <= bits <= 2084) as Hb by (unfold bits; destruct (LoRa_CrcOn l), (LoRa_FixLen l); simpl in *; lia).
  set (d := 4 * _ - _). assert (22 <= d) as Hd by (unfold d; destruct (LowDatarateOptimize l); lia).
  assert (0 <= ceil_div bits d <= 100) as Hc by (unfold ceil_div; nia).
  rewrite Z.max_r by nia. split; [nia|done].
Qed.

(** The duration of a symbol is rounded once. *)
Lemma symbol_time : (ddiv (of_int 1) (ddiv (of_int bw) (of_int (Z.shiftl 1 sf))) ==
  rnd (inject_Z (2 ^ sf) / inject_Z bw))%Q.
Proof.
  destruct Hl as (Hb & Hsf & _). fold sf in Hsf. unfold ddiv, of_int. rewrite Z.shiftl_1_l.
  assert (0 < inject_Z (2 ^ sf))%Q by (apply inject_pow2_pos; lia).
  assert (0 < bw < 2 ^ 53) as Hbw by (unfold bw, lora_bandwidth; zcases; lia).
  assert (0 < inject_Z bw)%Q by (change 0%Q with (inject_Z 0); rewrite <- Zlt_Qlt; lia).
  assert (rnd (inject_Z bw / inject_Z (2 ^ sf)) == inject_Z bw / inject_Z (2 ^ sf))%Q as ->.
  { apply (rnd_exact _ bw (- sf)); [|lia]. unfold pow2. zdecide. rewrite Z.opp_involutive. reflexivity. }
  apply rnd_proper. change (inject_Z 1) with 1%Q. field. split; lra.
Qed.

Lemma payload_exact bits : 0 <= bits < 2 ^ 52 -> N = 8 + ceil_div bits per * (LoRa_Coderate l + 4) -> 0 < per ->
  let tmp := dmul (of_int (ceil (ddiv (of_int bits) (of_int per)))) (of_int (LoRa_Coderate l + 4)) in
  (dadd (of_int 8) (if Qle_bool tmp 0 then of_int 0 else tmp) == inject_Z N)%Q.
Proof.
  intros Hb HN Hper. cbv zeta. unfold dmul, dadd, ddiv, of_int. rewrite (ceil_quot bits per) by lia.
  fold (ceil_div bits per). destruct symbols_range as [HN' _].
  set (k := ceil_div bits per) in *. rewrite <- inject_Z_mult.
  assert (rnd (inject_Z (k * (LoRa_Coderate l + 4))) == inject_Z (k * (LoRa_Coderate l + 4)))%Q as E
    by (apply rnd_int; lia).
  destruct (Qle_bool _ _) eqn:Hc.
  - apply Qle_bool_iff in Hc. rewrite E in Hc. change 0%Q with (inject_Z 0) in Hc. rewrite <- Zle_Qle in Hc.
    rewrite <- inject_Z_plus, rnd_int by lia. rewrite HN. by replace (k * (LoRa_Coderate l + 4)) with 0 by lia.
  - rewrite E, <- inject_Z_plus, rnd_int by lia. by rewrite HN.
Qed.

Lemma duration_is_125th : exists M, 0 <= M <= 524288000 /\ duration_ms l N = ceil_div M 125 /\
  (((inject_Z (LoRa_PreambleLen l) + (17 # 4)) + inject_Z N) * (inject_Z (2 ^ sf) / inject_Z bw) * 1000 == M # 125)%Q.
Proof.
  destruct Hl as (Hb & Hsf & _ & Hpre). destruct symbols_range as [HN _]. unfold is_u16 in Hpre.
  unfold duration_ms. fold sf bw. fold sf in Hsf.
  exists ((4 * (LoRa_PreambleLen l + N) + 17) * 2 ^ (sf - 2 - LoRa_Bandwidth l)).
  assert (inject_Z (LoRa_PreambleLen l) + (17 # 4) + inject_Z N ==
    inject_Z (4 * (LoRa_PreambleLen l + N) + 17) * (1 # 4))%Q as ->.
  { rewrite !inject_Z_plus, inject_Z_mult, inject_Z_plus. change (inject_Z 4) with 4%Q.
    change (inject_Z 17) with 17%Q. ring. }
  set (q := 4 * _ + 17). assert (0 <= q <= 300000) as Hq by (unfold q; lia). clearbody q.
  assert (LoRa_Bandwidth l = 0 \/ LoRa_Bandwidth l = 1 \/ LoRa_Bandwidth l = 2) as Hbw by lia.
  assert (sf = 6 \/ sf = 7 \/ sf = 8 \/ sf = 9 \/ sf = 10 \/ sf = 11 \/ sf = 12) as Hs by lia.
  unfold bw, lora_bandwidth, ceil_div. clearbody sf.
  destruct Hbw as [-> | [-> | ->]]; destruct Hs as [-> | [-> | [-> | [-> | [-> | [-> | ->]]]]]]; simpl Z.pow; simpl Z.eqb;
    cbn iota; (split_and!; [lia|lia|lia|]); unfold Qeq; simpl; lia.
Qed.
End Exact.

Lemma lora_air_time_exact l pktLen : lora_settings_ok l -> is_u8 pktLen -> long_enough l pktLen ->
  lora_air_time l pktLen =
  Done (duration_ms l (payload_symbols l (4 * LoRa_Datarate l - (if LowDatarateOptimize l then 2 else 0)) pktLen)).
Proof.
  intros Hl Hp Hlong. destruct (symbols_range l pktLen Hl Hp Hlong) as [HN HN'].
  destruct (duration_is_125th l pktLen Hl Hp Hlong) as (M & HM & Hd & Hx).
  pose proof (symbol_time l pktLen Hl) as Hts. pose proof Hl as (Hb & Hsf & Hcr & Hpre). unfold is_u16, is_u8 in *.
  rewrite Hd. unfold lora_air_time.
  set (bits := 8 * pktLen - 4 * LoRa_Datarate l + 28 + 16 * b2z (LoRa_CrcOn l) - (if LoRa_FixLen l then 20 else 0)) in *.
  set (per := 4 * LoRa_Datarate l - (if LowDatarateOptimize l then 2 else 0)) in *.
  assert (0 <= bits <= 2084).
  { unfold bits, long_enough in *. destruct (LoRa_CrcOn l), (LoRa_FixLen l); simpl in *; lia. }
  assert (22 <= per <= 48) by (unfold per; destruct (LowDatarateOptimize l); lia).
  rewrite (u32_id bits), (u32_id per) by (unfold is_u32; lia).
  assert (0 < lora_bandwidth (LoRa_Bandwidth l)) as Hbw by (unfold lora_bandwidth; zcases; lia).
  rewrite (proj2 (Z.eqb_neq (lora_bandwidth _) 0)), (proj2 (Z.ltb_ge 30 _)), (proj2 (Z.eqb_neq per 0)) by lia.
  cbn [orb]. pose proof (payload_exact l pktLen Hl Hp Hlong bits ltac:(lia) HN' ltac:(fold per; lia)) as Hn.
  fold per in Hn. cbv zeta in Hn.
  set (T := (inject_Z (2 ^ LoRa_Datarate l) / inject_Z (lora_bandwidth (LoRa_Bandwidth l)))%Q) in *.
  set (nP := dadd (of_int 8) _) in *. set (ts := ddiv (of_int 1) _) in *.
  assert (dadd (of_int (LoRa_PreambleLen l)) (17 # 4) == inject_Z (LoRa_PreambleLen l) + (17 # 4))%Q as HP.
  { apply (rnd_exact _ (4 * LoRa_PreambleLen l + 17) (-2)); [|lia]. unfold of_int.
    rewrite inject_Z_plus, inject_Z_mult. change (pow2 (-2)) with (1 # 4)%Q. change (inject_Z 4) with 4%Q.
    change (inject_Z 17) with 17%Q. ring. }
  rewrite (total_ms (inject_Z (LoRa_PreambleLen l) + (17 # 4)) (inject_Z (payload_symbols l per pktLen)) T _ _ _ M);
    try done.
  - apply to_u32_int. unfold ceil_div. lia.
  - assert (0 <= inject_Z (LoRa_PreambleLen l))%Q by (change 0%Q with (inject_Z 0); rewrite <- Zle_Qle; lia). lra.
  - change 0%Q with (inject_Z 0). rewrite <- Zle_Qle. lia.
  - unfold T. apply Qle_shift_div_l; [change 0%Q with (inject_Z 0); rewrite <- Zlt_Qlt; lia|].
    change 0%Q with (inject_Z 0). rewrite <- inject_Z_mult, <- Zle_Qle. lia.
Qed.

(** * Frequencies *)

(** The synthesizer counts steps of 32 MHz / 2^19; the quotient is truncated. *)
Lemma channel_steps freq : is_u32 freq -> to_u32 (ddiv (of_int freq) FREQ_STEP) = Done (freq * 256 / 15625).
Proof.
  intros H. unfold is_u32 in H. unfold to_u32, ddiv.
  assert (rnd (of_int freq / FREQ_STEP) == rnd (inject_Z (freq * 256) / inject_Z 15625))%Q as E.
  { apply rnd_proper. unfold of_int, FREQ_STEP. rewrite inject_Z_mult. change (inject_Z 256) with 256%Q.
    change (inject_Z 15625) with 15625%Q. field. }
  rewrite (trunc_proper _ _ E), (trunc_quot (freq * 256) 15625) by lia. zdecide. done.
Qed.

(** * FSK *)

(** At 50 kbit/s a byte takes 0.16 ms. *)
Lemma fsk_50k_ms n : 0 <= n <= 1000000 ->
  round (dmul (ddiv (of_int (8 * n)) (of_int 50000)) (of_int 1000)) = (8 * n + 25) / 50.
Proof.
  intros Hn. unfold dmul, ddiv, of_int. set (x := (inject_Z (8 * n) / inject_Z 50000)%Q).
  assert (x == 8 * n # 50000)%Q as Ex by (unfold x; by rewrite Qmake_Qdiv).
  assert (0 <= x)%Q as Hx by (rewrite Ex; unfold Qle; simpl; lia).
  assert (x <= 1000)%Q as Hx' by (rewrite Ex; unfold Qle; simpl; lia).
  destruct (rnd_bounds x Hx) as [H1 H2]. unfold eps in *. change (inject_Z 1000) with 1000%Q.
  destruct (rnd_bounds (rnd x * 1000)) as [H3 H4]; [lra|]. unfold eps in *.
  set (y := rnd (rnd x * 1000)) in *. set (q := (8 * n + 25) / 50).
  assert (inject_Z q <= x * 1000 + (1 # 2) - (1 # 50))%Q as Hq1.
  { rewrite Ex. unfold Qle. simpl. unfold q. lia. }
  assert (x * 1000 + (1 # 2) + (1 # 50) <= inject_Z q + 1)%Q as Hq2.
  { rewrite Ex. unfold Qle. simpl. unfold q. lia. }
  assert (0 <= y)%Q as Hy by lra. unfold round. rewrite (proj2 (Qle_bool_iff _ _) Hy).
  clearbody y. apply Qfloor_unique; [|rewrite inject_Z_plus; change (inject_Z 1) with 1%Q]; lra.
Qed.

(** * Properties *)

Lemma ceil_div_mono a b d : 0 < d -> a <= b -> ceil_div a d <= ceil_div b d.
Proof. intros. unfold ceil_div. apply Z.div_le_mono; lia. Qed.

Lemma duration_mono l m n : lora_settings_ok l -> m <= n -> duration_ms l m <= duration_ms l n.
Proof.
  intros (Hb & Hsf & _) H. unfold duration_ms. apply ceil_div_mono.
  - unfold lora_bandwidth. zcases; lia.
  - pose proof (Z.pow_pos_nonneg 2 (LoRa_Datarate l)). nia.
Qed.

Lemma symbols_antitone l per per' pktLen : lora_settings_ok l -> is_u8 pktLen -> 0 < per' <= per ->
  payload_symbols l per pktLen <= payload_symbols l per' pktLen.
Proof.
  intros (_ & _ & Hcr & _) Hp Hper. unfold payload_symbols. set (b := 8 * pktLen - _ + _ + _ - _).
  apply Z.add_le_mono_l. destruct (decide (0 <= b)).
  - apply Z.max_le_compat_l, Z.mul_le_mono_nonneg_r; [lia|]. set (k := ceil_div b per').
    assert (b <= k * per') by (unfold k, ceil_div; lia).
    assert (0 <= k) by (apply Z.div_pos; lia).
    enough (ceil_div b per < k + 1) by lia. apply Z.div_lt_upper_bound; nia.
  - assert (ceil_div b per < 1) by (apply Z.div_lt_upper_bound; lia). nia.
Qed.

(** C33: the driver computes the time on air of a LoRa packet in floating point; for settings in the
    ranges of the chip and a packet long enough for the unsigned bit count the result is the
    duration of the data sheet, rounded up to a millisecond, without low datarate optimization,
    and never longer than the data sheet's with it; the driver's state is not changed. *)
Theorem time_on_air_correct (SPI : SpiDevice) (s : radio SPI) pktLen :
  lora_settings_ok (LoRa s) -> is_u8 pktLen -> long_enough (LoRa s) pktLen ->
  exists t, SX1272GetTimeOnAir MODEM_LORA pktLen s = Done (t, s) /\ 0 < t /\
    t <= datasheet_ms (LoRa s) pktLen /\
    (LowDatarateOptimize (LoRa s) = false -> t = datasheet_ms (LoRa s) pktLen).
Proof.
  intros Hl Hp Hlong. set (l := LoRa s) in *. pose proof (lora_air_time_exact l pktLen Hl Hp Hlong) as E.
  set (per := 4 * LoRa_Datarate l - (if LowDatarateOptimize l then 2 else 0)) in *.
  exists (duration_ms l (payload_symbols l per pktLen)).
  split; [unfold SX1272GetTimeOnAir, sbind, sget, slift; fold l; by rewrite E|].
  destruct (symbols_range l pktLen Hl Hp Hlong) as [HN _]. fold per in HN.
  assert (0 < duration_ms l 8 <= duration_ms l (payload_symbols l per pktLen)) as H8.
  { split; [|apply duration_mono; [done|lia]]. destruct Hl as (Hb & Hsf & _ & Hpre). unfold is_u16 in Hpre.
    unfold duration_ms, ceil_div. pose proof (Z.pow_pos_nonneg 2 (LoRa_Datarate l)).
    apply Z.div_str_pos. unfold lora_bandwidth. zcases; nia. }
  split_and!; [lia| |].
  - apply duration_mono; [done|]. apply symbols_antitone; [done|done|]. destruct Hl as (_ & Hsf & _).
    unfold per. destruct (LowDatarateOptimize l); simpl; lia.
  - intros Hde. unfold datasheet_ms, per. rewrite Hde. simpl. do 2 f_equal. lia.
Qed.

(** * Where the code departs from the data sheet *)

(** SF12 at 125 kHz, 4/5, checksum, 8 preamble symbols, low datarate optimization. *)
Definition sf12_settings : RadioLoRaSettings_t := mkLoRa 14 0 12 true 1 8 false 0 true false 0 false false 3000.

(** With low datarate optimization the code divides by [4 SF - 2] instead of [4 ( SF - 2 )]: a packet of
    64 bytes, 2794 ms on air, is counted as 2630 ms. *)
Theorem optimized_packet_too_short :
  lora_air_time sf12_settings 64 = Done 2630 /\ datasheet_ms sf12_settings 64 = 2794.
Proof. split; vm_compute; reflexivity. Qed.

(** The bit count of an empty packet is negative and wraps around; the time does not fit 32 bits. *)
Theorem empty_packet_undefined : lora_air_time sf12_settings 0 = Undef.
Proof. vm_compute. reflexivity. Qed.

End TimeOnAir.
