(* ===== verification/RadioSpec.v ===== *)
(** Properties of the SX1272 driver, for every chip with the laws of [RegisterFile]:
    configuration, transmission and reception with both modems. *)
From S2P Require Import Prelude Double MacTypes Registers Sx1272 Chip TimeOnAir.
Import Registers Sx1272 Chip.

Module RadioSpec.
#[local] Open Scope st_scope.

(** * Registers at known addresses *)

(** Address [a] is an ordinary register of the modem page, or of the common part. *)
Definition page_config (lora : bool) (a : Z) : bool := paged a && is_config lora a && negb (is_noisy lora a).
Definition common_config (a : Z) : bool := (1 <=? a) && (a <? 128) && negb (paged a).

Definition set_page (lora : bool) (v : view) (a x : Z) : view :=
  if lora then v <| lora_page ::= fun f => upd f a x |> else v <| fsk_page ::= fun f => upd f a x |>.
Definition set_common (v : view) (a x : Z) : view := v <| shared ::= fun f => upd f a x |>.
Definition get_page (lora : bool) (v : view) (a : Z) : Z := if lora then lora_page v a else fsk_page v a.

Lemma page_config_inv lora a : page_config lora a = true ->
  paged a = true /\ is_config lora a = true /\ is_noisy lora a = false /\ 1 <= a < 128.
Proof.
  unfold page_config, paged. intros H. rewrite !andb_true_iff, negb_true_iff in H.
  destruct H as (((H1%Z.leb_le & H2%Z.leb_le) & H3) & H4). rewrite H3, H4. zdecide. split_and!; try done; lia.
Qed.

Lemma common_config_inv lora a : common_config a = true ->
  paged a = false /\ is_config lora a = true /\ is_noisy lora a = false /\ 1 <= a < 128.
Proof.
  unfold common_config. rewrite !andb_true_iff, negb_true_iff. intros ((H1%Z.leb_le & H2%Z.ltb_lt) & H3).
  assert (a < 0x0D \/ 0x3F < a) as Ha.
  { unfold paged in H3. rewrite andb_false_iff, !Z.leb_gt in H3. lia. }
  split_and!; try done.
  - unfold is_config, is_flags, is_status, existsb. destruct lora; unfold REG_LR_IRQFLAGS, REG_IRQFLAGS1, REG_IRQFLAGS2,
      REG_LR_RXNBBYTES, REG_LR_PKTSNRVALUE, REG_LR_PKTRSSIVALUE, REG_LR_RSSIVALUE, REG_LR_HOPCHANNEL, REG_LR_RSSIWIDEBAND,
      REG_RSSIVALUE, REG_AFCMSB, REG_AFCLSB; zdecide; done.
  - unfold is_noisy. destruct lora; unfold REG_LR_RSSIVALUE, REG_LR_RSSIWIDEBAND, REG_RSSIVALUE, REG_AFCMSB, REG_AFCLSB;
      zdecide; done.
Qed.

Lemma put_page v lora a x : is_lora v = lora -> page_config lora a = true -> put v a x = set_page lora v a x.
Proof.
  intros <- H. apply page_config_inv in H as (H1 & H2 & _). unfold put, set_reg, set_page. by rewrite H2, H1.
Qed.
Lemma put_common v a x : common_config a = true -> put v a x = set_common v a x.
Proof.
  intros H. apply (common_config_inv (is_lora v)) in H as (H1 & H2 & _). unfold put, set_reg, set_common. by rewrite H2, H1.
Qed.
Lemma reg_page v lora a : is_lora v = lora -> page_config lora a = true -> reg v a = get_page lora v a.
Proof. intros <- H. apply page_config_inv in H as (H1 & _). unfold reg, get_page. by rewrite H1. Qed.
Lemma reg_common v a : common_config a = true -> reg v a = shared v a.
Proof. intros H. apply (common_config_inv true) in H as (H1 & _). unfold reg. by rewrite H1. Qed.

Section Rules.
Context {SPI : SpiDevice} {RF : RegisterFile SPI}.
Implicit Types (s : radio SPI) (v : view).

Lemma wp_write_page lora s v a x Q : shows (dev s) v -> is_lora v = lora -> page_config lora a = true ->
  (forall d, shows d (set_page lora v a (u8 x)) -> Q tt (s <| dev := d |>)) -> wp (SX1272Write a x) s Q.
Proof.
  intros Hs Hl Ha HQ. eapply wp_write; [done|by apply (page_config_inv lora)|]. by rewrite (put_page v lora).
Qed.
Lemma wp_modify_page lora s v a keep set Q : shows (dev s) v -> is_lora v = lora -> page_config lora a = true ->
  (forall d, shows d (set_page lora v a (u8 (Z.lor (Z.land (get_page lora v a) keep) set))) -> Q tt (s <| dev := d |>)) ->
  wp (read_modify a keep set) s Q.
Proof.
  intros Hs Hl Ha HQ. pose proof (page_config_inv lora a Ha) as (_ & _ & Hn & Hr).
  eapply wp_read_modify; [done|done|by rewrite Hl|]. by rewrite (put_page v lora), (reg_page v lora).
Qed.
Lemma wp_read_page lora s v a Q : shows (dev s) v -> is_lora v = lora -> page_config lora a = true ->
  (forall d, shows d v -> Q (get_page lora v a) (s <| dev := d |>)) -> wp (SX1272Read a) s Q.
Proof.
  intros Hs Hl Ha HQ. pose proof (page_config_inv lora a Ha) as (_ & _ & Hn & Hr).
  eapply wp_read; [done|done|by rewrite Hl|]. by rewrite (reg_page v lora).
Qed.
Lemma wp_write_common s v a x Q : shows (dev s) v -> common_config a = true ->
  (forall d, shows d (set_common v a (u8 x)) -> Q tt (s <| dev := d |>)) -> wp (SX1272Write a x) s Q.
Proof.
  intros Hs Ha HQ. eapply wp_write; [done|by apply (common_config_inv true)|]. by rewrite put_common.
Qed.
Lemma wp_modify_common s v a keep set Q : shows (dev s) v -> common_config a = true ->
  (forall d, shows d (set_common v a (u8 (Z.lor (Z.land (shared v a) keep) set))) -> Q tt (s <| dev := d |>)) ->
  wp (read_modify a keep set) s Q.
Proof.
  intros Hs Ha HQ. pose proof (common_config_inv (is_lora v) a Ha) as (_ & _ & Hn & Hr).
  eapply wp_read_modify; [done|done|done|]. by rewrite put_common, reg_common.
Qed.
Lemma wp_read_common s v a Q : shows (dev s) v -> common_config a = true ->
  (forall d, shows d v -> Q (shared v a) (s <| dev := d |>)) -> wp (SX1272Read a) s Q.
Proof.
  intros Hs Ha HQ. pose proof (common_config_inv (is_lora v) a Ha) as (_ & _ & Hn & Hr).
  eapply wp_read; [done|done|done|]. by rewrite reg_common.
Qed.

(** ** The operating mode *)

(** The antenna switch in the position for a mode. *)
Definition ant_ok s : Prop := RadioIsActive s = false -> (exists l, AntRx s = Output l) /\ exists l, AntTx s = Output l.
Definition ant_for (opMode : Z) s : radio SPI :=
  if opMode =? RF_OPMODE_SLEEP then
    s <| RadioIsActive := true |> <| AntTx := if RadioIsActive s then AntTx s else Analogic |>
      <| AntRx := if RadioIsActive s then AntRx s else Analogic |>
  else s <| RadioIsActive := false |> <| AntTx := Output (if opMode =? RF_OPMODE_TRANSMITTER then 1 else 0) |>
         <| AntRx := Output (if opMode =? RF_OPMODE_TRANSMITTER then 0 else 1) |>.

Definition set_mode (v : view) (opMode : Z) : view :=
  set_common v REG_OPMODE (Z.lor (Z.land (opmode v) RF_OPMODE_MASK) opMode).

Lemma set_mode_bits m opMode : is_u8 m -> 0 <= opMode < 8 ->
  is_u8 (Z.lor (Z.land m RF_OPMODE_MASK) opMode) /\
  Z.land (Z.lor (Z.land m RF_OPMODE_MASK) opMode) 7 = opMode /\
  Z.testbit (Z.lor (Z.land m RF_OPMODE_MASK) opMode) 7 = Z.testbit m 7.
Proof.
  intros Hm Ho.
  assert (opMode = 0 \/ opMode = 1 \/ opMode = 2 \/ opMode = 3 \/ opMode = 4 \/ opMode = 5 \/ opMode = 6 \/ opMode = 7) as H by lia.
  assert (forall o, is_u8 o -> (8 <=? o) || forallb (fun m =>
    let r := Z.lor (Z.land m RF_OPMODE_MASK) o in
    (0 <=? r) && (r <? 256) && (Z.land r 7 =? o) && Bool.eqb (Z.testbit r 7) (Z.testbit m 7)) all_u8 = true) as Hall.
  { intros o Ho'. destruct (Z.leb_spec 8 o); [done|]. cbn [orb].
    assert (o = 0 \/ o = 1 \/ o = 2 \/ o = 3 \/ o = 4 \/ o = 5 \/ o = 6 \/ o = 7) as Hc by (unfold is_u8 in Ho'; lia).
    destruct Hc as [-> | [-> | [-> | [-> | [-> | [-> | [-> | ->]]]]]]]; reflexivity. }
  specialize (Hall opMode ltac:(unfold is_u8; lia)). rewrite (proj2 (Z.leb_gt 8 opMode)) in Hall by lia. cbn [orb] in Hall.
  pose proof (proj1 (forallb_forall _ _) Hall m (u8_in_all m Hm)) as Hb. cbv zeta in Hb.
  rewrite !andb_true_iff in Hb. destruct Hb as (((H1%Z.leb_le & H2%Z.ltb_lt) & H3%Z.eqb_eq) & H4%Bool.eqb_prop). done.
Qed.

Lemma mode_set_mode v opMode : view_ok v -> 0 <= opMode < 8 -> mode (set_mode v opMode) = opMode.
Proof. intros (Hv & _) Ho. by destruct (set_mode_bits (opmode v) opMode (Hv _) Ho) as (_ & H & _). Qed.
Lemma is_lora_set_mode v opMode : view_ok v -> 0 <= opMode < 8 -> is_lora (set_mode v opMode) = is_lora v.
Proof. intros (Hv & _) Ho. by destruct (set_mode_bits (opmode v) opMode (Hv _) Ho) as (_ & _ & H). Qed.

Lemma wp_set_mode s v opMode Q : shows (dev s) v -> ant_ok s -> 0 <= opMode < 8 ->
  (forall d, shows d (set_mode v opMode) -> Q tt (ant_for opMode (s <| dev := d |>))) -> wp (SX1272SetOpMode opMode) s Q.
Proof.
  intros Hs Ha Ho HQ. unfold SX1272SetOpMode. apply wp_bind. pose proof Hs as [_ (Hv & _)].
  assert (wp (if opMode =? RF_OPMODE_SLEEP then SX1272SetAntSwLowPower true
              else SX1272SetAntSwLowPower false ;;;
                   (if opMode =? RF_OPMODE_TRANSMITTER then SX1272SetAntSw 1 else SX1272SetAntSw 0)) s
            (fun _ s' => s' = ant_for opMode s)) as (u & s' & E & ->).
  { unfold ant_for, SX1272SetAntSwLowPower. destruct (opMode =? RF_OPMODE_SLEEP).
    - unfold wp. destruct s; cbn. destruct (RadioIsActive0); cbn; eauto.
    - unfold wp, sbind, ant_ok in *. destruct s; cbn in *. destruct RadioIsActive0; cbn.
      + destruct (opMode =? RF_OPMODE_TRANSMITTER); cbn; eauto.
      + destruct Ha as [[lr ->] [lt ->]]; [done|]. destruct (opMode =? RF_OPMODE_TRANSMITTER); cbn; eauto. }
  exists u, (ant_for opMode s). split; [exact E|].
  assert (dev (ant_for opMode s) = dev s) as Ed by (unfold ant_for; by destruct (opMode =? _)).
  eapply wp_modify_common; [by rewrite Ed|done|]. intros d Hd.
  rewrite u8_id in Hd by (apply (set_mode_bits _ _ (Hv REG_OPMODE) Ho)). specialize (HQ d Hd).
  replace ((ant_for opMode s) <| dev := d |>) with (ant_for opMode (s <| dev := d |>)); [done|].
  unfold ant_for. by destruct (opMode =? _).
Qed.

(** A register the chip writes. *)
Lemma wp_read_status lora s v a Q : shows (dev s) v -> is_lora v = lora -> paged a && negb (is_noisy lora a) = true ->
  (forall d, shows d v -> Q (get_page lora v a) (s <| dev := d |>)) -> wp (SX1272Read a) s Q.
Proof.
  intros Hs <- Ha HQ. apply andb_true_iff in Ha as [Hp Hn%negb_true_iff].
  eapply wp_read; [done| |done|].
  - unfold paged in Hp. apply andb_true_iff in Hp as [H1%Z.leb_le H2%Z.leb_le]. lia.
  - intros d Hd. unfold reg. rewrite Hp. by apply HQ.
Qed.

(** Clearing flags. *)
Lemma wp_clear_flags lora s v a x Q : shows (dev s) v -> is_lora v = lora -> is_flags lora a && paged a = true ->
  (forall d, shows d (set_page lora v a (Z.land (get_page lora v a) (Z.lnot (u8 x)))) -> Q tt (s <| dev := d |>)) ->
  wp (SX1272Write a x) s Q.
Proof.
  intros Hs <- Ha HQ. apply andb_true_iff in Ha as [Hf Hp]. eapply wp_write; [done| |].
  - unfold paged in Hp. apply andb_true_iff in Hp as [H1%Z.leb_le H2%Z.leb_le]. lia.
  - intros d Hd. apply HQ. unfold put, is_config, set_reg, reg in Hd. rewrite Hf, Hp in Hd. exact Hd.
Qed.

Lemma wp_invert_iq s v rx tx iq2 Q : shows (dev s) v -> is_lora v = true ->
  (forall d, shows d (set_page true (set_page true v REG_LR_INVERTIQ
      (u8 (Z.lor (Z.land (lora_page v REG_LR_INVERTIQ) (Z.land RFLR_INVERTIQ_TX_MASK RFLR_INVERTIQ_RX_MASK)) (Z.lor rx tx))))
      REG_LR_INVERTIQ2 (u8 iq2)) -> Q tt (s <| dev := d |>)) ->
  wp (set_invert_iq rx tx iq2) s Q.
Proof.
  intros Hs Hl HQ. unfold set_invert_iq. apply wp_bind. eapply (wp_modify_page true); [done|done|done|]. intros d Hd.
  eapply (wp_write_page true); [exact Hd|done|done|]. intros d' Hd'. apply (HQ d' Hd').
Qed.
End Rules.

(** Runs the code up to the next access to the chip. *)
Ltac run_code :=
  repeat (cbn beta;
    match goal with
    | |- leads (sbind _ _) _ _ => apply leads_bind
    | |- wp (sbind _ _) _ _ => apply wp_bind
    | |- wp sget _ _ => apply wp_get
    | |- wp (smod _) _ _ => apply wp_mod
    | |- wp (sret _) _ _ => apply wp_ret
    | |- wp TimerStopTx _ _ => apply wp_mod
    | |- wp TimerStopRx _ _ => apply wp_mod
    | |- wp TimerStopSync _ _ => apply wp_mod
    | |- wp TimerStartTx _ _ => apply wp_mod
    | |- wp TimerStartRx _ _ => apply wp_mod
    | |- wp TimerStartSync _ _ => apply wp_mod
    | |- wp (TimerSetTx _) _ _ => apply wp_mod
    | |- wp (TimerSetRx _) _ _ => apply wp_mod
    | |- wp (TimerSetSync _) _ _ => apply wp_mod
    | |- wp reset_packet _ _ => apply wp_mod
    end).
(** An access to a register of the page [lora], or of the common part. *)
Ltac page lora :=
  run_code; first
  [ eapply (wp_modify_page lora); [eassumption|assumption|reflexivity|]
  | eapply (wp_write_page lora); [eassumption|assumption|reflexivity|]
  | eapply (wp_read_page lora); [eassumption|assumption|reflexivity|] ];
  let d := fresh "d" in let Hd := fresh "Hd" in intros d Hd; cbn beta.
Ltac common :=
  run_code; first
  [ eapply wp_modify_common; [eassumption|reflexivity|]
  | eapply wp_write_common; [eassumption|reflexivity|]
  | eapply wp_read_common; [eassumption|reflexivity|] ];
  let d := fresh "d" in let Hd := fresh "Hd" in intros d Hd; cbn beta.

(** Reduces a field of an updated state to the field [proj s] of the state it comes from. *)
Ltac reduce_field t :=
  match t with
  | ?proj ?s =>
      match goal with |- context [proj ?x] => assert_fails (constr_eq x s); change (proj x) with (proj s) end
  end.

(** * Invariant *)

Definition radio_ok {SPI} {RF : RegisterFile SPI} (v : view) (s : radio SPI) : Prop :=
  shows (dev s) v /\ is_lora v = modem_eqb (Modem s) MODEM_LORA /\ ant_ok s /\
  length (RxTxBuffer s) = 256%nat /\ bytes (RxTxBuffer s).

(** Only the registers [ls] of the LoRa page and [ss] of the common part differ. *)
Definition keeps (ls ss : list Z) (v v' : view) : Prop :=
  (forall a, ~ In a ls -> lora_page v' a = lora_page v a) /\ (forall a, ~ In a ss -> shared v' a = shared v a).

Lemma keeps_trans ls1 ss1 ls2 ss2 u v w : keeps ls1 ss1 u v -> keeps ls2 ss2 v w -> keeps (ls1 ++ ls2) (ss1 ++ ss2) u w.
Proof.
  intros [H1 H2] [H3 H4]. split; intros a Ha; rewrite in_app_iff in Ha.
  - rewrite H3, H1 by tauto. done.
  - rewrite H4, H2 by tauto. done.
Qed.

(** Updates of the registers named in the lists. *)
Ltac other_register a Hin :=
  repeat match goal with
  | |- context [a =? ?r] => destruct (Z.eqb_spec a r); [subst; exfalso; apply Hin; cbn; tauto|]
  end.
Ltac solve_keeps :=
  let a := fresh "a" in let Hin := fresh "Hin" in
  split; intros a Hin; cbn; unfold upd; other_register a Hin; try done.

(** * LoRa transmission *)

Section Lora.
Context {SPI : SpiDevice} {RF : RegisterFile SPI}.
Implicit Types (s : radio SPI) (v : view).

Lemma sleep_test m : is_u8 m -> (Z.land m (Z.lnot RF_OPMODE_MASK) =? RF_OPMODE_SLEEP) = (Z.land m 7 =? 0).
Proof.
  intros Hm. apply Bool.eqb_prop. revert m Hm. apply forall_u8. reflexivity.
Qed.

Lemma testbit_u8 x i : 0 <= i < 8 -> Z.testbit (u8 x) i = Z.testbit x i.
Proof. intros. unfold u8. change 256 with (2 ^ 8). by rewrite Z.mod_pow2_bits_low by lia. Qed.

(** The direction of the signals for a transmission. *)
Lemma wp_send_iq s v Q : shows (dev s) v -> is_lora v = true ->
  (forall d x y, shows d (set_page true (set_page true v REG_LR_INVERTIQ x) REG_LR_INVERTIQ2 y) ->
    Z.testbit x 0 = negb (LoRa_IqInverted (LoRa s)) -> Q tt (s <| dev := d |>)) ->
  wp (if LoRa_IqInverted (LoRa s) then set_invert_iq RFLR_INVERTIQ_RX_OFF RFLR_INVERTIQ_TX_ON RFLR_INVERTIQ2_ON
      else set_invert_iq RFLR_INVERTIQ_RX_OFF RFLR_INVERTIQ_TX_OFF RFLR_INVERTIQ2_OFF) s Q.
Proof.
  intros Hs Hl HQ. destruct (LoRa_IqInverted (LoRa s)); apply (wp_invert_iq s v); try done; intros d Hd;
    apply (HQ d _ _ Hd); rewrite testbit_u8, Z.lor_spec, !Z.land_spec by lia; rewrite ?andb_false_r; reflexivity.
Qed.

(** Standby, if the chip sleeps. *)
Lemma wp_wake (k : ST (radio SPI) unit) s v Q : shows (dev s) v -> ant_ok s ->
  (forall d v' s', shows d v' -> ant_ok s' -> dev s' = d -> mode v' <> 0 -> is_lora v' = is_lora v ->
    lora_page v' = lora_page v -> lora_fifo v' = lora_fifo v -> keeps [] [REG_OPMODE] v v' ->
    Modem s' = Modem s -> LoRa s' = LoRa s -> RxTxBuffer s' = RxTxBuffer s -> wp k s' Q) ->
  wp (mode <- SX1272Read REG_OPMODE ;;
      swhen (Z.land mode (Z.lnot RF_OPMODE_MASK) =? RF_OPMODE_SLEEP) (SX1272SetStby ;;; DelayMs 1) ;;; k) s Q.
Proof.
  intros Hs Ha HQ. pose proof Hs as [_ Hv]. common. apply wp_bind. rewrite sleep_test by apply Hv.
  apply wp_when; intros Hm; cbn beta.
  - unfold SX1272SetStby. run_code. eapply wp_set_mode; [exact Hd| |by unfold RF_OPMODE_STANDBY|].
    { exact Ha. }
    intros d1 Hd1. run_code. eapply wp_delay; [exact Hd1| |].
    { rewrite mode_set_mode; done. }
    intros d2 Hd2. eapply (HQ d2 (set_mode v RF_OPMODE_STANDBY)); try done.
    + intros _. split; eauto.
    + by rewrite mode_set_mode.
    + by apply is_lora_set_mode.
    + unfold set_mode. solve_keeps.
  - apply Z.eqb_neq in Hm. by eapply (HQ d v).
Qed.

(** The packet is in the FIFO from address 0, its length in the register, the chip awake. *)
Lemma wp_send_lora s v buffer size Q : radio_ok v s -> Modem s = MODEM_LORA ->
  is_u8 size -> size <= zlen buffer -> bytes buffer ->
  (forall s' v', radio_ok v' s' -> Modem s' = MODEM_LORA -> LoRa s' = LoRa s ->
    lora_page v' REG_LR_PAYLOADLENGTH = size -> lora_page v' REG_LR_FIFOTXBASEADDR = 0 ->
    take (Z.to_nat size) (lora_fifo v') = take (Z.to_nat size) buffer ->
    Z.testbit (lora_page v' REG_LR_INVERTIQ) 0 = negb (LoRa_IqInverted (LoRa s)) ->
    keeps [REG_LR_INVERTIQ; REG_LR_INVERTIQ2; REG_LR_PAYLOADLENGTH; REG_LR_FIFOTXBASEADDR; REG_LR_FIFOADDRPTR]
      [REG_OPMODE] v v' ->
    Q tt s') ->
  wp (send_lora buffer size) s Q.
Proof.
  intros (Hs & Hl & Ha & Hb & Hby) Hm Hsz Hlen Hbytes HQ. rewrite Hm in Hl. change (is_lora v = true) in Hl. unfold is_u8 in Hsz.
  unfold send_lora. run_code. apply (wp_send_iq s v); [done|done|]. intros d x y Hd Hx.
  page true. page true. page true. eapply wp_wake; [eassumption|exact Ha|].
  intros d3 v3 s3 Hd3 Ha3 Edev Hmode Hl3 Hpage Hfifo Hkeep Hmodem Hlora Hbuf. subst d3.
  assert (is_lora v3 = true) as Hl3' by (rewrite Hl3; exact Hl).
  assert (lora_page v3 REG_LR_FIFOADDRPTR = 0) as Hptr by (by rewrite Hpage).
  pose proof (proj2 Hd3) as (_ & _ & _ & Hlen3 & _).
  eapply wp_write_fifo; [exact Hd3|lia|by apply Forall_take| |].
  { unfold fifo_room. rewrite Hl3', Hptr. split; [done|lia]. }
  intros d4 Hd4. unfold fifo_put in Hd4. rewrite Hl3', Hptr in Hd4.
  eapply HQ; [split_and!; [exact Hd4|..]| | | | | | |]; [..|clear HQ Hd4]; cbn.
  - rewrite Hmodem. unfold is_lora, opmode. cbn. rewrite Hm. exact Hl3'.
  - exact Ha3.
  - by rewrite Hbuf.
  - by rewrite Hbuf.
  - by rewrite Hmodem.
  - by rewrite Hlora.
  - rewrite Hpage. by apply u8_id.
  - by rewrite Hpage.
  - replace (Z.to_nat size) with (0 + length (take (Z.to_nat size) buffer))%nat at 1 by (rewrite length_take; lia).
    by rewrite take_splice by lia.
  - by rewrite Hpage.
  - destruct Hkeep as [_ Hk]. split; intros a Hin; cbn; [|by apply Hk].
    unfold upd. rewrite Hpage. cbn. unfold upd. by other_register a Hin.
Qed.

(** DIO0 signals the end of the transmission. *)
Lemma tx_mask_bits hopping : u8 (tx_irq_mask hopping) = tx_irq_mask hopping /\ Z.land (tx_irq_mask hopping) RFLR_IRQFLAGS_TXDONE = 0.
Proof. by destruct hopping. Qed.

Lemma dio0_mapping keep m dio0 : is_u8 m -> In keep [0x33; 0x3F] -> In dio0 [0x00; 0x40] ->
  Z.shiftr (u8 (Z.lor (Z.land m keep) dio0)) 6 = Z.shiftr dio0 6.
Proof.
  intros Hm Hk Hd. apply Z.eqb_eq. revert m Hm.
  destruct Hk as [<-|[<-|[]]]; destruct Hd as [<-|[<-|[]]]; apply forall_u8; reflexivity.
Qed.

Lemma wp_dio_mapping s v hopping dio0 Q : shows (dev s) v -> In dio0 [0x00; 0x40] ->
  (forall d x, shows d (set_common v REG_DIOMAPPING1 x) -> Z.shiftr x 6 = Z.shiftr dio0 6 -> Q tt (s <| dev := d |>)) ->
  wp (lora_dio_mapping hopping dio0) s Q.
Proof.
  intros Hs Hd0 HQ. pose proof Hs as [_ (Hv & _)].
  unfold lora_dio_mapping. destruct hopping; common; eapply HQ; [exact Hd| |exact Hd|].
  - replace (Z.lor dio0 RFLR_DIOMAPPING1_DIO2_00) with dio0 by (symmetry; apply Z.lor_0_r).
    apply dio0_mapping; [done|by left|done].
  - apply dio0_mapping; [done|by right; left|done].
Qed.

Lemma wp_set_tx_lora s v timeout Q : radio_ok v s -> Modem s = MODEM_LORA ->
  (forall s' v', radio_ok v' s' -> Modem s' = MODEM_LORA -> LoRa s' = LoRa s ->
    State s' = RF_TX_RUNNING -> TxTimeoutTimer s' = mkTimerView true timeout ->
    mode v' = RF_OPMODE_TRANSMITTER -> AntTx s' = Output 1 -> AntRx s' = Output 0 ->
    Z.land (lora_page v' REG_LR_IRQFLAGSMASK) RFLR_IRQFLAGS_TXDONE = 0 ->
    Z.shiftr (shared v' REG_DIOMAPPING1) 6 = 1 ->
    keeps [REG_LR_IRQFLAGSMASK] [REG_DIOMAPPING1; REG_OPMODE] v v' -> lora_fifo v' = lora_fifo v ->
    Q tt s') ->
  wp (SX1272SetTx timeout) s Q.
Proof.
  intros (Hs & Hl & Ha & Hb & Hby) Hm HQ. rewrite Hm in Hl. change (is_lora v = true) in Hl. unfold SX1272SetTx. run_code.
  change (Modem (s <| TxTimeoutTimer := _ |>)) with (Modem s). rewrite Hm. page true. run_code.
  eapply wp_dio_mapping; [exact Hd|by right; left|]. intros d1 x Hd1 Hx. run_code.
  pose proof (proj2 Hd1) as Hv1.
  eapply wp_set_mode; [exact Hd1|exact Ha|by unfold RF_OPMODE_TRANSMITTER|]. intros d2 Hd2.
  destruct (tx_mask_bits (FreqHopOn (LoRa s))) as [Hu Ht].
  eapply HQ; [split_and!; [exact Hd2|..]|..]; try done.
  - rewrite is_lora_set_mode by done. cbn. rewrite Hm. exact Hl.
  - intros _. split; eexists; reflexivity.
  - by apply mode_set_mode.
  - change (Z.land (u8 (tx_irq_mask (FreqHopOn (LoRa s)))) RFLR_IRQFLAGS_TXDONE = 0). by rewrite Hu.
  - unfold set_mode. solve_keeps.
Qed.

(** The whole of sending a packet. *)
Lemma wp_send s v buffer size Q : radio_ok v s -> Modem s = MODEM_LORA ->
  is_u8 size -> size <= zlen buffer -> bytes buffer ->
  (forall s' v', radio_ok v' s' -> State s' = RF_TX_RUNNING ->
    TxTimeoutTimer s' = mkTimerView true (LoRa_TxTimeout (LoRa s)) ->
    mode v' = RF_OPMODE_TRANSMITTER -> is_lora v' = true ->
    lora_page v' REG_LR_PAYLOADLENGTH = size -> lora_page v' REG_LR_FIFOTXBASEADDR = 0 ->
    take (Z.to_nat size) (lora_fifo v') = take (Z.to_nat size) buffer ->
    Z.land (lora_page v' REG_LR_IRQFLAGSMASK) RFLR_IRQFLAGS_TXDONE = 0 -> Z.shiftr (shared v' REG_DIOMAPPING1) 6 = 1 ->
    Z.testbit (lora_page v' REG_LR_INVERTIQ) 0 = negb (LoRa_IqInverted (LoRa s)) ->
    AntTx s' = Output 1 -> AntRx s' = Output 0 ->
    keeps [REG_LR_INVERTIQ; REG_LR_INVERTIQ2; REG_LR_PAYLOADLENGTH; REG_LR_FIFOTXBASEADDR; REG_LR_FIFOADDRPTR;
           REG_LR_IRQFLAGSMASK] [REG_OPMODE; REG_DIOMAPPING1; REG_OPMODE] v v' ->
    Q tt s') ->
  wp (SX1272Send buffer size) s Q.
Proof.
  intros Hok Hm Hsz Hlen Hby HQ. unfold SX1272Send. run_code. rewrite Hm. run_code.
  eapply wp_send_lora; [exact Hok|exact Hm|exact Hsz|exact Hlen|exact Hby|].
  intros s1 v1 Hok1 Hm1 Hl1 Hsize Hbase Hfifo Hiq Hk1. run_code.
  eapply wp_set_tx_lora; [exact Hok1|exact Hm1|].
  intros s2 v2 Hok2 Hm2 Hl2 Hst Hti Hmo Hat Har Hmask Hdio Hk2 Hff. pose proof (proj1 Hk2) as Hsame.
  assert (is_lora v2 = true) as Hlo by (destruct Hok2 as (_ & E & _); by rewrite E, Hm2).
  rewrite Hl1 in Hti.
  apply (HQ s2 v2); rewrite ?Hff, ?(Hsame REG_LR_PAYLOADLENGTH), ?(Hsame REG_LR_FIFOTXBASEADDR), ?(Hsame REG_LR_INVERTIQ)
    by (intros [E|[]]; discriminate E); try done.
  exact (keeps_trans _ _ _ _ _ _ _ Hk1 Hk2).
Qed.

(** Sending a packet with the LoRa modem writes its bytes to the FIFO from address 0 and its
    length to the register, wakes the chip first if it sleeps, selects the interrupt and the
    signal path of a transmission, switches the antenna, starts the timeout, and puts the chip in
    transmit mode. *)
Theorem lora_send_correct s v buffer size : radio_ok v s -> Modem s = MODEM_LORA ->
  is_u8 size -> size <= zlen buffer -> bytes buffer ->
  wp (SX1272Send buffer size) s (fun _ s' => exists v', radio_ok v' s' /\
    State s' = RF_TX_RUNNING /\ TxTimeoutTimer s' = mkTimerView true (LoRa_TxTimeout (LoRa s)) /\
    mode v' = RF_OPMODE_TRANSMITTER /\ is_lora v' = true /\
    reg v' REG_LR_PAYLOADLENGTH = size /\ reg v' REG_LR_FIFOTXBASEADDR = 0 /\
    take (Z.to_nat size) (lora_fifo v') = take (Z.to_nat size) buffer /\
    Z.land (reg v' REG_LR_IRQFLAGSMASK) RFLR_IRQFLAGS_TXDONE = 0 /\ Z.shiftr (reg v' REG_DIOMAPPING1) 6 = 1 /\
    Z.testbit (reg v' REG_LR_INVERTIQ) 0 = negb (LoRa_IqInverted (LoRa s)) /\
    AntTx s' = Output 1 /\ AntRx s' = Output 0).
Proof.
  intros Hok Hm Hsz Hlen Hby. apply (wp_send s v); try done. intros s' v'. intros. exists v'.
  rewrite (reg_page v' true REG_LR_PAYLOADLENGTH), (reg_page v' true REG_LR_FIFOTXBASEADDR),
    (reg_page v' true REG_LR_IRQFLAGSMASK), (reg_page v' true REG_LR_INVERTIQ), (reg_common v' REG_DIOMAPPING1) by done.
  by split_and!.
Qed.

(** * LoRa reception *)

Context {RC : RadioClient SPI}.

(** The SNR in dB is the register value divided by four. *)
Lemma snr_dB_quot x : is_u8 x -> snr_dB (s8 x) = Z.quot (s8 x) 4.
Proof. intros Hx. apply Z.eqb_eq. revert x Hx. apply forall_u8. reflexivity. Qed.

(** The state in which the end of a reception is signalled to the upper layer. *)
Definition rx_ended s : Prop :=
  running (RxTimeoutTimer s) = false /\ State s = if LoRa_RxContinuous (LoRa s) then RF_RX_RUNNING else RF_IDLE.

Lemma notify_calls e ev s : RadioEvents s = Some ev -> has_callback e ev = true ->
  notify e s = (let* s' := on_event e s in Done (tt, s')).
Proof. intros H1 H2. unfold notify. by rewrite H1, H2. Qed.

Lemma crc_error_test f : is_u8 f ->
  (Z.land (Z.land f (Z.lnot (u8 RFLR_IRQFLAGS_RXDONE))) RFLR_IRQFLAGS_PAYLOADCRCERROR_MASK =? RFLR_IRQFLAGS_PAYLOADCRCERROR) =
  Z.testbit f 5 /\ Z.testbit (Z.land f (Z.lnot (u8 RFLR_IRQFLAGS_RXDONE))) 6 = false.
Proof.
  intros Hf. split; apply Bool.eqb_prop; revert f Hf; apply forall_u8; reflexivity.
Qed.

Lemma lora_rssi_value r x : is_u8 r -> is_u8 x ->
  lora_rssi r (snr_dB (s8 x)) = RSSI_OFFSET + r + r / 16 + Z.min 0 (Z.quot (s8 x) 4).
Proof.
  intros Hr Hx. rewrite snr_dB_quot by done. unfold lora_rssi, RSSI_OFFSET. rewrite Z.shiftr_div_pow2 by lia.
  change (2 ^ 4) with 16. assert (-32 <= Z.quot (s8 x) 4 <= 31) as Hq.
  { assert ((-32 <=? Z.quot (s8 x) 4) && (Z.quot (s8 x) 4 <=? 31) = true) as E
      by (revert x Hx; apply forall_u8; reflexivity).
    apply andb_true_iff in E as [E1%Z.leb_le E2%Z.leb_le]. done. }
  unfold is_u8 in Hr. destruct (Z.ltb_spec (Z.quot (s8 x) 4) 0); unfold s16; lia.
Qed.

Lemma wp_end_reception s v Q : radio_ok v s -> State s = RF_RX_RUNNING ->
  (forall s', radio_ok v s' -> rx_ended s' -> LoRa s' = LoRa s -> LoRaPacketHandler s' = LoRaPacketHandler s ->
    RadioEvents s' = RadioEvents s -> RxTxBuffer s' = RxTxBuffer s -> Q tt s') ->
  wp end_reception s Q.
Proof.
  intros Hok Hst HQ. unfold end_reception. run_code. destruct (LoRa_RxContinuous (LoRa s)) eqn:Ec; cbn [negb swhen]; run_code;
    (apply HQ; [exact Hok|split; [done|cbn; by rewrite Ec, ?Hst]|done..]).
Qed.

(** The packet is copied to the buffer, its quality to the packet handler. *)
Lemma wp_read_packet s v Q : radio_ok v s -> is_lora v = true -> mode v <> RF_OPMODE_SLEEP -> lora_page v REG_LR_FIFOADDRPTR = 0 ->
  (forall s' v', radio_ok v' s' -> is_lora v' = true -> State s' = State s -> LoRa s' = LoRa s -> RadioEvents s' = RadioEvents s ->
    (forall a, a <> REG_LR_FIFOADDRPTR -> lora_page v' a = lora_page v a) ->
    let n := lora_page v REG_LR_RXNBBYTES in let snr := s8 (lora_page v REG_LR_PKTSNRVALUE) in
    let p := lora_page v REG_LR_PKTRSSIVALUE in
    LoRaPacketHandler s' = mkLoRaPkt snr (-139 + p + p / 16 + Z.min 0 (Z.quot snr 4)) n ->
    take (Z.to_nat n) (RxTxBuffer s') = take (Z.to_nat n) (lora_fifo v) -> Q tt s') ->
  wp read_packet s Q.
Proof.
  intros (Hs & Hl & Ha & Hb & Hby) Hlv Hmode Hptr HQ. pose proof (proj2 Hs) as (_ & _ & Hpage & Hflen & Hfb & _).
  unfold read_packet. run_code. eapply (wp_read_status true); [exact Hs|exact Hlv|done|]. intros d1 Hd1. run_code.
  eapply (wp_read_status true); [exact Hd1|exact Hlv|done|]. intros d2 Hd2. run_code.
  eapply (wp_read_status true); [exact Hd2|exact Hlv|done|]. intros d3 Hd3. run_code. cbn [get_page].
  rewrite lora_rssi_value by apply Hpage. pose proof (Hpage REG_LR_RXNBBYTES) as Hn.
  set (n := lora_page v REG_LR_RXNBBYTES) in *. unfold is_u8 in Hn.
  eapply wp_read_fifo; [exact Hd3|lia| |lia|reduce_field (RxTxBuffer s); rewrite Hb; lia|].
  { unfold fifo_filled. rewrite Hlv, Hptr. split; [exact Hmode|lia]. }
  intros d4 Hd4 Hbytes Hlen. unfold fifo_get in *. rewrite Hlv in *. cbn [fst snd] in *. rewrite Hptr in *.
  change (drop (Z.to_nat 0) (lora_fifo v)) with (lora_fifo v) in *.
  eapply HQ; [split_and!; [exact Hd4|exact (eq_trans Hlv Hl)|exact Ha| |]|exact Hlv|done|done|done| |done|].
  - cbn -[splice]. rewrite splice_length; [done|]. change (Z.to_nat 0) with 0%nat. lia.
  - by apply splice_bytes.
  - intros a Hne. cbn. unfold upd. by rewrite (proj2 (Z.eqb_neq _ _) Hne).
  - cbn -[splice take]. fold n. rewrite <- Hlen at 1. apply (take_splice (RxTxBuffer s) 0). lia.
Qed.

(** C30: when the LoRa modem signals the end of a reception, exactly one callback runs, in a state in
    which the timeout is stopped, the flag is cleared and, unless reception is continuous, the
    driver is idle: [RxError] if the chip found a wrong checksum, otherwise [RxDone] with the
    bytes of the packet, its size, the raw SNR and the signal strength in dBm. *)
Theorem lora_receive_correct s v ev : radio_ok v s -> State s = RF_RX_RUNNING -> Modem s = MODEM_LORA ->
  RadioEvents s = Some ev -> has_RxDone ev = true -> has_RxError ev = true ->
  mode v <> RF_OPMODE_SLEEP -> reg v REG_LR_FIFOADDRPTR = 0 ->
  exists e s1 v1, SX1272OnDio0Irq s = (let* s' := on_event e s1 in Done (tt, s')) /\
    radio_ok v1 s1 /\ rx_ended s1 /\ LoRa s1 = LoRa s /\ Z.testbit (reg v1 REG_LR_IRQFLAGS) 6 = false /\
    if Z.testbit (reg v REG_LR_IRQFLAGS) 5 then e = RxError /\ Z.testbit (reg v1 REG_LR_IRQFLAGS) 5 = false
    else let n := reg v REG_LR_RXNBBYTES in let snr := s8 (reg v REG_LR_PKTSNRVALUE) in
         let p := reg v REG_LR_PKTRSSIVALUE in
         e = RxDone (RxTxBuffer s1) n (-139 + p + p / 16 + Z.min 0 (Z.quot snr 4)) snr /\
         take (Z.to_nat n) (RxTxBuffer s1) = take (Z.to_nat n) (lora_fifo v).
Proof.
  intros (Hs & Hl & Ha & Hb & Hby) Hst Hm Hev Hd1 Hd2 Hmode Hptr. pose proof (proj2 Hs) as (_ & _ & Hpage & _).
  pose proof Hl as Hl'. rewrite Hm in Hl'. change (is_lora v = true) in Hl'.
  destruct (crc_error_test (lora_page v REG_LR_IRQFLAGS) (Hpage _)) as [Hcrc Hdone].
  assert (forall w a, is_lora w = true -> paged a = true -> reg w a = lora_page w a) as Hreg
    by (intros w a E1 E2; unfold reg; by rewrite E1, E2).
  rewrite !(Hreg v) in * by done.
  match goal with |- exists e s1 v1, _ = _ /\ @?R e s1 v1 =>
    change (leads SX1272OnDio0Irq s (fun r => exists e s1 v1, r = (let* s' := on_event e s1 in Done (tt, s')) /\ R e s1 v1)) end.
  unfold SX1272OnDio0Irq. run_code. rewrite Hst, Hm. unfold rx_done_lora. run_code.
  eapply (wp_clear_flags true); [exact Hs|exact Hl'|done|]. intros d1 Hdv1. run_code.
  eapply (wp_read_status true); [exact Hdv1|exact Hl'|done|]. intros d2 Hdv2. cbn beta.
  set (w := set_page true v REG_LR_IRQFLAGS _) in *.
  change (get_page true w REG_LR_IRQFLAGS) with (Z.land (lora_page v REG_LR_IRQFLAGS) (Z.lnot (u8 RFLR_IRQFLAGS_RXDONE))).
  rewrite Hcrc. destruct (Z.testbit (lora_page v REG_LR_IRQFLAGS) 5) eqn:Eerr.
  - run_code. eapply (wp_clear_flags true); [exact Hdv2|exact Hl'|done|]. intros d3 Hdv3. run_code.
    eapply wp_end_reception; [split_and!; [exact Hdv3|exact Hl|exact Ha|exact Hb|exact Hby]|exact Hst|].
    intros s4 Hok4 Hend Hlo _ Hev4 _. unfold leads.
    exists RxError, s4, (set_page true w REG_LR_IRQFLAGS (Z.land (get_page true w REG_LR_IRQFLAGS)
      (Z.lnot (u8 RFLR_IRQFLAGS_PAYLOADCRCERROR)))). rewrite Hreg by (exact Hl' || done).
    split; [eapply notify_calls; [by rewrite Hev4|exact Hd2]|]. split; [exact Hok4|]. split; [done|]. split; [done|].
    cbn -[Z.land Z.lnot Z.testbit u8]. rewrite !Z.land_spec. change (Z.testbit (Z.lnot (u8 RFLR_IRQFLAGS_RXDONE)) 6) with false.
    change (Z.testbit (Z.lnot (u8 RFLR_IRQFLAGS_PAYLOADCRCERROR)) 5) with false. by rewrite ?andb_false_r.
  - run_code. eapply (wp_read_packet _ w); [split_and!; [exact Hdv2|exact Hl|exact Ha|exact Hb|exact Hby]|exact Hl'|exact Hmode|exact Hptr|].
    intros s3 v3 Hok3 Hl3 Hst3 Hlo3 Hev3 Hsame n snr p Hh Htake. run_code.
    eapply wp_end_reception; [exact Hok3|by rewrite Hst3|]. intros s4 Hok4 Hend Hlo Hh4 Hev4 Hb4. cbn beta.
    apply leads_bind, wp_get. unfold leads. rewrite Hh4, Hh. eexists _, s4, v3. rewrite (Hreg v3) by done.
    rewrite (Hsame REG_LR_IRQFLAGS) by done.
    split; [eapply notify_calls; [by rewrite Hev4, Hev3|exact Hd1]|]. split; [exact Hok4|]. split; [done|].
    split; [by rewrite Hlo|]. split; [exact Hdone|]. split; [done|]. by rewrite Hb4.
Qed.
End Lora.

(** * FSK transmission: the packet goes to the FIFO in chunks *)

Section Fsk.
Context {SPI : SpiDevice} {RF : RegisterFile SPI} {RC : RadioClient SPI}.
Implicit Types (s : radio SPI) (v : view).

(** [n] interrupts on DIO1. *)
Fixpoint dio1_irqs (n : nat) : ST (radio SPI) unit :=
  match n with
  | O => sret tt
  | S n' => dio1_irqs n' ;;; SX1272OnDio1Irq
  end.

(** The first [sent] bytes of [data] are in the FIFO, the next chunk comes from [RxTxBuffer]. *)
Definition sending (data : list Z) (chunk sent : Z) s : Prop :=
  State s = RF_TX_RUNNING /\ Modem s = MODEM_FSK /\
  Fsk_Size (FskPacketHandler s) = zlen data /\ NbBytes (FskPacketHandler s) = sent /\
  ChunkSize (FskPacketHandler s) = chunk /\
  (sent < zlen data -> take (length data) (RxTxBuffer s) = data).

Lemma chunk_of_buffer (data buf : list Z) sent n : take (length data) buf = data -> 0 <= sent -> 0 <= n ->
  sent + n <= zlen data -> take (Z.to_nat sent) data ++ take (Z.to_nat n) (drop (Z.to_nat sent) buf) = take (Z.to_nat (sent + n)) data.
Proof.
  intros Hb Hs Hn Hl. assert (length data <= length buf)%nat as Hlen.
  { rewrite <- Hb at 1. rewrite length_take. lia. }
  rewrite <- (take_drop (length data) buf), Hb, drop_app_le, take_app_le by (rewrite ?length_drop; lia).
  replace (Z.to_nat (sent + n)) with (Z.to_nat sent + Z.to_nat n)%nat by lia.
  rewrite <- (drop_0 data) at 1 3. rewrite take_add_drop. by rewrite drop_0.
Qed.

(** One interrupt moves the next chunk, or the rest. *)
Lemma wp_fifo_empty data chunk sent s v Q : radio_ok v s -> sending data chunk sent s -> zlen data <= 255 ->
  0 < chunk <= 255 -> 0 <= sent <= zlen data ->
  (forall s' v', radio_ok v' s' -> sending data chunk (Z.min (zlen data) (sent + chunk)) s' ->
    (forall out, fsk_out v = out ++ take (Z.to_nat sent) data ->
       fsk_out v' = out ++ take (Z.to_nat (Z.min (zlen data) (sent + chunk))) data) -> Q tt s') ->
  wp SX1272OnDio1Irq s Q.
Proof.
  intros (Hs & Hl & Ha & Hb & Hby) (Hst & Hm & Hsz & Hnb & Hch & Hbuf) Hd Hc Hsent HQ.
  rewrite Hm in Hl. change (is_lora v = false) in Hl.
  unfold SX1272OnDio1Irq. run_code. rewrite Hst, Hm. unfold fifo_empty. run_code.
  rewrite Hsz, Hnb, Hch. set (n := if chunk <? zlen data - sent then chunk else zlen data - sent).
  assert (n = Z.min (zlen data) (sent + chunk) - sent /\ 0 <= n <= 255) as [Hn Hn'].
  { unfold n. destruct (Z.ltb_spec chunk (zlen data - sent)); lia. }
  rewrite (u8_id n) by (unfold is_u8; lia).
  eapply wp_write_fifo; [exact Hs| | | |].
  - rewrite length_drop, Hb. lia.
  - by apply Forall_take, Forall_drop.
  - unfold fifo_room. by rewrite Hl.
  - intros d1 Hd1. run_code. unfold fifo_put in Hd1. rewrite Hl in Hd1.
    eapply HQ; [split_and!; [exact Hd1|cbn; by rewrite Hm|done..]
               |split_and!; [exact Hst|exact Hm|exact Hsz| |exact Hch|]|].
    + change (u16 (NbBytes (FskPacketHandler s) + n) = Z.min (zlen data) (sent + chunk)). rewrite Hnb, u16_id by (unfold is_u16; lia). lia.
    + intros Hlt. apply Hbuf. lia.
    + intros out Ho. change (fsk_out _) with (fsk_out v ++ take (Z.to_nat n) (drop (Z.to_nat sent) (RxTxBuffer s))).
      rewrite Ho, <- app_assoc. f_equal.
      destruct (decide (n = 0)) as [E0|E0].
      * replace (Z.min (zlen data) (sent + chunk)) with sent by lia. rewrite E0. change (Z.to_nat 0) with 0%nat.
        by rewrite app_nil_r.
      * rewrite chunk_of_buffer by (lia || apply Hbuf; lia). do 2 f_equal. lia.
Qed.

Definition chunk_of (size : Z) : Z := if size <=? 64 then size else 32.

(** The length and the first chunk. *)
Lemma wp_send_fsk s v buffer size Q : radio_ok v s -> Modem s = MODEM_FSK -> Fsk_FixLen (Fsk s) = false ->
  1 <= size <= 255 -> size <= zlen buffer -> bytes buffer ->
  (forall s' v', radio_ok v' s' -> Modem s' = MODEM_FSK -> Fsk s' = Fsk s ->
    sending (take (Z.to_nat size) buffer) (chunk_of size) (chunk_of size) (s' <| State := RF_TX_RUNNING |>) ->
    fsk_out v' = fsk_out v ++ [size] ++ take (Z.to_nat (chunk_of size)) (take (Z.to_nat size) buffer) -> Q tt s') ->
  wp (send_fsk buffer size) s Q.
Proof.
  intros (Hs & Hl & Ha & Hb & Hby) Hm Hfix Hsz Hlen Hbytes HQ.
  rewrite Hm in Hl. change (is_lora v = false) in Hl.
  assert (zlen (take (Z.to_nat size) buffer) = size) as Hdata by (rewrite length_take; lia).
  unfold send_fsk. run_code. reduce_field (Fsk s). rewrite Hfix.
  eapply (wp_write_fifo _ _ [size] 1); [exact Hs|simpl; lia|repeat constructor; unfold is_u8; lia|unfold fifo_room; by rewrite Hl|].
  intros d1 Hd1. unfold fifo_put in Hd1. rewrite Hl in Hd1. run_code.
  assert (chunk_of size <= zlen buffer /\ 0 < chunk_of size <= 64 /\ chunk_of size <= size) as (Hc & Hc0 & Hcs).
  { unfold chunk_of. destruct (Z.leb_spec size 64); lia. }
  set (prepare := (if (0 <? size) && (size <=? 64) then _ else _) : ST (radio SPI) unit).
  match goal with |- wp prepare ?s1 _ =>
    assert (wp prepare s1 (fun _ s' => exists b, length b = 256%nat /\ bytes b /\
      (64 < size -> take (Z.to_nat size) b = take (Z.to_nat size) buffer) /\
      s' = s1 <| RxTxBuffer := b |> <| FskPacketHandler ::= fun h => h <| ChunkSize := chunk_of size |> |>)) as Hp end.
  { unfold prepare, chunk_of. rewrite (proj2 (Z.ltb_lt 0 size)) by lia. cbn [andb]. destruct (Z.leb_spec size 64).
    - run_code. exists (RxTxBuffer s). split_and!; try done. lia.
    - unfold copy_to_buffer. run_code. eapply wp_lift; [apply rdn_ok; lia|]. run_code.
      eapply wp_lift; [apply wrn_ok; cbn [RxTxBuffer]; [lia|]|].
      { reduce_field (RxTxBuffer s). rewrite Hb, drop_0. lia. }
      run_code. change (Z.to_nat 0) with 0%nat. rewrite drop_0. eexists. split_and!; [| | |reflexivity].
      + reduce_field (RxTxBuffer s). rewrite take_0, !length_app, length_drop, Hb. cbn [app length]. lia.
      + reduce_field (RxTxBuffer s). rewrite !Forall_app. split_and!; [done|by apply Forall_take|by apply Forall_drop].
      + intros _. rewrite take_0. cbn [app]. rewrite take_app_length'; [done|]. lia. }
  clearbody prepare. eapply wp_mono; [exact Hp|]. intros [] s2 (b & Hb1 & Hb2 & Hb3 & ->). run_code.
  match goal with |- context [ChunkSize ?h] => change (ChunkSize h) with (chunk_of size) end.
  eapply wp_write_fifo; [exact Hd1|lia|by apply Forall_take| |].
  { unfold fifo_room. change (is_lora _) with (is_lora v). by rewrite Hl. }
  intros d2 Hd2. unfold fifo_put in Hd2. change (is_lora (v <| fsk_out ::= _ |>)) with (is_lora v) in Hd2. rewrite Hl in Hd2.
  run_code. eapply HQ; [split_and!; [exact Hd2|cbn; by rewrite Hm|exact Ha|exact Hb1|exact Hb2]|exact Hm|done| |].
  - split_and!; [done|exact Hm|by rewrite Hdata| |done|].
    + change (u16 (0 + chunk_of size) = chunk_of size). rewrite u16_id; [lia|]. unfold is_u16. lia.
    + rewrite Hdata. intros Hlt. unfold chunk_of in Hlt. destruct (Z.leb_spec size 64); [lia|].
      replace (length (take (Z.to_nat size) buffer)) with (Z.to_nat size) by lia. by apply Hb3.
  - change ((fsk_out v ++ take (Z.to_nat 1) [size]) ++ take (Z.to_nat (chunk_of size)) buffer =
      fsk_out v ++ [size] ++ take (Z.to_nat (chunk_of size)) (take (Z.to_nat size) buffer)).
    rewrite <- app_assoc, take_take. do 3 f_equal. lia.
Qed.

Lemma wp_set_tx_fsk s v timeout Q : radio_ok v s -> Modem s = MODEM_FSK ->
  (forall s' v', radio_ok v' s' -> Modem s' = MODEM_FSK -> State s' = RF_TX_RUNNING ->
    TxTimeoutTimer s' = mkTimerView true timeout -> mode v' = RF_OPMODE_TRANSMITTER ->
    RxTxBuffer s' = RxTxBuffer s -> fsk_out v' = fsk_out v ->
    FskPacketHandler s' = (FskPacketHandler s) <| FifoThresh := FifoThresh (FskPacketHandler s') |> -> Q tt s') ->
  wp (SX1272SetTx timeout) s Q.
Proof.
  intros (Hs & Hl & Ha & Hb & Hby) Hm HQ. rewrite Hm in Hl. change (is_lora v = false) in Hl.
  unfold SX1272SetTx. run_code. reduce_field (Modem s). rewrite Hm. common. common. page false. run_code.
  pose proof (proj2 Hd1) as Hv1.
  eapply wp_set_mode; [eassumption|exact Ha|by unfold RF_OPMODE_TRANSMITTER|]. intros d2 Hd2.
  eapply HQ; [split_and!; [exact Hd2| | |exact Hb|exact Hby]|..]; try done.
  - rewrite is_lora_set_mode by done. cbn. rewrite Hm. exact Hl.
  - intros _. split; eexists; reflexivity.
  - by apply mode_set_mode.
Qed.


(** ** FSK reception *)

(** The size of the packet and [got] bytes of it have been read; [rest] follows in the FIFO. *)
Definition known (data rest : list Z) (got : Z) v s : Prop :=
  0 <= got <= zlen data /\ Fsk_Size (FskPacketHandler s) = zlen data /\ NbBytes (FskPacketHandler s) = got /\
  fsk_in v = drop (Z.to_nat got) data ++ rest /\
  take (Z.to_nat got) (RxTxBuffer s) = take (Z.to_nat got) data.

Definition receiving (data rest : list Z) v s : Prop :=
  radio_ok v s /\ State s = RF_RX_RUNNING /\ Modem s = MODEM_FSK /\
  ((Fsk_Size (FskPacketHandler s) = 0 /\ NbBytes (FskPacketHandler s) = 0 /\ fsk_in v = zlen data :: data ++ rest) \/
   exists got, known data rest got v s).

(** What reading does not change. *)
Definition same_settings s s' : Prop :=
  Fsk s' = Fsk s /\ RadioEvents s' = RadioEvents s /\ FifoThresh (FskPacketHandler s') = FifoThresh (FskPacketHandler s) /\
  Fsk_RssiValue (FskPacketHandler s') = Fsk_RssiValue (FskPacketHandler s).

Lemma wp_learn_size data rest s v Q : receiving data rest v s -> Fsk_FixLen (Fsk s) = false -> 1 <= zlen data <= 255 ->
  (forall s' v' got, receiving data rest v' s' -> known data rest got v' s' -> same_settings s s' ->
    (forall a, fsk_page v' a = fsk_page v a) -> Q tt s') ->
  wp (swhen (size_unknown (FskPacketHandler s)) read_size) s Q.
Proof.
  intros Hr Hfix Hd HQ. pose proof Hr as ((Hs & Hl & Ha & Hb & Hby) & Hst & Hm & Hc).
  rewrite Hm in Hl. change (is_lora v = false) in Hl. unfold size_unknown.
  destruct Hc as [(Hz & Hn & Hin) | [got Hk]].
  - rewrite Hz, Hn. cbn [Z.eqb andb swhen]. unfold read_size. run_code. rewrite Hfix. run_code.
    eapply wp_read_bytes; [exact Hs|lia| |].
    { unfold fifo_filled. rewrite Hl, Hin. cbn [length]. lia. }
    intros d1 Hd1 _ _. unfold fifo_get in *. rewrite Hl in *. cbn [fst snd] in *. rewrite Hin in *.
    change (take (Z.to_nat 1) (zlen data :: data ++ rest)) with [zlen data] in *. run_code.
    eapply wp_lift; [reflexivity|]. run_code.
    match goal with |- Q tt ?s' => assert (known data rest 0 (v <| fsk_in ::= drop (Z.to_nat 1) |>) s') as Hk end.
    { split_and!; [lia|lia| | | |done].
      - change (Z.lor (Z.land (Fsk_Size (FskPacketHandler s)) 0xFF00) (zlen data) = zlen data). by rewrite Hz.
      - exact Hn.
      - cbn [fsk_in update]. cbn. by rewrite Hin. }
    eapply (HQ _ (v <| fsk_in ::= drop (Z.to_nat 1) |>) 0); [split_and!|exact Hk|by split_and!|done].
    + split_and!; [exact Hd1|cbn; rewrite Hm; exact Hl|exact Ha|exact Hb|exact Hby].
    + exact Hst.
    + exact Hm.
    + right. by exists 0.
  - pose proof Hk as (_ & H2 & _). rewrite H2, (proj2 (Z.eqb_neq (zlen data) 0)) by lia. cbn [andb swhen]. run_code.
    by eapply (HQ s v got).
Qed.

Lemma wp_read_chunk data rest got n s v Q : receiving data rest v s -> known data rest got v s -> zlen data <= 255 ->
  0 <= n <= zlen data - got ->
  (forall s' v', receiving data rest v' s' -> known data rest (got + n) v' s' -> same_settings s s' ->
    (forall a, fsk_page v' a = fsk_page v a) -> Q tt s') ->
  wp (read_chunk n) s Q.
Proof.
  intros Hr (H1 & H2 & H3 & H4 & H5) Hd Hn HQ. pose proof Hr as ((Hs & Hl & Ha & Hb & Hby) & Hst & Hm & _).
  rewrite Hm in Hl. change (is_lora v = false) in Hl. unfold read_chunk. run_code.
  rewrite (u8_id n) by (unfold is_u8; lia). rewrite H3.
  eapply wp_read_fifo; [exact Hs|lia| |lia| |].
  { unfold fifo_filled. rewrite Hl, H4, length_app, length_drop. lia. }
  { rewrite Hb. lia. }
  intros d1 Hd1 Hby1 Hlen1. unfold fifo_get in *. rewrite Hl in *. cbn [fst snd] in *. rewrite H4 in *.
  rewrite take_app_le in * by (rewrite length_drop; lia). run_code.
  set (w := v <| fsk_in ::= drop (Z.to_nat n) |>) in *.
  match goal with |- Q tt ?s' => assert (known data rest (got + n) w s') as Hk end.
  { split_and!; [lia|lia|exact H2| | |].
    - change (u16 (NbBytes (FskPacketHandler s) + n) = got + n). rewrite H3. apply u16_id. unfold is_u16. lia.
    - unfold w. cbn. rewrite H4, drop_app_le, drop_drop by (rewrite length_drop; lia). do 2 f_equal. lia.
    - match goal with |- context [RxTxBuffer ?x] => change (RxTxBuffer x) with
        (splice (RxTxBuffer s) (Z.to_nat got) (take (Z.to_nat n) (drop (Z.to_nat got) data))) end.
      replace (Z.to_nat (got + n)) with (Z.to_nat got + length (take (Z.to_nat n) (drop (Z.to_nat got) data)))%nat at 1 by lia.
      rewrite take_splice, H5 by lia. replace (Z.to_nat (got + n)) with (Z.to_nat got + Z.to_nat n)%nat by lia.
      rewrite <- (drop_0 data) at 1 3. rewrite take_add_drop. by rewrite drop_0. }
  eapply (HQ _ w); [split_and!|exact Hk|by split_and!|done].
  - split_and!; [exact Hd1|cbn; rewrite Hm; exact Hl|exact Ha| |].
    + match goal with |- context [RxTxBuffer ?x] => change (RxTxBuffer x) with
        (splice (RxTxBuffer s) (Z.to_nat got) (take (Z.to_nat n) (drop (Z.to_nat got) data))) end.
      rewrite splice_length by lia. done.
    + by apply splice_bytes.
  - exact Hst.
  - exact Hm.
  - right. by exists (got + n).
Qed.

Lemma same_settings_trans s s' s'' : same_settings s s' -> same_settings s' s'' -> same_settings s s''.
Proof. intros (A1 & A2 & A3 & A4) (B1 & B2 & B3 & B4). split_and!; congruence. Qed.

Lemma wp_fifo_level data rest s v Q : receiving data rest v s -> Fsk_FixLen (Fsk s) = false -> 1 <= zlen data <= 255 ->
  0 <= FifoThresh (FskPacketHandler s) ->
  (forall s' v', receiving data rest v' s' -> same_settings s s' -> (forall a, fsk_page v' a = fsk_page v a) -> Q tt s') ->
  wp SX1272OnDio1Irq s Q.
Proof.
  intros Hr Hfix Hd Ht HQ. pose proof Hr as (_ & Hst & Hm & _).
  unfold SX1272OnDio1Irq. run_code. rewrite Hst, Hm. unfold fifo_level. run_code.
  eapply wp_learn_size; [exact Hr|done|done|]. intros s1 v1 got Hr1 Hk1 Hs1 Hp1. run_code.
  pose proof Hk1 as (G1 & G2 & G3 & _). pose proof Hs1 as (_ & _ & Et & _). rewrite G2, G3, Et.
  destruct (Z.ltb_spec (FifoThresh (FskPacketHandler s)) (zlen data - got)); [|unfold read_rest; run_code; rewrite G2, G3];
    (eapply wp_read_chunk; [exact Hr1|exact Hk1|lia|lia|]); intros s2 v2 Hr2 _ Hs2 Hp2;
    (apply (HQ s2 v2 Hr2); [by eapply same_settings_trans|intros a; by rewrite Hp2]).
Qed.

Lemma wp_fifo_levels data rest j s v Q : receiving data rest v s -> Fsk_FixLen (Fsk s) = false -> 1 <= zlen data <= 255 ->
  0 <= FifoThresh (FskPacketHandler s) ->
  (forall s' v', receiving data rest v' s' -> same_settings s s' -> (forall a, fsk_page v' a = fsk_page v a) -> Q tt s') ->
  wp (dio1_irqs j) s Q.
Proof.
  intros Hr Hfix Hd Ht. revert Q. induction j as [|j IH]; intros Q HQ; cbn [dio1_irqs]; run_code.
  - by apply (HQ s v).
  - apply IH. intros s1 v1 Hr1 Hs1 Hp1. pose proof Hs1 as (E1 & _ & E3 & _).
    eapply wp_fifo_level; [exact Hr1|by rewrite E1|done|by rewrite E3|]. intros s2 v2 Hr2 Hs2 Hp2.
    apply (HQ s2 v2 Hr2); [by eapply same_settings_trans|]. intros a. by rewrite Hp2.
Qed.

(** The reception ends, or the receiver starts again in continuous mode. *)
Lemma wp_restart_or_end s v Q : radio_ok v s -> Modem s = MODEM_FSK ->
  (forall s' v', radio_ok v' s' -> RxTxBuffer s' = RxTxBuffer s -> FskPacketHandler s' = FskPacketHandler s ->
    RadioEvents s' = RadioEvents s -> RxTimeoutTimer s' = RxTimeoutTimer s -> fsk_in v' = fsk_in v ->
    (if Fsk_RxContinuous (Fsk s) then State s' = State s /\ running (RxTimeoutSyncWord s') = true
     else State s' = RF_IDLE /\ running (RxTimeoutSyncWord s') = false) -> Q tt s') ->
  wp restart_or_end s Q.
Proof.
  intros (Hs & Hl & Ha & Hb & Hby) Hm HQ. rewrite Hm in Hl. change (is_lora v = false) in Hl.
  unfold restart_or_end. run_code. destruct (Fsk_RxContinuous (Fsk s)).
  - page false. page false. run_code.
    eapply HQ; [split_and!; [exact Hd0|cbn; rewrite Hm; exact Hl|exact Ha|exact Hb|exact Hby]|..]; done.
  - run_code. eapply HQ; [split_and!; [exact Hs|cbn; rewrite Hm; exact Hl|exact Ha|exact Hb|exact Hby]|..]; done.
Qed.

End Fsk.

(** * Configuration *)

Section Config.
Context {SPI : SpiDevice} {RF : RegisterFile SPI}.
Implicit Types (s : radio SPI) (v : view).

Lemma modem_bit m on : is_u8 m -> In on [0x00; 0x80] ->
  Z.testbit (u8 (Z.lor (Z.land m RFLR_OPMODE_LONGRANGEMODE_MASK) on)) 7 = Z.testbit on 7.
Proof.
  intros Hm Ho. apply Bool.eqb_prop. revert m Hm. destruct Ho as [<-|[<-|[]]]; apply forall_u8; reflexivity.
Qed.

(** Changing the modem selects its page of registers; the contents of both pages remain. *)
Lemma wp_set_modem m s v Q : radio_ok v s ->
  (forall s' v', radio_ok v' s' -> Modem s' = m ->
    (s' = s <| dev := dev s' |> <| Modem := m |> <| RadioIsActive := RadioIsActive s' |>
            <| AntRx := AntRx s' |> <| AntTx := AntTx s' |>) ->
    lora_page v' = lora_page v -> fsk_page v' = fsk_page v ->
    keeps [] [REG_OPMODE; REG_DIOMAPPING1; REG_DIOMAPPING2] v v' -> lora_fifo v' = lora_fifo v -> Q tt s') ->
  wp (SX1272SetModem m) s Q.
Proof.
  intros (Hs & Hl & Ha & Hb & Hby) HQ. unfold SX1272SetModem, wp.
  destruct (modem_eqb (Modem s) m) eqn:Em.
  { assert (Modem s = m) as E by (by destruct (Modem s), m). exists tt, s. split; [done|].
    eapply (HQ s v); try done. subst m. by destruct s. }
  match goal with |- exists a s', ?c s = _ /\ _ => change (wp c s Q) end.
  run_code. pose proof (proj2 Hs) as Hv.
  assert (forall on dio2 : Z, In on [0x00; 0x80] -> Z.testbit on 7 = modem_eqb m MODEM_LORA ->
    wp (SX1272SetOpMode RF_OPMODE_SLEEP ;;; read_modify REG_OPMODE RFLR_OPMODE_LONGRANGEMODE_MASK on ;;;
        SX1272Write REG_DIOMAPPING1 0x00 ;;; SX1272Write REG_DIOMAPPING2 dio2) (s <| Modem := m |>) Q) as Hsw.
  { intros on dio2 Hon Hbit. run_code. eapply wp_set_mode; [exact Hs|exact Ha|by unfold RF_OPMODE_SLEEP|].
    intros d1 Hd1. common. common. common. pose proof (proj2 Hd1) as (Hsh1 & _).
    eapply HQ; [split_and!; [eassumption| | |exact Hb|exact Hby]|..]; try done.
    - cbn [is_lora]. unfold is_lora, opmode. cbn -[Z.testbit Z.lor Z.land u8].
      rewrite <- Hbit. apply modem_bit; [exact (Hsh1 REG_OPMODE)|done].
    - unfold set_mode. solve_keeps. }
  destruct m; [apply Hsw; [by left|done]|apply Hsw; [by right; left|done]].
Qed.

(** ** Fields of the registers *)

Definition config1 (bandwidth coderate : Z) (fixLen crcOn ldro : bool) : Z :=
  64 * bandwidth + 8 * coderate + 4 * b2z fixLen + 2 * b2z crcOn + b2z ldro.

Lemma config1_value old bandwidth coderate fixLen crcOn ldro : 0 <= bandwidth <= 2 -> 1 <= coderate <= 4 ->
  u8 (Z.lor (Z.land old (Z.land RFLR_MODEMCONFIG1_BW_MASK (Z.land RFLR_MODEMCONFIG1_CODINGRATE_MASK
      (Z.land RFLR_MODEMCONFIG1_IMPLICITHEADER_MASK (Z.land RFLR_MODEMCONFIG1_RXPAYLOADCRC_MASK
        RFLR_MODEMCONFIG1_LOWDATARATEOPTIMIZE_MASK)))))
    (Z.lor (Z.shiftl bandwidth 6) (Z.lor (Z.shiftl coderate 3) (Z.lor (Z.shiftl (b2z fixLen) 2)
      (Z.lor (Z.shiftl (b2z crcOn) 1) (b2z ldro)))))) = config1 bandwidth coderate fixLen crcOn ldro.
Proof.
  intros Hb Hc. match goal with |- context [Z.land old ?m] => change m with 0 end. rewrite Z.land_0_r, Z.lor_0_l.
  assert (bandwidth = 0 \/ bandwidth = 1 \/ bandwidth = 2) as Hb' by lia.
  assert (coderate = 1 \/ coderate = 2 \/ coderate = 3 \/ coderate = 4) as Hc' by lia.
  destruct Hb' as [-> | [-> | ->]], Hc' as [-> | [-> | [-> | ->]]], fixLen, crcOn, ldro; reflexivity.
Qed.

Lemma sf_field old keep datarate : is_u8 old -> In keep [0x0F; 0x0C] -> 6 <= datarate <= 12 ->
  Z.shiftr (u8 (Z.lor (Z.land old keep) (Z.shiftl datarate 4))) 4 = datarate.
Proof.
  intros Ho Hk Hd. apply Z.eqb_eq. revert old Ho.
  assert (datarate = 6 \/ datarate = 7 \/ datarate = 8 \/ datarate = 9 \/ datarate = 10 \/ datarate = 11 \/ datarate = 12) as Hd' by lia.
  destruct Hk as [<-|[<-|[]]], Hd' as [-> | [-> | [-> | [-> | [-> | [-> | ->]]]]]]; apply forall_u8; reflexivity.
Qed.

Lemma word_bytes w : is_u16 w -> 256 * u8 (Z.land (Z.shiftr w 8) 0xFF) + u8 (Z.land w 0xFF) = w.
Proof.
  intros Hw. unfold is_u16 in Hw. change 0xFF with (Z.ones 8). rewrite !Z.land_ones, Z.shiftr_div_pow2 by lia.
  change (2 ^ 8) with 256. unfold u8. lia.
Qed.

(** The output power is the low half of its register. *)
Lemma power_field c k : is_u8 c -> 0 <= k < 16 ->
  let x := Z.lor (Z.land c RFLR_PACONFIG_OUTPUTPOWER_MASK) (Z.land (u16 k) 0x0F) in
  is_u8 x /\ Z.testbit x 7 = Z.testbit c 7 /\ Z.land x 0x0F = k.
Proof.
  intros Hc Hk. cbv zeta. assert (In k (map Z.of_nat (seq 0 16))) as Hin.
  { apply in_map_iff. exists (Z.to_nat k). split; [lia|]. apply in_seq. lia. }
  assert (forallb (fun k => let x := Z.lor (Z.land c RFLR_PACONFIG_OUTPUTPOWER_MASK) (Z.land (u16 k) 0x0F) in
    (0 <=? x) && (x <? 256) && Bool.eqb (Z.testbit x 7) (Z.testbit c 7) && (Z.land x 0x0F =? k)) (map Z.of_nat (seq 0 16)) = true) as E
    by (revert c Hc; apply forall_u8; reflexivity).
  pose proof (proj1 (forallb_forall _ _) E k Hin) as E'. cbv zeta in E'. rewrite !andb_true_iff in E'.
  destruct E' as (((E1%Z.leb_le & E2%Z.ltb_lt) & E3%Bool.eqb_prop) & E4%Z.eqb_eq). done.
Qed.

Lemma boost_field c : is_u8 c ->
  let x := Z.lor (Z.land c RF_PACONFIG_PASELECT_MASK) RF_PACONFIG_PASELECT_PABOOST in
  is_u8 x /\ Z.testbit x 7 = true /\ Z.land x RF_PACONFIG_PASELECT_PABOOST = RF_PACONFIG_PASELECT_PABOOST.
Proof.
  intros Hc. cbv zeta. assert (let x := Z.lor (Z.land c RF_PACONFIG_PASELECT_MASK) RF_PACONFIG_PASELECT_PABOOST in
    (0 <=? x) && (x <? 256) && Z.testbit x 7 && (Z.land x RF_PACONFIG_PASELECT_PABOOST =? RF_PACONFIG_PASELECT_PABOOST) = true) as E
    by (cbv zeta; revert c Hc; apply forall_u8; reflexivity).
  cbv zeta in E. rewrite !andb_true_iff, Z.leb_le, Z.ltb_lt, Z.eqb_eq in E. destruct E as [[[E1 E2] E3] E4]. done.
Qed.

Lemma dac_field d on : is_u8 d -> In on [4; 7] ->
  let x := Z.lor (Z.land d RF_PADAC_20DBM_MASK) on in is_u8 x /\ Z.land x 7 = on.
Proof.
  intros Hd Hon. cbv zeta. assert (let x := Z.lor (Z.land d RF_PADAC_20DBM_MASK) on in
    (0 <=? x) && (x <? 256) && (Z.land x 7 =? on) = true) as E
    by (cbv zeta; revert d Hd; destruct Hon as [<-|[<-|[]]]; apply forall_u8; reflexivity).
  cbv zeta in E. rewrite !andb_true_iff, Z.leb_le, Z.ltb_lt, Z.eqb_eq in E. destruct E as [[E1 E2] E3]. done.
Qed.

(** The amplifier output is always PA_BOOST; above 17 dBm the high power setting is used. *)
Lemma pa_settings_value paConfig paDac channel power : is_u8 paConfig -> is_u8 paDac ->
  exists c d p, pa_settings paConfig paDac channel power = (c, d, p) /\ is_u8 c /\ is_u8 d /\
    Z.testbit c 7 = true /\ p = (if 17 <? power then Z.min 20 power else Z.max 2 power) /\
    Z.land c 0x0F = p - (if 17 <? power then 5 else 2) /\ Z.land d 7 = if 17 <? power then 7 else 4.
Proof.
  intros Hc Hd. unfold pa_settings, SX1272GetPaSelect. destruct (boost_field paConfig Hc) as (B1 & B2 & B3).
  set (c0 := Z.lor (Z.land paConfig _) _) in *. cbv zeta in *. rewrite B3, Z.eqb_refl. clearbody c0.
  destruct (Z.ltb_spec 17 power) as [Hp|Hp].
  - destruct (dac_field paDac RF_PADAC_20DBM_ON Hd) as [D1 D2]; [by right; left|]. cbv zeta in *.
    set (dac := Z.lor (Z.land paDac _) RF_PADAC_20DBM_ON) in *. change (Z.land dac RF_PADAC_20DBM_ON) with (Z.land dac 7).
    rewrite D2, Z.eqb_refl, (proj2 (Z.ltb_ge power 5)) by lia. set (p := if 20 <? power then 20 else power).
    assert (p = Z.min 20 power) as Ep by (unfold p; destruct (Z.ltb_spec 20 power); lia).
    destruct (power_field c0 (p - 5) B1) as (K1 & K2 & K3); [lia|]. eexists _, _, _. split; [reflexivity|].
    rewrite K2. by split_and!.
  - destruct (dac_field paDac RF_PADAC_20DBM_OFF Hd) as [D1 D2]; [by left|]. cbv zeta in *.
    set (dac := Z.lor (Z.land paDac _) RF_PADAC_20DBM_OFF) in *. change (Z.land dac RF_PADAC_20DBM_ON) with (Z.land dac 7).
    rewrite D2. change (RF_PADAC_20DBM_OFF =? RF_PADAC_20DBM_ON) with false. cbn iota.
    set (p := if power <? 2 then 2 else power).
    assert (p = Z.max 2 power) as Ep by (unfold p; destruct (Z.ltb_spec power 2); lia).
    rewrite (proj2 (Z.ltb_ge 17 p)) by lia. destruct (power_field c0 (p - 2) B1) as (K1 & K2 & K3); [lia|].
    eexists _, _, _. split; [reflexivity|]. rewrite K2. by split_and!.
Qed.

Lemma wp_lora_hopping s v Q : shows (dev s) v -> is_lora v = true ->
  (forall d v', shows d v' -> is_lora v' = true -> keeps [REG_LR_HOPPERIOD] [REG_LR_PLLHOP] v v' -> Q tt (s <| dev := d |>)) ->
  wp lora_hopping s Q.
Proof.
  intros Hs Hl HQ. unfold lora_hopping, wp. destruct (FreqHopOn (LoRa s)).
  - match goal with |- exists a s', ?c s = _ /\ _ => change (wp c s Q) end. common. page true.
    eapply HQ; [eassumption|exact Hl|]. split; intros a Ha; cbn; unfold upd.
    + destruct (Z.eqb_spec a REG_LR_HOPPERIOD); [subst; exfalso; apply Ha; by left|done].
    + destruct (Z.eqb_spec a REG_LR_PLLHOP); [subst; exfalso; apply Ha; by left|done].
  - exists tt, s. split; [done|]. replace s with (s <| dev := dev s |>) by (by destruct s). by apply (HQ (dev s) v).
Qed.

Lemma wp_lora_detection datarate s v Q : shows (dev s) v -> is_lora v = true ->
  (forall d v', shows d v' -> is_lora v' = true -> keeps [REG_LR_DETECTOPTIMIZE; REG_LR_DETECTIONTHRESHOLD] [] v v' ->
    lora_page v' REG_LR_DETECTIONTHRESHOLD = (if datarate =? 6 then RFLR_DETECTIONTHRESH_SF6 else RFLR_DETECTIONTHRESH_SF7_TO_SF12) ->
    Q tt (s <| dev := d |>)) ->
  wp (lora_detection datarate) s Q.
Proof.
  intros Hs Hl HQ. unfold lora_detection. destruct (datarate =? 6); page true; page true;
    (eapply HQ; [eassumption|exact Hl| |reflexivity]); (split; intros a Ha; [|done]); cbn; unfold upd;
    destruct (Z.eqb_spec a REG_LR_DETECTIONTHRESHOLD), (Z.eqb_spec a REG_LR_DETECTOPTIMIZE); subst; try done;
    exfalso; apply Ha; cbn; tauto.
Qed.

Lemma wp_lora_config1 bandwidth coderate fixLen crcOn s v Q : shows (dev s) v -> is_lora v = true ->
  0 <= bandwidth <= 2 -> 1 <= coderate <= 4 ->
  (forall d, shows d (set_page true v REG_LR_MODEMCONFIG1 (config1 bandwidth coderate fixLen crcOn (LowDatarateOptimize (LoRa s)))) ->
    Q tt (s <| dev := d |>)) ->
  wp (lora_config1 bandwidth coderate fixLen crcOn) s Q.
Proof.
  intros Hs Hl Hb Hc HQ. unfold lora_config1, wp.
  match goal with |- exists a s', read_modify ?r ?k ?x s = _ /\ _ => change (wp (read_modify r k x) s Q) end.
  page true. rewrite config1_value in Hd by done. by apply HQ.
Qed.

(** The synthesizer is not touched. *)
Definition same_frequency (v v' : view) : Prop :=
  forall a, In a [REG_FRFMSB; REG_FRFMID; REG_FRFLSB] -> shared v' a = shared v a.

Lemma wp_tx_config s v power fdev bandwidth datarate coderate preambleLen fixLen crcOn freqHopOn hopPeriod iqInverted timeout :
  radio_ok v s -> 0 <= bandwidth <= 2 -> 1 <= coderate <= 4 -> is_u16 preambleLen ->
  let sf := clamp_datarate datarate in
  let p := if 17 <? power then Z.min 20 power else Z.max 2 power in
  let ldro := low_datarate bandwidth sf in
  wp (SX1272SetTxConfig MODEM_LORA power fdev bandwidth datarate coderate preambleLen fixLen crcOn freqHopOn hopPeriod iqInverted timeout) s
    (fun _ s' => exists v', radio_ok v' s' /\ same_frequency v v' /\ Modem s' = MODEM_LORA /\ State s' = State s /\
      LoRa s' = mkLoRa p bandwidth datarate ldro coderate preambleLen fixLen (LoRa_PayloadLen (LoRa s)) crcOn freqHopOn
                  hopPeriod iqInverted (LoRa_RxContinuous (LoRa s)) timeout /\
      reg v' REG_LR_MODEMCONFIG1 = config1 bandwidth coderate fixLen crcOn ldro /\
      Z.shiftr (reg v' REG_LR_MODEMCONFIG2) 4 = sf /\
      256 * reg v' REG_LR_PREAMBLEMSB + reg v' REG_LR_PREAMBLELSB = preambleLen /\
      Z.testbit (reg v' REG_PACONFIG) 7 = true /\
      Z.land (reg v' REG_PACONFIG) 0x0F = p - (if 17 <? power then 5 else 2) /\
      Z.land (reg v' REG_PADAC) 7 = (if 17 <? power then 7 else 4) /\
      reg v' REG_LR_DETECTIONTHRESHOLD = (if sf =? 6 then RFLR_DETECTIONTHRESH_SF6 else RFLR_DETECTIONTHRESH_SF7_TO_SF12)).
Proof.
  intros Hok Hbw Hcr Hpre sf p ldro. unfold SX1272SetTxConfig. run_code. apply (wp_set_modem MODEM_LORA s v); [done|].
  intros s1 v1 (Hs1 & Hl1 & Ha1 & Hb1 & Hby1) Hm1 Es1 Hlp _ Hks _. rewrite Hm1 in Hl1. change (is_lora v1 = true) in Hl1.
  pose proof (proj2 Hs1) as (Hv1 & _ & Hv1' & _). common. common. run_code.
  destruct (pa_settings_value (shared v1 REG_PACONFIG) (shared v1 REG_PADAC) (Channel s1) power (Hv1 _) (Hv1 _))
    as (c & dac & p' & Epa & Hc & Hdac & Hc7 & Ep & Hcp & Hd7).
  match goal with |- context [pa_settings ?a ?b ?ch power] => change (pa_settings a b ch power) with
    (pa_settings (shared v1 REG_PACONFIG) (shared v1 REG_PADAC) (Channel s1) power) end.
  rewrite Epa. common. common. unfold tx_config_lora. run_code. rewrite (u8_id c), (u8_id dac) in * by done.
  eapply wp_lora_hopping; [eassumption|exact Hl1|]. intros d3 v3 Hd3 Hl3 (Hk1 & Hk2). run_code.
  eapply wp_lora_config1; [exact Hd3|exact Hl3|done|done|]. intros d4 Hd4. page true. unfold write_word. page true. page true.
  run_code. pose proof (proj2 Hd4) as (_ & _ & Hv4 & _).
  eapply wp_lora_detection; [eassumption|exact Hl3|]. intros d9 v8 Hd9 Hl8 (Hk3 & Hk4) Hthr.
  assert (forall a, common_config a = true -> negb (a =? REG_LR_PLLHOP) = true -> shared v8 a = upd (upd (shared v1) REG_PACONFIG c) REG_PADAC dac a) as Hsh.
  { intros a Ha Hne%negb_true_iff%Z.eqb_neq. rewrite Hk4 by (intros []). apply Hk2. intros [E|[]]. by apply Hne. }
  assert (6 <= sf <= 12) as Hsf by (unfold sf, clamp_datarate; zcases; lia).
  exists v8. rewrite (reg_page v8 true REG_LR_MODEMCONFIG1), (reg_page v8 true REG_LR_MODEMCONFIG2),
    (reg_page v8 true REG_LR_PREAMBLEMSB), (reg_page v8 true REG_LR_PREAMBLELSB), (reg_page v8 true REG_LR_DETECTIONTHRESHOLD),
    (reg_common v8 REG_PACONFIG), (reg_common v8 REG_PADAC) by done.
  cbn [get_page]. rewrite (Hk3 REG_LR_MODEMCONFIG1), (Hk3 REG_LR_MODEMCONFIG2), (Hk3 REG_LR_PREAMBLEMSB), (Hk3 REG_LR_PREAMBLELSB)
    by (intros [E|[E|[]]]; discriminate E).
  rewrite (Hsh REG_PACONFIG), (Hsh REG_PADAC) by done.
  assert (State s1 = State s /\ LoRa s1 = LoRa s) as [Est Elo] by (rewrite Es1; done).
  split; [split_and!; [exact Hd9|cbn; rewrite Hm1; exact Hl8|exact Ha1|exact Hb1|exact Hby1]|].
  split.
  { intros a Ha. assert (common_config a = true /\ a <> REG_LR_PLLHOP /\ ~ In a [REG_OPMODE; REG_DIOMAPPING1; REG_DIOMAPPING2] /\
      a <> REG_PACONFIG /\ a <> REG_PADAC) as (A1 & A2 & A3 & A4 & A5) by (destruct Ha as [<-|[<-|[<-|[]]]]; by vm_compute; intuition).
    rewrite Hsh by (try done; by apply negb_true_iff, Z.eqb_neq). unfold upd.
    rewrite (proj2 (Z.eqb_neq a REG_PADAC)), (proj2 (Z.eqb_neq a REG_PACONFIG)) by done. by apply (proj2 Hks). }
  split; [exact Hm1|]. split; [exact Est|]. split; [cbn; rewrite Elo, Ep; done|].
  split; [done|]. split.
  { apply (sf_field _ RFLR_MODEMCONFIG2_SF_MASK sf (Hv4 REG_LR_MODEMCONFIG2)); [by left|done]. }
  split; [exact (word_bytes preambleLen Hpre)|]. split; [exact Hc7|]. split; [rewrite Ep in Hcp; exact Hcp|]. by split.
Qed.

(** Configuring a LoRa transmission stores the parameters and encodes them in the registers of the
    chip: bandwidth, coding rate, header, checksum and low datarate optimization in the first
    configuration register, the spreading factor between 6 and 12 in the second, the preamble in two
    bytes, the output power clamped to the range of the amplifier; whatever modem was active and
    whatever the registers held before. *)
Theorem lora_tx_config_correct s v power fdev bandwidth datarate coderate preambleLen fixLen crcOn freqHopOn hopPeriod iqInverted timeout :
  radio_ok v s -> 0 <= bandwidth <= 2 -> 1 <= coderate <= 4 -> is_u16 preambleLen ->
  let sf := clamp_datarate datarate in
  let p := if 17 <? power then Z.min 20 power else Z.max 2 power in
  let ldro := low_datarate bandwidth sf in
  wp (SX1272SetTxConfig MODEM_LORA power fdev bandwidth datarate coderate preambleLen fixLen crcOn freqHopOn hopPeriod iqInverted timeout) s
    (fun _ s' => exists v', radio_ok v' s' /\ Modem s' = MODEM_LORA /\ State s' = State s /\
      LoRa s' = mkLoRa p bandwidth datarate ldro coderate preambleLen fixLen (LoRa_PayloadLen (LoRa s)) crcOn freqHopOn
                  hopPeriod iqInverted (LoRa_RxContinuous (LoRa s)) timeout /\
      reg v' REG_LR_MODEMCONFIG1 = config1 bandwidth coderate fixLen crcOn ldro /\
      Z.shiftr (reg v' REG_LR_MODEMCONFIG2) 4 = sf /\
      256 * reg v' REG_LR_PREAMBLEMSB + reg v' REG_LR_PREAMBLELSB = preambleLen /\
      Z.testbit (reg v' REG_PACONFIG) 7 = true /\
      Z.land (reg v' REG_PACONFIG) 0x0F = p - (if 17 <? power then 5 else 2) /\
      Z.land (reg v' REG_PADAC) 7 = (if 17 <? power then 7 else 4) /\
      reg v' REG_LR_DETECTIONTHRESHOLD = (if sf =? 6 then RFLR_DETECTIONTHRESH_SF6 else RFLR_DETECTIONTHRESH_SF7_TO_SF12)).
Proof.
  intros. eapply wp_mono; [by apply (wp_tx_config s v)|]. intros _ s' (v' & Hok' & _ & Hreg). by exists v'.
Qed.

(** The frequency the synthesizer is programmed for, in steps. *)
Definition frequency_word (v : view) : Z :=
  65536 * shared v REG_FRFMSB + 256 * shared v REG_FRFMID + shared v REG_FRFLSB.

Lemma wp_set_channel s v freq Q : radio_ok v s -> 0 <= freq < 1024000000 ->
  (forall d v', radio_ok v' ((s <| Channel := freq |>) <| dev := d |>) -> frequency_word v' = freq * 256 / 15625 ->
    keeps [] [REG_FRFMSB; REG_FRFMID; REG_FRFLSB] v v' -> Q tt ((s <| Channel := freq |>) <| dev := d |>)) ->
  wp (SX1272SetChannel freq) s Q.
Proof.
  intros (Hs & Hl & Ha & Hb & Hby) Hf HQ. unfold SX1272SetChannel. run_code.
  eapply wp_lift; [apply TimeOnAir.channel_steps; unfold is_u32; lia|]. common. common. common. set (w := freq * 256 / 15625) in *.
  assert (0 <= w < 2 ^ 24) as Hw by (unfold w; lia).
  eapply HQ; [split_and!; [eassumption|exact Hl|exact Ha|exact Hb|exact Hby]| |].
  - change (65536 * u8 (Z.land (Z.shiftr w 16) 0xFF) + 256 * u8 (Z.land (Z.shiftr w 8) 0xFF) + u8 (Z.land w 0xFF) = w).
    change 0xFF with (Z.ones 8). rewrite !Z.land_ones, !Z.shiftr_div_pow2 by lia. change (2 ^ 8) with 256.
    change (2 ^ 16) with 65536. unfold u8. lia.
  - solve_keeps.
Qed.

(** Setting the channel programs the synthesizer with the frequency in steps of 32 MHz / 2^19,
    rounded down, for every frequency below 1024 MHz: the tuned frequency is less than one step,
    61.03515625 Hz, below the requested one. *)
Theorem set_channel_correct s v freq : radio_ok v s -> 0 <= freq < 1024000000 ->
  wp (SX1272SetChannel freq) s (fun _ s' => exists v', radio_ok v' s' /\ Channel s' = freq /\
    let w := 65536 * reg v' REG_FRFMSB + 256 * reg v' REG_FRFMID + reg v' REG_FRFLSB in
    w * 15625 <= freq * 256 < (w + 1) * 15625).
Proof.
  intros Hok Hf. apply (wp_set_channel s v); [done|done|]. intros d v' Hok' Hw _. exists v'. split; [done|]. split; [done|].
  cbv zeta. rewrite !reg_common by done. fold (frequency_word v'). rewrite Hw. lia.
Qed.
End Config.

(** * Examples *)

(** A driver on the simulated chip, awake with the LoRa modem, or with the FSK modem. *)
Definition demo_view (lora : bool) (packet : list Z) : view := {|
  shared := fun a => if a =? REG_OPMODE then if lora then 0x85 else 0x05 else 0;
  fsk_page := fun a => if a =? REG_IRQFLAGS2 then 2 else 0;
  lora_page := fun a => if a =? REG_LR_RXNBBYTES then zlen packet else if a =? REG_LR_PKTSNRVALUE then 0xF0
                        else if a =? REG_LR_PKTRSSIVALUE then 50 else 0;
  lora_fifo := packet ++ replicate (256 - length packet) 0;
  fsk_in := zlen packet :: packet;
  fsk_out := [];
|}.

Definition demo_radio (modem : RadioModems_t) (st : RadioState_t) (packet : list Z) : radio SimChip := {|
  dev := mkSim (demo_view (modem_eqb modem MODEM_LORA) packet) None;
  State := st; Modem := modem; Channel := 868100000;
  Fsk := mkFsk 14 25000 50000 83333 50000 5 false 0 true false false 3000;
  FskPacketHandler := mkFskPkt true true (-60) 0 0 0 0 15 0;
  LoRa := mkLoRa 14 0 7 false 1 8 false 0 true false 0 false false 3000;
  LoRaPacketHandler := mkLoRaPkt 0 0 0;
  RadioEvents := Some (mkEvents true true true true true false false);
  RxTxBuffer := replicate 256 0; RadioIsActive := false; AntRx := Output 1; AntTx := Output 0;
  TxTimeoutTimer := mkTimerView false 0; RxTimeoutTimer := mkTimerView true 3000;
  RxTimeoutSyncWord := mkTimerView true 10;
|}.
#[local] Instance demo_client : RadioClient SimChip := fun _ s => Done s.

Lemma demo_ok m st packet : bytes packet -> (length packet <= 255)%nat ->
  radio_ok (demo_view (modem_eqb m MODEM_LORA) packet) (demo_radio m st packet).
Proof.
  intros Hp Hl. split_and!; [split; [reflexivity|split_and!]|by destruct m|intros _; split; eexists; reflexivity|done|
    apply bytesb_true; reflexivity].
  - intros a. cbn. destruct (a =? _); [destruct m|]; unfold is_u8; cbn; lia.
  - intros a. cbn. destruct (a =? _); unfold is_u8; lia.
  - intros a. cbn. repeat destruct (a =? _); unfold is_u8; lia.
  - cbn. rewrite length_app, length_replicate. lia.
  - cbn. apply Forall_app. split; [done|]. apply Forall_replicate. unfold is_u8. lia.
  - cbn. constructor; [unfold is_u8; lia|done].
Qed.

Definition hello : list Z := [72; 101; 108; 108; 111].

Lemma time_on_air_correct_witness : exists t,
  SX1272GetTimeOnAir MODEM_LORA 23 (demo_radio MODEM_LORA RF_IDLE []) = Done (t, demo_radio MODEM_LORA RF_IDLE []) /\
  t = TimeOnAir.datasheet_ms (LoRa (demo_radio MODEM_LORA RF_IDLE [])) 23.
Proof.
  destruct (TimeOnAir.time_on_air_correct SimChip (demo_radio MODEM_LORA RF_IDLE []) 23) as (t & E & _ & _ & H).
  - unfold TimeOnAir.lora_settings_ok, is_u16. simpl. lia.
  - unfold is_u8. lia.
  - unfold TimeOnAir.long_enough. simpl. lia.
  - exists t. split; [exact E|]. apply H. reflexivity.
Defined.

Lemma lora_send_correct_witness : exists s' : radio SimChip,
  SX1272Send hello 5 (demo_radio MODEM_LORA RF_IDLE []) = Done (tt, s') /\ State s' = RF_TX_RUNNING.
Proof.
  destruct (lora_send_correct (demo_radio MODEM_LORA RF_IDLE []) (demo_view true []) hello 5) as ([] & s' & E & v' & _ & Hst & _).
  - apply (demo_ok MODEM_LORA); [constructor|simpl; lia].
  - reflexivity.
  - unfold is_u8. lia.
  - simpl. lia.
  - apply bytesb_true. reflexivity.
  - exists s'. split; [exact E|exact Hst].
Defined.

Lemma lora_receive_correct_witness : exists e s1,
  SX1272OnDio0Irq (demo_radio MODEM_LORA RF_RX_RUNNING hello) = (let* s' := on_event e s1 in Done (tt, s')) /\
  e = RxDone (RxTxBuffer s1) 5 (-139 + 50 + 3 - 4) (-16).
Proof.
  destruct (lora_receive_correct (demo_radio MODEM_LORA RF_RX_RUNNING hello) (demo_view true hello)
    (mkEvents true true true true true false false)) as (e & s1 & v1 & E & _ & _ & _ & _ & He & _); try reflexivity.
  - apply (demo_ok MODEM_LORA); [apply bytesb_true; reflexivity|simpl; lia].
  - discriminate.
  - exists e, s1. split; [exact E|exact He].
Defined.



Lemma lora_tx_config_correct_witness : exists s' : radio SimChip,
  SX1272SetTxConfig MODEM_LORA 14 0 0 12 1 8 false true false 0 false 3000 (demo_radio MODEM_FSK RF_IDLE []) = Done (tt, s') /\
  Modem s' = MODEM_LORA.
Proof.
  destruct (lora_tx_config_correct (demo_radio MODEM_FSK RF_IDLE []) (demo_view false []) 14 0 0 12 1 8 false true false 0 false 3000)
    as ([] & s' & E & v' & _ & Hm & _).
  - apply (demo_ok MODEM_FSK); [constructor|simpl; lia].
  - lia.
  - lia.
  - unfold is_u16. lia.
  - exists s'. split; [exact E|exact Hm].
Defined.

Lemma set_channel_correct_witness : exists s' : radio SimChip,
  SX1272SetChannel 868100000 (demo_radio MODEM_FSK RF_IDLE []) = Done (tt, s') /\ Channel s' = 868100000.
Proof.
  destruct (set_channel_correct (demo_radio MODEM_FSK RF_IDLE []) (demo_view false []) 868100000) as ([] & s' & E & v' & _ & Hc & _).
  - apply (demo_ok MODEM_FSK); [constructor|simpl; lia].
  - lia.
  - exists s'. split; [exact E|exact Hc].
Defined.
End RadioSpec.
