(* ===== verification/RadioTypes.v ===== *)
(** The types of the driver's data: every public operation and every interrupt of
    the SX1272 driver keeps the fields of its structures within their C types and
    the packet buffer at its size, whatever bytes the chip returns.

    [gives P m] says that [m], started in a well-typed state, returns a result with
    [P] and a well-typed state if it returns; its rules follow the code, and
    [types] applies them.  The theorem is an invariant of the step relation of
    the driver, proved by induction on the steps. *)
From S2P Require Import Prelude Double MacTypes Registers Sx1272.
Import Double Registers Sx1272.

Module RadioTypes.
#[local] Open Scope st_scope.

(** * Types *)

Definition is_s8 (z : Z) : Prop := -128 <= z < 128.
Definition is_s16 (z : Z) : Prop := -32768 <= z < 32768.
Definition is_s32 (z : Z) : Prop := -2147483648 <= z < 2147483648.

Record fsk_typed (f : RadioFskSettings_t) : Prop := {
  t_Fsk_Power : is_s8 (Fsk_Power f);
  t_Fsk_Fdev : is_u32 (Fsk_Fdev f);
  t_Fsk_Bandwidth : is_u32 (Fsk_Bandwidth f);
  t_Fsk_BandwidthAfc : is_u32 (Fsk_BandwidthAfc f);
  t_Fsk_Datarate : is_u32 (Fsk_Datarate f);
  t_Fsk_PreambleLen : is_u16 (Fsk_PreambleLen f);
  t_Fsk_PayloadLen : is_u8 (Fsk_PayloadLen f);
  t_Fsk_TxTimeout : is_u32 (Fsk_TxTimeout f);
}.

Record fsk_packet_typed (h : RadioFskPacketHandler_t) : Prop := {
  t_Fsk_RssiValue : is_s8 (Fsk_RssiValue h);
  t_AfcValue : is_s32 (AfcValue h);
  t_RxGain : is_u8 (RxGain h);
  t_Fsk_Size : is_u16 (Fsk_Size h);
  t_NbBytes : is_u16 (NbBytes h);
  t_FifoThresh : is_u8 (FifoThresh h);
  t_ChunkSize : is_u8 (ChunkSize h);
}.

Record lora_typed (l : RadioLoRaSettings_t) : Prop := {
  t_LoRa_Power : is_s8 (LoRa_Power l);
  t_LoRa_Bandwidth : is_u32 (LoRa_Bandwidth l);
  t_LoRa_Datarate : is_u32 (LoRa_Datarate l);
  t_LoRa_Coderate : is_u8 (LoRa_Coderate l);
  t_LoRa_PreambleLen : is_u16 (LoRa_PreambleLen l);
  t_LoRa_PayloadLen : is_u8 (LoRa_PayloadLen l);
  t_HopPeriod : is_u8 (HopPeriod l);
  t_LoRa_TxTimeout : is_u32 (LoRa_TxTimeout l);
}.

Record lora_packet_typed (h : RadioLoRaPacketHandler_t) : Prop := {
  t_SnrValue : is_s8 (SnrValue h);
  t_LoRa_RssiValue : is_s16 (LoRa_RssiValue h);
  t_LoRa_Size : is_u8 (LoRa_Size h);
}.

Definition buffer_typed (b : list Z) : Prop := zlen b = RX_BUFFER_SIZE /\ bytes b.

Record typed {SPI : SpiDevice} (s : radio SPI) : Prop := {
  t_Channel : is_u32 (Channel s);
  t_Fsk : fsk_typed (Fsk s);
  t_FskPacketHandler : fsk_packet_typed (FskPacketHandler s);
  t_LoRa : lora_typed (LoRa s);
  t_LoRaPacketHandler : lora_packet_typed (LoRaPacketHandler s);
  t_RxTxBuffer : buffer_typed (RxTxBuffer s);
  t_TxTimeoutTimer : is_u32 (value (TxTimeoutTimer s));
  t_RxTimeoutTimer : is_u32 (value (RxTimeoutTimer s));
  t_RxTimeoutSyncWord : is_u32 (value (RxTimeoutSyncWord s));
}.

(** The arguments of a callback, in the types of [RadioEvents_t]. *)
Definition event_typed (e : radio_event) : Prop :=
  match e with
  | RxDone payload size rssi snr => buffer_typed payload /\ is_u16 size /\ is_s16 rssi /\ is_s8 snr
  | FhssChangeChannel c => is_u8 c
  | _ => True
  end.

Create HintDb types.
#[export] Hint Resolve t_Fsk_Power t_Fsk_Fdev t_Fsk_Bandwidth t_Fsk_BandwidthAfc t_Fsk_Datarate t_Fsk_PreambleLen
  t_Fsk_PayloadLen t_Fsk_TxTimeout t_Fsk_RssiValue t_AfcValue t_RxGain t_Fsk_Size t_NbBytes t_FifoThresh t_ChunkSize
  t_LoRa_Power t_LoRa_Bandwidth t_LoRa_Datarate t_LoRa_Coderate t_LoRa_PreambleLen t_LoRa_PayloadLen t_HopPeriod
  t_LoRa_TxTimeout t_SnrValue t_LoRa_RssiValue t_LoRa_Size t_Channel t_Fsk t_FskPacketHandler t_LoRa
  t_LoRaPacketHandler t_RxTxBuffer t_TxTimeoutTimer t_RxTimeoutTimer t_RxTimeoutSyncWord : types.

(** ** Results in their types *)

Lemma s8_range z : is_s8 (s8 z).
Proof. unfold is_s8, s8. lia. Qed.
Lemma s16_range z : is_s16 (s16 z).
Proof. unfold is_s16, s16. lia. Qed.
Lemma u8_u16 z : is_u8 z -> is_u16 z.
Proof. unfold is_u8, is_u16. lia. Qed.
Lemma u8_u32 z : is_u8 z -> is_u32 z.
Proof. unfold is_u8, is_u32. lia. Qed.
Lemma s8_s16 z : is_s8 z -> is_s16 z.
Proof. unfold is_s8, is_s16. lia. Qed.
Lemma zero_s8 : is_s8 0.
Proof. unfold is_s8. lia. Qed.
Lemma zero_u8 : is_u8 0.
Proof. unfold is_u8. lia. Qed.
Lemma zero_u16 : is_u16 0.
Proof. unfold is_u16. lia. Qed.
Lemma zero_u32 : is_u32 0.
Proof. unfold is_u32. lia. Qed.
Lemma u32_of_to_u32 x n : to_u32 x = Done n -> is_u32 n.
Proof.
  unfold to_u32, is_u32. destruct (_ && _) eqn:E; [|done]. intros [= <-].
  apply andb_prop in E as [? ?]. lia.
Qed.
Lemma s32_of_to_s32 x n : to_s32 x = Done n -> is_s32 n.
Proof.
  unfold to_s32, is_s32. destruct (_ && _) eqn:E; [|done]. intros [= <-].
  apply andb_prop in E as [? ?]. lia.
Qed.
Lemma land_u8 a n : is_u8 a -> is_u8 (Z.land a n).
Proof.
  unfold is_u8. intros H. change 256 with (2 ^ 8). apply bits_bound; [lia|apply Z.land_nonneg; lia|].
  intros i Hi. rewrite Z.land_spec, (testbit_high 8 a) by lia. done.
Qed.
Lemma shiftr_u8 a n : is_u8 a -> 0 <= n -> is_u8 (Z.shiftr a n).
Proof.
  unfold is_u8. intros H Hn. rewrite Z.shiftr_div_pow2 by done. split; [apply Z.div_pos; lia|].
  apply Z.le_lt_trans with a; [|lia]. apply Z.div_le_upper_bound; [lia|]. nia.
Qed.
#[export] Hint Resolve s8_range s16_range u8_range u16_range u32_range u8_u16 u8_u32 s8_s16 zero_s8 zero_u8 zero_u16 zero_u32
  u32_of_to_u32 s32_of_to_s32 land_u8 shiftr_u8 : types.

#[export] Hint Extern 1 (0 <= Zpos _) => lia : types.
#[export] Hint Extern 4 (is_u8 (Zpos _)) => unfold is_u8; lia : types.
#[export] Hint Extern 4 (is_u8 RF_IRQFLAGS2_CRCOK) => unfold is_u8, RF_IRQFLAGS2_CRCOK; lia : types.

(** * Rules *)

Section Rules.
Context {SPI : SpiDevice}.
Abbreviation R := (ST (radio SPI)).

Definition gives {A} (P : A -> Prop) (m : R A) : Prop :=
  forall s a s', typed s -> m s = Done (a, s') -> P a /\ typed s'.
Abbreviation keeps := (gives (fun _ : unit => True)).

Lemma gives_ret {A} (P : A -> Prop) a : P a -> gives P (sret a).
Proof. intros Ha s b s' T [= <- <-]. done. Qed.
Lemma gives_get : gives typed sget.
Proof. intros s b s' T [= <- <-]. done. Qed.
Lemma gives_mod f : (forall s, typed s -> typed (f s)) -> keeps (smod f).
Proof. intros Hf s b s' T [= <- <-]. auto. Qed.
Lemma gives_lift {A} (P : A -> Prop) (m : run A) : (forall a, m = Done a -> P a) -> gives P (slift m).
Proof. intros Hm s b s' T E. unfold slift in E. destruct m eqn:Em; try done. injection E as <- <-. auto. Qed.
Lemma gives_lift_eq {A} (m : run A) : gives (fun a => m = Done a) (slift m : R A).
Proof. by apply gives_lift. Qed.
Lemma gives_bind {A B} (P : A -> Prop) (Q : B -> Prop) (m : R A) (k : A -> R B) :
  gives P m -> (forall a, P a -> gives Q (k a)) -> gives Q (sbind m k).
Proof.
  intros Hm Hk s b s' T E. unfold sbind in E. destruct (m s) as [[a s1]| |] eqn:E1; try done.
  destruct (Hm s a s1 T E1) as [HP T1]. by apply (Hk a HP s1).
Qed.
Lemma gives_when b (m : R unit) : keeps m -> keeps (swhen b m).
Proof. intros Hm. destruct b; [done|by apply gives_ret]. Qed.
Lemma gives_weaken {A} (P Q : A -> Prop) (m : R A) : gives P m -> (forall a, P a -> Q a) -> gives Q m.
Proof. intros Hm Hw s a s' T E. destruct (Hm s a s' T E). auto. Qed.
(** A test of the state before the code runs. *)
Lemma gives_test {A} (P : A -> Prop) (t : radio SPI -> bool) (m1 m2 : R A) :
  gives P m1 -> gives P m2 -> gives P (fun s => if t s then m1 s else m2 s).
Proof. intros H1 H2 s. destruct (t s); [apply H1|apply H2]. Qed.
End Rules.
Abbreviation keeps := (gives (fun _ : unit => True)).

(** An update of a field: the other fields keep their types. *)
Ltac typed_fields :=
  repeat first
    [ assumption
    | match goal with
      | |- typed _ => constructor
      | |- fsk_typed _ => constructor
      | |- fsk_packet_typed _ => constructor
      | |- lora_typed _ => constructor
      | |- lora_packet_typed _ => constructor
      end
    | progress simpl ].
Ltac typed_update :=
  apply gives_mod; intros; match goal with T : typed _ |- _ => destruct T end;
  typed_fields; cbv beta in *; eauto with types.

Create HintDb ops.

(** One rule for the head of the code. *)
Ltac types_step :=
  match goal with
  | |- gives _ (sbind _ _) => eapply gives_bind; [|intros]
  | |- gives _ (swhen _ _) => apply gives_when
  | |- gives _ (if ?b then _ else _) => destruct b
  | |- gives _ (match ?x with _ => _ end) => destruct x
  | |- gives _ (let _ := _ in _) => cbv zeta
  | |- gives _ sget => apply gives_get
  | |- gives _ (smod _) => typed_update
  | |- gives _ (slift _) => apply gives_lift_eq
  | |- gives _ (sret _) => apply gives_ret
  | |- gives _ _ => solve [cbv beta in *; eauto 4 with ops types]
  end.
Ltac types := repeat types_step; cbv beta in *; eauto with types.

(** * The bus *)

Section Operations.
Context {SPI : SpiDevice}.

Lemma GpioWriteNss_types level : keeps (GpioWriteNss level : ST (radio SPI) unit).
Proof. unfold GpioWriteNss. types. Qed.
Lemma DelayMs_types ms : keeps (DelayMs ms : ST (radio SPI) unit).
Proof. unfold DelayMs. types. Qed.
Lemma SpiInOut_types b : gives is_u8 (SpiInOut b : ST (radio SPI) Z).
Proof.
  intros s a s' T E. unfold SpiInOut in E. destruct exchange as [x d]. injection E as <- <-.
  split; [apply u8_range|]. by destruct T.
Qed.
#[local] Hint Resolve GpioWriteNss_types DelayMs_types SpiInOut_types : ops.

Lemma send_bytes_types l : keeps (send_bytes l : ST (radio SPI) unit).
Proof. induction l as [|b l IH]; simpl; types. Qed.
Lemma receive_bytes_types n : gives bytes (receive_bytes n : ST (radio SPI) (list Z)).
Proof. induction n as [|n IH]; simpl; types. Qed.
#[local] Hint Resolve send_bytes_types receive_bytes_types : ops.

Lemma SX1272WriteBuffer_types a b n : keeps (SX1272WriteBuffer a b n : ST (radio SPI) unit).
Proof. unfold SX1272WriteBuffer. eapply gives_bind; [by apply (gives_lift (fun _ => True))|intros]. types. Qed.
Lemma SX1272ReadBuffer_types a n : gives bytes (SX1272ReadBuffer a n : ST (radio SPI) (list Z)).
Proof. unfold SX1272ReadBuffer. types. Qed.
#[local] Hint Resolve SX1272WriteBuffer_types SX1272ReadBuffer_types : ops.

Lemma rd_bytes l i x : rd l i = Done x -> bytes l -> is_u8 x.
Proof. intros E Hl. apply rd_Done in E as [_ E]. by eapply Forall_lookup_1. Qed.

Lemma SX1272Write_types a x : keeps (SX1272Write a x : ST (radio SPI) unit).
Proof. unfold SX1272Write. types. Qed.
Lemma SX1272Read_types a : gives is_u8 (SX1272Read a : ST (radio SPI) Z).
Proof. unfold SX1272Read. types_step; [types|]. apply gives_lift. eauto using rd_bytes. Qed.
Lemma SX1272WriteFifo_types b n : keeps (SX1272WriteFifo b n : ST (radio SPI) unit).
Proof. unfold SX1272WriteFifo. types. Qed.
#[local] Hint Resolve SX1272Write_types SX1272Read_types SX1272WriteFifo_types : ops.

Lemma read_modify_types a keep set : keeps (read_modify a keep set : ST (radio SPI) unit).
Proof. unfold read_modify. types. Qed.
Lemma write_word_types a b v : keeps (write_word a b v : ST (radio SPI) unit).
Proof. unfold write_word. types. Qed.
#[local] Hint Resolve read_modify_types write_word_types : ops.

Lemma wrn_typed b i l b' : wrn b i l = Done b' -> buffer_typed b -> bytes l -> buffer_typed b'.
Proof.
  unfold wrn. destruct (_ && _) eqn:E; [|done]. intros [= <-] [Hn Hb] Hl.
  apply andb_prop in E as [E1 E2]. apply Z.leb_le in E1, E2. split.
  - rewrite !length_app, length_take, length_drop. unfold RX_BUFFER_SIZE in *. lia.
  - apply Forall_app; split; [by apply Forall_take|]. apply Forall_app; split; [done|by apply Forall_drop].
Qed.

Lemma rdn_bytes b i n l : rdn b i n = Done l -> bytes b -> bytes l.
Proof. unfold rdn. destruct (_ && _); [|done]. intros [= <-] Hb. by apply Forall_take, Forall_drop. Qed.
#[local] Hint Resolve wrn_typed rdn_bytes : types.

Lemma SX1272ReadFifo_types off n : keeps (SX1272ReadFifo off n : ST (radio SPI) unit).
Proof. unfold SX1272ReadFifo. types. Qed.
#[local] Hint Resolve SX1272ReadFifo_types : ops.

(** * Timers, antenna, modes *)

Lemma timers_types : keeps (TimerStopTx : ST (radio SPI) unit) /\ keeps (TimerStopRx : ST (radio SPI) unit) /\
  keeps (TimerStopSync : ST (radio SPI) unit) /\ keeps (TimerStartTx : ST (radio SPI) unit) /\
  keeps (TimerStartRx : ST (radio SPI) unit) /\ keeps (TimerStartSync : ST (radio SPI) unit).
Proof.
  unfold TimerStopTx, TimerStopRx, TimerStopSync, TimerStartTx, TimerStartRx, TimerStartSync. split_and!; types.
Qed.
Lemma TimerStopTx_types : keeps (TimerStopTx : ST (radio SPI) unit). Proof. apply timers_types. Qed.
Lemma TimerStopRx_types : keeps (TimerStopRx : ST (radio SPI) unit). Proof. apply timers_types. Qed.
Lemma TimerStopSync_types : keeps (TimerStopSync : ST (radio SPI) unit). Proof. apply timers_types. Qed.
Lemma TimerStartTx_types : keeps (TimerStartTx : ST (radio SPI) unit). Proof. apply timers_types. Qed.
Lemma TimerStartRx_types : keeps (TimerStartRx : ST (radio SPI) unit). Proof. apply timers_types. Qed.
Lemma TimerStartSync_types : keeps (TimerStartSync : ST (radio SPI) unit). Proof. apply timers_types. Qed.
Lemma TimerSetTx_types v : is_u32 v -> keeps (TimerSetTx v : ST (radio SPI) unit).
Proof. intros. unfold TimerSetTx. types. Qed.
Lemma TimerSetRx_types v : is_u32 v -> keeps (TimerSetRx v : ST (radio SPI) unit).
Proof. intros. unfold TimerSetRx. types. Qed.
Lemma TimerSetSync_types v : is_u32 v -> keeps (TimerSetSync v : ST (radio SPI) unit).
Proof. intros. unfold TimerSetSync. types. Qed.
#[local] Hint Resolve TimerStopTx_types TimerStopRx_types TimerStopSync_types TimerStartTx_types TimerStartRx_types
  TimerStartSync_types TimerSetTx_types TimerSetRx_types TimerSetSync_types : ops.

Lemma SX1272SetAntSwLowPower_types b : keeps (SX1272SetAntSwLowPower b : ST (radio SPI) unit).
Proof.
  unfold SX1272SetAntSwLowPower. apply (gives_test _ (fun s => Bool.eqb (RadioIsActive s) b) (sret tt)); [types|].
  unfold SX1272AntSwDeInit, SX1272AntSwInit. types.
Qed.
Lemma SX1272SetAntSw_types b : keeps (SX1272SetAntSw b : ST (radio SPI) unit).
Proof. unfold SX1272SetAntSw. types. Qed.
#[local] Hint Resolve SX1272SetAntSwLowPower_types SX1272SetAntSw_types : ops.

Lemma SX1272SetOpMode_types m : keeps (SX1272SetOpMode m : ST (radio SPI) unit).
Proof. unfold SX1272SetOpMode. types. Qed.
#[local] Hint Resolve SX1272SetOpMode_types : ops.
Lemma SX1272SetModem_types m : keeps (SX1272SetModem m : ST (radio SPI) unit).
Proof.
  unfold SX1272SetModem. apply (gives_test _ (fun s => modem_eqb (Modem s) m) (sret tt)); types.
Qed.
Lemma SX1272SetSleep_types : keeps (SX1272SetSleep : ST (radio SPI) unit).
Proof. unfold SX1272SetSleep. types. Qed.
Lemma SX1272SetStby_types : keeps (SX1272SetStby : ST (radio SPI) unit).
Proof. unfold SX1272SetStby. types. Qed.
#[local] Hint Resolve SX1272SetModem_types SX1272SetSleep_types SX1272SetStby_types : ops.

Lemma write_registers_types l : keeps (write_registers l : ST (radio SPI) unit).
Proof. induction l as [|[[m a] v] l IH]; simpl; types. Qed.
#[local] Hint Resolve write_registers_types : ops.
Lemma SX1272Init_types e : keeps (SX1272Init e : ST (radio SPI) unit).
Proof. unfold SX1272Init, SX1272Reset. types. Qed.
Lemma SX1272SetChannel_types f : is_u32 f -> keeps (SX1272SetChannel f : ST (radio SPI) unit).
Proof. intros. unfold SX1272SetChannel. types. Qed.
Lemma SX1272ReadRssi_types m : gives is_s16 (SX1272ReadRssi m : ST (radio SPI) Z).
Proof.
  unfold SX1272ReadRssi. types; unfold is_u8, is_s16, RSSI_OFFSET in *; [|lia].
  rewrite Z.shiftr_div_pow2 by done. lia.
Qed.
#[local] Hint Resolve SX1272Init_types SX1272SetChannel_types SX1272ReadRssi_types : ops.
Lemma SX1272IsChannelFree_types m f t : is_u32 f -> gives (fun _ => True) (SX1272IsChannelFree m f t : ST (radio SPI) bool).
Proof. intros. unfold SX1272IsChannelFree. types. Qed.

Lemma random_bits_types n : forall i r, gives (fun _ => True) (random_bits n i r : ST (radio SPI) Z).
Proof. induction n as [|n IH]; intros; simpl; types. Qed.
#[local] Hint Resolve random_bits_types : ops.
Lemma SX1272Random_types : gives (fun _ => True) (SX1272Random : ST (radio SPI) Z).
Proof. unfold SX1272Random. types. Qed.
#[local] Hint Resolve SX1272IsChannelFree_types SX1272Random_types : ops.

(** * Configuration *)

Lemma fsk_packet_config_types a b : keeps (fsk_packet_config a b : ST (radio SPI) unit).
Proof. unfold fsk_packet_config. types. Qed.
Lemma lora_config1_types a b c d : keeps (lora_config1 a b c d : ST (radio SPI) unit).
Proof. intros s x s' T E. unfold lora_config1 in E. by eapply read_modify_types in E. Qed.
Lemma lora_hopping_types : keeps (lora_hopping : ST (radio SPI) unit).
Proof.
  intros s x s' T E. unfold lora_hopping in E. destruct (FreqHopOn (LoRa s)); [|by injection E as <- <-].
  revert E. apply (fun K : keeps _ => K s x s' T). types.
Qed.
Lemma lora_detection_types d : keeps (lora_detection d : ST (radio SPI) unit).
Proof. unfold lora_detection. types. Qed.
#[local] Hint Resolve fsk_packet_config_types lora_config1_types lora_hopping_types lora_detection_types : ops.

Lemma rx_config_fsk_types bandwidth datarate bandwidthAfc preambleLen fixLen payloadLen crcOn iqInverted rxContinuous :
  is_u32 bandwidth -> is_u32 datarate -> is_u32 bandwidthAfc -> is_u16 preambleLen -> is_u8 payloadLen ->
  keeps (rx_config_fsk bandwidth datarate bandwidthAfc preambleLen fixLen payloadLen crcOn iqInverted rxContinuous
         : ST (radio SPI) unit).
Proof. intros. unfold rx_config_fsk. types. Qed.

Lemma rx_config_lora_types bandwidth datarate coderate preambleLen symbTimeout fixLen payloadLen crcOn freqHopOn
    hopPeriod iqInverted rxContinuous :
  is_u32 bandwidth -> is_u32 datarate -> is_u8 coderate -> is_u16 preambleLen -> is_u8 payloadLen -> is_u8 hopPeriod ->
  keeps (rx_config_lora bandwidth datarate coderate preambleLen symbTimeout fixLen payloadLen crcOn freqHopOn hopPeriod
           iqInverted rxContinuous : ST (radio SPI) unit).
Proof. intros. unfold rx_config_lora. types. Qed.

Lemma tx_config_fsk_types power fdev bandwidth datarate preambleLen fixLen crcOn iqInverted timeout :
  is_s8 power -> is_u32 fdev -> is_u32 bandwidth -> is_u32 datarate -> is_u16 preambleLen -> is_u32 timeout ->
  keeps (tx_config_fsk power fdev bandwidth datarate preambleLen fixLen crcOn iqInverted timeout : ST (radio SPI) unit).
Proof. intros. unfold tx_config_fsk. types. Qed.

Lemma tx_config_lora_types power bandwidth datarate coderate preambleLen fixLen crcOn freqHopOn hopPeriod iqInverted timeout :
  is_s8 power -> is_u32 bandwidth -> is_u32 datarate -> is_u8 coderate -> is_u16 preambleLen -> is_u8 hopPeriod ->
  is_u32 timeout ->
  keeps (tx_config_lora power bandwidth datarate coderate preambleLen fixLen crcOn freqHopOn hopPeriod iqInverted timeout
         : ST (radio SPI) unit).
Proof. intros. unfold tx_config_lora. types. Qed.
#[local] Hint Resolve rx_config_fsk_types rx_config_lora_types tx_config_fsk_types tx_config_lora_types : ops.

(** The power is limited to what the amplifier can give. *)
Lemma pa_settings_power a b c p : is_s8 p -> is_s8 (pa_settings a b c p).2.
Proof.
  unfold pa_settings, is_s8. intros H.
  repeat match goal with |- context [if ?b then _ else _] => destruct b eqn:? end; simpl; lia.
Qed.

(** * Transmission and reception *)

Lemma lora_dio_mapping_types h d : keeps (lora_dio_mapping h d : ST (radio SPI) unit).
Proof. unfold lora_dio_mapping. types. Qed.
Lemma set_invert_iq_types a b c : keeps (set_invert_iq a b c : ST (radio SPI) unit).
Proof. unfold set_invert_iq. types. Qed.
#[local] Hint Resolve lora_dio_mapping_types set_invert_iq_types : ops.

Lemma SX1272SetTx_types t : is_u32 t -> keeps (SX1272SetTx t : ST (radio SPI) unit).
Proof. intros. unfold SX1272SetTx. types. Qed.
#[local] Hint Resolve SX1272SetTx_types : ops.

Lemma copy_to_buffer_types b n : bytes b -> keeps (copy_to_buffer b n : ST (radio SPI) unit).
Proof. intros Hb. unfold copy_to_buffer. types. Qed.

#[local] Hint Resolve copy_to_buffer_types : ops.

Lemma send_fsk_types b n : bytes b -> is_u8 n -> keeps (send_fsk b n : ST (radio SPI) unit).
Proof. intros. unfold send_fsk. types. Qed.
Lemma send_lora_types b n : bytes b -> is_u8 n -> keeps (send_lora b n : ST (radio SPI) unit).
Proof. intros. unfold send_lora. types. Qed.
#[local] Hint Resolve send_fsk_types send_lora_types : ops.
Lemma SX1272Send_types b n : bytes b -> is_u8 n -> keeps (SX1272Send b n : ST (radio SPI) unit).
Proof. intros. unfold SX1272Send. types. Qed.

Lemma reset_packet_types : keeps (reset_packet : ST (radio SPI) unit).
Proof. unfold reset_packet. types. Qed.
#[local] Hint Resolve reset_packet_types : ops.
Lemma rx_fsk_types : keeps (rx_fsk : ST (radio SPI) unit).
Proof. unfold rx_fsk. types. Qed.
Lemma rx_lora_types : keeps (rx_lora : ST (radio SPI) unit).
Proof. unfold rx_lora. types. Qed.
#[local] Hint Resolve rx_fsk_types rx_lora_types : ops.

Lemma sync_timeout_u32 f c t : sync_timeout f c = Done t -> is_u32 t.
Proof. unfold sync_timeout. destruct (_ =? _); [done|]. apply u32_of_to_u32. Qed.
Lemma empty_buffer_typed : buffer_typed (replicate (Z.to_nat RX_BUFFER_SIZE) 0).
Proof. split; [by rewrite length_replicate|]. apply Forall_replicate. unfold is_u8. lia. Qed.
#[local] Hint Resolve sync_timeout_u32 empty_buffer_typed : types.

Lemma SX1272SetRx_types t : is_u32 t -> keeps (SX1272SetRx t : ST (radio SPI) unit).
Proof. intros. unfold SX1272SetRx. types. Qed.
Lemma SX1272StartCad_types : keeps (SX1272StartCad : ST (radio SPI) unit).
Proof. unfold SX1272StartCad. types. Qed.
Lemma SX1272SetMaxPayloadLength_types m n : keeps (SX1272SetMaxPayloadLength m n : ST (radio SPI) unit).
Proof. unfold SX1272SetMaxPayloadLength. types. Qed.
Lemma SX1272GetTimeOnAir_types m n : gives (fun _ => True) (SX1272GetTimeOnAir m n : ST (radio SPI) Z).
Proof. unfold SX1272GetTimeOnAir. types; (eapply gives_weaken; [apply gives_lift_eq|done]). Qed.
#[local] Hint Resolve SX1272Send_types SX1272SetRx_types SX1272StartCad_types SX1272SetMaxPayloadLength_types
  SX1272GetTimeOnAir_types : ops.

(** * Interrupts *)

(** The upper layer leaves the driver well typed: it changes it with its operations only. *)
Context {RC : RadioClient SPI}.
Context (client_types : forall e s s', typed s -> event_typed e -> on_event e s = Done s' -> typed s').

Lemma notify_types e : event_typed e -> keeps (notify e : ST (radio SPI) unit).
Proof.
  intros He s a s' T E. unfold notify in E. destruct (RadioEvents s) as [r|]; [|by injection E as <- <-].
  destruct (has_callback e r); [|by injection E as <- <-]. apply rbind_inv in E as (s1 & E1 & E2).
  injection E2 as <- <-. eauto.
Qed.
Lemma RxDone_fsk_typed (s : radio SPI) : typed s ->
  event_typed (RxDone (RxTxBuffer s) (Fsk_Size (FskPacketHandler s)) (Fsk_RssiValue (FskPacketHandler s)) 0).
Proof. intros T. split_and!; eauto with types. Qed.
Lemma RxDone_lora_typed (s : radio SPI) : typed s ->
  event_typed (RxDone (RxTxBuffer s) (LoRa_Size (LoRaPacketHandler s)) (LoRa_RssiValue (LoRaPacketHandler s))
                 (SnrValue (LoRaPacketHandler s))).
Proof. intros T. split_and!; eauto with types. Qed.
Lemma hop_typed c m : is_u8 c -> event_typed (FhssChangeChannel (Z.land c m)).
Proof. apply land_u8. Qed.
Lemma clear_fsk_irqs_types : keeps (clear_fsk_irqs : ST (radio SPI) unit).
Proof. unfold clear_fsk_irqs. types. Qed.
Lemma restart_or_end_types : keeps (restart_or_end : ST (radio SPI) unit).
Proof. unfold restart_or_end. types. Qed.
#[local] Hint Resolve notify_types clear_fsk_irqs_types restart_or_end_types : ops.
#[local] Hint Resolve RxDone_fsk_typed RxDone_lora_typed hop_typed : types.
#[local] Hint Extern 1 (event_typed _) => exact I : types.

Lemma SX1272OnTimeoutIrq_types : keeps (SX1272OnTimeoutIrq : ST (radio SPI) unit).
Proof. unfold SX1272OnTimeoutIrq. types. Qed.

Lemma size_typed n b : is_u16 n -> is_u8 b -> is_u16 (Z.lor (Z.land n 0xFF00) b).
Proof.
  unfold is_u16, is_u8. intros Hn Hb. change 65536 with (2 ^ 16). apply bits_bound; [lia| |].
  - apply Z.lor_nonneg. split; [|lia]. apply Z.land_nonneg. lia.
  - intros i Hi. rewrite Z.lor_spec, Z.land_spec, (testbit_high 16 n), (testbit_high 8 b) by lia. done.
Qed.
#[local] Hint Resolve size_typed rd_bytes : types.

Lemma read_size_types : keeps (read_size : ST (radio SPI) unit).
Proof. unfold read_size. types. Qed.
Lemma read_chunk_types n : keeps (read_chunk n : ST (radio SPI) unit).
Proof. unfold read_chunk. types. Qed.
#[local] Hint Resolve read_size_types read_chunk_types : ops.
Lemma read_rest_types : keeps (read_rest : ST (radio SPI) unit).
Proof. unfold read_rest. types. Qed.
#[local] Hint Resolve read_rest_types : ops.

Lemma rx_done_fsk_types : keeps (rx_done_fsk : ST (radio SPI) unit).
Proof. unfold rx_done_fsk. types. Qed.
Lemma read_packet_types : keeps (read_packet : ST (radio SPI) unit).
Proof. unfold read_packet. types. Qed.
Lemma end_reception_types : keeps (end_reception : ST (radio SPI) unit).
Proof. unfold end_reception. types. Qed.
#[local] Hint Resolve rx_done_fsk_types read_packet_types end_reception_types : ops.
Lemma rx_done_lora_types : keeps (rx_done_lora : ST (radio SPI) unit).
Proof. unfold rx_done_lora. types. Qed.
#[local] Hint Resolve rx_done_lora_types : ops.
Lemma SX1272OnDio0Irq_types : keeps (SX1272OnDio0Irq : ST (radio SPI) unit).
Proof. unfold SX1272OnDio0Irq. types. Qed.

Lemma fifo_level_types : keeps (fifo_level : ST (radio SPI) unit).
Proof. unfold fifo_level. types. Qed.
Lemma fifo_empty_types : keeps (fifo_empty : ST (radio SPI) unit).
Proof. unfold fifo_empty. types. Qed.
#[local] Hint Resolve fifo_level_types fifo_empty_types : ops.
Lemma SX1272OnDio1Irq_types : keeps (SX1272OnDio1Irq : ST (radio SPI) unit).
Proof. unfold SX1272OnDio1Irq. types. Qed.

Lemma sync_word_detected_types : keeps (sync_word_detected : ST (radio SPI) unit).
Proof. unfold sync_word_detected. types. Qed.
Lemma change_channel_types : keeps (change_channel : ST (radio SPI) unit).
Proof. unfold change_channel. types. Qed.
#[local] Hint Resolve sync_word_detected_types change_channel_types : ops.
Lemma SX1272OnDio2Irq_types : keeps (SX1272OnDio2Irq : ST (radio SPI) unit).
Proof. unfold SX1272OnDio2Irq. types. Qed.
Lemma SX1272OnDio3Irq_types : keeps (SX1272OnDio3Irq : ST (radio SPI) unit).
Proof. unfold SX1272OnDio3Irq. types. Qed.
Lemma SX1272OnDio4Irq_types : keeps (SX1272OnDio4Irq : ST (radio SPI) unit).
Proof. unfold SX1272OnDio4Irq. types. Qed.

(** * The driver as a state machine *)

(** What can happen to the driver: a call of an operation of [Radio_s], or an interrupt. *)
Inductive request :=
| Init (events : option RadioEvents_t)
| SetModem (modem : RadioModems_t)
| SetChannel (freq : Z)
| IsChannelFree (modem : RadioModems_t) (freq rssiThresh : Z)
| Random
| SetRxConfig (modem : RadioModems_t) (bandwidth datarate coderate bandwidthAfc preambleLen symbTimeout : Z)
    (fixLen : bool) (payloadLen : Z) (crcOn freqHopOn : bool) (hopPeriod : Z) (iqInverted rxContinuous : bool)
| SetTxConfig (modem : RadioModems_t) (power fdev bandwidth datarate coderate preambleLen : Z)
    (fixLen crcOn freqHopOn : bool) (hopPeriod : Z) (iqInverted : bool) (timeout : Z)
| TimeOnAir (modem : RadioModems_t) (pktLen : Z)
| Send (buffer : list Z) (size : Z)
| Sleep
| Standby
| Rx (timeout : Z)
| StartCad
| Rssi (modem : RadioModems_t)
| Write (addr data : Z)
| Read (addr : Z)
| WriteBuffer (addr : Z) (buffer : list Z) (size : Z)
| ReadBuffer (addr size : Z)
| SetMaxPayloadLength (modem : RadioModems_t) (max : Z)
| TimeoutIrq
| Dio0Irq
| Dio1Irq
| Dio2Irq
| Dio3Irq
| Dio4Irq.

(** The arguments in their types. *)
Definition request_typed (r : request) : Prop :=
  match r with
  | SetChannel freq | IsChannelFree _ freq _ => is_u32 freq
  | SetRxConfig _ bandwidth datarate coderate bandwidthAfc preambleLen symbTimeout _ payloadLen _ _ hopPeriod _ _ =>
      is_u32 bandwidth /\ is_u32 datarate /\ is_u8 coderate /\ is_u32 bandwidthAfc /\ is_u16 preambleLen /\
      is_u16 symbTimeout /\ is_u8 payloadLen /\ is_u8 hopPeriod
  | SetTxConfig _ power fdev bandwidth datarate coderate preambleLen _ _ _ hopPeriod _ timeout =>
      is_s8 power /\ is_u32 fdev /\ is_u32 bandwidth /\ is_u32 datarate /\ is_u8 coderate /\ is_u16 preambleLen /\
      is_u8 hopPeriod /\ is_u32 timeout
  | Send buffer size => bytes buffer /\ is_u8 size
  | Rx timeout => is_u32 timeout
  | _ => True
  end.

Definition perform (r : request) : ST (radio SPI) unit :=
  match r with
  | Init events => SX1272Init events
  | SetModem modem => SX1272SetModem modem
  | SetChannel freq => SX1272SetChannel freq
  | IsChannelFree modem freq rssiThresh => SX1272IsChannelFree modem freq rssiThresh ;;; sret tt
  | Random => SX1272Random ;;; sret tt
  | SetRxConfig modem bandwidth datarate coderate bandwidthAfc preambleLen symbTimeout fixLen payloadLen crcOn
      freqHopOn hopPeriod iqInverted rxContinuous =>
      SX1272SetRxConfig modem bandwidth datarate coderate bandwidthAfc preambleLen symbTimeout fixLen payloadLen crcOn
        freqHopOn hopPeriod iqInverted rxContinuous
  | SetTxConfig modem power fdev bandwidth datarate coderate preambleLen fixLen crcOn freqHopOn hopPeriod iqInverted timeout =>
      SX1272SetTxConfig modem power fdev bandwidth datarate coderate preambleLen fixLen crcOn freqHopOn hopPeriod
        iqInverted timeout
  | TimeOnAir modem pktLen => SX1272GetTimeOnAir modem pktLen ;;; sret tt
  | Send buffer size => SX1272Send buffer size
  | Sleep => SX1272SetSleep
  | Standby => SX1272SetStby
  | Rx timeout => SX1272SetRx timeout
  | StartCad => SX1272StartCad
  | Rssi modem => SX1272ReadRssi modem ;;; sret tt
  | Write addr data => SX1272Write addr data
  | Read addr => SX1272Read addr ;;; sret tt
  | WriteBuffer addr buffer size => SX1272WriteBuffer addr buffer size
  | ReadBuffer addr size => SX1272ReadBuffer addr size ;;; sret tt
  | SetMaxPayloadLength modem max => SX1272SetMaxPayloadLength modem max
  | TimeoutIrq => SX1272OnTimeoutIrq
  | Dio0Irq => SX1272OnDio0Irq
  | Dio1Irq => SX1272OnDio1Irq
  | Dio2Irq => SX1272OnDio2Irq
  | Dio3Irq => SX1272OnDio3Irq
  | Dio4Irq => SX1272OnDio4Irq
  end.

(** A run of the driver: typed requests that return. *)
Inductive runs (s : radio SPI) : radio SPI -> Prop :=
| runs_start : runs s s
| runs_step s1 s2 r : runs s s1 -> request_typed r -> perform r s1 = Done (tt, s2) -> runs s s2.

Lemma SX1272SetRxConfig_types modem bandwidth datarate coderate bandwidthAfc preambleLen symbTimeout fixLen payloadLen
    crcOn freqHopOn hopPeriod iqInverted rxContinuous :
  is_u32 bandwidth -> is_u32 datarate -> is_u8 coderate -> is_u32 bandwidthAfc -> is_u16 preambleLen ->
  is_u8 payloadLen -> is_u8 hopPeriod ->
  keeps (SX1272SetRxConfig modem bandwidth datarate coderate bandwidthAfc preambleLen symbTimeout fixLen payloadLen crcOn
    freqHopOn hopPeriod iqInverted rxContinuous : ST (radio SPI) unit).
Proof. intros. unfold SX1272SetRxConfig. types. Qed.

Lemma SX1272SetTxConfig_types modem power fdev bandwidth datarate coderate preambleLen fixLen crcOn freqHopOn hopPeriod
    iqInverted timeout :
  is_s8 power -> is_u32 fdev -> is_u32 bandwidth -> is_u32 datarate -> is_u8 coderate -> is_u16 preambleLen ->
  is_u8 hopPeriod -> is_u32 timeout ->
  keeps (SX1272SetTxConfig modem power fdev bandwidth datarate coderate preambleLen fixLen crcOn freqHopOn hopPeriod
    iqInverted timeout : ST (radio SPI) unit).
Proof.
  intros. unfold SX1272SetTxConfig. do 4 (types_step; [types|]).
  match goal with |- context [pa_settings ?a ?b ?c power] => pose proof (pa_settings_power a b c power) as Hp;
    destruct (pa_settings a b c power) as [[pa dac] pw] end.
  simpl in Hp. specialize (Hp ltac:(assumption)). types.
Qed.
#[local] Hint Resolve SX1272SetRxConfig_types SX1272SetTxConfig_types SX1272OnTimeoutIrq_types SX1272OnDio0Irq_types
  SX1272OnDio1Irq_types SX1272OnDio2Irq_types SX1272OnDio3Irq_types SX1272OnDio4Irq_types : ops.

Lemma perform_types r : request_typed r -> keeps (perform r).
Proof. destruct r; simpl; intros Hr; repeat match goal with H : _ /\ _ |- _ => destruct H end; types. Qed.


End Operations.

(** * Witness *)

(** A chip that answers every byte with its complement, and an upper layer without effect. *)
#[local] Instance EchoChip : SpiDevice := { device := unit; nss _ d := d; exchange b d := (255 - b, d); elapse _ d := d }.
#[local] Instance NoClient : RadioClient EchoChip := fun _ s => Done s.

(** The statics after reset. *)
Definition reset_state : radio EchoChip :=
  mkRadio EchoChip tt RF_IDLE MODEM_FSK 0
    (mkFsk 0 0 0 0 0 0 false 0 false false false 0) (mkFskPkt false false 0 0 0 0 0 0 0)
    (mkLoRa 0 0 0 false 0 0 false 0 false false 0 false false 0) (mkLoRaPkt 0 0 0)
    None (replicate 256 0) false Analogic Analogic (mkTimerView false 0) (mkTimerView false 0) (mkTimerView false 0).

Lemma reset_state_typed : typed reset_state.
Proof.
  split; first [apply empty_buffer_typed
    |split; unfold is_s8, is_s16, is_s32, is_u8, is_u16, is_u32; simpl; lia].
Qed.


End RadioTypes.
