(* ===== verification/Rtc.v ===== *)
(** The calendar clock of src/src/boards/SK-iM880A/rtc-board.c: the conversion
    between milliseconds and the calendar of the hardware clock, the alarm, the
    roll over of the century, the wake-up time.

    The calendar counts ticks of 125/256 ms as if they were seconds.  The hardware
    clock and the power control are the class [RtcDevice]; the code computes in
    floating point, as it does here.  The theorems relate the calendar to the
    number of ticks it stands for. *)
From S2P Require Import Prelude Double Timer.
From Stdlib Require Import QArith Qround Qabs Lqa.
#[global] Open Scope Z_scope.
Import Double.

(** * Data *)

(** [RTC_TimeTypeDef] and [RTC_DateTypeDef] *)
Record RTC_TimeTypeDef := mkTime { Hours : Z; Minutes : Z; Seconds : Z }.
#[export] Instance eta_time : Eta RTC_TimeTypeDef := fun r => mkTime (Hours r) (Minutes r) (Seconds r).

Record RTC_DateTypeDef := mkDate { WeekDay : Z; Month : Z; Date : Z; Year : Z }.
#[export] Instance eta_date : Eta RTC_DateTypeDef := fun r => mkDate (WeekDay r) (Month r) (Date r) (Year r).

(** [RTC_AlarmTypeDef]: an alarm at a date of the month and a time of the day. *)
Record RTC_AlarmTypeDef := mkAlarm { AlarmTime : RTC_TimeTypeDef; AlarmDateWeekDay : Z }.

(** The hardware clock behind the vendor library, and the power control of the
    microcontroller. *)
Class RtcDevice := {
  rtc : Type;
  HAL_RTC_Init : rtc -> rtc;
  HAL_RTC_GetTime : rtc -> RTC_TimeTypeDef * rtc;
  HAL_RTC_GetDate : rtc -> RTC_DateTypeDef * rtc;
  HAL_RTC_SetTime : RTC_TimeTypeDef -> rtc -> rtc;
  HAL_RTC_SetDate : RTC_DateTypeDef -> rtc -> rtc;
  HAL_RTC_GetAlarm : rtc -> RTC_AlarmTypeDef * rtc;
  HAL_RTC_SetAlarm_IT : RTC_AlarmTypeDef -> rtc -> rtc;
  HAL_RTC_DeactivateAlarm : rtc -> rtc;
  HAL_RTCEx_DeactivateWakeUpTimer : rtc -> rtc;
  HAL_RTC_AlarmIRQHandler : rtc -> rtc;
  wake_up_flag : rtc -> bool;
  clear_wake_up_flag : rtc -> rtc;
  slow_clock : rtc -> bool;
  BoardInitMcu : rtc -> rtc;
  enter_stop_mode : rtc -> rtc;
}.

Module Rtc.
#[local] Open Scope st_scope.

(** [RtcCalendar_t] *)
Record RtcCalendar_t := mkCalendar {
  CalendarCentury : Z;
  CalendarDate : RTC_DateTypeDef;
  CalendarTime : RTC_TimeTypeDef;
}.
#[export] Instance eta_calendar : Eta RtcCalendar_t :=
  fun r => mkCalendar (CalendarCentury r) (CalendarDate r) (CalendarTime r).

(** The statics of rtc-board.c, and the device. *)
Record clock {HW : RtcDevice} := mkClock {
  hw : rtc;
  Century : Z;
  CallendarRollOverReady : bool;
  NonScheduledWakeUp : bool;
  RtcCalendarContext : RtcCalendar_t;
  RtcTimerEventAllowsLowPower : bool;
  LowPowerDisableDuringTask : bool;
  RtcInitalized : bool;
  WakeUpTimeInitialized : bool;
  McuWakeUpTime : Z;
  TimeoutValueError : Z;
}.
Arguments clock HW : clear implicits.
#[export] Instance eta_clock {HW : RtcDevice} : Eta (clock HW) :=
  fun s => mkClock HW (hw s) (Century s) (CallendarRollOverReady s) (NonScheduledWakeUp s) (RtcCalendarContext s)
    (RtcTimerEventAllowsLowPower s) (LowPowerDisableDuringTask s) (RtcInitalized s) (WakeUpTimeInitialized s)
    (McuWakeUpTime s) (TimeoutValueError s).

(** * Constants *)

Definition RTC_ALARM_TICK_DURATION : Q := (125 # 256)%Q.
(** 2.048 is not a double; the nearest one is used. *)
Definition RTC_ALARM_TICK_PER_MS : Q := Eval vm_compute in rnd (2048 # 1000)%Q.
Definition RTC_ALARM_MAX_NUMBER_OF_DAYS : Z := 28.
Definition SecondsInMinute : Z := 60.
Definition SecondsInHour : Z := 3600.
Definition SecondsInDay : Z := 86400.
Definition HoursInDay : Z := 24.
Definition SecondsInLeapYear : Z := 31622400.
Definition SecondsInYear : Z := 31536000.
Definition DaysInMonth : list Z := [31; 28; 31; 30; 31; 30; 31; 31; 30; 31; 30; 31].
Definition DaysInMonthLeapYear : list Z := [31; 29; 31; 30; 31; 30; 31; 31; 30; 31; 30; 31].

(** * Loops *)

(** [while( x >= unit ) { x -= unit; n++; }] on a double and a 16-bit counter *)
Fixpoint take_units (fuel : nat) (unit : Z) (x : Q) (n : Z) : run (Q * Z) :=
  if Qle_bool (of_int unit) x then
    match fuel with
    | O => NoFuel
    | S fuel' => take_units fuel' unit (dsub x (of_int unit)) (u16 (n + 1))
    end
  else Done (x, n).

(** [while( lo >= unit ) { lo -= unit; hi++; }] on 16-bit integers *)
Fixpoint carry (fuel : nat) (unit lo hi : Z) : run (Z * Z) :=
  if unit <=? lo then
    match fuel with
    | O => NoFuel
    | S fuel' => carry fuel' unit (lo - unit) (u16 (hi + 1))
    end
  else Done (lo, hi).

(** More than any loop of the conversions runs. *)
Definition loop_bound : nat := 400.

(** [( years == 0 ) || ( years % 4 ) == 0] *)
Definition leap (y : Z) : bool := (y =? 0) || (y mod 4 =? 0).

Definition days_in_month (l : bool) : list Z := if l then DaysInMonthLeapYear else DaysInMonth.

(** * The alarm *)

(** The largest timeout the alarm can wait for, in ms. *)
Definition max_timeout : run Z :=
  to_u32 (dmul (of_int (RTC_ALARM_MAX_NUMBER_OF_DAYS * SecondsInDay)) RTC_ALARM_TICK_DURATION).

(** The ticks of a timeout and the new [TimeoutValueError]. *)
Definition timeout_ticks (timeCounter error : Z) : run (Q * Z) :=
  let timeoutValue := of_int (round (dmul (of_int timeCounter) RTC_ALARM_TICK_PER_MS)) in
  let timeoutValueTemp := dmul (of_int timeCounter) RTC_ALARM_TICK_PER_MS in
  let err := dsub timeoutValue timeoutValueTemp in
  let* error := to_s32 (dadd (of_int error) (dmul err (of_int 1000))) in
  let limit := trunc (dmul RTC_ALARM_TICK_DURATION (of_int 1000)) in
  if limit <=? error then Done (dadd timeoutValue (of_int 1), s32 (u32 (error - limit)))
  else Done (timeoutValue, error).

(** The date beyond the end of the month. *)
Definition wrap_date (l : bool) (month days : Z) : run Z :=
  let* n := rd (days_in_month l) (month - 1) in
  if n <? days then Done (days mod n) else Done days.

(** The time and date with the ticks added, the date not yet within the month. *)
Definition add_ticks (timeoutValue : Q) (date : Z) (time : RTC_TimeTypeDef) : run (RTC_TimeTypeDef * Z) :=
  let* (timeoutValue, days) := take_units loop_bound SecondsInDay timeoutValue date in
  let* (timeoutValue, hours) := take_units loop_bound SecondsInHour timeoutValue (Hours time) in
  let* (timeoutValue, minutes) := take_units loop_bound SecondsInMinute timeoutValue (Minutes time) in
  let* seconds := to_u16 (dadd (of_int (Seconds time)) timeoutValue) in
  let* (seconds, minutes) := carry loop_bound 60 seconds minutes in
  let* (minutes, hours) := carry loop_bound 60 minutes hours in
  let* (hours, days) := carry loop_bound HoursInDay hours days in
  Done (mkTime hours minutes seconds, days).

Definition RtcComputeTimerTimeToAlarmTick (timeCounter : Z) (now : RtcCalendar_t) (century error : Z)
  : run (RtcCalendar_t * Z) :=
  let* maxTimeout := max_timeout in
  let timeCounter := Z.min timeCounter maxTimeout in
  let timeCounter := if timeCounter <? 1 then 1 else timeCounter in
  let* (timeoutValue, error) := timeout_ticks timeCounter error in
  let* (time, days) := add_ticks timeoutValue (Date (CalendarDate now)) (CalendarTime now) in
  let year := Year (CalendarDate now) in
  let* days := wrap_date ((year =? 0) || ((year + century) mod 4 =? 0)) (Month (CalendarDate now)) days in
  Done (now <| CalendarTime := mkTime (u8 (Hours time)) (u8 (Minutes time)) (u8 (Seconds time)) |>
            <| CalendarDate ::= fun d => d <| Date := u8 days |> |>, error).

Arguments RtcComputeTimerTimeToAlarmTick : simpl never.

(** * Milliseconds to calendar *)

(** The loop over the years: the rest, the years and the century. *)
Fixpoint years_loop (fuel : nat) (x : Q) (years century : Z) : run (Q * Z * Z) :=
  if Qle_bool (of_int SecondsInLeapYear) x then
    match fuel with
    | O => NoFuel
    | S fuel' =>
        let x := dsub x (of_int (if leap years then SecondsInLeapYear else SecondsInYear)) in
        let years := u16 (years + 1) in
        if years =? 100 then years_loop fuel' x 0 (u16 (century + 100)) else years_loop fuel' x years century
    end
  else Done (x, years, century).

(** The loop over the months. *)
Fixpoint months_loop (fuel : nat) (l : list Z) (x : Q) (months : Z) : run (Q * Z) :=
  let* n := rd l (months - 1) in
  if Qle_bool (of_int (u32 (n * SecondsInDay))) x then
    match fuel with
    | O => NoFuel
    | S fuel' => months_loop fuel' l (dsub x (of_int (u32 (n * SecondsInDay)))) (u8 (months + 1))
    end
  else Done (x, months).

Definition RtcConvertTimerTimeToCalendarTick (timeCounter : Z) : run RtcCalendar_t :=
  let timeCounterTemp := dmul (of_int timeCounter) RTC_ALARM_TICK_PER_MS in
  let* (x, years, century) := years_loop loop_bound timeCounterTemp 0 0 in
  let '(x, years) :=
    if Qle_bool (of_int SecondsInYear) x && negb (leap years)
    then (dsub x (of_int SecondsInYear), u16 (years + 1)) else (x, years) in
  let* (x, months) := months_loop loop_bound (days_in_month (leap years)) x 1 in
  let* (x, days) := take_units loop_bound SecondsInDay x 0 in
  let* (x, hours) := take_units loop_bound SecondsInHour x 0 in
  let* (x, minutes) := take_units loop_bound SecondsInMinute x 0 in
  let* seconds := to_u16 (of_int (round x)) in
  Done (mkCalendar century (mkDate 0 months (u8 days) (u8 years)) (mkTime (u8 hours) (u8 minutes) (u8 seconds))).

(** * Calendar to milliseconds *)

(** [n] years from year [i] on *)
Fixpoint add_years (n : nat) (i : Z) (acc : Q) : Q :=
  match n with
  | O => acc
  | S n' => add_years n' (i + 1) (dadd acc (of_int (if leap i then SecondsInLeapYear else SecondsInYear)))
  end.

(** [n] months from month [i] on *)
Fixpoint add_months (n : nat) (l : list Z) (i : Z) (acc : Q) : run Q :=
  match n with
  | O => Done acc
  | S n' => let* d := rd l i in add_months n' l (i + 1) (dadd acc (of_int (u32 (d * SecondsInDay))))
  end.

(** The counter of the years is a 16-bit signed integer, so more years never end. *)
Definition calendar_time (now : RtcCalendar_t) : run Z :=
  let date := CalendarDate now in
  let time := CalendarTime now in
  let years := Year date + CalendarCentury now in
  if 32767 <? years then NoFuel
  else
    let acc := add_years (Z.to_nat years) 0 (of_int 0) in
    let* acc := add_months (Z.to_nat (Month date - 1))
                  (days_in_month ((Year date =? 0) || (years mod 4 =? 0))) 0 acc in
    let acc := dadd acc (of_int (u32 (Seconds time + Minutes time * SecondsInMinute + Hours time * SecondsInHour
                                      + u32 (Date date * SecondsInDay)))) in
    to_u32 (of_int (round (dmul acc RTC_ALARM_TICK_DURATION))).

Arguments calendar_time : simpl never.

(** * The clock *)

Section Clock.
Context {HW : RtcDevice}.
Abbreviation C := (ST (clock HW)).

Definition hal (f : rtc -> rtc) : C unit := smod (fun s => s <| hw := f (hw s) |>).
Definition hal_get {A} (f : rtc -> A * rtc) : C A := fun s => let '(a, d) := f (hw s) in Done (a, s <| hw := d |>).

Definition RtcCheckCalendarRollOver (year : Z) : C unit :=
  swhen (year =? 99) (smod (fun s => s <| CallendarRollOverReady := true |>)) ;;;
  s <- sget ;;
  swhen (CallendarRollOverReady s && (year + Century s =? Century s))
    (smod (fun s => s <| CallendarRollOverReady := false |> <| Century := u16 (Century s + 100) |>)).

Definition RtcGetCalendar : C RtcCalendar_t :=
  time <- hal_get HAL_RTC_GetTime ;;
  date <- hal_get HAL_RTC_GetDate ;;
  s <- sget ;;
  let calendar := mkCalendar (Century s) date time in
  RtcCheckCalendarRollOver (Year date) ;;;
  sret calendar.

(** [None] is the NULL pointer: the calendar now. *)
Definition RtcConvertCalendarTickToTimerTime (calendar : option RtcCalendar_t) : C Z :=
  now <- match calendar with None => RtcGetCalendar | Some c => sret c end ;;
  slift (calendar_time now).

Definition RtcInit : C unit :=
  s <- sget ;;
  swhen (negb (RtcInitalized s))
    (hal HAL_RTC_Init ;;;
     hal (HAL_RTC_SetDate (mkDate 6 1 1 0)) ;;;
     hal (HAL_RTC_SetTime (mkTime 0 0 0)) ;;;
     smod (fun s => s <| RtcInitalized := true |>)).

Definition RtcStartWakeUpAlarm (timeoutValue : Z) : C unit :=
  hal HAL_RTC_DeactivateAlarm ;;;
  hal HAL_RTCEx_DeactivateWakeUpTimer ;;;
  now <- RtcGetCalendar ;;
  smod (fun s => s <| RtcCalendarContext := now |>) ;;;
  s <- sget ;;
  r <- slift (RtcComputeTimerTimeToAlarmTick timeoutValue now (Century s) (TimeoutValueError s)) ;;
  smod (fun s => s <| TimeoutValueError := r.2 |>) ;;;
  hal (HAL_RTC_SetAlarm_IT (mkAlarm (CalendarTime r.1) (Date (CalendarDate r.1)))).

Definition RtcSetTimeout (timeout : Z) : C unit := RtcStartWakeUpAlarm timeout.

Definition RtcGetAdjustedTimeoutValue (timeout : Z) : C Z := fun s =>
  let '(timeout, s) :=
    if (McuWakeUpTime s <? timeout) && NonScheduledWakeUp s
    then (timeout - McuWakeUpTime s, s <| NonScheduledWakeUp := false |>) else (timeout, s) in
  if McuWakeUpTime s <? timeout then
    if timeout <? 50 then Done (timeout, s <| RtcTimerEventAllowsLowPower := false |>)
    else Done (timeout - McuWakeUpTime s, s <| RtcTimerEventAllowsLowPower := true |>)
  else Done (timeout, s).

Definition RtcGetTimerValue : C Z := RtcConvertCalendarTickToTimerTime None.

Definition RtcGetElapsedAlarmTime : C Z :=
  currentTime <- RtcConvertCalendarTickToTimerTime None ;;
  s <- sget ;;
  contextTime <- RtcConvertCalendarTickToTimerTime (Some (RtcCalendarContext s)) ;;
  sret (if currentTime <? contextTime then u32 (currentTime + (0xFFFFFFFF - contextTime))
        else currentTime - contextTime).

Definition RtcComputeFutureEventTime (futureEventInTime : Z) : C Z :=
  t <- RtcGetTimerValue ;; sret (u32 (t + futureEventInTime)).

Definition RtcComputeElapsedTime (eventInTime : Z) : C Z :=
  if eventInTime =? 0 then sret 0
  else
    elapsedTime <- RtcConvertCalendarTickToTimerTime None ;;
    sret (if elapsedTime <? eventInTime then u32 (elapsedTime + (0xFFFFFFFF - eventInTime))
          else elapsedTime - eventInTime).

Definition RtcRecoverMcuStatus : C unit :=
  s <- sget ;;
  (if wake_up_flag (hw s) then hal clear_wake_up_flag
   else smod (fun s => s <| NonScheduledWakeUp := true |>)) ;;;
  s <- sget ;;
  swhen (slow_clock (hw s)) (hal BoardInitMcu).

Definition BlockLowPowerDuringTask (status : bool) : C unit :=
  swhen status RtcRecoverMcuStatus ;;;
  smod (fun s => s <| LowPowerDisableDuringTask := status |>).

Definition RtcEnterLowPowerStopMode : C unit :=
  s <- sget ;;
  swhen (negb (LowPowerDisableDuringTask s) && RtcTimerEventAllowsLowPower s) (hal enter_stop_mode).

(** The seconds of the day of a time. *)
Definition day_seconds (t : RTC_TimeTypeDef) : Z :=
  Seconds t + SecondsInMinute * Minutes t + SecondsInHour * Hours t.

Definition RtcComputeWakeUpTime : C unit :=
  s <- sget ;;
  swhen (negb (WakeUpTimeInitialized s))
    (now <- RtcGetCalendar ;;
     alarmRtc <- hal_get HAL_RTC_GetAlarm ;;
     let start := day_seconds (AlarmTime alarmRtc) in
     let stop := day_seconds (CalendarTime now) in
     t <- slift (to_u32 (of_int (ceil (dmul (of_int (u32 (stop - start))) RTC_ALARM_TICK_DURATION)))) ;;
     smod (fun s => s <| McuWakeUpTime := t |> <| WakeUpTimeInitialized := true |>)).

(** [TimerIrqHandler] of timer.c, called in the interrupt. *)
Definition RTC_Alarm_IRQHandler (TimerIrqHandler : C unit) : C unit :=
  hal HAL_RTC_AlarmIRQHandler ;;;
  hal HAL_RTC_DeactivateAlarm ;;;
  RtcRecoverMcuStatus ;;;
  RtcComputeWakeUpTime ;;;
  BlockLowPowerDuringTask false ;;;
  TimerIrqHandler.

End Clock.

(** * The calendar as a number of ticks *)

Definition year_ticks (y : Z) : Z := if leap y then SecondsInLeapYear else SecondsInYear.

(** [n] years from year [i] on, [n] months from month [i] on (from 0) *)
Fixpoint years_ticks (n : nat) (i : Z) : Z :=
  match n with O => 0 | S n' => year_ticks i + years_ticks n' (i + 1) end.
Fixpoint months_ticks (n : nat) (l : list Z) (i : Z) : Z :=
  match n with O => 0 | S n' => l.[i] * SecondsInDay + months_ticks n' l (i + 1) end.

Definition full_year (c : RtcCalendar_t) : Z := Year (CalendarDate c) + CalendarCentury c.

(** Ticks before the month, the ticks of the day counted from the start of the month. *)
Definition month_start (y m : Z) : Z :=
  years_ticks (Z.to_nat y) 0 + months_ticks (Z.to_nat (m - 1)) (days_in_month (leap y)) 0.

Definition calendar_ticks (c : RtcCalendar_t) : Z :=
  month_start (full_year c) (Month (CalendarDate c)) + Date (CalendarDate c) * SecondsInDay
  + day_seconds (CalendarTime c).

(** The nearest millisecond of a number of ticks, the nearest tick of milliseconds. *)
Definition ms_of_ticks (n : Z) : Z := (125 * n + 128) / 256.
Definition ticks_of_ms (t : Z) : Z := (512 * t + 125) / 250.

(** Fields within their types, which is what the conversion to milliseconds needs. *)
Record well_formed (c : RtcCalendar_t) : Prop := {
  wf_century : 0 <= CalendarCentury c /\ CalendarCentury c mod 100 = 0;
  wf_year : 0 <= Year (CalendarDate c) /\ full_year c <= 32767;
  wf_month : 1 <= Month (CalendarDate c) <= 12;
  wf_date : 0 <= Date (CalendarDate c) < 256;
  wf_hours : 0 <= Hours (CalendarTime c) < 256;
  wf_minutes : 0 <= Minutes (CalendarTime c) < 256;
  wf_seconds : 0 <= Seconds (CalendarTime c) < 256;
}.

Lemma leap_mod y : leap y = (y mod 4 =? 0).
Proof. unfold leap. destruct (Z.eqb_spec y 0) as [->|]; done. Qed.

(** Centuries do not change which years are leap years. *)
Lemma leap_century y c : c mod 100 = 0 -> leap (y + c) = leap y.
Proof. intros. rewrite !leap_mod. by replace ((y + c) mod 4) with (y mod 4) by lia. Qed.

Lemma leap_test c : well_formed c ->
  (Year (CalendarDate c) =? 0) || (full_year c mod 4 =? 0) = leap (full_year c).
Proof.
  intros W. pose proof (wf_century _ W). rewrite leap_mod. unfold full_year.
  destruct (Z.eqb_spec (Year (CalendarDate c)) 0); [|done]. simpl. symmetry. apply Z.eqb_eq. lia.
Qed.

Lemma year_ticks_bounds y : 31536000 <= year_ticks y <= 31622400.
Proof. unfold year_ticks. destruct leap; done. Qed.

Lemma years_ticks_bounds n i : 31536000 * Z.of_nat n <= years_ticks n i <= 31622400 * Z.of_nat n.
Proof.
  revert i. induction n as [|n IH]; intros i; simpl years_ticks; [lia|].
  pose proof (year_ticks_bounds i). specialize (IH (i + 1)). lia.
Qed.

Lemma years_ticks_snoc n i : years_ticks (S n) i = years_ticks n i + year_ticks (i + Z.of_nat n).
Proof.
  revert i. induction n as [|n IH]; intros i; [cbn [years_ticks]; replace (i + Z.of_nat 0) with i by lia; lia|].
  change (years_ticks (S (S n)) i) with (year_ticks i + years_ticks (S n) (i + 1)).
  rewrite IH. cbn [years_ticks]. replace (i + 1 + Z.of_nat n) with (i + Z.of_nat (S n)) by lia. lia.
Qed.

(** The months of a year, one by one. *)
Ltac each_month m :=
  let H := fresh in
  assert (m = 1 \/ m = 2 \/ m = 3 \/ m = 4 \/ m = 5 \/ m = 6 \/ m = 7 \/ m = 8 \/ m = 9 \/ m = 10 \/ m = 11 \/ m = 12)
    as H by lia;
  repeat destruct H as [H|H]; subst m.

Lemma month_days l m : 1 <= m <= 12 -> rd (days_in_month l) (m - 1) = Done (days_in_month l).[m - 1] /\
  28 <= (days_in_month l).[m - 1] <= 31.
Proof. intros Hm. each_month m; destruct l; done. Qed.

Lemma months_ticks_bounds l m : 1 <= m <= 13 ->
  0 <= months_ticks (Z.to_nat (m - 1)) (days_in_month l) 0 <= 31622400.
Proof.
  intros Hm. destruct (decide (m = 13)) as [->|]; [destruct l; done|].
  assert (1 <= m <= 12) as Hm' by lia. clear Hm. each_month m; destruct l; done.
Qed.

(** ** Exact sums *)

Lemma dadd_int x a b : (x == inject_Z a)%Q -> 0 <= a -> 0 <= b -> a + b < 2 ^ 53 ->
  (dadd x (of_int b) == inject_Z (a + b))%Q.
Proof.
  intros Hx Ha Hb Hab. apply dadd_exact; [done|reflexivity|lia].
Qed.

Lemma add_years_exact n : forall i x a, (x == inject_Z a)%Q -> 0 <= a -> a + 31622400 * Z.of_nat n < 2 ^ 53 ->
  (add_years n i x == inject_Z (a + years_ticks n i))%Q.
Proof.
  induction n as [|n IH]; intros i x a Hx Ha Hb; simpl.
  - by rewrite Z.add_0_r.
  - pose proof (year_ticks_bounds i) as Hy. fold (year_ticks i). rewrite Z.add_assoc.
    apply IH; [|lia|lia]. apply dadd_int; [done|lia|lia|lia].
Qed.

Lemma add_months_exact n l : forall i x a, (x == inject_Z a)%Q -> 0 <= a < 2 ^ 52 -> 0 <= i -> i + Z.of_nat n <= 12 ->
  exists y, add_months n (days_in_month l) i x = Done y /\
    (y == inject_Z (a + months_ticks n (days_in_month l) i))%Q.
Proof.
  assert (forall i x a, (x == inject_Z a)%Q -> 0 <= a < 2 ^ 52 + 31 * SecondsInDay * i -> 0 <= i ->
    i + Z.of_nat n <= 12 -> exists y, add_months n (days_in_month l) i x = Done y /\
    (y == inject_Z (a + months_ticks n (days_in_month l) i))%Q) as H.
  { induction n as [|n IH]; intros i x a Hx Ha Hi Hn; simpl.
    - exists x. by rewrite Z.add_0_r.
    - destruct (month_days l (i + 1)) as [Hr Hd]; [lia|]. rewrite Z.add_simpl_r in Hr, Hd. rewrite Hr. simpl.
      set (d := (days_in_month l).[i]) in *. unfold SecondsInDay in *.
      rewrite (u32_id (d * 86400)) by (unfold is_u32; lia).
      destruct (IH (i + 1) (dadd x (of_int (d * 86400))) (a + d * 86400)) as (y & E & Hy); [|lia..|].
      + apply dadd_int; [done|lia..].
      + exists y. split; [done|]. rewrite Hy. by rewrite Z.add_assoc. }
  intros i x a Hx Ha Hi Hn. apply H; [done| |done|done]. unfold SecondsInDay. lia.
Qed.

(** Milliseconds of an exact number of ticks. *)
Lemma duration_of_ticks x a : (x == inject_Z a)%Q -> 0 <= a < 2 ^ 44 ->
  round (dmul x RTC_ALARM_TICK_DURATION) = ms_of_ticks a.
Proof.
  intros Hx Ha. unfold ms_of_ticks. transitivity ((2 * (125 * a) + 256) / (2 * 256)); [|].
  - rewrite <- round_quot by lia. apply round_proper. unfold dmul. apply rnd_proper.
    rewrite Hx, inject_Z_mult. unfold RTC_ALARM_TICK_DURATION, Qdiv.
    change (inject_Z 125) with 125%Q. change (/ inject_Z 256)%Q with (1 # 256)%Q.
    assert ((125 # 256) == 125 * (1 # 256))%Q as -> by reflexivity. ring.
  - rewrite <- (Z.div_mul_cancel_l (125 * a + 128) 256 2) by lia. f_equal. lia.
Qed.

(** Conversion of an integer that is a double. *)
Lemma trunc_int n : trunc (of_int n) = n.
Proof.
  unfold trunc, of_int. destruct (Qle_bool 0 (inject_Z n)); [apply Qfloor_Z|].
  rewrite <- inject_Z_opp, Qfloor_Z. lia.
Qed.

Lemma day_seconds_bounds c : well_formed c ->
  0 <= day_seconds (CalendarTime c) < 256 * 3661 /\ 0 <= Date (CalendarDate c) * SecondsInDay < 256 * 86400.
Proof.
  intros [_ _ _ Hd Hh Hm Hs]. unfold day_seconds, SecondsInHour, SecondsInMinute, SecondsInDay. lia.
Qed.

Lemma calendar_ticks_bounds c : well_formed c -> 0 <= calendar_ticks c < 2 ^ 41.
Proof.
  intros W. destruct (day_seconds_bounds c W). pose proof (wf_year _ W) as Hy. pose proof (wf_century _ W).
  unfold calendar_ticks, month_start.
  pose proof (months_ticks_bounds (leap (full_year c)) (Month (CalendarDate c))) as Hm.
  pose proof (years_ticks_bounds (Z.to_nat (full_year c)) 0) as Hys. pose proof (wf_month _ W).
  assert (0 <= full_year c) by (unfold full_year; lia).
  lia.
Qed.

(** The time of a calendar is the nearest millisecond of its ticks; the clock has no
    value for a calendar beyond 2^32 ms. *)
Lemma calendar_time_exact c : well_formed c ->
  calendar_time c = (let t := ms_of_ticks (calendar_ticks c) in if t <? 2 ^ 32 then Done t else Undef).
Proof.
  intros W. pose proof (calendar_ticks_bounds c W) as Hb. destruct (day_seconds_bounds c W) as [Hs Hd].
  pose proof (wf_year _ W) as Hy. pose proof (wf_century _ W). pose proof (wf_month _ W).
  unfold calendar_time. fold (full_year c). rewrite (proj2 (Z.ltb_ge _ _)) by lia.
  rewrite leap_test by done. assert (0 <= full_year c) by (unfold full_year; lia).
  pose proof (years_ticks_bounds (Z.to_nat (full_year c)) 0) as Hys.
  pose proof (add_years_exact (Z.to_nat (full_year c)) 0 (of_int 0) 0) as Ey.
  rewrite Z.add_0_l in Ey. specialize (Ey (Qeq_refl _)).
  destruct (add_months_exact (Z.to_nat (Month (CalendarDate c) - 1)) (leap (full_year c)) 0 _ _ (Ey ltac:(lia) ltac:(lia)))
    as (y & E & Hmo); [lia..|].
  rewrite E. simpl. fold (month_start (full_year c) (Month (CalendarDate c))) in Hmo.
  pose proof (months_ticks_bounds (leap (full_year c)) (Month (CalendarDate c))) as Hm.
  match goal with |- context [of_int (u32 ?n)] =>
    replace (u32 n) with (Date (CalendarDate c) * SecondsInDay + day_seconds (CalendarTime c)) end.
  2:{ rewrite (u32_id (Date _ * _)) by (unfold is_u32; lia).
      unfold day_seconds, SecondsInHour, SecondsInMinute in *. rewrite u32_id; unfold is_u32; lia. }
  assert (0 <= month_start (full_year c) (Month (CalendarDate c))) by (unfold month_start; lia).
  assert (month_start (full_year c) (Month (CalendarDate c)) < 2 ^ 41) by (unfold month_start; lia).
  unfold calendar_ticks in *.
  erewrite duration_of_ticks; [| |].
  2:{ rewrite dadd_int; [|exact Hmo|lia..]. rewrite Z.add_assoc. reflexivity. }
  2: lia.
  unfold to_u32. rewrite trunc_int. rewrite (proj2 (Z.leb_le 0 _)); [done|].
  unfold ms_of_ticks. lia.
Qed.

(** ** Ticks of a time *)

(** The product with 2.048 is close to the exact one. *)
Lemma product_error t : 0 <= t < 2 ^ 32 ->
  (Qabs (dmul (of_int t) RTC_ALARM_TICK_PER_MS - inject_Z (256 * t) / 125) <= inject_Z t * (1 # 500000000000000))%Q.
Proof.
  intros Ht. unfold dmul, of_int.
  assert (0 <= inject_Z t)%Q as H0 by (change 0%Q with (inject_Z 0); rewrite <- Zle_Qle; lia).
  set (x := inject_Z t) in *.
  assert (inject_Z (256 * t) / 125 == x * (256 # 125))%Q as E.
  { rewrite inject_Z_mult. change (inject_Z 256) with 256%Q. unfold x. field. }
  assert (Qabs (RTC_ALARM_TICK_PER_MS - (256 # 125)) <= 1 # 1000000000000000)%Q as Hk by (by vm_compute).
  apply Qabs_Qle_condition in Hk. set (k := RTC_ALARM_TICK_PER_MS) in *.
  pose proof (rnd_bounds (x * k)) as Hr. assert (0 <= x * k)%Q as Hp by nra. specialize (Hr Hp). unfold eps in Hr.
  apply Qabs_Qle_condition. rewrite E. nra.
Qed.

Lemma product_close t : 0 <= t < 2 ^ 32 ->
  (Qabs (dmul (of_int t) RTC_ALARM_TICK_PER_MS - inject_Z (256 * t) / 125) <= 1 # 1000)%Q.
Proof.
  intros Ht. eapply Qle_trans; [by apply product_error|].
  assert (inject_Z t < 4294967296)%Q as H1 by (change 4294967296%Q with (inject_Z (2 ^ 32)); rewrite <- Zlt_Qlt; lia).
  lra.
Qed.

Lemma round_ticks t : 0 <= t < 2 ^ 32 -> round (dmul (of_int t) RTC_ALARM_TICK_PER_MS) = ticks_of_ms t.
Proof.
  intros Ht. pose proof (product_close t Ht) as H. apply Qabs_Qle_condition in H. set (x := dmul _ _) in *.
  unfold ticks_of_ms. set (q := (512 * t + 125) / 250).
  assert (125 * q - 62 <= 256 * t <= 125 * q + 62) as Hq by (subst q; lia).
  assert (inject_Z (256 * t) / 125 == inject_Z (256 * t) * (1 # 125))%Q as E by field. rewrite E in H.
  assert (inject_Z (125 * q - 62) <= inject_Z (256 * t) <= inject_Z (125 * q + 62))%Q as HQ
    by (rewrite <- !Zle_Qle; done).
  unfold Z.sub in HQ. rewrite !inject_Z_plus, inject_Z_mult in HQ.
  change (inject_Z 125) with 125%Q in HQ. change (inject_Z 62) with 62%Q in HQ.
  change (inject_Z (- (62))) with (-62)%Q in HQ.
  assert (0 <= inject_Z q)%Q by (change 0%Q with (inject_Z 0); rewrite <- Zle_Qle; subst q; lia).
  assert (0 <= x)%Q as Hx'.
  { unfold x, dmul, of_int. apply rnd_nonneg.
    assert (0 <= inject_Z t)%Q by (change 0%Q with (inject_Z 0); rewrite <- Zle_Qle; lia).
    assert (0 <= RTC_ALARM_TICK_PER_MS)%Q by (by vm_compute). nra. }
  unfold round. rewrite (proj2 (Qle_bool_iff _ _) Hx').
  apply Qfloor_unique; rewrite ?inject_Z_plus; change (inject_Z 1) with 1%Q; lra.
Qed.

(** Converting to ticks and back gives the same time. *)
Lemma ms_of_ticks_of_ms t : ms_of_ticks (ticks_of_ms t) = t.
Proof. unfold ms_of_ticks, ticks_of_ms. lia. Qed.

(** ** The loops that split a number of ticks *)

Section Split.
Context (x0 : Q) (D : dyadic x0).

(** [x] is what remains of [x0] after [n] ticks. *)
Definition rest (x : Q) (n : Z) : Prop := (x == x0 - inject_Z n)%Q /\ (0 <= x)%Q /\ 0 <= n.

Lemma rest_sub x n u : rest x n -> 0 <= u -> (inject_Z u <= x)%Q -> rest (dsub x (of_int u)) (n + u).
Proof.
  intros (Hx & H0 & Hn) Hu Hle. pose proof (dsub_exact x0 x n u D Hx Hn Hu Hle) as E.
  split_and!; [done| |lia]. rewrite E, inject_Z_plus. rewrite Hx in Hle. lra.
Qed.

(** A comparison with an integer. *)
Lemma rest_compare x n u : rest x n ->
  if Qle_bool (of_int u) x then (inject_Z u <= x)%Q else (x < inject_Z u)%Q.
Proof.
  intros _. unfold of_int. destruct (Qle_bool _ _) eqn:E; [by apply Qle_bool_iff|].
  apply Qnot_le_lt. intros H. apply Qle_bool_iff in H. congruence.
Qed.

Lemma below_sub x n u k : rest x n -> 0 <= u -> (inject_Z u <= x)%Q -> (x < inject_Z k)%Q ->
  (dsub x (of_int u) < inject_Z (k - u))%Q.
Proof.
  intros (Hx & H0 & Hn) Hu Hle Hk. rewrite (dsub_exact x0 x n u D Hx Hn Hu Hle).
  unfold Z.sub. rewrite !inject_Z_plus, inject_Z_opp. rewrite Hx in Hk. lra.
Qed.

Lemma take_units_split fuel unit : forall x n c, rest x n -> 0 < unit -> (x < inject_Z (unit * (Z.of_nat fuel + 1)))%Q ->
  0 <= c -> c + Z.of_nat fuel < 65536 ->
  exists x' q, take_units fuel unit x c = Done (x', c + q) /\ 0 <= q /\ rest x' (n + unit * q) /\ (x' < inject_Z unit)%Q.
Proof.
  induction fuel as [|fuel IH]; intros x n c Hr Hu Hx Hc Hf; pose proof (rest_compare x n unit Hr) as Hcmp;
    cbn [take_units]; destruct (Qle_bool _ _).
  - replace (unit * (Z.of_nat 0 + 1)) with unit in Hx by lia. exfalso. lra.
  - exists x, 0. rewrite Z.add_0_r, Z.mul_0_r, Z.add_0_r. done.
  - destruct (IH (dsub x (of_int unit)) (n + unit) (u16 (c + 1))) as (x' & q & E & Hq & Hr' & Hlt);
      [by apply rest_sub; [|lia|]|done| |machine|machine|].
    { replace (unit * (Z.of_nat fuel + 1)) with (unit * (Z.of_nat (S fuel) + 1) - unit) by lia.
      apply (below_sub x n); [done|lia|done..]. }
    exists x', (1 + q). rewrite E. replace (c + (1 + q)) with (u16 (c + 1) + q) by machine.
    replace (n + unit * (1 + q)) with (n + unit + unit * q) by lia. split_and!; done || lia.
  - exists x, 0. rewrite Z.add_0_r, Z.mul_0_r, Z.add_0_r. done.
Qed.

(** What remains after [n] ticks bounds the count. *)
Lemma rest_bound x n k : rest x n -> (x0 < inject_Z k)%Q -> n < k.
Proof. intros (Hx & H0 & _) Hk. rewrite Zlt_Qlt. rewrite Hx in H0. lra. Qed.

Lemma years_split fuel : forall x years century,
  rest x (years_ticks (Z.to_nat (years + century)) 0) -> 0 <= years < 100 -> 0 <= century -> century mod 100 = 0 ->
  (x < inject_Z (SecondsInYear * Z.of_nat fuel))%Q -> years + century + Z.of_nat fuel < 60000 ->
  exists x' years' century', years_loop fuel x years century = Done (x', years', century') /\
    rest x' (years_ticks (Z.to_nat (years' + century')) 0) /\ 0 <= years' < 100 /\ 0 <= century' /\
    century' mod 100 = 0 /\ (x' < inject_Z SecondsInLeapYear)%Q.
Proof.
  induction fuel as [|fuel IH]; intros x years century Hr Hy Hc Hm Hx Hf;
    pose proof (rest_compare x _ SecondsInLeapYear Hr) as Hcmp; cbn [years_loop]; destruct (Qle_bool _ _).
  - destruct Hr as (_ & H0 & _). change (inject_Z (SecondsInYear * Z.of_nat 0)) with 0%Q in Hx. exfalso. lra.
  - by exists x, years, century.
  - fold (year_ticks years). pose proof (year_ticks_bounds years) as Hb.
    assert (inject_Z (year_ticks years) <= x)%Q as Hle.
    { apply Qle_trans with (inject_Z SecondsInLeapYear); [|done]. rewrite <- Zle_Qle. unfold SecondsInLeapYear. lia. }
    pose proof (rest_sub _ _ (year_ticks years) Hr ltac:(lia) Hle) as Hr'.
    replace (years_ticks _ 0 + year_ticks years) with (years_ticks (Z.to_nat (years + 1 + century)) 0) in Hr'.
    2:{ replace (Z.to_nat (years + 1 + century)) with (S (Z.to_nat (years + century))) by lia.
        rewrite years_ticks_snoc. f_equal. unfold year_ticks. rewrite <- (leap_century years century) by done.
        by replace (0 + Z.of_nat (Z.to_nat (years + century))) with (years + century) by lia. }
    assert (dsub x (of_int (year_ticks years)) < inject_Z (SecondsInYear * Z.of_nat fuel))%Q as Hlt.
    { eapply Qlt_le_trans; [apply (below_sub _ _ (year_ticks years) _ Hr ltac:(lia) Hle Hx)|]. rewrite <- Zle_Qle.
      unfold SecondsInYear. lia. }
    rewrite (u16_id (years + 1)) by (unfold is_u16; lia).
    destruct (Z.eqb_spec (years + 1) 100) as [E|E].
    + rewrite (u16_id (century + 100)) by (unfold is_u16; lia).
      apply IH; [|lia|lia|lia|done|lia]. by replace (0 + (century + 100)) with (years + 1 + century) by lia.
    + apply IH; [done|lia|lia|lia|done|lia].
  - by exists x, years, century.
Qed.

Lemma months_split l n fuel : forall x m, rest x (n + months_ticks (Z.to_nat (m - 1)) (days_in_month l) 0) -> 1 <= m <= 12 ->
  0 <= n -> (x0 < inject_Z (n + months_ticks 12 (days_in_month l) 0))%Q -> 13 <= m + Z.of_nat fuel ->
  exists x' m', months_loop fuel (days_in_month l) x m = Done (x', m') /\ 1 <= m' <= 12 /\
    rest x' (n + months_ticks (Z.to_nat (m' - 1)) (days_in_month l) 0) /\ (x' < inject_Z (31 * SecondsInDay))%Q.
Proof.
  induction fuel as [|fuel IH]; intros x m Hr Hm Hn Hx Hf; destruct (month_days l m Hm) as [Hd Hb];
    [lia|]; cbn [months_loop]; rewrite Hd; cbn [rbind].
  rewrite u32_id by (unfold is_u32, SecondsInDay; lia).
  pose proof (rest_compare x _ ((days_in_month l).[m - 1] * SecondsInDay) Hr) as Hcmp.
  destruct (Qle_bool _ _).
  - pose proof (rest_sub _ _ ((days_in_month l).[m - 1] * SecondsInDay) Hr ltac:(unfold SecondsInDay; lia) Hcmp) as Hr'.
    assert (months_ticks (Z.to_nat (m - 1)) (days_in_month l) 0 + (days_in_month l).[m - 1] * SecondsInDay
            = months_ticks (Z.to_nat (m + 1 - 1)) (days_in_month l) 0) as E
      by (clear - Hm; each_month m; destruct l; done).
    rewrite <- Z.add_assoc, E in Hr'. rewrite (u8_id (m + 1)) by (unfold is_u8; lia).
    pose proof (rest_bound _ _ _ Hr' Hx) as Hlt.
    assert (m <> 12) by (intros ->; change (Z.to_nat (12 + 1 - 1)) with 12%nat in Hlt; lia).
    apply IH; done || lia.
  - exists x, m. split_and!; [done|lia|lia|done|]. eapply Qlt_le_trans; [exact Hcmp|].
    rewrite <- Zle_Qle. unfold SecondsInDay. lia.
Qed.
End Split.

(** ** From milliseconds to the calendar *)

Lemma product_dyadic t : 0 <= t < 2 ^ 32 ->
  let x0 := dmul (of_int t) RTC_ALARM_TICK_PER_MS in
  dyadic x0 /\ (0 <= x0)%Q /\ (x0 < inject_Z (SecondsInYear * 280))%Q.
Proof.
  intros Ht x0.
  assert (0 <= inject_Z t)%Q as H0 by (change 0%Q with (inject_Z 0); rewrite <- Zle_Qle; lia).
  assert (inject_Z t < 4294967296)%Q as H1 by (change 4294967296%Q with (inject_Z (2 ^ 32)); rewrite <- Zlt_Qlt; lia).
  assert (0 <= RTC_ALARM_TICK_PER_MS)%Q as K0 by (by vm_compute).
  assert (RTC_ALARM_TICK_PER_MS < 3)%Q as K1 by (by vm_compute).
  pose proof (product_close t Ht) as H. apply Qabs_Qle_condition in H. fold x0 in H.
  assert (inject_Z (256 * t) / 125 == inject_Z t * (256 # 125))%Q as E
    by (rewrite inject_Z_mult; change (inject_Z 256) with 256%Q; field).
  rewrite E in H. unfold x0, dmul, of_int. split_and!.
  - apply rnd_dyadic; [nra|]. change (inject_Z (2 ^ 52)) with 4503599627370496%Q. nra.
  - apply rnd_nonneg. nra.
  - fold (of_int t). fold (dmul (of_int t) RTC_ALARM_TICK_PER_MS). fold x0.
    change (inject_Z (SecondsInYear * 280)) with 8830080000%Q. lra.
Qed.

(** The test for one more year after the loop. *)
Lemma last_year x0 x years century : dyadic x0 -> rest x0 x (years_ticks (Z.to_nat (years + century)) 0) ->
  0 <= years < 100 -> 0 <= century -> century mod 100 = 0 -> (x < inject_Z SecondsInLeapYear)%Q ->
  exists x' years', (if Qle_bool (of_int SecondsInYear) x && negb (leap years)
     then (dsub x (of_int SecondsInYear), u16 (years + 1)) else (x, years)) = (x', years') /\
    0 <= years' <= 100 /\ rest x0 x' (years_ticks (Z.to_nat (years' + century)) 0) /\
    (x' < inject_Z (year_ticks years'))%Q.
Proof.
  intros D Hr Hy Hc Hm Hx. pose proof (rest_compare _ x _ SecondsInYear Hr) as Hcmp.
  destruct (Qle_bool _ _); destruct (leap years) eqn:El; simpl.
  - exists x, years. unfold year_ticks. rewrite El. split_and!; done || lia.
  - pose proof (rest_sub _ D _ _ SecondsInYear Hr ltac:(done) Hcmp) as Hr'.
    exists (dsub x (of_int SecondsInYear)), (years + 1). rewrite u16_id by (unfold is_u16; lia).
    split_and!; [done|lia|lia| |].
    + replace (Z.to_nat (years + 1 + century)) with (S (Z.to_nat (years + century))) by lia.
      rewrite years_ticks_snoc. replace (0 + Z.of_nat (Z.to_nat (years + century))) with (years + century) by lia.
      unfold year_ticks. by rewrite leap_century, El by done.
    + eapply Qlt_trans; [apply (below_sub _ D _ _ SecondsInYear _ Hr ltac:(done) Hcmp Hx)|].
      rewrite <- Zlt_Qlt. pose proof (year_ticks_bounds (years + 1)). unfold SecondsInLeapYear, SecondsInYear. lia.
  - exists x, years. unfold year_ticks. rewrite El. split_and!; done || lia.
  - exists x, years. unfold year_ticks. rewrite El. split_and!; done || lia.
Qed.

Lemma rest_lt x0 x n k : rest x0 x n -> (x < inject_Z k)%Q -> (x0 < inject_Z (n + k))%Q.
Proof. intros (E & _ & _) H. rewrite E in H. rewrite inject_Z_plus. lra. Qed.

Lemma Qlt_inject x a b : (x < inject_Z a)%Q -> a <= b -> (x < inject_Z b)%Q.
Proof. intros H1 H2. eapply Qlt_le_trans; [exact H1|]. by rewrite <- Zle_Qle. Qed.

(** Days, hours, minutes and seconds of what remains within a month. *)
Lemma day_split x0 x n : dyadic x0 -> rest x0 x n -> (x < inject_Z (31 * SecondsInDay))%Q ->
  exists x1 days x2 hours x3 minutes seconds,
    take_units loop_bound SecondsInDay x 0 = Done (x1, days) /\
    take_units loop_bound SecondsInHour x1 0 = Done (x2, hours) /\
    take_units loop_bound SecondsInMinute x2 0 = Done (x3, minutes) /\ round x3 = seconds /\
    0 <= days < 31 /\ 0 <= hours < 24 /\ 0 <= minutes < 60 /\ 0 <= seconds <= 60 /\
    n + days * SecondsInDay + day_seconds (mkTime hours minutes seconds) = round x0.
Proof.
  intros D Hr Hx.
  destruct (take_units_split x0 D loop_bound SecondsInDay x _ 0 Hr) as (x1 & days & E1 & Hd0 & Hr1 & Hx1);
    [done|apply (Qlt_inject _ _ _ Hx); vm_compute; discriminate|done|done|].
  destruct (take_units_split x0 D loop_bound SecondsInHour x1 _ 0 Hr1) as (x2 & hours & E2 & Hh0 & Hr2 & Hx2);
    [done|apply (Qlt_inject _ _ _ Hx1); vm_compute; discriminate|done|done|].
  destruct (take_units_split x0 D loop_bound SecondsInMinute x2 _ 0 Hr2) as (x3 & minutes & E3 & Hmi0 & Hr3 & Hx3);
    [done|apply (Qlt_inject _ _ _ Hx2); vm_compute; discriminate|done|done|].
  pose proof (rest_bound _ _ _ _ Hr1 (rest_lt _ _ _ _ Hr Hx)) as Bd.
  pose proof (rest_bound _ _ _ _ Hr2 (rest_lt _ _ _ _ Hr1 Hx1)) as Bh.
  pose proof (rest_bound _ _ _ _ Hr3 (rest_lt _ _ _ _ Hr2 Hx2)) as Bm.
  unfold SecondsInDay, SecondsInHour, SecondsInMinute in *.
  exists x1, days, x2, hours, x3, minutes, (round x3). rewrite E1, E2, E3. split_and!; try (done || lia).
  - destruct Hr3 as (_ & H0 & _). unfold round. rewrite (proj2 (Qle_bool_iff _ _) H0).
    pose proof (Qlt_floor (x3 + (1 # 2))) as Hf. rewrite inject_Z_plus in Hf. change (inject_Z 1) with 1%Q in Hf.
    enough (-1 < Qfloor (x3 + (1 # 2))) by lia. rewrite Zlt_Qlt. change (inject_Z (-1)) with (-1)%Q. lra.
  - destruct Hr3 as (_ & H0 & _). unfold round. rewrite (proj2 (Qle_bool_iff _ _) H0).
    pose proof (Qfloor_le (x3 + (1 # 2))) as Hf. change (inject_Z 60) with 60%Q in Hx3.
    enough (Qfloor (x3 + (1 # 2)) < 61) by lia. rewrite Zlt_Qlt. change (inject_Z 61) with 61%Q. lra.
  - destruct Hr3 as (E & H0 & Hn). rewrite E in H0.
    rewrite (round_proper _ _ E), round_shift by (done || lra).
    unfold day_seconds, SecondsInHour, SecondsInMinute. simpl. lia.
Qed.


(** ** The alarm *)

Definition month_length (y m : Z) : Z := (days_in_month (leap y)).[m - 1].

Definition valid_time (t : RTC_TimeTypeDef) : Prop :=
  0 <= Hours t < 24 /\ 0 <= Minutes t < 60 /\ 0 <= Seconds t < 60.

(** A calendar as the hardware counts it. *)
Record valid (c : RtcCalendar_t) : Prop := {
  v_century : 0 <= CalendarCentury c <= 32000 /\ CalendarCentury c mod 100 = 0;
  v_year : 0 <= Year (CalendarDate c) <= 99;
  v_month : 1 <= Month (CalendarDate c) <= 12;
  v_date : 1 <= Date (CalendarDate c) <= month_length (full_year c) (Month (CalendarDate c));
  v_time : valid_time (CalendarTime c);
}.

Lemma valid_well_formed c : valid c -> well_formed c.
Proof.
  intros [Hc Hy Hm Hd Ht]. unfold month_length in Hd.
  destruct (month_days (leap (full_year c)) _ Hm) as [_ Hb]. unfold valid_time in Ht.
  split; unfold full_year; lia.
Qed.

Lemma trunc_close x n : (Qabs (x - inject_Z n) < 1)%Q -> Z.abs (trunc x - n) <= 1.
Proof.
  intros H. apply Qabs_Qlt_condition in H. unfold trunc.
  destruct (Qle_bool 0 x).
  - pose proof (Qfloor_le x). pose proof (Qlt_floor x).
    assert (Qfloor x < n + 1) by (rewrite Zlt_Qlt, inject_Z_plus; change (inject_Z 1) with 1%Q; lra).
    assert (n < Qfloor x + 1 + 1) by (rewrite Zlt_Qlt, inject_Z_plus; change (inject_Z 1) with 1%Q; lra). lia.
  - pose proof (Qfloor_le (- x)). pose proof (Qlt_floor (- x)).
    assert (Qfloor (- x) < - n + 1) by (rewrite Zlt_Qlt, inject_Z_plus, inject_Z_opp; change (inject_Z 1) with 1%Q; lra).
    assert (- n < Qfloor (- x) + 1 + 1)
      by (rewrite Zlt_Qlt, !inject_Z_plus, inject_Z_opp in *; change (inject_Z 1) with 1%Q in *; lra). lia.
Qed.

(** Rounding a number of limited size. *)
Lemma rnd_near x b : (Qabs x <= b -> Qabs (rnd x - x) <= b * eps)%Q.
Proof. intros H. eapply Qle_trans; [apply rnd_error|]. unfold eps. lra. Qed.

Lemma timeout_error_close c e q : 1 <= c <= 1181250 -> - 2 ^ 30 <= e <= 2 ^ 30 -> q = ticks_of_ms c ->
  let x0 := dmul (of_int c) RTC_ALARM_TICK_PER_MS in
  let F := dadd (of_int e) (dmul (dsub (of_int q) x0) (of_int 1000)) in
  (Qabs (F - inject_Z (e + 1000 * q - 2048 * c)) < 1)%Q.
Proof.
  intros Hc He Hq x0 F. pose proof (product_error c ltac:(lia)) as Hp. fold x0 in Hp. apply Qabs_Qle_condition in Hp.
  assert (125 * q - 62 <= 256 * c <= 125 * q + 62) as Hqc by (subst q; unfold ticks_of_ms; lia).
  assert (inject_Z (256 * c) / 125 == inject_Z c * (256 # 125))%Q as E
    by (rewrite inject_Z_mult; change (inject_Z 256) with 256%Q; field).
  rewrite E in Hp.
  assert (inject_Z (125 * q + -62) <= inject_Z (256 * c) <= inject_Z (125 * q + 62))%Q as HQ
    by (rewrite <- !Zle_Qle; lia).
  assert (inject_Z c <= 1181250)%Q as H1 by (change 1181250%Q with (inject_Z 1181250); rewrite <- Zle_Qle; lia).
  assert (- 1073741824 <= inject_Z e <= 1073741824)%Q as H2
    by (change (- 1073741824)%Q with (inject_Z (- 2 ^ 30)); change 1073741824%Q with (inject_Z (2 ^ 30));
        rewrite <- !Zle_Qle; lia).
  rewrite !inject_Z_plus, !inject_Z_mult in HQ. change (inject_Z 125) with 125%Q in HQ.
  change (inject_Z 62) with 62%Q in HQ. change (inject_Z (-62)) with (-62)%Q in HQ. change (inject_Z 256) with 256%Q in HQ.
  unfold F, dadd, dmul, dsub, of_int. set (C := inject_Z c) in *. set (Q1 := inject_Z q) in *. set (Er := inject_Z e) in *.
  pose proof (rnd_near (Q1 - x0) 1) as N1. set (d1 := rnd (Q1 - x0)) in *.
  assert (Qabs (Q1 - x0) <= 1)%Q as A1 by (apply Qabs_Qle_condition; lra).
  specialize (N1 A1). apply Qabs_Qle_condition in N1, A1. unfold eps in *.
  change (inject_Z 1000) with 1000%Q.
  pose proof (rnd_near (d1 * 1000) 2000) as N2. set (d2 := rnd (d1 * 1000)) in *.
  assert (Qabs (d1 * 1000) <= 2000)%Q as A2 by (apply Qabs_Qle_condition; lra).
  specialize (N2 A2). apply Qabs_Qle_condition in N2. unfold eps in *.
  pose proof (rnd_near (Er + d2) 1073751824) as N3. set (F' := rnd (Er + d2)) in *.
  assert (Qabs (Er + d2) <= 1073751824)%Q as A3 by (apply Qabs_Qle_condition; lra).
  specialize (N3 A3). apply Qabs_Qle_condition in N3. unfold eps in *.
  unfold Z.sub. rewrite !inject_Z_plus, inject_Z_opp, !inject_Z_mult. fold Er Q1 C.
  change (inject_Z 1000) with 1000%Q. change (inject_Z 2048) with 2048%Q.
  apply Qabs_Qlt_condition. lra.
Qed.

(** The rounded ticks of a timeout, the error in thousandths of a tick it adds up, and the tick it
    adds when the sum reaches 488. *)
Lemma timeout_ticks_exact c e : 1 <= c <= 1181250 -> - 2 ^ 30 <= e <= 2 ^ 30 ->
  exists e' x, Z.abs (e' - (e + 1000 * ticks_of_ms c - 2048 * c)) <= 1 /\
    timeout_ticks c e = Done (x, if 488 <=? e' then e' - 488 else e') /\
    (x == inject_Z (ticks_of_ms c + b2z (488 <=? e')))%Q.
Proof.
  intros Hc He. unfold timeout_ticks. rewrite round_ticks by lia.
  set (q := ticks_of_ms c). match goal with |- context [to_s32 ?f] => set (F := f) end.
  set (ex := e + 1000 * q - 2048 * c).
  assert (0 <= q < 2 ^ 24) as Hq by (unfold q, ticks_of_ms; lia).
  assert (Z.abs (trunc F - ex) <= 1) as Hclose.
  { apply trunc_close, (timeout_error_close c e q Hc He eq_refl). }
  assert (- 2 ^ 31 + 1000 <= ex <= 2 ^ 31 - 2000) as Hex by (unfold ex, q, ticks_of_ms; lia).
  exists (trunc F). change (trunc (dmul RTC_ALARM_TICK_DURATION (of_int 1000))) with 488.
  unfold to_s32. rewrite (proj2 (Z.leb_le _ _)), (proj2 (Z.ltb_lt (trunc F) _)) by lia. cbn [andb rbind].
  destruct (Z.leb_spec 488 (trunc F)) as [H|H].
  - eexists. split_and!; [exact Hclose| |].
    + replace (s32 (u32 (trunc F - 488))) with (trunc F - 488) by machine. reflexivity.
    + simpl. apply dadd_int; [reflexivity|lia..].
  - exists (of_int q). split_and!; [exact Hclose|done|]. simpl. by rewrite Z.add_0_r.
Qed.

Lemma carry_exact unit fuel : forall lo hi, 0 < unit -> 0 <= lo -> lo / unit <= Z.of_nat fuel ->
  0 <= hi -> hi + Z.of_nat fuel < 65536 -> carry fuel unit lo hi = Done (lo mod unit, hi + lo / unit).
Proof.
  induction fuel as [|fuel IH]; intros lo hi Hu Hlo Hf Hh Hb; cbn [carry]; destruct (Z.leb_spec unit lo) as [H|H].
  - exfalso. nia.
  - rewrite Z.div_small, Z.mod_small by lia. by rewrite Z.add_0_r.
  - assert (lo / unit = (lo - unit) / unit + 1) as E.
    { replace lo with (lo - unit + 1 * unit) at 1 by lia. by rewrite Z.div_add by lia. }
    rewrite IH by machine. rewrite E. f_equal. f_equal; [|machine].
    replace lo with (lo - unit + 1 * unit) at 2 by lia. by rewrite Z.mod_add by lia.
  - rewrite Z.div_small, Z.mod_small by lia. by rewrite Z.add_0_r.
Qed.

Lemma dyadic_int n : 0 <= n < 2 ^ 53 -> dyadic (inject_Z n).
Proof. intros. exists n, 0. split_and!; [lia..|]. change (pow2 (- 0)) with 1%Q. ring. Qed.

Lemma loop_bound_Z : Z.of_nat loop_bound = 400.
Proof. reflexivity. Qed.

Lemma add_ticks_exact x n date time : (x == inject_Z n)%Q -> 0 <= n < 2 ^ 25 -> valid_time time -> 0 <= date < 256 ->
  exists time' days, add_ticks x date time = Done (time', days) /\ valid_time time' /\
    days * SecondsInDay + day_seconds time' = date * SecondsInDay + day_seconds time + n.
Proof.
  intros Hx Hn (Hh & Hm & Hs) Hd. unfold add_ticks. pose proof loop_bound_Z as HB. pose proof (dyadic_int n ltac:(lia)) as D. set (x0 := inject_Z n) in *.
  assert (0 <= x0)%Q as H0 by (change 0%Q with (inject_Z 0); unfold x0; rewrite <- Zle_Qle; lia).
  assert (rest x0 x 0) as Hr by (split_and!; [rewrite Hx; change (inject_Z 0) with 0%Q; ring|by rewrite Hx|done]).
  destruct (take_units_split x0 D loop_bound SecondsInDay x _ date Hr) as (x1 & q1 & -> & Hq1 & Hr1 & Hx1);
    [done|rewrite Hx; unfold x0; rewrite <- Zlt_Qlt; unfold SecondsInDay; lia|lia|lia|]. cbn [rbind].
  destruct (take_units_split x0 D loop_bound SecondsInHour x1 _ (Hours time) Hr1) as (x2 & q2 & -> & Hq2 & Hr2 & Hx2);
    [done|apply (Qlt_inject _ _ _ Hx1); vm_compute; discriminate|lia|lia|]. cbn [rbind].
  destruct (take_units_split x0 D loop_bound SecondsInMinute x2 _ (Minutes time) Hr2) as (x3 & q3 & -> & Hq3 & Hr3 & Hx3);
    [done|apply (Qlt_inject _ _ _ Hx2); vm_compute; discriminate|lia|lia|]. cbn [rbind].
  pose proof (rest_bound _ _ _ _ Hr2 (rest_lt _ _ _ _ Hr1 Hx1)) as B2.
  pose proof (rest_bound _ _ _ _ Hr3 (rest_lt _ _ _ _ Hr2 Hx2)) as B3.
  pose proof (rest_lt _ _ _ _ Hr3 Hx3) as B4. unfold x0 in B4. rewrite <- Zlt_Qlt in B4.
  unfold SecondsInDay, SecondsInHour, SecondsInMinute, HoursInDay in *.
  destruct Hr3 as (E3 & P3 & _). set (m := 0 + _ + _ + _) in *. set (r := n - m).
  assert (x3 == inject_Z r)%Q as Er by (rewrite E3; unfold x0, r, Z.sub; rewrite inject_Z_plus, inject_Z_opp; ring).
  assert (0 <= r) by (rewrite Er in P3; change 0%Q with (inject_Z 0) in P3; by rewrite <- Zle_Qle in P3).
  assert (dadd (of_int (Seconds time)) x3 == of_int (Seconds time + r))%Q as Es.
  { unfold dadd. rewrite Er. unfold of_int. rewrite <- inject_Z_plus. apply rnd_int. unfold r. lia. }
  unfold to_u16. rewrite (trunc_proper _ _ Es), trunc_int.
  rewrite (proj2 (Z.leb_le _ _)), (proj2 (Z.ltb_lt _ _)) by lia. cbn [andb rbind].
  assert (0 <= q2 < 24 /\ 0 <= q3 < 60) as [Hq2' Hq3'] by lia.
  rewrite carry_exact by lia. cbn [rbind].
  rewrite carry_exact by lia. cbn [rbind].
  assert (0 <= q1 < 400) by (unfold r, m in *; lia).
  rewrite carry_exact by lia. cbn [rbind].
  eexists _, _. split; [reflexivity|]. unfold valid_time, day_seconds, SecondsInHour, SecondsInMinute. simpl.
  unfold r, m in *. lia.
Qed.

(** The first day of the next month follows the last one of the month. *)
Lemma next_month y m : 0 <= y -> 1 <= m <= 12 ->
  month_start y m + month_length y m * SecondsInDay
  = (if m =? 12 then month_start (y + 1) 1 else month_start y (m + 1)).
Proof.
  intros Hy Hm. unfold month_start, month_length.
  replace (Z.to_nat (y + 1)) with (S (Z.to_nat y)) by lia. rewrite years_ticks_snoc.
  replace (0 + Z.of_nat (Z.to_nat y)) with y by lia. unfold year_ticks.
  set (Y := years_ticks _ _). clearbody Y. change (Z.to_nat (1 - 1)) with O. cbn [months_ticks].
  rewrite Z.add_0_r, <- Z.add_assoc.
  each_month m; destruct (leap y); cbv [Z.eqb Pos.eqb]; f_equal; reflexivity.
Qed.

(** The calendar some days after the day [c], at a time of the day. *)
Lemma days_later c d time : valid c -> CalendarCentury c < 32000 -> valid_time time -> 0 <= d <= 28 ->
  exists later, valid later /\
    calendar_ticks later = calendar_ticks c - day_seconds (CalendarTime c) + d * SecondsInDay + day_seconds time /\
    CalendarTime later = time /\
    Date (CalendarDate later)
    = (let L := month_length (full_year c) (Month (CalendarDate c)) in
       let n := Date (CalendarDate c) + d in if L <? n then n - L else n).
Proof.
  intros V Hmax Ht Hd. destruct V as [Hc Hy Hm Hdate _].
  pose proof (next_month (full_year c) (Month (CalendarDate c)) ltac:(unfold full_year; lia) Hm) as Hn.
  assert (forall y m, 1 <= m <= 12 -> 28 <= month_length y m) as HL
    by (intros y m H; unfold month_length; by destruct (month_days (leap y) m H) as [_ [? _]]).
  simpl. destruct (Z.ltb_spec (month_length (full_year c) (Month (CalendarDate c))) (Date (CalendarDate c) + d)) as [H|H].
  - set (L := month_length _ _) in *. set (date := Date (CalendarDate c) + d - L).
    destruct (Z.eqb_spec (Month (CalendarDate c)) 12) as [E|E].
    + set (last := Year (CalendarDate c) =? 99).
      exists (mkCalendar (CalendarCentury c + if last then 100 else 0)
        (mkDate 0 1 date (if last then 0 else Year (CalendarDate c) + 1)) time).
      assert ((if last then 0 else Year (CalendarDate c) + 1) + (CalendarCentury c + if last then 100 else 0)
              = full_year c + 1) as Ey by (unfold last, full_year; destruct (Z.eqb_spec (Year (CalendarDate c)) 99); lia).
      pose proof (HL (full_year c + 1) 1 ltac:(lia)).
      split_and!; [split; unfold full_year; simpl; rewrite ?Ey; try done; try lia;
        unfold last; destruct (Z.eqb_spec (Year (CalendarDate c)) 99); lia| |done|done].
      unfold calendar_ticks. unfold full_year at 1. simpl. rewrite Ey. unfold SecondsInDay in *. lia.
    + exists (mkCalendar (CalendarCentury c)
        (mkDate 0 (Month (CalendarDate c) + 1) date (Year (CalendarDate c))) time).
      pose proof (HL (full_year c) (Month (CalendarDate c) + 1) ltac:(lia)).
      split_and!; [split; unfold full_year; simpl; try done; fold (full_year c); lia| |done|done].
      unfold calendar_ticks. unfold full_year at 1. simpl. fold (full_year c). unfold SecondsInDay in *. lia.
  - exists (mkCalendar (CalendarCentury c)
      (mkDate 0 (Month (CalendarDate c)) (Date (CalendarDate c) + d) (Year (CalendarDate c))) time).
    split_and!; [split; unfold full_year; simpl; try done; fold (full_year c); lia| |done|done].
    unfold calendar_ticks. unfold full_year at 1. simpl. fold (full_year c). unfold SecondsInDay in *. lia.
Qed.

Lemma wrap_date_exact l m days : 1 <= m <= 12 -> days < 2 * (days_in_month l).[m - 1] -> 0 <= days ->
  wrap_date l m days = Done (let L := (days_in_month l).[m - 1] in if L <? days then days - L else days).
Proof.
  intros Hm Hd H0. unfold wrap_date. destruct (month_days l m Hm) as [-> Hb]. simpl.
  set (L := (days_in_month l).[m - 1]) in *. destruct (Z.ltb_spec L days); [|done].
  f_equal. replace days with (days - L + 1 * L) at 1 by lia. rewrite Z.mod_add, Z.mod_small by lia. done.
Qed.

(** The timeout the alarm is set for. *)
Definition clamp_timeout (t : Z) : Z := Z.max 1 (Z.min t 1181250).

Definition ticks_added (t e : Z) : Z := ticks_of_ms (clamp_timeout t) + b2z (488 <=? e).

(** The days of the alarm: at most 28, and within twice the month, which excludes the 28th day after
    the 28th of February of a year that is not a leap year. *)
Definition reachable (now : RtcCalendar_t) (n : Z) : Prop :=
  let d := (day_seconds (CalendarTime now) + n) / SecondsInDay in
  d <= 28 /\ Date (CalendarDate now) + d < 2 * month_length (full_year now) (Month (CalendarDate now)).

Lemma leap_test_century now century : valid now -> century mod 4 = 0 ->
  (Year (CalendarDate now) =? 0) || ((Year (CalendarDate now) + century) mod 4 =? 0) = leap (full_year now).
Proof.
  intros V Hc. pose proof (v_century _ V) as [_ Hv]. rewrite leap_mod. unfold full_year.
  destruct (Z.eqb_spec (Year (CalendarDate now)) 0) as [->|_]; simpl.
  - symmetry. apply Z.eqb_eq. lia.
  - by replace ((Year (CalendarDate now) + century) mod 4)
      with ((Year (CalendarDate now) + CalendarCentury now) mod 4) by lia.
Qed.

Lemma wrap_date_returns l m days : 1 <= m <= 12 -> exists v, wrap_date l m days = Done v.
Proof.
  intros Hm. unfold wrap_date. destruct (month_days l m Hm) as [-> _]. simpl. destruct (_ <? _); eauto.
Qed.

Lemma clamp_timeout_code t : 0 <= t -> (if Z.min t 1181250 <? 1 then 1 else Z.min t 1181250) = clamp_timeout t.
Proof. intros. unfold clamp_timeout. destruct (Z.ltb_spec (Z.min t 1181250) 1); lia. Qed.

(** The alarm for a timeout is set to the calendar that the clock shows as many ticks later as the
    timeout lasts, rounded to the nearest tick, plus the tick that the accumulated error adds. *)
Lemma alarm_exact t now century error : valid now -> CalendarCentury now < 32000 -> century mod 4 = 0 ->
  0 <= t < 2 ^ 32 -> - 2 ^ 30 <= error <= 2 ^ 30 ->
  exists alarm e, RtcComputeTimerTimeToAlarmTick t now century error = Done (alarm, if 488 <=? e then e - 488 else e) /\
    Z.abs (e - (error + 1000 * ticks_of_ms (clamp_timeout t) - 2048 * clamp_timeout t)) <= 1 /\
    (reachable now (ticks_added t e) ->
     exists later, valid later /\ calendar_ticks later = calendar_ticks now + ticks_added t e /\
       CalendarTime alarm = CalendarTime later /\ Date (CalendarDate alarm) = Date (CalendarDate later)).
Proof.
  intros V Hmax Hc Ht He. unfold RtcComputeTimerTimeToAlarmTick.
  change max_timeout with (@Done Z 1181250). cbn [rbind]. rewrite clamp_timeout_code by lia.
  assert (1 <= clamp_timeout t <= 1181250) as Hcl by (unfold clamp_timeout; lia).
  destruct (timeout_ticks_exact (clamp_timeout t) error Hcl He) as (e & x & Herr & -> & Hx). cbn [rbind].
  fold (ticks_added t e) in Hx. destruct (month_days (leap (full_year now)) _ (v_month _ V)) as [_ HL].
  pose proof (v_date _ V) as Hdate. unfold month_length in Hdate.
  assert (0 <= ticks_added t e < 2 ^ 25) as Hn.
  { unfold ticks_added, ticks_of_ms. destruct (488 <=? e); simpl; lia. }
  destruct (add_ticks_exact x _ (Date (CalendarDate now)) (CalendarTime now) Hx Hn (v_time _ V))
    as (time & days & -> & Vt & Sum); [lia|]. cbn [rbind].
  rewrite leap_test_century by done.
  destruct (wrap_date_returns (leap (full_year now)) _ days (v_month _ V)) as (v & Ev). rewrite Ev. cbn [rbind].
  eexists _, e. split; [reflexivity|]. split; [done|]. intros [Hd Hd2].
  set (d := (_ + _) / _) in *. assert (days = Date (CalendarDate now) + d /\ 0 <= d) as [Ed Hd0].
  { pose proof (v_time _ V) as (? & ? & ?). destruct Vt as (? & ? & ?). unfold d, day_seconds, SecondsInDay,
      SecondsInHour, SecondsInMinute in *. lia. }
  destruct (days_later now d time V Hmax Vt ltac:(lia)) as (later & Vl & El & Etime & Edate).
  rewrite wrap_date_exact in Ev by (first [apply (v_month _ V)|unfold month_length in *; lia]).
  injection Ev as Ev. exists later. destruct Vt as (Th & Tm & Ts). split_and!; [done| | |].
  - rewrite El, Ed in *. unfold SecondsInDay in *. lia.
  - simpl. rewrite !u8_id by (unfold is_u8; lia). rewrite Etime. by destruct time.
  - simpl. rewrite Edate, <- Ev, Ed. unfold month_length. apply u8_id. unfold is_u8.
    destruct (Z.ltb_spec (days_in_month (leap (full_year now))).[Month (CalendarDate now) - 1]
                (Date (CalendarDate now) + d)); lia.
Qed.

(** The 28th calendar day after the 28th of February is a date that does not exist. *)
Theorem alarm_date_zero :
  let now := mkCalendar 0 (mkDate 0 2 28 1) (mkTime 0 0 0) in
  exists alarm, RtcComputeTimerTimeToAlarmTick 1181250 now 0 0 = Done (alarm, 0) /\ Date (CalendarDate alarm) = 0.
Proof. vm_compute. eauto. Qed.

(** ** Calendars are unique *)

(** The month counted from the first month of the first year. *)
Definition month_index (y m : Z) : Z := 12 * y + (m - 1).
Definition index_start (k : Z) : Z := month_start (k / 12) (k mod 12 + 1).

Lemma index_start_month y m : 1 <= m <= 12 -> index_start (month_index y m) = month_start y m.
Proof.
  intros. unfold index_start, month_index.
  replace ((12 * y + (m - 1)) / 12) with y by lia. by replace ((12 * y + (m - 1)) mod 12 + 1) with m by lia.
Qed.

Lemma index_start_next y m : 0 <= y -> 1 <= m <= 12 ->
  index_start (month_index y m + 1) = month_start y m + month_length y m * SecondsInDay.
Proof.
  intros Hy Hm. rewrite next_month by done. destruct (Z.eqb_spec m 12) as [->|].
  - replace (month_index y 12 + 1) with (month_index (y + 1) 1) by (unfold month_index; lia).
    by rewrite index_start_month by lia.
  - replace (month_index y m + 1) with (month_index y (m + 1)) by (unfold month_index; lia).
    by rewrite index_start_month by lia.
Qed.

Lemma index_start_step k : 0 <= k -> index_start k < index_start (k + 1).
Proof.
  intros Hk. replace k with (month_index (k / 12) (k mod 12 + 1)) by (unfold month_index; lia).
  rewrite index_start_next, index_start_month by lia. unfold month_length.
  destruct (month_days (leap (k / 12)) (k mod 12 + 1)) as [_ ?]; [lia|]. unfold SecondsInDay. lia.
Qed.

Lemma index_start_mono k n : 0 <= k -> index_start k <= index_start (k + Z.of_nat n).
Proof.
  intros Hk. induction n as [|n IH]; [rewrite Z.add_0_r; lia|].
  pose proof (index_start_step (k + Z.of_nat n) ltac:(lia)).
  replace (k + Z.of_nat (S n)) with (k + Z.of_nat n + 1) by lia. lia.
Qed.

(** The ticks of a valid calendar lie in its month. *)
Lemma ticks_in_month c : valid c ->
  let k := month_index (full_year c) (Month (CalendarDate c)) in
  0 <= k /\ index_start k <= calendar_ticks c - SecondsInDay < index_start (k + 1).
Proof.
  intros [Hc Hy Hm Hd (H1 & H2 & H3)] k. unfold k. assert (0 <= full_year c) by (unfold full_year; lia).
  rewrite index_start_next, index_start_month by done. unfold month_index, calendar_ticks, day_seconds,
    SecondsInHour, SecondsInMinute, SecondsInDay. lia.
Qed.

Lemma index_unique k1 k2 n : 0 <= k1 -> 0 <= k2 -> index_start k1 <= n < index_start (k1 + 1) ->
  index_start k2 <= n < index_start (k2 + 1) -> k1 = k2.
Proof.
  intros H1 H2 B1 B2. destruct (Z.lt_trichotomy k1 k2) as [L|[->|L]]; [|done|].
  - pose proof (index_start_mono (k1 + 1) (Z.to_nat (k2 - (k1 + 1))) ltac:(lia)) as H.
    replace (k1 + 1 + _) with k2 in H by lia. lia.
  - pose proof (index_start_mono (k2 + 1) (Z.to_nat (k1 - (k2 + 1))) ltac:(lia)) as H.
    replace (k2 + 1 + _) with k1 in H by lia. lia.
Qed.

Lemma calendar_unique c1 c2 : valid c1 -> valid c2 -> calendar_ticks c1 = calendar_ticks c2 ->
  full_year c1 = full_year c2 /\ Month (CalendarDate c1) = Month (CalendarDate c2) /\
  Date (CalendarDate c1) = Date (CalendarDate c2) /\ CalendarTime c1 = CalendarTime c2.
Proof.
  intros V1 V2 E. destruct (ticks_in_month c1 V1) as [K1 B1]. destruct (ticks_in_month c2 V2) as [K2 B2].
  rewrite E in B1. pose proof (index_unique _ _ _ K1 K2 B1 B2) as Ek. unfold month_index in Ek.
  pose proof (v_month _ V1). pose proof (v_month _ V2).
  assert (full_year c1 = full_year c2 /\ Month (CalendarDate c1) = Month (CalendarDate c2)) as [Ey Em] by lia.
  unfold calendar_ticks in E. rewrite Ey, Em in E.
  pose proof (v_time _ V1) as (? & ? & ?). pose proof (v_time _ V2) as (? & ? & ?).
  unfold day_seconds, SecondsInHour, SecondsInMinute, SecondsInDay in E.
  destruct (CalendarTime c1), (CalendarTime c2); simpl in *. split_and!; [done|done|lia|f_equal; lia].
Qed.

(** ** Reading the clock *)

Section Reading.
Context {HW : RtcDevice}.

(** The time is read first, which holds the date until it is read. *)
Definition reading (d : rtc) : RTC_DateTypeDef * RTC_TimeTypeDef :=
  ((HAL_RTC_GetDate (HAL_RTC_GetTime d).2).1, (HAL_RTC_GetTime d).1).
Definition after_reading (d : rtc) : rtc := (HAL_RTC_GetDate (HAL_RTC_GetTime d).2).2.

(** What the code makes of a reading. *)
Definition calendar_now (s : clock HW) : RtcCalendar_t :=
  mkCalendar (Century s) (reading (hw s)).1 (reading (hw s)).2.

Definition roll_over (year : Z) (s : clock HW) : clock HW :=
  if year =? 99 then s <| CallendarRollOverReady := true |>
  else if CallendarRollOverReady s && (year =? 0)
  then s <| CallendarRollOverReady := false |> <| Century := u16 (Century s + 100) |> else s.

Lemma get_calendar_exact (s : clock HW) :
  RtcGetCalendar s = Done (calendar_now s, roll_over (Year (reading (hw s)).1) (s <| hw := after_reading (hw s) |>)).
Proof.
  unfold RtcGetCalendar, RtcCheckCalendarRollOver, hal_get, calendar_now, reading, after_reading, roll_over,
    swhen, sbind, sget, smod, sret. simpl.
  destruct (HAL_RTC_GetTime (hw s)) as [time d1]. simpl. destruct (HAL_RTC_GetDate d1) as [date d2]. simpl.
  assert (forall y, (y + Century s =? Century s) = (y =? 0)) as Hy.
  { intros y. destruct (Z.eqb_spec y 0), (Z.eqb_spec (y + Century s) (Century s)); done || lia. }
  destruct (Z.eqb_spec (Year date) 99) as [->|]; simpl; rewrite Hy; [done|]. by destruct (_ && _).
Qed.

(** The state of the roll-over detection after a reading in the year [Y]. *)
Definition tracks (s : clock HW) (Y : Z) : Prop :=
  0 <= Y < 65000 /\ Century s = 100 * (Y / 100) /\ CallendarRollOverReady s = (Y mod 100 =? 99).

(** The century is counted as long as the clock is read at least once a calendar year; the
    calendar returned has the right century except at the first reading after a roll over, which
    still has the century before. *)
Theorem century_tracked (s : clock HW) Y Y' : tracks s Y -> Y <= Y' <= Y + 1 -> Y' < 65000 ->
  Year (reading (hw s)).1 = Y' mod 100 ->
  exists c s', RtcGetCalendar s = Done (c, s') /\ tracks s' Y' /\
    full_year c = (if (Y' mod 100 =? 0) && negb (Y =? Y') then Y' - 100 else Y').
Proof.
  intros (HY & Hc & Hr) HY' Hmax E. rewrite get_calendar_exact. eexists _, _. split; [reflexivity|].
  unfold roll_over, full_year, calendar_now. cbn [CalendarDate CalendarCentury]. rewrite E. clear E.
  set (d := after_reading (hw s)). clearbody d. simpl. rewrite Hc, Hr.
  destruct (Z.eqb_spec (Y' mod 100) 99) as [E1|E1]; [|].
  - split; [unfold tracks; simpl; rewrite (proj2 (Z.eqb_eq _ _) E1); split_and!; lia || done|].
    destruct (Z.eqb_spec (Y' mod 100) 0); simpl; lia.
  - destruct (Z.eqb_spec (Y' mod 100) 0) as [E0|E0]; destruct (Z.eqb_spec (Y mod 100) 99) as [E2|E2]; simpl;
      (split; [unfold tracks; simpl; rewrite ?Hr, ?(proj2 (Z.eqb_neq _ _) E1), ?(proj2 (Z.eqb_neq _ _) E2);
               split_and!; first [machine|done]|]);
      destruct (Z.eqb_spec Y Y'); simpl; lia.
Qed.
End Reading.
Arguments reading : simpl never.
Arguments after_reading : simpl never.

(** ** Timeouts *)

#[local] Opaque calendar_time RtcComputeTimerTimeToAlarmTick.

(** The difference of two readings [n] ticks apart is the time of [n] ticks, up to 1 ms. *)
Lemma elapsed_close a t k : 0 <= a -> 0 <= t -> 0 <= k <= 1 ->
  Z.abs (ms_of_ticks (a + (ticks_of_ms t + k)) - ms_of_ticks a - t) <= 1.
Proof. intros. unfold ms_of_ticks, ticks_of_ms. lia. Qed.

Section Timeout.
Context {HW : RtcDevice}.
Implicit Types s : clock HW.

Lemma convert_now_exact s t : calendar_time (calendar_now s) = Done t ->
  RtcConvertCalendarTickToTimerTime None s
  = Done (t, roll_over (Year (reading (hw s)).1) (s <| hw := after_reading (hw s) |>)).
Proof.
  intros E. unfold RtcConvertCalendarTickToTimerTime, sbind. rewrite get_calendar_exact. unfold slift. by rewrite E.
Qed.

Lemma roll_over_context y s : RtcCalendarContext (roll_over y s) = RtcCalendarContext s.
Proof. unfold roll_over. destruct (_ =? _); [done|]. by destruct (_ && _). Qed.

(** The elapsed time as [RtcGetElapsedAlarmTime] subtracts it. *)
Definition elapsed (current context : Z) : Z :=
  if current <? context then u32 (current + (0xFFFFFFFF - context)) else current - context.

Lemma elapsed_alarm_exact s current context :
  calendar_time (calendar_now s) = Done current -> calendar_time (RtcCalendarContext s) = Done context ->
  RtcGetElapsedAlarmTime s
  = Done (elapsed current context, roll_over (Year (reading (hw s)).1) (s <| hw := after_reading (hw s) |>)).
Proof.
  intros E1 E2. unfold RtcGetElapsedAlarmTime, sbind at 1. rewrite (convert_now_exact _ _ E1).
  set (s1 := roll_over _ _). assert (RtcCalendarContext s1 = RtcCalendarContext s) as Ec
    by (unfold s1; by rewrite roll_over_context).
  clearbody s1. unfold RtcConvertCalendarTickToTimerTime, sbind, sget, sret, slift. by rewrite Ec, E2.
Qed.

(** The device when the calendar is read for a new alarm. *)
Definition deactivated (d : rtc) : rtc := HAL_RTCEx_DeactivateWakeUpTimer (HAL_RTC_DeactivateAlarm d).

Lemma set_timeout_exact s t alarm e : let s0 := s <| hw := deactivated (hw s) |> in
  let s1 := roll_over (Year (reading (deactivated (hw s))).1) (s0 <| hw := after_reading (hw s0) |>) in
  RtcComputeTimerTimeToAlarmTick t (calendar_now s0) (Century s1) (TimeoutValueError s) = Done (alarm, e) ->
  RtcSetTimeout t s = Done (tt, s1 <| RtcCalendarContext := calendar_now s0 |> <| TimeoutValueError := e |>
    <| hw ::= HAL_RTC_SetAlarm_IT (mkAlarm (CalendarTime alarm) (Date (CalendarDate alarm))) |>).
Proof.
  intros s0 s1 E. unfold RtcSetTimeout, RtcStartWakeUpAlarm, hal, sbind, smod. fold (deactivated (hw s)).
  change (s <| hw := HAL_RTC_DeactivateAlarm (hw s) |> <| hw := _ |>) with s0.
  rewrite get_calendar_exact.
  assert (TimeoutValueError s1 = TimeoutValueError s) as Et.
  { unfold s1, roll_over. destruct (_ =? _); [done|]. by destruct (_ && _). }
  change (Year (reading (hw s0)).1) with (Year (reading (deactivated (hw s))).1). fold s1.
  clearbody s1. unfold sget, slift. set (now := calendar_now s0) in *. clearbody now.
  change (TimeoutValueError (s1 <| RtcCalendarContext := now |>)) with (TimeoutValueError s1).
  change (Century (s1 <| RtcCalendarContext := now |>)) with (Century s1). rewrite Et, E. done.
Qed.

(** The century stays one that does not change which years are leap years. *)
Lemma roll_over_century y s d : valid (calendar_now s) -> Century (roll_over y (s <| hw := d |>)) mod 4 = 0.
Proof.
  intros V. pose proof (v_century _ V) as [Hr Hm]. change (CalendarCentury (calendar_now s)) with (Century s) in Hr, Hm.
  unfold roll_over. destruct (_ =? _); [|destruct (_ && _)]; simpl; machine.
Qed.

(** C35: setting a timeout saves the calendar and sets the alarm to the calendar as many ticks later
    as the timeout lasts (limited to 28 calendar days, 1181250 ms); when the clock shows that
    calendar, the time elapsed since the timeout was set is the timeout, up to 1 ms. *)
Theorem timeout_elapses s t : let now := calendar_now (s <| hw := deactivated (hw s) |>) in
  valid now -> CalendarCentury now < 32000 -> ms_of_ticks (calendar_ticks now) < 2 ^ 32 ->
  0 <= t < 2 ^ 32 -> - 2 ^ 30 <= TimeoutValueError s <= 2 ^ 30 ->
  exists s1 alarm n, RtcSetTimeout t s = Done (tt, s1) /\ RtcCalendarContext s1 = now /\
    hw s1 = HAL_RTC_SetAlarm_IT alarm (after_reading (deactivated (hw s))) /\
    ticks_of_ms (clamp_timeout t) <= n <= ticks_of_ms (clamp_timeout t) + 1 /\
    forall d later, reading d = (CalendarDate later, CalendarTime later) -> CalendarCentury later = Century s1 ->
      valid later -> calendar_ticks later = calendar_ticks now + n -> ms_of_ticks (calendar_ticks later) < 2 ^ 32 ->
      (reachable now n -> alarm = mkAlarm (CalendarTime later) (Date (CalendarDate later))) /\
      exists t' s2, RtcGetElapsedAlarmTime (s1 <| hw := d |>) = Done (t', s2) /\ Z.abs (t' - clamp_timeout t) <= 1.
Proof.
  intros now V Hmax Hnow Ht He. set (s0 := s <| hw := deactivated (hw s) |>) in now.
  set (sr := roll_over (Year (reading (deactivated (hw s))).1) (s0 <| hw := after_reading (hw s0) |>)).
  assert (Century sr mod 4 = 0) as Hc by apply (roll_over_century _ s0 _ V).
  destruct (alarm_exact t now (Century sr) (TimeoutValueError s) V Hmax Hc Ht He) as (alarm & e & E & _ & Hlater).
  pose proof (set_timeout_exact s t alarm _ E) as Eset. fold s0 sr now in Eset.
  assert (hw sr = after_reading (deactivated (hw s))) as Ehw.
  { unfold sr, roll_over. destruct (_ =? _); [done|]. by destruct (_ && _). }
  set (err := if 488 <=? e then e - 488 else e) in *. clearbody sr.
  eexists _, _, (ticks_added t e). split; [exact Eset|]. split; [done|].
  split; [simpl; by rewrite Ehw|]. split; [unfold ticks_added; destruct (488 <=? e); simpl; lia|].
  intros d later Hd Hcl Vl El Hms. split.
  - intros Hr. destruct (Hlater Hr) as (later' & Vl' & El' & Etime & Edate).
    destruct (calendar_unique later later' Vl Vl' ltac:(congruence)) as (_ & _ & E1 & E2). congruence.
  - match goal with |- exists t' s2, RtcGetElapsedAlarmTime ?st = _ /\ _ => set (s3 := st) end.
    assert (calendar_now s3 = later) as Enow.
    { change (mkCalendar (Century sr) (reading d).1 (reading d).2 = later). change (CalendarCentury later = Century sr) in Hcl.
      rewrite Hd, <- Hcl. by destruct later. }
    assert (0 <= calendar_ticks now) by apply (calendar_ticks_bounds _ (valid_well_formed _ V)).
    eexists _, _. split; [apply (elapsed_alarm_exact s3)|].
    + rewrite Enow, calendar_time_exact by by apply valid_well_formed. simpl. by rewrite (proj2 (Z.ltb_lt _ _) Hms).
    + change (RtcCalendarContext s3) with now. rewrite calendar_time_exact by by apply valid_well_formed.
      simpl. by rewrite (proj2 (Z.ltb_lt _ _) Hnow).
    + pose proof (elapsed_close (calendar_ticks now) (clamp_timeout t) (b2z (488 <=? e))) as Hcl'.
      fold (ticks_added t e) in Hcl'. rewrite <- El in Hcl'. unfold elapsed.
      assert (0 < ticks_added t e) by (unfold ticks_added, ticks_of_ms, clamp_timeout; destruct (488 <=? e); simpl; lia).
      rewrite (proj2 (Z.ltb_ge _ _)) by (unfold ms_of_ticks; lia).
      apply Hcl'; [done|unfold clamp_timeout; lia|destruct (488 <=? e); simpl; lia].
Qed.
End Timeout.

(** ** The clock as the timers see it *)

(** Reading the calendar and programming the alarm do not move the clock. *)
Class LawfulRtc (HW : RtcDevice) := {
  reading_after d : reading (after_reading d) = reading d;
  reading_deactivate_alarm d : reading (HAL_RTC_DeactivateAlarm d) = reading d;
  reading_deactivate_wake_up d : reading (HAL_RTCEx_DeactivateWakeUpTimer d) = reading d;
  reading_set_alarm a d : reading (HAL_RTC_SetAlarm_IT a d) = reading d;
}.

Section Interface.
Context {HW : RtcDevice} {L : LawfulRtc HW}.
Implicit Types (s : clock HW) (v : Timer.timers).

(** The clock shows the times the timers compute with, and no roll over of the century is due. *)
Record shows s v : Prop := {
  shows_now : calendar_time (calendar_now s) = Done (Timer.now v);
  shows_context : calendar_time (RtcCalendarContext s) = Done (Timer.RtcCalendarContext v);
  shows_wake_up : McuWakeUpTime s = Timer.McuWakeUpTime v;
  shows_non_scheduled : NonScheduledWakeUp s = Timer.NonScheduledWakeUp v;
  shows_low_power : RtcTimerEventAllowsLowPower s = Timer.RtcTimerEventAllowsLowPower v;
  shows_disable : LowPowerDisableDuringTask s = Timer.LowPowerDisableDuringTask v;
  shows_steady : CallendarRollOverReady s && (Year (reading (hw s)).1 =? 0) = false;
}.

(** Without a roll over due, a reading keeps what the clock shows. *)
Lemma reading_shows s v d : shows s v -> reading d = reading (hw s) ->
  shows (roll_over (Year (reading (hw s)).1) (s <| hw := d |>)) v.
Proof.
  intros [H1 H2 H3 H4 H5 H6 H7] E. unfold roll_over. cbn [CallendarRollOverReady].
  change (CallendarRollOverReady (s <| hw := d |>)) with (CallendarRollOverReady s). rewrite H7.
  assert (calendar_now (s <| hw := d |>) = calendar_now s) as Ec
    by (unfold calendar_now; change (hw (s <| hw := d |>)) with d; by rewrite E).
  destruct (Z.eqb_spec (Year (reading (hw s)).1) 99) as [E9|_]; split;
    first [exact H2|exact H3|exact H4|exact H5|exact H6|idtac].
  - change (calendar_time (calendar_now (s <| hw := d |>)) = Done (Timer.now v)). rewrite Ec. exact H1.
  - change ((Year (reading d).1 =? 0) = false). rewrite E, E9. reflexivity.
  - rewrite Ec. exact H1.
  - change (CallendarRollOverReady s && (Year (reading d).1 =? 0) = false). rewrite E. exact H7.
Qed.

Lemma shows_set_context s v now : shows s v -> calendar_time now = Done (Timer.now v) -> forall e t d,
  reading d = reading (hw s) ->
  shows (s <| RtcCalendarContext := now |> <| TimeoutValueError := e |> <| hw := d |>) (Timer.RtcSetTimeout t v).
Proof.
  intros [H1 H2 H3 H4 H5 H6 H7] Hn e t d Ed. split; first [exact H2|exact H3|exact H4|exact H5|exact H6|exact Hn|idtac].
  - unfold calendar_now in *. change (hw (_ <| hw := d |>)) with d. rewrite Ed. exact H1.
  - change (hw (_ <| hw := d |>)) with d. rewrite Ed. exact H7.
Qed.

End Interface.

(** * A clock in memory *)

Record simulated := mkSim { sim_date : RTC_DateTypeDef; sim_time : RTC_TimeTypeDef; sim_alarm : option RTC_AlarmTypeDef;
  sim_flag : bool; sim_stopped : bool }.

#[export] Instance SimRtc : RtcDevice := {
  rtc := simulated;
  HAL_RTC_Init d := d;
  HAL_RTC_GetTime d := (sim_time d, d);
  HAL_RTC_GetDate d := (sim_date d, d);
  HAL_RTC_SetTime t d := mkSim (sim_date d) t (sim_alarm d) (sim_flag d) (sim_stopped d);
  HAL_RTC_SetDate t d := mkSim t (sim_time d) (sim_alarm d) (sim_flag d) (sim_stopped d);
  HAL_RTC_GetAlarm d := (default (mkAlarm (mkTime 0 0 0) 0) (sim_alarm d), d);
  HAL_RTC_SetAlarm_IT a d := mkSim (sim_date d) (sim_time d) (Some a) (sim_flag d) (sim_stopped d);
  HAL_RTC_DeactivateAlarm d := mkSim (sim_date d) (sim_time d) None (sim_flag d) (sim_stopped d);
  HAL_RTCEx_DeactivateWakeUpTimer d := d;
  HAL_RTC_AlarmIRQHandler d := d;
  wake_up_flag d := sim_flag d;
  clear_wake_up_flag d := mkSim (sim_date d) (sim_time d) (sim_alarm d) false (sim_stopped d);
  slow_clock d := sim_stopped d;
  BoardInitMcu d := mkSim (sim_date d) (sim_time d) (sim_alarm d) (sim_flag d) false;
  enter_stop_mode d := mkSim (sim_date d) (sim_time d) (sim_alarm d) (sim_flag d) true;
}.

#[export] Instance SimLawful : LawfulRtc SimRtc.
Proof. by split. Defined.

(** A state of the code, and the last second of a year. *)
Definition sim_state (d : simulated) : clock SimRtc :=
  mkClock SimRtc d 0 false false (mkCalendar 0 (mkDate 6 1 1 0) (mkTime 0 0 0)) false false true false 0 0.
Definition eve : simulated := mkSim (mkDate 0 12 31 98) (mkTime 23 59 59) None false false.

(** The wake-up time measured over midnight is that of almost 2^32 ticks. *)
Theorem wake_up_time_wraps :
  let d := mkSim (mkDate 0 1 2 0) (mkTime 0 0 3) (Some (mkAlarm (mkTime 23 59 59) 1)) false false in
  exists s, RtcComputeWakeUpTime (sim_state d) = Done (tt, s) /\ McuWakeUpTime s = 2097109815.
Proof. vm_compute. eauto. Qed.

(** A positive error (the alarm is late) adds a tick (and makes it later). *)
Theorem error_not_compensated :
  timeout_ticks 11 0 = Done (of_int 23, 472) /\ ticks_of_ms 11 = 23 /\
  exists x e, timeout_ticks 11 472 = Done (x, e) /\ (x == of_int 24)%Q.
Proof. vm_compute. split_and!; [done..|]. eexists _, _. by split. Qed.

(** ** Witnesses *)


Lemma century_tracked_witness : exists c s', RtcGetCalendar
    ((sim_state (mkSim (mkDate 0 1 1 0) (mkTime 0 0 0) None false false)) <| CallendarRollOverReady := true |>) = Done (c, s') /\
  tracks s' 100 /\ full_year c = 0.
Proof. apply (century_tracked _ 99 100); [by split_and!|done|done|done]. Defined.

Lemma eve_valid : valid (calendar_now (sim_state eve)).
Proof. split; vm_compute; intuition discriminate. Qed.

Lemma timeout_elapses_witness : exists s1 d t' s2, RtcSetTimeout 2000 (sim_state eve) = Done (tt, s1) /\
  RtcGetElapsedAlarmTime (s1 <| hw := d |>) = Done (t', s2) /\ Z.abs (t' - 2000) <= 1.
Proof.
  destruct (timeout_elapses (sim_state eve) 2000) as (s1 & alarm & n & E & Ec & _ & Hn & H);
    [exact eve_valid|done|done|done|done|].
  set (seconds := n - 4096 + 15). exists s1, (mkSim (mkDate 0 1 1 99) (mkTime 1 8 seconds) None false false).
  change (4096 <= n <= 4097) in Hn.
  destruct (H (mkSim (mkDate 0 1 1 99) (mkTime 1 8 seconds) None false false)
    (mkCalendar 0 (mkDate 0 1 1 99) (mkTime 1 8 seconds))) as (_ & t' & s2 & E' & Hc);
    [reflexivity| | | | |exists t', s2; exact (conj E (conj E' Hc))]; [vm_compute in E; by injection E as <-|..];
    assert (n = 4096 \/ n = 4097) as [-> | ->] by lia;
    first [vm_compute; reflexivity|split; vm_compute; intuition discriminate].
Defined.

(** The clock after it was set, as the timers see it. *)
Definition sim_view : Timer.timers := Timer.mkTimers empty None 0 42188 42188 0 false false false [] false [].


End Rtc.
