(* ===== verification/MacChannels.v ===== *)
(** Channels, datarates and duty cycle of src/src/mac/LoRaMac.c: channel
    masks, adding and removing channels, choice of the next channel, back-off
    and the datarate adaptations. *)
From S2P Require Import Prelude Utilities MacTypes.

Module MacChannels.
Import MacTypes.

(** * Bit counting and ranges *)

Fixpoint count_bits_from (n : nat) (j mask nbActiveBits : Z) : Z :=
  match n with
  | O => nbActiveBits
  | S n' =>
      let nb := if Z.land mask (Z.shiftl 1 j) =? Z.shiftl 1 j then u8 (nbActiveBits + 1) else nbActiveBits in
      count_bits_from n' (j + 1) mask nb
  end.

Definition CountBits (mask nbBits : Z) : Z := count_bits_from (Z.to_nat nbBits) 0 mask 0.

Definition ValueInRange (value min max : Z) : bool := (min <=? value) && (value <=? max).

(** [mask[index] &= ~( 1 << ( id % 16 ) )]; the result and the new mask. *)
Definition DisableChannelInMask (id : Z) (mask : list Z) : bool * list Z :=
  let index := id / 16 in
  if (4 <? index) || (LORA_MAX_NB_CHANNELS <=? id) then (false, mask)
  else (true, mask.[index := u16 (Z.ldiff mask.[index] (Z.shiftl 1 (id mod 16)))]).

Definition LimitTxPower (txPower : Z) : Z := txPower.

Definition ValidatePayloadLength (s : mac) (lenN datarate fOptsLen : Z) : run bool :=
  let lenN := u8 lenN in
  let* maxN := (if RepeaterSupport s then rd MaxPayloadOfDatarateRepeater datarate
                else rd MaxPayloadOfDatarate datarate) in
  let payloadSize := u16 (lenN + fOptsLen) in
  Done ((payloadSize <=? maxN) && (payloadSize <=? LORAMAC_PHY_MAXPAYLOAD)).

(** * Channel list *)

Section Channels.
Context {RD : RadioDriver}.

Definition Rx2FreqInRange (freq : Z) : bool := CheckRfFrequency freq.

(** The band of a frequency, [None] when it is in no band. *)
Definition band_of_frequency (f : Z) : option Z :=
  if (865000000 <=? f) && (f <=? 868000000) then Some 0
  else if (868000000 <? f) && (f <=? 868600000) then Some 1
  else if (868700000 <=? f) && (f <=? 869200000) then Some 2
  else if (869400000 <=? f) && (f <=? 869650000) then Some 3
  else if (869700000 <=? f) && (f <=? 870000000) then Some 4
  else None.

Definition datarate_invalid (s : mac) (id drRange : Z) : bool :=
  (DrMax drRange <? DrMin drRange)
  || negb (ValueInRange (DrMin drRange) LORAMAC_TX_MIN_DATARATE LORAMAC_TX_MAX_DATARATE)
  || negb (ValueInRange (DrMax drRange) LORAMAC_TX_MIN_DATARATE LORAMAC_TX_MAX_DATARATE)
  || (if id <? 3 then
        (ChannelsDatarate (LoRaMacParamsDefaults s) <? DrMin drRange)
        || negb (ValueInRange (DrMax drRange) 5 LORAMAC_TX_MAX_DATARATE)
      else false).

(** The band, or [None] for [frequencyInvalid]. *)
Definition frequency_band (s : mac) (id freq : Z) : option Z :=
  let mismatch := match Channels s !! Z.to_nat id with
                  | Some c => (id <? 3) && negb (freq =? Frequency c)
                  | None => false
                  end in
  if CheckRfFrequency freq && (0 <? freq) && negb mismatch then band_of_frequency freq else None.

Definition LoRaMacChannelAdd (id freq drRange : Z) : M LoRaMacStatus_t := fun s =>
  if LORA_MAX_NB_CHANNELS <=? id then Done (LORAMAC_STATUS_PARAMETER_INVALID, s)
  else if state_has MAC_TX_RUNNING s && negb (state_has MAC_TX_CONFIG s)
  then Done (LORAMAC_STATUS_BUSY, s)
  else
    match datarate_invalid s id drRange, frequency_band s id freq with
    | true, None => Done (LORAMAC_STATUS_FREQ_AND_DR_INVALID, s)
    | true, Some _ => Done (LORAMAC_STATUS_DATARATE_INVALID, s)
    | false, None => Done (LORAMAC_STATUS_FREQUENCY_INVALID, s)
    | false, Some band =>
        let* chs := wr (Channels s) id (mkChannel freq drRange band) in
        let s := s <| Channels := chs |> in
        let mask := ChannelsMask (LoRaMacParams s) in
        Done (LORAMAC_STATUS_OK, set_mask s mask.[0 := u16 (Z.lor mask.[0] (Z.shiftl 1 id))])
    end.

Definition LoRaMacChannelRemove (id : Z) : M LoRaMacStatus_t := fun s =>
  if state_has MAC_TX_RUNNING s && negb (state_has MAC_TX_CONFIG s)
  then Done (LORAMAC_STATUS_BUSY, s)
  else if (id <? 3) || (LORA_MAX_NB_CHANNELS <=? id)
  then Done (LORAMAC_STATUS_PARAMETER_INVALID, s)
  else
    let* chs := wr (Channels s) id channel_none in
    let s := s <| Channels := chs |> in
    let '(ok, mask) := DisableChannelInMask id (ChannelsMask (LoRaMacParams s)) in
    let s := set_mask s mask in
    Done (if ok then LORAMAC_STATUS_OK else LORAMAC_STATUS_PARAMETER_INVALID, s).

End Channels.

(** * Duty cycle *)

Definition RetransmissionDutyCylce (s : mac) : Z :=
  let timeElapsed := elapsed s 0 in
  if timeElapsed <? 3600000 then BACKOFF_DC_1_HOUR
  else if timeElapsed <? 3600000 + 36000000 then BACKOFF_DC_10_HOURS
  else BACKOFF_DC_24_HOURS.

Definition set_time_off (b : Z) (g : Band_t -> Z) (s : mac) : run mac :=
  let* band := rd (Bands s) b in
  let* bands := wr (Bands s) b (band <| TimeOff := g band |>) in
  Done (s <| Bands := bands |>).

Definition CalculateBackOff (channel : Z) : M unit := fun s =>
  let* ch := rd (Channels s) channel in
  let* band := rd (Bands s) (Band ch) in
  let joined := IsLoRaMacNetworkJoined s in
  let dutyCycle := if joined then DCycle band else Z.max (DCycle band) (RetransmissionDutyCylce s) in
  let rndTimeOff := negb joined && (0 <? TxTimeOnAir s) in
  let* s := set_time_off (Band ch)
    (fun _ => if DutyCycleOn s then u32 (TxTimeOnAir s * dutyCycle - TxTimeOnAir s) else 0) s in
  let* s := (if rndTimeOff then
      let* band := rd (Bands s) (Band ch) in
      let* (r, s) := rand_range (s32 (TimeOff band)) (s32 (u32 (TimeOff band + BACKOFF_RND_OFFSET))) s in
      set_time_off (Band ch) (fun _ => u32 r) s
    else Done s) in
  Done (tt, s <| AggregatedTimeOff ::= fun t =>
    u32 (t + (TxTimeOnAir s * AggregatedDCycle s - TxTimeOnAir s)) |>).

(** * Choice of a channel *)

(** The loop over the bands: the new bands and [nextTxDelay]. *)
Fixpoint update_bands (s : mac) (bands : list Band_t) (nextTxDelay : Z) : list Band_t * Z :=
  match bands with
  | [] => ([], nextTxDelay)
  | b :: bands' =>
      let '(b, nextTxDelay) :=
        if DutyCycleOn s then
          let b := if TimeOff b <=? elapsed s (LastTxDoneTime b) then b <| TimeOff := 0 |> else b in
          (b, if negb (TimeOff b =? 0)
              then Z.min (u32 (TimeOff b - elapsed s (LastTxDoneTime b))) nextTxDelay
              else nextTxDelay)
        else (b <| TimeOff := 0 |>, 0) in
      let '(bands', nextTxDelay) := update_bands s bands' nextTxDelay in
      (b :: bands', nextTxDelay)
  end.

(** What the loop finds out about one channel. *)
Inductive verdict := Skip | Delayed | Enabled.

Definition channel_verdict (s : mac) (j : Z) : run verdict :=
  if Z.land (ChannelsMask (LoRaMacParams s)).[0] (Z.shiftl 1 j) =? 0 then Done Skip else
  let* ch := rd (Channels s) j in
  if Frequency ch =? 0 then Done Skip
  else if negb (IsLoRaMacNetworkJoined s) && (Z.land JOIN_CHANNELS (Z.shiftl 1 j) =? 0) then Done Skip
  else
    let dr := ChannelsDatarate (LoRaMacParams s) in
    if negb ((DrMin (DrRange ch) <=? dr) && (dr <=? DrMax (DrRange ch))) then Done Skip
    else
      let* band := rd (Bands s) (Band ch) in
      if 0 <? TimeOff band then Done Delayed else Done Enabled.

(** The loop over the sixteen channels. *)
Fixpoint search_channels (s : mac) (n : nat) (j : Z) (enabled : list Z) (delayTx : Z)
  : run (list Z * Z) :=
  match n with
  | O => Done (enabled, delayTx)
  | S n' =>
      let* v := channel_verdict s j in
      match v with
      | Skip => search_channels s n' (j + 1) enabled delayTx
      | Delayed => search_channels s n' (j + 1) enabled (u8 (delayTx + 1))
      | Enabled => search_channels s n' (j + 1) (enabled ++ [j]) delayTx
      end
  end.

(** Re-enables the default channels when no channel is enabled. *)
Definition ensure_enabled (s : mac) : mac :=
  if CountBits (ChannelsMask (LoRaMacParams s)).[0] 16 =? 0
  then s <| LoRaMacParams ::= reenable_default |> else s.

(** Returns the result and what is stored in [*time]. *)
Definition SetNextChannel : M (bool * Z) := fun s =>
  let s := ensure_enabled s in
  let* (s, enabled, delayTx, nextTxDelay) :=
    (if AggregatedTimeOff s <=? elapsed s (AggregatedLastTxDoneTime s) then
       let s := s <| AggregatedTimeOff := 0 |> in
       let '(bands, nextTxDelay) := update_bands s (Bands s) 0xFFFFFFFF in
       let s := s <| Bands := bands |> in
       let* (enabled, delayTx) := search_channels s 16 0 [] 0 in
       Done (s, enabled, delayTx, nextTxDelay)
     else Done (s, [], 1, u32 (AggregatedTimeOff s - elapsed s (AggregatedLastTxDoneTime s)))) in
  if 0 <? zlen enabled then
    let* (r, s) := rand_range 0 (zlen enabled - 1) s in
    let* ch := rd enabled r in
    Done ((true, 0), s <| Channel := ch |>)
  else if 0 <? delayTx then Done ((true, nextTxDelay), s)
  else Done ((false, 0), s).

(** * Datarates *)

(** Returns [adrAckReq] and what is stored in [*datarateOut]. *)
Definition AdrNextDr (adrEnabled updateChannelMask : bool) : M (bool * Z) := fun s =>
  let datarate := ChannelsDatarate (LoRaMacParams s) in
  if negb adrEnabled then Done ((false, datarate), s)
  else if datarate =? LORAMAC_TX_MIN_DATARATE then
    Done ((false, datarate), s <| AdrAckCounter := 0 |>)
  else
    let adrAckReq := ADR_ACK_LIMIT <=? AdrAckCounter s in
    if (ADR_ACK_LIMIT + ADR_ACK_DELAY <=? AdrAckCounter s) && (AdrAckCounter s mod ADR_ACK_DELAY =? 0) then
      let datarate := if LORAMAC_TX_MIN_DATARATE <? datarate then datarate - 1 else datarate in
      let s := if (datarate =? LORAMAC_TX_MIN_DATARATE) && updateChannelMask
               then s <| LoRaMacParams ::= reenable_default |> else s in
      Done ((adrAckReq, datarate), s)
    else Done ((adrAckReq, datarate), s).

Definition AlternateDatarate (nbTrials : Z) : Z :=
  if nbTrials mod 48 =? 0 then 0
  else if nbTrials mod 32 =? 0 then 1
  else if nbTrials mod 24 =? 0 then 2
  else if nbTrials mod 16 =? 0 then 3
  else if nbTrials mod 8 =? 0 then 4
  else 5.

(** * Channel masks of the 915 MHz band

    72 channels in a mask of six words: 64 channels of 125 kHz in words 0 to
    3, eight of 500 kHz in word 4. *)

Definition CountNbEnabled125kHzChannels (channelsMask : list Z) : Z :=
  u8 (CountBits channelsMask.[0] 16 + CountBits channelsMask.[1] 16 +
      CountBits channelsMask.[2] 16 + CountBits channelsMask.[3] 16).

Fixpoint reenable_from (n : nat) (i j blockMask : Z) (mask : list Z) : list Z :=
  match n with
  | O => mask
  | S n' =>
      let lo := if negb (Z.land blockMask (Z.shiftl 1 j) =? 0) then 0x00FF else 0 in
      let hi := if negb (Z.land blockMask (Z.shiftl 1 (j + 1)) =? 0) then 0xFF00 else 0 in
      reenable_from n' (i + 1) (j + 2) blockMask mask.[i := Z.lor lo hi]
  end.

Definition ReenableChannels (mask : Z) (channelMask : list Z) : list Z :=
  let channelMask := reenable_from 4 0 0 mask channelMask in
  channelMask.[4 := mask].[5 := 0].

(** The first loop: [chanMaskState], [index] and the mask. *)
Fixpoint validate_blocks (n : nat) (i : Z) (found : bool) (index : Z) (mask : list Z)
  : bool * Z * list Z :=
  match n with
  | O => (found, index, mask)
  | S n' =>
      let block1 := Z.land mask.[i] 0x00FF in
      let block2 := Z.land mask.[i] 0xFF00 in
      if (5 <? CountBits block1 16) && negb found then
        validate_blocks n' (i + 1) true i
          mask.[i := Z.land mask.[i] block1].[4 := Z.shiftl 1 (i * 2)]
      else if (5 <? CountBits block2 16) && negb found then
        validate_blocks n' (i + 1) true i
          mask.[i := Z.land mask.[i] block2].[4 := Z.shiftl 1 (i * 2 + 1)]
      else validate_blocks n' (i + 1) found index mask
  end.

Fixpoint clear_others (n : nat) (i index : Z) (mask : list Z) : list Z :=
  match n with
  | O => mask
  | S n' => clear_others n' (i + 1) index (if negb (i =? index) then mask.[i := 0] else mask)
  end.

Definition ValidateChannelMask (channelMask : list Z) : bool * list Z :=
  let '(found, index, mask) := validate_blocks 4 0 false 0 channelMask in
  (found, if found then clear_others 4 0 index mask else mask).

(** * Bits *)

Lemma land_pow2 m j : 0 <= j ->
  Z.land m (Z.shiftl 1 j) = if Z.testbit m j then Z.shiftl 1 j else 0.
Proof.
  intros Hj. rewrite Z.shiftl_mul_pow2, Z.mul_1_l by done.
  apply Z.bits_inj'. intros i Hi. rewrite Z.land_spec.
  destruct (decide (i = j)) as [->|Hne].
  - rewrite Z.pow2_bits_true, andb_true_r by done.
    by destruct (Z.testbit m j) eqn:E; rewrite ?Z.pow2_bits_true, ?Z.bits_0 by done.
  - rewrite Z.pow2_bits_false, andb_false_r by done.
    by destruct (Z.testbit m j); rewrite ?Z.pow2_bits_false, ?Z.bits_0 by done.
Qed.

Lemma shiftl_1_pos j : 0 <= j -> 0 < Z.shiftl 1 j.
Proof. intros. rewrite Z.shiftl_mul_pow2 by done. lia. Qed.

Lemma land_bit m j : 0 <= j -> (Z.land m (Z.shiftl 1 j) =? 0) = negb (Z.testbit m j).
Proof.
  intros Hj. rewrite land_pow2 by done. pose proof (shiftl_1_pos j Hj).
  destruct (Z.testbit m j); [|done]. apply Z.eqb_neq. lia.
Qed.

Lemma land_bit_eq m j : 0 <= j -> (Z.land m (Z.shiftl 1 j) =? Z.shiftl 1 j) = Z.testbit m j.
Proof.
  intros Hj. rewrite land_pow2 by done. pose proof (shiftl_1_pos j Hj).
  destruct (Z.testbit m j); [apply Z.eqb_refl|]. apply Z.eqb_neq. lia.
Qed.

(** The channels of a mask among the first [n]. *)
Definition mask_bits (mask : Z) (n : nat) : list nat :=
  filter (fun j => Z.testbit mask (Z.of_nat j)) (seq 0 n).

Lemma count_bits_from_spec n : forall (j : nat) mask nb,
  0 <= nb -> nb + Z.of_nat n < 256 ->
  count_bits_from n (Z.of_nat j) mask nb =
  nb + zlen (filter (fun j => Z.testbit mask (Z.of_nat j)) (seq j n)).
Proof.
  induction n as [|n IH]; intros j mask nb H0 Hn; [simpl; lia|].
  cbn [count_bits_from seq]. rewrite land_bit_eq by lia. rewrite filter_cons.
  replace (Z.of_nat j + 1) with (Z.of_nat (S j)) by lia.
  destruct (Z.testbit mask (Z.of_nat j)) eqn:E.
  - rewrite decide_True by done. rewrite u8_id by (unfold is_u8; lia).
    rewrite IH by lia. cbn [length]. lia.
  - rewrite decide_False by (by intros []). rewrite IH by lia. lia.
Qed.

Lemma CountBits_spec mask n : 0 <= n < 256 -> CountBits mask n = zlen (mask_bits mask (Z.to_nat n)).
Proof. intros. unfold CountBits. rewrite (count_bits_from_spec _ 0) by lia. done. Qed.

Lemma CountBits_zero mask : CountBits mask 16 = 0 -> forall j, 0 <= j < 16 -> Z.testbit mask j = false.
Proof.
  rewrite CountBits_spec by lia. intros H j Hj. apply not_true_is_false. intros Hb.
  assert (Hin : Z.to_nat j ∈ mask_bits mask 16).
  { apply list_elem_of_filter. split; [rewrite Z2Nat.id by lia; by apply Is_true_eq_left|]. apply elem_of_seq. lia. }
  change (Z.to_nat 16) with 16%nat in H. destruct (mask_bits mask 16); [by apply elem_of_nil in Hin|].
  simpl in H. lia.
Qed.

(** * Invariant of the channel tables *)

Record chan_wf (s : mac) : Prop := mkChanWf {
  cw_channels : length (Channels s) = 16%nat;
  cw_bands : length (Bands s) = 5%nat;
  cw_band : Forall (fun c => 0 <= Band c < 5) (Channels s);
  cw_mask : length (ChannelsMask (LoRaMacParams s)) = 6%nat;
  cw_timeoff : Forall (fun b => is_u32 (TimeOff b)) (Bands s);
  cw_aggregate : is_u32 (AggregatedTimeOff s);
}.

Lemma chan_wf_boot e : chan_wf (mac_boot e).
Proof. split; try done; repeat (apply List.Forall_cons; [simpl; unfold is_u32; lia|]); apply List.Forall_nil. Qed.

(** * What a channel must satisfy to be used *)

(** The mask the choice is made from: the default channels when none is enabled. *)
Definition effective_mask (s : mac) : Z :=
  let m := (ChannelsMask (LoRaMacParams s)).[0] in
  if CountBits m 16 =? 0 then Z.lor m DEFAULT_CHANNELS else m.

(** Enabled, defined, allowed before joining and supporting the datarate. *)
Definition suitable (s : mac) (j : Z) (ch : ChannelParams_t) : Prop :=
  0 <= j < 16 /\ Channels s !! Z.to_nat j = Some ch /\ Z.testbit (effective_mask s) j = true /\
  Frequency ch <> 0 /\ (IsLoRaMacNetworkJoined s = true \/ j < 3) /\
  DrMin (DrRange ch) <= ChannelsDatarate (LoRaMacParams s) <= DrMax (DrRange ch).

(** The duty cycle lets the band be used now. *)
Definition band_open (s : mac) (b : Band_t) : bool :=
  negb (DutyCycleOn s) || (TimeOff b <=? elapsed s (LastTxDoneTime b)).

Definition aggregate_open (s : mac) : bool :=
  AggregatedTimeOff s <=? elapsed s (AggregatedLastTxDoneTime s).

Definition usable (s : mac) (j : Z) : Prop :=
  exists ch b, suitable s j ch /\ Bands s !! Z.to_nat (Band ch) = Some b /\ band_open s b = true.

(** ** The loop over the bands *)

Definition release (s : mac) (b : Band_t) : Band_t :=
  if band_open s b then b <| TimeOff := 0 |> else b.

Lemma elapsed_nonneg s t : 0 <= elapsed s t.
Proof.
  unfold elapsed, RtcComputeElapsedTime. zcases; try lia.
  pose proof (u32_range (now (env s) + (4294967295 - t))) as HR. unfold is_u32 in HR. lia.
Qed.

Lemma update_bands_off s bands d : DutyCycleOn s = false ->
  update_bands s bands d = (map (release s) bands, match bands with [] => d | _ => 0 end).
Proof.
  intros ED. revert d. induction bands as [|b bands IH]; intros d; [done|].
  cbn [update_bands map]. rewrite ED, IH. unfold release at 2, band_open. rewrite ED. by destruct bands.
Qed.

Lemma update_bands_spec s bands : forall d, 0 < d ->
  Forall (fun b => is_u32 (TimeOff b)) bands ->
  exists d', update_bands s bands d = (map (release s) bands, d') /\
    (DutyCycleOn s = true -> 0 < d').
Proof.
  induction bands as [|b bands IH]; intros d Hd HF; [by exists d|].
  apply List.Forall_cons_iff in HF as [Hb HF]. cbn [update_bands map].
  unfold release at 1, band_open. destruct (DutyCycleOn s) eqn:ED; cbn [negb orb].
  - set (b1 := if _ <=? _ then _ else _).
    assert (Hd1 : 0 < (if negb (TimeOff b1 =? 0)
      then Z.min (u32 (TimeOff b1 - elapsed s (LastTxDoneTime b1))) d else d)).
    { unfold b1. destruct (Z.leb_spec (TimeOff b) (elapsed s (LastTxDoneTime b))) as [Hle|Hgt]; [done|].
      destruct (negb _); [|done]. pose proof (elapsed_nonneg s (LastTxDoneTime b)). unfold is_u32 in Hb.
      rewrite u32_id by (unfold is_u32; lia). lia. }
    destruct (IH _ Hd1 HF) as (d' & -> & Hd'). exists d'. by split.
  - exists 0. rewrite (update_bands_off s bands 0 ED). split; [|done]. by destruct bands.
Qed.

(** ** The loop over the channels *)

(** [suitable], on the mask word the loop reads. *)
Definition listed (s : mac) (j : Z) (ch : ChannelParams_t) : Prop :=
  Channels s !! Z.to_nat j = Some ch /\ Z.testbit (ChannelsMask (LoRaMacParams s)).[0] j = true /\
  Frequency ch <> 0 /\ (IsLoRaMacNetworkJoined s = true \/ j < 3) /\
  DrMin (DrRange ch) <= ChannelsDatarate (LoRaMacParams s) <= DrMax (DrRange ch).

Lemma join_channels_bit j : 0 <= j -> Z.testbit JOIN_CHANNELS j = (j <? 3).
Proof.
  intros Hj. change JOIN_CHANNELS with (Z.ones 3).
  destruct (Z.ltb_spec j 3); [apply Z.ones_spec_low; lia|apply Z.ones_spec_high; lia].
Qed.

(** [channel_verdict] returns, and is [Skip] exactly on the channels that are not listed. *)
Lemma verdict_spec s j : chan_wf s -> 0 <= j < 16 ->
  (channel_verdict s j = Done Skip /\ forall ch, ~ listed s j ch) \/
  (exists ch b, listed s j ch /\ Bands s !! Z.to_nat (Band ch) = Some b /\
    channel_verdict s j = Done (if 0 <? TimeOff b then Delayed else Enabled)).
Proof.
  intros [W1 W2 W3 W4 W5 W6] Hj. unfold channel_verdict, listed.
  rewrite land_bit by lia. destruct (Z.testbit _ j) eqn:Em; cbn [negb].
  2: { left. split; [done|]. intros ch (_ & ? & _). congruence. }
  destruct (rd_ok (Channels s) j) as (ch & -> & Hch); [lia|]. cbn [rbind].
  destruct (Z.eqb_spec (Frequency ch) 0) as [Hf|Hf].
  { left. split; [done|]. intros ch' (? & _ & ? & _). congruence. }
  rewrite land_bit, join_channels_bit by lia.
  destruct (negb (IsLoRaMacNetworkJoined s) && _) eqn:Ej.
  { apply andb_true_iff in Ej as [Ej1%negb_true_iff Ej2]. left. split; [done|].
    intros ch' (_ & _ & _ & [?|?] & _); [congruence|]. destruct (Z.ltb_spec j 3); [done|lia]. }
  destruct ((DrMin (DrRange ch) <=? _) && _) eqn:Ed; cbn [negb].
  2: { left. split; [done|]. intros ch' (? & _ & _ & _ & ?). assert (ch' = ch) as -> by congruence.
    apply andb_false_iff in Ed as [?%Z.leb_gt|?%Z.leb_gt]; lia. }
  apply andb_true_iff in Ed as [Ed1%Z.leb_le Ed2%Z.leb_le].
  assert (Hband : 0 <= Band ch < 5).
  { eapply (proj1 (Forall_forall _ _) W3), list_elem_of_lookup_2, Hch. }
  destruct (rd_ok (Bands s) (Band ch)) as (b & -> & Hb); [lia|]. cbn [rbind]. right.
  exists ch, b. split_and!; try done.
  - destruct (IsLoRaMacNetworkJoined s); [by left|right]. simpl in Ej. destruct (Z.ltb_spec j 3); [lia|done].
  - by destruct (0 <? TimeOff b).
Qed.

Lemma search_channels_spec s n : forall j enabled d, chan_wf s ->
  0 <= j -> j + Z.of_nat n <= 16 -> 0 <= d -> d + Z.of_nat n < 256 ->
  exists enabled' d', search_channels s n j enabled d = Done (enabled', d') /\
    (forall x, In x enabled' <-> In x enabled \/
      j <= x < j + Z.of_nat n /\ channel_verdict s x = Done Enabled) /\
    0 <= d' /\ (length enabled' <= length enabled + n)%nat /\
    (0 < d' <-> 0 < d \/ exists x, j <= x < j + Z.of_nat n /\ channel_verdict s x = Done Delayed).
Proof.
  induction n as [|n IH]; intros j enabled d Hw Hj Hn Hd Hd2.
  { exists enabled, d. split; [done|]. split_and!; [|lia|lia|].
    - intros x. split; [by left|]. intros [?|?]; [done|lia].
    - split; [by left|]. intros [?|(x & ? & _)]; [done|lia]. }
  cbn [search_channels].
  destruct (verdict_spec s j Hw ltac:(lia)) as [[E _]|(ch & b & _ & _ & E)].
  2: destruct (0 <? TimeOff b).
  all: rewrite E; cbn [rbind].
  - destruct (IH (j + 1) enabled d) as (e' & d' & -> & HE & H0 & HL & HD); try done; try lia.
    exists e', d'. rewrite ?length_app in HL. cbn [length] in HL. split_and!; [done| |done|lia|].
    + intros x. rewrite HE. split; intros [?|[? ?]]; [by left| right; split; [lia|done]|by left|].
      right. split; [|done]. destruct (decide (x = j)); [congruence|lia].
    + rewrite HD. split; (intros [?|(x & ? & ?)]; [by left|right; exists x; split; [|done]]); [lia|].
      destruct (decide (x = j)); [congruence|lia].
  - rewrite u8_id by (unfold is_u8; lia).
    destruct (IH (j + 1) enabled (d + 1)) as (e' & d' & -> & HE & H0 & HL & HD); try done; try lia.
    exists e', d'. rewrite ?length_app in HL. cbn [length] in HL. split_and!; [done| |done|lia|].
    + intros x. rewrite HE. split; intros [?|[? ?]]; [by left| right; split; [lia|done]|by left|].
      right. split; [|done]. destruct (decide (x = j)); [congruence|lia].
    + split; [|intros _; apply HD; left; lia]. intros _. right. exists j. split; [lia|done].
  - destruct (IH (j + 1) (enabled ++ [j]) d) as (e' & d' & -> & HE & H0 & HL & HD); try done; try lia.
    exists e', d'. rewrite ?length_app in HL. cbn [length] in HL. split_and!; [done| |done|lia|].
    + intros x. rewrite HE, in_app_iff. simpl. split.
      * intros [[?|[<-|[]]]|[? ?]]; [by left|right; split; [lia|done]|right; split; [lia|done]].
      * intros [?|[? ?]]; [by do 2 left|]. destruct (decide (x = j)) as [->|]; [left; right; by left|].
        right. split; [lia|done].
    + rewrite HD. split; (intros [?|(x & ? & ?)]; [by left|right; exists x; split; [|done]]); [lia|].
      destruct (decide (x = j)); [congruence|lia].
Qed.

(** ** The choice *)

(** The state the loop over the channels runs on. *)
Definition searched (s : mac) : mac :=
  let s := ensure_enabled s in
  let s := s <| AggregatedTimeOff := 0 |> in
  s <| Bands := map (release s) (Bands s) |>.

Lemma searched_wf s : chan_wf s -> chan_wf (searched s).
Proof.
  intros [W1 W2 W3 W4 W5 W6]. unfold searched, ensure_enabled. destruct (CountBits _ 16 =? 0); split;
    cbn [update Channels Bands LoRaMacParams AggregatedTimeOff reenable_default ChannelsMask];
    rewrite ?length_map, ?zupd_length; try done; try (unfold is_u32; lia).
  all: apply List.Forall_map; eapply List.Forall_impl; [|exact W5]; intros b Hb; unfold release;
    destruct (band_open _ b); [unfold is_u32; cbn; lia|done].
Qed.

Lemma searched_listed s j ch : length (ChannelsMask (LoRaMacParams s)) = 6%nat ->
  0 <= j < 16 -> listed (searched s) j ch <-> suitable s j ch.
Proof.
  intros HL Hj. unfold listed, suitable, effective_mask, searched, ensure_enabled.
  destruct (CountBits _ 16 =? 0); cbn -[CountBits DEFAULT_CHANNELS JOIN_CHANNELS Z.lor Z.testbit]; [|tauto].
  set (m := ChannelsMask _) in *. assert (Hm : (m.[0 := Z.lor m.[0] DEFAULT_CHANNELS]).[0] = Z.lor m.[0] DEFAULT_CHANNELS).
  { by destruct m. }
  rewrite Hm. tauto.
Qed.

Lemma searched_bands s i : Bands (searched s) !! i = release s <$> Bands s !! i.
Proof.
  unfold searched, ensure_enabled. destruct (CountBits _ 16 =? 0); cbn [update Bands]; apply list_lookup_fmap.
Qed.

Lemma chan_wf_pick s n c : chan_wf s -> chan_wf (s <| rand_next := n |> <| Channel := c |>).
Proof. by intros []. Qed.

Lemma ensure_enabled_keeps s :
  AggregatedTimeOff (ensure_enabled s) = AggregatedTimeOff s /\
  (forall t, elapsed (ensure_enabled s) t = elapsed s t) /\
  AggregatedLastTxDoneTime (ensure_enabled s) = AggregatedLastTxDoneTime s /\
  Channel (ensure_enabled s) = Channel s /\ Bands (ensure_enabled s) = Bands s /\
  DutyCycleOn (ensure_enabled s) = DutyCycleOn s.
Proof. unfold ensure_enabled. by destruct (CountBits _ 16 =? 0). Qed.

Lemma ensure_enabled_wf s : chan_wf s -> chan_wf (ensure_enabled s).
Proof.
  intros [W1 W2 W3 W4 W5 W6]. unfold ensure_enabled. destruct (CountBits _ 16 =? 0); [|done]. split; try done.
  cbn [update LoRaMacParams reenable_default ChannelsMask]. by rewrite zupd_length.
Qed.

Lemma searched_channel s : Channel (searched s) = Channel s.
Proof. unfold searched, ensure_enabled. by destruct (CountBits _ 16 =? 0). Qed.

Lemma searched_eq s :
  (ensure_enabled s) <| AggregatedTimeOff := 0 |>
    <| Bands := map (release ((ensure_enabled s) <| AggregatedTimeOff := 0 |>)) (Bands s) |> = searched s.
Proof. unfold searched, ensure_enabled. by destruct (CountBits _ 16 =? 0). Qed.

(** What [SetNextChannel] promises to its caller. *)
Definition next_channel_post (s : mac) (r : bool * Z) (s' : mac) : Prop :=
  (r = (true, 0) /\ usable s (Channel s') /\ aggregate_open s = true) \/
  (exists t, r = (true, t) /\ 0 < t /\ Channel s' = Channel s /\
    (aggregate_open s = false \/
     DutyCycleOn s = true /\ exists j ch, suitable s j ch /\ ~ usable s j)) \/
  (r = (false, 0) /\ Channel s' = Channel s /\ aggregate_open s = true /\
    forall j ch, ~ suitable s j ch).

Lemma SetNextChannel_spec s : chan_wf s ->
  exists r s', SetNextChannel s = Done (r, s') /\ chan_wf s' /\ next_channel_post s r s'.
Proof.
  intros Hw. unfold SetNextChannel. pose proof (searched_eq s) as Hs. 
  destruct (ensure_enabled_keeps s) as (HA & HEl & HAl & HC & HB & HD).
  set (s0 := ensure_enabled s) in *. rewrite HA, HAl, HEl.
  fold (aggregate_open s). destruct (aggregate_open s) eqn:Eo.
  - destruct (update_bands_spec (s0 <| AggregatedTimeOff := 0 |>) (Bands s) 0xFFFFFFFF)
      as (d & Eu & Hd); [lia|apply Hw|].
    cbn [update Bands]. rewrite HB, Eu. cbn [rbind]. rewrite Hs.
    pose proof (searched_wf s Hw) as Hw2.
    destruct (search_channels_spec (searched s) 16 0 [] 0 Hw2) as (en & dl & -> & HE & Hd0 & HLn & Hdl); try lia.
    cbn [rbind]. destruct (Z.ltb_spec 0 (zlen en)) as [Hne|Hne].
    + unfold rand_range. pose proof (randr_in_range 0 (zlen en - 1) (rand_next (searched s))) as Hr.
      destruct (randr _ _ _) as [r nx]. cbn [fst] in Hr. cbn [length] in HLn.
      cbn [rbind]. destruct (rd_ok en r) as (c & -> & Hc); [lia|]. cbn [rbind].
      eexists _, _. split; [done|]. split; [by apply chan_wf_pick|]. left. split_and!; [done| |done].
      cbn [update Channel].
      assert (Hin : In c en) by (by apply list_elem_of_In, (list_elem_of_lookup_2 _ _ _ Hc)).
      apply HE in Hin as [[]|[Hrange Hv]].
      destruct (verdict_spec (searched s) c Hw2 ltac:(lia)) as [[E _]|(ch & b & HL & Hb & E)]; [congruence|].
      rewrite searched_bands in Hb. destruct (Bands s !! Z.to_nat (Band ch)) as [b0|] eqn:Eb; [|done].
      exists ch, b0. split_and!; [apply searched_listed; [apply Hw|lia|done]|done|].
      injection Hb as <-. rewrite Hv in E. unfold release in E.
      destruct (band_open s b0) eqn:Ebo; [done|]. exfalso. unfold band_open in Ebo.
      apply orb_false_iff in Ebo as [_ Ht%Z.leb_gt]. pose proof (elapsed_nonneg s (LastTxDoneTime b0)).
      destruct (Z.ltb_spec 0 (TimeOff b0)); [done|lia].
    + assert (Hen : forall x, 0 <= x < 16 -> channel_verdict (searched s) x <> Done Enabled).
      { intros x Hx Hv. destruct en; [|simpl in Hne; lia]. apply (proj2 (HE x)). right. split; [lia|done]. }
      destruct (Z.ltb_spec 0 dl) as [Hdl0|Hdl0].
      * eexists _, _. split; [done|]. split; [done|]. right. left. exists d.
        apply Hdl in Hdl0 as [?|(x & Hx & Hv)]; [lia|].
        destruct (verdict_spec (searched s) x Hw2 ltac:(lia)) as [[E _]|(ch & b & HL & Hb & E)]; [congruence|].
        apply searched_listed in HL; [|apply Hw|lia].
        rewrite searched_bands in Hb. destruct (Bands s !! Z.to_nat (Band ch)) as [b0|] eqn:Eb; [|done].
        injection Hb as <-. rewrite Hv in E. unfold release in E.
        destruct (band_open s b0) eqn:Ebo; [discriminate|].
        assert (HDC : DutyCycleOn s = true) by (unfold band_open in Ebo; by destruct (DutyCycleOn s)).
        split_and!; [done|apply Hd; cbn [update DutyCycleOn]; by rewrite HD|by rewrite searched_channel|].
        right. split; [done|]. exists x, ch. split; [done|]. intros (ch' & b' & Hs' & Hb' & Ho').
        destruct HL as (_ & HLc & _), Hs' as (_ & HLc' & _). congruence.
      * eexists _, _. split; [done|]. split; [done|]. right. right.
        split_and!; [done|by rewrite searched_channel|done|]. intros x ch HS.
        pose proof HS as (Hx & _). apply searched_listed in HS; [|apply Hw|done].
        destruct (verdict_spec (searched s) x Hw2 ltac:(lia)) as [[_ E]|(ch' & b & _ & _ & E)]; [by eapply E|].
        destruct (0 <? TimeOff b); [|by apply (Hen x)].
        enough (0 < dl) by lia. apply Hdl. right. exists x. split; [lia|done].
  - cbn [rbind length]. change (0 <? Z.of_nat 0) with false. change (0 <? 1) with true. cbn iota.
    eexists _, _. split; [done|]. split; [by apply ensure_enabled_wf|]. right. left. eexists. split; [done|].
    unfold aggregate_open in Eo. apply Z.leb_gt in Eo.
    pose proof (elapsed_nonneg s (AggregatedLastTxDoneTime s)). destruct Hw as [_ _ _ _ _ W6].
    unfold is_u32 in W6. rewrite u32_id by (unfold is_u32; lia). split; [lia|]. split; [done|left; by apply Z.leb_gt].
Qed.

(** ** Back-off *)

Lemma set_time_off_spec s b g band : Bands s !! Z.to_nat b = Some band -> 0 <= b ->
  set_time_off b g s =
  Done (s <| Bands := <[Z.to_nat b := band <| TimeOff := g band |>]> (Bands s) |>).
Proof.
  intros Hb H0. unfold set_time_off. rewrite (proj2 (rd_Done _ _ band)) by done. cbn [rbind].
  apply lookup_lt_Some in Hb. rewrite wr_ok by lia. done.
Qed.

Lemma chan_wf_bands s i b : chan_wf s -> is_u32 (TimeOff b) -> chan_wf (s <| Bands := <[i := b]> (Bands s) |>).
Proof.
  intros [W1 W2 W3 W4 W5 W6] Hb. split; cbn [update Bands Channels LoRaMacParams AggregatedTimeOff]; try done.
  - by rewrite length_insert.
  - by apply Forall_insert.
Qed.

Lemma channel_band s c ch : chan_wf s -> Channels s !! c = Some ch ->
  exists band, Bands s !! Z.to_nat (Band ch) = Some band /\ 0 <= Band ch.
Proof.
  intros [W1 W2 W3 W4 W5 W6] Hch.
  assert (Hband : 0 <= Band ch < 5) by (eapply (proj1 (Forall_forall _ _) W3), list_elem_of_lookup_2, Hch).
  destruct (lookup_lt_is_Some_2 (Bands s) (Z.to_nat (Band ch))) as [b Hb]; [lia|]. exists b. split; [done|lia].
Qed.

(** Before joining, the random part keeps the state well formed; after it the
    band of the channel is closed for [dutyCycle - 1] times the air time. *)
Lemma CalculateBackOff_spec s c : chan_wf s -> 0 <= c < 16 ->
  exists s', CalculateBackOff c s = Done (tt, s') /\ chan_wf s' /\
    Channels s' = Channels s /\ LoRaMacParams s' = LoRaMacParams s /\
    LoRaMacParamsDefaults s' = LoRaMacParamsDefaults s /\
    IsLoRaMacNetworkJoined s' = IsLoRaMacNetworkJoined s /\ env s' = env s /\ DutyCycleOn s' = DutyCycleOn s /\
    (IsLoRaMacNetworkJoined s = true -> forall ch band,
      Channels s !! Z.to_nat c = Some ch -> Bands s !! Z.to_nat (Band ch) = Some band ->
      Bands s' = <[Z.to_nat (Band ch) := band <| TimeOff :=
        if DutyCycleOn s then u32 (TxTimeOnAir s * DCycle band - TxTimeOnAir s) else 0 |>]> (Bands s)).
Proof.
  intros Hw Hc. unfold CalculateBackOff.
  destruct (rd_ok (Channels s) c) as (ch & -> & Hch); [destruct Hw; lia|]. cbn [rbind].
  destruct (channel_band s _ ch Hw Hch) as (band & Hb & Hb0).
  rewrite (proj2 (rd_Done _ _ band)) by done. cbn [rbind].
  rewrite (set_time_off_spec s (Band ch) _ band) by done. cbn [rbind].
  set (t1 := if DutyCycleOn s then _ else 0).
  assert (Ht1 : is_u32 t1) by (unfold t1; destruct (DutyCycleOn s); [apply u32_range|unfold is_u32; lia]).
  pose proof (chan_wf_bands s (Z.to_nat (Band ch)) (band <| TimeOff := t1 |>) Hw Ht1) as Hw1.
  set (bands1 := <[_ := _]> (Bands s)) in *.
  assert (Hb1 : bands1 !! Z.to_nat (Band ch) = Some (band <| TimeOff := t1 |>)).
  { apply list_lookup_insert_eq. by apply lookup_lt_Some in Hb. }
  destruct (IsLoRaMacNetworkJoined s) eqn:Ej; cbn [negb andb].
  - eexists. cbn [rbind]. split; [done|]. split_and!; try done.
    + destruct Hw1 as [W1 W2 W3 W4 W5 W6]. split; try done. apply u32_range.
    + intros _ ch' band' Hch' Hb'. assert (ch' = ch) as -> by congruence.
      assert (band' = band) as -> by congruence. unfold bands1, t1. done.
  - destruct (0 <? TxTimeOnAir s).
    + cbn [update Bands]. rewrite (proj2 (rd_Done bands1 _ _)) by (split; [exact Hb0|exact Hb1]). cbn [rbind].
      unfold rand_range. destruct (randr _ _ _) as [r nx]. cbn [rbind].
      rewrite (set_time_off_spec _ (Band ch) _ (band <| TimeOff := t1 |>)) by done. cbn [rbind].
      eexists. split; [done|]. split_and!; try done.
      destruct Hw1 as [W1 W2 W3 W4 W5 W6]. split; try done.
      * cbn [update Bands]. by rewrite length_insert.
      * cbn [update Bands]. apply Forall_insert; [done|]. apply u32_range.
      * apply u32_range.
    + cbn [rbind]. eexists. split; [done|]. split_and!; try done.
      destruct Hw1 as [W1 W2 W3 W4 W5 W6]. split; try done. apply u32_range.
Qed.

(** ** Channel list *)

(** The default channels stay defined and support the datarates up to DR_5 from
    the default datarate on. *)
Definition default_ok (s : mac) : Prop :=
  forall i, (i < 3)%nat -> exists ch, Channels s !! i = Some ch /\ Frequency ch <> 0 /\
    DrMin (DrRange ch) <= ChannelsDatarate (LoRaMacParamsDefaults s) /\ 5 <= DrMax (DrRange ch).

Lemma band_of_frequency_range f b : band_of_frequency f = Some b -> 0 <= b < 5.
Proof. unfold band_of_frequency. repeat case_match; intros [= <-]; lia. Qed.

Lemma zupd_0 (m : list Z) x : m <> [] -> m.[0 := x].[0] = x.
Proof. by destruct m. Qed.

Section ChannelList.
Context {RD : RadioDriver}.

Lemma frequency_band_range s id f b : frequency_band s id f = Some b -> 0 <= b < 5 /\ 0 < f.
Proof.
  unfold frequency_band. destruct (CheckRfFrequency f && _ && _) eqn:E; [|done].
  intros H. split; [by eapply band_of_frequency_range|].
  apply andb_true_iff in E as [E _]. apply andb_true_iff in E as [_ E%Z.ltb_lt]. done.
Qed.

(** An accepted channel replaces the entry and enables it; a refused one changes nothing. *)
Lemma ChannelAdd_spec s id f dr : chan_wf s -> 0 <= id ->
  exists st s', LoRaMacChannelAdd id f dr s = Done (st, s') /\ chan_wf s' /\
    (default_ok s -> default_ok s') /\
    ((st <> LORAMAC_STATUS_OK /\ s' = s) \/
     (st = LORAMAC_STATUS_OK /\ id < 16 /\ datarate_invalid s id dr = false /\
      exists band, frequency_band s id f = Some band /\
      Channels s' = <[Z.to_nat id := mkChannel f dr band]> (Channels s) /\
      (ChannelsMask (LoRaMacParams s')).[0] = u16 (Z.lor (ChannelsMask (LoRaMacParams s)).[0] (Z.shiftl 1 id)) /\
      Bands s' = Bands s)).
Proof.
  intros Hw Hid. unfold LoRaMacChannelAdd, LORA_MAX_NB_CHANNELS.
  destruct (Z.leb_spec 16 id); [eauto 12|].
  destruct (state_has MAC_TX_RUNNING s && _); [eauto 12|].
  destruct (datarate_invalid s id dr) eqn:Ed, (frequency_band s id f) as [band|] eqn:Ef; try (by eauto 12).
  destruct (frequency_band_range s id f band Ef) as [Hband Hf].
  rewrite wr_ok by (destruct Hw; lia). cbn [rbind]. eexists _, _. split; [done|]. split_and!.
  - destruct Hw as [W1 W2 W3 W4 W5 W6]. split; cbn [set_mask update Channels Bands LoRaMacParams ChannelsMask AggregatedTimeOff]; try done.
    + by rewrite length_insert.
    + by apply Forall_insert.
    + by rewrite zupd_length.
  - intros HD i Hi. cbn [set_mask update Channels LoRaMacParamsDefaults].
    destruct (decide (Z.to_nat id = i)) as [<-|Hne].
    + rewrite list_lookup_insert_eq by (destruct Hw; lia). eexists. split; [done|]. cbn [Frequency DrRange].
      unfold datarate_invalid in Ed. rewrite !orb_false_iff in Ed. destruct Ed as [[[_ _] _] E3].
      rewrite (proj2 (Z.ltb_lt id 3)) in E3 by lia. apply orb_false_iff in E3 as [E4%Z.ltb_ge E5].
      apply negb_false_iff, andb_true_iff in E5 as [E5%Z.leb_le E6]. split; [lia|]. split; lia.
    + rewrite list_lookup_insert_ne by done. by apply HD.
  - right. split_and!; try done. exists band. split_and!; try done.
    cbn [set_mask update LoRaMacParams ChannelsMask Channels]. apply zupd_0.
    destruct Hw as [W1 W2 W3 W4 W5 W6]. by destruct (ChannelsMask (LoRaMacParams s)).
Qed.

Lemma ChannelRemove_spec s id : chan_wf s -> 0 <= id ->
  exists st s', LoRaMacChannelRemove id s = Done (st, s') /\ chan_wf s' /\
    (default_ok s -> default_ok s') /\
    ((st <> LORAMAC_STATUS_OK /\ s' = s) \/
     (st = LORAMAC_STATUS_OK /\ 3 <= id < 16 /\
      Channels s' = <[Z.to_nat id := channel_none]> (Channels s) /\
      (ChannelsMask (LoRaMacParams s')).[0] = u16 (Z.ldiff (ChannelsMask (LoRaMacParams s)).[0] (Z.shiftl 1 id)))).
Proof.
  intros Hw Hid. unfold LoRaMacChannelRemove, LORA_MAX_NB_CHANNELS.
  destruct (state_has MAC_TX_RUNNING s && _); [eauto 12|].
  destruct ((id <? 3) || (16 <=? id)) eqn:Eid; [eauto 12|].
  apply orb_false_iff in Eid as [Eid1%Z.ltb_ge Eid2%Z.leb_gt].
  rewrite wr_ok by (destruct Hw; lia). cbn [rbind]. unfold DisableChannelInMask, LORA_MAX_NB_CHANNELS.
  replace (id / 16) with 0 by lia. replace (id mod 16) with id by lia. rewrite (proj2 (Z.leb_gt 16 id)) by lia.
  cbn [Z.ltb orb Z.compare]. eexists _, _. split; [done|]. split_and!.
  - destruct Hw as [W1 W2 W3 W4 W5 W6]. split; cbn [set_mask update Channels Bands LoRaMacParams ChannelsMask AggregatedTimeOff]; try done.
    + by rewrite length_insert.
    + apply Forall_insert; [done|]. cbn. lia.
    + by rewrite zupd_length.
  - intros HD i Hi. cbn [set_mask update Channels LoRaMacParamsDefaults].
    rewrite list_lookup_insert_ne by lia. by apply HD.
  - right. split_and!; try done. cbn [set_mask update LoRaMacParams ChannelsMask Channels]. apply zupd_0.
    destruct Hw as [W1 W2 W3 W4 W5 W6]. by destruct (ChannelsMask (LoRaMacParams s)).
Qed.

End ChannelList.

Lemma demo_wf : chan_wf demo_mac.
Proof. split; try done; repeat (apply List.Forall_cons; [simpl; unfold is_u32; lia|]); apply List.Forall_nil. Qed.

(** * Properties *)

(** C12: the choice of a channel always returns.  With delay zero it has chosen a
    channel that is enabled (or a default one when none is), defined, allowed
    before joining, supports the datarate and lies in a band whose off time
    is over, as the aggregated one is; a positive delay is returned exactly when a
    suitable channel exists but is closed by a duty cycle, and the channel is
    then kept; it fails exactly when no channel is suitable. *)
Theorem set_next_channel_correct s : chan_wf s ->
  exists r s', SetNextChannel s = Done (r, s') /\ chan_wf s' /\
  ((r = (true, 0) /\ usable s (Channel s') /\ aggregate_open s = true) \/
   (exists t, r = (true, t) /\ 0 < t /\ Channel s' = Channel s /\
     (aggregate_open s = false \/
      DutyCycleOn s = true /\ exists j ch, suitable s j ch /\ ~ usable s j)) \/
   (r = (false, 0) /\ Channel s' = Channel s /\ aggregate_open s = true /\
     forall j ch, ~ suitable s j ch)).
Proof. apply SetNextChannel_spec. Qed.

Lemma set_next_channel_correct_witness :
  exists r s', SetNextChannel demo_mac = Done (r, s') /\ chan_wf s' /\
  ((r = (true, 0) /\ usable demo_mac (Channel s') /\ aggregate_open demo_mac = true) \/
   (exists t, r = (true, t) /\ 0 < t /\ Channel s' = Channel demo_mac /\
     (aggregate_open demo_mac = false \/
      DutyCycleOn demo_mac = true /\ exists j ch, suitable demo_mac j ch /\ ~ usable demo_mac j)) \/
   (r = (false, 0) /\ Channel s' = Channel demo_mac /\ aggregate_open demo_mac = true /\
     forall j ch, ~ suitable demo_mac j ch)).
Proof. apply set_next_channel_correct. apply demo_wf. Defined.

(** C11: the duty cycle is respected.  After a transmission of air time [t] on a
    channel of a band with duty cycle 1/[d], the back-off and the choice of the
    next channel return, and they choose a channel of the same band only when at
    least [t * (d - 1)] have passed since the transmission ended. *)
Theorem duty_cycle_respected s ch band :
  chan_wf s -> DutyCycleOn s = true -> IsLoRaMacNetworkJoined s = true -> 0 <= LastTxChannel s < 16 ->
  Channels s !! Z.to_nat (LastTxChannel s) = Some ch -> Bands s !! Z.to_nat (Band ch) = Some band ->
  0 <= TxTimeOnAir s -> 1 <= DCycle band -> TxTimeOnAir s * DCycle band < 2 ^ 32 ->
  exists s1 r s2, CalculateBackOff (LastTxChannel s) s = Done (tt, s1) /\ SetNextChannel s1 = Done (r, s2) /\
    forall next, r = (true, 0) -> Channels s !! Z.to_nat (Channel s2) = Some next -> Band next = Band ch ->
    TxTimeOnAir s * (DCycle band - 1) <= elapsed s (LastTxDoneTime band).
Proof.
  intros Hw HD HJ Hc Hch Hb Ht Hd Hov.
  destruct (CalculateBackOff_spec s (LastTxChannel s) Hw Hc)
    as (s1 & E1 & Hw1 & HC1 & _ & _ & _ & He1 & HD1 & HB1).
  specialize (HB1 HJ ch band Hch Hb).
  destruct (SetNextChannel_spec s1 Hw1) as (r & s2 & E2 & _ & HP).
  exists s1, r, s2. split_and!; [done|done|]. intros next Hr Hn Hband. unfold next_channel_post in HP.
  destruct HP as [(_ & (ch' & b' & HS & Hb' & Ho) & _)|[(t & -> & ? & _)|(-> & _)]]; [|simplify_eq; lia|done].
  destruct HS as (_ & HS & _). rewrite HC1 in HS. assert (ch' = next) as -> by congruence.
  rewrite Hband, HB1, list_lookup_insert_eq in Hb' by (by apply lookup_lt_Some in Hb).
  injection Hb' as <-. unfold band_open in Ho. rewrite HD1, HD in Ho. cbn [negb orb update TimeOff LastTxDoneTime] in Ho.
  apply Z.leb_le in Ho. unfold elapsed in *. rewrite He1 in Ho.
  rewrite u32_id in Ho by (unfold is_u32; nia). lia.
Qed.

Lemma chan_wf_toa s t : chan_wf s -> chan_wf (s <| TxTimeOnAir := t |>).
Proof. by intros []. Qed.

Definition demo_tx : mac := demo_mac <| TxTimeOnAir := 50 |>.

Lemma duty_cycle_respected_witness :
  exists s1 r s2, CalculateBackOff (LastTxChannel demo_tx) demo_tx = Done (tt, s1) /\
    SetNextChannel s1 = Done (r, s2) /\
    forall next, r = (true, 0) -> Channels demo_tx !! Z.to_nat (Channel s2) = Some next -> Band next = Band LC1 ->
    TxTimeOnAir demo_tx * (DCycle (mkBand 100 1 0 0) - 1) <= elapsed demo_tx (LastTxDoneTime (mkBand 100 1 0 0)).
Proof.
  apply (duty_cycle_respected demo_tx LC1 (mkBand 100 1 0 0)); try reflexivity; try (cbn; lia).
  apply chan_wf_toa, demo_wf.
Defined.

(** Adding a channel returns for every identifier, frequency and datarate
    range.  It succeeds only on one of the sixteen entries, with a valid datarate
    range and a frequency of a known band; then that entry is replaced, its
    mask bit is set and no other entry or band changes.  Otherwise the state is
    unchanged.  Either way the tables stay well formed and the default
    channels stay usable; removing a channel keeps both as well and refuses the
    default channels. *)
Theorem channel_list_correct (RD : RadioDriver) s id f dr : chan_wf s -> default_ok s -> 0 <= id ->
  (exists st s', LoRaMacChannelAdd id f dr s = Done (st, s') /\ chan_wf s' /\ default_ok s' /\
    ((st <> LORAMAC_STATUS_OK /\ s' = s) \/
     (st = LORAMAC_STATUS_OK /\ id < 16 /\ datarate_invalid s id dr = false /\
      exists band, frequency_band s id f = Some band /\
      Channels s' = <[Z.to_nat id := mkChannel f dr band]> (Channels s) /\
      (ChannelsMask (LoRaMacParams s')).[0] = u16 (Z.lor (ChannelsMask (LoRaMacParams s)).[0] (Z.shiftl 1 id)) /\
      Bands s' = Bands s))) /\
  (exists st s', LoRaMacChannelRemove id s = Done (st, s') /\ chan_wf s' /\ default_ok s' /\
    ((st <> LORAMAC_STATUS_OK /\ s' = s) \/
     (st = LORAMAC_STATUS_OK /\ 3 <= id < 16 /\
      Channels s' = <[Z.to_nat id := channel_none]> (Channels s) /\
      (ChannelsMask (LoRaMacParams s')).[0] = u16 (Z.ldiff (ChannelsMask (LoRaMacParams s)).[0] (Z.shiftl 1 id))))).
Proof.
  intros Hw HD Hid. split.
  - destruct (ChannelAdd_spec s id f dr Hw Hid) as (st & s' & E & Hw' & HD' & HP). eauto 8.
  - destruct (ChannelRemove_spec s id Hw Hid) as (st & s' & E & Hw' & HD' & HP). eauto 8.
Qed.

Lemma demo_default_ok : default_ok demo_mac.
Proof. intros [|[|[|i]]] Hi; [..|lia]; eexists; (split; [reflexivity|]);
    split_and!; by vm_compute. Qed.

Lemma channel_list_correct_witness :
  exists st s', @LoRaMacChannelAdd demo_driver 3 867100000 0x50 demo_mac = Done (st, s') /\ chan_wf s' /\ default_ok s'.
Proof.
  destruct (channel_list_correct demo_driver demo_mac 3 867100000 0x50) as [(st & s' & E & W & D & _) _].
  - apply demo_wf.
  - apply demo_default_ok.
  - lia.
  - exists st, s'. by split_and!.
Defined.

(** Datarate adaptation asks for an acknowledgement from the 64th uplink
    without answer on, lowers the datarate by one step exactly at the 96th and
    every 32nd uplink after it, never below the lowest, re-enables the default channels
    when it reaches the lowest, and changes no other parameter. *)
Theorem adr_backoff_correct s upd : LORAMAC_TX_MIN_DATARATE < ChannelsDatarate (LoRaMacParams s) ->
  exists req dr s', AdrNextDr true upd s = Done ((req, dr), s') /\
    (req = true <-> 64 <= AdrAckCounter s) /\ AdrAckCounter s' = AdrAckCounter s /\
    let step := (96 <=? AdrAckCounter s) && (AdrAckCounter s mod 32 =? 0) in
    dr = ChannelsDatarate (LoRaMacParams s) - b2z step /\ LORAMAC_TX_MIN_DATARATE <= dr /\
    LoRaMacParams s' = (if step && (dr =? 0) && upd then reenable_default (LoRaMacParams s) else LoRaMacParams s).
Proof.
  intros Hdr. unfold AdrNextDr, LORAMAC_TX_MIN_DATARATE, ADR_ACK_LIMIT, ADR_ACK_DELAY in *. cbn [negb].
  rewrite (proj2 (Z.eqb_neq _ 0)), (proj2 (Z.ltb_lt 0 _)) by lia. change (64 + 32) with 96.
  destruct ((96 <=? AdrAckCounter s) && (AdrAckCounter s mod 32 =? 0)) eqn:E; cbn [andb b2z].
  - eexists _, _, _. split; [done|]. split; [apply Z.leb_le|]. split; [by destruct (_ && upd)|].
    split; [done|]. split; [lia|]. by destruct (_ && upd).
  - eexists _, _, _. split; [done|]. split; [apply Z.leb_le|]. split_and!; try done; lia.
Qed.

Lemma adr_backoff_correct_witness :
  exists req dr s', AdrNextDr true true (demo_mac <| AdrAckCounter := 96 |>) = Done ((req, dr), s') /\ dr = 4.
Proof.
  destruct (adr_backoff_correct (demo_mac <| AdrAckCounter := 96 |>) true) as (q & d & s' & E & _ & _ & Hd & _);
    [cbn; unfold LORAMAC_TX_MIN_DATARATE; lia|].
  exists q, d, s'. split; [exact E|exact Hd].
Defined.

(** Eight channels of a 915 MHz mask: the low or the high half of a word. *)
Definition block_915 (mask : list Z) (k : Z) : Z :=
  Z.land mask.[k / 2] (if k mod 2 =? 0 then 0x00FF else 0xFF00).

Lemma validate_found n : forall i index mask, validate_blocks n i true index mask = (true, index, mask).
Proof.
  induction n as [|n IH]; intros i index mask; [done|]. cbn [validate_blocks negb].
  rewrite !andb_false_r. apply IH.
Qed.

Lemma block_915_even mask i : 0 <= i -> block_915 mask (2 * i) = Z.land mask.[i] 0x00FF.
Proof. intros. unfold block_915. replace (2 * i / 2) with i by lia. by replace (2 * i mod 2) with 0 by lia. Qed.

Lemma block_915_odd mask i : 0 <= i -> block_915 mask (2 * i + 1) = Z.land mask.[i] 0xFF00.
Proof.
  intros. unfold block_915. replace ((2 * i + 1) / 2) with i by lia. by replace ((2 * i + 1) mod 2) with 1 by lia.
Qed.

Lemma validate_blocks_spec mask n : forall i, 0 <= i -> Z.of_nat n + i = 4 ->
  match validate_blocks n i false 0 mask with
  | (false, _, mask') => mask' = mask /\ forall k, 2 * i <= k < 8 -> CountBits (block_915 mask k) 16 <= 5
  | (true, index, mask') => exists k, 2 * i <= k < 8 /\ 5 < CountBits (block_915 mask k) 16 /\
      (forall k', 2 * i <= k' < k -> CountBits (block_915 mask k') 16 <= 5) /\ index = k / 2 /\
      mask' = mask.[k / 2 := Z.land mask.[k / 2] (block_915 mask k)].[4 := Z.shiftl 1 k]
  end.
Proof.
  induction n as [|n IH]; intros i Hi Hn; [split; [done|lia]|]. cbn [validate_blocks negb].
  rewrite !andb_true_r, <- block_915_even, <- block_915_odd by done.
  destruct (Z.ltb_spec 5 (CountBits (block_915 mask (2 * i)) 16)) as [H1|H1].
  { rewrite validate_found. exists (2 * i). replace (2 * i / 2) with i by lia. rewrite (Z.mul_comm i 2).
    split_and!; try done; lia. }
  destruct (Z.ltb_spec 5 (CountBits (block_915 mask (2 * i + 1)) 16)) as [H2|H2].
  { rewrite validate_found. exists (2 * i + 1). replace ((2 * i + 1) / 2) with i by lia.
    rewrite (Z.mul_comm i 2). split_and!; try done; try lia.
    intros k' Hk'. replace k' with (2 * i) by lia. done. }
  specialize (IH (i + 1) ltac:(lia) ltac:(lia)).
  destruct (validate_blocks n (i + 1) false 0 mask) as [[[|] idx] mask'].
  - destruct IH as (k & Hk & H3 & H4 & H5). exists k. split_and!; try lia; try done; try apply H5.
    intros k' Hk'. destruct (decide (2 * (i + 1) <= k')); [apply H4; lia|].
    destruct (decide (k' = 2 * i)) as [->|]; [done|]. by replace k' with (2 * i + 1) by lia.
  - destruct IH as [-> H4]. split; [done|]. intros k' Hk'.
    destruct (decide (2 * (i + 1) <= k')); [apply H4; lia|].
    destruct (decide (k' = 2 * i)) as [->|]; [done|]. by replace k' with (2 * i + 1) by lia.
Qed.

Lemma clear_others_spec (m : list Z) index : length m = 6%nat -> 0 <= index < 4 ->
  let m' := clear_others 4 0 index m in
  m'.[index] = m.[index] /\ m'.[4] = m.[4] /\ m'.[5] = m.[5] /\
  forall i, 0 <= i < 4 -> i <> index -> m'.[i] = 0.
Proof.
  intros Hm Hi. explode m.
  assert (index = 0 \/ index = 1 \/ index = 2 \/ index = 3) as [->|[->|[->| ->]]] by lia; cbn zeta;
    (split_and!; [done|done|done|]); intros i Hi1 Hi2;
    assert (i = 0 \/ i = 1 \/ i = 2 \/ i = 3) as [->|[->|[->| ->]]] by lia; done.
Qed.

(** The 915 MHz hybrid mask check accepts a mask exactly when some block of
    eight channels has more than five enabled; the mask it leaves has that first
    block only, a subset of what was asked for, with its bit in word 4; a refused
    mask is unchanged. *)
Theorem validate_mask_915_correct mask : length mask = 6%nat ->
  match ValidateChannelMask mask with
  | (false, mask') => mask' = mask /\ forall k, 0 <= k < 8 -> CountBits (block_915 mask k) 16 <= 5
  | (true, mask') => exists k, 0 <= k < 8 /\ 5 < CountBits (block_915 mask k) 16 /\
      (forall k', 0 <= k' < k -> CountBits (block_915 mask k') 16 <= 5) /\
      mask'.[k / 2] = Z.land mask.[k / 2] (block_915 mask k) /\ mask'.[4] = Z.shiftl 1 k /\
      mask'.[5] = mask.[5] /\ forall i, 0 <= i < 4 -> i <> k / 2 -> mask'.[i] = 0
  end.
Proof.
  intros HL. unfold ValidateChannelMask.
  pose proof (validate_blocks_spec mask 4 0 ltac:(lia) ltac:(lia)) as H.
  destruct (validate_blocks 4 0 false 0 mask) as [[[|] idx] mask']; [|done].
  destruct H as (k & Hk & H1 & H2 & -> & ->). exists k.
  set (m := mask.[_ := _].[_ := _]).
  assert (Hm : length m = 6%nat) by (unfold m; by rewrite !zupd_length).
  destruct (clear_others_spec m (k / 2) Hm ltac:(lia)) as (C1 & C2 & C3 & C4).
  rewrite C1, C2, C3. split_and!; try done; try lia.
  - unfold m. rewrite znth_zupd_ne by lia. apply znth_zupd_eq. lia.
  - unfold m. apply znth_zupd_eq. rewrite zupd_length. lia.
  - unfold m. by rewrite !znth_zupd_ne by lia.
Qed.

Definition demo_mask_915 : list Z := [0; 0xFF00; 0; 0; 0; 0].

Lemma validate_mask_915_correct_witness :
  exists k, 0 <= k < 8 /\ 5 < CountBits (block_915 demo_mask_915 k) 16 /\
    (ValidateChannelMask demo_mask_915).2.[4] = Z.shiftl 1 k.
Proof.
  destruct (validate_mask_915_correct demo_mask_915 eq_refl) as (k & Hk & Hc & _ & _ & H4 & _).
  exists k. split; [exact Hk|]. split; [exact Hc|exact H4].
Defined.

End MacChannels.
