(* ===== verification/Multicast.v ===== *)
(** The list of multicast groups of src/src/mac/LoRaMac.c: nodes owned by the
    application and linked through pointers.  The store of nodes is part of
    the MAC state, so that a node linked twice is one node. *)
From S2P Require Import Prelude Utilities Linked MacTypes.

Module Multicast.
Import MacTypes.

Abbreviation nodes := (gmap Z MulticastParams_t).

(** * The code *)

(** Bound on the walks: a list without repetition has at most that many nodes. *)
Definition walk_fuel (ns : nodes) : nat := S (size ns).

(** [while( cur->Next != NULL ) cur = cur->Next;] *)
Fixpoint walk_last (fuel : nat) (ns : nodes) (cur : Z) : run Z :=
  match fuel with
  | O => NoFuel
  | S fuel' =>
      match ns !! cur with
      | None => Undef
      | Some n => match mp_Next n with None => Done cur | Some next => walk_last fuel' ns next end
      end
  end.

Definition LoRaMacMulticastChannelLink (channelParam : option Z) : M LoRaMacStatus_t := fun s =>
  match channelParam with
  | None => Done (LORAMAC_STATUS_PARAMETER_INVALID, s)
  | Some p =>
      if state_has MAC_TX_RUNNING s then Done (LORAMAC_STATUS_BUSY, s)
      else
        match MulticastNodes s !! p with
        | None => Undef
        | Some n =>
            let ns := <[p := n <| mp_DownLinkCounter := 0 |>]> (MulticastNodes s) in
            match MulticastChannels s with
            | None => Done (LORAMAC_STATUS_OK, s <| MulticastNodes := ns |> <| MulticastChannels := Some p |>)
            | Some head =>
                let* last := walk_last (walk_fuel ns) ns head in
                match ns !! last with
                | None => Undef
                | Some l => Done (LORAMAC_STATUS_OK,
                    s <| MulticastNodes := <[last := l <| mp_Next := Some p |>]> ns |>)
                end
            end
        end
  end.

(** [while( cur->Next && cur->Next != channelParam ) cur = cur->Next;] *)
Fixpoint walk_before (fuel : nat) (ns : nodes) (cur p : Z) : run Z :=
  match fuel with
  | O => NoFuel
  | S fuel' =>
      match ns !! cur with
      | None => Undef
      | Some n =>
          match mp_Next n with
          | None => Done cur
          | Some next => if next =? p then Done cur else walk_before fuel' ns next p
          end
      end
  end.

(** [ptr->Next = q] *)
Definition set_next (ns : nodes) (ptr : Z) (q : option Z) : run nodes :=
  match ns !! ptr with
  | None => Undef
  | Some n => Done (<[ptr := n <| mp_Next := q |>]> ns)
  end.

Definition next_of (ns : nodes) (ptr : Z) : run (option Z) :=
  match ns !! ptr with None => Undef | Some n => Done (mp_Next n) end.

Definition LoRaMacMulticastChannelUnlink (channelParam : option Z) : M LoRaMacStatus_t := fun s =>
  match channelParam with
  | None => Done (LORAMAC_STATUS_PARAMETER_INVALID, s)
  | Some p =>
      if state_has MAC_TX_RUNNING s then Done (LORAMAC_STATUS_BUSY, s)
      else
        let ns := MulticastNodes s in
        match MulticastChannels s with
        | None => Done (LORAMAC_STATUS_OK, s)
        | Some head =>
            let* (ns, head') :=
              (if head =? p then let* q := next_of ns p in Done (ns, q)
               else
                 let* cur := walk_before (walk_fuel ns) ns head p in
                 let* q := next_of ns cur in
                 match q with
                 | None => Done (ns, Some head)
                 | Some _ => let* q' := next_of ns p in
                             let* ns := set_next ns cur q' in Done (ns, Some head)
                 end) in
            let* ns := set_next ns p None in
            Done (LORAMAC_STATUS_OK, s <| MulticastNodes := ns |> <| MulticastChannels := head' |>)
        end
  end.

(** The search of [OnRadioRxDone] for the group of an address. *)
Fixpoint find_group (fuel : nat) (ns : nodes) (cur : option Z) (address : Z) : run (option Z) :=
  match cur with
  | None => Done None
  | Some p =>
      match fuel with
      | O => NoFuel
      | S fuel' =>
          match ns !! p with
          | None => Undef
          | Some n => if address =? mp_Address n then Done (Some p)
                      else find_group fuel' ns (mp_Next n) address
          end
      end
  end.

(** The loop of [ResetMacParameters] over the groups. *)
Fixpoint reset_counters (fuel : nat) (ns : nodes) (cur : option Z) : run nodes :=
  match cur with
  | None => Done ns
  | Some p =>
      match fuel with
      | O => NoFuel
      | S fuel' =>
          match ns !! p with
          | None => Undef
          | Some n => reset_counters fuel' (<[p := n <| mp_DownLinkCounter := 0 |>]> ns) (mp_Next n)
          end
      end
  end.

(** * Lists of pointers *)

(** The groups of the MAC are the nodes [l], in that order. *)
Definition groups (s : mac) (l : list Z) : Prop :=
  seg mp_Next (MulticastNodes s) (MulticastChannels s) l None /\ NoDup l.

Lemma walk_last_spec ns l : forall fuel x, seg mp_Next ns (Some x) (x :: l) None -> (length l < fuel)%nat ->
  exists y l0, x :: l = l0 ++ [y] /\ walk_last fuel ns x = Done y.
Proof.
  induction l as [|z l IH]; intros fuel x [_ (n & Hn & Hs)] Hf; (destruct fuel as [|fuel]; [simpl in Hf; lia|]);
    cbn [walk_last]; rewrite Hn.
  - cbn [seg] in Hs. rewrite Hs. by exists x, [].
  - destruct Hs as [Hz Hs]. rewrite Hz.
    destruct (IH fuel z) as (y & l0 & El & Ew); [by split|simpl in Hf; lia|].
    exists y, (x :: l0). rewrite El. done.
Qed.

Lemma find_group_spec ns address l : forall fuel p, seg mp_Next ns p l None -> (length l <= fuel)%nat ->
  exists r, find_group fuel ns p address = Done r /\
    match r with
    | Some x => x ∈ l /\ exists n, ns !! x = Some n /\ mp_Address n = address
    | None => forall x n, x ∈ l -> ns !! x = Some n -> mp_Address n <> address
    end.
Proof.
  induction l as [|x l IH]; intros fuel p Hs Hf.
  - cbn [seg] in Hs. subst p. exists None. split; [by destruct fuel|]. intros x n Hx. by apply elem_of_nil in Hx.
  - destruct Hs as [-> (n & Hn & Hs)]. destruct fuel as [|fuel]; [simpl in Hf; lia|].
    cbn [find_group]. rewrite Hn. destruct (Z.eqb_spec address (mp_Address n)) as [->|Hne].
    + exists (Some x). split; [done|]. split; [by left|]. by exists n.
    + destruct (IH fuel (mp_Next n) Hs) as (r & Er & Hr); [simpl in Hf; lia|]. exists r. split; [done|].
      destruct r as [y|].
      * destruct Hr as [Hy Hr]. split; [by right|done].
      * intros y n' Hy Hn'. apply elem_of_cons in Hy as [->|Hy]; [congruence|by eapply Hr].
Qed.

Lemma reset_counters_spec l : forall fuel ns p, seg mp_Next ns p l None -> NoDup l -> (length l <= fuel)%nat ->
  exists ns', reset_counters fuel ns p = Done ns' /\
    forall y, ns' !! y = (if decide (y ∈ l) then (fun n => n <| mp_DownLinkCounter := 0 |>) <$> ns !! y else ns !! y).
Proof.
  induction l as [|x l IH]; intros fuel ns p Hs Hnd Hf.
  - cbn [seg] in Hs. subst p. exists ns. split; [by destruct fuel|]. intros y.
    rewrite decide_False; [done|]. apply not_elem_of_nil.
  - destruct Hs as [-> (n & Hn & Hs)]. destruct fuel as [|fuel]; [simpl in Hf; lia|].
    apply NoDup_cons in Hnd as [Hx Hnd]. cbn [reset_counters]. rewrite Hn.
    destruct (IH fuel (<[x := n <| mp_DownLinkCounter := 0 |>]> ns) (mp_Next n)) as (ns' & -> & H');
      [|done|simpl in Hf; lia|].
    { eapply seg_frame; [|exact Hs]. intros y Hy. rewrite lookup_insert_ne; [done|]. by intros ->. }
    exists ns'. split; [done|]. intros y. rewrite H'. destruct (decide (y = x)) as [->|Hne].
    + rewrite decide_False by done. rewrite decide_True by (by left). by rewrite lookup_insert_eq, Hn.
    + rewrite lookup_insert_ne by done. destruct (decide (y ∈ l)) as [Hy|Hy].
      * by rewrite decide_True by (by right).
      * rewrite decide_False; [done|]. intros [?|?]%elem_of_cons; done.
Qed.

(** What a link or an unlink returns on the nodes [l]. *)
Lemma link_spec s l p n : groups s l -> state_has MAC_TX_RUNNING s = false ->
  MulticastNodes s !! p = Some n -> mp_Next n = None -> p ∉ l ->
  exists s', LoRaMacMulticastChannelLink (Some p) s = Done (LORAMAC_STATUS_OK, s') /\ groups s' (l ++ [p]) /\
    exists n', MulticastNodes s' !! p = Some n' /\ mp_DownLinkCounter n' = 0 /\ mp_Address n' = mp_Address n.
Proof.
  intros [Hs Hnd] Hrun Hn Hnx Hp. unfold LoRaMacMulticastChannelLink. rewrite Hrun, Hn.
  set (ns := <[p := _]> (MulticastNodes s)).
  assert (Hs1 : seg mp_Next ns (MulticastChannels s) l None).
  { eapply seg_frame; [|exact Hs]. intros y Hy. unfold ns. rewrite lookup_insert_ne; [done|]. by intros ->. }
  assert (Hnd2 : NoDup (l ++ [p])).
  { apply NoDup_app. split_and!; [done| |apply NoDup_singleton]. intros x Hx ->%list_elem_of_singleton. done. }
  assert (Hp1 : seg mp_Next ns (Some p) [p] None).
  { split; [done|]. eexists. split; [apply lookup_insert_eq|]. done. }
  destruct l as [|h l].
  - cbn [seg] in Hs1. rewrite Hs1. eexists. split; [done|]. split; [by split|].
    eexists. split; [apply lookup_insert_eq|done].
  - pose proof Hs1 as [Hh _]. rewrite Hh in *.
    destruct (walk_last_spec ns l (walk_fuel ns) h Hs1) as (y & l0 & El & Ew).
    { pose proof (seg_size ns (h :: l) _ _ Hs1 Hnd). unfold walk_fuel. simpl in *. lia. }
    rewrite Ew. cbn [rbind]. rewrite El in *.
    apply seg_app in Hs1 as (r & Hs1 & Hs2). pose proof Hs2 as [-> (ny & Hny & Hny0)]. cbn [seg] in Hny0.
    rewrite Hny. eexists. split; [done|]. cbn [update MulticastNodes MulticastChannels].
    apply NoDup_app in Hnd as (Hnd0 & Hdis & _).
    assert (Hyp : y <> p) by (intros ->; apply Hp, elem_of_app; right; by apply list_elem_of_singleton).
    split.
    + split; [|done]. cbn [update MulticastNodes MulticastChannels]. rewrite Hh.
      rewrite <- app_assoc. apply seg_app. exists (Some y). split.
      * eapply seg_frame; [|exact Hs1]. intros z Hz. rewrite lookup_insert_ne; [done|].
        intros ->. apply (Hdis z Hz). by apply list_elem_of_singleton.
      * cbn [app seg]. split; [done|]. eexists. split; [apply lookup_insert_eq|]. cbn [update mp_Next].
        apply (seg_frame ns _ [p] (Some p) None); [|exact Hp1]. intros z ->%list_elem_of_singleton. by rewrite lookup_insert_ne.
    + eexists. rewrite lookup_insert_ne by done. split; [apply lookup_insert_eq|done].
Qed.

Lemma walk_before_spec ns p l : forall fuel x, seg mp_Next ns (Some x) (x :: l) None -> (length l < fuel)%nat ->
  exists y l1 l2, x :: l = l1 ++ y :: l2 /\ walk_before fuel ns x p = Done y /\ ~ (p ∈ tail (l1 ++ [y])) /\
    (l2 = [] \/ exists l3, l2 = p :: l3).
Proof.
  induction l as [|z l IH]; intros fuel x [_ (n & Hn & Hs)] Hf; (destruct fuel as [|fuel]; [simpl in Hf; lia|]);
    cbn [walk_before]; rewrite Hn.
  - cbn [seg] in Hs. rewrite Hs. exists x, [], []. split_and!; [done|done|apply not_elem_of_nil|by left].
  - destruct Hs as [Hz Hs]. rewrite Hz. destruct (Z.eqb_spec z p) as [->|Hne].
    + exists x, [], (p :: l). split_and!; [done|done|apply not_elem_of_nil|right; by exists l].
    + destruct (IH fuel z) as (y & l1 & l2 & El & Ew & Hp & H2); [by split|simpl in Hf; lia|].
      exists y, (x :: l1), l2. rewrite El. split_and!; [done|done| |done]. cbn [app tail].
      destruct l1 as [|z' l1]; cbn [app tail] in *.
      * intros ->%list_elem_of_singleton. simplify_eq.
      * simplify_eq. intros [?|?]%elem_of_cons; done.
Qed.

Lemma set_next_ok ns p n q : ns !! p = Some n -> set_next ns p q = Done (<[p := n <| mp_Next := q |>]> ns).
Proof. intros H. unfold set_next. by rewrite H. Qed.

Lemma next_of_ok ns p n : ns !! p = Some n -> next_of ns p = Done (mp_Next n).
Proof. intros H. unfold next_of. by rewrite H. Qed.

Lemma unlink_spec s l1 p l2 : groups s (l1 ++ p :: l2) -> state_has MAC_TX_RUNNING s = false ->
  exists s', LoRaMacMulticastChannelUnlink (Some p) s = Done (LORAMAC_STATUS_OK, s') /\ groups s' (l1 ++ l2) /\
    (mp_Next <$> MulticastNodes s' !! p) = Some None.
Proof.
  intros [Hs Hnd] Hrun. unfold LoRaMacMulticastChannelUnlink. rewrite Hrun.
  pose proof Hnd as Hnd0. apply NoDup_app in Hnd0 as (Hnd1 & Hdis & [Hp2 Hnd2]%NoDup_cons).
  assert (Hp1 : p ∉ l1) by (intros H; apply (Hdis p H); by left).
  assert (Hnd' : NoDup (l1 ++ l2)).
  { apply NoDup_app. split_and!; [done| |done]. intros x Hx1 Hx2. apply (Hdis x Hx1). by right. }
  pose proof Hs as Hs0. apply seg_app in Hs0 as (r & Hs1 & [-> (np & Hnp & Hs2)]).
  destruct l1 as [|h l1].
  - cbn [seg] in Hs1. rewrite Hs1, Z.eqb_refl. rewrite (next_of_ok _ p np) by done. cbn [rbind].
    rewrite (set_next_ok _ p np) by done. cbn [rbind]. eexists. split; [done|].
    split; [|cbn [update MulticastNodes]; by rewrite lookup_insert_eq].
    split; [|done]. cbn [update MulticastNodes MulticastChannels app]. eapply seg_frame; [|exact Hs2].
    intros y Hy. rewrite lookup_insert_ne; [done|]. by intros ->.
  - cbn [app] in Hs. pose proof Hs as [Hh _]. rewrite Hh in *.
    destruct (Z.eqb_spec h p) as [->|Hhp]; [by destruct Hp1; left|].
    destruct (walk_before_spec _ p (l1 ++ p :: l2) (walk_fuel (MulticastNodes s)) h Hs)
      as (y & k1 & k2 & Ek & Ew & Hk & Hk2).
    { pose proof (seg_size _ _ _ _ Hs Hnd). unfold walk_fuel. simpl in *. lia. }
    rewrite Ew. cbn [rbind].
    assert (Hsplit : k1 ++ [y] = h :: l1 /\ k2 = p :: l2).
    { destruct Hk2 as [->|(k3 & ->)].
      - exfalso. apply Hk. destruct k1 as [|z k1]; cbn [app tail] in *; simplify_eq.
        + by destruct l1.
        + rewrite <- H0. apply elem_of_app. right. by left.
      - assert (Ek' : (h :: l1) ++ p :: l2 = (k1 ++ [y]) ++ p :: k3) by (rewrite <- app_assoc; exact Ek).
        clear -Ek' Hp1 Hk Hnd. assert (Hp3 : p ∉ k1 ++ [y]).
        { intros Hin. rewrite Ek' in Hnd. apply NoDup_app in Hnd as (_ & H & _). apply (H p Hin). by left. }
        revert Ek' Hp1 Hp3. generalize (h :: l1) (k1 ++ [y]). clear. intros a.
        induction a as [|x a IH]; intros [|z b] E Ha Hb; cbn [app] in *; simplify_eq.
        + done.
        + by destruct Hb; left.
        + by destruct Ha; left.
        + destruct (IH b) as [-> ->]; try done; intros H; [apply Ha|apply Hb]; by right. }
    destruct Hsplit as [El1 ->].
    assert (Hyseg : seg mp_Next (MulticastNodes s) (Some h) ((k1 ++ [y]) ++ p :: l2) None) by (rewrite El1; exact Hs).
    rewrite <- app_assoc in Hyseg. apply seg_app in Hyseg as (r & Hk1 & [-> (ny & Hny & [Hnext _])]).
    rewrite (next_of_ok _ y ny), Hnext by done. cbn [rbind].
    rewrite (next_of_ok _ p np) by done. cbn [rbind]. rewrite (set_next_ok _ y ny) by done. cbn [rbind].
    assert (Hyp : y <> p).
    { intros ->. apply Hp1. rewrite <- El1. apply elem_of_app. right. by left. }
    rewrite (set_next_ok _ p np) by (by rewrite lookup_insert_ne). cbn [rbind]. eexists. split; [done|].
    split; [|cbn [update MulticastNodes]; by rewrite lookup_insert_eq].
    split; [|done]. cbn [update MulticastNodes MulticastChannels]. rewrite <- El1, <- app_assoc. apply seg_app.
    exists (Some y). rewrite <- El1 in Hnd1, Hp1. apply NoDup_app in Hnd1 as (_ & Hky & _). split.
    + eapply seg_frame; [|exact Hk1]. intros z Hz. rewrite !lookup_insert_ne; [done| |].
      * intros ->. apply (Hky z Hz). by left.
      * intros ->. apply Hp1, elem_of_app. by left.
    + cbn [app seg]. split; [done|]. eexists. rewrite lookup_insert_ne by done.
      split; [apply lookup_insert_eq|]. cbn [update mp_Next]. eapply seg_frame; [|exact Hs2].
      intros z Hz. rewrite !lookup_insert_ne; [done| |].
      * intros ->. apply (Hdis z); [|by right]. rewrite <- El1. apply elem_of_app. right. by left.
      * by intros ->.
Qed.

(** A store in which every node of [l] leads to a node of [l]: a search for an
    address none of them has does not end. *)
Lemma find_group_loops ns address (l : list Z) : forall fuel x, x ∈ l ->
  (forall y, y ∈ l -> exists n z, ns !! y = Some n /\ mp_Next n = Some z /\ z ∈ l /\ mp_Address n <> address) ->
  find_group fuel ns (Some x) address = NoFuel.
Proof.
  intros fuel. induction fuel as [|fuel IH]; intros x Hx Hl; [done|].
  destruct (Hl x Hx) as (n & z & Hn & Hz & Hzl & Ha). cbn [find_group]. rewrite Hn, Hz.
  destruct (Z.eqb_spec address (mp_Address n)); [congruence|]. by apply IH.
Qed.

Lemma seg_inner ns l : forall p q y, seg mp_Next ns p (l ++ [q]) None -> y ∈ l ->
  exists n z, ns !! y = Some n /\ mp_Next n = Some z /\ z ∈ l ++ [q].
Proof.
  induction l as [|x l IH]; intros p q y Hs Hy; [by apply elem_of_nil in Hy|].
  destruct Hs as [-> (n & Hn & Hs)]. apply elem_of_cons in Hy as [->|Hy].
  - exists n. destruct l as [|z l]; destruct Hs as [Hz _].
    + exists q. split_and!; [done|done|]. right. by left.
    + exists z. split_and!; [done|done|]. right. by left.
  - destruct (IH _ _ _ Hs Hy) as (n' & z & ? & ? & ?). exists n', z. split_and!; [done|done|by right].
Qed.

(** * Properties *)

(** With the groups [l] linked, linking a node that is not among them
    appends it with its counter reset, and unlinking a node removes that one
    node and clears its pointer; both return. *)
Theorem multicast_list_correct s l1 p l2 q n :
  groups s (l1 ++ p :: l2) -> state_has MAC_TX_RUNNING s = false ->
  MulticastNodes s !! q = Some n -> mp_Next n = None -> ~ (q ∈ l1 ++ p :: l2) ->
  (exists s', LoRaMacMulticastChannelLink (Some q) s = Done (LORAMAC_STATUS_OK, s') /\
    groups s' ((l1 ++ p :: l2) ++ [q]) /\
    exists n', MulticastNodes s' !! q = Some n' /\ mp_DownLinkCounter n' = 0 /\ mp_Address n' = mp_Address n) /\
  (exists s', LoRaMacMulticastChannelUnlink (Some p) s = Done (LORAMAC_STATUS_OK, s') /\
    groups s' (l1 ++ l2) /\ (mp_Next <$> MulticastNodes s' !! p) = Some None).
Proof.
  intros Hg Hr Hn Hnx Hq. split; [by eapply link_spec|by apply unlink_spec].
Qed.

(** Two groups linked, a third node in memory. *)
Definition demo_group (a : Z) (next : option Z) : MulticastParams_t :=
  mkMulticast a (replicate 16 0) (replicate 16 0) 5 next.
Definition demo_groups : mac :=
  demo_mac <| MulticastChannels := Some 10 |>
    <| MulticastNodes := <[10 := demo_group 1 (Some 20)]> (<[20 := demo_group 2 None]>
                           (<[30 := demo_group 3 None]> ∅)) |>.

Lemma demo_groups_ok : groups demo_groups [10; 20].
Proof.
  split.
  - split; [done|]. eexists. split; [by vm_compute|]. split; [done|]. eexists. split; [by vm_compute|done].
  - apply NoDup_cons. split; [by intros ?%list_elem_of_singleton|]. apply NoDup_singleton.
Qed.

Lemma multicast_list_correct_witness :
  exists s', LoRaMacMulticastChannelLink (Some 30) demo_groups = Done (LORAMAC_STATUS_OK, s') /\
    groups s' ([10; 20] ++ [30]).
Proof.
  destruct (multicast_list_correct demo_groups [10] 20 [] 30 (demo_group 3 None)) as [(s' & E & G & _) _].
  - apply demo_groups_ok.
  - reflexivity.
  - by vm_compute.
  - reflexivity.
  - cbn [app]. intros [?|[?|?%elem_of_nil]%elem_of_cons]%elem_of_cons; done.
  - exists s'. split; [exact E|exact G].
Defined.

(** Linking a group that is already in the list succeeds and makes the list
    cyclic: the search that follows every received frame for another address,
    one that no group has, then never ends, whatever its bound. *)
Theorem multicast_relink_loops s l p address :
  groups s l -> state_has MAC_TX_RUNNING s = false -> p ∈ l ->
  (forall y n, y ∈ l -> MulticastNodes s !! y = Some n -> mp_Address n <> address) ->
  exists s', LoRaMacMulticastChannelLink (Some p) s = Done (LORAMAC_STATUS_OK, s') /\
    forall fuel, find_group fuel (MulticastNodes s') (MulticastChannels s') address = NoFuel.
Proof.
  intros [Hs Hnd] Hrun Hp Ha. unfold LoRaMacMulticastChannelLink. rewrite Hrun.
  assert (exists n, MulticastNodes s !! p = Some n) as [n Hn].
  { apply elem_of_dom. by eapply seg_dom. }
  rewrite Hn. set (ns := <[p := _]> (MulticastNodes s)).
  assert (Hs1 : seg mp_Next ns (MulticastChannels s) l None).
  { eapply seg_frame; [|exact Hs]. intros y Hy. unfold ns.
    destruct (decide (y = p)) as [->|]; [by rewrite lookup_insert_eq, Hn|by rewrite lookup_insert_ne]. }
  assert (Hns : forall y n', y ∈ l -> ns !! y = Some n' -> mp_Address n' <> address).
  { intros y n' Hy. unfold ns. destruct (decide (y = p)) as [->|].
    - rewrite lookup_insert_eq. intros [= <-]. by apply (Ha p n).
    - rewrite lookup_insert_ne by done. by apply Ha. }
  destruct l as [|h l]; [by apply elem_of_nil in Hp|]. pose proof Hs1 as [Hh _]. rewrite Hh in *.
  destruct (walk_last_spec ns l (walk_fuel ns) h Hs1) as (y & l0 & El & Ew).
  { pose proof (seg_size ns (h :: l) _ _ Hs1 Hnd). unfold walk_fuel. simpl in *. lia. }
  rewrite Ew. cbn [rbind]. rewrite El in *. pose proof Hs1 as Hs2.
  apply seg_app in Hs2 as (r & _ & [-> (ny & Hny & _)]). rewrite Hny. eexists. split; [done|].
  cbn [update MulticastNodes MulticastChannels]. intros fuel. rewrite Hh.
  apply (find_group_loops _ address (l0 ++ [y])); [rewrite <- El; by left|].
  intros z Hz. destruct (decide (z = y)) as [->|Hzy].
  - eexists _, p. rewrite lookup_insert_eq. split_and!; [done|done|done|]. by apply (Hns y ny).
  - rewrite lookup_insert_ne by done. apply elem_of_app in Hz as Hz'. destruct Hz' as [Hz'| ->%list_elem_of_singleton]; [|done].
    destruct (seg_inner ns l0 _ y z Hs1 Hz') as (nz & w & Hnz & Hw & Hwl). exists nz, w.
    split_and!; try done. by apply (Hns z nz).
Qed.

Lemma multicast_relink_loops_witness :
  exists s', LoRaMacMulticastChannelLink (Some 10) demo_groups = Done (LORAMAC_STATUS_OK, s') /\
    forall fuel, find_group fuel (MulticastNodes s') (MulticastChannels s') 7 = NoFuel.
Proof.
  apply (multicast_relink_loops demo_groups [10; 20]).
  - apply demo_groups_ok.
  - reflexivity.
  - by left.
  - intros y n [->|[->|?%elem_of_nil]%elem_of_cons]%elem_of_cons; [| |done]; vm_compute; by intros [= <-].
Defined.

End Multicast.
