(* ===== verification/MacCommands.v ===== *)
(** MAC commands of src/src/mac/LoRaMac.c: the buffer of answers
    ([AddMacCommand]), the answers that are repeated until a downlink arrives
    ([ParseMacCommandsToRepeat]) and the interpreter of the commands of the network
    server ([ProcessMacCommands], one definition per command). *)
From S2P Require Import Prelude Utilities MacTypes MacChannels.

Module MacCommands.
Import MacTypes MacChannels.

(** * The buffer of answers *)

(** [MacCommandsBuffer[MacCommandsBufferIndex++] = b], for the bytes of a list. *)
Fixpoint push_bytes (l : list Z) : M unit :=
  match l with
  | [] => sret tt
  | b :: l' => fun s =>
      let* buf := wr (MacCommandsBuffer s) (MacCommandsBufferIndex s) b in
      push_bytes l' (s <| MacCommandsBuffer := buf |> <| MacCommandsBufferIndex ::= fun i => u8 (i + 1) |>)
  end.

(** The bytes of a command, [None] for an unknown one. *)
Definition command_bytes (cmd p1 p2 : Z) : option (list Z) :=
  if (cmd =? MOTE_MAC_LINK_CHECK_REQ) || (cmd =? MOTE_MAC_DUTY_CYCLE_ANS) || (cmd =? MOTE_MAC_RX_TIMING_SETUP_ANS)
  then Some [cmd]
  else if (cmd =? MOTE_MAC_LINK_ADR_ANS) || (cmd =? MOTE_MAC_RX_PARAM_SETUP_ANS) || (cmd =? MOTE_MAC_NEW_CHANNEL_ANS)
  then Some [cmd; p1]
  else if cmd =? MOTE_MAC_DEV_STATUS_ANS then Some [cmd; p1; p2]
  else None.

Definition AddMacCommand (cmd p1 p2 : Z) : M LoRaMacStatus_t := fun s =>
  let bufLen := u8 (LORA_MAC_COMMAND_MAX_LENGTH - MacCommandsBufferToRepeatIndex s) in
  match command_bytes cmd p1 p2 with
  | None => Done (LORAMAC_STATUS_SERVICE_UNKNOWN, s)
  | Some l =>
      if MacCommandsBufferIndex s <? bufLen - (zlen l - 1) then
        let* (_, s) := push_bytes l s in
        Done (LORAMAC_STATUS_OK, s <| MacCommandsInNextTx := true |>)
      else Done (LORAMAC_STATUS_BUSY, s)
  end.

(** The loop of [ParseMacCommandsToRepeat]: [cmdCount] and the output buffer. *)
Fixpoint parse_repeat (fuel : nat) (cmdBufIn : list Z) (length i cmdCount : Z) (out : list Z)
  : run (Z * list Z) :=
  match fuel with
  | O => NoFuel
  | S fuel' =>
      if i <? length then
        let* c := rd cmdBufIn i in
        if c =? MOTE_MAC_RX_PARAM_SETUP_ANS then
          let* out := wr out cmdCount c in
          let* b := rd cmdBufIn (i + 1) in
          let* out := wr out (cmdCount + 1) b in
          let* b := rd cmdBufIn (i + 2) in
          let* out := wr out (cmdCount + 2) b in
          parse_repeat fuel' cmdBufIn length (u8 (i + 3)) (u8 (cmdCount + 3)) out
        else if c =? MOTE_MAC_RX_TIMING_SETUP_ANS then
          let* out := wr out cmdCount c in
          parse_repeat fuel' cmdBufIn length (u8 (i + 1)) (u8 (cmdCount + 1)) out
        else parse_repeat fuel' cmdBufIn length (u8 (i + 1)) cmdCount out
      else Done (cmdCount, out)
  end.

Definition ParseMacCommandsToRepeat (cmdBufIn : list Z) (length : Z) (cmdBufOut : list Z) : run (Z * list Z) :=
  parse_repeat (S (Z.to_nat length)) cmdBufIn length 0 0 cmdBufOut.

(** * The interpreter

    Each command reads its parameters from [payload] at the byte-wide index
    [macIndex], which it returns advanced. *)

(** [payload[macIndex++]] *)
Definition next_byte (payload : list Z) (macIndex : Z) : run (Z * Z) :=
  let* b := rd payload macIndex in Done (b, u8 (macIndex + 1)).

(** Three bytes, least significant first, in units of 100 Hz. *)
Definition next_freq (payload : list Z) (macIndex : Z) : run (Z * Z) :=
  let* (b0, macIndex) := next_byte payload macIndex in
  let* (b1, macIndex) := next_byte payload macIndex in
  let* (b2, macIndex) := next_byte payload macIndex in
  Done (u32 (Z.lor (Z.lor b0 (Z.shiftl b1 8)) (Z.shiftl b2 16) * 100), macIndex).

Section Commands.
Context {RD : RadioDriver}.

Definition link_check_ans (payload : list Z) (macIndex : Z) : M Z := fun s =>
  let* (margin, macIndex) := next_byte payload macIndex in
  let* (gateways, macIndex) := next_byte payload macIndex in
  Done (macIndex, s <| MlmeConfirm ::= fun c =>
    c <| ml_Status := LORAMAC_EVENT_INFO_STATUS_OK |> <| ml_DemodMargin := margin |> <| ml_NbGateways := gateways |> |>).

(** The loop over the channels: with control 6 every defined channel is
    added to the mask, else a mask bit of an undefined channel refuses the mask. *)
Fixpoint adr_mask_loop (chs : list ChannelParams_t) (i chMaskCntl chMask status : Z) : Z * Z :=
  match chs with
  | [] => (chMask, status)
  | c :: chs' =>
      if chMaskCntl =? 6 then
        adr_mask_loop chs' (i + 1) chMaskCntl
          (if negb (Frequency c =? 0) then u16 (Z.lor chMask (Z.shiftl 1 i)) else chMask) status
      else
        adr_mask_loop chs' (i + 1) chMaskCntl chMask
          (if negb (Z.land chMask (Z.shiftl 1 i) =? 0) && (Frequency c =? 0) then Z.land status 0xFE else status)
  end.

(** The new channel mask and the status after the mask checks. *)
Definition adr_mask (s : mac) (chMaskCntl chMask : Z) : list Z * Z :=
  let channelsMask := ChannelsMask (LoRaMacParams s) in
  if (chMaskCntl =? 0) && (chMask =? 0) then (channelsMask, Z.land 0x07 0xFE)
  else if ((1 <=? chMaskCntl) && (chMaskCntl <=? 5)) || (7 <=? chMaskCntl)
  then (channelsMask, Z.land 0x07 0xFE)
  else
    let '(chMask, status) := adr_mask_loop (Channels s) 0 chMaskCntl chMask 0x07 in
    (channelsMask.[0 := chMask], status).

Definition link_adr_req (payload : list Z) (macIndex : Z) : M Z := fun s =>
  let* (b, macIndex) := next_byte payload macIndex in
  let txPower := Z.land b 0x0F in
  let datarate := Z.land (Z.shiftr b 4) 0x0F in
  if negb (AdrCtrlOn s) && (negb (ChannelsDatarate (LoRaMacParams s) =? datarate)
                            || negb (ChannelsTxPower (LoRaMacParams s) =? txPower)) then
    let* (_, s) := AddMacCommand MOTE_MAC_LINK_ADR_ANS 0 0 s in
    Done (u8 (macIndex + 3), s)
  else
    let* (m0, macIndex) := next_byte payload macIndex in
    let* (m1, macIndex) := next_byte payload macIndex in
    let chMask := Z.lor m0 (Z.shiftl m1 8) in
    let* (r, macIndex) := next_byte payload macIndex in
    let chMaskCntl := Z.land (Z.shiftr r 4) 0x07 in
    let nbRep := if Z.land r 0x0F =? 0 then 1 else Z.land r 0x0F in
    let '(channelsMask, status) := adr_mask s chMaskCntl chMask in
    let status := if ValueInRange datarate LORAMAC_TX_MIN_DATARATE LORAMAC_TX_MAX_DATARATE
                  then status else Z.land status 0xFD in
    let status := if ValueInRange txPower LORAMAC_MAX_TX_POWER LORAMAC_MIN_TX_POWER
                  then status else Z.land status 0xFB in
    let s := if Z.land status 0x07 =? 0x07 then
               s <| LoRaMacParams ::= fun p => p <| ChannelsDatarate := datarate |>
                 <| ChannelsTxPower := txPower |> <| ChannelsMask := channelsMask |> <| ChannelsNbRep := nbRep |> |>
             else s in
    let* (_, s) := AddMacCommand MOTE_MAC_LINK_ADR_ANS status 0 s in
    Done (macIndex, s).

(** [1 << MaxDCycle] on a 32-bit [int]: undefined from 32 on. *)
Definition duty_cycle_req (payload : list Z) (macIndex : Z) : M Z := fun s =>
  let* (d, macIndex) := next_byte payload macIndex in
  let* agg := (if d <? 32 then Done (u16 (Z.shiftl 1 d)) else Undef) in
  let s := s <| MaxDCycle := d |> <| AggregatedDCycle := agg |> in
  let* (_, s) := AddMacCommand MOTE_MAC_DUTY_CYCLE_ANS 0 0 s in
  Done (macIndex, s).

Definition rx_param_setup_req (payload : list Z) (macIndex : Z) : M Z := fun s =>
  let* (b, macIndex) := next_byte payload macIndex in
  let drOffset := Z.land (Z.shiftr b 4) 0x07 in
  let datarate := Z.land b 0x0F in
  let* (freq, macIndex) := next_freq payload macIndex in
  let status := if Rx2FreqInRange freq then 0x07 else Z.land 0x07 0xFE in
  let status := if ValueInRange datarate LORAMAC_RX_MIN_DATARATE LORAMAC_RX_MAX_DATARATE
                then status else Z.land status 0xFD in
  let status := if ValueInRange drOffset LORAMAC_MIN_RX1_DR_OFFSET LORAMAC_MAX_RX1_DR_OFFSET
                then status else Z.land status 0xFB in
  let s := if Z.land status 0x07 =? 0x07 then
             s <| LoRaMacParams ::= fun p => p <| Rx2Datarate := datarate |> <| Rx2Frequency := freq |>
               <| Rx1DrOffset := drOffset |> |>
           else s in
  let* (_, s) := AddMacCommand MOTE_MAC_RX_PARAM_SETUP_ANS status 0 s in
  Done (macIndex, s).

Definition dev_status_req (macIndex snr : Z) : M Z := fun s =>
  let batteryLevel := default BAT_LEVEL_NO_MEASURE GetBatteryLevel in
  let* (_, s) := AddMacCommand MOTE_MAC_DEV_STATUS_ANS batteryLevel snr s in
  Done (macIndex, s).

(** What the result of adding the channel makes of the status. *)
Definition new_channel_status (st : LoRaMacStatus_t) (status : Z) : Z :=
  match st with
  | LORAMAC_STATUS_OK => status
  | LORAMAC_STATUS_FREQUENCY_INVALID => Z.land status 0xFE
  | LORAMAC_STATUS_DATARATE_INVALID => Z.land status 0xFD
  | _ => Z.land status 0xFC
  end.

Definition new_channel_req (payload : list Z) (macIndex : Z) : M Z := fun s =>
  let* (b, macIndex) := next_byte payload macIndex in
  let channelIndex := s8 b in
  let* (freq, macIndex) := next_freq payload macIndex in
  let* (dr, macIndex) := next_byte payload macIndex in
  let* (_, s) := state_set MAC_TX_CONFIG s in
  let* (status, s) :=
    (if freq =? 0 then
       if channelIndex <? 3 then Done (Z.land 0x03 0xFC, s)
       else
         let* (st, s) := LoRaMacChannelRemove (u8 channelIndex) s in
         Done (if decide (st = LORAMAC_STATUS_OK) then 0x03 else Z.land 0x03 0xFC, s)
     else
       let* (st, s) := LoRaMacChannelAdd (u8 channelIndex) freq dr s in
       Done (new_channel_status st 0x03, s)) in
  let* (_, s) := state_clear MAC_TX_CONFIG s in
  let* (_, s) := AddMacCommand MOTE_MAC_NEW_CHANNEL_ANS status 0 s in
  Done (macIndex, s).

Definition rx_timing_setup_req (payload : list Z) (macIndex : Z) : M Z := fun s =>
  let* (b, macIndex) := next_byte payload macIndex in
  let delay := if Z.land b 0x0F =? 0 then 1 else Z.land b 0x0F in
  let s := s <| LoRaMacParams ::= fun p => p <| ReceiveDelay1 := delay * 1000 |>
             <| ReceiveDelay2 := delay * 1000 + 1000 |> |> in
  let* (_, s) := AddMacCommand MOTE_MAC_RX_TIMING_SETUP_ANS 0 0 s in
  Done (macIndex, s).

(** One command; [None] for an unknown one, which ends the processing. *)
Definition process_command (payload : list Z) (cmd macIndex snr : Z) : option (M Z) :=
  if cmd =? SRV_MAC_LINK_CHECK_ANS then Some (link_check_ans payload macIndex)
  else if cmd =? SRV_MAC_LINK_ADR_REQ then Some (link_adr_req payload macIndex)
  else if cmd =? SRV_MAC_DUTY_CYCLE_REQ then Some (duty_cycle_req payload macIndex)
  else if cmd =? SRV_MAC_RX_PARAM_SETUP_REQ then Some (rx_param_setup_req payload macIndex)
  else if cmd =? SRV_MAC_DEV_STATUS_REQ then Some (dev_status_req macIndex snr)
  else if cmd =? SRV_MAC_NEW_CHANNEL_REQ then Some (new_channel_req payload macIndex)
  else if cmd =? SRV_MAC_RX_TIMING_SETUP_REQ then Some (rx_timing_setup_req payload macIndex)
  else None.

Fixpoint process_loop (fuel : nat) (payload : list Z) (macIndex commandsSize snr : Z) : M unit := fun s =>
  match fuel with
  | O => NoFuel
  | S fuel' =>
      if macIndex <? commandsSize then
        let* (cmd, macIndex) := next_byte payload macIndex in
        match process_command payload cmd macIndex snr with
        | None => Done (tt, s)
        | Some m => let* (macIndex, s) := m s in process_loop fuel' payload macIndex commandsSize snr s
        end
      else Done (tt, s)
  end.

(** Every command advances the index, so 256 rounds are enough while the index does not wrap. *)
Definition ProcessMacCommands (payload : list Z) (macIndex commandsSize snr : Z) : M unit :=
  process_loop 256 payload (u8 macIndex) (u8 commandsSize) (u8 snr).

End Commands.

(** * Invariants *)

(** The answers to send and the ones to repeat fit in one buffer together. *)
Record cmd_wf (s : mac) : Prop := mkCmdWf {
  mw_buf : length (MacCommandsBuffer s) = 15%nat;
  mw_rep : length (MacCommandsBufferToRepeat s) = 15%nat;
  mw_index : 0 <= MacCommandsBufferIndex s;
  mw_rindex : 0 <= MacCommandsBufferToRepeatIndex s;
  mw_room : MacCommandsBufferIndex s + MacCommandsBufferToRepeatIndex s <= 15;
}.

(** The parameters the server may set are in the ranges of the region. *)
Record param_wf (p : LoRaMacParams_t) : Prop := mkParamWf {
  pw_dr : 0 <= ChannelsDatarate p <= 7;
  pw_power : 0 <= ChannelsTxPower p <= 5;
  pw_rep : 1 <= ChannelsNbRep p <= 15;
  pw_off : 0 <= Rx1DrOffset p <= 7;
  pw_rx2 : 0 <= Rx2Datarate p <= 15;
  pw_delay : 0 <= ReceiveDelay1 p /\ 0 <= ReceiveDelay2 p;
}.

Record mac_inv (s : mac) : Prop := mkInv {
  mi_cmd : cmd_wf s;
  mi_chan : chan_wf s;
  mi_default : default_ok s;
  mi_param : param_wf (LoRaMacParams s);
}.

(** The fields the invariant of the MAC is about. *)
Definition inv_view (s : mac) :=
  (MacCommandsBuffer s, MacCommandsBufferToRepeat s, MacCommandsBufferIndex s, MacCommandsBufferToRepeatIndex s,
   Channels s, Bands s, LoRaMacParams s, AggregatedTimeOff s, LoRaMacParamsDefaults s).

Lemma mac_inv_ext s s' : inv_view s' = inv_view s -> mac_inv s -> mac_inv s'.
Proof.
  unfold inv_view. intros [= E1 E2 E3 E4 E5 E6 E7 E8 E9] [[] [] Hd Hp].
  split; [split; congruence|split; congruence| |by rewrite E7].
  unfold default_ok in *. by rewrite E5, E9.
Qed.

(** The security context and the frame counters are the same. *)
Definition same_session (s s' : mac) : Prop :=
  LoRaMacDevAddr s' = LoRaMacDevAddr s /\ LoRaMacNwkSKey s' = LoRaMacNwkSKey s /\
  LoRaMacAppSKey s' = LoRaMacAppSKey s /\ UpLinkCounter s' = UpLinkCounter s /\
  DownLinkCounter s' = DownLinkCounter s /\ IsLoRaMacNetworkJoined s' = IsLoRaMacNetworkJoined s /\
  MulticastNodes s' = MulticastNodes s /\ MulticastChannels s' = MulticastChannels s /\
  LoRaMacRxPayload s' = LoRaMacRxPayload s /\ McpsIndication s' = McpsIndication s /\
  LoRaMacFlags s' = LoRaMacFlags s /\ trace s' = trace s /\ LoRaMacDeviceClass s' = LoRaMacDeviceClass s /\
  RxSlot s' = RxSlot s /\ NodeAckRequested s' = NodeAckRequested s /\ SrvAckRequested s' = SrvAckRequested s /\
  LoRaMacParamsDefaults s' = LoRaMacParamsDefaults s.

Lemma same_session_refl s : same_session s s.
Proof. by repeat split. Qed.

Lemma same_session_trans s1 s2 s3 : same_session s1 s2 -> same_session s2 s3 -> same_session s1 s3.
Proof.
  unfold same_session. intros H1 H2. decompose [and] H1. decompose [and] H2. split_and!; congruence.
Qed.
#[local] Hint Resolve same_session_refl : core.

(** * The buffer of answers *)

(** The pending answers. *)
Definition pending (s : mac) : list Z := take (Z.to_nat (MacCommandsBufferIndex s)) (MacCommandsBuffer s).

Lemma push_bytes_spec l : forall s, length (MacCommandsBuffer s) = 15%nat -> 0 <= MacCommandsBufferIndex s ->
  MacCommandsBufferIndex s + zlen l <= 15 ->
  exists s', push_bytes l s = Done (tt, s') /\ pending s' = pending s ++ l /\
    length (MacCommandsBuffer s') = 15%nat /\ MacCommandsBufferIndex s' = MacCommandsBufferIndex s + zlen l /\
    MacCommandsBufferToRepeat s' = MacCommandsBufferToRepeat s /\
    MacCommandsBufferToRepeatIndex s' = MacCommandsBufferToRepeatIndex s /\
    Channels s' = Channels s /\ Bands s' = Bands s /\ LoRaMacParams s' = LoRaMacParams s /\
    AggregatedTimeOff s' = AggregatedTimeOff s /\ same_session s s'.
Proof.
  induction l as [|b l IH]; intros s HL H0 Hn; cbn [push_bytes].
  - exists s. rewrite app_nil_r. split_and!; try done. simpl. lia.
  - rewrite wr_ok by (cbn [length] in *; lia). cbn [rbind].
    set (s1 := s <| MacCommandsBuffer := _ |> <| MacCommandsBufferIndex ::= _ |>).
    cbn [length] in Hn.
    assert (Hi : MacCommandsBufferIndex s1 = MacCommandsBufferIndex s + 1).
    { unfold s1. cbn [update MacCommandsBufferIndex]. unfold u8. lia. }
    destruct (IH s1) as (s' & E & Hp & HL' & HI & HR & HRI & HC & HB & HP & HA & HS).
    + unfold s1. cbn [update MacCommandsBuffer]. by rewrite length_insert.
    + lia.
    + lia.
    + exists s'. split_and!; try done; [|rewrite HI, Hi; cbn [length]; lia].
      rewrite Hp. replace (b :: l) with ([b] ++ l) by done. rewrite app_assoc. f_equal.
      unfold pending. rewrite Hi. unfold s1. cbn [update MacCommandsBuffer].
      replace (Z.to_nat (MacCommandsBufferIndex s + 1)) with (S (Z.to_nat (MacCommandsBufferIndex s))) by lia.
      rewrite (take_S_r _ _ b) by (apply list_lookup_insert_eq; lia). by rewrite take_insert_ge by lia.
Qed.

Lemma command_bytes_length cmd p1 p2 l : command_bytes cmd p1 p2 = Some l -> 1 <= zlen l <= 3.
Proof. unfold command_bytes. repeat case_match; intros [= <-]; simpl; lia. Qed.

Lemma AddMacCommand_spec s cmd p1 p2 : cmd_wf s ->
  exists st s', AddMacCommand cmd p1 p2 s = Done (st, s') /\ cmd_wf s' /\
    Channels s' = Channels s /\ Bands s' = Bands s /\ LoRaMacParams s' = LoRaMacParams s /\
    AggregatedTimeOff s' = AggregatedTimeOff s /\ same_session s s' /\
    match command_bytes cmd p1 p2 with
    | None => st = LORAMAC_STATUS_SERVICE_UNKNOWN /\ s' = s
    | Some l =>
        if decide (zlen l + MacCommandsBufferIndex s + MacCommandsBufferToRepeatIndex s <= 15)
        then st = LORAMAC_STATUS_OK /\ pending s' = pending s ++ l /\ MacCommandsInNextTx s' = true
        else st = LORAMAC_STATUS_BUSY /\ s' = s
    end.
Proof.
  intros Hw. pose proof Hw as [W1 W2 W3 W4 W5]. unfold AddMacCommand, LORA_MAC_COMMAND_MAX_LENGTH.
  rewrite u8_id by (unfold is_u8; lia).
  destruct (command_bytes cmd p1 p2) as [l|] eqn:El; [|by eexists _, _; split_and!].
  pose proof (command_bytes_length _ _ _ _ El) as Hl.
  destruct (Z.ltb_spec (MacCommandsBufferIndex s) (15 - MacCommandsBufferToRepeatIndex s - (zlen l - 1))) as [H|H].
  - destruct (push_bytes_spec l s) as (s' & -> & Hp & HL & HI & HR & HRI & HC & HB & HP & HA & HS); [done|lia|lia|].
    cbn [rbind]. eexists _, _. split; [done|]. cbv beta iota. rewrite decide_True by lia.
    split_and!; try done. split; cbn [update MacCommandsBuffer MacCommandsBufferToRepeat MacCommandsBufferIndex
      MacCommandsBufferToRepeatIndex]; try lia; congruence.
  - eexists _, _. split; [done|]. cbv beta iota. rewrite decide_False by lia. by split_and!.
Qed.

(** Adding an answer keeps the invariant of the MAC. *)
Lemma AddMacCommand_inv s cmd p1 p2 : mac_inv s ->
  exists st s', AddMacCommand cmd p1 p2 s = Done (st, s') /\ mac_inv s' /\ same_session s s'.
Proof.
  intros [Hc [C1 C2 C3 C4 C5 C6] Hd Hp].
  destruct (AddMacCommand_spec s cmd p1 p2 Hc) as (st & s' & E & Hc' & HC & HB & HP & HA & HS & _).
  exists st, s'. split; [done|]. split; [|done]. split; [done| | |rewrite HP; exact Hp].
  - split; congruence.
  - intros i Hi. rewrite HC. destruct (Hd i Hi) as (ch & H1 & H2 & H3). exists ch.
    destruct HS as (_ & _ & _ & _ & _ & _ & _ & _ & _ & _ & _ & _ & _ & _ & _ & _ & HD). by rewrite HD.
Qed.

(** * The commands *)

Lemma next_byte_ok payload i : bytes payload -> 0 <= i < zlen payload -> i < 255 ->
  exists b, next_byte payload i = Done (b, i + 1) /\ is_u8 b /\ payload !! Z.to_nat i = Some b.
Proof.
  intros Hb Hi Hlt. unfold next_byte. destruct (rd_ok payload i Hi) as (b & -> & Hl). cbn [rbind].
  exists b. rewrite u8_id by (unfold is_u8; lia). split; [done|]. split; [|done].
  eapply (proj1 (Forall_forall _ _) Hb), list_elem_of_lookup_2, Hl.
Qed.

Lemma next_freq_ok payload i : bytes payload -> 0 <= i -> i + 3 <= zlen payload -> i + 2 < 255 ->
  exists f, next_freq payload i = Done (f, i + 3) /\ is_u32 f.
Proof.
  intros Hb Hi Hl Hlt. unfold next_freq.
  destruct (next_byte_ok payload i Hb) as (b0 & -> & _); [lia|lia|]. cbn [rbind].
  destruct (next_byte_ok payload (i + 1) Hb) as (b1 & -> & _); [lia|lia|]. cbn [rbind].
  destruct (next_byte_ok payload (i + 1 + 1) Hb) as (b2 & -> & _); [lia|lia|]. cbn [rbind].
  eexists. replace (i + 1 + 1 + 1) with (i + 3) by lia. split; [done|]. apply u32_range.
Qed.

Lemma nibble_range x n : 0 <= x -> 0 <= n -> 0 <= Z.land (Z.shiftr x n) 0x0F < 16.
Proof. intros. change 0x0F with (Z.ones 4). apply (land_ones_bound _ 4). lia. Qed.

Lemma low_nibble_range x : 0 <= Z.land x 0x0F < 16.
Proof. change 0x0F with (Z.ones 4). apply (land_ones_bound _ 4). lia. Qed.

Lemma low3_range x n : 0 <= Z.land (Z.shiftr x n) 0x07 < 8.
Proof. change 0x07 with (Z.ones 3). apply (land_ones_bound _ 3). lia. Qed.

(** A handler that, from any good state, returns a good state of the same session
    and advances the index by [n] bytes. *)
Definition handler_ok (m : M Z) (i n : Z) : Prop :=
  forall s, mac_inv s -> exists s', m s = Done (i + n, s') /\ mac_inv s' /\ same_session s s'.

(** Equates two indices in a result. *)
Ltac index_eq :=
  match goal with |- Done (?a, _) = Done (?b, _) => replace b with a by lia; reflexivity end.

(** Closes a handler that ends by adding an answer in a good state. *)
Ltac answer s1 :=
  match goal with
  | |- context [AddMacCommand ?c ?a ?b _] =>
      let st := fresh "st" in let s' := fresh "s'" in let E := fresh "E" in
      let Hi := fresh "Hi" in let HS := fresh "HS" in
      destruct (AddMacCommand_inv s1 c a b) as (st & s' & E & Hi & HS);
      [|rewrite E; cbn [rbind]; exists s'; split; [try index_eq|split; [exact Hi|]]]
  end.

(** Changing parameters within their ranges keeps the invariant. *)
Lemma mac_inv_params s g : mac_inv s -> param_wf (g (LoRaMacParams s)) ->
  length (ChannelsMask (g (LoRaMacParams s))) = 6%nat -> mac_inv (s <| LoRaMacParams ::= g |>).
Proof. intros [[] [] Hd Hp] Hg Hm. split; [by split|by split|done|done]. Qed.

Lemma adr_mask_length s c m : length (ChannelsMask (LoRaMacParams s)) = 6%nat -> length (adr_mask s c m).1 = 6%nat.
Proof.
  intros H. unfold adr_mask. repeat case_match; simpl; try done. by rewrite zupd_length.
Qed.

Lemma range_true v a b : ValueInRange v a b = true -> a <= v <= b.
Proof. intros [?%Z.leb_le ?%Z.leb_le]%andb_true_iff. done. Qed.

Lemma land_keeps_bit0 st m k : 0 <= k -> Z.testbit m k = false -> k < 3 ->
  (Z.land (Z.land st m) 0x07 =? 0x07) = false.
Proof.
  intros Hk Hm Hk3. apply Z.eqb_neq. intros H. apply (f_equal (fun z => Z.testbit z k)) in H.
  rewrite !Z.land_spec, Hm, andb_false_r in H. cbn [andb] in H. change 0x07 with (Z.ones 3) in H.
  rewrite Z.ones_spec_low in H by lia. done.
Qed.

Section Handlers.
Context {RD : RadioDriver}.
Variables (payload : list Z) (i : Z).
Hypotheses (Hb : bytes payload) (H0 : 0 <= i) (Hi : i + 5 <= zlen payload) (Hlt : i + 5 <= 255).

Lemma link_check_ans_ok : handler_ok (link_check_ans payload i) i 2.
Proof.
  intros s [[] [] Hd Hp]. unfold link_check_ans.
  destruct (next_byte_ok payload i Hb) as (b0 & -> & _); [lia|lia|]. cbn [rbind].
  destruct (next_byte_ok payload (i + 1) Hb) as (b1 & -> & _); [lia|lia|]. cbn [rbind].
  eexists. split; [index_eq|]. split; [split; [by split|by split|done|done]|by repeat split].
Qed.

Lemma link_adr_req_ok : handler_ok (link_adr_req payload i) i 4.
Proof.
  intros s Hinv. unfold link_adr_req.
  destruct (next_byte_ok payload i Hb) as (b & -> & Hbu & _); [lia|lia|]. cbn [rbind].
  set (dr := Z.land (Z.shiftr b 4) 0x0F). set (pw := Z.land b 0x0F).
  destruct (negb (AdrCtrlOn s) && _).
  { answer s; [done|rewrite u8_id by (unfold is_u8; lia); index_eq|done]. }
  destruct (next_byte_ok payload (i + 1) Hb) as (m0 & -> & _); [lia|lia|]. cbn [rbind].
  destruct (next_byte_ok payload (i + 1 + 1) Hb) as (m1 & -> & _); [lia|lia|]. cbn [rbind].
  destruct (next_byte_ok payload (i + 1 + 1 + 1) Hb) as (r & -> & Hru & _); [lia|lia|]. cbn [rbind].
  pose proof (adr_mask_length s (Z.land (Z.shiftr r 4) 7) (Z.lor m0 (Z.shiftl m1 8))) as Hm.
  destruct (adr_mask s _ _) as [mask st0]. cbn [fst] in Hm.
  set (st1 := if ValueInRange dr _ _ then st0 else _). set (st2 := if ValueInRange pw _ _ then st1 else _).
  set (nb := if Z.land r 15 =? 0 then 1 else _).
  set (s1 := if Z.land st2 7 =? 7 then _ else s).
  assert (Hs1 : mac_inv s1 /\ same_session s s1).
  { unfold s1. destruct (Z.land st2 7 =? 7) eqn:E7; [|done]. split; [|by repeat split].
    assert (Hpw : ValueInRange pw LORAMAC_MAX_TX_POWER LORAMAC_MIN_TX_POWER = true).
    { destruct (ValueInRange pw _ _) eqn:E; [done|]. unfold st2 in E7. rewrite (land_keeps_bit0 _ 0xFB 2) in E7; done. }
    assert (Hdr : ValueInRange dr LORAMAC_TX_MIN_DATARATE LORAMAC_TX_MAX_DATARATE = true).
    { destruct (ValueInRange dr _ _) eqn:E; [done|]. unfold st2 in E7. rewrite Hpw in E7. unfold st1 in E7.
      rewrite (land_keeps_bit0 _ 0xFD 1) in E7; done. }
    apply range_true in Hpw, Hdr. unfold LORAMAC_MAX_TX_POWER, LORAMAC_MIN_TX_POWER, LORAMAC_TX_MIN_DATARATE, LORAMAC_TX_MAX_DATARATE in *.
    assert (Hnb : 1 <= nb <= 15) by (unfold nb; pose proof (low_nibble_range r); destruct (Z.eqb_spec (Z.land r 15) 0); lia).
    apply mac_inv_params; [done| |apply Hm, Hinv]. destruct Hinv as [_ _ _ [P1 P2 P3 P4 P5 P6]]. by split. }
  destruct Hs1 as [Hs1 HS1]. answer s1; [done|]. by eapply same_session_trans.
Qed.

Lemma mac_inv_dcycle s d a : mac_inv s -> mac_inv (s <| MaxDCycle := d |> <| AggregatedDCycle := a |>).
Proof. intros [[] [] Hd Hp]. split; [by split|by split|done|done]. Qed.

(** The duty cycle request shifts by its parameter: undefined from 32 on. *)
Lemma duty_cycle_req_ok s : mac_inv s ->
  (exists s', duty_cycle_req payload i s = Done (i + 1, s') /\ mac_inv s' /\ same_session s s') \/
  (duty_cycle_req payload i s = Undef /\ exists d, payload !! Z.to_nat i = Some d /\ 32 <= d).
Proof.
  intros Hinv. unfold duty_cycle_req.
  destruct (next_byte_ok payload i Hb) as (d & -> & _ & Hd); [lia|lia|]. cbn [rbind].
  destruct (Z.ltb_spec d 32) as [Hlt'|Hge]; [left|right; split; [done|by exists d]]. cbn [rbind].
  set (s1 := s <| MaxDCycle := d |> <| AggregatedDCycle := _ |>).
  answer s1; [by apply mac_inv_dcycle|]. eapply same_session_trans; [|exact HS]. by repeat split.
Qed.

Lemma rx_param_setup_req_ok : handler_ok (rx_param_setup_req payload i) i 4.
Proof.
  intros s Hinv. unfold rx_param_setup_req.
  destruct (next_byte_ok payload i Hb) as (b & -> & Hbu & _); [lia|lia|]. cbn [rbind].
  destruct (next_freq_ok payload (i + 1) Hb) as (f & -> & Hf); [lia|lia|lia|]. cbn [rbind].
  set (status := if ValueInRange (Z.land (Z.shiftr b 4) 7) _ _ then _ else _).
  set (s1 := if Z.land status 7 =? 7 then _ else s).
  assert (Hs1 : mac_inv s1 /\ same_session s s1).
  { unfold s1. destruct (Z.land status 7 =? 7); [|done]. split; [|by repeat split].
    pose proof (low3_range b 4). pose proof (low_nibble_range b).
    apply mac_inv_params; [done| |apply Hinv]. destruct Hinv as [_ _ _ [P1 P2 P3 P4 P5 P6]].
    split; cbn; try done; lia. }
  destruct Hs1 as [Hs1 HS1]. answer s1; [done|]. by eapply same_session_trans.
Qed.

Lemma dev_status_req_ok snr : handler_ok (dev_status_req i snr) i 0.
Proof. intros s Hinv. unfold dev_status_req. answer s; done. Qed.

Lemma mac_inv_state s g : mac_inv s -> mac_inv (s <| LoRaMacState ::= g |>).
Proof. intros [[] [] Hd Hp]. split; [by split|by split|done|done]. Qed.

(** Adding and removing a channel, as handlers of the interpreter use them. *)
Lemma channel_add_inv s id f dr : mac_inv s -> 0 <= id ->
  exists st s', LoRaMacChannelAdd id f dr s = Done (st, s') /\ mac_inv s' /\ same_session s s'.
Proof.
  intros Hinv Hid. pose proof Hinv as [Hc Hw Hd Hp].
  destruct (ChannelAdd_spec s id f dr Hw Hid) as (st & s' & E & Hw' & Hd' & HP).
  exists st, s'. split; [done|]. destruct HP as [[_ ->]|(-> & Hlt16 & _ & band & Hband & _)]; [done|].
  unfold LoRaMacChannelAdd in E.
  destruct (LORA_MAX_NB_CHANNELS <=? id); [done|]. destruct (state_has MAC_TX_RUNNING s && _); [done|].
  destruct (datarate_invalid s id dr), (frequency_band s id f); try done.
  apply rbind_inv in E as (chs & E1 & E2). injection E2 as <-.
  split; [|by repeat split]. split; [by destruct Hc|done|by apply Hd'|]. destruct Hp. by split.
Qed.

Lemma channel_remove_inv s id : mac_inv s -> 0 <= id ->
  exists st s', LoRaMacChannelRemove id s = Done (st, s') /\ mac_inv s' /\ same_session s s'.
Proof.
  intros Hinv Hid. pose proof Hinv as [Hc Hw Hd Hp].
  destruct (ChannelRemove_spec s id Hw Hid) as (st & s' & E & Hw' & Hd' & HP).
  exists st, s'. split; [done|]. destruct HP as [[_ ->]|(-> & Hlt16 & _)]; [done|].
  unfold LoRaMacChannelRemove in E.
  destruct (state_has MAC_TX_RUNNING s && _); [done|]. destruct (_ || _); [done|].
  apply rbind_inv in E as (chs & E1 & E2). destruct (DisableChannelInMask _ _) as [ok m]. injection E2 as _ <-.
  split; [|by repeat split]. split; [by destruct Hc|done|by apply Hd'|]. destruct Hp. by split.
Qed.

Lemma new_channel_req_ok : handler_ok (new_channel_req payload i) i 5.
Proof.
  intros s Hinv. unfold new_channel_req.
  destruct (next_byte_ok payload i Hb) as (b & -> & Hbu & _); [lia|lia|]. cbn [rbind].
  destruct (next_freq_ok payload (i + 1) Hb) as (f & -> & Hf); [lia|lia|lia|]. cbn [rbind].
  destruct (next_byte_ok payload (i + 1 + 3) Hb) as (dr & -> & _); [lia|lia|]. cbn [rbind].
  unfold state_set, smod. cbn [rbind]. set (s1 := s <| LoRaMacState ::= _ |>).
  assert (Hs1 : mac_inv s1) by (by apply mac_inv_state).
  pose proof (u8_range (s8 b)) as Hu. unfold is_u8 in Hu.
  set (body := if f =? 0 then _ else _).
  assert (Hbody : exists status s2, body = Done (status, s2) /\ mac_inv s2 /\ same_session s1 s2).
  { unfold body. destruct (f =? 0); [destruct (s8 b <? 3)|].
    - by eexists _, _.
    - destruct (channel_remove_inv s1 (u8 (s8 b)) Hs1) as (st & s2 & -> & H2 & S2); [lia|]. cbn [rbind]. by eexists _, _.
    - destruct (channel_add_inv s1 (u8 (s8 b)) f dr Hs1) as (st & s2 & -> & H2 & S2); [lia|]. cbn [rbind]. by eexists _, _. }
  destruct Hbody as (status & s2 & -> & H2 & S2). cbn [rbind]. unfold state_clear, smod. cbn [rbind].
  set (s3 := s2 <| LoRaMacState ::= _ |>). answer s3; [by apply mac_inv_state|].
  eapply same_session_trans; [|exact HS]. eapply same_session_trans; [|by repeat split].
  eapply same_session_trans; [|exact S2]. by repeat split.
Qed.

Lemma rx_timing_setup_req_ok : handler_ok (rx_timing_setup_req payload i) i 1.
Proof.
  intros s Hinv. unfold rx_timing_setup_req.
  destruct (next_byte_ok payload i Hb) as (b & -> & Hbu & _); [lia|lia|]. cbn [rbind].
  set (delay := if Z.land b 15 =? 0 then 1 else _). set (s1 := s <| LoRaMacParams ::= _ |>).
  assert (Hdl : 0 <= delay) by (unfold delay; pose proof (low_nibble_range b); destruct (Z.land b 15 =? 0); lia).
  answer s1.
  - apply mac_inv_params; [done| |apply Hinv]. destruct Hinv as [_ _ _ [P1 P2 P3 P4 P5 P6]]. split; cbn; try done; lia.
  - eapply same_session_trans; [|exact HS]. by repeat split.
Qed.

(** Every known command is handled; only the duty cycle request can be undefined. *)
Lemma process_command_ok cmd snr m s : process_command payload cmd i snr = Some m -> mac_inv s ->
  (exists n s', 0 <= n <= 5 /\ m s = Done (i + n, s') /\ mac_inv s' /\ same_session s s') \/
  (m s = Undef /\ cmd = SRV_MAC_DUTY_CYCLE_REQ /\ exists d, payload !! Z.to_nat i = Some d /\ 32 <= d).
Proof.
  intros Hm Hinv. unfold process_command in Hm.
  assert (Hok : forall n m', 0 <= n <= 5 -> handler_ok m' i n -> Some m' = Some m ->
    (exists n s', 0 <= n <= 5 /\ m s = Done (i + n, s') /\ mac_inv s' /\ same_session s s')).
  { intros n m' Hn Hh [= ->]. destruct (Hh s Hinv) as (s' & E & H1 & H2). by exists n, s'. }
  destruct (cmd =? SRV_MAC_LINK_CHECK_ANS); [left; eapply Hok, Hm; [|apply link_check_ans_ok]; lia|].
  destruct (cmd =? SRV_MAC_LINK_ADR_REQ); [left; eapply Hok, Hm; [|apply link_adr_req_ok]; lia|].
  destruct (Z.eqb_spec cmd SRV_MAC_DUTY_CYCLE_REQ) as [->|_].
  { injection Hm as <-. destruct (duty_cycle_req_ok s Hinv) as [(s' & E & H1 & H2)|[E Hd]]; [left|by right].
    exists 1, s'. split; [lia|done]. }
  destruct (cmd =? SRV_MAC_RX_PARAM_SETUP_REQ); [left; eapply Hok, Hm; [|apply rx_param_setup_req_ok]; lia|].
  destruct (cmd =? SRV_MAC_DEV_STATUS_REQ); [left; eapply Hok, Hm; [|apply dev_status_req_ok]; lia|].
  destruct (cmd =? SRV_MAC_NEW_CHANNEL_REQ); [left; eapply Hok, Hm; [|apply new_channel_req_ok]; lia|].
  destruct (cmd =? SRV_MAC_RX_TIMING_SETUP_REQ); [left; eapply Hok, Hm; [|apply rx_timing_setup_req_ok]; lia|done].
Qed.

End Handlers.

(** A duty cycle request whose parameter cannot be shifted by. *)
Definition bad_duty_cycle (payload : list Z) : Prop :=
  exists k d, payload !! k = Some SRV_MAC_DUTY_CYCLE_REQ /\ payload !! S k = Some d /\ 32 <= d.

Lemma process_loop_ok {RD : RadioDriver} payload commandsSize snr fuel : bytes payload -> 255 <= zlen payload ->
  commandsSize <= 249 -> forall i s, mac_inv s -> 0 <= i -> Z.max 0 (commandsSize - i) < Z.of_nat fuel ->
  (exists s', process_loop fuel payload i commandsSize snr s = Done (tt, s') /\ mac_inv s' /\ same_session s s') \/
  (process_loop fuel payload i commandsSize snr s = Undef /\ bad_duty_cycle payload).
Proof.
  intros Hb HL Hsz. induction fuel as [|fuel IH]; intros i s Hinv H0 Hf; [|cbn [process_loop]].
  { lia. }
  destruct (Z.ltb_spec i commandsSize) as [Hi|Hi]; [|left; by eexists].
  destruct (next_byte_ok payload i Hb) as (cmd & -> & _ & Hcmd); [lia|lia|]. cbn [rbind].
  destruct (process_command payload cmd (i + 1) snr) as [m|] eqn:Em; [|left; by eexists].
  destruct (process_command_ok payload (i + 1) Hb ltac:(lia) ltac:(lia) ltac:(lia) cmd snr m s Em Hinv)
    as [(n & s1 & Hn & -> & H1 & S1)|(-> & -> & d & Hd & Hd32)]; cbn [rbind].
  - destruct (IH (i + 1 + n) s1 H1) as [(s' & E & H2 & S2)|[E Hbad]]; [lia|lia| |by right].
    left. exists s'. split_and!; [done|done|by eapply same_session_trans].
  - right. split; [done|]. exists (Z.to_nat i), d. split_and!; [done| |done].
    by replace (S (Z.to_nat i)) with (Z.to_nat (i + 1)) by lia.
Qed.

Lemma ProcessMacCommands_ok {RD : RadioDriver} payload i size snr s : bytes payload -> 255 <= zlen payload ->
  0 <= i -> 0 <= size <= 249 -> i < 256 -> mac_inv s ->
  (exists s', ProcessMacCommands payload i size snr s = Done (tt, s') /\ mac_inv s' /\ same_session s s') \/
  (ProcessMacCommands payload i size snr s = Undef /\ bad_duty_cycle payload).
Proof.
  intros Hb HL H0 Hs Hi Hinv. unfold ProcessMacCommands. rewrite !(u8_id i), (u8_id size) by (unfold is_u8; lia).
  apply process_loop_ok; try done; try lia.
Qed.

(** ** What commands leave alone

    Commands change the answers, the channels, the parameters, the duty cycle
    and the report of a link check; the state word only while a channel is
    configured.  A datarate of the second window they set is one of the region. *)
Definition cmd_core (s : mac) : mac :=
  s <| MlmeConfirm := mlme_confirm_zero |> <| LoRaMacParams := params_zero |> <| MaxDCycle := 0 |> <| AggregatedDCycle := 0 |>
    <| MacCommandsBuffer := [] |> <| MacCommandsBufferIndex := 0 |> <| MacCommandsInNextTx := false |> <| Channels := [] |>
    <| LoRaMacState := Z.ldiff (LoRaMacState s) MAC_TX_CONFIG |>.

Record commanded (s s' : mac) : Prop := mkCommanded {
  cd_core : cmd_core s' = cmd_core s;
  cd_request : ml_MlmeRequest (MlmeConfirm s') = ml_MlmeRequest (MlmeConfirm s);
  cd_status : ml_Status (MlmeConfirm s') = ml_Status (MlmeConfirm s) \/ ml_Status (MlmeConfirm s') = LORAMAC_EVENT_INFO_STATUS_OK;
  cd_rx2 : Rx2Datarate (LoRaMacParams s) <= 7 -> Rx2Datarate (LoRaMacParams s') <= 7;
  cd_state : Z.land (LoRaMacState s) MAC_TX_CONFIG = 0 -> LoRaMacState s' = LoRaMacState s;
}.

#[export] Instance commanded_preorder : PreOrder commanded.
Proof.
  split; [intros s; split; auto|]. intros s1 s2 s3 [C1 R1 S1 X1 Y1] [C2 R2 S2 X2 Y2].
  split; [congruence|congruence| |auto|]; [destruct S2 as [->|]; auto|]. intros H. rewrite <- Y1 in H |- * by done. by apply Y2.
Qed.

Lemma commanded_fields s s' : cmd_core s' = cmd_core s -> MlmeConfirm s' = MlmeConfirm s ->
  Rx2Datarate (LoRaMacParams s') = Rx2Datarate (LoRaMacParams s) -> LoRaMacState s' = LoRaMacState s -> commanded s s'.
Proof. intros H1 H2 H3 H4. split; [done|by rewrite H2|left; by rewrite H2|by rewrite H3|done]. Qed.

Lemma push_bytes_commanded l : forall s u s', push_bytes l s = Done (u, s') -> commanded s s'.
Proof.
  induction l as [|b l IH]; intros s u s' H; [by injection H as _ <-|]. cbn [push_bytes] in H.
  apply rbind_inv in H as (buf & _ & H%IH). etransitivity; [|exact H]. by apply commanded_fields.
Qed.

Lemma AddMacCommand_commanded cmd p1 p2 s st s' : AddMacCommand cmd p1 p2 s = Done (st, s') -> commanded s s'.
Proof.
  unfold AddMacCommand. destruct (command_bytes cmd p1 p2) as [l|]; [|by intros [= _ <-]].
  destruct (_ <? _); [|by intros [= _ <-]]. intros H. apply rbind_inv in H as ([u s1] & H1%push_bytes_commanded & H).
  injection H as _ <-. etransitivity; [exact H1|]. by apply commanded_fields.
Qed.

(** The last step of a command: its answer. *)
Lemma answered {A} cmd p1 p2 s0 s (i : A) r : commanded s0 s ->
  (let* (_, s) := AddMacCommand cmd p1 p2 s in Done (i, s)) = Done r -> commanded s0 (snd r).
Proof.
  intros H0 H. apply rbind_inv in H as ([st s1] & H1%AddMacCommand_commanded & H). injection H as <-. by etransitivity.
Qed.

Lemma ldiff_lor a b : Z.ldiff (Z.lor a b) b = Z.ldiff a b.
Proof. apply Z.bits_inj'. intros i _. rewrite !Z.ldiff_spec, Z.lor_spec. by destruct (Z.testbit a i), (Z.testbit b i). Qed.
Lemma ldiff_none a b : Z.land a b = 0 -> Z.ldiff a b = a.
Proof.
  intros H. apply Z.bits_inj'. intros i _. apply (f_equal (fun x => Z.testbit x i)) in H. rewrite Z.land_spec, Z.bits_0 in H.
  rewrite Z.ldiff_spec. by destruct (Z.testbit a i), (Z.testbit b i).
Qed.
Lemma ldiff_ldiff a b : Z.ldiff (Z.ldiff a b) b = Z.ldiff a b.
Proof. apply Z.bits_inj'. intros i _. rewrite !Z.ldiff_spec. by destruct (Z.testbit a i), (Z.testbit b i). Qed.

Section Commanded.
Context {RD : RadioDriver}.

Lemma ChannelAdd_commanded id f dr s st s' : LoRaMacChannelAdd id f dr s = Done (st, s') -> commanded s s'.
Proof.
  unfold LoRaMacChannelAdd. intros H. repeat case_match; try (by injection H as _ <-).
  apply rbind_inv in H as (chs & _ & H). injection H as _ <-. by apply commanded_fields.
Qed.

Lemma ChannelRemove_commanded id s st s' : LoRaMacChannelRemove id s = Done (st, s') -> commanded s s'.
Proof.
  unfold LoRaMacChannelRemove. intros H. repeat (destruct (_ && _) || destruct (_ || _)); try (by injection H as _ <-).
  apply rbind_inv in H as (chs & _ & H). destruct (DisableChannelInMask _ _) as [ok m]. injection H as _ <-. by apply commanded_fields.
Qed.

(** A channel is configured between setting and clearing a bit of the state word. *)
Lemma configured s s' : commanded (s <| LoRaMacState ::= fun v => Z.lor v MAC_TX_CONFIG |>) s' ->
  commanded s (s' <| LoRaMacState ::= fun v => Z.ldiff v MAC_TX_CONFIG |>).
Proof.
  intros [C R S X Y]. pose proof (f_equal LoRaMacState C) as Es. cbn [cmd_core update LoRaMacState] in Es. rewrite ldiff_lor in Es.
  split; [|done|done|done|].
  - trans (cmd_core s'); [unfold cmd_core; cbn [update LoRaMacState]; by rewrite ldiff_ldiff|]. rewrite C.
    unfold cmd_core. cbn [update LoRaMacState]. by rewrite ldiff_lor.
  - intros H0. cbn [update LoRaMacState]. rewrite Es. by apply ldiff_none.
Qed.

Lemma link_check_ans_commanded payload i s r : link_check_ans payload i s = Done r -> commanded s (snd r).
Proof.
  unfold link_check_ans. intros H. apply rbind_inv in H as ([m j] & _ & H). apply rbind_inv in H as ([g k] & _ & H).
  injection H as <-. split; try done. by right.
Qed.

Lemma link_adr_req_commanded payload i s r : link_adr_req payload i s = Done r -> commanded s (snd r).
Proof.
  unfold link_adr_req. intros H. apply rbind_inv in H as ([b j] & _ & H). destruct (negb _ && _); [by eapply answered, H|].
  do 3 apply rbind_inv in H as ([? ?] & _ & H). destruct (adr_mask s _ _) as [mask st].
  eapply answered, H. destruct (_ =? 0x07); [by apply commanded_fields|done].
Qed.

Lemma duty_cycle_req_commanded payload i s r : duty_cycle_req payload i s = Done r -> commanded s (snd r).
Proof.
  unfold duty_cycle_req. intros H. apply rbind_inv in H as ([d j] & _ & H). apply rbind_inv in H as (agg & _ & H).
  eapply answered, H. by apply commanded_fields.
Qed.

Lemma rx_param_setup_req_commanded payload i s r : rx_param_setup_req payload i s = Done r -> commanded s (snd r).
Proof.
  unfold rx_param_setup_req. intros H. apply rbind_inv in H as ([b j] & _ & H). apply rbind_inv in H as ([f k] & _ & H).
  eapply answered, H. set (st0 := if Rx2FreqInRange f then _ else _).
  destruct (ValueInRange (Z.land b 0x0F) LORAMAC_RX_MIN_DATARATE LORAMAC_RX_MAX_DATARATE) eqn:Ed.
  - destruct (_ =? 0x07); [|done]. split; try done; [by left|]. intros _. apply range_true in Ed. cbn. apply Ed.
  - unfold st0. destruct (Rx2FreqInRange f), (ValueInRange (Z.land (Z.shiftr b 4) _) _ _); reflexivity.
Qed.

Lemma dev_status_req_commanded i snr s r : dev_status_req i snr s = Done r -> commanded s (snd r).
Proof. intros H. by eapply answered, H. Qed.

Lemma rx_timing_setup_req_commanded payload i s r : rx_timing_setup_req payload i s = Done r -> commanded s (snd r).
Proof.
  unfold rx_timing_setup_req. intros H. apply rbind_inv in H as ([b j] & _ & H). eapply answered, H. by apply commanded_fields.
Qed.

Lemma new_channel_req_commanded payload i s r : new_channel_req payload i s = Done r -> commanded s (snd r).
Proof.
  unfold new_channel_req. intros H. apply rbind_inv in H as ([b j] & _ & H). apply rbind_inv in H as ([f k] & _ & H).
  apply rbind_inv in H as ([dr l] & _ & H). unfold state_set, smod in H. cbn [rbind] in H.
  apply rbind_inv in H as ([st s2] & E & H). unfold state_clear, smod in H. cbn [rbind] in H.
  eapply answered, H. apply configured.
  destruct (f =? 0); [destruct (s8 b <? 3); [by injection E as _ <-|]|].
  - apply rbind_inv in E as ([st1 s1] & E1%ChannelRemove_commanded & E). by injection E as _ <-.
  - apply rbind_inv in E as ([st1 s1] & E1%ChannelAdd_commanded & E). by injection E as _ <-.
Qed.

Lemma process_command_commanded payload cmd i snr m s r : process_command payload cmd i snr = Some m -> m s = Done r -> commanded s (snd r).
Proof.
  unfold process_command. intros H. repeat (destruct (cmd =? _); [injection H as <-|]); try done; intros E.
  - by eapply link_check_ans_commanded.
  - by eapply link_adr_req_commanded.
  - by eapply duty_cycle_req_commanded.
  - by eapply rx_param_setup_req_commanded.
  - by eapply dev_status_req_commanded.
  - by eapply new_channel_req_commanded.
  - by eapply rx_timing_setup_req_commanded.
Qed.

Lemma process_loop_commanded fuel : forall payload i size snr s r, process_loop fuel payload i size snr s = Done r -> commanded s (snd r).
Proof.
  induction fuel as [|fuel IH]; intros payload i size snr s r H; [done|]. cbn [process_loop] in H.
  destruct (i <? size); [|by injection H as <-]. apply rbind_inv in H as ([cmd j] & _ & H).
  destruct (process_command payload cmd j snr) as [m|] eqn:Em; [|by injection H as <-].
  apply rbind_inv in H as ([k s1] & E & H%IH). apply (process_command_commanded _ _ _ _ _ _ _ Em) in E. by etransitivity.
Qed.

Lemma ProcessMacCommands_commanded payload i size snr s u s' :
  ProcessMacCommands payload i size snr s = Done (u, s') -> commanded s s'.
Proof. apply (process_loop_commanded 256). Qed.

End Commanded.

Lemma demo_inv : mac_inv demo_mac.
Proof. split; [by split|apply demo_wf|apply demo_default_ok|]. by split. Qed.

(** * Properties *)

(** C16: the interpreter of MAC commands returns on every byte string a downlink
    can carry, keeps the invariants of the command buffers, the channel tables and
    the parameter ranges, and changes neither keys, address nor frame
    counters; the one exception is a duty cycle request with a parameter of 32
    or more, for which the code shifts an [int] beyond its width. *)
Theorem process_commands_safe (RD : RadioDriver) payload i size snr s :
  bytes payload -> 255 <= zlen payload -> 0 <= i < 256 -> 0 <= size <= 249 -> mac_inv s ->
  (exists s', ProcessMacCommands payload i size snr s = Done (tt, s') /\ mac_inv s' /\ same_session s s') \/
  (ProcessMacCommands payload i size snr s = Undef /\ bad_duty_cycle payload).
Proof. intros. apply ProcessMacCommands_ok; try done; lia. Qed.

(** A payload with a link check answer, an ADR request and a new channel request. *)
Definition demo_commands : list Z :=
  [0x02; 10; 3; 0x03; 0x51; 0x07; 0x00; 0x01; 0x07; 3; 0x18; 0x4F; 0x84; 0x50; 0x08; 0x02; 0x06] ++ replicate 238 0.

Lemma process_commands_safe_witness :
  (exists s', @ProcessMacCommands demo_driver demo_commands 0 17 7 demo_mac = Done (tt, s') /\ mac_inv s' /\
    same_session demo_mac s') \/
  (@ProcessMacCommands demo_driver demo_commands 0 17 7 demo_mac = Undef /\ bad_duty_cycle demo_commands).
Proof.
  apply process_commands_safe.
  - by apply bytesb_true.
  - vm_compute. discriminate.
  - lia.
  - lia.
  - apply demo_inv.
Defined.

(** The example commands are all answered, in order. *)
Example demo_commands_answers :
  match @ProcessMacCommands demo_driver demo_commands 0 17 7 demo_mac with
  | Done (_, s') => pending s' = [0x03; 0x07; 0x07; 0x03; 0x08; 0x06; 0xFF; 7] /\
      Channels s' !! 3%nat = Some (mkChannel 867100000 0x50 0)
  | _ => False
  end.
Proof. vm_compute. done. Qed.

(** An answer is queued whole or not at all: it is appended to the pending
    answers when it fits beside those to repeat, in the fifteen bytes of the
    buffer, and refused otherwise with the state unchanged. *)
Theorem add_mac_command_correct s cmd p1 p2 : cmd_wf s ->
  exists st s', AddMacCommand cmd p1 p2 s = Done (st, s') /\ cmd_wf s' /\
    match command_bytes cmd p1 p2 with
    | None => st = LORAMAC_STATUS_SERVICE_UNKNOWN /\ s' = s
    | Some l =>
        if decide (zlen l + MacCommandsBufferIndex s + MacCommandsBufferToRepeatIndex s <= 15)
        then st = LORAMAC_STATUS_OK /\ pending s' = pending s ++ l /\ MacCommandsInNextTx s' = true
        else st = LORAMAC_STATUS_BUSY /\ s' = s
    end.
Proof.
  intros Hw. destruct (AddMacCommand_spec s cmd p1 p2 Hw) as (st & s' & E & H1 & _ & _ & _ & _ & _ & H2). eauto 6.
Qed.

Lemma add_mac_command_correct_witness :
  exists st s', AddMacCommand MOTE_MAC_DEV_STATUS_ANS 255 7 demo_mac = Done (st, s') /\ cmd_wf s' /\
    pending s' = [6; 255; 7].
Proof.
  destruct (add_mac_command_correct demo_mac MOTE_MAC_DEV_STATUS_ANS 255 7) as (st & s' & E & W & H);
    [apply demo_inv|].
  exists st, s'. split; [exact E|]. split; [exact W|]. exact (proj1 (proj2 H)).
Defined.

(** A request to adapt the link is all or nothing: the answer either
    acknowledges datarate, power and channel mask and all of them and the number of
    repetitions are set, or it refuses one of them and no parameter changes. *)
Theorem link_adr_atomic (RD : RadioDriver) payload i s i' s' :
  mac_inv s -> link_adr_req payload i s = Done (i', s') ->
  exists status, (exists st s1, AddMacCommand MOTE_MAC_LINK_ADR_ANS status 0 s1 = Done (st, s') /\
      LoRaMacParams s' = LoRaMacParams s1 /\
    ((Z.land status 7 = 7 /\ exists dr pw rep mask, 0 <= dr <= 7 /\ 0 <= pw <= 5 /\ 1 <= rep <= 15 /\
       s1 = s <| LoRaMacParams ::= fun p => p <| ChannelsDatarate := dr |> <| ChannelsTxPower := pw |>
                 <| ChannelsMask := mask |> <| ChannelsNbRep := rep |> |>) \/
     (Z.land status 7 <> 7 /\ s1 = s))).
Proof.
  intros Hinv E. unfold link_adr_req in E. apply rbind_inv in E as ([b j] & _ & E).
  assert (Hadd : forall s1 a st s2, cmd_wf s1 -> AddMacCommand MOTE_MAC_LINK_ADR_ANS a 0 s1 = Done (st, s2) ->
    LoRaMacParams s2 = LoRaMacParams s1).
  { intros s1 a st s2 Hw HE. destruct (AddMacCommand_spec s1 MOTE_MAC_LINK_ADR_ANS a 0 Hw) as (st' & s2' & E' & _ & _ & _ & HP & _).
    rewrite HE in E'. injection E' as -> ->. done. }
  destruct (negb (AdrCtrlOn s) && _).
  { apply rbind_inv in E as ([st s2] & E1 & E2). injection E2 as _ <-. exists 0, st, s.
    split; [done|]. split; [by eapply Hadd, E1; apply Hinv|]. by right. }
  apply rbind_inv in E as ([m0 j0] & _ & E). apply rbind_inv in E as ([m1 j1] & _ & E).
  apply rbind_inv in E as ([r j2] & _ & E). destruct (adr_mask s _ _) as [mask st0].
  set (dr := Z.land (Z.shiftr b 4) 0x0F) in *. set (pw := Z.land b 0x0F) in *.
  set (st1 := if ValueInRange dr _ _ then st0 else _) in *. set (st2 := if ValueInRange pw _ _ then st1 else _) in *.
  set (nb := if Z.land r 15 =? 0 then 1 else _) in *.
  apply rbind_inv in E as ([st s2] & E1 & E2). injection E2 as _ <-. exists st2, st.
  destruct (Z.eqb_spec (Z.land st2 7) 7) as [E7|N7].
  2: { exists s. split; [done|]. split; [by eapply Hadd, E1; apply Hinv|]. by right. }
  eexists. split; [exact E1|]. split; [eapply Hadd, E1; by destruct Hinv as [[] _ _ _]|]. left. split; [done|].
  exists dr, pw, nb, mask.
  assert (Hpw : ValueInRange pw LORAMAC_MAX_TX_POWER LORAMAC_MIN_TX_POWER = true).
  { destruct (ValueInRange pw _ _) eqn:Ev; [done|]. unfold st2 in E7. apply Z.eqb_eq in E7.
    rewrite (land_keeps_bit0 _ 0xFB 2) in E7; done. }
  assert (Hdr : ValueInRange dr LORAMAC_TX_MIN_DATARATE LORAMAC_TX_MAX_DATARATE = true).
  { destruct (ValueInRange dr _ _) eqn:Ev; [done|]. unfold st2 in E7. rewrite Hpw in E7. unfold st1 in E7.
    apply Z.eqb_eq in E7. rewrite (land_keeps_bit0 _ 0xFD 1) in E7; done. }
  apply range_true in Hpw, Hdr. split; [exact Hdr|]. split; [exact Hpw|]. split; [|done].
  unfold nb. pose proof (low_nibble_range r). destruct (Z.eqb_spec (Z.land r 15) 0); lia.
Qed.

Lemma link_adr_atomic_witness :
  exists s', @link_adr_req demo_commands 4 demo_mac = Done (8, s') /\
  exists status, (exists st s1, AddMacCommand MOTE_MAC_LINK_ADR_ANS status 0 s1 = Done (st, s') /\
      LoRaMacParams s' = LoRaMacParams s1 /\
    ((Z.land status 7 = 7 /\ exists dr pw rep mask, 0 <= dr <= 7 /\ 0 <= pw <= 5 /\ 1 <= rep <= 15 /\
       s1 = demo_mac <| LoRaMacParams ::= fun p => p <| ChannelsDatarate := dr |> <| ChannelsTxPower := pw |>
                 <| ChannelsMask := mask |> <| ChannelsNbRep := rep |> |>) \/
     (Z.land status 7 <> 7 /\ s1 = demo_mac))).
Proof.
  eexists. split; [vm_compute; reflexivity|].
  eapply (link_adr_atomic demo_driver demo_commands 4 demo_mac); [apply demo_inv|vm_compute; reflexivity].
Defined.

(** The answer to a receive parameter request has two bytes, but three are kept
    for repetition: with that answer alone in the buffer the byte after it,
    whatever it is, is repeated too, and with the answer in the last two bytes of
    the buffer the byte past its end is read. *)
Theorem repeat_copies_one_byte_too_many st stale rest out :
  length out = 15%nat -> length rest = 12%nat ->
  (exists out', ParseMacCommandsToRepeat ([MOTE_MAC_RX_PARAM_SETUP_ANS; st; stale] ++ rest) 2 out = Done (3, out') /\
    take 3 out' = [MOTE_MAC_RX_PARAM_SETUP_ANS; st; stale]) /\
  ParseMacCommandsToRepeat (replicate 13 MOTE_MAC_LINK_CHECK_REQ ++ [MOTE_MAC_RX_PARAM_SETUP_ANS; st]) 15 out = Undef.
Proof.
  intros Ho Hr. explode out. split; [|reflexivity]. eexists. split; reflexivity.
Qed.

Lemma repeat_copies_one_byte_too_many_witness :
  exists out', ParseMacCommandsToRepeat ([MOTE_MAC_RX_PARAM_SETUP_ANS; 7; 99] ++ replicate 12 0) 2 (replicate 15 0)
    = Done (3, out') /\ take 3 out' = [MOTE_MAC_RX_PARAM_SETUP_ANS; 7; 99].
Proof.
  exact (proj1 (repeat_copies_one_byte_too_many 7 99 (replicate 12 0) (replicate 15 0) eq_refl eq_refl)).
Defined.

End MacCommands.
