(* ===== verification/MacFrame.v ===== *)
(** Uplink frames of src/src/mac/LoRaMac.c: building a frame
    ([PrepareFrame]), scheduling it ([ScheduleTx]) and handing it to the radio
    ([SendFrameOnChannel]), as [Send] composes them. *)
From S2P Require Import Prelude Utilities Aes MacTypes MacChannels MacCommands MacCrypto.

Module MacFrame.
Import MacTypes MacChannels MacCommands MacCrypto.
Abbreviation is_block := Aes.is_block.

(** * Frame control byte: [LoRaMacFrameCtrl_t] *)

Record LoRaMacFrameCtrl_t := mkFCtrl {
  FOptsLen : Z;
  FPending : Z;
  Ack : Z;
  AdrAckReq : Z;
  Adr : Z;
}.
#[export] Instance eta_fctrl : Eta LoRaMacFrameCtrl_t :=
  fun c => mkFCtrl (FOptsLen c) (FPending c) (Ack c) (AdrAckReq c) (Adr c).

Definition fctrl_value (c : LoRaMacFrameCtrl_t) : Z :=
  FOptsLen c + 16 * FPending c + 32 * Ack c + 64 * AdrAckReq c + 128 * Adr c.

Definition fctrl_of_byte (b : Z) : LoRaMacFrameCtrl_t :=
  mkFCtrl (b mod 16) ((b / 16) mod 2) ((b / 32) mod 2) ((b / 64) mod 2) ((b / 128) mod 2).

(** [macHdr.Bits.MType] of the byte, and the byte with only [MType] set. *)
Definition MType (hdr : Z) : Z := Z.land (Z.shiftr hdr 5) 0x07.
Definition mhdr (mtype : Z) : Z := Z.shiftl mtype 5.

Definition le16 (z : Z) : list Z := [byte_at z 0; byte_at z 8].
Definition le32 (z : Z) : list Z := [byte_at z 0; byte_at z 8; byte_at z 16; byte_at z 24].

Section Frame.
Context {RD : RadioDriver} {FS : FrameSecurity}.

(** * [PrepareFrame] *)

(** [LoRaMacBuffer[off..] = l] *)
Definition put (off : Z) (l : list Z) : M unit := fun s =>
  let* b := wrn (LoRaMacBuffer s) off l in Done (tt, s <| LoRaMacBuffer := b |>).

(** Appends the integrity code of the first [len] bytes. *)
Definition put_join_mic : M unit := fun s =>
  let len := LoRaMacBufferPktLen s in
  let* msg := rdn (LoRaMacBuffer s) 0 (Z.land (Z.land len 0xFF) 0xFF) in
  let* (_, s) := put len (le32 (fs_join_mic (LoRaMacAppKey s) msg)) s in
  Done (tt, s <| LoRaMacBufferPktLen := len + LORAMAC_MFR_LEN |>).

Definition put_mic : M unit := fun s =>
  let len := LoRaMacBufferPktLen s in
  let* msg := rdn (LoRaMacBuffer s) 0 (Z.land len 0xFF) in
  let mic := fs_mic (LoRaMacNwkSKey s) UP_LINK (LoRaMacDevAddr s) (UpLinkCounter s) msg in
  let* (_, s) := put len (le32 mic) s in
  Done (tt, s <| LoRaMacBufferPktLen := u16 (len + LORAMAC_MFR_LEN) |>).

(** The case [FRAME_TYPE_JOIN_REQ]. *)
Definition prepare_join_req : M unit := fun s =>
  let p := LoRaMacParams s in
  let s := s <| RxWindow1Delay := u32 (JoinAcceptDelay1 p - RADIO_WAKEUP_TIME) |>
             <| RxWindow2Delay := u32 (JoinAcceptDelay2 p - RADIO_WAKEUP_TIME) |> in
  let* b := memcpyr (LoRaMacBuffer s) 1 (LoRaMacAppEui s) 0 8 in
  let* b := memcpyr b 9 (LoRaMacDevEui s) 0 8 in
  let s := s <| LoRaMacBuffer := b |> <| LoRaMacDevNonce := u16 (RadioRandom (env s)) |> in
  let* (_, s) := put 17 (le16 (LoRaMacDevNonce s)) s in
  put_join_mic (s <| LoRaMacBufferPktLen := 19 |>).

(** The commands to repeat go behind the pending ones. *)
Definition append_repeats : M unit := fun s =>
  let* b := memcpy1 (MacCommandsBuffer s) (MacCommandsBufferIndex s)
              (MacCommandsBufferToRepeat s) 0 (MacCommandsBufferToRepeatIndex s) in
  Done (tt, s <| MacCommandsBuffer := b |>
    <| MacCommandsBufferIndex ::= fun i => u8 (i + MacCommandsBufferToRepeatIndex s) |>).

(** What is left of the commands after they were put in a frame. *)
Definition finish_commands : M unit := fun s =>
  let* (n, rep) := ParseMacCommandsToRepeat (MacCommandsBuffer s) (MacCommandsBufferIndex s)
                     (MacCommandsBufferToRepeat s) in
  Done (tt, s <| MacCommandsBufferToRepeatIndex := n |> <| MacCommandsBufferToRepeat := rep |>
    <| MacCommandsInNextTx := 0 <? n |> <| MacCommandsBufferIndex := 0 |>).

(** [payload], [payloadSize] and [framePort], and the header length after the options. *)
Definition place_commands (fctrl : LoRaMacFrameCtrl_t) (payload : option (list Z)) (payloadSize port : Z)
  : M (option (list Z) * Z * Z * Z) := fun s =>
  let idx := MacCommandsBufferIndex s in
  match payload with
  | Some _ =>
      if 0 <? payloadSize then
        if (idx <=? LORA_MAC_COMMAND_MAX_LENGTH) && MacCommandsInNextTx s then
          let fctrl := fctrl <| FOptsLen ::= fun n => (n + idx) mod 16 |> in
          let* (_, s) := put 5 [fctrl_value fctrl] s in
          let* cmds := rdn (MacCommandsBuffer s) 0 idx in
          let* (_, s) := put 8 cmds s in
          Done ((payload, payloadSize, port, u8 (8 + idx)), s)
        else Done ((payload, payloadSize, port, 8), s)
      else if (0 <? idx) && MacCommandsInNextTx s
      then Done ((Some (MacCommandsBuffer s), idx, 0, 8), s)
      else Done ((payload, payloadSize, port, 8), s)
  | None =>
      if (0 <? idx) && MacCommandsInNextTx s
      then Done ((Some (MacCommandsBuffer s), idx, 0, 8), s)
      else Done ((payload, payloadSize, port, 8), s)
  end.

(** The port and the encrypted payload; returns the new header length. *)
Definition place_payload (payload : option (list Z)) (payloadSize port hlen : Z) : M Z := fun s =>
  match payload with
  | Some buf =>
      if 0 <? payloadSize then
        let* (_, s) := put hlen [port] s in
        let key := if port =? 0 then LoRaMacNwkSKey s else LoRaMacAppSKey s in
        let* msg := rdn buf 0 payloadSize in
        let enc := fs_cipher key UP_LINK (LoRaMacDevAddr s) (UpLinkCounter s) msg in
        let* lp := wrn (LoRaMacPayload s) 0 enc in
        let s := s <| LoRaMacPayload := lp |> in
        let hlen := u8 (hlen + 1) in
        let* b := memcpy1 (LoRaMacBuffer s) hlen (LoRaMacPayload s) 0 payloadSize in
        Done (hlen, s <| LoRaMacBuffer := b |>)
      else Done (hlen, s)
  | None => Done (hlen, s)
  end.

(** The case [FRAME_TYPE_DATA_UNCONFIRMED_UP], into which the confirmed one falls. *)
Definition prepare_data (fctrl : LoRaMacFrameCtrl_t) (fPort : Z) (fBuffer : option (list Z)) (fBufferSize payloadSize : Z)
  : M LoRaMacStatus_t := fun s =>
  if negb (IsLoRaMacNetworkJoined s) then Done (LORAMAC_STATUS_NO_NETWORK_JOINED, s) else
  let* ((req, dr), s) := AdrNextDr (negb (Adr fctrl =? 0)) true s in
  let fctrl := fctrl <| AdrAckReq := b2z req |> in
  let s := s <| LoRaMacParams ::= fun p => p <| ChannelsDatarate := dr |> |> in
  let* ok := ValidatePayloadLength s fBufferSize dr (MacCommandsBufferIndex s) in
  if negb ok then Done (LORAMAC_STATUS_LENGTH_ERROR, s) else
  let p := LoRaMacParams s in
  let s := s <| RxWindow1Delay := u32 (ReceiveDelay1 p - RADIO_WAKEUP_TIME) |>
             <| RxWindow2Delay := u32 (ReceiveDelay2 p - RADIO_WAKEUP_TIME) |> in
  let fctrl := if SrvAckRequested s then fctrl <| Ack := 1 |> else fctrl in
  let s := s <| SrvAckRequested := false |> in
  let* (_, s) := put 1 (le32 (LoRaMacDevAddr s) ++ [fctrl_value fctrl] ++ le16 (UpLinkCounter s)) s in
  let* (_, s) := append_repeats s in
  let* ((payload, payloadSize, port, hlen), s) := place_commands fctrl fBuffer payloadSize fPort s in
  let* (_, s) := finish_commands s in
  let* (hlen, s) := place_payload payload payloadSize port hlen s in
  let* (_, s) := put_mic (s <| LoRaMacBufferPktLen := u16 (hlen + payloadSize) |>) in
  Done (LORAMAC_STATUS_OK, s).

Definition prepare_proprietary (fBuffer : option (list Z)) (fBufferSize : Z) : M unit := fun s =>
  match fBuffer with
  | Some buf =>
      if 0 <? fBufferSize then
        let* b := memcpy1 (LoRaMacBuffer s) 1 buf 0 fBufferSize in
        Done (tt, s <| LoRaMacBuffer := b |> <| LoRaMacBufferPktLen := u16 (1 + fBufferSize) |>)
      else Done (tt, s)
  | None => Done (tt, s)
  end.

Definition PrepareFrame (hdr : Z) (fctrl : LoRaMacFrameCtrl_t) (fPort : Z) (fBuffer : option (list Z)) (fBufferSize : Z)
  : M LoRaMacStatus_t := fun s =>
  let payloadSize := u8 fBufferSize in
  let s := s <| LoRaMacBufferPktLen := 0 |> <| NodeAckRequested := false |> in
  let fBufferSize := match fBuffer with None => 0 | Some _ => fBufferSize end in
  let* (_, s) := put 0 [hdr] s in
  let t := MType hdr in
  if t =? FRAME_TYPE_JOIN_REQ then
    let* (_, s) := prepare_join_req s in Done (LORAMAC_STATUS_OK, s)
  else if t =? FRAME_TYPE_DATA_CONFIRMED_UP then
    prepare_data fctrl fPort fBuffer fBufferSize payloadSize (s <| NodeAckRequested := true |>)
  else if t =? FRAME_TYPE_DATA_UNCONFIRMED_UP then
    prepare_data fctrl fPort fBuffer fBufferSize payloadSize s
  else if t =? FRAME_TYPE_PROPRIETARY then
    let* (_, s) := prepare_proprietary fBuffer fBufferSize s in Done (LORAMAC_STATUS_OK, s)
  else Done (LORAMAC_STATUS_SERVICE_UNKNOWN, s).

(** * [SendFrameOnChannel] *)

Definition tx_config (dr datarate txPower len : Z) : list action * RadioModems_t :=
  if dr =? 7 then
    ([RadioSetMaxPayloadLength MODEM_FSK len; RadioSetTxConfig MODEM_FSK txPower 25000 0 (datarate * 1000)], MODEM_FSK)
  else if dr =? 6 then
    ([RadioSetMaxPayloadLength MODEM_LORA len; RadioSetTxConfig MODEM_LORA txPower 0 1 datarate], MODEM_LORA)
  else
    ([RadioSetMaxPayloadLength MODEM_LORA len; RadioSetTxConfig MODEM_LORA txPower 0 0 datarate], MODEM_LORA).

Definition SendFrameOnChannel (channel : ChannelParams_t) : M LoRaMacStatus_t := fun s =>
  let p := LoRaMacParams s in
  let* datarate := rd Datarates (ChannelsDatarate p) in
  let txPowerIndex := LimitTxPower (ChannelsTxPower p) in
  let* txPower := rd TxPowers txPowerIndex in
  let len := LoRaMacBufferPktLen s in
  let '(config, modem) := tx_config (ChannelsDatarate p) datarate txPower len in
  let toa := TimeOnAir modem len in
  let* frame := rdn (LoRaMacBuffer s) 0 len in
  Done (LORAMAC_STATUS_OK,
    s <| MlmeConfirm ::= fun c => c <| ml_Status := LORAMAC_EVENT_INFO_STATUS_ERROR |> <| ml_TxTimeOnAir := toa |> |>
      <| McpsConfirm ::= fun c => c <| mc_Status := LORAMAC_EVENT_INFO_STATUS_ERROR |>
           <| mc_Datarate := ChannelsDatarate p |> <| mc_TxPower := txPowerIndex |> <| mc_TxTimeOnAir := toa |> |>
      <| TxTimeOnAir := toa |>
      <| trace ::= fun t => t ++ [RadioSetChannel (Frequency channel)] ++ config ++
           [TimerSetValue MacStateCheckTimer MAC_STATE_CHECK_TIMEOUT; TimerStart MacStateCheckTimer; RadioSend frame] |>
      <| LoRaMacState ::= fun v => Z.lor v MAC_TX_RUNNING |>).

(** * [ScheduleTx] *)

(** The loop [while( SetNextChannel( &dutyCycleTimeOff ) == false )]; returns the time off. *)
Fixpoint select_channel (fuel : nat) : M Z := fun s =>
  match fuel with
  | O => NoFuel
  | S fuel' =>
      let* ((ok, t), s) := SetNextChannel s in
      if ok then Done (t, s)
      else select_channel fuel' (s <| LoRaMacParams ::= fun p =>
             reenable_default (p <| ChannelsDatarate := ChannelsDatarate (LoRaMacParamsDefaults s) |>) |>)
  end.

(** Two rounds are enough when the default channels support the default datarate. *)
Definition ScheduleTx : M LoRaMacStatus_t := fun s =>
  if MaxDCycle s =? 255 then Done (LORAMAC_STATUS_DEVICE_OFF, s) else
  let s := if MaxDCycle s =? 0 then s <| AggregatedTimeOff := 0 |> else s in
  let* (_, s) := CalculateBackOff (LastTxChannel s) s in
  let* (dutyCycleTimeOff, s) := select_channel 2 s in
  if dutyCycleTimeOff =? 0 then
    let* ch := rd (Channels s) (Channel s) in
    SendFrameOnChannel ch s
  else
    let* (_, s) := state_set MAC_TX_DELAYED s in
    let* (_, s) := emit (TimerSetValue TxDelayedTimer dutyCycleTimeOff) s in
    let* (_, s) := emit (TimerStart TxDelayedTimer) s in
    Done (LORAMAC_STATUS_OK, s).

(** * [Send] *)

Definition Send (hdr fPort : Z) (fBuffer : option (list Z)) (fBufferSize : Z) : M LoRaMacStatus_t := fun s =>
  let fctrl := mkFCtrl 0 0 0 0 (b2z (AdrCtrlOn s)) in
  let* (status, s) := PrepareFrame hdr fctrl fPort fBuffer fBufferSize s in
  if negb (bool_decide (status = LORAMAC_STATUS_OK)) then Done (status, s) else
  let s := s <| McpsConfirm ::= fun c => c <| mc_NbRetries := 0 |> <| mc_AckReceived := false |>
             <| mc_UpLinkCounter := UpLinkCounter s |> |> in
  ScheduleTx s.

(** * Lemmas *)

Lemma le16_bytes z : le16 z = le_bytes 2 z.
Proof.
  unfold le16. rewrite !byte_at_spec by lia. cbn [le_bytes]. rewrite Z.div_1_r. done.
Qed.

Lemma le32_bytes z : le32 z = le_bytes 4 z.
Proof. apply byte_at_le. Qed.

Lemma put_spec s off l : 0 <= off -> off + zlen l <= zlen (LoRaMacBuffer s) ->
  put off l s = Done (tt, s <| LoRaMacBuffer := splice (LoRaMacBuffer s) (Z.to_nat off) l |>).
Proof. intros H0 Hl. unfold put. rewrite wrn_ok by lia. done. Qed.

Lemma memcpy1_splice dst d src n : 0 <= d -> is_u16 n -> d + n <= zlen dst -> n <= zlen src ->
  memcpy1 dst d src 0 n = Done (splice dst (Z.to_nat d) (take (Z.to_nat n) src)).
Proof.
  intros. rewrite memcpy1_spec by (done || lia). rewrite drop_0. unfold splice.
  by rewrite length_take, Nat.min_l by lia.
Qed.

(** ** Commands in a frame *)

(** The bytes of the options field: pending answers and those to repeat. *)
Definition fopts (s : mac) : list Z :=
  pending s ++ take (Z.to_nat (MacCommandsBufferToRepeatIndex s)) (MacCommandsBufferToRepeat s).

Lemma fopts_length s : cmd_wf s -> zlen (fopts s) = MacCommandsBufferIndex s + MacCommandsBufferToRepeatIndex s.
Proof. intros []. unfold fopts, pending. rewrite length_app, !length_take. lia. Qed.

Lemma append_repeats_spec s : cmd_wf s ->
  exists b, append_repeats s = Done (tt, s <| MacCommandsBuffer := b |>
      <| MacCommandsBufferIndex := MacCommandsBufferIndex s + MacCommandsBufferToRepeatIndex s |>) /\
    length b = 15%nat /\ starts b (fopts s).
Proof.
  intros Hw. pose proof Hw as [W1 W2 W3 W4 W5]. unfold append_repeats.
  rewrite memcpy1_splice by (try (unfold is_u16); lia). cbn [rbind].
  set (x := take _ (MacCommandsBufferToRepeat s)).
  assert (Hx : zlen x = MacCommandsBufferToRepeatIndex s) by (unfold x; rewrite length_take; lia).
  eexists. split; [|split].
  - unfold update. cbn. rewrite u8_id by (unfold is_u8; lia). done.
  - rewrite splice_length; lia.
  - unfold fopts. fold x.
    assert (Hp : length (pending s) = Z.to_nat (MacCommandsBufferIndex s)) by (unfold pending; rewrite length_take; lia).
    rewrite <- Hp. apply starts_splice; [|lia]. unfold starts. rewrite Hp. done.
Qed.

Lemma parse_repeat_spec cmdBufIn len : length cmdBufIn = 15%nat -> 0 <= len <= 13 ->
  forall fuel i cnt out, length out = 15%nat -> 0 <= cnt -> cnt <= i -> i <= len + 2 ->
  Z.max 0 (len - i) < Z.of_nat fuel ->
  exists n out', parse_repeat fuel cmdBufIn len i cnt out = Done (n, out') /\ length out' = 15%nat /\ 0 <= n <= 15.
Proof.
  intros HL Hlen. induction fuel as [|fuel IH]; intros i cnt out Ho Hc Hci Hi Hf; [lia|]. cbn [parse_repeat].
  destruct (Z.ltb_spec i len) as [Hlt|Hge].
  2: { exists cnt, out. split; [done|]. split; [done|lia]. }
  destruct (rd_ok cmdBufIn i) as (c & -> & _); [lia|]. cbn [rbind].
  destruct (c =? MOTE_MAC_RX_PARAM_SETUP_ANS).
  - rewrite wr_ok by lia. cbn [rbind]. destruct (rd_ok cmdBufIn (i + 1)) as (b1 & -> & _); [lia|]. cbn [rbind].
    rewrite wr_ok by (rewrite length_insert; lia). cbn [rbind].
    destruct (rd_ok cmdBufIn (i + 2)) as (b2 & -> & _); [lia|]. cbn [rbind].
    rewrite wr_ok by (rewrite !length_insert; lia). cbn [rbind]. rewrite !u8_id by (unfold is_u8; lia).
    apply IH; rewrite ?length_insert; lia.
  - destruct (c =? MOTE_MAC_RX_TIMING_SETUP_ANS).
    + rewrite wr_ok by lia. cbn [rbind]. rewrite !u8_id by (unfold is_u8; lia).
      apply IH; rewrite ?length_insert; lia.
    + rewrite !u8_id by (unfold is_u8; lia). apply IH; lia.
Qed.

Lemma finish_commands_spec s : length (MacCommandsBuffer s) = 15%nat -> length (MacCommandsBufferToRepeat s) = 15%nat ->
  0 <= MacCommandsBufferIndex s <= 13 ->
  exists n rep, finish_commands s = Done (tt, s <| MacCommandsBufferToRepeatIndex := n |>
      <| MacCommandsBufferToRepeat := rep |> <| MacCommandsInNextTx := 0 <? n |> <| MacCommandsBufferIndex := 0 |>) /\
    length rep = 15%nat /\ 0 <= n <= 15.
Proof.
  intros H1 H2 H3. unfold finish_commands, ParseMacCommandsToRepeat.
  destruct (parse_repeat_spec (MacCommandsBuffer s) (MacCommandsBufferIndex s) H1 H3
    (S (Z.to_nat (MacCommandsBufferIndex s))) 0 0 (MacCommandsBufferToRepeat s)) as (n & rep & -> & HL & Hn); try lia.
  cbn [rbind]. by exists n, rep.
Qed.

(** ** Payload and integrity code *)

Lemma place_payload_spec s buf size port hlen :
  length (LoRaMacPayload s) = 255%nat -> 1 <= size -> size <= zlen buf -> size < 256 - 1 ->
  0 <= hlen -> hlen + 1 + size <= zlen (LoRaMacBuffer s) -> zlen (LoRaMacBuffer s) = 255 ->
  is_block (LoRaMacNwkSKey s) -> is_block (LoRaMacAppSKey s) ->
  let key := if port =? 0 then LoRaMacNwkSKey s else LoRaMacAppSKey s in
  let enc := fs_cipher key UP_LINK (LoRaMacDevAddr s) (UpLinkCounter s) (take (Z.to_nat size) buf) in
  exists lp, place_payload (Some buf) size port hlen s =
    Done (hlen + 1, s <| LoRaMacPayload := lp |>
      <| LoRaMacBuffer := splice (splice (LoRaMacBuffer s) (Z.to_nat hlen) [port]) (Z.to_nat (hlen + 1)) enc |>) /\
    length lp = 255%nat /\ zlen enc = size.
Proof.
  intros Hp Hs Hsb Hs2 Hh Hfit HL Hk1 Hk2 key enc. unfold place_payload.
  rewrite (proj2 (Z.ltb_lt 0 size)) by lia. rewrite put_spec by (cbn [length]; lia). cbn [rbind].
  rewrite rdn_ok by lia. cbn [rbind]. change (Z.to_nat 0) with 0%nat. rewrite drop_0.
  cbn [update LoRaMacNwkSKey LoRaMacAppSKey LoRaMacDevAddr UpLinkCounter LoRaMacPayload]. fold key. fold enc.
  assert (He : length enc = Z.to_nat size).
  { unfold enc. rewrite fs_cipher_length; rewrite ?length_take; try lia.
    - unfold key. by destruct (port =? 0).
    - unfold is_u8, UP_LINK. lia. }
  rewrite wrn_ok by lia. cbn [rbind]. change (Z.to_nat 0) with 0%nat. rewrite take_0.
  cbn [update LoRaMacBuffer LoRaMacPayload app]. rewrite u8_id by (unfold is_u8; lia).
  set (lp := enc ++ drop (0 + length enc) (LoRaMacPayload s)).
  assert (Hlp : length lp = 255%nat) by (unfold lp; rewrite length_app, length_drop; lia).
  rewrite memcpy1_splice; [| lia | unfold is_u16; lia | rewrite splice_length; cbn [length]; lia | lia].
  cbn [rbind]. exists lp. split; [|split; [done|lia]].
  replace (take (Z.to_nat size) lp) with enc; [done|].
  unfold lp. rewrite <- He. by rewrite take_app_length.
Qed.

Lemma put_mic_spec s body : starts (LoRaMacBuffer s) body -> zlen body = LoRaMacBufferPktLen s ->
  zlen body < 256 -> zlen body + 4 <= zlen (LoRaMacBuffer s) ->
  let mic := fs_mic (LoRaMacNwkSKey s) UP_LINK (LoRaMacDevAddr s) (UpLinkCounter s) body in
  exists b, put_mic s = Done (tt, s <| LoRaMacBuffer := b |> <| LoRaMacBufferPktLen := zlen body + 4 |>) /\
    starts b (body ++ le_bytes 4 mic) /\ length b = length (LoRaMacBuffer s).
Proof.
  intros Hs Hl H256 Hfit mic. unfold put_mic. rewrite <- Hl.
  rewrite (land_ff (zlen body)), Z.mod_small by lia. rewrite rdn_ok by lia. cbn [rbind].
  change (Z.to_nat 0) with 0%nat. rewrite drop_0, Nat2Z.id, Hs. fold mic.
  rewrite le32_bytes. rewrite put_spec by (rewrite ?le_bytes_length; lia). cbn [rbind]. rewrite Nat2Z.id.
  eexists. unfold LORAMAC_MFR_LEN. rewrite u16_id by (unfold is_u16; lia). split; [done|]. split.
  - apply starts_splice; [done|]. rewrite le_bytes_length. lia.
  - rewrite splice_length; [done|]. rewrite le_bytes_length. lia.
Qed.

(** ** Whole data frames *)

(** The MAC's buffers and keys have their sizes. *)
Record buf_wf (s : mac) : Prop := mkBufWf {
  bw_buffer : length (LoRaMacBuffer s) = 255%nat;
  bw_payload : length (LoRaMacPayload s) = 255%nat;
  bw_rx : length (LoRaMacRxPayload s) = 255%nat;
  bw_nwk : is_block (LoRaMacNwkSKey s);
  bw_app : is_block (LoRaMacAppSKey s);
}.

Definition data_body (s : mac) (hdr : Z) (fc : LoRaMacFrameCtrl_t) (opts : list Z) (port : Z) (msg : list Z) : list Z :=
  [hdr] ++ le_bytes 4 (LoRaMacDevAddr s) ++ [fctrl_value (fc <| FOptsLen := zlen opts |>)] ++ le_bytes 2 (UpLinkCounter s) ++ opts ++ [port] ++
  fs_cipher (if port =? 0 then LoRaMacNwkSKey s else LoRaMacAppSKey s) UP_LINK (LoRaMacDevAddr s) (UpLinkCounter s) msg.

(** The frame in the buffer of [s'], built from the state [s]. *)
Definition data_frame (s : mac) (hdr : Z) (fc : LoRaMacFrameCtrl_t) (port : Z) (msg : list Z) (s' : mac) : Prop :=
  let opts := if MacCommandsInNextTx s then fopts s else [] in
  let body := data_body s hdr fc opts port msg in
  take (Z.to_nat (LoRaMacBufferPktLen s')) (LoRaMacBuffer s') =
    body ++ le_bytes 4 (fs_mic (LoRaMacNwkSKey s) UP_LINK (LoRaMacDevAddr s) (UpLinkCounter s) body) /\
  LoRaMacBufferPktLen s' = zlen body + 4 /\ LoRaMacBufferPktLen s' <= 255.

(** The options of a frame with a payload: [h] are the five bytes before the
    control byte, [c] the two counter bytes after it. *)
Lemma place_commands_spec s fc msg size port h c :
  length (LoRaMacBuffer s) = 255%nat -> length (MacCommandsBuffer s) = 15%nat ->
  0 <= MacCommandsBufferIndex s <= 13 -> 1 <= size -> FOptsLen fc = 0 ->
  length h = 5%nat -> length c = 2%nat -> starts (LoRaMacBuffer s) (h ++ fctrl_value fc :: c) ->
  let opts := if MacCommandsInNextTx s then pending s else [] in
  let fc' := fc <| FOptsLen := zlen opts |> in
  exists b, place_commands fc (Some msg) size port s =
      Done ((Some msg, size, port, 8 + zlen opts), s <| LoRaMacBuffer := b |>) /\
    length b = 255%nat /\ starts b ((h ++ fctrl_value fc' :: c) ++ opts).
Proof.
  intros HB HM Hidx Hsz Hf Hh Hc Hst opts fc'. unfold place_commands, LORA_MAC_COMMAND_MAX_LENGTH.
  rewrite (proj2 (Z.ltb_lt 0 size)) by lia. rewrite (proj2 (Z.leb_le _ 15)) by lia. cbn [andb].
  destruct (MacCommandsInNextTx s).
  - assert (Hol : zlen opts = MacCommandsBufferIndex s) by (unfold opts, pending; rewrite length_take; lia).
    assert (Hfc : fc <| FOptsLen ::= fun n => (n + MacCommandsBufferIndex s) mod 16 |> = fc <| FOptsLen := zlen opts |>).
    { unfold update. rewrite Hf, Hol, Z.add_0_l, Z.mod_small by lia. done. }
    rewrite Hfc. rewrite put_spec by (cbn [length]; lia). cbn [rbind update MacCommandsBuffer].
    rewrite rdn_ok by lia. cbn [rbind]. change (Z.to_nat 0) with 0%nat. rewrite drop_0. fold (pending s). fold opts.
    rewrite put_spec by (cbn [update LoRaMacBuffer]; rewrite ?splice_length; cbn [length]; lia). cbn [rbind update LoRaMacBuffer].
    rewrite u8_id by (unfold is_u8; lia). rewrite <- Hol. eexists. split; [done|]. unfold fc'.
    assert (Hst' : starts (splice (LoRaMacBuffer s) 5 [fctrl_value (fc <| FOptsLen := zlen opts |>)])
      (h ++ fctrl_value (fc <| FOptsLen := zlen opts |>) :: c)).
    { rewrite <- Hh. by eapply starts_over. }
    assert (H8 : length (h ++ fctrl_value (fc <| FOptsLen := zlen opts |>) :: c) = 8%nat)
      by (rewrite length_app; cbn [length]; lia).
    split; [rewrite splice_length, splice_length; cbn [length]; rewrite ?splice_length; cbn [length]; lia|].
    change (Z.to_nat 8) with 8%nat. change (Z.to_nat 5) with 5%nat. rewrite <- H8. apply starts_splice; [done|].
    rewrite splice_length; cbn [length]; lia.
  - exists (LoRaMacBuffer s). split; [by destruct s|]. split; [done|]. unfold fc', opts. rewrite app_nil_r.
    replace (fc <| FOptsLen := zlen [] |>) with fc; [done|]. destruct fc. cbn in *. by subst.
Qed.

(** The header bytes at offset 1. *)
Lemma put_header_spec s hdr v : length (LoRaMacBuffer s) = 255%nat -> starts (LoRaMacBuffer s) [hdr] ->
  exists b, put 1 (le32 (LoRaMacDevAddr s) ++ [v] ++ le16 (UpLinkCounter s)) s = Done (tt, s <| LoRaMacBuffer := b |>) /\
    length b = 255%nat /\
    starts b (([hdr] ++ le_bytes 4 (LoRaMacDevAddr s)) ++ v :: le_bytes 2 (UpLinkCounter s)).
Proof.
  intros HB Hst. rewrite le32_bytes, le16_bytes.
  assert (HL : length (le_bytes 4 (LoRaMacDevAddr s) ++ [v] ++ le_bytes 2 (UpLinkCounter s)) = 7%nat)
    by (rewrite !length_app, !le_bytes_length; done).
  rewrite put_spec by lia. eexists. split; [done|].
  split; [rewrite splice_length; lia|]. rewrite <- app_assoc. change (Z.to_nat 1) with (length [hdr]).
  apply starts_splice; [done|]. cbn [app] in HL. rewrite HL, HB. cbn [length]. lia.
Qed.

Lemma starts_port (b pre : list Z) port enc : starts b pre -> (length pre + 1 + length enc <= length b)%nat ->
  let b' := splice (splice b (length pre) [port]) (S (length pre)) enc in
  starts b' ((pre ++ [port]) ++ enc) /\ length b' = length b.
Proof.
  intros Hs HL b'. unfold b'.
  replace (S (length pre)) with (length (pre ++ [port])) by (rewrite length_app; cbn [length]; lia).
  assert (HL1 : length (splice b (length pre) [port]) = length b) by (rewrite splice_length; cbn [length]; lia).
  assert (HL2 : length (pre ++ [port]) = (length pre + 1)%nat) by (rewrite length_app; done).
  split; [|rewrite splice_length; lia].
  apply starts_splice; [apply starts_splice; [done|cbn [length]; lia]|lia].
Qed.

(** From the header on: the frame of a payload. *)
Definition data_tail (fc : LoRaMacFrameCtrl_t) (port : Z) (msg : list Z) : M LoRaMacStatus_t := fun s =>
  let* (_, s) := put 1 (le32 (LoRaMacDevAddr s) ++ [fctrl_value fc] ++ le16 (UpLinkCounter s)) s in
  let* (_, s) := append_repeats s in
  let* ((payload, payloadSize, port, hlen), s) := place_commands fc (Some msg) (zlen msg) port s in
  let* (_, s) := finish_commands s in
  let* (hlen, s) := place_payload payload payloadSize port hlen s in
  let* (_, s) := put_mic (s <| LoRaMacBufferPktLen := u16 (hlen + payloadSize) |>) in
  Done (LORAMAC_STATUS_OK, s).

Lemma data_tail_spec s hdr fc port msg :
  buf_wf s -> cmd_wf s -> starts (LoRaMacBuffer s) [hdr] -> FOptsLen fc = 0 ->
  MacCommandsBufferIndex s + MacCommandsBufferToRepeatIndex s <= 13 ->
  1 <= zlen msg -> zlen msg + MacCommandsBufferIndex s + MacCommandsBufferToRepeatIndex s <= 242 ->
  exists s', data_tail fc port msg s = Done (LORAMAC_STATUS_OK, s') /\
    data_frame s hdr fc port msg s' /\ buf_wf s' /\ cmd_wf s' /\ same_session s s' /\
    MacCommandsBufferIndex s' = 0 /\ LoRaMacParams s' = LoRaMacParams s /\ SrvAckRequested s' = SrvAckRequested s.
Proof.
  intros [B1 B2 B3 B4 B5] Hc Hst Hf H13 Hm1 Hm2. pose proof Hc as [W1 W2 W3 W4 W5].
  pose proof (fopts_length s Hc) as HFL. unfold data_tail.
  destruct (put_header_spec s hdr (fctrl_value fc) B1 Hst) as (b1 & -> & Hb1 & Hs1). cbn [rbind].
  destruct (append_repeats_spec (s <| LoRaMacBuffer := b1 |>)) as (cb & -> & Hcb & Hcs); [by split|].
  cbn [rbind update MacCommandsBufferIndex MacCommandsBufferToRepeatIndex].
  set (s2 := s <| LoRaMacBuffer := b1 |> <| MacCommandsBuffer := cb |> <| MacCommandsBufferIndex := _ |>).
  assert (Hfo : pending s2 = fopts s).
  { unfold pending, s2. cbn [update MacCommandsBufferIndex MacCommandsBuffer].
    apply starts_take; [exact Hcs|]. lia. }
  assert (Hin : MacCommandsInNextTx s2 = MacCommandsInNextTx s) by done.
  assert (HI2 : MacCommandsBufferIndex s2 = MacCommandsBufferIndex s + MacCommandsBufferToRepeatIndex s) by done.
  destruct (place_commands_spec s2 fc msg (zlen msg) port ([hdr] ++ le_bytes 4 (LoRaMacDevAddr s)) (le_bytes 2 (UpLinkCounter s)))
    as (b3 & -> & Hb3 & Hs3); try done.
  { rewrite HI2. lia. }
  rewrite Hfo, Hin in *. cbn [rbind].
  set (opts := if MacCommandsInNextTx s then fopts s else []) in *.
  assert (Hol : zlen opts <= 13 /\ zlen opts <= MacCommandsBufferIndex s + MacCommandsBufferToRepeatIndex s)
    by (unfold opts; destruct (MacCommandsInNextTx s); cbn [length]; lia).
  destruct (finish_commands_spec (s2 <| LoRaMacBuffer := b3 |>)) as (n & rep & -> & Hrep & Hn); try done.
  { change (MacCommandsBufferIndex (s2 <| LoRaMacBuffer := b3 |>)) with (MacCommandsBufferIndex s2). lia. }
  cbn [rbind]. set (s3 := (s2 <| LoRaMacBuffer := b3 |>) <| MacCommandsBufferToRepeatIndex := n |>
      <| MacCommandsBufferToRepeat := rep |> <| MacCommandsInNextTx := 0 <? n |> <| MacCommandsBufferIndex := 0 |>).
  destruct (place_payload_spec s3 msg (zlen msg) port (8 + zlen opts)) as (lp & -> & Hlp & He); try done; try lia.
  { change (LoRaMacBuffer s3) with b3. lia. }
  { change (LoRaMacBuffer s3) with b3. lia. }
  cbn [rbind]. change (LoRaMacBuffer s3) with b3. rewrite Nat2Z.id, firstn_all in *.
  change (LoRaMacNwkSKey s3) with (LoRaMacNwkSKey s) in *. change (LoRaMacAppSKey s3) with (LoRaMacAppSKey s) in *.
  change (LoRaMacDevAddr s3) with (LoRaMacDevAddr s) in *. change (UpLinkCounter s3) with (UpLinkCounter s) in *.
  set (enc := fs_cipher _ _ _ _ _) in *.
  set (pre := (([hdr] ++ _) ++ _) ++ opts) in *.
  assert (Hpl : zlen pre = 8 + zlen opts).
  { unfold pre. rewrite !length_app. cbn [length]. rewrite !le_bytes_length. lia. }
  assert (Hh : Z.to_nat (8 + zlen opts) = length pre) by lia.
  assert (Hh1 : Z.to_nat (8 + zlen opts + 1) = S (length pre)) by lia. rewrite Hh, Hh1.
  destruct (starts_port b3 pre port enc) as [Hs4 Hb4]; [done|lia|]. rewrite Hb3 in Hb4.
  revert Hs4 Hb4. generalize (splice (splice b3 (length pre) [port]) (S (length pre)) enc).
  intros b4 Hs4 Hb4. rewrite u16_id by (unfold is_u16; lia).
  destruct (put_mic_spec (s3 <| LoRaMacPayload := lp |> <| LoRaMacBuffer := b4 |>
     <| LoRaMacBufferPktLen := 8 + zlen opts + 1 + zlen msg |>) ((pre ++ [port]) ++ enc)) as (b5 & -> & Hs5 & Hb5).
  { exact Hs4. }
  1-3: cbn [update LoRaMacBuffer LoRaMacBufferPktLen]; rewrite !length_app; cbn [length]; lia.
  cbn [rbind]. eexists. split; [reflexivity|]. 
  assert (Hbody : data_body s hdr fc opts port msg = (pre ++ [port]) ++ enc).
  { unfold data_body, pre. fold enc. rewrite <- !app_assoc. done. }
  split; [|split; [|split; [|by split_and!]]].
  - unfold data_frame. fold opts. rewrite Hbody. cbn [update LoRaMacBuffer LoRaMacBufferPktLen].
    split; [|split; [done|rewrite !length_app; cbn [length]; lia]].
    apply starts_take; [exact Hs5|]. rewrite length_app, le_bytes_length. lia.
  - change (length b5 = length b4) in Hb5. rewrite Hb4 in Hb5. constructor; [exact Hb5|exact Hlp|exact B3|exact B4|exact B5].
  - constructor; [exact Hcb|exact Hrep|change (0 <= 0)|change (0 <= n)|change (0 + n <= 15)]; lia.
Qed.

Lemma AdrNextDr_total s en upd : 0 <= ChannelsDatarate (LoRaMacParams s) <= 7 ->
  exists req dr a p, AdrNextDr en upd s = Done ((req, dr), s <| AdrAckCounter := a |> <| LoRaMacParams := p |>) /\
    0 <= dr <= ChannelsDatarate (LoRaMacParams s) /\ (p = LoRaMacParams s \/ p = reenable_default (LoRaMacParams s)).
Proof.
  intros Hdr. unfold AdrNextDr, LORAMAC_TX_MIN_DATARATE.
  destruct en; cbn [negb]; [|exists false, (ChannelsDatarate (LoRaMacParams s)), (AdrAckCounter s), (LoRaMacParams s);
    split; [by destruct s|split; [lia|by left]]].
  destruct (Z.eqb_spec (ChannelsDatarate (LoRaMacParams s)) 0).
  { exists false, (ChannelsDatarate (LoRaMacParams s)), 0, (LoRaMacParams s). split; [by destruct s|split; [lia|by left]]. }
  destruct (_ && _).
  - rewrite (proj2 (Z.ltb_lt 0 _)) by lia.
    eexists _, (ChannelsDatarate (LoRaMacParams s) - 1), (AdrAckCounter s),
      (if (ChannelsDatarate (LoRaMacParams s) - 1 =? 0) && upd then reenable_default (LoRaMacParams s) else LoRaMacParams s).
    destruct (_ && upd); (split; [by destruct s|split; [lia|auto]]).
  - eexists _, (ChannelsDatarate (LoRaMacParams s)), (AdrAckCounter s), (LoRaMacParams s).
    split; [by destruct s|split; [lia|by left]].
Qed.

(** The longest payload of a datarate, options included. *)
Definition max_payload (s : mac) (dr : Z) : Z :=
  (if RepeaterSupport s then MaxPayloadOfDatarateRepeater else MaxPayloadOfDatarate).[dr].

Lemma ValidatePayloadLength_spec s len dr n : 0 <= dr <= 7 -> is_u8 len -> 0 <= n <= 15 ->
  ValidatePayloadLength s len dr n = Done (len + n <=? max_payload s dr).
Proof.
  intros Hdr Hl Hn. unfold ValidatePayloadLength, max_payload, LORAMAC_PHY_MAXPAYLOAD.
  rewrite u8_id, u16_id by (unfold is_u8, is_u16 in *; lia).
  assert (H : forall l, length l = 8%nat -> Forall (fun x => x <= 255) l ->
    rd l dr = Done l.[dr] /\ l.[dr] <= 255).
  { intros l HL HF. destruct (rd_ok l dr) as (x & -> & Hx); [lia|]. unfold znth. rewrite (nth_lookup_Some _ _ _ x Hx).
    split; [done|]. eapply (proj1 (Forall_forall _ _) HF), list_elem_of_lookup_2, Hx. }
  destruct (RepeaterSupport s).
  - destruct (H MaxPayloadOfDatarateRepeater) as [-> Hm]; [done|repeat (apply List.Forall_cons; [lia|]); apply List.Forall_nil|].
    cbn [rbind]. do 2 f_equal. destruct (Z.leb_spec (len + n) (MaxPayloadOfDatarateRepeater.[dr])); cbn [andb]; [|done].
    apply Z.leb_le. lia.
  - destruct (H MaxPayloadOfDatarate) as [-> Hm]; [done|repeat (apply List.Forall_cons; [lia|]); apply List.Forall_nil|].
    cbn [rbind]. do 2 f_equal. destruct (Z.leb_spec (len + n) (MaxPayloadOfDatarate.[dr])); cbn [andb]; [|done].
    apply Z.leb_le. lia.
Qed.

(** The control byte of an uplink: [req] is the answer of the datarate adaptation. *)
Definition uplink_fctrl (s : mac) (fctrl : LoRaMacFrameCtrl_t) (req : bool) : LoRaMacFrameCtrl_t :=
  let fctrl := fctrl <| AdrAckReq := b2z req |> in
  if SrvAckRequested s then fctrl <| Ack := 1 |> else fctrl.

Lemma prepare_data_spec s hdr fctrl port msg :
  buf_wf s -> cmd_wf s -> 0 <= ChannelsDatarate (LoRaMacParams s) <= 7 -> IsLoRaMacNetworkJoined s = true ->
  starts (LoRaMacBuffer s) [hdr] -> FOptsLen fctrl = 0 ->
  MacCommandsBufferIndex s + MacCommandsBufferToRepeatIndex s <= 13 ->
  1 <= zlen msg -> zlen msg + MacCommandsBufferIndex s + MacCommandsBufferToRepeatIndex s <= 242 ->
  exists st s' req dr, prepare_data fctrl port (Some msg) (zlen msg) (zlen msg) s = Done (st, s') /\
    0 <= dr <= ChannelsDatarate (LoRaMacParams s) /\ ChannelsDatarate (LoRaMacParams s') = dr /\
    NodeAckRequested s' = NodeAckRequested s /\
    if zlen msg + MacCommandsBufferIndex s <=? max_payload s dr
    then st = LORAMAC_STATUS_OK /\ data_frame s hdr (uplink_fctrl s fctrl req) port msg s' /\
         SrvAckRequested s' = false /\ MacCommandsBufferIndex s' = 0 /\ buf_wf s' /\ cmd_wf s'
    else st = LORAMAC_STATUS_LENGTH_ERROR.
Proof.
  intros HB HC Hdr Hj Hst Hf H13 Hm1 Hm2. unfold prepare_data. rewrite Hj. cbn [negb].
  destruct (AdrNextDr_total s (negb (Adr fctrl =? 0)) true Hdr) as (req & dr & a & p & -> & Hdr' & Hp). cbn [rbind].
  rewrite ValidatePayloadLength_spec; [|lia|destruct HC; unfold is_u8; lia|destruct HC; cbn [update MacCommandsBufferIndex]; lia].
  cbn [rbind]. change (max_payload _ dr) with (max_payload s dr).
  change (MacCommandsBufferIndex (_ <| LoRaMacParams ::= _ |>)) with (MacCommandsBufferIndex s).
  destruct (zlen msg + MacCommandsBufferIndex s <=? max_payload s dr) eqn:Ev; cbn [negb];
    [|by eexists _, _, req, dr; split; [done|rewrite Ev]].
  set (s1 := s <| AdrAckCounter := a |> <| LoRaMacParams := p |> <| LoRaMacParams ::= _ |>).
  set (s2 := s1 <| RxWindow1Delay := _ |> <| RxWindow2Delay := _ |>).
  change (if SrvAckRequested s2 then _ else _) with (uplink_fctrl s fctrl req).
  set (fc := uplink_fctrl s fctrl req).
  destruct (data_tail_spec (s2 <| SrvAckRequested := false |>) hdr fc port msg)
    as (s' & E & Hfr & HB' & HC' & HS & Hi & HPa & HSA); try done.
  - by destruct HB.
  - by destruct HC.
  - unfold fc, uplink_fctrl. by destruct (SrvAckRequested s).
  - exists LORAMAC_STATUS_OK, s', req, dr. split; [exact E|]. split; [done|]. rewrite HPa.
    rewrite Ev. split; [done|]. split; [by destruct HS as (_ & _ & _ & _ & _ & _ & _ & _ & _ & _ & _ & _ & _ & _ & HN & _)|].
    by split_and!.
Qed.

(** ** Scheduling *)

(** Choosing a channel changes nothing but the duty-cycle state, the mask and the choice. *)
Lemma SetNextChannel_frame s r s' : SetNextChannel s = Done (r, s') ->
  exists a b n c p, s' = s <| LoRaMacParams := p |> <| AggregatedTimeOff := a |> <| Bands := b |> <| rand_next := n |> <| Channel := c |> /\
    (p = LoRaMacParams s \/ p = reenable_default (LoRaMacParams s)) /\ (a = 0 \/ a = AggregatedTimeOff s).
Proof.
  unfold SetNextChannel. intros H.
  assert (He : exists p, ensure_enabled s = s <| LoRaMacParams := p |> /\ (p = LoRaMacParams s \/ p = reenable_default (LoRaMacParams s))).
  { unfold ensure_enabled. destruct (CountBits _ 16 =? 0).
    - exists (reenable_default (LoRaMacParams s)). by split; [|right].
    - exists (LoRaMacParams s). by split; [destruct s|left]. }
  destruct He as (p & He & Hp). rewrite He in H.
  set (s0 := s <| LoRaMacParams := p |>) in *.
  apply rbind_inv in H as ([[[s1 en] dl] nx] & E & H).
  assert (E1 : exists a b, s1 = s0 <| AggregatedTimeOff := a |> <| Bands := b |> /\ (a = 0 \/ a = AggregatedTimeOff s)).
  { destruct (_ <=? _) in E.
    - destruct (update_bands _ _ _) as [bands d]. run_inv. destruct a as [e1 e2]. simplify_eq. eexists _, _. split; [reflexivity|by left].
    - injection E as <- <- <- <-. exists (AggregatedTimeOff s), (Bands s). unfold s0. split; [by destruct s|by right]. }
  destruct E1 as (a & b & -> & Ha).
  destruct (0 <? zlen en).
  - unfold rand_range in H. destruct (randr _ _ _) as [r0 n0]. cbn [rbind] in H. run_inv. simplify_eq.
    by eexists _, _, _, _, p.
  - destruct (0 <? dl); simplify_eq; exists a, b, (rand_next s), (Channel s), p; (split; [by destruct s|done]).
Qed.

Lemma default_suitable s : chan_wf s -> default_ok s -> ChannelsDatarate (LoRaMacParamsDefaults s) <= 5 ->
  let s1 := s <| LoRaMacParams ::= fun p =>
     reenable_default (p <| ChannelsDatarate := ChannelsDatarate (LoRaMacParamsDefaults s) |>) |> in
  chan_wf s1 /\ exists ch, suitable s1 0 ch.
Proof.
  intros [W1 W2 W3 W4 W5 W6] Hd H5 s1. split.
  - split; try done. unfold s1. cbn [update LoRaMacParams reenable_default ChannelsMask]. by rewrite zupd_length.
  - destruct (Hd 0%nat) as (ch & Hch & Hf & Hmin & Hmax); [lia|]. exists ch. split; [lia|]. split; [done|].
    split; [|split; [done|split; [right; lia|unfold s1; cbn [update LoRaMacParams reenable_default ChannelsDatarate]; lia]]].
    unfold effective_mask, s1. cbn [update LoRaMacParams reenable_default ChannelsMask].
    destruct (ChannelsMask (LoRaMacParams s)) as [|m0 m]; [done|]. rewrite zupd_0 by done.
    change (m0 :: m).[0] with m0.
    destruct (CountBits _ 16 =? 0); rewrite !Z.lor_spec; by rewrite ?orb_true_r.
Qed.

(** The parameters a choice of channel never changes. *)
Definition fixed_params (p : LoRaMacParams_t) : LoRaMacParams_t := p <| ChannelsMask := [] |> <| ChannelsDatarate := 0 |>.

(** The state differs in the duty-cycle state, the mask, the datarate and the choice only. *)
Definition rescheduled (s s' : mac) : Prop :=
  exists a b n c p, s' = s <| LoRaMacParams := p |> <| AggregatedTimeOff := a |> <| Bands := b |> <| rand_next := n |> <| Channel := c |> /\
    fixed_params p = fixed_params (LoRaMacParams s) /\
    (ChannelsDatarate p = ChannelsDatarate (LoRaMacParams s) \/
     ChannelsDatarate p = ChannelsDatarate (LoRaMacParamsDefaults s)).

Lemma rescheduled_next s r s' : SetNextChannel s = Done (r, s') -> rescheduled s s'.
Proof.
  intros (a & b & n & c & p & -> & Hp & _)%SetNextChannel_frame. exists a, b, n, c, p.
  by destruct Hp as [-> | ->]; auto.
Qed.

Lemma rescheduled_keeps s s' : rescheduled s s' ->
  Channels s' = Channels s /\ LoRaMacBuffer s' = LoRaMacBuffer s /\ LoRaMacBufferPktLen s' = LoRaMacBufferPktLen s /\
  trace s' = trace s /\ LoRaMacState s' = LoRaMacState s /\ LoRaMacParamsDefaults s' = LoRaMacParamsDefaults s /\
  fixed_params (LoRaMacParams s') = fixed_params (LoRaMacParams s) /\
  (ChannelsDatarate (LoRaMacParams s') = ChannelsDatarate (LoRaMacParams s) \/
   ChannelsDatarate (LoRaMacParams s') = ChannelsDatarate (LoRaMacParamsDefaults s)).
Proof. intros (a & b & n & c & p & -> & H1 & H2). destruct s. by split_and!. Qed.

Lemma rescheduled_params s s1 p' : rescheduled s s1 -> fixed_params p' = fixed_params (LoRaMacParams s) ->
  ChannelsDatarate p' = ChannelsDatarate (LoRaMacParamsDefaults s) -> rescheduled s (s1 <| LoRaMacParams := p' |>).
Proof. intros (a & b & n & c & p & -> & _) H1 H2. exists a, b, n, c, p'. split; [by destruct s|auto]. Qed.

Lemma rescheduled_trans s s1 r s2 : rescheduled s s1 -> SetNextChannel s1 = Done (r, s2) -> rescheduled s s2.
Proof.
  intros (a & b & n & c & p & -> & Hpw & Hdr) (a' & b' & n' & c' & p' & -> & Hp' & _)%SetNextChannel_frame.
  exists a', b', n', c', p'. split; [by destruct s|]. destruct Hp' as [-> | ->]; by destruct s.
Qed.

(** Two rounds choose a channel or a delay. *)
Lemma select_channel_spec s : chan_wf s -> default_ok s -> ChannelsDatarate (LoRaMacParamsDefaults s) <= 5 ->
  exists t s' s0, select_channel 2 s = Done (t, s') /\ chan_wf s' /\ 0 <= t /\
    rescheduled s s0 /\ rescheduled s s' /\ (t = 0 -> usable s0 (Channel s')).
Proof.
  intros Hw Hd H5. cbn [select_channel].
  destruct (SetNextChannel_spec s Hw) as (r & s1 & E & Hw1 & Hpost). rewrite E. cbn [rbind].
  assert (Hr0 : rescheduled s s). { exists (AggregatedTimeOff s), (Bands s), (rand_next s), (Channel s), (LoRaMacParams s). split; [by destruct s|auto]. }
  pose proof (rescheduled_next s r s1 E) as Hr1.
  destruct Hpost as [(-> & Hu & _)|[(t & -> & Ht & _)|(-> & _)]].
  - exists 0, s1, s. by split_and!.
  - exists t, s1, s. split_and!; try done; lia.
  - assert (Hd1 : default_ok s1 /\ LoRaMacParamsDefaults s1 = LoRaMacParamsDefaults s /\
      fixed_params (LoRaMacParams s1) = fixed_params (LoRaMacParams s))
      by (by destruct Hr1 as (a & b & n & c & p & -> & Hpw & _)).
    destruct Hd1 as (Hd1 & HD & Hpw). rewrite <- HD in H5.
    destruct (default_suitable s1 Hw1 Hd1 H5) as [Hw2 (ch & Hs)].
    match goal with |- context [SetNextChannel ?x] => set (s2 := x) in * end.
    assert (Hr2 : rescheduled s s2) by (apply rescheduled_params; [done|exact Hpw|by rewrite <- HD]).
    destruct (SetNextChannel_spec s2 Hw2) as (r & s3 & E3 & Hw3 & Hpost).
    pose proof (rescheduled_trans s s2 r s3 Hr2 E3) as Hr3. rewrite E3. cbn [rbind].
    destruct Hpost as [(-> & Hu & _)|[(t & -> & Ht & _)|(-> & _ & _ & Hn)]].
    + exists 0, s3, s2. by split_and!.
    + exists t, s3, s2. split_and!; try done; lia.
    + by destruct (Hn 0 ch).
Qed.

Lemma set_time_off_frame b g s s' : set_time_off b g s = Done s' -> exists l, s' = s <| Bands := l |>.
Proof. unfold set_time_off. intros H. run_inv. eexists. symmetry. exact H. Qed.

Lemma CalculateBackOff_frame c s u s' : CalculateBackOff c s = Done (u, s') ->
  exists b n a, s' = s <| Bands := b |> <| rand_next := n |> <| AggregatedTimeOff := a |>.
Proof.
  unfold CalculateBackOff. intros H.
  apply rbind_inv in H as (ch & _ & H). apply rbind_inv in H as (band & _ & H).
  apply rbind_inv in H as (s1 & (l & ->)%set_time_off_frame & H).
  apply rbind_inv in H as (s2 & E & H). injection H as _ <-.
  assert (exists l n, s2 = s <| Bands := l |> <| rand_next := n |>) as (l2 & n2 & ->).
  { destruct (_ && _) in E.
    - apply rbind_inv in E as (? & _ & E). unfold rand_range in E. destruct (randr _ _ _) as [r0 n0]. cbn [rbind] in E.
      apply set_time_off_frame in E as (l2 & ->). exists l2, n0. by destruct s.
    - injection E as <-. exists l, (rand_next s). by destruct s. }
  eexists l2, n2, _. by destruct s.
Qed.

(** What a frame handed to the radio looks like in the trace. *)
Definition sent_on (s : mac) (freq : Z) (config : list action) : list action :=
  trace s ++ [RadioSetChannel freq] ++ config ++
    [TimerSetValue MacStateCheckTimer MAC_STATE_CHECK_TIMEOUT; TimerStart MacStateCheckTimer;
     RadioSend (take (Z.to_nat (LoRaMacBufferPktLen s)) (LoRaMacBuffer s))].

Lemma SendFrameOnChannel_spec s ch : 0 <= ChannelsDatarate (LoRaMacParams s) <= 7 -> 0 <= ChannelsTxPower (LoRaMacParams s) <= 5 -> length (LoRaMacBuffer s) = 255%nat ->
  0 <= LoRaMacBufferPktLen s <= 255 ->
  exists s' config, SendFrameOnChannel ch s = Done (LORAMAC_STATUS_OK, s') /\ trace s' = sent_on s (Frequency ch) config /\
    Channel s' = Channel s /\ LoRaMacState s' = Z.lor (LoRaMacState s) MAC_TX_RUNNING /\ inv_view s' = inv_view s.
Proof.
  intros P1 P2 HB HL. unfold SendFrameOnChannel, LimitTxPower.
  destruct (rd_ok Datarates (ChannelsDatarate (LoRaMacParams s))) as (d & -> & _); [cbn [length Datarates]; lia|].
  destruct (rd_ok TxPowers (ChannelsTxPower (LoRaMacParams s))) as (p & -> & _); [cbn [length TxPowers]; lia|].
  cbn [rbind]. destruct (tx_config _ _ _ _) as [config modem]. rewrite rdn_ok by lia. cbn [rbind].
  eexists _, config. split; [reflexivity|]. split; [|by split]. reflexivity.
Qed.

(** The state the channel is chosen in: the aggregated time off is forgotten
    when the network set no limit, and the last transmission is accounted for. *)
Definition accounted (s s1 : mac) : Prop :=
  let s0 := if MaxDCycle s =? 0 then s <| AggregatedTimeOff := 0 |> else s in
  CalculateBackOff (LastTxChannel s0) s0 = Done (tt, s1).

Lemma schedule_base s : mac_inv s -> 0 <= LastTxChannel s < 16 ->
  exists s1, accounted s s1 /\ chan_wf s1 /\ mac_inv s1 /\ default_ok s1 /\ LoRaMacParamsDefaults s1 = LoRaMacParamsDefaults s /\
    LoRaMacParams s1 = LoRaMacParams s /\ LoRaMacBuffer s1 = LoRaMacBuffer s /\
    LoRaMacBufferPktLen s1 = LoRaMacBufferPktLen s /\ trace s1 = trace s /\ LoRaMacState s1 = LoRaMacState s.
Proof.
  intros [Hcm Hc Hd Hp] Hl. unfold accounted.
  set (s0 := if MaxDCycle s =? 0 then s <| AggregatedTimeOff := 0 |> else s).
  assert (H0 : chan_wf s0 /\ default_ok s0 /\ cmd_wf s0).
  { unfold s0. destruct (MaxDCycle s =? 0); [|done]. split; [|split; [done|by destruct Hcm]]. destruct Hc. split; try done. }
  destruct H0 as (Hc0 & Hd0 & Hcm0).
  assert (Hk : LoRaMacParamsDefaults s0 = LoRaMacParamsDefaults s /\
    LoRaMacParams s0 = LoRaMacParams s /\ LoRaMacBuffer s0 = LoRaMacBuffer s /\
    LoRaMacBufferPktLen s0 = LoRaMacBufferPktLen s /\ trace s0 = trace s /\ LoRaMacState s0 = LoRaMacState s)
    by (unfold s0; by destruct (MaxDCycle s =? 0)).
  assert (HLt : LastTxChannel s0 = LastTxChannel s) by (unfold s0; by destruct (MaxDCycle s =? 0)).
  rewrite <- HLt in Hl. destruct (CalculateBackOff_spec s0 (LastTxChannel s0) Hc0 Hl) as (s1 & E & Hc1 & HC & HP & HD & _).
  exists s1. split; [exact E|]. split; [done|].
  destruct Hk as (Hk1 & Hk2 & Hk3). destruct (CalculateBackOff_frame _ _ _ _ E) as (b & n & a & ->).
  split; [|by split]. split; [by destruct Hcm0|done|done|]. rewrite <- Hk2 in Hp. exact Hp.
Qed.

(** Choosing a channel keeps the invariant. *)
Lemma rescheduled_inv s s' : mac_inv s -> rescheduled s s' -> chan_wf s' ->
  0 <= ChannelsDatarate (LoRaMacParamsDefaults s) <= 7 -> mac_inv s'.
Proof.
  intros [[] _ Hd [P1 P2 P3 P4 P5 P6]] (a & b & n & c & p & -> & Hp & Hdr) Hc HD.
  split; [by split|done|done|].
  assert (F : forall f : LoRaMacParams_t -> Z, (forall q, f (fixed_params q) = f q) -> f p = f (LoRaMacParams s)).
  { intros f Hf. rewrite <- (Hf p), <- (Hf (LoRaMacParams s)). by rewrite Hp. }
  cbn [update LoRaMacParams].
  split; [destruct Hdr as [-> | ->]; lia|by rewrite (F ChannelsTxPower)|by rewrite (F ChannelsNbRep)|by rewrite (F Rx1DrOffset)|
    by rewrite (F Rx2Datarate)|by rewrite (F ReceiveDelay1), (F ReceiveDelay2)].
Qed.

Lemma delay_tx s t : exists s',
  (let* (_, s) := state_set MAC_TX_DELAYED s in
   let* (_, s) := emit (TimerSetValue TxDelayedTimer t) s in
   let* (_, s) := emit (TimerStart TxDelayedTimer) s in
   Done (LORAMAC_STATUS_OK, s)) = Done (LORAMAC_STATUS_OK, s') /\
  trace s' = trace s ++ [TimerSetValue TxDelayedTimer t; TimerStart TxDelayedTimer] /\
  LoRaMacState s' = Z.lor (LoRaMacState s) MAC_TX_DELAYED /\ inv_view s' = inv_view s.
Proof.
  destruct s. eexists. split; [reflexivity|]. cbn [update trace LoRaMacState]. by rewrite <- app_assoc.
Qed.

Lemma ScheduleTx_spec s : mac_inv s -> 0 <= LastTxChannel s < 16 -> 0 <= ChannelsDatarate (LoRaMacParamsDefaults s) <= 5 ->
  length (LoRaMacBuffer s) = 255%nat -> 0 <= LoRaMacBufferPktLen s <= 255 -> MaxDCycle s <> 255 ->
  exists s', ScheduleTx s = Done (LORAMAC_STATUS_OK, s') /\ mac_inv s' /\
    ((exists s1 s0 ch config, accounted s s1 /\ rescheduled s1 s0 /\ usable s0 (Channel s') /\
        Channels s0 !! Z.to_nat (Channel s') = Some ch /\ trace s' = sent_on s (Frequency ch) config /\
        LoRaMacState s' = Z.lor (LoRaMacState s) MAC_TX_RUNNING) \/
     (exists t, 0 < t /\ trace s' = trace s ++ [TimerSetValue TxDelayedTimer t; TimerStart TxDelayedTimer] /\
        LoRaMacState s' = Z.lor (LoRaMacState s) MAC_TX_DELAYED)).
Proof.
  intros HI Hl HD HB HL HM. unfold ScheduleTx. rewrite (proj2 (Z.eqb_neq _ 255)) by done.
  destruct (schedule_base s HI Hl) as (s1 & Ha & Hc1 & Hi1 & Hd1 & HD1 & HP1 & HB1 & HL1 & HT1 & HS1). unfold accounted in Ha. rewrite Ha. cbn [rbind].
  destruct (select_channel_spec s1 Hc1 Hd1) as (t & s2 & s0 & -> & Hc2 & Ht & Hr0 & Hr2 & Hu); [rewrite HD1; lia|].
  assert (Hi2 : mac_inv s2) by (apply (rescheduled_inv s1); try done; rewrite HD1; lia).
  pose proof (rescheduled_keeps _ _ Hr0) as (HC0 & _).
  pose proof (rescheduled_keeps _ _ Hr2) as (HC2 & HB2 & HL2 & HT2 & HS2 & HD2 & Hpw & Hdr).
  cbn [rbind]. destruct (Z.eqb_spec t 0) as [E0|E0].
  - specialize (Hu E0). pose proof Hu as (ch & bd & (Hj & Hch & _) & _).
    rewrite (proj2 (rd_Done _ _ ch)) by (split; [lia|congruence]). cbn [rbind].
    destruct HI as [_ _ _ [P1 P2 P3 P4 P5 P6]]. rewrite HP1 in *.
    assert (Hpw' : ChannelsTxPower (LoRaMacParams s2) = ChannelsTxPower (LoRaMacParams s)) by apply (f_equal ChannelsTxPower Hpw).
    destruct (SendFrameOnChannel_spec s2 ch) as (s' & config & E & HT & HCh & HS & Hv);
      [rewrite HD1 in Hdr; destruct Hdr; lia|lia|congruence|by rewrite HL2, HL1|].
    exists s'. split; [exact E|]. split; [by apply (mac_inv_ext s2)|]. left. exists s1, s0, ch, config. rewrite HCh. split_and!; try done.
    + rewrite HT. unfold sent_on. by rewrite HT2, HB2, HL2, HT1, HB1, HL1.
    + by rewrite HS, HS2, HS1.
  - destruct (delay_tx s2 t) as (s' & -> & HT & HS & Hv). exists s'. split; [done|]. split; [by apply (mac_inv_ext s2)|]. right. exists t. split; [lia|].
    rewrite HT, HS, HT2, HS2, HT1, HS1. done.
Qed.

(** What the choice of a channel leaves alone: everything but the duty-cycle
    state, the mask, the datarate and the choice. *)
Definition choice_core (s : mac) : mac :=
  s <| AggregatedTimeOff := 0 |> <| Bands := [] |> <| rand_next := 0 |> <| Channel := 0 |>
    <| LoRaMacParams := fixed_params (LoRaMacParams s) |>.

(** What scheduling leaves alone: also the reports of the transmission and the calls change. *)
Definition sched_core (s : mac) : mac :=
  (choice_core s) <| MlmeConfirm := mlme_confirm_zero |> <| McpsConfirm := mcps_confirm_zero |> <| TxTimeOnAir := 0 |>
    <| trace := [] |> <| LoRaMacState := 0 |>.

Lemma choice_core_params s g : (forall p, fixed_params (g p) = fixed_params p) -> choice_core (s <| LoRaMacParams ::= g |>) = choice_core s.
Proof.
  intros Hg. unfold choice_core. change (LoRaMacParams (s <| LoRaMacParams ::= g |>)) with (g (LoRaMacParams s)). by rewrite Hg.
Qed.

Lemma SetNextChannel_core s r s' : SetNextChannel s = Done (r, s') -> choice_core s' = choice_core s.
Proof.
  intros (a & b & n & c & p & -> & Hp & _)%SetNextChannel_frame.
  assert (Hf : fixed_params p = fixed_params (LoRaMacParams s)) by (by destruct Hp as [-> | ->]).
  unfold choice_core. cbn [update LoRaMacParams]. by rewrite Hf.
Qed.

(** The state the search starts again from. *)
Definition retry_defaults (s : mac) : mac :=
  s <| LoRaMacParams ::= fun p => reenable_default (p <| ChannelsDatarate := ChannelsDatarate (LoRaMacParamsDefaults s) |>) |>.

Lemma select_channel_S fuel s : select_channel (S fuel) s =
  (let* ((ok, t), s) := SetNextChannel s in if ok then Done (t, s) else select_channel fuel (retry_defaults s)).
Proof. reflexivity. Qed.

Lemma select_channel_core fuel : forall s t s', select_channel fuel s = Done (t, s') -> choice_core s' = choice_core s.
Proof.
  induction fuel as [|fuel IH]; intros s t s' H; [done|]. rewrite select_channel_S in H.
  apply rbind_inv in H as ([[ok t0] s1] & Hv%SetNextChannel_core & H).
  destruct ok; [injection H as _ <-; exact Hv|]. apply IH in H. unfold retry_defaults in H. rewrite choice_core_params in H by done.
  exact (eq_trans H Hv).
Qed.

(** Scheduling ends in one of three ways: the device is switched off, the frame
    goes to the radio on a channel of the table, or it is put off. *)
Lemma ScheduleTx_inv s st s' : ScheduleTx s = Done (st, s') ->
  (st = LORAMAC_STATUS_DEVICE_OFF /\ s' = s) \/
  (exists s2 ch, choice_core s2 = choice_core s /\ rd (Channels s2) (Channel s2) = Done ch /\ SendFrameOnChannel ch s2 = Done (st, s')) \/
  (exists s2 t, choice_core s2 = choice_core s /\ st = LORAMAC_STATUS_OK /\
     s' = s2 <| LoRaMacState ::= fun v => Z.lor v MAC_TX_DELAYED |>
       <| trace ::= fun l => (l ++ [TimerSetValue TxDelayedTimer t]) ++ [TimerStart TxDelayedTimer] |>).
Proof.
  unfold ScheduleTx. destruct (MaxDCycle s =? 255); [intros [= <- <-]; by left|]. cbv zeta. intros H. right.
  set (s0 := if MaxDCycle s =? 0 then _ else s) in H.
  assert (H0 : choice_core s0 = choice_core s) by (unfold s0; by destruct (MaxDCycle s =? 0)).
  apply rbind_inv in H as ([u s1] & (b & n & a & H1)%CalculateBackOff_frame & H).
  assert (Hv1 : choice_core s1 = choice_core s0) by (rewrite H1; clear; by destruct s0).
  apply rbind_inv in H as ([t s2] & Hv2%select_channel_core & H).
  rewrite <- H0, <- Hv1, <- Hv2. destruct (t =? 0); [left|right].
  - apply rbind_inv in H as (ch & Hch & H). by exists s2, ch.
  - unfold state_set, emit, smod in H. cbn [rbind] in H. injection H as <- <-. by exists s2, t.
Qed.

Lemma SendFrameOnChannel_core ch s st s' : SendFrameOnChannel ch s = Done (st, s') -> sched_core s' = sched_core s.
Proof.
  unfold SendFrameOnChannel. intros H. apply rbind_inv in H as (d & _ & H). apply rbind_inv in H as (p & _ & H).
  destruct (tx_config _ _ _ _) as [cf md]. apply rbind_inv in H as (fr & _ & H). by injection H as _ <-.
Qed.

Lemma sched_core_choice s s' : choice_core s' = choice_core s -> sched_core s' = sched_core s.
Proof. unfold sched_core. by intros ->. Qed.

Lemma ScheduleTx_core s st s' : ScheduleTx s = Done (st, s') -> sched_core s' = sched_core s.
Proof.
  intros [[_ ->]|[(s2 & ch & Hc%sched_core_choice & _ & H%SendFrameOnChannel_core)|(s2 & t & Hc%sched_core_choice & _ & ->)]]%ScheduleTx_inv;
    [done|congruence|exact Hc].
Qed.

(** The parts of it the theorems ask for. *)
Definition sched_view (s : mac) :=
  (LoRaMacFlags s, UpLinkCounter s, DownLinkCounter s, AckTimeoutRetries s, AckTimeoutRetriesCounter s, NodeAckRequested s,
   AckTimeoutRetry s, IsUpLinkCounterFixed s, (LoRaMacBuffer s, LoRaMacBufferPktLen s, LoRaMacNwkSKey s, LoRaMacAppSKey s,
   LoRaMacDevAddr s, McpsIndication s, LoRaMacRxPayload s, MacCommandsBuffer s, MacCommandsBufferIndex s, RxSlot s,
   LoRaMacParamsDefaults s, LastTxChannel s, Channels s)).

Lemma ScheduleTx_view s st s' : ScheduleTx s = Done (st, s') -> sched_view s' = sched_view s.
Proof. intros H%ScheduleTx_core. exact (f_equal sched_view H). Qed.

(** No channel of the list supports the datarate. *)
Definition unsupported (s : mac) (dr : Z) : Prop :=
  Forall (fun ch => ~ DrMin (DrRange ch) <= dr <= DrMax (DrRange ch)) (Channels s).

Lemma select_channel_loops fuel : forall s, chan_wf s -> AggregatedTimeOff s = 0 ->
  unsupported s (ChannelsDatarate (LoRaMacParams s)) -> unsupported s (ChannelsDatarate (LoRaMacParamsDefaults s)) ->
  select_channel fuel s = NoFuel.
Proof.
  induction fuel as [|fuel IH]; intros s Hw Ha Hu Hd; [done|]. cbn [select_channel].
  destruct (SetNextChannel_spec s Hw) as (r & s1 & E & Hw1 & Hpost). rewrite E. cbn [rbind].
  assert (Hns : forall j ch, ~ suitable s j ch).
  { intros j ch (_ & Hch & _ & _ & _ & Hdr). by eapply (proj1 (Forall_forall _ _) Hu); [eapply list_elem_of_lookup_2|]. }
  destruct Hpost as [(-> & (ch & b & Hs & _) & _)|[(t & -> & _ & _ & [Hag|(_ & j & ch & Hs & _)])|(-> & _)]].
  - by destruct (Hns _ _ Hs).
  - unfold aggregate_open in Hag. apply Z.leb_gt in Hag. pose proof (elapsed_nonneg s (AggregatedLastTxDoneTime s)). lia.
  - by destruct (Hns _ _ Hs).
  - destruct (SetNextChannel_frame _ _ _ E) as (a & b & n & c & p & Hs1 & _ & Ha').
    assert (Hk : Channels s1 = Channels s /\ AggregatedTimeOff s1 = 0 /\ LoRaMacParamsDefaults s1 = LoRaMacParamsDefaults s)
      by (rewrite Hs1; destruct s; split_and!; try done; cbn in *; destruct Ha'; congruence).
    destruct Hk as (HC & HA & HD). apply IH.
    + destruct Hw1. split; try done. cbn [update LoRaMacParams reenable_default ChannelsMask]. by rewrite zupd_length.
    + exact HA.
    + unfold unsupported. cbn [update LoRaMacParams reenable_default ChannelsDatarate Channels]. rewrite HC, HD. exact Hd.
    + unfold unsupported. cbn [update LoRaMacParamsDefaults Channels]. rewrite HC, HD. exact Hd.
Qed.

(** ** Join requests *)

Lemma memcpyr_splice dst d src n : 0 <= d -> is_u16 n -> d + n <= zlen dst -> zlen src = n ->
  memcpyr dst d src 0 n = Done (splice dst (Z.to_nat d) (reverse src)).
Proof.
  intros. rewrite memcpyr_spec by (done || lia). rewrite drop_0. unfold splice.
  rewrite (take_ge src) by lia. rewrite length_reverse. do 4 f_equal. lia.
Qed.

Lemma starts_append (b l x : list Z) n : starts b l -> length l = n -> (n + length x <= length b)%nat ->
  starts (splice b n x) (l ++ x) /\ length (splice b n x) = length b /\ length (l ++ x) = (n + length x)%nat.
Proof.
  intros Hs <- HL. split; [by apply starts_splice|]. split; [by apply splice_length|apply length_app].
Qed.

Definition join_body (s : mac) (hdr : Z) : list Z :=
  (([hdr] ++ reverse (LoRaMacAppEui s)) ++ reverse (LoRaMacDevEui s)) ++ le_bytes 2 (u16 (RadioRandom (env s))).

Lemma prepare_join_req_spec s hdr : length (LoRaMacBuffer s) = 255%nat -> starts (LoRaMacBuffer s) [hdr] ->
  length (LoRaMacAppEui s) = 8%nat -> length (LoRaMacDevEui s) = 8%nat ->
  exists s', prepare_join_req s = Done (tt, s') /\ LoRaMacDevNonce s' = u16 (RadioRandom (env s)) /\
    LoRaMacBufferPktLen s' = 23 /\ length (LoRaMacBuffer s') = 255%nat /\
    take 23 (LoRaMacBuffer s') = join_body s hdr ++ le_bytes 4 (fs_join_mic (LoRaMacAppKey s) (join_body s hdr)) /\
    RxWindow1Delay s' = u32 (JoinAcceptDelay1 (LoRaMacParams s) - RADIO_WAKEUP_TIME) /\
    RxWindow2Delay s' = u32 (JoinAcceptDelay2 (LoRaMacParams s) - RADIO_WAKEUP_TIME).
Proof.
  intros HB Hst HA HD. unfold prepare_join_req.
  cbn [update LoRaMacBuffer LoRaMacAppEui LoRaMacDevEui env].
  rewrite memcpyr_splice by (try unfold is_u16; lia). cbn [rbind].
  change (Z.to_nat 1) with 1%nat. 
  destruct (starts_append (LoRaMacBuffer s) [hdr] (reverse (LoRaMacAppEui s)) 1) as (Hs1 & Hb1 & Hl1);
    [done|done|rewrite length_reverse; lia|].
  rewrite length_reverse, HA in Hl1. rewrite HB in Hb1. revert Hs1 Hb1. generalize (splice (LoRaMacBuffer s) 1 (reverse (LoRaMacAppEui s))).
  intros b1 Hs1 Hb1. rewrite memcpyr_splice by (try unfold is_u16; lia). cbn [rbind]. change (Z.to_nat 9) with 9%nat.
  destruct (starts_append b1 _ (reverse (LoRaMacDevEui s)) 9 Hs1 Hl1) as (Hs2 & Hb2 & Hl2); [rewrite length_reverse; lia|].
  rewrite length_reverse, HD in Hl2. rewrite Hb1 in Hb2. revert Hs2 Hb2. generalize (splice b1 9 (reverse (LoRaMacDevEui s))).
  intros b2 Hs2 Hb2. rewrite le16_bytes. rewrite put_spec by (cbn [update LoRaMacBuffer]; rewrite ?le_bytes_length; lia).
  cbn [rbind update LoRaMacBuffer LoRaMacDevNonce]. change (Z.to_nat 17) with 17%nat.
  destruct (starts_append b2 _ (le_bytes 2 (u16 (RadioRandom (env s)))) 17 Hs2 Hl2) as (Hs3 & Hb3 & Hl3);
    [rewrite le_bytes_length; lia|].
  rewrite le_bytes_length in Hl3. rewrite Hb2 in Hb3. fold (join_body s hdr) in Hs3, Hl3. revert Hs3 Hb3.
  generalize (splice b2 17 (le_bytes 2 (u16 (RadioRandom (env s))))). intros b3 Hs3 Hb3.
  unfold put_join_mic. cbn [update LoRaMacBufferPktLen LoRaMacBuffer LoRaMacAppKey].
  change (Z.land (Z.land 19 0xFF) 0xFF) with 19. rewrite rdn_ok by lia. cbn [rbind].
  change (Z.to_nat 0) with 0%nat. change (Z.to_nat 19) with 19%nat. rewrite drop_0.
  rewrite (starts_take b3 (join_body s hdr) 19) by done. rewrite le32_bytes.
  rewrite put_spec by (cbn [update LoRaMacBuffer]; rewrite ?le_bytes_length; lia).
  cbn [rbind update LoRaMacBuffer]. eexists. split; [reflexivity|].
  cbn [update LoRaMacDevNonce LoRaMacBufferPktLen LoRaMacBuffer RxWindow1Delay RxWindow2Delay LoRaMacParams].
  change (Z.to_nat 19) with 19%nat.
  destruct (starts_append b3 _ (le_bytes 4 (fs_join_mic (LoRaMacAppKey s) (join_body s hdr))) 19 Hs3 Hl3) as (Hs4 & Hb4 & Hl4);
    [rewrite le_bytes_length; lia|].
  split_and!; try done; [by rewrite <- Hb3|]. apply starts_take; [exact Hs4|]. rewrite Hl4, le_bytes_length. done.
Qed.

End Frame.

Lemma demo_buf_wf : buf_wf demo_mac.
Proof. split; try done; by split; [|apply bytesb_true]. Qed.

Ltac layout_case t :=
  let st := fresh "st" in let s' := fresh "s'" in let req := fresh "req" in let dr := fresh "dr" in
  let E := fresh "E" in let H4 := fresh "H" in
  destruct t as (st & s' & req & dr & E & ? & ? & ? & H4); [first [assumption | by constructor]..|];
  exists st, s', req, dr; split; [exact E|]; do 3 (split; [done|]);
  match goal with |- if ?c then _ else _ => match type of H4 with if ?c' then _ else _ => change c' with c in H4 end; destruct c; exact H4 end.

(** What building a frame leaves alone: everything but the buffers of the
    frame and of the commands, the windows, the acknowledgements, the nonce,
    the datarate and the channel mask. *)
Definition prep_core (s : mac) : mac :=
  s <| LoRaMacBuffer := [] |> <| LoRaMacBufferPktLen := 0 |> <| LoRaMacPayload := [] |> <| NodeAckRequested := false |>
    <| SrvAckRequested := false |> <| RxWindow1Delay := 0 |> <| RxWindow2Delay := 0 |> <| LoRaMacDevNonce := 0 |>
    <| MacCommandsBuffer := [] |> <| MacCommandsBufferIndex := 0 |> <| MacCommandsBufferToRepeatIndex := 0 |>
    <| MacCommandsBufferToRepeat := [] |> <| MacCommandsInNextTx := false |> <| AdrAckCounter := 0 |>
    <| LoRaMacParams := (LoRaMacParams s) <| ChannelsDatarate := 0 |> <| ChannelsMask ::= map (fun _ => 0) |> |>.

Section Cores.
Context {FS : FrameSecurity}.

Lemma put_core off l s u s' : put off l s = Done (u, s') -> prep_core s' = prep_core s.
Proof. unfold put. intros H. apply rbind_inv in H as (b & _ & H). by injection H as _ <-. Qed.

Lemma put_join_mic_core s u s' : put_join_mic s = Done (u, s') -> prep_core s' = prep_core s.
Proof.
  unfold put_join_mic. intros H. apply rbind_inv in H as (m & _ & H). apply rbind_inv in H as ([u1 s1] & Hv%put_core & H).
  injection H as _ <-. exact Hv.
Qed.

Lemma put_mic_core s u s' : put_mic s = Done (u, s') -> prep_core s' = prep_core s.
Proof.
  unfold put_mic. intros H. apply rbind_inv in H as (m & _ & H). apply rbind_inv in H as ([u1 s1] & Hv%put_core & H).
  injection H as _ <-. exact Hv.
Qed.

Lemma append_repeats_core s u s' : append_repeats s = Done (u, s') -> prep_core s' = prep_core s.
Proof. unfold append_repeats. intros H. apply rbind_inv in H as (b & _ & H). by injection H as _ <-. Qed.

Lemma finish_commands_core s u s' : finish_commands s = Done (u, s') -> prep_core s' = prep_core s.
Proof. unfold finish_commands. intros H. apply rbind_inv in H as ([n r] & _ & H). by injection H as _ <-. Qed.

Lemma place_commands_core fc pl n port s r s' : place_commands fc pl n port s = Done (r, s') -> prep_core s' = prep_core s.
Proof.
  unfold place_commands. intros H. destruct pl as [pl|]; [|by case_match; injection H as _ <-].
  destruct (0 <? n); [|by case_match; injection H as _ <-]. destruct (_ && _); [|by injection H as _ <-].
  apply rbind_inv in H as ([u1 s1] & Hv1%put_core & H). apply rbind_inv in H as (c & _ & H).
  apply rbind_inv in H as ([u2 s2] & Hv2%put_core & H). injection H as _ <-. by rewrite Hv2.
Qed.

Lemma place_payload_core pl n port h s r s' : place_payload pl n port h s = Done (r, s') -> prep_core s' = prep_core s.
Proof.
  unfold place_payload. intros H. destruct pl as [pl|]; [|by injection H as _ <-].
  destruct (0 <? n); [|by injection H as _ <-]. apply rbind_inv in H as ([u1 s1] & Hv1%put_core & H).
  apply rbind_inv in H as (m & _ & H). apply rbind_inv in H as (lp & _ & H). apply rbind_inv in H as (b & _ & H).
  injection H as _ <-. exact Hv1.
Qed.

Lemma zeros_upd (l : list Z) i x : map (fun _ => 0) (l.[i := x]) = map (fun _ => 0) l.
Proof. apply list_eq_same_length with (length l); rewrite ?length_map, ?zupd_length; try done.
  intros j x1 x2 _ H1 H2. rewrite list_lookup_fmap in H1, H2. by destruct (_ !! j), (l !! j); simplify_eq/=. Qed.

Lemma reenable_core s : prep_core (s <| LoRaMacParams ::= reenable_default |>) = prep_core s.
Proof.
  unfold prep_core. change (LoRaMacParams (s <| LoRaMacParams ::= reenable_default |>)) with (reenable_default (LoRaMacParams s)).
  enough (E : (reenable_default (LoRaMacParams s)) <| ChannelsDatarate := 0 |> <| ChannelsMask ::= map (fun _ => 0) |> =
    (LoRaMacParams s) <| ChannelsDatarate := 0 |> <| ChannelsMask ::= map (fun _ => 0) |>) by (by rewrite E).
  destruct (LoRaMacParams s). unfold reenable_default, update. cbn. by rewrite zeros_upd.
Qed.

Lemma AdrNextDr_core en upd s r s' : AdrNextDr en upd s = Done (r, s') -> prep_core s' = prep_core s.
Proof.
  unfold AdrNextDr. destruct (negb en); [by intros [= _ <-]|]. destruct (_ =? LORAMAC_TX_MIN_DATARATE); [by intros [= _ <-]|].
  destruct (_ && _); [|by intros [= _ <-]]. cbv zeta. destruct (_ && upd); intros [= _ <-]; [apply reenable_core|done].
Qed.

Lemma prepare_data_core fc port pl n m s st s' : prepare_data fc port pl n m s = Done (st, s') -> prep_core s' = prep_core s.
Proof.
  unfold prepare_data. intros H. destruct (negb _); [by injection H as _ <-|].
  apply rbind_inv in H as ([[req dr] s1] & Hv1%AdrNextDr_core & H). rewrite <- Hv1. clear Hv1 s. rename s1 into s.
  apply rbind_inv in H as (ok & _ & H).
  set (s1 := s <| LoRaMacParams ::= _ |>) in H. assert (Hv : prep_core s1 = prep_core s) by done.
  rewrite <- Hv. clearbody s1. clear Hv s. rename s1 into s. destruct (negb ok); [by injection H as _ <-|].
  apply rbind_inv in H as ([u1 s1] & Hv1%put_core & H). apply rbind_inv in H as ([u2 s2] & Hv2%append_repeats_core & H).
  apply rbind_inv in H as ([[[[a b] c] d] s3] & Hv3%place_commands_core & H).
  apply rbind_inv in H as ([u4 s4] & Hv4%finish_commands_core & H). apply rbind_inv in H as ([u5 s5] & Hv5%place_payload_core & H).
  apply rbind_inv in H as ([u6 s6] & Hv6%put_mic_core & H). injection H as _ <-.
  rewrite Hv6. trans (prep_core s5); [done|]. by rewrite Hv5, Hv4, Hv3, Hv2, Hv1.
Qed.

Lemma PrepareFrame_core hdr fc port pl n s st s' : PrepareFrame hdr fc port pl n s = Done (st, s') -> prep_core s' = prep_core s.
Proof.
  unfold PrepareFrame. intros H. apply rbind_inv in H as ([u s0] & Hv%put_core & H).
  trans (prep_core s0); [|by rewrite Hv]. clear Hv s. rename s0 into s.
  generalize dependent (match pl with None => 0 | Some _ => n end). intros n' H.
  destruct (_ =? FRAME_TYPE_JOIN_REQ); [|destruct (_ =? FRAME_TYPE_DATA_CONFIRMED_UP);
    [|destruct (_ =? FRAME_TYPE_DATA_UNCONFIRMED_UP); [|destruct (_ =? FRAME_TYPE_PROPRIETARY)]]].
  - apply rbind_inv in H as ([u1 s1] & H1 & H). injection H as _ <-. unfold prepare_join_req in H1.
    apply rbind_inv in H1 as (b1 & _ & H1). apply rbind_inv in H1 as (b2 & _ & H1).
    apply rbind_inv in H1 as ([u2 s2] & Hv2%put_core & H1). apply put_join_mic_core in H1. rewrite H1.
    trans (prep_core s2); [done|]. by rewrite Hv2.
  - apply prepare_data_core in H. by rewrite H.
  - by apply prepare_data_core in H.
  - apply rbind_inv in H as ([u1 s1] & H1 & H). injection H as _ <-. unfold prepare_proprietary in H1.
    repeat case_match; try (by injection H1 as _ <-). apply rbind_inv in H1 as (b & _ & H1). by injection H1 as _ <-.
  - by injection H as _ <-.
Qed.

(** The parts of it the theorems ask for. *)
Definition prep_view (s : mac) :=
  (Channels s, Bands s, LoRaMacParamsDefaults s, LastTxChannel s, MaxDCycle s, trace s, LoRaMacState s,
   (AggregatedTimeOff s, fixed_params (LoRaMacParams s), length (ChannelsMask (LoRaMacParams s)), LoRaMacFlags s, UpLinkCounter s,
    DownLinkCounter s, AckTimeoutRetries s, AckTimeoutRetriesCounter s)).

Lemma prep_view_core s : prep_view (prep_core s) = prep_view s.
Proof. unfold prep_view, prep_core. cbn. by rewrite length_map. Qed.

Lemma PrepareFrame_view hdr fc port pl n s st s' : PrepareFrame hdr fc port pl n s = Done (st, s') -> prep_view s' = prep_view s.
Proof. intros H%PrepareFrame_core. rewrite <- (prep_view_core s'), <- (prep_view_core s). by f_equal. Qed.
End Cores.

Lemma PrepareFrame_data_spec (FS : FrameSecurity) s hdr fctrl port msg :
  buf_wf s -> cmd_wf s -> 0 <= ChannelsDatarate (LoRaMacParams s) <= 7 -> IsLoRaMacNetworkJoined s = true ->
  MType hdr = FRAME_TYPE_DATA_UNCONFIRMED_UP \/ MType hdr = FRAME_TYPE_DATA_CONFIRMED_UP -> FOptsLen fctrl = 0 ->
  MacCommandsBufferIndex s + MacCommandsBufferToRepeatIndex s <= 13 ->
  1 <= zlen msg -> zlen msg + MacCommandsBufferIndex s + MacCommandsBufferToRepeatIndex s <= 242 ->
  exists st s' req dr, PrepareFrame hdr fctrl port (Some msg) (zlen msg) s = Done (st, s') /\
    0 <= dr <= ChannelsDatarate (LoRaMacParams s) /\ ChannelsDatarate (LoRaMacParams s') = dr /\
    NodeAckRequested s' = (MType hdr =? FRAME_TYPE_DATA_CONFIRMED_UP) /\
    if zlen msg + MacCommandsBufferIndex s <=? max_payload s dr
    then st = LORAMAC_STATUS_OK /\ data_frame s hdr (uplink_fctrl s fctrl req) port msg s' /\
         SrvAckRequested s' = false /\ MacCommandsBufferIndex s' = 0 /\ buf_wf s' /\ cmd_wf s'
    else st = LORAMAC_STATUS_LENGTH_ERROR.
Proof.
  intros HB HC Hdr Hj Ht Hf H13 Hm1 Hm2. unfold PrepareFrame. pose proof HB as [B1 B2 B3 B4 B5].
  rewrite put_spec by (change (LoRaMacBuffer _) with (LoRaMacBuffer s); cbn [length]; lia). cbn [rbind].
  change (LoRaMacBuffer (_ <| NodeAckRequested := false |>)) with (LoRaMacBuffer s).
  rewrite (u8_id (zlen msg)) by (destruct HC; unfold is_u8; lia).
  set (b := splice (LoRaMacBuffer s) (Z.to_nat 0) [hdr]).
  assert (Hb : length b = 255%nat) by (unfold b; rewrite splice_length; cbn [length]; lia).
  assert (Hst : starts b [hdr]) by (unfold b, starts; change (Z.to_nat 0) with 0%nat; by destruct (LoRaMacBuffer s)).
  destruct HC as [W1 W2 W3 W4 W5].
  destruct Ht as [Ht|Ht]; rewrite Ht.
  - change (FRAME_TYPE_DATA_UNCONFIRMED_UP =? FRAME_TYPE_JOIN_REQ) with false.
    change (FRAME_TYPE_DATA_UNCONFIRMED_UP =? FRAME_TYPE_DATA_CONFIRMED_UP) with false.
    change (FRAME_TYPE_DATA_UNCONFIRMED_UP =? FRAME_TYPE_DATA_UNCONFIRMED_UP) with true. cbn iota.
    layout_case (prepare_data_spec (s <| LoRaMacBufferPktLen := 0 |> <| NodeAckRequested := false |> <| LoRaMacBuffer := b |>) hdr fctrl port msg).
  - change (FRAME_TYPE_DATA_CONFIRMED_UP =? FRAME_TYPE_JOIN_REQ) with false.
    change (FRAME_TYPE_DATA_CONFIRMED_UP =? FRAME_TYPE_DATA_CONFIRMED_UP) with true. cbn iota.
    layout_case (prepare_data_spec (s <| LoRaMacBufferPktLen := 0 |> <| NodeAckRequested := false |> <| LoRaMacBuffer := b |> <| NodeAckRequested := true |>) hdr fctrl port msg).
Qed.

(** C5: an uplink of [msg] on [port], built by [PrepareFrame], either exceeds
    the payload limit of the datarate the adaptation chose and is refused, or
    is exactly: the header, the device address, the control byte (with the acknowledgement the server
    asked for and the number of option bytes), the uplink counter, the pending
    answers followed by those to repeat, the port, the payload encrypted under the key
    the port selects, and the integrity code of all of these under the network key; it fits the radio's 255
    bytes, the buffer of answers is empty afterwards and the request to acknowledge is spent. *)
Theorem uplink_frame_layout (RD : RadioDriver) (FS : FrameSecurity) s hdr fctrl port msg :
  buf_wf s -> cmd_wf s -> 0 <= ChannelsDatarate (LoRaMacParams s) <= 7 -> IsLoRaMacNetworkJoined s = true ->
  MType hdr = FRAME_TYPE_DATA_UNCONFIRMED_UP \/ MType hdr = FRAME_TYPE_DATA_CONFIRMED_UP -> FOptsLen fctrl = 0 ->
  MacCommandsBufferIndex s + MacCommandsBufferToRepeatIndex s <= 13 ->
  1 <= zlen msg -> zlen msg + MacCommandsBufferIndex s + MacCommandsBufferToRepeatIndex s <= 242 ->
  exists st s' req dr, PrepareFrame hdr fctrl port (Some msg) (zlen msg) s = Done (st, s') /\
    0 <= dr <= ChannelsDatarate (LoRaMacParams s) /\ ChannelsDatarate (LoRaMacParams s') = dr /\
    NodeAckRequested s' = (MType hdr =? FRAME_TYPE_DATA_CONFIRMED_UP) /\
    if zlen msg + MacCommandsBufferIndex s <=? max_payload s dr
    then st = LORAMAC_STATUS_OK /\ data_frame s hdr (uplink_fctrl s fctrl req) port msg s' /\
         SrvAckRequested s' = false /\ MacCommandsBufferIndex s' = 0 /\ buf_wf s' /\ cmd_wf s'
    else st = LORAMAC_STATUS_LENGTH_ERROR.
Proof. apply PrepareFrame_data_spec. Qed.

Lemma uplink_frame_layout_witness :
  let fc := mkFCtrl 0 0 0 0 1 in
  exists s', @PrepareFrame mac_security (mhdr FRAME_TYPE_DATA_CONFIRMED_UP) fc 2 (Some [1; 2; 3]) 3 demo_mac =
      Done (LORAMAC_STATUS_OK, s') /\ SrvAckRequested s' = false /\ NodeAckRequested s' = true.
Proof.
  intros fc.
  destruct (uplink_frame_layout demo_driver mac_security demo_mac (mhdr FRAME_TYPE_DATA_CONFIRMED_UP) fc 2 [1; 2; 3])
    as (st & s' & req & dr & E & Hdr & _ & Hn & H).
  - exact demo_buf_wf.
  - by split; try (cbn; lia).
  - cbn. lia.
  - done.
  - by right.
  - done.
  - cbn. lia.
  - cbn. lia.
  - cbn. lia.
  - assert (Hv : (zlen [1; 2; 3] + MacCommandsBufferIndex demo_mac <=? max_payload demo_mac dr) = true).
    { cbn in Hdr |- *. assert (dr = 0 \/ dr = 1 \/ dr = 2 \/ dr = 3 \/ dr = 4 \/ dr = 5) as Hx by lia.
      by destruct Hx as [->|[->|[->|[->|[->| ->]]]]]. }
    rewrite Hv in H. destruct H as (-> & _ & HS & _).
    exists s'. split; [exact E|]. split; [exact HS|]. rewrite Hn. reflexivity.
Defined.


(** A join request built by [PrepareFrame] is the header, the application
    and the device identifier in transmission order, the fresh nonce the device
    remembers, and the integrity code of these nineteen bytes under the application key; the receive
    windows are set to the join delays. *)
Theorem join_request_layout (RD : RadioDriver) (FS : FrameSecurity) s hdr fctrl port :
  length (LoRaMacBuffer s) = 255%nat -> length (LoRaMacAppEui s) = 8%nat -> length (LoRaMacDevEui s) = 8%nat ->
  MType hdr = FRAME_TYPE_JOIN_REQ ->
  exists s', PrepareFrame hdr fctrl port None 0 s = Done (LORAMAC_STATUS_OK, s') /\
    LoRaMacDevNonce s' = u16 (RadioRandom (env s)) /\ LoRaMacBufferPktLen s' = 23 /\
    take 23 (LoRaMacBuffer s') = join_body s hdr ++ le_bytes 4 (fs_join_mic (LoRaMacAppKey s) (join_body s hdr)) /\
    RxWindow1Delay s' = u32 (JoinAcceptDelay1 (LoRaMacParams s) - RADIO_WAKEUP_TIME) /\
    RxWindow2Delay s' = u32 (JoinAcceptDelay2 (LoRaMacParams s) - RADIO_WAKEUP_TIME).
Proof.
  intros HB HA HD Ht. unfold PrepareFrame. rewrite put_spec by (cbn [update LoRaMacBuffer length]; lia).
  cbn [rbind]. rewrite Ht. change (FRAME_TYPE_JOIN_REQ =? FRAME_TYPE_JOIN_REQ) with true. cbn iota.
  set (s0 := s <| LoRaMacBufferPktLen := 0 |> <| NodeAckRequested := false |>).
  set (b := splice (LoRaMacBuffer s0) (Z.to_nat 0) [hdr]).
  destruct (starts_append (LoRaMacBuffer s) [] [hdr] 0) as (Hs & Hb & _); [done|done|cbn [length]; lia|].
  destruct (prepare_join_req_spec (s0 <| LoRaMacBuffer := b |>) hdr) as (s' & E & H1 & H2 & _ & H3 & H4 & H5);
    [by rewrite <- HB|exact Hs|done|done|].
  rewrite E. cbn [rbind]. exists s'. split; [done|]. by split_and!.
Qed.

Lemma join_request_layout_witness :
  let s := demo_mac <| LoRaMacAppEui := [1; 2; 3; 4; 5; 6; 7; 8] |> <| LoRaMacDevEui := [8; 7; 6; 5; 4; 3; 2; 1] |> in
  exists s', @PrepareFrame mac_security (mhdr FRAME_TYPE_JOIN_REQ) (mkFCtrl 0 0 0 0 0) 0 None 0 s = Done (LORAMAC_STATUS_OK, s') /\
    LoRaMacDevNonce s' = 0x1234.
Proof.
  intros s. destruct (join_request_layout demo_driver mac_security s (mhdr FRAME_TYPE_JOIN_REQ) (mkFCtrl 0 0 0 0 0) 0)
    as (s' & E & Hn & _); try reflexivity.
  exists s'. split; [exact E|]. rewrite Hn. reflexivity.
Defined.



(** When the default datarate is one that no channel of the list supports
    (the application can set it with [MibSetRequestConfirm], which checks only
    the range 0 to 7), the loop of [ScheduleTx] that looks for a channel never ends: no number of rounds is enough. *)
Theorem schedule_loops_without_channel (RD : RadioDriver) (FS : FrameSecurity) fuel s :
  chan_wf s -> AggregatedTimeOff s = 0 ->
  unsupported s (ChannelsDatarate (LoRaMacParams s)) -> unsupported s (ChannelsDatarate (LoRaMacParamsDefaults s)) ->
  select_channel fuel s = NoFuel.
Proof. apply select_channel_loops. Qed.

Lemma chan_wf_params s p q : chan_wf s -> length (ChannelsMask p) = 6%nat ->
  chan_wf (s <| LoRaMacParams := p |> <| LoRaMacParamsDefaults := q |>).
Proof. by intros [] ?. Qed.

Lemma schedule_loops_without_channel_witness :
  let p := demo_params <| ChannelsDatarate := 7 |> in
  select_channel 1000 (demo_mac <| LoRaMacParams := p |> <| LoRaMacParamsDefaults := p |>) = NoFuel.
Proof.
  intros p. apply (schedule_loops_without_channel demo_driver mac_security).
  - by apply chan_wf_params; [exact demo_wf|].
  - reflexivity.
  - repeat (apply List.Forall_cons; [vm_compute; intros [? ?]; congruence|]). apply List.Forall_nil.
  - repeat (apply List.Forall_cons; [vm_compute; intros [? ?]; congruence|]). apply List.Forall_nil.
Defined.

(** The length check of [PrepareFrame] ignores the answers to repeat: with
    nine bytes of them, a payload of the longest size the check accepts is
    written past the end of the 255-byte frame buffer. *)
Theorem prepare_frame_overflows :
  let s := demo_mac <| MacCommandsBufferToRepeatIndex := 9 |> <| MacCommandsInNextTx := true |> in
  ValidatePayloadLength s 242 5 (MacCommandsBufferIndex s) = Done true /\
  @PrepareFrame mac_security (mhdr FRAME_TYPE_DATA_UNCONFIRMED_UP) (mkFCtrl 0 0 0 0 0) 2 (Some (replicate 242 0)) 242 s = Undef.
Proof. split; [reflexivity|vm_compute; reflexivity]. Qed.

End MacFrame.
