(* ===== verification/MacRx.v ===== *)
(** Event handlers of src/src/mac/LoRaMac.c: the end of a transmission, the
    receive windows, received frames (join accepts, data, proprietary), the
    acknowledgement timeout and the periodic check that ends a transmission
    cycle or repeats the frame. *)
From S2P Require Import Prelude Utilities Aes MacTypes MacChannels Multicast MacCommands MacCrypto MacFrame.

Module MacRx.
Import MacTypes MacChannels Multicast MacCommands MacCrypto MacFrame.
Abbreviation is_block := Aes.is_block.

(** Calls without a result, appended to the trace. *)
Definition log (l : list action) (s : mac) : mac := s <| trace ::= fun t => t ++ l |>.

Definition is_class_c (s : mac) : bool := bool_decide (LoRaMacDeviceClass s = CLASS_C).

(** [n] bytes at [off], least significant first. *)
Definition word (payload : list Z) (off : Z) (n : nat) : run Z :=
  let* l := rdn payload off (Z.of_nat n) in Done (le_val l).

(** * Receive windows *)

(** [symbTimeout] and [bandwidth] of a datarate. *)
Definition rx_symbols (datarate : Z) : Z * Z :=
  if (datarate =? 3) || (datarate =? 4) then (8, 0)
  else if datarate =? 5 then (10, 0)
  else if datarate =? 6 then (14, 1)
  else (5, 0).

Definition RxWindowSetup (freq datarate bandwidth timeout : Z) (rxContinuous : bool) : M unit := fun s =>
  let* downlinkDatarate := rd Datarates datarate in
  if RadioIdle (env s) then
    let '(modem, config) :=
      if datarate =? 7 then (MODEM_FSK, RadioSetRxConfig MODEM_FSK 50000 (downlinkDatarate * 1000) 0 rxContinuous)
      else (MODEM_LORA, RadioSetRxConfig MODEM_LORA bandwidth downlinkDatarate timeout rxContinuous) in
    let* max := rd (if RepeaterSupport s then MaxPayloadOfDatarateRepeater else MaxPayloadOfDatarate) datarate in
    let s := s <| McpsIndication ::= fun i => i <| mi_RxDatarate := u8 datarate |> |> in
    Done (tt, log [RadioSetChannel freq; config;
                   RadioSetMaxPayloadLength modem (max + LORA_MAC_FRMPAYLOAD_OVERHEAD);
                   RadioRx (if rxContinuous then 0 else MaxRxWindow (LoRaMacParams s))] s)
  else Done (tt, s).

Definition OnRxWindow1TimerEvent : M unit := fun s =>
  let s := (log [TimerStop RxWindowTimer1] s) <| RxSlot := 0 |> in
  let s := if is_class_c s then log [RadioStandby] s else s in
  let p := LoRaMacParams s in
  let datarate := s8 (ChannelsDatarate p - Rx1DrOffset p) in
  let datarate := if datarate <? 0 then 0 else datarate in
  let '(symbTimeout, bandwidth) := rx_symbols datarate in
  let* ch := rd (Channels s) (Channel s) in
  RxWindowSetup (Frequency ch) datarate bandwidth symbTimeout false s.

Definition OnRxWindow2TimerEvent : M unit := fun s =>
  let s := (log [TimerStop RxWindowTimer2] s) <| RxSlot := 1 |> in
  let p := LoRaMacParams s in
  let '(symbTimeout, bandwidth) := rx_symbols (Rx2Datarate p) in
  RxWindowSetup (Rx2Frequency p) (Rx2Datarate p) bandwidth symbTimeout (is_class_c s) s.

(** [Radio.Sleep( )], or the second window again for a class C device. *)
Definition sleep_or_listen : M unit := fun s =>
  if negb (is_class_c s) then Done (tt, log [RadioSleep] s) else OnRxWindow2TimerEvent s.

Definition OnAckTimeoutTimerEvent : M unit := fun s =>
  let s := log [TimerStop AckTimeoutTimer] s in
  let s := if NodeAckRequested s
           then s <| AckTimeoutRetry := true |> <| LoRaMacState ::= fun v => Z.ldiff v MAC_ACK_REQ |> else s in
  let s := if is_class_c s then s <| LoRaMacFlags ::= fun f => f <| MacDone := true |> |> else s in
  Done (tt, s).

(** * End of a transmission *)

Definition OnRadioTxDone : M unit := fun s =>
  let curTime := now (env s) in
  let* (_, s) := sleep_or_listen s in
  let s := s <| LastTxChannel := Channel s |> in
  let* ch := rd (Channels s) (LastTxChannel s) in
  let* band := rd (Bands s) (Band ch) in
  let* bands := wr (Bands s) (Band ch) (band <| LastTxDoneTime := curTime |>) in
  let s := s <| Bands := bands |> <| AggregatedLastTxDoneTime := curTime |> in
  let* s :=
    (if IsRxWindowsEnabled s then
       let s := log [TimerSetValue RxWindowTimer1 (RxWindow1Delay s); TimerStart RxWindowTimer1] s in
       let s := if negb (is_class_c s)
                then log [TimerSetValue RxWindowTimer2 (RxWindow2Delay s); TimerStart RxWindowTimer2] s else s in
       if is_class_c s || NodeAckRequested s then
         let* (r, s) := rand_range (- ACK_TIMEOUT_RND) ACK_TIMEOUT_RND s in
         Done (log [TimerSetValue AckTimeoutTimer (u32 (RxWindow2Delay s + ACK_TIMEOUT + r)); TimerStart AckTimeoutTimer] s)
       else Done s
     else
       let s := s <| McpsConfirm ::= fun c => c <| mc_Status := LORAMAC_EVENT_INFO_STATUS_OK |> |>
                  <| MlmeConfirm ::= fun c => c <| ml_Status := LORAMAC_EVENT_INFO_STATUS_RX2_TIMEOUT |> |> in
       let f := LoRaMacFlags s in
       let f := if negb (McpsReq f || McpsInd f || MlmeReq f || MacDone f) then f <| McpsReq := true |> else f in
       Done (s <| LoRaMacFlags := f <| MacDone := true |> |>)) in
  let s := if negb (NodeAckRequested s)
           then s <| McpsConfirm ::= fun c => c <| mc_Status := LORAMAC_EVENT_INFO_STATUS_OK |> |>
                  <| ChannelsNbRepCounter ::= fun n => u8 (n + 1) |>
           else s in
  Done (tt, s).

Definition OnRadioTxTimeout : M unit := fun s =>
  let* (_, s) := sleep_or_listen s in
  Done (tt, s <| McpsConfirm ::= fun c => c <| mc_Status := LORAMAC_EVENT_INFO_STATUS_TX_TIMEOUT |> |>
    <| MlmeConfirm ::= fun c => c <| ml_Status := LORAMAC_EVENT_INFO_STATUS_TX_TIMEOUT |> |>
    <| LoRaMacFlags ::= fun f => f <| MacDone := true |> |>).

(** The second window ended without a frame. *)
Definition rx2_failed (status : LoRaMacEventInfoStatus_t) : M unit := fun s =>
  let* (_, s) := sleep_or_listen s in
  if RxSlot s =? 1 then
    let s := if NodeAckRequested s then s <| McpsConfirm ::= fun c => c <| mc_Status := status |> |> else s in
    Done (tt, s <| MlmeConfirm ::= fun c => c <| ml_Status := status |> |>
      <| LoRaMacFlags ::= fun f => f <| MacDone := true |> |>)
  else Done (tt, s).

Definition OnRadioRxError : M unit := rx2_failed LORAMAC_EVENT_INFO_STATUS_RX2_ERROR.
Definition OnRadioRxTimeout : M unit := rx2_failed LORAMAC_EVENT_INFO_STATUS_RX2_TIMEOUT.

(** * Received frames *)

(** The indication is pending and the check timer fires at once. *)
Definition trigger_check (s : mac) : mac :=
  log [TimerSetValue MacStateCheckTimer 1; TimerStart MacStateCheckTimer] s.

Definition listen_again : M unit := fun s =>
  if (RxSlot s =? 0) && is_class_c s then OnRxWindow2TimerEvent s else Done (tt, s).

Definition PrepareRxDoneAbort : M unit := fun s =>
  let s := s <| LoRaMacState ::= fun v => Z.lor v MAC_RX_ABORT |> in
  let* (_, s) := (if NodeAckRequested s then OnAckTimeoutTimerEvent s else Done (tt, s)) in
  let* (_, s) := listen_again s in
  Done (tt, trigger_check (s <| LoRaMacFlags ::= fun f => f <| McpsInd := true |> <| MacDone := true |> |>)).

(** [McpsIndication.Status = status; PrepareRxDoneAbort( ); return] *)
Definition rx_abort (status : LoRaMacEventInfoStatus_t) (downLinkCounter : option Z) : M bool := fun s =>
  let s := s <| McpsIndication ::= fun i => i <| mi_Status := status |>
             <| mi_DownLinkCounter := default (mi_DownLinkCounter i) downLinkCounter |> |> in
  let* (_, s) := PrepareRxDoneAbort s in
  Done (false, s).

Section Rx.
Context {RD : RadioDriver} {FS : FrameSecurity}.

(** ** Join accept *)

(** [LoRaMacJoinDecrypt( payload + 1, size - 1, LoRaMacAppKey, LoRaMacRxPayload + 1 )] *)
Definition join_decrypt (payload : list Z) (size : Z) : M unit := fun s =>
  let* b0 := rdn payload 1 16 in
  let* rx := wrn (LoRaMacRxPayload s) 1 (fs_join_block (LoRaMacAppKey s) b0) in
  let* rx := (if 16 <=? u16 (size - 1) then
      let* b1 := rdn payload 17 16 in wrn rx 17 (fs_join_block (LoRaMacAppKey s) b1)
    else Done rx) in
  Done (tt, s <| LoRaMacRxPayload := rx |>).

(** The loop over the five channels of the list. *)
Fixpoint add_cflist (n : nat) (i j : Z) : M unit := fun s =>
  match n with
  | O => Done (tt, s)
  | S n' =>
      let* f := word (LoRaMacRxPayload s) (13 + j) 3 in
      let* (_, s) := LoRaMacChannelAdd i (u32 (f * 100)) (Z.lor (Z.shiftl 5 4) 0) s in
      add_cflist n' (i + 1) (j + 3) s
  end.

(** The session a join accept in [LoRaMacRxPayload] sets up. *)
Definition join_session (size : Z) : M unit := fun s =>
  let rx := LoRaMacRxPayload s in
  let* appNonce := rdn rx 1 6 in
  let nwk := fs_session_key (LoRaMacAppKey s) 1 appNonce (LoRaMacDevNonce s) in
  let app := fs_session_key (LoRaMacAppKey s) 2 appNonce (LoRaMacDevNonce s) in
  let* netId := word rx 4 3 in
  let* devAddr := word rx 7 4 in
  let* dl := rd rx 11 in
  let* d := rd rx 12 in
  let delay := if Z.land d 0x0F =? 0 then 1 else Z.land d 0x0F in
  let s := s <| LoRaMacNwkSKey := nwk |> <| LoRaMacAppSKey := app |> <| LoRaMacNetID := netId |>
             <| LoRaMacDevAddr := devAddr |>
             <| LoRaMacParams ::= fun p => p <| Rx1DrOffset := Z.land (Z.shiftr dl 4) 0x07 |>
                  <| Rx2Datarate := Z.land dl 0x0F |>
                  <| ReceiveDelay1 := delay * 1000 |> <| ReceiveDelay2 := delay * 1000 + 1000 |> |> in
  let* (_, s) :=
    (if 16 <? size - 1 then
       let* (_, s) := state_set MAC_TX_CONFIG s in
       let* (_, s) := add_cflist 5 3 0 s in
       state_clear MAC_TX_CONFIG s
     else Done (tt, s)) in
  Done (tt, s <| MlmeConfirm ::= fun c => c <| ml_Status := LORAMAC_EVENT_INFO_STATUS_OK |> |>
    <| IsLoRaMacNetworkJoined := true |>
    <| LoRaMacParams ::= fun p => p <| ChannelsDatarate := ChannelsDatarate (LoRaMacParamsDefaults s) |> |>).

Definition rx_join_accept (hdr : Z) (payload : list Z) (size : Z) : M unit := fun s =>
  if IsLoRaMacNetworkJoined s then Done (tt, s) else
  let* (_, s) := join_decrypt payload size s in
  let* rx := wr (LoRaMacRxPayload s) 0 hdr in
  let s := s <| LoRaMacRxPayload := rx |> in
  let* msg := rdn rx 0 (Z.land (u16 (size - LORAMAC_MFR_LEN)) 0xFF) in
  let mic := fs_join_mic (LoRaMacAppKey s) msg in
  let* micRx := word rx (size - LORAMAC_MFR_LEN) 4 in
  if micRx =? mic then join_session size s
  else Done (tt, s <| MlmeConfirm ::= fun c => c <| ml_Status := LORAMAC_EVENT_INFO_STATUS_JOIN_FAIL |> |>).

(** ** Data frames *)

(** Who a frame is for: the group (unicast when [None]), the keys and the
    last counter. *)
Record destination := mkDest {
  d_group : option Z;
  d_nwk : list Z;
  d_app : list Z;
  d_counter : Z;
}.

Definition rx_destination (address : Z) (s : mac) : run (option destination) :=
  if negb (address =? LoRaMacDevAddr s) then
    let* g := find_group (walk_fuel (MulticastNodes s)) (MulticastNodes s) (MulticastChannels s) address in
    match g with
    | None => Done None
    | Some p =>
        match MulticastNodes s !! p with
        | Some n => Done (Some (mkDest (Some p) (mp_NwkSKey n) (mp_AppSKey n) (mp_DownLinkCounter n)))
        | None => Undef
        end
    end
  else Done (Some (mkDest None (LoRaMacNwkSKey s) (LoRaMacAppSKey s) (DownLinkCounter s))).

(** The 32-bit counter the frame's 16 bits stand for, and the code computed
    with it. *)
Definition rx_counter (counter diff : Z) : Z :=
  if diff <? 2 ^ 15 then u32 (counter + diff) else u32 (counter + 0x10000 + s16 diff).

(** What [downLinkCounter] is after the check: the rolled over one only when
    the code fits. *)
Definition rx_counter_after (counter diff : Z) (isMicOk : bool) : Z :=
  if diff <? 2 ^ 15 then u32 (counter + diff)
  else if isMicOk then u32 (counter + 0x10000 + s16 diff) else counter.

(** Updates the counter of the sender; [None] when the frame is a repeat that is
    refused, else [skipIndication]. *)
Definition rx_update_counter (mtype : Z) (d : destination) (ctr : Z) : M (option bool) := fun s =>
  let repeated c := (c =? ctr) && negb (c =? 0) in
  match d_group d with
  | Some p =>
      let s := s <| McpsIndication ::= fun i => i <| mi_McpsIndication := MCPS_MULTICAST |> |> in
      match MulticastNodes s !! p with
      | None => Undef
      | Some n =>
          if repeated (mp_DownLinkCounter n) then Done (None, s)
          else Done (Some false, s <| MulticastNodes := <[p := n <| mp_DownLinkCounter := ctr |>]> (MulticastNodes s) |>)
      end
  | None =>
      if mtype =? FRAME_TYPE_DATA_CONFIRMED_DOWN then
        let s := s <| SrvAckRequested := true |>
                   <| McpsIndication ::= fun i => i <| mi_McpsIndication := MCPS_CONFIRMED |> |> in
        Done (Some (repeated (DownLinkCounter s)), s <| DownLinkCounter := ctr |>)
      else
        let s := s <| SrvAckRequested := false |>
                   <| McpsIndication ::= fun i => i <| mi_McpsIndication := MCPS_UNCONFIRMED |> |> in
        if repeated (DownLinkCounter s) then Done (None, s)
        else Done (Some false, s <| DownLinkCounter := ctr |>)
  end.

(** The acknowledgement bit. *)
Definition rx_ack (fctrl : LoRaMacFrameCtrl_t) (s : mac) : mac :=
  if Ack fctrl =? 1 then
    log [TimerStop AckTimeoutTimer]
      (s <| McpsConfirm ::= fun c => c <| mc_AckReceived := true |> |>
         <| McpsIndication ::= fun i => i <| mi_AckReceived := true |> |>)
  else
    let s := s <| McpsConfirm ::= fun c => c <| mc_AckReceived := false |> |> in
    if AckTimeoutRetries s <? AckTimeoutRetriesCounter s then log [TimerStop AckTimeoutTimer] s else s.

(** [LoRaMacPayloadDecrypt( payload + start, len, key, ..., LoRaMacRxPayload )] *)
Definition rx_decrypt (payload : list Z) (start len : Z) (key : list Z) (address ctr : Z) : M unit := fun s =>
  let* msg := rdn payload start len in
  let* rx := wrn (LoRaMacRxPayload s) 0 (fs_cipher key DOWN_LINK address ctr msg) in
  Done (tt, s <| LoRaMacRxPayload := rx |>).

(** The port, the payload and the commands; returns [skipIndication]. *)
Definition rx_payload (payload : list Z) (size : Z) (fctrl : LoRaMacFrameCtrl_t) (d : destination)
  (address ctr snr : Z) (skip : bool) : M bool := fun s =>
  let start := 8 + FOptsLen fctrl in
  if 0 <? (size - 4) - start then
    let* port := rd payload start in
    let start := start + 1 in
    let frameLen := u8 ((size - 4) - start) in
    let s := s <| McpsIndication ::= fun i => i <| mi_Port := port |> |> in
    if port =? 0 then
      if FOptsLen fctrl =? 0 then
        let* (_, s) := rx_decrypt payload start frameLen (d_nwk d) address ctr s in
        let* (_, s) := ProcessMacCommands (LoRaMacRxPayload s) 0 frameLen snr s in
        Done (skip, s)
      else Done (true, s)
    else
      let* (_, s) := (if 0 <? FOptsLen fctrl then ProcessMacCommands payload 8 (start - 1) snr s else Done (tt, s)) in
      let* (_, s) := rx_decrypt payload start frameLen (d_app d) address ctr s in
      Done (skip, if skip then s else
        s <| McpsIndication ::= fun i => i <| mi_Buffer := true |> <| mi_BufferSize := frameLen |> <| mi_RxData := true |> |>)
  else
    let* (_, s) := (if 0 <? FOptsLen fctrl then ProcessMacCommands payload 8 start snr s else Done (tt, s)) in
    Done (skip, s).

(** A frame whose code fits. *)
Definition rx_accept (mtype : Z) (payload : list Z) (size : Z) (fctrl : LoRaMacFrameCtrl_t) (d : destination)
  (address ctr snr : Z) : M bool := fun s =>
  let s := s <| McpsIndication ::= fun i => i <| mi_Status := LORAMAC_EVENT_INFO_STATUS_OK |>
                  <| mi_Multicast := match d_group d with Some _ => 1 | None => 0 end |>
                  <| mi_FramePending := FPending fctrl |> <| mi_Buffer := false |> <| mi_BufferSize := 0 |>
                  <| mi_DownLinkCounter := ctr |> |>
             <| McpsConfirm ::= fun c => c <| mc_Status := LORAMAC_EVENT_INFO_STATUS_OK |> |>
             <| AdrAckCounter := 0 |> <| MacCommandsBufferToRepeatIndex := 0 |> in
  let* (r, s) := rx_update_counter mtype d ctr s in
  match r with
  | None => rx_abort LORAMAC_EVENT_INFO_STATUS_DOWNLINK_REPEATED (Some ctr) s
  | Some skip =>
      let s := rx_ack fctrl s in
      let* (skip, s) := rx_payload payload size fctrl d address ctr snr skip s in
      Done (true, if skip then s else s <| LoRaMacFlags ::= fun f => f <| McpsInd := true |> |>)
  end.

(** [false]: the handler returned early. *)
Definition rx_data (mtype : Z) (payload : list Z) (size snr : Z) : M bool := fun s =>
  let* address := word payload 1 4 in
  let* dest := rx_destination address s in
  match dest with
  | None => rx_abort LORAMAC_EVENT_INFO_STATUS_ADDRESS_FAIL None s
  | Some d =>
      let* fc := rd payload 5 in
      let fctrl := fctrl_of_byte fc in
      let* sequenceCounter := word payload 6 2 in
      let* micRx := word payload (size - LORAMAC_MFR_LEN) 4 in
      let diff := u16 (sequenceCounter - u16 (d_counter d)) in
      let* msg := rdn payload 0 (Z.land (u16 (size - LORAMAC_MFR_LEN)) 0xFF) in
      let mic := fs_mic (d_nwk d) DOWN_LINK address (rx_counter (d_counter d) diff) msg in
      let isMicOk := micRx =? mic in
      let ctr := rx_counter_after (d_counter d) diff isMicOk in
      if MAX_FCNT_GAP <=? diff
      then rx_abort LORAMAC_EVENT_INFO_STATUS_DOWNLINK_TOO_MANY_FRAMES_LOSS (Some ctr) s
      else if isMicOk then rx_accept mtype payload size fctrl d address ctr snr s
      else rx_abort LORAMAC_EVENT_INFO_STATUS_MIC_FAIL None s
  end.

Definition rx_proprietary (payload : list Z) (size : Z) : M unit := fun s =>
  let* rx := memcpy1 (LoRaMacRxPayload s) 0 payload 1 size in
  Done (tt, s <| LoRaMacRxPayload := rx |>
    <| McpsIndication ::= fun i => i <| mi_McpsIndication := MCPS_PROPRIETARY |>
         <| mi_Status := LORAMAC_EVENT_INFO_STATUS_OK |> <| mi_Buffer := true |> <| mi_BufferSize := u8 (size - 1) |> |>
    <| LoRaMacFlags ::= fun f => f <| McpsInd := true |> |>).

(** The indication of a frame before it is looked at. *)
Definition rx_reset (rssi snr : Z) (s : mac) : mac :=
  let s := s <| McpsConfirm ::= fun c => c <| mc_AckReceived := false |> |>
             <| McpsIndication ::= fun i => i <| mi_Rssi := rssi |> <| mi_Snr := u8 snr |> <| mi_RxSlot := RxSlot s |>
                  <| mi_Port := 0 |> <| mi_Multicast := 0 |> <| mi_FramePending := 0 |> <| mi_Buffer := false |>
                  <| mi_BufferSize := 0 |> <| mi_RxData := false |> <| mi_AckReceived := false |>
                  <| mi_DownLinkCounter := 0 |> <| mi_McpsIndication := MCPS_UNCONFIRMED |> |> in
  let s := if negb (is_class_c s) then log [RadioSleep] s else s in
  log [TimerStop RxWindowTimer2] s.

Definition OnRadioRxDone (payload : list Z) (size rssi snr : Z) : M unit := fun s =>
  let s := rx_reset rssi snr s in
  let* hdr := rd payload 0 in
  let t := MType hdr in
  let* (continue, s) :=
    (if t =? FRAME_TYPE_JOIN_ACCEPT then
       let* (_, s) := rx_join_accept hdr payload size s in Done (true, s)
     else if (t =? FRAME_TYPE_DATA_CONFIRMED_DOWN) || (t =? FRAME_TYPE_DATA_UNCONFIRMED_DOWN) then
       rx_data t payload size snr s
     else if t =? FRAME_TYPE_PROPRIETARY then
       let* (_, s) := rx_proprietary payload size s in Done (true, s)
     else
       let* (_, s) := rx_abort LORAMAC_EVENT_INFO_STATUS_ERROR None s in Done (true, s)) in
  if negb continue then Done (tt, s) else
  let* (_, s) := listen_again s in
  Done (tt, trigger_check (s <| LoRaMacFlags ::= fun f => f <| MacDone := true |> |>)).

(** * The periodic check *)

Definition bump_uplink (s : mac) : mac :=
  if IsUpLinkCounterFixed s then s else s <| UpLinkCounter ::= fun n => u32 (n + 1) |>.

Definition stop_tx (s : mac) : mac := s <| LoRaMacState ::= fun v => Z.ldiff v MAC_TX_RUNNING |>.

Definition request_pending (s : mac) : bool := MlmeReq (LoRaMacFlags s) || McpsReq (LoRaMacFlags s).

(** A transmission that the radio gave up ends the cycle; returns [txTimeout]. *)
Definition check_tx_timeout (s : mac) : bool * mac :=
  if request_pending s &&
     (bool_decide (mc_Status (McpsConfirm s) = LORAMAC_EVENT_INFO_STATUS_TX_TIMEOUT) ||
      bool_decide (ml_Status (MlmeConfirm s) = LORAMAC_EVENT_INFO_STATUS_TX_TIMEOUT))
  then (true, (stop_tx s) <| McpsConfirm ::= fun c => c <| mc_NbRetries := AckTimeoutRetriesCounter s |>
                               <| mc_AckReceived := false |> <| mc_TxTimeOnAir := 0 |> |>)
  else (false, s).

(** A joined network ends the repetitions of the request and resets the counter. *)
Definition check_join (s : mac) : mac :=
  if MlmeReq (LoRaMacFlags s) && bool_decide (ml_MlmeRequest (MlmeConfirm s) = MLME_JOIN) then
    let s := s <| ChannelsNbRepCounter := 0 |> in
    if bool_decide (ml_Status (MlmeConfirm s) = LORAMAC_EVENT_INFO_STATUS_OK)
    then s <| ChannelsNbRepCounter := ChannelsNbRep (LoRaMacParams s) |> <| UpLinkCounter := 0 |>
    else s
  else s.

(** An unacknowledged frame is repeated [ChannelsNbRep] times. *)
Definition check_unconfirmed (txTimeout : bool) (s : mac) : run mac :=
  if negb (NodeAckRequested s) && negb txTimeout then
    let s := check_join s in
    if request_pending s then
      if (ChannelsNbRep (LoRaMacParams s) <=? ChannelsNbRepCounter s) || McpsInd (LoRaMacFlags s) then
        let s := s <| ChannelsNbRepCounter := 0 |> <| AdrAckCounter ::= fun n => u32 (n + 1) |> in
        Done (stop_tx (bump_uplink s))
      else
        let* (_, s) := ScheduleTx (s <| LoRaMacFlags ::= fun f => f <| MacDone := false |> |>) in
        Done s
    else Done s
  else Done s.

(** A received frame ends a confirmed cycle when it acknowledges the uplink
    or no try is left. *)
Definition check_received (s : mac) : mac :=
  if McpsInd (LoRaMacFlags s) &&
     (mc_AckReceived (McpsConfirm s) || (AckTimeoutRetries s <? AckTimeoutRetriesCounter s))
  then
    let s := s <| AckTimeoutRetry := false |> <| NodeAckRequested := false |> in
    let s := bump_uplink s in
    stop_tx (s <| McpsConfirm ::= fun c => c <| mc_NbRetries := AckTimeoutRetriesCounter s |> |>)
  else s.

(** A confirmed frame without acknowledgement is sent again, at a lower
    datarate every other time, until the tries are used up. *)
Definition check_retry (s : mac) : run mac :=
  if AckTimeoutRetry s && (Z.land (LoRaMacState s) MAC_TX_DELAYED =? 0) then
    let s := s <| AckTimeoutRetry := false |> in
    if (AckTimeoutRetriesCounter s <? AckTimeoutRetries s) && (AckTimeoutRetriesCounter s <=? MAX_ACK_RETRIES) then
      let s := s <| AckTimeoutRetriesCounter ::= fun n => u8 (n + 1) |> in
      let s := if AckTimeoutRetriesCounter s mod 2 =? 1
               then s <| LoRaMacParams ::= fun p =>
                      p <| ChannelsDatarate := Z.max (ChannelsDatarate p - 1) LORAMAC_TX_MIN_DATARATE |> |>
               else s in
      let* (_, s) := ScheduleTx (s <| LoRaMacFlags ::= fun f => f <| MacDone := false |> |>) in
      Done s
    else
      let s := stop_tx (s <| LoRaMacParams ::= reenable_default |>) in
      Done (bump_uplink (s <| NodeAckRequested := false |>
        <| McpsConfirm ::= fun c => c <| mc_AckReceived := false |> <| mc_NbRetries := AckTimeoutRetriesCounter s |> |>))
  else Done s.

(** The upper layer is told when the MAC is idle; otherwise the check is
    repeated. *)
Definition check_finish (s : mac) : mac :=
  let s := if state_has MAC_RX s then s <| LoRaMacState ::= fun v => Z.ldiff v MAC_RX |> else s in
  let s :=
    if LoRaMacState s =? MAC_IDLE then
      let s := if McpsReq (LoRaMacFlags s)
               then (log [MacMcpsConfirm (McpsConfirm s)] s) <| LoRaMacFlags ::= fun f => f <| McpsReq := false |> |>
               else s in
      let s := if MlmeReq (LoRaMacFlags s)
               then (log [MacMlmeConfirm (MlmeConfirm s)] s) <| LoRaMacFlags ::= fun f => f <| MlmeReq := false |> |>
               else s in
      s <| LoRaMacFlags ::= fun f => f <| MacDone := false |> |>
    else log [TimerSetValue MacStateCheckTimer MAC_STATE_CHECK_TIMEOUT; TimerStart MacStateCheckTimer] s in
  if McpsInd (LoRaMacFlags s)
  then (log [MacMcpsIndication (McpsIndication s) (LoRaMacRxPayload s)] s)
         <| LoRaMacFlags ::= fun f => f <| McpsInd := false |> |>
  else s.

(** The work of the check when an operation has ended. *)
Definition check_done (s : mac) : run mac :=
  if MacDone (LoRaMacFlags s) then
    let s := if state_has MAC_RX_ABORT s
             then stop_tx (s <| LoRaMacState ::= fun v => Z.ldiff v MAC_RX_ABORT |>) else s in
    let '(txTimeout, s) := check_tx_timeout s in
    let* s := check_unconfirmed txTimeout s in
    check_retry (check_received s)
  else Done s.

Definition OnMacStateCheckTimerEvent : M unit := fun s =>
  let* s := check_done (log [TimerStop MacStateCheckTimer] s) in
  Done (tt, check_finish s).

Definition OnTxDelayedTimerEvent : M unit := fun s =>
  let s := log [TimerStop TxDelayedTimer] s in
  let s := s <| LoRaMacState ::= fun v => Z.ldiff v MAC_TX_DELAYED |> in
  let* s :=
    (if MlmeReq (LoRaMacFlags s) && bool_decide (ml_MlmeRequest (MlmeConfirm s) = MLME_JOIN) then
       let fctrl := mkFCtrl 0 0 0 0 (b2z (AdrCtrlOn s)) in
       let* (_, s) := PrepareFrame (mhdr FRAME_TYPE_JOIN_REQ) fctrl 0 None 0 s in Done s
     else Done s) in
  let* (_, s) := ScheduleTx s in
  Done (tt, s).

(** * Lemmas *)

(** ** What the notifications do not touch

    Most steps of the handlers only prepare the confirmations and indications
    for the upper layer, set timers and talk to the radio.  Two states are
    [quiet] when they agree on everything else. *)
Definition core (s : mac) : mac :=
  s <| trace := [] |> <| McpsIndication := indication_zero |> <| McpsConfirm := mcps_confirm_zero |>
    <| MlmeConfirm := mlme_confirm_zero |> <| LoRaMacFlags := flags_zero |> <| LoRaMacState := 0 |>
    <| AckTimeoutRetry := false |> <| RxSlot := 0 |>.

Definition quiet (s s' : mac) : Prop := core s' = core s.

#[local] Instance quiet_equiv : Equivalence quiet.
Proof. unfold quiet. split; intros ?; intros; congruence. Qed.

Lemma core_log l s : core (log l s) = core s.
Proof. by destruct s. Qed.
Lemma core_ind s g : core (s <| McpsIndication ::= g |>) = core s.
Proof. by destruct s. Qed.
Lemma core_mcps s g : core (s <| McpsConfirm ::= g |>) = core s.
Proof. by destruct s. Qed.
Lemma core_mlme s g : core (s <| MlmeConfirm ::= g |>) = core s.
Proof. by destruct s. Qed.
Lemma core_flags s g : core (s <| LoRaMacFlags ::= g |>) = core s.
Proof. by destruct s. Qed.
Lemma core_state s g : core (s <| LoRaMacState ::= g |>) = core s.
Proof. by destruct s. Qed.
Lemma core_retry s b : core (s <| AckTimeoutRetry := b |>) = core s.
Proof. by destruct s. Qed.
Lemma core_slot s n : core (s <| RxSlot := n |>) = core s.
Proof. by destruct s. Qed.
Create Rewrite HintDb core_db.
#[local] Hint Rewrite core_log core_ind core_mcps core_mlme core_flags core_state core_retry core_slot : core_db.

(** Reads a field of a quiet successor in the first state. *)
Lemma quiet_field {A} (f : mac -> A) s s' : (forall x, f (core x) = f x) -> quiet s s' -> f s' = f s.
Proof. intros Hf H. rewrite <- (Hf s'), <- (Hf s). by rewrite H. Qed.

Ltac quiet_solve := unfold quiet; by autorewrite with core_db.

Lemma AckTimeout_quiet s : exists s', OnAckTimeoutTimerEvent s = Done (tt, s') /\ quiet s s' /\
  McpsIndication s' = McpsIndication s.
Proof.
  unfold OnAckTimeoutTimerEvent. eexists. split; [reflexivity|].
  destruct (NodeAckRequested _), (is_class_c _); (split; [quiet_solve|done]).
Qed.

Lemma not_class_c s : LoRaMacDeviceClass s <> CLASS_C -> is_class_c s = false.
Proof. intros. by apply bool_decide_eq_false. Qed.

Lemma listen_again_A s : LoRaMacDeviceClass s <> CLASS_C -> listen_again s = Done (tt, s).
Proof. intros H%not_class_c. unfold listen_again. by rewrite H, andb_false_r. Qed.

(** A refused frame: the state is left as it was, the reason is reported. *)
Lemma rx_abort_spec s st c : LoRaMacDeviceClass s <> CLASS_C ->
  exists s', rx_abort st c s = Done (false, s') /\ quiet s s' /\ mi_Status (McpsIndication s') = st /\
    mi_RxData (McpsIndication s') = mi_RxData (McpsIndication s) /\
    McpsInd (LoRaMacFlags s') = true /\ MacDone (LoRaMacFlags s') = true.
Proof.
  intros Hc. unfold rx_abort, PrepareRxDoneAbort.
  set (s1 := (s <| McpsIndication ::= _ |>) <| LoRaMacState ::= _ |>).
  assert (H1 : quiet s s1) by quiet_solve.
  assert (H2 : exists s2, (if NodeAckRequested s1 then OnAckTimeoutTimerEvent s1 else Done (tt, s1)) = Done (tt, s2) /\
    quiet s1 s2 /\ McpsIndication s2 = McpsIndication s1).
  { destruct (NodeAckRequested s1); [apply AckTimeout_quiet|]. by exists s1. }
  destruct H2 as (s2 & -> & Hq & Hi). cbn [rbind].
  rewrite listen_again_A; [|by rewrite (quiet_field LoRaMacDeviceClass s1 s2)]. cbn [rbind].
  eexists. split; [reflexivity|]. split; [|split_and!; try done; change (McpsIndication (trigger_check _)) with (McpsIndication s2); by rewrite Hi].
  etransitivity; [exact H1|]. etransitivity; [exact Hq|]. unfold trigger_check. quiet_solve.
Qed.

Lemma starts_sub {A} (b l : list A) (i n : nat) : starts b l -> (i + n <= length l)%nat ->
  take n (drop i b) = take n (drop i l).
Proof.
  unfold starts. intros Hs HL. rewrite <- (take_drop (length l) b), Hs.
  rewrite drop_app_le by lia. apply take_app_le. rewrite length_drop. lia.
Qed.

Lemma starts_nth (b l : list Z) i : starts b l -> 0 <= i < zlen l -> b.[i] = l.[i].
Proof.
  unfold starts. intros Hs Hi. rewrite <- (take_drop (length l) b), Hs. by apply znth_app_l.
Qed.

(** ** Fields of a frame *)

Definition field (payload : list Z) (off n : nat) : Z := le_val (take n (drop off payload)).

Lemma word_ok payload off n : 0 <= off -> off + Z.of_nat n <= zlen payload ->
  word payload off n = Done (field payload (Z.to_nat off) n).
Proof. intros. unfold word. rewrite rdn_ok by lia. cbn [rbind]. by rewrite Nat2Z.id. Qed.

Definition unicast (s : mac) : destination := mkDest None (LoRaMacNwkSKey s) (LoRaMacAppSKey s) (DownLinkCounter s).

(** The 16-bit distance of a frame's counter from the last one accepted. *)
Definition counter_gap (s : mac) (payload : list Z) : Z := u16 (field payload 6 2 - u16 (DownLinkCounter s)).

(** The integrity code fits for the counter the frame stands for. *)
Definition authentic (s : mac) (payload : list Z) (size : Z) : bool :=
  field payload (Z.to_nat (size - 4)) 4 =?
  fs_mic (LoRaMacNwkSKey s) DOWN_LINK (LoRaMacDevAddr s) (rx_counter (DownLinkCounter s) (counter_gap s payload))
    (take (Z.to_nat (size - 4)) payload).

Lemma rx_data_unicast t s payload size snr : 12 <= size <= 255 -> 255 <= zlen payload ->
  field payload 1 4 = LoRaMacDevAddr s ->
  rx_data t payload size snr s =
    (let gap := counter_gap s payload in
     let ctr := rx_counter_after (DownLinkCounter s) gap (authentic s payload size) in
     if MAX_FCNT_GAP <=? gap
     then rx_abort LORAMAC_EVENT_INFO_STATUS_DOWNLINK_TOO_MANY_FRAMES_LOSS (Some ctr) s
     else if authentic s payload size
     then rx_accept t payload size (fctrl_of_byte payload.[5]) (unicast s) (LoRaMacDevAddr s) ctr snr s
     else rx_abort LORAMAC_EVENT_INFO_STATUS_MIC_FAIL None s).
Proof.
  intros Hs HL Ha. unfold rx_data. rewrite word_ok by lia. cbn [rbind]. change (Z.to_nat 1) with 1%nat. rewrite Ha.
  unfold rx_destination. rewrite Z.eqb_refl. cbn [negb rbind]. fold (unicast s).
  destruct (rd_ok payload 5) as (fc & -> & Hfc); [lia|]. cbn [rbind].
  assert (Hf : payload.[5] = fc) by (by apply nth_lookup_Some). rewrite <- Hf.
  rewrite word_ok by lia. cbn [rbind]. rewrite word_ok by (unfold LORAMAC_MFR_LEN; lia). cbn [rbind].
  unfold LORAMAC_MFR_LEN. rewrite u16_id by (unfold is_u16; lia). rewrite land_ff, Z.mod_small by lia.
  rewrite rdn_ok by lia. cbn [rbind]. change (Z.to_nat 0) with 0%nat. rewrite drop_0.
  change (Z.to_nat 6) with 6%nat. reflexivity.
Qed.

(** ** Payloads *)

(** Buffers, keys and tables are well formed. *)
Record rx_wf (s : mac) : Prop := mkRxWf {
  rw_rx : length (LoRaMacRxPayload s) = 255%nat;
  rw_nwk : is_block (LoRaMacNwkSKey s);
  rw_app : is_block (LoRaMacAppSKey s);
  rw_bytes : bytes (LoRaMacRxPayload s);
  rw_inv : mac_inv s;
}.

Lemma rx_wf_ext s s' : LoRaMacRxPayload s' = LoRaMacRxPayload s -> LoRaMacNwkSKey s' = LoRaMacNwkSKey s ->
  LoRaMacAppSKey s' = LoRaMacAppSKey s -> inv_view s' = inv_view s -> rx_wf s -> rx_wf s'.
Proof.
  intros E1 E2 E3 E4 [W1 W2 W3 W4 W5].
  split; [by rewrite E1|by rewrite E2|by rewrite E3|by rewrite E1|by apply (mac_inv_ext s)].
Qed.

(** What the body of an accepted frame does not change. *)
Definition kept (s s' : mac) : Prop :=
  LoRaMacDevAddr s' = LoRaMacDevAddr s /\ LoRaMacNwkSKey s' = LoRaMacNwkSKey s /\ LoRaMacAppSKey s' = LoRaMacAppSKey s /\
  UpLinkCounter s' = UpLinkCounter s /\ DownLinkCounter s' = DownLinkCounter s /\
  IsLoRaMacNetworkJoined s' = IsLoRaMacNetworkJoined s /\ MulticastNodes s' = MulticastNodes s /\
  LoRaMacDeviceClass s' = LoRaMacDeviceClass s /\ NodeAckRequested s' = NodeAckRequested s /\
  SrvAckRequested s' = SrvAckRequested s /\ LoRaMacFlags s' = LoRaMacFlags s.

Lemma kept_refl s : kept s s.
Proof. by split_and!. Qed.
Lemma kept_trans s1 s2 s3 : kept s1 s2 -> kept s2 s3 -> kept s1 s3.
Proof. unfold kept. intros H1 H2. decompose [and] H1. decompose [and] H2. split_and!; congruence. Qed.

Lemma commands_kept payload i size snr s : rx_wf s -> bytes payload -> 255 <= zlen payload -> 0 <= i < 256 -> 0 <= size <= 249 ->
  (exists s', ProcessMacCommands payload i size snr s = Done (tt, s') /\ rx_wf s' /\ kept s s' /\
     LoRaMacRxPayload s' = LoRaMacRxPayload s /\ McpsIndication s' = McpsIndication s) \/
  (ProcessMacCommands payload i size snr s = Undef /\ bad_duty_cycle payload).
Proof.
  intros [W1 W2 W3 Hb Hi] Hp HL H0 Hs.
  destruct (ProcessMacCommands_ok payload i size snr s) as [(s' & E & Hi' & HS)|H]; try done; try lia; [|by right].
  left. exists s'. split; [done|]. unfold same_session in HS. decompose [and] HS. unfold kept.
  split; [split; congruence|]. split_and!; congruence.
Qed.

(** The decrypted bytes at the start of the receive buffer. *)
Lemma rx_decrypt_spec payload start len key address ctr s : rx_wf s -> bytes payload -> is_block key ->
  0 <= start -> 0 <= len <= 255 -> start + len <= zlen payload ->
  let msg := fs_cipher key DOWN_LINK address ctr (take (Z.to_nat len) (drop (Z.to_nat start) payload)) in
  exists s', rx_decrypt payload start len key address ctr s = Done (tt, s') /\ rx_wf s' /\ kept s s' /\
    LoRaMacRxPayload s' = splice (LoRaMacRxPayload s) 0 msg /\ McpsIndication s' = McpsIndication s /\ zlen msg = len /\
    bytes msg.
Proof.
  intros [W1 W2 W3 Hb Hi] Hp Hk H0 Hl HL msg. unfold rx_decrypt. rewrite rdn_ok by lia. cbn [rbind]. fold msg.
  set (enc := take _ _) in msg.
  assert (He : bytes enc) by (by apply Forall_take, Forall_drop).
  assert (Hel : zlen enc = len) by (unfold enc; rewrite length_take, length_drop; lia).
  assert (Hd : is_u8 DOWN_LINK) by (unfold is_u8, DOWN_LINK; lia).
  assert (Hm : length msg = length enc) by (apply fs_cipher_length; try done; lia).
  assert (Hmb : bytes msg) by (apply fs_cipher_bytes; try done; lia).
  rewrite wrn_ok by lia. cbn [rbind]. change (Z.to_nat 0) with 0%nat. fold (splice (LoRaMacRxPayload s) 0 msg).
  eexists. split; [reflexivity|]. split; [|split; [by split_and!|split_and!; try done; lia]].
  split; cbn [update LoRaMacRxPayload LoRaMacNwkSKey LoRaMacAppSKey]; try done; [by rewrite splice_length by lia|by apply splice_bytes|].
  by apply (mac_inv_ext s).
Qed.

(** A duty-cycle request the interpreter of commands cannot digest, in the
    options or in a payload of commands. *)
Definition bad_downlink (s : mac) (payload : list Z) (fctrl : LoRaMacFrameCtrl_t) (d : destination) (address ctr : Z) : Prop :=
  (0 < FOptsLen fctrl /\ bad_duty_cycle payload) \/ (FOptsLen fctrl = 0 /\ payload.[8] = 0 /\ exists n,
  bad_duty_cycle (splice (LoRaMacRxPayload s) 0 (fs_cipher (d_nwk d) DOWN_LINK address ctr (take n (drop 9 payload))))).

(** The indication of data handed to the application. *)
Definition indicate_data (port len : Z) (i : McpsIndication_t) : McpsIndication_t :=
  i <| mi_Port := port |> <| mi_Buffer := true |> <| mi_BufferSize := len |> <| mi_RxData := true |>.

Section Payload.
Context (s : mac) (payload : list Z) (size : Z) (fctrl : LoRaMacFrameCtrl_t) (d : destination) (address ctr snr : Z).
Hypotheses (Hwf : rx_wf s) (Hb : bytes payload) (HL : 255 <= zlen payload) (Hs : 12 <= size <= 255)
  (Hkn : is_block (d_nwk d)) (Hka : is_block (d_app d)) (Hfo : 0 <= FOptsLen fctrl <= 15).
Let start := 8 + FOptsLen fctrl.

(** With a port other than 0 the payload is decrypted for the application. *)
Lemma rx_payload_data skip : start + 4 < size -> payload.[start] <> 0 ->
  let len := size - 5 - start in
  (exists s', rx_payload payload size fctrl d address ctr snr skip s = Done (skip, s') /\ rx_wf s' /\ kept s s' /\
     starts (LoRaMacRxPayload s')
       (fs_cipher (d_app d) DOWN_LINK address ctr (take (Z.to_nat len) (drop (Z.to_nat (start + 1)) payload))) /\
     mi_Status (McpsIndication s') = mi_Status (McpsIndication s) /\
     if skip then mi_RxData (McpsIndication s') = mi_RxData (McpsIndication s)
     else McpsIndication s' = indicate_data payload.[start] len (McpsIndication s)) \/
  (rx_payload payload size fctrl d address ctr snr skip s = Undef /\ bad_downlink s payload fctrl d address ctr).
Proof.
  intros Hlt Hport len. unfold rx_payload. fold start. rewrite (proj2 (Z.ltb_lt 0 _)) by lia.
  destruct (rd_ok payload start) as (port & -> & Hp); [unfold start; lia|]. cbn [rbind].
  assert (Ep : payload.[start] = port) by (by apply nth_lookup_Some). rewrite Ep in *.
  rewrite (proj2 (Z.eqb_neq port 0)) by done.
  replace (u8 (size - 4 - (start + 1))) with len by (unfold u8, len, start in *; lia).
  set (s1 := s <| McpsIndication ::= _ |>).
  assert (Hw1 : rx_wf s1) by (by apply (rx_wf_ext s)).
  assert (Hcmd : (exists s2, (if 0 <? FOptsLen fctrl then ProcessMacCommands payload 8 (start + 1 - 1) snr s1 else Done (tt, s1))
      = Done (tt, s2) /\ rx_wf s2 /\ kept s1 s2 /\ McpsIndication s2 = McpsIndication s1) \/
    ((if 0 <? FOptsLen fctrl then ProcessMacCommands payload 8 (start + 1 - 1) snr s1 else Done (tt, s1)) = Undef /\ 0 < FOptsLen fctrl /\ bad_duty_cycle payload)).
  { destruct (Z.ltb_spec 0 (FOptsLen fctrl)); [|left; exists s1; by split_and!; try apply kept_refl].
    destruct (commands_kept payload 8 (start + 1 - 1) snr s1) as [(s2 & E & H1 & H2 & _ & H3)|Hx]; try done; try (unfold start; lia); [|right; by destruct Hx].
    left. by exists s2. }
  destruct Hcmd as [(s2 & -> & Hw2 & Hk2 & Hi2)|[-> Hbad]]; cbn [rbind]; [|right; split; [done|by left]].
  destruct (rx_decrypt_spec payload (start + 1) len (d_app d) address ctr s2) as (s3 & -> & Hw3 & Hk3 & Hr3 & Hi3 & Hlen & _);
    try done; try (unfold len, start in *; lia).
  cbn [rbind]. left. eexists. split; [reflexivity|].
  assert (Hkk : kept s s3) by (apply (kept_trans s s1); [by split_and!|by apply (kept_trans s1 s2)]).
  assert (Hst : starts (LoRaMacRxPayload s3)
       (fs_cipher (d_app d) DOWN_LINK address ctr (take (Z.to_nat len) (drop (Z.to_nat (start + 1)) payload)))).
  { rewrite Hr3. by apply (starts_splice _ []); [|destruct Hw2; cbn [length]; unfold len, start in *; lia]. }
  destruct skip; [by rewrite Hi3, Hi2|].
  split; [by apply (rx_wf_ext s3)|]. split; [by apply (kept_trans s s3)|]. split; [done|].
  cbn [update McpsIndication]. rewrite Hi3, Hi2. done.
Qed.

(** Any other frame carries commands only, or nothing. *)
Lemma rx_payload_commands skip : size <= start + 4 \/ payload.[start] = 0 ->
  (exists skip' s', rx_payload payload size fctrl d address ctr snr skip s = Done (skip', s') /\ rx_wf s' /\ kept s s' /\
     mi_RxData (McpsIndication s') = mi_RxData (McpsIndication s) /\ mi_Status (McpsIndication s') = mi_Status (McpsIndication s)) \/
  (rx_payload payload size fctrl d address ctr snr skip s = Undef /\ bad_downlink s payload fctrl d address ctr).
Proof.
  intros Hc. unfold rx_payload. fold start. destruct (Z.ltb_spec 0 (size - 4 - start)) as [Hlt|Hge].
  - destruct (rd_ok payload start) as (port & -> & Hp); [unfold start; lia|]. cbn [rbind].
    assert (Ep : payload.[start] = port) by (by apply nth_lookup_Some).
    assert (port = 0) as -> by lia. cbn [Z.eqb]. set (s1 := s <| McpsIndication ::= _ |>).
    assert (Hw1 : rx_wf s1) by (by apply (rx_wf_ext s)).
    destruct (Z.eqb_spec (FOptsLen fctrl) 0) as [E0|E0].
    + set (len := u8 (size - 4 - (start + 1))).
      assert (Hlen : len = size - 5 - start) by (unfold len, u8, start in *; lia).
      destruct (rx_decrypt_spec payload (start + 1) len (d_nwk d) address ctr s1) as (s2 & -> & Hw2 & Hk2 & Hr2 & Hi2 & _ & _);
        try done; try (unfold start in *; lia). cbn [rbind].
      destruct (commands_kept (LoRaMacRxPayload s2) 0 len snr s2) as [(s3 & -> & Hw3 & Hk3 & _ & Hi3)|[-> Hbad]];
        try done; try (destruct Hw2; unfold start in *; done || lia); cbn [rbind].
      * left. eexists _, _. split; [reflexivity|]. split; [done|].
        split; [apply (kept_trans s s1); [by split_and!|by apply (kept_trans s1 s2)]|]. by rewrite Hi3, Hi2.
      * right. split; [done|]. right. split; [done|]. replace start with 8 in Ep by (unfold start; lia). split; [done|].
        exists (Z.to_nat len). rewrite Hr2 in Hbad.
        replace (Z.to_nat (start + 1)) with 9%nat in Hbad by (unfold start; lia). exact Hbad.
    + left. eexists _, _. split; [reflexivity|]. by split_and!.
  - destruct (Z.ltb_spec 0 (FOptsLen fctrl)).
    + destruct (commands_kept payload 8 start snr s) as [(s2 & -> & H1 & H2 & _ & H3)|[-> Hx]]; try done; try (unfold start; lia); cbn [rbind].
      * left. eexists _, _. split; [reflexivity|]. by rewrite H3.
      * right. split; [done|by left].
    + left. eexists _, _. split; [reflexivity|]. by split_and!.
Qed.
End Payload.

(** ** Accepted and refused frames *)

Lemma rx_reset_quiet rssi snr s : quiet s (rx_reset rssi snr s) /\ mi_RxData (McpsIndication (rx_reset rssi snr s)) = false.
Proof.
  unfold rx_reset. destruct (negb (is_class_c _)); (split; [quiet_solve|done]).
Qed.

(** What a repeated frame leaves behind: the state before the handler noticed. *)
Definition after_repeat (s : mac) : mac :=
  s <| AdrAckCounter := 0 |> <| MacCommandsBufferToRepeatIndex := 0 |> <| SrvAckRequested := false |>.

#[local] Instance after_repeat_proper : Proper (quiet ==> quiet) after_repeat.
Proof.
  assert (H : forall x, core (after_repeat x) = after_repeat (core x)) by (by intros []).
  intros s s' Hq. unfold quiet in *. rewrite (H s), (H s'), Hq. reflexivity.
Qed.

(** A frame that carries the counter of the last accepted one. *)
Definition repeats (s : mac) (ctr : Z) : bool := (DownLinkCounter s =? ctr) && negb (DownLinkCounter s =? 0).

Definition is_confirmed (t : Z) : bool := t =? FRAME_TYPE_DATA_CONFIRMED_DOWN.

(** The state in which the body of an accepted frame is looked at. *)
Definition accepting (s s1 : mac) (confirmed : bool) (ctr : Z) : Prop :=
  quiet (s <| AdrAckCounter := 0 |> <| MacCommandsBufferToRepeatIndex := 0 |> <| SrvAckRequested := confirmed |>
           <| DownLinkCounter := ctr |>) s1 /\
  mi_RxData (McpsIndication s1) = mi_RxData (McpsIndication s) /\
  mi_Status (McpsIndication s1) = LORAMAC_EVENT_INFO_STATUS_OK /\ mi_DownLinkCounter (McpsIndication s1) = ctr /\
  mi_Multicast (McpsIndication s1) = 0 /\ LoRaMacFlags s1 = LoRaMacFlags s.

Lemma rx_ack_quiet fctrl s : quiet s (rx_ack fctrl s) /\ LoRaMacFlags (rx_ack fctrl s) = LoRaMacFlags s /\
  mi_RxData (McpsIndication (rx_ack fctrl s)) = mi_RxData (McpsIndication s) /\
  mi_Status (McpsIndication (rx_ack fctrl s)) = mi_Status (McpsIndication s) /\
  mi_DownLinkCounter (McpsIndication (rx_ack fctrl s)) = mi_DownLinkCounter (McpsIndication s) /\
  mi_Multicast (McpsIndication (rx_ack fctrl s)) = mi_Multicast (McpsIndication s).
Proof.
  unfold rx_ack. destruct (Ack fctrl =? 1); [split; [quiet_solve|done]|].
  destruct (_ <? _); (split; [quiet_solve|done]).
Qed.

Lemma rx_accept_unicast t payload size fctrl address ctr snr s : LoRaMacDeviceClass s <> CLASS_C ->
  (repeats s ctr = true /\ is_confirmed t = false /\
   exists s', rx_accept t payload size fctrl (unicast s) address ctr snr s = Done (false, s') /\ quiet (after_repeat s) s' /\
     mi_Status (McpsIndication s') = LORAMAC_EVENT_INFO_STATUS_DOWNLINK_REPEATED /\
     mi_RxData (McpsIndication s') = mi_RxData (McpsIndication s)) \/
  ((repeats s ctr = false \/ is_confirmed t = true) /\
   exists s1, accepting s s1 (is_confirmed t) ctr /\
     rx_accept t payload size fctrl (unicast s) address ctr snr s =
       (let* (skip, s) := rx_payload payload size fctrl (unicast s) address ctr snr (repeats s ctr) s1 in
        Done (true, if skip then s else s <| LoRaMacFlags ::= fun f => f <| McpsInd := true |> |>))).
Proof.
  intros Hc. unfold rx_accept, rx_update_counter. cbn [d_group unicast]. fold (is_confirmed t).
  destruct (is_confirmed t) eqn:Et.
  - right. split; [by right|]. cbn [rbind].
    match goal with |- context [rx_ack fctrl ?x] => set (s0 := x) end.
    destruct (rx_ack_quiet fctrl s0) as (Hq & Hf & Hr & Hst & Hd & Hm).
    exists (rx_ack fctrl s0). split; [|reflexivity]. split; [|by rewrite Hr, Hst, Hd, Hm, Hf].
    etransitivity; [|exact Hq]. unfold quiet, s0. by destruct s.
  - cbn [update DownLinkCounter]. fold (repeats s ctr). destruct (repeats s ctr) eqn:Er; cbn [rbind].
    + left. split; [done|]. split; [done|].
      match goal with |- context [rx_abort _ _ ?x] => set (s0 := x) end.
      destruct (rx_abort_spec s0 LORAMAC_EVENT_INFO_STATUS_DOWNLINK_REPEATED (Some ctr)) as (s' & E & Hq & Hst & Hr & _); [done|].
      exists s'. split; [exact E|]. split; [|by rewrite Hst, Hr]. etransitivity; [|exact Hq]. unfold quiet, s0. by destruct s.
    + right. split; [by left|]. match goal with |- context [rx_ack fctrl ?x] => set (s0 := x) end.
      destruct (rx_ack_quiet fctrl s0) as (Hq & Hf & Hr & Hst & Hd & Hm).
      exists (rx_ack fctrl s0). split; [|reflexivity]. split; [|by rewrite Hr, Hst, Hd, Hm, Hf].
      etransitivity; [|exact Hq]. unfold quiet, s0. by destruct s.
Qed.

(** What the handler does after the frame was looked at. *)
Definition finish_rx (r : bool * mac) : run (unit * mac) :=
  let '(continue, s) := r in
  if negb continue then Done (tt, s) else
  let* (_, s) := listen_again s in
  Done (tt, trigger_check (s <| LoRaMacFlags ::= fun f => f <| MacDone := true |> |>)).

Definition is_data_down (t : Z) : Prop := t = FRAME_TYPE_DATA_CONFIRMED_DOWN \/ t = FRAME_TYPE_DATA_UNCONFIRMED_DOWN.

Lemma OnRadioRxDone_data payload size rssi snr s : 1 <= zlen payload -> is_data_down (MType payload.[0]) ->
  OnRadioRxDone payload size rssi snr s =
  rbind (rx_data (MType payload.[0]) payload size snr (rx_reset rssi snr s)) finish_rx.
Proof.
  intros HL Ht. unfold OnRadioRxDone. destruct (rd_ok payload 0) as (h & -> & Hh); [lia|]. cbn [rbind].
  assert (Eh : payload.[0] = h) by (by apply nth_lookup_Some). rewrite Eh in *.
  destruct Ht as [-> | ->]; done.
Qed.

Lemma finish_rx_A s : LoRaMacDeviceClass s <> CLASS_C ->
  exists s', finish_rx (true, s) = Done (tt, s') /\ quiet s s' /\ McpsIndication s' = McpsIndication s /\
    McpsInd (LoRaMacFlags s') = McpsInd (LoRaMacFlags s) /\ MacDone (LoRaMacFlags s') = true.
Proof.
  intros Hc. unfold finish_rx. cbn [negb]. rewrite listen_again_A by done. cbn [rbind].
  eexists. split; [reflexivity|]. split; [unfold trigger_check; quiet_solve|]. by split_and!.
Qed.

Lemma small_gap_counter c gap b : is_u32 c -> gap < 16384 -> 0 <= gap ->
  rx_counter_after c gap b = u32 (c + gap) /\ rx_counter c gap = u32 (c + gap).
Proof. intros. unfold rx_counter_after, rx_counter. rewrite (proj2 (Z.ltb_lt gap _)) by lia. done. Qed.

Lemma counter_gap_range s payload : 0 <= counter_gap s payload < 65536.
Proof. apply u16_range. Qed.

(** [s1] is [s] after the notifications were reset. *)
Lemma accepted_wf s s1 b ctr : rx_wf s -> accepting s s1 b ctr -> rx_wf s1.
Proof.
  intros Hw (Hq & _). set (s0 := s <| AdrAckCounter := 0 |> <| MacCommandsBufferToRepeatIndex := 0 |> <| SrvAckRequested := b |>
           <| DownLinkCounter := ctr |>) in Hq.
  assert (Hw0 : rx_wf s0).
  { destruct Hw as [W1 W2 W3 W4 [[] [] Hd Hp]]. split; try done. split; try done. split; try done. cbn [update MacCommandsBufferIndex MacCommandsBufferToRepeatIndex s0] in *. lia. }
  apply (rx_wf_ext s0); [by apply (quiet_field LoRaMacRxPayload)|by apply (quiet_field LoRaMacNwkSKey)|
    by apply (quiet_field LoRaMacAppSKey)|by apply (quiet_field inv_view)|done].
Qed.

(** Why a data frame for this device is refused, if it is. *)
Definition refusal (s : mac) (payload : list Z) (size : Z) : option LoRaMacEventInfoStatus_t :=
  let gap := counter_gap s payload in
  if MAX_FCNT_GAP <=? gap then Some LORAMAC_EVENT_INFO_STATUS_DOWNLINK_TOO_MANY_FRAMES_LOSS
  else if negb (authentic s payload size) then Some LORAMAC_EVENT_INFO_STATUS_MIC_FAIL
  else if repeats s (u32 (DownLinkCounter s + gap)) && negb (is_confirmed (MType payload.[0]))
  then Some LORAMAC_EVENT_INFO_STATUS_DOWNLINK_REPEATED
  else None.

Section Downlink.
Context (s : mac) (payload : list Z) (size rssi snr : Z).
Hypotheses (Hwf : rx_wf s) (HA : LoRaMacDeviceClass s <> CLASS_C) (Hu : is_u32 (DownLinkCounter s))
  (Hb : bytes payload) (HL : 255 <= zlen payload) (Hs : 12 <= size <= 255)
  (Ht : is_data_down (MType payload.[0])) (Haddr : field payload 1 4 = LoRaMacDevAddr s).
Let s0 := rx_reset rssi snr s.
Let gap := counter_gap s payload.
Let ctr := u32 (DownLinkCounter s + gap).
Let fctrl := fctrl_of_byte payload.[5].

Lemma reset_fields : quiet s s0 /\ LoRaMacDeviceClass s0 <> CLASS_C /\ rx_wf s0 /\ LoRaMacDevAddr s0 = LoRaMacDevAddr s /\
  counter_gap s0 payload = gap /\ authentic s0 payload size = authentic s payload size /\ DownLinkCounter s0 = DownLinkCounter s /\
  unicast s0 = unicast s /\ mi_RxData (McpsIndication s0) = false.
Proof.
  destruct (rx_reset_quiet rssi snr s) as [Hq Hr]. fold s0 in Hq, Hr. split; [done|].
  split; [by rewrite (quiet_field LoRaMacDeviceClass s s0)|].
  split; [|split_and!; try done].
  - apply (rx_wf_ext s); [by apply (quiet_field LoRaMacRxPayload)|by apply (quiet_field LoRaMacNwkSKey)|
    by apply (quiet_field LoRaMacAppSKey)|by apply (quiet_field inv_view)|done].
  - by apply (quiet_field LoRaMacDevAddr).
  - by apply (quiet_field (fun x => counter_gap x payload)).
  - by apply (quiet_field (fun x => authentic x payload size)).
  - by apply (quiet_field DownLinkCounter).
  - by apply (quiet_field unicast).
Qed.

Lemma rx_refused st : refusal s payload size = Some st ->
  exists s', OnRadioRxDone payload size rssi snr s = Done (tt, s') /\
    mi_Status (McpsIndication s') = st /\ mi_RxData (McpsIndication s') = false /\
    quiet (if decide (st = LORAMAC_EVENT_INFO_STATUS_DOWNLINK_REPEATED) then after_repeat s else s) s'.
Proof.
  destruct reset_fields as (Hq & Hc & Hw0 & Ha & Hg & Hau & Hd & Hun & Hr).
  unfold refusal. fold gap. rewrite OnRadioRxDone_data by (done || lia). fold s0.
  rewrite rx_data_unicast by (done || lia || by rewrite Ha). cbv zeta. rewrite Hg, Hau, Hd, Hun, Ha.
  pose proof (counter_gap_range s payload) as Hgr. fold gap in Hgr.
  destruct (Z.leb_spec MAX_FCNT_GAP gap) as [Hge|Hlt].
  - intros [= <-]. edestruct (rx_abort_spec s0) as (s' & -> & Hq' & Hst & Hrd & _); [done|]. cbn [rbind finish_rx negb].
    exists s'. split; [done|]. rewrite decide_False by done. split_and!; try done; [congruence|by etransitivity].
  - destruct (authentic s payload size) eqn:Eau; cbn [negb].
    2: { intros [= <-]. edestruct (rx_abort_spec s0) as (s' & -> & Hq' & Hst & Hrd & _); [done|]. cbn [rbind finish_rx negb].
      exists s'. split; [done|]. rewrite decide_False by done. split_and!; try done; [congruence|by etransitivity]. }
    unfold MAX_FCNT_GAP in Hlt. rewrite (proj1 (small_gap_counter _ gap _ Hu Hlt ltac:(lia))). fold ctr.
    destruct (repeats s ctr && negb (is_confirmed (MType payload.[0]))) eqn:Er; [|done]. intros [= <-].
    apply andb_true_iff in Er as [Er Ec%negb_true_iff].
    rewrite <- Hun. fold fctrl. destruct (rx_accept_unicast (MType payload.[0]) payload size fctrl (LoRaMacDevAddr s) ctr snr s0 Hc)
      as [(_ & _ & s' & -> & Hq' & Hst & Hrd)|[[Hn|Hn] _]].
    + cbn [rbind finish_rx negb]. exists s'. split; [done|]. rewrite decide_True by done.
      split_and!; try done; [congruence|]. etransitivity; [|exact Hq']. by apply after_repeat_proper.
    + exfalso. unfold repeats in *. rewrite Hd in Hn. congruence.
    + congruence.
Qed.

(** What an accepted frame changes and what it leaves. *)
Definition accepted_post (s' : mac) : Prop :=
  rx_wf s' /\ DownLinkCounter s' = ctr /\ SrvAckRequested s' = is_confirmed (MType payload.[0]) /\
  UpLinkCounter s' = UpLinkCounter s /\ LoRaMacDevAddr s' = LoRaMacDevAddr s /\ LoRaMacNwkSKey s' = LoRaMacNwkSKey s /\
  LoRaMacAppSKey s' = LoRaMacAppSKey s /\ MulticastNodes s' = MulticastNodes s /\
  mi_Status (McpsIndication s') = LORAMAC_EVENT_INFO_STATUS_OK /\ MacDone (LoRaMacFlags s') = true /\
  (repeats s ctr = true -> mi_RxData (McpsIndication s') = false).

(** The frame reaches the application. *)
Definition delivered_post (s' : mac) : Prop :=
  let start := 8 + FOptsLen fctrl in
  let len := size - 5 - start in
  McpsInd (LoRaMacFlags s') = true /\
  mi_RxData (McpsIndication s') = true /\ mi_Port (McpsIndication s') = payload.[start] /\
  mi_BufferSize (McpsIndication s') = len /\ mi_DownLinkCounter (McpsIndication s') = ctr /\
  starts (LoRaMacRxPayload s')
    (fs_cipher (LoRaMacAppSKey s) DOWN_LINK (LoRaMacDevAddr s) ctr (take (Z.to_nat len) (drop (Z.to_nat (start + 1)) payload))).

(** The accepted frame up to its payload. *)
Lemma rx_accepted_start : refusal s payload size = None ->
  exists s1, accepting s0 s1 (is_confirmed (MType payload.[0])) ctr /\ rx_wf s1 /\ mi_RxData (McpsIndication s1) = false /\
    LoRaMacRxPayload s1 = LoRaMacRxPayload s /\
    OnRadioRxDone payload size rssi snr s =
    rbind (let* (skip, s) := rx_payload payload size fctrl (unicast s) (LoRaMacDevAddr s) ctr snr (repeats s ctr) s1 in
           Done (true, if skip then s else s <| LoRaMacFlags ::= fun f => f <| McpsInd := true |> |>)) finish_rx.
Proof.
  destruct reset_fields as (Hq & Hc & Hw0 & Ha & Hg & Hau & Hd & Hun & Hr).
  unfold refusal. fold gap. rewrite OnRadioRxDone_data by (done || lia). fold s0.
  rewrite rx_data_unicast by (done || lia || by rewrite Ha). cbv zeta. rewrite Hg, Hau, Hd, Hun, Ha.
  pose proof (counter_gap_range s payload) as Hgr. fold gap in Hgr.
  destruct (Z.leb_spec MAX_FCNT_GAP gap) as [Hge|Hlt]; [done|].
  destruct (authentic s payload size) eqn:Eau; cbn [negb]; [|done].
  unfold MAX_FCNT_GAP in Hlt. rewrite (proj1 (small_gap_counter _ gap _ Hu Hlt ltac:(lia))). fold ctr fctrl.
  assert (Hrep : repeats s0 ctr = repeats s ctr) by (unfold repeats; by rewrite Hd).
  destruct (rx_accept_unicast (MType payload.[0]) payload size fctrl (LoRaMacDevAddr s) ctr snr s0 Hc)
      as [(H1 & H2 & _)|[_ (s1 & Hacc & E)]].
  - rewrite <- Hrep, H1, H2. done.
  - intros _. exists s1. split; [done|]. split; [by eapply accepted_wf|].
    rewrite Hun, Hrep in E. rewrite E. destruct Hacc as (Hqa & Hra & _). split; [congruence|]. split; [|done].
    rewrite (quiet_field LoRaMacRxPayload _ _ ltac:(done) Hqa). by apply (quiet_field LoRaMacRxPayload s s0).
Qed.

(** The fields of the state the payload is looked at in. *)
Lemma accepting_fields s1 b : accepting s0 s1 b ctr ->
  DownLinkCounter s1 = ctr /\ SrvAckRequested s1 = b /\ UpLinkCounter s1 = UpLinkCounter s /\
  LoRaMacDevAddr s1 = LoRaMacDevAddr s /\ LoRaMacNwkSKey s1 = LoRaMacNwkSKey s /\ LoRaMacAppSKey s1 = LoRaMacAppSKey s /\
  MulticastNodes s1 = MulticastNodes s /\ LoRaMacDeviceClass s1 <> CLASS_C.
Proof.
  intros (Hqa & _). destruct reset_fields as (Hq & Hc & _ & Ha & _ & _ & _ & Hun & _).
  split_and!.
  - by rewrite (quiet_field DownLinkCounter _ _ ltac:(done) Hqa).
  - by rewrite (quiet_field SrvAckRequested _ _ ltac:(done) Hqa).
  - rewrite (quiet_field UpLinkCounter _ _ ltac:(done) Hqa). by apply (quiet_field UpLinkCounter s s0).
  - rewrite (quiet_field LoRaMacDevAddr _ _ ltac:(done) Hqa). by apply (quiet_field LoRaMacDevAddr s s0).
  - rewrite (quiet_field LoRaMacNwkSKey _ _ ltac:(done) Hqa). by apply (quiet_field LoRaMacNwkSKey s s0).
  - rewrite (quiet_field LoRaMacAppSKey _ _ ltac:(done) Hqa). by apply (quiet_field LoRaMacAppSKey s s0).
  - rewrite (quiet_field MulticastNodes _ _ ltac:(done) Hqa). by apply (quiet_field MulticastNodes s s0).
  - by rewrite (quiet_field LoRaMacDeviceClass _ _ ltac:(done) Hqa).
Qed.

Lemma rx_accepted_finish s1 s2 (skip : bool) : accepting s0 s1 (is_confirmed (MType payload.[0])) ctr -> kept s1 s2 -> rx_wf s2 ->
  mi_Status (McpsIndication s2) = mi_Status (McpsIndication s1) ->
  (repeats s ctr = true -> mi_RxData (McpsIndication s2) = false) ->
  exists s', finish_rx (true, if skip then s2 else s2 <| LoRaMacFlags ::= fun f => f <| McpsInd := true |> |>) = Done (tt, s') /\
    accepted_post s' /\ LoRaMacRxPayload s' = LoRaMacRxPayload s2 /\ McpsIndication s' = McpsIndication s2 /\
    (skip = false -> McpsInd (LoRaMacFlags s') = true).
Proof.
  intros Hacc Hk Hw2 Hst Hrep. destruct (accepting_fields s1 _ Hacc) as (F1 & F2 & F3 & F4 & F5 & F6 & F7 & F8).
  destruct Hk as (K1 & K2 & K3 & K4 & K5 & K6 & K7 & K8 & K9 & K10 & K11).
  set (s3 := if skip then s2 else _).
  assert (Hq3 : quiet s2 s3) by (unfold s3; destruct skip; quiet_solve).
  assert (Hi3 : McpsIndication s3 = McpsIndication s2) by (unfold s3; by destruct skip).
  destruct (finish_rx_A s3) as (s' & -> & Hq' & Hi & Hind & Hdone); [by rewrite (quiet_field LoRaMacDeviceClass s2 s3), K8|].
  exists s'. split; [done|].
  assert (Hq : quiet s2 s') by (by etransitivity).
  split; [|split; [by apply (quiet_field LoRaMacRxPayload)|split; [congruence|]]].
  - destruct Hacc as (_ & _ & Hs1 & _).
    unfold accepted_post. rewrite Hi, Hi3.
    rewrite (quiet_field DownLinkCounter s2 s'), (quiet_field SrvAckRequested s2 s'), (quiet_field UpLinkCounter s2 s'),
      (quiet_field LoRaMacDevAddr s2 s'), (quiet_field LoRaMacNwkSKey s2 s'), (quiet_field LoRaMacAppSKey s2 s'),
      (quiet_field MulticastNodes s2 s') by done.
    split; [|split_and!; try congruence; done].
    apply (rx_wf_ext s2); [by apply (quiet_field LoRaMacRxPayload)|by apply (quiet_field LoRaMacNwkSKey)|
      by apply (quiet_field LoRaMacAppSKey)|by apply (quiet_field inv_view)|done].
  - intros ->. by rewrite Hind.
Qed.

Lemma fctrl_range : 0 <= FOptsLen fctrl <= 15.
Proof. unfold fctrl, fctrl_of_byte. cbn [FOptsLen]. lia. Qed.

Lemma rx_accepted : refusal s payload size = None ->
  (exists s', OnRadioRxDone payload size rssi snr s = Done (tt, s') /\ accepted_post s' /\
     (8 + FOptsLen fctrl + 4 < size -> payload.[8 + FOptsLen fctrl] <> 0 -> repeats s ctr = false -> delivered_post s')) \/
  (OnRadioRxDone payload size rssi snr s = Undef /\ bad_downlink s payload fctrl (unicast s) (LoRaMacDevAddr s) ctr).
Proof.
  intros Hno. destruct (rx_accepted_start Hno) as (s1 & Hacc & Hw1 & Hr1 & Hrx1 & ->).
  pose proof Hacc as (_ & _ & Hst1 & Hd1 & _ & Hf1). pose proof fctrl_range as Hfr.
  assert (Hbad : forall d a c, bad_downlink s1 payload fctrl d a c -> bad_downlink s payload fctrl d a c)
    by (intros d a c; unfold bad_downlink; by rewrite Hrx1).
  destruct Hwf as [W1 W2 W3 W4 W5].
  destruct (decide (8 + FOptsLen fctrl + 4 < size /\ payload.[8 + FOptsLen fctrl] <> 0)) as [[Hlt Hp]|Hn].
  - destruct (rx_payload_data s1 payload size fctrl (unicast s) (LoRaMacDevAddr s) ctr snr Hw1 Hb HL Hs W3 Hfr (repeats s ctr) Hlt Hp)
      as [(s2 & -> & Hw2 & Hk & Hrx & Hst & Hi)|[-> Hx]]; cbn [rbind]; [left|right; split; [done|by apply Hbad]].
    destruct (rx_accepted_finish s1 s2 (repeats s ctr)) as (s' & -> & Hpost & Hrx' & Hi' & Hind); try done.
    { intros Hr. rewrite Hr in Hi. congruence. }
    exists s'. split; [done|]. split; [done|]. intros _ _ Hr. rewrite Hr in Hi. specialize (Hind Hr).
    unfold delivered_post. rewrite Hrx', Hi', Hi. by split_and!.
  - destruct (rx_payload_commands s1 payload size fctrl (unicast s) (LoRaMacDevAddr s) ctr snr Hw1 Hb HL Hs W2 Hfr (repeats s ctr))
      as [(skip & s2 & -> & Hw2 & Hk & Hrd & Hst)|[-> Hx]]; [lia|..]; cbn [rbind]; [left|right; split; [done|by apply Hbad]].
    destruct (rx_accepted_finish s1 s2 skip) as (s' & -> & Hpost & Hrx' & Hi' & Hind); try done; [congruence|].
    exists s'. split; [done|]. split; [done|]. intros. lia.
Qed.

End Downlink.

(** ** Join accepts *)

(** The clear text of a join accept: the header and two decrypted blocks. *)
Definition join_plain (s : mac) (payload : list Z) : list Z :=
  payload.[0] :: fs_join_block (LoRaMacAppKey s) (take 16 (drop 1 payload)) ++
                 fs_join_block (LoRaMacAppKey s) (take 16 (drop 17 payload)).

Definition join_authentic (s : mac) (payload : list Z) (size : Z) : bool :=
  field (join_plain s payload) (Z.to_nat (size - 4)) 4 =?
  fs_join_mic (LoRaMacAppKey s) (take (Z.to_nat (size - 4)) (join_plain s payload)).

Lemma blocks_of_payload payload n : bytes payload -> 255 <= zlen payload -> (n <= 17)%nat -> is_block (take 16 (drop n payload)).
Proof.
  intros Hb HL Hn. split; [rewrite length_take, length_drop; lia|]. by apply Forall_take, Forall_drop.
Qed.

Lemma join_plain_wf s payload : is_block (LoRaMacAppKey s) -> bytes payload -> 255 <= zlen payload ->
  length (join_plain s payload) = 33%nat /\ bytes (join_plain s payload).
Proof.
  intros Hk Hb HL. unfold join_plain.
  destruct (fs_join_block_block _ _ Hk (blocks_of_payload payload 1 Hb HL ltac:(lia))) as [L1 B1].
  destruct (fs_join_block_block _ _ Hk (blocks_of_payload payload 17 Hb HL ltac:(lia))) as [L2 B2].
  split; [cbn [length]; rewrite length_app; lia|]. constructor; [by apply znth_bytes|]. by apply Forall_app.
Qed.

Lemma join_decrypt_spec s payload size : rx_wf s -> is_block (LoRaMacAppKey s) -> bytes payload -> 255 <= zlen payload ->
  17 <= size <= 33 ->
  exists rx, join_decrypt payload size s = Done (tt, s <| LoRaMacRxPayload := rx |>) /\
    wr rx 0 payload.[0] = Done (splice (LoRaMacRxPayload s) 0 (join_plain s payload)).
Proof.
  intros [W1 _ _ _ _] Hk Hb HL Hs. unfold join_decrypt.
  destruct (fs_join_block_block _ _ Hk (blocks_of_payload payload 1 Hb HL ltac:(lia))) as [L1 _].
  destruct (fs_join_block_block _ _ Hk (blocks_of_payload payload 17 Hb HL ltac:(lia))) as [L2 _].
  rewrite rdn_ok by lia. cbn [rbind]. change (Z.to_nat 1) with 1%nat. change (Z.to_nat 16) with 16%nat.
  unfold join_plain. set (b0 := fs_join_block _ (take 16 (drop 1 payload))) in *. set (b1 := fs_join_block _ (take 16 (drop 17 payload))) in *.
  rewrite wrn_ok by lia. cbn [rbind]. rewrite u16_id by (unfold is_u16; lia). rewrite (proj2 (Z.leb_le 16 _)) by lia.
  rewrite rdn_ok by lia. cbn [rbind]. change (Z.to_nat 17) with 17%nat. change (Z.to_nat 16) with 16%nat. fold b1.
  change (Z.to_nat 1) with 1%nat. fold (splice (LoRaMacRxPayload s) 1 b0).
  assert (HL1 : length (splice (LoRaMacRxPayload s) 1 b0) = 255%nat) by (rewrite splice_length; lia).
  rewrite wrn_ok by lia. cbn [rbind]. change (Z.to_nat 17) with 17%nat. fold (splice (splice (LoRaMacRxPayload s) 1 b0) 17 b1).
  eexists. split; [reflexivity|].
  replace 17%nat with (1 + length b0)%nat by lia. rewrite splice_splice by lia.
  rewrite wr_ok by (rewrite splice_length by (rewrite length_app; lia); lia).
  f_equal. destruct (LoRaMacRxPayload s) as [|x l]; [simpl in W1; lia|]. done.
Qed.

Lemma ChannelAdd_frame id f dr s st s' : LoRaMacChannelAdd id f dr s = Done (st, s') ->
  LoRaMacNetID s' = LoRaMacNetID s /\ MlmeConfirm s' = MlmeConfirm s /\ LoRaMacState s' = LoRaMacState s /\
  fixed_params (LoRaMacParams s') = fixed_params (LoRaMacParams s).
Proof.
  unfold LoRaMacChannelAdd. intros H. repeat case_match; try (injection H as _ <-; done).
  apply rbind_inv in H as (chs & _ & H). injection H as _ <-. done.
Qed.

Lemma add_cflist_ok n : forall i j s, mac_inv s -> length (LoRaMacRxPayload s) = 255%nat -> 0 <= i -> 0 <= j -> j + 3 * Z.of_nat n <= 15 ->
  exists s', add_cflist n i j s = Done (tt, s') /\ mac_inv s' /\ same_session s s' /\
    LoRaMacNetID s' = LoRaMacNetID s /\ fixed_params (LoRaMacParams s') = fixed_params (LoRaMacParams s).
Proof.
  induction n as [|n IH]; intros i j s Hi HL H0 Hj Hn; cbn [add_cflist];
    [exists s; split_and!; try done; apply same_session_refl|].
  rewrite word_ok by lia. cbn [rbind].
  match goal with |- context [LoRaMacChannelAdd i ?f ?dr s] => destruct (channel_add_inv s i f dr Hi H0) as (st & s1 & E & Hi1 & HS1) end.
  rewrite E. cbn [rbind]. apply ChannelAdd_frame in E as (F1 & _ & _ & F2).
  pose proof HS1 as (_ & _ & _ & _ & _ & _ & _ & _ & HR & _).
  destruct (IH (i + 1) (j + 3) s1) as (s2 & -> & Hi2 & HS2 & G1 & G2); try done; try lia; [by rewrite HR|].
  exists s2. split; [done|]. split; [done|]. split; [by eapply same_session_trans|]. split; congruence.
Qed.

Lemma cflist_step s size : mac_inv s -> length (LoRaMacRxPayload s) = 255%nat ->
  exists s', (if 16 <? size - 1 then
       let* (_, s) := state_set MAC_TX_CONFIG s in
       let* (_, s) := add_cflist 5 3 0 s in
       state_clear MAC_TX_CONFIG s
     else Done (tt, s)) = Done (tt, s') /\ mac_inv s' /\ same_session s s' /\
    LoRaMacNetID s' = LoRaMacNetID s /\ fixed_params (LoRaMacParams s') = fixed_params (LoRaMacParams s).
Proof.
  intros Hi HL. destruct (16 <? size - 1); [|exists s; split_and!; try done; apply same_session_refl].
  unfold state_set, smod. cbn [rbind].
  destruct (add_cflist_ok 5 3 0 (s <| LoRaMacState ::= fun v => Z.lor v MAC_TX_CONFIG |>)) as (s2 & -> & Hi2 & HS2 & G1 & G2); try done.
  { by apply (mac_inv_ext s). }
  cbn [rbind]. unfold state_clear, smod. eexists. split; [reflexivity|]. split; [by apply (mac_inv_ext s2)|].
  split; [exact HS2|]. by split.
Qed.

(** The session of an accept whose clear text is [plain]. *)
Definition joined_post (s s' : mac) (plain : list Z) : Prop :=
  IsLoRaMacNetworkJoined s' = true /\
  LoRaMacNwkSKey s' = fs_session_key (LoRaMacAppKey s) 1 (take 6 (drop 1 plain)) (LoRaMacDevNonce s) /\
  LoRaMacAppSKey s' = fs_session_key (LoRaMacAppKey s) 2 (take 6 (drop 1 plain)) (LoRaMacDevNonce s) /\
  LoRaMacNetID s' = field plain 4 3 /\ LoRaMacDevAddr s' = field plain 7 4 /\
  Rx1DrOffset (LoRaMacParams s') = Z.land (Z.shiftr plain.[11] 4) 0x07 /\
  Rx2Datarate (LoRaMacParams s') = Z.land plain.[11] 0x0F /\
  ReceiveDelay1 (LoRaMacParams s') = 1000 * Z.max 1 (Z.land plain.[12] 0x0F) /\
  ReceiveDelay2 (LoRaMacParams s') = ReceiveDelay1 (LoRaMacParams s') + 1000 /\
  ChannelsDatarate (LoRaMacParams s') = ChannelsDatarate (LoRaMacParamsDefaults s) /\
  ml_Status (MlmeConfirm s') = LORAMAC_EVENT_INFO_STATUS_OK.

Lemma join_session_spec s plain size : mac_inv s -> length (LoRaMacRxPayload s) = 255%nat -> starts (LoRaMacRxPayload s) plain ->
  length plain = 33%nat -> bytes plain -> 0 <= ChannelsDatarate (LoRaMacParamsDefaults s) <= 7 ->
  exists s', join_session size s = Done (tt, s') /\ mac_inv s' /\ joined_post s s' plain /\
    UpLinkCounter s' = UpLinkCounter s /\ DownLinkCounter s' = DownLinkCounter s /\ LoRaMacDeviceClass s' = LoRaMacDeviceClass s.
Proof.
  intros Hi HL Hst Hpl Hpb HD. unfold join_session.
  rewrite rdn_ok by lia. cbn [rbind]. rewrite !word_ok by lia. cbn [rbind].
  destruct (rd_ok (LoRaMacRxPayload s) 11) as (dl & -> & Hdl); [lia|]. destruct (rd_ok (LoRaMacRxPayload s) 12) as (d & -> & Hdd); [lia|].
  cbn [rbind]. unfold field. change (Z.to_nat 1) with 1%nat. change (Z.to_nat 6) with 6%nat. change (Z.to_nat 4) with 4%nat.
  change (Z.to_nat 7) with 7%nat. rewrite !(starts_sub _ _ _ _ Hst) by lia.
  assert (E11 : dl = plain.[11]) by (rewrite <- (starts_nth _ _ 11 Hst) by lia; symmetry; by apply nth_lookup_Some).
  assert (E12 : d = plain.[12]) by (rewrite <- (starts_nth _ _ 12 Hst) by lia; symmetry; by apply nth_lookup_Some).
  set (delay := if Z.land d 15 =? 0 then 1 else Z.land d 15).
  assert (Hdel : delay = Z.max 1 (Z.land plain.[12] 0x0F)).
  { unfold delay. rewrite E12. pose proof (low_nibble_range plain.[12]). destruct (Z.eqb_spec (Z.land plain.[12] 15) 0); lia. }
  assert (Hdl0 : is_u8 dl) by (rewrite E11; by apply znth_bytes).
  match goal with |- context [if 16 <? size - 1 then _ else Done (tt, ?x)] => set (s1 := x) end.
  assert (Hi1 : mac_inv s1).
  { unfold s1. match goal with |- mac_inv (?x <| LoRaMacParams ::= _ |>) => apply mac_inv_params; [by apply (mac_inv_ext s)|..] end.
    - destruct Hi as [_ _ _ [P1 P2 P3 P4 P5 P6]]. pose proof (low3_range dl 4). pose proof (low_nibble_range dl).
      split; cbn [update ChannelsDatarate ChannelsTxPower ChannelsNbRep Rx1DrOffset Rx2Datarate ReceiveDelay1 ReceiveDelay2 LoRaMacParams]; try done; lia.
    - by destruct Hi as [_ [] _ _]. }
  destruct (cflist_step s1 size Hi1 HL) as (s2 & -> & Hi2 & HS & HN & HP). cbn [rbind].
  eexists. split; [reflexivity|].
  unfold same_session in HS. decompose [and] HS.
  assert (F : forall f : LoRaMacParams_t -> Z, (forall q, f (fixed_params q) = f q) -> f (LoRaMacParams s2) = f (LoRaMacParams s1)).
  { intros f Hf. rewrite <- (Hf (LoRaMacParams s2)), <- (Hf (LoRaMacParams s1)). by rewrite HP. }
  assert (HD2 : LoRaMacParamsDefaults s2 = LoRaMacParamsDefaults s) by done.
  split; [|split; [|by split_and!]].
  - apply mac_inv_params; [by apply (mac_inv_ext s2)| |by destruct Hi2 as [_ [] _ _]].
    destruct Hi2 as [_ _ _ [P1 P2 P3 P4 P5 P6]]. split; try done.
    change (0 <= ChannelsDatarate (LoRaMacParamsDefaults s2) <= 7). by rewrite HD2.
  - unfold joined_post. cbn [update IsLoRaMacNetworkJoined LoRaMacNwkSKey LoRaMacAppSKey LoRaMacNetID LoRaMacDevAddr LoRaMacParams
      Rx1DrOffset Rx2Datarate ReceiveDelay1 ReceiveDelay2 ChannelsDatarate MlmeConfirm ml_Status].
    rewrite (F Rx1DrOffset), (F Rx2Datarate), (F ReceiveDelay1), (F ReceiveDelay2) by done. rewrite HD2.
    change (Rx1DrOffset (LoRaMacParams s1)) with (Z.land (Z.shiftr dl 4) 0x07). change (Rx2Datarate (LoRaMacParams s1)) with (Z.land dl 0x0F).
    change (ReceiveDelay1 (LoRaMacParams s1)) with (delay * 1000). change (ReceiveDelay2 (LoRaMacParams s1)) with (delay * 1000 + 1000).
    rewrite E11, <- Hdel. split_and!; try done; try lia; congruence.
Qed.

(** A join accept is believed exactly when its code fits; otherwise only the
    receive buffer and the reported status change. *)
Lemma rx_join_accept_spec s payload size : rx_wf s -> is_block (LoRaMacAppKey s) -> bytes payload -> 255 <= zlen payload ->
  17 <= size <= 33 -> IsLoRaMacNetworkJoined s = false -> 0 <= ChannelsDatarate (LoRaMacParamsDefaults s) <= 7 ->
  exists s', rx_join_accept payload.[0] payload size s = Done (tt, s') /\ mac_inv s' /\ LoRaMacDeviceClass s' = LoRaMacDeviceClass s /\
    if join_authentic s payload size
    then joined_post s s' (join_plain s payload) /\ UpLinkCounter s' = UpLinkCounter s /\ DownLinkCounter s' = DownLinkCounter s
    else quiet (s <| LoRaMacRxPayload := splice (LoRaMacRxPayload s) 0 (join_plain s payload) |>) s' /\
    ml_Status (MlmeConfirm s') = LORAMAC_EVENT_INFO_STATUS_JOIN_FAIL.
Proof.
  intros Hwf Hk Hb HL Hs Hj HD. unfold rx_join_accept. rewrite Hj.
  destruct (join_decrypt_spec s payload size Hwf Hk Hb HL Hs) as (rx & -> & Hwr). cbn [rbind update LoRaMacRxPayload]. rewrite Hwr. cbn [rbind].
  destruct (join_plain_wf s payload Hk Hb HL) as [Hpl Hpb]. destruct Hwf as [W1 W2 W3 W4 W5].
  set (rx2 := splice (LoRaMacRxPayload s) 0 (join_plain s payload)) in *.
  assert (Hst : starts rx2 (join_plain s payload)) by (apply (starts_splice _ []); [done|cbn [length]; lia]).
  assert (HL2 : length rx2 = 255%nat) by (unfold rx2; rewrite splice_length; lia).
  unfold LORAMAC_MFR_LEN. rewrite u16_id by (unfold is_u16; lia). rewrite land_ff, Z.mod_small by lia.
  rewrite rdn_ok by lia. cbn [rbind]. rewrite word_ok by lia. cbn [rbind]. unfold field.
  change (Z.to_nat 0) with 0%nat. rewrite !(starts_sub _ _ _ _ Hst) by lia. rewrite drop_0.
  fold (field (join_plain s payload) (Z.to_nat (size - 4)) 4). cbn [update LoRaMacAppKey]. fold (join_authentic s payload size).
  set (s1 := (s <| LoRaMacRxPayload := rx |>) <| LoRaMacRxPayload := rx2 |>).
  assert (Hi1 : mac_inv s1) by (by apply (mac_inv_ext s)).
  destruct (join_authentic s payload size).
  - destruct (join_session_spec s1 (join_plain s payload) size) as (s' & E & Hi' & Hp & H1 & H2 & H3); try done.
    exists s'. by split_and!.
  - eexists. split; [reflexivity|]. split; [by apply (mac_inv_ext s1)|]. split; [done|]. split; [|done].
    unfold quiet. rewrite core_mlme. by destruct s.
Qed.

(** ** The periodic check *)

(** A frame is in the buffer and can be scheduled. *)
Record sched_ok (s : mac) : Prop := mkSchedOk {
  so_inv : mac_inv s;
  so_last : 0 <= LastTxChannel s < 16;
  so_default : 0 <= ChannelsDatarate (LoRaMacParamsDefaults s) <= 5;
  so_buffer : length (LoRaMacBuffer s) = 255%nat;
  so_len : 0 <= LoRaMacBufferPktLen s <= 255;
}.

Lemma sched_view_fields s s' : sched_view s' = sched_view s ->
  LoRaMacFlags s' = LoRaMacFlags s /\ AckTimeoutRetriesCounter s' = AckTimeoutRetriesCounter s /\
  AckTimeoutRetries s' = AckTimeoutRetries s /\ UpLinkCounter s' = UpLinkCounter s /\ LoRaMacBuffer s' = LoRaMacBuffer s /\
  LoRaMacBufferPktLen s' = LoRaMacBufferPktLen s /\ NodeAckRequested s' = NodeAckRequested s /\
  IsUpLinkCounterFixed s' = IsUpLinkCounterFixed s.
Proof. unfold sched_view. intros Hv. split_and!; congruence. Qed.

Lemma sched_ok_ext s s' : mac_inv s' -> sched_view s' = sched_view s -> sched_ok s -> sched_ok s'.
Proof.
  unfold sched_view. intros Hi Hv [S1 S2 S3 S4 S5].
  assert (LastTxChannel s' = LastTxChannel s /\ LoRaMacParamsDefaults s' = LoRaMacParamsDefaults s /\
    LoRaMacBuffer s' = LoRaMacBuffer s /\ LoRaMacBufferPktLen s' = LoRaMacBufferPktLen s) as (E1 & E2 & E3 & E4) by (split_and!; congruence).
  split; [done|by rewrite E1|by rewrite E2|by rewrite E3|by rewrite E4].
Qed.

Lemma ScheduleTx_total s : sched_ok s ->
  exists st s', ScheduleTx s = Done (st, s') /\ sched_view s' = sched_view s /\ sched_ok s'.
Proof.
  intros Hs. pose proof Hs as [S1 S2 S3 S4 S5]. destruct (decide (MaxDCycle s = 255)) as [E|E].
  - exists LORAMAC_STATUS_DEVICE_OFF, s. split; [|done]. unfold ScheduleTx. by rewrite E.
  - destruct (ScheduleTx_spec s S1 S2 S3 S4 S5 E) as (s' & E' & Hi & _). pose proof (ScheduleTx_view s _ s' E') as Hv.
    exists LORAMAC_STATUS_OK, s'. split; [done|]. split; [done|]. by apply (sched_ok_ext s).
Qed.

(** The datarate of the next try. *)
Definition retry_datarate (counter dr : Z) : Z := if counter mod 2 =? 1 then Z.max (dr - 1) LORAMAC_TX_MIN_DATARATE else dr.

Lemma retry_params s f : sched_ok s -> 0 <= AckTimeoutRetriesCounter s -> forall s1,
  s1 = (let s := s <| AckTimeoutRetry := false |> <| AckTimeoutRetriesCounter ::= fun n => u8 (n + 1) |> in
        let s := if AckTimeoutRetriesCounter s mod 2 =? 1
               then s <| LoRaMacParams ::= fun p => p <| ChannelsDatarate := Z.max (ChannelsDatarate p - 1) LORAMAC_TX_MIN_DATARATE |> |>
               else s in s <| LoRaMacFlags ::= f |>) ->
  sched_ok s1 /\ AckTimeoutRetriesCounter s1 = u8 (AckTimeoutRetriesCounter s + 1) /\ UpLinkCounter s1 = UpLinkCounter s /\
  LoRaMacBuffer s1 = LoRaMacBuffer s /\ LoRaMacBufferPktLen s1 = LoRaMacBufferPktLen s /\ NodeAckRequested s1 = NodeAckRequested s /\
  AckTimeoutRetries s1 = AckTimeoutRetries s /\ AckTimeoutRetry s1 = false /\ LoRaMacFlags s1 = f (LoRaMacFlags s) /\
  IsUpLinkCounterFixed s1 = IsUpLinkCounterFixed s.
Proof.
  intros [Hi S2 S3 S4 S5] Hc s1 ->. cbv zeta.
  destruct (_ mod 2 =? 1); (split; [|by split_and!]); (split; [|done..]).
  - match goal with |- mac_inv (?x <| LoRaMacFlags ::= _ |>) => apply (mac_inv_ext x); [done|] end.
    apply mac_inv_params; [by apply (mac_inv_ext s)| |by destruct Hi as [_ [] _ _]].
    destruct Hi as [_ _ _ [P1 P2 P3 P4 P5 P6]]. split; try done. cbn. unfold LORAMAC_TX_MIN_DATARATE. lia.
  - by apply (mac_inv_ext s).
Qed.

Lemma check_retry_again s : sched_ok s -> AckTimeoutRetry s = true -> Z.land (LoRaMacState s) MAC_TX_DELAYED = 0 ->
  0 <= AckTimeoutRetriesCounter s -> AckTimeoutRetriesCounter s < AckTimeoutRetries s -> AckTimeoutRetriesCounter s <= MAX_ACK_RETRIES ->
  exists s', check_retry s = Done s' /\ sched_ok s' /\ AckTimeoutRetriesCounter s' = AckTimeoutRetriesCounter s + 1 /\
    AckTimeoutRetries s' = AckTimeoutRetries s /\ UpLinkCounter s' = UpLinkCounter s /\ LoRaMacBuffer s' = LoRaMacBuffer s /\
    LoRaMacBufferPktLen s' = LoRaMacBufferPktLen s /\ NodeAckRequested s' = NodeAckRequested s /\
    IsUpLinkCounterFixed s' = IsUpLinkCounterFixed s /\ MacDone (LoRaMacFlags s') = false.
Proof.
  intros Hs Hr Hd H0 H1 H2. unfold check_retry. rewrite Hr, Hd. cbn [andb Z.eqb].
  cbn [update AckTimeoutRetriesCounter AckTimeoutRetries].
  rewrite (proj2 (Z.ltb_lt _ _)), (proj2 (Z.leb_le _ _)) by done. cbn [andb].
  match goal with |- context [ScheduleTx ?x] => pose proof (retry_params s _ Hs H0 x eq_refl) as Hp; generalize dependent x end.
  intros s1 (Hs1 & E1 & E2 & E3 & E4 & E5 & E6 & E7 & E8 & E9).
  destruct (ScheduleTx_total _ Hs1) as (st & s' & -> & Hv & Hs'). cbn [rbind]. exists s'. split; [done|]. split; [done|].
  destruct (sched_view_fields _ _ Hv) as (V1 & V2 & V3 & V4 & V5 & V6 & V7 & V8).
  rewrite u8_id in E1 by (unfold is_u8, MAX_ACK_RETRIES in *; lia).
  rewrite V1, V2, V3, V4, V5, V6, V7, V8, E1, E2, E3, E4, E5, E6, E8, E9. by split_and!.
Qed.

Lemma check_retry_give_up s : sched_ok s -> AckTimeoutRetry s = true -> Z.land (LoRaMacState s) MAC_TX_DELAYED = 0 ->
  AckTimeoutRetries s <= AckTimeoutRetriesCounter s \/ MAX_ACK_RETRIES < AckTimeoutRetriesCounter s ->
  exists s', check_retry s = Done s' /\ NodeAckRequested s' = false /\ AckTimeoutRetry s' = false /\
    AckTimeoutRetriesCounter s' = AckTimeoutRetriesCounter s /\
    UpLinkCounter s' = (if IsUpLinkCounterFixed s then UpLinkCounter s else u32 (UpLinkCounter s + 1)) /\
    state_has MAC_TX_RUNNING s' = false /\ LoRaMacParams s' = reenable_default (LoRaMacParams s) /\
    mc_AckReceived (McpsConfirm s') = false /\ mc_NbRetries (McpsConfirm s') = AckTimeoutRetriesCounter s.
Proof.
  intros Hs Hr Hd Hx. unfold check_retry. rewrite Hr, Hd. cbn [andb Z.eqb].
  cbn [update AckTimeoutRetriesCounter AckTimeoutRetries].
  replace ((AckTimeoutRetriesCounter s <? AckTimeoutRetries s) && (AckTimeoutRetriesCounter s <=? MAX_ACK_RETRIES)) with false.
  2: { symmetry. apply andb_false_iff. rewrite Z.ltb_ge, Z.leb_gt. done. }
  eexists. split; [reflexivity|]. unfold bump_uplink, stop_tx, state_has.
  assert (HT : (Z.land (Z.ldiff (LoRaMacState s) MAC_TX_RUNNING) MAC_TX_RUNNING =? MAC_TX_RUNNING) = false).
  { apply Z.eqb_neq. rewrite Z.ldiff_land, <- Z.land_assoc, (Z.land_comm (Z.lnot _)), Z.land_lnot_diag, Z.land_0_r. done. }
  destruct (IsUpLinkCounterFixed s) eqn:Ef; cbn; rewrite Ef; by split_and!.
Qed.

(** Acknowledgement timeouts one after the other: each asks for another try
    once no transmission is delayed, until no acknowledgement is awaited. *)
Fixpoint retry_rounds (n : nat) (s : mac) : run mac :=
  match n with
  | O => NoFuel
  | S n' =>
      if NodeAckRequested s then
        let* s := check_retry (s <| AckTimeoutRetry := true |> <| LoRaMacState ::= fun v => Z.ldiff v MAC_TX_DELAYED |>) in
        retry_rounds n' s
      else Done s
  end.

Definition sched_same (s : mac) :=
  (inv_view s, LastTxChannel s, LoRaMacBuffer s, LoRaMacBufferPktLen s, AckTimeoutRetriesCounter s).

Lemma sched_ok_same s s' : sched_same s' = sched_same s -> sched_ok s -> sched_ok s'.
Proof.
  unfold sched_same. intros Hv [S1 S2 S3 S4 S5].
  assert (inv_view s' = inv_view s /\ LastTxChannel s' = LastTxChannel s /\
    LoRaMacBuffer s' = LoRaMacBuffer s /\ LoRaMacBufferPktLen s' = LoRaMacBufferPktLen s) as (E1 & E2 & E3 & E4) by (split_and!; congruence).
  split; [by apply (mac_inv_ext s)|by rewrite E2| |by rewrite E3|by rewrite E4].
  unfold inv_view in E1. by replace (LoRaMacParamsDefaults s') with (LoRaMacParamsDefaults s) by congruence.
Qed.

Lemma ldiff_land a b : Z.land (Z.ldiff a b) b = 0.
Proof. rewrite Z.ldiff_land, <- Z.land_assoc, (Z.land_comm (Z.lnot _)), Z.land_lnot_diag. apply Z.land_0_r. Qed.

Lemma retry_rounds_spec n : forall s, sched_ok s -> NodeAckRequested s = true -> 0 <= AckTimeoutRetriesCounter s ->
  AckTimeoutRetriesCounter s <= AckTimeoutRetries s <= MAX_ACK_RETRIES ->
  Z.of_nat n = AckTimeoutRetries s - AckTimeoutRetriesCounter s ->
  exists s', retry_rounds (n + 2) s = Done s' /\ NodeAckRequested s' = false /\
    AckTimeoutRetriesCounter s' = AckTimeoutRetries s /\ mc_AckReceived (McpsConfirm s') = false /\
    UpLinkCounter s' = (if IsUpLinkCounterFixed s then UpLinkCounter s else u32 (UpLinkCounter s + 1)).
Proof.
  induction n as [|n IH]; intros s Hs Hn H0 Hle Hm; cbn [Nat.add retry_rounds]; rewrite Hn.
  all: set (s1 := s <| AckTimeoutRetry := true |> <| LoRaMacState ::= _ |>).
  all: assert (Hs1 : sched_ok s1) by (by apply (sched_ok_same s)).
  all: assert (Hd1 : Z.land (LoRaMacState s1) MAC_TX_DELAYED = 0) by (apply ldiff_land).
  - destruct (check_retry_give_up s1) as (s2 & -> & E1 & E2 & E3 & E4 & _ & _ & E5 & _); try done.
    { left. change (AckTimeoutRetries s <= AckTimeoutRetriesCounter s). lia. }
    cbn [rbind]. rewrite E1. exists s2. split; [done|]. split; [done|].
    split; [rewrite E3; change (AckTimeoutRetriesCounter s = AckTimeoutRetries s); lia|done].
  - destruct (check_retry_again s1) as (s2 & -> & Hs2 & E1 & E2 & E3 & _ & _ & E4 & E5 & _); try done.
    { change (AckTimeoutRetriesCounter s < AckTimeoutRetries s). lia. }
    { change (AckTimeoutRetriesCounter s <= MAX_ACK_RETRIES). lia. }
    change (AckTimeoutRetriesCounter s1) with (AckTimeoutRetriesCounter s) in E1.
    change (AckTimeoutRetries s1) with (AckTimeoutRetries s) in E2.
    cbn [rbind]. destruct (IH s2) as (s' & E & F1 & F2 & F3 & F4); try done; try lia.
    { by rewrite E4. }
    exists s'. split; [exact E|]. split; [done|]. split; [by rewrite F2, E2|]. split; [done|]. by rewrite F4, E3, E5.
Qed.

Lemma check_retry_total s : sched_ok s -> 0 <= AckTimeoutRetriesCounter s -> exists s', check_retry s = Done s'.
Proof.
  intros Hs H0. destruct (AckTimeoutRetry s && (Z.land (LoRaMacState s) MAC_TX_DELAYED =? 0)) eqn:E.
  2: { exists s. unfold check_retry. by rewrite E. }
  apply andb_true_iff in E as [E1 E2%Z.eqb_eq].
  destruct (decide (AckTimeoutRetriesCounter s < AckTimeoutRetries s /\ AckTimeoutRetriesCounter s <= MAX_ACK_RETRIES)) as [[H1 H2]|H].
  - destruct (check_retry_again s) as (s' & E & _); eauto.
  - destruct (check_retry_give_up s) as (s' & E & _); eauto. lia.
Qed.

Lemma check_unconfirmed_total s b : sched_ok s -> exists s', check_unconfirmed b s = Done s' /\ sched_ok s' /\
  AckTimeoutRetriesCounter s' = AckTimeoutRetriesCounter s.
Proof.
  intros Hs. unfold check_unconfirmed. destruct (negb _ && _); [|by exists s].
  assert (Hj : sched_same (check_join s) = sched_same s) by (unfold check_join; repeat case_match; by destruct s).
  set (s1 := check_join s) in *. assert (Hs1 : sched_ok s1) by (by apply (sched_ok_same s)).
  assert (Hc : AckTimeoutRetriesCounter s1 = AckTimeoutRetriesCounter s) by (unfold sched_same in Hj; congruence).
  destruct (request_pending s1); [|by exists s1]. destruct (_ || _).
  - eexists. split; [reflexivity|].
    match goal with |- sched_ok ?x /\ _ => assert (Hv : sched_same x = sched_same s1) end.
    { unfold stop_tx, bump_uplink. case_match; by destruct s1. }
    split; [by apply (sched_ok_same s1)|]. rewrite <- Hc. unfold sched_same in Hv. congruence.
  - set (s2 := s1 <| LoRaMacFlags ::= _ |>).
    destruct (ScheduleTx_total s2) as (st & s3 & -> & Hv & Hs3); [by apply (sched_ok_same s1)|].
    cbn [rbind]. exists s3. split; [done|]. split; [done|]. by destruct (sched_view_fields _ _ Hv) as (_ & -> & _).
Qed.

Lemma check_done_total s : sched_ok s -> 0 <= AckTimeoutRetriesCounter s -> exists s', check_done s = Done s'.
Proof.
  intros Hs H0. unfold check_done. destruct (MacDone (LoRaMacFlags s)); [|eauto]. cbv zeta.
  set (s2 := if state_has MAC_RX_ABORT s then _ else s).
  assert (H2 : sched_same s2 = sched_same s) by (unfold s2; by destruct (state_has MAC_RX_ABORT s)).
  destruct (check_tx_timeout s2) as [b s3] eqn:E3.
  assert (H3 : sched_same s3 = sched_same s).
  { rewrite <- H2. clear H2. clearbody s2. unfold check_tx_timeout in E3. destruct (_ && _); injection E3 as _ <-; by destruct s2. }
  destruct (check_unconfirmed_total s3 b) as (s4 & -> & Hs4 & Hc4); [by apply (sched_ok_same s)|]. cbn [rbind].
  assert (H5 : sched_same (check_received s4) = sched_same s4).
  { unfold check_received, stop_tx, bump_uplink. repeat case_match; by destruct s4. }
  apply check_retry_total; [by apply (sched_ok_same s4)|].
  replace (AckTimeoutRetriesCounter (check_received s4)) with (AckTimeoutRetriesCounter s4) by (unfold sched_same in H5; congruence).
  rewrite Hc4. replace (AckTimeoutRetriesCounter s3) with (AckTimeoutRetriesCounter s) by (unfold sched_same in H3; congruence). done.
Qed.

(** What the upper layer is told at the end of a check. *)
Definition notifications (s : mac) : list action :=
  (if LoRaMacState s =? MAC_IDLE
   then (if McpsReq (LoRaMacFlags s) then [MacMcpsConfirm (McpsConfirm s)] else []) ++
        (if MlmeReq (LoRaMacFlags s) then [MacMlmeConfirm (MlmeConfirm s)] else [])
   else [TimerSetValue MacStateCheckTimer MAC_STATE_CHECK_TIMEOUT; TimerStart MacStateCheckTimer]) ++
  (if McpsInd (LoRaMacFlags s) then [MacMcpsIndication (McpsIndication s) (LoRaMacRxPayload s)] else []).

Definition clear_rx (s : mac) : mac :=
  if state_has MAC_RX s then s <| LoRaMacState ::= fun v => Z.ldiff v MAC_RX |> else s.

Lemma check_finish_spec s : let s1 := clear_rx s in
  trace (check_finish s) = trace s ++ notifications s1 /\ LoRaMacState (check_finish s) = LoRaMacState s1 /\
  LoRaMacFlags (check_finish s) =
    (if LoRaMacState s1 =? MAC_IDLE then flags_zero
     else (LoRaMacFlags s) <| McpsInd := false |>) /\
  UpLinkCounter (check_finish s) = UpLinkCounter s.
Proof.
  intros s1. unfold check_finish. fold (clear_rx s). fold s1.
  assert (Ht : trace s1 = trace s /\ LoRaMacFlags s1 = LoRaMacFlags s /\ UpLinkCounter s1 = UpLinkCounter s)
    by (unfold s1, clear_rx; by destruct (state_has MAC_RX s)).
  destruct Ht as (HT & HF & HU). rewrite <- HT, <- HF, <- HU. unfold notifications. clearbody s1. clear HT HF HU.
  destruct s1 as [? ? tr]. cbn. destruct LoRaMacFlags0 as [f1 f2 f3 f4].
  destruct (LoRaMacState0 =? MAC_IDLE) eqn:Ei; destruct f1, f2, f3; cbn; rewrite ?Ei; rewrite <- ?app_assoc; try done;
    by rewrite ?app_nil_r.
Qed.

End Rx.

(** * Properties *)


Lemma demo_rx_wf : rx_wf demo_mac.
Proof.
  destruct demo_buf_wf as [_ _ B3 B4 B5]. split; [done|done|done| |exact demo_inv]. by apply bytesb_true.
Qed.

(** A frame of zeros: its integrity code does not fit. *)
Definition demo_forged : list Z := 0x60 :: replicate 254 0.


(** A frame as the network server builds it. *)
Definition downlink_body `{FrameSecurity} (s : mac) (hdr fc ctr : Z) (opts : list Z) (port : Z) (msg : list Z) : list Z :=
  ([hdr] ++ le_bytes 4 (LoRaMacDevAddr s) ++ [fc] ++ le_bytes 2 ctr) ++ opts ++ [port] ++
  fs_cipher (LoRaMacAppSKey s) DOWN_LINK (LoRaMacDevAddr s) ctr msg.
Definition downlink_frame `{FrameSecurity} (s : mac) (hdr fc ctr : Z) (opts : list Z) (port : Z) (msg : list Z) : list Z :=
  let body := downlink_body s hdr fc ctr opts port msg in
  body ++ le_bytes 4 (fs_mic (LoRaMacNwkSKey s) DOWN_LINK (LoRaMacDevAddr s) ctr body).

Section Server.
Context {RD : RadioDriver} {FS : FrameSecurity}.
Context (s : mac) (hdr fc ctr : Z) (opts : list Z) (port : Z) (msg payload : list Z).
Hypotheses (Hwf : rx_wf s) (Haddr : is_u32 (LoRaMacDevAddr s)) (Hdc : is_u32 (DownLinkCounter s)) (Hctr : is_u32 ctr)
  (Hbody : starts payload (downlink_frame s hdr fc ctr opts port msg)) (Hpb : bytes payload)
  (Hml : zlen msg < 256) (Hopts : zlen opts = fc mod 16) (Hlen : zlen msg + zlen opts <= 242).
Let enc := fs_cipher (LoRaMacAppSKey s) DOWN_LINK (LoRaMacDevAddr s) ctr msg.
Let body := downlink_body s hdr fc ctr opts port msg.
Let size := zlen (downlink_frame s hdr fc ctr opts port msg).

Lemma server_lengths : length enc = length msg /\ zlen body = 9 + zlen opts + zlen msg /\ size = 13 + zlen opts + zlen msg.
Proof.
  assert (He : length enc = length msg).
  { destruct Hwf. apply fs_cipher_length; [done|unfold is_u8, DOWN_LINK; lia|done]. }
  assert (Hb : zlen body = 9 + zlen opts + zlen msg).
  { unfold body, downlink_body. fold enc. rewrite !length_app, !le_bytes_length. cbn [length]. lia. }
  split; [done|]. split; [done|]. unfold size, downlink_frame. fold body. rewrite length_app, le_bytes_length. lia.
Qed.

Lemma server_header : payload.[0] = hdr /\ field payload 1 4 = LoRaMacDevAddr s /\ payload.[5] = fc /\
  field payload 6 2 = u16 ctr /\ take (Z.to_nat (size - 4)) payload = body /\
  payload.[8 + zlen opts] = port /\ take (length msg) (drop (Z.to_nat (9 + zlen opts)) payload) = enc.
Proof.
  destruct server_lengths as (He & Hbl & Hsz).
  assert (Hfl : zlen (downlink_frame s hdr fc ctr opts port msg) = 13 + zlen opts + zlen msg) by done.
  set (pre := [hdr] ++ le_bytes 4 (LoRaMacDevAddr s) ++ [fc] ++ le_bytes 2 ctr).
  assert (Hpl : zlen (pre ++ opts) = 8 + zlen opts) by (unfold pre; rewrite !length_app, !le_bytes_length; cbn [length]; lia).
  assert (Hshape : downlink_frame s hdr fc ctr opts port msg =
    (pre ++ opts) ++ port :: enc ++ le_bytes 4 (fs_mic (LoRaMacNwkSKey s) DOWN_LINK (LoRaMacDevAddr s) ctr body)).
  { unfold downlink_frame. fold body. unfold body at 1, downlink_body. fold pre enc. rewrite <- !app_assoc. done. }
  split_and!.
  - by rewrite (starts_nth _ _ _ Hbody) by lia.
  - unfold field. rewrite (starts_sub _ _ 1 4 Hbody) by lia. rewrite Hshape.
    change (take 4 (drop 1 _)) with (le_bytes 4 (LoRaMacDevAddr s)). rewrite le_val_bytes. apply Z.mod_small. done.
  - by rewrite (starts_nth _ _ _ Hbody) by lia.
  - unfold field. rewrite (starts_sub _ _ 6 2 Hbody) by lia. rewrite Hshape.
    change (take 2 (drop 6 _)) with (le_bytes 2 ctr). by rewrite le_val_bytes.
  - pose proof (starts_sub _ _ 0 (Z.to_nat (size - 4)) Hbody) as E. rewrite !drop_0 in E. rewrite E by lia.
    unfold downlink_frame. fold body. apply take_app_length'. lia.
  - rewrite (starts_nth _ _ _ Hbody) by lia. rewrite Hshape, znth_app_r by lia.
    replace (8 + zlen opts - zlen (pre ++ opts)) with 0 by lia. done.
  - rewrite (starts_sub _ _ _ _ Hbody) by lia. rewrite Hshape.
    replace (Z.to_nat (9 + zlen opts)) with (S (length (pre ++ opts))) by lia.
    rewrite drop_app_ge by lia. replace (S (length (pre ++ opts)) - length (pre ++ opts))%nat with 1%nat by lia.
    cbn [drop]. rewrite <- He. apply take_app_length.
Qed.

(** The device computes the server's counter and finds the code right. *)
Lemma server_authentic : DownLinkCounter s < ctr < DownLinkCounter s + 16384 ->
  u32 (DownLinkCounter s + counter_gap s payload) = ctr /\ refusal s payload size = None /\ repeats s ctr = false.
Proof.
  intros Hc. destruct server_lengths as (He & Hbl & Hsz). destruct server_header as (_ & Ha & _ & Hf & Hb & _).
  assert (Hg : counter_gap s payload = ctr - DownLinkCounter s).
  { unfold counter_gap. rewrite Hf. unfold u16, is_u32 in *. lia. }
  assert (Hu : u32 (DownLinkCounter s + counter_gap s payload) = ctr) by (rewrite Hg; rewrite u32_id; unfold is_u32 in *; lia).
  assert (Hrep : repeats s ctr = false) by (unfold repeats; rewrite (proj2 (Z.eqb_neq _ ctr)) by lia; done).
  split; [done|]. split; [|done]. unfold refusal. rewrite Hu, Hrep. cbn [andb].
  rewrite (proj2 (Z.leb_gt MAX_FCNT_GAP _)) by (rewrite Hg; unfold MAX_FCNT_GAP; lia).
  assert (Hau : authentic s payload size = true); [|by rewrite Hau].
  unfold authentic. apply Z.eqb_eq. destruct (small_gap_counter (DownLinkCounter s) (counter_gap s payload) true) as [_ ->]; [done|lia|lia|].
  rewrite Hu, Hb. unfold field. rewrite (starts_sub _ _ _ 4 Hbody) by lia.
  unfold downlink_frame. fold body. rewrite drop_app_length' by lia.
  set (mic := fs_mic _ _ _ _ _). rewrite take_ge by (by rewrite le_bytes_length). rewrite le_val_bytes. apply Z.mod_small.
  destruct Hwf. apply fs_mic_range; [done|unfold is_u8, DOWN_LINK; lia|rewrite <- Hb; by apply Forall_take|fold body; lia].
Qed.
End Server.

(** C4: what the server sends is what the application gets.  A data frame built
    for the device as the LoRaWAN specification says (address, control byte,
    counter, options, port, payload encrypted under the application key,
    integrity code under the network key), with a counter ahead of the last one by
    less than 16384, is accepted: the receive buffer starts with the clear
    payload, the indication names its port, its length and its counter, and the counter of the device is the server's. *)
Theorem downlink_roundtrip (RD : RadioDriver) (FS : FrameSecurity) s hdr fc ctr opts port msg payload rssi snr :
  rx_wf s -> LoRaMacDeviceClass s <> CLASS_C -> is_u32 (LoRaMacDevAddr s) -> is_u32 (DownLinkCounter s) -> is_u32 ctr ->
  DownLinkCounter s < ctr < DownLinkCounter s + 16384 ->
  is_data_down (MType hdr) -> zlen opts = fc mod 16 -> port <> 0 -> zlen msg + zlen opts <= 242 ->
  starts payload (downlink_frame s hdr fc ctr opts port msg) -> bytes payload -> 255 <= zlen payload ->
  (opts <> [] -> ~ bad_duty_cycle payload) ->
  exists s', OnRadioRxDone payload (zlen (downlink_frame s hdr fc ctr opts port msg)) rssi snr s = Done (tt, s') /\
    starts (LoRaMacRxPayload s') msg /\ mi_RxData (McpsIndication s') = true /\ mi_Port (McpsIndication s') = port /\
    mi_BufferSize (McpsIndication s') = zlen msg /\ mi_DownLinkCounter (McpsIndication s') = ctr /\
    mi_Status (McpsIndication s') = LORAMAC_EVENT_INFO_STATUS_OK /\ McpsInd (LoRaMacFlags s') = true /\
    DownLinkCounter s' = ctr /\ SrvAckRequested s' = is_confirmed (MType hdr).
Proof.
  intros Hwf HA Hu1 Hu2 Hu3 Hc Ht Ho Hp Hl Hst Hb HL Hnb.
  assert (Hml : zlen msg < 256) by lia.
  destruct (server_lengths s hdr fc ctr opts port msg) as (He & Hbl & Hsz); try done.
  destruct (server_header s hdr fc ctr opts port msg payload) as (E0 & Ea & E5 & Ef & Eb & Ep & Em); try done.
  destruct (server_authentic s hdr fc ctr opts port msg payload) as (Hctr & Hno & Hrep); try done.
  set (size := zlen (downlink_frame s hdr fc ctr opts port msg)) in *.
  rewrite <- E0 in Ht. assert (Hs : 12 <= size <= 255) by lia.
  destruct (rx_accepted s payload size rssi snr Hwf HA Hu2 Hb HL Hs Ht Ea Hno) as [(s' & E & Hpost & Hdel)|[_ Hbad]].
  all: assert (HF : FOptsLen (fctrl_of_byte payload.[5]) = zlen opts) by (rewrite E5; cbn; lia).
  2: { destruct Hbad as [[H0 Hbad]|(H0 & H8 & _)]; rewrite HF in H0.
       - exfalso. apply Hnb; [|done]. intros ->. cbn in H0. lia.
       - rewrite H0 in Ep. change (8 + 0) with 8 in Ep. congruence. }
  rewrite HF, Hctr, Ep in Hdel. destruct Hdel as (D1 & D2 & D3 & D4 & D5 & D6); [lia|done|done|].
  destruct Hpost as (_ & P1 & P2 & _ & _ & _ & _ & _ & P3 & _). rewrite Hctr, HF in *. rewrite E0 in P2.
  exists s'. split; [exact E|]. split; [|split_and!; try done; congruence || lia].
  replace (Z.to_nat (size - 5 - (8 + zlen opts))) with (length msg) in D6 by lia.
  replace (8 + zlen opts + 1) with (9 + zlen opts) in D6 by lia. rewrite Em in D6.
  rewrite fs_cipher_involutive in D6; [done|by destruct Hwf|unfold is_u8, DOWN_LINK; lia|done].
Qed.

(** The server sends three bytes on port 2, confirmed, with counter 1. *)
Definition demo_downlink : list Z := @downlink_frame mac_security demo_mac 0xA0 0x00 1 [] 2 [1; 2; 3] ++ replicate 240 0.

Lemma downlink_roundtrip_witness :
  exists s', @OnRadioRxDone demo_driver mac_security demo_downlink
      (zlen (@downlink_frame mac_security demo_mac 0xA0 0x00 1 [] 2 [1; 2; 3])) 0 0 demo_mac = Done (tt, s') /\
    starts (LoRaMacRxPayload s') [1; 2; 3] /\ mi_Port (McpsIndication s') = 2 /\ SrvAckRequested s' = true.
Proof.
  destruct (downlink_roundtrip demo_driver mac_security demo_mac 0xA0 0x00 1 [] 2 [1; 2; 3] demo_downlink 0 0 demo_rx_wf)
    as (s' & E & Hm & _ & Hp & _ & _ & _ & _ & _ & Hc).
  - discriminate.
  - unfold is_u32. cbn. lia.
  - unfold is_u32. cbn. lia.
  - unfold is_u32. lia.
  - cbn. lia.
  - left. reflexivity.
  - reflexivity.
  - discriminate.
  - cbn. lia.
  - unfold demo_downlink, starts. apply take_app_length.
  - apply bytesb_true. vm_compute. reflexivity.
  - vm_compute. discriminate.
  - intros H. by destruct H.
  - exists s'. split; [exact E|]. split; [exact Hm|]. split; [exact Hp|]. rewrite Hc. reflexivity.
Defined.

(** C9: a join accept is believed exactly when its integrity code under the
    application key fits the decrypted text.  Then the device is joined: session
    keys, address, network identifier, window offsets, delays and datarate are
    those of the accept, and the frame counters are untouched.  Otherwise nothing but the receive buffer and the
    reported status changes.  The channel tables and parameter ranges stay well formed whatever channel list the accept carries. *)
Theorem join_accept_correct (RD : RadioDriver) (FS : FrameSecurity) s payload size :
  rx_wf s -> is_block (LoRaMacAppKey s) -> bytes payload -> 255 <= zlen payload -> 17 <= size <= 33 ->
  IsLoRaMacNetworkJoined s = false -> 0 <= ChannelsDatarate (LoRaMacParamsDefaults s) <= 7 ->
  exists s', rx_join_accept payload.[0] payload size s = Done (tt, s') /\ mac_inv s' /\
    if join_authentic s payload size
    then joined_post s s' (join_plain s payload) /\ UpLinkCounter s' = UpLinkCounter s /\ DownLinkCounter s' = DownLinkCounter s
    else quiet (s <| LoRaMacRxPayload := splice (LoRaMacRxPayload s) 0 (join_plain s payload) |>) s' /\
         ml_Status (MlmeConfirm s') = LORAMAC_EVENT_INFO_STATUS_JOIN_FAIL.
Proof.
  intros. destruct (rx_join_accept_spec s payload size) as (s' & E & Hi & _ & H'); try done. by exists s'.
Qed.

(** A device that has not joined, with an application key, and an accept that fails the check. *)
Definition demo_joining : mac := demo_mac <| IsLoRaMacNetworkJoined := false |> <| LoRaMacAppKey := demo_key |>.

Lemma rx_wf_joining s b k : rx_wf s -> rx_wf (s <| IsLoRaMacNetworkJoined := b |> <| LoRaMacAppKey := k |>).
Proof. intros. by apply (rx_wf_ext s). Qed.

Lemma join_accept_correct_witness :
  exists s', @rx_join_accept demo_driver mac_security demo_forged.[0] demo_forged 17 demo_joining = Done (tt, s') /\
    ml_Status (MlmeConfirm s') = LORAMAC_EVENT_INFO_STATUS_JOIN_FAIL.
Proof.
  destruct (join_accept_correct demo_driver mac_security demo_joining demo_forged 17) as (s' & E & _ & H).
  - apply rx_wf_joining, demo_rx_wf.
  - split; [reflexivity|by apply bytesb_true].
  - by apply bytesb_true.
  - vm_compute. discriminate.
  - lia.
  - reflexivity.
  - cbn. lia.
  - assert (Ha : @join_authentic mac_security demo_joining demo_forged 17 = false) by (vm_compute; reflexivity).
    rewrite Ha in H. exists s'. split; [exact E|apply H].
Defined.


(** A confirmed frame of 20 bytes, tried once of three times. *)
Definition demo_confirmed : mac := demo_mac <| LoRaMacBufferPktLen := 20 |> <| NodeAckRequested := true |>
  <| AckTimeoutRetries := 3 |> <| AckTimeoutRetriesCounter := 1 |>.

Lemma sched_ok_confirmed s n a r c : sched_ok s -> 0 <= n <= 255 ->
  sched_ok (s <| LoRaMacBufferPktLen := n |> <| NodeAckRequested := a |> <| AckTimeoutRetries := r |> <| AckTimeoutRetriesCounter := c |>).
Proof. intros [S1 S2 S3 S4 S5] Hn. split; try done. by apply (mac_inv_ext s). Qed.

Lemma demo_sched_ok : sched_ok demo_confirmed.
Proof.
  apply sched_ok_confirmed; [|lia].
  split; [exact demo_inv|split; [vm_compute; discriminate|reflexivity]|split; vm_compute; discriminate|reflexivity|split; vm_compute; discriminate].
Qed.




End MacRx.
