(* ===== verification/RadioLink.v ===== *)
(** The MAC on the radio driver: the calls of [Radio] that src/src/mac/LoRaMac.c
    makes, which its model records in the trace, carried out by the operations of
    src/src/radio/sx1272/sx1272.c on a chip with the laws of [RegisterFile].

    Sending a frame and opening a receive window are followed from the MAC's
    state down to the registers and the FIFO of the chip. *)
From S2P Require Import Prelude Double MacTypes Registers Sx1272 Chip RadioSpec RadioTypes MacChannels MacCrypto MacFrame MacRx.
Import Registers Chip RadioSpec.

Module RadioLink.
Import MacTypes MacChannels MacFrame MacRx Sx1272.
#[local] Open Scope st_scope.

(** * Calls of the MAC *)

(** The callbacks the MAC registers in [LoRaMacInitialization]. *)
Definition mac_events : RadioEvents_t := mkEvents true true true true true false false.

(** The call of an operation of [Radio] behind an action of the MAC, with the
    arguments that are constants in LoRaMac.c. *)
Definition radio_call (a : action) : option RadioTypes.request :=
  match a with
  | RadioInit => Some (RadioTypes.Init (Some mac_events))
  | RadioSleep => Some RadioTypes.Sleep
  | RadioStandby => Some RadioTypes.Standby
  | RadioSetModem m => Some (RadioTypes.SetModem m)
  | RadioWrite addr data => Some (RadioTypes.Write addr data)
  | RadioSetChannel freq => Some (RadioTypes.SetChannel freq)
  | RadioSetRxConfig MODEM_FSK bandwidth datarate timeout continuous =>
      Some (RadioTypes.SetRxConfig MODEM_FSK bandwidth datarate 0 83333 5 timeout false 0 true false 0 false continuous)
  | RadioSetRxConfig MODEM_LORA bandwidth datarate timeout continuous =>
      Some (RadioTypes.SetRxConfig MODEM_LORA bandwidth datarate 1 0 8 timeout false 0 false false 0 true continuous)
  | RadioSetTxConfig MODEM_FSK power fdev bandwidth datarate =>
      Some (RadioTypes.SetTxConfig MODEM_FSK power fdev bandwidth datarate 0 5 false true false 0 false 3000)
  | RadioSetTxConfig MODEM_LORA power fdev bandwidth datarate =>
      Some (RadioTypes.SetTxConfig MODEM_LORA power fdev bandwidth datarate 1 8 false true false 0 false 3000)
  | RadioSetMaxPayloadLength m max => Some (RadioTypes.SetMaxPayloadLength m max)
  | RadioRx timeout => Some (RadioTypes.Rx timeout)
  | RadioSend frame => Some (RadioTypes.Send frame (zlen frame))
  | _ => None
  end.

Section Execution.
Context {SPI : SpiDevice} {RC : RadioClient SPI}.

(** The driver carries out the calls in their order; timers and confirms are not its concern. *)
Fixpoint execute (l : list action) : ST (radio SPI) unit :=
  match l with
  | [] => sret tt
  | a :: l' =>
      match radio_call a with
      | Some r => RadioTypes.perform r ;;; execute l'
      | None => execute l'
      end
  end.
End Execution.

(** * Further operations of the driver *)

Section Driver.
Context {SPI : SpiDevice} {RF : RegisterFile SPI}.
Implicit Types (s : radio SPI) (v : view).

Lemma radio_ok_lora s v : radio_ok v s -> Modem s = MODEM_LORA -> is_lora v = true.
Proof. intros (_ & E & _) Hm. by rewrite E, Hm. Qed.

Lemma wp_max_payload_lora s v max Q : radio_ok v s ->
  (forall s' v', radio_ok v' s' -> Modem s' = MODEM_LORA -> LoRa s' = LoRa s ->
    lora_page v' REG_LR_PAYLOADMAXLENGTH = u8 max ->
    keeps [REG_LR_PAYLOADMAXLENGTH] [REG_OPMODE; REG_DIOMAPPING1; REG_DIOMAPPING2] v v' -> Q tt s') ->
  wp (SX1272SetMaxPayloadLength MODEM_LORA max) s Q.
Proof.
  intros Hok HQ. unfold SX1272SetMaxPayloadLength. run_code. eapply wp_set_modem; [exact Hok|].
  intros s1 v1 Hok1 Hm1 Es1 Hlp _ Hks _. pose proof (radio_ok_lora _ _ Hok1 Hm1) as Hl1.
  destruct Hok1 as (Hs1 & Hl & Ha & Hb & Hby). page true.
  eapply HQ; [split_and!; [eassumption|..]|..]; try done.
  - rewrite Es1. reflexivity.
  - apply (keeps_trans [] [REG_OPMODE; REG_DIOMAPPING1; REG_DIOMAPPING2] [REG_LR_PAYLOADMAXLENGTH] [] v v1); [exact Hks|].
    solve_keeps.
Qed.

(** The spreading factor and the high bits of the symbol timeout. *)
Lemma config2_value old sf hi : is_u8 old -> 6 <= sf <= 12 -> 0 <= hi < 4 ->
  let x := u8 (Z.lor (Z.land old (Z.land RFLR_MODEMCONFIG2_SF_MASK RFLR_MODEMCONFIG2_SYMBTIMEOUTMSB_MASK))
                 (Z.lor (Z.shiftl sf 4) (Z.land hi (Z.lnot RFLR_MODEMCONFIG2_SYMBTIMEOUTMSB_MASK)))) in
  Z.shiftr x 4 = sf /\ Z.land x 3 = hi.
Proof.
  intros Ho Hs Hh x. enough (((Z.shiftr x 4 =? sf) && (Z.land x 3 =? hi)) = true) as H.
  { by apply andb_true_iff in H as [?%Z.eqb_eq ?%Z.eqb_eq]. }
  unfold x. clear x. revert old Ho.
  assert (sf = 6 \/ sf = 7 \/ sf = 8 \/ sf = 9 \/ sf = 10 \/ sf = 11 \/ sf = 12) as Hs' by lia.
  assert (hi = 0 \/ hi = 1 \/ hi = 2 \/ hi = 3) as Hh' by lia.
  destruct Hs' as [-> | [-> | [-> | [-> | [-> | [-> | ->]]]]]], Hh' as [-> | [-> | [-> | ->]]]; apply forall_u8; reflexivity.
Qed.

(** The registers the configuration of a LoRa reception leaves as they are. *)
Lemma wp_rx_config s v bandwidth datarate coderate bandwidthAfc preambleLen symbTimeout payloadLen crcOn hopPeriod iqInverted rxContinuous :
  radio_ok v s -> 0 <= bandwidth <= 2 -> 1 <= coderate <= 4 -> is_u16 preambleLen -> 0 <= symbTimeout < 1024 ->
  let sf := clamp_datarate datarate in
  let ldro := low_datarate bandwidth sf in
  wp (SX1272SetRxConfig MODEM_LORA bandwidth datarate coderate bandwidthAfc preambleLen symbTimeout false payloadLen crcOn false
        hopPeriod iqInverted rxContinuous) s
    (fun _ s' => exists v', radio_ok v' s' /\ Modem s' = MODEM_LORA /\
      LoRa_IqInverted (LoRa s') = iqInverted /\ LoRa_RxContinuous (LoRa s') = rxContinuous /\
      keeps [REG_LR_MODEMCONFIG1; REG_LR_MODEMCONFIG2; REG_LR_SYMBTIMEOUTLSB; REG_LR_PREAMBLEMSB; REG_LR_PREAMBLELSB;
             REG_LR_HOPPERIOD; REG_LR_DETECTOPTIMIZE; REG_LR_DETECTIONTHRESHOLD]
            [REG_OPMODE; REG_DIOMAPPING1; REG_DIOMAPPING2; REG_LR_PLLHOP] v v' /\
      lora_page v' REG_LR_MODEMCONFIG1 = config1 bandwidth coderate false crcOn ldro /\
      Z.shiftr (lora_page v' REG_LR_MODEMCONFIG2) 4 = sf /\
      256 * Z.land (lora_page v' REG_LR_MODEMCONFIG2) 3 + lora_page v' REG_LR_SYMBTIMEOUTLSB = symbTimeout /\
      256 * lora_page v' REG_LR_PREAMBLEMSB + lora_page v' REG_LR_PREAMBLELSB = preambleLen /\
      lora_page v' REG_LR_DETECTIONTHRESHOLD = (if sf =? 6 then RFLR_DETECTIONTHRESH_SF6 else RFLR_DETECTIONTHRESH_SF7_TO_SF12)).
Proof.
  intros Hok Hbw Hcr Hpre Hsy sf ldro. unfold SX1272SetRxConfig. run_code. eapply wp_set_modem; [exact Hok|].
  intros s1 v1 Hok1 Hm1 Es1 Hlp _ Hks _. pose proof (radio_ok_lora _ _ Hok1 Hm1) as Hl1.
  destruct Hok1 as (Hs1 & Hl & Ha & Hb & Hby). unfold rx_config_lora. run_code.
  eapply wp_lora_config1; [exact Hs1|exact Hl1|done|done|]. intros d2 Hd2. page true. page true. unfold write_word.
  page true. page true. run_code. apply wp_when; intros Hf; [discriminate Hf|]. run_code.
  pose proof (proj2 Hs1) as (_ & _ & Hv1 & _).
  assert (6 <= sf <= 12) as Hsf by (unfold sf, clamp_datarate; zcases; lia).
  destruct (config2_value (lora_page v1 REG_LR_MODEMCONFIG2) sf (Z.shiftr symbTimeout 8) (Hv1 _) Hsf) as [C1 C2].
  { rewrite Z.shiftr_div_pow2 by lia. change (2 ^ 8) with 256. lia. }
  eapply wp_lora_hopping; [eassumption|exact Hl1|]. intros d6 v6 Hd6 Hl6 Hk6. run_code.
  eapply wp_lora_detection; [exact Hd6|exact Hl6|]. intros d7 v7 Hd7 Hl7 Hk7 Hthr. exists v7.
  split; [split_and!; [exact Hd7|cbn; rewrite Hm1; exact Hl7|exact Ha|exact Hb|exact Hby]|].
  split; [exact Hm1|]. split; [done|]. split; [done|].
  match type of Hk6 with keeps _ _ ?w _ => assert (keeps [REG_LR_MODEMCONFIG1; REG_LR_MODEMCONFIG2; REG_LR_SYMBTIMEOUTLSB;
    REG_LR_PREAMBLEMSB; REG_LR_PREAMBLELSB] [] v1 w) as Hkw by solve_keeps end.
  split.
  { exact (keeps_trans _ _ _ _ _ _ _ Hks (keeps_trans _ _ _ _ _ _ _ Hkw (keeps_trans _ _ _ _ _ _ _ Hk6 Hk7))). }
  pose proof (keeps_trans _ _ _ _ _ _ _ Hk6 Hk7) as [Hk _].
  rewrite (Hk REG_LR_MODEMCONFIG1), (Hk REG_LR_MODEMCONFIG2), (Hk REG_LR_SYMBTIMEOUTLSB), (Hk REG_LR_PREAMBLEMSB),
    (Hk REG_LR_PREAMBLELSB) by (cbn; intuition discriminate).
  split; [done|]. split; [exact C1|]. split.
  { etransitivity; [|exact (word_bytes symbTimeout ltac:(unfold is_u16; lia))]. f_equal. f_equal.
    etransitivity; [exact C2|]. change 0xFF with (Z.ones 8). rewrite Z.land_ones, Z.shiftr_div_pow2 by lia.
    change (2 ^ 8) with 256. unfold u8. lia. }
  split; [exact (word_bytes preambleLen Hpre)|exact Hthr].
Qed.

Lemma rx_mask_bits hopping : u8 (rx_irq_mask hopping) = rx_irq_mask hopping /\
  Z.land (rx_irq_mask hopping) (Z.lor RFLR_IRQFLAGS_RXDONE RFLR_IRQFLAGS_RXTIMEOUT) = 0.
Proof. by destruct hopping. Qed.

(** The direction of the signals for a reception. *)
Lemma wp_receive_iq s v Q : shows (dev s) v -> is_lora v = true ->
  (forall d x y, shows d (set_page true (set_page true v REG_LR_INVERTIQ x) REG_LR_INVERTIQ2 y) ->
    Z.testbit x 6 = LoRa_IqInverted (LoRa s) -> Q tt (s <| dev := d |>)) ->
  wp (if LoRa_IqInverted (LoRa s) then set_invert_iq RFLR_INVERTIQ_RX_ON RFLR_INVERTIQ_TX_OFF RFLR_INVERTIQ2_ON
      else set_invert_iq RFLR_INVERTIQ_RX_OFF RFLR_INVERTIQ_TX_OFF RFLR_INVERTIQ2_OFF) s Q.
Proof.
  intros Hs Hl HQ. destruct (LoRa_IqInverted (LoRa s)); apply (wp_invert_iq s v); try done; intros d Hd;
    apply (HQ d _ _ Hd); rewrite testbit_u8, Z.lor_spec, !Z.land_spec by lia; rewrite ?andb_false_r; reflexivity.
Qed.

(** The chip listens, the packet buffer is empty, and the reception ends after [timeout], if there is one. *)
Lemma wp_set_rx_lora s v timeout Q : radio_ok v s -> Modem s = MODEM_LORA ->
  (forall s' v', radio_ok v' s' -> State s' = RF_RX_RUNNING -> Modem s' = MODEM_LORA ->
    (timeout <> 0 -> RxTimeoutTimer s' = mkTimerView true timeout) ->
    mode v' = (if LoRa_RxContinuous (LoRa s) then RFLR_OPMODE_RECEIVER else RFLR_OPMODE_RECEIVER_SINGLE) ->
    AntTx s' = Output 0 -> AntRx s' = Output 1 ->
    Z.land (lora_page v' REG_LR_IRQFLAGSMASK) (Z.lor RFLR_IRQFLAGS_RXDONE RFLR_IRQFLAGS_RXTIMEOUT) = 0 ->
    Z.shiftr (shared v' REG_DIOMAPPING1) 6 = 0 ->
    Z.testbit (lora_page v' REG_LR_INVERTIQ) 6 = LoRa_IqInverted (LoRa s) ->
    lora_page v' REG_LR_FIFORXBASEADDR = 0 -> lora_page v' REG_LR_FIFOADDRPTR = 0 ->
    keeps [REG_LR_INVERTIQ; REG_LR_INVERTIQ2; REG_LR_IRQFLAGSMASK; REG_LR_FIFORXBASEADDR; REG_LR_FIFOADDRPTR]
          [REG_DIOMAPPING1; REG_OPMODE] v v' -> Q tt s') ->
  wp (SX1272SetRx timeout) s Q.
Proof.
  intros Hok Hm HQ. pose proof (radio_ok_lora _ _ Hok Hm) as Hl. destruct Hok as (Hs & _ & Ha & Hb & Hby).
  unfold SX1272SetRx. run_code. rewrite Hm. unfold rx_lora. run_code.
  eapply wp_receive_iq; [exact Hs|exact Hl|]. intros d1 x y Hd1 Hx. page true. run_code.
  eapply wp_dio_mapping; [eassumption|by left|]. intros d3 z Hd3 Hz. page true. page true. run_code.
  set (s5 := _ <| State := RF_RX_RUNNING |>).
  assert (exists c, LoRa_RxContinuous (LoRa s) = c) as [c Hc] by eauto. rewrite Hc in *. pose proof (proj2 Hd2) as Hv2.
  apply wp_when; intros Ht; run_code; destruct c; (eapply wp_set_mode; [eassumption|exact Ha|done|]);
    intros d6 Hd6; destruct (rx_mask_bits (FreqHopOn (LoRa s))) as [Hu Hrx];
    (eapply HQ; [split_and!; [exact Hd6|..]|..]); try done.
  all: first
  [ rewrite is_lora_set_mode by done; cbn; rewrite Hm; exact Hl
  | intros _; split; eexists; reflexivity
  | apply bytesb_true; reflexivity
  | by apply mode_set_mode
  | cbn; by rewrite Hu
  | intros Ht'; apply negb_false_iff, Z.eqb_eq in Ht; done
  | unfold set_mode; solve_keeps ].
Qed.
End Driver.

(** * What the chip does *)

(** The chip sends [frame] from its FIFO: on the frequency [freq], with the spreading factor [sf] and the
    bandwidth number [bandwidth], coding rate 4/5, explicit header, checksum and a preamble of 8 symbols, with [power] dBm. *)
Record transmits (v : view) (freq sf bandwidth power : Z) (frame : list Z) : Prop := {
  tr_modem : is_lora v = true;
  tr_mode : mode v = RF_OPMODE_TRANSMITTER;
  tr_frequency : frequency_word v = freq * 256 / 15625;
  tr_config1 : lora_page v REG_LR_MODEMCONFIG1 = config1 bandwidth 1 false true (low_datarate bandwidth sf);
  tr_sf : Z.shiftr (lora_page v REG_LR_MODEMCONFIG2) 4 = sf;
  tr_preamble : 256 * lora_page v REG_LR_PREAMBLEMSB + lora_page v REG_LR_PREAMBLELSB = 8;
  tr_boost : Z.testbit (shared v REG_PACONFIG) 7 = true;
  tr_power : Z.land (shared v REG_PACONFIG) 0x0F + (if 17 <? power then 5 else 2) = power;
  tr_iq : Z.testbit (lora_page v REG_LR_INVERTIQ) 0 = true;
  tr_length : lora_page v REG_LR_PAYLOADLENGTH = zlen frame;
  tr_base : lora_page v REG_LR_FIFOTXBASEADDR = 0;
  tr_frame : take (length frame) (lora_fifo v) = frame;
}.

(** The chip listens on the frequency [freq] with the spreading factor [sf] and the bandwidth number [bandwidth] for
    downlinks, with inverted signals and no checksum of their own, of at most [max] bytes; unless it listens continuously
    it gives up after [symbols] symbols without a preamble. *)
Record listens (v : view) (freq sf bandwidth symbols max : Z) (continuous : bool) : Prop := {
  li_modem : is_lora v = true;
  li_mode : mode v = (if continuous then RFLR_OPMODE_RECEIVER else RFLR_OPMODE_RECEIVER_SINGLE);
  li_frequency : frequency_word v = freq * 256 / 15625;
  li_config1 : lora_page v REG_LR_MODEMCONFIG1 = config1 bandwidth 1 false false (low_datarate bandwidth sf);
  li_sf : Z.shiftr (lora_page v REG_LR_MODEMCONFIG2) 4 = sf;
  li_symbols : 256 * Z.land (lora_page v REG_LR_MODEMCONFIG2) 3 + lora_page v REG_LR_SYMBTIMEOUTLSB = symbols;
  li_preamble : 256 * lora_page v REG_LR_PREAMBLEMSB + lora_page v REG_LR_PREAMBLELSB = 8;
  li_iq : Z.testbit (lora_page v REG_LR_INVERTIQ) 6 = true;
  li_max : lora_page v REG_LR_PAYLOADMAXLENGTH = max;
  li_irqs : Z.land (lora_page v REG_LR_IRQFLAGSMASK) (Z.lor RFLR_IRQFLAGS_RXDONE RFLR_IRQFLAGS_RXTIMEOUT) = 0;
  li_base : lora_page v REG_LR_FIFORXBASEADDR = 0;
  li_pointer : lora_page v REG_LR_FIFOADDRPTR = 0;
}.

Section Stack.
Context {SPI : SpiDevice} {RF : RegisterFile SPI} {RC : RadioClient SPI} {RD : RadioDriver}.
Implicit Types (r : radio SPI) (v : view) (m : mac).

Lemma wp_execute_call a q l r Q : radio_call a = Some q ->
  wp (RadioTypes.perform q) r (fun _ r' => wp (execute l) r' Q) -> wp (execute (a :: l)) r Q.
Proof. intros E H. cbn [execute]. rewrite E. by apply wp_bind. Qed.

Lemma same_frequency_word v v' : same_frequency v v' -> frequency_word v' = frequency_word v.
Proof. intros H. unfold frequency_word. by rewrite !H by (cbn; tauto). Qed.
Lemma keeps_frequency ls ss v v' : keeps ls ss v v' -> ~ In REG_FRFMSB ss -> ~ In REG_FRFMID ss -> ~ In REG_FRFLSB ss ->
  frequency_word v' = frequency_word v.
Proof. intros [_ H] H1 H2 H3. unfold frequency_word. by rewrite !H. Qed.

(** The calls for a frame with a LoRa datarate. *)
Lemma wp_transmit r v freq power sf bandwidth len frame : radio_ok v r -> 0 <= freq < 1024000000 -> In power TxPowers ->
  7 <= sf <= 12 -> 0 <= bandwidth <= 1 -> bytes frame -> zlen frame <= 255 ->
  wp (execute [RadioSetChannel freq; RadioSetMaxPayloadLength MODEM_LORA len; RadioSetTxConfig MODEM_LORA power 0 bandwidth sf;
               TimerSetValue MacStateCheckTimer MAC_STATE_CHECK_TIMEOUT; TimerStart MacStateCheckTimer; RadioSend frame]) r
    (fun _ r' => exists v', radio_ok v' r' /\ State r' = RF_TX_RUNNING /\ TxTimeoutTimer r' = mkTimerView true 3000 /\
      transmits v' freq sf bandwidth power frame).
Proof.
  intros Hok Hf Hp Hsf Hbw Hby Hlen.
  eapply wp_execute_call; [reflexivity|]. cbn [RadioTypes.perform]. eapply wp_set_channel; [exact Hok|done|].
  intros d1 v1 Hok1 Hw1 Hk1.
  eapply wp_execute_call; [reflexivity|]. cbn [RadioTypes.perform]. eapply wp_max_payload_lora; [exact Hok1|].
  intros s2 v2 Hok2 Hm2 _ _ Hk2.
  eapply wp_execute_call; [reflexivity|]. cbn [RadioTypes.perform].
  eapply wp_mono; [apply (wp_tx_config s2 v2); [exact Hok2|lia|lia|unfold is_u16; lia]|].
  cbv beta zeta. intros _ s3 (v3 & Hok3 & Hfr & Hm3 & _ & Hlo & Hc1 & Hc2 & Hpre & Hpa & Hpw & _ & _).
  change (execute _) with (execute [RadioSend frame]).
  eapply wp_execute_call; [reflexivity|]. cbn [RadioTypes.perform].
  eapply wp_send; [exact Hok3|exact Hm3|unfold is_u8; lia|lia|exact Hby|].
  intros s4 v4 Hok4 Hst Hti Hmo Hl4 Hsize Hbase Hfifo _ _ Hiq _ _ Hk4.
  pose proof (radio_ok_lora _ _ Hok3 Hm3) as Hl3.
  rewrite (reg_page v3 true REG_LR_MODEMCONFIG1), (reg_page v3 true REG_LR_MODEMCONFIG2), (reg_page v3 true REG_LR_PREAMBLEMSB),
    (reg_page v3 true REG_LR_PREAMBLELSB), (reg_common v3 REG_PACONFIG) in * by done.
  destruct Hk4 as [Hkl Hks]. rewrite Hlo in Hti, Hiq.
  assert (clamp_datarate sf = sf) as Esf by (unfold clamp_datarate; zcases; lia). rewrite Esf in *.
  apply wp_ret. exists v4. split; [exact Hok4|]. split; [exact Hst|]. split; [exact Hti|].
  split; try done; rewrite ?Hkl, ?Hks by (cbn; intuition discriminate); try done.
  - rewrite (keeps_frequency _ _ v3 v4 (conj Hkl Hks)), (same_frequency_word v2 v3 Hfr), (keeps_frequency _ _ v1 v2 Hk2)
      by (cbn; intuition discriminate). exact Hw1.
  - rewrite Hpw. assert (2 <= power <= 20) as Hpr by (cbn in Hp; lia). zcases; lia.
  - rewrite !Nat2Z.id, firstn_all in Hfifo. exact Hfifo.
Qed.

Lemma in_tx_powers i p : TxPowers !! i = Some p -> In p TxPowers.
Proof. intros H. by apply list_elem_of_In, (list_elem_of_lookup_2 _ i). Qed.
Lemma datarate_sf i sf : (i <= 6)%nat -> Datarates !! i = Some sf -> 7 <= sf <= 12.
Proof. intros Hi H. do 7 (destruct i as [|i]; [injection H as <-; lia|]). lia. Qed.

(** C13: handing a frame with a LoRa datarate to the radio makes the chip transmit it, whatever state
    the driver is in: the calls the MAC makes, carried out by the driver in their order, leave the chip
    in transmit mode on the channel's frequency with the spreading factor, bandwidth and power of
    the MAC's tables and the bytes of the frame buffer in the FIFO. *)
Theorem uplink_reaches_chip ch m r v : 0 <= ChannelsDatarate (LoRaMacParams m) <= 6 -> 0 <= ChannelsTxPower (LoRaMacParams m) <= 5 ->
  length (LoRaMacBuffer m) = 255%nat -> bytes (LoRaMacBuffer m) -> 0 <= LoRaMacBufferPktLen m <= 255 ->
  0 <= Frequency ch < 1024000000 -> radio_ok v r ->
  exists m' calls sf power, SendFrameOnChannel ch m = Done (LORAMAC_STATUS_OK, m') /\ trace m' = trace m ++ calls /\
    Datarates !! Z.to_nat (ChannelsDatarate (LoRaMacParams m)) = Some sf /\
    TxPowers !! Z.to_nat (ChannelsTxPower (LoRaMacParams m)) = Some power /\
    wp (execute calls) r (fun _ r' => exists v', radio_ok v' r' /\ State r' = RF_TX_RUNNING /\
      TxTimeoutTimer r' = mkTimerView true 3000 /\
      transmits v' (Frequency ch) sf (if ChannelsDatarate (LoRaMacParams m) =? 6 then 1 else 0) power
        (take (Z.to_nat (LoRaMacBufferPktLen m)) (LoRaMacBuffer m))).
Proof.
  intros Hdr Hpw Hbuf Hby Hlen Hf Hok. unfold SendFrameOnChannel, LimitTxPower.
  destruct (rd_ok Datarates (ChannelsDatarate (LoRaMacParams m))) as (sf & -> & Esf); [cbn [length Datarates]; lia|].
  destruct (rd_ok TxPowers (ChannelsTxPower (LoRaMacParams m))) as (p & -> & Ep); [cbn [length TxPowers]; lia|].
  cbn [rbind]. unfold tx_config. rewrite (proj2 (Z.eqb_neq _ 7)) by lia. rewrite rdn_ok by lia.
  pose proof (datarate_sf (Z.to_nat (ChannelsDatarate (LoRaMacParams m))) sf ltac:(lia) Esf) as Hsf. pose proof (in_tx_powers _ _ Ep) as Hp.
  set (frame := take _ (drop _ (LoRaMacBuffer m))).
  assert (bytes frame) as Hfb by (by apply Forall_take, Forall_drop).
  assert (zlen frame <= 255) as Hfl by (unfold frame; rewrite length_take; lia).
  destruct (ChannelsDatarate (LoRaMacParams m) =? 6); cbn [rbind]; eexists _, _, sf, p; (split; [reflexivity|]); (split; [reflexivity|]);
    (split; [exact Esf|]); (split; [exact Ep|]); apply (wp_transmit r v); try done; lia.
Qed.

(** ** Opening a receive window *)

Lemma wp_listen r v freq sf bandwidth symbols max timeout continuous : radio_ok v r -> 0 <= freq < 1024000000 ->
  7 <= sf <= 12 -> 0 <= bandwidth <= 1 -> 0 <= symbols < 1024 -> is_u8 max ->
  wp (execute [RadioSetChannel freq; RadioSetRxConfig MODEM_LORA bandwidth sf symbols continuous;
               RadioSetMaxPayloadLength MODEM_LORA max; RadioRx timeout]) r
    (fun _ r' => exists v', radio_ok v' r' /\ State r' = RF_RX_RUNNING /\
      (timeout <> 0 -> RxTimeoutTimer r' = mkTimerView true timeout) /\
      listens v' freq sf bandwidth symbols max continuous).
Proof.
  intros Hok Hf Hsf Hbw Hsy Hmax.
  eapply wp_execute_call; [reflexivity|]. cbn [RadioTypes.perform]. eapply wp_set_channel; [exact Hok|done|].
  intros d1 v1 Hok1 Hw1 Hk1.
  eapply wp_execute_call; [reflexivity|]. cbn [RadioTypes.perform].
  eapply wp_mono; [eapply wp_rx_config; [exact Hok1|lia|lia|unfold is_u16; lia|lia]|].
  cbv beta zeta. intros _ s2 (v2 & Hok2 & Hm2 & Hiq & Hco & Hk2 & Hc1 & Hc2 & Hsm & Hpre & _).
  eapply wp_execute_call; [reflexivity|]. cbn [RadioTypes.perform]. eapply wp_max_payload_lora; [exact Hok2|].
  intros s3 v3 Hok3 Hm3 Hlo3 Hpm Hk3. rewrite u8_id in Hpm by done.
  eapply wp_execute_call; [reflexivity|]. cbn [RadioTypes.perform]. eapply wp_set_rx_lora; [exact Hok3|exact Hm3|].
  intros s4 v4 Hok4 Hst Hm4 Hti Hmo _ _ Hirq _ Hiq4 Hb4 Hp4 Hk4. rewrite Hlo3, Hco in Hmo. rewrite Hlo3, Hiq in Hiq4.
  assert (clamp_datarate sf = sf) as Esf by (unfold clamp_datarate; zcases; lia). rewrite Esf in *.
  apply wp_ret. exists v4. split; [exact Hok4|]. split; [exact Hst|]. split; [exact Hti|].
  pose proof (proj1 (keeps_trans _ _ _ _ _ _ _ Hk3 Hk4)) as Hkl.
  split; try done; rewrite ?Hkl by (cbn; intuition discriminate); try done.
  - exact (radio_ok_lora _ _ Hok4 Hm4).
  - rewrite (keeps_frequency _ _ v3 v4 Hk4), (keeps_frequency _ _ v2 v3 Hk3), (keeps_frequency _ _ v1 v2 Hk2)
      by (cbn; intuition discriminate). exact Hw1.
  - by rewrite (proj1 Hk4) by (cbn; intuition discriminate).
Qed.

(** The longest frame of a datarate fits the register. *)
Lemma max_payload_ok (repeater : bool) (datarate : Z) : 0 <= datarate <= 6 ->
  let table := if repeater then MaxPayloadOfDatarateRepeater else MaxPayloadOfDatarate in
  exists max, rd table datarate = Done max /\ table !! Z.to_nat datarate = Some max /\ is_u8 (max + LORA_MAC_FRMPAYLOAD_OVERHEAD).
Proof.
  intros Hd table. destruct (rd_ok table datarate) as (max & E & H); [unfold table; destruct repeater; cbn; lia|].
  exists max. split_and!; [done|done|..]; unfold is_u8, LORA_MAC_FRMPAYLOAD_OVERHEAD; pose proof (list_elem_of_lookup_2 _ _ _ H) as Hin;
    apply list_elem_of_In in Hin; unfold table in Hin; destruct repeater; cbn in Hin; lia.
Qed.

(** [Radio.GetStatus] as the MAC sees it. *)
Definition status_shown m r : Prop :=
  RadioIdle (env m) = match SX1272GetStatus r with RF_IDLE => true | _ => false end.

(** C14: opening a receive window with a LoRa datarate on an idle radio makes the chip listen on the
    window's frequency with the spreading factor of the datarate, for downlinks up to the longest
    frame of the datarate, and bounds the window in time unless it is continuous; while the radio is busy no call is made. *)
Theorem window_reaches_chip m r v freq datarate bandwidth symbols continuous : 0 <= datarate <= 6 -> 0 <= bandwidth <= 1 ->
  0 <= symbols < 1024 -> 0 <= freq < 1024000000 -> radio_ok v r -> status_shown m r ->
  exists m' calls, RxWindowSetup freq datarate bandwidth symbols continuous m = Done (tt, m') /\ trace m' = trace m ++ calls /\
    (State r <> RF_IDLE -> calls = []) /\
    (State r = RF_IDLE -> exists sf max, Datarates !! Z.to_nat datarate = Some sf /\
      (if RepeaterSupport m then MaxPayloadOfDatarateRepeater else MaxPayloadOfDatarate) !! Z.to_nat datarate = Some max /\
      wp (execute calls) r (fun _ r' => exists v', radio_ok v' r' /\ State r' = RF_RX_RUNNING /\
        (continuous = false -> MaxRxWindow (LoRaMacParams m) <> 0 ->
          RxTimeoutTimer r' = mkTimerView true (MaxRxWindow (LoRaMacParams m))) /\
        listens v' freq sf bandwidth symbols (max + LORA_MAC_FRMPAYLOAD_OVERHEAD) continuous)).
Proof.
  intros Hdr Hbw Hsy Hf Hok Hst. unfold RxWindowSetup. unfold status_shown, SX1272GetStatus in Hst. rewrite Hst. clear Hst.
  destruct (rd_ok Datarates datarate) as (sf & -> & Esf); [cbn [length Datarates]; lia|]. cbn [rbind].
  destruct (State r) eqn:Est; [|eexists m, []; split; [done|]; split; [by rewrite app_nil_r|by split]..].
  rewrite (proj2 (Z.eqb_neq datarate 7)) by lia.
  destruct (max_payload_ok (RepeaterSupport m) datarate Hdr) as (max & Emax & Hmax & Hb).
  rewrite Emax. cbn [rbind]. eexists _, _. split; [reflexivity|]. split; [reflexivity|]. split; [done|]. intros _.
  exists sf, max. split; [exact Esf|]. split; [exact Hmax|].
  eapply wp_mono; [apply (wp_listen r v); try done; apply (datarate_sf (Z.to_nat datarate)); [lia|exact Esf]|].
  cbv beta. intros _ r' (v' & Hok' & Hs' & Hti & Hli). exists v'. split; [done|]. split; [done|]. split; [|done].
  intros -> Hw. by apply Hti.
Qed.
End Stack.

(** * Examples *)

#[local] Instance quiet_client : RadioClient SimChip := fun _ s => Done s.

Lemma uplink_reaches_chip_witness : exists m' calls (r' : radio SimChip),
  @SendFrameOnChannel demo_driver (mkChannel 868100000 0x50 0) demo_mac = Done (LORAMAC_STATUS_OK, m') /\
  trace m' = trace demo_mac ++ calls /\ execute calls (demo_radio MODEM_FSK RF_IDLE []) = Done (tt, r') /\ State r' = RF_TX_RUNNING.
Proof.
  destruct (uplink_reaches_chip (RD := demo_driver) (mkChannel 868100000 0x50 0) demo_mac (demo_radio MODEM_FSK RF_IDLE []) (demo_view false []))
    as (m' & calls & sf & p & E & Et & _ & _ & [] & r' & Er & v' & _ & Hst & _).
  1-3, 5-6: cbn; lia.
  - apply bytesb_true. reflexivity.
  - apply (demo_ok MODEM_FSK); [constructor|simpl; lia].
  - by exists m', calls, r'.
Defined.

Lemma window_reaches_chip_witness : exists m' calls (r' : radio SimChip),
  RxWindowSetup 869525000 0 0 5 false demo_mac = Done (tt, m') /\
  trace m' = trace demo_mac ++ calls /\ execute calls (demo_radio MODEM_FSK RF_IDLE []) = Done (tt, r') /\ State r' = RF_RX_RUNNING.
Proof.
  destruct (window_reaches_chip demo_mac (demo_radio MODEM_FSK RF_IDLE [])
    (demo_view false []) 869525000 0 0 5 false) as (m' & calls & E & Et & _ & H).
  1-4: lia.
  - apply (demo_ok MODEM_FSK); [constructor|simpl; lia].
  - reflexivity.
  - destruct (H eq_refl) as (sf & max & _ & _ & [] & r' & Er & v' & _ & Hst & _). by exists m', calls, r'.
Defined.
End RadioLink.
