(* ===== verification/MacServices.v ===== *)
(** Services of src/src/mac/LoRaMac.c to the upper layer: initialization,
    reset, the information base (MIB), management requests (joining, link
    check) and data requests; the theorems compose frame construction and scheduling. *)
From S2P Require Import Prelude Utilities Linked Aes MacTypes MacChannels Multicast MacCommands MacCrypto MacFrame MacRx.

Module MacServices.
Import MacTypes MacChannels Multicast MacCommands MacCrypto MacFrame MacRx.
Abbreviation is_block := Aes.is_block.

(** * Requests *)

(** [MibRequestConfirm_t]: the type and the parameter of that type. *)
Inductive MibRequestConfirm_t :=
| MIB_DEVICE_CLASS (Class_ : DeviceClass_t)
| MIB_NETWORK_JOINED (IsNetworkJoined : bool)
| MIB_ADR (AdrEnable : bool)
| MIB_NET_ID (NetID : Z)
| MIB_DEV_ADDR (DevAddr : Z)
| MIB_NWK_SKEY (NwkSKey : option (list Z))
| MIB_APP_SKEY (AppSKey : option (list Z))
| MIB_PUBLIC_NETWORK (EnablePublicNetwork : bool)
| MIB_REPEATER_SUPPORT (EnableRepeaterSupport : bool)
| MIB_CHANNELS (ChannelList : list ChannelParams_t)
| MIB_RX2_CHANNEL (Frequency_ Datarate : Z)
| MIB_CHANNELS_MASK (Mask : option (list Z))
| MIB_CHANNELS_NB_REP (ChannelNbRep : Z)
| MIB_MAX_RX_WINDOW_DURATION (MaxRxWindow_ : Z)
| MIB_RECEIVE_DELAY_1 (d : Z)
| MIB_RECEIVE_DELAY_2 (d : Z)
| MIB_JOIN_ACCEPT_DELAY_1 (d : Z)
| MIB_JOIN_ACCEPT_DELAY_2 (d : Z)
| MIB_CHANNELS_DEFAULT_DATARATE (dr : Z)
| MIB_CHANNELS_DATARATE (dr : Z)
| MIB_CHANNELS_TX_POWER (p : Z)
| MIB_UPLINK_COUNTER (c : Z)
| MIB_DOWNLINK_COUNTER (c : Z)
| MIB_MULTICAST_CHANNEL (MulticastList : option Z).

(** [McpsReq_t]; a NULL buffer is [None]. *)
Inductive McpsReq_t :=
| McpsUnconfirmed (fPort : Z) (fBuffer : option (list Z)) (fBufferSize Datarate : Z)
| McpsConfirmed (fPort : Z) (fBuffer : option (list Z)) (fBufferSize Datarate NbTrials : Z)
| McpsProprietary (fBuffer : option (list Z)) (fBufferSize Datarate : Z)
| McpsMulticast.

(** [MlmeReq_t] *)
Inductive MlmeReq_t :=
| MlmeJoin (DevEui AppEui AppKey : option (list Z))
| MlmeLinkCheck.

(** [LoRaMacPrimitives_t]: which callbacks are given. *)
Record LoRaMacPrimitives_t := mkPrimitives {
  has_McpsConfirm : bool;
  has_McpsIndication : bool;
  has_MlmeConfirm : bool;
}.

Record LoRaMacTxInfo_t := mkTxInfo {
  MaxPossiblePayload : Z;
  CurrentPayloadSize : Z;
}.
#[export] Instance eta_txinfo : Eta LoRaMacTxInfo_t := fun t => mkTxInfo (MaxPossiblePayload t) (CurrentPayloadSize t).

(** * Initialization *)

Definition SetPublicNetwork (enable : bool) : M unit := fun s =>
  Done (tt, log [RadioSetModem MODEM_LORA;
                 RadioWrite REG_LR_SYNCWORD (if enable then LORA_MAC_PUBLIC_SYNCWORD else LORA_MAC_PRIVATE_SYNCWORD)]
             (s <| PublicNetwork := enable |>)).

(** The parameters are set back to the defaults, field by field. *)
Definition reset_params (d p : LoRaMacParams_t) : LoRaMacParams_t :=
  p <| ChannelsTxPower := ChannelsTxPower d |> <| ChannelsDatarate := ChannelsDatarate d |>
    <| MaxRxWindow := MaxRxWindow d |> <| ReceiveDelay1 := ReceiveDelay1 d |> <| ReceiveDelay2 := ReceiveDelay2 d |>
    <| JoinAcceptDelay1 := JoinAcceptDelay1 d |> <| JoinAcceptDelay2 := JoinAcceptDelay2 d |>
    <| Rx1DrOffset := Rx1DrOffset d |> <| ChannelsNbRep := ChannelsNbRep d |>
    <| Rx2Frequency := Rx2Frequency d |> <| Rx2Datarate := Rx2Datarate d |> <| ChannelsMask := ChannelsMask d |>.

Definition ResetMacParameters : M unit := fun s =>
  let s := s <| IsLoRaMacNetworkJoined := false |>
    <| UpLinkCounter := 1 |> <| DownLinkCounter := 0 |> <| AdrAckCounter := 0 |> <| ChannelsNbRepCounter := 0 |>
    <| AckTimeoutRetries := 1 |> <| AckTimeoutRetriesCounter := 1 |> <| AckTimeoutRetry := false |>
    <| MaxDCycle := 0 |> <| AggregatedDCycle := 1 |>
    <| MacCommandsBufferIndex := 0 |> <| MacCommandsBufferToRepeatIndex := 0 |> <| IsRxWindowsEnabled := true |>
    <| LoRaMacParams ::= reset_params (LoRaMacParamsDefaults s) |>
    <| NodeAckRequested := false |> <| SrvAckRequested := false |> <| MacCommandsInNextTx := false |> in
  let* ns := reset_counters (walk_fuel (MulticastNodes s)) (MulticastNodes s) (MulticastChannels s) in
  Done (tt, s <| MulticastNodes := ns |> <| Channel := LORA_MAX_NB_CHANNELS |>).

(** The defaults [LoRaMacInitialization] sets. *)
Definition default_params (d : LoRaMacParams_t) : LoRaMacParams_t :=
  d <| ChannelsTxPower := LORAMAC_DEFAULT_TX_POWER |> <| ChannelsDatarate := LORAMAC_DEFAULT_DATARATE |>
    <| MaxRxWindow := MAX_RX_WINDOW |> <| ReceiveDelay1 := RECEIVE_DELAY1 |> <| ReceiveDelay2 := RECEIVE_DELAY2 |>
    <| JoinAcceptDelay1 := JOIN_ACCEPT_DELAY1 |> <| JoinAcceptDelay2 := JOIN_ACCEPT_DELAY2 |>
    <| ChannelsNbRep := 1 |> <| Rx1DrOffset := 0 |> <| Rx2Frequency := 869525000 |> <| Rx2Datarate := 0 |>
    <| ChannelsMask ::= fun m => m.[0 := DEFAULT_CHANNELS] |>.

(** The statics set before the reset. *)
Definition init_statics (s : mac) : mac :=
  s <| LoRaMacFlags := flags_zero |> <| LoRaMacDeviceClass := CLASS_A |> <| LoRaMacState := MAC_IDLE |>
    <| JoinRequestTrials := 0 |> <| RepeaterSupport := false |> <| AggregatedLastTxDoneTime := 0 |>
    <| AggregatedTimeOff := 0 |> <| DutyCycleOn := true |> <| LoRaMacParamsDefaults ::= default_params |>.

Definition LoRaMacInitialization (primitives : option LoRaMacPrimitives_t) : M LoRaMacStatus_t := fun s =>
  match primitives with
  | None => Done (LORAMAC_STATUS_PARAMETER_INVALID, s)
  | Some p =>
      if negb (has_McpsConfirm p) || negb (has_McpsIndication p) || negb (has_MlmeConfirm p)
      then Done (LORAMAC_STATUS_PARAMETER_INVALID, s)
      else
        let* (_, s) := ResetMacParameters (init_statics s) in
        let s := log [TimerInit MacStateCheckTimer; TimerSetValue MacStateCheckTimer MAC_STATE_CHECK_TIMEOUT;
                      TimerInit TxDelayedTimer; TimerInit RxWindowTimer1; TimerInit RxWindowTimer2; TimerInit AckTimeoutTimer;
                      RadioInit] s in
        let s := s <| rand_next := srand1 (RadioRandom (env s)) |> <| PublicNetwork := true |> in
        let* (_, s) := SetPublicNetwork true s in
        Done (LORAMAC_STATUS_OK, log [RadioSleep] s)
  end.

(** * Queries *)

(** Returns what is stored in [*txInfo] beside the status. *)
Definition LoRaMacQueryTxPossible (size : Z) (txInfo : option LoRaMacTxInfo_t)
  : M (LoRaMacStatus_t * option LoRaMacTxInfo_t) := fun s =>
  let fOptLen := u8 (MacCommandsBufferIndex s + MacCommandsBufferToRepeatIndex s) in
  match txInfo with
  | None => Done ((LORAMAC_STATUS_PARAMETER_INVALID, None), s)
  | Some info =>
      let* ((_, datarate), s) := AdrNextDr (AdrCtrlOn s) false s in
      let* cur := rd (if RepeaterSupport s then MaxPayloadOfDatarateRepeater else MaxPayloadOfDatarate) datarate in
      let info := info <| CurrentPayloadSize := cur |> in
      if cur <? fOptLen then Done ((LORAMAC_STATUS_MAC_CMD_LENGTH_ERROR, Some info), s) else
      let info := info <| MaxPossiblePayload := cur - fOptLen |> in
      let* ok := ValidatePayloadLength s size datarate 0 in
      if negb ok then Done ((LORAMAC_STATUS_LENGTH_ERROR, Some info), s) else
      let* ok := ValidatePayloadLength s size datarate fOptLen in
      if negb ok then Done ((LORAMAC_STATUS_MAC_CMD_LENGTH_ERROR, Some info), s)
      else Done ((LORAMAC_STATUS_OK, Some info), s)
  end.

(** * Information base *)

(** The request with its parameter filled in; every type is known. *)
Definition LoRaMacMibGetRequestConfirm (mibGet : option MibRequestConfirm_t) (s : mac)
  : LoRaMacStatus_t * option MibRequestConfirm_t :=
  let p := LoRaMacParams s in
  match mibGet with
  | None => (LORAMAC_STATUS_PARAMETER_INVALID, None)
  | Some m => (LORAMAC_STATUS_OK, Some
      match m with
      | MIB_DEVICE_CLASS _ => MIB_DEVICE_CLASS (LoRaMacDeviceClass s)
      | MIB_NETWORK_JOINED _ => MIB_NETWORK_JOINED (IsLoRaMacNetworkJoined s)
      | MIB_ADR _ => MIB_ADR (AdrCtrlOn s)
      | MIB_NET_ID _ => MIB_NET_ID (LoRaMacNetID s)
      | MIB_DEV_ADDR _ => MIB_DEV_ADDR (LoRaMacDevAddr s)
      | MIB_NWK_SKEY _ => MIB_NWK_SKEY (Some (LoRaMacNwkSKey s))
      | MIB_APP_SKEY _ => MIB_APP_SKEY (Some (LoRaMacAppSKey s))
      | MIB_PUBLIC_NETWORK _ => MIB_PUBLIC_NETWORK (PublicNetwork s)
      | MIB_REPEATER_SUPPORT _ => MIB_REPEATER_SUPPORT (RepeaterSupport s)
      | MIB_CHANNELS _ => MIB_CHANNELS (Channels s)
      | MIB_RX2_CHANNEL _ _ => MIB_RX2_CHANNEL (Rx2Frequency p) (Rx2Datarate p)
      | MIB_CHANNELS_MASK _ => MIB_CHANNELS_MASK (Some (ChannelsMask p))
      | MIB_CHANNELS_NB_REP _ => MIB_CHANNELS_NB_REP (ChannelsNbRep p)
      | MIB_MAX_RX_WINDOW_DURATION _ => MIB_MAX_RX_WINDOW_DURATION (MaxRxWindow p)
      | MIB_RECEIVE_DELAY_1 _ => MIB_RECEIVE_DELAY_1 (ReceiveDelay1 p)
      | MIB_RECEIVE_DELAY_2 _ => MIB_RECEIVE_DELAY_2 (ReceiveDelay2 p)
      | MIB_JOIN_ACCEPT_DELAY_1 _ => MIB_JOIN_ACCEPT_DELAY_1 (JoinAcceptDelay1 p)
      | MIB_JOIN_ACCEPT_DELAY_2 _ => MIB_JOIN_ACCEPT_DELAY_2 (JoinAcceptDelay2 p)
      | MIB_CHANNELS_DEFAULT_DATARATE _ => MIB_CHANNELS_DEFAULT_DATARATE (ChannelsDatarate (LoRaMacParamsDefaults s))
      | MIB_CHANNELS_DATARATE _ => MIB_CHANNELS_DATARATE (ChannelsDatarate p)
      | MIB_CHANNELS_TX_POWER _ => MIB_CHANNELS_TX_POWER (ChannelsTxPower p)
      | MIB_UPLINK_COUNTER _ => MIB_UPLINK_COUNTER (UpLinkCounter s)
      | MIB_DOWNLINK_COUNTER _ => MIB_DOWNLINK_COUNTER (DownLinkCounter s)
      | MIB_MULTICAST_CHANNEL _ => MIB_MULTICAST_CHANNEL (MulticastChannels s)
      end)
  end.

Definition mib_ok (s : mac) : run (LoRaMacStatus_t * mac) := Done (LORAMAC_STATUS_OK, s).
Definition mib_invalid (s : mac) : run (LoRaMacStatus_t * mac) := Done (LORAMAC_STATUS_PARAMETER_INVALID, s).
Definition mib_params (s : mac) (g : LoRaMacParams_t -> LoRaMacParams_t) : run (LoRaMacStatus_t * mac) :=
  mib_ok (s <| LoRaMacParams ::= g |>).

(** The case [MIB_DEVICE_CLASS]. *)
Definition set_device_class (c : DeviceClass_t) : M LoRaMacStatus_t := fun s =>
  let s := s <| LoRaMacDeviceClass := c |> in
  match c with
  | CLASS_A => mib_ok (log [RadioSleep] s)
  | CLASS_B => mib_ok s
  | CLASS_C => let* (_, s) := OnRxWindow2TimerEvent (s <| NodeAckRequested := false |>) in mib_ok s
  end.

Definition mib_set (m : MibRequestConfirm_t) : M LoRaMacStatus_t := fun s =>
  match m with
  | MIB_DEVICE_CLASS c => set_device_class c s
  | MIB_NETWORK_JOINED b => mib_ok (s <| IsLoRaMacNetworkJoined := b |>)
  | MIB_ADR b => mib_ok (s <| AdrCtrlOn := b |>)
  | MIB_NET_ID n => mib_ok (s <| LoRaMacNetID := n |>)
  | MIB_DEV_ADDR a => mib_ok (s <| LoRaMacDevAddr := a |>)
  | MIB_NWK_SKEY (Some k) => let* key := memcpy1 (LoRaMacNwkSKey s) 0 k 0 16 in mib_ok (s <| LoRaMacNwkSKey := key |>)
  | MIB_NWK_SKEY None => mib_invalid s
  | MIB_APP_SKEY (Some k) => let* key := memcpy1 (LoRaMacAppSKey s) 0 k 0 16 in mib_ok (s <| LoRaMacAppSKey := key |>)
  | MIB_APP_SKEY None => mib_invalid s
  | MIB_PUBLIC_NETWORK b => let* (_, s) := SetPublicNetwork b s in mib_ok s
  | MIB_REPEATER_SUPPORT b => mib_ok (s <| RepeaterSupport := b |>)
  | MIB_RX2_CHANNEL f dr => mib_params s (fun p => p <| Rx2Frequency := f |> <| Rx2Datarate := dr |>)
  | MIB_CHANNELS_MASK (Some mask) =>
      let* w := rd mask 0 in mib_params s (fun p => p <| ChannelsMask ::= fun m => m.[0 := w] |>)
  | MIB_CHANNELS_MASK None => mib_invalid s
  | MIB_CHANNELS_NB_REP n =>
      if (1 <=? n) && (n <=? 15) then mib_params s (fun p => p <| ChannelsNbRep := n |>) else mib_invalid s
  | MIB_MAX_RX_WINDOW_DURATION d => mib_params s (fun p => p <| MaxRxWindow := d |>)
  | MIB_RECEIVE_DELAY_1 d => mib_params s (fun p => p <| ReceiveDelay1 := d |>)
  | MIB_RECEIVE_DELAY_2 d => mib_params s (fun p => p <| ReceiveDelay2 := d |>)
  | MIB_JOIN_ACCEPT_DELAY_1 d => mib_params s (fun p => p <| JoinAcceptDelay1 := d |>)
  | MIB_JOIN_ACCEPT_DELAY_2 d => mib_params s (fun p => p <| JoinAcceptDelay2 := d |>)
  | MIB_CHANNELS_DEFAULT_DATARATE dr =>
      if ValueInRange dr LORAMAC_TX_MIN_DATARATE LORAMAC_TX_MAX_DATARATE
      then mib_ok (s <| LoRaMacParamsDefaults ::= fun p => p <| ChannelsDatarate := dr |> |>) else mib_invalid s
  | MIB_CHANNELS_DATARATE dr =>
      if ValueInRange dr LORAMAC_TX_MIN_DATARATE LORAMAC_TX_MAX_DATARATE
      then mib_params s (fun p => p <| ChannelsDatarate := dr |>) else mib_invalid s
  | MIB_CHANNELS_TX_POWER p =>
      if ValueInRange p LORAMAC_MAX_TX_POWER LORAMAC_MIN_TX_POWER
      then mib_params s (fun q => q <| ChannelsTxPower := p |>) else mib_invalid s
  | MIB_UPLINK_COUNTER c => mib_ok (s <| UpLinkCounter := c |>)
  | MIB_DOWNLINK_COUNTER c => mib_ok (s <| DownLinkCounter := c |>)
  | MIB_CHANNELS _ | MIB_MULTICAST_CHANNEL _ => Done (LORAMAC_STATUS_SERVICE_UNKNOWN, s)
  end.

Definition LoRaMacMibSetRequestConfirm (mibSet : option MibRequestConfirm_t) : M LoRaMacStatus_t := fun s =>
  match mibSet with
  | None => Done (LORAMAC_STATUS_PARAMETER_INVALID, s)
  | Some m => if state_has MAC_TX_RUNNING s then Done (LORAMAC_STATUS_BUSY, s) else mib_set m s
  end.

(** * Management requests *)

(** The end of a request with status [status]. *)
Definition mlme_done (status : LoRaMacStatus_t) (s : mac) : run (LoRaMacStatus_t * mac) :=
  if bool_decide (status = LORAMAC_STATUS_OK) then Done (status, s)
  else Done (status, s <| NodeAckRequested := false |> <| LoRaMacFlags ::= fun f => f <| MlmeReq := false |> |>).

Section Requests.
Context {RD : RadioDriver} {FS : FrameSecurity}.

(** The case [MLME_JOIN] once its pointers are known not to be NULL. *)
Definition mlme_join (devEui appEui appKey : list Z) : M LoRaMacStatus_t := fun s =>
  let s := s <| LoRaMacFlags ::= fun f => f <| MlmeReq := true |> |>
    <| LoRaMacDevEui := devEui |> <| LoRaMacAppEui := appEui |> <| LoRaMacAppKey := appKey |> in
  let* (_, s) := ResetMacParameters s in
  let s := s <| JoinRequestTrials ::= fun n => u16 (n + 1) |> in
  let s := s <| LoRaMacParams ::= fun p => p <| ChannelsDatarate := AlternateDatarate (JoinRequestTrials s) |> |> in
  let* (status, s) := Send (mhdr FRAME_TYPE_JOIN_REQ) 0 None 0 s in
  mlme_done status s.

Definition LoRaMacMlmeRequest (mlmeRequest : option MlmeReq_t) : M LoRaMacStatus_t := fun s =>
  match mlmeRequest with
  | None => Done (LORAMAC_STATUS_PARAMETER_INVALID, s)
  | Some req =>
      if state_has MAC_TX_RUNNING s then Done (LORAMAC_STATUS_BUSY, s) else
      let s := s <| MlmeConfirm := mlme_confirm_zero <| ml_Status := LORAMAC_EVENT_INFO_STATUS_ERROR |> |> in
      match req with
      | MlmeJoin devEui appEui appKey =>
          if state_has MAC_TX_DELAYED s then Done (LORAMAC_STATUS_BUSY, s) else
          let s := s <| MlmeConfirm ::= fun c => c <| ml_MlmeRequest := MLME_JOIN |> |> in
          match devEui, appEui, appKey with
          | Some devEui, Some appEui, Some appKey => mlme_join devEui appEui appKey s
          | _, _, _ => Done (LORAMAC_STATUS_PARAMETER_INVALID, s)
          end
      | MlmeLinkCheck =>
          let s := s <| LoRaMacFlags ::= fun f => f <| MlmeReq := true |> |>
            <| MlmeConfirm ::= fun c => c <| ml_MlmeRequest := MLME_LINK_CHECK |> |> in
          let* (status, s) := AddMacCommand MOTE_MAC_LINK_CHECK_REQ 0 0 s in
          mlme_done status s
      end
  end.

(** * Data requests *)

(** The part after the switch, [readyToSend] being true. *)
Definition mcps_send (type : Mcps_t) (hdr fPort : Z) (fBuffer : option (list Z)) (fBufferSize datarate : Z)
  : M LoRaMacStatus_t := fun s =>
  if negb (AdrCtrlOn s) && negb (ValueInRange datarate LORAMAC_TX_MIN_DATARATE LORAMAC_TX_MAX_DATARATE)
  then Done (LORAMAC_STATUS_PARAMETER_INVALID, s) else
  let s := if AdrCtrlOn s then s else s <| LoRaMacParams ::= fun p => p <| ChannelsDatarate := datarate |> |> in
  let* (status, s) := Send hdr fPort fBuffer fBufferSize s in
  if bool_decide (status = LORAMAC_STATUS_OK)
  then Done (status, s <| McpsConfirm ::= fun c => c <| mc_McpsRequest := type |> |>
                       <| LoRaMacFlags ::= fun f => f <| McpsReq := true |> |>)
  else Done (status, s <| NodeAckRequested := false |>).

Definition LoRaMacMcpsRequest (mcpsRequest : option McpsReq_t) : M LoRaMacStatus_t := fun s =>
  match mcpsRequest with
  | None => Done (LORAMAC_STATUS_PARAMETER_INVALID, s)
  | Some req =>
      if state_has MAC_TX_RUNNING s || state_has MAC_TX_DELAYED s then Done (LORAMAC_STATUS_BUSY, s) else
      let s := s <| McpsConfirm := mcps_confirm_zero <| mc_Status := LORAMAC_EVENT_INFO_STATUS_ERROR |> |> in
      match req with
      | McpsUnconfirmed port buf size dr =>
          mcps_send MCPS_UNCONFIRMED (mhdr FRAME_TYPE_DATA_UNCONFIRMED_UP) port buf size dr (s <| AckTimeoutRetries := 1 |>)
      | McpsConfirmed port buf size dr trials =>
          mcps_send MCPS_CONFIRMED (mhdr FRAME_TYPE_DATA_CONFIRMED_UP) port buf size dr
            (s <| AckTimeoutRetriesCounter := 1 |> <| AckTimeoutRetries := trials |>)
      | McpsProprietary buf size dr =>
          mcps_send MCPS_PROPRIETARY (mhdr FRAME_TYPE_PROPRIETARY) 0 buf size dr (s <| AckTimeoutRetries := 1 |>)
      | McpsMulticast => Done (LORAMAC_STATUS_SERVICE_UNKNOWN, s)
      end
  end.

End Requests.

(** * Test switches *)

Definition LoRaMacTestRxWindowsOn (enable : bool) (s : mac) : mac := s <| IsRxWindowsEnabled := enable |>.
Definition LoRaMacTestSetMic (txPacketCounter : Z) (s : mac) : mac :=
  s <| UpLinkCounter := txPacketCounter |> <| IsUpLinkCounterFixed := true |>.
Definition LoRaMacTestSetDutyCycleOn (enable : bool) (s : mac) : mac := s <| DutyCycleOn := enable |>.

(** * Lemmas *)

(** What the static tables hold from the start and every operation keeps. *)
Record static_wf (s : mac) : Prop := mkStatic {
  sw_buf : buf_wf s;
  sw_cmd : length (MacCommandsBuffer s) = 15%nat;
  sw_rep : length (MacCommandsBufferToRepeat s) = 15%nat;
  sw_chan : chan_wf s;
  sw_mask : length (ChannelsMask (LoRaMacParamsDefaults s)) = 6%nat;
  sw_last : 0 <= LastTxChannel s < 16;
  sw_len : 0 <= LoRaMacBufferPktLen s <= 255;
  sw_default : forall i, (i < 3)%nat -> exists ch, Channels s !! i = Some ch /\ Frequency ch <> 0 /\
    DrMin (DrRange ch) <= LORAMAC_DEFAULT_DATARATE <= DrMax (DrRange ch);
}.

Lemma static_boot e : static_wf (mac_boot e).
Proof.
  split; try done; try (cbn; lia); [split; try done; by split; [|apply bytesb_true]|apply chan_wf_boot|].
  intros i Hi. destruct i as [|[|[|]]]; [..|lia]; eexists; (split; [reflexivity|]); by vm_compute.
Qed.

(** The reset as one update; only the groups' counters need a loop. *)
Definition reset_session (s : mac) (ns : nodes) : mac :=
  s <| IsLoRaMacNetworkJoined := false |>
    <| UpLinkCounter := 1 |> <| DownLinkCounter := 0 |> <| AdrAckCounter := 0 |> <| ChannelsNbRepCounter := 0 |>
    <| AckTimeoutRetries := 1 |> <| AckTimeoutRetriesCounter := 1 |> <| AckTimeoutRetry := false |>
    <| MaxDCycle := 0 |> <| AggregatedDCycle := 1 |>
    <| MacCommandsBufferIndex := 0 |> <| MacCommandsBufferToRepeatIndex := 0 |> <| IsRxWindowsEnabled := true |>
    <| LoRaMacParams ::= reset_params (LoRaMacParamsDefaults s) |>
    <| NodeAckRequested := false |> <| SrvAckRequested := false |> <| MacCommandsInNextTx := false |>
    <| MulticastNodes := ns |> <| Channel := LORA_MAX_NB_CHANNELS |>.

Definition counters_reset (l : list Z) (ns ns' : nodes) : Prop :=
  forall y, ns' !! y = (if decide (y ∈ l) then (fun n => n <| mp_DownLinkCounter := 0 |>) <$> ns !! y else ns !! y).

Lemma ResetMacParameters_spec s l : groups s l ->
  exists ns, ResetMacParameters s = Done (tt, reset_session s ns) /\ counters_reset l (MulticastNodes s) ns.
Proof.
  intros [Hs Hnd]. unfold ResetMacParameters.
  destruct (reset_counters_spec l (walk_fuel (MulticastNodes s)) (MulticastNodes s) (MulticastChannels s) Hs Hnd)
    as (ns & E & Hns); [pose proof (seg_size _ _ _ _ Hs Hnd); unfold walk_fuel; lia|].
  exists ns. split; [|exact Hns]. cbv zeta.
  match goal with |- context [reset_counters (walk_fuel (MulticastNodes ?x))] => set (s1 := x) end.
  change (MulticastNodes s1) with (MulticastNodes s). change (MulticastChannels s1) with (MulticastChannels s).
  rewrite E. reflexivity.
Qed.

Lemma groups_reset s s' l : groups s l -> MulticastChannels s' = MulticastChannels s ->
  counters_reset l (MulticastNodes s) (MulticastNodes s') -> groups s' l.
Proof.
  intros [Hs Hnd] E Hr. split; [|done]. rewrite E. clear E Hnd. revert Hs. generalize (MulticastChannels s).
  assert (Hall : forall y, y ∈ l -> MulticastNodes s' !! y = (fun n => n <| mp_DownLinkCounter := 0 |>) <$> MulticastNodes s !! y).
  { intros y Hy. by rewrite Hr, decide_True. }
  clear Hr. induction l as [|x l IH]; intros p; cbn [seg]; [done|]. intros [-> (n & Hn & Hs)].
  split; [done|]. exists (n <| mp_DownLinkCounter := 0 |>). split; [by rewrite Hall, Hn by left|].
  apply IH; [|exact Hs]. intros y Hy. apply Hall. by right.
Qed.

(** The session parameters after a reset to default parameters [d]. *)
Lemma reset_params_all d p : reset_params d p = d.
Proof. by destruct d, p. Qed.

Lemma reset_sched_ok s ns : static_wf s -> param_wf (LoRaMacParamsDefaults s) ->
  ChannelsDatarate (LoRaMacParamsDefaults s) = LORAMAC_DEFAULT_DATARATE -> sched_ok (reset_session s ns).
Proof.
  intros [W1 W2 W3 [C1 C2 C3 C4 C5 C6] W5 W6 W7 W8] Hp Hd.
  assert (HP : LoRaMacParams (reset_session s ns) = LoRaMacParamsDefaults s) by (cbn [reset_session update LoRaMacParams]; apply reset_params_all).
  assert (HD : LoRaMacParamsDefaults (reset_session s ns) = LoRaMacParamsDefaults s) by done.
  apply mkSchedOk; [apply mkInv; [by apply mkCmdWf|apply mkChanWf; [done..|by rewrite HP|done|done]|..]|done|..|apply W1|done].
  - intros i Hi. destruct (W8 i Hi) as (ch & H1 & H2 & H3). exists ch. split_and!; try done.
    + rewrite HD, Hd. lia.
    + unfold LORAMAC_DEFAULT_DATARATE in H3. lia.
  - by rewrite HP.
  - rewrite HD, Hd. cbv. split; discriminate.
Qed.

Lemma default_params_wf d : length (ChannelsMask d) = 6%nat ->
  param_wf (default_params d) /\ length (ChannelsMask (default_params d)) = 6%nat /\
  exists mask, mask.[0] = DEFAULT_CHANNELS /\ default_params d = mkParams 1 5 3000 1000 2000 5000 6000 1 0 869525000 0 mask.
Proof.
  intros HL. assert (HL' : length (ChannelsMask (default_params d)) = 6%nat).
  { cbn [default_params update ChannelsMask]. by rewrite zupd_length. }
  split; [|split; [exact HL'|]].
  - apply mkParamWf; by vm_compute.
  - exists ((ChannelsMask d).[0 := DEFAULT_CHANNELS]). split; [|by destruct d]. apply zupd_0. by destruct (ChannelsMask d).
Qed.

Lemma reset_buf_wf s ns : static_wf s -> buf_wf (reset_session s ns).
Proof. intros [[] _ _ _ _ _ _ _]. by split. Qed.

Lemma reset_groups s ns l : groups s l -> counters_reset l (MulticastNodes s) ns -> groups (reset_session s ns) l.
Proof. intros Hg Hn. by apply (groups_reset s). Qed.

Lemma reset_session_fields s ns : let s' := reset_session s ns in
  LoRaMacState s' = LoRaMacState s /\ IsLoRaMacNetworkJoined s' = false /\ UpLinkCounter s' = 1 /\ DownLinkCounter s' = 0 /\
  LoRaMacFlags s' = LoRaMacFlags s /\ DutyCycleOn s' = DutyCycleOn s /\ LoRaMacParams s' = LoRaMacParamsDefaults s /\
  MulticastNodes s' = ns.
Proof. split_and!; try done. apply reset_params_all. Qed.

Lemma init_statics_wf s : static_wf s -> let s1 := init_statics s in
  static_wf s1 /\ param_wf (LoRaMacParamsDefaults s1) /\
  ChannelsDatarate (LoRaMacParamsDefaults s1) = LORAMAC_DEFAULT_DATARATE /\
  exists mask, mask.[0] = DEFAULT_CHANNELS /\ LoRaMacParamsDefaults s1 = mkParams 1 5 3000 1000 2000 5000 6000 1 0 869525000 0 mask.
Proof.
  intros Hs. destruct (default_params_wf (LoRaMacParamsDefaults s)) as (Hp & HL & Hmask); [apply Hs|].
  split; [|by split_and!]. destruct Hs as [[] W2 W3 [] W5 W6 W7 W8]. by split.
Qed.

(** * Properties *)

(** C17: initialization refuses a missing callback with the state untouched.
    Otherwise it brings the statics, whatever session they hold, to an idle,
    unjoined device with the region's default parameters and fresh counters, in
    which every invariant that scheduling relies on holds; linked multicast
    groups stay linked, their counters are zero. *)
Theorem initialization_correct s l p : static_wf s -> groups s l ->
  if has_McpsConfirm p && has_McpsIndication p && has_MlmeConfirm p then
    exists s', LoRaMacInitialization (Some p) s = Done (LORAMAC_STATUS_OK, s') /\ sched_ok s' /\ buf_wf s' /\
      LoRaMacState s' = MAC_IDLE /\ IsLoRaMacNetworkJoined s' = false /\ UpLinkCounter s' = 1 /\ DownLinkCounter s' = 0 /\
      LoRaMacFlags s' = flags_zero /\ DutyCycleOn s' = true /\
      (exists mask, mask.[0] = DEFAULT_CHANNELS /\ LoRaMacParams s' = mkParams 1 5 3000 1000 2000 5000 6000 1 0 869525000 0 mask) /\
      groups s' l /\ counters_reset l (MulticastNodes s) (MulticastNodes s')
  else LoRaMacInitialization (Some p) s = Done (LORAMAC_STATUS_PARAMETER_INVALID, s).
Proof.
  intros Hs Hg. unfold LoRaMacInitialization.
  destruct (has_McpsConfirm p), (has_McpsIndication p), (has_MlmeConfirm p); cbn [negb orb andb]; try reflexivity.
  destruct (init_statics_wf s Hs) as (Hs1 & Hp1 & Hd1 & mask & Hm & Hmask).
  destruct (ResetMacParameters_spec (init_statics s) l) as (ns & E & Hns); [exact Hg|].
  pose proof (reset_sched_ok _ ns Hs1 Hp1 Hd1) as Hso. pose proof (reset_buf_wf _ ns Hs1) as Hb.
  pose proof (reset_groups (init_statics s) ns l Hg Hns) as HG. pose proof (reset_session_fields (init_statics s) ns) as HF.
  rewrite E. cbn [rbind]. clear E. rewrite Hmask in HF. revert Hso Hb HG HF. generalize (reset_session (init_statics s) ns).
  intros s2 Hso Hb HG (F1 & F2 & F3 & F4 & F5 & F6 & F7 & F8). eexists. split; [reflexivity|].
  split; [by apply (sched_ok_ext s2); [apply (mac_inv_ext s2), Hso|..]|]. split; [by destruct Hb; split|].
  do 6 (split; [by etrans; [eassumption|]|]).
  split; [by exists mask|]. split; [exact HG|]. by rewrite <- F8 in Hns.
Qed.

Lemma groups_none s : MulticastChannels s = None -> groups s [].
Proof. intros E. split; [exact E|apply NoDup_nil_2]. Qed.

Lemma initialization_correct_witness :
  exists s', LoRaMacInitialization (Some (mkPrimitives true true true)) (mac_boot (mkEnv 0 true 77)) =
    Done (LORAMAC_STATUS_OK, s') /\ sched_ok s' /\ LoRaMacState s' = MAC_IDLE.
Proof.
  destruct (initialization_correct (mac_boot (mkEnv 0 true 77)) [] (mkPrimitives true true true)
    (static_boot _) (groups_none (mac_boot _) eq_refl)) as (s' & E & Hs & _ & Hi & _).
  exists s'. split; [exact E|]. split; [exact Hs|exact Hi].
Defined.

(** The parameter of a request as the MAC can store it: 16-byte keys, counters and
    delays of their width are kept whole; of a channel mask only the first word is read. *)
Definition mib_stored (m : MibRequestConfirm_t) (s : mac) : MibRequestConfirm_t :=
  match m with
  | MIB_NWK_SKEY (Some k) => MIB_NWK_SKEY (Some (take 16 k))
  | MIB_APP_SKEY (Some k) => MIB_APP_SKEY (Some (take 16 k))
  | MIB_CHANNELS_MASK (Some mask) => MIB_CHANNELS_MASK (Some ((ChannelsMask (LoRaMacParams s)).[0 := mask.[0]]))
  | _ => m
  end.

(** The objects the pointers of a request lead to are long enough. *)
Definition mib_readable (m : MibRequestConfirm_t) : Prop :=
  match m with
  | MIB_NWK_SKEY (Some k) | MIB_APP_SKEY (Some k) => (16 <= length k)%nat
  | MIB_CHANNELS_MASK (Some mask) => mask <> []
  | _ => True
  end.

(** Which requests are refused, and how. *)
Definition mib_refusal (m : MibRequestConfirm_t) : option LoRaMacStatus_t :=
  match m with
  | MIB_NWK_SKEY None | MIB_APP_SKEY None | MIB_CHANNELS_MASK None => Some LORAMAC_STATUS_PARAMETER_INVALID
  | MIB_CHANNELS_NB_REP n => if decide (1 <= n <= 15) then None else Some LORAMAC_STATUS_PARAMETER_INVALID
  | MIB_CHANNELS_DEFAULT_DATARATE d | MIB_CHANNELS_DATARATE d =>
      if decide (0 <= d <= 7) then None else Some LORAMAC_STATUS_PARAMETER_INVALID
  | MIB_CHANNELS_TX_POWER p => if decide (0 <= p <= 5) then None else Some LORAMAC_STATUS_PARAMETER_INVALID
  | MIB_CHANNELS _ | MIB_MULTICAST_CHANNEL _ => Some LORAMAC_STATUS_SERVICE_UNKNOWN
  | _ => None
  end.

(** The settings that cannot break the invariants of scheduling: the second window
    has a datarate of the region, the default datarate is one the default channels support. *)
Definition mib_safe (m : MibRequestConfirm_t) (s : mac) : Prop :=
  match m with
  | MIB_RX2_CHANNEL _ dr => 0 <= dr <= 7
  | MIB_CHANNELS_DEFAULT_DATARATE d => ChannelsDatarate (LoRaMacParamsDefaults s) <= d <= 5
  | MIB_RECEIVE_DELAY_1 d | MIB_RECEIVE_DELAY_2 d => is_u32 d
  | _ => True
  end.

Lemma sched_ok_params s g : sched_ok s -> param_wf (g (LoRaMacParams s)) ->
  length (ChannelsMask (g (LoRaMacParams s))) = 6%nat -> sched_ok (s <| LoRaMacParams ::= g |>).
Proof.
  intros [[H1 H2 H3 H4] ? ? ? ?] Hp HL. split; try done. by apply mac_inv_params.
Qed.

Lemma sched_ok_defaults s d : sched_ok s -> ChannelsDatarate (LoRaMacParamsDefaults s) <= d <= 5 ->
  sched_ok (s <| LoRaMacParamsDefaults ::= fun p => p <| ChannelsDatarate := d |> |>).
Proof.
  intros [[[] [] H3 []] ? ? ? ?] Hd. split; try done; [split; try done|cbn; lia].
  intros i Hi. destruct (H3 i Hi) as (ch & ? & ? & ? & ?). exists ch. split_and!; try done. cbn. lia.
Qed.

Definition mib_status (m : MibRequestConfirm_t) (s : mac) : LoRaMacStatus_t :=
  if state_has MAC_TX_RUNNING s then LORAMAC_STATUS_BUSY else default LORAMAC_STATUS_OK (mib_refusal m).

Lemma in_range v lo hi : ValueInRange v lo hi = bool_decide (lo <= v <= hi).
Proof. unfold ValueInRange. destruct (Z.leb_spec lo v), (Z.leb_spec v hi); symmetry; first [apply bool_decide_true; lia|apply bool_decide_false; lia]. Qed.

Ltac mib_range :=
  unfold LORAMAC_TX_MIN_DATARATE, LORAMAC_TX_MAX_DATARATE, LORAMAC_MAX_TX_POWER, LORAMAC_MIN_TX_POWER in *;
  rewrite ?in_range in *; try case_decide; try case_bool_decide.

Lemma mib_refused s m st : mib_refusal m = Some st -> mib_set m s = Done (st, s) /\ st <> LORAMAC_STATUS_OK.
Proof.
  destruct m as [[]| | | | |[k|]|[k|]| | | | |[mask|]|n| | | | | | | | | | |]; cbn [mib_refusal mib_set]; try done;
    try (by intros [= <-]); try (mib_range; by intros [= <-] || done).
  case_decide; [done|]. intros [= <-]. destruct (Z.leb_spec 1 n), (Z.leb_spec n 15); try done. lia.
Qed.

Lemma copy_key dst k : is_block dst -> (16 <= length k)%nat -> memcpy1 dst 0 k 0 16 = Done (take 16 k).
Proof.
  intros [HL _] Hk. rewrite memcpy1_splice by (unfold is_u16; lia). unfold splice. f_equal.
  change (Z.to_nat 0) with 0%nat. change (Z.to_nat 16) with 16%nat.
  rewrite take_0, (drop_ge dst) by (rewrite length_take; lia). by rewrite app_nil_r.
Qed.

Ltac mib_params_ok :=
  unfold mib_params, mib_ok; eexists; split; [reflexivity|]; split; [reflexivity|]; intros Hsafe;
  match goal with Hs : sched_ok _ |- _ =>
    apply sched_ok_params; [exact Hs| |apply Hs]; destruct (mi_param _ (so_inv _ Hs)) as [? ? ? ? ? []] end;
  split; cbn in *; unfold is_u32 in *; lia.

Lemma mib_accepted s m : mib_refusal m = None -> mib_readable m -> m <> MIB_DEVICE_CLASS CLASS_C -> buf_wf s -> sched_ok s ->
  exists s', mib_set m s = Done (LORAMAC_STATUS_OK, s') /\
    LoRaMacMibGetRequestConfirm (Some m) s' = (LORAMAC_STATUS_OK, Some (mib_stored m s)) /\ (mib_safe m s -> sched_ok s').
Proof.
  intros E Hr Hc Hb Hs.
  assert (Hext : forall s', (inv_view s', LastTxChannel s', LoRaMacBuffer s', LoRaMacBufferPktLen s') =
    (inv_view s, LastTxChannel s, LoRaMacBuffer s, LoRaMacBufferPktLen s) -> sched_ok s').
  { intros s' [= H1 H2 H3 H4 H5 H6 H7 H8 H9 H10 H11 H12]. destruct Hs as [Hi ? ? ? ?].
    split; [apply (mac_inv_ext s); [unfold inv_view; congruence|done]|by rewrite H10|by rewrite H9|by rewrite H11|by rewrite H12]. }
  destruct m as [[]| | | | |[k|]|[k|]| | | | |[mask|]|n| | | | | |d|d|d| | |]; cbn [mib_refusal mib_set] in *; try done;
    try (eexists; split; [reflexivity|]; split; [reflexivity|]; intros _; by apply Hext); try mib_params_ok.
  - rewrite copy_key by (done || apply Hb). eexists. split; [reflexivity|]. split; [reflexivity|]. intros _. by apply Hext.
  - rewrite copy_key by (done || apply Hb). eexists. split; [reflexivity|]. split; [reflexivity|]. intros _. by apply Hext.
  - destruct mask as [|w mask]; [done|]. cbn. eexists. split; [reflexivity|]. split; [reflexivity|]. intros _.
    destruct (mi_param _ (so_inv _ Hs)). apply sched_ok_params; [exact Hs|by split|cbn]. rewrite zupd_length. apply Hs.
  - case_decide; [|done]. rewrite (proj2 (Z.leb_le 1 n)), (proj2 (Z.leb_le n 15)) by lia. cbn [andb]. mib_params_ok.
  - mib_range; try done; try lia. eexists. split; [reflexivity|]. split; [reflexivity|]. intros Hd. by apply sched_ok_defaults.
  - mib_range; try done; try lia. mib_params_ok.
  - mib_range; try done; try lia. mib_params_ok.
Qed.


Lemma demo_mac_sched : sched_ok demo_mac.
Proof. split; [exact demo_inv|cbn; lia..]. Qed.


(** * Uplink requests *)

Definition data_request (confirmed : bool) (port : Z) (msg : list Z) (dr trials : Z) : McpsReq_t :=
  if confirmed then McpsConfirmed port (Some msg) (zlen msg) dr trials else McpsUnconfirmed port (Some msg) (zlen msg) dr.
Definition data_header (confirmed : bool) : Z :=
  mhdr (if confirmed then FRAME_TYPE_DATA_CONFIRMED_UP else FRAME_TYPE_DATA_UNCONFIRMED_UP).

Section Uplink.
Context (RD : RadioDriver) (FS : FrameSecurity).

(** The prepared frame of [s1] is on the air or waits for the duty cycle. *)
Definition handed_over (s1 s' : mac) : Prop :=
  (exists s0 ch config, usable s0 (Channel s') /\ Channels s0 = Channels s1 /\
     Channels s1 !! Z.to_nat (Channel s') = Some ch /\ trace s' = sent_on s1 (Frequency ch) config /\
     LoRaMacState s' = Z.lor (LoRaMacState s1) MAC_TX_RUNNING) \/
  (exists t, 0 < t /\ trace s' = trace s1 ++ [TimerSetValue TxDelayedTimer t; TimerStart TxDelayedTimer] /\
     LoRaMacState s' = Z.lor (LoRaMacState s1) MAC_TX_DELAYED).

Lemma accounted_channels s s1 : accounted s s1 -> Channels s1 = Channels s.
Proof.
  unfold accounted. intros (b & n & a & ->)%CalculateBackOff_frame. by destruct (MaxDCycle s =? 0).
Qed.

Lemma schedule_hands_over s : sched_ok s -> MaxDCycle s <> 255 ->
  exists s', ScheduleTx s = Done (LORAMAC_STATUS_OK, s') /\ handed_over s s' /\ sched_view s' = sched_view s /\ sched_ok s'.
Proof.
  intros Hs Hm. pose proof Hs as [S1 S2 S3 S4 S5].
  destruct (ScheduleTx_spec s S1 S2 S3 S4 S5 Hm) as (s' & E & Hi & H). exists s'. split; [exact E|].
  pose proof (ScheduleTx_view s _ s' E) as Hv. split; [|split; [exact Hv|by apply (sched_ok_ext s)]].
  destruct H as [(s1 & s0 & ch & config & Ha & Hr & Hu & Hch & Ht & Hst)|H]; [left|by right].
  assert (Hc : Channels s0 = Channels s).
  { destruct (rescheduled_keeps _ _ Hr) as [-> _]. by apply accounted_channels. }
  exists s0, ch, config. rewrite Hc in Hch. by split_and!.
Qed.

(** A frame that is ready keeps the invariants of scheduling. *)
Lemma prepared_sched_ok s s' : sched_ok s -> prep_view s' = prep_view s -> buf_wf s' -> cmd_wf s' ->
  0 <= ChannelsDatarate (LoRaMacParams s') <= 7 -> 0 <= LoRaMacBufferPktLen s' <= 255 -> sched_ok s'.
Proof.
  intros [[[] [C1 C2 C3 C4 C5 C6] Hd [P1 P2 P3 P4 P5 P6]] S2 S3 S4 S5] Hv Hb Hc Hdr HL. unfold prep_view in Hv.
  injection Hv as V1 V2 V3 V4 V5 V6 V7 V8 V9 V10 V11 V12 V13 V14 V15 V16 V17 V18 V19 _ _ _ _ _.
  split; [split; [done|split; congruence| |split; try congruence; by rewrite ?V9, ?V11, ?V12, ?V15, ?V16, ?V18]
         |by rewrite V4|by rewrite V3|apply Hb|done].
  unfold default_ok in *. by rewrite V1, V3.
Qed.

(** [Send] on a data frame, started from a state that can be scheduled. *)
Lemma Send_data_spec s confirmed port msg : sched_ok s -> buf_wf s -> IsLoRaMacNetworkJoined s = true -> MaxDCycle s <> 255 ->
  MacCommandsBufferIndex s + MacCommandsBufferToRepeatIndex s <= 13 ->
  1 <= zlen msg -> zlen msg + MacCommandsBufferIndex s + MacCommandsBufferToRepeatIndex s <= 242 ->
  exists st s' s1 req dr, Send (data_header confirmed) port (Some msg) (zlen msg) s = Done (st, s') /\
    0 <= dr <= ChannelsDatarate (LoRaMacParams s) /\ LoRaMacFlags s' = LoRaMacFlags s /\
    AckTimeoutRetries s' = AckTimeoutRetries s /\ AckTimeoutRetriesCounter s' = AckTimeoutRetriesCounter s /\
    if zlen msg + MacCommandsBufferIndex s <=? max_payload s dr
    then st = LORAMAC_STATUS_OK /\ data_frame s (data_header confirmed) (uplink_fctrl s (mkFCtrl 0 0 0 0 (b2z (AdrCtrlOn s))) req) port msg s1 /\
         handed_over s1 s' /\ prep_view s1 = prep_view s /\
         sched_ok s' /\ NodeAckRequested s' = confirmed /\ UpLinkCounter s' = UpLinkCounter s
    else st = LORAMAC_STATUS_LENGTH_ERROR /\ trace s' = trace s /\ LoRaMacState s' = LoRaMacState s.
Proof.
  intros Hs Hb Hj Hm H13 H1 H2. unfold Send.
  destruct (PrepareFrame_data_spec FS s (data_header confirmed) (mkFCtrl 0 0 0 0 (b2z (AdrCtrlOn s))) port msg)
    as (st & s1 & req & dr & E & Hdr & Hdr1 & Hn & H); try done.
  { apply Hs. } { apply Hs. } { destruct confirmed; [by right|by left]. }
  pose proof (PrepareFrame_view _ _ _ _ _ _ _ _ E) as Hv. rewrite E. cbn [rbind].
  destruct (_ <=? _) eqn:EL.
  - destruct H as (-> & Hf & Hsa & Hi & Hb1 & Hc1). cbn [negb bool_decide]. rewrite bool_decide_true by done. cbn [negb].
    set (s2 := s1 <| McpsConfirm ::= _ |>).
    assert (Hvs : prep_view s2 = prep_view s) by (rewrite <- Hv; by destruct s1).
    assert (Hs2 : sched_ok s2).
    { apply (prepared_sched_ok s); try done.
      - by destruct Hb1.
      - by destruct Hc1.
      - change (LoRaMacParams s2) with (LoRaMacParams s1). rewrite Hdr1. pose proof (pw_dr _ (mi_param _ (so_inv _ Hs))). lia.
      - change (LoRaMacBufferPktLen s2) with (LoRaMacBufferPktLen s1). destruct Hf as (_ & -> & ?). lia. }
    assert (Hm2 : MaxDCycle s2 = MaxDCycle s) by (unfold prep_view in Hvs; congruence).
    assert (Hf2 : data_frame s (data_header confirmed) (uplink_fctrl s (mkFCtrl 0 0 0 0 (b2z (AdrCtrlOn s))) req) port msg s2) by exact Hf.
    assert (Hn2 : NodeAckRequested s2 = confirmed) by (etrans; [exact Hn|by destruct confirmed]).
    clearbody s2. destruct (schedule_hands_over s2 Hs2) as (s' & E2 & Hh & Hv2 & Hs'); [by rewrite Hm2|].
    unfold sched_view, prep_view in *.
    exists LORAMAC_STATUS_OK, s', s2, req, dr. rewrite EL. split_and!; try done; try congruence; lia.
  - subst st. rewrite bool_decide_false by done. cbn [negb]. unfold prep_view in Hv.
    exists LORAMAC_STATUS_LENGTH_ERROR, s1, s1, req, dr. rewrite EL. split_and!; try done; try congruence; lia.
Qed.

(** The state a data request hands to [Send]. *)
Definition request_state (confirmed : bool) (dr trials : Z) (s : mac) : mac :=
  let s := s <| McpsConfirm := mcps_confirm_zero <| mc_Status := LORAMAC_EVENT_INFO_STATUS_ERROR |> |> in
  let s := if confirmed then s <| AckTimeoutRetriesCounter := 1 |> <| AckTimeoutRetries := trials |> else s <| AckTimeoutRetries := 1 |> in
  if AdrCtrlOn s then s else s <| LoRaMacParams ::= fun p => p <| ChannelsDatarate := dr |> |>.

Lemma request_state_ok confirmed dr trials s : sched_ok s -> 0 <= dr <= 7 ->
  sched_ok (request_state confirmed dr trials s) /\
  ChannelsDatarate (LoRaMacParams (request_state confirmed dr trials s)) = (if AdrCtrlOn s then ChannelsDatarate (LoRaMacParams s) else dr) /\
  trace (request_state confirmed dr trials s) = trace s /\ LoRaMacState (request_state confirmed dr trials s) = LoRaMacState s.
Proof.
  intros Hs Hdr. unfold request_state.
  assert (H0 : sched_ok s /\ sched_ok (s <| LoRaMacParams ::= fun p => p <| ChannelsDatarate := dr |> |>)).
  { split; [exact Hs|]. destruct (mi_param _ (so_inv _ Hs)) as [? ? ? ? ? ?]. apply sched_ok_params; [exact Hs|by split|apply Hs]. }
  destruct H0 as [[[[] [] ? []] ? ? ? ?] [[[] [] ? []] ? ? ? ?]].
  destruct confirmed; cbn [update AdrCtrlOn]; destruct (AdrCtrlOn s); (split; [|by split_and!]); split; try done; by split; try split.
Qed.

Definition keeps_request (f : mac -> mac) : Prop := forall s,
  (LoRaMacDevAddr (f s), LoRaMacNwkSKey (f s), LoRaMacAppSKey (f s), UpLinkCounter (f s), MacCommandsInNextTx (f s), fopts (f s),
   SrvAckRequested (f s), AdrCtrlOn (f s), RepeaterSupport (f s), (MacCommandsBufferIndex (f s), MacCommandsBufferToRepeatIndex (f s),
   MaxDCycle (f s), IsLoRaMacNetworkJoined (f s))) =
  (LoRaMacDevAddr s, LoRaMacNwkSKey s, LoRaMacAppSKey s, UpLinkCounter s, MacCommandsInNextTx s, fopts s,
   SrvAckRequested s, AdrCtrlOn s, RepeaterSupport s, (MacCommandsBufferIndex s, MacCommandsBufferToRepeatIndex s,
   MaxDCycle s, IsLoRaMacNetworkJoined s)).

Lemma request_state_keeps confirmed dr trials : keeps_request (request_state confirmed dr trials).
Proof. intros []. unfold request_state. cbn. by destruct confirmed, AdrCtrlOn. Qed.

Lemma data_frame_ext s1 s2 hdr fc port msg s' :
  (LoRaMacDevAddr s1, LoRaMacNwkSKey s1, LoRaMacAppSKey s1, UpLinkCounter s1, MacCommandsInNextTx s1, fopts s1) =
  (LoRaMacDevAddr s2, LoRaMacNwkSKey s2, LoRaMacAppSKey s2, UpLinkCounter s2, MacCommandsInNextTx s2, fopts s2) ->
  data_frame s1 hdr fc port msg s' -> data_frame s2 hdr fc port msg s'.
Proof. intros [= E1 E2 E3 E4 E5 E6]. unfold data_frame, data_body. by rewrite E1, E2, E3, E4, E5, E6. Qed.

Lemma mcps_request_unfold confirmed port msg dr trials s : state_has MAC_TX_RUNNING s = false -> state_has MAC_TX_DELAYED s = false ->
  0 <= dr <= 7 -> LoRaMacMcpsRequest (Some (data_request confirmed port msg dr trials)) s =
  (let* (status, s) := Send (data_header confirmed) port (Some msg) (zlen msg) (request_state confirmed dr trials s) in
   if bool_decide (status = LORAMAC_STATUS_OK)
   then Done (status, s <| McpsConfirm ::= fun c => c <| mc_McpsRequest := if confirmed then MCPS_CONFIRMED else MCPS_UNCONFIRMED |> |>
                        <| LoRaMacFlags ::= fun f => f <| McpsReq := true |> |>)
   else Done (status, s <| NodeAckRequested := false |>)).
Proof.
  intros H1 H2 Hdr. unfold LoRaMacMcpsRequest. rewrite H1, H2. cbn [orb].
  destruct confirmed; cbn [data_request]; unfold mcps_send; rewrite in_range;
    rewrite (bool_decide_true (LORAMAC_TX_MIN_DATARATE <= dr <= LORAMAC_TX_MAX_DATARATE)) by exact Hdr;
    cbn [negb]; rewrite andb_false_r; reflexivity.
Qed.
End Uplink.



(** Nothing the radio, the timers or the upper layer could notice. *)
Definition silent (s s' : mac) : Prop := trace s' = trace s /\ LoRaMacState s' = LoRaMacState s /\ LoRaMacFlags s' = LoRaMacFlags s.

Lemma Send_not_joined (RD : RadioDriver) (FS : FrameSecurity) confirmed port buf size s :
  length (LoRaMacBuffer s) = 255%nat -> IsLoRaMacNetworkJoined s = false ->
  exists s', Send (data_header confirmed) port buf size s = Done (LORAMAC_STATUS_NO_NETWORK_JOINED, s') /\ silent s s'.
Proof.
  intros HL Hj. unfold Send, PrepareFrame. rewrite put_spec by (cbn [length]; change (LoRaMacBuffer _) with (LoRaMacBuffer s); lia).
  cbn [rbind]. destruct confirmed.
  - change (MType (data_header true)) with FRAME_TYPE_DATA_CONFIRMED_UP. cbn [Z.eqb Pos.eqb FRAME_TYPE_DATA_CONFIRMED_UP FRAME_TYPE_JOIN_REQ].
    unfold prepare_data. cbn [update IsLoRaMacNetworkJoined]. rewrite Hj. cbn [negb rbind]. rewrite bool_decide_false by done.
    eexists. split; [reflexivity|]. by destruct s.
  - change (MType (data_header false)) with FRAME_TYPE_DATA_UNCONFIRMED_UP.
    cbn [Z.eqb Pos.eqb FRAME_TYPE_DATA_CONFIRMED_UP FRAME_TYPE_JOIN_REQ FRAME_TYPE_DATA_UNCONFIRMED_UP].
    unfold prepare_data. cbn [update IsLoRaMacNetworkJoined]. rewrite Hj. cbn [negb rbind]. rewrite bool_decide_false by done.
    eexists. split; [reflexivity|]. by destruct s.
Qed.

(** C27: requests that cannot be served are refused with the status that says why
    and do nothing: a missing request and a request while a transmission runs
    or is delayed change no variable at all, an unknown one or one with a
    datarate out of range, or one before the device has joined, neither touches
    radio, timers and flags nor leaves an acknowledgement awaited. *)
Theorem requests_refused (RD : RadioDriver) (FS : FrameSecurity) s confirmed port msg dr trials :
  length (LoRaMacBuffer s) = 255%nat -> 
  let req := data_request confirmed port msg dr trials in
  LoRaMacMcpsRequest None s = Done (LORAMAC_STATUS_PARAMETER_INVALID, s) /\
  LoRaMacMlmeRequest None s = Done (LORAMAC_STATUS_PARAMETER_INVALID, s) /\
  (state_has MAC_TX_RUNNING s = true -> LoRaMacMlmeRequest (Some MlmeLinkCheck) s = Done (LORAMAC_STATUS_BUSY, s)) /\
  if state_has MAC_TX_RUNNING s || state_has MAC_TX_DELAYED s
  then LoRaMacMcpsRequest (Some req) s = Done (LORAMAC_STATUS_BUSY, s)
  else (exists s', LoRaMacMcpsRequest (Some McpsMulticast) s = Done (LORAMAC_STATUS_SERVICE_UNKNOWN, s') /\ silent s s') /\
    (IsLoRaMacNetworkJoined s = false -> 0 <= dr <= 7 -> exists s', LoRaMacMcpsRequest (Some req) s =
       Done (LORAMAC_STATUS_NO_NETWORK_JOINED, s') /\ silent s s' /\ NodeAckRequested s' = false) /\
    (AdrCtrlOn s = false -> ~ (0 <= dr <= 7) -> exists s', LoRaMacMcpsRequest (Some req) s =
       Done (LORAMAC_STATUS_PARAMETER_INVALID, s') /\ silent s s').
Proof.
  intros HL req. split; [done|]. split; [done|]. split; [by intros H; unfold LoRaMacMlmeRequest; rewrite H|].
  destruct (state_has MAC_TX_RUNNING s) eqn:E1, (state_has MAC_TX_DELAYED s) eqn:E2; cbn [orb];
    try (unfold LoRaMacMcpsRequest; rewrite E1, E2; done).
  split; [|split].
  - unfold LoRaMacMcpsRequest. rewrite E1, E2. cbn [orb]. eexists. split; [reflexivity|]. by destruct s.
  - intros Hj Hdr. unfold req. rewrite mcps_request_unfold by done.
    destruct (Send_not_joined RD FS confirmed port (Some msg) (zlen msg) (request_state confirmed dr trials s)) as (s' & -> & Hs).
    + unfold request_state. destruct confirmed; cbn [update AdrCtrlOn]; by destruct (AdrCtrlOn s).
    + unfold request_state. destruct confirmed; cbn [update AdrCtrlOn]; by destruct (AdrCtrlOn s).
    + cbn [rbind]. rewrite bool_decide_false by done. eexists. split; [reflexivity|]. split; [|done].
      destruct Hs as (H1 & H2 & H3). split_and!; etrans; [exact H1| |exact H2| |exact H3|];
        unfold request_state; destruct confirmed; cbn [update AdrCtrlOn]; by destruct (AdrCtrlOn s).
  - intros Ha Hdr. unfold LoRaMacMcpsRequest. rewrite E1, E2. cbn [orb]. unfold req.
    destruct confirmed; cbn [data_request]; unfold mcps_send; rewrite in_range, bool_decide_false by done;
      cbn [update AdrCtrlOn]; rewrite Ha; cbn [negb andb]; (eexists; split; [reflexivity|]; by destruct s).
Qed.

Lemma requests_refused_witness :
  @LoRaMacMcpsRequest demo_driver mac_security (Some (data_request true 2 [1] 5 3)) (demo_mac <| LoRaMacState := MAC_TX_DELAYED |>) =
  Done (LORAMAC_STATUS_BUSY, demo_mac <| LoRaMacState := MAC_TX_DELAYED |>).
Proof.
  destruct (requests_refused demo_driver mac_security (demo_mac <| LoRaMacState := MAC_TX_DELAYED |>) true 2 [1] 5 3)
    as (_ & _ & _ & H); [reflexivity|exact H].
Defined.

End MacServices.
