(* ===== verification/MacPhase.v ===== *)
(** The protocol the MAC of src/src/mac/LoRaMac.c follows, as a finite machine:
    which of its timers run, what the radio does, where a transmission cycle
    stands and what is still to be reported.  The machine abstracts the static
    variables; its invariant is checked on every one of its states. *)
From S2P Require Import Prelude Utilities MacTypes.

Module MacPhase.
Import MacTypes.

(** * What the calls of the MAC leave behind *)

Inductive radio := Silent | Sending | Listening.

Definition radio_step (r : radio) (a : action) : radio :=
  match a with
  | RadioInit | RadioSleep | RadioStandby => Silent
  | RadioSend _ => Sending
  | RadioRx _ => Listening
  | _ => r
  end.

Definition timer_step (t : timer) (b : bool) (a : action) : bool :=
  match a with
  | TimerStart t' => bool_decide (t' = t) || b
  | TimerStop t' | TimerInit t' => negb (bool_decide (t' = t)) && b
  | _ => b
  end.

Definition radio_of (calls : list action) : radio := fold_left radio_step calls Silent.
Definition armed (t : timer) (calls : list action) : bool := fold_left (timer_step t) calls false.

(** * Phases *)

Record phase := mkPhase {
  p_radio : radio;
  p_w1 : bool;      (** the timer of the first window runs *)
  p_w2 : bool;      (** the timer of the second window runs *)
  p_later : bool;   (** the timer of a delayed frame runs *)
  p_timeout : bool; (** the timer of the acknowledgement runs *)
  p_run : bool;     (** [MAC_TX_RUNNING] *)
  p_delayed : bool; (** [MAC_TX_DELAYED] *)
  p_abort : bool;   (** [MAC_RX_ABORT] *)
  p_stray : bool;   (** another bit of [LoRaMacState] *)
  p_done : bool;    (** [MacDone] *)
  p_ind : bool;     (** [McpsInd] *)
  p_wait : bool;    (** [NodeAckRequested] *)
  p_retry : bool;   (** [AckTimeoutRetry] *)
  p_failed : bool;  (** a confirmation says that the radio gave up *)
  p_acked : bool;   (** [McpsConfirm.AckReceived] *)
  p_tries : bool;   (** no more tries than were asked for *)
  p_slot : bool;    (** [RxSlot] is the second window *)
  p_chan : bool;    (** [Channel] is a channel of the table *)
}.
#[export] Instance eta_phase : Eta phase :=
  fun p => mkPhase (p_radio p) (p_w1 p) (p_w2 p) (p_later p) (p_timeout p) (p_run p) (p_delayed p) (p_abort p)
    (p_stray p) (p_done p) (p_ind p) (p_wait p) (p_retry p) (p_failed p) (p_acked p) (p_tries p) (p_slot p) (p_chan p).

Definition sending (r : radio) : bool := match r with Sending => true | _ => false end.
Definition listening (r : radio) : bool := match r with Listening => true | _ => false end.

(** ** The invariant, in three parts *)

(** A transmission cycle: while the radio works or a window is to come the MAC
    counts as transmitting, on a channel of the table, and nothing is over; a
    delayed frame excludes both; a window is open only after its timer. *)
Definition cycle_ok (r : radio) (w1 w2 later run delayed done failed slot chan : bool) : bool :=
  let busy := sending r || listening r || w1 || w2 in
  implb busy (run && negb done && chan && negb failed) &&
  eqb later delayed && implb later (negb busy && negb done) &&
  implb (sending r) (negb w1 && negb w2) && implb (listening r) (negb w1 && implb slot (negb w2)) &&
  implb done run.

(** An acknowledgement: its timer and the wish for another try only exist while
    one is awaited, never together, and not while a frame is on the air, waits
    for the duty cycle, or when nothing is transmitted. *)
Definition ack_ok (r : radio) (later run delayed failed : bool) (timeout retry wait tries : bool) : bool :=
  implb (retry || timeout) wait && implb (sending r || later || negb run) (negb retry && negb timeout) &&
  implb retry (negb timeout) && implb failed (negb timeout && negb retry) && implb (wait && (run || delayed)) tries.

(** What is reported: an indication only once the cycle is over, and neither an
    aborted nor an acknowledged one leaves the timer running. *)
Definition report_ok (done timeout : bool) (ind acked abort stray : bool) : bool :=
  implb ind done && implb abort (negb timeout && done) && implb (ind && acked) (negb timeout) && negb stray.

Definition phase_ok (p : phase) : bool :=
  cycle_ok (p_radio p) (p_w1 p) (p_w2 p) (p_later p) (p_run p) (p_delayed p) (p_done p) (p_failed p) (p_slot p) (p_chan p) &&
  ack_ok (p_radio p) (p_later p) (p_run p) (p_delayed p) (p_failed p) (p_timeout p) (p_retry p) (p_wait p) (p_tries p) &&
  report_ok (p_done p) (p_timeout p) (p_ind p) (p_acked p) (p_abort p) (p_stray p).

(** ** All phases that satisfy it *)

Definition bools : list bool := [true; false].
Definition guard {A} (b : bool) (l : list A) : list A := if b then l else [].

Definition phases : list phase :=
  r ← [Silent; Sending; Listening]; w1 ← bools; w2 ← bools; later ← bools; run ← bools; delayed ← bools;
  done ← bools; failed ← bools; slot ← bools; chan ← bools;
  guard (cycle_ok r w1 w2 later run delayed done failed slot chan) (
    timeout ← bools; retry ← bools; wait ← bools; tries ← bools;
    guard (ack_ok r later run delayed failed timeout retry wait tries) (
      ind ← bools; acked ← bools; abort ← bools; stray ← bools;
      guard (report_ok done timeout ind acked abort stray)
        [mkPhase r w1 w2 later timeout run delayed abort stray done ind wait retry failed acked tries slot chan])).

Lemma bools_all b : b ∈ bools.
Proof. destruct b; [left|right; left]. Qed.

Lemma bind_all {A B} (f : A -> list B) (l : list A) x y : x ∈ l -> y ∈ f x -> y ∈ l ≫= f.
Proof. intros Hx Hy. apply list_elem_of_bind. by exists x. Qed.

Lemma phases_all p : phase_ok p = true -> p ∈ phases.
Proof.
  destruct p as [r w1 w2 later timeout run delayed abort stray done ind wait retry failed acked tries slot chan].
  intros H. apply andb_true_iff in H as [H H3]. apply andb_true_iff in H as [H1 H2]. unfold phases.
  apply (bind_all _ _ r); [destruct r; set_solver|].
  do 9 (eapply bind_all; [apply bools_all|]). cbn in H1, H2, H3. rewrite H1. unfold guard at 1.
  do 4 (eapply bind_all; [apply bools_all|]). rewrite H2. unfold guard at 1.
  do 4 (eapply bind_all; [apply bools_all|]). rewrite H3. left.
Qed.

(** A property that can be evaluated holds of every phase the invariant allows when it holds of the listed ones. *)
Lemma phase_check (P : phase -> bool) : forallb P phases = true -> forall p, phase_ok p = true -> P p = true.
Proof. intros H p Hp%phases_all. rewrite forallb_forall in H. by apply H, list_elem_of_In. Qed.

(** * Steps *)

(** What scheduling makes of a frame. *)
Inductive outcome := DeviceOff | Sent | PutOff (chan : bool).

Definition schedule (o : outcome) (p : phase) : phase :=
  match o with
  | DeviceOff => p
  | Sent => p <| p_radio := Sending |> <| p_run := true |> <| p_failed := false |> <| p_chan := true |>
  | PutOff c => p <| p_later := true |> <| p_delayed := true |> <| p_chan := c |>
  end.

(** The end of a transmission, with or without windows to come. *)
Definition tx_done (windows : bool) (p : phase) : phase :=
  let p := p <| p_radio := Silent |> in
  if windows then p <| p_w1 := true |> <| p_w2 := true |> <| p_timeout ::= orb (p_wait p) |>
  else p <| p_done := true |> <| p_failed := false |>.

Definition tx_timeout (p : phase) : phase :=
  p <| p_radio := Silent |> <| p_failed := true |> <| p_done := true |>.

(** A window that ended without a frame. *)
Definition rx_failed (p : phase) : phase :=
  let p := p <| p_radio := Silent |> in
  if p_slot p then p <| p_failed := false |> <| p_done := true |> else p.

(** The timers of the windows; [opens]: the radio was free. *)
Definition window1 (opens : bool) (p : phase) : phase :=
  let p := p <| p_w1 := false |> <| p_slot := false |> in
  if opens then p <| p_radio := Listening |> else p.
Definition window2 (opens : bool) (p : phase) : phase :=
  let p := p <| p_w2 := false |> <| p_slot := true |> in
  if opens then p <| p_radio := Listening |> else p.

Definition ack_timeout (p : phase) : phase :=
  let p := p <| p_timeout := false |> in
  if p_wait p then p <| p_retry := true |> else p.

(** A received frame, and what became of it. *)
Inductive reception := Rejected | Accepted (ack shown : bool) | Other (shown : bool).

Definition rx_done (f : reception) (p : phase) : phase :=
  let p := p <| p_radio := Silent |> <| p_w2 := false |> <| p_acked := false |> in
  let p := match f with
           | Rejected =>
               (if p_wait p then ack_timeout p else p) <| p_abort := true |> <| p_ind := true |> <| p_failed := false |>
           | Accepted ack shown =>
               let p := if ack || negb (p_tries p) then p <| p_timeout := false |> else p in
               p <| p_acked := ack |> <| p_ind ::= orb shown |> <| p_failed := false |>
           | Other shown => p <| p_ind ::= orb shown |> <| p_failed := false |>
           end in
  p <| p_done := true |>.

(** The choices of a check: whether a request is pending, its repetitions are used
    up, another try is left, and what scheduling makes of the frame. *)
Record choices := mkChoices {
  c_pending : bool;
  c_last : bool;
  c_repeat : outcome;
  c_again : bool;
  c_retry : outcome;
}.

Definition check_end (c : choices) (p : phase) : phase :=
  let p := if p_abort p then p <| p_abort := false |> <| p_run := false |> else p in
  let failed := c_pending c && p_failed p in
  let p := if failed then p <| p_run := false |> <| p_acked := false |> else p in
  let p := if negb (p_wait p) && negb failed && c_pending c then
             if c_last c || p_ind p then p <| p_run := false |> else schedule (c_repeat c) (p <| p_done := false |>)
           else p in
  let p := if p_ind p && (p_acked p || negb (p_tries p))
           then p <| p_retry := false |> <| p_wait := false |> <| p_run := false |> else p in
  if p_retry p && negb (p_delayed p) then
    let p := p <| p_retry := false |> in
    if c_again c then schedule (c_retry c) (p <| p_tries := true |> <| p_done := false |>)
    else p <| p_run := false |> <| p_wait := false |> <| p_acked := false |>
  else p.

Definition check_step (c : choices) (p : phase) : phase :=
  let p := if p_done p then check_end c p else p in
  let idle := negb (p_run p || p_delayed p || p_abort p || p_stray p) in
  p <| p_done := p_done p && negb idle |> <| p_ind := false |>.

(** A delayed frame; a join request is built anew. *)
Definition tx_later (join : bool) (o : outcome) (p : phase) : phase :=
  let p := p <| p_later := false |> <| p_delayed := false |> in
  schedule o (if join then p <| p_wait := false |> else p).

(** A data request on an idle MAC: refused before or after its frame is built,
    or scheduled. *)
Inductive request := Invalid (tries failed : bool) | Unbuilt (tries failed : bool) | Built (confirmed tries failed : bool) (o : outcome).

Definition mcps_request (q : request) (p : phase) : phase :=
  let p := p <| p_acked := false |> in
  match q with
  | Invalid t f => p <| p_tries := t |> <| p_failed ::= andb f |>
  | Unbuilt t f => p <| p_tries := t |> <| p_failed ::= andb f |> <| p_wait := false |>
  | Built c t f o =>
      let p := schedule o (p <| p_tries := c || t |> <| p_failed ::= andb f |> <| p_wait := c |>) in
      match o with DeviceOff => p <| p_wait := false |> | _ => p end
  end.

Definition join_request (failed : bool) (o : outcome) (p : phase) : phase :=
  schedule o (p <| p_retry := false |> <| p_wait := false |> <| p_tries := true |> <| p_acked := false |>
                <| p_chan := false |> <| p_failed ::= andb failed |>).

Definition link_check (failed fits : bool) (p : phase) : phase :=
  let p := p <| p_failed ::= andb failed |> in
  if fits then p else p <| p_wait := false |>.

(** ** The steps keep the invariant *)

Definition idle (p : phase) : bool := negb (p_run p || p_delayed p).

Lemma step_ok (G : phase -> bool) (f : phase -> phase) :
  forallb (fun p => implb (G p) (phase_ok (f p))) phases = true ->
  forall p, phase_ok p = true -> G p = true -> phase_ok (f p) = true.
Proof. intros H p Hp HG. apply (phase_check _ H) in Hp. by rewrite HG in Hp. Qed.

(** Evaluates a step from every phase that satisfies [G]. *)
Ltac by_phases G := apply (step_ok G); vm_compute; reflexivity.

Lemma tx_done_ok b p : phase_ok p = true -> sending (p_radio p) = true -> phase_ok (tx_done b p) = true.
Proof. revert p. destruct b; by_phases (fun p => sending (p_radio p)). Qed.

Lemma tx_timeout_ok p : phase_ok p = true -> sending (p_radio p) = true -> phase_ok (tx_timeout p) = true.
Proof. revert p. by_phases (fun p => sending (p_radio p)). Qed.

Lemma rx_failed_ok p : phase_ok p = true -> listening (p_radio p) = true -> phase_ok (rx_failed p) = true.
Proof. revert p. by_phases (fun p => listening (p_radio p)). Qed.

Lemma window1_ok b p : phase_ok p = true -> p_w1 p = true -> phase_ok (window1 b p) = true.
Proof. revert p. destruct b; by_phases p_w1. Qed.

Lemma window2_ok b p : phase_ok p = true -> p_w2 p && negb (p_w1 p) = true -> phase_ok (window2 b p) = true.
Proof. revert p. destruct b; by_phases (fun p => p_w2 p && negb (p_w1 p)). Qed.

Lemma ack_timeout_ok p : phase_ok p = true -> p_timeout p = true -> phase_ok (ack_timeout p) = true.
Proof. revert p. by_phases p_timeout. Qed.

Lemma rx_done_ok f p : phase_ok p = true -> listening (p_radio p) = true -> phase_ok (rx_done f p) = true.
Proof. revert p. destruct f as [|[] []|[]]; by_phases (fun p => listening (p_radio p)). Qed.

Lemma check_step_ok c p : phase_ok p = true -> phase_ok (check_step c p) = true.
Proof.
  intros Hp. assert (H : (fun _ : phase => true) p = true) by done. revert p Hp H.
  destruct c as [[] [] [| |[]] [] [| |[]]]; by_phases (fun _ : phase => true).
Qed.

Lemma tx_later_ok b o p : phase_ok p = true -> p_later p = true -> phase_ok (tx_later b o p) = true.
Proof. revert p. destruct b, o as [| |[]]; by_phases p_later. Qed.

Lemma mcps_request_ok q p : phase_ok p = true -> idle p = true -> phase_ok (mcps_request q p) = true.
Proof. revert p. destruct q as [[] []|[] []|[] [] [] [| |[]]]; by_phases idle. Qed.

Lemma join_request_ok f o p : phase_ok p = true -> idle p = true -> phase_ok (join_request f o p) = true.
Proof. revert p. destruct f, o as [| |[]]; by_phases idle. Qed.

Lemma link_check_ok f b p : phase_ok p = true -> negb (p_run p) = true -> phase_ok (link_check f b p) = true.
Proof. revert p. destruct f, b; by_phases (fun p => negb (p_run p)). Qed.

(** ** What the invariant says of a phase *)

Definition busy (p : phase) : bool := sending (p_radio p) || listening (p_radio p) || p_w1 p || p_w2 p.

(** [by_fact P Hp]: [P], that can be evaluated, holds of a phase with the invariant [Hp]. *)
Lemma phase_implies (G P : phase -> bool) : forallb (fun p => implb (G p) (P p)) phases = true ->
  forall p, phase_ok p = true -> G p = true -> P p = true.
Proof. intros H p Hp HG. apply (phase_check _ H) in Hp. by rewrite HG in Hp. Qed.

Lemma busy_facts p : phase_ok p = true -> busy p = true ->
  p_run p = true /\ p_done p = false /\ p_chan p = true /\ p_failed p = false /\ p_ind p = false.
Proof.
  intros Hp Hb. assert (H : p_run p && negb (p_done p) && p_chan p && negb (p_failed p) && negb (p_ind p) = true).
  { revert p Hp Hb. apply phase_implies. vm_compute. reflexivity. }
  apply andb_true_iff in H as [[[[? ?%negb_true_iff]%andb_true_iff ?]%andb_true_iff ?%negb_true_iff]%andb_true_iff ?%negb_true_iff].
  by split_and!.
Qed.

Lemma not_stray p : phase_ok p = true -> p_stray p = false.
Proof. intros H. apply andb_true_iff in H as [_ H]. by apply andb_true_iff in H as [_ H%negb_true_iff]. Qed.

Lemma sending_busy p : sending (p_radio p) = true -> busy p = true.
Proof. unfold busy. by intros ->. Qed.
Lemma listening_busy p : listening (p_radio p) = true -> busy p = true.
Proof. unfold busy. intros ->. by rewrite orb_true_r. Qed.

End MacPhase.
