(* ===== verification/MacSystem.v ===== *)
(** The whole MAC of src/src/mac/LoRaMac.c as a system driven by events: requests
    of the upper layer, timers that fire and interrupts of the radio, in any
    order the timers and the radio can produce.  The invariant of its static
    variables joins the well-formedness of the tables and buffers with the protocol of MacPhase.v. *)
From S2P Require Import Prelude Utilities Linked Aes MacTypes MacChannels Multicast MacCommands MacCrypto MacFrame MacRx MacServices MacPhase.

Module MacSystem.
Import MacTypes MacChannels Multicast MacCommands MacCrypto MacFrame MacRx MacServices MacPhase.

(** * The phase of the static variables *)

(** [LoRaMacState] with at most its three bits set. *)
Definition state_word (run delayed abort : bool) : Z := b2z run + 16 * b2z delayed + 64 * b2z abort.

Definition gave_up (st : LoRaMacEventInfoStatus_t) : bool := bool_decide (st = LORAMAC_EVENT_INFO_STATUS_TX_TIMEOUT).

Definition phase_of (s : mac) : phase :=
  let v := LoRaMacState s in
  mkPhase (radio_of (trace s)) (armed RxWindowTimer1 (trace s)) (armed RxWindowTimer2 (trace s))
    (armed TxDelayedTimer (trace s)) (armed AckTimeoutTimer (trace s))
    (Z.testbit v 0) (Z.testbit v 4) (Z.testbit v 6)
    (negb (v =? state_word (Z.testbit v 0) (Z.testbit v 4) (Z.testbit v 6)))
    (MacDone (LoRaMacFlags s)) (McpsInd (LoRaMacFlags s)) (NodeAckRequested s) (AckTimeoutRetry s)
    (gave_up (mc_Status (McpsConfirm s)) || gave_up (ml_Status (MlmeConfirm s)))
    (mc_AckReceived (McpsConfirm s)) (AckTimeoutRetriesCounter s <=? AckTimeoutRetries s)
    (RxSlot s =? 1) ((0 <=? Channel s) && (Channel s <? 16)).

(** ** Calls *)

Definition calls (l : list action) (p : phase) : phase :=
  p <| p_radio := fold_left radio_step l (p_radio p) |>
    <| p_w1 := fold_left (timer_step RxWindowTimer1) l (p_w1 p) |>
    <| p_w2 := fold_left (timer_step RxWindowTimer2) l (p_w2 p) |>
    <| p_later := fold_left (timer_step TxDelayedTimer) l (p_later p) |>
    <| p_timeout := fold_left (timer_step AckTimeoutTimer) l (p_timeout p) |>.

Lemma phase_calls s s' l : trace s' = trace s ++ l -> phase_of s' = calls l (phase_of (s' <| trace := trace s |>)).
Proof. intros E. unfold phase_of, calls, radio_of, armed. cbn [update trace]. rewrite E, !fold_left_app. reflexivity. Qed.

Lemma phase_append s l : phase_of (s <| trace ::= fun t => t ++ l |>) = calls l (phase_of s).
Proof. by rewrite (phase_calls s _ l). Qed.

Lemma phase_log l s : phase_of (log l s) = calls l (phase_of s).
Proof. apply phase_append. Qed.

(** ** The state word *)

Lemma state_word_bits r d a : Z.testbit (state_word r d a) 0 = r /\ Z.testbit (state_word r d a) 4 = d /\ Z.testbit (state_word r d a) 6 = a.
Proof. by destruct r, d, a. Qed.

Lemma phase_word s r d a : LoRaMacState s = state_word r d a ->
  phase_of s = (phase_of s) <| p_run := r |> <| p_delayed := d |> <| p_abort := a |> <| p_stray := false |>.
Proof.
  intros E. unfold phase_of. rewrite E. destruct (state_word_bits r d a) as (-> & -> & ->). by rewrite Z.eqb_refl.
Qed.

Lemma word_of_phase s : p_stray (phase_of s) = false ->
  LoRaMacState s = state_word (p_run (phase_of s)) (p_delayed (phase_of s)) (p_abort (phase_of s)).
Proof. unfold phase_of. cbn. intros H%negb_false_iff%Z.eqb_eq. exact H. Qed.

Lemma phase_update s f r d a : f (LoRaMacState s) = state_word r d a ->
  phase_of (s <| LoRaMacState ::= f |>) = (phase_of s) <| p_run := r |> <| p_delayed := d |> <| p_abort := a |> <| p_stray := false |>.
Proof. intros E. rewrite (phase_word _ r d a) by exact E. reflexivity. Qed.

(** ** Scheduling *)

Lemma phase_choice s s2 : choice_core s2 = choice_core s -> exists c, phase_of s2 = (phase_of s) <| p_chan := c |>.
Proof.
  intros E%(f_equal phase_of). exists (p_chan (phase_of s2)).
  change (phase_of (choice_core s2)) with ((phase_of s2) <| p_chan := true |>) in E.
  change (phase_of (choice_core s)) with ((phase_of s) <| p_chan := true |>) in E.
  change (phase_of s2) with (((phase_of s2) <| p_chan := true |>) <| p_chan := p_chan (phase_of s2) |>). rewrite E. reflexivity.
Qed.

Section System.
Context {RD : RadioDriver} {FS : FrameSecurity}.

Lemma sent_phase s ch st s' : p_stray (phase_of s) = false -> 0 <= Channel s < 16 -> SendFrameOnChannel ch s = Done (st, s') ->
  st = LORAMAC_STATUS_OK /\ phase_of s' = schedule Sent (phase_of s).
Proof.
  intros Hp Hc H. pose proof (word_of_phase s Hp) as Hw. unfold SendFrameOnChannel in H. apply rbind_inv in H as (d & _ & H).
  apply rbind_inv in H as (pw & _ & H). destruct (tx_config _ _ _ _) as [config modem] eqn:Ec.
  apply rbind_inv in H as (frame & _ & H). injection H as <- <-. split; [done|].
  assert (Hcalls : forall p, calls (RadioSetChannel (Frequency ch) :: config ++
    [TimerSetValue MacStateCheckTimer MAC_STATE_CHECK_TIMEOUT; TimerStart MacStateCheckTimer; RadioSend frame]) p = p <| p_radio := Sending |>).
  { intros []. unfold tx_config in Ec. destruct (_ =? 7); [|destruct (_ =? 6)]; by injection Ec as <- <-. }
  rewrite (phase_update _ _ true (p_delayed (phase_of s)) (p_abort (phase_of s)))
    by (cbn [update LoRaMacState]; rewrite Hw; by destruct (p_run _), (p_delayed _), (p_abort _)).
  rewrite phase_append, Hcalls. unfold phase_of, schedule. cbn.
  rewrite (proj2 (Z.leb_le 0 _)), (proj2 (Z.ltb_lt _ 16)) by lia.
  unfold phase_of in Hp. cbn in Hp. rewrite Hp. reflexivity.
Qed.

Lemma put_off_phase s t : p_stray (phase_of s) = false ->
  phase_of (s <| LoRaMacState ::= fun v => Z.lor v MAC_TX_DELAYED |>
       <| trace ::= fun l => (l ++ [TimerSetValue TxDelayedTimer t]) ++ [TimerStart TxDelayedTimer] |>) =
  schedule (PutOff (p_chan (phase_of s))) (phase_of s).
Proof.
  intros Hp. pose proof (word_of_phase s Hp) as Hw. set (s1 := s <| LoRaMacState ::= _ |>).
  assert (E1 : phase_of s1 = (phase_of s) <| p_run := p_run (phase_of s) |> <| p_delayed := true |>
    <| p_abort := p_abort (phase_of s) |> <| p_stray := false |>).
  { apply phase_update. rewrite Hw. by destruct (p_run _), (p_delayed _), (p_abort _). }
  change (s1 <| trace ::= _ |>) with (s1 <| trace ::= fun l => l ++ [TimerSetValue TxDelayedTimer t] |>
    <| trace ::= fun l => l ++ [TimerStart TxDelayedTimer] |>). rewrite !phase_append, E1. rewrite <- Hp. reflexivity.
Qed.

Lemma schedule_phase s st s' : length (Channels s) = 16%nat -> p_stray (phase_of s) = false -> ScheduleTx s = Done (st, s') ->
  exists o, phase_of s' = schedule o (phase_of s) /\
    st = match o with DeviceOff => LORAMAC_STATUS_DEVICE_OFF | _ => LORAMAC_STATUS_OK end.
Proof.
  intros HL Hp [[-> ->]|[(s2 & ch & Hc & Hch & H)|(s2 & t & Hc & -> & ->)]]%ScheduleTx_inv; [by exists DeviceOff|..];
    pose proof (f_equal Channels Hc) as HC; change (Channels s2 = Channels s) in HC; destruct (phase_choice s s2 Hc) as (c & E2).
  - apply rd_Done in Hch as [Hch Hl]. assert (Hr : (Z.to_nat (Channel s2) < 16)%nat) by (rewrite <- HL, <- HC; by eapply lookup_lt_Some).
    destruct (sent_phase s2 ch st s') as [-> ->]; [by rewrite E2|lia|done|]. exists Sent. split; [|done]. rewrite E2. reflexivity.
  - exists (PutOff c). split; [|done]. rewrite put_off_phase by (by rewrite E2). rewrite E2. reflexivity.
Qed.

End System.

(** * The invariant *)

(** The identifiers of a join request have their sizes. *)
Definition join_ready (s : mac) : Prop :=
  length (LoRaMacAppEui s) = 8%nat /\ length (LoRaMacDevEui s) = 8%nat /\ is_block (LoRaMacAppKey s).

Record data_ok (s : mac) : Prop := mkDataOk {
  do_sched : sched_ok s;
  do_buf : buf_wf s;
  do_bytes : bytes (LoRaMacRxPayload s);
  do_rx2 : Rx2Datarate (LoRaMacParams s) <= 7;
  do_defaults : param_wf (LoRaMacParamsDefaults s) /\ Rx2Datarate (LoRaMacParamsDefaults s) <= 7 /\
    length (ChannelsMask (LoRaMacParamsDefaults s)) = 6%nat;
  do_class : LoRaMacDeviceClass s <> CLASS_C;
  do_groups : exists l, groups s l;
  do_nodes : map_Forall (fun _ n => is_block (mp_NwkSKey n) /\ is_block (mp_AppSKey n)) (MulticastNodes s);
  do_tries : 0 <= AckTimeoutRetriesCounter s;
  do_join : MlmeReq (LoRaMacFlags s) = true -> ml_MlmeRequest (MlmeConfirm s) = MLME_JOIN -> join_ready s;
}.

Definition sys_ok (s : mac) : Prop := data_ok s /\ phase_ok (phase_of s) = true.

(** The fields the first part is about, a pending join apart. *)
Definition data_view (s : mac) :=
  (sched_same s, LoRaMacPayload s, LoRaMacRxPayload s, LoRaMacNwkSKey s, LoRaMacAppSKey s, LoRaMacDeviceClass s,
   MulticastNodes s, MulticastChannels s, (LoRaMacAppEui s, LoRaMacDevEui s, LoRaMacAppKey s)).

Definition join_pending (s : mac) : Prop := MlmeReq (LoRaMacFlags s) = true /\ ml_MlmeRequest (MlmeConfirm s) = MLME_JOIN.

Lemma data_ok_ext s s' : data_view s' = data_view s -> (join_pending s' -> join_pending s) -> data_ok s -> data_ok s'.
Proof.
  unfold data_view, sched_same, inv_view. intros Hv Hj [D1 D2 D3 D4 D5 D6 D7 D8 D9 D10].
  assert (sched_same s' = sched_same s) as Hs by (unfold sched_same, inv_view; congruence).
  assert (LoRaMacParams s' = LoRaMacParams s /\ LoRaMacParamsDefaults s' = LoRaMacParamsDefaults s /\ LoRaMacBuffer s' = LoRaMacBuffer s)
    as (E1 & E2 & E0) by (split_and!; congruence).
  assert (LoRaMacPayload s' = LoRaMacPayload s /\ LoRaMacRxPayload s' = LoRaMacRxPayload s /\ LoRaMacNwkSKey s' = LoRaMacNwkSKey s /\
    LoRaMacAppSKey s' = LoRaMacAppSKey s) as (E3 & E4 & E5 & E6) by (split_and!; congruence).
  assert (LoRaMacDeviceClass s' = LoRaMacDeviceClass s /\ MulticastNodes s' = MulticastNodes s /\
    MulticastChannels s' = MulticastChannels s /\ AckTimeoutRetriesCounter s' = AckTimeoutRetriesCounter s) as (E7 & E8 & E9 & E10) by (split_and!; congruence).
  assert (join_ready s' <-> join_ready s) as HJ.
  { unfold join_ready. replace (LoRaMacAppEui s') with (LoRaMacAppEui s) by congruence.
    replace (LoRaMacDevEui s') with (LoRaMacDevEui s) by congruence. by replace (LoRaMacAppKey s') with (LoRaMacAppKey s) by congruence. }
  split; rewrite ?E1, ?E2, ?E4, ?E7, ?E8, ?E10; try done.
  - by apply (sched_ok_same s).
  - destruct D2. split; congruence.
  - destruct D7 as (l & Hl). exists l. unfold groups in *. by rewrite E8, E9.
  - intros H1 H2. apply HJ, D10; by apply Hj.
Qed.



(** * Interrupts of the radio *)

Section Handlers.
Context {RD : RadioDriver} {FS : FrameSecurity}.

Lemma class_a s : data_ok s -> is_class_c s = false.
Proof. intros H. apply not_class_c, H. Qed.

Lemma sleep_a s : data_ok s -> sleep_or_listen s = Done (tt, log [RadioSleep] s).
Proof. intros Hd. unfold sleep_or_listen. by rewrite class_a. Qed.

Lemma tx_timeout_keeps s : sys_ok s -> sending (p_radio (phase_of s)) = true -> wp OnRadioTxTimeout s (fun _ => sys_ok).
Proof.
  intros [Hd Hp] Hs. unfold wp, OnRadioTxTimeout. rewrite sleep_a by done. cbn [rbind].
  eexists _, _. split; [reflexivity|]. split; [by apply (data_ok_ext s)|].
  rewrite (phase_calls s _ [RadioSleep]) by reflexivity. exact (tx_timeout_ok _ Hp Hs).
Qed.

Lemma rx2_failed_keeps st s : gave_up st = false -> sys_ok s -> listening (p_radio (phase_of s)) = true ->
  wp (rx2_failed st) s (fun _ => sys_ok).
Proof.
  intros Hst [Hd Hp] Hs. unfold wp, rx2_failed. rewrite sleep_a by done. cbn [rbind].
  pose proof (rx_failed_ok _ Hp Hs) as Hok. unfold rx_failed in Hok. cbv zeta in Hok.
  change (p_slot ((phase_of s) <| p_radio := Silent |>)) with (RxSlot s =? 1) in Hok.
  change (RxSlot (log [RadioSleep] s)) with (RxSlot s).
  destruct (busy_facts _ Hp (listening_busy _ Hs)) as (_ & _ & _ & [Hf1 Hf2]%orb_false_iff & _).
  destruct (RxSlot s =? 1) eqn:Er.
  - change (NodeAckRequested (log [RadioSleep] s)) with (NodeAckRequested s).
    destruct (NodeAckRequested s) eqn:En; (eexists _, _; split; [reflexivity|]; split; [by apply (data_ok_ext s)|]);
      rewrite (phase_calls s _ [RadioSleep]) by reflexivity; refine (eq_trans _ Hok); f_equal;
      unfold phase_of, calls; cbn; rewrite ?Hf1, ?Hst, ?En, ?Er; reflexivity.
  - eexists _, _. split; [reflexivity|]. split; [by apply (data_ok_ext s)|].
    rewrite (phase_calls s _ [RadioSleep]) by reflexivity. exact Hok.
Qed.

(** Reads a phase off a state given by updates. *)
Ltac phase_eval :=
  unfold phase_of, log, radio_of, armed;
  cbn [update trace LoRaMacState LoRaMacFlags McpsConfirm MlmeConfirm NodeAckRequested AckTimeoutRetry AckTimeoutRetries
       AckTimeoutRetriesCounter RxSlot Channel mc_Status mc_AckReceived ml_Status MacDone McpsInd];
  rewrite ?fold_left_app.

(** The band that was used: only the time of its last transmission changes. *)
Lemma sched_ok_used s ch band t : sched_ok s -> Bands s !! Z.to_nat (Band ch) = Some band -> 0 <= Channel s < 16 ->
  sched_ok (s <| LastTxChannel := Channel s |> <| Bands := <[Z.to_nat (Band ch) := band <| LastTxDoneTime := t |>]> (Bands s) |>
              <| AggregatedLastTxDoneTime := t |>).
Proof.
  intros [[[] [C1 C2 C3 C4 C5 C6] Hd Hp] S2 S3 S4 S5] Hb Hc. split; try done. split; try done. split; try done.
  - cbn [update Bands]. by rewrite length_insert.
  - cbn [update Bands]. apply Forall_insert; [done|]. by apply (Forall_lookup_1 _ _ _ _ C5 Hb).
Qed.

Lemma data_ok_sched s s' : sched_ok s' -> data_view (s' <| LastTxChannel := LastTxChannel s |> <| Bands := Bands s |>) = data_view s ->
  (join_pending s' -> join_pending s) -> data_ok s -> data_ok s'.
Proof.
  intros Hs Hv Hj Hd. assert (Hd' : data_ok (s' <| LastTxChannel := LastTxChannel s |> <| Bands := Bands s |>)) by (by apply (data_ok_ext s)).
  by destruct Hd' as [_ [] D3 D4 D5 D6 D7 D8 D9 D10].
Qed.

Lemma channel_of_table s : data_ok s -> p_chan (phase_of s) = true ->
  exists ch band, Channels s !! Z.to_nat (Channel s) = Some ch /\ 0 <= Channel s < 16 /\ Bands s !! Z.to_nat (Band ch) = Some band /\ 0 <= Band ch < 5.
Proof.
  intros Hd Hc. apply andb_true_iff in Hc as [H1%Z.leb_le H2%Z.ltb_lt].
  destruct (so_inv _ (do_sched _ Hd)) as [_ [C1 C2 C3 _ _ _] _ _].
  destruct (lookup_lt_is_Some_2 (Channels s) (Z.to_nat (Channel s))) as [ch Hch]; [lia|].
  pose proof (Forall_lookup_1 _ _ _ _ C3 Hch) as Hb. cbv beta in Hb.
  destruct (lookup_lt_is_Some_2 (Bands s) (Z.to_nat (Band ch))) as [band Hband]; [lia|]. by exists ch, band.
Qed.

Lemma tx_done_keeps s : sys_ok s -> sending (p_radio (phase_of s)) = true -> wp OnRadioTxDone s (fun _ => sys_ok).
Proof.
  intros [Hd Hp] Hs. destruct (busy_facts _ Hp (sending_busy _ Hs)) as (_ & _ & Hc & [Hf1 Hf2]%orb_false_iff & _).
  destruct (channel_of_table s Hd Hc) as (ch & band & Hch & Hr & Hb & Hbr). pose proof (class_a s Hd) as Ha.
  pose proof (cw_bands _ (mi_chan _ (so_inv _ (do_sched _ Hd)))) as HB.
  unfold wp, OnRadioTxDone. rewrite sleep_a by done. cbn [rbind].
  change (rd (Channels _) (LastTxChannel _)) with (rd (Channels s) (Channel s)).
  rewrite (proj2 (rd_Done _ _ ch)) by (split; [lia|done]). cbn [rbind].
  change (rd (Bands _) (Band ch)) with (rd (Bands s) (Band ch)). rewrite (proj2 (rd_Done _ _ band)) by (split; [lia|done]). cbn [rbind].
  change (wr (Bands _)) with (wr (Bands s)). rewrite wr_ok by lia. cbn [rbind]. set (s0 := (log [RadioSleep] s) <| LastTxChannel := _ |>).
  set (s1 := s0 <| Bands := _ |> <| AggregatedLastTxDoneTime := _ |>).
  assert (Hs1 : sched_ok s1) by (apply (sched_ok_same (s <| LastTxChannel := Channel s |> <| Bands := <[Z.to_nat (Band ch) :=
    band <| LastTxDoneTime := now (env s) |>]> (Bands s) |> <| AggregatedLastTxDoneTime := now (env s) |>));
    [done|apply sched_ok_used; try done; apply Hd]).
  assert (Hdata : forall s', sched_same s' = sched_same s1 -> data_view (s' <| LastTxChannel := LastTxChannel s |> <| Bands := Bands s |>) = data_view s ->
    (join_pending s' -> join_pending s) -> data_ok s').
  { intros s' H1 H2 H3. apply (data_ok_sched s); try done. by apply (sched_ok_same s1). }
  change (IsRxWindowsEnabled s1) with (IsRxWindowsEnabled s). change (is_class_c (log _ s1)) with (is_class_c s). rewrite Ha.
  destruct (IsRxWindowsEnabled s) eqn:Ew.
  - pose proof (tx_done_ok true _ Hp Hs) as Hok. cbn [negb].
    change (is_class_c (log _ (log _ s1))) with (is_class_c s). rewrite Ha. change (NodeAckRequested (log _ (log _ s1))) with (NodeAckRequested s).
    destruct (NodeAckRequested s) eqn:En; cbn [orb].
    + unfold rand_range. destruct (randr _ _ _) as [r n]. cbn [rbind].
      match goal with |- context [if negb (NodeAckRequested ?x) then _ else _] => change (NodeAckRequested x) with (NodeAckRequested s) end.
      rewrite En. cbn [negb]. eexists _, _. split; [reflexivity|]. split; [by apply Hdata|].
      refine (eq_trans _ Hok). f_equal. unfold s1, s0, tx_done. phase_eval. rewrite ?En, ?Hf1, ?Hf2. reflexivity.
    + cbn [rbind].
      match goal with |- context [if negb (NodeAckRequested ?x) then _ else _] => change (NodeAckRequested x) with (NodeAckRequested s) end.
      rewrite En. cbn [negb]. eexists _, _. split; [reflexivity|]. split; [by apply Hdata|].
      refine (eq_trans _ Hok). f_equal. unfold s1, s0, tx_done. phase_eval. rewrite ?En, ?Hf1, ?Hf2. reflexivity.
  - pose proof (tx_done_ok false _ Hp Hs) as Hok. cbn [rbind].
    match goal with |- context [if negb (NodeAckRequested ?x) then _ else _] => change (NodeAckRequested x) with (NodeAckRequested s) end.
    match goal with |- context [if negb ?b then ?f <| McpsReq := true |> else ?f] => generalize (negb b); intros fresh end.
    destruct (NodeAckRequested s) eqn:En, fresh; cbn [negb]; (eexists _, _; split; [reflexivity|]; split; [by apply Hdata|]);
      refine (eq_trans _ Hok); f_equal; unfold s1, s0, tx_done; phase_eval; rewrite ?En; reflexivity.
Qed.

(** * Timers *)

Lemma RxWindowSetup_keeps s freq dr bw timeout cont : 0 <= dr <= 7 ->
  exists b s', RxWindowSetup freq dr bw timeout cont s = Done (tt, s') /\ data_view s' = data_view s /\
    (join_pending s' -> join_pending s) /\ phase_of s' = (if b : bool then (phase_of s) <| p_radio := Listening |> else phase_of s).
Proof.
  intros Hdr. unfold RxWindowSetup. destruct (rd_ok Datarates dr) as (d & -> & _); [cbn [length Datarates]; lia|]. cbn [rbind].
  destruct (RadioIdle (env s)); [|by exists false, s].
  destruct (rd_ok (if RepeaterSupport s then MaxPayloadOfDatarateRepeater else MaxPayloadOfDatarate) dr) as (m & Hm & _);
    [destruct (RepeaterSupport s); cbn; lia|].
  exists true. destruct (dr =? 7); rewrite Hm; cbn [rbind]; (eexists; split; [reflexivity|]; split; [done|]; split; [done|]);
    rewrite phase_log; reflexivity.
Qed.

Lemma window1_keeps s : sys_ok s -> p_w1 (phase_of s) = true -> wp OnRxWindow1TimerEvent s (fun _ => sys_ok).
Proof.
  intros [Hd Hp] Hw. assert (Hb : busy (phase_of s) = true) by (unfold busy; by rewrite Hw, orb_true_r).
  destruct (busy_facts _ Hp Hb) as (_ & _ & Hc & _ & _). destruct (channel_of_table s Hd Hc) as (ch & _ & Hch & Hr & _).
  unfold wp, OnRxWindow1TimerEvent. set (s1 := (log [TimerStop RxWindowTimer1] s) <| RxSlot := 0 |>).
  change (is_class_c s1) with (is_class_c s). rewrite class_a by done.
  destruct (rx_symbols _) as [sym bw]. change (rd (Channels s1) (Channel s1)) with (rd (Channels s) (Channel s)).
  rewrite (proj2 (rd_Done _ _ ch)) by (split; [lia|done]). cbn [rbind].
  destruct (mi_param _ (so_inv _ (do_sched _ Hd))) as [P1 _ _ P4 _ _]. change (LoRaMacParams s1) with (LoRaMacParams s).
  set (dr := s8 _). assert (Hdr : -7 <= dr <= 7) by (unfold dr, s8; lia).
  edestruct (RxWindowSetup_keeps s1 (Frequency ch) (if dr <? 0 then 0 else dr) bw sym false) as (b & s' & -> & Hv & Hj & Hph);
    [destruct (Z.ltb_spec dr 0); lia|].
  exists tt, s'. split; [done|]. split; [apply (data_ok_ext s); [by rewrite Hv|done|done]|].
  rewrite Hph. assert (E : phase_of s1 = (phase_of s) <| p_w1 := false |> <| p_slot := false |>) by
    (unfold s1; phase_eval; reflexivity).
  rewrite E. pose proof (window1_ok b _ Hp Hw) as Hok. by destruct b.
Qed.

Lemma window2_keeps s : sys_ok s -> p_w2 (phase_of s) && negb (p_w1 (phase_of s)) = true -> wp OnRxWindow2TimerEvent s (fun _ => sys_ok).
Proof.
  intros [Hd Hp] Hw. unfold wp, OnRxWindow2TimerEvent. set (s1 := (log [TimerStop RxWindowTimer2] s) <| RxSlot := 1 |>).
  destruct (rx_symbols _) as [sym bw]. change (LoRaMacParams s1) with (LoRaMacParams s).
  destruct (mi_param _ (so_inv _ (do_sched _ Hd))) as [_ _ _ _ P5 _]. pose proof (do_rx2 _ Hd) as H7.
  edestruct (RxWindowSetup_keeps s1 (Rx2Frequency (LoRaMacParams s)) (Rx2Datarate (LoRaMacParams s)) bw sym (is_class_c s1))
    as (b & s' & -> & Hv & Hj & Hph); [lia|].
  exists tt, s'. split; [done|]. split; [apply (data_ok_ext s); [by rewrite Hv|done|done]|].
  rewrite Hph. assert (E : phase_of s1 = (phase_of s) <| p_w2 := false |> <| p_slot := true |>) by (unfold s1; phase_eval; reflexivity).
  rewrite E. pose proof (window2_ok b _ Hp Hw) as Hok. by destruct b.
Qed.

(** The state word has no bit for an awaited acknowledgement. *)
Lemma clear_ack_req s : p_stray (phase_of s) = false -> Z.ldiff (LoRaMacState s) MAC_ACK_REQ = LoRaMacState s.
Proof. intros Hw%word_of_phase. rewrite Hw. by destruct (p_run _), (p_delayed _), (p_abort _). Qed.

(** The acknowledgement timeout, also as a refused frame calls it. *)
Lemma ack_timeout_effect s : data_ok s -> p_stray (phase_of s) = false ->
  exists s', OnAckTimeoutTimerEvent s = Done (tt, s') /\ data_view s' = data_view s /\ LoRaMacFlags s' = LoRaMacFlags s /\
    MlmeConfirm s' = MlmeConfirm s /\ LoRaMacState s' = LoRaMacState s /\ RxSlot s' = RxSlot s /\ phase_of s' = ack_timeout (phase_of s).
Proof.
  intros Hd Hw. unfold OnAckTimeoutTimerEvent. set (s1 := log _ s).
  assert (E1 : phase_of s1 = (phase_of s) <| p_timeout := false |>) by (unfold s1; rewrite phase_log; reflexivity).
  change (NodeAckRequested s1) with (p_wait ((phase_of s) <| p_timeout := false |>)). unfold ack_timeout. cbv zeta.
  destruct (p_wait _).
  - match goal with |- context [if is_class_c ?x then _ else _] => change (is_class_c x) with (is_class_c s) end. rewrite class_a by done.
    eexists. split; [reflexivity|]. cbn [update LoRaMacState]. change (LoRaMacState s1) with (LoRaMacState s).
    rewrite clear_ack_req by done. do 5 (split; [done|]). rewrite <- E1.
    set (s2 := s1 <| AckTimeoutRetry := true |>). change (_ <| p_retry := true |>) with (phase_of s2).
    rewrite (phase_update s2 _ (p_run (phase_of s)) (p_delayed (phase_of s)) (p_abort (phase_of s))).
    + rewrite <- Hw. reflexivity.
    + change (LoRaMacState s2) with (LoRaMacState s). rewrite clear_ack_req by done. by apply word_of_phase.
  - change (is_class_c s1) with (is_class_c s). rewrite class_a by done. eexists. split; [reflexivity|]. by split_and!.
Qed.

Lemma ack_timeout_keeps s : sys_ok s -> p_timeout (phase_of s) = true -> wp OnAckTimeoutTimerEvent s (fun _ => sys_ok).
Proof.
  intros [Hd Hp] Ht. destruct (ack_timeout_effect s Hd (not_stray _ Hp)) as (s' & E & Hv & Hf & Hm & _ & _ & Hph).
  exists tt, s'. split; [done|]. split; [|rewrite Hph; by apply ack_timeout_ok].
  apply (data_ok_ext s); [done| |done]. unfold join_pending. by rewrite Hf, Hm.
Qed.

(** ** Scheduling *)

Lemma schedule_request s st s' : ScheduleTx s = Done (st, s') -> ml_MlmeRequest (MlmeConfirm s') = ml_MlmeRequest (MlmeConfirm s).
Proof.
  intros [[_ ->]|[(s2 & ch & Hc & _ & H)|(s2 & t & Hc & _ & ->)]]%ScheduleTx_inv; [done|..];
    apply (f_equal (fun x => ml_MlmeRequest (MlmeConfirm x))) in Hc; [|exact Hc].
  unfold SendFrameOnChannel in H. apply rbind_inv in H as (d & _ & H). apply rbind_inv in H as (pw & _ & H).
  destruct (tx_config _ _ _ _) as [config modem]. apply rbind_inv in H as (frame & _ & H). injection H as _ <-. exact Hc.
Qed.

Lemma schedule_keeps s : data_ok s -> p_stray (phase_of s) = false ->
  exists st s' o, ScheduleTx s = Done (st, s') /\ data_ok s' /\ phase_of s' = schedule o (phase_of s) /\
    st = match o with DeviceOff => LORAMAC_STATUS_DEVICE_OFF | _ => LORAMAC_STATUS_OK end.
Proof.
  intros Hd Hw. destruct (ScheduleTx_total s (do_sched _ Hd)) as (st & s' & E & _ & Hs').
  destruct (schedule_phase s st s') as (o & Ho & Hst); [apply (do_sched _ Hd)|done|done|].
  exists st, s', o. split; [done|]. split; [|done].
  pose proof (schedule_request s st s' E) as Hr. apply ScheduleTx_core in E.
  assert (F : forall A (f : mac -> A), (forall x, f (sched_core x) = f x) -> f s' = f s).
  { intros A f Hf. rewrite <- (Hf s'), <- (Hf s). by rewrite E. }
  destruct Hd as [D1 D2 D3 D4 D5 D6 D7 D8 D9 D10]. split; [done|..].
  - destruct D2. split; [by rewrite (F _ LoRaMacBuffer)|by rewrite (F _ LoRaMacPayload)|by rewrite (F _ LoRaMacRxPayload)|
      by rewrite (F _ LoRaMacNwkSKey)|by rewrite (F _ LoRaMacAppSKey)].
  - by rewrite (F _ LoRaMacRxPayload).
  - by rewrite (F _ (fun x => Rx2Datarate (LoRaMacParams x))).
  - by rewrite (F _ LoRaMacParamsDefaults).
  - by rewrite (F _ LoRaMacDeviceClass).
  - destruct D7 as (l & Hl). exists l. unfold groups in *. by rewrite (F _ MulticastNodes), (F _ MulticastChannels).
  - by rewrite (F _ MulticastNodes).
  - by rewrite (F _ AckTimeoutRetriesCounter).
  - rewrite (F _ LoRaMacFlags), Hr by done. intros H1 H2. unfold join_ready.
    rewrite (F _ LoRaMacAppEui), (F _ LoRaMacDevEui), (F _ LoRaMacAppKey) by done. by apply D10.
Qed.

(** ** The periodic check *)

Lemma state_bits s : state_has MAC_TX_RUNNING s = p_run (phase_of s) /\ state_has MAC_TX_DELAYED s = p_delayed (phase_of s) /\
  state_has MAC_RX_ABORT s = p_abort (phase_of s).
Proof.
  unfold state_has. split_and!; [exact (land_bit_eq _ 0 ltac:(lia))|exact (land_bit_eq _ 4 ltac:(lia))|exact (land_bit_eq _ 6 ltac:(lia))].
Qed.

Lemma stop_tx_phase s : p_stray (phase_of s) = false -> phase_of (stop_tx s) = (phase_of s) <| p_run := false |>.
Proof.
  intros Hw. unfold stop_tx. rewrite (phase_update _ _ false (p_delayed (phase_of s)) (p_abort (phase_of s))).
  - rewrite <- Hw. reflexivity.
  - rewrite (word_of_phase s Hw). by destruct (p_run _), (p_delayed _), (p_abort _).
Qed.

Lemma bump_phase s : phase_of (bump_uplink s) = phase_of s /\ data_view (bump_uplink s) = data_view s /\
  (join_pending (bump_uplink s) -> join_pending s).
Proof. unfold bump_uplink. by destruct (IsUpLinkCounterFixed s). Qed.

Lemma check_abort_keeps s : data_ok s -> p_stray (phase_of s) = false ->
  let s' := if state_has MAC_RX_ABORT s then stop_tx (s <| LoRaMacState ::= fun v => Z.ldiff v MAC_RX_ABORT |>) else s in
  let p := phase_of s in
  data_ok s' /\ phase_of s' = (if p_abort p then p <| p_abort := false |> <| p_run := false |> else p).
Proof.
  intros Hd Hw. destruct (state_bits s) as (_ & _ & ->). cbv zeta. destruct (p_abort (phase_of s)) eqn:Ea; [|done].
  split; [by apply (data_ok_ext s)|]. set (s1 := s <| LoRaMacState ::= _ |>).
  assert (E1 : phase_of s1 = (phase_of s) <| p_run := p_run (phase_of s) |> <| p_delayed := p_delayed (phase_of s) |>
    <| p_abort := false |> <| p_stray := false |>).
  { apply phase_update. rewrite (word_of_phase s Hw). by destruct (p_run _), (p_delayed _), (p_abort _). }
  rewrite stop_tx_phase by (by rewrite E1). rewrite E1, <- Hw. reflexivity.
Qed.

Lemma check_timeout_keeps s : data_ok s -> p_stray (phase_of s) = false ->
  let '(failed, s') := check_tx_timeout s in
  let p := phase_of s in
  data_ok s' /\ failed = request_pending s && p_failed p /\ request_pending s' = request_pending s /\
  phase_of s' = (if failed then p <| p_run := false |> <| p_acked := false |> else p).
Proof.
  intros Hd Hw. unfold check_tx_timeout. change (_ || bool_decide (ml_Status _ = _)) with (p_failed (phase_of s)).
  destruct (request_pending s && p_failed (phase_of s)); [|done]. split; [by apply (data_ok_ext s)|]. do 2 (split; [done|]).
  set (g := fun c : McpsConfirm_t => _). change (phase_of ((stop_tx s) <| McpsConfirm ::= g |>)) with ((phase_of (stop_tx s)) <| p_acked := false |>).
  by rewrite stop_tx_phase.
Qed.

Lemma check_unconfirmed_keeps failed s : data_ok s -> p_stray (phase_of s) = false ->
  exists s' last o, check_unconfirmed failed s = Done s' /\ data_ok s' /\
    let p := phase_of s in
    phase_of s' = (if negb (p_wait p) && negb failed && request_pending s then
                     if last || p_ind p then p <| p_run := false |> else schedule o (p <| p_done := false |>)
                   else p).
Proof.
  intros Hd Hw. unfold check_unconfirmed. change (NodeAckRequested s) with (p_wait (phase_of s)).
  destruct (negb (p_wait (phase_of s)) && negb failed); cbn [andb]; [|by exists s, false, DeviceOff].
  assert (Hj : phase_of (check_join s) = phase_of s /\ data_view (check_join s) = data_view s /\ LoRaMacFlags (check_join s) = LoRaMacFlags s /\
    MlmeConfirm (check_join s) = MlmeConfirm s) by (unfold check_join; by repeat case_match).
  destruct Hj as (Hph & Hv & Hf & Hm). set (s1 := check_join s) in *.
  assert (Hd1 : data_ok s1) by (apply (data_ok_ext s); [done|unfold join_pending; by rewrite Hf, Hm|done]).
  assert (Hr : request_pending s1 = request_pending s) by (unfold request_pending; by rewrite Hf). rewrite Hr.
  destruct (request_pending s); [|by exists s1, false, DeviceOff].
  rewrite <- Hph. rewrite <- Hph in Hw. change (McpsInd (LoRaMacFlags s1)) with (p_ind (phase_of s1)). clear Hr Hv Hf Hm Hph. clearbody s1.
  set (last := ChannelsNbRep (LoRaMacParams s1) <=? ChannelsNbRepCounter s1).
  destruct (last || p_ind (phase_of s1)) eqn:El.
  - set (s2 := s1 <| ChannelsNbRepCounter := 0 |> <| AdrAckCounter ::= _ |>).
    destruct (bump_phase s2) as (Hb & Hv & Hj). exists (stop_tx (bump_uplink s2)), last, DeviceOff. split; [done|].
    split; [by apply (data_ok_ext s1)|]. rewrite El. rewrite stop_tx_phase by (by rewrite Hb). by rewrite Hb.
  - destruct (schedule_keeps (s1 <| LoRaMacFlags ::= fun f => f <| MacDone := false |> |>)) as (st & s' & o & -> & Hd' & Hp' & _);
      [by apply (data_ok_ext s1)|done|]. exists s', last, o. split; [done|]. split; [done|]. by rewrite El.
Qed.

Lemma check_received_keeps s : data_ok s -> p_stray (phase_of s) = false ->
  let p := phase_of s in
  data_ok (check_received s) /\
  phase_of (check_received s) = (if p_ind p && (p_acked p || negb (p_tries p))
    then p <| p_retry := false |> <| p_wait := false |> <| p_run := false |> else p).
Proof.
  intros Hd Hw. unfold check_received. cbv zeta.
  replace (AckTimeoutRetries s <? AckTimeoutRetriesCounter s) with (negb (p_tries (phase_of s)))
    by (cbn; by rewrite <- Z.ltb_antisym). change (McpsInd (LoRaMacFlags s)) with (p_ind (phase_of s)).
  change (mc_AckReceived (McpsConfirm s)) with (p_acked (phase_of s)).
  destruct (p_ind (phase_of s) && _); [|done]. set (s1 := s <| AckTimeoutRetry := false |> <| NodeAckRequested := false |>).
  destruct (bump_phase s1) as (Hb & Hv & Hj). split; [by apply (data_ok_ext s)|].
  rewrite stop_tx_phase; [|change (p_stray (phase_of (bump_uplink s1)) = false); by rewrite Hb].
  set (g := fun c : McpsConfirm_t => _). change (phase_of ((bump_uplink s1) <| McpsConfirm ::= g |>)) with (phase_of (bump_uplink s1)).
  by rewrite Hb.
Qed.

Lemma data_ok_params s g : data_ok s -> param_wf (g (LoRaMacParams s)) -> length (ChannelsMask (g (LoRaMacParams s))) = 6%nat ->
  Rx2Datarate (g (LoRaMacParams s)) <= 7 -> data_ok (s <| LoRaMacParams ::= g |>).
Proof.
  intros [D1 [] D3 D4 D5 D6 D7 D8 D9 D10] H1 H2 H3. split; try done. by apply sched_ok_params.
Qed.

Lemma data_ok_reenable s : data_ok s -> data_ok (s <| LoRaMacParams ::= reenable_default |>).
Proof.
  intros Hd. destruct (so_inv _ (do_sched _ Hd)) as [_ [] _ []]. apply data_ok_params; [done|by split| |apply Hd].
  cbn [reenable_default update ChannelsMask]. by rewrite zupd_length.
Qed.

Lemma check_retry_keeps s : data_ok s -> p_stray (phase_of s) = false ->
  exists s' again o, check_retry s = Done s' /\ data_ok s' /\
    let p := phase_of s in
    phase_of s' = (if p_retry p && negb (p_delayed p) then
                     let p := p <| p_retry := false |> in
                     if again : bool then schedule o (p <| p_tries := true |> <| p_done := false |>)
                     else p <| p_run := false |> <| p_wait := false |> <| p_acked := false |>
                   else p).
Proof.
  intros Hd Hw. unfold check_retry. change (AckTimeoutRetry s) with (p_retry (phase_of s)).
  replace (Z.land (LoRaMacState s) MAC_TX_DELAYED =? 0) with (negb (p_delayed (phase_of s)))
    by (symmetry; exact (land_bit _ 4 ltac:(lia))).
  destruct (p_retry (phase_of s) && _); [|by exists s, false, DeviceOff].
  cbn [update AckTimeoutRetriesCounter AckTimeoutRetries].
  destruct ((_ <? _) && _) eqn:Ea.
  - apply andb_true_iff in Ea as [E1%Z.ltb_lt E2%Z.leb_le]. pose proof (do_tries _ Hd) as H0. unfold MAX_ACK_RETRIES in E2.
    match goal with |- context [ScheduleTx ?x] => pose proof (retry_params s _ (do_sched _ Hd) H0 x eq_refl) as Hp;
      assert (Hx : data_ok x /\ phase_of x = (phase_of s) <| p_retry := false |> <| p_tries := true |> <| p_done := false |>) end.
    { destruct Hp as (Hs1 & Hc & _ & _ & _ & _ & HR & _). split.
      - destruct Hd as [D1 [] D3 D4 D5 D6 D7 D8 D9 D10]. split; try done; [| | | | | | |by rewrite Hc, u8_id; unfold is_u8; lia|];
          by destruct (_ mod 2 =? 1).
      - unfold phase_of at 1. rewrite HR, Hc, u8_id by (unfold is_u8; lia).
        rewrite (proj2 (Z.leb_le _ (AckTimeoutRetries s))) by lia. clear. by destruct (_ mod 2 =? 1). }
    match goal with |- context [ScheduleTx ?x] => destruct (schedule_keeps x) as (st & s' & o & -> & Hd' & Hp' & _) end; [apply Hx|by rewrite (proj2 Hx)|].
    cbn [rbind]. exists s', true, o. split; [done|]. split; [done|]. by rewrite Hp', (proj2 Hx).
  - eexists _, false, DeviceOff. split; [reflexivity|].
    set (s1 := s <| AckTimeoutRetry := false |> <| LoRaMacParams ::= reenable_default |>).
    match goal with |- data_ok (bump_uplink ?x) /\ _ => destruct (bump_phase x) as (Hb & Hv & Hj);
      change (phase_of x) with ((phase_of (stop_tx s1)) <| p_wait := false |> <| p_acked := false |>) in Hb end.
    split; [|by rewrite Hb, stop_tx_phase].
    apply (data_ok_ext s1); [done|done|]. apply (data_ok_ext (s <| LoRaMacParams ::= reenable_default |>)); [done|done|].
    apply data_ok_reenable, Hd.
Qed.

(** The end of the check. *)
Lemma word_idle r d a : (state_word r d a =? MAC_IDLE) = negb (r || d || a).
Proof. by destruct r, d, a. Qed.

(** It changes the calls, the state word and the flags only. *)
Definition note_core (s : mac) : mac := s <| trace := [] |> <| LoRaMacState := 0 |> <| LoRaMacFlags := flags_zero |>.

Lemma note_if (b : bool) x y s : note_core x = note_core s -> note_core y = note_core s -> note_core (if b then x else y) = note_core s.
Proof. by destruct b. Qed.

Lemma check_finish_note s : note_core (check_finish s) = note_core s.
Proof.
  assert (Hlog : forall l x, note_core (log l x) = note_core x) by done.
  assert (Hflags : forall g x, note_core (x <| LoRaMacFlags ::= g |>) = note_core x) by done.
  unfold check_finish. set (s1 := if state_has MAC_RX s then _ else s).
  assert (H1 : note_core s1 = note_core s) by (by apply note_if). clearbody s1.
  set (s2 := if McpsReq (LoRaMacFlags s1) then _ else s1). assert (H2 : note_core s2 = note_core s) by (apply note_if; [by rewrite Hflags, Hlog|done]).
  clearbody s2. set (s3 := if MlmeReq (LoRaMacFlags s2) then _ else s2).
  assert (H3 : note_core s3 = note_core s) by (apply note_if; [by rewrite Hflags, Hlog|done]). clearbody s3.
  set (s4 := if LoRaMacState s1 =? MAC_IDLE then _ else _).
  assert (H4 : note_core s4 = note_core s) by (apply note_if; [by rewrite Hflags|by rewrite Hlog]). clearbody s4.
  apply note_if; [by rewrite Hflags, Hlog|done].
Qed.

Lemma note_core_eq s s' : note_core s' = note_core s ->
  s' = s <| trace := trace s' |> <| LoRaMacState := LoRaMacState s' |> <| LoRaMacFlags := LoRaMacFlags s' |>.
Proof.
  intros E. assert (H : forall x, x = (note_core x) <| trace := trace x |> <| LoRaMacState := LoRaMacState x |> <| LoRaMacFlags := LoRaMacFlags x |>)
    by (by intros []). rewrite (H s') at 1. rewrite E. reflexivity.
Qed.

Lemma notifications_calls s p : calls (notifications s) p = p.
Proof.
  unfold notifications. destruct (_ =? MAC_IDLE); [destruct (McpsReq _), (MlmeReq _)|]; destruct (McpsInd _); by destruct p.
Qed.

Lemma check_finish_keeps s : data_ok s -> p_stray (phase_of s) = false ->
  let p := phase_of s in
  data_ok (check_finish s) /\
  phase_of (check_finish s) = p <| p_done := p_done p && negb (negb (p_run p || p_delayed p || p_abort p || p_stray p)) |> <| p_ind := false |>.
Proof.
  intros Hd Hw p. pose proof (word_of_phase s Hw) as E.
  destruct (check_finish_spec s) as (Ht & Hs & Hf & _).
  assert (Hrx : clear_rx s = s).
  { unfold clear_rx. replace (state_has MAC_RX s) with false; [done|].
    unfold state_has. rewrite E. by destruct (p_run _), (p_delayed _), (p_abort _). }
  rewrite Hrx in Ht, Hs, Hf. rewrite (note_core_eq _ _ (check_finish_note s)), Ht, Hs.
  set (f := LoRaMacFlags (check_finish s)) in *. clearbody f.
  set (s1 := s <| trace := _ |> <| LoRaMacState := _ |> <| LoRaMacFlags := f |>).
  split.
  - apply (data_ok_ext s); [done| |done]. unfold join_pending. change (LoRaMacFlags s1) with f. rewrite Hf.
    destruct (_ =? MAC_IDLE); [by intros [? _]|done].
  - rewrite (phase_calls s s1 (notifications s)), notifications_calls by done.
    set (s2 := s1 <| trace := trace s |>). change (phase_of s2) with (p <| p_done := MacDone f |> <| p_ind := McpsInd f |>).
    rewrite Hf, E, word_idle. unfold p. rewrite Hw, orb_false_r. destruct (negb _); cbn [negb]; by rewrite ?andb_true_r, ?andb_false_r.
Qed.

Lemma stray_schedule o p : p_stray (schedule o p) = p_stray p.
Proof. by destruct o. Qed.

Lemma state_check_step s : sys_ok s -> exists s' c, OnMacStateCheckTimerEvent s = Done (tt, s') /\ data_ok s' /\ phase_of s' = check_step c (phase_of s).
Proof.
  intros [Hd Hp]. unfold OnMacStateCheckTimerEvent. set (s1 := log [TimerStop MacStateCheckTimer] s).
  assert (Hd1 : data_ok s1) by (by apply (data_ok_ext s)). assert (Hp1 : phase_of s1 = phase_of s) by (unfold s1; rewrite phase_log; reflexivity).
  rewrite <- Hp1 in Hp |- *. clearbody s1. clear Hd Hp1 s. rename s1 into s.
  enough (H : exists s' c, check_done s = Done s' /\ data_ok s' /\ phase_of s' = (if p_done (phase_of s) then check_end c (phase_of s) else phase_of s)
    /\ p_stray (phase_of s') = false).
  { destruct H as (s' & c & -> & Hd' & Hph & Hst). cbn [rbind]. exists (check_finish s'), c. split; [done|].
    destruct (check_finish_keeps s' Hd' Hst) as [H1 H2]. split; [done|]. by rewrite H2, Hph. }
  pose proof (not_stray _ Hp) as Hw. unfold check_done. change (MacDone (LoRaMacFlags s)) with (p_done (phase_of s)).
  destruct (p_done (phase_of s)); [|by exists s, (mkChoices false false DeviceOff false DeviceOff)]. cbv zeta.
  destruct (check_abort_keeps s Hd1 Hw) as [Hd2 Hp2]. set (s2 := if state_has MAC_RX_ABORT s then _ else s) in *.
  assert (Hw2 : p_stray (phase_of s2) = false) by (rewrite Hp2; by destruct (p_abort _)).
  pose proof (check_timeout_keeps s2 Hd2 Hw2) as H3. destruct (check_tx_timeout s2) as [failed s3]. destruct H3 as (Hd3 & Hf & Hr & Hp3).
  assert (Hw3 : p_stray (phase_of s3) = false) by (rewrite Hp3; by destruct failed).
  destruct (check_unconfirmed_keeps failed s3 Hd3 Hw3) as (s4 & last & o & -> & Hd4 & Hp4). cbn [rbind].
  assert (Hw4 : p_stray (phase_of s4) = false) by (rewrite Hp4; cbv zeta; repeat case_match; rewrite ?stray_schedule; exact Hw3).
  destruct (check_received_keeps s4 Hd4 Hw4) as [Hd5 Hp5]. set (s5 := check_received s4) in *.
  assert (Hw5 : p_stray (phase_of s5) = false) by (rewrite Hp5; cbv zeta; repeat case_match; exact Hw4).
  destruct (check_retry_keeps s5 Hd5 Hw5) as (s6 & again & o2 & -> & Hd6 & Hp6).
  exists s6, (mkChoices (request_pending s2) last o again o2). split; [done|]. split; [done|]. split.
  - rewrite Hp6, Hp5, Hp4, Hp3, Hr, Hf, Hp2. reflexivity.
  - rewrite Hp6. cbv zeta. repeat case_match; rewrite ?stray_schedule; exact Hw5.
Qed.

Lemma state_check_keeps s : sys_ok s -> wp OnMacStateCheckTimerEvent s (fun _ => sys_ok).
Proof.
  intros Hs. destruct (state_check_step s Hs) as (s' & c & E & Hd & Hp). exists tt, s'. split; [done|]. split; [done|].
  rewrite Hp. apply check_step_ok, Hs.
Qed.

(** ** Building frames *)

(** The payload pointer of a request leads to [size] bytes. *)
Definition readable (buf : option (list Z)) (size : Z) : Prop :=
  match buf with None => size = 0 | Some b => 0 <= size < 256 /\ size <= zlen b end.

Lemma place_commands_total s fc buf size port : length (LoRaMacBuffer s) = 255%nat -> length (MacCommandsBuffer s) = 15%nat ->
  0 <= MacCommandsBufferIndex s <= 13 -> readable buf size ->
  exists pl n port' h b, place_commands fc buf size port s = Done ((pl, n, port', h), s <| LoRaMacBuffer := b |>) /\
    length b = 255%nat /\ 0 <= n /\ 8 <= h /\ h + n <= 8 + size + MacCommandsBufferIndex s /\ readable pl n.
Proof.
  intros HB HM Hi Hr. unfold place_commands, LORA_MAC_COMMAND_MAX_LENGTH.
  assert (Hs : 0 <= size) by (destruct buf; cbn in Hr; lia).
  assert (Hcmd : forall pl : option (list Z), readable pl size -> exists pl' n port' h b,
    (if (0 <? MacCommandsBufferIndex s) && MacCommandsInNextTx s then Done (Some (MacCommandsBuffer s), MacCommandsBufferIndex s, 0, 8, s)
     else Done (pl, size, port, 8, s)) = Done (pl', n, port', h, s <| LoRaMacBuffer := b |>) /\
    length b = 255%nat /\ 0 <= n /\ 8 <= h /\ h + n <= 8 + size + MacCommandsBufferIndex s /\ readable pl' n).
  { intros pl Hpl. destruct (_ && _).
    - exists (Some (MacCommandsBuffer s)), (MacCommandsBufferIndex s), 0, 8, (LoRaMacBuffer s). split; [by destruct s|]. cbn. split_and!; lia.
    - exists pl, size, port, 8, (LoRaMacBuffer s). split; [by destruct s|]. split_and!; try done; lia. }
  destruct buf as [msg|]; [|by apply Hcmd]. destruct (0 <? size); [|by apply Hcmd]. destruct ((_ <=? 15) && _) eqn:E.
  - rewrite put_spec by (cbn [length]; lia). cbn [rbind update MacCommandsBuffer]. rewrite rdn_ok by lia. cbn [rbind].
    rewrite put_spec; [|lia|cbn [update LoRaMacBuffer]; rewrite splice_length, length_take, length_drop by (cbn [length]; lia); lia].
    cbn [rbind update LoRaMacBuffer]. rewrite u8_id by (unfold is_u8; lia). eexists _, _, _, _, _. split; [reflexivity|].
    split; [rewrite splice_length, splice_length; cbn [length]; rewrite ?splice_length, ?length_take, ?length_drop; cbn [length]; lia|].
    split_and!; try done; lia.
  - exists (Some msg), size, port, 8, (LoRaMacBuffer s). split; [by destruct s|]. split_and!; try done; lia.
Qed.

Lemma place_payload_total s pl n port h : buf_wf s -> readable pl n -> 0 <= n -> 8 <= h -> h + n <= 250 ->
  exists h' lp b, place_payload pl n port h s = Done (h', s <| LoRaMacPayload := lp |> <| LoRaMacBuffer := b |>) /\
    length lp = 255%nat /\ length b = 255%nat /\ h <= h' <= h + 1.
Proof.
  intros [B1 B2 B3 B4 B5] Hr Hn Hh Hfit.
  assert (Hno : exists h' lp b, Done (h, s) = Done (h', s <| LoRaMacPayload := lp |> <| LoRaMacBuffer := b |>) /\
    length lp = 255%nat /\ length b = 255%nat /\ h <= h' <= h + 1).
  { exists h, (LoRaMacPayload s), (LoRaMacBuffer s). split; [by destruct s|]. split_and!; try done; lia. }
  destruct pl as [buf|]; [|exact Hno]. destruct (Z.ltb_spec 0 n) as [H0|H0]; [|unfold place_payload; by rewrite (proj2 (Z.ltb_ge 0 n))].
  cbn in Hr. destruct (place_payload_spec s buf n port h) as (lp & E & Hlp & Henc); try done; try lia.
  rewrite E. eexists _, lp, _. split; [reflexivity|]. split; [done|]. split; [|lia].
  rewrite splice_length, splice_length; cbn [length]; rewrite ?splice_length; cbn [length]; lia.
Qed.

Lemma put_mic_total s : length (LoRaMacBuffer s) = 255%nat -> 0 <= LoRaMacBufferPktLen s <= 251 ->
  exists b, put_mic s = Done (tt, s <| LoRaMacBuffer := b |> <| LoRaMacBufferPktLen := LoRaMacBufferPktLen s + 4 |>) /\ length b = 255%nat.
Proof.
  intros HB Hl. unfold put_mic. rewrite land_ff, Z.mod_small by lia. rewrite rdn_ok by lia. cbn [rbind].
  rewrite put_spec by (cbn [length le32]; lia). cbn [rbind]. unfold LORAMAC_MFR_LEN. rewrite u16_id by (unfold is_u16; lia).
  eexists. split; [reflexivity|]. rewrite splice_length; cbn [length le32]; lia.
Qed.

(** A payload that is too long for every datarate, or that leaves room for the answers to repeat. *)
Definition fits (s : mac) (size : Z) : Prop :=
  MacCommandsBufferIndex s + MacCommandsBufferToRepeatIndex s <= 13 /\
  (242 < size + MacCommandsBufferIndex s \/ size + MacCommandsBufferIndex s + MacCommandsBufferToRepeatIndex s <= 242).

(** What building a frame must have left in order. *)
Record frame_ok (s' : mac) : Prop := mkFrameOk {
  fk_buffer : length (LoRaMacBuffer s') = 255%nat;
  fk_payload : length (LoRaMacPayload s') = 255%nat;
  fk_cmd : cmd_wf s';
  fk_dr : 0 <= ChannelsDatarate (LoRaMacParams s') <= 7;
  fk_len : 0 <= LoRaMacBufferPktLen s' <= 255;
}.

Lemma max_payload_242 s dr : max_payload s dr <= 242.
Proof.
  assert (H : forall l : list Z, Forall (fun x => x <= 242) l -> l.[dr] <= 242).
  { intros l Hl. unfold znth. destruct (nth_in_or_default (Z.to_nat dr) l 0) as [Hin|E]; [|rewrite E; lia].
    rewrite Forall_forall in Hl. by apply Hl, list_elem_of_In. }
  unfold max_payload. destruct (RepeaterSupport s); apply H; repeat (apply List.Forall_cons; [lia|]); apply List.Forall_nil.
Qed.

Lemma prepare_data_total s fc port buf size : frame_ok s -> buf_wf s -> readable buf size -> fits s size ->
  exists st s', prepare_data fc port buf size size s = Done (st, s') /\ frame_ok s' /\ NodeAckRequested s' = NodeAckRequested s.
Proof.
  intros [F1 F2 F3 F4 F5] HB Hr [H13 Hfit]. unfold prepare_data. destruct (negb _); [by exists LORAMAC_STATUS_NO_NETWORK_JOINED, s|].
  assert (Hs : is_u8 size) by (unfold is_u8; destruct buf; cbn in Hr; lia). pose proof F3 as [W1 W2 W3 W4 W5].
  destruct (AdrNextDr_total s (negb (Adr fc =? 0)) true F4) as (req & dr & a & p & -> & Hdr' & Hp). cbn [rbind].
  rewrite ValidatePayloadLength_spec by (done || lia || (cbn [update MacCommandsBufferIndex]; lia)).
  cbn [rbind]. change (max_payload _ dr) with (max_payload s dr). pose proof (max_payload_242 s dr) as H242.
  set (s1 := s <| AdrAckCounter := a |> <| LoRaMacParams := p |> <| LoRaMacParams ::= _ |>).
  change (MacCommandsBufferIndex s1) with (MacCommandsBufferIndex s).
  destruct (Z.leb_spec (size + MacCommandsBufferIndex s) (max_payload s dr)) as [Hle|Hgt]; cbn [negb].
  2: { exists LORAMAC_STATUS_LENGTH_ERROR, s1. split; [done|]. split; [|done]. split; try done. cbn. lia. }
  assert (Hfit' : size + MacCommandsBufferIndex s + MacCommandsBufferToRepeatIndex s <= 242) by lia.
  match goal with |- context [put 1 _ ?x] => set (s2 := x) end. match goal with |- context [put 1 ?l _] => set (hd := l) end.
  assert (Hhd : length hd = 7%nat) by done. clearbody hd. assert (HB2 : length (LoRaMacBuffer s2) = 255%nat) by done.
  rewrite (put_spec s2 1 hd) by lia. cbn [rbind].
  set (b1 := splice (LoRaMacBuffer s2) (Z.to_nat 1) hd).
  assert (Hb1 : length b1 = 255%nat) by (unfold b1; rewrite splice_length; lia).
  destruct (append_repeats_spec (s2 <| LoRaMacBuffer := b1 |>)) as (cb & -> & Hcb & _); [by split|].
  cbn [rbind update MacCommandsBufferIndex MacCommandsBufferToRepeatIndex].
  match goal with |- context [place_commands _ _ _ _ ?x] => set (s3 := x) end. match goal with |- context [place_commands ?f _ _ _ _] => set (fc' := f) end.
  assert (Hi3 : MacCommandsBufferIndex s3 = MacCommandsBufferIndex s + MacCommandsBufferToRepeatIndex s) by done.
  destruct (place_commands_total s3 fc' buf size port) as (pl & n & port' & h & b & -> & Hb & Hn & Hh & Hhn & Hpl);
    [done|done|lia|done|]. cbn [rbind]. rewrite Hi3 in Hhn.
  destruct (finish_commands_spec (s3 <| LoRaMacBuffer := b |>)) as (m & rep & -> & Hrep & Hm); [done|done|cbn; lia|]. cbn [rbind].
  match goal with |- context [place_payload _ _ _ _ ?x] => set (s4 := x) end.
  assert (HB4 : buf_wf s4) by (by destruct HB).
  destruct (place_payload_total s4 pl n port' h HB4 Hpl Hn Hh) as (h' & lp & b5 & -> & Hlp & Hb5 & Hh'); [lia|]. cbn [rbind].
  match goal with |- context [put_mic ?x] => set (s5 := x) end.
  assert (Hl5 : LoRaMacBufferPktLen s5 = h' + n) by (unfold s5; cbn; rewrite u16_id; [done|unfold is_u16; lia]).
  destruct (put_mic_total s5) as (b6 & -> & Hb6); [done|lia|]. cbn [rbind]. eexists _, _. split; [reflexivity|]. split; [|done].
  split; try done.
  - cbn. by split; cbn; try lia.
  - cbn. lia.
  - cbn [update LoRaMacBufferPktLen]. lia.
Qed.

(** What a frame of this type needs. *)
Definition buildable (s : mac) (mtype : Z) (buf : option (list Z)) (size : Z) : Prop :=
  if mtype =? FRAME_TYPE_JOIN_REQ then join_ready s /\ readable buf size
  else if mtype =? FRAME_TYPE_PROPRIETARY then readable buf size /\ size <= 254
  else readable buf size /\ fits s size.

Lemma data_ok_prepared s s' : data_ok s -> prep_core s' = prep_core s -> frame_ok s' -> data_ok s'.
Proof.
  intros Hd Hc [F1 F2 F3 F4 F5].
  assert (F : forall A (f : mac -> A), (forall x, f (prep_core x) = f x) -> f s' = f s).
  { intros A f Hf. rewrite <- (Hf s'), <- (Hf s). by rewrite Hc. }
  assert (HB : buf_wf s').
  { destruct (do_buf _ Hd). split; [done|done|by rewrite (F _ LoRaMacRxPayload)|by rewrite (F _ LoRaMacNwkSKey)|by rewrite (F _ LoRaMacAppSKey)]. }
  destruct Hd as [D1 D2 D3 D4 D5 D6 D7 D8 D9 D10]. split; [|done|..].
  - apply (prepared_sched_ok s); try done. rewrite <- (prep_view_core s'), <- (prep_view_core s). by f_equal.
  - by rewrite (F _ LoRaMacRxPayload).
  - by rewrite (F _ (fun x => Rx2Datarate (LoRaMacParams x))).
  - by rewrite (F _ LoRaMacParamsDefaults).
  - by rewrite (F _ LoRaMacDeviceClass).
  - destruct D7 as (l & Hl). exists l. unfold groups in *. by rewrite (F _ MulticastNodes), (F _ MulticastChannels).
  - by rewrite (F _ MulticastNodes).
  - by rewrite (F _ AckTimeoutRetriesCounter).
  - rewrite (F _ LoRaMacFlags), (F _ MlmeConfirm) by done. intros H1 H2. unfold join_ready.
    rewrite (F _ LoRaMacAppEui), (F _ LoRaMacDevEui), (F _ LoRaMacAppKey) by done. by apply D10.
Qed.

Lemma phase_prepared s s' : prep_core s' = prep_core s -> phase_of s' = (phase_of s) <| p_wait := NodeAckRequested s' |>.
Proof.
  intros E%(f_equal phase_of).
  change (phase_of (prep_core s')) with ((phase_of s') <| p_wait := false |>) in E.
  change (phase_of (prep_core s)) with ((phase_of s) <| p_wait := false |>) in E.
  change (phase_of s') with (((phase_of s') <| p_wait := false |>) <| p_wait := NodeAckRequested s' |>). rewrite E. reflexivity.
Qed.

Lemma data_frame_ok s : data_ok s -> frame_ok s.
Proof. intros Hd. destruct (do_sched _ Hd) as [[H1 _ _ []] _ _ S4 S5], (do_buf _ Hd). by split. Qed.

Lemma prepare_proprietary_total s buf size : length (LoRaMacBuffer s) = 255%nat -> 0 <= LoRaMacBufferPktLen s <= 255 -> readable buf size -> size <= 254 ->
  exists b n, prepare_proprietary buf size s = Done (tt, s <| LoRaMacBuffer := b |> <| LoRaMacBufferPktLen := n |>) /\
    length b = 255%nat /\ 0 <= n <= 255.
Proof.
  intros HB HL Hr H254. unfold prepare_proprietary.
  assert (Hno : exists b n, Done (tt, s) = Done (tt, s <| LoRaMacBuffer := b |> <| LoRaMacBufferPktLen := n |>) /\ length b = 255%nat /\ 0 <= n <= 255).
  { exists (LoRaMacBuffer s), (LoRaMacBufferPktLen s). split; [by destruct s|done]. }
  destruct buf as [buf|]; [|exact Hno]. destruct (Z.ltb_spec 0 size) as [H0|H0]; [|exact Hno]. cbn in Hr.
  rewrite memcpy1_splice by (try unfold is_u16; lia). cbn [rbind]. eexists _, _. split; [reflexivity|].
  rewrite u16_id by (unfold is_u16; lia). split; [rewrite splice_length; rewrite ?length_take; lia|lia].
Qed.

(** A join request changes the frame, the delays of the windows and the nonce only. *)
Definition join_core (s : mac) : mac :=
  s <| LoRaMacBuffer := [] |> <| LoRaMacBufferPktLen := 0 |> <| RxWindow1Delay := 0 |> <| RxWindow2Delay := 0 |> <| LoRaMacDevNonce := 0 |>.

Lemma put_join_core off l s u s' : put off l s = Done (u, s') -> join_core s' = join_core s.
Proof. unfold put. intros H. apply rbind_inv in H as (b & _ & H). by injection H as _ <-. Qed.

Lemma prepare_join_req_frame s u s' : prepare_join_req s = Done (u, s') -> join_core s' = join_core s.
Proof.
  unfold prepare_join_req, put_join_mic. intros H. apply rbind_inv in H as (b1 & _ & H). apply rbind_inv in H as (b2 & _ & H).
  apply rbind_inv in H as ([u3 s3] & E3%put_join_core & H). apply rbind_inv in H as (msg & _ & H).
  apply rbind_inv in H as ([u4 s4] & E4%put_join_core & H). injection H as _ <-.
  trans (join_core s4); [done|]. rewrite E4. trans (join_core s3); [done|]. by rewrite E3.
Qed.

Lemma PrepareFrame_total s hdr fc port buf size : data_ok s -> buildable s (MType hdr) buf size ->
  exists st s', PrepareFrame hdr fc port buf size s = Done (st, s') /\ data_ok s' /\ prep_core s' = prep_core s /\
    NodeAckRequested s' = (MType hdr =? FRAME_TYPE_DATA_CONFIRMED_UP) /\ (MType hdr = FRAME_TYPE_JOIN_REQ -> st = LORAMAC_STATUS_OK).
Proof.
  intros Hd Hb. pose proof (data_frame_ok s Hd) as [F1 F2 F3 F4 F5].
  enough (H : exists st s', PrepareFrame hdr fc port buf size s = Done (st, s') /\ frame_ok s' /\
    NodeAckRequested s' = (MType hdr =? FRAME_TYPE_DATA_CONFIRMED_UP) /\ (MType hdr = FRAME_TYPE_JOIN_REQ -> st = LORAMAC_STATUS_OK)).
  { destruct H as (st & s' & E & Hf & Hn & Hj). pose proof (PrepareFrame_core _ _ _ _ _ _ _ _ E) as Hc.
    exists st, s'. split_and!; try done. by apply (data_ok_prepared s). }
  assert (Hr : readable buf size) by (unfold buildable in Hb; repeat case_match; apply Hb).
  assert (Hsz : u8 size = size /\ match buf with None => 0 | Some _ => size end = size).
  { destruct buf; cbn in Hr; [|by subst]. split; [|done]. rewrite u8_id; [done|]. apply Hr. }
  unfold PrepareFrame. destruct Hsz as [-> ->]. set (s1 := s <| LoRaMacBufferPktLen := 0 |> <| NodeAckRequested := false |>).
  rewrite (put_spec s1 0 [hdr]) by (change (LoRaMacBuffer s1) with (LoRaMacBuffer s); cbn [length]; lia). cbn [rbind].
  set (b := splice _ _ _). assert (HB : length b = 255%nat).
  { unfold b. rewrite splice_length; change (LoRaMacBuffer s1) with (LoRaMacBuffer s); cbn [length]; lia. }
  assert (Hst : starts b [hdr]) by (unfold b, starts; change (LoRaMacBuffer s1) with (LoRaMacBuffer s); change (Z.to_nat 0) with 0%nat; by destruct (LoRaMacBuffer s)).
  set (s2 := s1 <| LoRaMacBuffer := b |>). assert (Hf2 : frame_ok s2) by (destruct F3; by split).
  assert (HB2 : buf_wf s2) by (by destruct (do_buf _ Hd); split). unfold buildable in Hb.
  destruct (Z.eqb_spec (MType hdr) FRAME_TYPE_JOIN_REQ) as [Et|Hne].
  - rewrite Et. destruct Hb as [(J1 & J2 & J3) _].
    destruct (prepare_join_req_spec s2 hdr) as (s3 & E & _ & HL & HB3 & _); try done. rewrite E. cbn [rbind].
    exists LORAMAC_STATUS_OK, s3. split; [done|]. apply prepare_join_req_frame in E.
    assert (F : forall A (f : mac -> A), (forall x, f (join_core x) = f x) -> f s3 = f s2).
    { intros A f Hf. rewrite <- (Hf s3), <- (Hf s2). by rewrite E. }
    split; [|by rewrite (F _ NodeAckRequested)]. destruct Hf2 as [G1 G2 [G3 G4 G5 G6 G7] G8 G9].
    split; [done|by rewrite (F _ LoRaMacPayload)| |by rewrite (F _ LoRaMacParams)|rewrite HL; lia].
    split; rewrite ?(F _ MacCommandsBuffer), ?(F _ MacCommandsBufferIndex), ?(F _ MacCommandsBufferToRepeatIndex),
      ?(F _ MacCommandsBufferToRepeat) by done; done.
  - destruct (Z.eqb_spec (MType hdr) FRAME_TYPE_DATA_CONFIRMED_UP) as [Et|_]; [rewrite Et in Hb|
      destruct (Z.eqb_spec (MType hdr) FRAME_TYPE_DATA_UNCONFIRMED_UP) as [Et|_]; [rewrite Et in Hb|
      destruct (Z.eqb_spec (MType hdr) FRAME_TYPE_PROPRIETARY) as [Et|_]]].
    + destruct (prepare_data_total (s2 <| NodeAckRequested := true |>) fc port buf size) as (st & s' & E & Hf & Hn);
        [by destruct Hf2 as [? ? [] ? ?]|by destruct HB2|done|apply Hb|]. by exists st, s'.
    + destruct (prepare_data_total s2 fc port buf size) as (st & s' & E & Hf & Hn); [done|done|done|apply Hb|]. by exists st, s'.
    + destruct (prepare_proprietary_total s2 buf size) as (b3 & n & -> & Hb3 & Hn); [done|cbn; lia|done|apply Hb|].
      cbn [rbind]. eexists _, _. split; [reflexivity|]. split; [|done]. destruct Hf2 as [? ? [] ? ?]. by split.
    + eexists _, s2. by split.
Qed.

(** Sending: the frame is refused, or it is scheduled. *)
Lemma Send_keeps s hdr port buf size : data_ok s -> p_stray (phase_of s) = false -> buildable s (MType hdr) buf size ->
  exists st s', Send hdr port buf size s = Done (st, s') /\ data_ok s' /\
    let p := (phase_of s) <| p_wait := MType hdr =? FRAME_TYPE_DATA_CONFIRMED_UP |> in
    (MType hdr <> FRAME_TYPE_JOIN_REQ /\ st <> LORAMAC_STATUS_OK /\ phase_of s' = p \/
     exists o, phase_of s' = schedule o (p <| p_acked := false |>) /\
       st = match o with DeviceOff => LORAMAC_STATUS_DEVICE_OFF | _ => LORAMAC_STATUS_OK end).
Proof.
  intros Hd Hw Hb. unfold Send.
  destruct (PrepareFrame_total s hdr (mkFCtrl 0 0 0 0 (b2z (AdrCtrlOn s))) port buf size Hd Hb) as (st & s1 & -> & Hd1 & Hc & Hn & Hj).
  cbn [rbind]. pose proof (phase_prepared s s1 Hc) as Hp1. rewrite Hn in Hp1.
  case_bool_decide as Est; cbn [negb]; [|exists st, s1; split; [done|]; split; [done|]; left; split; [intros E; by apply Hj in E|done]].
  set (g := fun c : McpsConfirm_t => _). assert (Hp2 : phase_of (s1 <| McpsConfirm ::= g |>) = (phase_of s1) <| p_acked := false |>) by done.
  destruct (schedule_keeps (s1 <| McpsConfirm ::= g |>)) as (st2 & s2 & o & -> & Hd2 & Ho & Hst);
    [by apply (data_ok_ext s1)|by rewrite Hp2, Hp1|].
  exists st2, s2. split; [done|]. split; [done|]. right. exists o. by rewrite Ho, Hp2, Hp1.
Qed.

Lemma tx_later_keeps s : sys_ok s -> p_later (phase_of s) = true -> wp OnTxDelayedTimerEvent s (fun _ => sys_ok).
Proof.
  intros [Hd Hp] Hl. unfold wp, OnTxDelayedTimerEvent. set (s1 := (log [TimerStop TxDelayedTimer] s) <| LoRaMacState ::= _ |>).
  pose proof (not_stray _ Hp) as Hw.
  assert (Hp1 : phase_of s1 = (phase_of s) <| p_later := false |> <| p_delayed := false |>).
  { unfold s1. rewrite (phase_update _ _ (p_run (phase_of s)) false (p_abort (phase_of s))), phase_log.
    - revert Hw. generalize (phase_of s). intros []. cbn. by intros ->.
    - change (LoRaMacState (log _ s)) with (LoRaMacState s). rewrite (word_of_phase s Hw). by destruct (p_run _), (p_delayed _), (p_abort _). }
  assert (Hd1 : data_ok s1) by (by apply (data_ok_ext s)). clearbody s1.
  enough (H : exists s2 b, (if MlmeReq (LoRaMacFlags s1) && bool_decide (ml_MlmeRequest (MlmeConfirm s1) = MLME_JOIN) then
       let* (_, s) := PrepareFrame (mhdr FRAME_TYPE_JOIN_REQ) (mkFCtrl 0 0 0 0 (b2z (AdrCtrlOn s1))) 0 None 0 s1 in Done s
     else Done s1) = Done s2 /\ data_ok s2 /\ phase_of s2 = (if b : bool then (phase_of s1) <| p_wait := false |> else phase_of s1)).
  { destruct H as (s2 & b & E & Hd2 & Hp2). cbv zeta. rewrite E. cbn [rbind].
    destruct (schedule_keeps s2) as (st & s3 & o & -> & Hd3 & Hp3 & _); [done|rewrite Hp2, Hp1; by destruct b|].
    exists tt, s3. split; [done|]. split; [done|]. rewrite Hp3, Hp2, Hp1. exact (tx_later_ok b o _ Hp Hl). }
  destruct (MlmeReq (LoRaMacFlags s1) && _) eqn:Ej; [|by exists s1, false].
  apply andb_true_iff in Ej as [Ej1 Ej2%bool_decide_eq_true].
  destruct (PrepareFrame_total s1 (mhdr FRAME_TYPE_JOIN_REQ) (mkFCtrl 0 0 0 0 (b2z (AdrCtrlOn s1))) 0 None 0) as (st & s2 & -> & Hd2 & Hc & Hn & _);
    [done|by split; [apply Hd1|]|].
  exists s2, true. split; [done|]. split; [done|]. rewrite (phase_prepared s1 s2 Hc), Hn. reflexivity.
Qed.

(** * Requests *)

Lemma idle_bits s : phase_ok (phase_of s) = true -> state_has MAC_TX_RUNNING s = false -> state_has MAC_TX_DELAYED s = false -> idle (phase_of s) = true.
Proof. intros Hp H1 H2. destruct (state_bits s) as (E1 & E2 & _). unfold idle. by rewrite <- E1, <- E2, H1, H2. Qed.

(** What the upper layer must ensure when it asks for a data frame. *)
Definition mcps_admissible (s : mac) (req : McpsReq_t) : Prop :=
  match req with
  | McpsUnconfirmed _ buf size _ => readable buf size /\ fits s size
  | McpsConfirmed _ buf size _ trials => readable buf size /\ fits s size /\ 1 <= trials
  | McpsProprietary buf size _ => readable buf size /\ size <= 254
  | McpsMulticast => True
  end.

Lemma data_ok_datarate s dr : data_ok s -> 0 <= dr <= 7 -> data_ok (s <| LoRaMacParams ::= fun p => p <| ChannelsDatarate := dr |> |>).
Proof.
  intros Hd Hdr. destruct (so_inv _ (do_sched _ Hd)) as [_ [] _ []]. apply data_ok_params; [done|by split|done|apply Hd].
Qed.

Lemma mcps_send_keeps p t f type hdr port buf size dr s : data_ok s -> p_stray p = false -> buildable s (MType hdr) buf size ->
  phase_of s = p <| p_acked := false |> <| p_tries := t |> <| p_failed ::= andb f |> ->
  (MType hdr = FRAME_TYPE_DATA_CONFIRMED_UP -> t = true) ->
  exists st s', mcps_send type hdr port buf size dr s = Done (st, s') /\ data_ok s' /\ exists q, phase_of s' = mcps_request q p.
Proof.
  intros Hd Hw Hb Hp Ht. unfold mcps_send.
  destruct (negb (AdrCtrlOn s) && _) eqn:Ev; [eexists _, s; split; [reflexivity|]; split; [done|]; by exists (Invalid t f)|].
  set (s1 := if AdrCtrlOn s then s else _). assert (Hd1 : data_ok s1 /\ phase_of s1 = phase_of s /\ buildable s1 (MType hdr) buf size).
  { unfold s1. destruct (AdrCtrlOn s); [done|]. split; [|done]. apply data_ok_datarate; [done|].
    cbn [negb andb] in Ev. apply negb_false_iff in Ev. unfold LORAMAC_TX_MIN_DATARATE, LORAMAC_TX_MAX_DATARATE in Ev.
    by rewrite in_range in Ev; apply bool_decide_eq_true in Ev. }
  destruct Hd1 as (Hd1 & Hp1 & Hb1). clearbody s1. rewrite Hp in Hp1.
  destruct (Send_keeps s1 hdr port buf size) as (st & s2 & -> & Hd2 & Hc); [done|by rewrite Hp1|done|]. cbn [rbind]. rewrite Hp1 in Hc.
  destruct Hc as [(_ & Hst & Hp2)|(o & Hp2 & ->)].
  - rewrite bool_decide_false by done. eexists _, _. split; [reflexivity|]. split; [by apply (data_ok_ext s2)|].
    exists (Unbuilt t f). change (phase_of _) with ((phase_of s2) <| p_wait := false |>). by rewrite Hp2.
  - exists (match o with DeviceOff => LORAMAC_STATUS_DEVICE_OFF | _ => LORAMAC_STATUS_OK end).
    assert (Et : t = (MType hdr =? FRAME_TYPE_DATA_CONFIRMED_UP) || t).
    { destruct (Z.eqb_spec (MType hdr) FRAME_TYPE_DATA_CONFIRMED_UP) as [E|]; [by rewrite Ht|done]. }
    exists (match o with DeviceOff => s2 <| NodeAckRequested := false |>
      | _ => s2 <| McpsConfirm ::= fun c => c <| mc_McpsRequest := type |> |> <| LoRaMacFlags ::= fun f => f <| McpsReq := true |> |> end).
    split; [by destruct o|]. split; [destruct o; by apply (data_ok_ext s2)|].
    exists (Built (MType hdr =? FRAME_TYPE_DATA_CONFIRMED_UP) t f o). unfold mcps_request. rewrite <- Et.
    destruct o as [| |c]; [change (phase_of _) with ((phase_of s2) <| p_wait := false |>)|change (phase_of _) with (phase_of s2) at 1..]; by rewrite Hp2.
Qed.

(** The confirmation of a data request is cleared before the request is looked at. *)
Lemma gave_up_clear a b : b = b && (a || b).
Proof. by destruct a, b. Qed.

Lemma mcps_keeps s req : sys_ok s -> mcps_admissible s req -> wp (LoRaMacMcpsRequest (Some req)) s (fun _ => sys_ok).
Proof.
  intros [Hd Hp] Ha. unfold wp, LoRaMacMcpsRequest.
  destruct (state_has MAC_TX_RUNNING s) eqn:E1; [by eexists _, s|]. destruct (state_has MAC_TX_DELAYED s) eqn:E2; [by eexists _, s|]. cbn [orb].
  pose proof (idle_bits s Hp E1 E2) as Hi. set (s1 := s <| McpsConfirm := _ |>).
  assert (Hd1 : data_ok s1) by (by apply (data_ok_ext s)). set (f := gave_up (ml_Status (MlmeConfirm s))).
  assert (Hp1 : phase_of s1 = (phase_of s) <| p_acked := false |> <| p_failed ::= andb f |>).
  { trans ((phase_of s) <| p_acked := false |> <| p_failed := f |>); [done|].
    trans ((phase_of s) <| p_acked := false |> <| p_failed := f && (gave_up (mc_Status (McpsConfirm s)) || f) |>); [by rewrite <- gave_up_clear|done]. }
  enough (H : exists st s', match req with
    | McpsUnconfirmed port buf size dr =>
        mcps_send MCPS_UNCONFIRMED (mhdr FRAME_TYPE_DATA_UNCONFIRMED_UP) port buf size dr (s1 <| AckTimeoutRetries := 1 |>)
    | McpsConfirmed port buf size dr trials =>
        mcps_send MCPS_CONFIRMED (mhdr FRAME_TYPE_DATA_CONFIRMED_UP) port buf size dr
          (s1 <| AckTimeoutRetriesCounter := 1 |> <| AckTimeoutRetries := trials |>)
    | McpsProprietary buf size dr =>
        mcps_send MCPS_PROPRIETARY (mhdr FRAME_TYPE_PROPRIETARY) 0 buf size dr (s1 <| AckTimeoutRetries := 1 |>)
    | McpsMulticast => Done (LORAMAC_STATUS_SERVICE_UNKNOWN, s1)
    end = Done (st, s') /\ data_ok s' /\ exists q, phase_of s' = mcps_request q (phase_of s)).
  { destruct H as (st & s' & E & Hd' & q & Hq). exists st, s'. split; [exact E|]. split; [done|]. rewrite Hq. by apply mcps_request_ok. }
  pose proof (not_stray _ Hp) as Hw. destruct req as [port buf size dr|port buf size dr trials|buf size dr|].
  - apply (mcps_send_keeps _ (AckTimeoutRetriesCounter s <=? 1) f); try done; [by apply (data_ok_ext s1)|].
    change (phase_of (s1 <| AckTimeoutRetries := 1 |>)) with ((phase_of s1) <| p_tries := AckTimeoutRetriesCounter s <=? 1 |>). by rewrite Hp1.
  - destruct Ha as (H1 & H2 & H3). apply (mcps_send_keeps _ true f); try done.
    + destruct Hd1 as [D1 [] D3 D4 D5 D6 D7 D8 D9 D10]. split; try done.
      destruct D1 as [S1 S2 S3 S4 S5]. split; try done. by apply (mac_inv_ext s1).
    + trans ((phase_of s1) <| p_tries := 1 <=? trials |>); [done|]. rewrite (proj2 (Z.leb_le 1 trials)), Hp1 by lia. reflexivity.
  - apply (mcps_send_keeps _ (AckTimeoutRetriesCounter s <=? 1) f); try done; [by apply (data_ok_ext s1)|].
    change (phase_of (s1 <| AckTimeoutRetries := 1 |>)) with ((phase_of s1) <| p_tries := AckTimeoutRetriesCounter s <=? 1 |>). by rewrite Hp1.
  - eexists _, s1. split; [reflexivity|]. split; [done|]. exists (Invalid (p_tries (phase_of s)) f). by rewrite Hp1.
Qed.

(** ** Commands *)

(** Commands, or the body of a frame that carries them: the receive buffer and
    the indication may change too. *)
Definition erased (s : mac) : mac := s <| LoRaMacRxPayload := [] |> <| McpsIndication := indication_zero |>.
Definition received (s s' : mac) : Prop := commanded (erased s) (erased s').

#[export] Instance received_preorder : PreOrder received.
Proof. split; unfold received; [intros s|intros s1 s2 s3 H1 H2; etransitivity; [exact H1|exact H2]]. reflexivity. Qed.

Lemma commanded_received s s' : commanded s s' -> received s s'.
Proof.
  intros [C R S X Y]. split; [|exact R|exact S|exact X|exact Y].
  exact (f_equal erased C).
Qed.

Lemma data_ok_received s s' : data_ok s -> rx_wf s' -> received s s' -> data_ok s'.
Proof.
  intros [D1 D2 D3 D4 D5 D6 D7 D8 D9 D10] [W1 W2 W3 W4 W5] [C R _ X _].
  assert (F : forall A (f : mac -> A), (forall x, f (cmd_core (erased x)) = f x) -> f s' = f s).
  { intros A f Hf. rewrite <- (Hf s'), <- (Hf s). by rewrite C. }
  split; [|..].
  - destruct D1. split; [done|by rewrite (F _ LastTxChannel)|by rewrite (F _ LoRaMacParamsDefaults)|by rewrite (F _ LoRaMacBuffer)|
      by rewrite (F _ LoRaMacBufferPktLen)].
  - destruct D2. split; [by rewrite (F _ LoRaMacBuffer)|by rewrite (F _ LoRaMacPayload)|done..].
  - done.
  - by apply X.
  - by rewrite (F _ LoRaMacParamsDefaults).
  - by rewrite (F _ LoRaMacDeviceClass).
  - destruct D7 as (l & Hl). exists l. unfold groups in *. by rewrite (F _ MulticastNodes), (F _ MulticastChannels).
  - by rewrite (F _ MulticastNodes).
  - by rewrite (F _ AckTimeoutRetriesCounter).
  - rewrite (F _ LoRaMacFlags) by done. intros H1 H2. unfold join_ready.
    rewrite (F _ LoRaMacAppEui), (F _ LoRaMacDevEui), (F _ LoRaMacAppKey) by done. apply D10; [done|].
    change (ml_MlmeRequest (MlmeConfirm (erased s)) = MLME_JOIN). by rewrite <- R.
Qed.

Lemma data_rx_wf s : data_ok s -> rx_wf s.
Proof. intros Hd. destruct (do_buf _ Hd). split; try done; apply Hd. Qed.

Lemma data_ok_commanded s s' : data_ok s -> mac_inv s' -> commanded s s' -> data_ok s'.
Proof.
  intros Hd Hi Hc. apply (data_ok_received s); [done| |by apply commanded_received]. destruct (data_rx_wf s Hd) as [W1 W2 W3 W4 W5].
  destruct Hc as [C _ _ _ _]. assert (F : forall A (f : mac -> A), (forall x, f (cmd_core x) = f x) -> f s' = f s).
  { intros A f Hf. rewrite <- (Hf s'), <- (Hf s). by rewrite C. }
  split; rewrite ?(F _ LoRaMacRxPayload), ?(F _ LoRaMacNwkSKey), ?(F _ LoRaMacAppSKey) by done; done.
Qed.

Lemma phase_received s s' : p_stray (phase_of s) = false -> gave_up (ml_Status (MlmeConfirm s)) = false -> received s s' ->
  phase_of s' = phase_of s /\ gave_up (ml_Status (MlmeConfirm s')) = false.
Proof.
  intros Hw Hg [C _ S _ Y].
  assert (Hg' : gave_up (ml_Status (MlmeConfirm s')) = false) by (by destruct S as [E|E]; cbn in E; rewrite E). split; [|done].
  assert (Es : LoRaMacState s' = LoRaMacState s).
  { apply Y. change (LoRaMacState (erased s)) with (LoRaMacState s). rewrite (word_of_phase s Hw). by destruct (p_run _), (p_delayed _), (p_abort _). }
  set (g := fun x => phase_of (x <| MlmeConfirm := mlme_confirm_zero |> <| LoRaMacState := 0 |>)).
  assert (Hx : forall x, gave_up (ml_Status (MlmeConfirm x)) = false -> let v := LoRaMacState x in
    phase_of x = (g x) <| p_run := Z.testbit v 0 |> <| p_delayed := Z.testbit v 4 |> <| p_abort := Z.testbit v 6 |>
    <| p_stray := negb (v =? state_word (Z.testbit v 0) (Z.testbit v 4) (Z.testbit v 6)) |>).
  { intros x E. unfold g, phase_of. cbn. by rewrite E. }
  assert (Hs : g s' = g s) by (change (g (cmd_core (erased s')) = g (cmd_core (erased s))); by rewrite C).
  by rewrite (Hx s' Hg'), (Hx s Hg), Hs, Es.
Qed.

(** ** Joining and checking the link *)

(** What the upper layer must ensure when it asks to join: the identifiers are
    whole; a join that is refused leaves a pending request to rebuild. *)
Definition mlme_admissible (s : mac) (req : MlmeReq_t) : Prop :=
  match req with
  | MlmeJoin (Some devEui) (Some appEui) (Some appKey) =>
      length devEui = 8%nat /\ length appEui = 8%nat /\ is_block appKey /\
      (MlmeReq (LoRaMacFlags s) = true -> state_has MAC_TX_DELAYED s = true -> join_ready s)
  | MlmeJoin _ _ _ => MlmeReq (LoRaMacFlags s) = true -> join_ready s
  | MlmeLinkCheck => True
  end.

Lemma data_ok_reset s ns l : data_ok s -> groups s l -> counters_reset l (MulticastNodes s) ns -> data_ok (reset_session s ns).
Proof.
  intros [D1 D2 D3 D4 D5 D6 D7 D8 D9 D10] Hg Hn. destruct D5 as (Hp & H7 & HL).
  assert (HP : LoRaMacParams (reset_session s ns) = LoRaMacParamsDefaults s) by (cbn [reset_session update LoRaMacParams]; apply reset_params_all).
  split; try done.
  - destruct D1 as [[[] [] Hd ?] ? ? ? ?]. split; try done. split; [by split|split; try done; by rewrite HP|done|by rewrite HP].
  - by destruct D2.
  - exists l. by apply (reset_groups s).
  - change (MulticastNodes (reset_session s ns)) with ns. intros y n Hy. rewrite Hn in Hy.
    case_decide; [|by apply (D8 y)]. apply fmap_Some in Hy as (n0 & H0 & ->). exact (D8 y n0 H0).
Qed.

Lemma mlme_done_keeps st s : data_ok s -> exists s', mlme_done st s = Done (st, s') /\ data_ok s' /\
  phase_of s' = (if bool_decide (st = LORAMAC_STATUS_OK) then phase_of s else (phase_of s) <| p_wait := false |>).
Proof.
  intros Hd. unfold mlme_done. case_bool_decide; [by exists s|]. eexists. split; [reflexivity|]. split; [|done].
  apply (data_ok_ext s); [done| |done]. by intros [? _].
Qed.

(** The end of [mlme_join], after the reset. *)
Lemma mlme_join_send s : data_ok s -> join_ready s -> p_stray (phase_of s) = false ->
  exists st s', (let s := s <| JoinRequestTrials ::= fun n => u16 (n + 1) |> in
    let s := s <| LoRaMacParams ::= fun p => p <| ChannelsDatarate := AlternateDatarate (JoinRequestTrials s) |> |> in
    let* (status, s) := Send (mhdr FRAME_TYPE_JOIN_REQ) 0 None 0 s in mlme_done status s) = Done (st, s') /\ data_ok s' /\
    exists o, phase_of s' = schedule o ((phase_of s) <| p_wait := false |> <| p_acked := false |>).
Proof.
  intros Hd Hj Hw. cbv zeta. set (s3 := s <| JoinRequestTrials ::= _ |>). set (dr := AlternateDatarate _).
  assert (Hdr : 0 <= dr <= 7) by (unfold dr, AlternateDatarate; repeat case_match; lia). clearbody dr.
  set (s4 := s3 <| LoRaMacParams ::= _ |>).
  assert (Hd4 : data_ok s4) by (apply data_ok_datarate; [by apply (data_ok_ext s)|done]).
  assert (Hp4 : phase_of s4 = phase_of s) by done. assert (Hj4 : join_ready s4) by done. clearbody s4.
  destruct (Send_keeps s4 (mhdr FRAME_TYPE_JOIN_REQ) 0 None 0) as (st & s5 & -> & Hd5 & Hc); [done|by rewrite Hp4|by split|].
  cbn [rbind]. destruct Hc as [[? _]|(o & Hp5 & Hst)]; [done|].
  destruct (mlme_done_keeps st s5 Hd5) as (s6 & -> & Hd6 & Hp6). exists st, s6. split; [done|]. split; [done|]. exists o.
  rewrite Hp6, Hp5, Hp4, Hst. by destruct o.
Qed.

Lemma join_reset_keeps p f s ns l : data_ok s -> groups s l -> counters_reset l (MulticastNodes s) ns -> phase_of s = p <| p_failed ::= andb f |> ->
  data_ok (reset_session s ns) /\ phase_of (reset_session s ns) = p <| p_retry := false |> <| p_wait := false |> <| p_tries := true |>
    <| p_chan := false |> <| p_failed ::= andb f |>.
Proof.
  intros Hd Hg Hn Hp. split; [by apply (data_ok_reset s ns l)|].
  trans ((phase_of s) <| p_retry := false |> <| p_wait := false |> <| p_tries := true |> <| p_chan := false |>); [done|]. by rewrite Hp.
Qed.

Lemma data_ok_flags s s' : data_ok (s <| LoRaMacFlags := flags_zero |>) -> join_ready s' ->
  (sched_same s', LoRaMacPayload s', LoRaMacRxPayload s', LoRaMacNwkSKey s', LoRaMacAppSKey s', LoRaMacDeviceClass s',
   MulticastNodes s', MulticastChannels s') =
  (sched_same s, LoRaMacPayload s, LoRaMacRxPayload s, LoRaMacNwkSKey s, LoRaMacAppSKey s, LoRaMacDeviceClass s,
   MulticastNodes s, MulticastChannels s) -> data_ok s'.
Proof.
  intros Hd Hj E. set (s1 := s' <| LoRaMacFlags := flags_zero |> <| LoRaMacAppEui := LoRaMacAppEui s |> <| LoRaMacDevEui := LoRaMacDevEui s |>
    <| LoRaMacAppKey := LoRaMacAppKey s |>).
  assert (H1 : data_ok s1).
  { apply (data_ok_ext (s <| LoRaMacFlags := flags_zero |>)); [|by intros []|done]. unfold data_view.
    change (sched_same s1) with (sched_same s'). change (sched_same (s <| LoRaMacFlags := flags_zero |>)) with (sched_same s). generalize (sched_same s') (sched_same s) E. clear E. intros x y [= -> E2 E3 E4 E5 E6 E7 E8].
    change (LoRaMacPayload s1) with (LoRaMacPayload s'). rewrite E2. change (LoRaMacRxPayload s1) with (LoRaMacRxPayload s'). rewrite E3.
    change (LoRaMacNwkSKey s1) with (LoRaMacNwkSKey s'). rewrite E4. change (LoRaMacAppSKey s1) with (LoRaMacAppSKey s'). rewrite E5.
    change (LoRaMacDeviceClass s1) with (LoRaMacDeviceClass s'). rewrite E6. change (MulticastNodes s1) with (MulticastNodes s'). rewrite E7.
    change (MulticastChannels s1) with (MulticastChannels s'). by rewrite E8. }
  destruct H1 as [X1 [] X3 X4 X5 X6 X7 X8 X9 _]. split; try done. by apply (sched_ok_same s1).
Qed.

Lemma mlme_join_keeps p f devEui appEui appKey s : data_ok (s <| LoRaMacFlags := flags_zero |>) -> length devEui = 8%nat ->
  length appEui = 8%nat -> is_block appKey -> p_stray p = false -> phase_of s = p <| p_failed ::= andb f |> ->
  exists st s', mlme_join devEui appEui appKey s = Done (st, s') /\ data_ok s' /\ exists o, phase_of s' = join_request f o p.
Proof.
  intros Hd H1 H2 H3 Hw Hp. unfold mlme_join. match goal with |- context [ResetMacParameters ?x] => set (s1 := x) end.
  assert (Hd1 : data_ok s1) by (by apply (data_ok_flags s)).
  assert (Hj : join_ready s1) by done. assert (Hp1 : phase_of s1 = phase_of s) by done. rewrite Hp in Hp1. clearbody s1.
  destruct (do_groups _ Hd1) as (l & Hg). destruct (ResetMacParameters_spec s1 l Hg) as (ns & -> & Hns). cbn [rbind].
  destruct (join_reset_keeps p f s1 ns l Hd1 Hg Hns Hp1) as [Hd2 Hp2]. assert (Hj2 : join_ready (reset_session s1 ns)) by done.
  revert Hd2 Hp2 Hj2. generalize (reset_session s1 ns). intros s2 Hd2 Hp2 Hj2.
  destruct (mlme_join_send s2 Hd2 Hj2) as (st & s' & E & Hd' & o & Hp'); [by rewrite Hp2|].
  exists st, s'. split; [exact E|]. split; [done|]. exists o. rewrite Hp', Hp2. by destruct o.
Qed.

Lemma mlme_keeps s req : sys_ok s -> mlme_admissible s req -> wp (LoRaMacMlmeRequest (Some req)) s (fun _ => sys_ok).
Proof.
  intros [Hd Hp] Ha. unfold wp, LoRaMacMlmeRequest. destruct (state_has MAC_TX_RUNNING s) eqn:E1; [by eexists _, s|].
  set (f := gave_up (mc_Status (McpsConfirm s))). set (s1 := s <| MlmeConfirm := _ |>). pose proof (not_stray _ Hp) as Hw.
  assert (Hp1 : phase_of s1 = (phase_of s) <| p_failed ::= andb f |>).
  { trans ((phase_of s) <| p_failed := f || false |>); [done|]. rewrite orb_false_r.
    trans ((phase_of s) <| p_failed := f && (f || gave_up (ml_Status (MlmeConfirm s))) |>); [by destruct f|done]. }
  assert (Hrun : negb (p_run (phase_of s)) = true) by (destruct (state_bits s) as (<- & _ & _); by rewrite E1).
  assert (Hno : forall s', phase_of s' = phase_of s1 -> phase_ok (phase_of s') = true).
  { intros s' ->. rewrite Hp1. exact (link_check_ok f true _ Hp Hrun). }
  assert (Hd1 : forall s', (MlmeReq (LoRaMacFlags s') = true -> ml_MlmeRequest (MlmeConfirm s') = MLME_JOIN -> join_ready s') -> data_view s' = data_view s -> data_ok s').
  { intros s' Hj Hv. assert (Hx : data_ok (s' <| LoRaMacFlags := flags_zero |>)) by (apply (data_ok_ext s); [done|by intros []|done]).
    destruct Hx as [X1 [] X3 X4 X5 X6 X7 X8 X9 _]. split; try done. by apply (sched_ok_same (s' <| LoRaMacFlags := flags_zero |>)). }
  destruct req as [devEui appEui appKey|].
  - change (state_has MAC_TX_DELAYED s1) with (state_has MAC_TX_DELAYED s). destruct (state_has MAC_TX_DELAYED s) eqn:E2.
    + eexists _, s1. split; [reflexivity|]. split; [|by apply Hno]. apply Hd1; [|done]. intros Hr _.
      destruct devEui, appEui, appKey; cbn in Ha; try (by apply Ha).
    + set (s2 := s1 <| MlmeConfirm ::= _ |>). assert (Hp2 : phase_of s2 = phase_of s1) by done.
      pose proof (idle_bits s Hp E1 E2) as Hi.
      assert (Hnull : (MlmeReq (LoRaMacFlags s) = true -> join_ready s) ->
        exists a s', Done (LORAMAC_STATUS_PARAMETER_INVALID, s2) = Done (a, s') /\ sys_ok s').
      { intros Hj. eexists _, s2. split; [reflexivity|]. split; [|by apply Hno]. apply Hd1; [|done]. intros Hr _. by apply Hj. }
      destruct devEui as [d|], appEui as [a|], appKey as [k|]; cbn in Ha; try (by apply Hnull).
      destruct Ha as (L1 & L2 & L3 & _).
      destruct (mlme_join_keeps (phase_of s) f d a k s2) as (st & s' & E & Hd' & o & Hp'); try done; [by apply Hd1|].
      exists st, s'. split; [exact E|]. split; [done|]. rewrite Hp'. by apply join_request_ok.
  - set (s2 := s1 <| LoRaMacFlags ::= _ |> <| MlmeConfirm ::= _ |>). assert (Hd2 : data_ok s2) by (by apply Hd1).
    assert (Hp2 : phase_of s2 = phase_of s1) by done.
    destruct (AddMacCommand_inv s2 MOTE_MAC_LINK_CHECK_REQ 0 0 (so_inv _ (do_sched _ Hd2))) as (st & s3 & E & Hi & _). rewrite E. cbn [rbind].
    pose proof (AddMacCommand_commanded _ _ _ _ _ _ E) as Hc.
    destruct (phase_received s2 s3) as [Hp3 _]; [by rewrite Hp2, Hp1|done|by apply commanded_received|].
    destruct (mlme_done_keeps st s3) as (s4 & -> & Hd4 & Hp4); [by apply (data_ok_commanded s2)|].
    exists st, s4. split; [done|]. split; [done|]. rewrite Hp4, Hp3, Hp2, Hp1.
    pose proof (link_check_ok f (bool_decide (st = LORAMAC_STATUS_OK)) _ Hp Hrun) as Hok. by case_bool_decide.
Qed.

(** ** The information base *)

(** What the upper layer must ensure when it sets a parameter. *)
Definition mib_admissible (s : mac) (m : MibRequestConfirm_t) : Prop :=
  mib_readable m /\ mib_safe m s /\ m <> MIB_DEVICE_CLASS CLASS_C /\
  match m with MIB_NWK_SKEY (Some k) | MIB_APP_SKEY (Some k) => bytes k | _ => True end.

Lemma data_ok_class s c : data_ok s -> c <> CLASS_C -> data_ok (s <| LoRaMacDeviceClass := c |>).
Proof. intros [D1 [] D3 D4 D5 D6 D7 D8 D9 D10] Hc. split; try done. by apply (sched_ok_same s). Qed.
Lemma data_ok_nwk s k : data_ok s -> is_block k -> data_ok (s <| LoRaMacNwkSKey := k |>).
Proof. intros [D1 [] D3 D4 D5 D6 D7 D8 D9 D10] Hk. split; try done. by apply (sched_ok_same s). Qed.
Lemma data_ok_app s k : data_ok s -> is_block k -> data_ok (s <| LoRaMacAppSKey := k |>).
Proof. intros [D1 [] D3 D4 D5 D6 D7 D8 D9 D10] Hk. split; try done. by apply (sched_ok_same s). Qed.

Lemma data_ok_default s d : data_ok s -> ChannelsDatarate (LoRaMacParamsDefaults s) <= d <= 5 ->
  data_ok (s <| LoRaMacParamsDefaults ::= fun p => p <| ChannelsDatarate := d |> |>).
Proof.
  intros Hd Hr. pose proof (so_default _ (do_sched _ Hd)) as H0. pose proof (sched_ok_defaults s d (do_sched _ Hd) Hr) as Hs.
  destruct Hd as [D1 [] D3 D4 [[] [H7 HL]] D6 D7 D8 D9 D10]. split; try done. split; [|done]. split; try done. cbn. lia.
Qed.

Lemma take_key_block k : bytes k -> (16 <= length k)%nat -> is_block (take 16 k).
Proof. intros Hb Hl. split; [rewrite length_take; lia|by apply Forall_take]. Qed.

Ltac mib_params_data Hd :=
  destruct (so_inv _ (do_sched _ Hd)) as [_ [] _ []]; apply data_ok_params; [exact Hd|split|..]; cbn; unfold is_u32 in *; try done; try lia;
  try apply (do_rx2 _ Hd).

Lemma mib_set_data s m : data_ok s -> mib_admissible s m -> exists st s', mib_set m s = Done (st, s') /\ data_ok s'.
Proof.
  intros Hd (Hr & Hs & Hc & Hk).
  assert (Hplain : forall s', data_view s' = data_view s -> LoRaMacFlags s' = LoRaMacFlags s -> MlmeConfirm s' = MlmeConfirm s -> data_ok s').
  { intros s' H1 H2 H3. apply (data_ok_ext s); [done|unfold join_pending; by rewrite H2, H3|done]. }
  destruct m as [[]| | | | |[k|]|[k|]| | | | |[mask|]|n| | | | | |d|d|d| | |]; cbn [mib_set set_device_class]; try done;
    try (eexists _, _; split; [reflexivity|]; first [exact Hd|by apply Hplain|by mib_params_data Hd]).
  - eexists _, _. split; [reflexivity|]. apply (data_ok_ext (s <| LoRaMacDeviceClass := CLASS_A |>)); [done|done|by apply data_ok_class].
  - eexists _, _. split; [reflexivity|]. by apply data_ok_class.
  - rewrite copy_key by (done || apply (do_buf _ Hd)). eexists _, _. split; [reflexivity|]. by apply data_ok_nwk, take_key_block.
  - rewrite copy_key by (done || apply (do_buf _ Hd)). eexists _, _. split; [reflexivity|]. by apply data_ok_app, take_key_block.
  - eexists _, _. split; [reflexivity|]. cbn in Hs. mib_params_data Hd.
  - destruct mask as [|w mask]; [done|]. eexists _, _. split; [reflexivity|]. mib_params_data Hd. by rewrite zupd_length.
  - destruct (Z.leb_spec 1 n), (Z.leb_spec n 15); cbn [andb]; (eexists _, _; split; [reflexivity|]); try exact Hd. mib_params_data Hd.
  - eexists _, _. split; [reflexivity|]. cbn in Hs. mib_params_data Hd.
  - eexists _, _. split; [reflexivity|]. cbn in Hs. mib_params_data Hd.
  - case_match; (eexists _, _; split; [reflexivity|]); [|exact Hd]. by apply data_ok_default.
  - rewrite in_range. case_bool_decide as Hv; (eexists _, _; split; [reflexivity|]); [|exact Hd].
    unfold LORAMAC_TX_MIN_DATARATE, LORAMAC_TX_MAX_DATARATE, LORAMAC_MAX_TX_POWER, LORAMAC_MIN_TX_POWER in Hv. mib_params_data Hd.
  - rewrite in_range. case_bool_decide as Hv; (eexists _, _; split; [reflexivity|]); [|exact Hd].
    unfold LORAMAC_TX_MIN_DATARATE, LORAMAC_TX_MAX_DATARATE, LORAMAC_MAX_TX_POWER, LORAMAC_MIN_TX_POWER in Hv. mib_params_data Hd.
Qed.

(** Only switching the class touches the radio. *)
Lemma mib_set_phase s m st s' : m <> MIB_DEVICE_CLASS CLASS_C -> mib_set m s = Done (st, s') ->
  phase_of s' = phase_of s \/ phase_of s' = (phase_of s) <| p_radio := Silent |>.
Proof.
  intros Hc H.
  destruct m as [[]| | | | |[k|]|[k|]| | | | |[mask|]|n| | | | | |d|d|d| | |]; cbn [mib_set set_device_class SetPublicNetwork rbind] in H; try done;
    try (apply rbind_inv in H as (x & _ & H)); repeat case_match; injection H as _ <-; try (by left).
  - right. rewrite phase_log. reflexivity.
  - left. rewrite phase_log. reflexivity.
  - left. rewrite phase_log. reflexivity.
Qed.

Lemma radio_off p : phase_ok p = true -> negb (p_run p) = true -> phase_ok (p <| p_radio := Silent |>) = true.
Proof. revert p. apply (step_ok (fun p => negb (p_run p))). vm_compute. reflexivity. Qed.

Lemma mib_keeps s m : sys_ok s -> mib_admissible s m -> wp (LoRaMacMibSetRequestConfirm (Some m)) s (fun _ => sys_ok).
Proof.
  intros [Hd Hp] Ha. unfold wp, LoRaMacMibSetRequestConfirm. destruct (state_has MAC_TX_RUNNING s) eqn:Er; [by eexists _, s|].
  destruct (mib_set_data s m Hd Ha) as (st & s' & E & Hd'). exists st, s'. split; [done|]. split; [done|].
  destruct (mib_set_phase s m st s') as [->| ->]; [apply Ha|done|done|]. apply radio_off; [done|].
  destruct (state_bits s) as (<- & _ & _). by rewrite Er.
Qed.

(** ** Channels and groups *)

Lemma ChannelAdd_keeps id f dr s : sys_ok s -> 0 <= id -> wp (LoRaMacChannelAdd id f dr) s (fun _ => sys_ok).
Proof.
  intros [Hd Hp] Hid. destruct (channel_add_inv s id f dr (so_inv _ (do_sched _ Hd)) Hid) as (st & s' & E & Hi & _). exists st, s'.
  split; [done|]. split; [apply (data_ok_commanded s); [done|done|by eapply ChannelAdd_commanded]|].
  unfold LoRaMacChannelAdd in E. repeat case_match; try (by injection E as _ <-). apply rbind_inv in E as (chs & _ & E). by injection E as _ <-.
Qed.

Lemma ChannelRemove_keeps id s : sys_ok s -> 0 <= id -> wp (LoRaMacChannelRemove id) s (fun _ => sys_ok).
Proof.
  intros [Hd Hp] Hid. destruct (channel_remove_inv s id (so_inv _ (do_sched _ Hd)) Hid) as (st & s' & E & Hi & _). exists st, s'.
  split; [done|]. split; [apply (data_ok_commanded s); [done|done|by eapply ChannelRemove_commanded]|].
  unfold LoRaMacChannelRemove in E. destruct (_ && _); [by injection E as _ <-|]. destruct (_ || _); [by injection E as _ <-|].
  apply rbind_inv in E as (chs & _ & E). destruct (DisableChannelInMask _ _) as [ok mask]. by injection E as _ <-.
Qed.

(** The keys of every group are whole. *)
Definition keyed (ns : nodes) : Prop := map_Forall (fun _ n => is_block (mp_NwkSKey n) /\ is_block (mp_AppSKey n)) ns.

Lemma keyed_insert ns p n : keyed ns -> is_block (mp_NwkSKey n) /\ is_block (mp_AppSKey n) -> keyed (<[p := n]> ns).
Proof. intros Hk Hn. by apply map_Forall_insert_2. Qed.

Lemma set_next_keyed ns p q ns' : keyed ns -> set_next ns p q = Done ns' -> keyed ns'.
Proof.
  unfold set_next. intros Hk H. destruct (ns !! p) as [n|] eqn:En; [|done]. injection H as <-.
  apply keyed_insert; [done|]. exact (Hk p n En).
Qed.

Lemma data_ok_groups s ns head l : data_ok s -> keyed ns -> groups (s <| MulticastNodes := ns |> <| MulticastChannels := head |>) l ->
  data_ok (s <| MulticastNodes := ns |> <| MulticastChannels := head |>).
Proof. intros [D1 [] D3 D4 D5 D6 D7 D8 D9 D10] Hk Hg. split; try done; [by apply (sched_ok_same s)|by exists l]. Qed.

(** What the upper layer must ensure when it links a group: its object is
    filled in and not in the list yet. *)
Definition link_admissible (s : mac) (p : Z) : Prop :=
  exists l n, groups s l /\ MulticastNodes s !! p = Some n /\ mp_Next n = None /\ p ∉ l.

Lemma link_keeps p s : sys_ok s -> link_admissible s p -> wp (LoRaMacMulticastChannelLink (Some p)) s (fun _ => sys_ok).
Proof.
  intros [Hd Hp] (l & n & Hg & Hn & Hx & Hl). unfold wp. destruct (state_has MAC_TX_RUNNING s) eqn:Er.
  { eexists _, s. unfold LoRaMacMulticastChannelLink. by rewrite Er. }
  destruct (link_spec s l p n Hg Er Hn Hx Hl) as (s' & E & Hg' & _). exists LORAMAC_STATUS_OK, s'. split; [done|].
  unfold LoRaMacMulticastChannelLink in E. rewrite Er, Hn in E.
  assert (Hk : keyed (<[p := n <| mp_DownLinkCounter := 0 |>]> (MulticastNodes s))) by (apply keyed_insert; [apply Hd|exact (do_nodes _ Hd p n Hn)]).
  revert Hk E. generalize (<[p := n <| mp_DownLinkCounter := 0 |>]> (MulticastNodes s)). intros ns Hk E.
  assert (H : exists ns' head, keyed ns' /\ s' = s <| MulticastNodes := ns' |> <| MulticastChannels := head |>).
  { destruct (MulticastChannels s) as [head|] eqn:Eh.
    - apply rbind_inv in E as (last & _ & E). destruct (ns !! last) as [m|] eqn:Em; [|done]. injection E as <-.
      exists (<[last := m <| mp_Next := Some p |>]> ns), (Some head). split; [apply keyed_insert; [done|exact (Hk last m Em)]|].
      rewrite <- Eh. by destruct s.
    - injection E as <-. by exists ns, (Some p). }
  destruct H as (ns' & head & Hk' & ->). split; [by eapply data_ok_groups|exact Hp].
Qed.

Lemma unlink_keeps p s : sys_ok s -> (exists l, groups s l /\ p ∈ l) -> wp (LoRaMacMulticastChannelUnlink (Some p)) s (fun _ => sys_ok).
Proof.
  intros [Hd Hp] (l & Hg & Hl). unfold wp. destruct (state_has MAC_TX_RUNNING s) eqn:Er.
  { eexists _, s. unfold LoRaMacMulticastChannelUnlink. by rewrite Er. }
  apply list_elem_of_split in Hl as (l1 & l2 & ->).
  destruct (unlink_spec s l1 p l2 Hg Er) as (s' & E & Hg' & _). exists LORAMAC_STATUS_OK, s'. split; [done|].
  unfold LoRaMacMulticastChannelUnlink in E. rewrite Er in E. pose proof (do_nodes _ Hd : keyed _) as Hk.
  destruct (MulticastChannels s) as [head|]; [|injection E as <-; by split].
  apply rbind_inv in E as ([ns head'] & E1 & E). apply rbind_inv in E as (ns2 & E2 & E). injection E as <-.
  assert (Hk1 : keyed ns).
  { destruct (head =? p); [apply rbind_inv in E1 as (q & _ & E1); by injection E1 as <- _|].
    apply rbind_inv in E1 as (cur & _ & E1). apply rbind_inv in E1 as (q & _ & E1). destruct q; [|by injection E1 as <- _].
    apply rbind_inv in E1 as (q' & _ & E1). apply rbind_inv in E1 as (ns1 & E3 & E1). injection E1 as <- _. by eapply set_next_keyed. }
  split; [|exact Hp]. eapply data_ok_groups; [done|by eapply set_next_keyed|done].
Qed.

(** The upper layer fills in the object of a group that is not linked. *)
Lemma fill_keeps p n s : sys_ok s -> (exists l, groups s l /\ p ∉ l) -> is_block (mp_NwkSKey n) /\ is_block (mp_AppSKey n) ->
  sys_ok (s <| MulticastNodes ::= <[p := n]> |>).
Proof.
  intros [Hd Hp] (l & [Hs Hnd] & Hl) Hk. split; [|exact Hp].
  apply (data_ok_ext (s <| MulticastNodes := <[p := n]> (MulticastNodes s) |> <| MulticastChannels := MulticastChannels s |>)); [done|done|].
  apply (data_ok_groups s _ _ l Hd); [by apply keyed_insert; [apply Hd|]|]. split; [|done].
  eapply seg_frame; [|exact Hs]. intros y Hy. cbn. rewrite lookup_insert_ne; [done|]. by intros ->.
Qed.

End Handlers.

End MacSystem.
