(* ===== verification/MacEvents.v ===== *)
(** Received frames in the system of MacSystem.v, and the system itself: the
    events the timers, the radio and the upper layer can produce, the states they
    lead to, and that none of them breaks the MAC. *)
From S2P Require Import Prelude Utilities Linked Aes MacTypes MacChannels Multicast MacCommands MacCrypto MacFrame MacRx MacServices MacPhase MacSystem.

Module MacEvents.
Import MacTypes MacChannels Multicast MacCommands MacCrypto MacFrame MacRx MacServices MacPhase MacSystem.

Section Reception.
Context {RD : RadioDriver} {FS : FrameSecurity}.

(** * Received frames *)

(** The phase in which a received frame is looked at. *)
Definition settled (p : phase) : Prop :=
  p_radio p = Silent /\ p_w2 p = false /\ p_acked p = false /\ p_stray p = false /\ p_failed p = false.

(** A frame was dealt with, as the protocol allows. *)
Definition ended (p : phase) (continue : bool) (s : mac) : Prop :=
  data_ok s /\ (exists f, (phase_of s) <| p_done := true |> = rx_done f p) /\ (continue = false -> p_done (phase_of s) = true).

Lemma rx_reset_keeps rssi snr s : sys_ok s -> listening (p_radio (phase_of s)) = true ->
  let s' := rx_reset rssi snr s in
  data_ok s' /\ settled (phase_of s') /\ gave_up (ml_Status (MlmeConfirm s')) = false /\ forall f, rx_done f (phase_of s') = rx_done f (phase_of s).
Proof.
  intros [Hd Hp] Hl. cbv zeta. unfold rx_reset.
  match goal with |- context [is_class_c ?x] => set (s1 := x) end. change (is_class_c s1) with (is_class_c s). rewrite class_a by done. cbn [negb].
  destruct (busy_facts _ Hp (listening_busy _ Hl)) as (_ & _ & _ & Hf & _). pose proof (not_stray _ Hp) as Hw.
  assert (E : phase_of (log [TimerStop RxWindowTimer2] (log [RadioSleep] s1)) = (phase_of s) <| p_radio := Silent |> <| p_w2 := false |> <| p_acked := false |>).
  { rewrite !phase_log. reflexivity. }
  rewrite E. split; [by apply (data_ok_ext s)|]. split; [by split_and!|]. split; [|intros f; generalize (phase_of s); intros []; by destruct f].
  change (gave_up (ml_Status (MlmeConfirm s)) = false). by apply orb_false_iff in Hf as [_ ?].
Qed.

Lemma rx_abort_keeps st c s : data_ok s -> settled (phase_of s) -> exists s', rx_abort st c s = Done (false, s') /\ ended (phase_of s) false s'.
Proof.
  intros Hd (H1 & H2 & H3 & H4 & H5). unfold rx_abort, PrepareRxDoneAbort.
  set (s0 := s <| McpsIndication ::= _ |>). set (s1 := s0 <| LoRaMacState ::= _ |>).
  assert (Hp1 : phase_of s1 = (phase_of s) <| p_abort := true |>).
  { unfold s1. rewrite (phase_update _ _ (p_run (phase_of s)) (p_delayed (phase_of s)) true).
    - change (phase_of s0) with (phase_of s). revert H4. generalize (phase_of s). intros []. cbn. by intros ->.
    - change (LoRaMacState s0) with (LoRaMacState s). rewrite (word_of_phase s H4). by destruct (p_run _), (p_delayed _), (p_abort _). }
  assert (Hd1 : data_ok s1) by (by apply (data_ok_ext s)). clearbody s1. clear s0.
  change (NodeAckRequested s1) with (p_wait (phase_of s1)).
  enough (H : exists s2, (if p_wait (phase_of s1) then OnAckTimeoutTimerEvent s1 else Done (tt, s1)) = Done (tt, s2) /\ data_ok s2 /\
    phase_of s2 = (if p_wait (phase_of s1) then ack_timeout (phase_of s1) else phase_of s1)).
  { destruct H as (s2 & -> & Hd2 & Hp2). cbn [rbind]. rewrite listen_again_A by apply Hd2. cbn [rbind].
    eexists. split; [reflexivity|]. set (s3 := s2 <| LoRaMacFlags ::= _ |>). unfold trigger_check.
    split; [by apply (data_ok_ext s2)|]. rewrite phase_log. split; [|done]. exists Rejected.
    change (phase_of s3) with ((phase_of s2) <| p_ind := true |> <| p_done := true |>). rewrite Hp2, Hp1.
    revert H1 H2 H3 H4 H5. generalize (phase_of s).
    intros [r w1 w2 later timeout run delayed abort stray over ind wait retry failed acked tries slot chan]. cbn. intros -> -> -> -> ->.
    by destruct wait. }
  destruct (p_wait (phase_of s1)); [|by exists s1].
  destruct (ack_timeout_effect s1) as (s2 & E & Hv & Hf & Hm & _ & _ & Hph); [done|by rewrite Hp1|].
  exists s2. split; [done|]. split; [|done]. apply (data_ok_ext s1); [done| |done]. unfold join_pending. by rewrite Hf, Hm.
Qed.

Lemma received_erased s s' : erased s' = erased s -> received s s'.
Proof. unfold received. intros ->. reflexivity. Qed.

Lemma rx_decrypt_received payload start len key address ctr s u s' : rx_decrypt payload start len key address ctr s = Done (u, s') -> received s s'.
Proof.
  unfold rx_decrypt. intros H. apply rbind_inv in H as (msg & _ & H). apply rbind_inv in H as (rx & _ & H). injection H as _ <-.
  by apply received_erased.
Qed.

(** The body of a frame changes what commands change, the receive buffer and the indication. *)
Lemma rx_payload_received payload size fctrl d address ctr snr skip s k s' :
  rx_payload payload size fctrl d address ctr snr skip s = Done (k, s') -> received s s'.
Proof.
  assert (Hcmd : forall (b : bool) p i n x u x', (if b then ProcessMacCommands p i n snr x else Done (tt, x)) = Done (u, x') -> received x x').
  { intros [] p i n x u x' H; [|by injection H as _ <-]. by apply commanded_received, (ProcessMacCommands_commanded _ _ _ _ _ _ _ H). }
  unfold rx_payload. intros H. destruct (0 <? _).
  2: { apply rbind_inv in H as ([u1 s1] & H1 & H). injection H as _ <-. by apply Hcmd in H1. }
  apply rbind_inv in H as (port & _ & H). set (s0 := s <| McpsIndication ::= _ |>) in H.
  assert (H0 : received s s0) by (by apply received_erased). destruct (port =? 0).
  - destruct (_ =? 0); [|by injection H as _ <-]. apply rbind_inv in H as ([u1 s1] & H1%rx_decrypt_received & H).
    apply rbind_inv in H as ([u2 s2] & H2 & H). injection H as _ <-. etransitivity; [exact H0|]. etransitivity; [exact H1|]. exact (Hcmd true _ _ _ _ _ _ H2).
  - apply rbind_inv in H as ([u1 s1] & H1%Hcmd & H). apply rbind_inv in H as ([u2 s2] & H2%rx_decrypt_received & H). injection H as _ <-.
    etransitivity; [exact H0|]. etransitivity; [exact H1|]. etransitivity; [exact H2|]. destruct skip; by apply received_erased.
Qed.

(** It returns, unless it asks for a duty cycle that the code cannot compute. *)
Lemma rx_payload_total payload size fctrl d address ctr snr skip s : rx_wf s -> bytes payload -> 255 <= zlen payload -> 12 <= size <= 255 ->
  is_block (d_nwk d) -> is_block (d_app d) -> 0 <= FOptsLen fctrl <= 15 -> ~ bad_downlink s payload fctrl d address ctr ->
  exists k s', rx_payload payload size fctrl d address ctr snr skip s = Done (k, s') /\ rx_wf s'.
Proof.
  intros Hw Hb HL Hs Hn Ha Hf Hbad.
  destruct (decide (8 + FOptsLen fctrl + 4 < size /\ payload.[8 + FOptsLen fctrl] <> 0)) as [[Hlt Hp]|Hc].
  - destruct (rx_payload_data s payload size fctrl d address ctr snr Hw Hb HL Hs Ha Hf skip Hlt Hp)
      as [(s2 & E & Hw2 & _)|[_ Hx]]; [by exists skip, s2|done].
  - destruct (rx_payload_commands s payload size fctrl d address ctr snr Hw Hb HL Hs Hn Hf skip)
      as [(k & s2 & E & Hw2 & _)|[_ Hx]]; [lia|by exists k, s2|done].
Qed.

(** ** Data frames *)

Lemma data_ok_norepeat s : data_ok s -> data_ok (s <| AdrAckCounter := 0 |> <| MacCommandsBufferToRepeatIndex := 0 |>).
Proof.
  intros [[[[] [] ? []] ? ? ? ?] [] D3 D4 D5 D6 D7 D8 D9 D10]. split; try done. split; try done. split; try done. split; try done. cbn. lia.
Qed.

Lemma data_ok_node s p n c : data_ok s -> MulticastNodes s !! p = Some n ->
  data_ok (s <| MulticastNodes := <[p := n <| mp_DownLinkCounter := c |>]> (MulticastNodes s) |>).
Proof.
  intros Hd Hn. destruct (do_groups _ Hd) as (l & Hs & Hnd).
  apply (data_ok_ext (s <| MulticastNodes := <[p := n <| mp_DownLinkCounter := c |>]> (MulticastNodes s) |> <| MulticastChannels := MulticastChannels s |>)); [done|done|].
  apply (data_ok_groups s _ _ l Hd); [apply keyed_insert; [apply Hd|exact (do_nodes _ Hd p n Hn)]|]. split; [|done].
  cbn. revert Hs. generalize (MulticastChannels s). clear Hnd. induction l as [|x l IH]; intros q; cbn [seg]; [done|].
  intros [-> (m & Hm & Hs)]. split; [done|]. destruct (decide (x = p)) as [->|Hx].
  - exists (n <| mp_DownLinkCounter := c |>). split; [apply lookup_insert_eq|]. apply IH. assert (m = n) as -> by congruence. exact Hs.
  - exists m. split; [by rewrite lookup_insert_ne|]. by apply IH.
Qed.

(** Whose frame it is: this device, or a group it follows. *)
Lemma rx_destination_total address s : data_ok s -> exists r, rx_destination address s = Done r /\
  forall d, r = Some d -> is_block (d_nwk d) /\ is_block (d_app d) /\ forall p, d_group d = Some p -> exists n, MulticastNodes s !! p = Some n.
Proof.
  intros Hd. unfold rx_destination. destruct (negb _).
  - destruct (do_groups _ Hd) as (l & Hs & Hnd).
    destruct (find_group_spec (MulticastNodes s) address l (walk_fuel (MulticastNodes s)) (MulticastChannels s) Hs) as (r & -> & Hr);
      [pose proof (seg_size _ _ _ _ Hs Hnd); unfold walk_fuel; lia|]. cbn [rbind].
    destruct r as [p|]; [|by exists None]. destruct Hr as (_ & n & Hn & _). rewrite Hn. eexists. split; [reflexivity|].
    intros d [= <-]. cbn. destruct (do_nodes _ Hd p n Hn) as [H1 H2]. split; [done|]. split; [done|]. intros q [= <-]. by exists n.
  - eexists. split; [reflexivity|]. intros d [= <-]. destruct (do_buf _ Hd). by split_and!.
Qed.

Lemma rx_update_counter_keeps t d ctr s : data_ok s -> (forall p, d_group d = Some p -> exists n, MulticastNodes s !! p = Some n) ->
  exists r s', rx_update_counter t d ctr s = Done (r, s') /\ data_ok s' /\ phase_of s' = phase_of s /\ MlmeConfirm s' = MlmeConfirm s /\
    LoRaMacRxPayload s' = LoRaMacRxPayload s.
Proof.
  intros Hd Hg. unfold rx_update_counter. destruct (d_group d) as [p|].
  - destruct (Hg p eq_refl) as (n & Hn). cbn [update MulticastNodes]. rewrite Hn. set (s1 := s <| McpsIndication ::= _ |>).
    assert (Hd1 : data_ok s1) by (by apply (data_ok_ext s)).
    destruct (_ && _); (eexists _, _; split; [reflexivity|]; split; [|done]); [done|]. by apply (data_ok_node s1).
  - destruct (t =? _); [eexists _, _; split; [reflexivity|]; split; [by apply (data_ok_ext s)|done]|].
    destruct (_ && _); (eexists _, _; split; [reflexivity|]; split; [by apply (data_ok_ext s)|done]).
Qed.

Lemma rx_ack_keeps fctrl s : data_ok s -> let s' := rx_ack fctrl s in
  data_ok s' /\ MlmeConfirm s' = MlmeConfirm s /\ LoRaMacRxPayload s' = LoRaMacRxPayload s /\
  let p := phase_of s in
  let ack := Ack fctrl =? 1 in
  phase_of s' = (if ack || negb (p_tries p) then p <| p_timeout := false |> else p) <| p_acked := ack |>.
Proof.
  intros Hd. cbv zeta. unfold rx_ack. destruct (Ack fctrl =? 1); cbn [orb].
  - split; [by apply (data_ok_ext s)|]. do 2 (split; [done|]). rewrite phase_log. reflexivity.
  - set (s1 := s <| McpsConfirm ::= _ |>). assert (Hd1 : data_ok s1) by (by apply (data_ok_ext s)).
    replace (AckTimeoutRetries s1 <? AckTimeoutRetriesCounter s1) with (negb (p_tries (phase_of s))) by (cbn; by rewrite <- Z.ltb_antisym).
    destruct (negb (p_tries (phase_of s))); [|done]. split; [by apply (data_ok_ext s)|]. do 2 (split; [done|]). rewrite phase_log. reflexivity.
Qed.

Lemma rx_accept_keeps t payload size fctrl d address ctr snr s : data_ok s -> settled (phase_of s) ->
  gave_up (ml_Status (MlmeConfirm s)) = false -> bytes payload -> 255 <= zlen payload -> 12 <= size <= 255 ->
  is_block (d_nwk d) -> is_block (d_app d) -> (forall p, d_group d = Some p -> exists n, MulticastNodes s !! p = Some n) ->
  0 <= FOptsLen fctrl <= 15 -> ~ bad_downlink s payload fctrl d address ctr ->
  exists c s', rx_accept t payload size fctrl d address ctr snr s = Done (c, s') /\ ended (phase_of s) c s'.
Proof.
  intros Hd Hset Hg Hb HL Hs Hkn Hka Hgr Hf Hbad. unfold rx_accept.
  match goal with |- context [rx_update_counter t d ctr ?x] => set (s1 := x) end.
  assert (Hd1 : data_ok s1) by (apply (data_ok_ext (s <| AdrAckCounter := 0 |> <| MacCommandsBufferToRepeatIndex := 0 |>)); [done|done|by apply data_ok_norepeat]).
  assert (Hp1 : phase_of s1 = phase_of s).
  { trans ((phase_of s) <| p_failed := gave_up (ml_Status (MlmeConfirm s)) |>); [done|]. rewrite Hg.
    destruct Hset as (_ & _ & _ & _ & H5). revert H5. generalize (phase_of s). intros []. cbn. by intros ->. }
  assert (Hg1 : gave_up (ml_Status (MlmeConfirm s1)) = false) by done. assert (Hrx1 : LoRaMacRxPayload s1 = LoRaMacRxPayload s) by done.
  destruct (rx_update_counter_keeps t d ctr s1 Hd1 Hgr) as (r & s2 & -> & Hd2 & Hp2 & Hm2 & Hrx2). cbn [rbind]. clearbody s1.
  rewrite Hp1 in Hp2. destruct r as [skip|].
  2: { destruct (rx_abort_keeps LORAMAC_EVENT_INFO_STATUS_DOWNLINK_REPEATED (Some ctr) s2) as (s' & -> & He); [done|by rewrite Hp2|].
    exists false, s'. split; [done|]. by rewrite <- Hp2. }
  destruct (rx_ack_keeps fctrl s2 Hd2) as (Hd3 & Hm3 & Hrx3 & Hp3). set (s3 := rx_ack fctrl s2) in *. clearbody s3. rewrite Hp2 in Hp3.
  destruct (rx_payload_total payload size fctrl d address ctr snr skip s3) as (k & s4 & E & Hw4); try done; [by apply data_rx_wf| |].
  { unfold bad_downlink in *. by rewrite Hrx3, Hrx2, Hrx1. }
  rewrite E. cbn [rbind]. apply rx_payload_received in E. pose proof (data_ok_received s3 s4 Hd3 Hw4 E) as Hd4.
  destruct Hset as (H1 & H2 & H3 & H4 & H5).
  destruct (phase_received s3 s4) as [Hp4 _]; [rewrite Hp3; by case_match|by rewrite Hm3, Hm2|done|].
  exists true. eexists. split; [reflexivity|]. split; [destruct k; [done|by apply (data_ok_ext s4)]|]. split; [|done].
  exists (Accepted (Ack fctrl =? 1) (negb k)).
  assert (Ek : phase_of (if k then s4 else s4 <| LoRaMacFlags ::= fun f => f <| McpsInd := true |> |>) = (phase_of s4) <| p_ind ::= orb (negb k) |>)
    by (by destruct k).
  rewrite Ek, Hp4, Hp3. clear -H1 H2 H3 H4 H5. revert H1 H2 H3 H4 H5. generalize (phase_of s) (Ack fctrl =? 1).
  intros [r w1 w2 later timeout run delayed abort stray over ind wait retry failed acked tries slot chan] ack. cbn.
  intros -> -> -> -> ->. by destruct ack, tries.
Qed.

(** What the network must ensure of a data frame: it asks for no duty cycle beyond the range of the code. *)
Definition downlink_admissible (s : mac) (payload : list Z) (size : Z) : Prop :=
  12 <= size /\ forall d, rx_destination (field payload 1 4) s = Done (Some d) ->
    ~ bad_downlink s payload (fctrl_of_byte payload.[5]) d (field payload 1 4) (u32 (d_counter d + u16 (field payload 6 2 - u16 (d_counter d)))).

Lemma rx_data_keeps t payload size snr s : data_ok s -> settled (phase_of s) -> gave_up (ml_Status (MlmeConfirm s)) = false ->
  bytes payload -> 255 <= zlen payload -> size <= 255 -> downlink_admissible s payload size ->
  exists c s', rx_data t payload size snr s = Done (c, s') /\ ended (phase_of s) c s'.
Proof.
  intros Hd Hset Hg Hb HL Hs [Hs12 Hadm]. unfold rx_data. rewrite word_ok by lia. cbn [rbind]. change (Z.to_nat 1) with 1%nat.
  assert (Habort : forall st c, exists k s', rx_abort st c s = Done (k, s') /\ ended (phase_of s) k s').
  { intros st c. destruct (rx_abort_keeps st c s Hd Hset) as (s' & E & He). by exists false, s'. }
  destruct (rx_destination_total (field payload 1 4) s Hd) as (r & E & Hr). rewrite E in Hadm |- *. cbn [rbind].
  destruct r as [d|]; [|apply Habort]. destruct (Hr d eq_refl) as (Hkn & Hka & Hgr). specialize (Hadm d eq_refl).
  destruct (rd_ok payload 5) as (fc & -> & Hfc); [lia|]. assert (fc = payload.[5]) as -> by (symmetry; by apply nth_lookup_Some).
  cbn [rbind]. unfold LORAMAC_MFR_LEN. rewrite !word_ok by lia. cbn [rbind]. change (Z.to_nat 6) with 6%nat.
  rewrite u16_id by (unfold is_u16; lia). rewrite land_ff, Z.mod_small by lia. rewrite rdn_ok by lia. cbn [rbind].
  set (diff := u16 (field payload 6 2 - u16 (d_counter d))) in *. destruct (Z.leb_spec MAX_FCNT_GAP diff) as [Hge|Hlt]; [apply Habort|].
  unfold MAX_FCNT_GAP in Hlt. destruct (_ =? fs_mic _ _ _ _ _); [|apply Habort].
  unfold rx_counter_after. rewrite (proj2 (Z.ltb_lt diff (2 ^ 15))) by lia.
  apply rx_accept_keeps; try done; try lia. unfold fctrl_of_byte. cbn [FOptsLen]. lia.
Qed.

(** ** Join accepts *)

Lemma add_cflist_commanded n : forall i j s u s', add_cflist n i j s = Done (u, s') -> commanded s s'.
Proof.
  induction n as [|n IH]; intros i j s u s' H; cbn [add_cflist] in H; [by injection H as _ <-|].
  apply rbind_inv in H as (f & _ & H). apply rbind_inv in H as ([st s1] & H1%ChannelAdd_commanded & H%IH). by etransitivity.
Qed.

(** A session changes the keys, the address, the parameters and the channels. *)
Definition no_session (s : mac) : mac :=
  s <| LoRaMacNwkSKey := [] |> <| LoRaMacAppSKey := [] |> <| LoRaMacNetID := 0 |> <| LoRaMacDevAddr := 0 |> <| IsLoRaMacNetworkJoined := false |>.
Definition session_core (s : mac) : mac := no_session (cmd_core s).

Record session_frame (s s' : mac) : Prop := mkSessionFrame {
  sf_core : session_core s' = session_core s;
  sf_request : ml_MlmeRequest (MlmeConfirm s') = ml_MlmeRequest (MlmeConfirm s);
  sf_status : gave_up (ml_Status (MlmeConfirm s')) = false;
  sf_state : Z.land (LoRaMacState s) MAC_TX_CONFIG = 0 -> LoRaMacState s' = LoRaMacState s;
}.

Lemma join_session_frame size s u s' : join_session size s = Done (u, s') -> session_frame s s'.
Proof.
  unfold join_session. intros H. do 5 apply rbind_inv in H as (? & _ & H).
  match type of H with context [if 16 <? size - 1 then _ else Done (tt, ?x)] => set (s1 := x) in H end.
  assert (C1 : session_core s1 = session_core s) by done. assert (M1 : MlmeConfirm s1 = MlmeConfirm s) by done.
  assert (S1 : LoRaMacState s1 = LoRaMacState s) by done. clearbody s1.
  apply rbind_inv in H as ([u2 s2] & H2 & H). injection H as _ <-.
  assert (Hc : commanded s1 s2).
  { destruct (16 <? size - 1); [|by injection H2 as _ <-]. unfold state_set, state_clear, smod in H2. cbn [rbind] in H2.
    apply rbind_inv in H2 as ([u3 s3] & H3%add_cflist_commanded & H2). injection H2 as _ <-. by apply configured. }
  destruct Hc as [C R _ _ Y]. split; [|by rewrite <- M1, <- R|done|rewrite <- S1; exact Y].
  rewrite <- C1. trans (session_core s2); [done|].
  exact (f_equal no_session C).
Qed.

Lemma session_keeps s s' : data_ok s -> settled (phase_of s) -> mac_inv s' -> is_block (LoRaMacNwkSKey s') -> is_block (LoRaMacAppSKey s') ->
  Rx2Datarate (LoRaMacParams s') <= 7 -> session_frame s s' -> data_ok s' /\ phase_of s' = phase_of s.
Proof.
  intros [D1 D2 D3 D4 D5 D6 D7 D8 D9 D10] (_ & _ & _ & H4 & H5) Hi Hk1 Hk2 H7 [C R S Y].
  assert (F : forall A (f : mac -> A), (forall x, f (session_core x) = f x) -> f s' = f s).
  { intros A f Hf. rewrite <- (Hf s'), <- (Hf s). by rewrite C. }
  split.
  - split; [|..].
    + destruct D1. split; [done|by rewrite (F _ LastTxChannel)|by rewrite (F _ LoRaMacParamsDefaults)|by rewrite (F _ LoRaMacBuffer)|
        by rewrite (F _ LoRaMacBufferPktLen)].
    + destruct D2. split; [by rewrite (F _ LoRaMacBuffer)|by rewrite (F _ LoRaMacPayload)|by rewrite (F _ LoRaMacRxPayload)|done..].
    + by rewrite (F _ LoRaMacRxPayload).
    + done.
    + by rewrite (F _ LoRaMacParamsDefaults).
    + by rewrite (F _ LoRaMacDeviceClass).
    + destruct D7 as (l & Hl). exists l. unfold groups in *. by rewrite (F _ MulticastNodes), (F _ MulticastChannels).
    + by rewrite (F _ MulticastNodes).
    + by rewrite (F _ AckTimeoutRetriesCounter).
    + rewrite (F _ LoRaMacFlags), R by done. intros H1 H2. unfold join_ready.
      rewrite (F _ LoRaMacAppEui), (F _ LoRaMacDevEui), (F _ LoRaMacAppKey) by done. by apply D10.
  - set (g := fun x => phase_of (x <| MlmeConfirm := mlme_confirm_zero |> <| LoRaMacState := 0 |>)).
    assert (Hx : forall x, gave_up (ml_Status (MlmeConfirm x)) = false -> let v := LoRaMacState x in
      phase_of x = (g x) <| p_run := Z.testbit v 0 |> <| p_delayed := Z.testbit v 4 |> <| p_abort := Z.testbit v 6 |>
      <| p_stray := negb (v =? state_word (Z.testbit v 0) (Z.testbit v 4) (Z.testbit v 6)) |>).
    { intros x E. unfold g, phase_of. cbn. by rewrite E. }
    assert (Hs : g s' = g s) by exact (F _ g (fun x => eq_refl)).
    assert (Es : LoRaMacState s' = LoRaMacState s).
    { apply Y. rewrite (word_of_phase s H4). by destruct (p_run _), (p_delayed _), (p_abort _). }
    apply orb_false_iff in H5 as [_ H5]. by rewrite (Hx s' S), (Hx s H5), Hs, Es.
Qed.

(** What the network must ensure of a join accept: its size, and that an
    authentic one names a datarate of the region for the second window; and the
    device that it has asked to join. *)
Definition accept_admissible (s : mac) (payload : list Z) (size : Z) : Prop :=
  IsLoRaMacNetworkJoined s = true \/
  17 <= size <= 33 /\ is_block (LoRaMacAppKey s) /\
  (join_authentic s payload size = true -> Z.land (join_plain s payload).[11] 0x0F <= 7).

Lemma data_ok_rx s rx : data_ok s -> length rx = 255%nat -> bytes rx -> data_ok (s <| LoRaMacRxPayload := rx |>).
Proof. intros [D1 [] D3 D4 D5 D6 D7 D8 D9 D10] H1 H2. split; try done. by apply (sched_ok_same s). Qed.

Lemma rx_join_accept_keeps payload size s : data_ok s -> settled (phase_of s) -> bytes payload -> 255 <= zlen payload ->
  accept_admissible s payload size ->
  exists s', rx_join_accept payload.[0] payload size s = Done (tt, s') /\ data_ok s' /\ phase_of s' = phase_of s.
Proof.
  intros Hd Hset Hb HL Ha. destruct (IsLoRaMacNetworkJoined s) eqn:Hj; [unfold rx_join_accept; rewrite Hj; by exists s|].
  destruct Ha as [Ha|(Hs & Hk & H7)]; [congruence|]. pose proof (data_rx_wf s Hd) as Hw.
  assert (HD : 0 <= ChannelsDatarate (LoRaMacParamsDefaults s) <= 7) by (pose proof (so_default _ (do_sched _ Hd)); lia).
  destruct (rx_join_accept_spec s payload size Hw Hk Hb HL Hs Hj HD) as (s' & E & Hi & _ & Hc). exists s'. split; [done|].
  unfold rx_join_accept in E. rewrite Hj in E.
  destruct (join_decrypt_spec s payload size Hw Hk Hb HL Hs) as (rx & Ed & Hwr). rewrite Ed in E. cbn [rbind update LoRaMacRxPayload] in E.
  rewrite Hwr in E. cbn [rbind] in E. destruct (join_plain_wf s payload Hk Hb HL) as [Hpl Hpb].
  set (rx2 := splice (LoRaMacRxPayload s) 0 (join_plain s payload)) in *.
  assert (HL2 : length rx2 = 255%nat) by (unfold rx2; rewrite splice_length; destruct Hw; lia).
  assert (Hb2 : bytes rx2) by (apply splice_bytes; [apply Hw|done]).
  apply rbind_inv in E as (msg & _ & E). apply rbind_inv in E as (micRx & _ & E).
  set (s1 := (s <| LoRaMacRxPayload := rx |>) <| LoRaMacRxPayload := rx2 |>) in E.
  assert (Hd1 : data_ok s1) by (apply (data_ok_ext (s <| LoRaMacRxPayload := rx2 |>)); [done|done|by apply data_ok_rx]).
  assert (Hp1 : phase_of s1 = phase_of s) by done. clearbody s1. rewrite <- Hp1 in Hset |- *.
  assert (Hkeys : is_block (LoRaMacNwkSKey s') /\ is_block (LoRaMacAppSKey s') /\ Rx2Datarate (LoRaMacParams s') <= 7).
  { clear E Hd1 Hp1. destruct (join_authentic s payload size).
    - destruct Hc as [(_ & -> & -> & _ & _ & _ & -> & _) _]. split; [|split; [|by apply H7]]; apply fs_session_key_block; try done;
        try (by apply Forall_take, Forall_drop); rewrite length_take, length_drop; lia.
    - destruct Hc as [Hq _]. rewrite (quiet_field LoRaMacNwkSKey _ _ (fun x => eq_refl) Hq), (quiet_field LoRaMacAppSKey _ _ (fun x => eq_refl) Hq),
        (quiet_field LoRaMacParams _ _ (fun x => eq_refl) Hq). destruct (do_buf _ Hd). split; [done|]. split; [done|]. apply Hd. }
  destruct Hkeys as (Hk1 & Hk2 & H7'). destruct (_ =? _).
  - apply join_session_frame in E. by apply session_keeps.
  - injection E as <-. split; [by apply (data_ok_ext s1)|]. destruct Hset as (_ & _ & _ & _ & H5).
    trans ((phase_of s1) <| p_failed := gave_up (mc_Status (McpsConfirm s1)) || false |>); [done|]. apply orb_false_iff in H5 as [H5 H6].
    rewrite H5. trans ((phase_of s1) <| p_failed := gave_up (mc_Status (McpsConfirm s1)) || gave_up (ml_Status (MlmeConfirm s1)) |>); [by rewrite H5, H6|done].
Qed.

(** ** All frames *)

Definition rx_admissible (s : mac) (payload : list Z) (size : Z) : Prop :=
  bytes payload /\ 256 <= zlen payload /\ 0 <= size <= 255 /\
  let t := MType payload.[0] in
  if t =? FRAME_TYPE_JOIN_ACCEPT then accept_admissible s payload size
  else if (t =? FRAME_TYPE_DATA_CONFIRMED_DOWN) || (t =? FRAME_TYPE_DATA_UNCONFIRMED_DOWN) then downlink_admissible s payload size
  else True.

Lemma rx_proprietary_keeps payload size s : data_ok s -> bytes payload -> 256 <= zlen payload -> 0 <= size <= 255 ->
  exists s', rx_proprietary payload size s = Done (tt, s') /\ data_ok s' /\ phase_of s' = (phase_of s) <| p_ind := true |>.
Proof.
  intros Hd Hb HL Hs. pose proof (data_rx_wf s Hd) as [W1 _ _ W4 _]. unfold rx_proprietary.
  rewrite memcpy1_spec by (unfold is_u16 in *; done || lia). cbn [rbind].
  match goal with |- context [s <| LoRaMacRxPayload := ?x |>] => set (rx := x) end.
  eexists. split; [reflexivity|]. split; [|done]. apply (data_ok_ext (s <| LoRaMacRxPayload := rx |>)); [done|done|].
  apply data_ok_rx; [done|unfold rx; rewrite ?length_app, ?length_take, ?length_drop; lia|].
  unfold rx. repeat apply Forall_app_2; by repeat first [apply Forall_take|apply Forall_drop].
Qed.

Lemma rx_done_keeps payload size rssi snr s : sys_ok s -> listening (p_radio (phase_of s)) = true -> rx_admissible s payload size ->
  wp (OnRadioRxDone payload size rssi snr) s (fun _ => sys_ok).
Proof.
  intros Hsys Hl (Hb & HL & Hs & Ha). unfold wp, OnRadioRxDone.
  destruct (rx_reset_keeps rssi snr s Hsys Hl) as (Hd0 & Hset & Hg & Hrx). destruct Hsys as [_ Hp].
  destruct (rx_reset_quiet rssi snr s) as [Hq _]. set (s0 := rx_reset rssi snr s) in *.
  destruct (rd_ok payload 0) as (hdr & -> & Hh); [lia|]. assert (hdr = payload.[0]) as -> by (symmetry; by apply nth_lookup_Some).
  cbn [rbind]. cbv zeta in Ha |- *.
  match goal with |- context [rbind ?m _] => enough (H : exists c s1, m = Done (c, s1) /\ ended (phase_of s0) c s1) end.
  { destruct H as (c & s1 & -> & Hd1 & (f & Hf) & Hc). cbn [rbind]. rewrite Hrx in Hf.
    pose proof (rx_done_ok f _ Hp Hl) as Hok. rewrite <- Hf in Hok. destruct c; cbn [negb].
    - rewrite listen_again_A by apply Hd1. cbn [rbind]. eexists tt, _. split; [reflexivity|]. unfold trigger_check.
      split; [by apply (data_ok_ext s1)|]. rewrite phase_log. exact Hok.
    - exists tt, s1. split; [done|]. split; [done|]. specialize (Hc eq_refl).
      revert Hok Hc. generalize (phase_of s1). intros []. cbn. intros Hok ->. exact Hok. }
  assert (Hbody : forall s1, data_ok s1 -> (exists b : bool, phase_of s1 = (phase_of s0) <| p_ind ::= orb b |>) -> ended (phase_of s0) true s1).
  { intros s1 Hd1 (b & Hp1). split; [done|]. split; [|done]. exists (Other b). rewrite Hp1. destruct Hset as (H1 & H2 & H3 & H4 & H5).
    revert H1 H2 H3 H4 H5. generalize (phase_of s0). intros []. cbn. by intros -> -> -> -> ->. }
  destruct (_ =? FRAME_TYPE_JOIN_ACCEPT).
  { destruct (rx_join_accept_keeps payload size s0) as (s1 & -> & Hd1 & Hp1); try done; [lia| |].
    - unfold accept_admissible in *. rewrite (quiet_field IsLoRaMacNetworkJoined s s0), (quiet_field LoRaMacAppKey s s0) by done.
      by rewrite (quiet_field (fun x => join_authentic x payload size) s s0), (quiet_field (fun x => join_plain x payload) s s0).
    - cbn [rbind]. exists true, s1. split; [done|]. apply Hbody; [done|]. exists false. rewrite Hp1. by destruct (phase_of s0). }
  destruct (_ || _).
  { apply rx_data_keeps; try done; try lia. destruct Ha as [H12 Ha]. split; [done|]. intros d.
    rewrite (quiet_field (rx_destination (field payload 1 4)) s s0) by done. intros E.
    unfold bad_downlink. rewrite (quiet_field LoRaMacRxPayload s s0) by done. by apply Ha. }
  destruct (_ =? FRAME_TYPE_PROPRIETARY).
  { destruct (rx_proprietary_keeps payload size s0) as (s1 & -> & Hd1 & Hp1); try done; try lia. cbn [rbind]. exists true, s1. split; [done|].
    apply Hbody; [done|]. exists true. by rewrite Hp1. }
  destruct (rx_abort_keeps LORAMAC_EVENT_INFO_STATUS_ERROR None s0 Hd0 Hset) as (s1 & -> & Hd1 & Hf & _). cbn [rbind].
  by exists true, s1.
Qed.

(** ** Queries *)

Lemma query_keeps size info s : sys_ok s -> is_u8 size -> wp (LoRaMacQueryTxPossible size info) s (fun _ => sys_ok).
Proof.
  intros [Hd Hp] Hs. unfold wp, LoRaMacQueryTxPossible. destruct info as [info|]; [|by eexists _, s].
  destruct (data_frame_ok s Hd) as [_ _ [_ _ W3 W4 W5] F4 _].
  destruct (AdrNextDr_total s (AdrCtrlOn s) false F4) as (req & dr & a & p & -> & Hdr & Hpar). cbn [rbind].
  set (s1 := s <| AdrAckCounter := a |> <| LoRaMacParams := p |>).
  assert (H1 : sys_ok s1).
  { split; [|exact Hp]. destruct Hpar as [-> | ->]; [by apply (data_ok_ext s); [by destruct s|done|]|].
    apply (data_ok_ext (s <| LoRaMacParams ::= reenable_default |>)); [done|done|by apply data_ok_reenable]. }
  destruct (rd_ok (if RepeaterSupport s1 then MaxPayloadOfDatarateRepeater else MaxPayloadOfDatarate) dr) as (cur & -> & _);
    [destruct (RepeaterSupport s1); cbn; lia|]. cbn [rbind].
  assert (Ho : 0 <= u8 (MacCommandsBufferIndex s + MacCommandsBufferToRepeatIndex s) <= 15) by (rewrite u8_id; unfold is_u8; lia).
  destruct (cur <? _); [by eexists _, s1|]. rewrite !ValidatePayloadLength_spec by (done || lia). cbn [rbind].
  destruct (size + 0 <=? _); cbn [negb]; [|by eexists _, s1]. destruct (_ <=? _); by eexists _, s1.
Qed.

End Reception.

(** * The system *)

Section Events.
Context {RD : RadioDriver} {FS : FrameSecurity}.

(** The function a timer calls when it expires. *)
Definition timer_callback (t : timer) : M unit :=
  match t with
  | MacStateCheckTimer => OnMacStateCheckTimerEvent
  | TxDelayedTimer => OnTxDelayedTimerEvent
  | RxWindowTimer1 => OnRxWindow1TimerEvent
  | RxWindowTimer2 => OnRxWindow2TimerEvent
  | AckTimeoutTimer => OnAckTimeoutTimerEvent
  end.

(** The events of the radio driver. *)
Inductive radio_interrupt :=
| TxDone
| RxDone (payload : list Z) (size rssi snr : Z)
| RxError
| TxTimeout
| RxTimeout.

Definition radio_callback (e : radio_interrupt) : M unit :=
  match e with
  | TxDone => OnRadioTxDone
  | RxDone payload size rssi snr => OnRadioRxDone payload size rssi snr
  | RxError => OnRadioRxError
  | TxTimeout => OnRadioTxTimeout
  | RxTimeout => OnRadioRxTimeout
  end.

(** The calls of the upper layer. *)
Inductive service_call :=
| McpsRequest (req : option McpsReq_t)
| MlmeRequest (req : option MlmeReq_t)
| MibSetRequest (m : option MibRequestConfirm_t)
| QueryTxPossible (size : Z) (info : option LoRaMacTxInfo_t)
| ChannelAdd (id freq drRange : Z)
| ChannelRemove (id : Z)
| MulticastLink (p : option Z)
| MulticastUnlink (p : option Z)
| TestRxWindowsOn (enable : bool)
| TestSetMic (txPacketCounter : Z)
| TestSetDutyCycleOn (enable : bool).

Definition discard {A} (m : M A) : M unit := fun s => let* (_, s) := m s in Done (tt, s).

Definition serve (c : service_call) : M unit :=
  match c with
  | McpsRequest req => discard (LoRaMacMcpsRequest req)
  | MlmeRequest req => discard (LoRaMacMlmeRequest req)
  | MibSetRequest m => discard (LoRaMacMibSetRequestConfirm m)
  | QueryTxPossible size info => discard (LoRaMacQueryTxPossible size info)
  | ChannelAdd id freq drRange => discard (LoRaMacChannelAdd id freq drRange)
  | ChannelRemove id => discard (LoRaMacChannelRemove id)
  | MulticastLink p => discard (LoRaMacMulticastChannelLink p)
  | MulticastUnlink p => discard (LoRaMacMulticastChannelUnlink p)
  | TestRxWindowsOn enable => fun s => Done (tt, LoRaMacTestRxWindowsOn enable s)
  | TestSetMic c => fun s => Done (tt, LoRaMacTestSetMic c s)
  | TestSetDutyCycleOn enable => fun s => Done (tt, LoRaMacTestSetDutyCycleOn enable s)
  end.

(** What can happen to the MAC; the last two happen around it: time passes and
    the radio's channel changes, and the upper layer fills in a group of its own. *)
Inductive event :=
| TimerExpires (t : timer)
| RadioRaises (e : radio_interrupt)
| LayerCalls (c : service_call)
| WorldMoves (e : environment)
| GroupFilled (p : Z) (n : MulticastParams_t).

Definition handle (e : event) : M unit :=
  match e with
  | TimerExpires t => timer_callback t
  | RadioRaises e => radio_callback e
  | LayerCalls c => serve c
  | WorldMoves e => fun s => Done (tt, s <| env := e |>)
  | GroupFilled p n => fun s => Done (tt, s <| MulticastNodes ::= <[p := n]> |>)
  end.

(** ** When an event can happen *)

(** A timer expires only while it runs, the window timers in their order. *)
Definition timer_due (t : timer) (s : mac) : Prop :=
  armed t (trace s) = true /\ (t = RxWindowTimer2 -> armed RxWindowTimer1 (trace s) = false).

(** The radio reports the end of what it was told to do. *)
Definition radio_due (e : radio_interrupt) (s : mac) : Prop :=
  match e with TxDone | TxTimeout => radio_of (trace s) = Sending | _ => radio_of (trace s) = Listening end.

Definition enabled (e : event) (s : mac) : Prop :=
  match e with
  | TimerExpires t => timer_due t s
  | RadioRaises e => radio_due e s
  | _ => True
  end.

(** ** What the MAC relies on *)

Definition call_admissible (c : service_call) (s : mac) : Prop :=
  match c with
  | McpsRequest (Some req) => mcps_admissible s req
  | MlmeRequest (Some req) => mlme_admissible s req
  | MibSetRequest (Some m) => mib_admissible s m
  | QueryTxPossible size _ => is_u8 size
  | ChannelAdd id _ _ | ChannelRemove id => 0 <= id
  | MulticastLink (Some p) => link_admissible s p
  | MulticastUnlink (Some p) => exists l, groups s l /\ p ∈ l
  | _ => True
  end.

Definition admissible (e : event) (s : mac) : Prop :=
  match e with
  | RadioRaises (RxDone payload size _ _) => rx_admissible s payload size
  | LayerCalls c => call_admissible c s
  | GroupFilled p n => (exists l, groups s l /\ p ∉ l) /\ is_block (mp_NwkSKey n) /\ is_block (mp_AppSKey n)
  | _ => True
  end.

(** The states of the MAC after it was initialized. *)
Inductive reachable : mac -> Prop :=
| reachable_init e s : LoRaMacInitialization (Some (mkPrimitives true true true)) (mac_boot e) = Done (LORAMAC_STATUS_OK, s) -> reachable s
| reachable_step s e s' : reachable s -> enabled e s -> admissible e s -> handle e s = Done (tt, s') -> reachable s'.

(** * Lemmas *)

Lemma discarded {A} (m : M A) s Q : wp m s (fun _ => Q) -> wp (discard m) s (fun _ => Q).
Proof. intros (a & s' & E & H). exists tt, s'. unfold discard. by rewrite E. Qed.

Lemma timer_keeps t s : sys_ok s -> timer_due t s -> wp (timer_callback t) s (fun _ => sys_ok).
Proof.
  intros Hs [Ha Ho]. destruct t; cbn [timer_callback].
  - by apply state_check_keeps.
  - by apply tx_later_keeps.
  - by apply window1_keeps.
  - apply window2_keeps; [done|]. change (armed RxWindowTimer2 (trace s) && negb (armed RxWindowTimer1 (trace s)) = true). by rewrite Ha, Ho.
  - by apply ack_timeout_keeps.
Qed.

Lemma radio_keeps e s : sys_ok s -> radio_due e s -> admissible (RadioRaises e) s -> wp (radio_callback e) s (fun _ => sys_ok).
Proof.
  intros Hs He Ha. destruct e; cbn [radio_callback radio_due admissible] in *.
  - apply tx_done_keeps; [done|]. change (sending (radio_of (trace s)) = true). by rewrite He.
  - apply rx_done_keeps; [done| |done]. change (listening (radio_of (trace s)) = true). by rewrite He.
  - apply rx2_failed_keeps; [done|done|]. change (listening (radio_of (trace s)) = true). by rewrite He.
  - apply tx_timeout_keeps; [done|]. change (sending (radio_of (trace s)) = true). by rewrite He.
  - apply rx2_failed_keeps; [done|done|]. change (listening (radio_of (trace s)) = true). by rewrite He.
Qed.

Lemma serve_keeps c s : sys_ok s -> call_admissible c s -> wp (serve c) s (fun _ => sys_ok).
Proof.
  intros Hs Ha. destruct c as [[req|]|[req|]|[m|]|size info|id f dr|id|[p|]|[p|]|b|c|b]; cbn [serve call_admissible] in *;
    try apply discarded; try (by eexists _, s); try (eexists _, _; split; [reflexivity|]; destruct Hs as [Hd Hp]; split; [by apply (data_ok_ext s)|exact Hp]).
  - by apply mcps_keeps.
  - by apply mlme_keeps.
  - by apply mib_keeps.
  - by apply query_keeps.
  - by apply ChannelAdd_keeps.
  - by apply ChannelRemove_keeps.
  - by apply link_keeps.
  - by apply unlink_keeps.
Qed.

Lemma handle_keeps e s : sys_ok s -> enabled e s -> admissible e s -> wp (handle e) s (fun _ => sys_ok).
Proof.
  intros Hs He Ha. destruct e as [t|e|c|e|p n]; cbn [handle].
  - by apply timer_keeps.
  - by apply radio_keeps.
  - by apply serve_keeps.
  - eexists _, _. split; [reflexivity|]. destruct Hs as [Hd Hp]. split; [by apply (data_ok_ext s)|exact Hp].
  - eexists _, _. split; [reflexivity|]. destruct Ha as [H1 H2]. by apply fill_keeps.
Qed.

Lemma reset_defaults s ns : LoRaMacParamsDefaults (reset_session s ns) = LoRaMacParamsDefaults s.
Proof. reflexivity. Qed.

(** The state after the reset of an initialization, and the end of it. *)
Definition boot_reset (e : environment) : mac := reset_session (init_statics (mac_boot e)) ∅.

Lemma boot_reset_data e : data_ok (boot_reset e).
Proof.
  destruct (init_statics_wf (mac_boot e) (static_boot e)) as (Hs1 & Hp1 & Hd1 & _).
  pose proof (reset_sched_ok _ ∅ Hs1 Hp1 Hd1) as Hso. pose proof (reset_buf_wf _ ∅ Hs1) as Hb. apply mkDataOk.
  - exact Hso.
  - exact Hb.
  - apply bytesb_true. vm_compute. reflexivity.
  - vm_compute. discriminate.
  - unfold boot_reset. rewrite reset_defaults. split; [exact Hp1|]. split; vm_compute; [discriminate|reflexivity].
  - vm_compute. discriminate.
  - exists []. apply groups_none. vm_compute. reflexivity.
  - vm_compute. intros y n H. discriminate.
  - vm_compute. discriminate.
  - vm_compute. discriminate.
Qed.

Lemma boot_reset_phase e : phase_of (boot_reset e) =
  mkPhase Silent false false false false false false false false false false false false false false true false false.
Proof. vm_compute. reflexivity. Qed.

Lemma init_calls s s' : data_ok s ->
  phase_of s = mkPhase Silent false false false false false false false false false false false false false false true false false ->
  (let s := log [TimerInit MacStateCheckTimer; TimerSetValue MacStateCheckTimer MAC_STATE_CHECK_TIMEOUT;
                 TimerInit TxDelayedTimer; TimerInit RxWindowTimer1; TimerInit RxWindowTimer2; TimerInit AckTimeoutTimer; RadioInit] s in
   let s := s <| rand_next := srand1 (RadioRandom (env s)) |> <| PublicNetwork := true |> in
   let* (_, s) := SetPublicNetwork true s in
   Done (LORAMAC_STATUS_OK, log [RadioSleep] s)) = Done (LORAMAC_STATUS_OK, s') -> sys_ok s'.
Proof.
  intros Hd Hp. unfold SetPublicNetwork. cbn [rbind]. intros [= <-]. split; [by apply (data_ok_ext s)|].
  rewrite !phase_log. match goal with |- context [phase_of ?x] => rewrite (phase_calls s x _ eq_refl) end.
  match goal with |- context [phase_of ?x] => change (phase_of x) with (phase_of s) end. rewrite Hp. vm_compute. reflexivity.
Qed.

Lemma init_ok e s : LoRaMacInitialization (Some (mkPrimitives true true true)) (mac_boot e) = Done (LORAMAC_STATUS_OK, s) -> sys_ok s.
Proof.
  cbn [LoRaMacInitialization has_McpsConfirm has_McpsIndication has_MlmeConfirm negb orb].
  destruct (ResetMacParameters_spec (init_statics (mac_boot e)) []) as (ns & -> & Hns); [by apply groups_none|]. cbn [rbind].
  assert (ns = ∅) as -> by (apply map_eq; intros y; exact (Hns y)). fold (boot_reset e).
  apply init_calls; [apply boot_reset_data|apply boot_reset_phase].
Qed.

Lemma reachable_ok s : reachable s -> sys_ok s.
Proof.
  induction 1 as [e s E|s e s' _ IH He Ha E]; [by apply (init_ok e)|].
  destruct (handle_keeps e s IH He Ha) as (u & s2 & E2 & H2). rewrite E in E2. by injection E2 as _ <-.
Qed.

(** ** A cycle under way *)

(** The radio works for the MAC, or one of its timers but the periodic one runs. *)
Definition under_way (s : mac) : bool :=
  match radio_of (trace s) with Silent => false | _ => true end ||
  armed RxWindowTimer1 (trace s) || armed RxWindowTimer2 (trace s) || armed TxDelayedTimer (trace s) || armed AckTimeoutTimer (trace s).

Lemma under_way_runs p : phase_ok p = true -> busy p || p_later p || p_timeout p = true -> p_run p || p_delayed p = true.
Proof. revert p. apply (phase_implies (fun p => busy p || p_later p || p_timeout p) (fun p => p_run p || p_delayed p)). vm_compute. reflexivity. Qed.

Lemma one_at_a_time p : phase_ok p = true -> busy p = true ->
  implb (sending (p_radio p)) (negb (p_w1 p || p_w2 p || p_timeout p)) && implb (listening (p_radio p)) (negb (p_w1 p)) && negb (p_later p) = true.
Proof.
  revert p. apply (phase_implies busy (fun p => implb (sending (p_radio p)) (negb (p_w1 p || p_w2 p || p_timeout p)) &&
    implb (listening (p_radio p)) (negb (p_w1 p)) && negb (p_later p))). vm_compute. reflexivity.
Qed.

Lemma under_way_busy s : sys_ok s -> under_way s = true -> state_has MAC_TX_RUNNING s || state_has MAC_TX_DELAYED s = true.
Proof.
  intros [Hd Hp] Hu. destruct (state_bits s) as (-> & -> & _). apply under_way_runs; [done|].
  unfold under_way in Hu. unfold busy, phase_of. cbn. revert Hu.
  destruct (radio_of (trace s)), (armed RxWindowTimer1 _), (armed RxWindowTimer2 _), (armed TxDelayedTimer _), (armed AckTimeoutTimer _); done.
Qed.

(** ** A cycle that never ends *)

(** The cycle is over and an acknowledgement is still awaited, but no timer is left to give it up. *)
Definition stuck (p : phase) : Prop :=
  p_run p = true /\ p_delayed p = false /\ p_abort p = false /\ p_done p = true /\ p_ind p = false /\ p_wait p = true /\
  p_retry p = false /\ p_timeout p = false /\ p_later p = false /\ p_failed p = false.

Lemma stuck_check c p : stuck p -> check_step c p = p.
Proof.
  destruct p as [r w1 w2 later timeout run delayed abort stray over ind wait retry failed acked tries slot chan].
  intros (E1 & E2 & E3 & E4 & E5 & E6 & E7 & E8 & E9 & E10). cbn in E1, E2, E3, E4, E5, E6, E7, E8, E9, E10. subst.
  destruct c as [pending last rep again retry]. unfold check_step, check_end. cbn. by destruct pending.
Qed.

Lemma stuck_silent p : phase_ok p = true -> stuck p -> busy p = false.
Proof.
  intros Hp (_ & _ & _ & H & _). destruct (busy p) eqn:Eb; [|done]. destruct (busy_facts p Hp Eb) as (_ & Hd & _). congruence.
Qed.

Lemma query_phase size info s r s' : data_ok s -> LoRaMacQueryTxPossible size info s = Done (r, s') -> phase_of s' = phase_of s.
Proof.
  intros Hd H. unfold LoRaMacQueryTxPossible in H. destruct info as [info|]; [|by injection H as _ <-].
  destruct (AdrNextDr_total s (AdrCtrlOn s) false (fk_dr _ (data_frame_ok s Hd))) as (req & dr & a & p & E & _). rewrite E in H. cbn [rbind] in H.
  apply rbind_inv in H as (cur & _ & H). destruct (cur <? _); [by injection H as _ <-|].
  apply rbind_inv in H as (ok & _ & H). destruct (negb ok); [by injection H as _ <-|].
  apply rbind_inv in H as (ok2 & _ & H). destruct (negb ok2); by injection H as _ <-.
Qed.

Lemma stuck_calls c s s' : sys_ok s -> stuck (phase_of s) -> call_admissible c s -> serve c s = Done (tt, s') -> phase_of s' = phase_of s.
Proof.
  intros Hs Hst Ha H. assert (Hr : state_has MAC_TX_RUNNING s = true) by (destruct (state_bits s) as (-> & _ & _); apply Hst).
  assert (Hcfg : state_has MAC_TX_CONFIG s = false).
  { unfold state_has. rewrite (word_of_phase s (not_stray _ (proj2 Hs))). by destruct (p_run _), (p_delayed _), (p_abort _). }
  destruct c as [[req|]|[req|]|[m|]|size info|id f dr|id|[p|]|[p|]|b|c|b]; cbn [serve] in H;
    try (injection H as <-; done); unfold discard in H; apply rbind_inv in H as ([a s1] & E & H); injection H as <-;
    cbn [LoRaMacMcpsRequest LoRaMacMlmeRequest LoRaMacMibSetRequestConfirm LoRaMacMulticastChannelLink LoRaMacMulticastChannelUnlink] in E;
    rewrite ?Hr in E; try (by injection E as _ <-).
  - by apply query_phase in E; [|apply Hs].
  - unfold LoRaMacChannelAdd in E. rewrite Hr, Hcfg in E. destruct (_ <=? id); by injection E as _ <-.
  - unfold LoRaMacChannelRemove in E. rewrite Hr, Hcfg in E. by injection E as _ <-.
Qed.

(** Whatever happens, the MAC stays where it is. *)
Lemma stuck_for_ever e s s' : sys_ok s -> stuck (phase_of s) -> enabled e s -> admissible e s -> handle e s = Done (tt, s') -> phase_of s' = phase_of s.
Proof.
  intros Hs Hst He Ha H. pose proof (stuck_silent _ (proj2 Hs) Hst) as Hb. unfold busy in Hb.
  apply orb_false_iff in Hb as [[[Hb1 Hb2]%orb_false_iff Hw1]%orb_false_iff Hw2].
  change (sending (radio_of (trace s)) = false) in Hb1. change (listening (radio_of (trace s)) = false) in Hb2.
  change (armed RxWindowTimer1 (trace s) = false) in Hw1. change (armed RxWindowTimer2 (trace s) = false) in Hw2.
  pose proof Hst as (_ & _ & _ & _ & _ & _ & _ & Ht & Hl & _).
  change (armed AckTimeoutTimer (trace s) = false) in Ht. change (armed TxDelayedTimer (trace s) = false) in Hl.
  destruct e as [t|e|c|e|p n]; cbn [handle enabled] in *.
  - destruct He as [He _]. destruct t; try congruence. cbn [timer_callback] in H.
    destruct (state_check_step s Hs) as (s2 & c & E & _ & Hp). rewrite H in E. injection E as <-. rewrite Hp. by apply stuck_check.
  - exfalso. destruct e; cbn [radio_due] in He; rewrite He in Hb1, Hb2; done.
  - by apply (stuck_calls c).
  - by injection H as <-.
  - by injection H as <-.
Qed.

End Events.

(** * A run *)

(** One event of the system. *)
Definition step {RD : RadioDriver} {FS : FrameSecurity} (s s' : mac) : Prop :=
  exists e, enabled e s /\ admissible e s /\ handle e s = Done (tt, s').

Definition after (e : event) (s : mac) : mac :=
  match @handle demo_driver mac_security e s with Done (_, s') => s' | _ => s end.

Definition demo_boot : mac := mac_boot (mkEnv 100000 true 77).
Definition demo_start : mac := Eval vm_compute in
  match LoRaMacInitialization (Some (mkPrimitives true true true)) demo_boot with Done (_, s) => s | _ => demo_boot end.

(** The device is given an address and counters, and sends a confirmed frame. *)
Definition demo_joined : mac := Eval vm_compute in
  after (LayerCalls (MibSetRequest (Some (MIB_DOWNLINK_COUNTER 1)))) (after (LayerCalls (MibSetRequest (Some (MIB_NETWORK_JOINED true))))
    (after (LayerCalls (MibSetRequest (Some (MIB_DEV_ADDR 0x26011234)))) demo_start)).
Definition demo_uplink : event := LayerCalls (McpsRequest (Some (McpsConfirmed 2 (Some [1; 2; 3]) 3 5 3))).
Definition demo_sent : mac := Eval vm_compute in after demo_uplink demo_joined.
Definition demo_window : mac := Eval vm_compute in after (TimerExpires RxWindowTimer1) (after (RadioRaises TxDone) demo_sent).

(** The server repeats its last confirmed frame, now with the acknowledgement. *)
Definition demo_repeat : event := Eval vm_compute in
  let f := @downlink_frame mac_security demo_window 0xA0 0x20 1 [] 2 [7] in RadioRaises (RxDone (f ++ replicate 242 0) (zlen f) 0 0).
Definition demo_blocked : mac := Eval vm_compute in after (TimerExpires MacStateCheckTimer) (after demo_repeat demo_window).

(** A first frame without an answer, a link check and a second frame, which has to wait for the duty cycle. *)
Definition demo_exchange : list event :=
  [LayerCalls (McpsRequest (Some (McpsUnconfirmed 2 (Some [1; 2; 3]) 3 5))); RadioRaises TxDone; TimerExpires RxWindowTimer1; RadioRaises RxTimeout;
   TimerExpires RxWindowTimer2; RadioRaises RxTimeout; TimerExpires MacStateCheckTimer; LayerCalls (MlmeRequest (Some MlmeLinkCheck));
   LayerCalls (McpsRequest (Some (McpsUnconfirmed 2 (Some [4; 5; 6]) 3 5)))].
Definition demo_waiting : mac := Eval vm_compute in fold_left (fun s e => after e s) demo_exchange demo_joined.

Section Demo.
#[local] Existing Instance demo_driver.
#[local] Existing Instance mac_security.

Lemma after_reachable e s : reachable s -> enabled e s -> admissible e s -> handle e s = Done (tt, after e s) -> reachable (after e s).
Proof. intros H1 H2 H3 H4. by apply (reachable_step s e). Qed.

Lemma demo_start_reachable : reachable demo_start.
Proof. apply (reachable_init (mkEnv 100000 true 77)). vm_compute. reflexivity. Qed.

Lemma demo_joined_reachable : reachable demo_joined.
Proof.
  change demo_joined with (after (LayerCalls (MibSetRequest (Some (MIB_DOWNLINK_COUNTER 1)))) (after (LayerCalls (MibSetRequest (Some (MIB_NETWORK_JOINED true))))
    (after (LayerCalls (MibSetRequest (Some (MIB_DEV_ADDR 0x26011234)))) demo_start))).
  repeat (apply after_reachable; [|exact I|by split_and!|vm_compute; reflexivity]). apply demo_start_reachable.
Qed.

Lemma demo_sent_reachable : reachable demo_sent.
Proof.
  change demo_sent with (after demo_uplink demo_joined). apply after_reachable; [apply demo_joined_reachable|exact I| |vm_compute; reflexivity].
  vm_compute. repeat split; try discriminate. right. discriminate.
Qed.

Lemma demo_window_reachable : reachable demo_window.
Proof.
  change demo_window with (after (TimerExpires RxWindowTimer1) (after (RadioRaises TxDone) demo_sent)).
  apply after_reachable; [|by split|exact I|vm_compute; reflexivity].
  apply after_reachable; [apply demo_sent_reachable|reflexivity|exact I|vm_compute; reflexivity].
Qed.

Lemma demo_repeat_admissible : admissible demo_repeat demo_window.
Proof.
  change demo_repeat with (let f := @downlink_frame mac_security demo_window 0xA0 0x20 1 [] 2 [7] in RadioRaises (RxDone (f ++ replicate 242 0) (zlen f) 0 0)).
  split; [apply bytesb_true; vm_compute; reflexivity|]. split; [vm_compute; discriminate|]. split; [vm_compute; split; discriminate|].
  match goal with |- let t := ?x in _ => replace x with FRAME_TYPE_DATA_CONFIRMED_DOWN by (vm_compute; reflexivity) end. cbn [Z.eqb orb].
  split; [vm_compute; discriminate|]. intros d _ [[H _]|(_ & H & _)]; [revert H|revert H]; vm_compute; discriminate.
Qed.

Lemma demo_blocked_reachable : reachable demo_blocked.
Proof.
  change demo_blocked with (after (TimerExpires MacStateCheckTimer) (after demo_repeat demo_window)).
  apply after_reachable; [|by split|exact I|vm_compute; reflexivity].
  apply after_reachable; [apply demo_window_reachable|reflexivity|apply demo_repeat_admissible|vm_compute; reflexivity].
Qed.


Ltac demo_step :=
  apply after_reachable; [|vm_compute; repeat split; discriminate|vm_compute; repeat split; try discriminate; right; discriminate|vm_compute; reflexivity].

Lemma demo_waiting_reachable : reachable demo_waiting.
Proof.
  change demo_waiting with (fold_left (fun s e => after e s) demo_exchange demo_joined). cbn [fold_left demo_exchange].
  do 9 demo_step. apply demo_joined_reachable.
Qed.

End Demo.

(** * Properties *)

(** C1: the MAC as a whole never fails.  From initialization on, in every state
    that timers, radio events and admissible calls of the upper layer can lead to,
    in any order: the tables, buffers, keys and parameters are well formed and the
    timers, the radio and the flags agree on where the transmission cycle stands; and
    every event that can happen is handled to its end (no access out of bounds, no
    missing object, no endless loop) in a state of the same kind. *)
Theorem mac_never_fails (RD : RadioDriver) (FS : FrameSecurity) s e : reachable s -> enabled e s -> admissible e s ->
  sys_ok s /\ exists s', handle e s = Done (tt, s') /\ reachable s' /\ sys_ok s'.
Proof.
  intros Hr He Ha. pose proof (reachable_ok s Hr) as Hs. split; [done|].
  destruct (handle_keeps e s Hs He Ha) as ([] & s' & E & Hs'). exists s'. split; [done|]. split; [|done]. by eapply reachable_step.
Qed.

(** A confirmed frame is on the air; its transmission ends. *)
Lemma mac_never_fails_witness :
  exists s', @handle demo_driver mac_security (RadioRaises TxDone) demo_sent = Done (tt, s') /\ @reachable demo_driver mac_security s'.
Proof.
  destruct (mac_never_fails demo_driver mac_security demo_sent (RadioRaises TxDone) demo_sent_reachable) as (_ & s' & E & H & _).
  - vm_compute. reflexivity.
  - exact I.
  - exists s'. split; [exact E|exact H].
Defined.

(** C2: exchanges do not overlap.  In every reachable state the radio sends only
    with no window to come and no acknowledgement timed, listens only after the timer
    of the first window, and does neither while a frame waits for the duty cycle;
    and as long as the radio or one of those timers is at work a data request is
    refused as busy with nothing changed. *)
Theorem exchanges_do_not_overlap (RD : RadioDriver) (FS : FrameSecurity) s req : reachable s ->
  (radio_of (trace s) = Sending -> armed RxWindowTimer1 (trace s) = false /\ armed RxWindowTimer2 (trace s) = false /\
     armed AckTimeoutTimer (trace s) = false) /\
  (radio_of (trace s) = Listening -> armed RxWindowTimer1 (trace s) = false) /\
  (radio_of (trace s) <> Silent -> armed TxDelayedTimer (trace s) = false) /\
  (under_way s = true -> LoRaMacMcpsRequest (Some req) s = Done (LORAMAC_STATUS_BUSY, s)).
Proof.
  intros Hr. pose proof (reachable_ok s Hr) as [Hd Hp].
  assert (Hb : radio_of (trace s) <> Silent -> busy (phase_of s) = true) by (intros H; unfold busy, phase_of; cbn; by destruct (radio_of (trace s))).
  assert (Hone := fun H => one_at_a_time (phase_of s) Hp (Hb H)). unfold phase_of in Hone. cbn in Hone.
  split_and!.
  - intros E. rewrite E in Hone. specialize (Hone ltac:(done)). apply andb_true_iff in Hone as [[Hone _]%andb_true_iff _].
    cbn in Hone. apply negb_true_iff, orb_false_iff in Hone as [[H1 H2]%orb_false_iff H3]. done.
  - intros E. rewrite E in Hone. specialize (Hone ltac:(done)). apply andb_true_iff in Hone as [[_ Hone]%andb_true_iff _].
    cbn in Hone. by apply negb_true_iff in Hone.
  - intros H. specialize (Hone H). apply andb_true_iff in Hone as [_ Hone]. by apply negb_true_iff in Hone.
  - intros Hu. unfold LoRaMacMcpsRequest. by rewrite (under_way_busy s).
Qed.

Lemma exchanges_do_not_overlap_witness :
  @LoRaMacMcpsRequest demo_driver mac_security (Some (McpsUnconfirmed 2 None 0 5)) demo_sent = Done (LORAMAC_STATUS_BUSY, demo_sent).
Proof.
  destruct (exchanges_do_not_overlap demo_driver mac_security demo_sent (McpsUnconfirmed 2 None 0 5) demo_sent_reachable) as (_ & _ & _ & H).
  apply H. vm_compute. reflexivity.
Defined.

(** A confirmed frame that is acknowledged by a repetition of the last confirmed
    downlink blocks the MAC: the acknowledgement stops the timeout, but nothing is
    indicated, so that the check neither ends the cycle nor repeats the frame; from
    then on every request is refused, whatever happens. *)
Theorem repeated_ack_blocks : exists s, @reachable demo_driver mac_security s /\ forall s', rtc (@step demo_driver mac_security) s s' ->
  state_has MAC_TX_RUNNING s' = true /\ NodeAckRequested s' = true /\
  forall req, @LoRaMacMcpsRequest demo_driver mac_security (Some req) s' = Done (LORAMAC_STATUS_BUSY, s').
Proof.
  exists demo_blocked. split; [exact demo_blocked_reachable|]. intros s' Hs.
  assert (H : @reachable demo_driver mac_security s' /\ stuck (phase_of s')).
  { revert Hs. apply (rtc_ind_r (fun x => @reachable demo_driver mac_security x /\ stuck (phase_of x))).
    - split; [exact demo_blocked_reachable|]. by vm_compute.
    - intros x y _ (e & He & Ha & E) [Hx Hst]. split; [by eapply reachable_step|].
      by rewrite (stuck_for_ever e x y (reachable_ok x Hx) Hst He Ha E). }
  destruct H as [Hr Hst]. assert (E : state_has MAC_TX_RUNNING s' = true) by (destruct (state_bits s') as (-> & _ & _); apply Hst).
  split; [done|]. split; [by apply Hst|]. intros req. unfold LoRaMacMcpsRequest. by rewrite E.
Qed.

(** A join that is refused because a frame waits for the duty cycle clears the
    confirmation, which then says that a join is pending; if a link check is,
    the waiting data frame is replaced by a join request for identifiers that were
    never given: the timer's handler follows a NULL pointer. *)
Theorem refused_join_breaks_waiting_frame : exists s, @reachable demo_driver mac_security s /\
  exists s', @LoRaMacMlmeRequest demo_driver mac_security (Some (MlmeJoin (Some (replicate 8 1)) (Some (replicate 8 2)) (Some demo_key))) s =
      Done (LORAMAC_STATUS_BUSY, s') /\
    enabled (TimerExpires TxDelayedTimer) s' /\ @handle demo_driver mac_security (TimerExpires TxDelayedTimer) s' = Undef.
Proof.
  exists demo_waiting. split; [exact demo_waiting_reachable|]. eexists. split; [vm_compute; reflexivity|].
  split; vm_compute; [by split|reflexivity].
Qed.

End MacEvents.
