(* ===== verification/Pbuf.v ===== *)
(** Packet buffers of the LwIP stack (src/LwIP/core/pbuf.c), as far as the
    network interface of the device uses them: chains of reference-counted
    buffers in a store, so that a buffer that was freed cannot be read and a
    chain shares the buffers it was built from. *)
From S2P Require Import Prelude Utilities Linked.

Module Pbuf.

(** * State *)

Inductive pbuf_type := PBUF_RAM | PBUF_POOL.
Inductive pbuf_layer := PBUF_TRANSPORT | PBUF_IP | PBUF_LINK | PBUF_RAW_TX | PBUF_RAW.

(** [struct pbuf]; [len] is the length of the payload. *)
Record pbuf := mkPbuf {
  pb_type : pbuf_type;
  pb_next : option Z;
  pb_payload : list Z;
  pb_tot_len : Z;
  pb_ref : Z;
}.
#[export] Instance eta_pbuf : Eta pbuf :=
  fun p => mkPbuf (pb_type p) (pb_next p) (pb_payload p) (pb_tot_len p) (pb_ref p).
Definition pb_len (p : pbuf) : Z := zlen (pb_payload p).

(** The live buffers, the next address, the free buffers of the pool
    ([memp_malloc]) and whether the heap has room ([mem_malloc]).  Addresses are
    not used twice, so that an access to a freed buffer shows. *)
Record mem := mkMem {
  pbufs : gmap Z pbuf;
  brk : Z;
  pool_free : Z;
  heap_ok : bool;
}.
#[export] Instance eta_mem : Eta mem := fun m => mkMem (pbufs m) (brk m) (pool_free m) (heap_ok m).

Inductive err_t := ERR_OK | ERR_MEM | ERR_BUF | ERR_ARG.

Definition PBUF_LINK_ENCAPSULATION_HLEN : Z := 0.
Definition PBUF_LINK_HLEN : Z := 14.
Definition PBUF_IP_HLEN : Z := 40.
Definition PBUF_TRANSPORT_HLEN : Z := 20.
(** [TCP_MSS] + 40 + the link headers, with alignment 1 *)
Definition PBUF_POOL_BUFSIZE : Z := 536 + 40 + PBUF_LINK_ENCAPSULATION_HLEN + PBUF_LINK_HLEN.

Definition layer_offset (layer : pbuf_layer) : Z :=
  match layer with
  | PBUF_TRANSPORT => PBUF_LINK_ENCAPSULATION_HLEN + PBUF_LINK_HLEN + PBUF_IP_HLEN + PBUF_TRANSPORT_HLEN
  | PBUF_IP => PBUF_LINK_ENCAPSULATION_HLEN + PBUF_LINK_HLEN + PBUF_IP_HLEN
  | PBUF_LINK => PBUF_LINK_ENCAPSULATION_HLEN + PBUF_LINK_HLEN
  | PBUF_RAW_TX => PBUF_LINK_ENCAPSULATION_HLEN
  | PBUF_RAW => 0
  end.

(** * Access through pointers *)

Definition deref (p : Z) (m : mem) : run pbuf :=
  match pbufs m !! p with Some b => Done b | None => Undef end.
Definition store (p : Z) (g : pbuf -> pbuf) (m : mem) : run mem :=
  let* b := deref p m in Done (m <| pbufs := <[p := g b]> (pbufs m) |>).

(** A new buffer; what it holds is whatever was there. *)
Definition new_pbuf (b : pbuf) (m : mem) : Z * mem :=
  (brk m, m <| pbufs := <[brk m := b]> (pbufs m) |> <| brk := brk m + 1 |>).

(** * [pbuf_free] *)

Fixpoint free_loop (fuel : nat) (p : option Z) (count : Z) (m : mem) : run (Z * mem) :=
  match p with
  | None => Done (count, m)
  | Some p =>
      match fuel with
      | O => NoFuel
      | S fuel' =>
          let* b := deref p m in
          let ref := pb_ref b - 1 in
          if ref =? 0 then
            let m := m <| pbufs := delete p (pbufs m) |> in
            let m := match pb_type b with PBUF_POOL => m <| pool_free ::= fun n => n + 1 |> | PBUF_RAM => m end in
            free_loop fuel' (pb_next b) (count + 1) m
          else
            let* m := store p (fun b => b <| pb_ref := ref |>) m in
            Done (count, m)
      end
  end.

Definition chain_fuel (m : mem) : nat := S (size (pbufs m)).
Definition pbuf_free (p : option Z) (m : mem) : run (Z * mem) := free_loop (chain_fuel m) p 0 m.

(** * [pbuf_alloc] *)

(** The tail of a chain from the pool, behind [r]. *)
Fixpoint alloc_tail (fuel : nat) (r rem_len : Z) (m : mem) : run (bool * mem) :=
  if rem_len <=? 0 then Done (true, m) else
  match fuel with
  | O => NoFuel
  | S fuel' =>
      if pool_free m <=? 0 then Done (false, m) else
      let len := Z.min (u16 rem_len) PBUF_POOL_BUFSIZE in
      let '(q, m) := new_pbuf (mkPbuf PBUF_POOL None (replicate (Z.to_nat len) 0) (u16 rem_len) 1) m in
      let m := m <| pool_free ::= fun n => n - 1 |> in
      let* m := store r (fun b => b <| pb_next := Some q |>) m in
      alloc_tail fuel' q (rem_len - len) m
  end.

Definition pbuf_alloc (layer : pbuf_layer) (length : Z) (type : pbuf_type) (m : mem) : run (option Z * mem) :=
  let offset := layer_offset layer in
  match type with
  | PBUF_POOL =>
      if pool_free m <=? 0 then Done (None, m) else
      let len := Z.min length (PBUF_POOL_BUFSIZE - offset) in
      let '(p, m) := new_pbuf (mkPbuf PBUF_POOL None (replicate (Z.to_nat len) 0) length 1) m in
      let m := m <| pool_free ::= fun n => n - 1 |> in
      let* (ok, m) := alloc_tail (S (Z.to_nat length)) p (length - len) m in
      if ok then Done (Some p, m)
      else let* (_, m) := pbuf_free (Some p) m in Done (None, m)
  | PBUF_RAM =>
      if heap_ok m
      then let '(p, m) := new_pbuf (mkPbuf PBUF_RAM None (replicate (Z.to_nat length) 0) length 1) m in Done (Some p, m)
      else Done (None, m)
  end.

(** * Chains *)

(** The loop of [pbuf_cat] over the head chain. *)
Fixpoint cat_loop (fuel : nat) (p t ttot : Z) (m : mem) : run mem :=
  match fuel with
  | O => NoFuel
  | S fuel' =>
      let* b := deref p m in
      let* m := store p (fun b => b <| pb_tot_len := u16 (pb_tot_len b + ttot) |>) m in
      match pb_next b with
      | Some q => cat_loop fuel' q t ttot m
      | None => store p (fun b => b <| pb_next := Some t |>) m
      end
  end.

Definition pbuf_cat (h t : option Z) (m : mem) : run mem :=
  match h, t with
  | Some h, Some t => let* bt := deref t m in cat_loop (chain_fuel m) h t (pb_tot_len bt) m
  | _, _ => Done m
  end.

Fixpoint skip_loop (fuel : nat) (q : option Z) (offset_left : Z) (m : mem) : run (option Z * Z) :=
  match q with
  | None => Done (None, offset_left)
  | Some p =>
      match fuel with
      | O => NoFuel
      | S fuel' =>
          let* b := deref p m in
          if pb_len b <=? offset_left then skip_loop fuel' (pb_next b) (offset_left - pb_len b) m
          else Done (Some p, offset_left)
      end
  end.
Definition pbuf_skip (p : option Z) (in_offset : Z) (m : mem) : run (option Z * Z) :=
  skip_loop (chain_fuel m) p in_offset m.

(** The byte at an offset, [-1] behind the end. *)
Definition pbuf_try_get_at (p : option Z) (offset : Z) (m : mem) : run Z :=
  let* (q, idx) := pbuf_skip p offset m in
  match q with
  | Some q => let* b := deref q m in if idx <? pb_len b then rd (pb_payload b) idx else Done (-1)
  | None => Done (-1)
  end.
Definition pbuf_get_at (p : option Z) (offset : Z) (m : mem) : run Z :=
  let* ret := pbuf_try_get_at p offset m in
  Done (if 0 <=? ret then u8 ret else 0).

(** The bytes [pbuf_copy_partial] writes to [dataptr], in order; their number is what it returns. *)
Fixpoint copy_loop (fuel : nat) (p : option Z) (len offset : Z) (m : mem) : run (list Z) :=
  if len =? 0 then Done [] else
  match p with
  | None => Done []
  | Some p =>
      match fuel with
      | O => NoFuel
      | S fuel' =>
          let* b := deref p m in
          if negb (offset =? 0) && (pb_len b <=? offset) then copy_loop fuel' (pb_next b) len (offset - pb_len b) m
          else
            let n := Z.min (pb_len b - offset) len in
            let* x := rdn (pb_payload b) offset n in
            let* rest := copy_loop fuel' (pb_next b) (len - n) 0 m in
            Done (x ++ rest)
      end
  end.
Definition pbuf_copy_partial (buf : option Z) (len offset : Z) (m : mem) : run (list Z) :=
  copy_loop (chain_fuel m) buf len offset m.

(** [pbuf_take]: [data] are the bytes behind [dataptr]. *)
Fixpoint take_loop (fuel : nat) (p : option Z) (data : list Z) (m : mem) : run mem :=
  match data with
  | [] => Done m
  | _ =>
      match p with
      | None => Undef
      | Some p =>
          match fuel with
          | O => NoFuel
          | S fuel' =>
              let* b := deref p m in
              let n := Z.to_nat (Z.min (zlen data) (pb_len b)) in
              let* pl := wrn (pb_payload b) 0 (take n data) in
              let* m := store p (fun b => b <| pb_payload := pl |>) m in
              take_loop fuel' (pb_next b) (drop n data) m
          end
      end
  end.

Definition pbuf_take (buf : option Z) (dataptr : list Z) (len : Z) (m : mem) : run (err_t * mem) :=
  match buf with
  | None => Done (ERR_ARG, m)
  | Some p =>
      let* b := deref p m in
      if pb_tot_len b <? len then Done (ERR_MEM, m) else
      let* data := rdn dataptr 0 len in
      let* m := take_loop (S (chain_fuel m)) buf data m in
      Done (ERR_OK, m)
  end.

Definition pbuf_take_at (buf : option Z) (dataptr : list Z) (len offset : Z) (m : mem) : run (err_t * mem) :=
  let* (q, target_offset) := pbuf_skip buf offset m in
  match q with
  | None => Done (ERR_MEM, m)
  | Some p =>
      let* b := deref p m in
      if pb_tot_len b <? target_offset + len then Done (ERR_MEM, m) else
      let first := Z.min (pb_len b - target_offset) len in
      let* x := rdn dataptr 0 first in
      let* pl := wrn (pb_payload b) target_offset x in
      let* m := store p (fun b => b <| pb_payload := pl |>) m in
      if 0 <? len - first then
        pbuf_take (pb_next b) (drop (Z.to_nat first) dataptr) (len - first) m
      else Done (ERR_OK, m)
  end.

(** * What a chain holds *)

Abbreviation segments := (list (Z * list Z)).

Definition content (l : segments) : list Z := mjoin l.*2.

(** The buffers [l], addresses with payloads, are the chain at [p]. *)
Fixpoint chain (ns : gmap Z pbuf) (p : option Z) (l : segments) : Prop :=
  match l with
  | [] => p = None
  | (x, b) :: l' => p = Some x /\ exists n, ns !! x = Some n /\ pb_payload n = b /\
      pb_tot_len n = zlen (content l) /\ chain ns (pb_next n) l'
  end.

Lemma content_cons x b l : content ((x, b) :: l) = b ++ content l.
Proof. done. Qed.

Lemma pbuf_deref_ok m p b : pbufs m !! p = Some b -> deref p m = Done b.
Proof. intros H. unfold deref. by rewrite H. Qed.

Lemma pbuf_store_ok m p b g : pbufs m !! p = Some b -> store p g m = Done (m <| pbufs := <[p := g b]> (pbufs m) |>).
Proof. intros H. unfold store, deref. by rewrite H. Qed.

Lemma chain_dom ns l : forall p, chain ns p l -> forall x, x ∈ l.*1 -> x ∈ dom ns.
Proof.
  induction l as [|[x b] l IH]; intros p Hc y Hy; [by apply elem_of_nil in Hy|].
  destruct Hc as [_ (n & Hn & _ & _ & Hc)]. apply elem_of_cons in Hy as [->|Hy]; [by apply elem_of_dom_2 in Hn|by eapply IH].
Qed.

Lemma chain_size m l p : chain (pbufs m) p l -> NoDup l.*1 -> (length l < chain_fuel m)%nat.
Proof.
  intros Hc Hn. unfold chain_fuel. rewrite <- (length_fmap fst l), <- (size_list_to_set (C := gset Z) _ Hn), <- size_dom.
  apply Nat.lt_succ_r, subseteq_size. intros y Hy%elem_of_list_to_set. by eapply chain_dom.
Qed.

(** Buffers that are not in the chain may change. *)
Lemma chain_insert ns l x b : forall p, x ∉ l.*1 -> chain ns p l -> chain (<[x := b]> ns) p l.
Proof.
  induction l as [|[y c] l IH]; intros p Hx; [done|]. cbn [fmap list_fmap fst] in Hx. apply not_elem_of_cons in Hx as [Hne Hx].
  intros [-> (n & Hn & H1 & H2 & Hc)]. split; [done|]. exists n. rewrite lookup_insert_ne by done. split_and!; try done. by apply IH.
Qed.

(** ** Reading *)

Lemma skip_loop_spec m l : forall fuel p off, chain (pbufs m) p l -> 0 <= off -> (length l < fuel)%nat ->
  if decide (off < zlen (content l))
  then exists l1 x b l2, l = l1 ++ (x, b) :: l2 /\ zlen (content l1) <= off < zlen (content l1) + zlen b /\
    skip_loop fuel p off m = Done (Some x, off - zlen (content l1))
  else skip_loop fuel p off m = Done (None, off - zlen (content l)).
Proof.
  induction l as [|[x b] l IH]; intros fuel p off Hc H0 Hf.
  - cbn [chain] in Hc. subst p. case_decide as H; cbn in H; [lia|]. destruct fuel; cbn; do 2 f_equal; lia.
  - destruct Hc as [-> (n & Hn & Hb & _ & Hc)]. destruct fuel as [|fuel]; [simpl in Hf; lia|]. cbn [skip_loop].
    rewrite (pbuf_deref_ok _ _ n Hn). cbn [rbind]. unfold pb_len. rewrite Hb, content_cons, length_app.
    destruct (Z.leb_spec (zlen b) off) as [Hle|Hlt].
    + specialize (IH fuel (pb_next n) (off - zlen b) Hc ltac:(lia) ltac:(simpl in Hf; lia)).
      case_decide as H1; case_decide as H2; try lia.
      * destruct IH as (l1 & y & c & l2 & -> & Hr & E). exists ((x, b) :: l1), y, c, l2.
        rewrite content_cons, length_app. split; [done|]. split; [lia|]. rewrite E. do 2 f_equal. lia.
      * rewrite IH. do 2 f_equal. lia.
    + rewrite decide_True by lia. exists [], x, b, l. split; [done|]. split; [cbn; lia|]. do 2 f_equal. cbn. lia.
Qed.

Lemma chain_lookup ns l1 x b l2 : forall p, chain ns p (l1 ++ (x, b) :: l2) ->
  exists n, ns !! x = Some n /\ pb_payload n = b /\ pb_tot_len n = zlen b + zlen (content l2) /\ chain ns (pb_next n) l2.
Proof.
  induction l1 as [|[y c] l1 IH]; intros p; cbn [app chain].
  - intros [_ (n & Hn & Hb & Ht & Hc)]. exists n. rewrite content_cons, length_app in Ht. split_and!; try done. lia.
  - intros [_ (n & _ & _ & _ & Hc)]. by eapply IH.
Qed.

Lemma content_app l1 l2 : content (l1 ++ l2) = content l1 ++ content l2.
Proof. unfold content. by rewrite fmap_app, join_app. Qed.

Lemma znth_content l1 x b l2 off : zlen (content l1) <= off < zlen (content l1) + zlen b ->
  (content (l1 ++ (x, b) :: l2)).[off] = b.[off - zlen (content l1)].
Proof. intros H. rewrite content_app, content_cons, znth_app_r by lia. apply znth_app_l. lia. Qed.

Lemma pbuf_get_at_spec m p l off : chain (pbufs m) p l -> NoDup l.*1 -> bytes (content l) -> 0 <= off ->
  pbuf_get_at p off m = Done (if decide (off < zlen (content l)) then (content l).[off] else 0).
Proof.
  intros Hc Hn Hby H0. unfold pbuf_get_at, pbuf_try_get_at, pbuf_skip.
  pose proof (skip_loop_spec m l (chain_fuel m) p off Hc H0 (chain_size m l p Hc Hn)) as H. case_decide as Hd.
  - destruct H as (l1 & x & b & l2 & -> & Hr & E). rewrite E. cbn [rbind].
    destruct (chain_lookup _ _ _ _ _ _ Hc) as (n & Hx & Hb & _). rewrite (pbuf_deref_ok _ _ n Hx). cbn [rbind]. unfold pb_len. rewrite Hb.
    rewrite (proj2 (Z.ltb_lt _ _)) by lia. destruct (rd_ok b (off - zlen (content l1))) as (v & Ev & Hv); [lia|]. rewrite Ev. cbn [rbind].
    assert (Hz : (content (l1 ++ (x, b) :: l2)).[off] = v).
    { rewrite znth_content by done. unfold znth. by rewrite (nth_lookup_Some _ _ _ v Hv). }
    rewrite Hz. pose proof (znth_bytes _ off Hby) as Hu. rewrite Hz in Hu. destruct (Z.leb_spec 0 v); [by rewrite u8_id|unfold is_u8 in Hu; lia].
  - rewrite H. done.
Qed.

Lemma copy_loop_0 fuel p off m : copy_loop fuel p 0 off m = Done [].
Proof. by destruct fuel. Qed.

Lemma copy_loop_spec m l : forall fuel p len off, chain (pbufs m) p l -> 0 <= len -> 0 <= off -> (length l < fuel)%nat ->
  copy_loop fuel p len off m = Done (take (Z.to_nat len) (drop (Z.to_nat off) (content l))).
Proof.
  induction l as [|[x b] l IH]; intros fuel p len off Hc Hl Ho Hf.
  - cbn [chain] in Hc. subst p. cbn. rewrite drop_nil, take_nil. destruct fuel; cbn; by case_match.
  - destruct Hc as [-> (n & Hn & Hb & _ & Hc)]. destruct fuel as [|fuel]; [simpl in Hf; lia|]. cbn [copy_loop].
    destruct (Z.eqb_spec len 0) as [->|Hl0]; [done|]. rewrite (pbuf_deref_ok _ _ n Hn). cbn [rbind]. unfold pb_len. rewrite Hb, content_cons.
    destruct (negb (off =? 0) && (zlen b <=? off)) eqn:E.
    + apply andb_true_iff in E as [_ E%Z.leb_le]. rewrite IH by (done || (simpl in Hf; lia)).
      rewrite drop_app_ge by lia. do 3 f_equal. lia.
    + assert (Ho2 : off <= zlen b).
      { apply andb_false_iff in E as [E|E%Z.leb_gt]; [|lia]. apply negb_false_iff, Z.eqb_eq in E. lia. }
      rewrite rdn_ok by lia. cbn [rbind]. rewrite IH by (done || (simpl in Hf; lia)). cbn [rbind]. f_equal.
      rewrite drop_app_le by lia. change (Z.to_nat 0) with 0%nat. rewrite drop_0.
      destruct (decide (len <= zlen b - off)).
      * rewrite Z.min_r by lia. rewrite (take_app_le (drop _ b)) by (rewrite length_drop; lia). rewrite Z.sub_diag. cbn. by rewrite app_nil_r.
      * rewrite Z.min_l by lia. rewrite (take_ge (drop _ b)) by (rewrite length_drop; lia).
        rewrite (take_app_ge (drop _ b)) by (rewrite length_drop; lia). do 2 f_equal. rewrite length_drop. lia.
Qed.

Lemma pbuf_copy_all m p l : chain (pbufs m) p l -> NoDup l.*1 -> pbuf_copy_partial p (zlen (content l)) 0 m = Done (content l).
Proof.
  intros Hc Hn. unfold pbuf_copy_partial. rewrite (copy_loop_spec m l) by (done || lia || by eapply chain_size).
  change (Z.to_nat 0) with 0%nat. rewrite drop_0. f_equal. apply take_ge. lia.
Qed.

(** ** Writing *)

(** Same buffers with other bytes of the same lengths. *)
Definition same_shape (l l' : segments) : Prop := l'.*1 = l.*1 /\ (length <$> l'.*2) = (length <$> l.*2).

Lemma same_shape_length l l' : same_shape l l' -> length (content l') = length (content l).
Proof.
  intros [_ H]. revert l' H. induction l as [|[x b] l IH]; intros [|[y c] l'] H; try done. cbn in H. injection H as H1 H2.
  rewrite !content_cons, !length_app, H1. f_equal. by apply IH.
Qed.

Lemma same_shape_refl l : same_shape l l.
Proof. done. Qed.

(** Writing into one buffer of a chain. *)
Lemma chain_write ns x n b b' l : ns !! x = Some n -> pb_payload n = b -> length b' = length b -> x ∉ l.*1 ->
  pb_tot_len n = zlen (content ((x, b) :: l)) -> chain ns (pb_next n) l ->
  chain (<[x := n <| pb_payload := b' |>]> ns) (Some x) ((x, b') :: l).
Proof.
  intros Hn Hb HL Hx Ht Hc. split; [done|]. eexists. split; [apply lookup_insert_eq|]. cbn [update pb_payload pb_tot_len pb_next].
  split; [done|]. split; [|by apply chain_insert]. rewrite Ht, !content_cons, !length_app, HL. done.
Qed.

Lemma take_loop_spec l : forall fuel p data m, chain (pbufs m) p l -> NoDup l.*1 -> zlen data <= zlen (content l) ->
  (length l < fuel)%nat ->
  exists m' l', take_loop fuel p data m = Done m' /\ chain (pbufs m') p l' /\ same_shape l l' /\
    content l' = data ++ drop (length data) (content l) /\ m' = m <| pbufs := pbufs m' |> /\
    (forall y, y ∉ l.*1 -> pbufs m' !! y = pbufs m !! y) /\
    (forall y, (fun b => b <| pb_payload := [] |>) <$> pbufs m' !! y = (fun b => b <| pb_payload := [] |>) <$> pbufs m !! y).
Proof.
  induction l as [|[x b] l IH]; intros fuel p data m Hc Hnd Hd Hf.
  - cbn in Hd. destruct data; [|cbn in Hd; lia]. exists m, []. destruct fuel; (split; [done|]); split_and!; try done; by destruct m.
  - destruct data as [|d data].
    + exists m, ((x, b) :: l). destruct fuel; (split; [done|]); split_and!; try done; by destruct m.
    + pose proof Hc as [-> (n & Hn & Hb & Ht & Hc')]. destruct fuel as [|fuel]; [simpl in Hf; lia|].
      cbn [fmap list_fmap fst] in Hnd. apply NoDup_cons in Hnd as [Hx Hnd].
      set (dd := d :: data) in *. cbn [take_loop]. unfold dd at 1. rewrite (pbuf_deref_ok _ _ n Hn). cbn [rbind]. unfold pb_len. rewrite Hb.
      set (k := Z.to_nat (Z.min (zlen dd) (zlen b))).
      assert (Hk : (k <= length b)%nat /\ (k <= length dd)%nat) by (unfold k; lia).
      assert (Htk : length (take k dd) = k) by (rewrite length_take; lia).
      rewrite wrn_ok by (rewrite ?Htk; lia). cbn [rbind]. rewrite (pbuf_store_ok _ _ n) by done. cbn [rbind].
      change (Z.to_nat 0) with 0%nat. set (b' := splice b 0 (take k dd)).
      assert (HL : length b' = length b) by (unfold b'; rewrite splice_length; [done|lia]).
      set (m1 := m <| pbufs := _ |>).
      assert (Hc1 : chain (pbufs m1) (pb_next n) l) by (unfold m1; cbn [update pbufs]; by apply chain_insert).
      rewrite content_cons, length_app in Hd.
      destruct (IH fuel (pb_next n) (drop k dd) m1 Hc1 Hnd) as (m' & l' & E & Hcl & Hsh & Hcon & Hm & Hfr & Hsame).
      { rewrite length_drop. unfold k. lia. } { simpl in Hf. lia. }
      exists m', ((x, b') :: l'). split; [exact E|].
      pose proof (same_shape_length _ _ Hsh) as HLs.
      assert (Hx1 : pbufs m' !! x = Some (n <| pb_payload := b' |>)) by (rewrite (Hfr x Hx); apply lookup_insert_eq).
      split; [|split; [|split; [|split; [|split]]]].
      * split; [done|]. eexists. split; [exact Hx1|]. cbn [update pb_payload pb_tot_len pb_next]. split; [done|]. split; [|exact Hcl].
        rewrite Ht, !content_cons, !length_app, HL, HLs. done.
      * destruct Hsh as [H1 H2]. split; cbn; [by rewrite H1|by rewrite H2, HL].
      * rewrite !content_cons, Hcon. unfold b', splice. rewrite Htk, take_0, length_drop. cbn [app].
        destruct (decide (length dd <= length b)%nat).
        -- replace k with (length dd) by (unfold k; lia). rewrite (take_ge dd), (drop_ge dd) by lia. rewrite Nat.sub_diag, drop_0. cbn [app].
           rewrite drop_app_le by lia. by rewrite app_assoc.
        -- replace k with (length b) by (unfold k; lia). rewrite (drop_ge b), app_nil_r by lia. rewrite drop_app_ge by lia.
           by rewrite app_assoc, take_drop.
      * rewrite Hm. unfold m1. by destruct m.
      * intros y Hy. cbn [fmap list_fmap fst] in Hy. apply not_elem_of_cons in Hy as [Hyx Hy]. rewrite (Hfr y Hy). unfold m1. cbn [update pbufs].
        by rewrite lookup_insert_ne.
      * intros y. rewrite Hsame. unfold m1. cbn [update pbufs]. destruct (decide (y = x)) as [->|]; [by rewrite lookup_insert_eq, Hn|by rewrite lookup_insert_ne].
Qed.

(** What writing to a chain achieves. *)
Record written (m : mem) (p : option Z) (l : segments) (c : list Z) (m' : mem) (l' : segments) : Prop := mkWritten {
  wt_chain : chain (pbufs m') p l';
  wt_shape : same_shape l l';
  wt_content : content l' = c;
  wt_only : m' = m <| pbufs := pbufs m' |>;
  wt_frame : forall y, y ∉ l.*1 -> pbufs m' !! y = pbufs m !! y;
  wt_head : forall y, (fun b => b <| pb_payload := [] |>) <$> pbufs m' !! y = (fun b => b <| pb_payload := [] |>) <$> pbufs m !! y;
}.

Lemma pbuf_take_spec m p l data len : chain (pbufs m) p l -> NoDup l.*1 -> l <> [] -> 0 <= len <= zlen data -> len <= zlen (content l) ->
  exists m' l', pbuf_take p data len m = Done (ERR_OK, m') /\
    written m p l (take (Z.to_nat len) data ++ drop (Z.to_nat len) (content l)) m' l'.
Proof.
  intros Hc Hnd Hne Hl Hcl. destruct l as [|[x b] l]; [done|]. pose proof Hc as [-> (n & Hn & Hb & Ht & _)]. unfold pbuf_take.
  rewrite (pbuf_deref_ok _ _ n Hn). cbn [rbind]. rewrite Ht. destruct (Z.ltb_spec (zlen (content ((x, b) :: l))) len); [lia|].
  rewrite rdn_ok by lia. cbn [rbind]. change (Z.to_nat 0) with 0%nat. rewrite drop_0.
  assert (Htk : length (take (Z.to_nat len) data) = Z.to_nat len) by (rewrite length_take; lia).
  pose proof (chain_size m _ _ Hc Hnd) as Hsz.
  destruct (take_loop_spec ((x, b) :: l) (S (chain_fuel m)) (Some x) (take (Z.to_nat len) data) m) as (m' & l' & E & H1 & H2 & H3 & H4 & H5 & H6);
    try done; [lia..|]. rewrite E. cbn [rbind]. rewrite Htk in H3. exists m', l'. split; [done|]. by split.
Qed.

Lemma chain_suffix ns ns' l1 r r' : forall p, chain ns p (l1 ++ r) -> (forall y, y ∈ l1.*1 -> ns' !! y = ns !! y) ->
  (forall q, chain ns q r -> chain ns' q r') -> length (content r') = length (content r) -> chain ns' p (l1 ++ r').
Proof.
  induction l1 as [|[y c] l1 IH]; intros p Hc Hf Hr HL; [by apply Hr|]. cbn [app chain] in *.
  destruct Hc as [-> (n & Hn & Hb & Ht & Hc)]. split; [done|]. exists n. split; [rewrite Hf; [done|left]|]. split; [done|]. split.
  - rewrite Ht. rewrite !content_cons, !content_app, !length_app, HL. done.
  - apply IH; try done. intros z Hz. apply Hf. by right.
Qed.

Lemma content_splice l1 x b l2 off data : zlen (content l1) <= off -> off + zlen data <= zlen (content (l1 ++ (x, b) :: l2)) ->
  splice (content (l1 ++ (x, b) :: l2)) (Z.to_nat off) data =
  content l1 ++ splice (b ++ content l2) (Z.to_nat (off - zlen (content l1))) data.
Proof.
  intros H1 H2. rewrite content_app, content_cons. unfold splice.
  rewrite take_app_ge, drop_app_ge by lia. rewrite <- app_assoc. do 2 f_equal; [f_equal; lia|]. do 2 f_equal. lia.
Qed.

(** Data that does not fit in the first buffer goes on in the next ones. *)
Lemma splice_first (b c data : list Z) off : (off + length data <= length b + length c)%nat -> (off <= length b)%nat ->
  let k := Nat.min (length b - off) (length data) in
  splice (b ++ c) off data = splice b off (take k data) ++ drop k data ++ drop (length data - k) c.
Proof.
  intros H1 H2 k. unfold splice. rewrite take_app_le, drop_app by lia. rewrite <- !app_assoc. f_equal.
  assert (Hk : length (take k data) = k) by (rewrite length_take; unfold k; lia). rewrite Hk.
  destruct (decide (length data <= length b - off)%nat).
  - replace k with (length data) by (unfold k; lia). rewrite (take_ge data), (drop_ge data), Nat.sub_diag by lia.
    replace (off + length data - length b)%nat with 0%nat by lia. done.
  - replace k with (length b - off)%nat by (unfold k; lia). rewrite !(drop_ge b) by lia. cbn [app].
    rewrite <- (take_drop (length b - off) data) at 1. rewrite <- app_assoc. do 3 f_equal. lia.
Qed.

Lemma pbuf_take_at_spec m p l data len off : chain (pbufs m) p l -> NoDup l.*1 -> 0 <= off < zlen (content l) -> 0 <= len <= zlen data ->
  off + len <= zlen (content l) ->
  exists m' l', pbuf_take_at p data len off m = Done (ERR_OK, m') /\
    written m p l (splice (content l) (Z.to_nat off) (take (Z.to_nat len) data)) m' l'.
Proof.
  intros Hc Hnd Ho Hl Hfit. unfold pbuf_take_at, pbuf_skip.
  pose proof (skip_loop_spec m l (chain_fuel m) p off Hc ltac:(lia) (chain_size m l p Hc Hnd)) as H.
  rewrite decide_True in H by lia. destruct H as (l1 & x & b & l2 & -> & Hr & E). rewrite E. cbn [rbind]. clear E.
  destruct (chain_lookup _ _ _ _ _ _ Hc) as (n & Hn & Hb & Ht & Hc2). rewrite (pbuf_deref_ok _ _ n Hn). cbn [rbind].
  set (o := off - zlen (content l1)) in *. rewrite content_app, content_cons, !length_app in Hfit, Ho.
  rewrite Ht. destruct (Z.ltb_spec (zlen b + zlen (content l2)) (o + len)); [unfold o in *; lia|].
  unfold pb_len. rewrite Hb. set (k := Z.min (zlen b - o) len).
  assert (Hk : 0 <= k <= len /\ k <= zlen b - o) by (unfold k, o; lia).
  rewrite rdn_ok by lia. cbn [rbind]. change (Z.to_nat 0) with 0%nat. rewrite drop_0.
  assert (Htk : length (take (Z.to_nat k) data) = Z.to_nat k) by (rewrite length_take; lia).
  rewrite wrn_ok by (rewrite ?Htk; unfold o; lia). cbn [rbind]. rewrite (pbuf_store_ok _ _ n) by done. cbn [rbind].
  set (b' := splice b (Z.to_nat o) (take (Z.to_nat k) data)).
  assert (HL : length b' = length b) by (unfold b'; rewrite splice_length; [done|unfold o; lia]).
  set (m1 := m <| pbufs := _ |>).
  rewrite fmap_app in Hnd. cbn [fmap list_fmap fst] in Hnd. apply NoDup_app in Hnd as (Hnd1 & Hdis & [Hx2 Hnd2]%NoDup_cons).
  assert (Hx1 : x ∉ l1.*1) by (intros Hx; apply (Hdis x Hx); left).
  assert (Hgoal : forall m' l2', chain (pbufs m') (pb_next n) l2' -> same_shape l2 l2' ->
    content l2' = drop (Z.to_nat k) (take (Z.to_nat len) data) ++ drop (Z.to_nat len - Z.to_nat k) (content l2) ->
    m' = m1 <| pbufs := pbufs m' |> -> (forall y, y ∉ l2.*1 -> pbufs m' !! y = pbufs m1 !! y) ->
    (forall y, (fun b => b <| pb_payload := [] |>) <$> pbufs m' !! y = (fun b => b <| pb_payload := [] |>) <$> pbufs m1 !! y) ->
    written m p (l1 ++ (x, b) :: l2) (splice (content (l1 ++ (x, b) :: l2)) (Z.to_nat off) (take (Z.to_nat len) data)) m' (l1 ++ (x, b') :: l2')).
  { intros m' l2' G1 G2 G3 G4 G5 G6. pose proof (same_shape_length _ _ G2) as HL2.
    assert (Hlen : length (content ((x, b') :: l2')) = length (content ((x, b) :: l2))) by (rewrite !content_cons, !length_app, HL, HL2; done).
    split.
    - apply (chain_suffix (pbufs m) _ _ ((x, b) :: l2)); [exact Hc| | |exact Hlen].
      + intros y Hy. rewrite G5; [|intros Hy2; apply (Hdis y Hy); by right]. unfold m1. cbn [update pbufs]. rewrite lookup_insert_ne; [done|]. by intros ->.
      + intros q [-> (n' & Hn' & _ & Ht' & _)]. replace n' with n in * by congruence. split; [done|]. exists (n <| pb_payload := b' |>).
        split; [rewrite G5 by done; apply lookup_insert_eq|]. cbn [update pb_payload pb_tot_len pb_next]. split; [done|]. split; [|exact G1].
        rewrite Ht', Hlen. done.
    - destruct G2 as [S1 S2]. split; rewrite !fmap_app, !fmap_cons; [by rewrite S1|]. cbn [fst snd]. rewrite ?fmap_app, ?fmap_cons, S2, HL. done.
    - assert (Htl : length (take (Z.to_nat len) data) = Z.to_nat len) by (rewrite length_take; lia).
      rewrite content_splice by (rewrite ?Htl, ?content_app, ?content_cons, ?length_app; lia).
      rewrite content_app, content_cons, G3. f_equal.
      rewrite splice_first by (rewrite ?Htl; unfold o; lia). rewrite Htl. fold o.
      replace (Nat.min (length b - Z.to_nat o) (Z.to_nat len)) with (Z.to_nat k) by (unfold k, o in *; lia).
      unfold b'. by rewrite take_take, Nat.min_l by lia.
    - rewrite G4. unfold m1. by destruct m.
    - intros y Hy. rewrite fmap_app in Hy. cbn [fmap list_fmap fst] in Hy. apply not_elem_of_app in Hy as [Hy1 [Hy2 Hy3]%not_elem_of_cons].
      rewrite G5 by done. unfold m1. cbn [update pbufs]. by rewrite lookup_insert_ne.
    - intros y. rewrite G6. unfold m1. cbn [update pbufs]. destruct (decide (y = x)) as [->|]; [by rewrite lookup_insert_eq, Hn|by rewrite lookup_insert_ne]. }
  assert (Hc1 : chain (pbufs m1) (pb_next n) l2) by (unfold m1; cbn [update pbufs]; by apply chain_insert).
  destruct (Z.ltb_spec 0 (len - k)) as [Hrem|Hrem].
  - destruct (pbuf_take_spec m1 (pb_next n) l2 (drop (Z.to_nat k) data) (len - k)) as (m' & l2' & E & [G1 G2 G3 G4 G5 G6]); try done.
    { intros ->. cbn in *. unfold k, o in *. lia. } { rewrite length_drop. lia. } { unfold k, o in *. lia. }
    rewrite E. exists m', (l1 ++ (x, b') :: l2'). split; [done|]. apply Hgoal; try done. rewrite G3.
    rewrite take_drop_commute. do 3 f_equal; lia.
  - exists m1, (l1 ++ (x, b') :: l2). split; [done|]. apply Hgoal; try done.
    rewrite (drop_ge (take _ data)) by (rewrite length_take; lia). replace (Z.to_nat len - Z.to_nat k)%nat with 0%nat by lia. by rewrite drop_0.
Qed.

(** ** Allocating and freeing *)

(** Addresses from [brk] on are unused. *)
Definition mem_wf (m : mem) : Prop := forall y, y ∈ dom (pbufs m) -> y < brk m.

Lemma mem_wf_fresh m : mem_wf m -> pbufs m !! brk m = None.
Proof. intros H. destruct (pbufs m !! brk m) eqn:E; [|done]. apply elem_of_dom_2, H in E. lia. Qed.

(** A chain of one buffer, all of which is its own. *)
Definition single (m : mem) (p : Z) (t : pbuf_type) (b : list Z) : Prop :=
  pbufs m !! p = Some (mkPbuf t None b (zlen b) 1).

Lemma single_chain m p t b : single m p t b -> chain (pbufs m) (Some p) [(p, b)].
Proof. intros H. split; [done|]. eexists. split; [exact H|]. cbn. by rewrite app_nil_r. Qed.

Definition allocated (t : pbuf_type) (len : Z) (m : mem) : mem :=
  let m' := m <| pbufs := <[brk m := mkPbuf t None (replicate (Z.to_nat len) 0) len 1]> (pbufs m) |> <| brk := brk m + 1 |> in
  match t with PBUF_POOL => m' <| pool_free := pool_free m - 1 |> | PBUF_RAM => m' end.

Lemma pbuf_alloc_single layer len t m : 0 <= len -> mem_wf m ->
  match t with PBUF_POOL => 0 < pool_free m /\ len <= PBUF_POOL_BUFSIZE - layer_offset layer | PBUF_RAM => heap_ok m = true end ->
  pbuf_alloc layer len t m = Done (Some (brk m), allocated t len m) /\ mem_wf (allocated t len m) /\
  single (allocated t len m) (brk m) t (replicate (Z.to_nat len) 0).
Proof.
  intros Hl Hm Ht. assert (Hlen : zlen (replicate (Z.to_nat len) 0) = len) by (rewrite length_replicate; lia). split.
  - unfold pbuf_alloc. destruct t; [by rewrite Ht|]. destruct Ht as [Ht1 Ht2]. destruct (Z.leb_spec (pool_free m) 0); [lia|].
    rewrite Z.min_l by lia. cbn [new_pbuf]. rewrite Z.sub_diag. cbn [alloc_tail Z.leb Z.compare]. done.
  - split.
    + intros y. unfold allocated. destruct t; cbn [update pbufs brk]; rewrite dom_insert, elem_of_union, elem_of_singleton; intros [->|Hy%Hm]; lia.
    + unfold single, allocated. destruct t; cbn [update pbufs]; rewrite lookup_insert_eq, Hlen; done.
Qed.

Lemma pbuf_free_single m p t b : single m p t b ->
  pbuf_free (Some p) m = Done (1, let m := m <| pbufs := delete p (pbufs m) |> in
    match t with PBUF_POOL => m <| pool_free ::= fun n => n + 1 |> | PBUF_RAM => m end).
Proof.
  intros H. unfold pbuf_free, chain_fuel.
  assert (Hs : size (pbufs m) <> 0%nat).
  { intros E%map_size_empty_inv. unfold single in H. rewrite E in H. by rewrite lookup_empty in H. }
  destruct (size (pbufs m)) as [|k]; [done|]. cbn [free_loop]. rewrite (pbuf_deref_ok _ _ _ H). cbn. by destruct t.
Qed.

Lemma mem_wf_delete m p : mem_wf m -> mem_wf (m <| pbufs := delete p (pbufs m) |>).
Proof. intros H y. cbn [update pbufs brk]. rewrite dom_delete, elem_of_difference. intros [Hy _]. by apply H. Qed.

(** Writing to a single buffer. *)
Lemma written_single m p t b c m' l' : single m p t b -> written m (Some p) [(p, b)] c m' l' ->
  single m' p t c /\ length c = length b /\ m' = m <| pbufs := <[p := mkPbuf t None c (zlen c) 1]> (pbufs m) |>.
Proof.
  intros H [W1 W2 W3 W4 W5 W6]. destruct W2 as [S1 S2].
  destruct l' as [|[q c'] [|]]; try done. cbn in S1, S2. injection S1 as ->. injection S2 as S2.
  unfold content in W3. cbn in W3. rewrite app_nil_r in W3. subst c'.
  destruct W1 as [_ (n & Hn & Hc & Ht & Hnx)]. cbn [chain] in Hnx.
  assert (En : pbufs m' !! p = Some (mkPbuf t None c (zlen c) 1)).
  { specialize (W6 p). rewrite Hn, H in W6. destruct n as [ty nx pl tl rf]. cbn in Hc, Ht, Hnx.
    cbn [fmap option_fmap option_map update pb_type pb_next pb_payload pb_tot_len pb_ref] in W6. injection W6 as E1 E2 E3 E4. rewrite Hn. subst pl. congruence. }
  split; [exact En|]. split; [done|]. rewrite W4.
  enough (pbufs m' = <[p := mkPbuf t None c (zlen c) 1]> (pbufs m)) as -> by done. apply map_eq. intros y. destruct (decide (y = p)) as [->|Hne].
  - by rewrite En, lookup_insert_eq.
  - rewrite W5 by (cbn; by rewrite list_elem_of_singleton). by rewrite lookup_insert_ne.
Qed.

(** The store with one whole buffer replaced. *)
Definition put (p : Z) (t : pbuf_type) (b : list Z) (m : mem) : mem :=
  m <| pbufs := <[p := mkPbuf t None b (zlen b) 1]> (pbufs m) |>.

Lemma put_single p t b m : single (put p t b m) p t b.
Proof. apply lookup_insert_eq. Qed.

Lemma put_other p q t t' b c m : p <> q -> single m q t' c -> single (put p t b m) q t' c.
Proof. intros Hn H. unfold single, put. cbn [update pbufs]. by rewrite lookup_insert_ne. Qed.

Lemma put_same p t b m : single m p t b -> put p t b m = m.
Proof. intros H. unfold put. rewrite insert_id by exact H. by destruct m. Qed.

Lemma put_put p t b c m : put p t c (put p t b m) = put p t c m.
Proof. unfold put. cbn [update pbufs]. by rewrite insert_insert_eq. Qed.

Lemma nodup_single (p : Z) (b : list Z) : NoDup [(p, b)].*1.
Proof. apply NoDup_singleton. Qed.

Lemma content_single p b : content [(p, b)] = b.
Proof. unfold content. cbn. apply app_nil_r. Qed.

Lemma pbuf_take_single m p t b data len : single m p t b -> 0 <= len <= zlen data -> len <= zlen b ->
  pbuf_take (Some p) data len m = Done (ERR_OK, put p t (take (Z.to_nat len) data ++ drop (Z.to_nat len) b) m).
Proof.
  intros H Hl Hb. destruct (pbuf_take_spec m (Some p) [(p, b)] data len) as (m' & l' & E & W);
    [by eapply single_chain|apply nodup_single|done|done|by rewrite content_single|].
  rewrite content_single in W. destruct (written_single _ _ _ _ _ _ _ H W) as (_ & _ & ->). exact E.
Qed.

(** Nothing is written when the offset is the end of the data. *)
Lemma pbuf_take_at_single m p t b data len off : single m p t b -> 0 <= off -> 0 <= len <= zlen data -> off + len <= zlen b ->
  pbuf_take_at (Some p) data len off m =
  Done (if off <? zlen b then ERR_OK else ERR_MEM, put p t (splice b (Z.to_nat off) (take (Z.to_nat len) data)) m).
Proof.
  intros H Ho Hl Hb. destruct (Z.ltb_spec off (zlen b)) as [Hlt|Hge].
  - destruct (pbuf_take_at_spec m (Some p) [(p, b)] data len off) as (m' & l' & E & W);
      [by eapply single_chain|apply nodup_single|by rewrite content_single|done|by rewrite content_single|].
    rewrite content_single in W. destruct (written_single _ _ _ _ _ _ _ H W) as (_ & _ & ->). exact E.
  - unfold pbuf_take_at, pbuf_skip.
    pose proof (skip_loop_spec m [(p, b)] (chain_fuel m) (Some p) off (single_chain _ _ _ _ H) Ho
      (chain_size _ _ _ (single_chain _ _ _ _ H) (nodup_single _ _))) as Hs.
    rewrite content_single in Hs. rewrite decide_False in Hs by lia. rewrite Hs. cbn [rbind].
    replace (Z.to_nat len) with 0%nat by lia. rewrite take_0. unfold splice. cbn [length app].
    rewrite Nat.add_0_r, take_drop, put_same by done. done.
Qed.

Lemma pbuf_get_single m p t b off : single m p t b -> bytes b -> 0 <= off < zlen b -> pbuf_get_at (Some p) off m = Done b.[off].
Proof.
  intros H Hb Ho. rewrite (pbuf_get_at_spec m (Some p) [(p, b)]); [|by eapply single_chain|apply nodup_single|by rewrite content_single|lia].
  rewrite content_single. by rewrite decide_True by lia.
Qed.

(** * Properties *)

(** C40: whatever buffers a chain is made of, it is one array to its users: data
    put at an offset is what a copy of the chain then shows there, everything
    around it is as before, a single byte read gives the byte at that
    place (zero behind the end), and no buffer outside the chain is touched. *)
Theorem pbuf_chain_is_an_array m p l data len off : chain (pbufs m) p l -> NoDup l.*1 -> bytes (content l) -> bytes data ->
  0 <= off < zlen (content l) -> 0 <= len <= zlen data -> off + len <= zlen (content l) ->
  exists m' l', pbuf_take_at p data len off m = Done (ERR_OK, m') /\ chain (pbufs m') p l' /\ same_shape l l' /\
    let c := splice (content l) (Z.to_nat off) (take (Z.to_nat len) data) in
    pbuf_copy_partial p (zlen (content l)) 0 m' = Done c /\
    (forall i, 0 <= i -> pbuf_get_at p i m' = Done (if decide (i < zlen c) then c.[i] else 0)) /\
    (forall y, y ∉ l.*1 -> pbufs m' !! y = pbufs m !! y).
Proof.
  intros Hc Hnd Hb Hbd Ho Hl Hf. destruct (pbuf_take_at_spec m p l data len off) as (m' & l' & E & [W1 W2 W3 W4 W5 _]); try done.
  exists m', l'. split; [exact E|]. split; [exact W1|]. split; [exact W2|]. cbv zeta.
  assert (Hnd' : NoDup l'.*1) by (by rewrite (proj1 W2)). rewrite <- (same_shape_length _ _ W2), <- W3. split; [by apply pbuf_copy_all|].
  split; [|done]. intros i Hi. apply pbuf_get_at_spec; try done. rewrite W3. apply splice_bytes; [done|]. by apply Forall_take.
Qed.

(** Two buffers of three and two bytes; the data crosses the boundary. *)
Definition two_buffers : mem :=
  mkMem (<[1 := mkPbuf PBUF_RAM (Some 2) [10; 11; 12] 5 1]> {[2 := mkPbuf PBUF_POOL None [13; 14] 2 1]}) 3 0 true.

Lemma pbuf_chain_is_an_array_witness : exists m' l', pbuf_take_at (Some 1) [20; 21] 2 2 two_buffers = Done (ERR_OK, m') /\
  chain (pbufs m') (Some 1) l' /\ pbuf_copy_partial (Some 1) 5 0 m' = Done [10; 11; 20; 21; 14] /\
  (forall i, 0 <= i -> pbuf_get_at (Some 1) i m' = Done (if decide (i < 5) then [10; 11; 20; 21; 14].[i] else 0)).
Proof.
  destruct (pbuf_chain_is_an_array two_buffers (Some 1) [(1, [10; 11; 12]); (2, [13; 14])] [20; 21] 2 2)
    as (m' & l' & E & Hc & _ & E2 & E3 & _).
  - split; [done|]. eexists. split; [done|]. split; [done|]. split; [done|]. split; [done|]. eexists. by split.
  - by apply (bool_decide_unpack _).
  - by apply bytesb_true.
  - by apply bytesb_true.
  - cbn. lia.
  - cbn. lia.
  - cbn. lia.
  - exists m', l'. split; [exact E|]. split; [exact Hc|]. split; [exact E2|exact E3].
Defined.

End Pbuf.
