(* ===== verification/Schc.v ===== *)
(** The network interface between the IPv6 stack and the MAC: SCHC header
    compression with its static rules (src/LwIP/netif/schcCompressor.c) and the
    virtual LoRa interface that exchanges packets with the application through
    [AppData] (src/LwIP/netif/virtualloraif.c).  The input function of the IPv6
    layer is a parameter. *)
From S2P Require Import Prelude Utilities Linked Pbuf.

Module Schc.
Import Pbuf.

(** * Data *)

Inductive CompDecompAction := NOTSENT | VALUESENT | LSB | COMPUTELENGTH | COMPUTECHECKSUM | BUILDIID.

(** The functions a matching operator can point to. *)
Inductive operator := equal_op | ignore_op | MSB_op.

Record SCHC_Field := mkField {
  fieldLength : Z;
  msbLength : Z;
  targetValue : Z;
  matchingOperator : option operator;
  action : CompDecompAction;
}.

Definition AMOUNT_OF_FIELDS : nat := 18.

Record SCHC_Rule := mkRule {
  id : Z;
  fields : list SCHC_Field;
}.

Record v6_addr := mkAddr {
  Prefix1 : Z;
  Prefix2 : Z;
  IID1 : Z;
  IID2 : Z;
}.
#[export] Instance eta_v6_addr : Eta v6_addr := fun a => mkAddr (Prefix1 a) (Prefix2 a) (IID1 a) (IID2 a).

Record ipv6_hdr := mkIpv6 {
  version : Z;
  tclass : Z;
  flabel : Z;
  paylength : Z;
  nheader : Z;
  hlimit : Z;
  ip6_src : v6_addr;
  ip6_dst : v6_addr;
}.
#[export] Instance eta_ipv6_hdr : Eta ipv6_hdr :=
  fun h => mkIpv6 (version h) (tclass h) (flabel h) (paylength h) (nheader h) (hlimit h) (ip6_src h) (ip6_dst h).

Record udp_schc_hdr := mkUdp {
  srcPort : Z;
  dstPort : Z;
  length_udp : Z;
  checksum : Z;
}.
#[export] Instance eta_udp_schc_hdr : Eta udp_schc_hdr :=
  fun h => mkUdp (srcPort h) (dstPort h) (length_udp h) (checksum h).

(** The static variables of both files, [AppData] and [AppDataSize] of the
    application, and the packet buffers. *)
Record net := mkNet {
  nmem : mem;
  ipv6_header : ipv6_hdr;
  udp_header : udp_schc_hdr;
  rules : list SCHC_Rule;
  AppData : list Z;
  AppDataSize : Z;
}.
#[export] Instance eta_net : Eta net :=
  fun s => mkNet (nmem s) (ipv6_header s) (udp_header s) (rules s) (AppData s) (AppDataSize s).

Definition IP6_HLEN : Z := 40.
Definition UDP_HLEN : Z := 8.
Definition DevEuiArray : list Z := [0x00; 0xAF; 0x00; 0x85; 0x89; 0xA1; 0x00; 0x1F].

(** Bit fields of the header structures. *)
Definition u4 (z : Z) : Z := z mod 16.
Definition u20 (z : Z) : Z := z mod 1048576.

(** * Matching operators *)

Definition equal (field : SCHC_Field) (headerField : Z) : run bool := Done (targetValue field =? headerField).
Definition ignore (field : SCHC_Field) (headerField : Z) : run bool := Done true.
(** A shift by a negative amount or by 32 and more is undefined. *)
Definition shift_amount (field : SCHC_Field) : run Z :=
  let n := fieldLength field - msbLength field in
  if (0 <=? n) && (n <? 32) then Done n else Undef.
Definition MSB (field : SCHC_Field) (headerField : Z) : run bool :=
  let* n := shift_amount field in
  Done (Z.shiftr (targetValue field) n =? Z.shiftr headerField n).

(** A call through the pointer of the field. *)
Definition apply_operator (field : SCHC_Field) (headerField : Z) : run bool :=
  match matchingOperator field with
  | Some equal_op => equal field headerField
  | Some ignore_op => ignore field headerField
  | Some MSB_op => MSB field headerField
  | None => Undef
  end.

(** * The rules *)

Abbreviation field_init := (Z * Z * operator * CompDecompAction)%type.

(** [fieldLength], [targetValue], [matchingOperator] and [action] of the fields
    in the order they are stored. *)
Definition rule1_fields : list field_init := [
  (4, 6, equal_op, NOTSENT); (8, 0, equal_op, NOTSENT); (20, 0, equal_op, NOTSENT);
  (16, 0, ignore_op, COMPUTELENGTH); (8, 17, equal_op, NOTSENT); (8, 255, ignore_op, NOTSENT);
  (32, 0xA8060120, equal_op, NOTSENT); (32, 0x0206801D, equal_op, NOTSENT);
  (0, 0, ignore_op, BUILDIID); (0, 0, ignore_op, BUILDIID);
  (32, 0xA8060120, equal_op, NOTSENT); (32, 0x2120801D, equal_op, NOTSENT);
  (32, 0xFF483002, equal_op, NOTSENT); (32, 0xE43E5AFE, equal_op, NOTSENT);
  (16, 1086, equal_op, NOTSENT); (16, 5683, equal_op, NOTSENT);
  (16, 0, ignore_op, COMPUTELENGTH); (16, 0, ignore_op, COMPUTECHECKSUM)].

Definition rule2_fields : list field_init := [
  (4, 6, equal_op, NOTSENT); (8, 0, ignore_op, NOTSENT); (20, 0, ignore_op, NOTSENT);
  (16, 0, ignore_op, COMPUTELENGTH); (8, 17, equal_op, NOTSENT); (8, 255, ignore_op, NOTSENT);
  (32, 0xA8060120, equal_op, NOTSENT); (32, 0x2120801D, equal_op, NOTSENT);
  (32, 0xFF483002, equal_op, NOTSENT); (32, 0xE43E5AFE, equal_op, NOTSENT);
  (32, 0xA8060120, equal_op, NOTSENT); (32, 0x0206801D, equal_op, NOTSENT);
  (0, 0, ignore_op, BUILDIID); (0, 0, ignore_op, BUILDIID);
  (16, 5683, equal_op, NOTSENT); (16, 1086, equal_op, NOTSENT);
  (16, 0, ignore_op, COMPUTELENGTH); (16, 0, ignore_op, COMPUTECHECKSUM)].

(** [msbLength] is not set: it is whatever the stack held. *)
Definition init_rule (junk : nat -> Z) (n : Z) (l : list field_init) : SCHC_Rule :=
  mkRule n (imap (fun i '(len, tv, op, act) => mkField len (junk i) tv (Some op) act) l).

(** A rule nobody initialised is a zero object. *)
Definition zero_rule : SCHC_Rule := mkRule 0 (replicate AMOUNT_OF_FIELDS (mkField 0 0 0 None NOTSENT)).

Definition initializeRules (junk1 junk2 : nat -> Z) (s : net) : net :=
  s <| rules := [init_rule junk1 1 rule1_fields; init_rule junk2 2 rule2_fields; zero_rule; zero_rule] |>.

(** * Headers as bytes *)

(** [memcpy] of four bytes to a 32-bit word. *)
Definition get_word (b : list Z) (i : Z) : Z := le_val (take 4 (drop (Z.to_nat i) b)).

Definition parse_addr (b : list Z) (i : Z) : v6_addr :=
  mkAddr (get_word b i) (get_word b (i + 4)) (get_word b (i + 8)) (get_word b (i + 12)).

Definition parse_ipv6 (b : list Z) : ipv6_hdr :=
  mkIpv6
    (u4 (Z.land (Z.shiftr b.[0] 4) 15))
    (u8 (Z.lor (Z.land (Z.shiftl b.[0] 4) 240) (Z.land (Z.shiftr b.[1] 4) 15)))
    (u20 (Z.lor (Z.lor (Z.land (Z.shiftl b.[1] 16) 983040) (Z.land (Z.shiftl b.[2] 8) 65280)) b.[3]))
    (u16 (Z.lor (Z.shiftl b.[4] 8) b.[5]))
    b.[6] b.[7]
    (parse_addr b 8) (parse_addr b 24).

Definition parse_udp (b : list Z) : udp_schc_hdr :=
  mkUdp (u16 (Z.lor (Z.shiftl b.[40] 8) b.[41])) (u16 (Z.lor (Z.shiftl b.[42] 8) b.[43]))
    (u16 (Z.lor (Z.shiftl b.[44] 8) b.[45])) (u16 (Z.lor (Z.shiftl b.[46] 8) b.[47])).

Definition addr_bytes (a : v6_addr) : list Z :=
  le_bytes 4 (Prefix1 a) ++ le_bytes 4 (Prefix2 a) ++ le_bytes 4 (IID1 a) ++ le_bytes 4 (IID2 a).

(** The array [buffer] that [schc_input] builds. *)
Definition header_bytes (h : ipv6_hdr) (u : udp_schc_hdr) : list Z :=
  [u8 (Z.lor (Z.shiftl (version h) 4) (Z.shiftr (tclass h) 4));
   u8 (Z.lor (Z.shiftl (tclass h) 4) (Z.shiftr (flabel h) 16));
   u8 (Z.shiftr (flabel h) 8); u8 (flabel h);
   u8 (Z.shiftr (paylength h) 8); u8 (paylength h);
   nheader h; hlimit h] ++
  addr_bytes (ip6_src h) ++ addr_bytes (ip6_dst h) ++
  [u8 (Z.shiftr (srcPort u) 8); u8 (srcPort u);
   u8 (Z.shiftr (dstPort u) 8); u8 (dstPort u);
   u8 (Z.shiftr (length_udp u) 8); u8 (length_udp u);
   u8 (Z.shiftr (checksum u) 8); u8 (checksum u)].

(** * Compression *)

(** The header values in the order of the fields. *)
Definition header_values (h : ipv6_hdr) (u : udp_schc_hdr) : list Z :=
  [version h; tclass h; flabel h; paylength h; nheader h; hlimit h;
   Prefix1 (ip6_src h); Prefix2 (ip6_src h); IID1 (ip6_src h); IID2 (ip6_src h);
   Prefix1 (ip6_dst h); Prefix2 (ip6_dst h); IID1 (ip6_dst h); IID2 (ip6_dst h);
   srcPort u; dstPort u; length_udp u; checksum u].

(** The tests of one rule, up to the first that fails. *)
Fixpoint match_fields (fs : list SCHC_Field) (vs : list Z) : run bool :=
  match vs with
  | [] => Done true
  | v :: vs =>
      match fs with
      | [] => Undef
      | f :: fs => let* ok := apply_operator f v in if ok then match_fields fs vs else Done false
      end
  end.

(** The search [while(match != 1 && ruleId<1)]. *)
Fixpoint find_rule (fuel : nat) (ruleId : Z) (s : net) : run (bool * Z) :=
  if negb (ruleId <? 1) then Done (false, ruleId) else
  match fuel with
  | O => NoFuel
  | S fuel' =>
      let* r := rd (rules s) ruleId in
      let* ok := match_fields (fields r) (header_values (ipv6_header s) (udp_header s)) in
      if ok then Done (true, ruleId) else find_rule fuel' (u8 (ruleId + 1)) s
  end.

(** The loop over the actions of the rule. *)
Fixpoint send_fields (fs : list SCHC_Field) (buf : list Z) (schc_offset : Z) : run (list Z * Z) :=
  match fs with
  | [] => Done (buf, schc_offset)
  | f :: fs =>
      match action f with
      | VALUESENT =>
          let byteLength := if fieldLength f mod 8 =? 0 then fieldLength f / 8 else fieldLength f / 8 + 1 in
          let* x := rdn (le_bytes 4 (targetValue f)) 0 byteLength in
          let* buf := wrn buf schc_offset x in
          send_fields fs buf (u16 (schc_offset + byteLength))
      | _ => send_fields fs buf schc_offset
      end
  end.

Definition schc_compression (schc_buffer : list Z) (s : net) : run (list Z * Z) :=
  let schc_offset := 1 in
  let* (mat, ruleId) := find_rule 1 0 s in
  if mat : bool then
    let* r := rd (rules s) ruleId in
    let* fs := rdn (fields r) 0 (Z.of_nat AMOUNT_OF_FIELDS) in
    let* (buf, schc_offset) := send_fields fs schc_buffer schc_offset in
    let* buf := wr buf 0 (u8 (ruleId + 1)) in
    Done (buf, u8 schc_offset)
  else
    let* buf := wr schc_buffer 0 0 in
    Done (buf, u8 schc_offset).

(** * Decompression *)

Section Decompression.
Context (m : mem) (p : Z).

Definition at_ (offset : Z) : run Z := pbuf_get_at (Some p) offset m.

(** [(target << (fieldLength - msbLength)) || pbuf_get_at(p, schc_offset)] *)
Definition lsb_value (f : SCHC_Field) (off : Z) : run Z :=
  let* n := shift_amount f in
  if u32 (Z.shiftl (targetValue f) n) =? 0
  then let* v := at_ off in Done (b2z (negb (v =? 0)))
  else Done 1.

(** One byte: traffic class, with its LSB case. *)
Definition get_tclass (f : SCHC_Field) (cur off : Z) : run (Z * Z) :=
  match action f with
  | NOTSENT => Done (u8 (targetValue f), off)
  | VALUESENT => let* v := at_ off in Done (v, u8 (off + 1))
  | LSB => let* v := lsb_value f off in Done (v, u8 (off + 1))
  | _ => Done (cur, off)
  end.

Definition get_flabel (f : SCHC_Field) (cur off : Z) : run (Z * Z) :=
  match action f with
  | NOTSENT => Done (u20 (targetValue f), off)
  | VALUESENT =>
      let* a := at_ off in let* b := at_ (off + 1) in let* c := at_ (off + 2) in
      Done (u20 (Z.lor (Z.lor (Z.land (Z.shiftl a 20) 983040) (Z.land (Z.shiftl b 16) 65280)) c), u8 (off + 3))
  | LSB =>
      let* v := lsb_value f off in
      let d := fieldLength f - msbLength f in
      Done (v, u8 (off + (if Z.rem d 8 =? 0 then Z.quot d 8 else Z.quot d 8 + 1)))
  | _ => Done (cur, off)
  end.

Definition get_paylength (f : SCHC_Field) (cur off : Z) : run (Z * Z) :=
  match action f with
  | VALUESENT =>
      let* a := at_ off in let* b := at_ (off + 1) in
      Done (u16 (Z.lor (Z.land (Z.shiftl a 16) 65280) (Z.land b 255)), u8 (off + 2))
  | _ => Done (cur, off)
  end.

(** One byte: next header and hop limit; the ports and the checksum of two bytes
    are also restored from one byte. *)
Definition get_byte (w : Z -> Z) (f : SCHC_Field) (cur off : Z) : run (Z * Z) :=
  match action f with
  | NOTSENT => Done (w (targetValue f), off)
  | VALUESENT => let* v := at_ off in Done (v, u8 (off + 1))
  | _ => Done (cur, off)
  end.

(** Four bytes, little-endian; [eui] is the part of the device identifier where
    the field has a BUILDIID case.  A byte shifted to the sign bit of [int] is
    read as the compiler does, as a 32-bit pattern. *)
Definition get_address (eui : option Z) (f : SCHC_Field) (cur off : Z) : run (Z * Z) :=
  match action f with
  | NOTSENT => Done (targetValue f, off)
  | VALUESENT =>
      let* a := at_ off in let* b := at_ (off + 1) in let* c := at_ (off + 2) in let* d := at_ (off + 3) in
      Done (Z.lor (Z.lor (Z.lor a (Z.shiftl b 8)) (Z.shiftl c 16)) (Z.shiftl d 24), u8 (off + 4))
  | BUILDIID => match eui with Some v => Done (v, off) | None => Done (cur, off) end
  | _ => Done (cur, off)
  end.

Definition get_length (f : SCHC_Field) (cur off : Z) : run (Z * Z) :=
  match action f with
  | VALUESENT =>
      let* a := at_ off in let* b := at_ (off + 1) in
      Done (u16 (Z.lor (Z.shiftl a 8) b), u8 (off + 2))
  | _ => Done (cur, off)
  end.

Definition get_checksum (f : SCHC_Field) (cur off : Z) : run (Z * Z) :=
  match action f with
  | COMPUTECHECKSUM => Done (0, off)
  | _ => get_byte u16 f cur off
  end.

(** [(uint8_t) p->tot_len + UDP_HLEN - schc_offset] *)
Definition compute_length (f : SCHC_Field) (cur tot_len off : Z) : Z :=
  match action f with
  | COMPUTELENGTH => u16 (u8 tot_len + UDP_HLEN - off)
  | _ => cur
  end.

Definition eui_word (i : Z) : Z :=
  Z.lor (Z.lor (Z.lor DevEuiArray.[i] (Z.shiftl DevEuiArray.[i + 1] 8)) (Z.shiftl DevEuiArray.[i + 2] 16))
    (Z.shiftl DevEuiArray.[i + 3] 24).

(** The four words of an address, from field [i] on. *)
Definition get_v6_addr (fs : list SCHC_Field) (i : Z) (a : v6_addr) (off : Z) : run (v6_addr * Z) :=
  let* f1 := rd fs i in let* f2 := rd fs (i + 1) in let* f3 := rd fs (i + 2) in let* f4 := rd fs (i + 3) in
  let* (w1, off) := get_address None f1 (Prefix1 a) off in
  let* (w2, off) := get_address None f2 (Prefix2 a) off in
  let* (w3, off) := get_address (Some (eui_word 0)) f3 (IID1 a) off in
  let* (w4, off) := get_address (Some (eui_word 4)) f4 (IID2 a) off in
  Done (mkAddr w1 w2 w3 w4, off).

(** The fields of one rule; [h] and [u] are the headers of the packet before. *)
Definition restore_fields (fs : list SCHC_Field) (tot_len : Z) (h : ipv6_hdr) (u : udp_schc_hdr) : run (ipv6_hdr * udp_schc_hdr * Z) :=
  let off := 1 in
  let* f0 := rd fs 0 in
  let ver := u4 (targetValue f0) in
  let* f1 := rd fs 1 in let* (tc, off) := get_tclass f1 (tclass h) off in
  let* f2 := rd fs 2 in let* (fl, off) := get_flabel f2 (flabel h) off in
  let* f3 := rd fs 3 in let* (pl, off) := get_paylength f3 (paylength h) off in
  let* f4 := rd fs 4 in let* (nh, off) := get_byte u8 f4 (nheader h) off in
  let* f5 := rd fs 5 in let* (hl, off) := get_byte u8 f5 (hlimit h) off in
  let* (src, off) := get_v6_addr fs 6 (ip6_src h) off in
  let* (dst, off) := get_v6_addr fs 10 (ip6_dst h) off in
  let* f14 := rd fs 14 in let* (sp, off) := get_byte u16 f14 (srcPort u) off in
  let* f15 := rd fs 15 in let* (dp, off) := get_byte u16 f15 (dstPort u) off in
  let* f16 := rd fs 16 in let* (ul, off) := get_length f16 (length_udp u) off in
  let* f17 := rd fs 17 in let* (ck, off) := get_checksum f17 (checksum u) off in
  let pl := compute_length f3 pl tot_len off in
  let ul := compute_length f16 ul tot_len off in
  Done (mkIpv6 ver tc fl pl nh hl src dst, mkUdp sp dp ul ck, off).
End Decompression.

Definition schc_decompression (p ruleId : Z) (s : net) : run (Z * net) :=
  let ruleId := u8 (ruleId - 1) in
  let* r := rd (rules s) ruleId in
  let* b := deref p (nmem s) in
  let* (h, u, off) := restore_fields (nmem s) p (fields r) (pb_tot_len b) (ipv6_header s) (udp_header s) in
  Done (off, s <| ipv6_header := h |> <| udp_header := u |>).

(** * Input and output *)

Definition with_mem {A} (f : mem -> run (A * mem)) (s : net) : run (A * net) :=
  let* (a, m) := f (nmem s) in Done (a, s <| nmem := m |>).

(** [netif->linkoutput] *)
Definition low_level_output (p : option Z) (s : net) : run (err_t * net) :=
  match p with
  | None => Undef
  | Some p =>
      let* b := deref p (nmem s) in
      let* data := pbuf_copy_partial (Some p) (pb_tot_len b) 0 (nmem s) in
      let* app := wrn (AppData s) 0 data in
      let s := s <| AppData := app |> <| AppDataSize := u8 (pb_tot_len b) |> in
      let* (_, s) := with_mem (pbuf_free (Some p)) s in
      Done (ERR_OK, s)
  end.

Definition schc_frag (p : option Z) (s : net) : run (err_t * net) := low_level_output p s.

(** [junk] is what the 40 bytes of [schc_header] hold at the start.  [mem_free]
    of that array has no effect: the address is not in the heap. *)
Definition schc_output (junk : list Z) (p : Z) (s : net) : run (err_t * net) :=
  let* b := deref p (nmem s) in
  let* buffer := rdn (pb_payload b) 0 (IP6_HLEN + UDP_HLEN) in
  let s := s <| ipv6_header := parse_ipv6 buffer |> <| udp_header := parse_udp buffer |> in
  let* (schc_header, schc_offset) := schc_compression junk s in
  let* r0 := rd schc_header 0 in
  let* (p_compressed, s) :=
    if r0 =? 0 then
      let* (p_compressed, s) := with_mem (pbuf_alloc PBUF_RAW schc_offset PBUF_RAM) s in
      let* (_, s) := with_mem (pbuf_take p_compressed schc_header schc_offset) s in
      let* m := pbuf_cat p_compressed (Some p) (nmem s) in
      Done (p_compressed, s <| nmem := m |>)
    else
      let data_length := u16 (pb_tot_len b - IP6_HLEN - UDP_HLEN) in
      let compressed_packet_length := u16 (data_length + schc_offset) in
      let* (p_compressed, s) := with_mem (pbuf_alloc PBUF_RAW compressed_packet_length PBUF_RAM) s in
      let* (_, s) := with_mem (pbuf_take p_compressed schc_header schc_offset) s in
      let* (_, s) := with_mem (pbuf_take_at p_compressed (drop (Z.to_nat (IP6_HLEN + UDP_HLEN)) (pb_payload b)) data_length schc_offset) s in
      Done (p_compressed, s) in
  let* (_, s) := with_mem (pbuf_free (Some p)) s in
  schc_frag p_compressed s.

Section Input.
(** [ip6_input] of the IPv6 layer. *)
Context (ip6_input : option Z -> net -> run (err_t * net)).

(** A buffer always has a payload, so the test of [p->payload] does not refuse. *)
Definition schc_input (p : Z) (s : net) : run (err_t * net) :=
  let* ruleId := pbuf_get_at (Some p) 0 (nmem s) in
  let* (q, s) :=
    if ruleId =? 0 then
      let* b := deref p (nmem s) in
      let* (q, s) := with_mem (pbuf_alloc PBUF_IP (u16 (pb_tot_len b - 1)) PBUF_POOL) s in
      let* (_, s) := with_mem (pbuf_take q (drop 1 (pb_payload b)) (u16 (pb_tot_len b - 1))) s in
      Done (q, s)
    else
      let* (schc_offset, s) := schc_decompression p ruleId s in
      let buffer := header_bytes (ipv6_header s) (udp_header s) in
      let* (q, s) := with_mem (pbuf_alloc PBUF_IP (u16 (IP6_HLEN + paylength (ipv6_header s))) PBUF_POOL) s in
      let* (_, s) := with_mem (pbuf_take q buffer (IP6_HLEN + UDP_HLEN)) s in
      let* b := deref p (nmem s) in
      let* (_, s) := with_mem (pbuf_take_at q (drop (Z.to_nat schc_offset) (pb_payload b)) (u16 (pb_tot_len b - schc_offset)) (IP6_HLEN + UDP_HLEN)) s in
      Done (q, s) in
  let* (_, s) := with_mem (pbuf_free (Some p)) s in
  ip6_input q s.

(** The length set after the allocation is the length allocated. *)
Definition low_level_input (s : net) : run (option Z * net) :=
  let len := AppDataSize s in
  let* (p, s) := with_mem (pbuf_alloc PBUF_RAW len PBUF_POOL) s in
  match p with
  | Some p =>
      let* (_, s) := with_mem (pbuf_take (Some p) (AppData s) (AppDataSize s)) s in
      Done (Some p, s)
  | None => Done (None, s)
  end.

Definition virtualloraif_input (s : net) : run net :=
  let* (p, s) := low_level_input s in
  match p with
  | Some p =>
      let* (e, s) := schc_input p s in
      match e with
      | ERR_OK => Done s
      | _ => let* (_, s) := with_mem (pbuf_free (Some p)) s in Done s
      end
  | None => Done s
  end.
End Input.

(** * Headers as numbers *)

Lemma u8_pairs (q : Z -> Z -> bool) : forallb (fun x => forallb (q x) all_u8) all_u8 = true ->
  forall x y, is_u8 x -> is_u8 y -> q x y = true.
Proof. intros H x y Hx Hy. apply (forall_u8 _ (forall_u8 _ H x Hx) y Hy). Qed.

Lemma version_value a : is_u8 a -> u4 (Z.land (Z.shiftr a 4) 15) = a / 16.
Proof. intros H. apply Z.eqb_eq. revert a H. apply forall_u8. vm_compute. reflexivity. Qed.

Lemma tclass_value a b : is_u8 a -> is_u8 b ->
  u8 (Z.lor (Z.land (Z.shiftl a 4) 240) (Z.land (Z.shiftr b 4) 15)) = a mod 16 * 16 + b / 16.
Proof. intros Ha Hb. apply Z.eqb_eq. revert a b Ha Hb. apply u8_pairs. vm_compute. reflexivity. Qed.

Lemma be16_value a b : is_u8 a -> is_u8 b -> u16 (Z.lor (Z.shiftl a 8) b) = a * 256 + b.
Proof. intros Ha Hb. rewrite lor_shiftl_add by machine. change (2 ^ 8) with 256. machine. Qed.

Lemma flabel_value a b c : is_u8 a -> is_u8 b -> is_u8 c ->
  u20 (Z.lor (Z.lor (Z.land (Z.shiftl a 16) 983040) (Z.land (Z.shiftl b 8) 65280)) c) = a mod 16 * 65536 + b * 256 + c.
Proof.
  intros Ha Hb Hc.
  assert (E1 : Z.land (Z.shiftl a 16) 983040 = Z.shiftl (a mod 16) 16).
  { apply Z.eqb_eq. revert a Ha. apply forall_u8. vm_compute. reflexivity. }
  assert (E2 : Z.land (Z.shiftl b 8) 65280 = Z.shiftl b 8).
  { apply Z.eqb_eq. revert b Hb. apply forall_u8. vm_compute. reflexivity. }
  rewrite E1, E2, <- Z.lor_assoc, (lor_shiftl_add b c 8) by machine. change (2 ^ 8) with 256.
  rewrite lor_shiftl_add by machine. change (2 ^ 16) with 65536. unfold u20. machine.
Qed.

(** * The headers the rules stand for *)

Definition be16 (z : Z) : list Z := [z / 256; z mod 256].

(** 2001:06a8:1d80:0602, the network of the device *)
Definition device_prefix : list Z := [0x20; 0x01; 0x06; 0xA8; 0x1D; 0x80; 0x06; 0x02].
(** 2001:06a8:1d80:2021:0230:48ff:fe5a:3ee4, the server *)
Definition server_address : list Z :=
  [0x20; 0x01; 0x06; 0xA8; 0x1D; 0x80; 0x20; 0x21; 0x02; 0x30; 0x48; 0xFF; 0xFE; 0x5A; 0x3E; 0xE4].
Definition device_port : Z := 1086.
Definition server_port : Z := 5683.

(** Headers of a packet from the device to the server: hop limit [hl], interface
    identifier [iid], lengths and checksum are free. *)
Definition uplink_header (hl : Z) (iid : list Z) (len ulen ck : Z) : list Z :=
  [0x60; 0; 0; 0] ++ be16 len ++ [17; hl] ++ (device_prefix ++ iid) ++ server_address ++
  be16 device_port ++ be16 server_port ++ be16 ulen ++ be16 ck.

(** Headers of a packet from the server to the device. *)
Definition downlink_header (hl : Z) (iid : list Z) (len ulen ck : Z) : list Z :=
  [0x60; 0; 0; 0] ++ be16 len ++ [17; hl] ++ server_address ++ (device_prefix ++ iid) ++
  be16 server_port ++ be16 device_port ++ be16 ulen ++ be16 ck.

(** What the tests of the first rule say of the headers. *)
Definition rule1_matches (h : ipv6_hdr) (u : udp_schc_hdr) : bool :=
  (6 =? version h) && (0 =? tclass h) && (0 =? flabel h) && (17 =? nheader h) &&
  (0xA8060120 =? Prefix1 (ip6_src h)) && (0x0206801D =? Prefix2 (ip6_src h)) &&
  (0xA8060120 =? Prefix1 (ip6_dst h)) && (0x2120801D =? Prefix2 (ip6_dst h)) &&
  (0xFF483002 =? IID1 (ip6_dst h)) && (0xE43E5AFE =? IID2 (ip6_dst h)) &&
  (1086 =? srcPort u) && (5683 =? dstPort u).

Lemma match_rule1 junk h u : match_fields (fields (init_rule junk 1 rule1_fields)) (header_values h u) = Done (rule1_matches h u).
Proof.
  unfold rule1_matches.
  cbv [match_fields header_values init_rule fields rule1_fields imap compose apply_operator equal ignore matchingOperator targetValue rbind].
  repeat match goal with |- context [Z.eqb ?a ?b] => destruct (Z.eqb a b); cbn [andb]; [|reflexivity] end. reflexivity.
Qed.

Lemma be16_inv a b : is_u8 a -> is_u8 b -> be16 (a * 256 + b) = [a; b].
Proof. intros Ha Hb. unfold be16. f_equal; [machine|f_equal; machine]. Qed.

Lemma word_inv l z : bytes l -> length l = 4%nat -> (z =? le_val l) = true -> l = le_bytes 4 z.
Proof. intros Hb Hl ->%Z.eqb_eq. rewrite <- Hl. symmetry. by apply le_bytes_val. Qed.

(** The tests hold exactly of the headers of a packet to the server. *)
Lemma rule1_matches_iff b : length b = 48%nat -> bytes b ->
  rule1_matches (parse_ipv6 b) (parse_udp b) = true <->
  exists hl iid len ulen ck, length iid = 8%nat /\ is_u8 hl /\ is_u16 len /\ is_u16 ulen /\ is_u16 ck /\
    b = uplink_header hl iid len ulen ck.
Proof.
  intros Hl Hb. explode b. repeat apply List.Forall_cons_iff in Hb as [? Hb].
  unfold parse_ipv6, parse_udp. znth_lit. rewrite version_value, tclass_value, flabel_value, !be16_value by done.
  unfold parse_addr, get_word. cbn [Z.add Pos.add Z.to_nat Pos.to_nat Pos.iter_op Nat.add Pos.succ drop take].
  unfold rule1_matches. cbn [version tclass flabel nheader ip6_src ip6_dst Prefix1 Prefix2 IID1 IID2 srcPort dstPort]. split.
  - rewrite !andb_true_iff. intros M. destruct_and! M.
    repeat match goal with E : (_ =? le_val ?l) = true |- _ =>
      apply word_inv in E; [vm_compute in E; injection E; intros; clear E|solve_bytes|reflexivity] end.
    repeat match goal with E : (_ =? _) = true |- _ => apply Z.eqb_eq in E end.
    exists z6, [z15; z16; z17; z18; z19; z20; z21; z22], (z3 * 256 + z4), (z43 * 256 + z44), (z45 * 256 + z46).
    split; [reflexivity|]. split; [done|]. split; [machine|]. split; [machine|]. split; [machine|].
    unfold uplink_header. rewrite !be16_inv by done. subst. cbn [app device_prefix server_address be16].
    unfold is_u8 in *.
    assert (z = 96 /\ z0 = 0 /\ z1 = 0 /\ z2 = 0 /\ z39 = 4 /\ z40 = 62 /\ z41 = 22 /\ z42 = 51) as (-> & -> & -> & -> & -> & -> & -> & ->) by lia. reflexivity.
  - intros (hl & iid & len & ulen & ck & Hi & _ & _ & _ & _ & E). explode iid. cbn in E. injection E. intros. subst. reflexivity.
Qed.

(** The headers of a packet to the server match. *)
Lemma uplink_header_matches hl iid len ulen ck : length iid = 8%nat -> bytes iid -> is_u8 hl -> is_u16 len -> is_u16 ulen -> is_u16 ck ->
  let h := uplink_header hl iid len ulen ck in length h = 48%nat /\ rule1_matches (parse_ipv6 h) (parse_udp h) = true.
Proof.
  intros Hi Hib Hhl Hlen Hul Hck h. assert (Hh : length h = 48%nat) by (unfold h; by explode iid). split; [done|].
  apply rule1_matches_iff; [done| |by exists hl, iid, len, ulen, ck].
  unfold h, uplink_header, be16. rewrite !Forall_app. split_and!; try done; try (by apply bytesb_true); repeat constructor; unfold is_u8 in *; machine.
Qed.

(** * Compression and decompression with the rules of the device *)

Section Rules.
Context (j1 j2 : nat -> Z).

Definition device_rules : list SCHC_Rule := rules (initializeRules j1 j2 (mkNet (mkMem ∅ 0 0 false) (parse_ipv6 []) (parse_udp []) [] [] 0)).

Lemma compression_match s junk : rules s = device_rules -> length junk = 40%nat ->
  schc_compression junk s =
  Done (<[0%nat := if rule1_matches (ipv6_header s) (udp_header s) then 1 else 0]> junk, 1).
Proof.
  intros Hr Hj. unfold schc_compression. cbn [find_rule]. rewrite Hr.
  change (rd device_rules 0) with (@Done SCHC_Rule (init_rule j1 1 rule1_fields)). cbn [rbind negb Z.ltb Z.compare].
  rewrite match_rule1. cbn [rbind]. destruct (rule1_matches _ _).
  - cbn [rbind]. change (rd device_rules 0) with (@Done SCHC_Rule (init_rule j1 1 rule1_fields)). cbn [rbind].
    change (rdn (fields (init_rule j1 1 rule1_fields)) 0 (Z.of_nat AMOUNT_OF_FIELDS)) with (Done (fields (init_rule j1 1 rule1_fields))).
    cbn [rbind]. change (send_fields (fields (init_rule j1 1 rule1_fields)) junk 1) with (@Done (list Z * Z) (junk, 1)). cbn [rbind].
    by rewrite wr_ok by lia.
  - change (u8 (0 + 1)) with 1. cbn [negb Z.ltb Z.compare Pos.compare Pos.compare_cont rbind]. by rewrite wr_ok by lia.
Qed.

(** The headers that decompression restores, as bytes. *)
Lemma restore_rule m p k tot h u : is_u8 tot -> 0 < tot -> k = 1 \/ k = 2 ->
  exists r h' u', rd device_rules (u8 (k - 1)) = Done r /\ restore_fields m p (fields r) tot h u = Done (h', u', 1) /\
    paylength h' = tot + 7 /\
    header_bytes h' u' = (if k =? 1 then uplink_header else downlink_header) 255 DevEuiArray (tot + 7) (tot + 7) 0.
Proof.
  intros Ht H0 Hk. assert (Hl : u16 (u8 tot + UDP_HLEN - 1) = tot + 7) by (unfold UDP_HLEN; machine).
  assert (Hb : header_bytes (mkIpv6 6 0 0 (tot + 7) 17 255 (parse_addr (device_prefix ++ DevEuiArray) 0) (parse_addr server_address 0))
      (mkUdp device_port server_port (tot + 7) 0) = uplink_header 255 DevEuiArray (tot + 7) (tot + 7) 0 /\
    header_bytes (mkIpv6 6 0 0 (tot + 7) 17 255 (parse_addr server_address 0) (parse_addr (device_prefix ++ DevEuiArray) 0))
      (mkUdp server_port device_port (tot + 7) 0) = downlink_header 255 DevEuiArray (tot + 7) (tot + 7) 0).
  { assert (Hd : u8 (Z.shiftr (tot + 7) 8) = (tot + 7) / 256) by (rewrite Z.shiftr_div_pow2 by lia; change (2 ^ 8) with 256; machine).
    unfold header_bytes. cbn [version tclass flabel paylength nheader hlimit ip6_src ip6_dst srcPort dstPort length_udp checksum].
    rewrite Hd. by split. }
  assert (Hn : forall g : Z -> ipv6_hdr * udp_schc_hdr * Z, Done (g (u16 (u8 tot + UDP_HLEN - 1))) = Done (g (tot + 7))) by (by rewrite Hl).
  destruct Hk as [-> | ->]; eexists _, _, _; (split; [reflexivity|]).
  - split; [exact (Hn (fun l => (mkIpv6 6 0 0 l 17 255 (parse_addr (device_prefix ++ DevEuiArray) 0) (parse_addr server_address 0), mkUdp device_port server_port l 0, 1)))|].
    split; [done|apply Hb].
  - split; [exact (Hn (fun l => (mkIpv6 6 0 0 l 17 255 (parse_addr server_address 0) (parse_addr (device_prefix ++ DevEuiArray) 0), mkUdp server_port device_port l 0, 1)))|].
    split; [done|apply Hb].
Qed.

(** * Reception *)

Lemma with_mem_ok {A} (f : mem -> run (A * mem)) s a m : f (nmem s) = Done (a, m) -> with_mem f s = Done (a, s <| nmem := m |>).
Proof. intros E. unfold with_mem. by rewrite E. Qed.

Lemma nmem_nmem s m m' : s <| nmem := m |> <| nmem := m' |> = s <| nmem := m' |>.
Proof. by destruct s. Qed.

(** A packet [pk] was put in the new buffer [q] for the IPv6 layer; nothing else is left behind. *)
Record received (s : net) (pk : list Z) (q : Z) (s' : net) : Prop := mkReceived {
  rc_new : pbufs (nmem s) !! q = None;
  rc_bufs : pbufs (nmem s') = <[q := mkPbuf PBUF_POOL None pk (zlen pk) 1]> (pbufs (nmem s));
  rc_wf : mem_wf (nmem s');
  rc_pool : pool_free (nmem s') = pool_free (nmem s) - 1;
  rc_rules : rules s' = rules s;
  rc_data : AppData s' = AppData s /\ AppDataSize s' = AppDataSize s;
}.

Lemma low_level_input_spec s frame : mem_wf (nmem s) -> 0 < pool_free (nmem s) -> AppDataSize s = zlen frame -> zlen frame < 256 ->
  starts (AppData s) frame -> zlen frame <= zlen (AppData s) ->
  low_level_input s = Done (Some (brk (nmem s)), s <| nmem := put (brk (nmem s)) PBUF_POOL frame (allocated PBUF_POOL (zlen frame) (nmem s)) |>).
Proof.
  intros Hm Hp Hs H256 Hst Hl. unfold low_level_input. rewrite Hs.
  destruct (pbuf_alloc_single PBUF_RAW (zlen frame) PBUF_POOL (nmem s)) as (E & Hwf & Hsg); [lia|done|split; [done|]|].
  { change (PBUF_POOL_BUFSIZE - layer_offset PBUF_RAW) with 590. lia. }
  rewrite (with_mem_ok _ _ _ _ E). cbn [rbind].
  rewrite (with_mem_ok _ _ ERR_OK (put (brk (nmem s)) PBUF_POOL frame (allocated PBUF_POOL (zlen frame) (nmem s)))).
  - cbn [rbind]. by rewrite nmem_nmem.
  - cbn [update nmem AppData AppDataSize]. rewrite Hs, (pbuf_take_single _ _ _ _ _ _ Hsg); [|lia|rewrite length_replicate; lia].
    rewrite Nat2Z.id, Hst, drop_ge by (rewrite length_replicate; lia). by rewrite app_nil_r.
Qed.

(** The buffer of the frame and a second one for the packet, the first released. *)
Lemma second_buffer m frame len pk :
  mem_wf m -> 0 <= len ->
  let p := brk m in let q := brk m + 1 in
  let m1 := put p PBUF_POOL frame (allocated PBUF_POOL (zlen frame) m) in
  let m2 := put q PBUF_POOL pk (allocated PBUF_POOL len m1) in
  mem_wf m1 /\ pool_free m1 = pool_free m - 1 /\ brk m1 = q /\ single m2 p PBUF_POOL frame /\
  exists m3, pbuf_free (Some p) m2 = Done (1, m3) /\ mem_wf m3 /\ pool_free m3 = pool_free m - 1 /\
    pbufs m !! q = None /\ pbufs m3 = <[q := mkPbuf PBUF_POOL None pk (zlen pk) 1]> (pbufs m).
Proof.
  intros Hm Hlen p q m1 m2. pose proof (mem_wf_fresh m Hm) as Hf.
  assert (Hq : pbufs m !! q = None). { destruct (pbufs m !! q) eqn:E; [|done]. apply elem_of_dom_2, Hm in E. unfold q in E. lia. }
  assert (Hm1 : mem_wf m1).
  { intros y. unfold m1, put, allocated. cbn [update pbufs brk]. rewrite !dom_insert, !elem_of_union, !elem_of_singleton.
    intros [->|[->|Hy%Hm]]; unfold p; lia. }
  assert (Hp : single m2 p PBUF_POOL frame).
  { unfold m2. apply put_other; [unfold p, q; lia|]. unfold single, allocated. cbn [update pbufs].
    rewrite lookup_insert_ne by (unfold m1; cbn [put allocated update brk]; unfold p; lia). apply put_single. }
  split; [done|]. split; [done|]. split; [done|]. split; [done|]. eexists. split; [exact (pbuf_free_single _ _ _ _ Hp)|].
  split; [|split; [|split; [done|]]].
  - intros y. cbn [update pbufs brk]. unfold m2, m1, put, allocated. cbn [update pbufs brk].
    rewrite dom_delete, !dom_insert, elem_of_difference, !elem_of_union, !elem_of_singleton. intros [Hy Hne]. unfold p, q in *.
    destruct Hy as [->|[->|[->|[->|Hy%Hm]]]]; lia.
  - cbn [update pool_free]. unfold m2, m1, put, allocated. cbn [update pool_free]. lia.
  - cbn [update pbufs]. unfold m2, m1, put, allocated. cbn [update pbufs brk]. fold p. fold q. rewrite insert_insert_eq, insert_insert_eq.
    rewrite delete_insert_ne by (unfold p, q; lia). rewrite delete_insert_id by done. done.
Qed.

(** The packet a frame with rule number [k] stands for. *)
Definition decompressed (k : Z) (data : list Z) : list Z :=
  if k =? 0 then data
  else (if k =? 1 then uplink_header else downlink_header) 255 DevEuiArray (zlen data + 8) (zlen data + 8) 0 ++ data.

Lemma header_length k len : length ((if k =? 1 then uplink_header else downlink_header) 255 DevEuiArray len len 0) = 48%nat.
Proof. by destruct (k =? 1). Qed.

(** Both headers and data in place. *)
Lemma fill_packet (hdr data : list Z) : length hdr = 48%nat ->
  splice (take (Z.to_nat (IP6_HLEN + UDP_HLEN)) hdr ++ drop (Z.to_nat (IP6_HLEN + UDP_HLEN)) (replicate (48 + length data) 0)) (Z.to_nat (IP6_HLEN + UDP_HLEN)) data
  = hdr ++ data.
Proof.
  intros H. change (Z.to_nat (IP6_HLEN + UDP_HLEN)) with 48%nat. rewrite take_ge by lia. rewrite drop_replicate.
  replace (48 + length data - 48)%nat with (length data) by lia. unfold splice. rewrite take_app_length' by done.
  rewrite drop_ge, app_nil_r; [done|]. rewrite length_app, length_replicate. lia.
Qed.

(** What is known of the store when the frame is in its buffer. *)
Record frame_in (m : mem) (frame : list Z) (m1 : mem) : Prop := mkFrameIn {
  fi_single : single m1 (brk m) PBUF_POOL frame;
  fi_wf : mem_wf m1;
  fi_pool : pool_free m1 = pool_free m - 1;
  fi_brk : brk m1 = brk m + 1;
  fi_second : forall len pk, 0 <= len ->
    single (put (brk m + 1) PBUF_POOL pk (allocated PBUF_POOL len m1)) (brk m) PBUF_POOL frame /\
    exists m3, pbuf_free (Some (brk m)) (put (brk m + 1) PBUF_POOL pk (allocated PBUF_POOL len m1)) = Done (1, m3) /\
      mem_wf m3 /\ pool_free m3 = pool_free m - 1 /\ pbufs m !! (brk m + 1) = None /\
      pbufs m3 = <[brk m + 1 := mkPbuf PBUF_POOL None pk (zlen pk) 1]> (pbufs m);
}.

Lemma frame_in_put m frame : mem_wf m -> frame_in m frame (put (brk m) PBUF_POOL frame (allocated PBUF_POOL (zlen frame) m)).
Proof.
  intros Hm. destruct (second_buffer m frame 0 [] Hm ltac:(lia)) as (H1 & H2 & H3 & _). split; try done; [apply put_single|].
  intros len pk Hl. destruct (second_buffer m frame len pk Hm Hl) as (_ & _ & _ & H4 & H5). done.
Qed.

(** Memory operations in a state known only by its store. *)
Lemma alloc_packet m frame m1 s len : frame_in m frame m1 -> nmem s = m1 -> 1 < pool_free m -> 0 <= len <= 536 ->
  with_mem (pbuf_alloc PBUF_IP len PBUF_POOL) s = Done (Some (brk m + 1), s <| nmem := allocated PBUF_POOL len m1 |>) /\
  single (allocated PBUF_POOL len m1) (brk m + 1) PBUF_POOL (replicate (Z.to_nat len) 0).
Proof.
  intros [H1 H2 H3 H4 _] Hs Hp Hl. destruct (pbuf_alloc_single PBUF_IP len PBUF_POOL m1) as (E & _ & Hsg); [lia|done|split; [lia|]|].
  { change (PBUF_POOL_BUFSIZE - layer_offset PBUF_IP) with 536. lia. }
  rewrite H4 in E, Hsg. split; [|done]. apply with_mem_ok. by rewrite Hs.
Qed.

Lemma release_frame m frame m1 s len pk : frame_in m frame m1 -> 0 <= len -> nmem s = put (brk m + 1) PBUF_POOL pk (allocated PBUF_POOL len m1) ->
  exists m3, with_mem (pbuf_free (Some (brk m))) s = Done (1, s <| nmem := m3 |>) /\ mem_wf m3 /\ pool_free m3 = pool_free m - 1 /\
    pbufs m !! (brk m + 1) = None /\ pbufs m3 = <[brk m + 1 := mkPbuf PBUF_POOL None pk (zlen pk) 1]> (pbufs m).
Proof.
  intros H Hl Hs. destruct (fi_second _ _ _ H len pk Hl) as (_ & m3 & E & H3). exists m3. split; [|done]. apply with_mem_ok. by rewrite Hs.
Qed.

Lemma schc_input_uncompressed ip6_input s m1 data : let frame := 0 :: data in
  frame_in (nmem s) frame m1 -> 1 < pool_free (nmem s) -> bytes frame -> zlen frame < 256 ->
  exists s3, received s data (brk (nmem s) + 1) s3 /\
    schc_input ip6_input (brk (nmem s)) (s <| nmem := m1 |>) = ip6_input (Some (brk (nmem s) + 1)) s3.
Proof.
  intros frame Hf Hp Hb Hl. assert (Hfl : zlen frame = zlen data + 1) by (cbn [length frame]; lia).
  set (s1 := s <| nmem := m1 |>). pose proof (fi_single _ _ _ Hf) as Hs1. unfold schc_input. change (nmem s1) with m1.
  rewrite (pbuf_get_single _ _ _ _ _ Hs1) by (done || lia). cbn [rbind]. change (frame.[0] =? 0) with true. cbv iota.
  rewrite (pbuf_deref_ok _ _ _ Hs1). cbn [rbind pb_tot_len pb_payload]. replace (u16 (zlen frame - 1)) with (zlen data) by machine.
  destruct (alloc_packet _ _ _ s1 (zlen data) Hf eq_refl Hp ltac:(lia)) as [E Hsg]. rewrite E. cbn [rbind].
  rewrite (with_mem_ok _ _ ERR_OK (put (brk (nmem s) + 1) PBUF_POOL data (allocated PBUF_POOL (zlen data) m1))).
  2:{ cbn [update nmem]. change (drop 1 frame) with data. rewrite (pbuf_take_single _ _ _ _ _ _ Hsg); [|lia|rewrite length_replicate; lia].
      rewrite take_ge, drop_ge by (rewrite ?length_replicate; lia). by rewrite app_nil_r. }
  cbn [rbind]. rewrite nmem_nmem.
  destruct (release_frame _ _ _ (s1 <| nmem := put (brk (nmem s) + 1) PBUF_POOL data (allocated PBUF_POOL (zlen data) m1) |>) (zlen data) data Hf)
    as (m3 & Ef & Hm3 & Hp3 & Hq & Hb3); [lia|done|].
  rewrite Ef. cbn [rbind]. rewrite nmem_nmem. exists (s1 <| nmem := m3 |>). split; [|done]. by split.
Qed.

Lemma schc_input_compressed ip6_input s m1 k data : let frame := k :: data in
  rules s = device_rules -> frame_in (nmem s) frame m1 -> 1 < pool_free (nmem s) -> bytes frame -> zlen frame < 256 -> k = 1 \/ k = 2 ->
  exists s3, received s (decompressed k data) (brk (nmem s) + 1) s3 /\
    schc_input ip6_input (brk (nmem s)) (s <| nmem := m1 |>) = ip6_input (Some (brk (nmem s) + 1)) s3.
Proof.
  intros frame Hr Hf Hp Hb Hl Hk. assert (Hfl : zlen frame = zlen data + 1) by (cbn [length frame]; lia).
  assert (Ht : is_u8 (zlen frame)) by (unfold is_u8; lia).
  assert (Hd : decompressed k data = (if k =? 1 then uplink_header else downlink_header) 255 DevEuiArray (zlen frame + 7) (zlen frame + 7) 0 ++ data).
  { unfold decompressed. rewrite (proj2 (Z.eqb_neq k 0)) by lia. rewrite Hfl. do 2 f_equal; lia. }
  pose proof (header_length k (zlen frame + 7)) as Hh.
  destruct (restore_rule m1 (brk (nmem s)) k (zlen frame) (ipv6_header s) (udp_header s)) as (r & h' & u' & E1 & E2 & E3 & E4); [done|lia|done|].
  set (hdr := (if k =? 1 then uplink_header else downlink_header) _ _ _ _ _) in *. clearbody hdr.
  set (s1 := s <| nmem := m1 |>). pose proof (fi_single _ _ _ Hf) as Hs1. unfold schc_input. change (nmem s1) with m1.
  rewrite (pbuf_get_single _ _ _ _ _ Hs1) by (done || lia). cbn [rbind]. change frame.[0] with k.
  rewrite (proj2 (Z.eqb_neq k 0)) by lia. unfold schc_decompression. change (rules s1) with (rules s). rewrite Hr, E1. cbn [rbind].
  change (nmem s1) with m1. rewrite (pbuf_deref_ok _ _ _ Hs1). cbn [rbind pb_tot_len].
  change (ipv6_header s1) with (ipv6_header s). change (udp_header s1) with (udp_header s). rewrite E2. cbn [rbind].
  set (s2 := s1 <| ipv6_header := h' |> <| udp_header := u' |>). change (ipv6_header s2) with h'. change (udp_header s2) with u'. rewrite E3, E4.
  replace (u16 (IP6_HLEN + (zlen frame + 7))) with (48 + zlen data) by (unfold IP6_HLEN; machine).
  destruct (alloc_packet _ _ _ s2 (48 + zlen data) Hf eq_refl Hp ltac:(lia)) as [E Hsg]. rewrite E. cbn [rbind].
  set (ma := allocated PBUF_POOL (48 + zlen data) m1) in *. set (q := brk (nmem s) + 1) in *.
  replace (Z.to_nat (48 + zlen data)) with (48 + length data)%nat in Hsg by lia.
  set (x := take (Z.to_nat (IP6_HLEN + UDP_HLEN)) hdr ++ drop (Z.to_nat (IP6_HLEN + UDP_HLEN)) (replicate (48 + length data) 0)).
  assert (Hx : length x = (48 + length data)%nat).
  { unfold x. rewrite length_app, length_take, length_drop, length_replicate, Hh. change (Z.to_nat (IP6_HLEN + UDP_HLEN)) with 48%nat. lia. }
  rewrite (with_mem_ok _ _ ERR_OK (put q PBUF_POOL x ma)).
  2:{ cbn [update nmem]. apply (pbuf_take_single _ _ _ _ _ _ Hsg); rewrite ?Hh, ?length_replicate; unfold IP6_HLEN, UDP_HLEN; lia. }
  cbn [rbind]. rewrite nmem_nmem. cbn [update nmem].
  assert (Hs3 : single (put q PBUF_POOL x ma) (brk (nmem s)) PBUF_POOL frame) by (apply (fi_second _ _ _ Hf (48 + zlen data) x); lia).
  rewrite (pbuf_deref_ok _ _ _ Hs3). cbn [rbind pb_payload pb_tot_len]. change (drop (Z.to_nat 1) frame) with data.
  replace (u16 (zlen frame - 1)) with (zlen data) by machine.
  rewrite (with_mem_ok _ _ (if IP6_HLEN + UDP_HLEN <? zlen x then ERR_OK else ERR_MEM) (put q PBUF_POOL (hdr ++ data) ma)).
  2:{ cbn [update nmem]. rewrite (pbuf_take_at_single _ _ _ _ _ _ _ (put_single q PBUF_POOL x ma)); [|unfold IP6_HLEN, UDP_HLEN; lia..].
      rewrite put_put, Nat2Z.id, take_ge by lia. unfold x. by rewrite fill_packet. }
  cbn [rbind]. rewrite nmem_nmem.
  destruct (release_frame _ _ _ (s2 <| nmem := put q PBUF_POOL (hdr ++ data) ma |>) (48 + zlen data) (hdr ++ data) Hf)
    as (m3 & Ef & Hm3 & Hp3 & Hq & Hb3); [lia|done|].
  rewrite Ef. cbn [rbind]. rewrite nmem_nmem. exists (s2 <| nmem := m3 |>). split; [|done]. rewrite Hd. by split.
Qed.

(** * Transmission *)

(** Handing a single buffer to the application. *)
Lemma low_level_output_spec s q t b : single (nmem s) q t b -> zlen b <= zlen (AppData s) ->
  low_level_output (Some q) s =
  Done (ERR_OK, s <| AppData := splice (AppData s) 0 b |> <| AppDataSize := u8 (zlen b) |>
    <| nmem := let m := (nmem s) <| pbufs := delete q (pbufs (nmem s)) |> in
         match t with PBUF_POOL => m <| pool_free ::= fun n => n + 1 |> | PBUF_RAM => m end |>).
Proof.
  intros H Hl. unfold low_level_output. rewrite (pbuf_deref_ok _ _ _ H). cbn [rbind pb_tot_len].
  pose proof (pbuf_copy_all (nmem s) (Some q) [(q, b)] (single_chain _ _ _ _ H) (nodup_single _ _)) as E. rewrite content_single in E.
  rewrite E. cbn [rbind]. rewrite wrn_ok by lia. cbn [rbind].
  set (s1 := s <| AppData := _ |> <| AppDataSize := _ |>).
  rewrite (with_mem_ok _ s1 _ _ (pbuf_free_single (nmem s) q t b H)). done.
Qed.

(** The packet after the headers of the first rule are left out. *)
Definition sent (s : net) (p : Z) (frame : list Z) (s' : net) : Prop :=
  AppData s' = splice (AppData s) 0 frame /\ AppDataSize s' = zlen frame /\ rules s' = rules s /\
  pbufs (nmem s') = delete p (pbufs (nmem s)) /\ mem_wf (nmem s').

(** A fresh buffer holding [frame] next to the packet [p], which is then released. *)
Lemma replace_packet m p t pk frame len : mem_wf m -> single m p t pk ->
  let q := brk m in let m2 := put q PBUF_RAM frame (allocated PBUF_RAM len m) in
  p <> q /\ exists m3, pbuf_free (Some p) m2 = Done (1, m3) /\ single m3 q PBUF_RAM frame /\ brk m3 = q + 1 /\
    delete q (pbufs m3) = delete p (pbufs m).
Proof.
  intros Hm Hp q m2. pose proof (mem_wf_fresh m Hm) as Hf.
  assert (Hne : p <> q) by (intros ->; unfold single, q in Hp; congruence). split; [done|].
  assert (Hp2 : single m2 p t pk).
  { unfold m2. apply put_other; [done|]. unfold single, allocated. cbn [update pbufs]. by rewrite lookup_insert_ne. }
  eexists. split; [exact (pbuf_free_single _ _ _ _ Hp2)|]. cbv zeta.
  assert (Hb : pbufs m2 = <[q := mkPbuf PBUF_RAM None frame (zlen frame) 1]> (pbufs m)).
  { unfold m2, put, allocated. cbn [update pbufs]. apply insert_insert_eq. }
  split; [|split].
  - unfold single. destruct t; cbn [update pbufs]; by rewrite Hb, lookup_delete_ne, lookup_insert_eq.
  - by destruct t.
  - destruct t; cbn [update pbufs]; rewrite Hb, delete_delete, delete_insert_id by done; done.
Qed.

Lemma schc_output_compressed s junk p t hdr data : rules s = device_rules -> mem_wf (nmem s) -> heap_ok (nmem s) = true ->
  single (nmem s) p t (hdr ++ data) -> length hdr = 48%nat -> rule1_matches (parse_ipv6 hdr) (parse_udp hdr) = true ->
  length junk = 40%nat -> zlen data < 255 -> zlen data < zlen (AppData s) ->
  exists s', schc_output junk p s = Done (ERR_OK, s') /\ sent s p (1 :: data) s'.
Proof.
  intros Hr Hm Hh Hp Hhl Hma Hj Hd Ha. unfold schc_output. rewrite (pbuf_deref_ok _ _ _ Hp). cbn [rbind pb_payload pb_tot_len].
  rewrite rdn_ok by (rewrite ?length_app, ?Hhl; unfold IP6_HLEN, UDP_HLEN; lia). cbn [rbind]. change (Z.to_nat (IP6_HLEN + UDP_HLEN)) with 48%nat.
  change (Z.to_nat 0) with 0%nat. rewrite drop_0, (take_app_length' hdr), (drop_app_length' hdr) by done.
  set (s1 := s <| ipv6_header := parse_ipv6 hdr |> <| udp_header := parse_udp hdr |>).
  rewrite (compression_match s1 junk Hr Hj). change (ipv6_header s1) with (parse_ipv6 hdr). change (udp_header s1) with (parse_udp hdr). rewrite Hma.
  destruct junk as [|j0 junk]; [done|]. cbn [rbind insert list_insert]. change (rd (1 :: junk) 0) with (Done 1). cbn [rbind Z.eqb].
  replace (u16 (zlen (hdr ++ data) - IP6_HLEN - UDP_HLEN)) with (zlen data) by (rewrite length_app, Hhl; unfold IP6_HLEN, UDP_HLEN; machine).
  replace (u16 (zlen data + 1)) with (zlen data + 1) by machine.
  destruct (pbuf_alloc_single PBUF_RAW (zlen data + 1) PBUF_RAM (nmem s)) as (E & Hwf & Hsg); [lia|done|done|].
  rewrite (with_mem_ok _ s1 _ _ E). cbn [rbind]. set (ma := allocated PBUF_RAM (zlen data + 1) (nmem s)) in *. set (q := brk (nmem s)) in *.
  replace (Z.to_nat (zlen data + 1)) with (S (length data)) in Hsg by lia. cbn [replicate] in Hsg.
  rewrite (with_mem_ok _ _ ERR_OK (put q PBUF_RAM (1 :: replicate (length data) 0) ma)).
  2:{ cbn [update nmem]. apply (pbuf_take_single _ _ _ _ (1 :: junk) 1 Hsg); cbn [length]; lia. }
  cbn [rbind]. rewrite nmem_nmem. set (b1 := 1 :: replicate (length data) 0).
  assert (Hb1 : length b1 = S (length data)) by (unfold b1; cbn [length]; by rewrite length_replicate).
  rewrite (with_mem_ok _ _ (if 1 <? zlen b1 then ERR_OK else ERR_MEM) (put q PBUF_RAM (1 :: data) ma)).
  2:{ cbn [update nmem]. rewrite (pbuf_take_at_single _ _ _ _ _ _ _ (put_single q PBUF_RAM b1 ma)) by lia.
      rewrite put_put, Nat2Z.id, take_ge by lia. unfold splice, b1. change (Z.to_nat 1) with 1%nat. cbn [take drop app Nat.add].
      rewrite take_0, drop_ge, app_nil_r by (rewrite length_replicate; lia). done. }
  cbn [rbind]. rewrite nmem_nmem.
  destruct (replace_packet (nmem s) p t (hdr ++ data) (1 :: data) (zlen data + 1) Hm Hp) as (Hne & m3 & Ef & Hq3 & Hb3 & Hdel).
  fold ma in Ef. fold q in Ef, Hq3, Hb3, Hdel.
  rewrite (with_mem_ok _ _ 1 m3) by exact Ef. cbn [rbind]. rewrite nmem_nmem. unfold schc_frag.
  rewrite (low_level_output_spec (s1 <| nmem := m3 |>) q PBUF_RAM (1 :: data)); [|exact Hq3|cbn [update AppData]; unfold s1; cbn [update AppData length]; lia].
  eexists. split; [reflexivity|]. split_and!; try done.
  - cbn [update AppDataSize length]. machine.
  - cbn [update nmem pbufs brk]. intros y. cbn [update pbufs brk]. rewrite Hdel, Hb3. rewrite dom_delete, elem_of_difference. intros [Hy%Hm _]. unfold q. lia.
Qed.

(** A chain whose second buffer was released cannot be copied. *)
Lemma copy_released m q p b len : pbufs m !! q = Some b -> pb_next b = Some p -> pbufs m !! p = None -> pb_len b < len ->
  pbuf_copy_partial (Some q) len 0 m = Undef.
Proof.
  intros Hq Hn Hp Hl. unfold pbuf_copy_partial, chain_fuel.
  assert (Hs : size (pbufs m) <> 0%nat) by (intros E%map_size_empty_inv; rewrite E in Hq; by rewrite lookup_empty in Hq).
  destruct (size (pbufs m)) as [|k]; [done|]. cbn [copy_loop]. assert (0 <= pb_len b) by (unfold pb_len; lia).
  rewrite (proj2 (Z.eqb_neq len 0)) by lia. rewrite (pbuf_deref_ok _ _ _ Hq). cbn [rbind negb Z.eqb andb].
  rewrite rdn_ok by (unfold pb_len in *; lia). cbn [rbind]. rewrite Hn. cbn [copy_loop].
  rewrite (proj2 (Z.eqb_neq (len - _) 0)) by (unfold pb_len in *; lia). unfold deref. by rewrite Hp.
Qed.

Lemma cat_single m q t b p t' c : single m q t b -> single m p t' c ->
  pbuf_cat (Some q) (Some p) m = Done (m <| pbufs := <[q := mkPbuf t (Some p) b (u16 (zlen b + zlen c)) 1]> (pbufs m) |>).
Proof.
  intros Hq Hp. unfold pbuf_cat, chain_fuel. rewrite (pbuf_deref_ok _ _ _ Hp). cbn [rbind pb_tot_len cat_loop]. rewrite (pbuf_deref_ok _ _ _ Hq). cbn [rbind].
  rewrite (pbuf_store_ok _ _ _ _ Hq). cbn [rbind pb_next]. erewrite pbuf_store_ok by (cbn [update pbufs]; apply lookup_insert_eq).
  cbn [update pbufs]. rewrite insert_insert_eq. done.
Qed.

Lemma schc_output_uncompressed s junk p t hdr data : rules s = device_rules -> mem_wf (nmem s) ->
  single (nmem s) p t (hdr ++ data) -> length hdr = 48%nat -> rule1_matches (parse_ipv6 hdr) (parse_udp hdr) = false ->
  length junk = 40%nat -> zlen data < 65000 -> schc_output junk p s = Undef.
Proof.
  intros Hr Hm Hp Hhl Hma Hj Hd. unfold schc_output. rewrite (pbuf_deref_ok _ _ _ Hp). cbn [rbind pb_payload pb_tot_len].
  rewrite rdn_ok by (rewrite ?length_app, ?Hhl; unfold IP6_HLEN, UDP_HLEN; lia). cbn [rbind]. change (Z.to_nat (IP6_HLEN + UDP_HLEN)) with 48%nat.
  change (Z.to_nat 0) with 0%nat. rewrite drop_0, (take_app_length' hdr) by done.
  set (s1 := s <| ipv6_header := parse_ipv6 hdr |> <| udp_header := parse_udp hdr |>).
  rewrite (compression_match s1 junk Hr Hj). change (ipv6_header s1) with (parse_ipv6 hdr). change (udp_header s1) with (parse_udp hdr). rewrite Hma.
  destruct junk as [|j0 junk]; [done|]. cbn [rbind insert list_insert]. change (rd (0 :: junk) 0) with (Done 0). cbn [rbind]. change (0 =? 0) with true. cbv iota.
  destruct (heap_ok (nmem s)) eqn:Hh.
  2:{ rewrite (with_mem_ok _ s1 None (nmem s)) by (cbn [pbuf_alloc]; change (nmem s1) with (nmem s); by rewrite Hh). cbn [rbind].
      rewrite (with_mem_ok _ _ ERR_ARG (nmem s)) by done. cbn [rbind pbuf_cat]. unfold schc_frag, low_level_output.
      destruct (with_mem _ _) as [[? ?]| |] eqn:E; [done|done|]. exfalso. unfold with_mem in E.
      rewrite pbuf_free_single with (t := t) (b := hdr ++ data) in E by exact Hp. done. }
  destruct (pbuf_alloc_single PBUF_RAW 1 PBUF_RAM (nmem s)) as (E & Hwf & Hsg); [lia|done|done|].
  rewrite (with_mem_ok _ s1 _ _ E). cbn [rbind]. set (ma := allocated PBUF_RAM 1 (nmem s)) in *. set (q := brk (nmem s)) in *.
  rewrite (with_mem_ok _ _ ERR_OK (put q PBUF_RAM [0] ma)).
  2:{ cbn [update nmem]. apply (pbuf_take_single _ _ _ _ (0 :: junk) 1 Hsg); rewrite ?length_replicate; cbn [length]; lia. }
  cbn [rbind]. rewrite nmem_nmem.
  assert (Hne : q <> p). { intros <-. pose proof (mem_wf_fresh _ Hm) as Hf. unfold single, q in Hp. congruence. }
  assert (Hp2 : single (put q PBUF_RAM [0] ma) p t (hdr ++ data)).
  { apply put_other; [done|]. unfold single, ma, allocated. cbn [update pbufs]. by rewrite lookup_insert_ne. }
  cbn [update nmem]. rewrite (cat_single _ _ _ _ _ _ _ (put_single q PBUF_RAM [0] ma) Hp2). cbn [rbind].
  set (m2 := (put q PBUF_RAM [0] ma) <| pbufs := _ |>).
  assert (Hp3 : single m2 p t (hdr ++ data)) by (unfold single, m2; cbn [update pbufs]; rewrite lookup_insert_ne by done; exact Hp2).
  pose proof (pbuf_free_single _ _ _ _ Hp3) as Ef.
  destruct (pbuf_free (Some p) m2) as [[n3 m3]| |] eqn:Ef3; [|done|done]. injection Ef as -> Em3.
  assert (Hq3 : pbufs m3 !! q = Some (mkPbuf PBUF_RAM (Some p) [0] (u16 (1 + zlen (hdr ++ data))) 1)).
  { rewrite Em3. unfold m2. destruct t; cbn [update pbufs]; by rewrite lookup_delete_ne, lookup_insert_eq. }
  assert (Hp4 : pbufs m3 !! p = None) by (rewrite Em3; destruct t; cbn [update pbufs]; apply lookup_delete_eq).
  clear Em3. clearbody m2. rewrite (with_mem_ok _ _ 1 m3) by exact Ef3. cbn [rbind]. unfold schc_frag, low_level_output. cbn [update nmem].
  rewrite (pbuf_deref_ok _ _ _ Hq3). cbn [rbind pb_tot_len].
  rewrite (copy_released _ _ _ _ _ Hq3 eq_refl Hp4); [done|]. unfold pb_len. cbn [pb_payload length]. rewrite length_app, Hhl. machine.
Qed.
End Rules.

(** * Properties *)

Section Reception.
Context (j1 j2 : nat -> Z) (ip6_input : option Z -> net -> run (err_t * net)).
(** [ip6_input] accepts or drops every packet and returns [ERR_OK]. *)
Hypothesis ip6_input_ok : forall q s, exists s', ip6_input q s = Done (ERR_OK, s').

Lemma virtualloraif_input_spec s k data : let frame := k :: data in
  rules s = device_rules j1 j2 -> mem_wf (nmem s) -> 1 < pool_free (nmem s) -> bytes frame ->
  AppDataSize s = zlen frame -> zlen frame < 256 -> starts (AppData s) frame -> zlen frame <= zlen (AppData s) -> k <= 2 ->
  exists q s3 s4, received s (decompressed k data) q s3 /\ ip6_input (Some q) s3 = Done (ERR_OK, s4) /\
    virtualloraif_input ip6_input s = Done s4.
Proof.
  intros frame Hr Hm Hp Hb Hs Hl Hst Hla Hk. unfold virtualloraif_input. rewrite (low_level_input_spec s frame) by (done || lia). cbn [rbind].
  pose proof (frame_in_put (nmem s) frame Hm) as Hf.
  assert (Hi : exists s3, received s (decompressed k data) (brk (nmem s) + 1) s3 /\
    schc_input ip6_input (brk (nmem s)) (s <| nmem := put (brk (nmem s)) PBUF_POOL frame (allocated PBUF_POOL (zlen frame) (nmem s)) |>) =
      ip6_input (Some (brk (nmem s) + 1)) s3).
  { pose proof Hb as Hb'. apply List.Forall_cons_iff in Hb' as [Hk0 _]. unfold is_u8 in Hk0. destruct (decide (k = 0)) as [->|Hne].
    - by apply schc_input_uncompressed.
    - apply (schc_input_compressed j1 j2); try done. lia. }
  destruct Hi as (s3 & Hrc & E). destruct (ip6_input_ok (Some (brk (nmem s) + 1)) s3) as [s4 E4].
  exists (brk (nmem s) + 1), s3, s4. split; [done|]. split; [done|]. rewrite E, E4. done.
Qed.

(** A frame whose first byte is 0, 1 or 2 is handed to the IPv6 layer as one
    packet: the bytes after the 0 as they are, or with the complete IPv6 and UDP
    headers of the rule (the fixed addresses and ports, the device identifier as
    interface identifier, the lengths computed from the frame) in front of them;
    the frame's buffer is released and no other buffer changes.  The number of
    a rule that does not exist indexes the table of rules out of its bounds. *)
Theorem frame_decompression_correct s k data : let frame := k :: data in
  rules s = device_rules j1 j2 -> mem_wf (nmem s) -> 1 < pool_free (nmem s) -> bytes frame ->
  AppDataSize s = zlen frame -> zlen frame < 256 -> starts (AppData s) frame -> zlen frame <= zlen (AppData s) ->
  (k <= 2 -> exists q s3 s4, received s (decompressed k data) q s3 /\ ip6_input (Some q) s3 = Done (ERR_OK, s4) /\
    virtualloraif_input ip6_input s = Done s4) /\
  (4 < k -> virtualloraif_input ip6_input s = Undef).
Proof.
  intros frame Hr Hm Hp Hb Hs Hl Hst Hla. split; intros Hk; [by apply virtualloraif_input_spec|].
  unfold virtualloraif_input. rewrite (low_level_input_spec s frame) by (done || lia). cbn [rbind].
  pose proof (frame_in_put (nmem s) frame Hm) as Hf. set (m1 := put _ _ _ _) in *. clearbody m1. pose proof (fi_single _ _ _ Hf) as Hs1.
  unfold schc_input. change (nmem s <| nmem := m1 |>) with m1. rewrite (pbuf_get_single _ _ _ _ _ Hs1) by (done || lia). cbn [rbind].
  change frame.[0] with k. rewrite (proj2 (Z.eqb_neq k 0)) by lia. unfold schc_decompression. change (rules s <| nmem := m1 |>) with (rules s).
  apply List.Forall_cons_iff in Hb as [Hk8 _]. unfold is_u8 in Hk8. rewrite u8_id by machine. rewrite Hr.
  unfold rd. rewrite (proj2 (Z.leb_le 0 (k - 1))) by lia. rewrite lookup_ge_None_2; [done|]. change (length (device_rules j1 j2)) with 4%nat. lia.
Qed.
End Reception.

(** C22: compression followed by decompression: a packet to the server, whatever
    its hop limit, interface identifier, lengths and checksum, is sent as the
    rule number and its data only, its buffer is released, and a peer with the
    same rules restores it with hop limit 255, the device identifier, the right
    lengths and no checksum; so a packet that has these values is restored
    exactly. *)
Theorem schc_roundtrip j1 j2 j1' j2' ip6_input s junk p t hl iid len ulen ck data :
  (forall q s, exists s', ip6_input q s = Done (ERR_OK, s')) ->
  rules s = device_rules j1 j2 -> mem_wf (nmem s) -> heap_ok (nmem s) = true -> length (AppData s) = 240%nat -> length junk = 40%nat ->
  single (nmem s) p t (uplink_header hl iid len ulen ck ++ data) -> length iid = 8%nat -> bytes iid -> is_u8 hl ->
  is_u16 len -> is_u16 ulen -> is_u16 ck -> bytes data -> zlen data < 240 ->
  exists s', schc_output junk p s = Done (ERR_OK, s') /\ sent s p (1 :: data) s' /\
    forall s2, rules s2 = device_rules j1' j2' -> mem_wf (nmem s2) -> 1 < pool_free (nmem s2) ->
      AppData s2 = AppData s' -> AppDataSize s2 = AppDataSize s' ->
      exists q s3 s4, received s2 (uplink_header 255 DevEuiArray (zlen data + 8) (zlen data + 8) 0 ++ data) q s3 /\
        ip6_input (Some q) s3 = Done (ERR_OK, s4) /\ virtualloraif_input ip6_input s2 = Done s4.
Proof.
  intros Hip Hr Hm Hh Ha Hj Hp Hi Hib Hhl Hlen Hul Hck Hd Hn.
  destruct (uplink_header_matches hl iid len ulen ck) as [Hhb Hma]; try done.
  destruct (schc_output_compressed j1 j2 s junk p t (uplink_header hl iid len ulen ck) data) as (s' & E & Hs); try done; [lia|lia|].
  exists s'. split; [done|]. split; [done|]. destruct Hs as (H1 & H2 & _). intros s2 Hr2 Hm2 Hp2 Ea Es.
  apply (virtualloraif_input_spec j1' j2' ip6_input Hip s2 1 data); try done; rewrite ?Ea, ?Es, ?H1, ?H2; try done; cbn [length]; try lia.
  - constructor; [done|done].
  - unfold starts, splice. rewrite take_0, app_nil_l. apply take_app_length.
  - rewrite splice_length by (cbn [length]; lia). lia.
Qed.

(** Every other packet is released while it is still part of the chain that is
    to be sent: the output function puts the number 0 in front of it and then
    reads the released buffer. *)
Theorem unmatched_packet_read_after_free j1 j2 s junk p t pk : rules s = device_rules j1 j2 -> mem_wf (nmem s) -> length junk = 40%nat ->
  single (nmem s) p t pk -> bytes pk -> 48 <= zlen pk < 65000 ->
  ~ (exists hl iid len ulen ck data, length iid = 8%nat /\ pk = uplink_header hl iid len ulen ck ++ data) ->
  schc_output junk p s = Undef.
Proof.
  intros Hr Hm Hj Hp Hb Hl Hno. assert (Hh : length (take 48 pk) = 48%nat) by (rewrite length_take; lia).
  apply (schc_output_uncompressed j1 j2 s junk p t (take 48 pk) (drop 48 pk)); try done.
  - by rewrite take_drop.
  - destruct (rule1_matches _ _) eqn:E; [|done]. exfalso. apply rule1_matches_iff in E as (hl & iid & len & ulen & ck & Hi & _ & _ & _ & _ & E);
      [|done|by apply Forall_take]. apply Hno. exists hl, iid, len, ulen, ck, (drop 48 pk). split; [done|]. by rewrite <- E, take_drop.
  - rewrite length_drop. lia.
Qed.

(** ** Instances *)

(** One packet of three data bytes in a state with an empty [AppData]. *)
Definition demo_packet : list Z := uplink_header 64 [1; 2; 3; 4; 5; 6; 7; 8] 11 11 0x1234 ++ [7; 8; 9].
Definition demo_net (pk app : list Z) (n : Z) : net :=
  initializeRules (fun _ => 0) (fun _ => 0)
    (mkNet (mkMem {[1 := mkPbuf PBUF_RAM None pk (zlen pk) 1]} 2 4 true) (parse_ipv6 []) (parse_udp []) [] app n).

Lemma demo_net_wf pk app n : mem_wf (nmem (demo_net pk app n)).
Proof. intros y. cbn [demo_net initializeRules update nmem pbufs brk]. rewrite dom_singleton, elem_of_singleton. lia. Qed.

Lemma schc_roundtrip_witness : exists s', schc_output (replicate 40 0) 1 (demo_net demo_packet (replicate 240 0) 0) = Done (ERR_OK, s') /\
  sent (demo_net demo_packet (replicate 240 0) 0) 1 [1; 7; 8; 9] s'.
Proof.
  destruct (schc_roundtrip (fun _ => 0) (fun _ => 0) (fun _ => 0) (fun _ => 0) (fun _ s => Done (ERR_OK, s))
    (demo_net demo_packet (replicate 240 0) 0) (replicate 40 0) 1 PBUF_RAM 64 [1; 2; 3; 4; 5; 6; 7; 8] 11 11 0x1234 [7; 8; 9])
    as (s' & E & Hs & _); try done.
  - intros q s. by exists s.
  - apply demo_net_wf.
  - by apply bytesb_true.
  - by apply bytesb_true.
  - exists s'. by split.
Defined.

Lemma frame_decompression_correct_witness :
  exists q s3 s4, received (demo_net [] ([2; 7; 8; 9] ++ replicate 236 0) 4) (downlink_header 255 DevEuiArray 11 11 0 ++ [7; 8; 9]) q s3 /\
    Done (ERR_OK, s3) = Done (ERR_OK, s4) /\
    virtualloraif_input (fun _ s => Done (ERR_OK, s)) (demo_net [] ([2; 7; 8; 9] ++ replicate 236 0) 4) = Done s4.
Proof.
  apply (frame_decompression_correct (fun _ => 0) (fun _ => 0) (fun _ s => Done (ERR_OK, s)) ltac:(intros q s; by exists s)
    (demo_net [] ([2; 7; 8; 9] ++ replicate 236 0) 4) 2 [7; 8; 9]); try done.
  - apply demo_net_wf.
  - by apply bytesb_true.
Defined.

Lemma unmatched_packet_read_after_free_witness : schc_output (replicate 40 0) 1 (demo_net (replicate 60 0) (replicate 240 0) 0) = Undef.
Proof.
  apply (unmatched_packet_read_after_free (fun _ => 0) (fun _ => 0) _ _ _ PBUF_RAM (replicate 60 0)); try done.
  - apply demo_net_wf.
  - by apply bytesb_true.
  - intros (hl & iid & len & ulen & ck & data & _ & E). discriminate E.
Defined.

End Schc.
