(* ===== verification/Coap.v ===== *)
(** CoAP messages (src/LwIP/apps/picocoap/coap.c, coap.h): building a message in
    a buffer with the setters and reading it with the getters.  Pointers are
    addresses; an access outside the buffer of the message is undefined.
    [size_t] has 32 bits. *)
From S2P Require Import Prelude.

Module Coap.

(** * Data *)

Inductive coap_error :=
| CE_NONE | CE_INVALID_PACKET | CE_BAD_VERSION | CE_TOKEN_LENGTH_OUT_OF_RANGE | CE_UNKNOWN_CODE | CE_TOO_MANY_OPTIONS
| CE_OUT_OF_ORDER_OPTIONS_LIST | CE_INSUFFICIENT_BUFFER | CE_FOUND_PAYLOAD_MARKER | CE_END_OF_PACKET.
#[export] Instance coap_error_eq : EqDecision coap_error.
Proof. solve_decision. Defined.

(** The numbers of the enumerations that are stored in messages. *)
Definition COAP_V1 : Z := 1.
Definition CT_CON : Z := 0.
Definition CT_NON : Z := 1.
Definition CT_ACK : Z := 2.
Definition CT_RST : Z := 3.
Definition CC_EMPTY : Z := 0.
Definition CC_PUT : Z := 3.
Definition CON_URI_PATH : Z := 11.

(** [coap_pdu]: [buf] is the address of the buffer, [mem] the bytes behind it. *)
Record coap_pdu := mkPdu {
  buf : Z;
  mem : list Z;
  len : Z;
  max : Z;
}.
#[export] Instance eta_coap_pdu : Eta coap_pdu := fun p => mkPdu (buf p) (mem p) (len p) (max p).

Record coap_option := mkOption {
  num : Z;
  olen : Z;
  val : Z;
}.

Record coap_payload := mkPayload {
  plen : Z;
  pval : Z;
}.

Definition NULL : Z := 0.

(** * Memory *)

Definition ld (p : coap_pdu) (a : Z) : run Z := rd (mem p) (a - buf p).
Definition ldn (p : coap_pdu) (a n : Z) : run (list Z) := rdn (mem p) (a - buf p) n.
Definition stn (p : coap_pdu) (a : Z) (x : list Z) : run coap_pdu :=
  let* b := wrn (mem p) (a - buf p) x in Done (p <| mem := b |>).
Definition st (p : coap_pdu) (a x : Z) : run coap_pdu := stn p a [u8 x].
Definition memmove (p : coap_pdu) (dst src n : Z) : run coap_pdu :=
  let* x := ldn p src n in stn p dst x.

(** * Getters *)

Definition coap_get_version (p : coap_pdu) : run Z := let* b := ld p (buf p) in Done (Z.shiftr b 6).
Definition coap_get_type (p : coap_pdu) : run Z := let* b := ld p (buf p) in Done (Z.land (Z.shiftr b 4) 3).
Definition coap_get_tkl (p : coap_pdu) : run Z := let* b := ld p (buf p) in Done (Z.land b 15).
Definition coap_get_code (p : coap_pdu) : run Z := ld p (buf p + 1).
Definition coap_get_code_class (p : coap_pdu) : run Z := let* c := coap_get_code p in Done (Z.shiftr c 5).
Definition coap_get_code_detail (p : coap_pdu) : run Z := let* c := coap_get_code p in Done (Z.land c 31).
Definition coap_get_mid (p : coap_pdu) : run Z :=
  let* a := ld p (buf p + 2) in let* b := ld p (buf p + 3) in Done (u16 (Z.lor (Z.shiftl a 8) b)).
Definition coap_build_code (class detail : Z) : Z := u8 (Z.lor (Z.shiftl class 5) detail).

(** [memcpy] to the eight bytes of [token]. *)
Definition coap_get_token (p : coap_pdu) : run Z :=
  let* tkl := coap_get_tkl p in
  if len p <? 4 + tkl then Done 0 else
  if 8 <? tkl then Undef else
  let* x := ldn p (buf p + 4) tkl in Done (le_val x).

(** The nibble [v] of an option header with its extension at [ptr]. *)
Definition extended (p : coap_pdu) (v ptr : Z) : run (option (Z * Z)) :=
  if v <? 13 then Done (Some (v, ptr))
  else if v =? 13 then let* b := ld p ptr in Done (Some (u16 (b + 13), ptr + 1))
  else if v =? 14 then
    let* a := ld p ptr in let* b := ld p (ptr + 1) in Done (Some (u16 (Z.shiftl a 8 + b + 269), ptr + 2))
  else Done None.

(** Delta, length and value pointer of an option, or the error; on an error the
    output arguments are not written. *)
Definition coap_decode_option (p : coap_pdu) (pkt_ptr pkt_len : Z) : run (coap_error + Z * Z * Z) :=
  if pkt_len =? 0 then Done (inl CE_END_OF_PACKET) else
  let* b := ld p pkt_ptr in
  if b =? 255 then Done (inl CE_FOUND_PAYLOAD_MARKER) else
  let* d := extended p (Z.shiftr b 4) (pkt_ptr + 1) in
  match d with
  | None => Done (inl CE_INVALID_PACKET)
  | Some (delta, ptr) =>
      let* l := extended p (Z.land b 15) ptr in
      match l with
      | None => Done (inl CE_INVALID_PACKET)
      | Some (length, ptr) => Done (inr (delta, length, ptr))
      end
  end.

(** The loop body runs at most once: it is entered with an error, and an error
    other than those handled is returned. *)
Definition coap_validate_pkt (p : coap_pdu) : run coap_error :=
  if max p <? len p then Done CE_INVALID_PACKET else
  if len p <? 4 then Done CE_INVALID_PACKET else
  let* v := coap_get_version p in
  if negb (v =? 1) then Done CE_INVALID_PACKET else
  let* tkl := coap_get_tkl p in
  if 8 <? tkl then Done CE_INVALID_PACKET else
  let ov := buf p + 4 + tkl in
  let* r := coap_decode_option p ov (u32 (len p - (ov - buf p))) in
  match r with
  | inr _ => Done CE_NONE
  | inl CE_END_OF_PACKET => Done CE_NONE
  | inl CE_FOUND_PAYLOAD_MARKER => if len p =? u32 (ov - buf p) then Done CE_INVALID_PACKET else Done CE_NONE
  | inl e => Done e
  end.

Definition coap_get_option (p : coap_pdu) (last : option coap_option) : run coap_option :=
  let* tkl := coap_get_tkl p in
  let first := buf p + 4 + tkl in
  let '(onum, opt_ptr) :=
    match last with
    | Some l => if negb (num l =? 0) then (num l, val l + olen l) else (0, first)
    | None => (0, first)
    end in
  let opt_ptr := if (buf p + len p <? opt_ptr) || (opt_ptr <=? buf p) then first else opt_ptr in
  let* r := coap_decode_option p opt_ptr (u32 (len p - (opt_ptr - buf p))) in
  Done match r with
       | inr (delta, length, ptr) => mkOption (u16 (onum + delta)) length ptr
       | inl CE_FOUND_PAYLOAD_MARKER =>
           if onum =? 0 then mkOption 0 (u32 (len p - (opt_ptr - buf p) - 1)) (opt_ptr + 1)
           else mkOption 0 (u32 (len p - (NULL - buf p))) NULL
       | inl _ => mkOption 0 0 NULL
       end.

Fixpoint by_num_loop (fuel : nat) (p : coap_pdu) (n occ : Z) (opt : coap_option) (i : Z) : run coap_option :=
  match fuel with
  | O => NoFuel
  | S fuel' =>
      let* opt := coap_get_option p (Some opt) in
      if num opt =? n then
        let i := u8 (i + 1) in if i <=? occ then by_num_loop fuel' p n occ opt i else Done opt
      else if n <? num opt then Done (mkOption 0 0 NULL)
      else if num opt =? 0 then Done opt
      else if i <=? occ then by_num_loop fuel' p n occ opt i else Done opt
  end.
Definition coap_get_option_by_num (fuel : nat) (p : coap_pdu) (n occ : Z) : run coap_option :=
  by_num_loop fuel p n occ (mkOption 0 0 NULL) 0.

Fixpoint payload_loop (fuel : nat) (p : coap_pdu) (offset : Z) : run coap_payload :=
  match fuel with
  | O => NoFuel
  | S fuel' =>
      let* r := coap_decode_option p (buf p + offset) (u32 (len p - offset)) in
      match r with
      | inl CE_FOUND_PAYLOAD_MARKER => Done (mkPayload (u32 (len p - offset - 1)) (buf p + offset + 1))
      | inl _ => Done (mkPayload 0 NULL)
      | inr (_, length, ptr) => payload_loop fuel' p (u32 (offset + (ptr - (buf p + offset)) + length))
      end
  end.
Definition coap_get_payload (p : coap_pdu) : run coap_payload :=
  let* tkl := coap_get_tkl p in payload_loop (S (length (mem p))) p (4 + tkl).

(** * Setters *)

(** The length grows to [n] when it is smaller. *)
Definition grow (n : Z) (p : coap_pdu) : coap_pdu := if len p <? n then p <| len := n |> else p.

Definition coap_set_version (p : coap_pdu) (ver : Z) : run (coap_error * coap_pdu) :=
  if max p <? 1 then Done (CE_INSUFFICIENT_BUFFER, p) else
  let* b := ld p (buf p) in
  let* p := st p (buf p) (Z.lor (Z.shiftl ver 6) (Z.land b 63)) in
  Done (CE_NONE, grow 1 p).

Definition coap_set_type (p : coap_pdu) (mtype : Z) : run (coap_error * coap_pdu) :=
  if max p <? 1 then Done (CE_INSUFFICIENT_BUFFER, p) else
  let* b := ld p (buf p) in
  let* p := st p (buf p) (Z.lor (Z.shiftl mtype 4) (Z.land b 0xCF)) in
  Done (CE_NONE, grow 1 p).

Definition coap_set_code (p : coap_pdu) (code : Z) : run (coap_error * coap_pdu) :=
  if max p <? 2 then Done (CE_INSUFFICIENT_BUFFER, p) else
  let* p := st p (buf p + 1) code in
  Done (CE_NONE, grow 2 p).

Definition coap_set_mid (p : coap_pdu) (mid : Z) : run (coap_error * coap_pdu) :=
  if max p <? 4 then Done (CE_INSUFFICIENT_BUFFER, p) else
  let* p := st p (buf p + 2) (Z.shiftr mid 8) in
  let* p := st p (buf p + 3) (Z.land mid 0xFF) in
  Done (CE_NONE, grow 4 p).

Definition coap_set_token (p : coap_pdu) (token tkl : Z) : run (coap_error * coap_pdu) :=
  if max p <? 4 + tkl then Done (CE_INSUFFICIENT_BUFFER, p) else
  if 8 <? tkl then Done (CE_INVALID_PACKET, p) else
  let* old := coap_get_tkl p in
  if (4 <? len p) && (max p <? u32 (len p + (tkl - old))) then Done (CE_INSUFFICIENT_BUFFER, p) else
  let* p := if 4 <? len p then memmove p (buf p + 4 + tkl) (buf p + 4 + old) (u32 (len p - 4 - old)) else Done p in
  let* p := stn p (buf p + 4) (le_bytes (Z.to_nat tkl) token) in
  let* old := coap_get_tkl p in
  let p := p <| len := u32 (len p + (tkl - old)) |> in
  let* b := ld p (buf p) in
  let* p := st p (buf p) (Z.lor (Z.land tkl 15) (Z.land b 0xF0)) in
  Done (CE_NONE, p).

Definition coap_init_pdu (p : coap_pdu) : run (coap_error * coap_pdu) :=
  if max p <? 4 then Done (CE_INSUFFICIENT_BUFFER, p) else
  let p := p <| len := 0 |> in
  let* p := stn p (buf p) [0; 0; 0; 0] in
  let* (_, p) := coap_set_version p COAP_V1 in
  let* (_, p) := coap_set_type p CT_RST in
  let* (_, p) := coap_set_token p 0 0 in
  let* (_, p) := coap_set_code p CC_EMPTY in
  let* (_, p) := coap_set_mid p 0 in
  Done (CE_NONE, p).

(** ** Option headers *)

Definition coap_compute_option_header_len (opt_delta opt_len : Z) : Z :=
  let len := 1 in
  let len := if opt_delta <? 13 then len else if opt_delta <? 269 then len + 1 else len + 2 in
  if opt_len <? 13 then len else if opt_len <? 269 then len + 1 else len + 2.

(** One half of a header: the nibble and the extension written at [ptr]; [None]
    when the room [max_len] does not suffice. *)
Definition build_extension (p : coap_pdu) (b max_len ptr v : Z) : run (option (Z * Z * coap_pdu)) :=
  if v <? 13 then Done (Some (v, ptr, p))
  else if v <? 269 then
    if max_len <? ptr - b + 1 then Done None else
    let* p := st p ptr (v - 13) in Done (Some (13, ptr + 1, p))
  else
    if max_len <? ptr - b + 2 then Done None else
    let* p := st p ptr (Z.shiftr (v - 269) 8) in
    let* p := st p (ptr + 1) (Z.land (v - 269) 0xFF) in
    Done (Some (14, ptr + 2, p)).

(** [None] is [CE_INSUFFICIENT_BUFFER]; bytes written before it stay. *)
Definition coap_build_option_header (p : coap_pdu) (b max_len opt_delta opt_len : Z) : run (option Z * coap_pdu) :=
  if max_len <? 1 then Done (None, p) else
  let ptr := b + 1 in
  let* r := build_extension p b max_len ptr opt_delta in
  match r with
  | None => Done (None, p)
  | Some (base_num, ptr, p) =>
      let* r := build_extension p b max_len ptr opt_len in
      match r with
      | None => Done (None, p)
      | Some (base_len, ptr, p) =>
          let* p := st p b (Z.lor (Z.shiftl (u8 base_num) 4) (u8 base_len)) in
          Done (Some (ptr - b), p)
      end
  end.

Fixpoint adjust_loop (fuel : nat) (p : coap_pdu) (opts_start opts_len max_len offset ptr fopt_num : Z) : run (coap_error * Z * coap_pdu) :=
  match fuel with
  | O => NoFuel
  | S fuel' =>
      if opts_len <? ptr - opts_start then Done (CE_NONE, opts_len, p) else
      let* r := coap_decode_option p ptr (u32 (opts_len - (ptr - opts_start))) in
      match r with
      | inl CE_FOUND_PAYLOAD_MARKER | inl CE_END_OF_PACKET => Done (CE_NONE, opts_len, p)
      | inl e => Done (e, opts_len, p)
      | inr (delta, fopt_len, fopt_val) =>
          let fopt_num := u16 (fopt_num + delta) in
          let nopt_num := u16 (fopt_num + offset) in
          let fhdr_len := fopt_val - ptr in
          let nhdr_len := coap_compute_option_header_len nopt_num fopt_len in
          if negb (fhdr_len =? nhdr_len) && (max_len <? u32 (opts_len + (nhdr_len - fhdr_len)))
          then Done (CE_INSUFFICIENT_BUFFER, opts_len, p) else
          let* p := if fhdr_len =? nhdr_len then Done p else memmove p (fopt_val + (nhdr_len - fhdr_len)) fopt_val fopt_len in
          let opts_len := if fhdr_len =? nhdr_len then opts_len else u32 (opts_len + (nhdr_len - fhdr_len)) in
          let* (_, p) := coap_build_option_header p ptr nhdr_len nopt_num fopt_len in
          adjust_loop fuel' p opts_start opts_len max_len offset (fopt_val + fopt_len) fopt_num
      end
  end.
Definition coap_adjust_option_deltas (p : coap_pdu) (opts_start opts_len max_len offset : Z) : run (coap_error * Z * coap_pdu) :=
  adjust_loop (S (length (mem p))) p opts_start opts_len max_len offset opts_start 0.

(** The search for the place of an option: error, place and number of the option before it. *)
Fixpoint find_place (fuel : nat) (p : coap_pdu) (opt_num pkt_ptr lopt_num : Z) : run (coap_error * Z * Z) :=
  match fuel with
  | O => NoFuel
  | S fuel' =>
      let* r := coap_decode_option p pkt_ptr (u32 (len p - (pkt_ptr - buf p))) in
      match r with
      | inl e => Done (e, pkt_ptr, lopt_num)
      | inr (delta, fopt_len, fopt_val) =>
          let fopt_num := u16 (lopt_num + delta) in
          if (fopt_num <=? opt_num) && (u32 (pkt_ptr - buf p + fopt_len) <? len p)
          then find_place fuel' p opt_num (fopt_val + fopt_len) fopt_num
          else Done (CE_NONE, pkt_ptr, lopt_num)
      end
  end.

Definition coap_add_option (p : coap_pdu) (opt_num : Z) (value : list Z) (opt_len : Z) : run (coap_error * coap_pdu) :=
  let* tkl := coap_get_tkl p in
  let* (err, pkt_ptr, lopt_num) := find_place (S (length (mem p))) p opt_num (buf p + 4 + tkl) 0 in
  if negb (bool_decide (err = CE_FOUND_PAYLOAD_MARKER)) && negb (bool_decide (err = CE_END_OF_PACKET)) && negb (bool_decide (err = CE_NONE))
  then Done (err, p) else
  let nopt_hdr_len := coap_compute_option_header_len (opt_num - lopt_num) opt_len in
  if max p <? u32 (len p + nopt_hdr_len + opt_len) then Done (CE_INSUFFICIENT_BUFFER, p) else
  let* p :=
    if negb (len p =? pkt_ptr - buf p) then
      let* p := memmove p (pkt_ptr + nopt_hdr_len + opt_len) pkt_ptr (u32 (len p - (pkt_ptr - buf p))) in
      let p := p <| len := u32 (len p + (nopt_hdr_len + opt_len)) |> in
      let opts_len := u32 (len p - (pkt_ptr - buf p)) in
      let* (_, opts_len, p) :=
        coap_adjust_option_deltas p (pkt_ptr + nopt_hdr_len + opt_len) opts_len (u32 (max p - (pkt_ptr - buf p))) (lopt_num - opt_num) in
      Done (p <| len := u32 (len p + (opts_len - (len p - (pkt_ptr - buf p)))) |>)
    else Done (p <| len := u32 (len p + nopt_hdr_len + opt_len) |>) in
  let* (_, p) := coap_build_option_header p pkt_ptr nopt_hdr_len (opt_num - lopt_num) opt_len in
  let* x := rdn value 0 opt_len in
  let* p := stn p (pkt_ptr + nopt_hdr_len) x in
  Done (CE_NONE, p).

(** The search for the end of the options. *)
Fixpoint find_end (fuel : nat) (p : coap_pdu) (pkt_ptr : Z) : run (coap_error * Z) :=
  match fuel with
  | O => NoFuel
  | S fuel' =>
      let* r := coap_decode_option p pkt_ptr (u32 (len p - (pkt_ptr - buf p))) in
      match r with
      | inl e => Done (e, pkt_ptr)
      | inr (_, fopt_len, fopt_val) =>
          if u32 (pkt_ptr - buf p + fopt_len) <? len p then find_end fuel' p (fopt_val + fopt_len)
          else Done (CE_NONE, pkt_ptr)
      end
  end.

Definition coap_set_payload (p : coap_pdu) (payload : list Z) (payload_len : Z) : run (coap_error * coap_pdu) :=
  let* tkl := coap_get_tkl p in
  let* (err, pkt_ptr) := find_end (S (length (mem p))) p (buf p + 4 + tkl) in
  match err with
  | CE_END_OF_PACKET =>
      if max p <? u32 (len p + payload_len + 1) then Done (CE_INSUFFICIENT_BUFFER, p) else
      let* p := st p pkt_ptr 0xFF in
      let pkt_ptr := pkt_ptr + 1 in
      let p := p <| len := u32 (pkt_ptr - buf p + payload_len) |> in
      let* x := rdn payload 0 payload_len in
      let* p := stn p pkt_ptr x in Done (CE_NONE, p)
  | CE_FOUND_PAYLOAD_MARKER | CE_NONE =>
      if bool_decide (err = CE_FOUND_PAYLOAD_MARKER) && (max p <? u32 (len p + payload_len)) then Done (CE_INSUFFICIENT_BUFFER, p) else
      let p := p <| len := u32 (pkt_ptr - buf p + payload_len) |> in
      let* x := rdn payload 0 payload_len in
      let* p := stn p pkt_ptr x in Done (CE_NONE, p)
  | e => Done (e, p)
  end.

(** * The wire format (RFC 7252, section 3) *)

Definition nibble (v : Z) : Z := if v <? 13 then v else if v <? 269 then 13 else 14.
Definition extension (v : Z) : list Z :=
  if v <? 13 then [] else if v <? 269 then [v - 13] else [(v - 269) / 256; (v - 269) mod 256].
Definition option_header (delta l : Z) : list Z := (nibble delta * 16 + nibble l) :: extension delta ++ extension l.

Abbreviation opts := (list (Z * list Z)).

(** Options by number and value, with the numbers as differences. *)
Fixpoint encode_options (prev : Z) (os : opts) : list Z :=
  match os with
  | [] => []
  | (n, v) :: os => (option_header (n - prev) (zlen v) ++ v) ++ encode_options n os
  end.

Record message := mkMessage {
  m_type : Z;
  m_code : Z;
  m_mid : Z;
  m_token : list Z;
  m_options : opts;
  m_payload : list Z;
}.

(** The header: version 1, type and token length in the first byte. *)
Definition head (t code mid : Z) (token : list Z) : list Z := [64 + t * 16 + zlen token; code; mid / 256; mid mod 256] ++ token.

Definition encode_payload (pl : list Z) : list Z := match pl with [] => [] | _ => 255 :: pl end.
Definition encode (m : message) : list Z :=
  head (m_type m) (m_code m) (m_mid m) (m_token m) ++ encode_options 0 (m_options m) ++ encode_payload (m_payload m).

(** Numbers that do not decrease and fit their fields. *)
Fixpoint options_ok (prev : Z) (os : opts) : Prop :=
  match os with
  | [] => True
  | (n, v) :: os => prev <= n < 65536 /\ bytes v /\ zlen v < 65536 /\ options_ok n os
  end.
Fixpoint last_num (prev : Z) (os : opts) : Z :=
  match os with [] => prev | (n, _) :: os => last_num n os end.

Lemma last_num_ge prev os : options_ok prev os -> 0 <= prev < 65536 -> prev <= last_num prev os < 65536.
Proof. revert prev. induction os as [|[n v] os IH]; intros prev; cbn [options_ok last_num]; [lia|]. intros (H1 & _ & _ & H2) H0. specialize (IH n H2). lia. Qed.

Lemma encode_options_app os prev n v : encode_options prev (os ++ [(n, v)]) = encode_options prev os ++ option_header (n - last_num prev os) (zlen v) ++ v.
Proof. revert prev. induction os as [|[k w] os IH]; intros prev; cbn [app encode_options last_num]; [by rewrite app_nil_r|]. by rewrite IH, <- !app_assoc. Qed.

Lemma extension_length v : length (extension v) = if v <? 13 then 0%nat else if v <? 269 then 1%nat else 2%nat.
Proof. unfold extension. by repeat case_match. Qed.

Lemma option_header_length d l : zlen (option_header d l) = coap_compute_option_header_len d l.
Proof.
  unfold option_header, coap_compute_option_header_len. cbn [length]. rewrite length_app, !extension_length. by repeat case_match.
Qed.

Lemma encode_options_length os prev : (length os <= length (encode_options prev os))%nat.
Proof. revert prev. induction os as [|[n v] os IH]; intros prev; cbn [encode_options length option_header app]; [done|]. rewrite length_app. specialize (IH n). lia. Qed.

(** * Reading memory *)

(** The bytes [l] are at address [a]. *)
Definition here (p : coap_pdu) (a : Z) (l : list Z) : Prop :=
  0 <= a - buf p /\ a - buf p + zlen l <= zlen (mem p) /\ take (length l) (drop (Z.to_nat (a - buf p)) (mem p)) = l.

Lemma here_app p a l1 l2 : here p a (l1 ++ l2) <-> here p a l1 /\ here p (a + zlen l1) l2.
Proof.
  unfold here. rewrite length_app, take_add_drop. split.
  - intros (H0 & HL & H). apply app_inj_1 in H as [H1 H2]; [|rewrite length_take, length_drop; lia]. split; [by split_and!; try lia|].
    split; [lia|]. split; [lia|]. rewrite <- H2 at 2. do 2 f_equal. lia.
  - intros [(H0 & _ & H1) (_ & HL & H2)]. split; [done|]. split; [lia|]. rewrite H1. f_equal. rewrite <- H2 at 2. do 2 f_equal; lia.
Qed.

Lemma ldn_here p a l : here p a l -> ldn p a (zlen l) = Done l.
Proof. intros (H0 & HL & H). unfold ldn. rewrite rdn_ok by lia. by rewrite Nat2Z.id, H. Qed.

Lemma ld_here p a x l : here p a (x :: l) -> ld p a = Done x.
Proof.
  intros (H0 & HL & H). unfold ld. destruct (rd_ok (mem p) (a - buf p)) as (y & E & Hy); [cbn [length] in HL; lia|].
  rewrite E. f_equal. rewrite (drop_S _ y) in H by done. cbn [length take] in H. congruence.
Qed.

Lemma here_cons p a x l : here p a (x :: l) -> here p (a + 1) l.
Proof. intros H. by apply (here_app p a [x] l). Qed.

Lemma here_starts p l : here p (buf p) l <-> starts (mem p) l /\ zlen l <= zlen (mem p).
Proof. unfold here, starts. rewrite Z.sub_diag. change (Z.to_nat 0) with 0%nat. rewrite drop_0. intuition lia. Qed.

(** ** Options *)

Lemma coap_nibble_range v : 0 <= v -> 0 <= nibble v < 15.
Proof. intros. unfold nibble. zcases; lia. Qed.

Lemma extended_spec p a v l : 0 <= v < 65536 -> here p a (extension v ++ l) ->
  extended p (nibble v) a = Done (Some (v, a + zlen (extension v))).
Proof.
  intros Hv H. unfold extended, nibble, extension in *. destruct (Z.ltb_spec v 13) as [H1|H1]; [|destruct (Z.ltb_spec v 269) as [H2|H2]].
  - rewrite (proj2 (Z.ltb_lt v 13)) by done. by rewrite Z.add_0_r.
  - rewrite (ld_here _ _ _ _ H). cbn. do 3 f_equal. machine.
  - cbn [Z.ltb Z.compare Pos.compare Pos.compare_cont Z.eqb Pos.eqb]. rewrite (ld_here _ _ _ _ H). apply here_cons in H.
    rewrite (ld_here _ _ _ _ H). cbn [rbind length]. do 3 f_equal. rewrite Z.shiftl_mul_pow2 by lia. change (2 ^ 8) with 256. machine.
Qed.

Lemma decode_option_spec p a n d l r : 0 <= d < 65536 -> 0 <= l < 65536 -> n <> 0 -> here p a (option_header d l ++ r) ->
  coap_decode_option p a n = Done (inr (d, l, a + zlen (option_header d l))).
Proof.
  intros Hd Hl Hn H. unfold coap_decode_option. rewrite (proj2 (Z.eqb_neq n 0)) by done. unfold option_header in *.
  rewrite (ld_here _ _ _ _ H). cbn [rbind]. pose proof (coap_nibble_range d). pose proof (coap_nibble_range l).
  rewrite (proj2 (Z.eqb_neq _ 255)) by lia.
  assert (H' : here p (a + 1) (extension d ++ extension l ++ r)) by (rewrite app_assoc; exact (here_cons _ _ _ _ H)). clear H. rename H' into H.
  replace (Z.shiftr (nibble d * 16 + nibble l) 4) with (nibble d) by (rewrite Z.shiftr_div_pow2 by lia; change (2 ^ 4) with 16; lia).
  replace (Z.land (nibble d * 16 + nibble l) 15) with (nibble l) by (change 15 with (Z.ones 4); rewrite Z.land_ones by lia; change (2 ^ 4) with 16; lia).
  rewrite (extended_spec _ _ _ _ Hd H). cbn [rbind]. apply here_app in H as [_ H].
  rewrite (extended_spec _ _ _ _ Hl H). cbn [rbind length]. do 3 f_equal. rewrite length_app. lia.
Qed.

Lemma decode_end p a : coap_decode_option p a 0 = Done (inl CE_END_OF_PACKET).
Proof. done. Qed.

Lemma decode_marker p a n l : n <> 0 -> here p a (255 :: l) -> coap_decode_option p a n = Done (inl CE_FOUND_PAYLOAD_MARKER).
Proof. intros Hn H. unfold coap_decode_option. rewrite (proj2 (Z.eqb_neq n 0)) by done. by rewrite (ld_here _ _ _ _ H). Qed.

(** The options [os] are at [a] and the message goes on with [tail]. *)
Record at_options (p : coap_pdu) (a prev : Z) (os : opts) (tail : list Z) : Prop := mkAt {
  ao_here : here p a (encode_options prev os ++ tail);
  ao_len : a - buf p + zlen (encode_options prev os) + zlen tail = len p;
  ao_ok : options_ok prev os;
  ao_prev : 0 <= prev < 65536;
  ao_small : len p < 4294967296;
}.

Lemma at_options_next p a prev n v os tail : at_options p a prev ((n, v) :: os) tail ->
  let a' := a + zlen (option_header (n - prev) (zlen v)) in
  coap_decode_option p a (u32 (len p - (a - buf p))) = Done (inr (n - prev, zlen v, a')) /\ u16 (prev + (n - prev)) = n /\
  u32 (a - buf p + zlen v) < len p /\ here p a' v /\ at_options p (a' + zlen v) n os tail.
Proof.
  intros [H HL (Hn & Hb & Hv & Ho) Hp Hs] a'. cbn [encode_options] in H, HL. rewrite !length_app in HL. rewrite <- !app_assoc in H.
  assert (Hh : 1 <= zlen (option_header (n - prev) (zlen v))) by (cbn [option_header length]; lia). pose proof (proj1 H) as H0.
  assert (Hw : a - buf p < len p) by lia. split.
  { eapply decode_option_spec; [lia|lia| |exact H]. machine. }
  split; [machine|]. split; [machine|]. apply here_app in H as [_ H]. apply here_app in H as [H1 H2]. split; [exact H1|].
  split; [exact H2|unfold a'; lia|exact Ho|lia|exact Hs].
Qed.

Lemma at_options_fuel p a prev os tail : at_options p a prev os tail -> (length os < S (length (mem p)))%nat.
Proof. intros [(H0 & HL & _) _ _ _ _]. rewrite length_app in HL. pose proof (encode_options_length os prev). lia. Qed.

Lemma find_place_spec p opt_num os : forall fuel a prev, at_options p a prev os [] -> last_num prev os <= opt_num -> (length os < fuel)%nat ->
  find_place fuel p opt_num a prev = Done (CE_END_OF_PACKET, buf p + len p, last_num prev os).
Proof.
  induction os as [|[n v] os IH]; intros fuel a prev H Hl Hf; (destruct fuel as [|fuel]; [simpl in Hf; lia|]); cbn [find_place].
  - destruct H as [_ HL _ _ _]. cbn in HL. replace (buf p + len p) with a by lia. by replace (len p - (a - buf p)) with 0 by lia.
  - destruct (at_options_next _ _ _ _ _ _ _ H) as (-> & E & Hlt & _ & Hn). cbn [rbind]. rewrite E.
    cbn [last_num] in *. pose proof (last_num_ge n os (ao_ok _ _ _ _ _ Hn) (ao_prev _ _ _ _ _ Hn)).
    rewrite (proj2 (Z.leb_le _ _)), (proj2 (Z.ltb_lt _ _)) by lia. cbn [andb]. apply IH; [exact Hn|lia|cbn [length] in Hf; lia].
Qed.

Lemma find_end_spec p os : forall fuel a prev, at_options p a prev os [] -> (length os < fuel)%nat ->
  find_end fuel p a = Done (CE_END_OF_PACKET, buf p + len p).
Proof.
  induction os as [|[n v] os IH]; intros fuel a prev H Hf; (destruct fuel as [|fuel]; [simpl in Hf; lia|]); cbn [find_end].
  - destruct H as [_ HL _ _ _]. cbn in HL. replace (buf p + len p) with a by lia. by replace (len p - (a - buf p)) with 0 by lia.
  - destruct (at_options_next _ _ _ _ _ _ _ H) as (-> & E & Hlt & _ & Hn). cbn [rbind].
    rewrite (proj2 (Z.ltb_lt _ _)) by lia. eapply IH; [exact Hn|cbn [length] in Hf; lia].
Qed.

(** * Writing memory *)

Lemma splice_nil {A} (l : list A) i : splice l i [] = l.
Proof. unfold splice. cbn [length app]. by rewrite Nat.add_0_r, take_drop. Qed.

Lemma splice_before {A} (m : list A) i x l : (S i + length l <= length m)%nat -> splice (splice m (S i) l) i [x] = splice m i (x :: l).
Proof.
  intros H. unfold splice. cbn [length app]. rewrite take_app_le by (rewrite length_take; lia). rewrite take_take, Nat.min_l by lia. f_equal. f_equal.
  rewrite drop_app_ge by (rewrite length_take; lia). rewrite length_take, Nat.min_l by lia.
  replace (i + 1 - S i)%nat with 0%nat by lia. rewrite drop_0. do 2 f_equal. lia.
Qed.

(** The message with the bytes [x] at address [a]. *)
Definition poke (p : coap_pdu) (a : Z) (x : list Z) : coap_pdu := p <| mem := splice (mem p) (Z.to_nat (a - buf p)) x |>.
Definition room (p : coap_pdu) (a n : Z) : Prop := 0 <= a - buf p /\ a - buf p + n <= zlen (mem p).

Lemma stn_ok p a x : room p a (zlen x) -> stn p a x = Done (poke p a x).
Proof. intros [H1 H2]. unfold stn. by rewrite wrn_ok by lia. Qed.

Lemma st_ok p a x : room p a 1 -> is_u8 x -> st p a x = Done (poke p a [x]).
Proof. intros H Hx. unfold st. rewrite u8_id by done. by apply stn_ok. Qed.

Lemma poke_nil p a : poke p a [] = p.
Proof. unfold poke. rewrite splice_nil. by destruct p. Qed.

Lemma poke_poke p a x y : 0 <= a - buf p -> room p a (zlen x + zlen y) -> poke (poke p a x) (a + zlen x) y = poke p a (x ++ y).
Proof.
  intros H [_ H2]. unfold poke. cbn [update mem buf]. rewrite <- splice_splice by lia.
  replace (Z.to_nat (a + zlen x - buf p)) with (Z.to_nat (a - buf p) + length x)%nat by lia. done.
Qed.

Lemma poke_before p a x l : room p a (1 + zlen l) -> poke (poke p (a + 1) l) a [x] = poke p a (x :: l).
Proof.
  intros [H1 H2]. unfold poke. cbn [update mem buf]. replace (Z.to_nat (a + 1 - buf p)) with (S (Z.to_nat (a - buf p))) by lia.
  by rewrite splice_before by lia.
Qed.

Lemma room_poke p a x b n : room p a (zlen x) -> room (poke p a x) b n <-> room p b n.
Proof. intros [H1 H2]. unfold room, poke. cbn [update mem buf]. by rewrite splice_length by lia. Qed.

Lemma build_extension_spec p b max_len ptr v : 0 <= v < 65536 -> room p ptr (zlen (extension v)) -> ptr - b + zlen (extension v) <= max_len ->
  build_extension p b max_len ptr v = Done (Some (nibble v, ptr + zlen (extension v), poke p ptr (extension v))).
Proof.
  intros Hv Hr Hm. unfold build_extension, nibble, extension in *. destruct (Z.ltb_spec v 13) as [H1|H1]; [|destruct (Z.ltb_spec v 269) as [H2|H2]].
  - by rewrite poke_nil, Z.add_0_r.
  - cbn [length] in *. rewrite (proj2 (Z.ltb_ge _ _)) by lia. rewrite st_ok by (done || machine). done.
  - cbn [length] in *. rewrite (proj2 (Z.ltb_ge _ _)) by lia. rewrite Z.shiftr_div_pow2 by lia. change (2 ^ 8) with 256.
    change 0xFF with (Z.ones 8). rewrite Z.land_ones by lia. change (2 ^ 8) with 256. unfold room in Hr.
    rewrite st_ok by (unfold room; machine). cbn [rbind].
    rewrite st_ok; [|rewrite room_poke by (unfold room; cbn [length]; lia); unfold room; lia|machine]. cbn [rbind].
    rewrite (poke_poke p ptr [_] [_]) by (unfold room; cbn [length]; lia). done.
Qed.

Lemma build_header_spec p b d l : 0 <= d < 65536 -> 0 <= l < 65536 -> room p b (zlen (option_header d l)) ->
  coap_build_option_header p b (coap_compute_option_header_len d l) d l =
  Done (Some (zlen (option_header d l)), poke p b (option_header d l)).
Proof.
  intros Hd Hl Hr. rewrite <- option_header_length. unfold coap_build_option_header, option_header in *. cbn [length] in *. rewrite length_app in *.
  rewrite (proj2 (Z.ltb_ge _ 1)) by lia. pose proof (coap_nibble_range d). pose proof (coap_nibble_range l). unfold room in Hr.
  rewrite build_extension_spec by (unfold room; lia). cbn [rbind].
  rewrite build_extension_spec; [|lia|rewrite room_poke; unfold room; lia|lia]. cbn [rbind].
  rewrite poke_poke by (unfold room; lia). rewrite (u8_id (nibble d)), (u8_id (nibble l)) by machine.
  rewrite lor_shiftl_add by (change (2 ^ 4) with 16; lia). change (2 ^ 4) with 16.
  rewrite st_ok; [|rewrite room_poke; unfold room; rewrite ?length_app; lia|machine]. cbn [rbind].
  rewrite poke_before by (unfold room; rewrite length_app; lia). do 3 f_equal. lia.
Qed.

(** ** Appending *)

Lemma poke_here p a x : room p a (zlen x) -> here (poke p a x) a x.
Proof.
  intros [H1 H2]. unfold here, poke. cbn [update mem buf]. split; [done|]. rewrite splice_length by lia. split; [done|].
  unfold splice. rewrite drop_app_length' by (rewrite length_take; lia). apply take_app_length.
Qed.

(** The message consists of the bytes [l] so far. *)
Record holds (p : coap_pdu) (l : list Z) : Prop := mkHolds {
  ho_starts : starts (mem p) l;
  ho_len : len p = zlen l;
  ho_fits : zlen l <= zlen (mem p);
  ho_max : max p = zlen (mem p);
  ho_small : max p < 2147483648;
}.

Lemma holds_here p l : holds p l -> here p (buf p) l.
Proof. intros [H1 H2 H3 H4 H5]. by apply here_starts. Qed.

Lemma holds_append p l x : holds p l -> zlen l + zlen x <= max p -> holds ((poke p (buf p + len p) x) <| len := zlen (l ++ x) |>) (l ++ x).
Proof.
  intros [H1 H2 H3 H4 H5] Hx. unfold poke. replace (Z.to_nat (buf p + len p - buf p)) with (length l) by lia.
  split; cbn [update mem len max]; rewrite ?splice_length by lia; rewrite ?length_app; try lia. by apply starts_splice; [|lia].
Qed.

(** A message of a header [h] and options, ready for more options. *)
Lemma holds_options p h os tail : holds p (h ++ encode_options 0 os ++ tail) -> options_ok 0 os -> at_options p (buf p + zlen h) 0 os tail.
Proof.
  intros H Ho. pose proof (holds_here _ _ H) as Hh. apply here_app in Hh as [_ Hh]. destruct H as [_ H2 H3 H4 H5]. rewrite !length_app in *.
  split; try done; lia.
Qed.

Definition head_ok (t code mid : Z) (token : list Z) : Prop :=
  0 <= t < 4 /\ is_u8 code /\ is_u16 mid /\ bytes token /\ (length token <= 8)%nat.

Lemma get_tkl_spec p t code mid token r : here p (buf p) (head t code mid token ++ r) -> head_ok t code mid token -> coap_get_tkl p = Done (zlen token).
Proof.
  intros H (Ht & _ & _ & _ & Hl). unfold coap_get_tkl. rewrite (ld_here _ _ _ _ H). cbn [rbind]. f_equal.
  change 15 with (Z.ones 4). rewrite Z.land_ones by lia. change (2 ^ 4) with 16. lia.
Qed.

Lemma head_length t code mid token : length (head t code mid token) = (4 + length token)%nat.
Proof. unfold head. by rewrite length_app. Qed.
Lemma head_zlen t code mid token : zlen (head t code mid token) = 4 + zlen token.
Proof. rewrite head_length. lia. Qed.

(** An option with a number not below the last one is appended, or refused when there is no room. *)
Lemma add_option_spec p t code mid token os n v : head_ok t code mid token -> holds p (head t code mid token ++ encode_options 0 os) ->
  options_ok 0 (os ++ [(n, v)]) ->
  let l := head t code mid token ++ encode_options 0 (os ++ [(n, v)]) in
  if zlen l <=? max p then exists p', coap_add_option p n v (zlen v) = Done (CE_NONE, p') /\ holds p' l /\ buf p' = buf p /\ max p' = max p
  else coap_add_option p n v (zlen v) = Done (CE_INSUFFICIENT_BUFFER, p).
Proof.
  intros Hh H Ho l. assert (Hos : options_ok 0 os /\ last_num 0 os <= n < 65536 /\ zlen v < 65536).
  { clear - Ho. revert Ho. generalize 0. induction os as [|[k w] os IH]; intros z; cbn [app options_ok last_num]; [tauto|].
    intros (H1 & H2 & H3 & H4). destruct (IH k H4). tauto. }
  destruct Hos as (Hos & Hn & Hv). pose proof (last_num_ge 0 os Hos ltac:(lia)) as Hge.
  assert (Hat : at_options p (buf p + 4 + zlen token) 0 os []).
  { rewrite <- Z.add_assoc, <- (head_zlen t code mid). apply holds_options; [by rewrite app_nil_r|done]. }
  unfold coap_add_option. rewrite (get_tkl_spec p t code mid token (encode_options 0 os)) by (done || by apply holds_here). cbn [rbind].
  rewrite (find_place_spec p n os _ _ _ Hat) by (lia || by eapply at_options_fuel). cbn [rbind]. rewrite bool_decide_false by done.
  rewrite bool_decide_true by done. cbn [negb andb]. set (d := n - last_num 0 os). set (hdr := option_header d (zlen v)).
  assert (El : l = (head t code mid token ++ encode_options 0 os) ++ hdr ++ v) by (unfold l, hdr, d; by rewrite encode_options_app, !app_assoc).
  rewrite <- (option_header_length d (zlen v)). fold hdr. destruct H as [H1 H2 H3 H4 H5].
  assert (Hhd : zlen hdr <= 5). { unfold hdr, option_header. cbn [length]. rewrite length_app, !extension_length. repeat case_match; lia. }
  assert (Hll : zlen l = len p + zlen hdr + zlen v) by (rewrite El, !length_app in *; lia).
  replace (u32 (len p + zlen hdr + zlen v)) with (zlen l) by machine. rewrite (Z.ltb_antisym (zlen l) (max p)).
  destruct (Z.leb_spec (zlen l) (max p)) as [Hfit|Hno]; cbn [negb]; [|done].
  replace (buf p + len p - buf p) with (len p) by lia. rewrite Z.eqb_refl. cbn [negb rbind].
  set (p1 := p <| len := zlen l |>). change (buf p1) with (buf p). unfold hdr at 1. rewrite (option_header_length d (zlen v)).
  rewrite (build_header_spec p1) by (unfold room, d; cbn [p1 update buf mem]; fold d; fold hdr; lia). cbn [rbind]. fold hdr.
  rewrite rdn_ok by lia. cbn [rbind]. change (Z.to_nat 0) with 0%nat. rewrite drop_0, Nat2Z.id, take_ge by lia.
  rewrite stn_ok by (rewrite room_poke by (unfold room; cbn [p1 update buf mem]; lia); unfold room; cbn [p1 update buf mem]; lia). cbn [rbind].
  rewrite poke_poke by (unfold room; cbn [p1 update buf mem]; lia). eexists. split; [reflexivity|]. split; [|done].
  rewrite El. pose proof (holds_append p (head t code mid token ++ encode_options 0 os) (hdr ++ v)) as Ha. rewrite <- El in Ha. rewrite <- El.
  apply Ha; [by split|]. rewrite El, !length_app in *. lia.
Qed.

Lemma set_payload_spec p t code mid token os pl : head_ok t code mid token -> holds p (head t code mid token ++ encode_options 0 os) ->
  options_ok 0 os -> zlen pl < 2147483648 ->
  let l := (head t code mid token ++ encode_options 0 os) ++ 255 :: pl in
  if zlen l <=? max p then exists p', coap_set_payload p pl (zlen pl) = Done (CE_NONE, p') /\ holds p' l /\ buf p' = buf p /\ max p' = max p
  else coap_set_payload p pl (zlen pl) = Done (CE_INSUFFICIENT_BUFFER, p).
Proof.
  intros Hh H Ho Hpl l.
  assert (Hat : at_options p (buf p + 4 + zlen token) 0 os []).
  { rewrite <- Z.add_assoc, <- (head_zlen t code mid). apply holds_options; [by rewrite app_nil_r|done]. }
  unfold coap_set_payload. rewrite (get_tkl_spec p t code mid token (encode_options 0 os)) by (done || by apply holds_here). cbn [rbind].
  rewrite (find_end_spec p os _ _ _ Hat) by (lia || by eapply at_options_fuel). cbn [rbind].
  pose proof H as [H1 H2 H3 H4 H5].
  assert (Hll : zlen l = len p + zlen pl + 1) by (unfold l; rewrite length_app; cbn [length]; lia).
  replace (u32 (len p + zlen pl + 1)) with (zlen l) by machine. rewrite (Z.ltb_antisym (zlen l) (max p)).
  destruct (Z.leb_spec (zlen l) (max p)) as [Hfit|Hno]; cbn [negb]; [|done].
  rewrite st_ok by (unfold room; machine). cbn [rbind]. rewrite rdn_ok by lia. cbn [rbind].
  change (Z.to_nat 0) with 0%nat. rewrite drop_0, Nat2Z.id, take_ge by lia.
  set (p1 := (poke p (buf p + len p) [255]) <| len := _ |>).
  rewrite stn_ok by (unfold room, p1, poke; cbn [update buf mem]; rewrite splice_length by (cbn [length]; lia); lia). cbn [rbind].
  eexists. split; [reflexivity|]. split; [|done].
  replace (poke p1 (buf p + len p + 1) pl) with ((poke p (buf p + len p) (255 :: pl)) <| len := zlen l |>); [apply holds_append; [done|]|].
  - rewrite H2 in *. cbn [length]. lia.
  - change (255 :: pl) with ([255] ++ pl). rewrite <- (poke_poke p (buf p + len p) [255] pl) by (unfold room; cbn [length]; lia).
    unfold p1. replace (u32 _) with (zlen l) by (cbn [poke update buf]; machine). done.
Qed.

(** * Header fields *)

(** The bytes [l] are at the start and the length is [n]. *)
Record view (b mx : Z) (p : coap_pdu) (l : list Z) (n : Z) : Prop := mkView {
  vw_starts : starts (mem p) l;
  vw_len : len p = n;
  vw_fits : zlen l <= zlen (mem p);
  vw_max : max p = zlen (mem p) /\ max p < 2147483648;
  vw_same : buf p = b /\ max p = mx;
}.

Lemma view_holds b mx p l : view b mx p l (zlen l) -> holds p l.
Proof. intros [H1 H2 H3 [H4 H5] _]. by split. Qed.

Lemma view_here b mx p l n : view b mx p l n -> here p (buf p) l.
Proof. intros [H1 _ H3 _ _]. by apply here_starts. Qed.

(** Overwriting the byte after [l1]. *)
Lemma view_over b mx p l1 v l2 n v' i : i = zlen l1 -> view b mx p (l1 ++ v :: l2) n -> is_u8 v' ->
  exists p', st p (buf p + i) v' = Done p' /\ view b mx p' (l1 ++ v' :: l2) n.
Proof.
  intros -> [H1 H2 H3 [H4 H5] [H6 H7]] Hv. rewrite length_app in H3. cbn [length] in H3. eexists. split; [apply st_ok; [unfold room; lia|done]|].
  unfold poke. replace (Z.to_nat (buf p + zlen l1 - buf p)) with (length l1) by lia.
  split; cbn [update mem len max buf]; rewrite ?splice_length by (cbn [length]; lia); rewrite ?length_app; cbn [length]; try done.
  by eapply starts_over.
Qed.

Lemma view_grow b mx p l n k : view b mx p l n -> view b mx (grow k p) l (Z.max n k).
Proof.
  intros [H1 H2 H3 H4 H5]. unfold grow. destruct (Z.ltb_spec (len p) k); split; cbn [update mem len max buf]; try done; lia.
Qed.

Lemma view_ld b mx p l1 v l2 n : view b mx p (l1 ++ v :: l2) n -> ld p (buf p + zlen l1) = Done v.
Proof. intros H%view_here. apply here_app in H as [_ H]. by eapply ld_here. Qed.

Section Header.
Context (b mx : Z).
Implicit Types (p : coap_pdu) (r : list Z).

Lemma set_version_spec p b0 r n v : view b mx p (b0 :: r) n -> 1 <= mx -> is_u8 (Z.lor (Z.shiftl v 6) (Z.land b0 63)) ->
  exists p', coap_set_version p v = Done (CE_NONE, p') /\ view b mx p' (Z.lor (Z.shiftl v 6) (Z.land b0 63) :: r) (Z.max n 1).
Proof.
  intros H Hm Hb. unfold coap_set_version. rewrite (proj2 (vw_same _ _ _ _ _ H)), (proj2 (Z.ltb_ge mx 1)) by done.
  pose proof (view_ld b mx p [] b0 r n H) as E. rewrite Z.add_0_r in E. rewrite E. cbn [rbind].
  destruct (view_over b mx p [] b0 r n _ 0 eq_refl H Hb) as (p' & E' & H'). rewrite Z.add_0_r in E'. rewrite E'. eexists. split; [reflexivity|]. by apply view_grow.
Qed.

Lemma set_type_spec p b0 r n v : view b mx p (b0 :: r) n -> 1 <= mx -> is_u8 (Z.lor (Z.shiftl v 4) (Z.land b0 0xCF)) ->
  exists p', coap_set_type p v = Done (CE_NONE, p') /\ view b mx p' (Z.lor (Z.shiftl v 4) (Z.land b0 0xCF) :: r) (Z.max n 1).
Proof.
  intros H Hm Hb. unfold coap_set_type. rewrite (proj2 (vw_same _ _ _ _ _ H)), (proj2 (Z.ltb_ge mx 1)) by done.
  pose proof (view_ld b mx p [] b0 r n H) as E. rewrite Z.add_0_r in E. rewrite E. cbn [rbind].
  destruct (view_over b mx p [] b0 r n _ 0 eq_refl H Hb) as (p' & E' & H'). rewrite Z.add_0_r in E'. rewrite E'. eexists. split; [reflexivity|]. by apply view_grow.
Qed.

Lemma set_code_spec p b0 b1 r n c : view b mx p (b0 :: b1 :: r) n -> 2 <= mx -> is_u8 c ->
  exists p', coap_set_code p c = Done (CE_NONE, p') /\ view b mx p' (b0 :: c :: r) (Z.max n 2).
Proof.
  intros H Hm Hc. unfold coap_set_code. rewrite (proj2 (vw_same _ _ _ _ _ H)), (proj2 (Z.ltb_ge mx 2)) by done.
  destruct (view_over b mx p [b0] b1 r n c 1 eq_refl H Hc) as (p' & E' & H'). rewrite E'. eexists. split; [reflexivity|].
  by apply (view_grow _ _ _ ([b0] ++ c :: r)).
Qed.

Lemma set_mid_spec p b0 b1 b2 b3 r n m : view b mx p (b0 :: b1 :: b2 :: b3 :: r) n -> 4 <= mx -> is_u16 m ->
  exists p', coap_set_mid p m = Done (CE_NONE, p') /\ view b mx p' (b0 :: b1 :: m / 256 :: m mod 256 :: r) (Z.max n 4).
Proof.
  intros H Hm Hi. unfold coap_set_mid. rewrite (proj2 (vw_same _ _ _ _ _ H)), (proj2 (Z.ltb_ge mx 4)) by done.
  rewrite Z.shiftr_div_pow2 by lia. change 0xFF with (Z.ones 8). rewrite Z.land_ones by lia. change (2 ^ 8) with 256.
  destruct (view_over b mx p [b0; b1] b2 (b3 :: r) n (m / 256) 2 eq_refl H) as (p1 & E1 & H1); [machine|]. rewrite E1. cbn [rbind].
  destruct (view_over b mx p1 [b0; b1; m / 256] b3 r n (m mod 256) 3 eq_refl H1) as (p2 & E2 & H2); [machine|]. rewrite E2.
  eexists. split; [reflexivity|]. by apply (view_grow _ _ _ ([b0; b1; m / 256] ++ m mod 256 :: r)).
Qed.

Lemma get_tkl_view p b0 r n : view b mx p (b0 :: r) n -> coap_get_tkl p = Done (Z.land b0 15).
Proof. intros H. pose proof (view_ld b mx p [] b0 r n H) as E. rewrite Z.add_0_r in E. unfold coap_get_tkl. by rewrite E. Qed.

(** The token of a message that has none and no options yet. *)
Lemma set_token_spec p b0 b1 b2 b3 n tok : view b mx p [b0; b1; b2; b3] n -> is_u8 b0 -> Z.land b0 15 = 0 -> 0 <= n <= 4 ->
  bytes tok -> (length tok <= 8)%nat -> 4 + zlen tok <= mx ->
  exists p', coap_set_token p (le_val tok) (zlen tok) = Done (CE_NONE, p') /\
    view b mx p' (b0 + zlen tok :: b1 :: b2 :: b3 :: tok) (n + zlen tok).
Proof.
  intros H Hb0 Ht Hn Hb Hl Hm. unfold coap_set_token. rewrite (proj2 (vw_same _ _ _ _ _ H)), (proj2 (Z.ltb_ge mx _)) by done.
  rewrite (proj2 (Z.ltb_ge 8 _)) by lia. rewrite (get_tkl_view _ _ _ _ H), Ht. cbn [rbind].
  rewrite (vw_len _ _ _ _ _ H), (proj2 (Z.ltb_ge 4 n)) by lia. cbn [andb rbind]. rewrite Nat2Z.id, le_bytes_val by done.
  pose proof H as [H1 H2 H3 [H4 H5] [H6 H7]]. rewrite stn_ok by (unfold room; lia). cbn [rbind].
  assert (Hv : view b mx (poke p (buf p + 4) tok) ([b0; b1; b2; b3] ++ tok) n).
  { unfold poke. replace (Z.to_nat (buf p + 4 - buf p)) with (length [b0; b1; b2; b3]) by (cbn [length]; lia).
    split; cbn [update mem len max buf]; rewrite ?splice_length by (cbn [length]; lia); try done; [by apply starts_splice; [|cbn [length]; lia]|cbn [app length]; lia]. }
  rewrite (get_tkl_view _ _ _ _ Hv), Ht. cbn [rbind]. set (p1 := (poke _ _ _) <| len := _ |>).
  assert (Hv1 : view b mx p1 ([b0; b1; b2; b3] ++ tok) (n + zlen tok)).
  { destruct Hv as [V1 V2 V3 V4 V5]. unfold p1. split; try done. cbn [update len]. rewrite V2. machine. }
  clearbody p1. pose proof (view_ld b mx p1 [] b0 _ _ Hv1) as E. rewrite Z.add_0_r in E. rewrite E. cbn [rbind].
  assert (El : Z.lor (Z.land (zlen tok) 15) (Z.land b0 0xF0) = b0 + zlen tok).
  { change 15 with (Z.ones 4). rewrite Z.land_ones by lia. change (2 ^ 4) with 16. rewrite Z.mod_small by lia.
    replace (Z.land b0 0xF0) with (Z.shiftl (b0 / 16) 4) by (apply Z.eqb_eq; clear - Hb0; revert b0 Hb0; apply forall_u8; vm_compute; reflexivity).
    rewrite lor_comm_shiftl_add by (change (2 ^ 4) with 16; lia). change (2 ^ 4) with 16.
    change 15 with (Z.ones 4) in Ht. rewrite Z.land_ones in Ht by lia. change (2 ^ 4) with 16 in Ht. lia. }
  rewrite El. destruct (view_over b mx p1 [] b0 (b1 :: b2 :: b3 :: tok) (n + zlen tok) (b0 + zlen tok) 0 eq_refl Hv1) as (p2 & E2 & H8).
  { change 15 with (Z.ones 4) in Ht. rewrite Z.land_ones in Ht by lia. change (2 ^ 4) with 16 in Ht. machine. }
  rewrite Z.add_0_r in E2. rewrite E2. by eexists.
Qed.

Lemma init_spec p : buf p = b -> max p = mx -> zlen (mem p) = mx -> 4 <= mx < 2147483648 ->
  exists p', coap_init_pdu p = Done (CE_NONE, p') /\ view b mx p' [0x70; 0; 0; 0] 4.
Proof.
  intros Hb Hm Hl Hmx. unfold coap_init_pdu. rewrite Hm, (proj2 (Z.ltb_ge mx 4)) by lia. set (p0 := p <| len := 0 |>).
  change (buf p0) with (buf p). rewrite stn_ok by (unfold room; cbn [p0 update buf mem length]; lia). cbn [rbind].
  assert (H0 : view b mx (poke p0 (buf p) [0; 0; 0; 0]) [0; 0; 0; 0] 0).
  { unfold poke. cbn [p0 update buf mem]. rewrite Z.sub_diag. split; cbn [update mem len max buf p0]; rewrite ?splice_length by (cbn [length]; lia); cbn [length]; try done; try lia. }
  destruct (set_version_spec _ _ _ _ COAP_V1 H0) as (p1 & -> & H1); [lia|done|]. cbn [rbind].
  destruct (set_type_spec _ _ _ _ CT_RST H1) as (p2 & -> & H2); [lia|done|]. cbn [rbind].
  destruct (set_token_spec _ _ _ _ _ _ [] H2) as (p3 & E3 & H3); [done|done|lia|done|cbn; lia|cbn; lia|]. cbn [le_val length] in E3. change (Z.of_nat 0) with 0 in E3. rewrite E3. cbn [rbind].
  destruct (set_code_spec _ _ _ _ _ CC_EMPTY H3) as (p4 & -> & H4); [lia|done|]. cbn [rbind].
  destruct (set_mid_spec _ _ _ _ _ _ _ 0 H4) as (p5 & -> & H5); [lia|done|]. cbn [rbind]. exists p5. split; [done|]. exact H5.
Qed.
End Header.

(** * Building and reading a whole message *)

(** The next call is made when the one before succeeded. *)
Definition and_then (r : run (coap_error * coap_pdu)) (k : coap_pdu -> run (coap_error * coap_pdu)) : run (coap_error * coap_pdu) :=
  let* (e, p) := r in match e with CE_NONE => k p | _ => Done (e, p) end.

Fixpoint add_options (os : opts) (p : coap_pdu) : run (coap_error * coap_pdu) :=
  match os with
  | [] => Done (CE_NONE, p)
  | (n, v) :: os => and_then (coap_add_option p n v (zlen v)) (add_options os)
  end.

(** The calls a sender makes, in the order of [coap_output]. *)
Definition coap_build (m : message) (p : coap_pdu) : run (coap_error * coap_pdu) :=
  and_then (coap_init_pdu p) (fun p =>
  and_then (coap_set_version p COAP_V1) (fun p =>
  and_then (coap_set_type p (m_type m)) (fun p =>
  and_then (coap_set_code p (m_code m)) (fun p =>
  and_then (coap_set_mid p (m_mid m)) (fun p =>
  and_then (coap_set_token p (le_val (m_token m)) (zlen (m_token m))) (fun p =>
  and_then (add_options (m_options m) p) (fun p =>
  match m_payload m with [] => Done (CE_NONE, p) | pl => coap_set_payload p pl (zlen pl) end))))))).

(** The options in the order in which [coap_get_option] finds them. *)
Fixpoint read_options (fuel : nat) (p : coap_pdu) (last : option coap_option) : run opts :=
  match fuel with
  | O => NoFuel
  | S fuel' =>
      let* o := coap_get_option p last in
      if num o =? 0 then Done [] else
      let* v := ldn p (val o) (olen o) in
      let* r := read_options fuel' p (Some o) in
      Done ((num o, v) :: r)
  end.

Definition message_ok (m : message) : Prop :=
  head_ok (m_type m) (m_code m) (m_mid m) (m_token m) /\ options_ok 0 (m_options m) /\ Forall (fun o => 0 < o.1) (m_options m) /\
  bytes (m_payload m) /\ zlen (m_payload m) < 2147483648.

Lemma add_options_spec t code mid token os2 : forall p os1, head_ok t code mid token -> holds p (head t code mid token ++ encode_options 0 os1) ->
  options_ok 0 (os1 ++ os2) -> zlen (head t code mid token ++ encode_options 0 (os1 ++ os2)) <= max p ->
  exists p', add_options os2 p = Done (CE_NONE, p') /\ holds p' (head t code mid token ++ encode_options 0 (os1 ++ os2)) /\ buf p' = buf p /\ max p' = max p.
Proof.
  induction os2 as [|[n v] os2 IH]; intros p os1 Hh H Ho Hm.
  - rewrite app_nil_r in *. by exists p.
  - cbn [add_options]. change ((n, v) :: os2) with ([(n, v)] ++ os2) in *. rewrite app_assoc in *.
    assert (Hpre : options_ok 0 (os1 ++ [(n, v)]) /\ (length (encode_options 0 (os1 ++ [(n, v)])) <= length (encode_options 0 ((os1 ++ [(n, v)]) ++ os2)))%nat).
    { generalize (os1 ++ [(n, v)]) Ho. clear. intros os. generalize 0. induction os as [|[k w] os IH]; intros z; cbn [app options_ok encode_options length]; [split; [done|lia]|].
      rewrite !length_app. intros (H1 & H2 & H3 & H4). destruct (IH k H4). split; [done|lia]. }
    destruct Hpre as [Ho1 Hl1]. pose proof (add_option_spec p t code mid token os1 n v Hh H Ho1) as Ha. cbv zeta in Ha.
    rewrite !length_app in *. rewrite (proj2 (Z.leb_le _ _)) in Ha by lia. destruct Ha as (p1 & E1 & H1 & Hb1 & Hm1).
    rewrite E1. unfold and_then. cbn [rbind]. destruct (IH p1 (os1 ++ [(n, v)]) Hh H1 Ho) as (p2 & E2 & H2 & Hb2 & Hm2); [rewrite length_app; lia|].
    exists p2. split; [done|]. split; [done|]. split; congruence.
Qed.

Lemma coap_build_spec m p : message_ok m -> zlen (mem p) = max p -> zlen (encode m) <= max p < 2147483648 ->
  exists p', coap_build m p = Done (CE_NONE, p') /\ holds p' (encode m) /\ buf p' = buf p.
Proof.
  intros (Hh & Ho & _ & _ & Hpl) Hl Hm. pose proof Hh as (Ht & Hc & Hi & Hb & Htk). set (mx := max p) in *.
  unfold encode in Hm. rewrite length_app, head_length, length_app in Hm. unfold coap_build.
  destruct (init_spec (buf p) mx p) as (p0 & -> & H0); [done..|lia|]. unfold and_then at 1. cbn [rbind].
  destruct (set_version_spec _ _ _ _ _ _ COAP_V1 H0) as (p1 & -> & H1); [lia|done|]. unfold and_then at 1. cbn [rbind].
  assert (Et : Z.lor (Z.shiftl (m_type m) 4) (Z.land 0x70 0xCF) = 64 + m_type m * 16).
  { assert (m_type m = 0 \/ m_type m = 1 \/ m_type m = 2 \/ m_type m = 3) as [->|[->|[->| ->]]] by lia; reflexivity. }
  destruct (set_type_spec _ _ _ _ _ _ (m_type m) H1) as (p2 & -> & H2); [lia| |].
  { change (Z.lor (Z.shiftl COAP_V1 6) (Z.land 0x70 63)) with 0x70. rewrite Et. machine. }
  change (Z.lor (Z.shiftl COAP_V1 6) (Z.land 0x70 63)) with 0x70 in H2. rewrite Et in H2. unfold and_then at 1. cbn [rbind].
  destruct (set_code_spec _ _ _ _ _ _ _ (m_code m) H2) as (p3 & -> & H3); [lia|done|]. unfold and_then at 1. cbn [rbind].
  destruct (set_mid_spec _ _ _ _ _ _ _ _ _ (m_mid m) H3) as (p4 & -> & H4); [lia|done|]. unfold and_then at 1. cbn [rbind].
  destruct (set_token_spec _ _ _ _ _ _ _ _ (m_token m) H4) as (p5 & -> & H5); [machine| |lia|done|done|lia|].
  { change 15 with (Z.ones 4). rewrite Z.land_ones by lia. change (2 ^ 4) with 16. lia. }
  unfold and_then at 1. cbn [rbind].
  assert (Hh5 : holds p5 (head (m_type m) (m_code m) (m_mid m) (m_token m) ++ encode_options 0 [])).
  { cbn [encode_options]. rewrite app_nil_r. apply (view_holds (buf p) mx). rewrite head_zlen. exact H5. }
  destruct (vw_same _ _ _ _ _ H5) as [Hb5 Hm5].
  destruct (add_options_spec _ _ _ _ (m_options m) p5 [] Hh Hh5) as (p6 & -> & H6 & Hb6 & Hm6); [done|cbn [app]; rewrite length_app, head_length; lia|].
  unfold and_then at 1. cbn [rbind app] in *. unfold encode. destruct (m_payload m) as [|x pl] eqn:Epl.
  - exists p6. cbn [encode_payload]. rewrite app_nil_r. split; [done|]. split; [done|congruence].
  - pose proof (set_payload_spec p6 _ _ _ _ (m_options m) (x :: pl) Hh H6 Ho ltac:(lia)) as Hs. cbv zeta in Hs. cbn [encode_payload] in *.
    rewrite (proj2 (Z.leb_le _ _)) in Hs by (rewrite length_app, length_app, head_length; lia). destruct Hs as (p7 & E7 & H7 & Hb7 & _).
    exists p7. split; [done|]. split; [by rewrite app_assoc|congruence].
Qed.

(** ** Reading *)

(** Reading goes on at [a], after the option number [prev], when [last] was found; [first] is the start. *)
Definition resumes (last : option coap_option) (prev a first : Z) : Prop :=
  match last with Some o => num o = prev /\ prev <> 0 /\ val o + olen o = a | None => prev = 0 /\ a = first end.

Lemma resume_at last prev a first : resumes last prev a first ->
  match last with Some l => if negb (num l =? 0) then (num l, val l + olen l) else (0, first) | None => (0, first) end = (prev, a).
Proof. intros H. destruct last as [o|]; [destruct H as (-> & Hne & ->); by rewrite (proj2 (Z.eqb_neq prev 0))|by destruct H as [-> ->]]. Qed.

Lemma get_option_last p a prev tail last t code mid token r :
  here p (buf p) (head t code mid token ++ r) -> head_ok t code mid token ->
  resumes last prev a (buf p + 4 + zlen token) ->
  buf p + 4 <= a -> at_options p a prev [] (encode_payload tail) -> exists o, coap_get_option p last = Done o /\ num o = 0.
Proof.
  intros Hb Hh Hl Ha Hat. unfold coap_get_option. rewrite (get_tkl_spec _ _ _ _ _ _ Hb Hh). cbn [rbind].
  destruct Hat as [Hr HL _ _ Hs]. cbn [encode_options length app] in HL, Hr.
  rewrite (resume_at last prev a (buf p + 4 + zlen token)) by done. rewrite (proj2 (Z.ltb_ge _ _)), (proj2 (Z.leb_gt _ _)) by lia. cbn [orb].
  destruct tail as [|x pl]; cbn [encode_payload] in *.
  - cbn [length] in HL. replace (len p - (a - buf p)) with 0 by lia. eexists. split; [reflexivity|done].
  - assert (Hn : u32 (len p - (a - buf p)) <> 0) by (cbn [length] in HL; pose proof (proj1 Hr); machine).
    rewrite (decode_marker _ _ _ _ Hn Hr). cbn [rbind]. eexists. split; [reflexivity|]. by destruct (prev =? 0).
Qed.

Lemma get_option_next p a prev n v os tail last t code mid token r :
  here p (buf p) (head t code mid token ++ r) -> head_ok t code mid token ->
  resumes last prev a (buf p + 4 + zlen token) ->
  buf p + 4 <= a -> at_options p a prev ((n, v) :: os) tail ->
  coap_get_option p last = Done (mkOption n (zlen v) (a + zlen (option_header (n - prev) (zlen v)))).
Proof.
  intros Hb Hh Hl Ha Hat. unfold coap_get_option. rewrite (get_tkl_spec _ _ _ _ _ _ Hb Hh). cbn [rbind].
  destruct (at_options_next _ _ _ _ _ _ _ Hat) as (E & En & _). pose proof (ao_len _ _ _ _ _ Hat) as HL.
  rewrite (resume_at last prev a (buf p + 4 + zlen token)) by done. rewrite (proj2 (Z.ltb_ge _ _)), (proj2 (Z.leb_gt _ _)) by lia. cbn [orb]. rewrite E. cbn [rbind]. by rewrite En.
Qed.

Lemma read_options_spec p t code mid token r pl os : here p (buf p) (head t code mid token ++ r) -> head_ok t code mid token ->
  Forall (fun o => 0 < o.1) os ->
  forall fuel a prev last, resumes last prev a (buf p + 4 + zlen token) ->
  buf p + 4 <= a -> at_options p a prev os (encode_payload pl) -> (length os < fuel)%nat -> read_options fuel p last = Done os.
Proof.
  intros Hb Hh. induction os as [|[n v] os IH]; intros Hpos fuel a prev last Hl Ha Hat Hf; (destruct fuel as [|fuel]; [simpl in Hf; lia|]); cbn [read_options].
  - destruct (get_option_last _ _ _ _ _ _ _ _ _ _ Hb Hh Hl Ha Hat) as (o & -> & Ho). cbn [rbind]. by rewrite Ho.
  - rewrite (get_option_next _ _ _ _ _ _ _ _ _ _ _ _ _ Hb Hh Hl Ha Hat). cbn [rbind num val olen].
    apply List.Forall_cons_iff in Hpos as [Hn Hpos]. cbn [fst] in Hn. rewrite (proj2 (Z.eqb_neq n 0)) by lia.
    destruct (at_options_next _ _ _ _ _ _ _ Hat) as (_ & _ & _ & Hv & Hat'). rewrite (ldn_here _ _ _ Hv). cbn [rbind].
    rewrite (IH Hpos fuel (a + zlen (option_header (n - prev) (zlen v)) + zlen v) n); [reflexivity| |lia|exact Hat'|cbn [length] in Hf; lia]. unfold resumes. cbn [num val olen]. split_and!; lia.
Qed.

Lemma payload_loop_spec p pl os : forall fuel a prev, at_options p a prev os (encode_payload pl) -> (length os < fuel)%nat ->
  exists o, payload_loop fuel p (a - buf p) = Done o /\ plen o = zlen pl /\ (pl <> [] -> here p (pval o) pl).
Proof.
  induction os as [|[n v] os IH]; intros fuel a prev Hat Hf; (destruct fuel as [|fuel]; [simpl in Hf; lia|]); cbn [payload_loop].
  - destruct Hat as [Hr HL _ _ Hs]. cbn [encode_options length app] in HL, Hr. replace (buf p + (a - buf p)) with a by lia. destruct pl as [|x pl]; cbn [encode_payload] in *.
    + cbn [length] in HL. replace (len p - (a - buf p)) with 0 by lia. by eexists.
    + assert (Hn : u32 (len p - (a - buf p)) <> 0) by (cbn [length] in HL; pose proof (proj1 Hr); machine).
    rewrite (decode_marker _ _ _ _ Hn Hr). cbn [rbind]. eexists. split; [reflexivity|]. cbn [plen pval].
      split; [cbn [length] in *; pose proof (proj1 Hr); machine|]. intros _. by apply here_cons in Hr.
  - destruct (at_options_next _ _ _ _ _ _ _ Hat) as (E & _ & _ & _ & Hat'). replace (buf p + (a - buf p)) with a by lia. rewrite E. cbn [rbind].
    destruct (IH fuel _ n Hat') as (o & Eo & Ho); [cbn [length] in Hf; lia|]. exists o. split; [|done]. rewrite <- Eo. f_equal.
    pose proof (ao_len _ _ _ _ _ Hat') as HL. pose proof (ao_small _ _ _ _ _ Hat'). pose proof (proj1 (ao_here _ _ _ _ _ Hat')). machine.
Qed.

Lemma validate_spec p t code mid token os pl : head_ok t code mid token -> options_ok 0 os ->
  holds p (head t code mid token ++ encode_options 0 os ++ encode_payload pl) -> coap_validate_pkt p = Done CE_NONE.
Proof.
  intros Hh Ho H. pose proof (holds_here _ _ H) as Hb. pose proof (holds_options _ _ _ _ H Ho) as Hat. pose proof H as [_ HL HF HM HS].
  rewrite length_app, head_length in HL, HF. unfold coap_validate_pkt. rewrite !(proj2 (Z.ltb_ge _ _)) by lia.
  unfold coap_get_version. rewrite (ld_here _ _ _ _ Hb). cbn [rbind]. pose proof Hh as (Ht & _ & _ & _ & Htk).
  rewrite Z.shiftr_div_pow2 by lia. change (2 ^ 6) with 64. replace ((64 + t * 16 + zlen token) / 64) with 1 by lia. cbn [negb Z.eqb Pos.eqb].
  rewrite (get_tkl_spec _ _ _ _ _ _ Hb Hh). cbn [rbind]. rewrite (proj2 (Z.ltb_ge 8 _)) by lia.
  replace (buf p + 4 + zlen token) with (buf p + zlen (head t code mid token)) by (rewrite head_zlen; lia).
  destruct os as [|[n v] os]; [|destruct (at_options_next _ _ _ _ _ _ _ Hat) as (-> & _); done].
  destruct Hat as [Hr HA _ _ Hs]. cbn [encode_options length app] in HA, Hr. destruct pl as [|x pl]; cbn [encode_payload] in *.
  - cbn [length] in HA. replace (len p - (buf p + zlen (head t code mid token) - buf p)) with 0 by lia. done.
  - cbn [length] in HA. rewrite (fun H => decode_marker _ _ _ _ H Hr); [|machine]. cbn [rbind]. rewrite (proj2 (Z.eqb_neq _ _)); [done|machine].
Qed.

(** * Properties *)

(** C23: every message built with the setters in a buffer that is large enough is
    exactly the RFC 7252 encoding of its fields, is accepted by the validation,
    and the getters return the type, code, message identifier, token, the
    options in order and the payload it was built from. *)
Theorem coap_message_roundtrip m p : message_ok m -> zlen (mem p) = max p -> zlen (encode m) <= max p < 2147483648 ->
  exists p', coap_build m p = Done (CE_NONE, p') /\ starts (mem p') (encode m) /\ len p' = zlen (encode m) /\
    coap_validate_pkt p' = Done CE_NONE /\ coap_get_version p' = Done COAP_V1 /\ coap_get_type p' = Done (m_type m) /\
    coap_get_code p' = Done (m_code m) /\ coap_get_mid p' = Done (m_mid m) /\ coap_get_token p' = Done (le_val (m_token m)) /\
    read_options (S (length (mem p'))) p' None = Done (m_options m) /\
    exists o, coap_get_payload p' = Done o /\ plen o = zlen (m_payload m) /\ (m_payload m <> [] -> ldn p' (pval o) (plen o) = Done (m_payload m)).
Proof.
  intros Hm Hl Hf. destruct (coap_build_spec m p Hm Hl Hf) as (p' & E & H & Hb). destruct Hm as (Hh & Ho & Hpos & _ & Hpl).
  exists p'. split; [done|]. split; [by apply H|]. split; [by apply H|]. split; [by eapply validate_spec|].
  pose proof (holds_here _ _ H) as Hr. pose proof (holds_options _ _ _ _ H Ho) as Hat. pose proof (ho_len _ _ H) as HL.
  unfold encode in HL. rewrite length_app, head_length in HL. pose proof Hh as (Ht & Hc & Hi & Htb & Htk).
  unfold encode, head in Hr. rewrite <- app_assoc in Hr. cbn [app] in Hr.
  split. { unfold coap_get_version. rewrite (ld_here _ _ _ _ Hr). cbn [rbind]. f_equal. rewrite Z.shiftr_div_pow2 by lia. change (2 ^ 6) with 64. unfold COAP_V1. lia. }
  split. { unfold coap_get_type. rewrite (ld_here _ _ _ _ Hr). cbn [rbind]. f_equal. rewrite Z.shiftr_div_pow2 by lia. change 3 with (Z.ones 2).
    rewrite Z.land_ones by lia. change (2 ^ 4) with 16. change (2 ^ 2) with 4. lia. }
  pose proof (here_cons _ _ _ _ Hr) as Hr1. pose proof (here_cons _ _ _ _ Hr1) as Hr2. pose proof (here_cons _ _ _ _ Hr2) as Hr3. pose proof (here_cons _ _ _ _ Hr3) as Hr4.
  replace (buf p' + 1 + 1) with (buf p' + 2) in Hr2, Hr3, Hr4 by lia. replace (buf p' + 2 + 1) with (buf p' + 3) in Hr3, Hr4 by lia.
  replace (buf p' + 3 + 1) with (buf p' + 4) in Hr4 by lia.
  split; [by apply (ld_here _ _ _ _ Hr1)|].
  split. { unfold coap_get_mid. rewrite (ld_here _ _ _ _ Hr2), (ld_here _ _ _ _ Hr3). cbn [rbind]. f_equal.
    rewrite lor_shiftl_add by (change (2 ^ 8) with 256; machine). change (2 ^ 8) with 256. machine. }
  split. { unfold coap_get_token. rewrite (get_tkl_spec _ _ _ _ _ _ (holds_here _ _ H) Hh). cbn [rbind]. rewrite !(proj2 (Z.ltb_ge _ _)) by lia.
    apply here_app in Hr4 as [Hr4 _]. by rewrite (ldn_here _ _ _ Hr4). }
  split. { eapply read_options_spec; [exact (holds_here _ _ H)|done|done| | |exact Hat|by eapply at_options_fuel]; unfold resumes; rewrite ?head_zlen; lia. }
  unfold coap_get_payload. rewrite (get_tkl_spec _ _ _ _ _ _ (holds_here _ _ H) Hh). cbn [rbind].
  destruct (payload_loop_spec p' (m_payload m) (m_options m) (S (length (mem p'))) _ _ Hat) as (o & Eo & H1 & H2); [by eapply at_options_fuel|].
  exists o. rewrite head_zlen in Eo. replace (buf p' + (4 + zlen (m_token m)) - buf p') with (4 + zlen (m_token m)) in Eo by lia.
  split; [done|]. split; [done|]. intros Hne. rewrite H1. by apply ldn_here, H2.
Qed.

(** Appending to a message under construction: an option whose number is not
    below those before it, or the payload, is added behind the bytes that are
    there, or, when the buffer has no room for it, refused with the message
    unchanged; nothing is written outside the buffer. *)
Theorem coap_append_or_refuse p t code mid token os n v pl :
  head_ok t code mid token -> holds p (head t code mid token ++ encode_options 0 os) -> options_ok 0 (os ++ [(n, v)]) -> zlen pl < 2147483648 ->
  (let l := head t code mid token ++ encode_options 0 (os ++ [(n, v)]) in
   if zlen l <=? max p then exists p', coap_add_option p n v (zlen v) = Done (CE_NONE, p') /\ holds p' l
   else coap_add_option p n v (zlen v) = Done (CE_INSUFFICIENT_BUFFER, p)) /\
  (let l := (head t code mid token ++ encode_options 0 os) ++ 255 :: pl in
   if zlen l <=? max p then exists p', coap_set_payload p pl (zlen pl) = Done (CE_NONE, p') /\ holds p' l
   else coap_set_payload p pl (zlen pl) = Done (CE_INSUFFICIENT_BUFFER, p)).
Proof.
  intros Hh H Ho Hpl. split; cbv zeta.
  - pose proof (add_option_spec p t code mid token os n v Hh H Ho) as Ha. cbv zeta in Ha. destruct (_ <=? _); [|done].
    destruct Ha as (p' & E & H' & _). by exists p'.
  - assert (Hos : options_ok 0 os).
    { clear - Ho. revert Ho. generalize 0. induction os as [|[k w] os IH]; intros z; cbn [app options_ok]; [done|]. intros (H1 & H2 & H3 & H4). eauto. }
    pose proof (set_payload_spec p t code mid token os pl Hh H Hos Hpl) as Ha. cbv zeta in Ha. destruct (_ <=? _); [|done].
    destruct Ha as (p' & E & H' & _). by exists p'.
Qed.

(** ** Instances *)

Definition demo_pdu : coap_pdu := mkPdu 1000 (replicate 64 0) 0 64.
Definition demo_message : message := mkMessage CT_NON CC_PUT 0x1234 [1; 2] [(11, [116; 101; 109; 112]); (300, [5])] [50; 56].

Lemma demo_message_ok : message_ok demo_message.
Proof.
  split; [split_and!; try (by apply bytesb_true); unfold is_u8, is_u16; vm_compute; intuition (discriminate || lia)|].
  split; [cbn; split_and!; try (by apply bytesb_true); lia|]. split; [repeat constructor|]. split; [by apply bytesb_true|]. cbn. lia.
Qed.

Lemma coap_message_roundtrip_witness : exists p', coap_build demo_message demo_pdu = Done (CE_NONE, p') /\ len p' = 18 /\
  read_options (S (length (mem p'))) p' None = Done [(11, [116; 101; 109; 112]); (300, [5])].
Proof.
  destruct (coap_message_roundtrip demo_message demo_pdu demo_message_ok) as (p' & E & _ & HL & _ & _ & _ & _ & _ & _ & Ho & _); [done|vm_compute; done|].
  exists p'. split; [exact E|]. split; [exact HL|exact Ho].
Defined.

Lemma coap_append_or_refuse_witness : exists p, holds p [80; 3; 0; 0] /\ (exists p', coap_add_option p 11 [116] 1 = Done (CE_NONE, p') /\ holds p' [80; 3; 0; 0; 177; 116]).
Proof.
  exists (mkPdu 1000 (80 :: 3 :: replicate 62 0) 4 64).
  assert (H : holds (mkPdu 1000 (80 :: 3 :: replicate 62 0) 4 64) [80; 3; 0; 0]) by (split; done). split; [exact H|].
  apply (coap_append_or_refuse (mkPdu 1000 (80 :: 3 :: replicate 62 0) 4 64) 1 3 0 [] [] 11 [116] []); [|exact H| |done].
  - split_and!; try (by apply bytesb_true); unfold is_u8, is_u16; vm_compute; intuition (discriminate || lia).
  - cbn. split_and!; try (by apply bytesb_true); lia.
Defined.

(** An option put in front of two others changes the number of the last one. *)
Example insertion_corrupts_numbers :
  (let* (_, p) := coap_build (mkMessage CT_NON CC_PUT 0 [] [(3, [7]); (4, [8])] []) demo_pdu in
   let* (e, p) := coap_add_option p 1 [9] 1 in
   let* os := read_options 65 p None in Done (e, os)) = Done (CE_NONE, [(1, [9]); (3, [7]); (6, [8])]).
Proof. vm_compute. reflexivity. Qed.

(** Setting the payload again writes over the payload marker. *)
Example second_payload_loses_marker :
  (let* (_, p) := coap_build (mkMessage CT_NON CC_PUT 0 [] [] [1; 2]) demo_pdu in
   let* (e, p) := coap_set_payload p [3; 4] 2 in
   Done (e, take (Z.to_nat (len p)) (mem p))) = Done (CE_NONE, [80; 3; 0; 0; 3; 4]).
Proof. vm_compute. reflexivity. Qed.

(** The validation accepts a payload marker without payload and a second option that is malformed. *)
Example validation_is_incomplete :
  coap_validate_pkt (mkPdu 1000 [64; 0; 0; 0; 255; 0; 0; 0] 5 8) = Done CE_NONE /\
  coap_validate_pkt (mkPdu 1000 [64; 0; 0; 0; 17; 0; 240; 0] 7 8) = Done CE_NONE /\
  coap_decode_option (mkPdu 1000 [64; 0; 0; 0; 17; 0; 240; 0] 7 8) 1006 1 = Done (inl CE_INVALID_PACKET).
Proof. split; [|split]; vm_compute; reflexivity. Qed.

End Coap.
