(* ===== verification/CoapClient.v ===== *)
(** The CoAP client of the device (src/LwIP/apps/picocoap/coapClient.c): the
    request that carries the measurements, from the message buffer through a
    packet buffer to the compressed frame.  The transport layer is a parameter. *)
From S2P Require Import Prelude Utilities Linked Pbuf Schc Coap.

Module CoapClient.
Import Pbuf.
Import Schc.

(** [msg_send] with its 64 bytes, and the network interface. *)
Record client := mkClient {
  msg_send : Coap.coap_pdu;
  cnet : net;
}.

Definition MSG_BUF_LEN : Z := 64.

Section Client.
(** [udp_send] on the socket that [udp_coap_pcpb_init] connects to the server. *)
Context (udp_send : option Z -> net -> run (err_t * net)).

(** The string literal ["temp"]. *)
Definition resource : list Z := [116; 101; 109; 112; 0].

(** [rnd] is the result of [rand]. *)
Definition coap_output (temp : list Z) (rnd : Z) (s : client) : run (Z * client) :=
  let message_id_counter := u16 rnd in
  let m := msg_send s in
  let* (_, m) := Coap.coap_init_pdu m in
  let* (_, m) := Coap.coap_set_version m Coap.COAP_V1 in
  let* (_, m) := Coap.coap_set_type m Coap.CT_NON in
  let* (_, m) := Coap.coap_set_code m Coap.CC_PUT in
  let* (_, m) := Coap.coap_set_mid m message_id_counter in
  let* (_, m) := Coap.coap_add_option m Coap.CON_URI_PATH resource 4 in
  let* (_, m) := Coap.coap_set_payload m temp 6 in
  let* (p, n) := with_mem (pbuf_alloc PBUF_TRANSPORT (u16 (Coap.len m)) PBUF_RAM) (cnet s) in
  let* (_, n) := with_mem (pbuf_take p (Coap.mem m) (Coap.len m)) n in
  let* (err, n) := udp_send p n in
  match err with
  | ERR_OK => let* (_, n) := with_mem (pbuf_free p) n in Done (0, mkClient m n)
  | _ => Done (1, mkClient m n)
  end.
End Client.

(** [coap_input] releases every response. *)
Definition coap_input (p : option Z) (n : net) : run net :=
  match p with
  | Some p => let* (_, n) := with_mem (pbuf_free (Some p)) n in Done n
  | None => Done n
  end.

(** * The request *)

Definition request (mid : Z) (temp : list Z) : Coap.message :=
  Coap.mkMessage Coap.CT_NON Coap.CC_PUT mid [] [(Coap.CON_URI_PATH, [116; 101; 109; 112])] temp.

(** The 16 bytes of the request. *)
Lemma request_bytes mid temp : length temp = 6%nat ->
  Coap.encode (request mid temp) = [80; 3; mid / 256; mid mod 256; 180; 116; 101; 109; 112; 255] ++ temp.
Proof. intros H. by explode temp. Qed.

Lemma request_ok mid temp : is_u16 mid -> bytes temp -> length temp = 6%nat -> Coap.message_ok (request mid temp).
Proof.
  intros Hm Hb Hl. split; [split_and!; try done; cbn; lia|]. split; [cbn; split_and!; try done; try lia; by apply bytesb_true|].
  split; [by repeat constructor|]. split; [done|]. cbn [request Coap.m_payload]. lia.
Qed.

(** Only the bytes of the option are read from the literal. *)
Lemma add_option_take p n value l : 0 <= l <= zlen value ->
  Coap.coap_add_option p n value l = Coap.coap_add_option p n (take (Z.to_nat l) value) l.
Proof.
  intros H. unfold Coap.coap_add_option. replace (rdn value 0 l) with (rdn (take (Z.to_nat l) value) 0 l); [done|].
  rewrite !rdn_ok by (rewrite ?length_take; lia). change (Z.to_nat 0) with 0%nat. by rewrite !drop_0, take_take, Nat.min_id.
Qed.

(** What happens before the message is handed to the transport layer. *)
Lemma coap_output_message udp_send temp rnd s : length temp = 6%nat -> bytes temp ->
  zlen (Coap.mem (msg_send s)) = MSG_BUF_LEN -> Coap.max (msg_send s) = MSG_BUF_LEN ->
  mem_wf (nmem (cnet s)) -> heap_ok (nmem (cnet s)) = true ->
  let q := brk (nmem (cnet s)) in let msg := Coap.encode (request (u16 rnd) temp) in
  exists m, Coap.holds m msg /\
    coap_output udp_send temp rnd s =
    let* (err, n) := udp_send (Some q) ((cnet s) <| nmem := put q PBUF_RAM msg (allocated PBUF_RAM (zlen msg) (nmem (cnet s))) |>) in
    match err with
    | ERR_OK => let* (_, n) := with_mem (pbuf_free (Some q)) n in Done (0, mkClient m n)
    | _ => Done (1, mkClient m n)
    end.
Proof.
  intros Ht Hb Hl Hmx Hm Hh q msg. unfold coap_output. set (mid := u16 rnd). assert (Hmid : is_u16 mid) by apply u16_range.
  destruct (Coap.init_spec (Coap.buf (msg_send s)) MSG_BUF_LEN (msg_send s)) as (m0 & -> & H0); [done..|by unfold MSG_BUF_LEN|]. cbn [rbind].
  destruct (Coap.set_version_spec _ _ _ _ _ _ Coap.COAP_V1 H0) as (m1 & -> & H1); [done|done|]. cbn [rbind].
  destruct (Coap.set_type_spec _ _ _ _ _ _ Coap.CT_NON H1) as (m2 & -> & H2); [done|done|]. cbn [rbind].
  destruct (Coap.set_code_spec _ _ _ _ _ _ _ Coap.CC_PUT H2) as (m3 & -> & H3); [done|done|]. cbn [rbind].
  destruct (Coap.set_mid_spec _ _ _ _ _ _ _ _ _ mid H3) as (m4 & -> & H4); [done|done|]. cbn [rbind].
  destruct (Coap.vw_same _ _ _ _ _ H4) as [_ Hm4]. apply (Coap.view_holds _ _ _ (Coap.head 1 3 mid [])) in H4.
  destruct (request_ok mid temp Hmid Hb Ht) as (Hhd & Hop & _). cbn [request Coap.m_type Coap.m_code Coap.m_mid Coap.m_token Coap.m_options] in Hhd, Hop.
  rewrite add_option_take by done. pose proof (Coap.add_option_spec m4 1 3 mid [] [] Coap.CON_URI_PATH [116; 101; 109; 112] Hhd) as Ha.
  cbn [Coap.encode_options app] in Ha. rewrite app_nil_r in Ha. specialize (Ha H4 Hop). cbv zeta in Ha. rewrite Hm4 in Ha.
  destruct Ha as (m5 & E5 & H5 & _ & Hm5). change (take (Z.to_nat 4) resource) with [116; 101; 109; 112]. cbn [length] in E5. change (Z.of_nat 4) with 4 in E5.
  rewrite E5. cbn [rbind].
  pose proof (Coap.set_payload_spec m5 1 3 mid [] [(Coap.CON_URI_PATH, [116; 101; 109; 112])] temp Hhd) as Hp.
  cbv zeta in Hp. cbn [Coap.encode_options] in Hp. rewrite app_nil_r in Hp. specialize (Hp H5 Hop ltac:(lia)). rewrite Hm5 in Hp.
  assert (Em : msg = [80; 3; mid / 256; mid mod 256; 180; 116; 101; 109; 112; 255] ++ temp) by (by apply request_bytes).
  set (l := _ ++ 255 :: temp) in Hp. assert (El : l = msg) by (rewrite Em; reflexivity). rewrite El in Hp. clear l El.
  assert (Hlm : zlen msg = 16) by (rewrite Em, length_app, Ht; done). rewrite Hlm in Hp. destruct Hp as (m6 & E6 & H6 & _). rewrite Ht in E6.
  change (Z.of_nat 6) with 6 in E6. rewrite E6. cbn [rbind]. exists m6. split; [done|]. destruct H6 as [S1 S2 S3 _ _]. rewrite S2.
  clearbody msg. clear Em E6 E5. replace (u16 (zlen msg)) with (zlen msg) by machine.
  destruct (pbuf_alloc_single PBUF_TRANSPORT (zlen msg) PBUF_RAM (nmem (cnet s))) as (E & Hwf & Hsg); [lia|done|done|].
  rewrite (with_mem_ok _ (cnet s) _ _ E). cbn [rbind]. fold q. fold q in Hsg.
  rewrite (with_mem_ok _ _ ERR_OK (put q PBUF_RAM msg (allocated PBUF_RAM (zlen msg) (nmem (cnet s))))).
  - cbn [rbind]. by rewrite nmem_nmem.
  - cbn [update nmem]. rewrite (pbuf_take_single _ _ _ _ _ _ Hsg) by (rewrite ?length_replicate; lia).
    rewrite Nat2Z.id, S1, drop_ge by (rewrite length_replicate; lia). by rewrite app_nil_r.
Qed.

(** The transport and network layers write both headers in front of the message,
    in the buffer itself, and pass it to the interface; [junk] is the stack. *)
Definition passes_down (udp_send : option Z -> net -> run (err_t * net)) (junk : list Z) (hl : Z) (iid : list Z) (ck : Z) : Prop :=
  forall p n b, single (nmem n) p PBUF_RAM b ->
    udp_send (Some p) n = schc_output junk p (n <| nmem := put p PBUF_RAM (uplink_header hl iid (zlen b + 8) (zlen b + 8) ck ++ b) (nmem n) |>).

(** * Properties *)

(** The measurements reach the air interface as the frame of the first rule,
    whose data is the RFC 7252 encoding of a non-confirmable PUT of the resource
    "temp" with the six bytes as payload; but the output function of the
    interface releases the packet, and the client then releases it again. *)
Theorem request_is_sent_and_freed_twice udp_send junk hl iid ck j1 j2 temp rnd s :
  passes_down udp_send junk hl iid ck -> length junk = 40%nat -> length iid = 8%nat -> bytes iid -> is_u8 hl -> is_u16 ck ->
  length temp = 6%nat -> bytes temp -> zlen (Coap.mem (msg_send s)) = MSG_BUF_LEN -> Coap.max (msg_send s) = MSG_BUF_LEN ->
  rules (cnet s) = device_rules j1 j2 -> mem_wf (nmem (cnet s)) -> heap_ok (nmem (cnet s)) = true -> length (AppData (cnet s)) = 240%nat ->
  let q := brk (nmem (cnet s)) in let msg := Coap.encode (request (u16 rnd) temp) in
  let n1 := (cnet s) <| nmem := put q PBUF_RAM msg (allocated PBUF_RAM (zlen msg) (nmem (cnet s))) |> in
  exists n2, udp_send (Some q) n1 = Done (ERR_OK, n2) /\ AppData n2 = splice (AppData (cnet s)) 0 (1 :: msg) /\ AppDataSize n2 = 17 /\
    pbufs (nmem n2) !! q = None /\ coap_output udp_send temp rnd s = Undef.
Proof.
  intros Hu Hj Hi Hib Hhl Hck Ht Htb Hl Hmx Hr Hm Hh Ha q msg n1.
  destruct (coap_output_message udp_send temp rnd s Ht Htb Hl Hmx Hm Hh) as (m & Hmsg & E). fold q in E. fold msg in E.
  fold n1 in E.
  assert (Hlm : zlen msg = 16) by (unfold msg; rewrite request_bytes, length_app, Ht by done; done).
  assert (Hbm : bytes msg).
  { unfold msg. rewrite request_bytes by done. apply Forall_app. split; [|done]. pose proof (u16_range rnd). repeat constructor; unfold is_u8; machine. }
  assert (Hs1 : single (nmem n1) q PBUF_RAM msg) by apply put_single.
  pose proof (Hu q n1 msg Hs1) as Ed. set (n1' := n1 <| nmem := _ |>) in Ed.
  assert (Hp : single (nmem n1') q PBUF_RAM (uplink_header hl iid (zlen msg + 8) (zlen msg + 8) ck ++ msg)) by apply put_single.
  assert (Hwf : mem_wf (nmem n1')).
  { intros y. unfold n1', n1, put, allocated. cbn [update nmem pbufs brk]. rewrite !dom_insert, !elem_of_union, !elem_of_singleton.
    intros [->|[->|[->|Hy%Hm]]]; unfold q; lia. }
  destruct (uplink_header_matches hl iid (zlen msg + 8) (zlen msg + 8) ck) as [Hhb Hma]; [done|done|done|machine|machine|done|].
  destruct (schc_output_compressed j1 j2 n1' junk q PBUF_RAM (uplink_header hl iid (zlen msg + 8) (zlen msg + 8) ck) msg) as (n2 & E2 & H1 & H2 & _ & H3 & _);
    [done|done|done|done|done|done|done|lia|change (AppData n1') with (AppData (cnet s)); lia|].
  rewrite E2 in Ed. exists n2. split; [exact Ed|]. split; [exact H1|]. split; [rewrite H2; cbn [length]; lia|].
  assert (Hq : pbufs (nmem n2) !! q = None) by (rewrite H3; apply lookup_delete_eq). split; [exact Hq|].
  rewrite E, Ed. cbn [rbind]. unfold with_mem, pbuf_free, chain_fuel. cbn [free_loop]. unfold deref. by rewrite Hq.
Qed.

(** The layers above the interface, reduced to what they do to the buffer. *)
Definition demo_udp_send (p : option Z) (n : net) : run (err_t * net) :=
  match p with
  | Some p =>
      let* b := deref p (nmem n) in
      schc_output (replicate 40 0) p (n <| nmem := put p PBUF_RAM (uplink_header 255 DevEuiArray (pb_len b + 8) (pb_len b + 8) 0 ++ pb_payload b) (nmem n) |>)
  | None => Undef
  end.

Lemma request_is_sent_and_freed_twice_witness :
  let s := mkClient (Coap.mkPdu 5000 (replicate 64 0) 0 64) (demo_net [] (replicate 240 0) 0) in
  let msg := [80; 3; 0; 7; 180; 116; 101; 109; 112; 255; 50; 56; 50; 57; 50; 57] in
  exists n2, demo_udp_send (Some 2) ((cnet s) <| nmem := put 2 PBUF_RAM msg (allocated PBUF_RAM (zlen msg) (nmem (cnet s))) |>) = Done (ERR_OK, n2) /\
    AppData n2 = splice (replicate 240 0) 0 (1 :: msg) /\ AppDataSize n2 = 17 /\
    pbufs (nmem n2) !! 2 = None /\ coap_output demo_udp_send [50; 56; 50; 57; 50; 57] 7 s = Undef.
Proof.
  intros s msg. apply (request_is_sent_and_freed_twice demo_udp_send (replicate 40 0) 255 DevEuiArray 0 (fun _ => 0) (fun _ => 0)
    [50; 56; 50; 57; 50; 57] 7 s); try done; try (by apply bytesb_true).
  - intros p n b H. unfold demo_udp_send. by rewrite (pbuf_deref_ok _ _ _ H).
  - apply demo_net_wf.
Defined.

End CoapClient.
