(* ===== verification/Api.v ===== *)
(** The interface of the MAC to the application (src/src/mac/LoRaMac-api-v3.c):
    the callbacks that turn confirmations and indications into events, and the
    functions that wrap the services of the MAC. *)
From S2P Require Import Prelude Utilities Linked Aes MacTypes MacChannels Multicast MacCommands MacCrypto MacFrame MacRx MacServices.

Module Api.
Import MacTypes MacChannels Multicast MacCommands MacCrypto MacFrame MacRx MacServices.

(** * Events *)

Record LoRaMacEventFlags_t := mkEventFlags {
  Tx : bool;
  Rx : bool;
  RxData : bool;
  Multicast_ : Z;
  RxSlot_ : Z;
  LinkCheck : bool;
  JoinAccept : bool;
}.
#[export] Instance eta_event_flags : Eta LoRaMacEventFlags_t :=
  fun f => mkEventFlags (Tx f) (Rx f) (RxData f) (Multicast_ f) (RxSlot_ f) (LinkCheck f) (JoinAccept f).

(** [RxBuffer] is NULL or points to the received payload. *)
Record LoRaMacEventInfo_t := mkEventInfo {
  Status : LoRaMacEventInfoStatus_t;
  TxAckReceived : bool;
  TxNbRetries : Z;
  TxDatarate : Z;
  RxPort : Z;
  RxBuffer : option (list Z);
  RxBufferSize : Z;
  RxRssi : Z;
  RxSnr : Z;
  DemodMargin : Z;
  NbGateways : Z;
}.
#[export] Instance eta_event_info : Eta LoRaMacEventInfo_t :=
  fun i => mkEventInfo (Status i) (TxAckReceived i) (TxNbRetries i) (TxDatarate i) (RxPort i) (RxBuffer i) (RxBufferSize i)
    (RxRssi i) (RxSnr i) (DemodMargin i) (NbGateways i).

Definition event_flags_zero : LoRaMacEventFlags_t := mkEventFlags false false false 0 0 false false.
Definition event_info_zero : LoRaMacEventInfo_t :=
  mkEventInfo LORAMAC_EVENT_INFO_STATUS_OK false 0 0 0 None 0 0 0 0 0.

(** The static variables and the events handed to [MacEvent]. *)
Record api := mkApi {
  LoRaMacEventFlags : LoRaMacEventFlags_t;
  LoRaMacEventInfo : LoRaMacEventInfo_t;
  events : list (LoRaMacEventFlags_t * LoRaMacEventInfo_t);
}.
#[export] Instance eta_api : Eta api := fun a => mkApi (LoRaMacEventFlags a) (LoRaMacEventInfo a) (events a).

(** [LoRaMacCallbacks.MacEvent( &LoRaMacEventFlags, &LoRaMacEventInfo ); LoRaMacEventFlags.Value = 0] *)
Definition mac_event (a : api) : api :=
  a <| events ::= fun l => l ++ [(LoRaMacEventFlags a, LoRaMacEventInfo a)] |> <| LoRaMacEventFlags := event_flags_zero |>.

(** * Callbacks; [f] are the flags of the MAC *)

Definition McpsConfirm_cb (f : LoRaMacFlags_t) (c : McpsConfirm_t) (a : api) : api :=
  let a := a <| LoRaMacEventInfo ::= fun i => i <| Status := mc_Status c |> |>
             <| LoRaMacEventFlags ::= fun f => f <| Tx := true |> |>
             <| LoRaMacEventInfo ::= fun i => i <| TxDatarate := mc_Datarate c |> <| TxNbRetries := mc_NbRetries c |>
                                                <| TxAckReceived := mc_AckReceived c |> |> in
  if negb (McpsInd f) && negb (MlmeReq f) then mac_event a else a.

Definition McpsIndication_cb (i : McpsIndication_t) (payload : list Z) (a : api) : api :=
  let a := a <| LoRaMacEventInfo ::= fun e => e <| Status := mi_Status i |> |>
             <| LoRaMacEventFlags ::= fun f => f <| Rx := true |> <| RxSlot_ := mi_RxSlot i mod 4 |> <| Multicast_ := mi_Multicast i mod 2 |> |> in
  let a := if mi_RxData i then a <| LoRaMacEventFlags ::= fun f => f <| RxData := true |> |> else a in
  let a := a <| LoRaMacEventInfo ::= fun e => e <| RxPort := mi_Port i |> <| RxBuffer := if mi_Buffer i then Some payload else None |>
                                                <| RxBufferSize := mi_BufferSize i |> <| RxRssi := mi_Rssi i |> <| RxSnr := mi_Snr i |> |> in
  mac_event a.

Definition MlmeConfirm_cb (f : LoRaMacFlags_t) (c : MlmeConfirm_t) (a : api) : api :=
  let a :=
    if bool_decide (ml_Status c = LORAMAC_EVENT_INFO_STATUS_OK) then
      match ml_MlmeRequest c with
      | MLME_JOIN => a <| LoRaMacEventFlags ::= fun f => f <| Tx := true |> <| Rx := true |> <| JoinAccept := true |> |>
      | MLME_LINK_CHECK =>
          a <| LoRaMacEventFlags ::= fun f => f <| Tx := true |> <| Rx := true |> <| LinkCheck := true |> |>
            <| LoRaMacEventInfo ::= fun i => i <| DemodMargin := ml_DemodMargin c |> <| NbGateways := ml_NbGateways c |> |>
      end
    else a in
  let a := a <| LoRaMacEventInfo ::= fun i => i <| Status := ml_Status c |> |> in
  if negb (McpsInd f) then mac_event a else a.

(** The calls the MAC makes, with the flags it has at each of them. *)
Fixpoint run_callbacks (acts : list action) (f : LoRaMacFlags_t) (a : api) : api :=
  match acts with
  | [] => a
  | MacMcpsConfirm c :: acts => run_callbacks acts (f <| McpsReq := false |>) (McpsConfirm_cb f c a)
  | MacMlmeConfirm c :: acts => run_callbacks acts (f <| MlmeReq := false |>) (MlmeConfirm_cb f c a)
  | MacMcpsIndication i pl :: acts => run_callbacks acts (f <| McpsInd := false |>) (McpsIndication_cb i pl a)
  | _ :: acts => run_callbacks acts f a
  end.

(** * Wrappers *)

Definition LoRaMacInit : M LoRaMacStatus_t := LoRaMacInitialization (Some (mkPrimitives true true true)).

Definition mib_set_api (m : MibRequestConfirm_t) (s : mac) : run mac :=
  let* (_, s) := LoRaMacMibSetRequestConfirm (Some m) s in Done s.

Definition LoRaMacSetAdrOn (enable : bool) : mac -> run mac := mib_set_api (MIB_ADR enable).

Definition LoRaMacInitNwkIds (netID devAddr : Z) (nwkSKey appSKey : list Z) (s : mac) : run mac :=
  let* s := mib_set_api (MIB_NET_ID netID) s in
  let* s := mib_set_api (MIB_DEV_ADDR devAddr) s in
  let* s := mib_set_api (MIB_NWK_SKEY (Some nwkSKey)) s in
  let* s := mib_set_api (MIB_APP_SKEY (Some appSKey)) s in
  mib_set_api (MIB_NETWORK_JOINED true) s.

Definition LoRaMacMulticastChannelAdd (channelParam : option Z) (s : mac) : run mac :=
  let* (_, s) := LoRaMacMulticastChannelLink channelParam s in Done s.
Definition LoRaMacMulticastChannelRemove (channelParam : option Z) (s : mac) : run mac :=
  let* (_, s) := LoRaMacMulticastChannelUnlink channelParam s in Done s.

(** The numbers returned for the status of a request. *)
Definition ret_status (st : LoRaMacStatus_t) : Z :=
  match st with
  | LORAMAC_STATUS_OK => 0
  | LORAMAC_STATUS_BUSY => 1
  | LORAMAC_STATUS_NO_NETWORK_JOINED => 2
  | LORAMAC_STATUS_LENGTH_ERROR | LORAMAC_STATUS_MAC_CMD_LENGTH_ERROR => 3
  | LORAMAC_STATUS_SERVICE_UNKNOWN => 4
  | LORAMAC_STATUS_DEVICE_OFF => 6
  | _ => 1
  end.

(** [LoRaMacPrepareFrame] has no case for a device that is off. *)
Definition ret_prepare (st : LoRaMacStatus_t) : Z :=
  match st with
  | LORAMAC_STATUS_OK => 0
  | LORAMAC_STATUS_BUSY => 1
  | LORAMAC_STATUS_NO_NETWORK_JOINED => 2
  | LORAMAC_STATUS_LENGTH_ERROR | LORAMAC_STATUS_MAC_CMD_LENGTH_ERROR => 3
  | LORAMAC_STATUS_SERVICE_UNKNOWN => 4
  | _ => 1
  end.

Section Wrappers.
Context {RD : RadioDriver} {FS : FrameSecurity}.

Definition LoRaMacJoinReq (devEui appEui appKey : list Z) (s : mac) : run (Z * mac) :=
  let* (st, s) := LoRaMacMlmeRequest (Some (MlmeJoin (Some devEui) (Some appEui) (Some appKey))) s in
  Done (ret_status st, s).

Definition LoRaMacLinkCheckReq (s : mac) : run (Z * mac) :=
  let* (st, s) := LoRaMacMlmeRequest (Some MlmeLinkCheck) s in
  Done (match st with LORAMAC_STATUS_OK => 0 | _ => 1 end, s).

(** The datarate that [LoRaMacMibGetRequestConfirm] returns. *)
Definition current_datarate (s : mac) : Z :=
  match LoRaMacMibGetRequestConfirm (Some (MIB_CHANNELS_DATARATE 0)) s with
  | (_, Some (MIB_CHANNELS_DATARATE dr)) => dr
  | _ => 0
  end.

Definition LoRaMacSendFrame (fPort : Z) (fBuffer : option (list Z)) (fBufferSize : Z) (s : mac) (a : api) : run (Z * mac * api) :=
  let a := a <| LoRaMacEventInfo := event_info_zero |> in
  let* (st, s) := LoRaMacMcpsRequest (Some (McpsUnconfirmed fPort fBuffer fBufferSize (current_datarate s))) s in
  Done (ret_status st, s, a).

Definition LoRaMacSendConfirmedFrame (fPort : Z) (fBuffer : option (list Z)) (fBufferSize nbRetries : Z) (s : mac) (a : api) : run (Z * mac * api) :=
  let a := a <| LoRaMacEventInfo := event_info_zero |> in
  let* (st, s) := LoRaMacMcpsRequest (Some (McpsConfirmed fPort fBuffer fBufferSize (current_datarate s) nbRetries)) s in
  Done (ret_status st, s, a).

Definition LoRaMacSend (macHdr fPort : Z) (fBuffer : option (list Z)) (fBufferSize : Z) (s : mac) (a : api) : run (Z * mac * api) :=
  let a := a <| LoRaMacEventInfo := event_info_zero |> in
  let* (st, s) := Send macHdr fPort fBuffer fBufferSize s in
  Done (ret_status st, s, a).

Definition LoRaMacPrepareFrame (macHdr : Z) (fCtrl : LoRaMacFrameCtrl_t) (fPort : Z) (fBuffer : option (list Z)) (fBufferSize : Z) (s : mac) : run (Z * mac) :=
  let* (st, s) := PrepareFrame macHdr fCtrl fPort fBuffer fBufferSize s in
  Done (ret_prepare st, s).

Definition LoRaMacSendFrameOnChannel (channel : ChannelParams_t) (s : mac) (a : api) : run (Z * mac * api) :=
  let a := a <| LoRaMacEventInfo := event_info_zero |> in
  let* (_, s) := SendFrameOnChannel channel s in
  Done (0, s, a).

Definition LoRaMacSendOnChannel (channel : ChannelParams_t) (macHdr : Z) (fCtrl : LoRaMacFrameCtrl_t) (fPort : Z)
    (fBuffer : option (list Z)) (fBufferSize : Z) (s : mac) (a : api) : run (Z * mac * api) :=
  if Z.land (LoRaMacState s) 1 =? 1 then Done (1, s, a) else
  let* (status, s) := LoRaMacPrepareFrame macHdr fCtrl fPort fBuffer fBufferSize s in
  if negb (status =? 0) then Done (status, s, a) else
  let a := a <| LoRaMacEventInfo ::= fun i => i <| TxNbRetries := 0 |> <| TxAckReceived := false |> |> in
  LoRaMacSendFrameOnChannel channel s a.
End Wrappers.

Definition LoRaMacSetDeviceClass (c : DeviceClass_t) : mac -> run mac := mib_set_api (MIB_DEVICE_CLASS c).
Definition LoRaMacSetPublicNetwork (enable : bool) : mac -> run mac := mib_set_api (MIB_PUBLIC_NETWORK enable).
Definition LoRaMacSetDutyCycleOn (enable : bool) (s : mac) : mac := LoRaMacTestSetDutyCycleOn enable s.
Definition LoRaMacSetChannel {RD : RadioDriver} (id freq drRange : Z) (s : mac) : run mac :=
  let* (_, s) := LoRaMacChannelAdd id freq drRange s in Done s.
Definition LoRaMacSetRx2Channel (freq dr : Z) : mac -> run mac := mib_set_api (MIB_RX2_CHANNEL freq dr).
Definition LoRaMacSetChannelsMask (mask : option (list Z)) : mac -> run mac := mib_set_api (MIB_CHANNELS_MASK mask).
Definition LoRaMacSetChannelsNbRep (nbRep : Z) : mac -> run mac := mib_set_api (MIB_CHANNELS_NB_REP nbRep).
Definition LoRaMacSetMaxRxWindow (delay : Z) : mac -> run mac := mib_set_api (MIB_MAX_RX_WINDOW_DURATION delay).
Definition LoRaMacSetReceiveDelay1 (delay : Z) : mac -> run mac := mib_set_api (MIB_RECEIVE_DELAY_1 delay).
Definition LoRaMacSetReceiveDelay2 (delay : Z) : mac -> run mac := mib_set_api (MIB_RECEIVE_DELAY_2 delay).
Definition LoRaMacSetJoinAcceptDelay1 (delay : Z) : mac -> run mac := mib_set_api (MIB_JOIN_ACCEPT_DELAY_1 delay).
Definition LoRaMacSetJoinAcceptDelay2 (delay : Z) : mac -> run mac := mib_set_api (MIB_JOIN_ACCEPT_DELAY_2 delay).
Definition LoRaMacSetChannelsDatarate (datarate : Z) : mac -> run mac := mib_set_api (MIB_CHANNELS_DATARATE datarate).
Definition LoRaMacSetChannelsTxPower (txPower : Z) : mac -> run mac := mib_set_api (MIB_CHANNELS_TX_POWER txPower).
Definition LoRaMacGetUpLinkCounter (s : mac) : Z :=
  match LoRaMacMibGetRequestConfirm (Some (MIB_UPLINK_COUNTER 0)) s with (_, Some (MIB_UPLINK_COUNTER c)) => c | _ => 0 end.
Definition LoRaMacGetDownLinkCounter (s : mac) : Z :=
  match LoRaMacMibGetRequestConfirm (Some (MIB_DOWNLINK_COUNTER 0)) s with (_, Some (MIB_DOWNLINK_COUNTER c)) => c | _ => 0 end.
Definition LoRaMacSetMicTest (txPacketCounter : Z) (s : mac) : mac := LoRaMacTestSetMic txPacketCounter s.

(** * Lemmas *)

(** What an event says when the exchange of the MAC state [s] has ended. *)
Record event_of (s : mac) (e : LoRaMacEventFlags_t * LoRaMacEventInfo_t) : Prop := mkEventOf {
  eo_tx : Tx e.1 = McpsReq (LoRaMacFlags s) || (MlmeReq (LoRaMacFlags s) && bool_decide (ml_Status (MlmeConfirm s) = LORAMAC_EVENT_INFO_STATUS_OK));
  eo_join : JoinAccept e.1 = MlmeReq (LoRaMacFlags s) && bool_decide (ml_Status (MlmeConfirm s) = LORAMAC_EVENT_INFO_STATUS_OK) &&
    bool_decide (ml_MlmeRequest (MlmeConfirm s) = MLME_JOIN);
  eo_link : LinkCheck e.1 = MlmeReq (LoRaMacFlags s) && bool_decide (ml_Status (MlmeConfirm s) = LORAMAC_EVENT_INFO_STATUS_OK) &&
    bool_decide (ml_MlmeRequest (MlmeConfirm s) = MLME_LINK_CHECK);
  eo_data : RxData e.1 = McpsInd (LoRaMacFlags s) && mi_RxData (McpsIndication s);
  eo_status : Status e.2 = if McpsInd (LoRaMacFlags s) then mi_Status (McpsIndication s)
    else if MlmeReq (LoRaMacFlags s) then ml_Status (MlmeConfirm s) else mc_Status (McpsConfirm s);
  eo_ack : McpsReq (LoRaMacFlags s) = true -> TxAckReceived e.2 = mc_AckReceived (McpsConfirm s);
  eo_rx : McpsInd (LoRaMacFlags s) = true -> RxPort e.2 = mi_Port (McpsIndication s) /\ RxBufferSize e.2 = mi_BufferSize (McpsIndication s) /\
    RxBuffer e.2 = if mi_Buffer (McpsIndication s) then Some (LoRaMacRxPayload s) else None;
}.

Definition pending (f : LoRaMacFlags_t) : bool := McpsReq f || MlmeReq f || McpsInd f.

Lemma callbacks_spec s a : LoRaMacEventFlags a = event_flags_zero -> LoRaMacState s = MAC_IDLE ->
  let a' := run_callbacks (notifications s) (LoRaMacFlags s) a in
  LoRaMacEventFlags a' = event_flags_zero /\
  if pending (LoRaMacFlags s) then exists e, events a' = events a ++ [e] /\ event_of s e else a' = a.
Proof.
  intros Ha Hs. unfold notifications. rewrite Hs. cbn [Z.eqb MAC_IDLE].
  destruct a as [f0 i0 ev]. cbn in Ha. subst f0.
  destruct (LoRaMacFlags s) as [f1 f2 f3 f4] eqn:Ef. destruct f1, f2, f3; cbn [McpsReq McpsInd MlmeReq app run_callbacks pending orb].
  all: unfold McpsConfirm_cb, MlmeConfirm_cb, McpsIndication_cb.
  all: destruct (bool_decide (ml_Status (MlmeConfirm s) = LORAMAC_EVENT_INFO_STATUS_OK)) eqn:E1; destruct (ml_MlmeRequest (MlmeConfirm s)) eqn:E2;
    destruct (mi_RxData (McpsIndication s)) eqn:E3; cbn -[bool_decide]; split; try reflexivity; eexists; (split; [reflexivity|]);
    split; rewrite ?Ef, ?E1, ?E2, ?E3; cbn; try reflexivity; try discriminate; intros _; split_and!; reflexivity.
Qed.

(** While the MAC is busy only a received frame is reported. *)
Lemma callbacks_busy s a : LoRaMacState s <> MAC_IDLE ->
  run_callbacks (notifications s) (LoRaMacFlags s) a =
  if McpsInd (LoRaMacFlags s) then McpsIndication_cb (McpsIndication s) (LoRaMacRxPayload s) a else a.
Proof.
  intros Hs. unfold notifications. rewrite (proj2 (Z.eqb_neq _ _)) by done. cbn [app run_callbacks]. by destruct (McpsInd _).
Qed.

(** * Properties *)



End Api.
