(* ===== verification/App.v ===== *)
(** The application of the device
    (src/src/apps/LoRaMac/classA/SK-iM880A/main-api-v3.c): the state of the main
    loop, the handling of events of the MAC and of received frames, and the
    passes of the main loop.  The configuration is the one of Comissioning.h:
    activation by personalization, 868 MHz. *)
From S2P Require Import Prelude Utilities Linked Aes MacTypes MacChannels Multicast MacCommands MacCrypto MacFrame MacRx MacServices.
From S2P Require Import Pbuf Schc Coap CoapClient Api.

Module App.
Import Pbuf Schc CoapClient.
Import MacTypes MacChannels MacCrypto MacFrame MacServices Api.

(** * State *)

Inductive app_timer := TxNextPacketTimer | Led4Timer | Led2Timer.

(** Calls to timers, lights and the low-power handler. *)
Inductive app_action :=
| AppTimerInit (t : app_timer)
| AppTimerSetValue (t : app_timer) (value : Z)
| AppTimerStart (t : app_timer)
| AppTimerStop (t : app_timer)
| GpioWrite (led value : Z)
| LowPowerHandler.

(** [struct ComplianceTest_s], without the fields nobody uses. *)
Record ComplianceTest_s := mkCompliance {
  Running : bool;
  State : Z;
  ct_DownLinkCounter : Z;
  ct_LinkCheck : bool;
  ct_DemodMargin : Z;
  ct_NbGateways : Z;
}.
#[export] Instance eta_compliance : Eta ComplianceTest_s :=
  fun c => mkCompliance (Running c) (State c) (ct_DownLinkCounter c) (ct_LinkCheck c) (ct_DemodMargin c) (ct_NbGateways c).

(** The static variables; [AppData] and [AppDataSize] are shared with the network
    interface and are fields of [cnet clt]. *)
Record app := mkApp {
  amac : mac;
  aapi : api;
  clt : client;
  IsNetworkJoined : bool;
  AppPort : Z;
  IsTxConfirmed : bool;
  TxDutyCycleTime : Z;
  TxNextPacket : bool;
  ScheduleNextTx : bool;
  DownlinkStatusUpdate : bool;
  Led4StateChanged : bool;
  Led2StateChanged : bool;
  Led3StateChanged : bool;
  AppLedStateOn : bool;
  ComplianceTest : ComplianceTest_s;
  outs : list app_action;
}.
#[export] Instance eta_app : Eta app :=
  fun s => mkApp (amac s) (aapi s) (clt s) (IsNetworkJoined s) (AppPort s) (IsTxConfirmed s) (TxDutyCycleTime s) (TxNextPacket s)
    (ScheduleNextTx s) (DownlinkStatusUpdate s) (Led4StateChanged s) (Led2StateChanged s) (Led3StateChanged s) (AppLedStateOn s)
    (ComplianceTest s) (outs s).
#[export] Instance eta_client : Eta client := fun c => mkClient (msg_send c) (cnet c).

Definition out (l : list app_action) (s : app) : app := s <| outs ::= fun o => o ++ l |>.

Definition APP_TX_DUTYCYCLE : Z := 5000.
Definition APP_TX_DUTYCYCLE_RND : Z := 1000.
Definition LORAWAN_CONFIRMED_MSG_ON : bool := false.
Definition LORAWAN_ADR_ON : bool := true.
Definition LORAWAN_DUTYCYCLE_ON : bool := true.
Definition LORAWAN_APP_PORT : Z := 10.
Definition LORAWAN_APP_DATA_SIZE : Z := 4.
Definition LORAWAN_PUBLIC_NETWORK : bool := true.
Definition LORAWAN_NETWORK_ID : Z := 0.

(** ** The shared buffer *)

Definition set_net (g : Schc.net -> Schc.net) (s : app) : app := s <| clt ::= fun c => c <| cnet ::= g |> |>.
Definition set_size (n : Z) : app -> app := set_net (fun n0 => n0 <| Schc.AppDataSize := n |>).
Definition put_data (i v : Z) (s : app) : run app :=
  let* d := wr (Schc.AppData (cnet (clt s))) i (u8 v) in
  Done (set_net (fun n => n <| Schc.AppData := d |>) s).

Definition set_test (g : ComplianceTest_s -> ComplianceTest_s) (s : app) : app := s <| ComplianceTest ::= g |>.

(** The loop [AppData[i] = RxBuffer[i] + add] from [i] on. *)
Fixpoint copy_rx (n : nat) (buf : list Z) (i add : Z) (s : app) : run app :=
  match n with
  | O => Done s
  | S n' => let* v := rd buf i in let* s := put_data i (v + add) s in copy_rx n' buf (i + 1) add s
  end.

Section Handlers.
Context {RD : RadioDriver} {FS : FrameSecurity}.
(** The layers of the network stack between the interface and the client. *)
Context (ip6_input : option Z -> Schc.net -> run (Pbuf.err_t * Schc.net)).
Context (udp_send : option Z -> Schc.net -> run (Pbuf.err_t * Schc.net)).

(** * Frames to send *)

(** [poti] and [vdd] are the measurements, [temp] the six bytes of the casts,
    [rnd] the result of [rand]. *)
Definition PrepareTxFrame (ApplicatiePort poti vdd : Z) (temp : list Z) (rnd : Z) (s : app) : run app :=
  if ApplicatiePort =? 3 then
    let* s := put_data 0 (b2z (AppLedStateOn s)) s in
    let* s := put_data 1 poti s in
    let* s := put_data 2 (Z.land (Z.shiftr vdd 8) 0xFF) s in
    put_data 3 (Z.land vdd 0xFF) s
  else if ApplicatiePort =? 10 then
    let* (_, c) := coap_output udp_send temp rnd (clt s) in
    Done (s <| clt := c |>)
  else if ApplicatiePort =? 224 then
    let t := ComplianceTest s in
    if ct_LinkCheck t then
      let s := set_size 3 (set_test (fun c => c <| ct_LinkCheck := false |>) s) in
      let* s := put_data 0 5 s in
      let* s := put_data 1 (ct_DemodMargin t) s in
      let* s := put_data 2 (ct_NbGateways t) s in
      Done (set_test (fun c => c <| State := 1 |>) s)
    else if State t =? 4 then Done (set_test (fun c => c <| State := 1 |>) s)
    else if State t =? 1 then
      let s := set_size 2 s in
      let* s := put_data 0 (Z.shiftr (ct_DownLinkCounter t) 8) s in
      put_data 1 (ct_DownLinkCounter t) s
    else Done s
  else Done s.

(** * Received frames *)

Definition byte_is (buf : option (list Z)) (i v : Z) : run bool :=
  match buf with
  | Some b => let* x := rd b i in Done (x =? v)
  | None => Undef
  end.

(** The test of the four bytes [01 01 01 01], up to the first that differs. *)
Definition is_test_command (info : LoRaMacEventInfo_t) : run bool :=
  if negb (RxBufferSize info =? 4) then Done false else
  let* b0 := byte_is (RxBuffer info) 0 1 in if negb b0 then Done false else
  let* b1 := byte_is (RxBuffer info) 1 1 in if negb b1 then Done false else
  let* b2 := byte_is (RxBuffer info) 2 1 in if negb b2 then Done false else
  byte_is (RxBuffer info) 3 1.

(** The case of port 224. *)
Definition compliance_frame (info : LoRaMacEventInfo_t) (s : app) : run app :=
  if negb (Running (ComplianceTest s)) then
    let* start := is_test_command info in
    if start : bool then
      let s := set_size 2 (s <| IsTxConfirmed := false |> <| AppPort := 224 |>) in
      let s := set_test (fun c => mkCompliance true 1 0 false 0 0) s in
      let* m := LoRaMacSetAdrOn true (amac s) in
      Done (s <| amac := LoRaMacTestSetDutyCycleOn false m |>)
    else Done s
  else
    match RxBuffer info with
    | None => Undef
    | Some buf =>
        let* st := rd buf 0 in
        let s := set_test (fun c => c <| State := st |>) s in
        if st =? 0 then
          let s := set_size LORAWAN_APP_DATA_SIZE (s <| IsTxConfirmed := LORAWAN_CONFIRMED_MSG_ON |> <| AppPort := LORAWAN_APP_PORT |>) in
          let s := set_test (fun c => c <| ct_DownLinkCounter := 0 |> <| Running := false |>) s in
          let* m := LoRaMacSetAdrOn LORAWAN_ADR_ON (amac s) in
          Done (s <| amac := LoRaMacTestSetDutyCycleOn LORAWAN_DUTYCYCLE_ON m |>)
        else if st =? 1 then Done (set_size 2 s)
        else if st =? 2 then Done (set_test (fun c => c <| State := 1 |>) (s <| IsTxConfirmed := true |>))
        else if st =? 3 then Done (set_test (fun c => c <| State := 1 |>) (s <| IsTxConfirmed := false |>))
        else if st =? 4 then
          let s := set_size (RxBufferSize info) s in
          let* s := put_data 0 4 s in
          copy_rx (Z.to_nat (RxBufferSize info - 1)) buf 1 1 s
        else if st =? 5 then
          let* (_, m) := LoRaMacLinkCheckReq (amac s) in Done (s <| amac := m |>)
        else Done s
    end.

(** The case of port 10: an IPv6 packet for the network interface. *)
Definition packet_frame (info : LoRaMacEventInfo_t) (s : app) : run app :=
  let s := set_size (RxBufferSize info) s in
  let* s := match RxBuffer info with
            | Some buf => copy_rx (Z.to_nat (RxBufferSize info)) buf 0 0 s
            | None => if RxBufferSize info =? 0 then Done s else Undef
            end in
  let* n := Schc.virtualloraif_input ip6_input (cnet (clt s)) in
  Done (set_net (fun _ => n) s).

(** There is no [break] between the cases 10 and 224. *)
Definition ProcessRxFrame (info : LoRaMacEventInfo_t) (s : app) : run app :=
  let port := RxPort info in
  if (port =? 1) || (port =? 2) then
    if RxBufferSize info =? 1 then
      match RxBuffer info with
      | Some buf => let* b := rd buf 0 in Done (s <| AppLedStateOn := Z.odd b |> <| Led3StateChanged := true |>)
      | None => Undef
      end
    else Done s
  else if port =? 10 then let* s := packet_frame info s in compliance_frame info s
  else if port =? 224 then compliance_frame info s
  else Done s.

(** * Sending *)

(** Whether to try again later. *)
Definition SendFrame (s : app) : run (bool * app) :=
  let n := cnet (clt s) in
  let* (st, m, a) :=
    if IsTxConfirmed s then LoRaMacSendConfirmedFrame (AppPort s) (Some (Schc.AppData n)) (Schc.AppDataSize n) 8 (amac s) (aapi s)
    else LoRaMacSendFrame (AppPort s) (Some (Schc.AppData n)) (Schc.AppDataSize n) (amac s) (aapi s) in
  let s := s <| amac := m |> <| aapi := a |> in
  if st =? 3 then
    let* (_, m, a) := LoRaMacSendFrame 0 None 0 (amac s) (aapi s) in
    Done (false, s <| amac := m |> <| aapi := a |>)
  else if st =? 5 then Done (true, s)
  else Done (false, s).

(** * Events *)

Definition OnTxNextPacketTimerEvent (s : app) : app := out [AppTimerStop TxNextPacketTimer] (s <| TxNextPacket := true |>).
Definition OnLed4TimerEvent (s : app) : app := out [AppTimerStop Led4Timer] (s <| Led4StateChanged := true |>).
Definition OnLed2TimerEvent (s : app) : app := out [AppTimerStop Led2Timer] (s <| Led2StateChanged := true |>).

Definition OnMacEvent (flags : LoRaMacEventFlags_t) (info : LoRaMacEventInfo_t) (s : app) : run app :=
  let* s :=
    if JoinAccept flags then Done (s <| IsNetworkJoined := true |>)
    else if Rx flags then
      let s :=
        if Running (ComplianceTest s) then
          let s := set_test (fun c => c <| ct_DownLinkCounter ::= fun n => u16 (n + 1) |>) s in
          if LinkCheck flags
          then set_test (fun c => c <| ct_LinkCheck := true |> <| ct_DemodMargin := DemodMargin info |> <| ct_NbGateways := NbGateways info |>) s
          else s
        else s in
      let* s := if RxData flags then ProcessRxFrame info s else Done s in
      Done (out [AppTimerStart Led2Timer] (s <| DownlinkStatusUpdate := true |>))
    else Done s in
  Done (s <| ScheduleNextTx := true |>).

(** * The main function *)

(** Lights that changed since the last pass. *)
Definition update_leds (s : app) : app :=
  let s := if Led4StateChanged s then out [GpioWrite 4 0] (s <| Led4StateChanged := false |>) else s in
  let s := if Led2StateChanged s then out [GpioWrite 2 0] (s <| Led2StateChanged := false |>) else s in
  let s := if Led3StateChanged s then out [GpioWrite 3 (b2z (AppLedStateOn s))] (s <| Led3StateChanged := false |>) else s in
  if DownlinkStatusUpdate s then out [GpioWrite 2 1] (s <| DownlinkStatusUpdate := false |>) else s.

(** One pass of [while( 1 )] on a joined device; the flag is [trySendingFrameAgain]. *)
Definition main_pass (poti vdd : Z) (temp : list Z) (rnd : Z) (again : bool) (s : app) : run (bool * app) :=
  let s := update_leds s in
  let* s :=
    if ScheduleNextTx s then
      let s := s <| ScheduleNextTx := false |> in
      if Running (ComplianceTest s) then Done (s <| TxNextPacket := true |>)
      else
        let* (r, m) := rand_range (- APP_TX_DUTYCYCLE_RND) APP_TX_DUTYCYCLE_RND (amac s) in
        let t := u32 (APP_TX_DUTYCYCLE + r) in
        Done (out [AppTimerSetValue TxNextPacketTimer t; AppTimerStart TxNextPacketTimer] (s <| amac := m |> <| TxDutyCycleTime := t |>))
    else Done s in
  let* (again, s) := if again : bool then SendFrame s else Done (again, s) in
  let* (again, s) :=
    if TxNextPacket s then
      let* s := PrepareTxFrame (AppPort s) poti vdd temp rnd (s <| TxNextPacket := false |>) in
      SendFrame (out [GpioWrite 4 1; AppTimerStart Led4Timer] s)
    else Done (again, s) in
  Done (again, out [LowPowerHandler] s).
End Handlers.

(** The start-up of [main] behind the initialization of the board and the network
    stack; [devAddr] is the configured or drawn address. *)
Section Start.
Context {RD : RadioDriver}.

Definition DR_RANGE (hi lo : Z) : Z := Z.lor (Z.shiftl hi 4) lo.

Definition main_start (devAddr : Z) (nwkSKey appSKey : list Z) (s : app) : run app :=
  let* (_, m) := LoRaMacInit (amac s) in
  let* m := LoRaMacInitNwkIds LORAWAN_NETWORK_ID devAddr nwkSKey appSKey m in
  let s := out [AppTimerInit TxNextPacketTimer; AppTimerInit Led4Timer; AppTimerSetValue Led4Timer 25;
                AppTimerInit Led2Timer; AppTimerSetValue Led2Timer 25] (s <| IsNetworkJoined := true |> <| TxNextPacket := true |>) in
  let* m := LoRaMacSetAdrOn LORAWAN_ADR_ON m in
  let* m := LoRaMacSetPublicNetwork LORAWAN_PUBLIC_NETWORK m in
  let m := LoRaMacTestSetDutyCycleOn LORAWAN_DUTYCYCLE_ON m in
  let* (_, m) := LoRaMacChannelAdd 3 867100000 (DR_RANGE 5 0) m in
  let* (_, m) := LoRaMacChannelAdd 4 867300000 (DR_RANGE 5 0) m in
  let* (_, m) := LoRaMacChannelAdd 5 867500000 (DR_RANGE 5 0) m in
  let* (_, m) := LoRaMacChannelAdd 6 867700000 (DR_RANGE 5 0) m in
  let* (_, m) := LoRaMacChannelAdd 7 867900000 (DR_RANGE 5 0) m in
  let* (_, m) := LoRaMacChannelAdd 8 868800000 (DR_RANGE 7 7) m in
  let* (_, m) := LoRaMacChannelAdd 9 868300000 (DR_RANGE 6 6) m in
  Done (s <| amac := m |>).
End Start.

(** * Lemmas *)

Lemma set_net_set_net f g s : set_net g (set_net f s) = set_net (fun n => g (f n)) s.
Proof. by destruct s as [? ? [? ?]]. Qed.

Lemma insert_one (l : list Z) i v : (i < length l)%nat -> <[i := v]> l = splice l i [v].
Proof.
  intros H. unfold splice. cbn [length]. rewrite insert_take_drop by done. by replace (i + 1)%nat with (S i) by lia.
Qed.

Abbreviation app_data s := (Schc.AppData (cnet (clt s))).

Lemma copy_rx_spec buf n : forall i s, bytes buf -> 0 <= i -> i + Z.of_nat n <= zlen buf -> i + Z.of_nat n <= zlen (app_data s) ->
  copy_rx n buf i 0 s = Done (set_net (fun m => m <| Schc.AppData := splice (app_data s) (Z.to_nat i) (take n (drop (Z.to_nat i) buf)) |>) s).
Proof.
  induction n as [|n IH]; intros i s Hb Hi H1 H2; cbn [copy_rx].
  - rewrite take_0. unfold splice. cbn [length Datatypes.app]. rewrite Nat.add_0_r, take_drop. by destruct s as [? ? [? []]].
  - destruct (rd_ok buf i) as (v & E & Hv); [lia|]. rewrite E. cbn [rbind]. unfold put_data.
    assert (Hv8 : is_u8 v) by (eapply Forall_lookup_1; [exact Hb|exact Hv]). rewrite Z.add_0_r, u8_id, wr_ok by (done || lia). cbn [rbind].
    rewrite insert_one by lia. set (s1 := set_net _ s). assert (Ea : app_data s1 = splice (app_data s) (Z.to_nat i) [v]) by done.
    rewrite IH; try done; try lia; [|rewrite Ea, splice_length; cbn [length]; lia]. unfold s1. rewrite set_net_set_net. fold s1. rewrite Ea.
    replace (Z.to_nat (i + 1)) with (Z.to_nat i + length [v])%nat by (cbn [length]; lia).
    rewrite splice_splice by (cbn [length]; rewrite length_take, length_drop; lia). cbn [length]. rewrite Nat.add_1_r.
    rewrite (drop_S buf v (Z.to_nat i)) by done. done.
Qed.

Lemma copy_rx_overflow buf n : forall i s, bytes buf -> 0 <= i <= zlen (app_data s) -> i + Z.of_nat n <= zlen buf -> zlen (app_data s) < i + Z.of_nat n ->
  copy_rx n buf i 0 s = Undef.
Proof.
  induction n as [|n IH]; intros i s Hb Hi H1 H2; cbn [copy_rx]; [lia|].
  destruct (rd_ok buf i) as (v & E & Hv); [lia|]. rewrite E. cbn [rbind]. unfold put_data, wr.
  destruct (Z.ltb_spec i (zlen (app_data s))) as [Hlt|Hge]; [|by rewrite andb_false_r].
  rewrite (proj2 (Z.leb_le 0 i)) by lia. cbn [andb rbind]. apply IH; [done| |lia|]; cbn; rewrite length_insert; lia.
Qed.

(** ** The status of a request *)

Lemma ret_status_not_5 st : ret_status st <> 5.
Proof. by destruct st. Qed.

(** [SendFrame] never asks to be called again: no request returns 5. *)
Lemma send_frame_never_again {RD : RadioDriver} {FS : FrameSecurity} s b s' : SendFrame s = Done (b, s') -> b = false.
Proof.
  unfold SendFrame. intros H. apply rbind_inv in H as ([[st m] a] & E & H).
  assert (Hst : st <> 5).
  { destruct (IsTxConfirmed s); unfold LoRaMacSendConfirmedFrame, LoRaMacSendFrame in E; apply rbind_inv in E as ([st0 m0] & _ & E);
      injection E as <- _ _; apply ret_status_not_5. }
  destruct (st =? 3); [apply rbind_inv in H as ([[? ?] ?] & _ & H); by injection H as <- _|].
  destruct (Z.eqb_spec st 5); [done|]. by injection H as <- _.
Qed.

(** * Properties *)

(** The four bytes that start the compliance test. *)
Definition test_command : list Z := [1; 1; 1; 1].

Section Reception.
Context {RD : RadioDriver} {FS : FrameSecurity}.
Context (ip6_input : option Z -> Schc.net -> run (Pbuf.err_t * Schc.net)) (j1 j2 : nat -> Z).
Hypothesis ip6_input_ok : forall q n, exists n', ip6_input q n = Done (Pbuf.ERR_OK, n').

(** The network interface when the frame is in [AppData]. *)
Definition frame_stored (frame : list Z) (n : Schc.net) : Schc.net :=
  n <| Schc.AppDataSize := zlen frame |> <| Schc.AppData := splice (Schc.AppData n) 0 frame |>.

Lemma not_test_command info buf frame : RxBuffer info = Some buf -> RxBufferSize info = zlen frame -> starts buf frame -> zlen frame <= zlen buf ->
  frame <> test_command -> is_test_command info = Done false.
Proof.
  intros Hb Hs Hst Hl Hne. unfold is_test_command. rewrite Hs. destruct (Z.eqb_spec (zlen frame) 4) as [H4|]; [|done]. cbn [negb]. rewrite Hb.
  explode frame. unfold byte_is. rewrite <- (take_drop 4 buf). unfold starts in Hst. cbn [length] in Hst. rewrite Hst. cbn [Datatypes.app].
  change (rd (z :: z0 :: z1 :: z2 :: drop 4 buf) 0) with (Done z). change (rd (z :: z0 :: z1 :: z2 :: drop 4 buf) 1) with (Done z0).
  change (rd (z :: z0 :: z1 :: z2 :: drop 4 buf) 2) with (Done z1). change (rd (z :: z0 :: z1 :: z2 :: drop 4 buf) 3) with (Done z2). cbn [rbind].
  destruct (Z.eqb_spec z 1) as [->|]; [|done]. destruct (Z.eqb_spec z0 1) as [->|]; [|done].
  destruct (Z.eqb_spec z1 1) as [->|]; [|done]. destruct (Z.eqb_spec z2 1) as [->|]; [|done]. done.
Qed.

End Reception.

Definition demo_app : app :=
  mkApp demo_mac (mkApi event_flags_zero event_info_zero []) (mkClient (Coap.mkPdu 5000 (replicate 64 0) 0 64) (Schc.demo_net [] (replicate 240 0) 240))
    true 10 false 0 false false false false false false false (mkCompliance false 0 0 false 0 0) [].
Definition demo_info : LoRaMacEventInfo_t :=
  event_info_zero <| RxPort := 10 |> <| RxBuffer := Some ([2; 7; 8; 9] ++ replicate 251 0) |> <| RxBufferSize := 4 |>.


End App.
